(* ===== verification/_CoqProject ===== *)
-Q . S2P
Prelude.v
Json.v
Text.v
Ip.v
Dialect.v
Codec.v
Sha256.v
RefusalCatalog.v
RefusalProtocol.v
RefusalProtocolProps.v
Refusals.v
Registry.v
Document.v
Asn.v
Identity.v
IdentityProps.v
Store.v
Generation.v
Admission.v
Claim.v
GenerationInv.v
Moves.v
Lifecycle.v
Revisions.v
System.v
Scenario.v
SystemProps.v
Delivery.v
ClaimProps.v
Receipt.v
ReceiptProps.v
Removal.v
RemovalProps.v
Mirror.v
MirrorProps.v
PushScenario.v
Plan.v
RouteSettle.v
StaticPlan.v
StaticPlanProps.v
InterfaceProof.v
PromotionContext.v
Chain.v
ChainShape.v
ChainScenario.v
WireJson.v
VaultRef.v
Failover.v
FailoverProps.v
FailoverSpec.v
FailoverIngest.v
FailoverScenario.v
Hydrate.v
Origins.v
Encode.v
EncodeRouting.v
EncodePolicy.v
DeviceBody.v
OriginProps.v
EncodeProps.v
SectionProps.v
Attribution.v
BodyProps.v
OriginScenario.v
Sender.v
SenderProps.v
Evidence.v
Bookkeeping.v
BookkeepingProps.v
Attempt.v
AttemptProps.v
History.v
Execution.v
ExecutionProps.v
ExecutionScenario.v
RouteIngest.v
RouteIngestProps.v
RouteScenario.v
Cutover.v
