(* ===== verification/Prelude.v ===== *)
(** * nso-adapter: a verification development

    nso-adapter sits between a source of network intent (NetBox) and Cisco NSO.  Intent endpoints
    store declared rows per device and stream; an accepted write is promoted into an immutable
    deployment generation; a job carries generations; a worker that holds the device's claim
    hydrates the stored document, encodes it as one RESTCONF body, sends it to NSO, and records
    what NSO answered; the outcome settles the generations, stamps the streams' applied revisions
    and gives every row it sent an outcome.  NSO packages answer refused writes with a canonical
    refusal message that the adapter must recognise and attribute to the rows that caused it.
    This library models that path, from the push to the settled outcome, and proves what makes it
    correct.

    ** Parts, files and sources (under src/nso_adapter/)

    Foundations
    - [Prelude]: Python strings, exceptions as values ([res]), store transactions ([txn]), ordered
      dictionaries, stable sort, reachability, tactics and hint databases.
    - [Json], [Codec], [Sha256], [Text], [Ip]: the library behaviour the code relies on - json.loads
      with its hooks and json.dumps, UTF-8 with surrogateescape and json.detect_encoding, SHA-256,
      the str methods, and the ipaddress parser.

    Refusals
    - [RefusalCatalog], [RefusalProtocol], [RefusalProtocolProps]: nso/refusal_protocol.py.  The shipped
      definition text is data; [build_definition] is its validator; [refusal], [render_refusals],
      [parse_refusals], [canonical_identity], [row_log_source], [maximum_message_bytes] are its
      functions of the same names.
    - [Refusals]: nso/refusals.py, [classify_error] from the response bytes to the verdict.

    Rows, identities, documents
    - [Registry]: core/projection.py's section registry, stream ownership and startup validation,
      core/intent_protocol.py and core/families.py.
    - [Asn], [Dialect]: domain/asn.py and core/community_dialect.py, the whole modules.
    - [Identity], [IdentityProps]: durable row identities, their indexes and the live rows of a stream
      (core/projection.py).
    - [InterfaceProof]: the frozen fragment of a stream and the proof an
      interface section executes with (core/projection.py).
    - [Document]: execution metadata and composition of authorized fragments into a deployment
      document (core/projection.py [compose_section_execution], core/generation.py
      [_compose_document], core/static_route_plan.py [validate_removal_authority]).

    The deployment core
    - [Store]: the rows of store/models.py the core reads and writes and the database [Db] as one
      value; a table is a finite map, a sequence a counter, func.now() the field [clock].
    - [Generation]: core/generation.py - revisions, cohorts, creation, carriers, the success
      barrier, settlement, retry, reconcile, advancement, recovery - and the job constructors of
      core/jobs.py.
    - [Admission]: the transactions in front of it: [enqueue_apply], the tail of [enqueue_removal],
      [reissue_removal_job], the Apply companion, metadata-only promotions, the prepared slot of
      core/switching_intent.py.
    - [Claim]: core/claim.py (claims, the terminal writer, requeue and supersession, the reaper),
      store/device_settle.py and the worker's start transaction of core/worker.py with the checks
      of an inspected release.
    - [GenerationInv], [Moves], [Lifecycle], [Revisions]: the invariant, the elementary
      transitions, and every operation as a sequence of them.
    - [System]: committed transactions in any order as a step relation; a transaction that raises
      rolls back and is no step.  [Scenario] is a concrete run used by the witnesses.
    - [SystemProps], [Delivery], [ClaimProps]: the properties.
    - [Cutover]: core/cutover.py, the whole module; the one transaction that lowers revisions.  It runs
      with the workers stopped, is not a step of [System], and has its own theorem.

    Pushes and removals
    - [Receipt], [ReceiptProps]: core/receipt.py and api/intent_push.py, the admission and replay of
      keyed pushes around an arbitrary endpoint; the class [IntentWork] is what an endpoint promises.
    - [Mirror], [MirrorProps]: the five full-replace endpoints api/svi.py, bfd.py, interface_mtu.py,
      subinterface.py and l2_service.py; each is an instance of [IntentWork].
    - [Removal], [RemovalProps]: core/removal.py, cleared leaves, pending clears and
      [enqueue_removal] with [replace_on_removal].  [PushScenario] evaluates all three.
    - [RouteIngest], [RouteIngestProps], [RouteScenario]: core/static_route_ingestion.py and
      core/deleted_routes.py, the static-route push as another [IntentWork].

    Planning an Apply
    - [Plan], [RouteSettle]: what a promotion removes, replaces and adds, and the
      streams that settle without a deployment (core/generation.py).
    - [StaticPlan], [StaticPlanProps]: core/static_route_plan.py, the whole module.
    - [PromotionContext], [Chain], [ChainShape], [ChainScenario]: the removal context of
      a promoted stream and the chain that [create_action_apply] and [create_automatic_apply] store.

    Executing a document
    - [Hydrate]: the intent models' columns and [hydrate_section].
    - [Origins]: nso/origins.py and the execution context of a run.
    - [Encode], [EncodeRouting], [EncodePolicy]: the sixteen section encoders of nso/apply.py.
    - [DeviceBody]: the body of a PUT (core/apply.py [build_device_containers], [select_frozen_apply])
      and the certified static-route reader (core/static_route_reader.py).
    - [OriginProps], [EncodeProps], [SectionProps], [Attribution], [BodyProps],
      [OriginScenario]: a program logic for encoders and what it proves of bodies and origins.
    - [WireJson]: nso/nso_json.py, the text of the body.
    - [Sender], [SenderProps]: [apply_device_intent] of nso/apply.py with its dry
      runs, verification, checkpoints and sanitized errors; core/capability.py's allowlist.

    What an execution leaves behind
    - [Evidence]: store/execution_evidence.py.
    - [Bookkeeping], [BookkeepingProps]: store/execution_bookkeeping.py.
    - [Attempt], [AttemptProps]: store/execution_attempt_store.py.
    - [History]: store/execution_history.py.
    - [Execution], [ExecutionProps], [ExecutionScenario]: core/execution.py and the machine of all of
      these together with the core ([ev_step]).

    Beside the path
    - [Failover], [FailoverProps], [FailoverSpec], [FailoverIngest], [FailoverScenario]:
      core/failover.py and the failover jobs of core/scheduler.py.
    - [VaultRef]: secrets/refs.py.

    ** What the theorems show

    - Chain safety ([SystemProps]): the success barrier and exclusivity of running generations, dense
      unique sequence numbers, one contiguous block per live job, immutability and the status life
      cycle of generations, finality of terminal jobs, digests that always verify, and that an
      inspected release runs exactly the inspected document.
    - Progress ([SystemProps]): a pending head always gets an admissible queued carrier, a worker
      holding the claim starts the first admissible job, retry and reconcile work on the blocked
      head and refuse everything else.
    - Revisions ([Delivery]): as long as no cutover has retired authority,
      0 <= applied <= authorized <= desired, monotone over every run; applied advances only for
      delivered state, cohort by cohort.
    - Cutover ([Cutover]): refused exactly while something could still execute or would be lost;
      otherwise it retires authority and keeps everything else, and repeating it changes nothing.
    - Claims and jobs ([ClaimProps]): fencing and exclusion of claims, the terminal compare-and-set
      with its settle sequence, coalescing admission under the partial unique index.
    - Refusals ([RefusalProtocolProps], [Refusals]): render and parse are mutually inverse, the
      longest message is within the declared bound, identities are injective, secrets stay out of
      log sources; classification is total, sound, complete for canonical refusals and never
      downgrades a claim.
    - Documents ([Document], [IdentityProps], [Asn], [Dialect]): composition holds exactly the owned fragments; identities do not depend on
      primary keys; AS numbers and communities parse to what they denote and are written back alike.
    - Pushes ([ReceiptProps], [MirrorProps], [RemovalProps]): a push refines an abstract ledger and is
      performed at most once; a full-replace endpoint leaves exactly the body's rows; no cleared leaf
      is forgotten.
    - Static-route pushes ([RouteIngestProps]): deletions are partitioned exactly and independently of
      their order, the device's routes are the body's, only routes NetBox deleted are retracted from
      the device, and a backfill pass opens the fence and does nothing else.
    - Applies ([Plan], [RouteSettle], [StaticPlanProps], [ChainShape]): every removed
      row is planned once, a lane settled without a deployment renders alike, plans survive storage,
      removal authority is exact, every selected stream is answered, and a chain is one block of the
      core's elementary transitions.
    - Bodies ([BodyProps], [Attribution], [WireJson]): every section a document carries is sent or
      reported; an Apply, a removal and a preview alike send the live routes the device must keep, a
      flush none; entries are bound to the rows they render, membership is the bound rows of the
      carried streams, refusals are attributed exactly, and the text of a body never crosses NSO's lexer boundary, reads back, and
      is produced by scanners that terminate.
    - Sends ([SenderProps]): a conclusive verdict proves delivery, an error says whether the commit was
      acknowledged and quotes only the allowlist, a dry run commits nothing.
    - Evidence ([Evidence], [BookkeepingProps], [AttemptProps], [History], [ExecutionProps]):
      stored evidence attributes as the original would, preparation is undone exactly, stamps keep to
      the intent that was sent, the settlement follows NSO's answer and gives each row one outcome,
      history only fills gaps, a removal an attempt names goes out again only after a rejection,
      evidence is append-only (a deleted job leaves its attempts with a null job id),
      and the whole machine refines the deployment core.
    - Failover ([FailoverProps], [FailoverSpec], [FailoverIngest]): bounded disturbance, the stored role
      follows NSO, the counters refine a sliding window, reports converge.

    ** Parameters

    NSO is an oracle everywhere: its answer to the instance read of [DeviceBody], to each request of
    [Sender] given the requests before it, and to every call of [Failover] (faults included).  The
    deployment core is generic in [freeze], [prune_apply_plan], [static_route_operation] and
    [unprepared_evidence]; [Chain] instantiates the first three with the modelled code and [Execution]
    defines the last.  An endpoint behind [Receipt] is any [IntentWork], and [Mirror] gives five.  The
    checkpoint callback of [Sender] is any function; [AttemptProps] instantiates it with the attempt's
    recorder.  [prepared] of [Chain] stands for the prepared columns of the stream rows.  Fresh claim
    tokens, rows locked by a rival ([skip_locked], nowait) and the result of the attempt lookup in
    [Claim] are arguments.

    ** Bounds and fuel

    Loops over lists are structural.  [admit_loop] has the source's three retries; the first one
    answers.  The JSON reader is structural on its input with the interpreter's recursion limit as
    an explicit depth.  Fuel is always a size, proved or bound to be enough: the claim walk of
    [Refusals] has the nodes of its document, the scanners of [WireJson] the length of the text, the
    instance builder of [Hydrate] the number of tables of the section, the row tree of [Bookkeeping]
    the number of specifications.  Integers are unbounded, as in Python; database columns are taken
    wide enough.  A timestamp is its ISO text, or an integer where it is compared.

    ** What modelling showed

    [RouteSettle.takeover_settles_silently]: a deleted route whose key is reclaimed by another settles as
    already applied.  [Dialect.superscript_colour_raises] and [Dialect.large_regex_head_not_restored]:
    two community members that raise or lose their keyword.  [PushScenario.repeated_key_depends_on_store]:
    a body that repeats a key is accepted or not by what the table holds.

    ** Not modelled

    Device deletion (offboarding), which also deletes a device's evidence, and provisioning jobs, which
    change a job's device, are outside the step relation.  Interleavings inside one transaction are excluded by the row locks the code
    takes; the model lets whole transactions commit in any order.  Not modelled because they mostly
    exchange data with a service: RESTCONF and NetBox clients, importers and observations, onboarding,
    the API's routing and serialisation, timers, the secret stores, migrations.  Not modelled
    though they hold logic of their own: the reclaim of static routes, the intent endpoints with nested
    rows, the live guards of a removal's execution, and the stamping of route
    results and previews in core/apply.py. *)

From stdpp Require Import base gmap list strings sorting.
From Stdlib Require Import ZArith NArith Lia Strings.Byte.

(** ** Python strings

    A Python [str] is a sequence of Unicode code points.  The wrapper lets string
    literals denote code-point lists directly (ASCII literals only). *)

Inductive pystr := PStr (chars : list N).

Definition pystr_of_bytes (bs : list byte) : option pystr :=
  if forallb (fun b => N.ltb (Byte.to_N b) 128) bs
  then Some (PStr (map Byte.to_N bs)) else None.

Definition bytes_of_pystr (s : pystr) : option (list byte) :=
  match s with
  | PStr l => mapM (fun n => if N.ltb n 128 then Byte.of_N n else None) l
  end.

Declare Scope py_scope.
Delimit Scope py_scope with py.
Bind Scope py_scope with pystr.
String Notation pystr pystr_of_bytes bytes_of_pystr : py_scope.

Definition py_chars (s : pystr) : list N := match s with PStr l => l end.

#[global] Instance pystr_eq_dec : EqDecision pystr.
Proof. solve_decision. Defined.

#[global] Instance pystr_countable : Countable pystr.
Proof.
  apply (inj_countable' py_chars PStr). by intros [].
Defined.

#[global] Instance pystr_inhabited : Inhabited pystr := populate (PStr []).

(** [a + b] *)
Definition py_app (a b : pystr) : pystr := PStr (py_chars a ++ py_chars b).
Notation "a +:+ b" := (py_app a b) (at level 60, right associativity) : py_scope.

(** [len(s)] *)
Definition py_len (s : pystr) : nat := length (py_chars s).

(** [bool(s)] *)
Definition py_truthy (s : pystr) : bool := match py_chars s with [] => false | _ => true end.

Fixpoint chars_prefix (p s : list N) : bool :=
  match p, s with
  | [], _ => true
  | a :: p', b :: s' => N.eqb a b && chars_prefix p' s'
  | _ :: _, [] => false
  end.

(** [s.startswith(p)] *)
Definition py_startswith (p s : pystr) : bool := chars_prefix (py_chars p) (py_chars s).

Fixpoint chars_contains (p s : list N) : bool :=
  chars_prefix p s || match s with [] => false | _ :: s' => chars_contains p s' end.

(** [p in s] *)
Definition py_contains (p s : pystr) : bool := chars_contains (py_chars p) (py_chars s).

(** [s[n:]] *)
Definition py_drop (n : nat) (s : pystr) : pystr := PStr (drop n (py_chars s)).

Fixpoint chars_ltb (a b : list N) : bool :=
  match a, b with
  | [], [] => false
  | [], _ :: _ => true
  | _ :: _, [] => false
  | x :: a', y :: b' => N.ltb x y || (N.eqb x y && chars_ltb a' b')
  end.

(** [a < b] on [str]: lexicographic on code points. *)
Definition py_ltb (a b : pystr) : bool := chars_ltb (py_chars a) (py_chars b).
Definition py_leb (a b : pystr) : bool := negb (py_ltb b a).

(** ** Exceptions as values

    One constructor per exception class the modelled code raises; the arguments keep what
    a caller can branch on. *)

Inductive exc :=
| ValueError (msg : pystr)
| TypeError (msg : pystr)
| RuntimeError (msg : pystr)
| AttributeError (msg : pystr)
| KeyError
| RecursionError
| UnicodeEncodeError
| RefusalProtocolError (msg : pystr)
| DeviceProjectionGone (device_id : Z)
| GenerationModeConflict (job_id generation_id : Z)
| GenerationTampered (generation_id : Z)
| GenerationCarrierCorruption (generation_id : Z)
| GenerationNotBlocked (generation_id : Z)
| ApplyJobConflict (job_id : Z)
| OperationSectionAbsent (scope : pystr)
| CarrierGone
| ClaimLostError (device_id : Z)
| BookkeepingOutcomeUnknown (job_id : Z)
| AttemptOwnershipLost
| NsoError
| AsnRuleViolation (table field : pystr)
| BgpSourceAsRequired
| PromotionProvenanceUnexecutable (stream : pystr)
| ApplyUnexecutable (streams : list pystr)
| CancelledError
| ApiError (status : Z) (code : pystr)
| IntegrityError
| ReleaseRefused (generation_id : Z)
| PushSequenceConflict (code : pystr) (push_seq receipt_seq : Z)
| InterfaceEligibilityUnresolved
| PromotionInterfaceUnresolved
| VaultRefError (reason : pystr)
| NsoApplyError (code : pystr)
| OriginConstructionError (msg : pystr)
| JobError (code : pystr).

#[global] Instance exc_eq_dec : EqDecision exc.
Proof. solve_decision. Defined.

Inductive res (A : Type) :=
| Ok (a : A)
| Raise (e : exc).
Arguments Ok {A} a.
Arguments Raise {A} e.

#[global] Instance res_eq_dec `{EqDecision A} : EqDecision (res A).
Proof. solve_decision. Defined.

#[global] Instance res_ret : MRet res := fun A a => Ok a.
#[global] Instance res_bind : MBind res := fun A B f m =>
  match m with Ok a => f a | Raise e => Raise e end.
#[global] Instance res_fmap : FMap res := fun A B f m =>
  match m with Ok a => Ok (f a) | Raise e => Raise e end.

Definition is_ok {A} (r : res A) : bool := match r with Ok _ => true | Raise _ => false end.

(** [if not condition: raise e] *)
Definition guard_or (b : bool) (e : exc) : res unit := if b then Ok tt else Raise e.

Fixpoint map_res {A B} (f : A -> res B) (l : list A) : res (list B) :=
  match l with
  | [] => Ok []
  | x :: l' => y ← f x; ys ← map_res f l'; Ok (y :: ys)
  end.

(** ** Transactions

    A store operation runs in the caller's transaction: it returns a value and the new
    store, or raises and leaves the caller to roll back. *)

Definition txn (S A : Type) : Type := S -> res (A * S).

#[global] Instance txn_ret S : MRet (txn S) := fun A a s => Ok (a, s).
#[global] Instance txn_bind S : MBind (txn S) := fun A B f m s =>
  match m s with Ok (a, s') => f a s' | Raise e => Raise e end.

Definition get_state {S} : txn S S := fun s => Ok (s, s).
Definition gets {S A} (f : S -> A) : txn S A := fun s => Ok (f s, s).
Definition modify {S} (f : S -> S) : txn S unit := fun s => Ok (tt, f s).
Definition raise {S A} (e : exc) : txn S A := fun _ => Raise e.
Definition lift_res {S A} (r : res A) : txn S A := fun s =>
  match r with Ok a => Ok (a, s) | Raise e => Raise e end.

(** ** Dictionaries

    A Python [dict] keeps insertion order; assigning an existing key keeps its place. *)

Section Dict.
Context {K V : Type} `{EqDecision K}.
Implicit Types (d : list (K * V)) (k : K) (v : V).

Fixpoint dict_get d k : option V :=
  match d with
  | [] => None
  | (k', v) :: d' => if decide (k = k') then Some v else dict_get d' k
  end.

Fixpoint dict_set d k v : list (K * V) :=
  match d with
  | [] => [(k, v)]
  | (k', v') :: d' => if decide (k = k') then (k', v) :: d' else (k', v') :: dict_set d' k v
  end.

Definition dict_mem d k : bool := match dict_get d k with Some _ => true | None => false end.
Definition dict_keys d : list K := map fst d.

(** [d.setdefault(k, v)] as an update *)
Definition dict_setdefault d k v : list (K * V) :=
  if dict_mem d k then d else d ++ [(k, v)].

(** [dict(pairs)] *)
Definition dict_of_pairs (l : list (K * V)) : list (K * V) :=
  fold_left (fun d kv => dict_set d kv.1 kv.2) l [].

Lemma dict_get_set_eq d k v : dict_get (dict_set d k v) k = Some v.
Proof.
  induction d as [|[k' v'] d IH]; simpl; [by rewrite decide_True|].
  destruct (decide (k = k')); simpl; [by rewrite decide_True|by rewrite decide_False].
Qed.

Lemma dict_set_fresh d k v : k ∉ dict_keys d → dict_set d k v = d ++ [(k, v)].
Proof.
  unfold dict_keys. induction d as [|[k' v'] d IH]; simpl; [done|]. rewrite elem_of_cons. intros Hn.
  rewrite decide_False by naive_solver. f_equal. apply IH. naive_solver.
Qed.
Lemma dict_get_set_ne d k k' v : k' ≠ k → dict_get (dict_set d k v) k' = dict_get d k'.
Proof.
  intros Hne. induction d as [|[k0 v0] d IH]; simpl; [destruct (decide (k' = k)); congruence|].
  destruct (decide (k = k0)) as [->|]; simpl.
  - destruct (decide (k' = k0)); congruence.
  - destruct (decide (k' = k0)); congruence.
Qed.

Lemma dict_get_Some_in d k v : dict_get d k = Some v → (k, v) ∈ d.
Proof.
  induction d as [|[k' v'] d IH]; simpl; [done|].
  destruct (decide (k = k')) as [->|]; intros; simplify_eq; set_solver.
Qed.

Lemma dict_get_in_keys d k : is_Some (dict_get d k) ↔ k ∈ dict_keys d.
Proof.
  unfold dict_keys in *. induction d as [|[k' v'] d IH]; simpl.
  - split; [by intros []|set_solver].
  - rewrite elem_of_cons. destruct (decide (k = k')) as [->|]; [naive_solver|].
    rewrite IH. naive_solver.
Qed.

Lemma dict_get_NoDup d k v : NoDup (dict_keys d) → (k, v) ∈ d → dict_get d k = Some v.
Proof.
  induction d as [|[k' v'] d IH]; simpl; [set_solver|].
  intros [Hn HN]%NoDup_cons [?|Hin]%elem_of_cons; simplify_eq.
  - by rewrite decide_True.
  - rewrite decide_False; [by apply IH|].
    intros ->. apply Hn. unfold dict_keys. apply list_elem_of_fmap. by exists (k', v).
Qed.

Lemma dict_set_keys d k v :
  dict_keys (dict_set d k v) = if decide (k ∈ dict_keys d) then dict_keys d else dict_keys d ++ [k].
Proof.
  unfold dict_keys in *. induction d as [|[k' v'] d IH]; simpl; [done|].
  destruct (decide (k = k')) as [->|]; simpl.
  - rewrite decide_True by apply list_elem_of_here. done.
  - rewrite IH. destruct (decide (k ∈ map fst d)).
    + by rewrite decide_True by by apply list_elem_of_further.
    + rewrite decide_False by by rewrite elem_of_cons; naive_solver. done.
Qed.
End Dict.

(** ** Stable sorting ([sorted(l, key=...)]) *)

Section StableSort.
Context {A : Type} (le : A -> A -> bool).

Fixpoint sort_insert (x : A) (l : list A) : list A :=
  match l with
  | [] => [x]
  | y :: l' => if le x y then x :: l else y :: sort_insert x l'
  end.

Definition stable_sort (l : list A) : list A := foldr sort_insert [] l.

Lemma sort_insert_perm x l : sort_insert x l ≡ₚ x :: l.
Proof.
  induction l as [|y l IH]; simpl; [done|].
  destruct (le x y); [done|]. rewrite IH. apply Permutation_swap.
Qed.

Lemma stable_sort_perm l : stable_sort l ≡ₚ l.
Proof. induction l as [|x l IH]; simpl; [done|]. by rewrite sort_insert_perm, IH. Qed.

Lemma elem_of_stable_sort x l : x ∈ stable_sort l ↔ x ∈ l.
Proof. by rewrite stable_sort_perm. Qed.

Context (le_total : ∀ x y, le x y = false → le y x = true).

Lemma sort_insert_HdRel x y l :
  le y x = true → HdRel (fun a b => le a b = true) y l →
  HdRel (fun a b => le a b = true) y (sort_insert x l).
Proof.
  intros Hyx Hl. destruct l as [|z l]; simpl; [by constructor|].
  inversion Hl; subst. destruct (le x z); by constructor.
Qed.

Lemma sort_insert_sorted x l :
  Sorted (fun a b => le a b = true) l → Sorted (fun a b => le a b = true) (sort_insert x l).
Proof.
  induction 1 as [|y l Hl IH Hhd]; simpl; [by repeat constructor|].
  destruct (le x y) eqn:E; [by repeat constructor|].
  constructor; [done|]. apply sort_insert_HdRel; auto.
Qed.

Lemma stable_sort_sorted l : Sorted (fun a b => le a b = true) (stable_sort l).
Proof. induction l; simpl; [constructor|by apply sort_insert_sorted]. Qed.
End StableSort.

(** A list already in order is left as it is (stability). *)
Lemma stable_sort_id {A} (le : A -> A -> bool) (l : list A) :
  Sorted (fun a b => le a b = true) l → stable_sort le l = l.
Proof.
  induction 1 as [|x l Hl IH Hhd]; [done|].
  change (stable_sort le (x :: l)) with (sort_insert le x (stable_sort le l)). rewrite IH.
  destruct Hhd as [|y l' Hxy]; simpl; [done|]. by rewrite Hxy.
Qed.

Lemma forallb_Forall {A} (f : A -> bool) l : forallb f l = true ↔ Forall (fun x => f x = true) l.
Proof.
  rewrite Forall_forall, forallb_forall. setoid_rewrite list_elem_of_In. done.
Qed.

Lemma forallb_impl {A} (f g : A -> bool) l :
  (∀ x, f x = true → g x = true) → forallb f l = true → forallb g l = true.
Proof. intros Hfg. induction l as [|x l IH]; simpl; [done|]. rewrite !andb_true_iff. naive_solver. Qed.

(** ** Reachability over a step relation *)

Section Star.
Context {S : Type} (step : S -> S -> Prop).

Inductive star : S -> S -> Prop :=
| star_refl s : star s s
| star_step s1 s2 s3 : step s1 s2 -> star s2 s3 -> star s1 s3.

Lemma star_trans s1 s2 s3 : star s1 s2 → star s2 s3 → star s1 s3.
Proof. induction 1; eauto using star. Qed.

Lemma star_invariant (P : S -> Prop) :
  (∀ s s', P s → step s s' → P s') → ∀ s s', star s s' → P s → P s'.
Proof. intros Hstep. induction 1; eauto. Qed.

Lemma star_invariant2 (P : S -> Prop) (R : S -> S -> Prop) :
  (∀ s, R s s) → (∀ s1 s2 s3, R s1 s2 → R s2 s3 → R s1 s3) →
  (∀ s s', P s → step s s' → P s' ∧ R s s') →
  ∀ s s', star s s' → P s → P s' ∧ R s s'.
Proof.
  intros Hr Ht Hstep. induction 1 as [s|s1 s2 s3 H12 H23 IH]; intros HP; [by auto|].
  destruct (Hstep _ _ HP H12) as [HP2 HR2]. destruct (IH HP2). eauto.
Qed.
End Star.

(** ** Tactics and hint databases *)

Create HintDb nso.

(** Split a goal or hypothesis on every [match]/[if] that blocks a monadic computation. *)
Ltac break_res :=
  repeat match goal with
  | H : context [match ?x with Ok _ => _ | Raise _ => _ end] |- _ => destruct x eqn:?; simplify_eq/=
  | H : context [match ?x with Some _ => _ | None => _ end] |- _ => destruct x eqn:?; simplify_eq/=
  | H : context [if ?b then _ else _] |- _ => destruct b eqn:?; simplify_eq/=
  end.

(** Expose binds of the [res] monad in a hypothesis. *)
Ltac unfold_res := unfold mbind, res_bind, mret, res_ret, fmap, res_fmap, guard_or in *.
Ltac unfold_txn :=
  unfold mbind, txn_bind, mret, txn_ret, get_state, gets, modify, raise, lift_res in *.

(** Prove a closed decidable proposition by evaluating its decision procedure. *)
Ltac decide_vm := apply (bool_decide_unpack _); vm_compute; exact I.

Lemma bind_Ok {A B} (m : res A) (f : A -> res B) b :
  (m ≫= f) = Ok b ↔ ∃ a, m = Ok a ∧ f a = Ok b.
Proof. destruct m; simpl; unfold_res; naive_solver. Qed.

Lemma txn_bind_Ok {S A B} (m : txn S A) (f : A -> txn S B) s b s' :
  (m ≫= f) s = Ok (b, s') ↔ ∃ a s1, m s = Ok (a, s1) ∧ f a s1 = Ok (b, s').
Proof. unfold_txn. destruct (m s) as [[a s1]|e]; naive_solver. Qed.

Lemma guard_or_Ok b e : guard_or b e = Ok tt ↔ b = true.
Proof. unfold guard_or. destruct b; naive_solver. Qed.

Lemma map_res_Ok {A B} (f : A -> res B) l ys :
  map_res f l = Ok ys ↔ Forall2 (fun x y => f x = Ok y) l ys.
Proof.
  revert ys. induction l as [|x l IH]; intros ys; simpl.
  - split; [intros; simplify_eq; constructor|inversion 1; done].
  - rewrite bind_Ok. split.
    + intros (y & Hy & H). apply bind_Ok in H as (ys' & Hys & ?). simplify_eq/=.
      constructor; [done|by apply IH].
    + inversion 1 as [|? y ? ys' Hy Hys]; subst. exists y; split; [done|].
      apply bind_Ok. exists ys'. split; [by apply IH|done].
Qed.

Create Rewrite HintDb nso_inv.
#[export] Hint Rewrite @bind_Ok @txn_bind_Ok guard_or_Ok : nso_inv.
