(* ===== verification/Json.v ===== *)
(** * JSON values, [json.dumps] and [json.loads]

    The Python [json] module as the adapter uses it: compact or spaced rendering with
    [ensure_ascii], optional [sort_keys], and strict decoding with an
    [object_pairs_hook].  Round-trip and length lemmas at the end. *)

From stdpp Require Import base gmap list strings sorting.
From Stdlib Require Import ZArith NArith Lia DecimalN.
From S2P Require Import Prelude.
Local Open Scope py_scope.

(** A decoded value.  [JObj] keeps every member in order (a [dict] when the names are
    distinct).  A float is kept as the text of its literal: no modelled code computes
    with one. *)
Inductive json :=
| JNull
| JBool (b : bool)
| JInt (z : Z)
| JFloat (lit : pystr)
| JStr (s : pystr)
| JArr (items : list json)
| JObj (members : list (pystr * json)).

(** The nested occurrences need a hand-written induction principle. *)
Section JsonInd.
Context (P : json -> Prop).
Context (HNull : P JNull) (HBool : ∀ b, P (JBool b)) (HInt : ∀ z, P (JInt z)).
Context (HFloat : ∀ s, P (JFloat s)) (HStr : ∀ s, P (JStr s)).
Context (HArr : ∀ l, Forall P l → P (JArr l)).
Context (HObj : ∀ l, Forall (fun kv => P kv.2) l → P (JObj l)).

Fixpoint json_ind' (v : json) : P v :=
  match v with
  | JNull => HNull
  | JBool b => HBool b
  | JInt z => HInt z
  | JFloat s => HFloat s
  | JStr s => HStr s
  | JArr l =>
      HArr l ((fix go l : Forall P l :=
                 match l with
                 | [] => Forall_nil_2 _
                 | x :: l' => Forall_cons_2 _ _ _ (json_ind' x) (go l')
                 end) l)
  | JObj l =>
      HObj l ((fix go l : Forall (fun kv => P kv.2) l :=
                 match l with
                 | [] => Forall_nil_2 _
                 | kv :: l' => Forall_cons_2 _ _ _ (json_ind' kv.2) (go l')
                 end) l)
  end.
End JsonInd.

#[global] Instance json_eq_dec : EqDecision json.
Proof.
  refine (fix go (v w : json) : Decision (v = w) :=
    match v, w with
    | JNull, JNull => left eq_refl
    | JBool b, JBool c => cast_if (decide (b = c))
    | JInt b, JInt c => cast_if (decide (b = c))
    | JFloat b, JFloat c => cast_if (decide (b = c))
    | JStr b, JStr c => cast_if (decide (b = c))
    | JArr l, JArr k => cast_if (@list_eq_dec _ go l k)
    | JObj l, JObj k => cast_if (@list_eq_dec _ (@prod_eq_dec _ _ _ go) l k)
    | _, _ => right _
    end); clear go; abstract congruence.
Defined.

(** ** Rendering *)

Definition ch (s : pystr) : N := default 0%N (head (py_chars s)).

Definition hex_digit (n : N) : N := if N.ltb n 10 then (48 + n)%N else (87 + n)%N.

Definition hex4 (n : N) : list N :=
  [hex_digit (n / 4096 mod 16); hex_digit (n / 256 mod 16);
   hex_digit (n / 16 mod 16); hex_digit (n mod 16)]%N.

(** [json.encoder.encode_basestring_ascii] on one code point. *)
Definition escape_char (c : N) : list N :=
  if N.eqb c 34 then [92; 34]%N
  else if N.eqb c 92 then [92; 92]%N
  else if N.eqb c 10 then [92; 110]%N
  else if N.eqb c 13 then [92; 114]%N
  else if N.eqb c 9 then [92; 116]%N
  else if N.eqb c 12 then [92; 102]%N
  else if N.eqb c 8 then [92; 98]%N
  else if (32 <=? c)%N && (c <=? 126)%N then [c]
  else if N.ltb c 65536 then [92; 117]%N ++ hex4 c
  else
    let c' := (c - 65536)%N in
    [92; 117]%N ++ hex4 (55296 + c' / 1024 mod 1024)%N ++
    [92; 117]%N ++ hex4 (56320 + c' mod 1024)%N.

Definition dump_str (s : pystr) : list N := [34%N] ++ flat_map escape_char (py_chars s) ++ [34%N].

Fixpoint uint_chars (d : Decimal.uint) : list N :=
  match d with
  | Decimal.Nil => []
  | Decimal.D0 d => 48%N :: uint_chars d
  | Decimal.D1 d => 49%N :: uint_chars d
  | Decimal.D2 d => 50%N :: uint_chars d
  | Decimal.D3 d => 51%N :: uint_chars d
  | Decimal.D4 d => 52%N :: uint_chars d
  | Decimal.D5 d => 53%N :: uint_chars d
  | Decimal.D6 d => 54%N :: uint_chars d
  | Decimal.D7 d => 55%N :: uint_chars d
  | Decimal.D8 d => 56%N :: uint_chars d
  | Decimal.D9 d => 57%N :: uint_chars d
  end.

(** [str(n)] on an [int] *)
Definition dump_int (z : Z) : list N :=
  (if Z.ltb z 0 then [45%N] else []) ++ uint_chars (N.to_uint (Z.abs_N z)).

Definition py_str_int (z : Z) : pystr := PStr (dump_int z).

Fixpoint join_chars (sep : list N) (ls : list (list N)) : list N :=
  match ls with
  | [] => []
  | [l] => l
  | l :: ls' => l ++ sep ++ join_chars sep ls'
  end.

(** The keyword arguments of [json.dumps] the adapter varies. *)
Record dump_options := DumpOptions { item_sep : list N; key_sep : list N; sort_keys : bool }.

(** [separators=(",", ":")] *)
Definition compact : dump_options := DumpOptions [44%N] [58%N] false.
(** [sort_keys=True, separators=(",", ":")] *)
Definition compact_sorted : dump_options := DumpOptions [44%N] [58%N] true.
(** [sort_keys=True] with the default separators *)
Definition spaced_sorted : dump_options := DumpOptions [44; 32]%N [58; 32]%N true.

Definition key_le {V} (a b : pystr * V) : bool := py_leb a.1 b.1.

Fixpoint dump_chars (o : dump_options) (v : json) : list N :=
  match v with
  | JNull => py_chars "null"
  | JBool true => py_chars "true"
  | JBool false => py_chars "false"
  | JInt z => dump_int z
  | JFloat lit => py_chars lit
  | JStr s => dump_str s
  | JArr l => [91%N] ++ join_chars (item_sep o) (map (dump_chars o) l) ++ [93%N]
  | JObj l =>
      let rendered := map (fun kv => (kv.1, dump_str kv.1 ++ key_sep o ++ dump_chars o kv.2)) l in
      let rendered := if sort_keys o then stable_sort key_le rendered else rendered in
      [123%N] ++ join_chars (item_sep o) (map snd rendered) ++ [125%N]
  end.

Definition dumps (o : dump_options) (v : json) : pystr := PStr (dump_chars o v).

(** ** Decoding *)

Definition is_ws (c : N) : bool := N.eqb c 32 || N.eqb c 9 || N.eqb c 10 || N.eqb c 13.

Fixpoint skip_ws (s : list N) : list N :=
  match s with
  | c :: s' => if is_ws c then skip_ws s' else s
  | [] => []
  end.

Definition hex_value (c : N) : option N :=
  if (48 <=? c)%N && (c <=? 57)%N then Some (c - 48)%N
  else if (97 <=? c)%N && (c <=? 102)%N then Some (c - 87)%N
  else if (65 <=? c)%N && (c <=? 70)%N then Some (c - 55)%N
  else None.

(** The four hexadecimal digits of a [\uXXXX] escape. *)
Definition scan_hex4 (s : list N) : option (N * list N) :=
  match s with
  | a :: b :: c :: d :: s' =>
      a ← hex_value a; b ← hex_value b; c ← hex_value c; d ← hex_value d;
      Some (((a * 16 + b) * 16 + c) * 16 + d, s')%N
  | _ => None
  end.

(** A [\u] escape after its [u]: a high surrogate joins the low surrogate escape that follows it. *)
Definition scan_unicode (s : list N) : option (N * list N) :=
  '(u, s1) ← scan_hex4 s;
  if (55296 <=? u)%N && (u <=? 56319)%N then
    match s1 with
    | c1 :: c2 :: s2 =>
        if N.eqb c1 92 && N.eqb c2 117 then
          '(u2, s3) ← scan_hex4 s2;
          if (56320 <=? u2)%N && (u2 <=? 57343)%N
          then Some (65536 + (u - 55296) * 1024 + (u2 - 56320), s3)%N
          else Some (u, s1)
        else Some (u, s1)
    | _ => Some (u, s1)
    end
  else Some (u, s1).

Definition simple_escape (c : N) : option N :=
  if N.eqb c 34 then Some 34%N
  else if N.eqb c 92 then Some 92%N
  else if N.eqb c 47 then Some 47%N
  else if N.eqb c 98 then Some 8%N
  else if N.eqb c 102 then Some 12%N
  else if N.eqb c 110 then Some 10%N
  else if N.eqb c 114 then Some 13%N
  else if N.eqb c 116 then Some 9%N
  else None.

(** [scanstring] after the opening quote, in strict mode.  The fuel bounds the number of
    characters read. *)
Fixpoint scan_string (fuel : nat) (s : list N) (acc : list N) : option (list N * list N) :=
  match fuel with
  | O => None
  | S fuel =>
      match s with
      | [] => None
      | c :: s1 =>
          if N.eqb c 34 then Some (rev acc, s1)
          else if N.eqb c 92 then
            match s1 with
            | [] => None
            | e :: s2 =>
                if N.eqb e 117 then
                  '(u, s3) ← scan_unicode s2; scan_string fuel s3 (u :: acc)
                else
                  u ← simple_escape e; scan_string fuel s2 (u :: acc)
            end
          else if N.ltb c 32 then None
          else scan_string fuel s1 (c :: acc)
      end
  end.

Definition is_digit_char (c : N) : bool := (48 <=? c)%N && (c <=? 57)%N.

Fixpoint span_digits (s : list N) : list N * list N :=
  match s with
  | c :: s' => if is_digit_char c then let '(d, r) := span_digits s' in (c :: d, r) else ([], s)
  | [] => ([], [])
  end.

Definition digit_cons (c : N) (d : Decimal.uint) : Decimal.uint :=
  match (c - 48)%N with
  | 0 => Decimal.D0 d | 1 => Decimal.D1 d | 2 => Decimal.D2 d | 3 => Decimal.D3 d
  | 4 => Decimal.D4 d | 5 => Decimal.D5 d | 6 => Decimal.D6 d | 7 => Decimal.D7 d
  | 8 => Decimal.D8 d | _ => Decimal.D9 d
  end%N.

Definition digits_value (l : list N) : N := N.of_uint (foldr digit_cons Decimal.Nil l).

(** The integer digits of a number: [0] or a nonzero digit and more digits. *)
Definition scan_intpart (s : list N) : option (list N * list N) :=
  match s with
  | c :: s' =>
      if N.eqb c 48 then Some ([c], s')
      else if is_digit_char c then Some (span_digits s) else None
  | [] => None
  end.

Definition scan_frac (s : list N) : list N * list N :=
  match s with
  | c :: s' =>
      if N.eqb c 46 then
        match span_digits s' with
        | ([], _) => ([], s)
        | (d, r) => (c :: d, r)
        end
      else ([], s)
  | [] => ([], [])
  end.

Definition scan_exp (s : list N) : list N * list N :=
  match s with
  | c :: s' =>
      if N.eqb c 101 || N.eqb c 69 then
        let '(sign, s2) :=
          match s' with
          | g :: s'' => if N.eqb g 43 || N.eqb g 45 then ([g], s'') else ([], s')
          | [] => ([], [])
          end in
        match span_digits s2 with
        | ([], _) => ([], s)
        | (d, r) => (c :: sign ++ d, r)
        end
      else ([], s)
  | [] => ([], [])
  end.

(** [int(digits)] refuses more than 4300 digits ([sys.get_int_max_str_digits]). *)
Definition int_max_str_digits : nat := 4300.

(** The number regular expression of the scanner: integer part, then optional fraction and exponent. *)
Definition scan_number (s : list N) : option (json * list N) :=
  let '(sign, s1) := match s with
                     | c :: s' => if N.eqb c 45 then ([c], s') else ([], s)
                     | [] => ([], s)
                     end in
  '(digits, s2) ← scan_intpart s1;
  let '(frac, s3) := scan_frac s2 in
  let '(expo, s4) := scan_exp s3 in
  match frac, expo with
  | [], [] =>
      if Nat.leb (length digits) int_max_str_digits then
        let n := Z.of_N (digits_value digits) in
        Some (JInt (match sign with [] => n | _ => - n end)%Z, s4)
      else None
  | _, _ => Some (JFloat (PStr (sign ++ digits ++ frac ++ expo)), s4)
  end.

(** [NaN], [Infinity] and [-Infinity], which the scanner hands to [parse_constant]. *)
Definition starts_constant (s : list N) : bool :=
  chars_prefix (py_chars "NaN") s || chars_prefix (py_chars "Infinity") s ||
  chars_prefix (py_chars "-Infinity") s.

(** What a scan can end with: a value, the exception it raises, or no fuel left (ruled out
    for the fuel [loads] passes by [loads_fuel_enough]). *)
Inductive scanned (A : Type) := Scanned (a : A) | ScanRaise (e : exc) | NoFuel.
Arguments Scanned {A} a.
Arguments ScanRaise {A} e.
Arguments NoFuel {A}.

#[global] Instance scanned_bind : MBind scanned := fun A B f m =>
  match m with Scanned a => f a | ScanRaise e => ScanRaise e | NoFuel => NoFuel end.

Definition JSONDecodeError : exc := ValueError "invalid JSON document".

Definition of_option {A} (o : option A) : scanned A :=
  match o with Some a => Scanned a | None => ScanRaise JSONDecodeError end.
Definition of_res {A} (r : res A) : scanned A :=
  match r with Ok a => Scanned a | Raise e => ScanRaise e end.

Section Scan.
(** [object_pairs_hook] on the members of a finished object *)
Context (hook : list (pystr * json) -> res json).
(** what [parse_constant] raises *)
Context (constant_error : exc).

(** [scan_once] and its array and object loops.  [depth] is what the interpreter's
    recursion limit leaves for nested arrays and objects. *)
Fixpoint scan_once (fuel depth : nat) (s : list N) {struct fuel} : scanned (json * list N) :=
  match fuel with
  | O => NoFuel
  | S fuel =>
      match s with
      | [] => ScanRaise JSONDecodeError
      | c :: s1 =>
          if N.eqb c 34 then
            '(str, r) ← of_option (scan_string (S (length s1)) s1 []);
            Scanned (JStr (PStr str), r)
          else if N.eqb c 91 then
            match depth with
            | O => ScanRaise RecursionError
            | S depth =>
                match skip_ws s1 with
                | c' :: r =>
                    if N.eqb c' 93 then Scanned (JArr [], r)
                    else scan_items fuel depth (c' :: r) []
                | [] => ScanRaise JSONDecodeError
                end
            end
          else if N.eqb c 123 then
            match depth with
            | O => ScanRaise RecursionError
            | S depth =>
                match skip_ws s1 with
                | c' :: r =>
                    if N.eqb c' 125 then v ← of_res (hook []); Scanned (v, r)
                    else scan_members fuel depth (c' :: r) []
                | [] => ScanRaise JSONDecodeError
                end
            end
          else if chars_prefix (py_chars "null") s then Scanned (JNull, drop 4 s)
          else if chars_prefix (py_chars "true") s then Scanned (JBool true, drop 4 s)
          else if chars_prefix (py_chars "false") s then Scanned (JBool false, drop 5 s)
          else if starts_constant s then ScanRaise constant_error
          else of_option (scan_number s)
      end
  end
with scan_items (fuel depth : nat) (s : list N) (acc : list json) {struct fuel} :
    scanned (json * list N) :=
  match fuel with
  | O => NoFuel
  | S fuel =>
      '(v, r) ← scan_once fuel depth s;
      match skip_ws r with
      | c :: r' =>
          if N.eqb c 44 then scan_items fuel depth (skip_ws r') (v :: acc)
          else if N.eqb c 93 then Scanned (JArr (rev (v :: acc)), r')
          else ScanRaise JSONDecodeError
      | [] => ScanRaise JSONDecodeError
      end
  end
with scan_members (fuel depth : nat) (s : list N) (acc : list (pystr * json)) {struct fuel} :
    scanned (json * list N) :=
  match fuel with
  | O => NoFuel
  | S fuel =>
      match s with
      | q :: s1 =>
          if N.eqb q 34 then
            '(key, r) ← of_option (scan_string (S (length s1)) s1 []);
            match skip_ws r with
            | col :: r1 =>
                if N.eqb col 58 then
                  '(v, r2) ← scan_once fuel depth (skip_ws r1);
                  match skip_ws r2 with
                  | c :: r3 =>
                      if N.eqb c 44 then scan_members fuel depth (skip_ws r3) ((PStr key, v) :: acc)
                      else if N.eqb c 125 then
                        o ← of_res (hook (rev ((PStr key, v) :: acc))); Scanned (o, r3)
                      else ScanRaise JSONDecodeError
                  | [] => ScanRaise JSONDecodeError
                  end
                else ScanRaise JSONDecodeError
            | [] => ScanRaise JSONDecodeError
            end
          else ScanRaise JSONDecodeError
      | [] => ScanRaise JSONDecodeError
      end
  end.

Lemma scan_items_S fuel depth s acc :
  scan_items (S fuel) depth s acc =
  '(v, r) ← scan_once fuel depth s;
  match skip_ws r with
  | c :: r' =>
      if N.eqb c 44 then scan_items fuel depth (skip_ws r') (v :: acc)
      else if N.eqb c 93 then Scanned (JArr (rev (v :: acc)), r')
      else ScanRaise JSONDecodeError
  | [] => ScanRaise JSONDecodeError
  end.
Proof. done. Qed.

Lemma scan_members_S fuel depth q s1 acc :
  scan_members (S fuel) depth (q :: s1) acc =
  if N.eqb q 34 then
    '(key, r) ← of_option (scan_string (S (length s1)) s1 []);
    match skip_ws r with
    | col :: r1 =>
        if N.eqb col 58 then
          '(v, r2) ← scan_once fuel depth (skip_ws r1);
          match skip_ws r2 with
          | c :: r3 =>
              if N.eqb c 44 then scan_members fuel depth (skip_ws r3) ((PStr key, v) :: acc)
              else if N.eqb c 125 then
                o ← of_res (hook (rev ((PStr key, v) :: acc))); Scanned (o, r3)
              else ScanRaise JSONDecodeError
          | [] => ScanRaise JSONDecodeError
          end
        else ScanRaise JSONDecodeError
    | [] => ScanRaise JSONDecodeError
    end
  else ScanRaise JSONDecodeError.
Proof. done. Qed.

Lemma scan_once_array fuel depth s1 c r :
  skip_ws s1 = c :: r → c ≠ 93%N →
  scan_once (S fuel) (S depth) (91%N :: s1) = scan_items fuel depth (c :: r) [].
Proof.
  intros Hs Hc. transitivity (match skip_ws s1 with
    | c' :: r => if N.eqb c' 93 then Scanned (JArr [], r) else scan_items fuel depth (c' :: r) []
    | [] => ScanRaise JSONDecodeError end); [done|].
  rewrite Hs. by apply N.eqb_neq in Hc as ->.
Qed.

Lemma scan_once_object fuel depth s1 c r :
  skip_ws s1 = c :: r → c ≠ 125%N →
  scan_once (S fuel) (S depth) (123%N :: s1) = scan_members fuel depth (c :: r) [].
Proof.
  intros Hs Hc. transitivity (match skip_ws s1 with
    | c' :: r => if N.eqb c' 125 then v ← of_res (hook []); Scanned (v, r)
                 else scan_members fuel depth (c' :: r) []
    | [] => ScanRaise JSONDecodeError end); [done|].
  rewrite Hs. by apply N.eqb_neq in Hc as ->.
Qed.

Definition scan_fuel (s : list N) : nat := 2 * length s + 2.

(** [json.loads(text, object_pairs_hook=hook, parse_constant=...)] under a recursion limit. *)
Definition loads (depth : nat) (text : pystr) : res json :=
  let s := py_chars text in
  if chars_prefix [65279%N] s then Raise JSONDecodeError
  else
    match scan_once (scan_fuel s) depth (skip_ws s) with
    | Scanned (v, r) => match skip_ws r with [] => Ok v | _ => Raise JSONDecodeError end
    | ScanRaise e => Raise e
    | NoFuel => Raise (RuntimeError "scan_once ran out of fuel")
    end.
End Scan.

(** The default hook: [dict(pairs)], where a repeated name keeps its first place and its last value. *)
Definition dict_hook (pairs : list (pystr * json)) : res json := Ok (JObj (dict_of_pairs pairs)).

(** ** The fuel of [loads] is always enough *)

Lemma length_skip_ws s : length (skip_ws s) <= length s.
Proof. induction s as [|c s IH]; simpl; [done|]. destruct (is_ws c); simpl; lia. Qed.

Lemma scan_hex4_length s u r : scan_hex4 s = Some (u, r) → length r < length s.
Proof.
  destruct s as [|a [|b [|c [|d s]]]]; simpl; try done.
  destruct (hex_value a), (hex_value b), (hex_value c), (hex_value d); simpl; intros; simplify_eq; lia.
Qed.

Lemma scan_unicode_length s u r : scan_unicode s = Some (u, r) → length r < length s.
Proof.
  unfold scan_unicode. destruct (scan_hex4 s) as [[u1 s1]|] eqn:E1; simpl; [|done].
  apply scan_hex4_length in E1.
  destruct (_ && _); [|intros; by simplify_eq].
  destruct s1 as [|c1 [|c2 s2]]; try (intros; by simplify_eq).
  destruct (_ && _); [|intros; by simplify_eq].
  destruct (scan_hex4 s2) as [[u2 s3]|] eqn:E2; simpl; [|done].
  apply scan_hex4_length in E2. simpl in *.
  destruct (_ && _); intros; simplify_eq; simpl; lia.
Qed.

Lemma scan_string_length fuel s acc l r : scan_string fuel s acc = Some (l, r) → length r < length s.
Proof.
  revert s acc. induction fuel as [|fuel IH]; intros s acc; simpl; [done|].
  destruct s as [|c s1]; [done|].
  destruct (N.eqb c 34); [intros; simplify_eq; simpl; lia|].
  destruct (N.eqb c 92).
  - destruct s1 as [|e s2]; [done|]. destruct (N.eqb e 117).
    + destruct (scan_unicode s2) as [[u s3]|] eqn:E; simpl; [|done].
      intros H%IH. apply scan_unicode_length in E. simpl; lia.
    + destruct (simple_escape e); simpl; [|done]. intros H%IH. simpl; lia.
  - destruct (N.ltb c 32); [done|]. intros H%IH. simpl; lia.
Qed.

Lemma span_digits_length s : length (span_digits s).2 <= length s.
Proof.
  induction s as [|c s IH]; simpl; [lia|].
  destruct (is_digit_char c); simpl; [|lia]. destruct (span_digits s); simpl in *; lia.
Qed.

Lemma scan_intpart_length s d r : scan_intpart s = Some (d, r) → length r < length s.
Proof.
  destruct s as [|c s]; simpl; [done|]. destruct (N.eqb c 48); [intros; simplify_eq; lia|].
  pose proof (span_digits_length s). destruct (is_digit_char c) eqn:E; [|done].
  destruct (span_digits s) as [d' r']; simpl in *. intros; simplify_eq; lia.
Qed.

Lemma scan_frac_length s : length (scan_frac s).2 <= length s.
Proof.
  destruct s as [|c s]; simpl; [lia|]. destruct (N.eqb c 46); simpl; [|lia].
  pose proof (span_digits_length s). destruct (span_digits s) as [[|? ?] r']; simpl in *; lia.
Qed.

Lemma scan_exp_length s : length (scan_exp s).2 <= length s.
Proof.
  destruct s as [|c s]; simpl; [lia|]. destruct (_ || _); simpl; [|lia].
  destruct s as [|g s']; simpl; [lia|].
  pose proof (span_digits_length s'). pose proof (span_digits_length (g :: s')).
  destruct (_ || _).
  - destruct (span_digits s') as [[|? ?] r']; simpl in *; lia.
  - destruct (span_digits (g :: s')) as [[|? ?] r']; simpl in *; lia.
Qed.

Lemma scan_number_length s v r : scan_number s = Some (v, r) → length r < length s.
Proof.
  unfold scan_number.
  set (p := match s with c :: s' => if N.eqb c 45 then ([c], s') else ([], s) | [] => ([], s) end).
  assert (length p.2 <= length s).
  { subst p. destruct s as [|c s']; simpl; [lia|]. destruct (N.eqb c 45); simpl; lia. }
  destruct p as [sign s1]; simpl in *.
  destruct (scan_intpart s1) as [[ds s2]|] eqn:E; simpl; [|done].
  apply scan_intpart_length in E.
  pose proof (scan_frac_length s2). destruct (scan_frac s2) as [fr s3]; simpl in *.
  pose proof (scan_exp_length s3). destruct (scan_exp s3) as [ex s4]; simpl in *.
  destruct fr, ex; try destruct (Nat.leb _ _); intros; simplify_eq; lia.
Qed.

Section ScanTotal.
Context (hook : list (pystr * json) -> res json) (ce : exc).

Definition consumes (s : list N) (x : scanned (json * list N)) : Prop :=
  match x with Scanned (_, r) => length r < length s | ScanRaise _ => True | NoFuel => False end.

Lemma consumes_le s s' x : length s' <= length s → consumes s' x → consumes s x.
Proof. destruct x as [[v r]|e|]; simpl; [lia|done|done]. Qed.

Lemma of_option_consumes s (o : option (json * list N)) :
  (∀ v r, o = Some (v, r) → length r < length s) → consumes s (of_option o).
Proof. destruct o as [[v r]|]; simpl; eauto. Qed.

Lemma chars_prefix_length p s : chars_prefix p s = true → length p <= length s.
Proof.
  revert s. induction p as [|a p IH]; intros [|b s]; simpl; try lia; try done.
  intros [_ ?%IH]%andb_prop. lia.
Qed.

(** Enough fuel means a verdict, and every verdict that is a value consumed input. *)
Lemma scan_total fuel :
  (∀ depth s, 2 * length s < fuel → consumes s (scan_once hook ce fuel depth s)) ∧
  (∀ depth s acc, 2 * length s + 1 < fuel → consumes s (scan_items hook ce fuel depth s acc)) ∧
  (∀ depth s acc, 2 * length s + 1 < fuel → consumes s (scan_members hook ce fuel depth s acc)).
Proof.
  induction fuel as [|fuel (IHo & IHi & IHm)]; [split_and!; intros; lia|].
  split_and!; intros depth s; [intros Hf|intros acc Hf|intros acc Hf].
  - destruct s as [|c s1]; [done|]. simpl in Hf. cbn [scan_once].
    pose proof (length_skip_ws s1) as Hws.
    repeat match goal with |- context [if ?b then _ else _] => destruct b eqn:? end;
      try done; try (simpl; rewrite ?length_drop; simpl; lia).
    + destruct (scan_string _ s1 []) as [[l r]|] eqn:E; simpl; [|done].
      apply scan_string_length in E. lia.
    + destruct depth as [|depth]; [done|]. destruct (skip_ws s1) as [|c' r] eqn:E; [done|].
      simpl in Hws. destruct (N.eqb c' 93); [simpl; lia|].
      eapply consumes_le; [|apply IHi]; simpl; lia.
    + destruct depth as [|depth]; [done|]. destruct (skip_ws s1) as [|c' r] eqn:E; [done|].
      simpl in Hws. destruct (N.eqb c' 125); [destruct (hook []); simpl; try done; lia|].
      eapply consumes_le; [|apply IHm]; simpl; lia.
    + apply of_option_consumes. intros v r E. by apply scan_number_length in E.
  - rewrite scan_items_S. specialize (IHo depth s). ospecialize (IHo _); [lia|].
    destruct (scan_once hook ce fuel depth s) as [[v r]|e|] eqn:?; [|exact I|by destruct IHo]. simpl in *.
    pose proof (length_skip_ws r). destruct (skip_ws r) as [|c r'] eqn:E; [done|]. simpl in *.
    destruct (N.eqb c 44); [|destruct (N.eqb c 93); simpl; try done; lia].
    pose proof (length_skip_ws r'). eapply consumes_le; [|apply IHi]; lia.
  - destruct s as [|q s1]; [done|]. rewrite scan_members_S. simpl in Hf.
    destruct (N.eqb q 34); [|done].
    destruct (scan_string _ s1 []) as [[k r]|] eqn:E; simpl; [|done].
    apply scan_string_length in E. pose proof (length_skip_ws r).
    destruct (skip_ws r) as [|col r1]; [done|]. simpl in *. destruct (N.eqb col 58); [|done].
    pose proof (length_skip_ws r1). specialize (IHo depth (skip_ws r1)).
    ospecialize (IHo _); [lia|].
    destruct (scan_once hook ce fuel depth (skip_ws r1)) as [[v r2]|e|] eqn:?; [|exact I|by destruct IHo]. simpl in *.
    pose proof (length_skip_ws r2). destruct (skip_ws r2) as [|c r3]; [done|]. simpl in *.
    destruct (N.eqb c 44).
    + pose proof (length_skip_ws r3). eapply consumes_le; [|apply IHm]; simpl; lia.
    + destruct (N.eqb c 125); [|done]. destruct (hook _); simpl; try done. lia.
Qed.

Lemma loads_fuel_enough depth s :
  scan_once hook ce (scan_fuel s) depth (skip_ws s) ≠ NoFuel.
Proof.
  intros H. destruct (scan_total (scan_fuel s)) as [Ht _].
  specialize (Ht depth (skip_ws s)). pose proof (length_skip_ws s).
  unfold scan_fuel in *. ospecialize (Ht _); [lia|]. by rewrite H in Ht.
Qed.

(** The only exceptions a decode can raise. *)
Definition scan_exc (e : exc) : Prop :=
  e = JSONDecodeError ∨ e = RecursionError ∨ e = ce ∨ ∃ l, hook l = Raise e.
Definition raises_only {A} (x : scanned A) : Prop :=
  match x with ScanRaise e => scan_exc e | _ => True end.

Lemma decode_error_exc : scan_exc JSONDecodeError.
Proof. by left. Qed.

Lemma bind_raises {A B} (x : scanned A) (f : A -> scanned B) :
  raises_only x → (∀ a, raises_only (f a)) → raises_only (x ≫= f).
Proof. destruct x; simpl; eauto. Qed.

Lemma of_option_raises {A} (o : option A) : raises_only (of_option o).
Proof. destruct o; simpl; [done|apply decode_error_exc]. Qed.

Lemma hook_raises l : raises_only (of_res (hook l)).
Proof. destruct (hook l) eqn:E; simpl; [done|]. unfold scan_exc. eauto. Qed.

Lemma scan_raises fuel :
  (∀ depth s, raises_only (scan_once hook ce fuel depth s)) ∧
  (∀ depth s acc, raises_only (scan_items hook ce fuel depth s acc)) ∧
  (∀ depth s acc, raises_only (scan_members hook ce fuel depth s acc)).
Proof.
  pose proof decode_error_exc as He.
  induction fuel as [|fuel (IHo & IHi & IHm)]; [done|]. split_and!.
  - intros depth [|c s1]; [exact He|]. cbn [scan_once].
    repeat match goal with |- context [if ?b then _ else _] => destruct b end; try done.
    + apply bind_raises; [apply of_option_raises|by intros [? ?]].
    + destruct depth; [right; by left|]. destruct (skip_ws s1) as [|c' r]; [exact He|].
      destruct (N.eqb c' 93); [done|apply IHi].
    + destruct depth; [right; by left|]. destruct (skip_ws s1) as [|c' r]; [exact He|].
      destruct (N.eqb c' 125); [apply bind_raises; [apply hook_raises|done]|apply IHm].
    + right; right; by left.
    + apply of_option_raises.
  - intros depth s acc. rewrite scan_items_S. apply bind_raises; [apply IHo|]. intros [v r].
    destruct (skip_ws r) as [|c r']; [exact He|]. destruct (N.eqb c 44); [apply IHi|]. by destruct (N.eqb c 93).
  - intros depth [|q s1] acc; [exact He|]. rewrite scan_members_S. destruct (N.eqb q 34); [|exact He].
    apply bind_raises; [apply of_option_raises|]. intros [k r].
    destruct (skip_ws r) as [|col r1]; [exact He|]. destruct (N.eqb col 58); [|exact He].
    apply bind_raises; [apply IHo|]. intros [v r2]. destruct (skip_ws r2) as [|c r3]; [exact He|].
    destruct (N.eqb c 44); [apply IHm|]. destruct (N.eqb c 125); [|exact He].
    apply bind_raises; [apply hook_raises|done].
Qed.

Lemma loads_raises depth text e : loads hook ce depth text = Raise e → scan_exc e.
Proof.
  unfold loads. destruct (chars_prefix _ _); [intros [= <-]; apply decode_error_exc|].
  pose proof (proj1 (scan_raises (scan_fuel (py_chars text))) depth (skip_ws (py_chars text))) as H.
  pose proof (loads_fuel_enough depth (py_chars text)).
  destruct (scan_once _ _ _ _ _) as [[v r]|e'|]; [|by intros [= <-]|done].
  destruct (skip_ws r); [done|]. intros [= <-]. apply decode_error_exc.
Qed.
End ScanTotal.

(** ** Decoding what was rendered *)

(** A Unicode scalar value: no lone surrogate, which [json.loads] may pair up. *)
Definition scalarb (c : N) : bool := (c <? 55296)%N || ((57343 <? c)%N && (c <? 1114112)%N).
Definition plain_str (s : pystr) : bool := forallb scalarb (py_chars s).

(** Float-free values whose strings are scalar, whose integers the decoder accepts and whose
    objects have distinct names. *)
Fixpoint json_plain (v : json) : bool :=
  match v with
  | JNull | JBool _ => true
  | JInt z => Nat.leb (length (uint_chars (N.to_uint (Z.abs_N z)))) int_max_str_digits
  | JFloat _ => false
  | JStr s => plain_str s
  | JArr l => forallb json_plain l
  | JObj l =>
      forallb (fun kv => plain_str kv.1 && json_plain kv.2) l && bool_decide (NoDup (dict_keys l))
  end.

Fixpoint json_depth (v : json) : nat :=
  match v with
  | JArr l => S (foldr (fun x n => Nat.max (json_depth x) n) 0 l)
  | JObj l => S (foldr (fun kv n => Nat.max (json_depth kv.2) n) 0 l)
  | _ => 0
  end.

Section RoundTrip.
#[local] Ltac Zify.zify_post_hook ::= Z.to_euclidean_division_equations.

Lemma hex_value_digit n : (n < 16)%N → hex_value (hex_digit n) = Some n.
Proof.
  intros H. assert (n ∈ (seq 0 16 : list nat) ≫= (fun i => [N.of_nat i])) as Hin.
  { apply list_elem_of_bind. exists (N.to_nat n). split; [rewrite list_elem_of_singleton; lia|].
    apply elem_of_seq. lia. }
  revert n H Hin. cbn. intros n _ Hin.
  repeat (apply elem_of_cons in Hin as [->|Hin]; [done|]). by apply elem_of_nil in Hin.
Qed.

Lemma scan_hex4_hex4 n s : (n < 65536)%N → scan_hex4 (hex4 n ++ s) = Some (n, s).
Proof.
  intros H. unfold hex4. cbn [app scan_hex4].
  rewrite !hex_value_digit by (apply N.mod_lt; lia). cbn. f_equal. f_equal. lia.
Qed.

Lemma scan_unicode_bmp n s :
  (n < 65536)%N → scalarb n = true → scan_unicode (hex4 n ++ s) = Some (n, s).
Proof.
  intros Hn Hs. unfold scan_unicode. rewrite scan_hex4_hex4 by done. cbn.
  replace ((55296 <=? n)%N && (n <=? 56319)%N) with false; [done|].
  unfold scalarb in Hs. symmetry. apply andb_false_iff.
  destruct (N.leb_spec 55296 n); [right|by left]. apply N.leb_gt.
  destruct (N.ltb_spec n 55296); [lia|]. simpl in Hs.
  apply andb_prop in Hs as [Hs _]. apply N.ltb_lt in Hs. lia.
Qed.

Lemma scan_unicode_pair c s :
  (65536 <= c)%N → (c < 1114112)%N →
  scan_unicode (hex4 (55296 + (c - 65536) / 1024 mod 1024) ++
                [92; 117]%N ++ hex4 (56320 + (c - 65536) mod 1024) ++ s) = Some (c, s).
Proof.
  intros H1 H2. unfold scan_unicode.
  rewrite scan_hex4_hex4 by (assert ((c - 65536) / 1024 mod 1024 < 1024)%N by (apply N.mod_lt; lia); lia).
  set (hi := ((c - 65536) / 1024 mod 1024)%N). set (lo := ((c - 65536) mod 1024)%N).
  assert (hi < 1024)%N by (apply N.mod_lt; lia). assert (lo < 1024)%N by (apply N.mod_lt; lia).
  assert (c = 65536 + hi * 1024 + lo)%N by (subst hi lo; lia).
  cbn -[hex4 N.add N.mul N.sub]. 
  replace ((55296 <=? 55296 + hi)%N && (55296 + hi <=? 56319)%N) with true
    by (symmetry; apply andb_true_intro; split; apply N.leb_le; lia).
  rewrite scan_hex4_hex4 by lia. cbn -[hex4 N.add N.mul N.sub].
  replace ((56320 <=? 56320 + lo)%N && (56320 + lo <=? 57343)%N) with true
    by (symmetry; apply andb_true_intro; split; apply N.leb_le; lia).
  f_equal. f_equal. lia.
Qed.

Lemma scan_string_escape c fuel s acc :
  scalarb c = true →
  scan_string (S fuel) (escape_char c ++ s) acc = scan_string fuel s (c :: acc).
Proof.
  intros Hs. unfold escape_char.
  destruct (N.eqb_spec c 34) as [->|H34]; [done|]. destruct (N.eqb_spec c 92) as [->|H92]; [done|].
  destruct (N.eqb_spec c 10) as [->|]; [done|]. destruct (N.eqb_spec c 13) as [->|]; [done|].
  destruct (N.eqb_spec c 9) as [->|]; [done|]. destruct (N.eqb_spec c 12) as [->|]; [done|].
  destruct (N.eqb_spec c 8) as [->|]; [done|].
  destruct ((32 <=? c)%N && (c <=? 126)%N) eqn:E.
  - apply andb_prop in E as [E1 E2]. apply N.leb_le in E1, E2. cbn [app scan_string].
    apply N.eqb_neq in H34 as ->. apply N.eqb_neq in H92 as ->.
    by replace (c <? 32)%N with false by (symmetry; by apply N.ltb_ge).
  - destruct (N.ltb_spec c 65536).
    + rewrite <-app_assoc. cbn [app scan_string N.eqb Pos.eqb].
      rewrite scan_unicode_bmp by done. done.
    + rewrite <-!app_assoc. cbn [app scan_string N.eqb Pos.eqb].
      change (92 :: 117 :: ?x)%N with ([92; 117] ++ x)%N. rewrite scan_unicode_pair; [done|done|].
      unfold scalarb in Hs. destruct (N.ltb_spec c 55296); [lia|]. simpl in Hs.
      apply andb_prop in Hs as [_ Hs]. by apply N.ltb_lt.
Qed.

Lemma escape_char_nonempty c : 1 <= length (escape_char c).
Proof. unfold escape_char. repeat case_match; simpl; lia. Qed.

Lemma scan_string_escaped cs fuel r acc :
  forallb scalarb cs = true → length (flat_map escape_char cs) < fuel →
  scan_string fuel (flat_map escape_char cs ++ 34%N :: r) acc = Some (rev acc ++ cs, r).
Proof.
  revert fuel acc. induction cs as [|c cs IH]; intros fuel acc Hs Hf.
  - destruct fuel; [simpl in Hf; lia|]. cbn. by rewrite app_nil_r.
  - simpl in *. apply andb_prop in Hs as [Hc Hs]. rewrite length_app in Hf.
    pose proof (escape_char_nonempty c). destruct fuel as [|fuel]; [lia|].
    rewrite <-app_assoc, scan_string_escape, IH by (done || lia).
    simpl. by rewrite <-app_assoc.
Qed.

(** What follows a value inside a compact document. *)
Definition delim (r : list N) : bool :=
  match r with [] => true | c :: _ => N.eqb c 44 || N.eqb c 93 || N.eqb c 125 end.

Lemma delim_cases r : delim r = true → r = [] ∨ ∃ c r', r = c :: r' ∧ (c = 44 ∨ c = 93 ∨ c = 125)%N.
Proof.
  destruct r as [|c r]; simpl; [by left|]. rewrite !orb_true_iff, !N.eqb_eq. naive_solver.
Qed.

Lemma uint_chars_digits d : forallb is_digit_char (uint_chars d) = true.
Proof. induction d; simpl; done. Qed.

Lemma span_digits_app ds r :
  forallb is_digit_char ds = true → delim r = true → span_digits (ds ++ r) = (ds, r).
Proof.
  intros Hds Hr. induction ds as [|c ds IH]; simpl in *.
  - apply delim_cases in Hr as [->|(c & r' & -> & [->|[->| ->]])]; done.
  - apply andb_prop in Hds as [-> Hds]. by rewrite IH.
Qed.

Lemma digits_value_uint d : digits_value (uint_chars d) = N.of_uint d.
Proof. unfold digits_value. f_equal. induction d; simpl; try done; by rewrite IHd. Qed.

Lemma to_uint_canonical n :
  N.to_uint n = Decimal.D0 Decimal.Nil ∨ (N.to_uint n ≠ Decimal.Nil ∧ ∀ d, N.to_uint n ≠ Decimal.D0 d).
Proof.
  pose proof (Unsigned.to_of (N.to_uint n)) as H. rewrite Unsigned.of_to in H.
  remember (N.to_uint n) as u eqn:Eu. clear Eu. unfold Decimal.unorm in H.
  destruct (Decimal.nzhead u) as [|d|d|d|d|d|d|d|d|d|d] eqn:E; [by left| |right; split; congruence..].
  exfalso. by eapply DecimalFacts.nzhead_nonzero.
Qed.

Lemma scan_intpart_uint n r :
  delim r = true →
  scan_intpart (uint_chars (N.to_uint n) ++ r) = Some (uint_chars (N.to_uint n), r).
Proof.
  intros Hr. pose proof (uint_chars_digits (N.to_uint n)) as Hd.
  destruct (to_uint_canonical n) as [E|[Hn H0]]; [by rewrite E|].
  pose proof (span_digits_app _ r Hd Hr) as Hs.
  destruct (N.to_uint n); try done; try (by destruct (H0 u)); cbn [uint_chars app] in *;
    unfold scan_intpart; by rewrite Hs.
Qed.

Lemma scan_frac_delim r : delim r = true → scan_frac r = ([], r).
Proof. intros [->|(c & r' & -> & [->|[->| ->]])]%delim_cases; done. Qed.

Lemma scan_exp_delim r : delim r = true → scan_exp r = ([], r).
Proof. intros [->|(c & r' & -> & [->|[->| ->]])]%delim_cases; done. Qed.

(** The first character of a rendered integer. *)
Lemma uint_chars_head n : ∃ c t, uint_chars (N.to_uint n) = c :: t ∧ is_digit_char c = true.
Proof.
  pose proof (uint_chars_digits (N.to_uint n)) as Hd.
  destruct (uint_chars (N.to_uint n)) as [|c t] eqn:E.
  - exfalso. destruct (to_uint_canonical n) as [H|[H _]]; [by rewrite H in E|].
    by destruct (N.to_uint n).
  - apply andb_prop in Hd as [? _]. eauto.
Qed.

Lemma scan_number_int z r :
  delim r = true → length (uint_chars (N.to_uint (Z.abs_N z))) <= int_max_str_digits →
  scan_number (dump_int z ++ r) = Some (JInt z, r).
Proof.
  intros Hr Hlen. unfold scan_number, dump_int.
  set (u := uint_chars (N.to_uint (Z.abs_N z))) in *.
  assert ((match (if (z <? 0)%Z then [45%N] else []) ++ u ++ r with
           | c :: s' => if (c =? 45)%N then ([c], s')
                        else ([], (if (z <? 0)%Z then [45%N] else []) ++ u ++ r)
           | [] => ([], (if (z <? 0)%Z then [45%N] else []) ++ u ++ r)
           end) = (if (z <? 0)%Z then [45%N] else [], u ++ r)) as Hsign.
  { destruct (z <? 0)%Z; [done|]. subst u.
    destruct (uint_chars_head (Z.abs_N z)) as (c & t & -> & Hc). cbn [app].
    destruct (N.eqb_spec c 45) as [->|]; done. }
  rewrite <-app_assoc, Hsign. subst u. rewrite scan_intpart_uint by done. cbn [mbind option_bind].
  rewrite scan_frac_delim, scan_exp_delim by done.
  apply Nat.leb_le in Hlen. rewrite Hlen, digits_value_uint, Unsigned.of_to.
  destruct (Z.ltb_spec z 0); f_equal; f_equal; f_equal; lia.
Qed.
End RoundTrip.

Section DumpLoad.
Context (hook : list (pystr * json) -> res json) (ce : exc).
Context (hook_distinct : ∀ l, NoDup (dict_keys l) → hook l = Ok (JObj l)).
Abbreviation once := (scan_once hook ce).
Abbreviation dump := (dump_chars compact).

Lemma scan_str_once s fuel depth r :
  plain_str s = true → once (S fuel) depth (dump_str s ++ r) = Scanned (JStr s, r).
Proof.
  intros Hs. unfold dump_str. rewrite <-!app_assoc. cbn [app].
  transitivity ('(str, r) ← of_option (scan_string
      (S (length (flat_map escape_char (py_chars s) ++ 34%N :: r)))
      (flat_map escape_char (py_chars s) ++ 34%N :: r) []);
    Scanned (JStr (PStr str), r)); [done|].
  rewrite scan_string_escaped; [by destruct s|done|rewrite length_app; simpl; lia].
Qed.

Lemma scan_int_once z fuel depth r :
  delim r = true → length (uint_chars (N.to_uint (Z.abs_N z))) <= int_max_str_digits →
  once (S fuel) depth (dump_int z ++ r) = Scanned (JInt z, r).
Proof.
  intros Hr Hlen. transitivity (of_option (scan_number (dump_int z ++ r)));
    [|by rewrite scan_number_int].
  unfold dump_int. destruct (uint_chars_head (Z.abs_N z)) as (c & t & -> & Hc).
  unfold is_digit_char in Hc. apply andb_prop in Hc as [H1 H2]. apply N.leb_le in H1, H2.
  destruct (z <? 0)%Z; cbn -[scan_number N.eqb]; unfold starts_constant; cbn -[scan_number N.eqb];
    repeat match goal with |- context [N.eqb ?a ?b] =>
      first [rewrite (proj2 (N.eqb_neq a b)) by lia | rewrite (proj2 (N.eqb_eq a b)) by lia] end;
    cbn -[scan_number N.eqb]; reflexivity.
Qed.

(** The first character a value is rendered with: never white space, never a closing bracket. *)
Lemma dump_head v : json_plain v = true →
  ∃ c t, dump v = c :: t ∧ is_ws c = false ∧ c ≠ 93%N ∧ c ≠ 125%N ∧ (c < 128)%N.
Proof.
  destruct v as [|[|]|z|lit|s|l|l]; cbn -[N.to_uint]; intros Hp; try done;
    try (eexists _, _; split; [reflexivity|]; done).
  unfold dump_int. destruct (uint_chars_head (Z.abs_N z)) as (c & t & -> & Hc).
  unfold is_digit_char in Hc. apply andb_prop in Hc as [H1 H2]. apply N.leb_le in H1, H2.
  destruct (z <? 0)%Z; eexists _, _; (split; [reflexivity|]); [done|].
  unfold is_ws. split_and!; [|lia|lia|lia].
  rewrite !orb_false_iff, !N.eqb_neq. lia.
Qed.

Lemma skip_ws_head c t : is_ws c = false → skip_ws (c :: t) = c :: t.
Proof. simpl. by intros ->. Qed.

Lemma skip_ws_dump v r : json_plain v = true → skip_ws (dump v ++ r) = dump v ++ r.
Proof. intros (c & t & -> & Hw & _)%dump_head. by apply skip_ws_head. Qed.

(** A value is read back from any document position that gives it fuel and depth. *)
Definition reads_back (v : json) : Prop := ∀ fuel depth r,
  2 * length (dump v) < fuel → json_depth v <= depth → delim r = true →
  once fuel depth (dump v ++ r) = Scanned (v, r).

Lemma scan_items_dump l fuel depth r acc :
  Forall (fun v => json_plain v = true ∧ reads_back v) l → l ≠ [] →
  Forall (fun v => json_depth v <= depth) l →
  2 * length (join_chars [44%N] (map dump l)) + 1 < fuel →
  scan_items hook ce fuel depth (join_chars [44%N] (map dump l) ++ 93%N :: r) acc =
  Scanned (JArr (rev acc ++ l), r).
Proof.
  intros Hl Hne Hd. revert fuel acc. induction Hl as [|v l [Hp Hv] Hl IH]; intros fuel acc Hf; [done|].
  inversion Hd as [|? ? Hdv Hdl]; subst. destruct fuel as [|fuel]; [lia|].
  rewrite scan_items_S. destruct l as [|w l].
  - cbn [map join_chars] in *. by rewrite Hv by (simpl; lia).
  - cbn [map] in *. change (join_chars [44%N] (dump v :: dump w :: map dump l))
      with (dump v ++ [44%N] ++ join_chars [44%N] (map dump (w :: l))) in *.
    rewrite !length_app in Hf. cbn [length] in Hf.
    rewrite <-!app_assoc, Hv by (simpl; lia). cbn -[join_chars map].
    apply Forall_inv in Hl as [Hpw _].
    assert (skip_ws (join_chars [44%N] (map dump (w :: l)) ++ 93%N :: r) =
            join_chars [44%N] (map dump (w :: l)) ++ 93%N :: r) as ->.
    { destruct (dump_head _ Hpw) as (c & t & E & Hw & _). cbn [map].
      destruct l; cbn [map join_chars]; rewrite E; by apply skip_ws_head. }
    cbn [map] in *. rewrite IH by (done || lia). simpl. by rewrite <-app_assoc.
Qed.

Definition dump_member (kv : pystr * json) : list N := dump_str kv.1 ++ [58%N] ++ dump kv.2.

Lemma scan_members_dump l fuel depth r acc :
  Forall (fun kv => plain_str kv.1 = true ∧ json_plain kv.2 = true ∧ reads_back kv.2) l → l ≠ [] →
  Forall (fun kv => json_depth kv.2 <= depth) l →
  NoDup (dict_keys (rev acc ++ l)) →
  2 * length (join_chars [44%N] (map dump_member l)) + 1 < fuel →
  scan_members hook ce fuel depth (join_chars [44%N] (map dump_member l) ++ 125%N :: r) acc =
  Scanned (JObj (rev acc ++ l), r).
Proof.
  intros Hl Hne Hd. revert fuel acc.
  induction Hl as [|[k v] l (Hk & Hp & Hv) Hl IH]; intros fuel acc HN Hf; [done|].
  inversion Hd as [|? ? Hdv Hdl]; subst. destruct fuel as [|fuel]; [lia|].
  assert (∀ rest, delim rest = true → 2 * length (dump_member (k, v)) < S fuel →
    scan_members hook ce (S fuel) depth (dump_member (k, v) ++ rest) acc =
    match rest with
    | c :: r3 =>
        if N.eqb c 44 then scan_members hook ce fuel depth (skip_ws r3) ((k, v) :: acc)
        else if N.eqb c 125 then
          o ← of_res (hook (rev ((k, v) :: acc))); Scanned (o, r3)
        else ScanRaise JSONDecodeError
    | [] => ScanRaise JSONDecodeError
    end) as Hone.
  { intros rest Hrest Hlen. unfold dump_member, dump_str in *. cbn [fst snd] in *.
    rewrite !length_app in Hlen. simpl length in Hlen. rewrite <-!app_assoc. cbn [app].
    rewrite scan_members_S. cbn [N.eqb Pos.eqb].
    rewrite scan_string_escaped; [|done|rewrite length_app; simpl; lia].
    cbn -[dump_chars]. rewrite skip_ws_dump, Hv by (simpl in *; done || lia).
    destruct k as [k]. cbn -[dump_chars].
    apply delim_cases in Hrest as [->|(c & r' & -> & [->|[->| ->]])]; done. }
  destruct l as [|w l].
  - cbn [map join_chars] in *. rewrite Hone by (done || lia). cbn.
    by rewrite hook_distinct by done.
  - cbn [map] in *. change (join_chars [44%N] (dump_member (k, v) :: dump_member w :: map dump_member l))
      with (dump_member (k, v) ++ [44%N] ++ join_chars [44%N] (map dump_member (w :: l))) in *.
    rewrite !length_app in Hf. cbn [length] in Hf.
    rewrite <-!app_assoc, Hone by (done || lia). cbn -[join_chars map].
    assert (skip_ws (join_chars [44%N] (map dump_member (w :: l)) ++ 125%N :: r) =
            join_chars [44%N] (map dump_member (w :: l)) ++ 125%N :: r) as ->.
    { cbn [map]. destruct l; cbn [map join_chars]; unfold dump_member, dump_str; cbn [app];
        by apply skip_ws_head. }
    cbn [map] in *. rewrite IH; try (done || lia).
    + simpl. by rewrite <-app_assoc.
    + simpl. by rewrite <-app_assoc.
Qed.

Lemma foldr_max_Forall {A} (f : A -> nat) l n :
  foldr (fun x m => Nat.max (f x) m) 0 l <= n → Forall (fun x => f x <= n) l.
Proof. induction l as [|x l IH]; simpl; constructor; [lia|apply IH; lia]. Qed.


Theorem scan_once_dump v : json_plain v = true → reads_back v.
Proof.
  induction v as [|b|z|lit|s|l IH|l IH] using json_ind'; intros Hp fuel depth r Hf Hd Hr;
    (destruct fuel as [|fuel]; [lia|]); try done.
  - by destruct b.
  - apply scan_int_once; [done|]. by apply Nat.leb_le.
  - by apply scan_str_once.
  - apply forallb_Forall in Hp. cbn [dump_chars json_depth] in *.
    destruct depth as [|depth]; [lia|]. rewrite <-!app_assoc. cbn [app].
    destruct l as [|v l]; [done|].
    assert (∃ c t, join_chars [44%N] (map dump (v :: l)) = c :: t ∧ is_ws c = false ∧ c ≠ 93%N)
      as (c & t & E & Hw & Hc).
    { destruct (dump_head v) as (c & t & E & ? & ? & _); [by inversion Hp|]. exists c. cbn [map].
      destruct l; cbn [map join_chars]; rewrite E; eauto. }
    rewrite length_app in Hf. rewrite length_app in Hf. cbn [length item_sep compact] in *.
    pose proof (scan_items_dump (v :: l) fuel depth r []) as Hi. rewrite E in Hi, Hf |- *.
    erewrite scan_once_array; [|by apply skip_ws_head|done]. apply Hi; [|done| |lia].
    + rewrite Forall_forall in Hp, IH |- *. eauto.
    + apply foldr_max_Forall. lia.
  - cbn [json_plain] in Hp. apply andb_prop in Hp as [Hp HN]. apply bool_decide_eq_true in HN.
    apply forallb_Forall in Hp. cbn [dump_chars json_depth sort_keys compact] in *.
    destruct depth as [|depth]; [lia|]. rewrite map_map in *. cbn [snd] in *.
    change (map _ l) with (map dump_member l) in *. rewrite <-!app_assoc. cbn [app].
    destruct l as [|kv l].
    { transitivity (v ← of_res (hook []); Scanned (v, r)); [done|]. by rewrite hook_distinct. }
    assert (∃ t, join_chars [44%N] (map dump_member (kv :: l)) = 34%N :: t) as (t & E).
    { cbn [map]. destruct l; cbn [map join_chars]; unfold dump_member, dump_str; cbn [app]; eauto. }
    rewrite length_app in Hf. rewrite length_app in Hf. cbn [length item_sep compact] in *.
    pose proof (scan_members_dump (kv :: l) fuel depth r []) as Hi. rewrite E in Hi, Hf |- *.
    erewrite scan_once_object; [|by apply skip_ws_head|done]. apply Hi; [|done| |done|lia].
    + rewrite Forall_forall in Hp, IH |- *. intros kv' Hin.
      destruct (andb_prop _ _ (Hp _ Hin)). auto.
    + apply (foldr_max_Forall (fun kv => json_depth kv.2)). lia.
Qed.

(** [json.loads] inverts compact [json.dumps] on plain values, given a recursion limit as
    deep as the value. *)
Lemma loads_dumps v depth :
  json_plain v = true → json_depth v <= depth → loads hook ce depth (dumps compact v) = Ok v.
Proof.
  intros Hp Hd. unfold loads, dumps. cbn [py_chars].
  destruct (dump_head v Hp) as (c & t & E & Hw & _ & _ & Hc).
  assert (skip_ws (dump v) = dump v) as Hs by (rewrite E; by apply skip_ws_head).
  pose proof (scan_once_dump v Hp (scan_fuel (dump v)) depth []) as H.
  rewrite app_nil_r in H. rewrite Hs, H by (unfold scan_fuel; done || lia).
  rewrite E. cbn [chars_prefix]. by rewrite (proj2 (N.eqb_neq 65279 c)) by lia.
Qed.
End DumpLoad.
