(* ===== verification/Text.v ===== *)
(** * Python text operations

    The [str] methods the translators and address parsers of the adapter use, on code-point lists:
    [split], [join], [partition], [strip], [lower], [isdigit], [int(s)], [int(s, 16)] and the ['%x']
    formats, with the round trips their clients rely on. *)

From stdpp Require Import base list.
From Stdlib Require Import ZArith NArith Lia DecimalN DecimalFacts.
From S2P Require Import Prelude Json.
Local Open Scope py_scope.
Local Open Scope N_scope.

(** ** Splitting and joining on one character *)

(** [s.split(c)] *)
Fixpoint split_on (c : N) (s : list N) : list (list N) :=
  match s with
  | [] => [[]]
  | x :: s' =>
      if N.eqb x c then [] :: split_on c s'
      else match split_on c s' with p :: ps => (x :: p) :: ps | [] => [[x]] end
  end.

(** [s.partition(c)]: [None] for no separator *)
Fixpoint partition_on (c : N) (s : list N) : option (list N * list N) :=
  match s with
  | [] => None
  | x :: s' =>
      if N.eqb x c then Some ([], s')
      else match partition_on c s' with Some (a, b) => Some (x :: a, b) | None => None end
  end.

(** [s.split(c, n)] *)
Fixpoint split_max (c : N) (n : nat) (s : list N) : list (list N) :=
  match n with
  | O => [s]
  | S n => match partition_on c s with Some (a, b) => a :: split_max c n b | None => [s] end
  end.

(** [s.count(c)] and [s.replace(a, b)] for single characters *)
Definition count_char (c : N) (s : list N) : nat := length (List.filter (N.eqb c) s).
Definition replace_char (a b : N) (s : list N) : list N := map (fun x => if N.eqb x a then b else x) s.

Definition lacks (c : N) (s : list N) : bool := forallb (fun x => negb (N.eqb x c)) s.
Lemma count_lacks c s : lacks c s = true → count_char c s = 0%nat.
Proof.
  unfold count_char. induction s as [|x s IH]; cbn; [done|]. rewrite (N.eqb_sym c x). intros [->%negb_true_iff H]%andb_true_iff. by apply IH.
Qed.
Lemma count_app c s t : count_char c (s ++ t) = (count_char c s + count_char c t)%nat.
Proof. unfold count_char. by rewrite List.filter_app, length_app. Qed.

(** ** Character classes *)

(** [str.isspace] *)
Definition SPACES : list N :=
  [9; 10; 11; 12; 13; 28; 29; 30; 31; 32; 133; 160; 5760; 8192; 8193; 8194; 8195; 8196; 8197; 8198; 8199; 8200; 8201;
   8202; 8232; 8233; 8239; 8287; 12288].
Definition is_space (c : N) : bool := existsb (N.eqb c) SPACES.

Fixpoint lstrip (s : list N) : list N :=
  match s with x :: s' => if is_space x then lstrip s' else s | [] => [] end.
(** [s.strip()] *)
Definition strip (s : list N) : list N := rev (lstrip (rev (lstrip s))).

(** [c.lower()] for the comparisons with ASCII keywords: outside ASCII only U+212A (k) and U+0130 (an i with a
    combining dot) have ASCII in their lower case, and no keyword holds a k or a dot. *)
Definition lower_char (c : N) : N := if (65 <=? c) && (c <=? 90) then c + 32 else c.
Definition lower (s : list N) : list N := map lower_char s.

(** The first code points of the runs of ten decimal digits (general category Nd). *)
Definition DECIMAL_ZEROS : list N :=
  [48; 1632; 1776; 1984; 2406; 2534; 2662; 2790; 2918; 3046; 3174; 3302; 3430; 3558; 3664; 3792; 3872; 4160; 4240; 6112;
   6160; 6470; 6608; 6784; 6800; 6992; 7088; 7232; 7248; 42528; 43216; 43264; 43472; 43504; 43600; 44016; 65296; 66720;
   68912; 69734; 69872; 69942; 70096; 70384; 70736; 70864; 71248; 71360; 71472; 71904; 72016; 72784; 73040; 73120; 73552;
   92768; 92864; 93008; 120782; 120792; 120802; 120812; 120822; 123200; 123632; 124144; 125264; 130032].
(** Digits that are not decimals: superscripts, circled digits and the like. *)
Definition OTHER_DIGITS : list (N * N) :=
  [(178, 179); (185, 185); (4969, 4977); (6618, 6618); (8304, 8304); (8308, 8313); (8320, 8329); (9312, 9320); (9332, 9340);
   (9352, 9360); (9450, 9450); (9461, 9469); (9471, 9471); (10102, 10110); (10112, 10120); (10122, 10130); (68160, 68163);
   (69216, 69224); (69714, 69722); (127232, 127242)].

Definition decimal_value (c : N) : option N :=
  option_map (fun z => c - z) (List.find (fun z => (z <=? c) && (c <=? z + 9)) DECIMAL_ZEROS).
Definition is_digit (c : N) : bool :=
  match decimal_value c with
  | Some _ => true
  | None => existsb (fun '(a, b) => (a <=? c) && (c <=? b)) OTHER_DIGITS
  end.
(** [s.isdigit()]: some character, all digits *)
Definition isdigit (s : list N) : bool := match s with [] => false | _ => forallb is_digit s end.

(** ** Numbers *)

Definition of_digits (base : N) (ds : list N) : N := fold_left (fun a d => base * a + d) ds 0.

(** [int(s)] on a string of digits: a digit that is no decimal, or more than 4300 of them, is a [ValueError] *)
Definition int_of_digits (s : list N) : res N :=
  if (length s <=? int_max_str_digits)%nat then
    match mapM decimal_value s with
    | Some ds => Ok (of_digits 10 ds)
    | None => Raise (ValueError "invalid literal for int() with base 10")
    end
  else Raise (ValueError "Exceeds the limit (4300 digits) for integer string conversion").

(** [int(s, 16)] on a string of hexadecimal digits *)
Definition int_of_hex (s : list N) : option N :=
  match s with [] => None | _ => of_digits 16 <$> mapM hex_value s end.

(** [f'{n:x}'] by remainders; [fuel] is the number of digits, [N.size_nat] is enough *)
Fixpoint hex_digits (fuel : nat) (n : N) (acc : list N) : list N :=
  match fuel with
  | O => acc
  | S fuel => let acc := hex_digit (n mod 16) :: acc in if n <? 16 then acc else hex_digits fuel (n / 16) acc
  end.
Definition hex (n : N) : list N := hex_digits (S (N.size_nat n)) n [].
(** [f'{n:0kx}'] for [n < 16^k] *)
Fixpoint hex_padded (k : nat) (n : N) : list N :=
  match k with O => [] | S k => hex_padded k (n / 16) ++ [hex_digit (n mod 16)] end.

(** [str(n)] *)
Definition decimal (n : N) : list N := uint_chars (N.to_uint n).

(** ** Lemmas: splitting *)

Lemma split_on_nonempty c s : split_on c s ≠ [].
Proof. destruct s as [|x s]; cbn; [done|]. destruct (x =? c); [done|]. by destruct (split_on c s). Qed.

Lemma join_split c s : join_chars [c] (split_on c s) = s.
Proof.
  induction s as [|x s IH]; [done|]. cbn. pose proof (split_on_nonempty c s) as Hn.
  destruct (N.eqb_spec x c) as [->|].
  - cbn. destruct (split_on c s); [done|]. by rewrite IH.
  - destruct (split_on c s) as [|p ps]; [done|]. cbn in *. destruct ps; by rewrite <-IH.
Qed.

Lemma split_on_lacks c s : lacks c s = true → split_on c s = [s].
Proof.
  induction s as [|x s IH]; [done|]. cbn. intros [->%negb_true_iff H]%andb_true_iff. by rewrite IH.
Qed.

Lemma split_on_app c a s : lacks c a = true → split_on c (a ++ c :: s) = a :: split_on c s.
Proof.
  induction a as [|x a IH]; cbn; [by rewrite N.eqb_refl|]. intros [->%negb_true_iff H]%andb_true_iff. by rewrite IH.
Qed.

Lemma split_join c ps : ps ≠ [] → forallb (lacks c) ps = true → split_on c (join_chars [c] ps) = ps.
Proof.
  intros Hn H. induction ps as [|p ps IH]; [done|]. cbn in H. apply andb_true_iff in H as [Hp H].
  destruct ps as [|q ps]; [by apply split_on_lacks|].
  change (join_chars [c] (p :: q :: ps)) with (p ++ c :: join_chars [c] (q :: ps)).
  rewrite split_on_app by done. by rewrite IH.
Qed.

Lemma split_parts_lack c s : forallb (lacks c) (split_on c s) = true.
Proof.
  induction s as [|x s IH]; [done|]. cbn. destruct (N.eqb_spec x c); [done|].
  destruct (split_on c s) as [|p ps]; cbn in *; [by apply N.eqb_neq in n; rewrite n|].
  apply andb_true_iff in IH as [Hp Hps]. unfold lacks in *. cbn. apply N.eqb_neq in n. by rewrite n, Hp, Hps.
Qed.

Lemma partition_app c a s : lacks c a = true → partition_on c (a ++ c :: s) = Some (a, s).
Proof.
  induction a as [|x a IH]; cbn; [by rewrite N.eqb_refl|]. intros [->%negb_true_iff H]%andb_true_iff. by rewrite IH.
Qed.

Lemma partition_none c s : lacks c s = true → partition_on c s = None.
Proof. induction s as [|x s IH]; cbn; [done|]. intros [->%negb_true_iff H]%andb_true_iff. by rewrite IH. Qed.

Lemma partition_some c s a b : partition_on c s = Some (a, b) → s = a ++ c :: b ∧ lacks c a = true.
Proof.
  revert a. induction s as [|x s IH]; cbn; intros a; [done|]. destruct (N.eqb_spec x c) as [->|n].
  - by intros [= <- <-].
  - destruct (partition_on c s) as [[a' b']|]; [|done]. intros [= <- <-]. destruct (IH a' eq_refl) as [-> H].
    split; [done|]. cbn. apply N.eqb_neq in n. by rewrite n.
Qed.

Lemma lacks_app c a b : lacks c (a ++ b) = lacks c a && lacks c b.
Proof. apply forallb_app. Qed.

Lemma lacks_impl (P : N -> bool) c s : P c = false → forallb P s = true → lacks c s = true.
Proof.
  intros Hc. apply forallb_impl. intros x Hx. destruct (N.eqb_spec x c) as [->|]; [congruence|done].
Qed.

(** ** Lemmas: numbers *)

Lemma of_digits_snoc base ds d : of_digits base (ds ++ [d]) = base * of_digits base ds + d.
Proof. unfold of_digits. by rewrite fold_left_app. Qed.

Lemma mapM_app_Some {A B} (f : A -> option B) l1 l2 k1 k2 :
  mapM f l1 = Some k1 → mapM f l2 = Some k2 → mapM f (l1 ++ l2) = Some (k1 ++ k2).
Proof. rewrite !mapM_Some. apply Forall2_app. Qed.

(** A digit string denotes [n] in a base. *)
Definition denotes (base : N) (value : N -> option N) (s : list N) (n : N) : Prop :=
  ∃ ds, mapM value s = Some ds ∧ of_digits base ds = n.

Lemma denotes_snoc base value s n c d : denotes base value s n → value c = Some d →
  denotes base value (s ++ [c]) (base * n + d).
Proof.
  intros (ds & Hm & <-) Hc. exists (ds ++ [d]). split; [|apply of_digits_snoc].
  apply mapM_app_Some; [done|]. cbn. by rewrite Hc.
Qed.

Lemma denotes_fun base value s n : denotes base value s n → of_digits base <$> mapM value s = Some n.
Proof. by intros (ds & -> & <-). Qed.

Lemma hex_padded_denotes k n : n < 16 ^ N.of_nat k → denotes 16 hex_value (hex_padded k n) n.
Proof.
  revert n. induction k as [|k IH]; intros n Hn; [exists []; split; [done|]; cbn in *; lia|].
  rewrite Nat2N.inj_succ, N.pow_succ_r' in Hn. cbn [hex_padded]. rewrite (N.Div0.div_mod n 16) at 3.
  apply denotes_snoc; [apply IH, N.Div0.div_lt_upper_bound; lia|]. apply hex_value_digit, N.mod_lt. lia.
Qed.

Lemma hex_padded_length k n : length (hex_padded k n) = k.
Proof. revert n. induction k as [|k IH]; intros n; [done|]. cbn. rewrite length_app, IH. cbn. lia. Qed.

Lemma hex_digits_acc fuel n acc : hex_digits fuel n acc = hex_digits fuel n [] ++ acc.
Proof.
  revert n acc. induction fuel as [|fuel IH]; intros n acc; [done|]. cbn. destruct (n <? 16); [done|].
  rewrite (IH _ (_ :: acc)), (IH _ [_]), <-app_assoc. done.
Qed.

Lemma hex_digits_denotes fuel n : n < 16 ^ N.of_nat fuel → n = 0 ∨ (1 ≤ fuel)%nat → denotes 16 hex_value (hex_digits fuel n []) n.
Proof.
  revert n. induction fuel as [|fuel IH]; intros n Hn Hz; [exists []; split; [done|]; cbn in *; lia|]. cbn [hex_digits].
  rewrite Nat2N.inj_succ, N.pow_succ_r' in Hn.
  assert (hex_value (hex_digit (n mod 16)) = Some (n mod 16)) as Hd by (apply hex_value_digit, N.mod_lt; lia).
  destruct (N.ltb_spec n 16) as [H|H].
  - exists [n]. cbn. rewrite Hd, N.mod_small by lia. split; [done|]. cbn. lia.
  - rewrite hex_digits_acc. assert (denotes 16 hex_value (hex_digits fuel (n / 16) []) (n / 16)) as K.
    { apply IH; [apply N.Div0.div_lt_upper_bound; lia|]. right. destruct fuel; [|lia]. cbn in Hn. lia. }
    apply (denotes_snoc _ _ _ _ _ _ K) in Hd. by rewrite <-N.Div0.div_mod in Hd.
Qed.

Lemma hex_denotes n : denotes 16 hex_value (hex n) n.
Proof.
  apply hex_digits_denotes; [|right; lia]. assert (n < 2 ^ N.of_nat (N.size_nat n)) as H.
  { destruct n as [|p]; [done|]. assert (N.of_nat (N.size_nat (N.pos p)) = N.size (N.pos p)) as ->; [|apply N.size_gt].
    cbn [N.size N.size_nat]. induction p as [p IH|p IH|]; cbn [Pos.size Pos.size_nat]; [..|done]; rewrite Nat2N.inj_succ, IH; lia. }
  rewrite Nat2N.inj_succ, N.pow_succ_r'. eapply N.lt_le_trans; [exact H|].
  transitivity (16 ^ N.of_nat (N.size_nat n)); [by apply N.pow_le_mono_l|]. lia.
Qed.

Lemma hex_digit_cases n : n < 16 → is_digit_char (hex_digit n) || ((97 <=? hex_digit n) && (hex_digit n <=? 102)) = true.
Proof.
  intros H. unfold hex_digit, is_digit_char. destruct (N.ltb_spec n 10).
  - apply orb_true_iff. left. apply andb_true_iff. rewrite !N.leb_le. lia.
  - apply orb_true_iff. right. apply andb_true_iff. rewrite !N.leb_le. lia.
Qed.

(** The characters of a hexadecimal rendering. *)
Definition is_hex_lower (c : N) : bool := is_digit_char c || ((97 <=? c) && (c <=? 102)).

Lemma hex_chars fuel n acc : forallb is_hex_lower acc = true → forallb is_hex_lower (hex_digits fuel n acc) = true.
Proof.
  revert n acc. induction fuel as [|fuel IH]; intros n acc H; [done|]. cbn.
  assert (is_hex_lower (hex_digit (n mod 16)) = true) as Hd by (apply hex_digit_cases, N.mod_lt; lia).
  destruct (n <? 16); [by cbn; rewrite Hd|]. apply IH. cbn. by rewrite Hd.
Qed.

Lemma hex_nonempty n : hex n ≠ [].
Proof. unfold hex. cbn. destruct (n <? 16); [done|]. rewrite hex_digits_acc. by intros [_ ?]%app_eq_nil. Qed.

(** Decimal rendering is read back by [int], with a canonical first digit. *)
Lemma uint_denotes_acc d acc : ∃ ds, mapM decimal_value (uint_chars d) = Some ds ∧
  fold_left (fun a x => 10 * a + x) ds (N.pos acc) = N.pos (Pos.of_uint_acc d acc).
Proof.
  revert acc. induction d as [|d IH|d IH|d IH|d IH|d IH|d IH|d IH|d IH|d IH|d IH]; intros acc; [by exists []|..];
    cbn [uint_chars Pos.of_uint_acc];
    (match goal with |- context [Pos.of_uint_acc d ?a] => destruct (IH a) as (ds & Hm & Hv) end);
    (match goal with |- context [mapM _ (?c :: _)] => exists ((c - 48) :: ds) end); cbn [mapM];
    cbn; rewrite Hm; (split; [done|]); cbn [fold_left]; rewrite <-Hv; f_equal; cbn; lia.
Qed.

Lemma uint_denotes d : denotes 10 decimal_value (uint_chars d) (N.of_uint d).
Proof.
  unfold denotes, of_digits. induction d as [|d IH|d _|d _|d _|d _|d _|d _|d _|d _|d _]; [by exists []| |..].
  { destruct IH as (ds & Hm & Hv). exists (0 :: ds). cbn. rewrite Hm. done. }
  all: (match goal with |- context [uint_chars (?D ?d)] =>
      let v := eval cbv in (match uint_chars (D Decimal.Nil) with [c] => c - 48 | _ => 0 end) in
      match v with N.pos ?p => destruct (uint_denotes_acc d p) as (ds & Hm & Hv); exists (N.pos p :: ds) end end);
    cbn; rewrite Hm; done.
Qed.

Lemma decimal_denotes n : denotes 10 decimal_value (decimal n) n.
Proof. unfold decimal. pose proof (uint_denotes (N.to_uint n)) as H. by rewrite DecimalN.Unsigned.of_to in H. Qed.

Lemma int_of_decimal n : (length (decimal n) <= int_max_str_digits)%nat → int_of_digits (decimal n) = Ok n.
Proof.
  intros H. unfold int_of_digits. apply Nat.leb_le in H. rewrite H. destruct (decimal_denotes n) as (ds & -> & <-). done.
Qed.
