(* ===== verification/Ip.v ===== *)
(** * IP addresses

    What the adapter uses of Python's [ipaddress] (3.12): [ip_address(text)], [str(address)] and equality.
    [IpAddressing] is the interface the failover code relies on; [python_ip] discharges it. *)

From stdpp Require Import base list.
From Stdlib Require Import ZArith NArith Lia.
From S2P Require Import Prelude Json Text.
Local Open Scope py_scope.
Local Open Scope N_scope.

(** [ip_address] refuses by [ValueError]; the text of a parsed address reads back as that address. *)
Class IpAddressing (addr : Type) := {
  ip_eq_dec :: EqDecision addr;
  ip_address : pystr -> option addr;
  ip_str : addr -> pystr;
  ip_str_parse : ∀ s a, ip_address s = Some a → ip_address (ip_str a) = Some a }.

(** ** IPv4 *)

Definition octet (s : list N) : option N :=
  match s with
  | [] => None
  | c :: rest =>
      if forallb is_digit_char s && (length s <=? 3)%nat && (negb (c =? 48) || match rest with [] => true | _ => false end)
      then let v := digits_value s in if v <=? 255 then Some v else None
      else None
  end.
Definition parse_v4 (s : list N) : option (list N) :=
  let parts := split_on 46 s in if (length parts =? 4)%nat then mapM octet parts else None.
Definition render_v4 (octets : list N) : list N := join_chars [46] (map decimal octets).

(** ** IPv6: an address is its eight 16-bit groups *)

Definition hextet (s : list N) : option N :=
  if (length s <=? 4)%nat then int_of_hex s else None.

(** The groups around at most one [::]; [None] stands for an empty part. *)
Definition empty_part (p : option N) : bool := match p with None => true | _ => false end.
Definition skip_index (parts : list (option N)) : option (option nat) :=
  match List.filter (fun i => match nth i parts (Some 0) with None => true | _ => false end)
          (seq 1 (length parts - 2)) with
  | [] => Some None
  | [i] => Some (Some i)
  | _ => None
  end.
Definition expand (parts : list (option N)) : option (list N) :=
  if (length parts <=? 9)%nat then
    match skip_index parts with
    | None => None
    | Some (Some i) =>
        let hi := take i parts in
        let lo := drop (S i) parts in
        let hi := match hi with None :: hi' => match hi' with [] => Some [] | _ => None end | _ => Some hi end in
        let lo := match rev lo with None :: lo' => match lo' with [] => Some [] | _ => None end | _ => Some lo end in
        match hi, lo with
        | Some hi, Some lo =>
            if (length hi + length lo <? 8)%nat
            then hi ← mapM id hi; lo ← mapM id lo; Some (hi ++ repeat 0 (8 - (length hi + length lo)) ++ lo)
            else None
        | _, _ => None
        end
    | Some None => if (length parts =? 8)%nat then mapM id parts else None
    end
  else None.

Definition part_value (s : list N) : option (option N) :=
  match s with [] => Some None | _ => Some <$> hextet s end.

(** A trailing dotted quad counts for two groups. *)
Definition embed_v4 (parts : list (list N)) : option (list (list N)) :=
  match rev parts with
  | last :: before =>
      if lacks 46 last then Some parts
      else match parse_v4 last with
           | Some [a; b; c; d] => Some (rev before ++ [hex (256 * a + b); hex (256 * c + d)])
           | _ => None
           end
  | [] => None
  end.

Definition parse_v6 (s : list N) : option (list N) :=
  let parts := split_on 58 s in
  if (3 <=? length parts)%nat then parts ← embed_v4 parts; values ← mapM part_value parts; expand values else None.

(** [_compress_hextets]: the longest run of zero groups, the first of the longest, becomes one empty part. *)
Fixpoint zero_run (groups : list N) : nat :=
  match groups with 0 :: rest => S (zero_run rest) | _ => O end.
Definition best_run (groups : list N) : nat * nat :=
  fold_left (fun best i => let n := zero_run (drop i groups) in if (best.2 <? n)%nat then (i, n) else best)
    (seq 0 (length groups)) (O, O).
Definition compress (groups : list N) : list (option N) :=
  let '(start, len) := best_run groups in
  if (1 <? len)%nat then
    let stop := (start + len)%nat in
    (if (start =? 0)%nat then [None] else []) ++ map Some (take start groups) ++ [None] ++ map Some (drop stop groups) ++
    (if (stop =? length groups)%nat then [None] else [])
  else map Some groups.
Definition render_part (p : option N) : list N := match p with Some n => hex n | None => [] end.
Definition render_v6 (groups : list N) : list N := join_chars [58] (map render_part (compress groups)).

(** ** Addresses *)

Inductive IpAddr := V4 (octets : list N) | V6 (groups : list N) (scope_id : option (list N)).
#[global] Instance ip_addr_eq_dec : EqDecision IpAddr.
Proof. solve_decision. Defined.

Definition parse_ip (s : pystr) : option IpAddr :=
  let s := py_chars s in
  if lacks 47 s then
    match parse_v4 s with
    | Some octets => Some (V4 octets)
    | None =>
        match partition_on 37 s with
        | None => (fun g => V6 g None) <$> parse_v6 s
        | Some (addr, scope) =>
            if lacks 37 scope && negb (length scope =? 0)%nat then (fun g => V6 g (Some scope)) <$> parse_v6 addr else None
        end
    end
  else None.
Definition render_ip (a : IpAddr) : pystr :=
  PStr match a with
       | V4 octets => render_v4 octets
       | V6 groups None => render_v6 groups
       | V6 groups (Some scope) => render_v6 groups ++ 37 :: scope
       end.

Example parse_samples :
  render_ip <$> parse_ip "2001:db8:0:0:1:0:0:1" = Some ("2001:db8::1:0:0:1" : pystr) ∧
  render_ip <$> parse_ip "::FFFF:10.0.0.1" = Some ("::ffff:a00:1" : pystr) ∧
  render_ip <$> parse_ip "fe80::1%eth0" = Some ("fe80::1%eth0" : pystr) ∧ render_ip <$> parse_ip "::" = Some ("::" : pystr) ∧
  parse_ip "10.0.0.01" = None ∧ parse_ip "10.0.0.256" = None ∧ parse_ip "1::2::3" = None ∧ parse_ip ":1:2:3:4:5:6:7" = None ∧
  parse_ip "1:2:3:4:5:6:7:8:9" = None ∧ parse_ip "::12345" = None ∧ parse_ip "" = None ∧
  render_ip <$> parse_ip "10.1.2.3" = Some ("10.1.2.3" : pystr) ∧ parse_ip "1:2:3:4:5:6:7::" = Some (V6 [1; 2; 3; 4; 5; 6; 7; 0] None).
Proof. vm_compute. split_and!; reflexivity. Qed.

(** ** Round trips *)

Lemma octet_range s n : octet s = Some n → n <= 255.
Proof. unfold octet. destruct s; [done|]. destruct (_ && _); [|done]. cbv zeta. destruct (N.leb_spec (digits_value (n0 :: s)) 255); [|done]. by intros [= <-]. Qed.

Lemma octet_chars s n : octet s = Some n → forallb is_digit_char s = true.
Proof. unfold octet. destruct s; [done|]. destruct (forallb is_digit_char _); [done|]. done. Qed.

Lemma octet_decimal n : n <= 255 → octet (decimal n) = Some n.
Proof.
  assert (forallb (fun i => bool_decide (octet (decimal (N.of_nat i)) = Some (N.of_nat i))) (seq 0 256) = true) as H
    by (vm_compute; reflexivity).
  intros Hn. rewrite forallb_forall in H. specialize (H (N.to_nat n)). rewrite N2Nat.id in H.
  apply (bool_decide_eq_true (octet (decimal n) = Some n)), H. apply in_seq. lia.
Qed.

Lemma decimal_chars n : forallb is_digit_char (decimal n) = true.
Proof. apply uint_chars_digits. Qed.

Lemma digits_lack c s : is_digit_char c = false → forallb is_digit_char s = true → lacks c s = true.
Proof. apply lacks_impl. Qed.

Lemma parse_v4_spec s os : parse_v4 s = Some os →
  length os = 4%nat ∧ Forall (fun n => n <= 255) os ∧ forallb (fun c => is_digit_char c || (c =? 46)) s = true.
Proof.
  unfold parse_v4. destruct (Nat.eqb_spec (length (split_on 46 s)) 4) as [Hl|]; [|done]. intros H%mapM_Some.
  split_and!.
  - rewrite <-Hl. symmetry. by eapply Forall2_length.
  - eapply Forall2_Forall_r; [exact H|]. apply Forall_true. intros p n Hn. by eapply octet_range.
  - rewrite <-(join_split 46 s). clear Hl. induction H as [|p n ps ns Hp%octet_chars Hps IH]; [done|].
    assert (forallb (fun c => is_digit_char c || (c =? 46)) p = true) as Hp'
      by (eapply forallb_impl; [|exact Hp]; intros c ->; done).
    destruct ps as [|q ps]; [done|].
    change (join_chars [46] (p :: q :: ps)) with (p ++ [46] ++ join_chars [46] (q :: ps)). rewrite !forallb_app, Hp', IH. done.
Qed.

Lemma parse_render_v4 os : length os = 4%nat → Forall (fun n => n <= 255) os → parse_v4 (render_v4 os) = Some os.
Proof.
  intros Hl Hr. unfold parse_v4, render_v4. rewrite split_join.
  - rewrite length_map, Hl. cbn [Nat.eqb]. apply mapM_Some. clear Hl.
    induction Hr as [|n os Hn Hos IH]; constructor; [by apply octet_decimal|done].
  - by destruct os.
  - apply forallb_forall. intros p (n & <- & _)%in_map_iff. apply digits_lack; [done|]. apply decimal_chars.
Qed.

Lemma render_v4_chars os : forallb (fun c => is_digit_char c || (c =? 46)) (render_v4 os) = true.
Proof.
  unfold render_v4. induction os as [|n os IH]; [done|].
  assert (forallb (fun c => is_digit_char c || (c =? 46)) (decimal n) = true) as Hn
    by (eapply forallb_impl; [|apply decimal_chars]; intros c ->; done).
  destruct os as [|m os]; [done|].
  change (join_chars [46] (map decimal (n :: m :: os))) with (decimal n ++ [46] ++ join_chars [46] (map decimal (m :: os))).
  rewrite !forallb_app, Hn, IH. done.
Qed.

(** Fewer than 16^k: at most k hexadecimal digits, and the other way round. *)
Lemma hex_digits_length fuel n k : n < 16 ^ N.of_nat k → (1 ≤ k)%nat → (length (hex_digits fuel n []) <= k)%nat.
Proof.
  revert n k. induction fuel as [|fuel IH]; intros n k Hn Hk; [cbn; lia|]. cbn [hex_digits].
  destruct (N.ltb_spec n 16) as [H|H]; [cbn; lia|]. rewrite hex_digits_acc, length_app. cbn [length].
  destruct k as [|[|k]]; [lia|cbn in Hn; lia|]. rewrite Nat2N.inj_succ, N.pow_succ_r' in Hn.
  assert (length (hex_digits fuel (n / 16) []) <= S k)%nat; [|lia]. apply IH; [apply N.Div0.div_lt_upper_bound; lia|lia].
Qed.

Lemma hextet_hex n : n < 65536 → hextet (hex n) = Some n.
Proof.
  intros H. unfold hextet. assert (length (hex n) <= 4)%nat as Hl%Nat.leb_le by (apply (hex_digits_length _ n 4); [done|lia]).
  rewrite Hl. unfold int_of_hex. pose proof (hex_nonempty n) as Hn. pose proof (denotes_fun _ _ _ _ (hex_denotes n)) as Hd.
  by destruct (hex n).
Qed.

Lemma of_digits_bound ds : Forall (fun d => d < 16) ds → of_digits 16 ds < 16 ^ N.of_nat (length ds).
Proof.
  induction ds as [|d ds IH] using rev_ind; [done|]. intros [H1 H2]%Forall_app. inversion H2; subst.
  rewrite of_digits_snoc, length_app, Nat.add_comm. cbn [length Nat.add]. rewrite Nat2N.inj_succ, N.pow_succ_r'.
  specialize (IH H1). lia.
Qed.

Lemma hex_value_range c v : hex_value c = Some v → v < 16.
Proof.
  unfold hex_value. repeat match goal with |- context [if ?b then _ else _] => destruct b eqn:? end; intros [= <-];
    apply andb_true_iff in Heqb as [?%N.leb_le ?%N.leb_le] || (apply andb_true_iff in Heqb0 as [?%N.leb_le ?%N.leb_le]) ||
    apply andb_true_iff in Heqb1 as [?%N.leb_le ?%N.leb_le]; lia.
Qed.

Lemma hextet_range s n : hextet s = Some n → n < 65536.
Proof.
  unfold hextet, int_of_hex. destruct (Nat.leb_spec (length s) 4) as [Hl|]; [|done]. destruct s as [|c s]; [done|].
  intros (ds & Hm & ->)%fmap_Some. apply mapM_Some in Hm. pose proof (Forall2_length _ _ _ Hm) as Hlen.
  assert (Forall (fun d => d < 16) ds) as Hr.
  { eapply Forall2_Forall_r; [exact Hm|]. apply Forall_true. intros x y Hy. by eapply hex_value_range. }
  apply of_digits_bound in Hr. eapply N.lt_le_trans; [exact Hr|]. transitivity (16 ^ 4); [|done].
  apply N.pow_le_mono_r; [done|]. lia.
Qed.

Definition group_ok (p : option N) : Prop := match p with Some n => n < 65536 | None => True end.

Lemma expand_spec parts groups : expand parts = Some groups → Forall group_ok parts →
  length groups = 8%nat ∧ Forall (fun n => n < 65536) groups.
Proof.
  assert (∀ l g, mapM id l = Some g → Forall group_ok l → length g = length l ∧ Forall (fun n => n < 65536) g) as Hid.
  { intros l g Hm%mapM_Some Hl. split; [symmetry; by eapply Forall2_length|]. eapply Forall2_Forall_r; [exact Hm|].
    eapply Forall_impl; [exact Hl|]. intros x Hx y Hy. unfold id in Hy. by subst. }
  unfold expand. destruct (_ <=? _)%nat; [|done]. destruct (skip_index parts) as [[i|]|]; [..|done].
  - cbv zeta. intros H Hp.
    destruct (match take i parts with None :: hi' => match hi' with [] => Some [] | _ => None end | _ => Some (take i parts) end)
      as [hi|] eqn:Ehi; [|done].
    destruct (match rev (drop (S i) parts) with None :: lo' => match lo' with [] => Some [] | _ => None end | _ => Some (drop (S i) parts) end)
      as [lo|] eqn:Elo; [|done].
    destruct (Nat.ltb_spec (length hi + length lo) 8) as [Hlt|]; [|done].
    assert (Forall group_ok hi) as Hhi.
    { assert (hi = [] ∨ hi = take i parts) as [->| ->]; [|constructor|by apply Forall_take].
      destruct (take i parts) as [|[?|] [|? ?]]; simplify_eq; auto. }
    assert (Forall group_ok lo) as Hlo.
    { assert (lo = [] ∨ lo = drop (S i) parts) as [->| ->]; [|constructor|by apply Forall_drop].
      destruct (rev (drop (S i) parts)) as [|[?|] [|? ?]]; simplify_eq; auto. }
    apply bind_Some in H as (h & Hh & H). apply bind_Some in H as (l & Hl & H). injection H as <-.
    destruct (Hid _ _ Hh Hhi) as [E1 F1], (Hid _ _ Hl Hlo) as [E2 F2]. split.
    + rewrite !length_app, repeat_length. lia.
    + apply Forall_app. split; [done|]. apply Forall_app. split; [|done]. apply Forall_forall. intros x Hx.
      apply list_elem_of_In, repeat_spec in Hx. subst. lia.
  - destruct (Nat.eqb_spec (length parts) 8) as [Hl|]; [|done]. intros H Hp. destruct (Hid _ _ H Hp). split; [congruence|done].
Qed.

Lemma part_value_ok s p : part_value s = Some p → group_ok p.
Proof. unfold part_value. destruct s; [by intros [= <-]|]. intros (v & Hv & ->)%fmap_Some. by eapply hextet_range. Qed.

Lemma parse_v6_spec s groups : parse_v6 s = Some groups → length groups = 8%nat ∧ Forall (fun n => n < 65536) groups.
Proof.
  unfold parse_v6. destruct (_ <=? _)%nat; [|done]. intros (parts & _ & H)%bind_Some. apply bind_Some in H as (vs & Hm%mapM_Some & H).
  eapply expand_spec; [exact H|]. eapply Forall2_Forall_r; [exact Hm|]. apply Forall_true. intros x y. apply part_value_ok.
Qed.

(** Compression loses nothing. *)
Lemma expand_compress groups : length groups = 8%nat → expand (compress groups) = Some groups ∧ (3 <= length (compress groups))%nat.
Proof.
  intros H. do 8 (destruct groups as [|[|?] groups]; [discriminate H|..]).
  all: destruct groups; [|discriminate H]; clear H; split; [reflexivity|apply Nat.leb_le; reflexivity].
Qed.

Lemma compress_groups groups : Forall (fun n => n < 65536) groups → Forall group_ok (compress groups).
Proof.
  assert (∀ l, Forall (fun n => n < 65536) l → Forall group_ok (map Some l)) as Hs.
  { intros l Hl. induction Hl; constructor; done. }
  intros H. unfold compress. destruct (best_run groups) as [start len]. destruct (_ <? _)%nat; [|by apply Hs].
  repeat (apply Forall_app; split); try (by apply Hs, Forall_take); try (by apply Hs, Forall_drop).
  - destruct (start =? 0)%nat; repeat constructor.
  - repeat constructor.
  - destruct (_ =? _)%nat; repeat constructor.
Qed.

Lemma hex_char_list n : forallb is_hex_lower (hex n) = true.
Proof. by apply hex_chars. Qed.

Lemma render_part_chars p : forallb is_hex_lower (render_part p) = true.
Proof. destruct p; [apply hex_char_list|done]. Qed.

Lemma render_v6_chars groups : forallb (fun c => is_hex_lower c || (c =? 58)) (render_v6 groups) = true.
Proof.
  unfold render_v6. induction (compress groups) as [|p ps IH]; [done|].
  assert (forallb (fun c => is_hex_lower c || (c =? 58)) (render_part p) = true) as Hp
    by (eapply forallb_impl; [|apply render_part_chars]; intros c ->; done).
  destruct ps as [|q ps]; [done|].
  change (join_chars [58] (map render_part (p :: q :: ps)))
    with (render_part p ++ [58] ++ join_chars [58] (map render_part (q :: ps))). rewrite !forallb_app, Hp, IH. done.
Qed.

Lemma parts_split groups : length groups = 8%nat → split_on 58 (render_v6 groups) = map render_part (compress groups).
Proof.
  intros H%expand_compress. apply split_join; [destruct (compress groups); [cbn in H; lia|done]|].
  apply forallb_forall. intros s (p & <- & _)%in_map_iff. eapply lacks_impl; [|apply render_part_chars]. done.
Qed.

Lemma parse_render_v6 groups : length groups = 8%nat → Forall (fun n => n < 65536) groups →
  parse_v6 (render_v6 groups) = Some groups.
Proof.
  intros Hl Hr. destruct (expand_compress groups Hl) as [He H3]. unfold parse_v6. rewrite parts_split by done. cbv zeta.
  rewrite length_map. apply Nat.leb_le in H3. rewrite H3. apply Nat.leb_le in H3.
  assert (embed_v4 (map render_part (compress groups)) = Some (map render_part (compress groups))) as ->.
  { unfold embed_v4. rewrite <-map_rev. destruct (rev (compress groups)) as [|p ps] eqn:E.
    - apply (f_equal length) in E. rewrite length_rev in E. cbn in E. lia.
    - cbn [map]. assert (lacks 46 (render_part p) = true) as ->; [|done]. eapply lacks_impl; [|apply render_part_chars]. done. }
  cbn [mbind option_bind]. assert (mapM part_value (map render_part (compress groups)) = Some (compress groups)) as ->; [|done].
  apply mapM_Some. apply compress_groups in Hr. clear He H3. induction Hr as [|p ps Hp Hps IH]; constructor; [|done].
  destruct p as [n|]; [|done]. cbn [render_part]. unfold part_value. pose proof (hex_nonempty n). pose proof (hextet_hex n Hp) as E.
  destruct (hex n); [done|]. by rewrite E.
Qed.

Lemma v6_not_v4 groups rest : length groups = 8%nat → parse_v4 (render_v6 groups ++ rest) = None.
Proof.
  intros Hl. destruct (parse_v4 _) as [os|] eqn:E; [exfalso|done]. apply parse_v4_spec in E as (_ & _ & E).
  rewrite forallb_app in E. apply andb_true_iff in E as [E _].
  assert (lacks 58 (render_v6 groups) = true) as H%split_on_lacks by (eapply lacks_impl; [|exact E]; done).
  rewrite parts_split in H by done. apply (f_equal length) in H. rewrite length_map in H. cbn in H.
  apply expand_compress in Hl as [_ Hl]. lia.
Qed.

Lemma render_ip_parse s a : parse_ip s = Some a → parse_ip (render_ip a) = Some a.
Proof.
  unfold parse_ip. destruct s as [s]. cbn [py_chars]. destruct (lacks 47 s) eqn:H47; [|done].
  destruct (parse_v4 s) as [os|] eqn:E4.
  { intros [= <-]. apply parse_v4_spec in E4 as (Hl & Hr & _). cbn [render_ip py_chars].
    assert (lacks 47 (render_v4 os) = true) as -> by (eapply lacks_impl; [|apply render_v4_chars]; done).
    by rewrite parse_render_v4. }
  assert (∀ c g, is_hex_lower c || (c =? 58) = false → lacks c (render_v6 g) = true) as Hc
    by (intros c g Hx; eapply lacks_impl; [|apply render_v6_chars]; done).
  destruct (partition_on 37 s) as [[addr scope]|] eqn:Ep.
  - destruct (lacks 37 scope && negb (length scope =? 0)%nat) eqn:Hs; [|done]. intros (g & Hg & ->)%fmap_Some.
    apply partition_some in Ep as [-> _]. apply parse_v6_spec in Hg as [Hl Hr]. cbn [render_ip py_chars].
    rewrite lacks_app in H47. apply andb_true_iff in H47 as [_ H47]. rewrite lacks_app, (Hc 47 g eq_refl), H47. cbn [andb].
    rewrite v6_not_v4, partition_app, Hs, parse_render_v6 by auto. done.
  - intros (g & Hg & ->)%fmap_Some. apply parse_v6_spec in Hg as [Hl Hr]. cbn [render_ip py_chars].
    rewrite (Hc 47 g eq_refl). pose proof (v6_not_v4 g [] Hl) as H4. rewrite app_nil_r in H4. rewrite H4.
    rewrite partition_none, parse_render_v6 by auto. done.
Qed.

#[export] Instance python_ip : IpAddressing IpAddr :=
  {| ip_address := parse_ip; ip_str := render_ip; ip_str_parse := render_ip_parse |}.
