(* ===== verification/Dialect.v ===== *)
(** * Community dialects

    src/nso_adapter/core/community_dialect.py: translation of BGP community members between the canonical form and the
    Nokia (timos) device form.  A member is its list of code points; [None] stands for UNREPRESENTABLE.  Both directions
    call [int] on strings accepted by [isdigit], which raises on digits that are no decimals. *)

From stdpp Require Import base list.
From Stdlib Require Import ZArith NArith Lia.
From S2P Require Import Prelude Json Text.
Local Open Scope py_scope.
Local Open Scope N_scope.

Notation text s := (py_chars s%py).

Definition WELL_KNOWN : list (list N) :=
  [text "no-export"; text "no-advertise"; text "no-export-subconfed"; text "no-peer"; text "local-as"; text "internet"; text "none"].
Definition REGEX_METACHARS : list N := text ".*[]()?+^$|\".

Definition member_of (s : list N) (l : list (list N)) : bool := existsb (fun x => bool_decide (x = s)) l.
Definition is_prefix (p s : list N) : bool := chars_prefix p s.

(** [_typed_keyword] *)
Definition typed_keyword (m : list N) : option (list N) :=
  match partition_on 58 m with
  | None => None
  | Some (head, _) =>
      match head with
      | [] => None
      | c :: _ => if is_digit c then None else Some (lower head)
      end
  end.

(** [_has_regex] *)
Definition has_regex (v : list N) : bool := existsb (fun c => existsb (N.eqb c) REGEX_METACHARS) v.

Definition COLOR_EXT_PREFIX : list N := text "ext:030b:".
Definition CO_MAX : N := 3.
Definition is_hex_digit (c : N) : bool := match hex_value c with Some _ => true | None => false end.

(** [member.split(':', 1)[1]] *)
Definition after_colon (m : list N) : list N := match partition_on 58 m with Some (_, rest) => rest | None => [] end.

(** [_color_to_nokia_ext] *)
Definition color_to_nokia_ext (m : list N) : res (option (list N)) :=
  match split_on 58 (after_colon m) with
  | [co_s; value_s] =>
      if isdigit co_s && isdigit value_s then
        co ← int_of_digits co_s;
        value ← int_of_digits value_s;
        if (CO_MAX <? co) || (4294967295 <? value) then Ok None
        else Ok (Some (COLOR_EXT_PREFIX ++ hex_padded 4 (N.shiftl co 14) ++ hex_padded 8 value))
      else Ok None
  | _ => Ok None
  end.

Definition color_text (co value : N) : list N := text "color:" ++ decimal co ++ [58] ++ decimal value.

(** [_nokia_ext_to_color] *)
Definition nokia_ext_to_color (m : list N) : option (list N) :=
  if is_prefix COLOR_EXT_PREFIX m then
    let body := drop (length COLOR_EXT_PREFIX) m in
    if negb (length body =? 12)%nat || existsb (fun c => negb (is_hex_digit c)) body then None
    else flags ← int_of_hex (take 4 body); value ← int_of_hex (drop 4 body); Some (color_text (N.shiftr flags 14) value)
  else None.

(** [_normalize_native_color] *)
Definition normalize_native_color (m : list N) : res (option (list N)) :=
  if is_prefix (text "color:") m then
    match split_on 58 m with
    | [_; co_s; value_s] =>
        if isdigit co_s && isdigit value_s then
          co ← int_of_digits co_s; value ← int_of_digits value_s; Ok (Some (color_text co value))
        else Ok None
    | _ => Ok None
    end
  else Ok None.

(** [_NokiaCommunityDialect._large_from_canonical] *)
Definition large_from_canonical (m : list N) : option (list N) :=
  let body := after_colon m in
  match split_on 58 body with
  | [a; b; c] => Some (if existsb has_regex [a; b; c] then join_chars [38] [a; b; c] else body)
  | _ => None
  end.

Definition SUPPORTED_KEYWORDS : list (list N) := [text "target"; text "origin"; text "ext"].

Definition digit_head (m : list N) : bool := match m with c :: _ => is_digit c | [] => false end.

(** [_NokiaCommunityDialect.to_canonical] *)
Definition nokia_to_canonical (member : list N) : res (list N) :=
  let m := strip member in
  match nokia_ext_to_color m with
  | Some color => Ok color
  | None =>
      native ← normalize_native_color m;
      match native with
      | Some color => Ok color
      | None =>
          if match typed_keyword m with None => digit_head m | Some _ => false end then
            if (count_char 58 m =? 2)%nat then Ok (text "large:" ++ m)
            else if (count_char 38 m =? 2)%nat then Ok (text "large:" ++ replace_char 38 58 m)
            else Ok m
          else Ok m
      end
  end.

(** [_NokiaCommunityDialect.from_canonical] *)
Definition nokia_from_canonical (member : list N) : res (option (list N)) :=
  let m := strip member in
  if member_of (lower m) WELL_KNOWN then Ok (Some m)
  else match typed_keyword m with
  | None => Ok (Some m)
  | Some k =>
      if member_of k SUPPORTED_KEYWORDS then Ok (Some m)
      else if bool_decide (k = text "large") then Ok (large_from_canonical m)
      else if bool_decide (k = text "color") then color_to_nokia_ext m
      else Ok None
  end.

(** [CommunityDialect] with its two registered instances *)
Inductive CommunityDialect := identity_dialect | nokia_timos.
#[global] Instance dialect_eq_dec : EqDecision CommunityDialect.
Proof. solve_decision. Defined.

Definition to_canonical (d : CommunityDialect) (m : list N) : res (list N) :=
  match d with identity_dialect => Ok m | nokia_timos => nokia_to_canonical m end.
Definition from_canonical (d : CommunityDialect) (m : list N) : res (option (list N)) :=
  match d with identity_dialect => Ok (Some m) | nokia_timos => nokia_from_canonical m end.

(** [CommunityDialect.unrepresentable_members] *)
Fixpoint unrepresentable_loop (d : CommunityDialect) (members seen out : list (list N)) : res (list (list N)) :=
  match members with
  | [] => Ok out
  | m :: rest =>
      match m with
      | [] => unrepresentable_loop d rest seen out
      | _ =>
          if member_of m seen then unrepresentable_loop d rest seen out
          else w ← from_canonical d m;
               unrepresentable_loop d rest (m :: seen) (match w with None => out ++ [m] | Some _ => out end)
      end
  end.
Definition unrepresentable_members (d : CommunityDialect) (members : list (list N)) : res (list (list N)) :=
  unrepresentable_loop d members [] [].

(** [name], [_NED_PREFIX_DIALECTS], [community_dialect_for], [community_dialect_by_name] *)
Definition dialect_name (d : CommunityDialect) : list N := match d with identity_dialect => text "identity" | nokia_timos => text "nokia_timos" end.
Definition NED_PREFIX_DIALECTS : list (list N * CommunityDialect) := [(text "timos-nc", nokia_timos)].
Definition community_dialect_for (ned_id : option (list N)) : CommunityDialect :=
  match ned_id with
  | None => identity_dialect
  | Some id => match List.find (fun '(p, _) => is_prefix p id) NED_PREFIX_DIALECTS with Some (_, d) => d | None => identity_dialect end
  end.
Definition community_dialect_by_name (name : list N) : res CommunityDialect :=
  match List.find (fun d => bool_decide (dialect_name d = name)) [identity_dialect; nokia_timos] with
  | Some d => Ok d
  | None => Raise (ValueError "unknown community dialect")
  end.

Example dialect_samples :
  nokia_from_canonical (text "color:0:128") = Ok (Some (text "ext:030b:000000000080")) ∧
  nokia_to_canonical (text "ext:030b:000000000080") = Ok (text "color:0:128") ∧
  nokia_to_canonical (text "color:00:600") = Ok (text "color:0:600") ∧
  nokia_from_canonical (text "large:64500:.*:[0-4]") = Ok (Some (text "64500&.*&[0-4]")) ∧
  nokia_to_canonical (text "64500&.*&[0-4]") = Ok (text "large:64500:.*:[0-4]") ∧
  nokia_from_canonical (text "color:0:12.") = Ok None ∧ nokia_from_canonical (text "bandwidth:1:2") = Ok None ∧
  nokia_from_canonical (text " NO-EXPORT ") = Ok (Some (text "NO-EXPORT")).
Proof. vm_compute. split_and!; reflexivity. Qed.

(** ** Lemmas *)

Definition bare (s : list N) : bool := match s with c :: _ => negb (is_space c) | [] => true end.

Lemma lstrip_length s : (length (lstrip s) <= length s)%nat.
Proof. induction s as [|c s IH]; cbn [lstrip]; [done|]. destruct (is_space c); cbn [length]; [lia|done]. Qed.
Lemma lstrip_id s : lstrip s = s ↔ bare s = true.
Proof.
  destruct s as [|c s]; [done|]. cbn [lstrip bare]. destruct (is_space c); cbn [negb]; [|done]. split; [|done]. intros E.
  apply (f_equal length) in E. pose proof (lstrip_length s). cbn [length] in E. lia.
Qed.
Lemma strip_id s : strip s = s ↔ bare s = true ∧ bare (rev s) = true.
Proof.
  unfold strip. split.
  - intros E. assert (length (lstrip s) = length s) as Hl.
    { apply (f_equal length) in E. rewrite length_rev in E. pose proof (lstrip_length (rev (lstrip s))) as H1.
      pose proof (lstrip_length s) as H2. rewrite length_rev in H1. lia. }
    assert (lstrip s = s) as E1.
    { destruct s as [|c s]; [done|]. revert Hl. cbn [lstrip length]. destruct (is_space c); [|done]. pose proof (lstrip_length s). intros Hl. lia. }
    split; [by apply lstrip_id|]. rewrite E1 in E. apply lstrip_id. rewrite <-E at 2. by rewrite rev_involutive.
  - intros [H1%lstrip_id H2%lstrip_id]. by rewrite H1, H2, rev_involutive.
Qed.

Lemma digit_not_space c : is_digit c = true → is_space c = false.
Proof.
  intros H. destruct (is_space c) eqn:E; [|done]. unfold is_space in E. apply existsb_exists in E as (x & Hx & ->%N.eqb_eq).
  assert (forallb (fun y => negb (is_digit y)) SPACES = true) as K by (vm_compute; reflexivity).
  rewrite forallb_forall in K. specialize (K _ Hx). by rewrite H in K.
Qed.

Lemma prefix_app p s : chars_prefix p (p ++ s) = true.
Proof. induction p as [|c p IH]; [done|]. cbn. by rewrite N.eqb_refl. Qed.
Lemma prefix_inv p s : chars_prefix p s = true → s = p ++ drop (length p) s.
Proof.
  revert s. induction p as [|c p IH]; intros s; [done|]. destruct s as [|x s]; [done|]. cbn.
  intros [->%N.eqb_eq H]%andb_true_iff. f_equal. by apply IH.
Qed.
Lemma drop_app_length {A} (p s : list A) : drop (length p) (p ++ s) = s.
Proof. by rewrite drop_app_length. Qed.

(** *** Colours *)

Lemma hex_padded_hex k n : forallb is_hex_digit (hex_padded k n) = true.
Proof.
  revert n. induction k as [|k IH]; intros n; [done|]. cbn. rewrite forallb_app, IH. cbn. unfold is_hex_digit.
  rewrite hex_value_digit by (apply N.mod_lt; lia). done.
Qed.

Lemma int_of_hex_padded k n : n < 16 ^ N.of_nat k → (0 < k)%nat → int_of_hex (hex_padded k n) = Some n.
Proof.
  intros Hn Hk. pose proof (denotes_fun _ _ _ _ (hex_padded_denotes k n Hn)) as H. pose proof (hex_padded_length k n) as Hl.
  unfold int_of_hex. destruct (hex_padded k n); [cbn in Hl; lia|done].
Qed.

Lemma existsb_negb_forallb {A} (f : A -> bool) l : forallb f l = true → existsb (fun x => negb (f x)) l = false.
Proof. induction l as [|x l IH]; cbn; [done|]. intros [-> H]%andb_true_iff. by apply IH. Qed.

Lemma ext_of_color co value : co <= CO_MAX → value <= 4294967295 →
  nokia_ext_to_color (COLOR_EXT_PREFIX ++ hex_padded 4 (N.shiftl co 14) ++ hex_padded 8 value) = Some (color_text co value).
Proof.
  intros Hco Hv. unfold nokia_ext_to_color, is_prefix. rewrite prefix_app, drop_app_length. cbv zeta.
  rewrite length_app, !hex_padded_length. cbn [Nat.add Nat.eqb negb orb].
  rewrite existsb_negb_forallb by (by rewrite forallb_app, !hex_padded_hex).
  assert (N.shiftl co 14 < 16 ^ N.of_nat 4) as Hf by (rewrite N.shiftl_mul_pow2; unfold CO_MAX in Hco; cbn; lia).
  rewrite take_app_length', drop_app_length' by (symmetry; apply hex_padded_length).
  rewrite !int_of_hex_padded by (done || lia || (cbn; lia)). cbn [mbind option_bind]. f_equal. f_equal.
  rewrite N.shiftr_div_pow2, N.shiftl_mul_pow2. by apply N.div_mul.
Qed.

Lemma color_ext_bare n v : bare (COLOR_EXT_PREFIX ++ n ++ hex_padded 8 v) = true ∧ bare (rev (COLOR_EXT_PREFIX ++ n ++ hex_padded 8 v)) = true.
Proof.
  split; [done|]. rewrite !rev_app_distr. cbn [hex_padded]. rewrite !rev_app_distr. cbn [rev app bare].
  assert (v mod 16 < 16) as H by (apply N.mod_lt; lia). unfold hex_digit. revert H. generalize (v mod 16). intros x H.
  destruct (N.ltb_spec x 10).
  - rewrite digit_not_space; [done|]. unfold is_digit, decimal_value. cbn [DECIMAL_ZEROS List.find].
    rewrite (proj2 (N.leb_le 48 (48 + x))), (proj2 (N.leb_le (48 + x) (48 + 9))) by lia. done.
  - assert (x ∈ [10; 11; 12; 13; 14; 15]) as Hin by (rewrite !elem_of_cons; lia).
    revert Hin. rewrite !elem_of_cons, elem_of_nil. by intros [->|[->|[->|[->|[->|[->|[]]]]]]].
Qed.

(** *** Separators *)

Lemma count_three c a b d : lacks c a = true → lacks c b = true → lacks c d = true → count_char c (join_chars [c] [a; b; d]) = 2%nat.
Proof.
  intros Ha Hb Hd. cbn [join_chars]. rewrite !count_app, (count_lacks c a), (count_lacks c b), (count_lacks c d) by done.
  unfold count_char. cbn [List.filter]. by rewrite N.eqb_refl.
Qed.

Lemma replace_lacks a b s : lacks a s = true → replace_char a b s = s.
Proof. unfold replace_char. induction s as [|x s IH]; cbn; [done|]. intros [->%negb_true_iff H]%andb_true_iff. by rewrite IH. Qed.
Lemma replace_app a b s t : replace_char a b (s ++ t) = replace_char a b s ++ replace_char a b t.
Proof. apply map_app. Qed.
Lemma replace_three c c' a b d : lacks c a = true → lacks c b = true → lacks c d = true →
  replace_char c c' (join_chars [c] [a; b; d]) = join_chars [c'] [a; b; d].
Proof.
  intros Ha Hb Hd. cbn [join_chars]. rewrite !replace_app, (replace_lacks c c' a), (replace_lacks c c' b), (replace_lacks c c' d) by done.
  unfold replace_char. cbn [map]. by rewrite N.eqb_refl.
Qed.

Lemma bare_replace s : bare (replace_char 58 38 s) = bare s.
Proof. destruct s as [|c s]; [done|]. cbn [replace_char map bare]. destruct (N.eqb_spec c 58) as [->|]; done. Qed.

Lemma split_three s a b d : split_on 58 s = [a; b; d] →
  s = join_chars [58] [a; b; d] ∧ lacks 58 a = true ∧ lacks 58 b = true ∧ lacks 58 d = true.
Proof.
  intros E. pose proof (join_split 58 s) as J. pose proof (split_parts_lack 58 s) as L. rewrite E in J, L. cbn [forallb] in L.
  rewrite !andb_true_iff in L. naive_solver.
Qed.

(** A member that starts with a digit is no colour in either spelling. *)
Lemma digit_head_plain m : digit_head m = true → nokia_ext_to_color m = None ∧ normalize_native_color m = Ok None.
Proof.
  intros H. unfold nokia_ext_to_color, normalize_native_color, is_prefix. destruct m as [|c m]; [done|]. cbn [digit_head] in H.
  assert (c ≠ 101 ∧ c ≠ 99) as [H1 H2] by (split; intros ->; vm_compute in H; done).
  apply N.eqb_neq in H1, H2. change COLOR_EXT_PREFIX with (101 :: text "xt:030b:"). change (text "color:") with (99 :: text "olor:").
  cbn [chars_prefix]. rewrite N.eqb_sym in H1, H2. by rewrite H1, H2.
Qed.

(** *** Large communities *)

Lemma large_back body w : strip body = body → digit_head body = true → lacks 38 body = true →
  large_from_canonical (text "large:" ++ body) = Some w → nokia_to_canonical w = Ok (text "large:" ++ body).
Proof.
  intros Hs Hd Hl. unfold large_from_canonical.
  assert (after_colon (text "large:" ++ body) = body) as -> by done. cbv zeta.
  destruct (split_on 58 body) as [|a [|b [|d [|? ?]]]] eqn:E; try done. intros Hw.
  assert (w = if existsb has_regex [a; b; d] then join_chars [38] [a; b; d] else body) as -> by congruence. clear Hw.
  apply split_three in E as (Eb & La & Lb & Ld). destruct (digit_head_plain body Hd) as [E1 E2].
  assert (∃ c a', a = c :: a' ∧ is_digit c = true) as (c & a' & -> & Hc).
  { destruct a as [|c a']; [rewrite Eb in Hd; cbn in Hd; done|]. rewrite Eb in Hd. cbn in Hd. eauto. }
  destruct (existsb has_regex [c :: a'; b; d]).
  - set (w := join_chars [38] [c :: a'; b; d]).
    assert (w = replace_char 58 38 body) as Ew by (rewrite Eb; symmetry; by apply replace_three).
    assert (strip w = w) as Hsw.
    { apply strip_id in Hs as [H1 H2]. apply strip_id. rewrite Ew. unfold replace_char. rewrite <-map_rev.
      change (bare (replace_char 58 38 body) = true ∧ bare (replace_char 58 38 (rev body)) = true). by rewrite !bare_replace. }
    assert (digit_head w = true) as Hdw by done. destruct (digit_head_plain w Hdw) as [F1 F2].
    assert (lacks 38 (c :: a') = true ∧ lacks 38 b = true ∧ lacks 38 d = true) as (Ma & Mb & Md).
    { rewrite Eb in Hl. cbn [join_chars] in Hl. rewrite !lacks_app in Hl. rewrite !andb_true_iff in Hl. naive_solver. }
    assert (lacks 58 w = true) as Hw58. { unfold w. cbn [join_chars]. rewrite !lacks_app, La, Lb, Ld. done. }
    assert (count_char 38 w = 2%nat) as C38 by (by apply count_three).
    assert (replace_char 38 58 w = body) as R38 by (rewrite Eb; by apply replace_three). clearbody w.
    unfold nokia_to_canonical. rewrite Hsw. cbv zeta. rewrite F1, F2. unfold mbind, res_bind.
    unfold typed_keyword. rewrite partition_none by done. by rewrite Hdw, (count_lacks 58 w Hw58), C38, R38.
  - unfold nokia_to_canonical. rewrite Hs. cbv zeta. rewrite E1, E2. unfold mbind, res_bind.
    assert (typed_keyword body = None) as ->.
    { unfold typed_keyword. rewrite Eb. change (join_chars [58] [c :: a'; b; d]) with ((c :: a') ++ 58 :: join_chars [58] [b; d]).
      rewrite partition_app by done. by rewrite Hc. }
    rewrite Hd. rewrite Eb at 1. by rewrite (count_three 58 _ _ _ La Lb Ld).
Qed.

(** *** Reading back what was written *)

(** The keyword is spelled in lower case; a large community has a numeric head and no separator of the device form. *)
Definition plain_spelling (m : list N) : bool :=
  match typed_keyword m with
  | None => true
  | Some k => is_prefix (k ++ [58]) m &&
              (negb (bool_decide (k = text "large")) || digit_head (after_colon m) && lacks 38 (after_colon m))
  end.

Lemma int_of_digits_inv s n : int_of_digits s = Ok n → (length s <= int_max_str_digits)%nat.
Proof. unfold int_of_digits. destruct (Nat.leb_spec (length s) int_max_str_digits); [done|discriminate]. Qed.

(** Nokia community members round-trip.  A canonical member - one that reading leaves as it is, with its keyword in lower case, and
    a numeric head where it is a large community - that can be written to a Nokia device is read back as the same member: colours
    through their RFC 9012 hexadecimal form with the colour-only bits intact, large communities through the keyword-less exact
    and the regular-expression form, everything else verbatim. *)
Theorem nokia_round_trip m w : strip m = m → nokia_to_canonical m = Ok m → plain_spelling m = true →
  nokia_from_canonical m = Ok (Some w) → nokia_to_canonical w = Ok m.
Proof.
  intros Hs Hc Hp Hf. unfold nokia_from_canonical in Hf. rewrite Hs in Hf. cbv zeta in Hf.
  destruct (member_of (lower m) WELL_KNOWN); [congruence|]. unfold plain_spelling in Hp.
  destruct (typed_keyword m) as [k|] eqn:Ek; [|congruence]. destruct (member_of k SUPPORTED_KEYWORDS); [congruence|].
  apply andb_true_iff in Hp as [Hpre%prefix_inv Hlarge]. case_bool_decide as Hkl; cbn [negb orb] in Hlarge.
  - subst k. injection Hf as Hf. apply andb_true_iff in Hlarge as [Hd Hl].
    assert (∃ body, m = text "large:" ++ body) as [body Em] by (eexists; exact Hpre). clear Hpre. subst m.
    apply large_back; [|exact Hd|exact Hl|exact Hf]. apply strip_id in Hs as [_ Hr]. apply strip_id. split.
    + destruct body as [|c b']; [done|]. cbn [bare]. change (is_digit c = true) in Hd. by rewrite digit_not_space.
    + rewrite rev_app_distr in Hr. by destruct (rev body).
  - destruct (decide (k = text "color")) as [->|]; [|by rewrite bool_decide_eq_false_2 in Hf].
    rewrite bool_decide_eq_true_2 in Hf by done.
    assert (∃ body, m = text "color:" ++ body) as [body Em] by (eexists; exact Hpre). clear Hpre.
    unfold nokia_to_canonical in Hc. rewrite Hs in Hc. cbv zeta in Hc.
    assert (nokia_ext_to_color m = None) as E1 by (rewrite Em; done). rewrite E1 in Hc.
    unfold color_to_nokia_ext in Hf. assert (after_colon m = body) as E2 by (rewrite Em; done). rewrite E2 in Hf.
    destruct (split_on 58 body) as [|co_s [|v_s [|? ?]]] eqn:Esp; try done.
    assert (split_on 58 m = [text "color"; co_s; v_s]) as E3 by (rewrite Em; change (text "color:" ++ body) with (text "color" ++ 58 :: body); by rewrite split_on_app, Esp).
    unfold normalize_native_color in Hc. assert (is_prefix (text "color:") m = true) as E4 by (rewrite Em; apply prefix_app). rewrite E4, E3 in Hc.
    destruct (isdigit co_s && isdigit v_s); [|done]. destruct (int_of_digits co_s) as [co|]; [|done]. destruct (int_of_digits v_s) as [v|]; [|done].
    unfold_res. injection Hc as Hc. destruct ((CO_MAX <? co) || (4294967295 <? v)) eqn:Er; [done|].
    assert (w = COLOR_EXT_PREFIX ++ hex_padded 4 (N.shiftl co 14) ++ hex_padded 8 v) as -> by congruence. clear Hf.
    apply orb_false_iff in Er as [H1%N.ltb_ge H2%N.ltb_ge]. pose proof (ext_of_color co v H1 H2) as Hx.
    pose proof (color_ext_bare (hex_padded 4 (N.shiftl co 14)) v) as Hb. unfold nokia_to_canonical. revert Hx Hb.
    generalize (COLOR_EXT_PREFIX ++ hex_padded 4 (N.shiftl co 14) ++ hex_padded 8 v). intros w Hx Hb%strip_id. rewrite Hb. cbv zeta. by rewrite Hx, Hc.
Qed.

(** A colour, and a large community with a regular expression in one part. *)
Lemma nokia_round_trip_witness :
  (∃ w, nokia_from_canonical (text "color:3:128") = Ok (Some w) ∧ nokia_to_canonical w = Ok (text "color:3:128")) ∧
  (∃ w, nokia_from_canonical (text "large:64500:.*:[0-4]") = Ok (Some w) ∧ nokia_to_canonical w = Ok (text "large:64500:.*:[0-4]")).
Proof.
  split.
  - exists (text "ext:030b:c00000000080"). split; [vm_compute; reflexivity|].
    apply (nokia_round_trip (text "color:3:128")); vm_compute; reflexivity.
  - exists (text "64500&.*&[0-4]"). split; [vm_compute; reflexivity|].
    apply (nokia_round_trip (text "large:64500:.*:[0-4]")); vm_compute; reflexivity.
Defined.

(** A superscript digit passes [isdigit] but not [int]: the member raises where a malformed one is reported as
    unrepresentable, and takes the other members of its list with it. *)
Lemma superscript_colour_raises :
  (∃ e, nokia_from_canonical (text "color:" ++ [178] ++ text ":5") = Raise e) ∧
  nokia_from_canonical (text "color:x:5") = Ok None ∧
  unrepresentable_members nokia_timos [text "color:x:5"] = Ok [text "color:x:5"] ∧
  (∃ e, unrepresentable_members nokia_timos [text "color:x:5"; text "color:" ++ [178] ++ text ":5"] = Raise e).
Proof. split_and!; try (eexists; vm_compute; reflexivity); vm_compute; reflexivity. Qed.

(** A large community whose first part is a regular expression loses its keyword on the device and is read back without it. *)
Lemma large_regex_head_not_restored :
  nokia_from_canonical (text "large:[0-9]+:1:2") = Ok (Some (text "[0-9]+&1&2")) ∧
  nokia_to_canonical (text "[0-9]+&1&2") = Ok (text "[0-9]+&1&2").
Proof. split; vm_compute; reflexivity. Qed.
