(* ===== verification/Codec.v ===== *)
(** * Byte decoding as the error path uses it

    [bytes.decode("utf-8", errors="surrogateescape")] and the decoding [json.loads] applies to a
    [bytes] document: the encoding is guessed from the first bytes, then decoded with
    [errors="surrogatepass"].  A byte is an [N] below 256. *)

From stdpp Require Import base gmap list strings.
From Stdlib Require Import ZArith NArith Lia.
From S2P Require Import Prelude Json.
Local Open Scope N_scope.

(** ** UTF-8 *)

Definition is_cont (b : N) : bool := (128 <=? b) && (b <=? 191).
Definition is_surrogate (c : N) : bool := (55296 <=? c) && (c <=? 57343).

(** One code point from the front of the input: shortest form only, at most U+10FFFF, and a
    surrogate only where the error handler passes it. *)
Definition utf8_step (surrogates : bool) (bs : list N) : option (N * list N) :=
  match bs with
  | [] => None
  | b0 :: r =>
      if b0 <? 128 then Some (b0, r)
      else if b0 <? 192 then None
      else if b0 <? 224 then
        match r with
        | b1 :: r' =>
            let c := (b0 - 192) * 64 + (b1 - 128) in
            if is_cont b1 && (128 <=? c) then Some (c, r') else None
        | [] => None
        end
      else if b0 <? 240 then
        match r with
        | b1 :: b2 :: r' =>
            let c := ((b0 - 224) * 64 + (b1 - 128)) * 64 + (b2 - 128) in
            if is_cont b1 && is_cont b2 && (2048 <=? c) && (surrogates || negb (is_surrogate c))
            then Some (c, r') else None
        | _ => None
        end
      else if b0 <? 248 then
        match r with
        | b1 :: b2 :: b3 :: r' =>
            let c := (((b0 - 240) * 64 + (b1 - 128)) * 64 + (b2 - 128)) * 64 + (b3 - 128) in
            if is_cont b1 && is_cont b2 && is_cont b3 && (65536 <=? c) && (c <=? 1114111)
            then Some (c, r') else None
        | _ => None
        end
      else None
  end.

(** An undecodable byte [b] becomes U+DC00 + [b].  The fuel is the number of bytes. *)
Fixpoint utf8_escape (fuel : nat) (bs : list N) : list N :=
  match fuel, bs with
  | O, _ | _, [] => []
  | S fuel, b :: r =>
      match utf8_step false bs with
      | Some (c, rest) => c :: utf8_escape fuel rest
      | None => (56320 + b) :: utf8_escape fuel r
      end
  end.

(** [body.decode("utf-8", errors="surrogateescape")] *)
Definition decode_surrogateescape (bs : list N) : pystr := PStr (utf8_escape (length bs) bs).

Fixpoint utf8_pass (fuel : nat) (bs : list N) : option (list N) :=
  match fuel, bs with
  | _, [] => Some []
  | O, _ => None
  | S fuel, _ =>
      '(c, rest) ← utf8_step true bs; cs ← utf8_pass fuel rest; Some (c :: cs)
  end.

(** ** UTF-16 and UTF-32 *)

(** The code units of a given width, or [None] for a truncated unit. *)
Fixpoint units16 (little : bool) (bs : list N) : option (list N) :=
  match bs with
  | [] => Some []
  | a :: b :: r => us ← units16 little r; Some ((if little then b * 256 + a else a * 256 + b) :: us)
  | _ => None
  end.

Fixpoint join_surrogates (us : list N) : list N :=
  match us with
  | h :: ((l :: r) as rest) =>
      if (55296 <=? h) && (h <=? 56319) && (56320 <=? l) && (l <=? 57343)
      then 65536 + (h - 55296) * 1024 + (l - 56320) :: join_surrogates r
      else h :: join_surrogates rest
  | _ => us
  end.

Fixpoint units32 (little : bool) (bs : list N) : option (list N) :=
  match bs with
  | [] => Some []
  | a :: b :: c :: d :: r =>
      us ← units32 little r;
      let u := if little then ((d * 256 + c) * 256 + b) * 256 + a else ((a * 256 + b) * 256 + c) * 256 + d in
      if u <=? 1114111 then Some (u :: us) else None
  | _ => None
  end.

(** ** [json.detect_encoding] *)

Inductive encoding := Utf8 | Utf8Sig | Utf16 (little : bool) (bom : bool) | Utf32 (little : bool) (bom : bool).

Definition detect_encoding (b : list N) : encoding :=
  if chars_prefix [0; 0; 254; 255] b then Utf32 false true
  else if chars_prefix [255; 254; 0; 0] b then Utf32 true true
  else if chars_prefix [254; 255] b then Utf16 false true
  else if chars_prefix [255; 254] b then Utf16 true true
  else if chars_prefix [239; 187; 191] b then Utf8Sig
  else match b with
       | b0 :: b1 :: b2 :: b3 :: _ =>
           if b0 =? 0 then (if b1 =? 0 then Utf32 false false else Utf16 false false)
           else if b1 =? 0 then (if (b2 =? 0) && (b3 =? 0) then Utf32 true false else Utf16 true false)
           else Utf8
       | [b0; b1] => if b0 =? 0 then Utf16 false false else if b1 =? 0 then Utf16 true false else Utf8
       | _ => Utf8
       end.

Definition decode_surrogatepass (e : encoding) (b : list N) : option (list N) :=
  match e with
  | Utf8 => utf8_pass (length b) b
  | Utf8Sig => utf8_pass (length b) (drop 3 b)
  | Utf16 little bom => join_surrogates <$> units16 little (if bom then drop 2 b else b)
  | Utf32 little bom => units32 little (if bom then drop 4 b else b)
  end.

(** The text [json.loads] scans for a [bytes] document. *)
Definition json_bytes_text (b : list N) : option pystr := PStr <$> decode_surrogatepass (detect_encoding b) b.

(** ** ASCII bodies decode to themselves *)

Lemma utf8_escape_ascii l : forallb (fun c => c <? 128) l = true → utf8_escape (length l) l = l.
Proof.
  induction l as [|c l IH]; simpl; [done|]. intros [Hc Hl]%andb_prop. by rewrite Hc, IH.
Qed.

Lemma utf8_pass_ascii l : forallb (fun c => c <? 128) l = true → utf8_pass (length l) l = Some l.
Proof.
  induction l as [|c l IH]; simpl; [done|]. intros [Hc Hl]%andb_prop. rewrite Hc. simpl. by rewrite IH.
Qed.

Lemma detect_ascii l : forallb (fun c => (1 <=? c) && (c <? 128)) l = true → detect_encoding l = Utf8.
Proof.
  intros H. unfold detect_encoding. destruct l as [|a l]; [done|].
  simpl in H. apply andb_prop in H as [Ha Hl]. apply andb_prop in Ha as [Ha1%N.leb_le Ha2%N.ltb_lt].
  assert (∀ k, k = 0 ∨ 128 <= k → N.eqb k a = false) as Hk by (intros; apply N.eqb_neq; lia).
  cbn [chars_prefix]. rewrite !Hk by lia. cbn [andb].
  destruct l as [|b l]; [done|]. simpl in Hl. apply andb_prop in Hl as [Hb Hl].
  apply andb_prop in Hb as [Hb1%N.leb_le Hb2].
  rewrite (proj2 (N.eqb_neq a 0)), (proj2 (N.eqb_neq b 0)) by lia. by destruct l as [|c [|d l]].
Qed.

Lemma ascii_body l :
  forallb (fun c => (1 <=? c) && (c <? 128)) l = true →
  decode_surrogateescape l = PStr l ∧ json_bytes_text l = Some (PStr l).
Proof.
  intros H. assert (forallb (fun c => c <? 128) l = true) as Ha.
  { revert H. apply forallb_impl. by intros c [? ?]%andb_prop. }
  unfold decode_surrogateescape, json_bytes_text. rewrite utf8_escape_ascii, detect_ascii by done.
  simpl. by rewrite utf8_pass_ascii.
Qed.

(** The fuel is enough: every byte of the input is decoded or escaped. *)
Lemma utf8_step_shorter surrogates bs c r : utf8_step surrogates bs = Some (c, r) → (length r < length bs)%nat.
Proof.
  unfold utf8_step. intros H. destruct bs as [|b0 [|b1 [|b2 [|b3 bs]]]]; simpl in *;
    repeat case_match; simplify_eq; simpl; lia.
Qed.

Lemma utf8_escape_fuel bs fuel : (length bs <= fuel)%nat → utf8_escape fuel bs = utf8_escape (length bs) bs.
Proof.
  remember (length bs) as n eqn:E. assert (length bs <= n)%nat as Hn by lia. clear E.
  revert bs fuel Hn. induction n as [|n IH]; intros [|b bs] fuel Hn Hf; cbn [length] in *;
    try (by destruct fuel); try lia.
  destruct fuel as [|fuel]; [lia|]. cbn [utf8_escape].
  destruct (utf8_step false (b :: bs)) as [[c r]|] eqn:E.
  - apply utf8_step_shorter in E. simpl in E. f_equal. apply IH; lia.
  - f_equal. apply IH; lia.
Qed.
