(* ===== verification/Sha256.v ===== *)
(** * SHA-256

    [hashlib.sha256(data).hexdigest()] (FIPS 180-4), executable: bytes are values below
    256, words are 32-bit values with the wrap-around of [add32] written out. *)

From stdpp Require Import base list.
From Stdlib Require Import ZArith NArith Lia.
From S2P Require Import Prelude Json.
Local Open Scope Z_scope.

Definition w32 (x : Z) : Z := Z.land x 4294967295.
Definition add32 (x y : Z) : Z := w32 (x + y).
Definition rotr (n x : Z) : Z := Z.lor (Z.shiftr x n) (w32 (Z.shiftl x (32 - n))).
Definition not32 (x : Z) : Z := Z.lxor x 4294967295.

Definition Ch (x y z : Z) : Z := Z.lxor (Z.land x y) (Z.land (not32 x) z).
Definition Maj (x y z : Z) : Z := Z.lxor (Z.land x y) (Z.lxor (Z.land x z) (Z.land y z)).
Definition Sigma0 (x : Z) : Z := Z.lxor (rotr 2 x) (Z.lxor (rotr 13 x) (rotr 22 x)).
Definition Sigma1 (x : Z) : Z := Z.lxor (rotr 6 x) (Z.lxor (rotr 11 x) (rotr 25 x)).
Definition sigma0 (x : Z) : Z := Z.lxor (rotr 7 x) (Z.lxor (rotr 18 x) (Z.shiftr x 3)).
Definition sigma1 (x : Z) : Z := Z.lxor (rotr 17 x) (Z.lxor (rotr 19 x) (Z.shiftr x 10)).

(** The standard's constants are the first 32 fractional bits of the cube roots of the first 64
    primes and of the square roots of the first 8. *)
Fixpoint root_bits (f : Z -> Z) (target : Z) (bits : nat) (acc : Z) : Z :=
  match bits with
  | O => acc
  | S bits =>
      let acc' := acc + Z.shiftl 1 (Z.of_nat bits) in
      root_bits f target bits (if f acc' <=? target then acc' else acc)
  end.

Definition is_prime (n : Z) : bool :=
  forallb (fun d => negb (n mod Z.of_nat d =? 0)) (seq 2 (Z.to_nat n - 2)).
Definition primes : list Z :=
  Eval vm_compute in List.filter is_prime (map Z.of_nat (seq 2 310)).

Definition K256 : list Z :=
  Eval vm_compute in
    map (fun p => w32 (root_bits (fun r => r * r * r) (Z.shiftl p 96) 36 0)) primes.

Definition H0 : list Z :=
  Eval vm_compute in
    map (fun p => w32 (root_bits (fun r => r * r) (Z.shiftl p 64) 36 0)) (take 8 primes).

Fixpoint be_bytes (n : nat) (x : Z) : list Z :=
  match n with
  | O => []
  | S n => Z.land (Z.shiftr x (8 * Z.of_nat n)) 255 :: be_bytes n x
  end.

(** Append the bit 1, zeros to 56 modulo 64, and the bit length on 64 bits. *)
Definition pad (msg : list Z) : list Z :=
  let len := Z.of_nat (length msg) in
  msg ++ [128] ++ replicate (Z.to_nat ((55 - len) mod 64)) 0 ++ be_bytes 8 (8 * len).

Fixpoint words (l : list Z) : list Z :=
  match l with
  | a :: b :: c :: d :: l' => (((a * 256 + b) * 256 + c) * 256 + d) :: words l'
  | _ => []
  end.

(** The message schedule, newest word first: 16 words of the block, then 48 more. *)
Fixpoint schedule (n : nat) (rev_w : list Z) : list Z :=
  match n with
  | O => rev_w
  | S n =>
      let w i := nth i rev_w 0 in
      schedule n
        (add32 (add32 (sigma1 (w 1%nat)) (w 6%nat)) (add32 (sigma0 (w 14%nat)) (w 15%nat)) :: rev_w)
  end.

Definition round (st : list Z) (kw : Z * Z) : list Z :=
  match st with
  | [a; b; c; d; e; f; g; h] =>
      let t1 := add32 h (add32 (Sigma1 e) (add32 (Ch e f g) (add32 kw.1 kw.2))) in
      let t2 := add32 (Sigma0 a) (Maj a b c) in
      [add32 t1 t2; a; b; c; add32 d t1; e; f; g]
  | _ => st
  end.

Definition compress (st : list Z) (block : list Z) : list Z :=
  let w := rev (schedule 48 (rev (words block))) in
  zip_with add32 st (fold_left round (zip K256 w) st).

Fixpoint blocks (fuel : nat) (l : list Z) (st : list Z) : list Z :=
  match fuel with
  | O => st
  | S fuel =>
      match l with
      | [] => st
      | _ => blocks fuel (drop 64 l) (compress st (take 64 l))
      end
  end.

Definition digest_words (msg : list Z) : list Z :=
  let p := pad msg in blocks (S (length p)) p H0.

Definition hex_byte (b : Z) : list N :=
  [hex_digit (Z.to_N (Z.shiftr b 4)); hex_digit (Z.to_N (Z.land b 15))].

Definition sha256_hex (msg : list Z) : pystr :=
  PStr (flat_map (fun w => flat_map hex_byte (be_bytes 4 w)) (digest_words msg)).

(** The standard's test vectors. *)
Example sha256_abc :
  sha256_hex [97; 98; 99] = "ba7816bf8f01cfea414140de5dae2223b00361a396177a9cb410ff61f20015ad"%py.
Proof. vm_compute. reflexivity. Qed.

Example sha256_empty :
  sha256_hex [] = "e3b0c44298fc1c149afbf4c8996fb92427ae41e4649b934ca495991b7852b855"%py.
Proof. vm_compute. reflexivity. Qed.

(** [text.encode()] on an ASCII text: one byte per character. *)
Definition ascii_bytes (s : pystr) : list Z := map Z.of_N (py_chars s).

(** ** Shape: a digest is 64 lower-case hexadecimal digits *)

Definition is_hex (c : N) : bool := ((48 <=? c) && (c <=? 57) || (97 <=? c) && (c <=? 102))%N.

Lemma hex_digit_is_hex n : (n < 16)%N → is_hex (hex_digit n) = true.
Proof.
  intros H. unfold hex_digit, is_hex. destruct (N.ltb_spec n 10); apply orb_true_iff;
    [left|right]; apply andb_true_intro; split; apply N.leb_le; lia.
Qed.

Lemma hex_byte_is_hex b : 0 <= b < 256 → forallb is_hex (hex_byte b) = true.
Proof.
  intros Hb. unfold hex_byte. cbn [forallb].
  assert (0 <= Z.land b 15 < 16). { change 15 with (Z.ones 4). rewrite Z.land_ones by lia. by apply Z.mod_pos_bound. }
  assert (0 <= Z.shiftr b 4 < 16).
  { rewrite Z.shiftr_div_pow2 by lia. change (2 ^ 4) with 16.
    split; [apply Z.div_pos; lia|apply Z.div_lt_upper_bound; lia]. }
  rewrite !hex_digit_is_hex by lia. done.
Qed.

Lemma be_bytes_range n x : Forall (fun b => 0 <= b < 256) (be_bytes n x).
Proof.
  induction n; simpl; constructor; [|done].
  change 255 with (Z.ones 8). rewrite Z.land_ones by lia. by apply Z.mod_pos_bound.
Qed.

Lemma length_round st kw : length (round st kw) = length st.
Proof. unfold round. by repeat (case_match; try done). Qed.

Lemma length_rounds l st : length (fold_left round l st) = length st.
Proof. revert st. induction l as [|x l IH]; intros st; simpl; [done|]. by rewrite IH, length_round. Qed.

Lemma length_blocks fuel l st : length (blocks fuel l st) = length st.
Proof.
  revert l st. induction fuel as [|fuel IH]; intros l st; simpl; [done|].
  destruct l; [done|]. rewrite IH. unfold compress. rewrite length_zip_with, length_rounds. lia.
Qed.

Lemma hex_word_shape w :
  length (flat_map hex_byte (be_bytes 4 w)) = 8%nat ∧
  forallb is_hex (flat_map hex_byte (be_bytes 4 w)) = true.
Proof.
  pose proof (be_bytes_range 4 w) as H. cbn [be_bytes] in *.
  repeat (apply Forall_cons in H as [? H]). split; [done|].
  cbn [flat_map]. rewrite !forallb_app, !hex_byte_is_hex by done. done.
Qed.

Lemma hex_words_shape ws :
  length (flat_map (fun w => flat_map hex_byte (be_bytes 4 w)) ws) = (8 * length ws)%nat ∧
  forallb is_hex (flat_map (fun w => flat_map hex_byte (be_bytes 4 w)) ws) = true.
Proof.
  induction ws as [|w ws [IH1 IH2]]; [done|]. cbn -[be_bytes Nat.mul].
  destruct (hex_word_shape w). rewrite length_app, forallb_app. split; [lia|].
  apply andb_true_intro. done.
Qed.

Lemma sha256_hex_shape msg :
  py_len (sha256_hex msg) = 64%nat ∧ forallb is_hex (py_chars (sha256_hex msg)) = true.
Proof.
  unfold py_len, sha256_hex. cbn [py_chars].
  destruct (hex_words_shape (digest_words msg)) as [-> ->].
  unfold digest_words. by rewrite length_blocks.
Qed.
