(* ===== verification/RefusalCatalog.v ===== *)
(** * The definition of the refusal protocol

    [_DEFINITION_TEXT] of src/nso_adapter/nso/refusal_protocol.py as a JSON value, split into
    the subjects and messages of each family.  [RefusalProtocol] builds the tables from it
    with the code's own [_build_definition]. *)

From stdpp Require Import base list.
From Stdlib Require Import ZArith NArith.
From S2P Require Import Prelude Json.
Local Open Scope py_scope.

Definition jkey (kv : pystr * pystr) : json := JObj [("name", JStr kv.1); ("type", JStr kv.2)].
Definition jstep (l : pystr) (keys : list (pystr * pystr)) : json :=
  JObj [("list", JStr l); ("keys", JArr (map jkey keys))].
Definition jsubject (family : pystr) (path : list json) (fields : list pystr) : json :=
  JObj [("family", JStr family); ("path", JArr path); ("fields", JArr (map JStr fields))].
Definition jsecret_subject (family : pystr) (path : list json) (fields : list pystr) : json :=
  JObj [("family", JStr family); ("secret_keyed", JBool true); ("path", JArr path);
        ("fields", JArr (map JStr fields))].
Definition jmessage (reason text : pystr) : json :=
  JObj [("reason", JStr reason); ("text", JStr text)].

(** The subjects of the definition text, lines 58 to 137. *)
Definition subjects_singleton : list (pystr * json) :=
  [ ("vlan", jsubject "vlan" []
      [])
  ; ("lag", jsubject "lag" []
      [])
  ; ("interface", jsubject "interface" []
      [])
  ; ("subinterface", jsubject "subinterface" []
      [])
  ; ("svi", jsubject "svi" []
      [])
  ; ("switchport", jsubject "switchport" []
      [])
  ; ("mtu", jsubject "mtu" []
      [])
  ; ("l2-sap", jsubject "l2-sap" []
      [])
  ; ("route-policy", jsubject "route-policy" []
      [])
  ; ("static-route", jsubject "static-route" []
      [])
  ; ("bfd", jsubject "bfd" []
      [])
  ; ("isis", jsubject "isis" []
      [])
  ; ("ospf", jsubject "ospf" []
      [])
  ; ("bgp", jsubject "bgp" []
      [])
  ; ("snmp", jsubject "snmp" []
      [])
  ; ("logging", jsubject "logging" []
      []) ].

(** The subjects of the definition text, lines 138 to 155. *)
Definition subjects_vlan : list (pystr * json) :=
  [ ("vlan.vlan", jsubject "vlan" [jstep "vlan" [("vlan-id", "integer")]]
      ["vlan.vlan_id"; "vlan.name"]) ].

(** The subjects of the definition text, lines 156 to 206. *)
Definition subjects_lag : list (pystr * json) :=
  [ ("lag.bundle", jsubject "lag" [jstep "bundle" [("name", "string")]]
      ["lag.bundle"; "lag.min_links"; "lag.system_priority"; "lag.system_id"; "lag.timer"; "lag.admin_key"; "lag.member_mode"])
  ; ("lag.bundle.member", jsubject "lag" [jstep "bundle" [("name", "string")]; jstep "member" [("interface-name", "string")]]
      ["lag.member"; "lag.member_mode"; "lag.member_port_priority"]) ].

(** The subjects of the definition text, lines 207 to 331. *)
Definition subjects_interface : list (pystr * json) :=
  [ ("interface.description", jsubject "interface" [jstep "interface" [("interface-name", "string")]]
      ["interface.attrs.description"])
  ; ("interface.enabled", jsubject "interface" [jstep "interface" [("interface-name", "string")]]
      ["interface.attrs.enabled"])
  ; ("interface.ipv4-address", jsubject "interface" [jstep "interface" [("interface-name", "string")]; jstep "ipv4-address" [("address", "string")]]
      ["interface.ip.v4"; "interface.ip.v4.secondary"])
  ; ("interface.ipv6-address", jsubject "interface" [jstep "interface" [("interface-name", "string")]; jstep "ipv6-address" [("address", "string")]]
      ["interface.ip.v6"])
  ; ("interface.interface", jsubject "interface" [jstep "interface" [("interface-name", "string")]]
      ["interface.attrs.interface_name"; "interface.attrs.kind"; "interface.attrs.service"; "interface.attrs.parent_binding"; "interface.attrs.encap_tag"])
  ; ("interface.vrf", jsubject "interface" [jstep "interface" [("interface-name", "string")]]
      ["interface.ip.vrf"]) ].

(** The subjects of the definition text, lines 332 to 350. *)
Definition subjects_subinterface : list (pystr * json) :=
  [ ("subinterface.interface", jsubject "subinterface" [jstep "interface" [("interface-name", "string")]]
      ["subif.interface"; "subif.dot1q_vlan"; "subif.vrf"]) ].

(** The subjects of the definition text, lines 351 to 369. *)
Definition subjects_svi : list (pystr * json) :=
  [ ("svi.interface", jsubject "svi" [jstep "interface" [("interface-name", "string")]]
      ["svi.interface"; "svi.vrf"; "svi.vlan_binding"]) ].

(** The subjects of the definition text, lines 370 to 388. *)
Definition subjects_switchport : list (pystr * json) :=
  [ ("switchport.interface", jsubject "switchport" [jstep "interface" [("interface-name", "string")]]
      ["switchport.mode"; "switchport.untagged_vlan"; "switchport.tagged_vlans"]) ].

(** The subjects of the definition text, lines 389 to 407. *)
Definition subjects_mtu : list (pystr * json) :=
  [ ("mtu.interface", jsubject "mtu" [jstep "interface" [("interface-name", "string")]]
      ["interface.mtu.l2"; "interface.mtu.ip"; "interface.mtu.mpls"]) ].

(** The subjects of the definition text, lines 408 to 428. *)
Definition subjects_l2_sap : list (pystr * json) :=
  [ ("l2-sap.sap", jsubject "l2-sap" [jstep "sap" [("service-name", "string"); ("sap-id", "string")]]
      ["l2_service.sap_id"]) ].

(** The subjects of the definition text, lines 429 to 578. *)
Definition subjects_route_policy : list (pystr * json) :=
  [ ("route-policy.prefix-list", jsubject "route-policy" [jstep "prefix-list" [("name", "string")]]
      ["route-policy.prefix_list.action"; "route-policy.prefix_list.ge"; "route-policy.prefix_list.le"; "route-policy.prefix_list.name"; "route-policy.prefix_list.prefix"; "route-policy.prefix_list.sequence"])
  ; ("route-policy.prefix-list.entry", jsubject "route-policy" [jstep "prefix-list" [("name", "string")]; jstep "entry" [("sequence", "integer")]]
      ["route-policy.prefix_list.action"; "route-policy.prefix_list.ge"; "route-policy.prefix_list.le"; "route-policy.prefix_list.name"; "route-policy.prefix_list.prefix"; "route-policy.prefix_list.sequence"])
  ; ("route-policy.community-list", jsubject "route-policy" [jstep "community-list" [("name", "string")]]
      ["route-policy.community_list.action"; "route-policy.community_list.invert_match"; "route-policy.community_list.name"; "route-policy.device.community_format"])
  ; ("route-policy.community-list.entry", jsubject "route-policy" [jstep "community-list" [("name", "string")]; jstep "entry" [("sequence", "integer")]]
      ["route-policy.community_list.action"; "route-policy.community_list.community"; "route-policy.community_list.invert_match"; "route-policy.community_list.name"; "route-policy.device.community_format"])
  ; ("route-policy.as-path", jsubject "route-policy" [jstep "as-path" [("name", "string")]]
      ["route-policy.as_path.action"; "route-policy.as_path.name"; "route-policy.as_path.pattern"])
  ; ("route-policy.as-path.entry", jsubject "route-policy" [jstep "as-path" [("name", "string")]; jstep "entry" [("sequence", "integer")]]
      ["route-policy.as_path.action"; "route-policy.as_path.name"; "route-policy.as_path.pattern"]) ].

(** The subjects of the definition text, lines 579 to 652. *)
Definition subjects_route_policy_2 : list (pystr * json) :=
  [ ("route-policy.route-map", jsubject "route-policy" [jstep "route-map" [("name", "string")]]
      ["route-policy.device.community_format"; "route-policy.match.algorithm"; "route-policy.match.as_path"; "route-policy.match.community_list"; "route-policy.match.family"; "route-policy.match.interface"; "route-policy.match.length"; "route-policy.match.local_preference"; "route-policy.match.metric"; "route-policy.match.origin_match"; "route-policy.match.prefix_list"; "route-policy.match.protocol"; "route-policy.match.raw"; "route-policy.match.rib_has_route"; "route-policy.match.route_type"; "route-policy.match.tag"; "route-policy.match.to_protocol"; "route-policy.match.validation_state"; "route-policy.route_map.action"; "route-policy.route_map.body"; "route-policy.route_map.description"; "route-policy.route_map.entry_style"; "route-policy.route_map.name"; "route-policy.set.as_path_add"; "route-policy.set.as_path_prepend"; "route-policy.set.as_path_prepend_count"; "route-policy.set.as_path_remove"; "route-policy.set.as_path_replace"; "route-policy.set.comm_list_delete"; "route-policy.set.community"; "route-policy.set.community_additive"; "route-policy.set.community_delete"; "route-policy.set.delete_prefix_sid"; "route-policy.set.extcomm_list_delete"; "route-policy.set.extcommunity_color"; "route-policy.set.extcommunity_rt"; "route-policy.set.extcommunity_soo"; "route-policy.set.flow_control"; "route-policy.set.ip_next_hop"; "route-policy.set.level"; "route-policy.set.local_preference"; "route-policy.set.metric"; "route-policy.set.metric_op"; "route-policy.set.metric_type"; "route-policy.set.next"; "route-policy.set.next_hop_self"; "route-policy.set.origin"; "route-policy.set.priority"; "route-policy.set.raw"; "route-policy.set.suppress_route"; "route-policy.set.tag"; "route-policy.set.unsuppress_route"; "route-policy.set.validation_state"; "route-policy.set.weight"; "route-policy.route_map.sequence"; "route-policy.match.prefix_range"; "route-policy.match.subroutine"; "route-policy.set.install_to_fib"]) ].

(** The subjects of the definition text, lines 653 to 735. *)
Definition subjects_route_policy_3 : list (pystr * json) :=
  [ ("route-policy.route-map.entry", jsubject "route-policy" [jstep "route-map" [("name", "string")]; jstep "entry" [("sequence", "integer")]]
      ["route-policy.device.community_format"; "route-policy.match.algorithm"; "route-policy.match.as_path"; "route-policy.match.community_list"; "route-policy.match.family"; "route-policy.match.interface"; "route-policy.match.length"; "route-policy.match.local_preference"; "route-policy.match.metric"; "route-policy.match.origin_match"; "route-policy.match.prefix_list"; "route-policy.match.protocol"; "route-policy.match.raw"; "route-policy.match.rib_has_route"; "route-policy.match.route_type"; "route-policy.match.tag"; "route-policy.match.to_protocol"; "route-policy.match.validation_state"; "route-policy.route_map.action"; "route-policy.route_map.body"; "route-policy.route_map.description"; "route-policy.route_map.entry_style"; "route-policy.route_map.name"; "route-policy.set.as_path_add"; "route-policy.set.as_path_prepend"; "route-policy.set.as_path_prepend_count"; "route-policy.set.as_path_remove"; "route-policy.set.as_path_replace"; "route-policy.set.comm_list_delete"; "route-policy.set.community"; "route-policy.set.community_additive"; "route-policy.set.community_delete"; "route-policy.set.delete_prefix_sid"; "route-policy.set.extcomm_list_delete"; "route-policy.set.extcommunity_color"; "route-policy.set.extcommunity_rt"; "route-policy.set.extcommunity_soo"; "route-policy.set.flow_control"; "route-policy.set.ip_next_hop"; "route-policy.set.level"; "route-policy.set.local_preference"; "route-policy.set.metric"; "route-policy.set.metric_op"; "route-policy.set.metric_type"; "route-policy.set.next"; "route-policy.set.next_hop_self"; "route-policy.set.origin"; "route-policy.set.priority"; "route-policy.set.raw"; "route-policy.set.suppress_route"; "route-policy.set.tag"; "route-policy.set.unsuppress_route"; "route-policy.set.validation_state"; "route-policy.set.weight"; "route-policy.route_map.sequence"; "route-policy.match.prefix_range"; "route-policy.match.subroutine"; "route-policy.set.install_to_fib"]) ].

(** The subjects of the definition text, lines 736 to 772. *)
Definition subjects_static_route : list (pystr * json) :=
  [ ("static-route.route", jsubject "static-route" [jstep "route" [("vrf", "string"); ("prefix", "string"); ("next-hop", "string")]]
      ["static-route.vrf"; "static-route.prefix"; "static-route.next_hop"; "static-route.interface_next_hop"; "static-route.next_hop_vrf"; "static-route.metric"; "static-route.tag"; "static-route.permanent"; "static-route.enabled"; "static-route.track"; "static-route.hop_behavior"; "static-route.next_hop_index"; "static-route.protocol"]) ].

(** The subjects of the definition text, lines 773 to 792. *)
Definition subjects_bfd : list (pystr * json) :=
  [ ("bfd.interface", jsubject "bfd" [jstep "interface" [("interface-name", "string")]]
      ["bfd.min_tx"; "bfd.min_rx"; "bfd.multiplier"; "bfd.enabled"]) ].

(** The subjects of the definition text, lines 793 to 913. *)
Definition subjects_isis : list (pystr * json) :=
  [ ("isis.process-config", jsubject "isis" [jstep "process-config" [("process-tag", "string")]]
      ["isis.proc.tag"; "isis.proc.vrf"; "isis.proc.fast_reroute"; "isis.proc.microloop_avoidance"; "isis.proc.net"; "isis.proc.is_type"; "isis.proc.metric_style"; "isis.proc.overload_bit"; "isis.proc.area_auth_type"; "isis.proc.domain_auth_type"; "isis.proc.area_auth_key"; "isis.proc.domain_auth_key"])
  ; ("isis.process-config.level", jsubject "isis" [jstep "process-config" [("process-tag", "string")]; jstep "level" [("level", "integer")]]
      ["isis.level.wide_metrics_only"; "isis.level.labeled_preference"; "isis.level.disabled"])
  ; ("isis.process-config.redistribute", jsubject "isis" [jstep "process-config" [("process-tag", "string")]; jstep "redistribute" [("source-protocol", "string"); ("source-ref", "string")]]
      ["isis.redist.source_protocol"; "isis.redist.route_map"; "isis.redist.metric"; "isis.redist.metric_type"; "isis.redist.source_ref"])
  ; ("isis.process-config.flex-algo", jsubject "isis" [jstep "process-config" [("process-tag", "string")]; jstep "flex-algo" [("algo-id", "integer")]]
      ["isis.flex.algo_id"; "isis.flex.metric_type"; "isis.flex.priority"; "isis.flex.admin_group_exclude"; "isis.flex.admin_group_include_any"; "isis.flex.admin_group_include_all"]) ].

(** The subjects of the definition text, lines 914 to 943. *)
Definition subjects_isis_2 : list (pystr * json) :=
  [ ("isis.interface-config", jsubject "isis" [jstep "interface-config" [("interface-name", "string"); ("af", "string")]]
      ["isis.iface.enable"; "isis.iface.circuit_type"; "isis.iface.network_type"; "isis.iface.metric"; "isis.iface.passive"; "isis.iface.bfd_enabled"; "isis.iface.frr_enabled"; "isis.iface.frr_protection"; "isis.iface.hello_auth_type"; "isis.iface.hello_auth_key"]) ].

(** The subjects of the definition text, lines 944 to 1025. *)
Definition subjects_ospf : list (pystr * json) :=
  [ ("ospf.process-config", jsubject "ospf" [jstep "process-config" [("process-id", "string")]]
      ["ospf.proc.process_id"; "ospf.proc.router_id"; "ospf.proc.vrf"; "ospf.proc.enabled"])
  ; ("ospf.interface-config", jsubject "ospf" [jstep "interface-config" [("interface-name", "string")]]
      ["ospf.iface.interface_name"; "ospf.iface.process_id"; "ospf.iface.area_id"; "ospf.iface.cost"; "ospf.iface.priority"; "ospf.iface.passive"; "ospf.iface.network_type"; "ospf.iface.auth_type"; "ospf.iface.auth_key"; "ospf.proc.vrf"])
  ; ("ospf.process-config.redistribute", jsubject "ospf" [jstep "process-config" [("process-id", "string")]; jstep "redistribute" [("source-protocol", "string"); ("source-ref", "string")]]
      ["ospf.redist.source_protocol"; "ospf.redist.source_ref"; "ospf.redist.route_map"; "ospf.redist.metric"; "ospf.redist.metric_type"; "ospf.proc.vrf"; "ospf.proc.process_id"]) ].

(** The subjects of the definition text, lines 1026 to 1153. *)
Definition subjects_bgp : list (pystr * json) :=
  [ ("bgp.router", jsubject "bgp" [jstep "router" [("asn", "string")]]
      ["bgp.router.asn"; "bgp.router.router_id"])
  ; ("bgp.router.scope", jsubject "bgp" [jstep "router" [("asn", "string")]; jstep "scope" [("vrf", "string")]]
      ["bgp.scope.vrf"])
  ; ("bgp.router.scope.address-family", jsubject "bgp" [jstep "router" [("asn", "string")]; jstep "scope" [("vrf", "string")]; jstep "address-family" [("afi", "string")]]
      [])
  ; ("bgp.router.scope.address-family.redistribute", jsubject "bgp" [jstep "router" [("asn", "string")]; jstep "scope" [("vrf", "string")]; jstep "address-family" [("afi", "string")]; jstep "redistribute" [("source-protocol", "string"); ("source-ref", "string")]]
      ["bgp.redist.source_protocol"; "bgp.redist.source_ref"; "bgp.redist.route_map"; "bgp.redist.metric"]) ].

(** The subjects of the definition text, lines 1154 to 1243. *)
Definition subjects_bgp_2 : list (pystr * json) :=
  [ ("bgp.router.scope.peer", jsubject "bgp" [jstep "router" [("asn", "string")]; jstep "scope" [("vrf", "string")]; jstep "peer" [("peer-address", "string")]]
      ["bgp.peer.enabled"; "bgp.peer.local_as"; "bgp.peer.password"; "bgp.peer.peer_group"; "bgp.peer.remote_as"; "bgp.peer.source"; "bgp.peer.ttl"; "bgp.paf.enabled"])
  ; ("bgp.router.scope.peer.peer-address-family", jsubject "bgp" [jstep "router" [("asn", "string")]; jstep "scope" [("vrf", "string")]; jstep "peer" [("peer-address", "string")]; jstep "peer-address-family" [("afi", "string")]]
      ["bgp.paf.enabled"; "bgp.paf.routemap_in"; "bgp.paf.routemap_out"; "bgp.paf.prefixlist_in"; "bgp.paf.prefixlist_out"]) ].

(** The subjects of the definition text, lines 1244 to 1315. *)
Definition subjects_snmp : list (pystr * json) :=
  [ ("snmp.community", jsecret_subject "snmp" [jstep "community" [("name", "string")]]
      ["snmp.community.secret"; "snmp.community.access"; "snmp.community.acl"])
  ; ("snmp.v3-user", jsecret_subject "snmp" [jstep "v3-user" [("username", "string")]]
      ["snmp.v3_user.username"; "snmp.v3_user.group"; "snmp.v3_user.auth_protocol"; "snmp.v3_user.auth_secret"; "snmp.v3_user.priv_protocol"; "snmp.v3_user.priv_secret"])
  ; ("snmp.host", jsubject "snmp" [jstep "host" [("address", "string")]]
      ["snmp.host.address"; "snmp.host.version"; "snmp.host.notify_type"; "snmp.host.port"; "snmp.host.binding"])
  ; ("snmp.system-info", jsubject "snmp" []
      ["snmp.location"; "snmp.contact"]) ].

(** The subjects of the definition text, lines 1316 to 1347. *)
Definition subjects_logging : list (pystr * json) :=
  [ ("logging.host", jsubject "logging" [jstep "host" [("address", "string")]]
      ["logging.host_address"; "logging.port"; "logging.severity"; "logging.facility"; "logging.transport"; "logging.vrf"; "logging.source"])
  ; ("logging.local-levels", jsubject "logging" []
      ["logging.local.console_severity"; "logging.local.monitor_severity"; "logging.local.module_severity"]) ].

(** The messages of the definition text, lines 1350 to 1497. *)
Definition messages_common : list (pystr * json) :=
  [ ("write-site-conflict", jmessage "ownership-conflict"
      "Another family writes a different value to the same device setting in this transaction.")
  ; ("parent-absent", jmessage "target-not-found"
      "The device object this intent writes into does not exist, and the service never creates or adopts it.")
  ; ("parent-foreign-owner", jmessage "ownership-conflict"
      "Another service owns the device object this intent writes into.")
  ; ("parent-ownership-unreadable", jmessage "unreadable-state"
      "The ownership of the device object this intent writes into cannot be read.")
  ; ("write-blocked", jmessage "inexpressible-on-ned"
      "The device rejected a value this intent requires, and the field cannot be left out.")
  ; ("leaf-list-narrowing", jmessage "ownership-conflict"
      "The device holds list members the intent cannot express; applying the intent would delete members it never mentions.")
  ; ("device-list-unreadable", jmessage "unreadable-state"
      "The existing device entries this intent converges on cannot be read.")
  ; ("sole-slot-multiple-rows", jmessage "ownership-conflict"
      "The device holds several entries where the intent states one value; remove the extra entries on the device first.")
  ; ("slot-adopt-blocked", jmessage "inexpressible-on-ned"
      "The device rejected the claim of an existing entry this intent converges on; leaving it unclaimed would delete it.")
  ; ("sole-value-displacement", jmessage "ownership-conflict"
      "The device holds other values in this identity-critical list; the intent states one value, and the service never deletes the others.")
  ; ("required-field-unsupported", jmessage "would-weaken-intent"
      "This NED cannot land a field the intent requires; leaving the field out would weaken the intent.")
  ; ("value-home-unreadable", jmessage "unreadable-state"
      "The device setting this intent writes cannot be read before the write.")
  ; ("value-home-ambiguous", jmessage "ownership-conflict"
      "The device holds this setting in more than one place, so the service cannot tell which one to write.")
  ; ("value-home-occupied", jmessage "ownership-conflict"
      "The device holds this setting in a form or place the service must not overwrite.")
  ; ("reverse-diff-unreadable", jmessage "unreadable-state"
      "The reverse diff of the service instance cannot be read exactly, so the effect of its removal cannot be judged.")
  ; ("reverse-diff-ned-transition", jmessage "unreadable-state"
      "The service instance owns configuration in a NED schema the device no longer uses, so its earlier ownership cannot be inspected.")
  ; ("reverse-diff-unattributed", jmessage "unreadable-state"
      "The reverse diff removes configuration outside the paths this check judges, so what the service instance owns cannot be attributed.")
  ; ("retract-membership-ambiguous", jmessage "unreadable-state"
      "It cannot be read whether this removal takes away an interface VRF membership that a logging source-interface row depends on. Re-home the VRF onto the surviving owner, or delete the source-interface row first.")
  ; ("retract-sequencing", jmessage "ownership-conflict"
      "Another service deleted in the same transaction also removes an interface or source row this check judges; delete one service first, then the other.")
  ; ("source-state-unreadable", jmessage "unreadable-state"
      "The logging source-interface rows, or the interfaces and VRF memberships they depend on, cannot be read.")
  ; ("source-row-vrf-mismatch", jmessage "invalid-value"
      "A logging source-interface row would sit in another routing table than the interface it names; the device would reject the whole commit.")
  ; ("source-row-stranded-by-move", jmessage "ownership-conflict"
      "A committed logging source-interface row depends on the interface VRF membership this intent moves; the device would reject the whole commit.")
  ; ("source-row-stranded", jmessage "ownership-conflict"
      "This transaction leaves a committed logging source-interface row without its interface or in another routing table; the device would reject the whole commit. Land the logging change first, then remove or move the interface membership.")
  ; ("svi-identity-conflict", jmessage "invalid-value"
      "The interface name and the VLAN id of the SVI row name two different interfaces.")
  ; ("junos-member-home-unreadable", jmessage "unreadable-state"
      "The Junos ether-options and gigether-options of the LAG member cannot be read.")
  ; ("junos-member-home-indirect", jmessage "inexpressible-on-ned"
      "The Junos options of the LAG member use apply-groups, apply-groups-except or apply-macro, which the service cannot read or keep.")
  ; ("junos-member-home-ambiguous", jmessage "would-weaken-intent"
      "The LAG member has LAG settings in both Junos ether-options and gigether-options, so the service cannot tell which one the device uses.")
  ; ("metric-style-unreadable", jmessage "unreadable-state"
      "An IS-IS metric-style entry on the device has no style value.")
  ; ("metric-style-not-uniform", jmessage "ownership-conflict"
      "The IS-IS metric-style on the device differs across address families or levels, so the one metric-style of the intent cannot represent it.")
  ; ("svi-name-invalid", jmessage "invalid-value"
      "The interface name of the SVI row is not Vlan followed by a VLAN number.")
  ; ("vlan-token-unreadable", jmessage "unreadable-state"
      "The device VLAN ID or range token cannot be read reliably.")
  ; ("provenance-absent", jmessage "unreadable-state"
      "No contribution history was recorded. Re-deploy the committed document once, then apply again.")
  ; ("provenance-referent-invalid", jmessage "invalid-value"
      "The interface type, interface identifier, or VRF name exceeds the contribution history limits or contains an invalid character.")
  ; ("provenance-capacity-exceeded", jmessage "invalid-value"
      "The document has more interface contributions than the service supports.")
  ; ("redistribution-bgp-source-required", jmessage "invalid-value"
      "Redistribution from BGP requires the source ASN on this NED.")
  ; ("author-parent-dropped", jmessage "target-not-found"
      "This intent still references a device object whose author row was removed. Keep the author row or remove this reference in the same document.")
  ; ("field-no-home", jmessage "inexpressible-on-ned"
      "This NED has no setting for this field; the intent cannot land without it.") ].

(** The messages of the definition text, lines 1498 to 1505. *)
Definition messages_common_2 : list (pystr * json) :=
  [ ("field-not-implemented", jmessage "inexpressible-on-ned"
      "This NED can hold this field, but the service has no verified write path for it yet.")
  ; ("value-no-form", jmessage "inexpressible-on-ned"
      "This NED has no form for this value of the field.") ].

(** The messages of the definition text, lines 1506 to 1529. *)
Definition messages_vlan : list (pystr * json) :=
  [ ("vlan.ned-unsupported", jmessage "inexpressible-on-ned"
      "The VLAN writer has no handler for this device's NED.")
  ; ("vlan.junos-database-unreadable", jmessage "unreadable-state"
      "The device's Junos VLAN database cannot be read reliably.")
  ; ("vlan.junos-id-state-unreadable", jmessage "unreadable-state"
      "The device's Junos VLAN id tokens cannot be read reliably.")
  ; ("vlan.junos-bridge-domain-unsupported", jmessage "inexpressible-on-ned"
      "The VLAN names a Junos bridge-domain; the writer cannot write bridge-domains.")
  ; ("vlan.junos-qinq-unrepresented", jmessage "ownership-conflict"
      "The device's Junos VLAN uses QinQ vlan-tags; writing VLAN id rows would delete that case.")
  ; ("vlan.junos-enum-unrepresented", jmessage "ownership-conflict"
      "The device's Junos VLAN uses an all or none id enum; writing VLAN id rows would overwrite it.") ].

(** The messages of the definition text, lines 1530 to 1657. *)
Definition messages_lag : list (pystr * json) :=
  [ ("lag.ned-unsupported", jmessage "inexpressible-on-ned"
      "The LAG writer has no handler for this device's NED.")
  ; ("lag.bundle-name-ios", jmessage "invalid-value"
      "The bundle name must be Port-channel<N> on this NED.")
  ; ("lag.bundle-name-xr", jmessage "invalid-value"
      "The bundle name must be Bundle-Ether<N> on this NED.")
  ; ("lag.bundle-name-junos", jmessage "invalid-value"
      "The bundle name must be ae<N> on this NED.")
  ; ("lag.bundle-name-timos", jmessage "invalid-value"
      "The bundle name must be lag-<N> on this NED.")
  ; ("lag.bundle-name-nx", jmessage "invalid-value"
      "The bundle name must be port-channel<N> on this NED.")
  ; ("lag.bundle-number-range-ios", jmessage "invalid-value"
      "The Port-channel number is outside the range that this NED accepts.")
  ; ("lag.member-mode-ios", jmessage "inexpressible-on-ned"
      "The member mode must be active, passive, on, auto, or desirable on this NED.")
  ; ("lag.member-mode-xr", jmessage "inexpressible-on-ned"
      "The member mode must be active, passive, on, or inherit on this NED.")
  ; ("lag.member-mode-bundle", jmessage "inexpressible-on-ned"
      "The member mode must be active, passive, or on on this NED.")
  ; ("lag.timer-invalid", jmessage "inexpressible-on-ned"
      "The LACP timer must be fast or slow.")
  ; ("lag.system-priority-conflict", jmessage "invalid-value"
      "Bundle intents request different priorities for the device-wide LACP system priority. One device holds one priority.")
  ; ("lag.member-name-invalid", jmessage "invalid-value"
      "The member name must contain an interface type followed by its number.")
  ; ("lag.member-missing", jmessage "target-not-found"
      "The physical member interface is absent from the device. The service cannot create customer ports.")
  ; ("lag.config-unreadable", jmessage "unreadable-state"
      "The device interface configuration cannot be read.")
  ; ("lag.member-unreadable", jmessage "unreadable-state"
      "The committed member interface cannot be read.")
  ; ("lag.member-binding-not-retained", jmessage "would-weaken-intent"
      "The member does not retain its intended bundle in the selected options subtree.")
  ; ("lag.member-priority-not-retained", jmessage "would-weaken-intent"
      "The member does not retain its intended port priority.")
  ; ("lag.admin-key-required", jmessage "invalid-value"
      "SR OS requires an administrative key for a new LACP bundle. Supply the administrative key.")
  ; ("lag.system-id-invalid", jmessage "invalid-value"
      "The LACP system ID must be a six-octet MAC address.")
  ; ("lag.lacp-entry-unreadable", jmessage "unreadable-state"
      "The existing OpenConfig LACP entry cannot be read.")
  ; ("lag.interval-unreadable", jmessage "unreadable-state"
      "The observed OpenConfig LACP interval is outside the supported FAST and SLOW vocabulary.")
  ; ("lag.bundle-id-mismatch", jmessage "invalid-value"
      "The bundle name and LAG ID identify different port-channels.")
  ; ("lag.nx-lacp-disabled", jmessage "target-not-found"
      "The NX-OS LACP feature is disabled. Enable it before assigning active or passive members.")
  ; ("lag.nx-vpc-bundle", jmessage "ownership-conflict"
      "The port-channel has a vPC discriminator. Adopting it would let a service retract delete the protected bundle.")
  ; ("lag.nx-vpc-member", jmessage "ownership-conflict"
      "The member port has a vPC discriminator and cannot be assigned by this service.")
  ; ("lag.nx-vpc-current-bundle", jmessage "ownership-conflict"
      "The member belongs to another vPC port-channel. Moving it would remove its vPC membership.")
  ; ("lag.nx-member-duplicate", jmessage "invalid-value"
      "One physical member is assigned to two intended bundles. A port can belong to only one LAG.")
  ; ("lag.arcos-lacp-entry-unowned", jmessage "ownership-conflict"
      "The device holds an LACP entry for this bundle that the service does not own. A static bundle cannot land while that entry exists, and the service does not remove it.")
  ; ("lag.arcos-passive-lands-active", jmessage "would-weaken-intent"
      "ArcOS has no LACP mode setting, so a passive member would run in active mode.")
  ; ("lag.lacp-param-on-static-bundle", jmessage "invalid-value"
      "The intent states an LACP parameter on a bundle that does not run LACP.")
  ; ("lag.timer-needs-members", jmessage "inexpressible-on-ned"
      "This NED sets the LACP timer on each member port, and the bundle has no member rows to carry it.") ].

(** The messages of the definition text, lines 1658 to 1749. *)
Definition messages_interface : list (pystr * json) :=
  [ ("interface.ned-unsupported", jmessage "inexpressible-on-ned"
      "The interface writer has no handler for this device's NED.")
  ; ("interface.name-invalid", jmessage "invalid-value"
      "The interface name must have a valid native interface identity.")
  ; ("interface.type-unavailable", jmessage "inexpressible-on-ned"
      "The NED has no interface list for this interface type.")
  ; ("interface.target-unreadable", jmessage "unreadable-state"
      "The existing interface or unit cannot be inspected before mutation.")
  ; ("interface.enabled-unreadable", jmessage "unreadable-state"
      "The Junos enabled form cannot be read before mutation.")
  ; ("interface.enabled-ambiguous", jmessage "unreadable-state"
      "The Junos interface has conflicting enabled forms.")
  ; ("interface.enabled-read-only", jmessage "inexpressible-on-ned"
      "The Junos read-only enable-disable form cannot be changed through the writable disable home.")
  ; ("interface.junos-ip-unit-required", jmessage "invalid-value"
      "Junos IP intent requires a logical interface unit.")
  ; ("interface.timos-port-ip", jmessage "inexpressible-on-ned"
      "An SR OS port cannot hold IP addresses. Use a routed interface with kind base, ies, or vprn.")
  ; ("interface.timos-lag-ip", jmessage "inexpressible-on-ned"
      "An SR OS LAG cannot hold IP addresses. Use a routed interface bound to the LAG.")
  ; ("interface.kind-invalid", jmessage "invalid-value"
      "The SR OS interface kind must be empty, base, ies, vprn, or lag.")
  ; ("interface.service-missing", jmessage "target-not-found"
      "The SR OS parent service does not exist. Create the service before the routed interface.")
  ; ("interface.vrf-unusable", jmessage "inexpressible-on-ned"
      "The routing-instance must be active and have an L3 instance type before an interface can bind to it.")
  ; ("interface.nx-vrf-missing", jmessage "target-not-found"
      "The NX VRF context does not exist. Create it before assigning interface membership.")
  ; ("interface.nx-secondary-unverified", jmessage "inexpressible-on-ned"
      "NX IPv4 secondary writes have not been verified against native configuration.")
  ; ("interface.nx-ipv6-unverified", jmessage "inexpressible-on-ned"
      "NX IPv6 writes have not been verified against native configuration.")
  ; ("interface.arcos-subif-name", jmessage "inexpressible-on-ned"
      "The ArcOS subinterface name does not identify its OpenConfig index.")
  ; ("interface.address-invalid", jmessage "invalid-value"
      "The address must be a host address of the requested IP version, without a scope or prefix.")
  ; ("interface.prefix-invalid", jmessage "invalid-value"
      "The prefix length must be an ASCII decimal integer within the address version range.")
  ; ("interface.vrf-invalid", jmessage "invalid-value"
      "The VRF name must be nonempty and contain only ASCII letters, digits, underscores, dots, colons, or hyphens.")
  ; ("interface.encap-tag-invalid", jmessage "invalid-value"
      "The ArcOS encapsulation tag must be an ASCII decimal VLAN id from 1 through 4094.")
  ; ("interface.encap-tag-needs-unit", jmessage "inexpressible-on-ned"
      "An ArcOS encapsulation tag requires a logical subinterface.")
  ; ("interface.membership-unreadable", jmessage "unreadable-state"
      "The ArcOS network-instance membership index cannot be read.") ].

(** The messages of the definition text, lines 1750 to 1789. *)
Definition messages_subinterface : list (pystr * json) :=
  [ ("subinterface.ned-unsupported", jmessage "inexpressible-on-ned"
      "The subinterface writer has no handler for this device's NED.")
  ; ("subinterface.nx-deferred", jmessage "inexpressible-on-ned"
      "NX-OS subinterfaces are deferred. This writer has no write path for the observed NX-OS shape.")
  ; ("subinterface.unit-invalid", jmessage "invalid-value"
      "The Junos interface must name a unit of its parent with an ASCII number.")
  ; ("subinterface.interface-invalid", jmessage "invalid-value"
      "The IOS subinterface must name a unit of its parent with an ASCII number.")
  ; ("subinterface.interface-unsupported", jmessage "inexpressible-on-ned"
      "The device schema has no list for this subinterface type.")
  ; ("subinterface.interfaces-unreadable", jmessage "unreadable-state"
      "The device interface configuration cannot be read.")
  ; ("subinterface.tag-required", jmessage "invalid-value"
      "The subinterface requires a dot1q VLAN tag.")
  ; ("subinterface.vrf-unusable", jmessage "target-not-found"
      "The routing instance must be active and have an L3 instance type before binding a subinterface.")
  ; ("subinterface.tag-invalid", jmessage "invalid-value"
      "The dot1q VLAN tag must be an ASCII integer from 1 to 4094.")
  ; ("subinterface.vrf-invalid", jmessage "invalid-value"
      "The VRF name must contain only ASCII letters, digits, underscores, dots, colons, or hyphens.") ].

(** The messages of the definition text, lines 1790 to 1845. *)
Definition messages_svi : list (pystr * json) :=
  [ ("svi.ned-unsupported", jmessage "inexpressible-on-ned"
      "The SVI writer has no handler for this device's NED.")
  ; ("svi.nx-feature-disabled", jmessage "target-not-found"
      "Enable the NX-OS interface-vlan feature before creating an SVI.")
  ; ("svi.unit-invalid", jmessage "invalid-value"
      "The Junos SVI interface must name an irb unit with an ASCII number.")
  ; ("svi.vlan-unreadable", jmessage "unreadable-state"
      "The device VLAN database cannot be read. The SVI binding requires a valid VLAN entry.")
  ; ("svi.vlan-ambiguous", jmessage "invalid-value"
      "Multiple VLAN entries carry the requested VLAN ID. Select one VLAN entry.")
  ; ("svi.vlan-hierarchy-unsupported", jmessage "inexpressible-on-ned"
      "The VLAN must be in the top-level VLAN database for an SVI binding.")
  ; ("svi.vlan-multiple-ids", jmessage "inexpressible-on-ned"
      "The SVI binding requires a VLAN entry with one VLAN ID.")
  ; ("svi.vlan-id-invalid", jmessage "invalid-value"
      "The SVI VLAN ID must be an ASCII integer from 1 to 4094.")
  ; ("svi.vlan-missing", jmessage "target-not-found"
      "The VLAN is absent from the device VLAN database. Create the VLAN before creating its SVI.")
  ; ("svi.nx-vrf-missing", jmessage "would-weaken-intent"
      "The NX-OS SVI lacks its requested interface-owned VRF membership. Apply the interface membership first.")
  ; ("svi.interfaces-unreadable", jmessage "unreadable-state"
      "The device interface configuration cannot be read.")
  ; ("svi.group-binding-unsupported", jmessage "inexpressible-on-ned"
      "SVI bindings from Junos configuration groups are not supported.")
  ; ("svi.vrf-unusable", jmessage "target-not-found"
      "The routing instance must be active and have an L3 instance type before binding an SVI.")
  ; ("svi.vrf-invalid", jmessage "invalid-value"
      "The VRF name must contain only ASCII letters, digits, underscores, dots, colons, or hyphens.") ].

(** The messages of the definition text, lines 1846 to 1889. *)
Definition messages_switchport : list (pystr * json) :=
  [ ("switchport.ned-unsupported", jmessage "inexpressible-on-ned"
      "The switchport writer has no handler for this device's NED.")
  ; ("switchport.interface-invalid", jmessage "invalid-value"
      "The interface name must contain an ASCII type followed by its numeric key.")
  ; ("switchport.interface-unsupported", jmessage "inexpressible-on-ned"
      "The device schema has no list for this interface type.")
  ; ("switchport.interface-missing", jmessage "target-not-found"
      "The switchport interface is absent from the device. Create the interface first.")
  ; ("switchport.mode-invalid", jmessage "invalid-value"
      "The switchport mode must be access, trunk, or trunk-all.")
  ; ("switchport.vlan-id-invalid", jmessage "invalid-value"
      "Switchport VLAN IDs must be ASCII integers from 1 to 4094.")
  ; ("switchport.vlan-unreadable", jmessage "unreadable-state"
      "The Junos VLAN database cannot be read. Members require its VLAN names.")
  ; ("switchport.mode-unreadable", jmessage "unreadable-state"
      "The effective Junos switchport mode cannot be read.")
  ; ("switchport.interfaces-unreadable", jmessage "unreadable-state"
      "The device interface configuration cannot be read.")
  ; ("switchport.allowed-vlans-unreadable", jmessage "unreadable-state"
      "The device allowed-VLAN text cannot be read.")
  ; ("switchport.vlan-leaf-unreadable", jmessage "unreadable-state"
      "The device VLAN value must be a VLAN ID or an observed native enum.") ].

(** The messages of the definition text, lines 1890 to 1917. *)
Definition messages_mtu : list (pystr * json) :=
  [ ("mtu.ned-unsupported", jmessage "inexpressible-on-ned"
      "The MTU writer has no handler for this device's NED.")
  ; ("mtu.interface-name-invalid", jmessage "invalid-value"
      "The MTU interface name must contain an interface type followed by its number.")
  ; ("mtu.interface-state-unreadable", jmessage "unreadable-state"
      "The MTU target interface or unit cannot be read. Check that it exists on the device.")
  ; ("mtu.device-state-unreadable", jmessage "unreadable-state"
      "The device interface configuration for MTU cannot be read.")
  ; ("mtu.junos-family-mtu-needs-unit", jmessage "inexpressible-on-ned"
      "Junos sets the IP and MPLS MTU on a logical unit, not on the physical interface.")
  ; ("mtu.junos-l2-mtu-needs-physical", jmessage "inexpressible-on-ned"
      "Junos sets the layer-2 MTU on the physical interface, not on a logical unit.")
  ; ("mtu.value-out-of-range", jmessage "inexpressible-on-ned"
      "The MTU value is outside the range that the service writes to a device.") ].

(** The messages of the definition text, lines 1918 to 1929. *)
Definition messages_l2_sap : list (pystr * json) :=
  [ ("l2-sap.ned-unsupported", jmessage "inexpressible-on-ned"
      "L2 SAPs require a Nokia timos-nc NED.")
  ; ("l2-sap.nx-deferred", jmessage "inexpressible-on-ned"
      "The NX-OS L2 SAP writer is deferred; NX-OS has no verified SAP model.")
  ; ("l2-sap.service-absent", jmessage "target-not-found"
      "The SAP's parent epipe or vpls service is absent; the operator must create that service first.") ].

(** The messages of the definition text, lines 1930 to 2077. *)
Definition messages_route_policy : list (pystr * json) :=
  [ ("route-policy.native-entry-collision", jmessage "inexpressible-on-ned"
      "This entry shares a native policy target with the related earlier entry. The entries cannot share that target without losing intent. Use separate native policy entries.")
  ; ("route-policy.metadata-intent-conflict", jmessage "inexpressible-on-ned"
      "Preserved vendor metadata disagrees with the current entry intent. This native path would omit or override a requested match, action or set. Remove the stale metadata or update the entry before applying.")
  ; ("route-policy.ned-unsupported", jmessage "inexpressible-on-ned"
      "The route-policy writer has no handler for this device NED.")
  ; ("route-policy.nx-deferred", jmessage "inexpressible-on-ned"
      "The NX route-policy writer is deferred. Record and verify a non-empty native policy before enabling writes.")
  ; ("route-policy.condition-tree-unsupported", jmessage "inexpressible-on-ned"
      "This NED has no boolean match-condition tree. Remove the tree or use IOS-XR.")
  ; ("route-policy.deny-entry-unsupported", jmessage "inexpressible-on-ned"
      "This NED models policy lists as membership sets and cannot express a deny entry.")
  ; ("route-policy.write-home-absent", jmessage "inexpressible-on-ned"
      "The NED has no native list at this policy write target.")
  ; ("route-policy.reserved-policy-name", jmessage "ownership-conflict"
      "The policy name is reserved for the redistribution policies authored by BGP, IS-IS and OSPF.")
  ; ("route-policy.named-entry-unsupported", jmessage "inexpressible-on-ned"
      "The SR OS policy uses named entries. This writer supports numbered entries only.")
  ; ("route-policy.policy-state-unreadable", jmessage "unreadable-state"
      "The existing policy entry style cannot be read.")
  ; ("route-policy.native-home-unreadable", jmessage "unreadable-state"
      "The occupancy of a native policy list cannot be read.")
  ; ("route-policy.native-home-conflict", jmessage "ownership-conflict"
      "The policy list name already occupies a conflicting native home. Resolve the name conflict first.")
  ; ("route-policy.json-invalid", jmessage "invalid-value"
      "The policy JSON must be a valid object. Repair the match or set JSON before applying it.")
  ; ("route-policy.integer-invalid", jmessage "invalid-value"
      "The policy value must be an integer.")
  ; ("route-policy.metric-op-invalid", jmessage "invalid-value"
      "The relative metric operator must be + or -. An absolute metric cannot replace a relative operation.")
  ; ("route-policy.metric-op-missing-value", jmessage "invalid-value"
      "The relative metric operator has no metric magnitude. Supply the magnitude or remove the operator.")
  ; ("route-policy.foreign-marker-unsupported", jmessage "inexpressible-on-ned"
      "The policy entry carries vendor-specific behavior this writer cannot preserve.")
  ; ("route-policy.ios-egp-asn-stale", jmessage "invalid-value"
      "An IOS EGP ASN carrier requires canonical origin egp. Remove the stale carrier for another origin.")
  ; ("route-policy.ios-egp-asn-missing", jmessage "inexpressible-on-ned"
      "IOS EGP origin requires its native ASN carrier.")
  ; ("route-policy.ios-egp-asn-invalid", jmessage "invalid-value"
      "The IOS EGP ASN must be a decimal uint32.")
  ; ("route-policy.ios-community-mixed-kind", jmessage "inexpressible-on-ned"
      "An IOS community list cannot combine well-known keywords with regular expressions under one name. Split it into separate lists.")
  ; ("route-policy.ios-match-unsupported", jmessage "inexpressible-on-ned"
      "The IOS route-map cannot render every match or preserve the entry flow. Remove the unsupported construct or use a NED that supports it.")
  ; ("route-policy.ios-composite-metric", jmessage "unreadable-state"
      "The device carries a composite IOS metric. A scalar metric cannot represent or replace it.")
  ; ("route-policy.ios-deny-continue-conflict", jmessage "invalid-value"
      "An IOS deny clause terminates evaluation and cannot also continue to another clause.")
  ; ("route-policy.ios-community-reference-absent", jmessage "target-not-found"
      "IOS sets literal community values. The referenced community list is absent from the intent and cannot be expanded.")
  ; ("route-policy.ios-community-reference-unexpandable", jmessage "inexpressible-on-ned"
      "IOS cannot expand this community list into literal set values. It is empty or contains denied, regex, extended or large community members.")
  ; ("route-policy.xr-match-unsupported", jmessage "inexpressible-on-ned"
      "The policy match has no IOS-XR RPL form. Rendering the entry would drop a match condition.")
  ; ("route-policy.xr-unmapped-statements", jmessage "inexpressible-on-ned"
      "The policy contains IOS-XR statements that cannot survive a structured render. Preserve the original body or model those statements.")
  ; ("route-policy.condition-invalid", jmessage "invalid-value"
      "The match-condition tree is malformed or contains a leaf without an IOS-XR RPL form.")
  ; ("route-policy.xr-match-value-invalid", jmessage "invalid-value"
      "IOS-XR compares this policy attribute as an integer. Every match value must be an integer.")
  ; ("route-policy.xr-community-literal-unsupported", jmessage "inexpressible-on-ned"
      "IOS-XR community set operations require set names. Define the literal community values in a set and reference its name.")
  ; ("route-policy.xr-community-empty", jmessage "target-not-found"
      "No IOS-XR community set was created for this list. Its members have no supported native set form.")
  ; ("route-policy.xr-color-literal-unsupported", jmessage "inexpressible-on-ned"
      "IOS-XR requires an opaque extcommunity set name. A literal color has no supported set operation.")
  ; ("route-policy.junos-as-path-multi-pattern", jmessage "inexpressible-on-ned"
      "A Junos as-path holds one regex. Use one pattern per as-path object.")
  ; ("route-policy.junos-match-unsupported", jmessage "inexpressible-on-ned"
      "The Junos term cannot render every match or preserve the entry flow.")
  ; ("route-policy.junos-terminal-next-conflict", jmessage "invalid-value"
      "A Junos term cannot carry both a terminal disposition and next term or next policy.")
  ; ("route-policy.junos-community-literal-unsupported", jmessage "inexpressible-on-ned"
      "Junos community actions require a community object name. Define the literal values in an object first.") ].

(** The messages of the definition text, lines 2078 to 2217. *)
Definition messages_route_policy_2 : list (pystr * json) :=
  [ ("route-policy.junos-community-op-invalid", jmessage "invalid-value"
      "The Junos community operation has no supported canonical or writable token.")
  ; ("route-policy.junos-community-state-unreadable", jmessage "unreadable-state"
      "The existing Junos community action rows cannot be read or decoded.")
  ; ("route-policy.junos-community-keys-ambiguous", jmessage "unreadable-state"
      "Equivalent Junos community actions occupy multiple raw keys. Resolve the dialect twins before applying.")
  ; ("route-policy.timos-as-path-state-unreadable", jmessage "unreadable-state"
      "The native SR OS as-path or as-path-group occupancy cannot be read.")
  ; ("route-policy.timos-as-path-pattern-unreadable", jmessage "unreadable-state"
      "The native SR OS as-path-group patterns cannot be read or decoded.")
  ; ("route-policy.timos-as-path-pattern-absent", jmessage "unreadable-state"
      "A native SR OS as-path-group entry has no mandatory expression.")
  ; ("route-policy.timos-as-path-group-divergent", jmessage "inexpressible-on-ned"
      "The SR OS as-path-group differs from the intent. This writer cannot replace or repartition a native group.")
  ; ("route-policy.timos-as-path-multi-pattern", jmessage "inexpressible-on-ned"
      "An SR OS as-path holds one expression. A multiple-pattern intent requires an equal existing native group.")
  ; ("route-policy.timos-as-path-match-multiple", jmessage "inexpressible-on-ned"
      "SR OS matches one as-path name or group per entry. Use one reference.")
  ; ("route-policy.timos-as-path-group-absent", jmessage "inexpressible-on-ned"
      "The SR OS match explicitly references an absent native as-path-group.")
  ; ("route-policy.timos-as-path-home-absent", jmessage "inexpressible-on-ned"
      "The SR OS plain as-path reference has no native as-path home. A group is a different reference type.")
  ; ("route-policy.timos-as-path-action-home-absent", jmessage "inexpressible-on-ned"
      "The SR OS as-path action requires a native as-path object. A group cannot serve as its target.")
  ; ("route-policy.timos-match-unsupported", jmessage "inexpressible-on-ned"
      "The SR OS entry cannot render every match or preserve the entry flow.")
  ; ("route-policy.timos-community-literal-unsupported", jmessage "inexpressible-on-ned"
      "SR OS community actions require object names. Define literal values in a community object first.")
  ; ("route-policy.timos-prepend-sequence-unsupported", jmessage "inexpressible-on-ned"
      "SR OS prepends one ASN a repeat number of times. A sequence of different ASNs has no supported form.")
  ; ("route-policy.timos-as-path-marker-stale", jmessage "invalid-value"
      "The SR OS as-path-group marker has no matching structured reference.")
  ; ("route-policy.timos-as-path-action-conflict", jmessage "invalid-value"
      "The SR OS as-path add and replace actions are mutually exclusive.")
  ; ("route-policy.timos-community-match-multiple", jmessage "inexpressible-on-ned"
      "SR OS matches one community list per entry. Use one community reference.")
  ; ("route-policy.ios-community-format-unreadable", jmessage "unreadable-state"
      "The IOS community format cannot be read. No community value can be written safely.")
  ; ("route-policy.ios-bgp-state-unreadable", jmessage "unreadable-state"
      "The IOS BGP inventory cannot be read. The source-protocol BGP match requires its local ASN.")
  ; ("route-policy.value-invalid", jmessage "invalid-value"
      "The canonical policy value has an invalid type, shape, range or token. A preserved additive vector must contain exactly one Boolean per current community value. Remove stale metadata or update both lists together.")
  ; ("route-policy.prepend-keyword-unsupported", jmessage "inexpressible-on-ned"
      "This NED cannot prepend the local ASN with the canonical own-as keyword. Use a literal ASN sequence.")
  ; ("route-policy.xr-prepend-sequence-unsupported", jmessage "inexpressible-on-ned"
      "The IOS-XR prepend action takes one ASN and a repeat count. An ASN sequence cannot be written in that action.")
  ; ("route-policy.timos-no-action-set-conflict", jmessage "inexpressible-on-ned"
      "The SR OS entry has no action. Remove the no-action marker before adding set actions.")
  ; ("route-policy.timos-metric-channel-conflict", jmessage "inexpressible-on-ned"
      "The SR OS metric carriers conflict. Keep one metric action and remove the no-action marker before adding set intent.")
  ; ("route-policy.source-protocol-unsupported", jmessage "inexpressible-on-ned"
      "A source protocol operand is outside this NED's source-protocol enumeration or exceeds its member limit. SR OS permits at most five source protocols. Choose operands the installed NED can express.")
  ; ("route-policy.timos-destination-protocol-unsupported", jmessage "inexpressible-on-ned"
      "The SR OS destination protocol leaf accepts at most two of bgp, isis, ospf, rip, bgp-vpn, ospf3, ldp, vpn-leak, ripng, bgp-label, or evpn-ifl. Source-only protocols such as direct and static cannot be destination operands.")
  ; ("route-policy.community-vector-invalid", jmessage "invalid-value"
      "The preserved community operation vector must be a list with exactly one entry per current community value. Remove stale metadata or update both lists together before applying.")
  ; ("route-policy.additive-channel-conflict", jmessage "inexpressible-on-ned"
      "Every preserved community operation must agree with the explicit canonical additive or replace flag. Remove stale metadata or make every operation agree before applying.")
  ; ("route-policy.xr-preserved-body-edited", jmessage "would-weaken-intent"
      "This entry carries device-authored RPL that the model cannot re-express after an edit. Re-author the entry without the preserved body and its XR metadata.")
  ; ("route-policy.ios-as-path-name-numeric", jmessage "inexpressible-on-ned"
      "IOS names AS-path access lists by a number from 1 to 500, and this AS-path list name is not such a number.")
  ; ("route-policy.ios-bgp-asn-absent", jmessage "target-not-found"
      "An IOS source-protocol match on BGP needs the BGP AS number of the device, and the device has no BGP process.")
  ; ("route-policy.ios-community-member-no-home", jmessage "inexpressible-on-ned"
      "This community member has no place in the IOS community list type of this list.")
  ; ("route-policy.ios-source-protocol-bgp-mixed", jmessage "inexpressible-on-ned"
      "IOS cannot match BGP together with other source protocols in one route-map entry.")
  ; ("route-policy.junos-mixed-range-unsupported", jmessage "inexpressible-on-ned"
      "The Junos writer has no exact form for a prefix list whose entries mix range forms.") ].

(** The messages of the definition text, lines 2218 to 2353. *)
Definition messages_static_route : list (pystr * json) :=
  [ ("static-route.ned-unsupported", jmessage "inexpressible-on-ned"
      "The static-route writer has no handler for this device's NED.")
  ; ("static-route.next-hop-vrf-no-home", jmessage "inexpressible-on-ned"
      "This NED has no next-hop VRF selector for static routes; the route would resolve its next hop in its own table.")
  ; ("static-route.next-hop-vrf-needs-ip", jmessage "inexpressible-on-ned"
      "On this NED a next-hop VRF needs an IP next hop on the same route.")
  ; ("static-route.no-next-hop", jmessage "invalid-value"
      "The route has neither a next hop nor an interface next hop.")
  ; ("static-route.xr-interface-ip-vrf-read-only", jmessage "inexpressible-on-ned"
      "On IOS-XR an interface next hop with an IP next hop and a next-hop VRF needs a route form the writer does not support.")
  ; ("static-route.xr-interface-vrf-read-only", jmessage "inexpressible-on-ned"
      "On IOS-XR an interface-only next hop with a next-hop VRF needs a route form the writer does not support.")
  ; ("static-route.xr-empty-resolver-vrf-occupied", jmessage "inexpressible-on-ned"
      "The device holds this IOS-XR route in a form with an empty next-hop VRF, which the writer cannot keep; writing it would move the route.")
  ; ("static-route.interface-with-ip-unsupported", jmessage "inexpressible-on-ned"
      "This NED cannot hold an interface next hop and an IP next hop on the same route.")
  ; ("static-route.interface-only-unsupported", jmessage "inexpressible-on-ned"
      "This NED has no verified form for this interface-only next hop.")
  ; ("static-route.pseudo-hop-unsupported", jmessage "inexpressible-on-ned"
      "This NED has no form for this pseudo next hop in this routing table (for example reject, a next-table or a reserved name).")
  ; ("static-route.pseudo-hop-malformed", jmessage "invalid-value"
      "The pseudo next hop is malformed.")
  ; ("static-route.interface-is-ip", jmessage "invalid-value"
      "The interface next hop is an IP address; put an IP next hop in the next-hop field.")
  ; ("static-route.next-hop-not-ip", jmessage "invalid-value"
      "The next hop is not a valid IP address.")
  ; ("static-route.prefix-invalid", jmessage "invalid-value"
      "The route prefix is not a valid IP prefix.")
  ; ("static-route.interface-name-too-long", jmessage "inexpressible-on-ned"
      "The interface name is longer than this NED allows.")
  ; ("static-route.permanent-no-home", jmessage "inexpressible-on-ned"
      "This NED has no permanent flag for this route; writing the route without it would weaken the intent.")
  ; ("static-route.metric-out-of-range", jmessage "inexpressible-on-ned"
      "The metric is outside the administrative distance range this NED accepts (1 to 255).")
  ; ("static-route.tag-out-of-range", jmessage "inexpressible-on-ned"
      "The tag is outside the range this NED accepts (1 to 4294967295).")
  ; ("static-route.route-level-disagreement", jmessage "invalid-value"
      "Intent rows for the same prefix disagree on a per-route setting (metric, tag or permanent), which this NED stores once per route.")
  ; ("static-route.duplicate-hop", jmessage "invalid-value"
      "Two intent rows resolve to the same next hop of one route on this NED.")
  ; ("static-route.blank-key-collision", jmessage "invalid-value"
      "Two interface-like next hops of one route share one canonical identity on this NED.")
  ; ("static-route.vrf-absent", jmessage "target-not-found"
      "The route's VRF or routing instance does not exist on the device, and the service never creates it.")
  ; ("static-route.vrf-inactive", jmessage "target-not-found"
      "The route's routing instance exists only as inactive device configuration.")
  ; ("static-route.vrf-not-l3", jmessage "target-not-found"
      "The route's routing instance is not a Layer 3 instance type (vrf or virtual-router).")
  ; ("static-route.next-hop-vrf-absent", jmessage "target-not-found"
      "The next-hop VRF does not exist on the device.")
  ; ("static-route.next-table-target-absent", jmessage "target-not-found"
      "The next-table target instance does not exist on the device.")
  ; ("static-route.native-form-collision", jmessage "ownership-conflict"
      "The device holds this route with the same identity in a different native form.")
  ; ("static-route.device-hop-unmodeled", jmessage "ownership-conflict"
      "The device route has next-hop settings the static-route model cannot show (for example a track binding or per-hop qualifiers); adopting it would delete them on retract.")
  ; ("static-route.device-route-unmodeled", jmessage "ownership-conflict"
      "The device route has route-level settings the static-route model cannot show; adopting it would delete them on retract.")
  ; ("static-route.device-sibling-unsupported", jmessage "ownership-conflict"
      "The device route has a next-hop form the static-route model cannot show.")
  ; ("static-route.device-blank-key-collision", jmessage "ownership-conflict"
      "The device route has interface-like next hops that share one canonical identity with each other or with the intent.")
  ; ("static-route.shared-tag-unrepresented", jmessage "ownership-conflict"
      "The route tag is shared with device next hops the intent does not describe; changing it would change them.")
  ; ("static-route.device-state-unreadable", jmessage "unreadable-state"
      "The device's existing static route state for this route cannot be read reliably.")
  ; ("static-route.device-per-hop-metric", jmessage "ownership-conflict"
      "The device route carries a per-hop metric the static-route model cannot show; writing the intent's route-level metric would rewrite it.") ].

(** The messages of the definition text, lines 2354 to 2385. *)
Definition messages_bfd : list (pystr * json) :=
  [ ("bfd.ned-unsupported", jmessage "inexpressible-on-ned"
      "The BFD writer has no handler for this device's NED.")
  ; ("bfd.nx-tier2-deferred", jmessage "inexpressible-on-ned"
      "NX-OS BFD has no verified write path. Record a non-empty device configuration and verify the write mappings before enabling it.")
  ; ("bfd.interface-name-invalid", jmessage "invalid-value"
      "The BFD interface name must contain an interface type followed by its number.")
  ; ("bfd.interface-state-unreadable", jmessage "unreadable-state"
      "The BFD target interface or its BFD settings cannot be read. Check that the interface exists on the device.")
  ; ("bfd.device-state-unreadable", jmessage "unreadable-state"
      "The device interface configuration for BFD cannot be read.")
  ; ("bfd.junos-non-ae", jmessage "inexpressible-on-ned"
      "Junos sets BFD on an interface only as micro-BFD on an aggregated Ethernet bundle. This interface is not a bundle, so the BFD writer has no setting for it.")
  ; ("bfd.micro-bfd-unsupported", jmessage "inexpressible-on-ned"
      "The BFD writer for this NED has no micro-BFD setting, so it cannot run BFD on each bundle member.")
  ; ("bfd.xr-single-interval", jmessage "inexpressible-on-ned"
      "IOS-XR has one BFD minimum interval for transmit and receive. State the transmit interval only and leave the receive interval unset.") ].

(** The messages of the definition text, lines 2386 to 2533. *)
Definition messages_isis : list (pystr * json) :=
  [ ("isis.ned-unsupported", jmessage "inexpressible-on-ned"
      "The isis writer has no handler for this device's NED.")
  ; ("isis.nx-deferred", jmessage "inexpressible-on-ned"
      "The isis writer has no verified write path on cisco-nx-cli yet; the NX IS-IS schema is only recorded.")
  ; ("isis.xr-process-unreadable", jmessage "unreadable-state"
      "The existing IOS-XR IS-IS process state this intent depends on cannot be read.")
  ; ("isis.xr-level-overload-unmodeled", jmessage "ownership-conflict"
      "The IOS-XR process carries level-scoped overload-bit settings the isis model cannot show; writing the overload bit or retracting the process would lose them.")
  ; ("isis.xr-microloop-unsupported", jmessage "inexpressible-on-ned"
      "On IOS-XR microloop avoidance needs an address family and a form (protected, segment-routing or a rib-update delay) that the one microloop-avoidance value cannot select or keep.")
  ; ("isis.xr-frr-no-address-family", jmessage "inexpressible-on-ned"
      "On IOS-XR fast-reroute is set per address family, and this process has none: it runs none, and no interface or redistribute row of the intent enables one.")
  ; ("isis.xr-frr-flavors-unmodeled", jmessage "ownership-conflict"
      "An IOS-XR process address family carries more than one fast-reroute flavor, which the one fast-reroute value of the intent cannot represent.")
  ; ("isis.xr-metric-style-occupied", jmessage "ownership-conflict"
      "The device holds an IOS-XR metric-style that differs from the intent in a place the service does not own; the service does not overwrite it.")
  ; ("isis.xr-is-type-not-landed", jmessage "would-weaken-intent"
      "On IOS-XR the metric-style levels follow the is-type, and the is-type did not land; the metric-style would land on the wrong levels.")
  ; ("isis.xr-postcondition-failed", jmessage "would-weaken-intent"
      "After the write the IOS-XR process does not hold the levels or the metric-style the intent states.")
  ; ("isis.xr-owned-component-changed", jmessage "ownership-conflict"
      "An IOS-XR IS-IS component this service owns changed on the device after the service recorded it; retracting it would delete that change.")
  ; ("isis.xr-component-ownership-partial", jmessage "ownership-conflict"
      "Part of an IOS-XR IS-IS component this service owns now belongs to the device or another service; retracting it would delete what the service does not own.")
  ; ("isis.xr-component-shared", jmessage "ownership-conflict"
      "Another service also owns an IOS-XR IS-IS component of this service, so the effect of retracting it cannot be judged.")
  ; ("isis.xr-component-unattributed", jmessage "unreadable-state"
      "The reverse diff of the service instance does not match the IOS-XR IS-IS components it recorded as its own.")
  ; ("isis.xr-legacy-ownership-ambiguous", jmessage "unreadable-state"
      "The service instance has no recorded IOS-XR IS-IS provenance, and the device does not show which metric-style rows it owns.")
  ; ("isis.timos-process-tag-invalid", jmessage "invalid-value"
      "On SR OS the IS-IS process-tag is the instance number, and this tag is not a number.")
  ; ("isis.arcos-process-ambiguous", jmessage "ownership-conflict"
      "More than one ArcOS IS-IS protocol on the device matches the process this row names, so the service cannot tell which one to write.")
  ; ("isis.arcos-untagged-process-uncertain", jmessage "invalid-value"
      "An untagged interface row with frr-enabled or bfd-enabled names the first ArcOS IS-IS process, and the intent creates another process first, so that process is not certain; set the process-tag of the row.")
  ; ("isis.arcos-default-instance-absent", jmessage "target-not-found"
      "The ArcOS default network instance, in which the service creates a missing IS-IS process, does not exist on the device.")
  ; ("isis.arcos-state-unreadable", jmessage "unreadable-state"
      "An ArcOS IS-IS protocol, interface or address-family key the intent depends on reads back empty, as another value, as an identity the service does not map, or twice.")
  ; ("isis.arcos-postcondition-failed", jmessage "would-weaken-intent"
      "After the write, the ArcOS IS-IS protocol, interface or address-family keys do not read back as the service wrote them.")
  ; ("isis.arcos-frr-homes-ambiguous", jmessage "ownership-conflict"
      "The ArcOS interface holds fast-reroute in more than one address family or form, which the one frr-enabled value of the row cannot represent.")
  ; ("isis.arcos-frr-owned-home-changed", jmessage "ownership-conflict"
      "The ArcOS fast-reroute setting this service owns is now in another IS-IS process, address family or form on the device, or has a second one beside it; the service does not follow or retract it.")
  ; ("isis.arcos-frr-rows-alias", jmessage "invalid-value"
      "More than one interface row of the intent sets frr-enabled on the same ArcOS interface of one IS-IS process; the service owns fast-reroute in one address family of an interface only.")
  ; ("isis.arcos-frr-home-other-af", jmessage "ownership-conflict"
      "The fast-reroute of this ArcOS interface is in another address family than the row, and another row names the same interface; the row would change fast-reroute it does not own.")
  ; ("isis.arcos-bfd-rows-conflict", jmessage "invalid-value"
      "Interface rows of the intent that name the same ArcOS interface in one IS-IS process set different bfd-enabled values.")
  ; ("isis.arcos-bfd-global-profile-absent", jmessage "target-not-found"
      "The ArcOS GLOBAL BFD profile, which the service attaches to enable BFD on an interface, does not exist on the device.")
  ; ("isis.arcos-frr-per-interface", jmessage "inexpressible-on-ned"
      "ArcOS sets IS-IS fast reroute per interface. State it on the interface rows, not on the process.")
  ; ("isis.auth-incomplete", jmessage "inexpressible-on-ned"
      "The intent states an IS-IS authentication type without its key. The service cannot write the authentication without the key.")
  ; ("isis.frr-protection-without-enable", jmessage "invalid-value"
      "The intent states a fast-reroute protection kind on an IS-IS interface that does not enable fast reroute.")
  ; ("isis.interface-absent", jmessage "target-not-found"
      "The IS-IS interface does not exist on the device. The IS-IS writer cannot create the native interface.")
  ; ("isis.junos-bfd-group-provided", jmessage "ownership-conflict"
      "A Junos configuration group provides BFD on this IS-IS interface. Junos cannot disable group configuration on one interface, and the service does not own the group.")
  ; ("isis.junos-frr-needs-protection", jmessage "inexpressible-on-ned"
      "Junos enables IS-IS fast reroute on an interface only with a protection kind. State the protection kind.")
  ; ("isis.junos-interface-level-disabled", jmessage "ownership-conflict"
      "The device disables an IS-IS level on this Junos interface that the intended circuit type uses. The service does not remove that setting.")
  ; ("isis.junos-net-needs-loopback", jmessage "inexpressible-on-ned"
      "Junos holds the IS-IS NET on the loopback interface. Add the loopback interface row to the IS-IS intent.")
  ; ("isis.metric-needs-circuit-type", jmessage "invalid-value"
      "ArcOS sets the IS-IS interface metric per level. State the circuit type, so that the metric has a level.")
  ; ("isis.process-absent", jmessage "target-not-found"
      "The IS-IS process of this interface row does not exist on the device and is not declared in the intent.") ].

(** The messages of the definition text, lines 2534 to 2549. *)
Definition messages_isis_2 : list (pystr * json) :=
  [ ("isis.use-level-fields", jmessage "inexpressible-on-ned"
      "This NED sets this IS-IS process value per level. State it with the per-level fields.")
  ; ("isis.xr-process-tag-required", jmessage "invalid-value"
      "IOS-XR names every IS-IS process by its tag, and this row has no process tag.")
  ; ("isis.interface-name-invalid", jmessage "invalid-value"
      "The IS-IS interface name must contain an interface type followed by its number.")
  ; ("isis.interface-type-no-home", jmessage "inexpressible-on-ned"
      "The IS-IS writer for this NED has no native interface list for this interface type.") ].

(** The messages of the definition text, lines 2550 to 2645. *)
Definition messages_ospf : list (pystr * json) :=
  [ ("ospf.auth-state-unreadable", jmessage "unreadable-state"
      "The device OSPF authentication state cannot be read reliably.")
  ; ("ospf.auth-incomplete", jmessage "inexpressible-on-ned"
      "OSPF authentication needs a complete credential or reference on the device. This intent cannot supply the missing credential.")
  ; ("ospf.auth-form-unsupported", jmessage "inexpressible-on-ned"
      "This NED has no home for the requested OSPF authentication form.")
  ; ("ospf.auth-key-preserve-only", jmessage "inexpressible-on-ned"
      "This OSPF authentication form can only be preserved. A supplied authentication key cannot be written.")
  ; ("ospf.disable-unsupported", jmessage "inexpressible-on-ned"
      "Only the SR OS OSPF writer supports an explicit process disable.")
  ; ("ospf.context-collision", jmessage "invalid-value"
      "Two OSPF process rows target the same Junos routing table. Junos supports one OSPFv2 context per routing table.")
  ; ("ospf.process-undeclared", jmessage "target-not-found"
      "The OSPF interface names a process that no process-config row declares. Junos needs that row to select the routing table.")
  ; ("ospf.nx-deferred", jmessage "inexpressible-on-ned"
      "The NX-OS OSPF writer is deferred. The service has no verified write path on this NED.")
  ; ("ospf.ned-unsupported", jmessage "inexpressible-on-ned"
      "The service has no OSPF writer for this NED.")
  ; ("ospf.process-state-unreadable", jmessage "unreadable-state"
      "The device OSPF process presence cannot be read reliably.")
  ; ("ospf.source-ref-required", jmessage "invalid-value"
      "IOS OSPF redistribution from BGP needs a source ASN.")
  ; ("ospf.source-ref-invalid", jmessage "invalid-value"
      "This OSPF redistribution protocol does not accept the supplied source reference.")
  ; ("ospf.network-qualifier-unrepresented", jmessage "ownership-conflict"
      "The device OSPF network type includes a non-broadcast qualifier that scalar intent cannot preserve. Select a different network type to replace it.")
  ; ("ospf.vrf-inactive", jmessage "target-not-found"
      "The OSPF routing instance is inactive or is not a Layer 3 routing instance.")
  ; ("ospf.source-ref-unscoped", jmessage "inexpressible-on-ned"
      "OSPF redistribution policy synthesis cannot select one source instance. An unscoped policy would redistribute the whole source protocol.")
  ; ("ospf.vrf-unsupported", jmessage "inexpressible-on-ned"
      "The SR OS OSPF writer supports router Base only. It cannot write a VRF process.")
  ; ("ospf.process-id-invalid", jmessage "invalid-value"
      "The OSPF process ID is outside the numeric range accepted by this NED (SR OS: 0 to 31; IOS: 0 to 4294967295).")
  ; ("ospf.network-type-invalid", jmessage "invalid-value"
      "The OSPF network type has no token in this NED codec.")
  ; ("ospf.process-absent", jmessage "target-not-found"
      "The interface OSPF process does not exist on the device and is not declared in process-config.")
  ; ("ospf.interface-absent", jmessage "target-not-found"
      "The OSPF interface does not exist on the device. The OSPF writer cannot create the native interface.")
  ; ("ospf.base-router-absent", jmessage "target-not-found"
      "The SR OS Base router does not exist on the device.")
  ; ("ospf.auth-type-unknown", jmessage "invalid-value"
      "The OSPF authentication type is not a type that the service knows.")
  ; ("ospf.interface-name-invalid", jmessage "invalid-value"
      "The OSPF interface name must contain an interface type followed by its number.")
  ; ("ospf.interface-type-no-home", jmessage "inexpressible-on-ned"
      "The OSPF writer for this NED has no native interface list for this interface type.") ].

(** The messages of the definition text, lines 2646 to 2725. *)
Definition messages_bgp : list (pystr * json) :=
  [ ("bgp.ned-unsupported", jmessage "inexpressible-on-ned"
      "The BGP writer has no handler for this device's NED.")
  ; ("bgp.nx-deferred", jmessage "inexpressible-on-ned"
      "BGP on NX-OS has no write path yet: its NX-OS schema is recorded from observation only.")
  ; ("bgp.capability-gap", jmessage "would-weaken-intent"
      "This NED's BGP writer cannot render this setting; leaving it out would push a more permissive configuration (an unfiltered peer, a peer in the wrong routing table, or an address family the intent disables).")
  ; ("bgp.asn-invalid", jmessage "invalid-value"
      "The AS number is not an RFC 5396 spelling: asplain (0 to 4294967295) or asdot (two numbers from 0 to 65535 joined by a dot).")
  ; ("bgp.asn-duplicate", jmessage "invalid-value"
      "Two router rows spell the same AS number differently; the device holds one BGP process per AS number.")
  ; ("bgp.device-as-unparseable", jmessage "unreadable-state"
      "An AS number on the device is not an RFC 5396 AS number, so the service cannot tell whether the intent changes it.")
  ; ("bgp.address-family-inexpressible", jmessage "inexpressible-on-ned"
      "This NED cannot express the address family; without it the peer would come up with no address family, or in the vendor default without its route policy.")
  ; ("bgp.policy-per-af-inexpressible", jmessage "inexpressible-on-ned"
      "The peer binds a different route policy per address family, but this NED binds one policy chain per neighbor for all of its address families.")
  ; ("bgp.family-override-withdraws", jmessage "ownership-conflict"
      "The peer's address families on the device include families the BGP model cannot show; a neighbor-level address-family setting replaces them, so writing it would withdraw them.")
  ; ("bgp.source-interface-name-invalid", jmessage "invalid-value"
      "The update-source interface name is not an interface type followed by its number.")
  ; ("bgp.peer-group-unreadable", jmessage "unreadable-state"
      "The peer group on the device cannot be read, so the service cannot tell which settings the peer inherits from it.")
  ; ("bgp.peer-state-unreadable", jmessage "unreadable-state"
      "The peer's own admin state on the device cannot be read, so the service cannot tell whether the intent must re-enable it.")
  ; ("bgp.address-family-unreadable", jmessage "unreadable-state"
      "The peer's address family on the device cannot be read, so the service cannot tell whether the intent must deactivate it.")
  ; ("bgp.vrf-inactive", jmessage "target-not-found"
      "The scope's routing instance exists only as inactive device configuration.")
  ; ("bgp.vrf-not-l3", jmessage "target-not-found"
      "The scope's routing instance is not a Layer 3 instance type (vrf or virtual-router).")
  ; ("bgp.network-instance-absent", jmessage "target-not-found"
      "The network instance of this BGP scope does not exist on the device, and the service never creates network instances.")
  ; ("bgp.vrf-peer-family-undeclared", jmessage "target-not-found"
      "On this NED a VRF peer exists only inside an address family that its scope declares. The scope declares no address family for this row.")
  ; ("bgp.peer-family-undeclared", jmessage "target-not-found"
      "On this NED a peer address family is written only inside an address family that its scope declares. The scope declares no address family for this row.")
  ; ("bgp.peer-group-deactivated", jmessage "ownership-conflict"
      "The peer group of this peer is deactivated on the device. Enabling the peer needs the whole group activated, which changes the other peers of the group.")
  ; ("bgp.redistribution-not-implemented", jmessage "inexpressible-on-ned"
      "The BGP writer for this NED has no verified write path for this redistribution setting yet.") ].

(** The messages of the definition text, lines 2726 to 2873. *)
Definition messages_snmp : list (pystr * json) :=
  [ ("snmp.ned-unsupported", jmessage "inexpressible-on-ned"
      "The SNMP writer has no handler for this device's NED.")
  ; ("snmp.priv-needs-auth", jmessage "invalid-value"
      "SNMPv3 privacy requires authentication on the same intent row.")
  ; ("snmp.auth-reference-missing", jmessage "invalid-value"
      "The authentication protocol requires a complete credential reference.")
  ; ("snmp.priv-reference-missing", jmessage "invalid-value"
      "The privacy protocol requires a complete credential reference.")
  ; ("snmp.ios-auth-unsupported", jmessage "inexpressible-on-ned"
      "The authentication algorithm has no IOS form. Supported algorithms: MD5, SHA and SHA-256/384/512.")
  ; ("snmp.ios-priv-unsupported", jmessage "inexpressible-on-ned"
      "The privacy algorithm has no IOS form. Supported algorithms: DES, 3DES and AES-128/192/256.")
  ; ("snmp.xr-auth-unsupported", jmessage "inexpressible-on-ned"
      "The authentication algorithm has no XR form. Supported algorithms: MD5, SHA and SHA-256/384/512.")
  ; ("snmp.xr-priv-unsupported", jmessage "inexpressible-on-ned"
      "The privacy algorithm has no XR form. Supported algorithms: DES, 3DES and AES-128/192/256.")
  ; ("snmp.nx-auth-unsupported", jmessage "inexpressible-on-ned"
      "The authentication algorithm has no NX form. Supported algorithms: MD5, SHA and SHA-256/384/512.")
  ; ("snmp.nx-priv-unsupported", jmessage "inexpressible-on-ned"
      "The privacy algorithm has no NX form. Supported algorithms: DES and AES-128.")
  ; ("snmp.junos-auth-unsupported", jmessage "inexpressible-on-ned"
      "The authentication algorithm has no JUNOS form. Supported algorithms: MD5 and SHA.")
  ; ("snmp.junos-priv-unsupported", jmessage "inexpressible-on-ned"
      "The privacy algorithm has no JUNOS form. Supported algorithms: DES, 3DES and AES-128.")
  ; ("snmp.arcos-auth-unsupported", jmessage "inexpressible-on-ned"
      "The authentication algorithm has no ARCOS form. Supported algorithms: MD5 and SHA.")
  ; ("snmp.arcos-priv-unsupported", jmessage "inexpressible-on-ned"
      "The privacy algorithm has no ARCOS form. Supported algorithms: DES and AES-128.")
  ; ("snmp.ios-version-unsupported", jmessage "inexpressible-on-ned"
      "The notification version has no IOS form. Supported versions: v1, v2c and v3.")
  ; ("snmp.xr-version-unsupported", jmessage "inexpressible-on-ned"
      "The notification version has no XR form. Supported versions: v1, v2c and v3.")
  ; ("snmp.junos-version-unsupported", jmessage "inexpressible-on-ned"
      "The notification version has no JUNOS form. Supported versions: v1 and v2c.")
  ; ("snmp.timos-version-unsupported", jmessage "inexpressible-on-ned"
      "The notification version has no TIMOS form. Supported versions: v1, v2c and v3.")
  ; ("snmp.arcos-version-unsupported", jmessage "inexpressible-on-ned"
      "The notification version has no ARCOS form. Supported versions: v1, v2c and v3.")
  ; ("snmp.binding-not-found", jmessage "target-not-found"
      "The notification binding does not refer to a declared credential label.")
  ; ("snmp.nx-acl-unsupported", jmessage "inexpressible-on-ned"
      "The single ACL field cannot represent NX use-acl and the separate IPv4/IPv6 filter bindings.")
  ; ("snmp.nx-role-unrepresented", jmessage "ownership-conflict"
      "The device holds a custom RBAC role that ro/rw access cannot represent. Only network-operator and network-admin are manageable.")
  ; ("snmp.nx-acl-unrepresented", jmessage "ownership-conflict"
      "The device holds an ACL binding that the single ACL field cannot represent. Adopting it would widen access.")
  ; ("snmp.nx-auth-removal-unsupported", jmessage "inexpressible-on-ned"
      "The device holds authentication credentials absent from intent. This writer cannot remove them.")
  ; ("snmp.nx-priv-removal-unsupported", jmessage "inexpressible-on-ned"
      "The device holds privacy credentials absent from intent. This writer cannot remove them.")
  ; ("snmp.nx-host-unsupported", jmessage "inexpressible-on-ned"
      "NX notification writes require a composite destination/port identity and security level that this intent model cannot represent.")
  ; ("snmp.junos-inform-unsupported", jmessage "inexpressible-on-ned"
      "Junos trap groups cannot send informs. Writing a trap would change the requested notification type.")
  ; ("snmp.junos-binding-missing", jmessage "invalid-value"
      "A new Junos notification destination requires a binding. An invented trap-group identity would change its on-wire credential.")
  ; ("snmp.junos-group-version-conflict", jmessage "invalid-value"
      "Destinations in one Junos trap group request different versions. The version is a group-level setting.")
  ; ("snmp.junos-group-port-conflict", jmessage "invalid-value"
      "Destinations in one Junos trap group request different ports. The port is a group-level setting.")
  ; ("snmp.timos-inform-unsupported", jmessage "inexpressible-on-ned"
      "SR OS trap groups cannot send informs. Writing a trap would change the requested notification type.")
  ; ("snmp.arcos-acl-unsupported", jmessage "inexpressible-on-ned"
      "ArcOS has no ACL binding for this credential. Omitting the filter would widen access.")
  ; ("snmp.arcos-server-version-conflict", jmessage "inexpressible-on-ned"
      "ArcOS holds notification versions at server level. Different requested versions cannot be represented by the per-destination model.")
  ; ("snmp.arcos-targets-unreadable", jmessage "unreadable-state"
      "Existing ArcOS notification targets cannot be read reliably. Creating new targets could duplicate device state.")
  ; ("snmp.arcos-binding-unsupported", jmessage "inexpressible-on-ned"
      "ArcOS notification bindings support V2C and USM security models. A v1 binding has no on-wire form.")
  ; ("snmp.port-invalid", jmessage "invalid-value"
      "The notification port must be an integer from 0 to 65535.")
  ; ("snmp.junos-port-unreadable", jmessage "unreadable-state"
      "The device trap-group port cannot be read as a valid integer port.") ].

(** The messages of the definition text, lines 2874 to 2897. *)
Definition messages_snmp_2 : list (pystr * json) :=
  [ ("snmp.junos-version-unreadable", jmessage "unreadable-state"
      "The device trap-group version is outside the mapped Junos vocabulary (all, v1 and v2).")
  ; ("snmp.access-invalid", jmessage "invalid-value"
      "Access must be ro or rw.")
  ; ("snmp.arcos-community-rw", jmessage "would-weaken-intent"
      "ArcOS SNMP communities are read-only, so a read-write community would land as read-only.")
  ; ("snmp.junos-v3-receiver-unsupported", jmessage "inexpressible-on-ned"
      "The Junos SNMP writer has no form for an SNMPv3 notification receiver.")
  ; ("snmp.timos-v3-user-read-only", jmessage "inexpressible-on-ned"
      "The SR OS SNMP writer has no write path for SNMPv3 users; the service only reads them.")
  ; ("snmp.xr-host-binding-missing", jmessage "invalid-value"
      "IOS-XR keys an SNMP host by its community or user, and this host row states neither.") ].

(** The messages of the definition text, lines 2898 to 3017. *)
Definition messages_logging : list (pystr * json) :=
  [ ("logging.ned-unsupported", jmessage "inexpressible-on-ned"
      "The logging writer has no handler for this device's NED.")
  ; ("logging.local-levels-nx-only", jmessage "inexpressible-on-ned"
      "Local logging severity levels are written only on NX-OS; this NED has no home for them.")
  ; ("logging.severity-unknown", jmessage "inexpressible-on-ned"
      "The severity has no equivalent in this NED's syslog severity vocabulary.")
  ; ("logging.facility-unknown", jmessage "inexpressible-on-ned"
      "The facility has no equivalent in this NED's syslog facility vocabulary.")
  ; ("logging.host-not-ip", jmessage "inexpressible-on-ned"
      "On this NED the writer accepts only an IP address as a syslog host; a hostname host cannot be written.")
  ; ("logging.host-address-empty", jmessage "invalid-value"
      "The syslog host address is empty.")
  ; ("logging.port-invalid", jmessage "invalid-value"
      "The host port is not a port number from 1 to 65535.")
  ; ("logging.vrf-name-length", jmessage "inexpressible-on-ned"
      "On this NED the VRF name of a syslog host must be 1 to 32 characters.")
  ; ("logging.transport-no-home", jmessage "inexpressible-on-ned"
      "This NED has no per-host transport setting; secure (TLS) logging is not a UDP or TCP transport.")
  ; ("logging.per-host-source-no-home", jmessage "inexpressible-on-ned"
      "This NED has one device-wide syslog source interface and cannot hold a source per host.")
  ; ("logging.source-interface-name-invalid", jmessage "invalid-value"
      "The source interface name is not an interface type followed by its number.")
  ; ("logging.timos-target-limit", jmessage "inexpressible-on-ned"
      "SR OS holds at most 10 syslog targets, and no target is free for this host.")
  ; ("logging.facility-override-conflict", jmessage "ownership-conflict"
      "The device holds a read-only facility override on this host that differs from the intended facility; change the override on the device first.")
  ; ("logging.source-slot-conflict", jmessage "invalid-value"
      "Two hosts name different source interfaces for one routing table, which holds one source interface.")
  ; ("logging.source-shared-across-vrfs", jmessage "inexpressible-on-ned"
      "Several VRFs name one source interface that no global source row carries; the device holds one source row per interface name.")
  ; ("logging.source-held-elsewhere", jmessage "ownership-conflict"
      "A source row of another routing table holds this interface and the intent does not release it; taking the name would move that row.")
  ; ("logging.source-rotation", jmessage "ownership-conflict"
      "The intent swaps source interfaces between VRF rows; each claims a name another row still holds. By policy the service refuses an atomic swap: move one VRF at a time.")
  ; ("logging.source-vrf-ambiguous", jmessage "invalid-value"
      "The intent puts the interface this source names in two different VRFs, so the source row cannot be checked against it.")
  ; ("logging.nx-tls-secure", jmessage "ownership-conflict"
      "The NX-OS logging server uses secure (TLS) logging, which the logging model cannot keep; adopting or removing the server would delete it.")
  ; ("logging.nx-tls-client-identity", jmessage "ownership-conflict"
      "The NX-OS logging server has a TLS trustpoint client identity, which the logging model cannot keep; adopting or removing the server would delete it.")
  ; ("logging.nx-tls-unreadable", jmessage "unreadable-state"
      "The TLS settings of the existing NX-OS logging server cannot be read.")
  ; ("logging.nx-server-unreadable", jmessage "unreadable-state"
      "The existing NX-OS logging server list or server entry cannot be read.")
  ; ("logging.nx-host-state-missing", jmessage "unreadable-state"
      "The NX-OS logging servers this service owned were not recorded, so their TLS settings cannot be checked before they are removed.")
  ; ("logging.ios-severity-conflict", jmessage "invalid-value"
      "IOS has one global logging trap severity, and another logging row of the intent states a different severity.")
  ; ("logging.ios-source-dependency-missing", jmessage "target-not-found"
      "This IOS logging source row depends on another source-interface row of this transaction that was not created or released. Writing it now would take over a row that still holds its name.")
  ; ("logging.ios-source-needs-interface", jmessage "inexpressible-on-ned"
      "IOS sets the logging source by interface, not by address. State a source interface.")
  ; ("logging.ios-transport-needs-port", jmessage "inexpressible-on-ned"
      "IOS writes the logging transport together with its port. State the port.")
  ; ("logging.junos-source-needs-address", jmessage "inexpressible-on-ned"
      "Junos sets the syslog source by address only. State a source address.")
  ; ("logging.timos-target-tls", jmessage "ownership-conflict"
      "The device holds this SR OS logging target with a TLS profile. A plain target at this address would change a target that the service does not own.")
  ; ("logging.xr-global-source-conflict", jmessage "invalid-value"
      "IOS-XR has one global logging source, and another logging row of the intent states a different source.") ].

(** The whole definition text, its members in the text's order. *)
Definition definition_json : json :=
  JObj [ ("marker", JStr "device-intent: refused")
       ; ("internal_fault", JStr "device-intent: internal fault, the transaction was not committed; the NSO python-vm log has the details")
       ; ("max_message_bytes", JInt 16384)
       ; ("families", JArr [JStr "vlan"; JStr "lag"; JStr "interface"; JStr "subinterface"; JStr "svi"; JStr "switchport"; JStr "mtu"; JStr "l2-sap"; JStr "route-policy"; JStr "static-route"; JStr "bfd"; JStr "isis"; JStr "ospf"; JStr "bgp"; JStr "snmp"; JStr "logging"])
       ; ("reasons", JArr [JStr "invalid-value"; JStr "target-not-found"; JStr "inexpressible-on-ned"; JStr "would-weaken-intent"; JStr "ownership-conflict"; JStr "unreadable-state"])
       ; ("subjects", JObj (subjects_singleton ++ subjects_vlan ++ subjects_lag ++ subjects_interface ++ subjects_subinterface ++ subjects_svi ++ subjects_switchport ++ subjects_mtu ++ subjects_l2_sap ++ subjects_route_policy ++ subjects_route_policy_2 ++ subjects_route_policy_3 ++ subjects_static_route ++ subjects_bfd ++ subjects_isis ++ subjects_isis_2 ++ subjects_ospf ++ subjects_bgp ++ subjects_bgp_2 ++ subjects_snmp ++ subjects_logging))
       ; ("messages", JObj (messages_common ++ messages_common_2 ++ messages_vlan ++ messages_lag ++ messages_interface ++ messages_subinterface ++ messages_svi ++ messages_switchport ++ messages_mtu ++ messages_l2_sap ++ messages_route_policy ++ messages_route_policy_2 ++ messages_static_route ++ messages_bfd ++ messages_isis ++ messages_isis_2 ++ messages_ospf ++ messages_bgp ++ messages_snmp ++ messages_snmp_2 ++ messages_logging)) ].
