(* ===== verification/RefusalProtocol.v ===== *)
(** * The refusal protocol: records, row identity, rendering and strict parsing

    src/nso_adapter/nso/refusal_protocol.py.  The tables are built from the definition text
    ([RefusalCatalog.definition_json]) by the code's own [_build_definition]; rendering and
    parsing go through the JSON model of [Json].  The interpreter's recursion limit is the
    argument [rec_limit] of everything that decodes JSON. *)

From stdpp Require Import base gmap list strings sorting.
From Stdlib Require Import ZArith NArith Lia.
From S2P Require Import Prelude Json Sha256 RefusalCatalog.
Local Open Scope py_scope.

(** ** Data *)

Record KeyShape := { ks_name : pystr; ks_type : pystr }.
Record Step := { st_list : pystr; st_keys : list KeyShape }.
Record Subject := {
  sub_id : pystr; sub_family : pystr; sub_path : list Step; sub_fields : list pystr;
  sub_secret_keyed : bool }.
Record Message := { m_id : pystr; m_family : option pystr; m_reason : pystr; m_text : pystr }.
Record RowRef := { rr_subject : pystr; rr_key : pystr }.
Record RelatedSite := { rs_family : pystr; rs_row : option RowRef; rs_field : option pystr }.
Record Refusal := {
  r_family : pystr; r_row : RowRef; r_field : option pystr; r_reason : pystr;
  r_message_id : pystr; r_message : pystr; r_related : option RelatedSite }.

#[global] Instance RowRef_eq_dec : EqDecision RowRef. Proof. solve_decision. Defined.
#[global] Instance RelatedSite_eq_dec : EqDecision RelatedSite. Proof. solve_decision. Defined.
#[global] Instance Refusal_eq_dec : EqDecision Refusal. Proof. solve_decision. Defined.

(** ** Decoding helpers *)

Definition proto {A} (msg : pystr) : res A := Raise (RefusalProtocolError msg).
Definition require (b : bool) (msg : pystr) : res unit := if b then Ok tt else proto msg.

(** [_strict_object]: the object hook that refuses a repeated member. *)
Fixpoint strict_pairs (pairs result : list (pystr * json)) : res (list (pystr * json)) :=
  match pairs with
  | [] => Ok result
  | (key, value) :: pairs' =>
      if dict_mem result key then proto "duplicate JSON member"
      else strict_pairs pairs' (result ++ [(key, value)])
  end.
Definition strict_object (pairs : list (pystr * json)) : res json :=
  result ← strict_pairs pairs []; Ok (JObj result).

(** [_load] *)
Definition load (rec_limit : nat) (text : pystr) : res json :=
  match loads strict_object (RefusalProtocolError "non-finite JSON number") rec_limit text with
  | Raise (ValueError _) => proto "invalid JSON"
  | r => r
  end.

(** [_dump] *)
Definition dump (value : json) : pystr := dumps compact value.

(** ** Building the definition *)

Definition ID_CHARACTERS : list N := py_chars "abcdefghijklmnopqrstuvwxyz0123456789.-".
Definition FIELD_CHARACTERS : list N := ID_CHARACTERS ++ py_chars "_".
Definition HEX : list N := py_chars "0123456789abcdef".
Definition KEY_TYPES : list pystr := ["string"; "integer"].
Definition MAX_ID_LENGTH : nat := 64.
Definition MAX_TEXT_LENGTH : nat := 240.
Definition REASON_COUNT : nat := 6.

Definition in_chars (cs : list N) (c : N) : bool := existsb (N.eqb c) cs.
Definition str_in (s : pystr) (l : list pystr) : bool := bool_decide (s ∈ l).

(** [_identifier] *)
Definition identifier (value : json) (what : pystr) (characters : list N) : res pystr :=
  match value with
  | JStr s =>
      if py_truthy s && Nat.leb (py_len s) MAX_ID_LENGTH && forallb (in_chars characters) (py_chars s)
      then Ok s else proto ("definition: invalid " +:+ what +:+ " identifier")
  | _ => proto ("definition: invalid " +:+ what +:+ " identifier")
  end.

(** [_members]: an object with exactly these names. *)
Definition members (value : json) (names : list pystr) (what : pystr) : res (list (pystr * json)) :=
  match value with
  | JObj l =>
      if bool_decide (stable_sort py_leb (dict_keys l) = stable_sort py_leb names)
      then Ok l else proto (what +:+ ": wrong members")
  | _ => proto (what +:+ ": wrong members")
  end.

(** [raw[name]] after [members] proved the name present. *)
Definition member (raw : list (pystr * json)) (name : pystr) : json := default JNull (dict_get raw name).

(** [_unique] *)
Definition unique (values : list pystr) (what : pystr) : res (list pystr) :=
  if bool_decide (NoDup values) then Ok values else proto ("definition: duplicate " +:+ what).

(** Iterating a decoded value: a list's items, a string's characters, an object's names. *)
Definition py_iter (v : json) : res (list json) :=
  match v with
  | JArr l => Ok l
  | JStr s => Ok (map (fun c => JStr (PStr [c])) (py_chars s))
  | JObj l => Ok (map (fun kv => JStr kv.1) l)
  | _ => Raise (TypeError "object is not iterable")
  end.

(** [v.items()] *)
Definition py_items (v : json) : res (list (pystr * json)) :=
  match v with JObj l => Ok l | _ => Raise (AttributeError "items") end.

(** [v in strings] for a tuple of strings *)
Definition json_in (v : json) (l : list pystr) : option pystr :=
  match v with JStr s => if str_in s l then Some s else None | _ => None end.

Definition build_key (raw_shape : json) : res KeyShape :=
  shape ← members raw_shape ["name"; "type"] "definition key";
  match json_in (member shape "type") KEY_TYPES with
  | None => proto "definition: unknown key type"
  | Some ty => name ← identifier (member shape "name") "key" ID_CHARACTERS;
               Ok {| ks_name := name; ks_type := ty |}
  end.

(** [_build_step] *)
Definition build_step (raw : json) : res Step :=
  step ← members raw ["list"; "keys"] "definition step";
  match member step "keys" with
  | JArr (k :: ks) =>
      keys ← map_res build_key (k :: ks);
      _ ← unique (map ks_name keys) "key";
      l ← identifier (member step "list") "list" ID_CHARACTERS;
      Ok {| st_list := l; st_keys := keys |}
  | _ => proto "definition: a list step has no keys"
  end.

(** [_build_subject] *)
Definition build_subject (families : list pystr) (subject_id : pystr) (raw : json) : res Subject :=
  let base := ["family"; "path"; "fields"] in
  let names := match raw with
               | JObj l => if dict_mem l "secret_keyed" then base ++ ["secret_keyed"] else base
               | _ => base
               end in
  raw ← members raw names "definition subject";
  match default (JBool false) (dict_get raw "secret_keyed") with
  | JBool secret_keyed =>
      match json_in (member raw "family") families with
      | Some family =>
          if bool_decide (subject_id = family) || py_startswith (family +:+ ".") subject_id then
            match member raw "path", member raw "fields" with
            | JArr path, JArr fields =>
                steps ← map_res build_step path;
                fields ← map_res (fun f => identifier f "field" FIELD_CHARACTERS) fields;
                fields ← unique fields "field";
                id ← identifier (JStr subject_id) "subject" ID_CHARACTERS;
                Ok {| sub_id := id; sub_family := family; sub_path := steps; sub_fields := fields;
                      sub_secret_keyed := secret_keyed |}
            | _, _ => proto "definition: invalid subject shape"
            end
          else proto "definition: a subject is not named for its family"
      | None => proto "definition: a subject is not named for its family"
      end
  | _ => proto "definition: secret_keyed must be a boolean"
  end.

(** [s.partition(".")]: the text before the first dot and whether there is one. *)
Fixpoint before_dot (l : list N) : list N * bool :=
  match l with
  | [] => ([], false)
  | c :: l' => if N.eqb c 46 then ([], true) else let '(h, b) := before_dot l' in (c :: h, b)
  end.

(** [_build_message] *)
Definition build_message (families reasons : list pystr) (message_id : pystr) (raw : json) : res Message :=
  raw ← members raw ["reason"; "text"] "definition message";
  match json_in (member raw "reason") reasons with
  | None => proto "definition: a message has an unknown reason"
  | Some reason =>
      match member raw "text" with
      | JStr text =>
          if py_truthy text && Nat.leb (py_len text) MAX_TEXT_LENGTH &&
             forallb (fun c => (32 <=? c)%N && (c <=? 126)%N) (py_chars text)
          then
            id ← identifier (JStr message_id) "message" ID_CHARACTERS;
            let '(scope, dot) := before_dot (py_chars id) in
            if dot && negb (str_in (PStr scope) families)
            then proto "definition: a scoped message id does not start with a family"
            else Ok {| m_id := message_id; m_family := if dot then Some (PStr scope) else None;
                       m_reason := reason; m_text := text |}
          else proto "definition: a message text is not short printable ASCII"
      | _ => proto "definition: a message text is not short printable ASCII"
      end
  end.

(** [_check_field_owners]: one field, one owning family. *)
Fixpoint check_owner_fields (family : pystr) (fields : list pystr) (owners : list (pystr * pystr)) :
    res (list (pystr * pystr)) :=
  match fields with
  | [] => Ok owners
  | field :: fields' =>
      let owners := dict_setdefault owners field family in
      let owner := default family (dict_get owners field) in
      if bool_decide (owner = family) then check_owner_fields family fields' owners
      else proto ("definition: the families " +:+ owner +:+ " and " +:+ family +:+ " both own " +:+ field)
  end.
Fixpoint check_field_owners (subjects : list (pystr * Subject)) (owners : list (pystr * pystr)) : res unit :=
  match subjects with
  | [] => Ok tt
  | (_, subject) :: rest =>
      owners ← check_owner_fields (sub_family subject) (sub_fields subject) owners;
      check_field_owners rest owners
  end.

Record definition := {
  d_marker : pystr; d_internal_fault : pystr; d_max_message_bytes : Z;
  d_families : list pystr; d_reasons : list pystr;
  d_subjects : list (pystr * Subject); d_messages : list (pystr * Message) }.

Definition check_singleton (subjects : list (pystr * Subject)) (family : pystr) : res unit :=
  match dict_get subjects family with
  | Some s => match sub_path s, sub_fields s with
              | [], [] => Ok tt
              | _, _ => proto "definition: every family needs its singleton subject"
              end
  | None => proto "definition: every family needs its singleton subject"
  end.

(** [_build_definition] on the decoded text. *)
Definition build_definition (decoded : json) : res definition :=
  raw ← members decoded
    ["marker"; "internal_fault"; "max_message_bytes"; "families"; "reasons"; "subjects"; "messages"] "definition";
  raw_families ← py_iter (member raw "families");
  families ← map_res (fun f => identifier f "family" ID_CHARACTERS) raw_families;
  families ← unique families "family";
  raw_reasons ← py_iter (member raw "reasons");
  reasons ← map_res (fun f => identifier f "reason" ID_CHARACTERS) raw_reasons;
  reasons ← unique reasons "reason";
  _ ← require (Nat.eqb (length reasons) REASON_COUNT) "definition: the protocol has exactly six reasons";
  raw_subjects ← py_items (member raw "subjects");
  subjects ← map_res (fun kv => s ← build_subject families kv.1 kv.2; Ok (kv.1, s)) raw_subjects;
  _ ← map_res (check_singleton subjects) families;
  _ ← check_field_owners subjects [];
  raw_messages ← py_items (member raw "messages");
  messages ← map_res (fun kv => m ← build_message families reasons kv.1 kv.2; Ok (kv.1, m)) raw_messages;
  match member raw "marker", member raw "internal_fault" with
  | JStr marker, JStr fault =>
      _ ← require (py_truthy marker && py_truthy fault && negb (py_contains marker fault))
            "definition: the internal fault must not claim the refusal marker";
      match member raw "max_message_bytes" with
      | JInt limit =>
          if (0 <? limit)%Z then
            Ok {| d_marker := marker; d_internal_fault := fault; d_max_message_bytes := limit;
                  d_families := families; d_reasons := reasons; d_subjects := subjects;
                  d_messages := messages |}
          else proto "definition: invalid message bound"
      | _ => proto "definition: invalid message bound"
      end
  | _, _ => proto "definition: the internal fault must not claim the refusal marker"
  end.

(** ** The built tables *)

Definition built : definition :=
  Eval vm_compute in
    match build_definition definition_json with
    | Ok d => d
    | Raise _ => {| d_marker := ""; d_internal_fault := ""; d_max_message_bytes := 0; d_families := [];
                    d_reasons := []; d_subjects := []; d_messages := [] |}
    end.

Definition MARKER : pystr := d_marker built.
Definition INTERNAL_FAULT : pystr := d_internal_fault built.
Definition MAX_MESSAGE_BYTES : Z := d_max_message_bytes built.
Definition FAMILY_ORDER : list pystr := d_families built.
Definition REASONS : list pystr := d_reasons built.
Definition SUBJECTS : list (pystr * Subject) := d_subjects built.
Definition MESSAGES : list (pystr * Message) := d_messages built.
Definition PREFIX : pystr := MARKER +:+ " ".

Fixpoint index_of (s : pystr) (l : list pystr) : option nat :=
  match l with
  | [] => None
  | x :: l' => if decide (s = x) then Some 0 else S <$> index_of s l'
  end.

(** [_FAMILY_RANK.get(family)] *)
Definition family_rank (family : pystr) : option nat := index_of family FAMILY_ORDER.

(** ** Row identity *)

(** A natural key value as Python holds it. *)
Inductive keyval := KVStr (s : pystr) | KVInt (z : Z) | KVBool (b : bool) | KVNone.

Definition canonical_key (shape : KeyShape) (value : keyval) : res json :=
  match value with
  | KVStr s => if bool_decide (ks_type shape = "string") then Ok (JStr s)
               else proto "natural path: a key value does not match its YANG type"
  | KVInt z => if bool_decide (ks_type shape = "integer") then Ok (JInt z)
               else proto "natural path: a key value does not match its YANG type"
  | _ => proto "natural path: a key value does not match its YANG type"
  end.

(** [_canonical_keys] *)
Definition canonical_keys (step : Step) (values : list keyval) : res (list json) :=
  if Nat.eqb (length values) (length (st_keys step))
  then map_res (fun kv => canonical_key kv.1 kv.2) (zip (st_keys step) values)
  else proto "natural path: a step has the wrong number of keys".

(** [subject_of] *)
Definition subject_of (family subject_id : pystr) : res Subject :=
  match dict_get SUBJECTS subject_id with
  | Some subject =>
      if bool_decide (sub_family subject = family) then Ok subject
      else proto "unknown subject for this family"
  | None => proto "unknown subject for this family"
  end.

Definition natural_path : Type := list (pystr * list keyval).

Definition canonical_step (step : Step) (entry : pystr * list keyval) : res json :=
  if bool_decide (entry.1 = st_list step) then
    keys ← canonical_keys step entry.2; Ok (JArr [JStr (st_list step); JArr keys])
  else proto "natural path: a step does not name the subject's list".

Definition canonical_value (family subject : pystr) (path : natural_path) : res json :=
  shape ← subject_of family subject;
  if Nat.eqb (length path) (length (sub_path shape)) then
    canonical_path ← map_res (fun se => canonical_step se.1 se.2) (zip (sub_path shape) path);
    Ok (JArr [JStr family; JStr subject; JArr canonical_path])
  else proto "natural path: wrong number of steps for the subject".

(** [canonical_identity] *)
Definition canonical_identity (family subject : pystr) (path : natural_path) : res pystr :=
  v ← canonical_value family subject path; Ok (dump v).

(** [row_ref] *)
Definition row_ref (family subject : pystr) (path : natural_path) : res RowRef :=
  text ← canonical_identity family subject path;
  Ok {| rr_subject := subject; rr_key := sha256_hex (ascii_bytes text) |}.

(** ** Checking records *)

(** [_check_row] *)
Definition check_row (family : pystr) (row : RowRef) : res Subject :=
  if Nat.eqb (py_len (rr_key row)) 64 && forallb (in_chars HEX) (py_chars (rr_key row))
  then subject_of family (rr_subject row)
  else proto "invalid row key digest".

Definition field_declared (field : option pystr) (subject : Subject) : bool :=
  match field with None => true | Some f => str_in f (sub_fields subject) end.

(** [_check_related] *)
Definition check_related (related : option RelatedSite) : res unit :=
  match related with
  | None => Ok tt
  | Some site =>
      match family_rank (rs_family site) with
      | None => proto "invalid related site"
      | Some _ =>
          match rs_row site with
          | None => require (match rs_field site with None => true | Some _ => false end)
                      "a related field needs its related row"
          | Some row =>
              subject ← check_row (rs_family site) row;
              require (field_declared (rs_field site) subject) "undeclared related field"
          end
      end
  end.

(** [_check_refusal] *)
Definition check_refusal (r : Refusal) : res unit :=
  match family_rank (r_family r) with
  | None => proto "invalid refusal family"
  | Some _ =>
      subject ← check_row (r_family r) (r_row r);
      _ ← require (field_declared (r_field r) subject) "undeclared refusal field";
      match dict_get MESSAGES (r_message_id r) with
      | Some entry =>
          _ ← require (bool_decide (r_reason r = m_reason entry ∧ r_message r = m_text entry))
                "the reason and message are not the catalog entry";
          _ ← require (match m_family entry with
                       | Some f => bool_decide (f = r_family r) | None => true end)
                "the message belongs to another family";
          check_related (r_related r)
      | None => proto "the reason and message are not the catalog entry"
      end
  end.

(** [refusal] *)
Definition refusal (family : pystr) (row : RowRef) (message_id : pystr) (field : option pystr)
    (related : option RelatedSite) : res Refusal :=
  match dict_get MESSAGES message_id with
  | None => proto "unknown message id"
  | Some entry =>
      let b := {| r_family := family; r_row := row; r_field := field; r_reason := m_reason entry;
                  r_message_id := m_id entry; r_message := m_text entry; r_related := related |} in
      _ ← check_refusal b; Ok b
  end.

Definition keyval_json (v : keyval) : json :=
  match v with KVStr s => JStr s | KVInt z => JInt z | KVBool b => JBool b | KVNone => JNull end.
Definition path_json (path : natural_path) : json :=
  JArr (map (fun e => JArr [JStr e.1; JArr (map keyval_json e.2)]) path).

(** [row_log_source] *)
Definition row_log_source (family : pystr) (row : RowRef) (path : natural_path) : res pystr :=
  subject ← check_row family row;
  let source := "row-key=" +:+ rr_key row in
  Ok (if negb (sub_secret_keyed subject) &&
         (match path with [] => false | _ => true end || match sub_path subject with [] => true | _ => false end)
      then source +:+ " row=" +:+ dump (path_json path) else source).

(** ** Rendering *)

Definition opt_str (o : option pystr) : json := match o with Some s => JStr s | None => JNull end.

(** [_row_record] *)
Definition row_record (row : RowRef) : json :=
  JObj [("subject", JStr (rr_subject row)); ("key", JStr (rr_key row))].
Definition opt_row_record (row : option RowRef) : json :=
  match row with None => JNull | Some row => row_record row end.

(** [_related_record] *)
Definition related_record (related : option RelatedSite) : json :=
  match related with
  | None => JNull
  | Some s => JObj [("family", JStr (rs_family s)); ("row", opt_row_record (rs_row s));
                    ("field", opt_str (rs_field s))]
  end.

(** [_record] *)
Definition record (r : Refusal) : json :=
  JObj [("family", JStr (r_family r)); ("row", row_record (r_row r)); ("field", opt_str (r_field r));
        ("reason", JStr (r_reason r)); ("message_id", JStr (r_message_id r));
        ("message", JStr (r_message r)); ("related", related_record (r_related r))].

Definition rank_le (a b : Refusal) : bool :=
  Nat.leb (default 0 (family_rank (r_family a))) (default 0 (family_rank (r_family b))).

(** [_ordered] *)
Definition ordered (refusals : list Refusal) : res (list Refusal) :=
  match refusals with
  | [] => proto "a refusal message needs at least one record"
  | _ =>
      _ ← map_res check_refusal refusals;
      _ ← require (bool_decide (NoDup (map r_family refusals))) "at most one primary record per family";
      Ok (stable_sort rank_le refusals)
  end.

Definition message_json (refusals : list Refusal) : json :=
  JObj [("refusals", JArr (map record refusals))].

(** [_render] *)
Definition render (refusals : list Refusal) : pystr := PREFIX +:+ dump (message_json refusals).

(** [len(s.encode("ascii"))] *)
Definition ascii_len (s : pystr) : res nat :=
  if forallb (fun c => N.ltb c 128) (py_chars s) then Ok (py_len s) else Raise UnicodeEncodeError.

(** [render_refusals] *)
Definition render_refusals (refusals : list Refusal) : res pystr :=
  os ← ordered refusals;
  let message := render os in
  n ← ascii_len message;
  if (MAX_MESSAGE_BYTES <? Z.of_nat n)%Z then proto "the refusal message exceeds its bound" else Ok message.

(** [claims_refusal] *)
Definition claims_refusal (message : json) : bool :=
  match message with JStr s => py_contains MARKER s | _ => false end.

(** ** Parsing *)

(** [_parse_row] *)
Definition parse_row (raw : json) : res (option RowRef) :=
  match raw with
  | JNull => Ok None
  | _ =>
      raw ← members raw ["subject"; "key"] "row";
      match member raw "subject", member raw "key" with
      | JStr s, JStr k => Ok (Some {| rr_subject := s; rr_key := k |})
      | _, _ => proto "row: wrong member types"
      end
  end.

Definition optional_text (value : json) : option (option pystr) :=
  match value with JNull => Some None | JStr s => Some (Some s) | _ => None end.

(** The related member of a record. *)
Definition parse_related (raw : json) : res (option RelatedSite) :=
  match raw with
  | JNull => Ok None
  | _ =>
      site ← members raw ["family"; "row"; "field"] "related";
      match member site "family", optional_text (member site "field") with
      | JStr f, Some field =>
          row ← parse_row (member site "row");
          Ok (Some {| rs_family := f; rs_row := row; rs_field := field |})
      | _, _ => proto "related: wrong member types"
      end
  end.

(** [_parse_record] *)
Definition parse_record (raw : json) : res Refusal :=
  raw ← members raw ["family"; "row"; "field"; "reason"; "message_id"; "message"; "related"] "record";
  match member raw "family", member raw "reason", member raw "message_id", member raw "message" with
  | JStr family, JStr reason, JStr message_id, JStr message =>
      match optional_text (member raw "field") with
      | None => proto "record: wrong member types"
      | Some field =>
          row ← parse_row (member raw "row");
          match row with
          | None => proto "record: a refusal names a row"
          | Some row =>
              related ← parse_related (member raw "related");
              Ok {| r_family := family; r_row := row; r_field := field; r_reason := reason;
                    r_message_id := message_id; r_message := message; r_related := related |}
          end
      end
  | _, _, _, _ => proto "record: wrong member types"
  end.

(** [len(s.encode("utf-8"))]: a lone surrogate cannot be encoded. *)
Definition utf8_width (c : N) : nat :=
  if N.ltb c 128 then 1 else if N.ltb c 2048 then 2 else if N.ltb c 65536 then 3 else 4.
Definition utf8_len (s : pystr) : res nat :=
  if forallb scalarb (py_chars s)
  then Ok (foldr (fun c n => utf8_width c + n) 0 (py_chars s)) else Raise UnicodeEncodeError.

(** [parse_refusals] *)
Definition parse_refusals (rec_limit : nat) (message : json) : res (list Refusal) :=
  match message with
  | JStr text =>
      if py_startswith PREFIX text then
        n ← utf8_len text;
        if (MAX_MESSAGE_BYTES <? Z.of_nat n)%Z then proto "the refusal message exceeds its bound"
        else
          decoded ← load rec_limit (py_drop (py_len PREFIX) text);
          raw ← members decoded ["refusals"] "message";
          match member raw "refusals" with
          | JArr (x :: records) =>
              if Nat.leb (length (x :: records)) (length FAMILY_ORDER) then
                parsed ← map_res parse_record (x :: records);
                os ← ordered parsed;
                if bool_decide (os = parsed) && bool_decide (render parsed = text) then Ok parsed
                else proto "the message is not in canonical form"
              else proto "a message carries one to one-per-family records"
          | _ => proto "a message carries one to one-per-family records"
          end
      else proto "the message does not start with the refusal prefix"
  | _ => proto "the message does not start with the refusal prefix"
  end.

(** ** The longest message *)

(** [_longest]: the first candidate of maximal measure. *)
Fixpoint longest {A} (measure : A -> nat) (best : A) (candidates : list A) : A :=
  match candidates with
  | [] => best
  | c :: rest => longest measure (if Nat.ltb (measure best) (measure c) then c else best) rest
  end.

Definition with_fields (s : Subject) : list (pystr * option pystr) :=
  map (fun f => (sub_id s, Some f)) (sub_fields s) ++ [(sub_id s, None)].
Definition MAX_KEY : pystr := PStr (replicate 64 102%N).

Definition related_sites : list RelatedSite :=
  flat_map (fun kv => map (fun sf => {| rs_family := sub_family kv.2;
                                        rs_row := Some {| rr_subject := sf.1; rr_key := MAX_KEY |};
                                        rs_field := sf.2 |}) (with_fields kv.2)) SUBJECTS.

Definition no_site : RelatedSite := {| rs_family := ""; rs_row := None; rs_field := None |}.
Definition longest_related : RelatedSite :=
  longest (fun s => py_len (dump (related_record (Some s)))) (hd no_site related_sites) (tl related_sites).

Definition family_rows (family : pystr) : list (pystr * option pystr) :=
  flat_map (fun kv => if bool_decide (sub_family kv.2 = family) then with_fields kv.2 else []) SUBJECTS.
Definition allowed_messages (family : pystr) : list Message :=
  List.filter (fun m => match m_family m with None => true | Some f => bool_decide (f = family) end)
    (map snd MESSAGES).

Definition no_message : Message := {| m_id := ""; m_family := None; m_reason := ""; m_text := "" |}.
Definition longest_row (family : pystr) : pystr * option pystr :=
  let rows := family_rows family in
  longest (fun r => py_len (dump (JArr [JStr r.1; opt_str r.2]))) (hd ("", None) rows) (tl rows).
Definition longest_message (family : pystr) : Message :=
  let ms := allowed_messages family in
  longest (fun m => py_len (dump (JArr [JStr (m_id m); JStr (m_reason m); JStr (m_text m)])))
          (hd no_message ms) (tl ms).

(** [maximum_record_set] *)
Definition maximum_record (family : pystr) : Refusal :=
  let row := longest_row family in
  let entry := longest_message family in
  {| r_family := family; r_row := {| rr_subject := row.1; rr_key := MAX_KEY |}; r_field := row.2;
     r_reason := m_reason entry; r_message_id := m_id entry; r_message := m_text entry;
     r_related := Some longest_related |}.
Definition maximum_record_set : list Refusal := map maximum_record FAMILY_ORDER.

(** [maximum_message_bytes] *)
Definition maximum_message_bytes : res nat := ascii_len (render maximum_record_set).
