(* ===== verification/RefusalProtocolProps.v ===== *)
(** * Correctness of the refusal protocol

    What a valid record is, that rendering and strict parsing are inverse on valid record
    sets, that the message bound can never be hit, and that row identities are injective. *)

From stdpp Require Import base gmap list strings sorting.
From Stdlib Require Import ZArith NArith Lia.
From S2P Require Import Prelude Json Sha256 RefusalCatalog RefusalProtocol.
Local Open Scope py_scope.

#[local] Opaque SUBJECTS MESSAGES FAMILY_ORDER REASONS MARKER PREFIX MAX_MESSAGE_BYTES built.

(** ** The declarative meaning of the record checks *)

Definition valid_row (family : pystr) (row : RowRef) (field : option pystr) : Prop :=
  ∃ subject, dict_get SUBJECTS (rr_subject row) = Some subject ∧ sub_family subject = family ∧
    py_len (rr_key row) = 64 ∧ forallb (in_chars HEX) (py_chars (rr_key row)) = true ∧
    match field with None => True | Some f => f ∈ sub_fields subject end.

Definition valid_related (related : option RelatedSite) : Prop :=
  match related with
  | None => True
  | Some s =>
      rs_family s ∈ FAMILY_ORDER ∧
      match rs_row s with
      | None => rs_field s = None
      | Some row => valid_row (rs_family s) row (rs_field s)
      end
  end.

(** One declared row, one declared field, the catalog's own text, a message the family may
    use and a well-formed related site. *)
Definition valid_refusal (r : Refusal) : Prop :=
  r_family r ∈ FAMILY_ORDER ∧ valid_row (r_family r) (r_row r) (r_field r) ∧
  (∃ entry, dict_get MESSAGES (r_message_id r) = Some entry ∧
     r_reason r = m_reason entry ∧ r_message r = m_text entry ∧
     match m_family entry with Some f => f = r_family r | None => True end) ∧
  valid_related (r_related r).

Lemma require_Ok b msg : require b msg = Ok tt ↔ b = true.
Proof. unfold require. destruct b; naive_solver. Qed.

Lemma index_of_Some s l : is_Some (index_of s l) ↔ s ∈ l.
Proof.
  induction l as [|x l IH]; simpl; [split; [by intros []|by intros ?%elem_of_nil]|].
  rewrite elem_of_cons. destruct (decide (s = x)); [naive_solver|].
  rewrite fmap_is_Some, IH. naive_solver.
Qed.

Lemma index_of_inj s t l i : index_of s l = Some i → index_of t l = Some i → s = t.
Proof.
  revert i. induction l as [|x l IH]; intros i; simpl; [done|].
  destruct (decide (s = x)), (decide (t = x)); subst; try done; intros Hs Ht.
  - destruct (index_of t l); naive_solver.
  - destruct (index_of s l); naive_solver.
  - destruct (index_of s l), (index_of t l); naive_solver.
Qed.

Lemma field_declared_spec field subject :
  field_declared field subject = true ↔ match field with None => True | Some f => f ∈ sub_fields subject end.
Proof. destruct field; simpl; [|done]. apply bool_decide_eq_true. Qed.

Lemma subject_of_Ok family id subject :
  subject_of family id = Ok subject ↔ dict_get SUBJECTS id = Some subject ∧ sub_family subject = family.
Proof.
  unfold subject_of. destruct (dict_get SUBJECTS id) as [s|]; [|split; [done|by intros [? _]]].
  destruct (bool_decide_reflect (sub_family s = family)); split; intros H; simplify_eq; try done.
  - by destruct H; simplify_eq.
  - by destruct H as [? ?]; simplify_eq.
Qed.

Lemma check_row_Ok family row subject :
  check_row family row = Ok subject ↔
  py_len (rr_key row) = 64 ∧ forallb (in_chars HEX) (py_chars (rr_key row)) = true ∧
  dict_get SUBJECTS (rr_subject row) = Some subject ∧ sub_family subject = family.
Proof.
  unfold check_row. destruct (Nat.eqb_spec (py_len (rr_key row)) 64) as [E|E]; simpl.
  - destruct (forallb _ _); [rewrite subject_of_Ok; naive_solver|split; [done|naive_solver]].
  - split; [done|naive_solver].
Qed.

Lemma check_row_field family row field msg :
  (subject ← check_row family row; require (field_declared field subject) msg) = Ok tt ↔
  valid_row family row field.
Proof.
  rewrite bind_Ok. setoid_rewrite check_row_Ok. setoid_rewrite require_Ok.
  setoid_rewrite field_declared_spec. unfold valid_row. naive_solver.
Qed.

Lemma check_related_Ok related : check_related related = Ok tt ↔ valid_related related.
Proof.
  unfold check_related, valid_related, family_rank. destruct related as [[fam row field]|]; [|done].
  cbn [rs_family rs_row rs_field]. rewrite <-index_of_Some. destruct (index_of fam FAMILY_ORDER).
  - destruct row as [row|].
    + rewrite check_row_field. naive_solver.
    + rewrite require_Ok. destruct field; naive_solver.
  - split; [done|]. by intros [[? ?] _].
Qed.

Lemma check_refusal_Ok r : check_refusal r = Ok tt ↔ valid_refusal r.
Proof.
  unfold check_refusal, valid_refusal, family_rank. rewrite <-index_of_Some.
  destruct (index_of (r_family r) FAMILY_ORDER); [|split; [done|by intros [[? ?] _]]].
  assert (∀ entry, match m_family entry with Some f => bool_decide (f = r_family r) | None => true end = true ↔
            match m_family entry with Some f => f = r_family r | None => True end) as Hfam.
  { intros entry. destruct (m_family entry); [apply bool_decide_eq_true|done]. }
  split.
  - intros (subject & Hrow & ([] & Hfield%require_Ok & H)%bind_Ok)%bind_Ok.
    destruct (dict_get MESSAGES (r_message_id r)) as [entry|]; [|done].
    apply bind_Ok in H as ([] & Hmsg%require_Ok%bool_decide_eq_true & ([] & Hf%require_Ok & Hrel)%bind_Ok).
    apply check_row_Ok in Hrow as (? & ? & ? & ?).
    split_and!; [eauto| |exists entry; naive_solver|by apply check_related_Ok].
    exists subject. split_and!; try done. by apply field_declared_spec.
  - intros (_ & (subject & Hs & Hsf & Hk & Hh & Hfd) & (entry & He & Hr & Hm & Hf) & Hrel).
    apply bind_Ok. exists subject. split; [by apply check_row_Ok|].
    apply bind_Ok. exists tt. split; [by apply require_Ok, field_declared_spec|]. rewrite He.
    apply bind_Ok. exists tt. split; [by apply require_Ok, bool_decide_eq_true|].
    apply bind_Ok. exists tt. split; [by apply require_Ok, Hfam|]. by apply check_related_Ok.
Qed.

(** ** Every text of the protocol renders as itself *)

(** Printable ASCII without the quote and the backslash. *)
Definition clean_char (c : N) : bool :=
  ((32 <=? c) && (c <=? 126) && negb (c =? 34) && negb (c =? 92))%N.
Definition clean (s : pystr) : bool := forallb clean_char (py_chars s).

Lemma clean_char_range c : clean_char c = true → (32 <= c <= 126)%N ∧ c ≠ 34%N ∧ c ≠ 92%N.
Proof.
  unfold clean_char. rewrite !andb_true_iff, !N.leb_le, !negb_true_iff, !N.eqb_neq. lia.
Qed.

Lemma escape_clean c : clean_char c = true → escape_char c = [c].
Proof.
  intros (H & H34 & H92)%clean_char_range. unfold escape_char.
  repeat match goal with |- context [N.eqb c ?n] =>
    rewrite (proj2 (N.eqb_neq c n)) by lia end.
  by rewrite (proj2 (N.leb_le 32 c)), (proj2 (N.leb_le c 126)) by lia.
Qed.

Lemma clean_plain s : clean s = true → plain_str s = true.
Proof.
  unfold clean, plain_str. apply forallb_impl.
  intros c (H & _)%clean_char_range. unfold scalarb. by rewrite (proj2 (N.ltb_lt c 55296)) by lia.
Qed.

Lemma flat_map_clean l : forallb clean_char l = true → flat_map escape_char l = l.
Proof.
  induction l as [|c l IH]; simpl; [done|]. intros [Hc Hl]%andb_prop.
  by rewrite escape_clean, IH.
Qed.

Lemma dump_str_clean s : clean s = true → dump_str s = [34%N] ++ py_chars s ++ [34%N].
Proof. intros H. unfold dump_str. by rewrite flat_map_clean. Qed.

Lemma hex_clean s : forallb (in_chars HEX) (py_chars s) = true → clean s = true.
Proof.
  unfold clean. apply forallb_impl. intros c Hc.
  unfold in_chars in Hc. apply existsb_exists in Hc as (x & Hx & ->%N.eqb_eq).
  revert x Hx. cbn. intros x Hx. repeat (destruct Hx as [<-|Hx]; [done|]). done.
Qed.

Definition clean_subject (kv : pystr * Subject) : bool :=
  clean kv.1 && clean (sub_family kv.2) && forallb clean (sub_fields kv.2) && bool_decide (sub_id kv.2 = kv.1).
Definition clean_message (kv : pystr * Message) : bool :=
  clean kv.1 && clean (m_reason kv.2) && clean (m_text kv.2) && bool_decide (m_id kv.2 = kv.1).

(** The shipped tables are clean, and every entry carries its own name. *)
Lemma subjects_clean : forallb clean_subject SUBJECTS = true.
Proof. vm_compute. reflexivity. Qed.
Lemma messages_clean : forallb clean_message MESSAGES = true.
Proof. vm_compute. reflexivity. Qed.
Lemma families_clean : forallb clean FAMILY_ORDER = true.
Proof. vm_compute. reflexivity. Qed.
Lemma prefix_clean : clean PREFIX = true.
Proof. vm_compute. reflexivity. Qed.

Lemma dict_get_forallb {V} (f : pystr * V -> bool) (d : list (pystr * V)) k v :
  forallb f d = true → dict_get d k = Some v → f (k, v) = true.
Proof.
  rewrite forallb_Forall, Forall_forall. intros H Hg. by apply H, dict_get_Some_in.
Qed.

Lemma subject_clean id s : dict_get SUBJECTS id = Some s → clean_subject (id, s) = true.
Proof. apply dict_get_forallb, subjects_clean. Qed.

Lemma message_clean id m : dict_get MESSAGES id = Some m → clean_message (id, m) = true.
Proof. apply dict_get_forallb, messages_clean. Qed.

Lemma family_clean f : f ∈ FAMILY_ORDER → clean f = true.
Proof. pose proof families_clean as H. rewrite forallb_Forall, Forall_forall in H. apply H. Qed.

(** A JSON value all of whose texts are clean. *)
Fixpoint json_clean (v : json) : bool :=
  match v with
  | JNull | JBool _ => true
  | JInt _ | JFloat _ => false
  | JStr s => clean s
  | JArr l => forallb json_clean l
  | JObj l => forallb (fun kv => clean kv.1 && json_clean kv.2) l && bool_decide (NoDup (dict_keys l))
  end.

Lemma json_clean_plain v : json_clean v = true → json_plain v = true.
Proof.
  induction v as [|b|z|lit|s|l IH|l IH] using json_ind'; simpl; try done.
  - apply clean_plain.
  - rewrite !forallb_Forall. rewrite !Forall_forall in *. eauto.
  - rewrite !andb_true_iff. intros [Hl HN]. split; [|done].
    rewrite !forallb_Forall, !Forall_forall in *. intros kv Hin.
    destruct (andb_prop _ _ (Hl _ Hin)). apply andb_true_intro. split; [by apply clean_plain|by apply IH].
Qed.

(** The characters a compact rendering of clean texts uses: printable ASCII. *)
Definition printable (c : N) : bool := ((32 <=? c) && (c <=? 126))%N.

Lemma clean_printable l : forallb clean_char l = true → forallb printable l = true.
Proof.
  apply forallb_impl. intros c (H & _)%clean_char_range.
  unfold printable. apply andb_true_intro. rewrite !N.leb_le. lia.
Qed.

Lemma join_printable sep ls :
  forallb printable sep = true → Forall (fun l => forallb printable l = true) ls →
  forallb printable (join_chars sep ls) = true.
Proof.
  intros Hs. induction 1 as [|l ls Hl Hls IH]; [done|]. destruct ls; [done|].
  change (join_chars sep (l :: l0 :: ls)) with (l ++ sep ++ join_chars sep (l0 :: ls)).
  by rewrite !forallb_app, Hl, Hs, IH.
Qed.

Lemma dump_str_printable s : clean s = true → forallb printable (dump_str s) = true.
Proof. intros H. rewrite dump_str_clean, !forallb_app by done. by rewrite (clean_printable _ H). Qed.

Lemma dump_printable v : json_clean v = true → forallb printable (dump_chars compact v) = true.
Proof.
  induction v as [|[]|z|lit|s|l IH|l IH] using json_ind'; cbn [dump_chars json_clean sort_keys compact item_sep];
    try done.
  - apply dump_str_printable.
  - intros Hl. rewrite forallb_Forall, Forall_forall in Hl.
    rewrite !forallb_app, join_printable; [done|done|]. apply Forall_fmap, Forall_forall. intros v Hv.
    rewrite Forall_forall in IH. cbn. eauto.
  - intros [Hl _]%andb_prop. rewrite forallb_Forall, Forall_forall in Hl.
    rewrite map_map, !forallb_app, join_printable; [done|done|].
    apply Forall_fmap, Forall_forall. intros kv Hin. rewrite Forall_forall in IH. cbn [compose snd key_sep compact].
    destruct (andb_prop _ _ (Hl _ Hin)). rewrite !forallb_app, dump_str_printable, IH by done. done.
Qed.

(** ** Round trip *)

Lemma strict_pairs_distinct l acc :
  NoDup (dict_keys (acc ++ l)) → strict_pairs l acc = Ok (acc ++ l).
Proof.
  revert acc. induction l as [|[k v] l IH]; intros acc HN; simpl; [by rewrite app_nil_r|].
  assert (dict_mem acc k = false) as ->.
  { unfold dict_mem. destruct (dict_get acc k) eqn:E; [|done]. exfalso.
    assert (k ∈ dict_keys acc) as Hin by (apply dict_get_in_keys; eauto).
    unfold dict_keys in *. rewrite map_app in HN. apply NoDup_app in HN as (_ & H & _).
    apply (H k); [done|]. apply list_elem_of_here. }
  rewrite IH by by rewrite <-app_assoc. by rewrite <-app_assoc.
Qed.

Lemma strict_object_distinct l : NoDup (dict_keys l) → strict_object l = Ok (JObj l).
Proof. intros H. unfold strict_object. by rewrite strict_pairs_distinct. Qed.

Lemma load_dump v rec_limit :
  json_clean v = true → json_depth v <= rec_limit → load rec_limit (dump v) = Ok v.
Proof.
  intros Hc Hd. unfold load, dump.
  rewrite (loads_dumps strict_object); [done|apply strict_object_distinct|by apply json_clean_plain|done].
Qed.

Lemma parse_record_record r : parse_record (record r) = Ok r.
Proof.
  destruct r as [fam [subj key] field reason mid msg related].
  destruct field, related as [[rf [[rsub rk]|] [rfield|]]|]; vm_compute; reflexivity.
Qed.

Lemma map_parse_record rs : map_res parse_record (map record rs) = Ok rs.
Proof.
  apply map_res_Ok. induction rs; simpl; constructor; [apply parse_record_record|done].
Qed.

Lemma valid_row_clean family row field :
  valid_row family row field → clean (rr_subject row) = true ∧ clean (rr_key row) = true ∧
  match field with None => True | Some f => clean f = true end.
Proof.
  intros (s & Hs & _ & _ & Hh & Hf). apply subject_clean in Hs. unfold clean_subject in Hs.
  rewrite !andb_true_iff in Hs. destruct Hs as [[[? _] Hfs] _]. split_and!; [done|by apply hex_clean|].
  destruct field; [|done]. rewrite forallb_Forall, Forall_forall in Hfs. by apply Hfs.
Qed.

Lemma record_clean r : valid_refusal r → json_clean (record r) = true ∧ json_depth (record r) <= 3.
Proof.
  destruct r as [fam row field reason mid msg related].
  intros (Hf & Hrow & (entry & He & Hr & Hm & _) & Hrel). cbn [r_family r_row r_field r_reason
    r_message_id r_message r_related] in *. subst.
  apply valid_row_clean in Hrow as (H1 & H2 & H3). apply message_clean in He.
  unfold clean_message in He. rewrite !andb_true_iff in He. destruct He as [[[H4 H5] H6] _].
  apply family_clean in Hf. destruct row as [subj key]. cbn [rr_subject rr_key fst snd] in *.
  assert (json_clean (opt_str field) = true) as H7 by (destruct field; done).
  assert (json_clean (related_record related) = true ∧ json_depth (related_record related) <= 2) as [H8 H8d].
  { destruct related as [[rf row rfield]|]; [|split; [done|simpl; lia]].
    destruct Hrel as [Hrf Hrel]. cbn [rs_family rs_row rs_field] in *. apply family_clean in Hrf.
    destruct row as [[rsub rk]|].
    - apply valid_row_clean in Hrel as (K1 & K2 & K3). cbn [rr_subject rr_key] in *.
      split; [|destruct rfield; simpl; lia]. cbn [related_record json_clean forallb fst snd opt_row_record row_record
        rs_family rs_row rs_field rr_subject rr_key]. rewrite Hrf, K1, K2.
      assert (json_clean (opt_str rfield) = true) as -> by by destruct rfield. reflexivity.
    - subst rfield. cbn [related_record json_clean forallb fst snd opt_row_record rs_family rs_row rs_field].
      rewrite Hrf. split; [reflexivity|simpl; lia]. }
  split.
  - cbn [record json_clean forallb fst snd row_record r_family r_row r_field r_reason r_message_id
      r_message r_related rr_subject rr_key]. rewrite Hf, H1, H2, H4, H5, H6, H7, H8. reflexivity.
  - cbn [record json_depth foldr fst snd row_record r_family r_row r_field r_reason r_message_id
      r_message r_related]. destruct field; simpl json_depth in *; lia.
Qed.

(** ** Ordering *)

Lemma rank_le_total a b : rank_le a b = false → rank_le b a = true.
Proof. unfold rank_le. rewrite Nat.leb_gt, Nat.leb_le. lia. Qed.

(** What [_ordered] accepts, and what it returns. *)
Lemma ordered_Ok rs os :
  ordered rs = Ok os ↔
  rs ≠ [] ∧ Forall valid_refusal rs ∧ NoDup (map r_family rs) ∧ os = stable_sort rank_le rs.
Proof.
  unfold ordered. destruct rs as [|r rs]; [split; [done|naive_solver]|].
  remember (r :: rs) as l eqn:El. rewrite bind_Ok. setoid_rewrite bind_Ok.
  split.
  - intros (us & Hus%map_res_Ok & [] & Hnd%require_Ok%bool_decide_eq_true & ?). simplify_eq.
    split_and!; try done. apply Forall_forall. intros x Hx.
    destruct (list_elem_of_lookup_1 _ _ Hx) as [i Hi].
    destruct (Forall2_lookup_l _ _ _ _ _ Hus Hi) as ([] & _ & ?). by apply check_refusal_Ok.
  - intros (_ & Hv & Hnd & ->). exists (replicate (length l) tt). split.
    + apply map_res_Ok. clear -Hv. induction Hv; simpl; constructor; [by apply check_refusal_Ok|done].
    + exists tt. split; [by apply require_Ok, bool_decide_eq_true|done].
Qed.

Lemma ordered_valid rs os : ordered rs = Ok os →
  os ≠ [] ∧ Forall valid_refusal os ∧ NoDup (map r_family os) ∧
  Sorted (fun a b => rank_le a b = true) os ∧ os ≡ₚ rs.
Proof.
  intros (Hne & Hv & Hnd & ->)%ordered_Ok. pose proof (stable_sort_perm rank_le rs) as Hp.
  split_and!; [|by rewrite Hp|by rewrite Hp|by apply stable_sort_sorted, rank_le_total|done].
  intros H. rewrite H in Hp. by apply Permutation_nil_l in Hp.
Qed.

Lemma ordered_idem rs os : ordered rs = Ok os → ordered os = Ok os.
Proof.
  intros (? & ? & ? & ? & _)%ordered_valid. apply ordered_Ok. by rewrite stable_sort_id.
Qed.

(** No more records than families. *)
Lemma ordered_length os :
  Forall valid_refusal os → NoDup (map r_family os) → length os <= length FAMILY_ORDER.
Proof.
  intros Hv Hnd. rewrite <-(length_fmap r_family os). apply submseteq_length, NoDup_submseteq; [done|].
  intros f (r & -> & Hr)%list_elem_of_fmap. rewrite Forall_forall in Hv. by apply (Hv r Hr).
Qed.

(** ** The text of a valid set *)

Lemma forallb_json_clean rs : Forall valid_refusal rs → forallb json_clean (map record rs) = true.
Proof. induction 1 as [|r rs Hr _ IH]; [done|]. cbn [map forallb]. by rewrite (proj1 (record_clean _ Hr)). Qed.

Lemma message_clean_json rs : Forall valid_refusal rs → json_clean (message_json rs) = true.
Proof.
  intros H. cbn [message_json json_clean forallb fst snd]. by rewrite forallb_json_clean.
Qed.

Lemma message_depth rs : Forall valid_refusal rs → json_depth (message_json rs) <= 5.
Proof.
  intros H. assert (foldr (fun v n => Nat.max (json_depth v) n) 0 (map record rs) <= 3) as Hd.
  { induction H as [|r rs Hr _ IH]; [simpl; lia|]. pose proof (proj2 (record_clean _ Hr)). cbn [map foldr]. lia. }
  unfold message_json. cbn [json_depth foldr snd]. lia.
Qed.

Lemma render_printable rs : Forall valid_refusal rs → forallb printable (py_chars (render rs)) = true.
Proof.
  intros H. unfold render, dump, dumps, py_app. cbn [py_chars]. rewrite forallb_app.
  rewrite (clean_printable _ prefix_clean). by rewrite dump_printable by by apply message_clean_json.
Qed.

Lemma printable_ascii_len s : forallb printable (py_chars s) = true → ascii_len s = Ok (py_len s).
Proof.
  intros H. unfold ascii_len. erewrite forallb_impl; [done| |done].
  intros c. unfold printable. rewrite andb_true_iff, !N.leb_le, N.ltb_lt. lia.
Qed.

Lemma printable_utf8_len s : forallb printable (py_chars s) = true → utf8_len s = Ok (py_len s).
Proof.
  intros H. unfold utf8_len. rewrite (forallb_impl printable scalarb); [|clear|done].
  - f_equal. unfold py_len. induction (py_chars s) as [|c l IH]; simpl in *; [done|].
    apply andb_prop in H as [Hc Hl]. rewrite IH by done.
    unfold printable in Hc. apply andb_prop in Hc as [_ Hc%N.leb_le].
    unfold utf8_width. by rewrite (proj2 (N.ltb_lt c 128)) by lia.
  - intros c. unfold printable, scalarb. rewrite andb_true_iff, !N.leb_le. intros.
    by rewrite (proj2 (N.ltb_lt c 55296)) by lia.
Qed.

Lemma chars_prefix_app p s : chars_prefix p (p ++ s) = true.
Proof. induction p; simpl; [done|]. by rewrite N.eqb_refl. Qed.

Lemma chars_prefix_split p s : chars_prefix p s = true → s = p ++ drop (length p) s.
Proof.
  revert s. induction p as [|a p IH]; intros [|b s]; simpl; try done.
  intros [<-%N.eqb_eq H]%andb_prop. f_equal. by apply IH.
Qed.

Lemma render_startswith rs : py_startswith PREFIX (render rs) = true.
Proof. apply chars_prefix_app. Qed.

Lemma render_drop rs : py_drop (py_len PREFIX) (render rs) = dump (message_json rs).
Proof.
  unfold py_drop, py_len, render, py_app. cbn [py_chars]. rewrite drop_app_length. reflexivity.
Qed.

(** ** The message bound *)

(** Rendered length of a value. *)
Definition jlen (v : json) : nat := length (dump_chars compact v).

Lemma dump_str_len s : clean s = true → length (dump_str s) = 2 + py_len s.
Proof. intros H. rewrite dump_str_clean, !length_app by done. simpl. unfold py_len. lia. Qed.

Lemma jlen_str s : clean s = true → jlen (JStr s) = 2 + py_len s.
Proof. apply dump_str_len. Qed.

Lemma join_chars_length ls : length (join_chars [44%N] ls) = sum_list_with length ls + pred (length ls).
Proof.
  induction ls as [|l [|l' ls] IH]; [done|simpl; lia|].
  change (join_chars [44%N] (l :: l' :: ls)) with (l ++ [44%N] ++ join_chars [44%N] (l' :: ls)).
  rewrite !length_app, IH. simpl. lia.
Qed.

Lemma jlen_arr vs : jlen (JArr vs) = 2 + sum_list_with jlen vs + pred (length vs).
Proof.
  unfold jlen. cbn [dump_chars compact item_sep]. rewrite !length_app, join_chars_length, length_map.
  assert (∀ l : list json, sum_list_with length (map (dump_chars compact) l) =
    sum_list_with (fun v => length (dump_chars compact v)) l) as -> by (induction l; simpl; lia).
  simpl. lia.
Qed.

Definition mlen (kv : pystr * json) : nat := length (dump_str kv.1) + 1 + jlen kv.2.

Lemma jlen_obj kvs : jlen (JObj kvs) = 2 + sum_list_with mlen kvs + pred (length kvs).
Proof.
  unfold jlen. cbn [dump_chars compact item_sep sort_keys key_sep].
  rewrite map_map, !length_app, join_chars_length, length_map.
  assert (∀ l : list (pystr * json), sum_list_with length
      (map (fun kv => snd (kv.1, dump_str kv.1 ++ [58%N] ++ dump_chars compact kv.2)) l) =
    sum_list_with mlen l) as E.
  { induction l as [|kv l IH]; [done|]. cbn [map sum_list_with]. rewrite IH. unfold mlen, jlen. cbn [snd].
    rewrite !length_app. simpl. lia. }
  cbn [fst snd] in E |- *. rewrite E. simpl. lia.
Qed.

(** [_longest] returns a candidate that no other exceeds. *)
Lemma longest_spec {A} (measure : A -> nat) best cands :
  longest measure best cands ∈ best :: cands ∧
  Forall (fun c => measure c <= measure (longest measure best cands)) (best :: cands).
Proof.
  revert best. induction cands as [|c cands IH]; intros best; simpl; [split; [set_solver|by repeat constructor]|].
  destruct (Nat.ltb_spec (measure best) (measure c)) as [Hlt|Hge].
  - destruct (IH c) as [Hin Hall]. inversion Hall; subst. split; [set_solver|]. repeat constructor; [lia|done..].
  - destruct (IH best) as [Hin Hall]. inversion Hall; subst. split; [set_solver|]. repeat constructor; [lia..|done].
Qed.

Lemma longest_ge {A} (measure : A -> nat) l d c :
  c ∈ l → measure c <= measure (longest measure (hd d l) (tl l)).
Proof.
  destruct l as [|x l]; [set_solver|]. intros Hc. pose proof (proj2 (longest_spec measure x l)) as H.
  rewrite Forall_forall in H. by apply H.
Qed.

(** Where the measure is a constant plus [f], the longest candidate maximises [f]. *)
Lemma longest_additive {A} (measure f : A -> nat) k l d c :
  (∀ x, x ∈ l → measure x = k + f x) → c ∈ l → f c <= f (longest measure (hd d l) (tl l)).
Proof.
  intros Hm Hc. pose proof (longest_ge measure l d c Hc) as Hle. rewrite (Hm c Hc) in Hle.
  assert (longest measure (hd d l) (tl l) ∈ l) as Hl.
  { destruct l as [|x l]; [by apply not_elem_of_nil in Hc|]. apply longest_spec. }
  rewrite (Hm _ Hl) in Hle. lia.
Qed.

Definition opt_len (o : option pystr) : nat := match o with None => 4 | Some s => 2 + py_len s end.
Definition opt_clean (o : option pystr) : bool := match o with None => true | Some s => clean s end.
Definition row_clean (row : RowRef) : bool := clean (rr_subject row) && clean (rr_key row).

Lemma jlen_opt o : opt_clean o = true → jlen (opt_str o) = opt_len o.
Proof. destruct o; [apply jlen_str|done]. Qed.

Lemma jlen_row row :
  row_clean row = true → jlen (row_record row) = 23 + py_len (rr_subject row) + py_len (rr_key row).
Proof.
  intros [??]%andb_prop. unfold row_record. rewrite jlen_obj. unfold mlen. cbn [sum_list_with length fst snd].
  rewrite !jlen_str by done. cbn. lia.
Qed.

Lemma jlen_related fam row field :
  clean fam = true → row_clean row = true → opt_clean field = true →
  jlen (related_record (Some {| rs_family := fam; rs_row := Some row; rs_field := field |})) =
  52 + py_len fam + py_len (rr_subject row) + py_len (rr_key row) + opt_len field.
Proof.
  intros. unfold related_record. cbn [rs_family rs_row rs_field opt_row_record].
  rewrite jlen_obj. unfold mlen. cbn [sum_list_with length fst snd].
  rewrite jlen_str, jlen_row, jlen_opt by done. cbn. lia.
Qed.

Lemma jlen_record r :
  clean (r_family r) = true → row_clean (r_row r) = true → opt_clean (r_field r) = true →
  clean (r_reason r) = true → clean (r_message_id r) = true → clean (r_message r) = true →
  jlen (record r) =
  104 + py_len (r_family r) + py_len (rr_subject (r_row r)) + py_len (rr_key (r_row r)) +
  opt_len (r_field r) + py_len (r_reason r) + py_len (r_message_id r) + py_len (r_message r) +
  jlen (related_record (r_related r)).
Proof.
  intros. unfold record. rewrite jlen_obj. unfold mlen. cbn [sum_list_with length fst snd].
  rewrite !jlen_str, jlen_row, jlen_opt by done. cbn. lia.
Qed.

Lemma valid_row_texts family row field :
  valid_row family row field → row_clean row = true ∧ opt_clean field = true ∧ py_len (rr_key row) = 64.
Proof.
  intros H. pose proof (valid_row_clean _ _ _ H) as (H1 & H2 & H3). destruct H as (? & _ & _ & ? & _).
  unfold row_clean. rewrite H1, H2. split_and!; [done| |done]. by destruct field.
Qed.

Lemma valid_jlen r : valid_refusal r →
  jlen (record r) =
  168 + py_len (r_family r) + py_len (rr_subject (r_row r)) +
  opt_len (r_field r) + py_len (r_reason r) + py_len (r_message_id r) + py_len (r_message r) +
  jlen (related_record (r_related r)).
Proof.
  intros (Hf & (H1 & H2 & H3)%valid_row_texts & (entry & He%message_clean & Hr & Hm & _) & _).
  unfold clean_message in He. rewrite !andb_true_iff in He. destruct He as [[[H4 H5] H6] _]. cbn [fst snd] in *.
  rewrite jlen_record, H3; [lia|by apply family_clean|try done..]; congruence.
Qed.

Lemma valid_row_listed family row field : valid_row family row field → (rr_subject row, field) ∈ family_rows family.
Proof.
  intros (s & Hs & Hf & _ & _ & Hd). pose proof (subject_clean _ _ Hs) as Hc. unfold clean_subject in Hc.
  rewrite !andb_true_iff, bool_decide_eq_true in Hc. destruct Hc as [_ Hid]. cbn [fst snd] in Hid.
  apply dict_get_Some_in in Hs. unfold family_rows. apply list_elem_of_In, in_flat_map.
  exists (rr_subject row, s). split; [by apply list_elem_of_In|]. cbn [snd]. rewrite bool_decide_eq_true_2 by done.
  apply list_elem_of_In. unfold with_fields. rewrite Hid. destruct field as [f|]; apply elem_of_app.
  - left. apply list_elem_of_fmap. by exists f.
  - right. apply list_elem_of_here.
Qed.

Lemma family_rows_clean family x : x ∈ family_rows family → clean x.1 = true ∧ opt_clean x.2 = true.
Proof.
  intros ([id s] & Hs & Hx)%list_elem_of_In%in_flat_map. cbn [snd] in Hx.
  pose proof subjects_clean as Hall. rewrite forallb_forall in Hall. specialize (Hall _ Hs).
  unfold clean_subject in Hall. rewrite !andb_true_iff, bool_decide_eq_true in Hall.
  destruct Hall as [[[Hid _] Hfs] Heq]. cbn [fst snd] in *. rewrite forallb_forall in Hfs.
  destruct (bool_decide _); [|done]. unfold with_fields in Hx. rewrite Heq in Hx.
  apply in_app_iff in Hx as [(f & <- & Hf)%in_map_iff|[<-|[]]]; cbn; auto.
Qed.

Lemma row_measure family row field :
  valid_row family row field →
  py_len (rr_subject row) + opt_len field <=
  py_len (longest_row family).1 + opt_len (longest_row family).2.
Proof.
  intros Hin%valid_row_listed.
  apply (longest_additive (fun r => py_len (dump (JArr [JStr r.1; opt_str r.2])))
           (fun x => py_len x.1 + opt_len x.2) 5 (family_rows family) ("", None)
           (rr_subject row, field)); [|done].
  intros x [Hx1 Hx2]%family_rows_clean. change (py_len (dump ?v)) with (jlen v).
  rewrite jlen_arr. cbn [sum_list_with length]. rewrite jlen_str, jlen_opt by done. lia.
Qed.

Lemma message_measure family id entry :
  dict_get MESSAGES id = Some entry → match m_family entry with Some f => f = family | None => True end →
  py_len (m_id entry) + py_len (m_reason entry) + py_len (m_text entry) <=
  py_len (m_id (longest_message family)) + py_len (m_reason (longest_message family)) +
  py_len (m_text (longest_message family)).
Proof.
  intros He Hf.
  apply (longest_additive (fun m => py_len (dump (JArr [JStr (m_id m); JStr (m_reason m); JStr (m_text m)])))
           (fun m => py_len (m_id m) + py_len (m_reason m) + py_len (m_text m)) 10
           (allowed_messages family) no_message).
  - intros m Hm. apply list_elem_of_In, filter_In in Hm as [((i & m') & <- & Hin)%in_map_iff _].
    pose proof messages_clean as Hall. rewrite forallb_forall in Hall. specialize (Hall _ Hin).
    unfold clean_message in Hall. rewrite !andb_true_iff, bool_decide_eq_true in Hall.
    destruct Hall as [[[H1 H2] H3] H4]. cbn [fst snd] in *. rewrite <-H4 in H1.
    change (py_len (dump ?v)) with (jlen v). rewrite jlen_arr. cbn [sum_list_with length].
    rewrite !jlen_str by done. lia.
  - apply list_elem_of_In, filter_In. split.
    + apply in_map_iff. exists (id, entry). split; [done|]. by apply list_elem_of_In, dict_get_Some_in.
    + destruct (m_family entry); [by apply bool_decide_eq_true|done].
Qed.

(** A related site without a row is no longer than the longest one. *)
Lemma bare_related_measure :
  forallb (fun f => jlen (related_record (Some {| rs_family := f; rs_row := None; rs_field := None |}))
                    <=? jlen (related_record (Some longest_related))) FAMILY_ORDER = true
  ∧ (4 <=? jlen (related_record (Some longest_related))) = true.
Proof. split; vm_compute; reflexivity. Qed.

Lemma related_listed family row field :
  valid_row family row field →
  {| rs_family := family; rs_row := Some {| rr_subject := rr_subject row; rr_key := MAX_KEY |};
     rs_field := field |} ∈ related_sites.
Proof.
  intros Hv. pose proof (valid_row_listed _ _ _ Hv) as Hin.
  apply list_elem_of_In, in_flat_map in Hin as ([id s] & Hs & Hx). cbn [snd] in Hx.
  destruct (bool_decide_reflect (sub_family s = family)) as [<-|]; [|done].
  apply list_elem_of_In, in_flat_map. exists (id, s). split; [done|]. cbn [snd].
  apply in_map_iff. by exists (rr_subject row, field).
Qed.

Lemma related_measure related :
  valid_related related → jlen (related_record related) <= jlen (related_record (Some longest_related)).
Proof.
  destruct bare_related_measure as [Hbare Hnull%Nat.leb_le].
  destruct related as [[fam row field]|]; [|intros _; exact Hnull].
  intros [Hf Hrow]. cbn [rs_family rs_row rs_field] in *. destruct row as [row|].
  - pose proof (valid_row_texts _ _ _ Hrow) as (H1 & H2 & H3).
    rewrite jlen_related by (try apply family_clean; done).
    pose proof (longest_ge (fun s => py_len (dump (related_record (Some s)))) _ no_site _
      (related_listed _ _ _ Hrow)) as Hle. change (py_len (dump ?v)) with (jlen v) in Hle.
    fold longest_related in Hle. etransitivity; [|exact Hle].
    apply andb_prop in H1 as [H1 _].
    rewrite jlen_related; [|by apply family_clean| |done]; [cbn [rr_subject rr_key]; rewrite H3; reflexivity|].
    unfold row_clean. cbn [rr_subject rr_key]. by rewrite H1.
  - subst field. rewrite forallb_forall in Hbare. by apply Nat.leb_le, Hbare, list_elem_of_In.
Qed.

(** Every family's maximum record is itself a valid record. *)
Lemma maximum_records_valid : forallb (fun f => is_ok (check_refusal (maximum_record f))) FAMILY_ORDER = true.
Proof. vm_compute. reflexivity. Qed.

Lemma maximum_record_valid f : f ∈ FAMILY_ORDER → valid_refusal (maximum_record f).
Proof.
  intros Hf%list_elem_of_In. pose proof maximum_records_valid as H. rewrite forallb_forall in H.
  specialize (H _ Hf). apply check_refusal_Ok. destruct (check_refusal _) as [[]|]; done.
Qed.

#[local] Opaque longest_row longest_message longest_related family_rows allowed_messages related_sites.

Lemma maximum_record_ge r : valid_refusal r → jlen (record r) <= jlen (record (maximum_record (r_family r))).
Proof.
  intros Hv. rewrite (valid_jlen _ Hv). pose proof Hv as (Hf & Hrow & (entry & He & Hr & Hm & Hfam) & Hrel).
  rewrite (valid_jlen _ (maximum_record_valid _ Hf)). cbn [maximum_record r_family r_row r_field r_reason
    r_message_id r_message r_related rr_subject rr_key].
  pose proof (row_measure _ _ _ Hrow). pose proof (message_measure _ _ _ He Hfam).
  pose proof (related_measure _ Hrel). pose proof (message_clean _ _ He) as Hc. unfold clean_message in Hc.
  rewrite !andb_true_iff, bool_decide_eq_true in Hc. destruct Hc as [_ Hid]. cbn [fst snd] in Hid.
  rewrite Hr, Hm, <-Hid. lia.
Qed.

Lemma sum_submseteq {A} (f : A -> nat) l k : l ⊆+ k → sum_list_with f l <= sum_list_with f k.
Proof. induction 1; simpl; lia. Qed.

Lemma render_length rs :
  py_len (render rs) = py_len PREFIX + 15 + sum_list_with (fun r => jlen (record r)) rs + pred (length rs).
Proof.
  unfold render, py_len, py_app. cbn [py_chars]. rewrite length_app.
  change (length (py_chars (dump ?v))) with (jlen v). unfold message_json.
  rewrite jlen_obj. unfold mlen. cbn [sum_list_with fst snd length pred]. rewrite jlen_arr, length_map.
  assert (∀ l, sum_list_with jlen (map record l) = sum_list_with (fun r => jlen (record r)) l) as ->
    by (induction l as [|? l IH]; [done|]; cbn [map sum_list_with]; by rewrite IH).
  change (length (dump_str "refusals")) with 10. lia.
Qed.

Lemma render_le_maximum rs :
  Forall valid_refusal rs → NoDup (map r_family rs) → py_len (render rs) <= py_len (render maximum_record_set).
Proof.
  intros Hv Hnd. pose proof (ordered_length _ Hv Hnd) as Hlen. rewrite !render_length.
  unfold maximum_record_set. rewrite length_map.
  assert (sum_list_with (fun r => jlen (record r)) rs <=
          sum_list_with (fun r => jlen (record r)) (map maximum_record (map r_family rs))) as H1.
  { clear Hnd Hlen. induction Hv as [|r rs Hr _ IH]; [done|]. cbn [map sum_list_with].
    pose proof (maximum_record_ge _ Hr). lia. }
  assert (map r_family rs ⊆+ FAMILY_ORDER) as Hsub.
  { apply NoDup_submseteq; [done|]. intros f (r & -> & Hr)%list_elem_of_fmap.
    rewrite Forall_forall in Hv. by apply (Hv r Hr). }
  apply (fmap_submseteq maximum_record) in Hsub.
  change (map maximum_record (map r_family rs) ⊆+ map maximum_record FAMILY_ORDER) in Hsub.
  apply (sum_submseteq (fun r => jlen (record r))) in Hsub. lia.
Qed.

Lemma maximum_set_ordered : ordered maximum_record_set = Ok maximum_record_set.
Proof. vm_compute. reflexivity. Qed.

Lemma maximum_bound : Z.of_nat (py_len (render maximum_record_set)) = 11186%Z ∧ MAX_MESSAGE_BYTES = 16384%Z.
Proof. split; vm_compute; reflexivity. Qed.

Lemma render_within rs : Forall valid_refusal rs → NoDup (map r_family rs) →
  (MAX_MESSAGE_BYTES <? Z.of_nat (py_len (render rs)))%Z = false.
Proof.
  intros Hv Hnd. pose proof (render_le_maximum _ Hv Hnd). destruct maximum_bound as [Hm ->].
  apply Z.ltb_ge. lia.
Qed.

Lemma render_refusals_ordered rs os : ordered rs = Ok os → render_refusals rs = Ok (render os).
Proof.
  intros Ho. unfold render_refusals. rewrite Ho. cbn [mbind res_bind].
  apply ordered_valid in Ho as (_ & Hv & Hnd & _ & _).
  rewrite printable_ascii_len by by apply render_printable. cbn [mbind res_bind].
  by rewrite render_within.
Qed.

Lemma render_refusals_Ok rs m : render_refusals rs = Ok m ↔ ∃ os, ordered rs = Ok os ∧ m = render os.
Proof.
  split.
  - intros H. destruct (ordered rs) as [os|e] eqn:Ho; [|unfold render_refusals in H; by rewrite Ho in H].
    rewrite (render_refusals_ordered _ _ Ho) in H. naive_solver.
  - intros (os & Ho & ->). by apply render_refusals_ordered.
Qed.

Lemma parse_render rec_limit os : 5 <= rec_limit → ordered os = Ok os → parse_refusals rec_limit (JStr (render os)) = Ok os.
Proof.
  intros Hl Ho. pose proof (ordered_valid _ _ Ho) as (Hne & Hv & Hnd & _ & _).
  unfold parse_refusals. rewrite render_startswith.
  rewrite printable_utf8_len by by apply render_printable. cbn [mbind res_bind]. rewrite render_within by done.
  rewrite render_drop, load_dump;
    [|by apply message_clean_json|pose proof (message_depth _ Hv); lia].
  cbn [mbind res_bind]. unfold message_json at 1. change (members _ _ _) with (Ok [("refusals", JArr (map record os))]).
  cbn [mbind res_bind]. change (member _ _) with (JArr (map record os)).
  destruct os as [|o os']; [done|]. remember (o :: os') as os eqn:E.
  assert (map record os = record o :: map record os') as Hmap by by subst. rewrite Hmap, <-Hmap, length_map.
  pose proof (ordered_length _ Hv Hnd). rewrite (proj2 (Nat.leb_le _ _)) by done.
  rewrite map_parse_record. cbn [mbind res_bind]. rewrite Ho. cbn [mbind res_bind].
  by rewrite !bool_decide_eq_true_2.
Qed.

Lemma render_refusals_parsed rec_limit m rs :
  parse_refusals rec_limit (JStr m) = Ok rs → render_refusals rs = Ok m ∧ ordered rs = Ok rs.
Proof.
  unfold parse_refusals. destruct (py_startswith PREFIX m); [|done].
  intros (n & _ & H)%bind_Ok. destruct (_ <? _)%Z; [done|].
  apply bind_Ok in H as (decoded & _ & (raw & _ & H)%bind_Ok).
  destruct (member raw "refusals") as [| | | | |[|x l]|]; try done. destruct (_ <=? _); [|done].
  apply bind_Ok in H as (parsed & _ & (os & Ho & H)%bind_Ok).
  destruct (bool_decide_reflect (os = parsed)) as [->|]; [|done].
  destruct (bool_decide_reflect (render parsed = m)) as [<-|]; [|done]. simpl in H. simplify_eq.
  split; [by apply render_refusals_ordered|done].
Qed.

(** ** The protocol's contract *)

(** The shipped definition text satisfies every rule of [_build_definition]: unique
    identifiers, six reasons, a singleton subject per family, one owning family per field, printable
    messages, an internal fault that does not claim the marker.  The tables every operation reads
    are exactly what that construction returns. *)
Theorem definition_builds : build_definition definition_json = Ok built.
Proof. vm_compute. reflexivity. Qed.

(** every record set that [_ordered] accepts renders, and the rendered message never
    exceeds [maximum_message_bytes], which is below the declared bound and reached by the maximum
    record set: the bound error of [render_refusals] cannot occur. *)
Theorem render_never_exceeds_bound rs os :
  ordered rs = Ok os →
  render_refusals rs = Ok (render os) ∧
  ∃ n, maximum_message_bytes = Ok n ∧ py_len (render os) <= n ∧ (Z.of_nat n <= MAX_MESSAGE_BYTES)%Z ∧
       ordered maximum_record_set = Ok maximum_record_set ∧ py_len (render maximum_record_set) = n.
Proof.
  intros Ho. split; [by apply render_refusals_ordered|].
  apply ordered_valid in Ho as (_ & Hv & Hnd & _ & _).
  exists (py_len (render maximum_record_set)). destruct maximum_bound as [Hm Hb].
  pose proof (ordered_valid _ _ maximum_set_ordered) as (_ & Hmv & _).
  unfold maximum_message_bytes. rewrite printable_ascii_len by by apply render_printable.
  split_and!; [done|by apply render_le_maximum| |apply maximum_set_ordered|done].
  rewrite Hm, Hb. lia.
Qed.

(** rendering then strict parsing gives back the record set in family order, for any
    interpreter recursion limit of at least five. *)
Theorem parse_of_render rec_limit rs m :
  5 <= rec_limit → render_refusals rs = Ok m → parse_refusals rec_limit (JStr m) = ordered rs.
Proof.
  intros Hl (os & Ho & ->)%render_refusals_Ok. rewrite Ho.
  apply parse_render; [done|by eapply ordered_idem].
Qed.

(** a message the strict parser accepts is the canonical rendering of what it returns: the
    records are valid, in family order, at most one per family, and rendering them gives the message
    back byte for byte. *)
Theorem render_of_parse rec_limit m rs :
  parse_refusals rec_limit (JStr m) = Ok rs →
  render_refusals rs = Ok m ∧ rs ≠ [] ∧ Forall valid_refusal rs ∧ NoDup (map r_family rs) ∧
  Sorted (fun a b => rank_le a b = true) rs.
Proof.
  intros [Hr Ho]%render_refusals_parsed. apply ordered_valid in Ho. naive_solver.
Qed.

(** ** Row identity *)

Definition keyval_plain (v : keyval) : bool := json_plain (keyval_json v).
Definition path_plain (path : natural_path) : bool := forallb (fun e => forallb keyval_plain e.2) path.

Lemma dump_inj v w : json_plain v = true → json_plain w = true → dump v = dump w → v = w.
Proof.
  intros Hv Hw E. set (d := json_depth v + json_depth w). set (ce := ValueError "").
  pose proof (loads_dumps strict_object ce strict_object_distinct v d Hv ltac:(lia)) as H1.
  pose proof (loads_dumps strict_object ce strict_object_distinct w d Hw ltac:(lia)) as H2.
  unfold dump in E. rewrite E, H2 in H1. by injection H1.
Qed.

Lemma keyval_json_inj v w : keyval_json v = keyval_json w → v = w.
Proof. destruct v, w; simpl; naive_solver. Qed.

Lemma path_json_inj p q : path_json p = path_json q → p = q.
Proof.
  unfold path_json. intros [= E]. revert q E. induction p as [|[n vs] p IH]; intros [|[m ws] q]; simpl; try done.
  intros [= -> Hv Hq]. f_equal; [f_equal|by apply IH].
  revert ws Hv. induction vs as [|v vs IHv]; intros [|w ws]; simpl; try done.
  intros [= ->%keyval_json_inj Hr]. f_equal. by apply IHv.
Qed.

Lemma canonical_keys_Ok step values ks :
  canonical_keys step values = Ok ks → ks = map keyval_json values.
Proof.
  unfold canonical_keys. destruct (Nat.eqb_spec (length values) (length (st_keys step))) as [E|]; [|done].
  revert values ks E. induction (st_keys step) as [|sh shapes IH]; intros [|v values] ks; simpl; try done.
  - naive_solver.
  - intros [= E] (k & Hk & (ks' & Hks & ?)%bind_Ok)%bind_Ok. simplify_eq. f_equal; [|by eapply IH].
    unfold canonical_key in Hk. destruct v; simplify_eq/=; destruct (bool_decide _); naive_solver.
Qed.

(** The identity text is the rendering of the family, the subject and the natural path. *)
Lemma canonical_value_Ok family subject path v :
  canonical_value family subject path = Ok v →
  v = JArr [JStr family; JStr subject; path_json path] ∧
  ∃ s, dict_get SUBJECTS subject = Some s ∧ sub_family s = family ∧ map fst path = map st_list (sub_path s).
Proof.
  unfold canonical_value. intros (s & Hs%subject_of_Ok & H)%bind_Ok.
  destruct (Nat.eqb_spec (length path) (length (sub_path s))) as [E|]; [|done].
  apply bind_Ok in H as (cp & Hcp & ?). simplify_eq.
  assert (JArr cp = path_json path ∧ map fst path = map st_list (sub_path s)) as [-> Hn]; [|naive_solver].
  clear Hs. revert path cp E Hcp. induction (sub_path s) as [|st steps IH]; intros [|[n vs] path] cp; simpl; try done.
  - naive_solver.
  - intros [= E] (k & Hk & (ks' & Hks & ?)%bind_Ok)%bind_Ok. simplify_eq. unfold canonical_step in Hk.
    destruct (bool_decide_reflect ((n, vs).1 = st_list st)) as [Hn|]; [|done].
    apply bind_Ok in Hk as (keys & ->%canonical_keys_Ok & ?). simplify_eq/=.
    destruct (IH _ _ E Hks) as [Hp ->]. split; [|done]. unfold path_json in *. simpl. by injection Hp as ->.
Qed.

Lemma step_names_clean : forallb (fun kv => forallb (fun st => clean (st_list st)) (sub_path kv.2)) SUBJECTS = true.
Proof. vm_compute. reflexivity. Qed.

Lemma subject_families : forallb (fun kv => str_in (sub_family kv.2) FAMILY_ORDER) SUBJECTS = true.
Proof. vm_compute. reflexivity. Qed.

Lemma canonical_value_plain family subject path v :
  canonical_value family subject path = Ok v → path_plain path = true → json_plain v = true.
Proof.
  intros (-> & s & Hs & Hf & Hn)%canonical_value_Ok Hp.
  pose proof (dict_get_forallb _ _ _ _ subject_families Hs) as Hfam%bool_decide_eq_true%family_clean.
  pose proof (dict_get_forallb _ _ _ _ step_names_clean Hs) as Hst. cbn [snd] in *. rewrite Hf in Hfam.
  apply subject_clean in Hs. unfold clean_subject in Hs. rewrite !andb_true_iff in Hs. destruct Hs as [[[Hid _] _] _].
  cbn [json_plain forallb fst]. rewrite !clean_plain by done. cbn [andb]. rewrite andb_true_r.
  unfold path_json. cbn [json_plain]. apply forallb_forall. intros x (e & <- & He)%in_map_iff.
  cbn [json_plain forallb]. rewrite clean_plain; cycle 1.
  { apply (in_map fst) in He. rewrite Hn in He. apply in_map_iff in He as (st & <- & Hin).
    rewrite forallb_forall in Hst. by apply Hst. }
  unfold path_plain in Hp. rewrite forallb_forall in Hp. specialize (Hp _ He).
  rewrite forallb_forall in Hp. cbn [andb]. rewrite andb_true_r. apply forallb_forall.
  intros y (kv & <- & Hk)%in_map_iff. by apply Hp.
Qed.

(** two rows with the same identity text are the same row: same family, same subject and
    the same list names and typed keys along the path, for keys free of lone surrogates and of
    integers beyond the decoder's digit limit. *)
Theorem canonical_identity_injective f s p f' s' p' text :
  path_plain p = true → path_plain p' = true →
  canonical_identity f s p = Ok text → canonical_identity f' s' p' = Ok text →
  f = f' ∧ s = s' ∧ p = p'.
Proof.
  intros Hp Hp' (v & Hv & Ht)%bind_Ok (v' & Hv' & Ht')%bind_Ok.
  assert (v = v') as <-.
  { apply dump_inj; [by eapply canonical_value_plain..|]. congruence. }
  apply canonical_value_Ok in Hv as [-> _]. apply canonical_value_Ok in Hv' as [E _].
  injection E as -> -> E. split_and!; [done..|]. apply path_json_inj. unfold path_json. by f_equal.
Qed.

(** What [row_log_source] logs for a row of a secret-keyed subject does not depend on the
    natural path: only the row key digest appears. *)
Theorem row_log_source_hides_secrets family row path s :
  dict_get SUBJECTS (rr_subject row) = Some s → sub_secret_keyed s = true →
  py_len (rr_key row) = 64 → forallb (in_chars HEX) (py_chars (rr_key row)) = true → sub_family s = family →
  row_log_source family row path = Ok ("row-key=" +:+ rr_key row).
Proof.
  intros Hs Hk Hl Hh Hf. unfold row_log_source.
  assert (check_row family row = Ok s) as -> by by apply check_row_Ok.
  cbn [mbind res_bind]. by rewrite Hk.
Qed.

(** ** Concrete record sets *)

(** Two refusals given in the wrong family order: a bundle member and a VLAN. *)
Definition sample_set : list Refusal :=
  [{| r_family := "lag"; r_row := {| rr_subject := "lag.bundle.member"; rr_key := MAX_KEY |};
      r_field := Some "lag.member"; r_reason := "target-not-found"; r_message_id := "parent-absent";
      r_message := "The device object this intent writes into does not exist, and the service never creates or adopts it.";
      r_related := Some {| rs_family := "vlan"; rs_row := None; rs_field := None |} |};
   {| r_family := "vlan"; r_row := {| rr_subject := "vlan.vlan"; rr_key := MAX_KEY |};
      r_field := None; r_reason := "ownership-conflict"; r_message_id := "parent-foreign-owner";
      r_message := "Another service owns the device object this intent writes into."; r_related := None |}].
Definition sample_ordered : list Refusal := stable_sort rank_le sample_set.
Definition sample_path : natural_path := [("bundle", [KVStr "ae0"]); ("member", [KVStr "et-0/0/1"])].

Definition sample_identity : pystr := dump (JArr [JStr "lag"; JStr "lag.bundle.member"; path_json sample_path]).

Lemma sample_ordered_Ok : ordered sample_set = Ok sample_ordered.
Proof. vm_compute. reflexivity. Qed.

Lemma render_never_exceeds_bound_witness :
  render_refusals sample_set = Ok (render sample_ordered) ∧
  ∃ n, maximum_message_bytes = Ok n ∧ py_len (render sample_ordered) <= n ∧
       (Z.of_nat n <= MAX_MESSAGE_BYTES)%Z ∧
       ordered maximum_record_set = Ok maximum_record_set ∧ py_len (render maximum_record_set) = n.
Proof. apply render_never_exceeds_bound. exact sample_ordered_Ok. Defined.

Lemma parse_of_render_witness :
  parse_refusals 5 (JStr (render sample_ordered)) = ordered sample_set.
Proof.
  apply parse_of_render; [apply le_n|]. apply render_refusals_ordered. exact sample_ordered_Ok.
Defined.

Lemma render_of_parse_witness :
  render_refusals sample_ordered = Ok (render sample_ordered) ∧ sample_ordered ≠ [] ∧
  Forall valid_refusal sample_ordered ∧ NoDup (map r_family sample_ordered) ∧
  Sorted (fun a b => rank_le a b = true) sample_ordered.
Proof. apply (render_of_parse 100 (render sample_ordered)). vm_compute. reflexivity. Defined.

Lemma canonical_identity_injective_witness :
  "lag" = "lag" ∧ "lag.bundle.member" = "lag.bundle.member" ∧ sample_path = sample_path.
Proof.
  apply (canonical_identity_injective "lag" "lag.bundle.member" sample_path "lag" "lag.bundle.member" sample_path
    sample_identity); vm_compute; reflexivity.
Defined.

Lemma row_log_source_hides_secrets_witness :
  row_log_source "snmp" {| rr_subject := "snmp.community"; rr_key := MAX_KEY |}
    [("community", [KVStr "s3cret"])] = Ok ("row-key=" +:+ MAX_KEY).
Proof.
  destruct (dict_get SUBJECTS "snmp.community") as [s|] eqn:E; [|vm_compute in E; discriminate E].
  apply (row_log_source_hides_secrets "snmp" {| rr_subject := "snmp.community"; rr_key := MAX_KEY |} _ s);
    vm_compute in E; try exact E; try (injection E as <-); vm_compute; reflexivity.
Defined.
