(* ===== verification/Refusals.v ===== *)
(** * Classifying raw RESTCONF errors

    src/nso_adapter/nso/refusals.py.  The decoded document keeps every member occurrence
    ([_Object]), so its object hook returns the pair list itself.  The walk is the source's stack
    loop; its fuel is the number of nodes. *)

From stdpp Require Import base gmap list strings sorting.
From Stdlib Require Import ZArith NArith Lia.
From S2P Require Import Prelude Json Codec Sha256 RefusalCatalog RefusalProtocol RefusalProtocolProps.
Local Open Scope py_scope.

#[local] Opaque SUBJECTS MESSAGES FAMILY_ORDER REASONS MARKER PREFIX MAX_MESSAGE_BYTES built.

(** ** Data *)

(** [ErrorClassification | None] *)
Inductive classification :=
| DefiniteRefusal (records : list Refusal)
| ProtocolFault
| Unavailable
| OrdinaryRejection
| NotAnError.

(** [bytes | str | None] *)
Inductive body := BodyNone | BodyStr (text : pystr) | BodyBytes (bytes : list N).

Definition ERROR_MEMBERS : list pystr :=
  ["error-type"; "error-tag"; "error-app-tag"; "error-path"; "error-message"; "error-info"].

(** ** The walk *)

(** What [pending.extend] pushes for a popped node, in push order. *)
Definition pushes (node : json) : list json :=
  match node with
  | JObj pairs => flat_map (fun kv => [JStr kv.1; kv.2]) pairs
  | JArr items => items
  | _ => []
  end.

(** [_walk]: pop the last pending node, yield it, push its children.  The stack's top is the
    head of the list. *)
Fixpoint walk_loop (fuel : nat) (pending : list json) : list json :=
  match fuel, pending with
  | O, _ | _, [] => []
  | S fuel, node :: rest => node :: walk_loop fuel (rev (pushes node) ++ rest)
  end.

(** The number of nodes of a value, member names included. *)
Fixpoint nodes (v : json) : nat :=
  match v with
  | JArr l => S (foldr (fun x n => nodes x + n) 0 l)
  | JObj l => S (foldr (fun kv n => S (nodes kv.2 + n)) 0 l)
  | _ => 1
  end.

Definition walk (v : json) : list json := walk_loop (nodes v) [v].

(** ** The envelope *)

(** [_members] *)
Definition obj_members (value : json) : res (list (pystr * json)) :=
  match value with
  | JObj pairs =>
      let members := dict_of_pairs pairs in
      if Nat.eqb (length members) (length pairs) then Ok members
      else Raise (ValueError "RESTCONF has duplicate members")
  | _ => Raise (ValueError "RESTCONF requires an object")
  end.

Definition reject_constant : exc := ValueError "JSON has a nonstandard constant".

(** [json.loads(body, object_pairs_hook=_Object, parse_constant=_reject_constant)] *)
Definition object_hook (pairs : list (pystr * json)) : res json := Ok (JObj pairs).
Definition loads_body (rec_limit : nat) (b : body) : res json :=
  match b with
  | BodyNone => Raise (TypeError "the JSON object must be str, bytes or bytearray")
  | BodyStr text => loads object_hook reject_constant rec_limit text
  | BodyBytes bytes =>
      match json_bytes_text bytes with
      | Some text => loads object_hook reject_constant rec_limit text
      | None => Raise (ValueError "UnicodeDecodeError")
      end
  end.

(** [except (ValueError, UnicodeError, RecursionError)]; the protocol error and the Unicode
    errors are subclasses of [ValueError]. *)
Definition caught (e : exc) : bool :=
  match e with
  | ValueError _ | RefusalProtocolError _ | UnicodeEncodeError | RecursionError => true
  | _ => false
  end.

(** [_decode_outer]: the decoded document, or [None] when the body is not valid JSON. *)
Definition decode_outer (rec_limit : nat) (b : body) : res (option json) :=
  match b with
  | BodyNone => Ok None
  | _ =>
      match loads_body rec_limit b with
      | Ok decoded => Ok (Some decoded)
      | Raise e => if caught e then Ok None else Raise e
      end
  end.

(** The first loop of [_envelope_message]: every object has distinct members; count the claims. *)
Fixpoint count_claims (ns : list json) (count : nat) : res nat :=
  match ns with
  | [] => Ok count
  | node :: ns' =>
      match node with
      | JObj _ => _ ← obj_members node; count_claims ns' count
      | _ => count_claims ns' (if claims_refusal node then S count else count)
      end
  end.

(** [set(root) == names] *)
Definition same_set (l names : list pystr) : bool := forallb (fun k => str_in k names) l && forallb (fun k => str_in k l) names.

Fixpoint check_error_members (error : list (pystr * json)) : res unit :=
  match error with
  | [] => Ok tt
  | (name, value) :: rest =>
      if bool_decide (name = "error-info") then _ ← obj_members value; check_error_members rest
      else match value with
           | JStr _ => check_error_members rest
           | _ => Raise (ValueError "RESTCONF error metadata requires text")
           end
  end.

(** [_envelope_message] *)
Definition envelope_message (decoded : json) : res pystr :=
  claim_count ← count_claims (walk decoded) 0;
  _ ← guard_or (Nat.eqb claim_count 1) (ValueError "RESTCONF has competing refusal claims");
  root ← obj_members decoded;
  root ← (if same_set (dict_keys root) ["ietf-restconf:errors"] || same_set (dict_keys root) ["errors"]
          then obj_members (hd JNull (map snd root)) else Ok root);
  _ ← guard_or (same_set (dict_keys root) ["error"]) (ValueError "RESTCONF has invalid envelope members");
  match dict_get root "error" with
  | Some (JArr [item]) =>
      error ← obj_members item;
      _ ← guard_or (dict_mem error "error-message" && forallb (fun k => str_in k ERROR_MEMBERS) (dict_keys error))
            (ValueError "RESTCONF has invalid error members");
      _ ← check_error_members error;
      _ ← guard_or (bool_decide (dict_get error "error-type" = Some (JStr "application")) &&
                    bool_decide (dict_get error "error-tag" = Some (JStr "operation-failed")))
            (ValueError "RESTCONF refusal requires application operation-failed");
      match dict_get error "error-message" with
      | Some (JStr message) => Ok message
      | _ => Raise (ValueError "RESTCONF requires an error message")
      end
  | _ => Raise (ValueError "RESTCONF requires one error")
  end.

(** [_claimed_records] *)
Definition claimed_records (rec_limit : nat) (decoded : json) : res (option (list Refusal)) :=
  match message ← envelope_message decoded; parse_refusals rec_limit (JStr message) with
  | Ok records => Ok (Some records)
  | Raise e => if caught e then Ok None else Raise e
  end.

(** [raw_text] *)
Definition raw_text (b : body) : json :=
  match b with
  | BodyNone => JNull
  | BodyStr text => JStr text
  | BodyBytes bytes => JStr (decode_surrogateescape bytes)
  end.

(** [classify_error] *)
Definition classify_error (rec_limit : nat) (status : option Z) (b : body) : res classification :=
  match status with
  | None => Ok Unavailable
  | Some status =>
      decoded ← decode_outer rec_limit b;
      let claimed := claims_refusal (raw_text b) ||
                     match decoded with Some v => existsb claims_refusal (walk v) | None => false end in
      if claimed then
        records ← match decoded with Some v => claimed_records rec_limit v | None => Ok None end;
        match records with
        | Some rs => if (status =? 500)%Z then Ok (DefiniteRefusal rs) else Ok ProtocolFault
        | None => Ok ProtocolFault
        end
      else
        let valid_json := match decoded with Some _ => true | None => false end in
        if ((status =? 500)%Z && negb valid_json)%bool then Ok ProtocolFault
        else if ((500 <=? status)%Z && (status <? 600)%Z)%bool then Ok Unavailable
        else if ((400 <=? status)%Z && (status <? 500)%Z)%bool then Ok OrdinaryRejection
        else if ((200 <=? status)%Z && (status <? 300)%Z)%bool then Ok NotAnError
        else Ok Unavailable
  end.

(** ** The walk visits every node once *)

Fixpoint subnodes (v : json) : list json :=
  v :: match v with
       | JArr l => flat_map subnodes l
       | JObj l => flat_map (fun kv => JStr kv.1 :: subnodes kv.2) l
       | _ => []
       end.

Lemma subnodes_pushes v : subnodes v = v :: flat_map subnodes (pushes v).
Proof.
  destruct v as [| | | | |l|l]; try done. cbn [subnodes pushes]. f_equal.
  induction l as [|kv l IH]; [done|]. cbn [flat_map app]. rewrite IH. reflexivity.
Qed.

Lemma nodes_pushes v : nodes v = S (sum_list_with nodes (pushes v)).
Proof.
  destruct v as [| | | | |l|l]; try done; cbn [nodes pushes]; f_equal;
    (induction l as [|x l IH]; [done|]; cbn [foldr flat_map app sum_list_with nodes]; lia).
Qed.

Lemma sum_nodes_rev l k : sum_list_with nodes (rev l ++ k) = sum_list_with nodes l + sum_list_with nodes k.
Proof. rewrite rev_alt. change (rev_append l []) with (reverse l). by rewrite sum_list_with_app, sum_list_with_reverse. Qed.

Lemma walk_loop_nodes fuel pending :
  sum_list_with nodes pending <= fuel → walk_loop fuel pending ≡ₚ flat_map subnodes pending.
Proof.
  revert pending. induction fuel as [|fuel IH]; intros [|v rest] H; try done.
  - exfalso. cbn [sum_list_with] in H. rewrite nodes_pushes in H. lia.
  - cbn [walk_loop flat_map]. rewrite subnodes_pushes. cbn [app]. apply Permutation_skip.
    rewrite IH.
    + rewrite flat_map_app. apply Permutation_app_tail, Permutation_flat_map. symmetry. apply Permutation_rev.
    + rewrite sum_nodes_rev. cbn [sum_list_with] in H. rewrite nodes_pushes in H. lia.
Qed.

(** The loop's fuel is enough: the walk yields the nodes of the document, member names included. *)
Lemma walk_subnodes v : walk v ≡ₚ subnodes v.
Proof.
  unfold walk. rewrite walk_loop_nodes by (cbn [sum_list_with]; lia). cbn [flat_map]. by rewrite app_nil_r.
Qed.

(** ** Nothing escapes the handlers *)

Lemma obj_members_raise v e : obj_members v = Raise e → caught e = true.
Proof. destruct v; simpl; repeat case_match; naive_solver. Qed.

Definition safe {A} (r : res A) : Prop := match r with Ok _ => True | Raise e => caught e = true end.

Lemma safe_bind {A B} (m : res A) (f : A -> res B) : safe m → (∀ a, safe (f a)) → safe (m ≫= f).
Proof. destruct m; simpl; eauto. Qed.
Lemma safe_guard b e : caught e = true → safe (guard_or b e).
Proof. destruct b; simpl; eauto. Qed.
Lemma safe_obj v : safe (obj_members v).
Proof. destruct (obj_members v) eqn:E; simpl; eauto using obj_members_raise. Qed.
Lemma safe_require b m : safe (require b m).
Proof. by destruct b. Qed.
Lemma safe_map {A B} (f : A -> res B) l : (∀ a, safe (f a)) → safe (map_res f l).
Proof.
  intros Hf. induction l; simpl; [done|]. apply safe_bind; [done|]. intros. by apply safe_bind.
Qed.
#[local] Hint Resolve safe_bind safe_guard safe_obj safe_require safe_map : nso.

(** Case analysis down to the raise sites. *)
Ltac safe_tac :=
  repeat first
    [ done
    | apply safe_bind; [|intros ?]
    | progress auto with nso
    | match goal with |- safe (match ?x with _ => _ end) => destruct x end
    | match goal with |- safe (if ?x then _ else _) => destruct x end ].

Lemma safe_count ns count : safe (count_claims ns count).
Proof. revert count. induction ns as [|[] ns IH]; intros count; simpl; safe_tac. Qed.
Lemma safe_error_members l : safe (check_error_members l).
Proof. induction l as [|[name []] l IH]; simpl; safe_tac. Qed.
#[local] Hint Resolve safe_count safe_error_members : nso.

Lemma safe_envelope v : safe (envelope_message v).
Proof. unfold envelope_message. safe_tac. Qed.

Lemma safe_members v names what : safe (members v names what).
Proof. unfold members, proto. safe_tac. Qed.
#[local] Hint Resolve safe_members : nso.

Lemma safe_parse_row v : safe (parse_row v).
Proof. unfold parse_row, proto. safe_tac. Qed.
#[local] Hint Resolve safe_parse_row : nso.
Lemma safe_parse_related v : safe (parse_related v).
Proof. unfold parse_related, proto. safe_tac. Qed.
#[local] Hint Resolve safe_parse_related : nso.
Lemma safe_parse_record v : safe (parse_record v).
Proof. unfold parse_record, proto. safe_tac. Qed.
Lemma safe_check_row f r : safe (check_row f r).
Proof. unfold check_row, subject_of, proto. safe_tac. Qed.
#[local] Hint Resolve safe_parse_record safe_check_row : nso.
Lemma safe_check_related r : safe (check_related r).
Proof. unfold check_related, proto. safe_tac. Qed.
#[local] Hint Resolve safe_check_related : nso.
Lemma safe_check_refusal r : safe (check_refusal r).
Proof. unfold check_refusal, proto. safe_tac. Qed.
#[local] Hint Resolve safe_check_refusal : nso.
Lemma safe_ordered rs : safe (ordered rs).
Proof. unfold ordered, proto. safe_tac. Qed.
#[local] Hint Resolve safe_ordered : nso.

Lemma strict_pairs_raise l acc e : strict_pairs l acc = Raise e → caught e = true.
Proof.
  revert acc. induction l as [|[k v] l IH]; intros acc; simpl; [done|].
  destruct (dict_mem acc k); [by intros [= <-]|apply IH].
Qed.

Lemma safe_load rec_limit t : safe (load rec_limit t).
Proof.
  unfold load. destruct (loads _ _ _ _) as [v|e] eqn:E; [done|].
  apply loads_raises in E. assert (caught e = true) as He; [|destruct e; done].
  destruct E as [->|[->|[->|[l H]]]]; try done. unfold strict_object in H.
  destruct (strict_pairs l []) eqn:Es; [done|]. simpl in H. simplify_eq. by eapply strict_pairs_raise.
Qed.
#[local] Hint Resolve safe_load safe_envelope : nso.

Lemma safe_parse rec_limit v : safe (parse_refusals rec_limit v).
Proof. unfold parse_refusals, proto, utf8_len. safe_tac. Qed.

Lemma loads_body_safe rec_limit b : b ≠ BodyNone → safe (loads_body rec_limit b).
Proof.
  assert (∀ t, safe (loads object_hook reject_constant rec_limit t)) as H.
  { intros t. destruct (loads _ _ _ _) as [v|e] eqn:E; [done|].
    apply loads_raises in E as [->|[->|[->|[l ?]]]]; done. }
  destruct b as [|t|bs]; [done|intros _; apply H|]. intros _. simpl. by destruct (json_bytes_text bs).
Qed.

Lemma decode_outer_total rec_limit b : ∃ o, decode_outer rec_limit b = Ok o.
Proof.
  destruct b as [|t|bs]; [by eexists|..]; unfold decode_outer;
    (match goal with |- context [loads_body _ ?b] => pose proof (loads_body_safe rec_limit b) as H end;
     destruct (loads_body _ _) as [v|e]; [by eexists|]; specialize (H ltac:(done)); simpl in H; rewrite H; by eexists).
Qed.

Lemma claimed_records_total rec_limit v : ∃ o, claimed_records rec_limit v = Ok o.
Proof.
  unfold claimed_records. match goal with |- context [match ?x with Ok _ => _ | Raise _ => _ end] =>
    assert (safe x) as H; [|destruct x as [rs|e]; [by eexists|]; simpl in H; rewrite H; by eexists] end.
  apply safe_bind; [apply safe_envelope|]. intros m. apply safe_parse.
Qed.

(** The document claims: its text or one of its nodes holds the marker. *)
Definition claimed (b : body) (decoded : option json) : Prop :=
  claims_refusal (raw_text b) = true ∨
  ∃ v n, decoded = Some v ∧ n ∈ subnodes v ∧ claims_refusal n = true.

Lemma claimed_bool b decoded :
  (claims_refusal (raw_text b) ||
   match decoded with Some v => existsb claims_refusal (walk v) | None => false end)%bool = true ↔ claimed b decoded.
Proof.
  unfold claimed. rewrite orb_true_iff. apply or_iff_compat_l.
  destruct decoded as [v|]; [|split; [done|naive_solver]].
  rewrite existsb_exists. split.
  - intros (n & Hn%list_elem_of_In & Hc). exists v, n. by rewrite <-walk_subnodes.
  - intros (v' & n & [= <-] & Hn & Hc). exists n. split; [|done]. apply list_elem_of_In. by rewrite walk_subnodes.
Qed.

Lemma count_claims_spec ns count n :
  count_claims ns count = Ok n →
  n = count + length (filter (fun v => claims_refusal v = true) ns) ∧
  ∀ v l, v ∈ ns → v = JObj l → ∃ ms, obj_members v = Ok ms.
Proof.
  revert count. induction ns as [|v ns IH]; intros count; [cbn; intros [= ->]; split; [lia|by intros ?? ?%elem_of_nil]|].
  assert (Decision (∃ l, v = JObj l)) as [[l ->]|Hno].
  { destruct v; try (right; intros [? ?]; done). left. by eexists. }
  - cbn [count_claims]. intros (ms & Hms & H)%bind_Ok. apply IH in H as [-> Hall].
    split; [done|]. intros w l' [->|Hw]%elem_of_cons ?; eauto.
  - intros H.
    assert (count_claims ns (if claims_refusal v then S count else count) = Ok n) as H'.
    { rewrite <-H. symmetry. destruct v; try done. exfalso. eauto. }
    apply IH in H' as [-> Hall]. rewrite filter_cons. split.
    + destruct (claims_refusal v); [rewrite decide_True by done|rewrite decide_False by done]; simpl; lia.
    + intros w l' [->|Hw]%elem_of_cons ?; [exfalso; eauto|eauto].
Qed.

(** ** Verdicts *)

Lemma classify_error_verdict rec_limit status b : ∃ c, classify_error rec_limit status b = Ok c.
Proof.
  unfold classify_error. destruct status as [st|]; [|by eexists].
  destruct (decode_outer_total rec_limit b) as [o ->]. cbn [mbind res_bind].
  destruct (_ || _)%bool; [|repeat case_match; by eexists].
  assert (∃ rs, match o with Some v => claimed_records rec_limit v | None => Ok None end = Ok rs) as [rs ->].
  { destruct o; [apply claimed_records_total|by eexists]. }
  cbn [mbind res_bind]. repeat case_match; by eexists.
Qed.

(** classification never raises: for every status, every body (text, bytes in any encoding,
    absent, or no JSON at all) and every recursion limit it returns a verdict. *)
Theorem classify_error_total rec_limit status b : ∃ c, classify_error rec_limit status b = Ok c.
Proof. apply classify_error_verdict. Qed.

(** A definite refusal is a 500 response whose envelope holds a parsed message. *)
Lemma definite_decoded rec_limit status b rs : classify_error rec_limit status b = Ok (DefiniteRefusal rs) →
  status = Some 500%Z ∧ ∃ doc m, decode_outer rec_limit b = Ok (Some doc) ∧ envelope_message doc = Ok m ∧ parse_refusals rec_limit (JStr m) = Ok rs.
Proof.
  unfold classify_error. destruct status as [st|]; [|done].
  destruct (decode_outer_total rec_limit b) as [o ->]. cbn [mbind res_bind].
  destruct (_ || _)%bool; [|repeat case_match; naive_solver].
  intros (rs' & Hrs & H)%bind_Ok. destruct rs' as [rs'|]; [|done].
  destruct (Z.eqb_spec st 500) as [->|]; [|done]. simplify_eq. split; [done|].
  destruct o as [doc|]; [|done]. unfold claimed_records in Hrs.
  destruct (envelope_message doc) as [m|e] eqn:He; cbn [mbind res_bind] in Hrs; [|by destruct (caught e)].
  destruct (parse_refusals rec_limit (JStr m)) as [rs'|e] eqn:Hp; [|by destruct (caught e)]. simplify_eq. by exists doc, m.
Qed.
(** Its records are some, and canonical. *)
Lemma definite_records rec_limit status b rs : classify_error rec_limit status b = Ok (DefiniteRefusal rs) → rs ≠ [] ∧ Forall valid_refusal rs.
Proof. intros (_ & doc & m & _ & _ & Hp)%definite_decoded. apply render_refusals_parsed in Hp as [_ (Hne & Hv & _)%ordered_valid]. done. Qed.

(** C22: a definite refusal is only ever reported for a 500 response whose document decodes, whose
    objects have no repeated member, that holds exactly one refusal claim, and whose envelope message
    is, byte for byte, the canonical rendering of the reported records. *)
Theorem definite_refusal_sound rec_limit status b rs :
  classify_error rec_limit status b = Ok (DefiniteRefusal rs) →
  status = Some 500%Z ∧
  ∃ doc m, decode_outer rec_limit b = Ok (Some doc) ∧
    (∀ l, JObj l ∈ subnodes doc → ∃ ms, obj_members (JObj l) = Ok ms) ∧
    length (filter (fun v => claims_refusal v = true) (subnodes doc)) = 1 ∧
    envelope_message doc = Ok m ∧ render_refusals rs = Ok m ∧ Forall valid_refusal rs.
Proof.
  intros (-> & doc & m & Hd & He & Hp)%definite_decoded. split; [done|]. exists doc, m. apply render_refusals_parsed in Hp as [Hr (_ & Hv & _)%ordered_valid].
  pose proof He as He'. unfold envelope_message in He'.
  apply bind_Ok in He' as (n & Hc & ([] & Hn%guard_or_Ok%Nat.eqb_eq & _)%bind_Ok).
  apply count_claims_spec in Hc as [Hlen Hobj]. rewrite walk_subnodes in Hlen.
  split_and!; try done; [|lia].
  intros l Hl. apply (Hobj _ l); [by rewrite walk_subnodes|done].
Qed.

(** a refusal claim is never downgraded: when the raw text or any member name or text of the
    decoded document (escaped forms included) holds the marker, the verdict is a definite refusal or
    a protocol fault, never an ordinary rejection, an unavailable server or a success. *)
Theorem claim_never_downgraded rec_limit status b decoded :
  decode_outer rec_limit b = Ok decoded → claimed b decoded →
  (∃ rs, classify_error rec_limit (Some status) b = Ok (DefiniteRefusal rs)) ∨
  classify_error rec_limit (Some status) b = Ok ProtocolFault.
Proof.
  intros Hd Hc%claimed_bool. unfold classify_error. rewrite Hd. cbn [mbind res_bind]. rewrite Hc.
  assert (∃ rs, match decoded with Some v => claimed_records rec_limit v | None => Ok None end = Ok rs) as [rs ->].
  { destruct decoded; [apply claimed_records_total|by eexists]. }
  cbn [mbind res_bind]. destruct rs; [|by right]. destruct (_ =? _)%Z; eauto.
Qed.

(** ** The canonical envelope *)

Definition canonical_envelope (m : pystr) : json :=
  JObj [("ietf-restconf:errors", JObj [("error", JArr [JObj
    [("error-type", JStr "application"); ("error-tag", JStr "operation-failed"); ("error-message", JStr m)]])])].

(** The response body NSO sends for a refused transaction. *)
Definition envelope_bytes (m : pystr) : list N := py_chars (dumps compact (canonical_envelope m)).

Lemma escape_printable c : printable c = true → forallb printable (escape_char c) = true.
Proof.
  intros H. destruct (clean_char c) eqn:E; [by rewrite escape_clean; simpl; rewrite ?H|].
  unfold printable in H. apply andb_prop in H as [H1%N.leb_le H2%N.leb_le].
  assert (c = 34 ∨ c = 92)%N as [->| ->]; [|done..].
  unfold clean_char in E. rewrite !andb_false_iff, !negb_false_iff, !N.leb_gt, !N.eqb_eq in E. lia.
Qed.

Lemma dump_str_printable' s : forallb printable (py_chars s) = true → forallb printable (dump_str s) = true.
Proof.
  intros H. unfold dump_str. rewrite !forallb_app. apply andb_true_intro. split; [done|].
  apply andb_true_intro. split; [|done]. induction (py_chars s) as [|c l IH]; simpl in *; [done|].
  apply andb_prop in H as [Hc Hl]. by rewrite forallb_app, escape_printable, IH.
Qed.

Lemma envelope_printable m :
  forallb printable (py_chars m) = true → forallb printable (envelope_bytes m) = true.
Proof.
  intros H%dump_str_printable'. unfold envelope_bytes, dumps. cbn [py_chars].
  unfold canonical_envelope. cbn [dump_chars map compact sort_keys key_sep item_sep fst snd join_chars].
  rewrite !forallb_app, H. vm_compute. reflexivity.
Qed.

Lemma marker_free :
  forallb (fun s => negb (py_contains MARKER s))
    ["ietf-restconf:errors"; "error"; "error-type"; "application"; "error-tag"; "operation-failed"; "error-message"]
  = true.
Proof. vm_compute. reflexivity. Qed.

Lemma chars_contains_app p s r : chars_prefix p (s ++ r) = true → chars_contains p (s ++ r) = true.
Proof. intros H. destruct (s ++ r); simpl in *; by rewrite H. Qed.

Lemma render_claims rs : py_contains MARKER (render rs) = true.
Proof.
  assert (PREFIX = MARKER +:+ " ") as E by reflexivity. unfold py_contains, render, py_app. rewrite E. cbn [py_chars py_app]. rewrite <-app_assoc.
  apply chars_contains_app, chars_prefix_app.
Qed.

Lemma envelope_message_canonical m :
  py_contains MARKER m = true → envelope_message (canonical_envelope m) = Ok m.
Proof.
  intros Hm. pose proof marker_free as Hf. cbn [forallb] in Hf. rewrite !andb_true_iff, !negb_true_iff in Hf.
  destruct Hf as (F1 & F2 & F3 & F4 & F5 & F6 & F7 & _).
  unfold envelope_message.
  assert (count_claims (walk (canonical_envelope m)) 0 = Ok 1) as ->; [|vm_compute; reflexivity].
  change (walk (canonical_envelope m)) with
    (let error := JObj [("error-type", JStr "application"); ("error-tag", JStr "operation-failed");
                        ("error-message", JStr m)] in
     [canonical_envelope m; JObj [("error", JArr [error])]; JArr [error]; error; JStr m; JStr "error-message";
      JStr "operation-failed"; JStr "error-tag"; JStr "application"; JStr "error-type"; JStr "error";
      JStr "ietf-restconf:errors"]).
  unfold canonical_envelope. cbv zeta. cbn [count_claims].
  repeat match goal with |- context [obj_members ?v] =>
    let r := eval vm_compute in (obj_members v) in change (obj_members v) with r end.
  cbn [mbind res_bind]. unfold claims_refusal. by rewrite Hm, F1, F2, F3, F4, F5, F6, F7.
Qed.

Lemma printable_plain l : forallb printable l = true → plain_str (PStr l) = true.
Proof.
  unfold plain_str. apply forallb_impl. intros c [_ H%N.leb_le]%andb_prop.
  unfold scalarb. by rewrite (proj2 (N.ltb_lt c 55296)) by lia.
Qed.

Lemma envelope_decodes rec_limit m :
  forallb printable (py_chars m) = true → 5 <= rec_limit →
  decode_outer rec_limit (BodyBytes (envelope_bytes m)) = Ok (Some (canonical_envelope m)).
Proof.
  intros Hm Hl. unfold decode_outer, loads_body.
  assert (json_bytes_text (envelope_bytes m) = Some (dumps compact (canonical_envelope m))) as ->.
  { apply ascii_body. eapply forallb_impl; [|by apply envelope_printable].
    intros c. unfold printable. rewrite !andb_true_iff, !N.leb_le, N.ltb_lt. lia. }
  rewrite loads_dumps; [done|done| |simpl; lia].
  unfold canonical_envelope. cbn [json_plain forallb fst snd].
  destruct m as [l]. rewrite (printable_plain l) by done. vm_compute. reflexivity.
Qed.

(** a canonical refusal is recognised: for every record set NSO can render, a 500 response
    carrying it in the RESTCONF error envelope is classified as the definite refusal with exactly
    those records in family order. *)
Theorem canonical_refusal_recognised rec_limit rs os m :
  5 <= rec_limit → ordered rs = Ok os → render_refusals rs = Ok m →
  classify_error rec_limit (Some 500%Z) (BodyBytes (envelope_bytes m)) = Ok (DefiniteRefusal os).
Proof.
  intros Hl Ho Hm. rewrite (render_refusals_ordered _ _ Ho) in Hm. injection Hm as <-.
  pose proof (ordered_valid _ _ Ho) as (_ & Hv & _).
  unfold classify_error. rewrite envelope_decodes by (try apply render_printable; done). cbn [mbind res_bind].
  match goal with |- context [if ?c then _ else _] => assert (c = true) as -> end.
  { apply (claimed_bool (BodyBytes (envelope_bytes (render os))) (Some (canonical_envelope (render os)))).
    right. exists (canonical_envelope (render os)), (JStr (render os)). split_and!; [done| |apply render_claims].
    unfold canonical_envelope. cbn [subnodes flat_map app fst snd]. set_solver. }
  unfold claimed_records. rewrite envelope_message_canonical by apply render_claims. cbn [mbind res_bind].
  rewrite parse_render by (try eapply ordered_idem; done). reflexivity.
Qed.

(** ** Concrete responses *)

Lemma definite_refusal_sound_witness :
  Some 500%Z = Some 500%Z ∧
  ∃ doc m, decode_outer 100 (BodyBytes (envelope_bytes (render sample_ordered))) = Ok (Some doc) ∧
    (∀ l, JObj l ∈ subnodes doc → ∃ ms, obj_members (JObj l) = Ok ms) ∧
    length (filter (fun v => claims_refusal v = true) (subnodes doc)) = 1 ∧
    envelope_message doc = Ok m ∧ render_refusals sample_ordered = Ok m ∧ Forall valid_refusal sample_ordered.
Proof. apply definite_refusal_sound. vm_compute. reflexivity. Defined.

(** A 404 whose text claims the marker inside broken JSON. *)
Definition broken_claim : body := BodyStr (PREFIX +:+ "{").

Lemma claim_never_downgraded_witness :
  (∃ rs, classify_error 100 (Some 404%Z) broken_claim = Ok (DefiniteRefusal rs)) ∨
  classify_error 100 (Some 404%Z) broken_claim = Ok ProtocolFault.
Proof.
  apply (claim_never_downgraded 100 404%Z broken_claim None); [vm_compute; reflexivity|].
  left. vm_compute. reflexivity.
Defined.

Lemma canonical_refusal_recognised_witness :
  classify_error 5 (Some 500%Z) (BodyBytes (envelope_bytes (render sample_ordered))) =
  Ok (DefiniteRefusal sample_ordered).
Proof.
  apply (canonical_refusal_recognised 5 sample_set); [apply le_n|exact sample_ordered_Ok|].
  apply render_refusals_ordered. exact sample_ordered_Ok.
Defined.
