(* ===== verification/Registry.v ===== *)
(** * The projection registry

    src/nso_adapter/core/projection.py (the section registry, stream ownership, the startup
    validation), core/intent_protocol.py and the parts of store/models.py and core/families.py
    they read.  A model class is named by its class name; the wire encoders, which are functions,
    are not part of the record. *)

From stdpp Require Import base gmap list strings sorting.
From Stdlib Require Import ZArith NArith Lia.
From S2P Require Import Prelude Json.
Local Open Scope py_scope.

(** ** The schema the registry reads *)

(** A mapped table: its unique constraints, its foreign-key columns with the referenced table,
    and the columns declared unique on their own. *)
Record Table := {
  tbl_model : pystr; tbl_name : pystr; tbl_unique : list (list pystr);
  tbl_fks : list (pystr * pystr); tbl_unique_columns : list pystr }.

Definition intent_tables : list Table := [
  {| tbl_model := "SnmpCommunityIntent"; tbl_name := "snmp_community_intent";
     tbl_unique := [["device_id"; "label"]];
     tbl_fks := [("device_id", "devices")]; tbl_unique_columns := [] |};
  {| tbl_model := "SnmpV3UserIntent"; tbl_name := "snmp_v3_user_intent";
     tbl_unique := [["device_id"; "username"]];
     tbl_fks := [("device_id", "devices")]; tbl_unique_columns := [] |};
  {| tbl_model := "SnmpHostIntent"; tbl_name := "snmp_host_intent";
     tbl_unique := [["device_id"; "address"]];
     tbl_fks := [("device_id", "devices")]; tbl_unique_columns := [] |};
  {| tbl_model := "SnmpSystemInfoIntent"; tbl_name := "snmp_system_info_intent";
     tbl_unique := [];
     tbl_fks := [("device_id", "devices")]; tbl_unique_columns := ["device_id"] |};
  {| tbl_model := "StaticRouteIntent"; tbl_name := "static_route_intent";
     tbl_unique := [["device_id"; "vrf"; "prefix"; "next_hop"]];
     tbl_fks := [("device_id", "devices")]; tbl_unique_columns := [] |};
  {| tbl_model := "StaticRouteTombstone"; tbl_name := "static_route_tombstone";
     tbl_unique := [];
     tbl_fks := [("device_id", "devices"); ("job_id", "jobs")]; tbl_unique_columns := [] |};
  {| tbl_model := "LoggingHostIntent"; tbl_name := "logging_host_intent";
     tbl_unique := [["device_id"; "address"]];
     tbl_fks := [("device_id", "devices")]; tbl_unique_columns := [] |};
  {| tbl_model := "LoggingLevelsIntent"; tbl_name := "logging_levels_intent";
     tbl_unique := [];
     tbl_fks := [("device_id", "devices")]; tbl_unique_columns := ["device_id"] |};
  {| tbl_model := "SviIntent"; tbl_name := "svi_intent";
     tbl_unique := [["device_id"; "interface_name"]];
     tbl_fks := [("device_id", "devices")]; tbl_unique_columns := [] |};
  {| tbl_model := "SubinterfaceIntent"; tbl_name := "subinterface_intent";
     tbl_unique := [["device_id"; "interface_name"]];
     tbl_fks := [("device_id", "devices")]; tbl_unique_columns := [] |};
  {| tbl_model := "VlanIntent"; tbl_name := "vlan_intent";
     tbl_unique := [["device_id"; "vlan_id"]];
     tbl_fks := [("device_id", "devices")]; tbl_unique_columns := [] |};
  {| tbl_model := "BfdIntent"; tbl_name := "bfd_intent";
     tbl_unique := [["device_id"; "interface_name"]];
     tbl_fks := [("device_id", "devices")]; tbl_unique_columns := [] |};
  {| tbl_model := "InterfaceMtuIntent"; tbl_name := "interface_mtu_intent";
     tbl_unique := [["device_id"; "interface_name"]];
     tbl_fks := [("device_id", "devices")]; tbl_unique_columns := [] |};
  {| tbl_model := "L2SapIntent"; tbl_name := "l2_sap_intent";
     tbl_unique := [["device_id"; "service_name"; "sap_id"]];
     tbl_fks := [("device_id", "devices")]; tbl_unique_columns := [] |};
  {| tbl_model := "IsisProcessIntent"; tbl_name := "isis_process_intent";
     tbl_unique := [["device_id"; "process_tag"]];
     tbl_fks := [("device_id", "devices")]; tbl_unique_columns := [] |};
  {| tbl_model := "IsisInterfaceIntent"; tbl_name := "isis_interface_intent";
     tbl_unique := [["device_id"; "interface_name"; "af"]];
     tbl_fks := [("device_id", "devices")]; tbl_unique_columns := [] |};
  {| tbl_model := "IsisLevelIntent"; tbl_name := "isis_level_intent";
     tbl_unique := [["device_id"; "process_tag"; "level"]];
     tbl_fks := [("device_id", "devices")]; tbl_unique_columns := [] |};
  {| tbl_model := "IsisFlexAlgoIntent"; tbl_name := "isis_flex_algo_intent";
     tbl_unique := [["device_id"; "process_tag"; "algo_id"]];
     tbl_fks := [("device_id", "devices")]; tbl_unique_columns := [] |};
  {| tbl_model := "RedistributionIntent"; tbl_name := "redistribution_intent";
     tbl_unique := [["device_id"; "dest_protocol"; "dest_ref"; "source_protocol"; "source_ref"]];
     tbl_fks := [("device_id", "devices")]; tbl_unique_columns := [] |};
  {| tbl_model := "BgpRouterIntent"; tbl_name := "bgp_router_intent";
     tbl_unique := [["device_id"; "asn"]];
     tbl_fks := [("device_id", "devices")]; tbl_unique_columns := [] |};
  {| tbl_model := "BgpScopeIntent"; tbl_name := "bgp_scope_intent";
     tbl_unique := [["router_id"; "vrf"]];
     tbl_fks := [("router_id", "bgp_router_intent")]; tbl_unique_columns := [] |};
  {| tbl_model := "BgpAfIntent"; tbl_name := "bgp_af_intent";
     tbl_unique := [["scope_id"; "af"]];
     tbl_fks := [("scope_id", "bgp_scope_intent")]; tbl_unique_columns := [] |};
  {| tbl_model := "BgpPeerIntent"; tbl_name := "bgp_peer_intent";
     tbl_unique := [["scope_id"; "peer_address"]];
     tbl_fks := [("scope_id", "bgp_scope_intent")]; tbl_unique_columns := [] |};
  {| tbl_model := "BgpPeerAfIntent"; tbl_name := "bgp_peer_af_intent";
     tbl_unique := [["peer_id"; "af"]];
     tbl_fks := [("peer_id", "bgp_peer_intent")]; tbl_unique_columns := [] |};
  {| tbl_model := "RoutePolicyObjectIntent"; tbl_name := "route_policy_object_intent";
     tbl_unique := [["device_id"; "family"; "name"]];
     tbl_fks := [("device_id", "devices")]; tbl_unique_columns := [] |};
  {| tbl_model := "OspfInstanceIntent"; tbl_name := "ospf_instance_intent";
     tbl_unique := [["device_id"; "process_id"]];
     tbl_fks := [("device_id", "devices")]; tbl_unique_columns := [] |};
  {| tbl_model := "OspfInterfaceIntent"; tbl_name := "ospf_interface_intent";
     tbl_unique := [["device_id"; "interface_name"]];
     tbl_fks := [("device_id", "devices")]; tbl_unique_columns := [] |};
  {| tbl_model := "SwitchportIntent"; tbl_name := "switchport_intent";
     tbl_unique := [["device_id"; "interface_name"]];
     tbl_fks := [("device_id", "devices")]; tbl_unique_columns := [] |};
  {| tbl_model := "SwitchportTaggedVlanIntent"; tbl_name := "switchport_tagged_vlan_intent";
     tbl_unique := [["switchport_id"; "vlan_id"]];
     tbl_fks := [("switchport_id", "switchport_intent")]; tbl_unique_columns := [] |};
  {| tbl_model := "LagBundleIntent"; tbl_name := "lag_bundle_intent";
     tbl_unique := [["device_id"; "name"]; ["device_id"; "lag_id"]];
     tbl_fks := [("device_id", "devices")]; tbl_unique_columns := [] |};
  {| tbl_model := "LagMemberIntent"; tbl_name := "lag_member_intent";
     tbl_unique := [["lag_bundle_id"; "interface_name"]];
     tbl_fks := [("lag_bundle_id", "lag_bundle_intent")]; tbl_unique_columns := [] |};
  {| tbl_model := "InterfaceIntent"; tbl_name := "interface_intent";
     tbl_unique := [["interface_id"; "attribute"]];
     tbl_fks := [("interface_id", "interfaces")]; tbl_unique_columns := [] |};
  {| tbl_model := "InterfaceIpIntent"; tbl_name := "interface_ip_intent";
     tbl_unique := [["interface_id"; "address"; "vrf"]];
     tbl_fks := [("interface_id", "interfaces")]; tbl_unique_columns := [] |}
].

Definition table_of (model : pystr) : option Table :=
  List.find (fun t => bool_decide (tbl_model t = model)) intent_tables.
Definition tablename (model : pystr) : pystr := default "" (tbl_name <$> table_of model).

(** The table a parent class maps to; the interface inventory is outside the projection. *)
Definition parent_table (parent : pystr) : pystr :=
  if bool_decide (parent = "DbInterface") then "interfaces" else tablename parent.

(** ** Registry records *)

(** [_Spec] *)
Record Spec := {
  sp_model : pystr; sp_parent : option pystr; sp_discriminator : option (pystr * pystr);
  sp_identity : option (list pystr); sp_lifecycle : bool }.

(** [TableCompare | BespokeExpansion | NoComparison]; a key function is the columns it reads. *)
Inductive Verification :=
| TableCompare (entries : list (pystr * pystr * list pystr))
| BespokeExpansion
| NoComparison.

(** [GuardList] *)
Record GuardList := {
  gl_label : pystr; gl_path : list pystr; gl_keys : list pystr; gl_parent_key : option pystr;
  gl_scalar : bool; gl_presence : bool }.

(** [_Section] *)
Record SectionEntry := {
  se_tables : list Spec; se_container : pystr; se_read_family : pystr; se_verify : Verification;
  se_guard_lists : list GuardList; se_capability_scopes : list pystr; se_result_keys : list pystr;
  se_residue_labels : list pystr }.

(** [_Section.removal_authority_labels] *)
Definition removal_authority_labels (e : SectionEntry) : list pystr :=
  se_residue_labels e ++ map gl_label (se_guard_lists e).

Definition spec (model : pystr) : Spec :=
  {| sp_model := model; sp_parent := None; sp_discriminator := None; sp_identity := None; sp_lifecycle := false |}.
Definition child_spec (model parent : pystr) : Spec :=
  {| sp_model := model; sp_parent := Some parent; sp_discriminator := None; sp_identity := None; sp_lifecycle := false |}.
Definition redistribution_spec (protocol : pystr) : Spec :=
  {| sp_model := "RedistributionIntent"; sp_parent := None;
     sp_discriminator := Some ("dest_protocol", protocol); sp_identity := None; sp_lifecycle := false |}.
Definition guard (label : pystr) (path keys : list pystr) : GuardList :=
  {| gl_label := label; gl_path := path; gl_keys := keys; gl_parent_key := None; gl_scalar := false;
     gl_presence := false |}.
Definition child_guard (label : pystr) (path keys : list pystr) (parent_key : pystr) (scalar presence : bool) : GuardList :=
  {| gl_label := label; gl_path := path; gl_keys := keys; gl_parent_key := Some parent_key; gl_scalar := scalar;
     gl_presence := presence |}.
Definition section (tables : list Spec) (guards : list GuardList) (container read_family : pystr)
    (verify : Verification) : SectionEntry :=
  {| se_tables := tables; se_container := container; se_read_family := read_family; se_verify := verify;
     se_guard_lists := guards; se_capability_scopes := []; se_result_keys := []; se_residue_labels := [] |}.

(** [INTERFACE_ATTRIBUTE_LEAVES], sorted *)
Definition INTERFACE_ATTRIBUTE_LEAVES : list pystr := ["description"; "enabled"].

(** [_SECTION_REGISTRY], in iteration order *)
Definition SECTION_REGISTRY : list (pystr * SectionEntry) := [
  ("snmp", section
     [spec "SnmpCommunityIntent"; spec "SnmpV3UserIntent"; spec "SnmpHostIntent"; spec "SnmpSystemInfoIntent"]
     [guard "community" ["community"] ["name"]; guard "v3-user" ["v3-user"] ["username"];
      guard "host" ["host"] ["address"]]
     "snmp" "snmp"
     (TableCompare [("SnmpCommunityIntent", "community", ["label"]); ("SnmpV3UserIntent", "v3-user", ["username"]);
                    ("SnmpHostIntent", "host", ["address"])]));
  ("static_route", section
     [spec "StaticRouteIntent";
      {| sp_model := "StaticRouteTombstone"; sp_parent := None; sp_discriminator := None;
         sp_identity := Some ["route_id"; "vrf"; "prefix"; "next_hop"; "marking"; "created_at"];
         sp_lifecycle := true |}]
     [guard "route" ["route"] ["vrf"; "prefix"; "next-hop"]] "static-route" "static_route"
     (TableCompare [("StaticRouteIntent", "route", ["vrf"; "prefix"; "next_hop"])]));
  ("logging", section [spec "LoggingHostIntent"; spec "LoggingLevelsIntent"]
     [guard "host" ["host"] ["address"]] "logging" "logging"
     (TableCompare [("LoggingHostIntent", "host", ["address"])]));
  ("svi", section [spec "SviIntent"] [guard "interface" ["interface"] ["interface-name"]] "svi" "svi"
     (TableCompare [("SviIntent", "interface", ["interface_name"])]));
  ("subinterface", section [spec "SubinterfaceIntent"] [guard "interface" ["interface"] ["interface-name"]]
     "subinterface" "subinterface" (TableCompare [("SubinterfaceIntent", "interface", ["interface_name"])]));
  ("vlan", section [spec "VlanIntent"] [guard "vlan" ["vlan"] ["vlan-id"]] "vlan" "vlan"
     (TableCompare [("VlanIntent", "vlan", ["vlan_id"])]));
  ("bfd", section [spec "BfdIntent"] [guard "interface" ["interface"] ["interface-name"]] "bfd" "bfd"
     (TableCompare [("BfdIntent", "interface", ["interface_name"])]));
  ("interface_mtu", section [spec "InterfaceMtuIntent"] [guard "interface" ["interface"] ["interface-name"]]
     "mtu" "interface_mtu" (TableCompare [("InterfaceMtuIntent", "interface", ["interface_name"])]));
  ("l2_sap", section [spec "L2SapIntent"] [guard "sap" ["sap"] ["service-name"; "sap-id"]] "l2-sap" "l2_service"
     (TableCompare [("L2SapIntent", "sap", ["service_name"; "sap_id"])]));
  ("isis", section
     [spec "IsisProcessIntent"; spec "IsisInterfaceIntent"; spec "IsisLevelIntent"; spec "IsisFlexAlgoIntent";
      redistribution_spec "isis"]
     [guard "interface-config" ["interface-config"] ["interface-name"; "af"];
      guard "process-config" ["process-config"] ["process-tag"]] "isis" "isis"
     (TableCompare [("IsisInterfaceIntent", "interface-config", ["interface_name"; "af"]);
                    ("IsisProcessIntent", "process-config", ["process_tag"])]));
  ("bgp", section
     [spec "BgpRouterIntent"; child_spec "BgpScopeIntent" "BgpRouterIntent"; child_spec "BgpAfIntent" "BgpScopeIntent";
      child_spec "BgpPeerIntent" "BgpScopeIntent"; child_spec "BgpPeerAfIntent" "BgpPeerIntent";
      redistribution_spec "bgp"]
     [guard "router" ["router"] ["asn"]; guard "peer" ["router"; "scope"; "peer"] ["peer-address"]] "bgp" "bgp"
     BespokeExpansion);
  ("route_policy", section [spec "RoutePolicyObjectIntent"]
     [guard "prefix-list" ["prefix-list"] ["name"]; guard "community-list" ["community-list"] ["name"];
      guard "as-path" ["as-path"] ["name"]; guard "route-map" ["route-map"] ["name"]]
     "route-policy" "route_policy" BespokeExpansion);
  ("ospf", section [spec "OspfInstanceIntent"; spec "OspfInterfaceIntent"; redistribution_spec "ospf"]
     [guard "interface-config" ["interface-config"] ["interface-name"];
      guard "process-config" ["process-config"] ["process-id"]] "ospf" "ospf"
     (TableCompare [("OspfInstanceIntent", "process-config", ["process_id"]);
                    ("OspfInterfaceIntent", "interface-config", ["interface_name"])]));
  ("switchport", section
     [spec "SwitchportIntent"; child_spec "SwitchportTaggedVlanIntent" "SwitchportIntent"]
     [guard (tablename "SwitchportIntent") ["interface"] ["interface-name"];
      child_guard (tablename "SwitchportTaggedVlanIntent") ["interface"; "tagged-vlan"] [] "interface-name" true false]
     "switchport" "switchport" NoComparison);
  ("lag", section
     [{| sp_model := "LagBundleIntent"; sp_parent := None; sp_discriminator := None; sp_identity := Some ["name"];
         sp_lifecycle := false |}; child_spec "LagMemberIntent" "LagBundleIntent"]
     [guard (tablename "LagBundleIntent") ["bundle"] ["name"];
      child_guard (tablename "LagMemberIntent") ["bundle"; "member"] ["interface-name"] "name" false false]
     "lag" "lag_config" NoComparison);
  ("interface_config",
     {| se_tables := [child_spec "InterfaceIntent" "DbInterface"; child_spec "InterfaceIpIntent" "DbInterface"];
        se_container := "interface"; se_read_family := "interface_ip"; se_verify := NoComparison;
        se_guard_lists :=
          [guard "interface" ["interface"] ["interface-name"];
           child_guard "ipv4-address" ["interface"; "ipv4-address"] ["address"] "interface-name" false false;
           child_guard "ipv6-address" ["interface"; "ipv6-address"] ["address"] "interface-name" false false] ++
          map (fun attribute => child_guard attribute ["interface"; attribute] [] "interface-name" false true)
            INTERFACE_ATTRIBUTE_LEAVES;
        se_capability_scopes := ["interface_attribute"; "interface_ip"]; se_result_keys := ["attribute"; "ip"];
        se_residue_labels := ["address"] |})
].

(** [section_registry]: the registry with its defaults resolved *)
Definition section_registry : list (pystr * SectionEntry) :=
  map (fun kv =>
    let '(name, e) := kv in
    (name, {| se_tables := se_tables e; se_container := se_container e; se_read_family := se_read_family e;
              se_verify := se_verify e; se_guard_lists := se_guard_lists e;
              se_capability_scopes := match se_capability_scopes e with [] => [name] | l => l end;
              se_result_keys := match se_result_keys e with [] => [name] | l => l end;
              se_residue_labels := se_residue_labels e |})) SECTION_REGISTRY.

(** [_SplitSection] *)
Record SplitSection := { ss_context_owner : pystr; ss_streams : list (pystr * list pystr) }.

(** [_SPLIT_SECTION_STREAMS] *)
Definition SPLIT_SECTION_STREAMS : list (pystr * SplitSection) := [
  ("interface_config",
     {| ss_context_owner := "interface_config";
        ss_streams := [("interface_config", ["InterfaceIntent"]); ("ip", ["InterfaceIpIntent"])] |});
  ("isis",
     {| ss_context_owner := "isis";
        ss_streams := [("isis", ["IsisProcessIntent"; "IsisInterfaceIntent"; "IsisLevelIntent"; "RedistributionIntent"]);
                       ("isis_flex_algo", ["IsisFlexAlgoIntent"])] |})
].

(** ** The intent protocol *)

(** [INTENT_PUT_ENDPOINTS]: route path, stream, promoted section *)
Definition INTENT_PUT_ENDPOINTS : list (pystr * (pystr * pystr)) := [
  ("/api/v1/devices/{device_id}/bfd-intent", ("bfd", "bfd"));
  ("/api/v1/devices/{device_id}/bgp-intent", ("bgp", "bgp"));
  ("/api/v1/devices/{device_id}/intent", ("interface_config", "interface_config"));
  ("/api/v1/devices/{device_id}/interface-mtu-intent", ("interface_mtu", "interface_mtu"));
  ("/api/v1/devices/{device_id}/ip-intent", ("ip", "interface_config"));
  ("/api/v1/devices/{device_id}/isis-flex-algo-intent", ("isis_flex_algo", "isis"));
  ("/api/v1/devices/{device_id}/isis-interface-intent", ("isis", "isis"));
  ("/api/v1/devices/{device_id}/l2-sap-intent", ("l2_sap", "l2_sap"));
  ("/api/v1/devices/{device_id}/logging-intent", ("logging", "logging"));
  ("/api/v1/devices/{device_id}/ospf-intent", ("ospf", "ospf"));
  ("/api/v1/devices/{device_id}/route-policy-intent", ("route_policy", "route_policy"));
  ("/api/v1/devices/{device_id}/snmp-intent", ("snmp", "snmp"));
  ("/api/v1/devices/{device_id}/static-route-intent", ("static_route", "static_route"));
  ("/api/v1/devices/{device_id}/subinterface-intent", ("subinterface", "subinterface"));
  ("/api/v1/devices/{device_id}/svi-intent", ("svi", "svi"));
  ("/api/v1/devices/{device_id}/vlan-intent", ("vlan", "vlan"))
].

(** [OUT_OF_PROTOCOL_APPLY_POSTS] and the streams it prepares *)
Definition OUT_OF_PROTOCOL_APPLY_POSTS : list (pystr * pystr) := [
  ("/api/v1/devices/{device_id}/lag-config/apply", "lag");
  ("/api/v1/devices/{device_id}/switchport/apply", "switchport")
].
Definition OUT_OF_PROTOCOL_STREAMS : list pystr := map snd OUT_OF_PROTOCOL_APPLY_POSTS.
Definition INTENT_STREAMS : list pystr := map (fun e => e.2.1) INTENT_PUT_ENDPOINTS.
Definition CLAIM_LESS_SECTIONS : list pystr := ["switchport"; "lag"].

(** [intent_endpoint] *)
Definition intent_endpoint (route_path : pystr) : res (pystr * pystr) :=
  match dict_get INTENT_PUT_ENDPOINTS route_path with
  | Some e => Ok e
  | None => Raise (RuntimeError (route_path +:+ " is not a registered in-protocol intent PUT"))
  end.

(** [ENGINE_FAMILY_KEYS] *)
Definition ENGINE_FAMILY_KEYS : list pystr :=
  ["lag"; "logging"; "snmp"; "bgp"; "svi"; "subinterface"; "interface_ip"; "isis"; "vlan"; "switchport"; "bfd";
   "l2_service"; "static_route"; "interface_mtu"; "lag_config"; "ospf"; "route_policy"].

(** ** Derived tables *)

Definition mem (s : pystr) (l : list pystr) : bool := bool_decide (s ∈ l).
Definition subset_of (a b : list pystr) : bool := forallb (fun s => mem s b) a.
Definition same_members (a b : list pystr) : bool := subset_of a b && subset_of b a.
Definition sorted_strs (l : list pystr) : list pystr := stable_sort py_leb l.

(** [_stream_tables]: one stream per section, or the declared split, checked to partition it *)
Definition split_stream_specs (section : pystr) (specs : list Spec) (split : SplitSection) :
    res (list (pystr * list Spec)) :=
  let claimed := flat_map snd (ss_streams split) in
  let by_model := dict_of_pairs (map (fun s => (sp_model s, s)) specs) in
  _ ← guard_or (bool_decide (sorted_strs claimed = sorted_strs (dict_keys by_model)))
        (RuntimeError ("section " +:+ section +:+ " stream ownership does not partition its tables"));
  _ ← guard_or (mem (ss_context_owner split) (dict_keys (ss_streams split)))
        (RuntimeError ("section " +:+ section +:+ " names a context owner that is not one of its streams"));
  map_res (fun sm =>
    specs ← map_res (fun model => match dict_get by_model model with
                                  | Some s => Ok s
                                  | None => Raise KeyError
                                  end) sm.2;
    Ok (sm.1, specs)) (ss_streams split).

Fixpoint stream_specs_loop (sections : list (pystr * SectionEntry)) (acc : list (pystr * list Spec)) :
    res (list (pystr * list Spec)) :=
  match sections with
  | [] => Ok acc
  | (section, entry) :: rest =>
      match dict_get SPLIT_SECTION_STREAMS section with
      | None => stream_specs_loop rest (dict_set acc section (se_tables entry))
      | Some split =>
          added ← split_stream_specs section (se_tables entry) split;
          stream_specs_loop rest (fold_left (fun d sm => dict_set d sm.1 sm.2) added acc)
      end
  end.
Definition stream_specs : res (list (pystr * list Spec)) := stream_specs_loop SECTION_REGISTRY [].

(** [_stream_section] *)
Definition split_owner : list (pystr * pystr) :=
  dict_of_pairs (flat_map (fun ss => map (fun sm => (sm.1, ss.1)) (ss_streams ss.2)) SPLIT_SECTION_STREAMS).
Definition stream_sections : res (list (pystr * pystr)) :=
  specs ← stream_specs; Ok (map (fun sm => (sm.1, default sm.1 (dict_get split_owner sm.1))) specs).

(** [_SPEC_BY_MODEL], [_SPEC_BY_TABLE]: a repeated key keeps its last entry *)
Definition spec_by_model : list (pystr * Spec) :=
  dict_of_pairs (flat_map (fun se => map (fun s => (sp_model s, s)) (se_tables se.2)) SECTION_REGISTRY).
Definition spec_by_table : list (pystr * Spec) :=
  dict_of_pairs (map (fun ms => (tablename (sp_model ms.2), ms.2)) spec_by_model).

(** [_spec_or_refuse] *)
Definition spec_or_refuse (table : pystr) : res Spec :=
  match dict_get spec_by_table table with
  | Some s => Ok s
  | None => Raise (ValueError ("unknown projection table " +:+ table))
  end.

(** [_fk_column] *)
Definition fk_column (model parent : pystr) : res pystr :=
  match List.find (fun fk => bool_decide (fk.2 = parent_table parent)) (default [] (tbl_fks <$> table_of model)) with
  | Some fk => Ok fk.1
  | None => Raise (RuntimeError (model +:+ " has no foreign key to " +:+ parent))
  end.

(** [_identity_fields] *)
Definition identity_fields (s : Spec) : res (list pystr) :=
  match sp_identity s with
  | Some fields => Ok fields
  | None =>
      scope ← match sp_parent s with Some p => fk_column (sp_model s) p | None => Ok "device_id" end;
      let t := table_of (sp_model s) in
      let candidates :=
        List.filter (fun cs => mem scope cs) (default [] (tbl_unique <$> t)) ++
        map (fun c => [c]) (List.filter (fun c => bool_decide (c = scope)) (default [] (tbl_unique_columns <$> t))) in
      match candidates with
      | [fields] => Ok (List.filter (fun f => negb (bool_decide (f = scope))) fields)
      | _ => Raise (RuntimeError (sp_model s +:+ " needs one durable projection identity"))
      end
  end.

(** [_STREAM_RESULT_KEYS], [_stream_result_key] *)
Definition STREAM_RESULT_KEYS : list (pystr * pystr) := [("interface_config", "attribute"); ("ip", "ip")].
Definition stream_result_key_of (stream section : pystr) : res pystr :=
  match dict_get section_registry section with
  | None => Raise KeyError
  | Some e =>
      let keys := se_result_keys e in
      let key := match keys with [k] => Some k | _ => dict_get STREAM_RESULT_KEYS stream end in
      match key with
      | Some k => if mem k keys then Ok k
                  else Raise (RuntimeError ("stream " +:+ stream +:+ " names no job-result counter"))
      | None => Raise (RuntimeError ("stream " +:+ stream +:+ " names no job-result counter"))
      end
  end.

(** ** Startup validation *)

(** [projection_sections] *)
Definition projection_sections : res (list pystr) :=
  _ ← guard_or (subset_of (map (fun e => e.2.2) INTENT_PUT_ENDPOINTS) (dict_keys SECTION_REGISTRY))
        (RuntimeError "intent endpoints promote sections with no intent tables");
  Ok (dict_keys SECTION_REGISTRY).

Fixpoint check_containers (sections : list (pystr * SectionEntry)) (containers : list (pystr * pystr)) : res unit :=
  match sections with
  | [] => Ok tt
  | (section, entry) :: rest =>
      _ ← guard_or (py_truthy (se_container entry)) (RuntimeError ("section " +:+ section +:+ " names no device-intent container"));
      _ ← guard_or (match se_capability_scopes entry with [] => false | _ => true end)
            (RuntimeError ("section " +:+ section +:+ " records under no capability scope"));
      _ ← guard_or (match se_result_keys entry with [] => false | _ => true end)
            (RuntimeError ("section " +:+ section +:+ " names no job-result counter"));
      _ ← guard_or (mem (se_read_family entry) ENGINE_FAMILY_KEYS)
            (RuntimeError ("section " +:+ section +:+ " reads through an unregistered family"));
      let containers := dict_setdefault containers (se_container entry) section in
      _ ← guard_or (bool_decide (dict_get containers (se_container entry) = Some section))
            (RuntimeError ("two sections claim container " +:+ se_container entry));
      check_containers rest containers
  end.

(** [_validate_section_registry]; the record has no member for an entry's encoder and its comparison is a constructor, so the checks that
    one is callable and the other of a known class have nothing to test here *)
Definition validate_section_registry (out_of_protocol : list pystr) : res unit :=
  _ ← check_containers section_registry [];
  sections ← stream_sections;
  _ ← map_res (fun ss => stream_result_key_of ss.1 ss.2) sections;
  guard_or (same_members out_of_protocol CLAIM_LESS_SECTIONS)
    (RuntimeError "the out-of-protocol streams are not the two claim-less sections").

(** [projection_streams] *)
Definition projection_streams : res (list pystr) :=
  _ ← projection_sections;
  specs ← stream_specs;
  let streams := dict_keys specs in
  let endpoints := dict_of_pairs (map snd INTENT_PUT_ENDPOINTS) in
  _ ← guard_or (same_members streams (dict_keys endpoints ++ OUT_OF_PROTOCOL_STREAMS))
        (RuntimeError "projection streams and intent endpoints disagree");
  _ ← guard_or (forallb (fun s => negb (mem s OUT_OF_PROTOCOL_STREAMS)) (dict_keys endpoints))
        (RuntimeError "streams that are both an intent PUT lane and an Apply POST");
  let split_streams := flat_map (fun ss => dict_keys (ss_streams ss.2)) SPLIT_SECTION_STREAMS in
  _ ← map_res (fun stream =>
         _ ← guard_or (mem stream (dict_keys SECTION_REGISTRY))
               (RuntimeError ("out-of-protocol stream " +:+ stream +:+ " names no section spelled the same"));
         guard_or (negb (mem stream split_streams))
           (RuntimeError ("out-of-protocol stream " +:+ stream +:+ " may not share a split section")))
       (sorted_strs OUT_OF_PROTOCOL_STREAMS);
  sections ← stream_sections;
  _ ← guard_or (forallb (fun ss => match dict_get endpoints ss.1 with
                                   | Some promotes => bool_decide (promotes = ss.2)
                                   | None => true
                                   end) sections)
        (RuntimeError "streams whose section differs from what their endpoint promotes");
  _ ← map_res identity_fields (flat_map snd specs);
  _ ← validate_section_registry OUT_OF_PROTOCOL_STREAMS;
  Ok streams.

(** ** Lookups *)

(** [stream_tables] *)
Definition stream_tables (stream : pystr) : res (list pystr) :=
  streams ← projection_streams;
  if mem stream streams then
    specs ← stream_specs; Ok (map (fun s => tablename (sp_model s)) (default [] (dict_get specs stream)))
  else Raise (ValueError ("unknown projection stream " +:+ stream)).

(** [section_container] *)
Definition section_container (section : pystr) : res pystr :=
  sections ← projection_sections;
  if mem section sections then
    match dict_get section_registry section with Some e => Ok (se_container e) | None => Raise KeyError end
  else Raise (ValueError ("unknown projection section " +:+ section)).

(** [stream_section] *)
Definition stream_section (stream : pystr) : res pystr :=
  streams ← projection_streams;
  if mem stream streams then
    sections ← stream_sections;
    match dict_get sections stream with Some s => Ok s | None => Raise KeyError end
  else Raise (ValueError ("unknown projection stream " +:+ stream)).

(** [stream_result_key] *)
Definition stream_result_key (stream : pystr) : res pystr :=
  section ← stream_section stream; stream_result_key_of stream section.

(** [section_streams] *)
Definition section_streams (section : pystr) : res (list pystr) :=
  sections ← projection_sections;
  if mem section sections then
    owners ← stream_sections;
    Ok (sorted_strs (map fst (List.filter (fun ss => bool_decide (ss.2 = section)) owners)))
  else Raise (ValueError ("unknown projection section " +:+ section)).

(** ** The evaluated vocabulary *)

Definition STREAMS : list pystr :=
  Eval vm_compute in match projection_streams with Ok l => l | Raise _ => [] end.
Definition STREAM_SECTIONS : list (pystr * pystr) :=
  Eval vm_compute in match stream_sections with Ok l => l | Raise _ => [] end.
Definition STREAM_TABLES : list (pystr * list pystr) :=
  Eval vm_compute in
    match stream_specs with Ok l => map (fun sm => (sm.1, map (fun s => tablename (sp_model s)) sm.2)) l | Raise _ => [] end.

Lemma projection_streams_eq : projection_streams = Ok STREAMS.
Proof. vm_compute. reflexivity. Qed.
Lemma stream_sections_eq : stream_sections = Ok STREAM_SECTIONS.
Proof. vm_compute. reflexivity. Qed.

Lemma stream_section_eq stream :
  stream_section stream =
  match dict_get STREAM_SECTIONS stream with
  | Some s => Ok s
  | None => Raise (ValueError ("unknown projection stream " +:+ stream))
  end.
Proof.
  unfold stream_section. rewrite projection_streams_eq, stream_sections_eq. cbn [mbind res_bind].
  assert (STREAMS = dict_keys STREAM_SECTIONS) as -> by (vm_compute; reflexivity).
  unfold mem. destruct (dict_get STREAM_SECTIONS stream) as [s|] eqn:E.
  - rewrite bool_decide_eq_true_2; [done|]. apply dict_get_in_keys. eauto.
  - rewrite bool_decide_eq_false_2; [done|]. rewrite <-dict_get_in_keys, E. by intros [].
Qed.

(** The shipped registry passes its own startup validation.  The promotion vocabulary is the
    sixteen intent-PUT lanes plus the two claim-less Apply streams, eighteen streams over sixteen
    sections; every stream names the section its endpoint promotes, no two sections share a container,
    every table but the redistribution table (which is keyed by destination protocol) is owned by
    exactly one stream, and each section's tables are exactly the union of its streams' tables. *)
Theorem registry_wellformed :
  projection_streams = Ok STREAMS ∧
  STREAMS ≡ₚ INTENT_STREAMS ++ OUT_OF_PROTOCOL_STREAMS ∧ length STREAMS = 18 ∧ length SECTION_REGISTRY = 16 ∧
  NoDup (map (fun se => se_container se.2) SECTION_REGISTRY) ∧
  (∀ path stream section, (path, (stream, section)) ∈ INTENT_PUT_ENDPOINTS → stream_section stream = Ok section) ∧
  (∀ s t table tables tables', (s, tables) ∈ STREAM_TABLES → (t, tables') ∈ STREAM_TABLES →
     table ∈ tables → table ∈ tables' → table ≠ "redistribution_intent" → s = t) ∧
  (∀ section entry, (section, entry) ∈ SECTION_REGISTRY →
     map (fun s => tablename (sp_model s)) (se_tables entry) ≡ₚ
     flat_map (fun st => default [] (dict_get STREAM_TABLES st))
       (map fst (List.filter (fun ss => bool_decide (ss.2 = section)) STREAM_SECTIONS))).
Proof.
  split_and!.
  - apply projection_streams_eq.
  - apply NoDup_Permutation; [decide_vm..|]. intros x.
    apply (iff_trans (B := x ∈ list_to_set (C := gset pystr) STREAMS)); [set_solver|].
    assert (list_to_set (C := gset pystr) STREAMS = list_to_set (INTENT_STREAMS ++ OUT_OF_PROTOCOL_STREAMS)) as ->
      by decide_vm. by rewrite elem_of_list_to_set.
  - reflexivity.
  - reflexivity.
  - decide_vm.
  - intros path stream section Hin. rewrite stream_section_eq.
    assert (Forall (fun e => dict_get STREAM_SECTIONS e.2.1 = Some e.2.2) INTENT_PUT_ENDPOINTS) as HF by decide_vm.
    rewrite Forall_forall in HF. specialize (HF _ Hin). cbn [fst snd] in HF. by rewrite HF.
  - intros s t table tables tables' Hs Ht Hin Hin' Hne.
    assert (Forall (fun a => Forall (fun b => Forall (fun x => x ∈ b.2 → x ≠ "redistribution_intent" → a.1 = b.1) a.2)
              STREAM_TABLES) STREAM_TABLES) as HF by decide_vm.
    rewrite Forall_forall in HF. specialize (HF _ Hs). rewrite Forall_forall in HF. specialize (HF _ Ht).
    cbn [fst snd] in HF. rewrite Forall_forall in HF. eauto.
  - intros section entry Hin.
    assert (Forall (fun se => map (fun s => tablename (sp_model s)) (se_tables se.2) ≡ₚ
     flat_map (fun st => default [] (dict_get STREAM_TABLES st))
       (map fst (List.filter (fun ss => bool_decide (ss.2 = se.1)) STREAM_SECTIONS))) SECTION_REGISTRY) as HF
      by decide_vm.
    rewrite Forall_forall in HF. apply (HF _ Hin).
Qed.
