(* ===== verification/Document.v ===== *)
(** * Documents and fragments

    src/nso_adapter/core/projection.py (execution metadata, composition),
    core/generation.py [_compose_document], core/static_route_plan.py
    [validate_removal_authority].  A Python [dict] is its ordered member list; an exception's text
    is kept only as far as a caller could tell two raise sites apart. *)

From stdpp Require Import base gmap list strings sorting.
From Stdlib Require Import ZArith NArith Lia.
From S2P Require Import Prelude Json Registry.
Local Open Scope py_scope.

Definition pydict : Type := list (pystr * json).

(** ** Python truth and equality on decoded values *)

Fixpoint mantissa (l : list N) : list N :=
  match l with
  | [] => []
  | c :: l' => if N.eqb c 101 || N.eqb c 69 then [] else c :: mantissa l'
  end.

(** [bool(v)]; a float is false when its mantissa has no digit but zero. *)
Definition json_truthy (v : json) : bool :=
  match v with
  | JNull => false
  | JBool b => b
  | JInt z => negb (z =? 0)%Z
  | JFloat lit => existsb (fun c => (49 <=? c)%N && (c <=? 57)%N) (mantissa (py_chars lit))
  | JStr s => py_truthy s
  | JArr l => match l with [] => false | _ => true end
  | JObj l => match l with [] => false | _ => true end
  end.

(** [v == w]: a boolean equals its integer, objects compare as unordered mappings, floats by
    their literal. *)
Fixpoint py_eq (v w : json) : bool :=
  match v, w with
  | JNull, JNull => true
  | JBool a, JBool b => Bool.eqb a b
  | JBool a, JInt z | JInt z, JBool a => (z =? Z.b2z a)%Z
  | JInt a, JInt b => (a =? b)%Z
  | JFloat a, JFloat b => bool_decide (a = b)
  | JStr a, JStr b => bool_decide (a = b)
  | JArr a, JArr b =>
      (fix go a b := match a, b with
                     | [], [] => true
                     | x :: a', y :: b' => py_eq x y && go a' b'
                     | _, _ => false
                     end) a b
  | JObj a, JObj b =>
      Nat.eqb (length a) (length b) &&
      (fix go a := match a with
                   | [] => true
                   | (k, x) :: a' => match dict_get b k with Some y => py_eq x y | None => false end && go a'
                   end) a
  | _, _ => false
  end.

(** [d.update(e)] *)
Definition dict_update (d e : pydict) : pydict := fold_left (fun d kv => dict_set d kv.1 kv.2) e d.

(** [d.get(k)] on a value that should be a mapping *)
Definition get_member (v : json) (k : pystr) : res (option json) :=
  match v with JObj d => Ok (dict_get d k) | _ => Raise (AttributeError "get") end.

(** [(v or {})] as a mapping *)
Definition or_empty (v : option json) : res pydict :=
  match v with
  | None => Ok []
  | Some v => if json_truthy v then match v with JObj d => Ok d | _ => Raise (AttributeError "get") end else Ok []
  end.

(** ** Execution metadata *)

Definition EXECUTION_KEY : pystr := "_execution".

(** [community_dialect_by_name] as the context check uses it: registered, unregistered, or
    unhashable. *)
Definition DIALECTS : list pystr := ["identity"; "nokia_timos"].
Definition check_dialect (v : option json) : res unit :=
  match v with
  | Some (JStr s) => guard_or (mem s DIALECTS) (ValueError "names an unregistered dialect")
  | Some (JArr _) | Some (JObj _) => Raise (TypeError "unhashable type")
  | _ => Raise (ValueError "names an unregistered dialect")
  end.

(** [_section_execution] *)
Definition section_execution (document : pydict) (section : pystr) : res pydict :=
  body ← or_empty (dict_get document section);
  match dict_get body EXECUTION_KEY with
  | Some (JObj e) => Ok e
  | _ => Raise (ValueError "has no execution metadata")
  end.

(** [section_context] *)
Definition section_context (document : pydict) (section : pystr) : res pydict :=
  execution ← section_execution document section;
  match dict_get execution "context" with
  | Some (JObj context) =>
      _ ← guard_or (same_members (dict_keys context) ["ned_id"; "dialect"]) (ValueError "has an invalid execution context");
      _ ← match dict_get context "ned_id" with
          | Some JNull | Some (JStr _) => Ok tt
          | _ => Raise (ValueError "records a non-string ned_id")
          end;
      _ ← check_dialect (dict_get context "dialect");
      Ok context
  | _ => Raise (ValueError "has an invalid execution context")
  end.

(** [section_proof] *)
Definition section_proof (document : pydict) (section : pystr) : res (option pydict) :=
  execution ← section_execution document section;
  match dict_get execution "proof" with
  | None | Some JNull => Ok None
  | Some (JObj p) => Ok (Some p)
  | _ => Raise (ValueError "has invalid proof metadata")
  end.

(** [section_operation] *)
Definition section_operation (document : pydict) (section : pystr) : res pydict :=
  execution ← section_execution document section;
  match dict_get execution "operation" with
  | None | Some JNull => Ok []
  | Some (JObj o) => Ok o
  | _ => Raise (ValueError "has an invalid operation plane")
  end.

(** ** Fragments *)

(** [fragment_tables] *)
Definition fragment_tables (fragment : pydict) : pydict :=
  List.filter (fun kv => negb (bool_decide (kv.1 = EXECUTION_KEY))) fragment.

(** [_merge_interface_records] *)
Fixpoint merge_fields (record merged : pydict) : res pydict :=
  match record with
  | [] => Ok merged
  | (field, value) :: rest =>
      match dict_get merged field with
      | None | Some JNull => merge_fields rest (dict_set merged field value)
      | Some previous =>
          match value with
          | JNull => merge_fields rest merged
          | _ => if py_eq value previous then merge_fields rest merged
                 else Raise (ValueError "InterfaceProofConflict")
          end
      end
  end.
Definition merge_interface_records (into : pydict) (record : json) (key : pystr) : res pydict :=
  match dict_get into key with
  | None | Some JNull => Ok (dict_set into key record)
  | Some (JObj existing) =>
      match record with
      | JObj fields => merged ← merge_fields fields existing; Ok (dict_set into key (JObj merged))
      | _ => Raise (AttributeError "items")
      end
  | Some _ => Raise (TypeError "not a mapping")
  end.

Fixpoint merge_interfaces (records merged : pydict) : res pydict :=
  match records with
  | [] => Ok merged
  | (key, record) :: rest => merged ← merge_interface_records merged record key; merge_interfaces rest merged
  end.

(** One member of a fragment's proof folded into the section's proof. *)
Definition merge_proof_member (proof : pydict) (key : pystr) (value : json) : res pydict :=
  if bool_decide (key = "interfaces") then
    match value, default (JObj []) (dict_get proof "interfaces") with
    | JObj records, JObj merged =>
        merged ← merge_interfaces records merged; Ok (dict_set proof "interfaces" (JObj merged))
    | _, _ => Raise (AttributeError "items")
    end
  else match value with
  | JObj entries =>
      match default (JObj []) (dict_get proof key) with
      | JObj current => Ok (dict_set proof key (JObj (dict_update current entries)))
      | _ => Raise (AttributeError "update")
      end
  | _ => if dict_mem proof key then Raise (ValueError "proof key is contributed by two streams")
         else Ok (dict_set proof key value)
  end.
Fixpoint merge_proof (members proof : pydict) : res pydict :=
  match members with
  | [] => Ok proof
  | (key, value) :: rest => proof ← merge_proof_member proof key value; merge_proof rest proof
  end.

Fixpoint compose_loop (section : pystr) (contributions : list (pystr * pydict)) (contexts : list (pystr * pydict))
    (proof : pydict) : res (list (pystr * pydict) * pydict) :=
  match contributions with
  | [] => Ok (contexts, proof)
  | (stream, fragment) :: rest =>
      match dict_get fragment EXECUTION_KEY with
      | Some (JObj frozen) =>
          _ ← guard_or (negb (dict_mem frozen "operation"))
                (ValueError "contributes a fragment carrying an operation plane");
          context ← section_context [(section, JObj fragment)] section;
          members ← or_empty (dict_get frozen "proof");
          proof ← merge_proof members proof;
          compose_loop section rest (dict_set contexts stream context) proof
      | _ => Raise (ValueError "contributes an unfrozen fragment")
      end
  end.

(** [compose_section_execution] *)
Definition context_owner (section : pystr) : pystr :=
  match dict_get SPLIT_SECTION_STREAMS section with Some split => ss_context_owner split | None => section end.
Definition compose_section_execution (section : pystr) (contributions : list (pystr * pydict)) : res pydict :=
  '(contexts, proof) ← compose_loop section contributions [] [];
  context ← match dict_get contexts (context_owner section), contexts with
            | Some c, _ => Ok c
            | None, [(_, c)] => Ok c
            | None, _ => Raise (ValueError "no fragment's context is authoritative")
            end;
  Ok (("context", JObj context) :: match proof with [] => [] | _ => [("proof", JObj proof)] end).

(** ** The complete document ([_compose_document]) *)

Definition stream_le {V} (a b : pystr * V) : bool := py_leb a.1 b.1.

(** [contributions]: per section, its streams' fragments in stream order *)
Fixpoint group_sections (fragments : list (pystr * pydict)) (acc : list (pystr * list (pystr * pydict))) :
    res (list (pystr * list (pystr * pydict))) :=
  match fragments with
  | [] => Ok acc
  | (stream, fragment) :: rest =>
      section ← stream_section stream;
      group_sections rest (dict_set acc section (default [] (dict_get acc section) ++ [(stream, fragment)]))
  end.

Definition section_body (section : pystr) (contributing : list (pystr * pydict)) : res pydict :=
  let body := fold_left (fun body sf => dict_update body (fragment_tables sf.2)) contributing [] in
  execution ← compose_section_execution section contributing;
  Ok (dict_set body EXECUTION_KEY (JObj execution)).

Definition compose_document (fragments : list (pystr * pydict)) : res pydict :=
  contributions ← group_sections (stable_sort stream_le fragments) [];
  map_res (fun sc => body ← section_body sc.1 sc.2; Ok (sc.1, JObj body)) contributions.

(** [_compose_authorized_document]: the promoted streams over the last-authorized fragments *)
Definition compose_authorized_document (authorized promoted : list (pystr * pydict)) : res pydict :=
  compose_document (fold_left (fun d sf => dict_set d sf.1 sf.2) promoted authorized).

(** ** Removal authority ([validate_removal_authority]) *)

Definition validate_removal_authority (value : json) : res unit :=
  match value with
  | JObj scopes =>
      _ ← guard_or (forallb (fun kv => match kv.2 with JObj _ => true | _ => false end) scopes)
            (ValueError "allowed_removal_keys must be scope-qualified");
      _ ← guard_or (subset_of (dict_keys scopes) (dict_keys section_registry)) (ValueError "unknown removal-authority scope");
      _ ← map_res (fun kv =>
             match kv.2, dict_get section_registry kv.1 with
             | JObj labels, Some entry =>
                 guard_or (subset_of (dict_keys labels) (removal_authority_labels entry))
                   (ValueError "unknown removal-authority label")
             | _, _ => Raise KeyError
             end) scopes;
      Ok tt
  | _ => Raise (ValueError "allowed_removal_keys must be scope-qualified")
  end.

(** ** What composition preserves *)

#[local] Opaque stream_section STREAM_TABLES STREAM_SECTIONS section_registry.

Lemma dict_set_NoDup {V} (d : list (pystr * V)) k v : NoDup (dict_keys d) → NoDup (dict_keys (dict_set d k v)).
Proof.
  rewrite dict_set_keys. case_decide; [done|]. intros HN. apply NoDup_app. split_and!; [done| |apply NoDup_singleton].
  intros x Hx ->%list_elem_of_singleton. done.
Qed.

Lemma dict_get_update d e k :
  NoDup (dict_keys e) →
  dict_get (dict_update d e) k = match dict_get e k with Some v => Some v | None => dict_get d k end.
Proof.
  unfold dict_update. revert d. induction e as [|[k' v] e IH]; intros d HN; [done|].
  cbn [fold_left fst snd dict_get]. unfold dict_keys in HN. cbn [map fst] in HN.
  apply NoDup_cons in HN as [Hk' HN]. rewrite IH by done. destruct (decide (k = k')) as [->|Hne].
  - destruct (dict_get e k') eqn:E; [|by rewrite dict_get_set_eq].
    exfalso. apply Hk'. apply (dict_get_in_keys e k'). eauto.
  - by rewrite dict_get_set_ne.
Qed.

(** A fragment of a stream: one entry per table, tables the stream owns, and nothing else but
    the execution metadata. *)
Definition owned_fragment (stream : pystr) (fragment : pydict) : Prop :=
  NoDup (dict_keys fragment) ∧
  ∀ table, table ∈ dict_keys (fragment_tables fragment) → table ∈ default [] (dict_get STREAM_TABLES stream).

Definition owned_fragments (fragments : list (pystr * pydict)) : Prop :=
  NoDup (dict_keys fragments) ∧ Forall (fun sf => owned_fragment sf.1 sf.2) fragments.

Lemma fragment_tables_NoDup fragment : NoDup (dict_keys fragment) → NoDup (dict_keys (fragment_tables fragment)).
Proof.
  unfold fragment_tables, dict_keys. induction fragment as [|kv l IH]; cbn [map List.filter]; [done|].
  intros [Hk HN]%NoDup_cons. destruct (negb _); [|auto]. cbn [map]. apply NoDup_cons. split; [|auto].
  intros Hin. apply Hk. apply list_elem_of_In, in_map_iff in Hin as (x & Hx & [Hin _]%filter_In).
  apply list_elem_of_In, in_map_iff. eauto.
Qed.

Lemma fragment_tables_execution fragment : EXECUTION_KEY ∉ dict_keys (fragment_tables fragment).
Proof.
  unfold fragment_tables, dict_keys. intros Hin.
  apply list_elem_of_In, in_map_iff in Hin as (x & Hx & [_ Hneg]%filter_In).
  apply negb_true_iff, bool_decide_eq_false in Hneg. congruence.
Qed.

(** Two streams of one section own disjoint tables. *)
Lemma stream_tables_disjoint s t section table :
  stream_section s = Ok section → stream_section t = Ok section →
  table ∈ default [] (dict_get STREAM_TABLES s) → table ∈ default [] (dict_get STREAM_TABLES t) → s = t.
Proof.
  assert (Forall (fun a => Forall (fun b => dict_get STREAM_SECTIONS a.1 = dict_get STREAM_SECTIONS b.1 →
      Forall (fun x => x ∈ b.2 → a.1 = b.1) a.2) STREAM_TABLES) STREAM_TABLES) as HF by decide_vm.
  rewrite !stream_section_eq. destruct (dict_get STREAM_SECTIONS s) eqn:Es; [|done].
  destruct (dict_get STREAM_SECTIONS t) eqn:Et; [|done]. intros [= ->] [= ->].
  destruct (dict_get STREAM_TABLES s) as [ts|] eqn:Hs; [|by intros ?%elem_of_nil].
  destruct (dict_get STREAM_TABLES t) as [tt|] eqn:Ht; [|by intros _ ?%elem_of_nil].
  apply dict_get_Some_in in Hs, Ht. simpl. intros Hin Hin'.
  rewrite Forall_forall in HF. specialize (HF _ Hs). rewrite Forall_forall in HF. specialize (HF _ Ht).
  cbn [fst snd] in HF. rewrite Es, Et in HF. specialize (HF eq_refl). rewrite Forall_forall in HF. exact (HF table Hin Hin').
Qed.

Definition in_section (section : pystr) (sf : pystr * pydict) : bool :=
  bool_decide (stream_section sf.1 = Ok section).

(** Grouping collects, for each section, its contributions in order. *)
Lemma group_sections_get fragments acc out section :
  group_sections fragments acc = Ok out →
  default [] (dict_get out section) = default [] (dict_get acc section) ++ List.filter (in_section section) fragments.
Proof.
  revert acc. induction fragments as [|[s f] l IH]; intros acc; cbn [group_sections List.filter].
  - intros [= ->]. by rewrite app_nil_r.
  - intros (sec & Hsec & H)%bind_Ok. apply IH in H. rewrite H.
    destruct (decide (section = sec)) as [->|Hne].
    + assert (in_section sec (s, f) = true) as -> by by apply bool_decide_eq_true_2.
      rewrite dict_get_set_eq. simpl. by rewrite <-app_assoc.
    + assert (in_section section (s, f) = false) as ->
        by (apply bool_decide_eq_false_2; cbn [fst]; congruence).
      by rewrite dict_get_set_ne.
Qed.

Lemma group_sections_NoDup fragments acc out :
  group_sections fragments acc = Ok out → NoDup (dict_keys acc) → NoDup (dict_keys out).
Proof.
  revert acc. induction fragments as [|[s f] l IH]; intros acc; cbn [group_sections]; [by intros [= ->]|].
  intros (sec & _ & H)%bind_Ok HN. apply (IH _ H). by apply dict_set_NoDup.
Qed.

Lemma group_sections_covers fragments acc out s f :
  group_sections fragments acc = Ok out → (s, f) ∈ fragments → ∃ section, stream_section s = Ok section.
Proof.
  revert acc. induction fragments as [|[s' f'] l IH]; intros acc; cbn [group_sections]; [by intros _ ?%elem_of_nil|].
  intros (sec & Hsec & H)%bind_Ok [[= -> ->]|Hin]%elem_of_cons; eauto.
Qed.

Definition merged_tables (contributing : list (pystr * pydict)) (body : pydict) : pydict :=
  fold_left (fun body sf => dict_update body (fragment_tables sf.2)) contributing body.

(** In a body merged from disjoint fragments, a table is found exactly where its owner put it. *)
Lemma merged_tables_get contributing body table :
  NoDup (dict_keys contributing) → Forall (fun sf => NoDup (dict_keys sf.2)) contributing →
  (∀ s f s' f', (s, f) ∈ contributing → (s', f') ∈ contributing →
     table ∈ dict_keys (fragment_tables f) → table ∈ dict_keys (fragment_tables f') → s = s') →
  (∀ s f, (s, f) ∈ contributing → table ∈ dict_keys (fragment_tables f) → dict_get body table = None) →
  ∀ v, dict_get (merged_tables contributing body) table = Some v ↔
    dict_get body table = Some v ∨ ∃ s f, (s, f) ∈ contributing ∧ dict_get (fragment_tables f) table = Some v.
Proof.
  revert body. induction contributing as [|[s f] l IH]; intros body HN HF Hdis Hb v; cbn [merged_tables fold_left].
  { split; [by left|]. intros [?|(? & ? & ?%elem_of_nil & _)]; done. }
  apply NoDup_cons in HN as [Hs_new HN]. apply Forall_cons in HF as [Hf HF]. cbn [fst snd] in *.
  pose proof (fragment_tables_NoDup _ Hf) as HfN.
  assert (∀ s' f', (s', f') ∈ l → table ∈ dict_keys (fragment_tables f') →
            dict_get (fragment_tables f) table = None) as Hf_none.
  { intros s' f' Hin Ht'. apply eq_None_not_Some. rewrite dict_get_in_keys. intros Ht. apply Hs_new.
    assert (s = s') as -> by (apply (Hdis s f s' f'); [apply list_elem_of_here|by apply list_elem_of_further|done..]).
    apply list_elem_of_fmap. exists (s', f'). split; [reflexivity|exact Hin]. }
  fold (merged_tables l (dict_update body (fragment_tables f))). rewrite IH; [|done|done| |].
  - rewrite dict_get_update by done. setoid_rewrite elem_of_cons.
    destruct (dict_get (fragment_tables f) table) as [w|] eqn:E.
    + split.
      * intros [[= ->]|(s' & f' & ? & ?)]; right; eauto 10.
      * intros [Hbv|(s' & f' & [[= -> ->]|Hin] & Hv)]; [|left; congruence|right; eauto].
        exfalso. rewrite (Hb s f) in Hbv; [done|apply list_elem_of_here|apply dict_get_in_keys; eauto].
    + split; [naive_solver|]. intros [?|(s' & f' & [[= -> ->]|Hin] & Hv)]; [by left|congruence|right; eauto].
  - intros s1 f1 s2 f2 H1 H2. apply (Hdis s1 f1 s2 f2); by apply list_elem_of_further.
  - intros s' f' Hin Ht'. rewrite dict_get_update, (Hf_none s' f') by done.
    eapply (Hb s' f'); [by apply list_elem_of_further|done].
Qed.

Lemma contributions_in fragments section sf :
  sf ∈ List.filter (in_section section) (stable_sort stream_le fragments) ↔
  sf ∈ fragments ∧ stream_section sf.1 = Ok section.
Proof.
  rewrite list_elem_of_In, filter_In, <-list_elem_of_In, elem_of_stable_sort.
  unfold in_section. by rewrite bool_decide_eq_true.
Qed.

Lemma filter_keys_NoDup {V} (p : pystr * V -> bool) l : NoDup (dict_keys l) → NoDup (dict_keys (List.filter p l)).
Proof.
  unfold dict_keys. induction l as [|x l IH]; [done|]. cbn [map List.filter]. intros [Hx HN]%NoDup_cons.
  destruct (p x); [|auto]. cbn [map]. apply NoDup_cons. split; [|auto]. intros Hin. apply Hx.
  apply list_elem_of_In, in_map_iff in Hin as (y & Hy & [Hin _]%filter_In).
  apply list_elem_of_In, in_map_iff. eauto.
Qed.

Lemma section_body_get fragments section body table rows :
  owned_fragments fragments → table ≠ EXECUTION_KEY →
  section_body section (List.filter (in_section section) (stable_sort stream_le fragments)) = Ok body →
  dict_get body table = Some rows ↔
  ∃ s f, ((s, f) ∈ fragments ∧ stream_section s = Ok section) ∧ dict_get (fragment_tables f) table = Some rows.
Proof.
  intros [HN Ho] Hne Hb. unfold section_body in Hb. apply bind_Ok in Hb as (ex & _ & [= <-]).
  rewrite dict_get_set_ne by done. rewrite Forall_forall in Ho.
  change (fold_left _ ?l []) with (merged_tables l []). rewrite merged_tables_get.
  - setoid_rewrite contributions_in. cbn [fst]. split; [intros [[=]|H]; exact H|intros H; right; exact H].
  - apply filter_keys_NoDup. unfold dict_keys. by rewrite (stable_sort_perm stream_le fragments).
  - apply Forall_forall. intros sf [Hsf _]%contributions_in. by destruct (Ho _ Hsf).
  - intros s f s' f' [H1 K1]%contributions_in [H2 K2]%contributions_in T1 T2.
    destruct (Ho _ H1) as [_ O1], (Ho _ H2) as [_ O2].
    exact (stream_tables_disjoint s s' section table K1 K2 (O1 _ T1) (O2 _ T2)).
  - done.
Qed.

Lemma map_res_sections contributions doc section :
  map_res (fun sc => body ← section_body sc.1 sc.2; Ok (sc.1, JObj body)) contributions = Ok doc →
  match dict_get contributions section with
  | Some contributing => ∃ body, section_body section contributing = Ok body ∧ dict_get doc section = Some (JObj body)
  | None => dict_get doc section = None
  end.
Proof.
  revert doc. induction contributions as [|[sec cs] l IH]; intros doc; cbn [map_res]; [by intros [= <-]|].
  intros (e & (body & Hb & [= <-])%bind_Ok & (doc' & Hdoc & [= <-])%bind_Ok)%bind_Ok. cbn [fst snd] in *.
  cbn [dict_get]. destruct (decide (section = sec)) as [->|]; [eauto|by apply IH].
Qed.

Lemma compose_document_section fragments doc section :
  compose_document fragments = Ok doc →
  let contributing := List.filter (in_section section) (stable_sort stream_le fragments) in
  (contributing ≠ [] → ∃ body, dict_get doc section = Some (JObj body)) ∧
  (∀ body, dict_get doc section = Some (JObj body) → section_body section contributing = Ok body).
Proof.
  intros (cs & Hg & Hm)%bind_Ok. cbv zeta. pose proof (map_res_sections _ _ section Hm) as Hsec.
  pose proof (group_sections_get _ _ _ section Hg) as Hget. cbn [dict_get default app] in Hget.
  destruct (dict_get cs section) as [contributing|]; cbn in Hget; subst.
  - destruct Hsec as (body & Hb & Hd). split; [intros _; exists body; assumption|].
    intros body' Hd'. rewrite Hd in Hd'. injection Hd' as <-. assumption.
  - split; [intros Hne; destruct (Hne (eq_sym Hget))|]. intros body Hd. rewrite Hsec in Hd. discriminate Hd.
Qed.

(** a composed document is complete and exact.  For fragments whose tables their streams own,
    every table of every stream's fragment is carried, unchanged, by the section of that stream (a
    lane never overwrites or drops its sibling's tables), and every table of every section comes from
    the fragment of a stream of that section. *)
Theorem compose_document_exact fragments doc :
  owned_fragments fragments → compose_document fragments = Ok doc →
  (∀ stream fragment table rows,
     (stream, fragment) ∈ fragments → dict_get (fragment_tables fragment) table = Some rows →
     ∃ section body, stream_section stream = Ok section ∧ dict_get doc section = Some (JObj body) ∧
       dict_get body table = Some rows) ∧
  (∀ section body table rows,
     dict_get doc section = Some (JObj body) → table ≠ EXECUTION_KEY → dict_get body table = Some rows →
     ∃ stream fragment, (stream, fragment) ∈ fragments ∧ stream_section stream = Ok section ∧
       dict_get (fragment_tables fragment) table = Some rows).
Proof.
  intros Ho Hc. split.
  - intros stream fragment table rows Hin Hrows. pose proof Hc as Hc'. apply bind_Ok in Hc' as (cs & Hg & _).
    destruct (group_sections_covers _ _ _ stream fragment Hg) as [section Hsec]; [by rewrite elem_of_stable_sort|].
    assert (table ≠ EXECUTION_KEY) as Hne.
    { intros ->. apply (fragment_tables_execution fragment), dict_get_in_keys. eauto. }
    assert ((stream, fragment) ∈ List.filter (in_section section) (stable_sort stream_le fragments)) as Hcon
      by (apply contributions_in; split; assumption).
    destruct (compose_document_section fragments doc section Hc) as [Hex Hsb].
    destruct Hex as [body Hd]; [intros E; rewrite E in Hcon; apply elem_of_nil in Hcon; destruct Hcon|].
    exists section, body. split_and!; [assumption..|].
    apply (section_body_get fragments section body table rows Ho Hne (Hsb _ Hd)).
    exists stream, fragment. split_and!; assumption.
  - intros section body table rows Hd Hne Hrows.
    destruct (compose_document_section fragments doc section Hc) as [_ Hsb].
    apply (section_body_get _ _ _ _ _ Ho Hne (Hsb _ Hd)) in Hrows as (s & f & [? ?] & ?).
    exists s, f. split_and!; assumption.
Qed.

(** ** A concrete document: both interface lanes and a VLAN lane *)

Definition sample_execution : json :=
  JObj [("context", JObj [("ned_id", JStr "timos-nc-23.10"); ("dialect", JStr "nokia_timos")])].
Definition sample_fragments : list (pystr * pydict) :=
  [("vlan", [("vlan_intent", JArr [JObj [("id", JInt 7); ("vlan_id", JInt 100)]]); (EXECUTION_KEY, sample_execution)]);
   ("ip", [("interface_ip_intent", JArr [JObj [("id", JInt 3); ("address", JStr "192.0.2.1/24")]]);
           (EXECUTION_KEY, sample_execution)]);
   ("interface_config", [("interface_intent", JArr [JObj [("id", JInt 4); ("attribute", JStr "description")]]);
                         (EXECUTION_KEY, sample_execution)])].

Definition sample_document : pydict :=
  Eval vm_compute in match compose_document sample_fragments with Ok d => d | Raise _ => [] end.

Lemma sample_owned : owned_fragments sample_fragments.
Proof.
  split; [decide_vm|]. unfold sample_fragments, owned_fragment.
  do 3 (apply Forall_cons; split; [split; [decide_vm|apply Forall_forall; decide_vm]|]). apply Forall_nil. exact I.
Qed.

Lemma compose_document_exact_witness :
  compose_document sample_fragments = Ok sample_document ∧
  ∃ section body, stream_section "ip" = Ok section ∧ dict_get sample_document section = Some (JObj body) ∧
    dict_get body "interface_ip_intent" = Some (JArr [JObj [("id", JInt 3); ("address", JStr "192.0.2.1/24")]]).
Proof.
  assert (compose_document sample_fragments = Ok sample_document) as Hc by (vm_compute; reflexivity).
  split; [exact Hc|].
  apply (proj1 (compose_document_exact sample_fragments sample_document sample_owned Hc) "ip"
    [("interface_ip_intent", JArr [JObj [("id", JInt 3); ("address", JStr "192.0.2.1/24")]]);
     (EXECUTION_KEY, sample_execution)]); [decide_vm|vm_compute; reflexivity].
Defined.
