(* ===== verification/Asn.v ===== *)
(** * AS numbers

    src/nso_adapter/domain/asn.py: the uint32 AS numbers behind the asplain and asdot spellings, the canonical identities of the
    rows that carry them, and the refusal of a table in which one AS number is spelled in two ways; with [ned_family] of
    src/nso_adapter/nso/neds.py.  A row is a decoded JSON object.  An [AsnRuleViolation] keeps its table and field. *)

From stdpp Require Import base list.
From Stdlib Require Import ZArith NArith Lia.
From Stdlib Require DecimalN DecimalFacts.
From S2P Require Import Prelude Json Text Document.
Local Open Scope py_scope.
Local Open Scope N_scope.

(** ** NED families *)

Definition NED_FAMILY_MAP : list (pystr * pystr) :=
  [("cisco-ios-cli", "ios"); ("cisco-iosxr-cli", "iosxr"); ("cisco-nx-cli", "nxos"); ("juniper-junos-nc", "junos");
   ("juniper-junos-evo-nc", "junos"); ("timos-nc", "timos")].
Definition ned_family (ned_id : pystr) : option pystr :=
  snd <$> List.find (fun '(prefix, _) => chars_prefix (py_chars prefix) (py_chars ned_id)) NED_FAMILY_MAP.
Definition SOURCE_WITHOUT_AS_FAMILIES : list pystr := ["junos"; "timos"].

(** ** AS numbers *)

(** [p.isascii() and p.isdecimal() and (p == '0' or not p.startswith('0'))] *)
Definition canonical_part (p : list N) : bool :=
  match p with
  | [] => false
  | c :: rest => forallb is_digit_char p && (negb (c =? 48) || match rest with [] => true | _ => false end)
  end.

Definition not_an_asn : exc := ValueError "BGP ASN is not a valid uint32 AS number".

Definition uint32_max : N := 4294967295.
Definition uint16_max : N := 65535.

(** [str(asn)]; an integer of more than 4300 digits has no decimal text *)
Definition asn_text (asn : json) : res (list N) :=
  match asn with
  | JStr s => Ok (py_chars s)
  | JInt z => if (length (uint_chars (N.to_uint (Z.abs_N z))) <=? int_max_str_digits)%nat then Ok (dump_int z)
              else Raise (ValueError "Exceeds the limit (4300 digits) for integer string conversion")
  | _ => Raise not_an_asn
  end.

(** [parse_asn] *)
Definition parse_asn (asn : json) : res N :=
  t ← asn_text asn;
  let parts := split_on 46 t in
  if ((length parts =? 1)%nat || (length parts =? 2)%nat) && forallb canonical_part parts then
    let limit := if (length parts =? 1)%nat then uint32_max else uint16_max in
    match map_res int_of_digits parts with
    | Raise _ => Raise not_an_asn
    | Ok values =>
        if forallb (fun v => v <=? limit) values then
          match values with [v] => Ok v | [hi; lo] => Ok (hi * 65536 + lo) | _ => Raise not_an_asn end
        else Raise not_an_asn
    end
  else Raise not_an_asn.

(** [checked_asn]: a [ValueError] becomes a refusal that names the row's table and field *)
Definition checked_asn (value : json) (table field : pystr) : res N :=
  match parse_asn value with
  | Raise (ValueError _) => Raise (AsnRuleViolation table field)
  | r => r
  end.

Definition str_of (n : N) : pystr := PStr (decimal n).
Definition is_str (v : json) (s : pystr) : bool := py_eq v (JStr s).
Definition get_or (row : pydict) (k : pystr) (d : json) : json := default d (dict_get row k).
Definition get (row : pydict) (k : pystr) : json := get_or row k JNull.

(** [redistribution_source_identity] *)
Definition redistribution_source_identity (protocol reference : pystr) : res pystr :=
  if bool_decide (protocol = "bgp") && negb (bool_decide (reference = "")) then
    n ← parse_asn (JStr reference); Ok (str_of n)
  else Ok reference.

(** [redistribution_source_protocol] *)
Definition redistribution_source_protocol (v : json) : json :=
  match v with JStr s => JStr (PStr (strip (py_chars s))) | _ => v end.

(** [checked_device_source_ref] *)
Definition checked_device_source_ref (value : json) (table field : pystr) : res pystr :=
  if is_str value "" then Ok "" else n ← checked_asn value table field; Ok (str_of n).

(** [checked_intent_source_ref] *)
Definition checked_intent_source_ref (value : json) (ned_id : option pystr) : res pystr :=
  if is_str value "" then
    match ned_family (default "" ned_id) with
    | Some f => if existsb (fun x => bool_decide (x = f)) SOURCE_WITHOUT_AS_FAMILIES then Ok "" else Raise BgpSourceAsRequired
    | None => Raise BgpSourceAsRequired
    end
  else n ← checked_asn value "redistribution_intent" "source_ref"; Ok (str_of n).

(** ** Row identities *)

(** A component of an identity tuple: a value of the row, or the tuple a BGP destination is split into. *)
Inductive id_part := IdVal (v : json) | IdDest (asn : N) (rest : list (list N)).
Definition identity := list id_part.

Definition part_eqb (a b : id_part) : bool :=
  match a, b with
  | IdVal v, IdVal w => py_eq v w
  | IdDest n r, IdDest m s => (n =? m) && bool_decide (r = s)
  | _, _ => false
  end.
Fixpoint identity_eqb (a b : identity) : bool :=
  match a, b with
  | [], [] => true
  | x :: a, y :: b => part_eqb x y && identity_eqb a b
  | _, _ => false
  end.
Definition hashable_part (a : id_part) : bool := match a with IdVal (JArr _) | IdVal (JObj _) => false | _ => true end.

Definition one_of (table : pystr) (l : list pystr) : bool := existsb (fun x => bool_decide (x = table)) l.

(** [if row.get(field) is not None: checked_asn(row[field], ...)] *)
Definition check_optional_asn (table : pystr) (row : pydict) (field : pystr) : res unit :=
  match get row field with JNull => Ok tt | v => _ ← checked_asn v table field; Ok tt end.

(** The canonical destination of a redistribution row. *)
Definition destination_identity (table : pystr) (row : pydict) : res id_part :=
  let destination := get_or row "dest_ref" (JStr "") in
  if is_str (get row "dest_protocol") "bgp" then
    match destination with
    | JStr s =>
        let intent := bool_decide (table = "redistribution_intent") in
        let parts := split_max (if intent then 58 else 47) 2 (py_chars s) in
        if (length parts =? 3)%nat || (negb intent && (length parts =? 2)%nat) then
          n ← checked_asn (JStr (PStr (default [] (head parts)))) table "dest_ref"; Ok (IdDest n (tail parts))
        else Raise (AsnRuleViolation table "dest_ref")
    | _ => Raise (AttributeError "split")
    end
  else Ok (IdVal destination).

(** The canonical source of a redistribution row. *)
Definition source_identity (table : pystr) (row : pydict) : res id_part :=
  let source := get_or row "source_ref" (JStr "") in
  if is_str (get row "source_protocol") "bgp" then
    if bool_decide (table = "device_redistribution") then
      s ← checked_device_source_ref source table "source_ref"; Ok (IdVal (JStr s))
    else if negb (is_str source "") then
      n ← checked_asn source table "source_ref"; Ok (IdVal (JInt (Z.of_N n)))
    else Ok (IdVal source)
  else Ok (IdVal source).

(** [asn_row_identity] *)
Definition asn_row_identity (table : pystr) (row : pydict) : res (option identity) :=
  if one_of table ["bgp_router_intent"; "device_bgp_router"] then
    n ← checked_asn (get row "asn") table "asn"; Ok (Some [IdVal (JInt (Z.of_N n))])
  else
    _ ← (if one_of table ["bgp_peer_intent"; "device_bgp_peer"; "device_bgp_peer_group"] then
           _ ← check_optional_asn table row "remote_as"; check_optional_asn table row "local_as"
         else Ok tt);
    if one_of table ["redistribution_intent"; "device_redistribution"] then
      destination ← destination_identity table row;
      source ← source_identity table row;
      Ok (Some [IdVal (get row "dest_protocol"); destination; IdVal (get row "source_protocol"); source])
    else Ok None.

(** ** Tables *)

Inductive ned_context := NO_NED_CONTEXT | NedContext (ned_id : json).

(** The source rule of one row, where the caller names the device's NED. *)
Definition check_source_rule (table : pystr) (ned : ned_context) (row : pydict) : res unit :=
  match ned with
  | NO_NED_CONTEXT => Ok tt
  | NedContext v =>
      if bool_decide (table = "redistribution_intent") && is_str (get row "source_protocol") "bgp" then
        ned_id ← match v with JNull => Ok None | JStr s => Ok (Some s) | _ => Raise (TypeError "ned_id must be a string or None") end;
        _ ← checked_intent_source_ref (get_or row "source_ref" (JStr "")) ned_id; Ok tt
      else Ok tt
  end.

Definition same_spelling (previous row : pydict) : bool :=
  forallb (fun f => py_eq (get previous f) (get row f)) ["asn"; "dest_ref"; "source_ref"].

(** The field a collision is reported at. *)
Definition collision_field (previous row : pydict) : res pystr :=
  match dict_get row "asn" with
  | Some _ => Ok "asn"
  | None =>
      match dict_get previous "dest_ref", dict_get row "dest_ref" with
      | Some a, Some b => Ok (if py_eq a b then "source_ref" else "dest_ref")
      | _, _ => Raise KeyError
      end
  end.

Definition seen_row (seen : list (identity * pydict)) (i : identity) : option pydict :=
  snd <$> List.find (fun '(j, _) => identity_eqb i j) seen.

(** [validate_asn_rows] *)
Fixpoint validate_rows_loop (table : pystr) (ned : ned_context) (rows : list pydict) (seen : list (identity * pydict)) : res unit :=
  match rows with
  | [] => Ok tt
  | row :: rows =>
      i ← asn_row_identity table row;
      _ ← check_source_rule table ned row;
      match i with
      | None => validate_rows_loop table ned rows seen
      | Some i =>
          if forallb hashable_part i then
            match seen_row seen i with
            | Some previous =>
                if same_spelling previous row then validate_rows_loop table ned rows seen
                else field ← collision_field previous row; Raise (AsnRuleViolation table field)
            | None => validate_rows_loop table ned rows ((i, row) :: seen)
            end
          else Raise (TypeError "unhashable type")
      end
  end.
Definition validate_asn_rows (table : pystr) (rows : list pydict) (ned : ned_context) : res unit :=
  validate_rows_loop table ned rows [].

(** [validate_source_as_numbers] *)
Fixpoint validate_sources_loop (table : pystr) (entries : list pydict) (seen : list (N * json)) : res unit :=
  match entries with
  | [] => Ok tt
  | entry :: entries =>
      let value := get_or entry "source-ref" (JStr "") in
      if negb (is_str (redistribution_source_protocol (get entry "source-protocol")) "bgp") || is_str value "" then
        validate_sources_loop table entries seen
      else
        n ← checked_asn value table "source-ref";
        match dict_get seen n with
        | Some v => if py_eq v value then validate_sources_loop table entries (dict_set seen n value)
                    else Raise (AsnRuleViolation table "source-ref")
        | None => validate_sources_loop table entries (dict_set seen n value)
        end
  end.
Definition validate_source_as_numbers (entries : list pydict) (table : pystr) : res unit := validate_sources_loop table entries [].

Example asn_samples :
  parse_asn (JStr "64500") = Ok 64500 ∧ parse_asn (JStr "1.0") = Ok 65536 ∧ parse_asn (JInt 4294967295) = Ok 4294967295 ∧
  parse_asn (JStr "4294967296") = Raise not_an_asn ∧ parse_asn (JStr "0.65536") = Raise not_an_asn ∧
  parse_asn (JStr "01") = Raise not_an_asn ∧ parse_asn (JStr "1.2.3") = Raise not_an_asn ∧ parse_asn (JBool true) = Raise not_an_asn ∧
  parse_asn (JInt (-1)) = Raise not_an_asn ∧ parse_asn (JStr "") = Raise not_an_asn.
Proof. vm_compute. split_and!; reflexivity. Qed.

(** ** What a spelling denotes *)

(** RFC 5396: asplain is the decimal text of the number, asdot+ the decimal texts of its two halves. *)
Inductive asn_denotes : json -> N -> Prop :=
| denotes_int n : n <= uint32_max → asn_denotes (JInt (Z.of_N n)) n
| denotes_asplain n : n <= uint32_max → asn_denotes (JStr (PStr (decimal n))) n
| denotes_asdot hi lo : hi <= uint16_max → lo <= uint16_max →
    asn_denotes (JStr (PStr (decimal hi ++ [46] ++ decimal lo))) (hi * 65536 + lo).

Lemma digit_cons_inv c d : is_digit_char c = true → uint_chars (digit_cons c d) = c :: uint_chars d.
Proof.
  unfold is_digit_char. intros [H1%N.leb_le H2%N.leb_le]%andb_true_iff.
  assert (c ∈ [48; 49; 50; 51; 52; 53; 54; 55; 56; 57]) as H by (rewrite !elem_of_cons; lia).
  revert H. rewrite !elem_of_cons, elem_of_nil. intros [->|[->|[->|[->|[->|[->|[->|[->|[->|[->|[]]]]]]]]]]]; reflexivity.
Qed.
Lemma uint_chars_digits_inv p : forallb is_digit_char p = true → uint_chars (foldr digit_cons Decimal.Nil p) = p.
Proof.
  induction p as [|c p IH]; [done|]. cbn [forallb foldr]. intros [H1 H2]%andb_true_iff. by rewrite digit_cons_inv, IH.
Qed.
Lemma uint_chars_inj d e : uint_chars d = uint_chars e → d = e.
Proof. revert e. induction d; intros []; cbn; intros H; try done; f_equal; apply IHd; congruence. Qed.

(** A canonical part is the decimal text of a number, and the other way round. *)
Lemma nzhead_id d : (∀ d', d ≠ Decimal.D0 d') → Decimal.nzhead d = d.
Proof. destruct d; intros H; try done. by destruct (H d). Qed.
Lemma canonical_decimal p : canonical_part p = true → ∃ n, p = decimal n.
Proof.
  destruct p as [|c rest]; [done|]. unfold canonical_part. intros [Hd Hz]%andb_true_iff.
  set (d := foldr digit_cons Decimal.Nil (c :: rest)). assert (uint_chars d = c :: rest) as E by by apply uint_chars_digits_inv.
  exists (N.of_uint d). unfold decimal. rewrite DecimalN.Unsigned.to_of. rewrite <-E. f_equal. clearbody d.
  apply orb_true_iff in Hz as [Hz%negb_true_iff%N.eqb_neq|Hz].
  - unfold Decimal.unorm. rewrite nzhead_id; [by destruct d|]. intros d' ->. cbn in E. congruence.
  - destruct rest; [|done]. destruct d as [|d|d|d|d|d|d|d|d|d|d]; try done; cbn in E; injection E as _ E; by destruct d.
Qed.
Lemma decimal_normal n : Decimal.unorm (N.to_uint n) = N.to_uint n.
Proof. rewrite <-DecimalN.Unsigned.to_of. by rewrite DecimalN.Unsigned.of_to. Qed.
Lemma nzhead_head d : ∀ d', Decimal.nzhead d ≠ Decimal.D0 d'.
Proof. induction d; cbn; intros d'; done. Qed.
Lemma decimal_canonical n : canonical_part (decimal n) = true.
Proof.
  unfold decimal. pose proof (uint_chars_digits (N.to_uint n)) as Hd. pose proof (decimal_normal n) as Hn. revert Hd Hn.
  generalize (N.to_uint n). intros d Hd Hn. pose proof (nzhead_head d) as Hz. unfold Decimal.unorm in Hn.
  destruct (Decimal.nzhead d) as [|d'|d'|d'|d'|d'|d'|d'|d'|d'|d'] eqn:E; [by subst d|by destruct (Hz d')|..]; subst d;
    unfold canonical_part; cbn [uint_chars] in Hd |- *; by rewrite Hd.
Qed.

(** *** Lengths *)

Lemma fold_digits_lower ds a : a * 10 ^ N.of_nat (length ds) <= fold_left (fun a d => 10 * a + d) ds a.
Proof.
  revert a. induction ds as [|d ds IH]; intros a; cbn [fold_left length]; [cbn; lia|].
  etransitivity; [|apply IH]. rewrite Nat2N.inj_succ, N.pow_succ_r'. nia.
Qed.
Lemma decimal_length n k : n < 10 ^ N.of_nat k → (0 < k)%nat → (length (decimal n) <= k)%nat.
Proof.
  intros Hn Hk. destruct (decimal_denotes n) as (ds & Hm & Hv). pose proof (decimal_canonical n) as Hc.
  pose proof (length_mapM _ _ _ Hm) as Hl. destruct (decimal n) as [|c rest]; [done|]. unfold canonical_part in Hc.
  apply andb_true_iff in Hc as [Hd Hz]. cbn [forallb] in Hd. apply andb_true_iff in Hd as [Hd _].
  destruct rest as [|c' rest]; [cbn; lia|]. apply orb_true_iff in Hz as [Hz%negb_true_iff%N.eqb_neq|]; [|done].
  destruct ds as [|d ds]; [done|]. cbn [mapM] in Hm. apply bind_Some in Hm as (x & Hx & Hm). apply bind_Some in Hm as (ys & _ & Hm).
  assert (x = d) as -> by (unfold mret, option_ret in Hm; congruence). clear Hm.
  assert (0 < d) as Hpos.
  { unfold is_digit_char in Hd. apply andb_true_iff in Hd as [H1%N.leb_le H2%N.leb_le]. unfold decimal_value in Hx. cbn [DECIMAL_ZEROS List.find] in Hx.
    rewrite (proj2 (N.leb_le 48 c)), (proj2 (N.leb_le c (48 + 9))) in Hx by lia. cbn in Hx.
    assert (d = c - 48) as -> by congruence. lia. }
  pose proof (fold_digits_lower ds d) as Hlow. unfold of_digits in Hv. cbn [fold_left] in Hv.
  replace (10 * 0 + d) with d in Hv by lia. rewrite Hv in Hlow.
  assert (N.of_nat (length ds) < N.of_nat k) as H; [|cbn [length] in *; lia].
  apply (N.pow_lt_mono_r_iff 10); [lia|]. nia.
Qed.
Lemma uint32_digits n : n <= uint32_max → (length (decimal n) <= int_max_str_digits)%nat.
Proof. intros H. etransitivity; [apply (decimal_length n 10); [unfold uint32_max in H; cbn; lia|lia]|]. unfold int_max_str_digits. lia. Qed.

(** *** The parser and the denotation *)

Lemma int_of_canonical n limit : limit <= uint32_max →
  match int_of_digits (decimal n) with Ok v => v = n | Raise _ => limit < n end.
Proof.
  intros Hl. destruct (Nat.le_gt_cases (length (decimal n)) int_max_str_digits) as [H|H].
  - by rewrite int_of_decimal.
  - unfold int_of_digits. rewrite (proj2 (Nat.leb_gt _ _)) by done. destruct (N.le_gt_cases n limit) as [Hn|]; [|done].
    pose proof (uint32_digits n). lia.
Qed.

Lemma decimal_lacks_dot n : lacks 46 (decimal n) = true.
Proof. apply (lacks_impl is_digit_char); [done|]. apply uint_chars_digits. Qed.

(** The parser on the text of a spelling. *)
Definition parse_text (t : list N) : res N := parse_asn (JStr (PStr t)).

Lemma parse_asplain n : parse_text (decimal n) = if n <=? uint32_max then Ok n else Raise not_an_asn.
Proof.
  unfold parse_text, parse_asn. cbn [asn_text py_chars]. unfold mbind at 1, res_bind at 1.
  rewrite split_on_lacks by apply decimal_lacks_dot. cbv zeta. cbn [length Nat.eqb orb forallb]. rewrite decimal_canonical. cbn [andb map_res].
  pose proof (int_of_canonical n uint32_max ltac:(done)) as H. destruct (int_of_digits (decimal n)) as [v|e]; unfold_res.
  - subst v. cbn [forallb]. rewrite andb_true_r. by destruct (n <=? uint32_max).
  - by rewrite (proj2 (N.leb_gt _ _)).
Qed.

Lemma parse_asdot hi lo : parse_text (decimal hi ++ [46] ++ decimal lo) =
  if (hi <=? uint16_max) && (lo <=? uint16_max) then Ok (hi * 65536 + lo) else Raise not_an_asn.
Proof.
  unfold parse_text, parse_asn. cbn [asn_text py_chars]. unfold mbind at 1, res_bind at 1. cbn [app].
  rewrite split_on_app by apply decimal_lacks_dot. rewrite split_on_lacks by apply decimal_lacks_dot.
  cbv zeta. cbn [length Nat.eqb orb forallb]. rewrite !decimal_canonical. cbn [andb map_res].
  pose proof (int_of_canonical hi uint16_max ltac:(done)) as H1. pose proof (int_of_canonical lo uint16_max ltac:(done)) as H2.
  destruct (int_of_digits (decimal hi)) as [v|e]; unfold_res; [|by rewrite (proj2 (N.leb_gt _ _))].
  destruct (int_of_digits (decimal lo)) as [w|e]; unfold_res; [|by rewrite (proj2 (N.leb_gt lo _)), andb_false_r].
  subst. cbn [forallb]. rewrite andb_true_r. by destruct ((hi <=? uint16_max) && (lo <=? uint16_max)).
Qed.

(** An accepted text is one of the two spellings. *)
Lemma parse_text_shape t n : parse_text t = Ok n → (∃ m, t = decimal m) ∨ (∃ hi lo, t = decimal hi ++ [46] ++ decimal lo).
Proof.
  unfold parse_text, parse_asn. cbn [asn_text py_chars]. unfold mbind at 1, res_bind at 1. cbv zeta.
  pose proof (join_split 46 t) as J. destruct (split_on 46 t) as [|a [|b [|? ?]]]; cbn [length Nat.eqb orb andb]; try done.
  - cbn [forallb]. destruct (canonical_part a) eqn:Ea; [|done]. intros _. left. apply canonical_decimal in Ea as [m ->]. exists m. by rewrite <-J.
  - cbn [forallb]. destruct (canonical_part a) eqn:Ea; [|done]. destruct (canonical_part b) eqn:Eb; [|done]. intros _. right.
    apply canonical_decimal in Ea as [hi ->]. apply canonical_decimal in Eb as [lo ->]. exists hi, lo. by rewrite <-J.
Qed.

Lemma parse_int z : parse_asn (JInt z) = Ok (Z.to_N z) ∧ (0 <= z <= Z.of_N uint32_max)%Z ∨ (∃ e, parse_asn (JInt z) = Raise e) ∧ ¬ (0 <= z <= Z.of_N uint32_max)%Z.
Proof.
  destruct (Z.ltb_spec z 0) as [Hz|Hz].
  - right. split; [|lia]. unfold parse_asn. cbn [asn_text]. case_match; [|by eexists]. unfold mbind at 1, res_bind at 1.
    unfold dump_int. rewrite (proj2 (Z.ltb_lt _ _)) by done. cbv zeta. cbn [app].
    assert (∃ r ps, split_on 46 (45 :: uint_chars (N.to_uint (Z.abs_N z))) = (45 :: r) :: ps) as (r & ps & ->).
    { cbn [split_on]. change (45 =? 46) with false. cbn match. destruct (split_on 46 _) eqn:E; [by apply split_on_nonempty in E|]. eauto. }
    cbn [forallb canonical_part]. change (is_digit_char 45) with false. cbn [andb]. rewrite andb_false_r. by eexists.
  - assert (parse_asn (JInt z) = parse_text (decimal (Z.to_N z)) ∨ ∃ e, parse_asn (JInt z) = Raise e ∧ uint32_max < Z.to_N z) as [->|(e & -> & H)].
    { unfold parse_text, parse_asn, decimal. cbn [asn_text py_chars]. unfold dump_int. rewrite (proj2 (Z.ltb_ge _ _)) by done.
      replace (Z.abs_N z) with (Z.to_N z) by lia. cbn [app]. case_match eqn:E; [by left|]. right. eexists. split; [done|].
      apply Nat.leb_gt in E. destruct (N.le_gt_cases (Z.to_N z) uint32_max) as [Hn%uint32_digits|]; [|done]. unfold decimal in Hn. lia. }
    + rewrite parse_asplain. destruct (N.leb_spec (Z.to_N z) uint32_max); [left|right]; (split; [eauto|unfold uint32_max in *; lia]).
    + right. split; [eauto|]. lia.
Qed.

(** C27: The AS number parser agrees with RFC 5396.  [parse_asn] returns [n] exactly on the spellings that denote [n]: the integer itself
    within uint32, its decimal text without leading zeros, or the decimal texts of its 16-bit halves joined by a dot; every
    other value - a boolean, a third part, a leading zero, a half above 65535, thousands of digits - is a [ValueError]. *)
Theorem parse_asn_denotes v :
  (∀ n, parse_asn v = Ok n ↔ asn_denotes v n) ∧ (∀ e, parse_asn v = Raise e → ∃ m, e = ValueError m).
Proof.
  split.
  - intros n. split.
    + destruct v as [|b|z|l|[t]|l|l]; try done.
      * destruct (parse_int z) as [[-> Hz]|[[e ->] _]]; [|done]. intros [= <-]. replace z with (Z.of_N (Z.to_N z)) at 1 by lia.
        constructor. lia.
      * change (parse_text t = Ok n → asn_denotes (JStr (PStr t)) n). intros H.
        destruct (parse_text_shape t n H) as [[m ->]|(hi & lo & ->)]; revert H.
        -- rewrite parse_asplain. destruct (N.leb_spec m uint32_max); [|done]. intros [= <-]. by constructor.
        -- rewrite parse_asdot. destruct (N.leb_spec hi uint16_max), (N.leb_spec lo uint16_max); try done. intros [= <-]. by constructor.
    + destruct 1 as [n H|n H|hi lo H1 H2].
      * destruct (parse_int (Z.of_N n)) as [[-> _]|[_ Hn]]; [f_equal; lia|]. unfold uint32_max in *. lia.
      * change (parse_text (decimal n) = Ok n). rewrite parse_asplain. by apply N.leb_le in H as ->.
      * change (parse_text (decimal hi ++ [46] ++ decimal lo) = Ok (hi * 65536 + lo)). rewrite parse_asdot.
        apply N.leb_le in H1 as ->. by apply N.leb_le in H2 as ->.
  - intros e. unfold parse_asn. destruct (asn_text v) as [t|e'] eqn:E; unfold_res.
    + cbv zeta. repeat case_match; intros [= <-]; by eexists.
    + intros [= <-]. destruct v; cbn [asn_text] in E; repeat case_match; simplify_eq; by eexists.
Qed.

Lemma parse_asn_denotes_witness : asn_denotes (JStr "65000.7") 4259840007 ∧ (∀ n, ¬ asn_denotes (JStr "065000") n).
Proof.
  split; [apply (proj1 (parse_asn_denotes (JStr "65000.7"))); vm_compute; reflexivity|].
  intros n H. apply (proj1 (parse_asn_denotes (JStr "065000"))) in H. vm_compute in H. discriminate.
Defined.
