(* ===== verification/Identity.v ===== *)
(** * Durable row identities

    src/nso_adapter/core/projection.py: the logical identity of a projection row ([_row_identity], [_identity_indexes],
    [rows_by_intent_identity]) and the state its renderer consumes ([projection_row_state], with [static_route_entry] of
    nso/apply.py).  A fragment's tables are decoded first: [tables] maps a table name to its rows. *)

From stdpp Require Import base list.
From Stdlib Require Import ZArith NArith Lia.
From S2P Require Import Prelude Json Text Dialect Registry Document Asn.

Local Open Scope py_scope.

(** ** Tables *)

Definition tables : Type := list (pystr * list pydict).

Definition as_row (v : json) : res pydict := match v with JObj row => Ok row | _ => Raise (AttributeError "get") end.
(** Iterating a table: an empty string or object has no rows, any other element is no row. *)
Definition rows_of (v : json) : res (list pydict) :=
  match v with
  | JArr l => map_res as_row l
  | JStr s => if py_truthy s then Raise (AttributeError "get") else Ok []
  | JObj l => match l with [] => Ok [] | _ => Raise (AttributeError "get") end
  | _ => Raise (TypeError "not iterable")
  end.
Definition tables_of (fragment : pydict) : res tables :=
  map_res (fun kv => rows ← rows_of kv.2; Ok (kv.1, rows)) (fragment_tables fragment).
Definition table_rows (t : tables) (table : pystr) : list pydict := default [] (dict_get t table).

(** A dictionary whose keys compare by a given equality. *)
Section Assoc.
Context {K V : Type} (eqb : K -> K -> bool).
Fixpoint assoc_get (l : list (K * V)) (k : K) : option V :=
  match l with [] => None | (k', v) :: l => if eqb k k' then Some v else assoc_get l k end.
Fixpoint assoc_set (l : list (K * V)) (k : K) (v : V) : list (K * V) :=
  match l with
  | [] => [(k, v)]
  | (k', v') :: l => if eqb k k' then (k', v) :: l else (k', v') :: assoc_set l k v
  end.
End Assoc.

Definition scalar (v : json) : bool := match v with JArr _ | JObj _ => false | _ => true end.
Definition unhashable : exc := TypeError "unhashable type".

(** ** The identity of one row *)

Definition ids_by_model : Type := list (pystr * list (json * identity)).

(** The identity of the row's parent, a prefix of its own. *)
Definition parent_identity (s : Spec) (row : pydict) (ids : ids_by_model) : res identity :=
  match sp_parent s with
  | None => Ok []
  | Some parent =>
      fk ← fk_column (sp_model s) parent;
      let parent_id := get row fk in
      match dict_get spec_by_model parent with
      | None => Ok [IdVal parent_id]
      | Some _ =>
          if scalar parent_id then
            match assoc_get py_eq (default [] (dict_get ids parent)) parent_id with
            | Some found => Ok found
            | None => Raise (RuntimeError (tablename (sp_model s) +:+ " row references missing " +:+ tablename parent))
            end
          else Raise unhashable
      end
  end.

(** [values[fields.index(name)] = v] *)
Fixpoint replace_field (fields : list pystr) (name : pystr) (v : id_part) (values : identity) : res identity :=
  match fields, values with
  | f :: fields, x :: values =>
      if decide (f = name) then Ok (v :: values) else rest ← replace_field fields name v values; Ok (x :: rest)
  | _, _ => Raise (ValueError "is not in tuple")
  end.

Definition part_text (p : id_part) : id_part :=
  match p with IdVal (JInt z) => IdVal (JStr (py_str_int z)) | p => p end.

(** [_row_identity] *)
Definition row_identity (s : Spec) (row : pydict) (ids : ids_by_model) : res identity :=
  prefix ← parent_identity s row ids;
  fields ← identity_fields s;
  let values := map (fun f => IdVal (get row f)) fields in
  canonical ← asn_row_identity (tablename (sp_model s)) row;
  values ←
    if bool_decide (sp_model s = "BgpRouterIntent") then
      match canonical with Some (c :: _) => Ok [part_text c] | _ => Raise (TypeError "canonical identity") end
    else if bool_decide (sp_model s = "RedistributionIntent") then
      match canonical with
      | Some [_; destination; _; source] =>
          values ← replace_field fields "dest_ref" destination values; replace_field fields "source_ref" source values
      | _ => Raise (TypeError "canonical identity")
      end
    else Ok values;
  Ok (prefix ++ values).

(** ** Indexes *)

(** One table's pass of [_identity_indexes]: its rows by identity, and their identities by surrogate id. *)
Fixpoint index_rows (s : Spec) (rows : list pydict) (ids : ids_by_model)
    (indexed : list (identity * pydict)) (by_id : list (json * identity)) :
    res (list (identity * pydict) * list (json * identity)) :=
  match rows with
  | [] => Ok (indexed, by_id)
  | row :: rows =>
      i ← row_identity s row ids;
      if forallb hashable_part i then
        match assoc_get identity_eqb indexed i with
        | Some _ => Raise (RuntimeError (tablename (sp_model s) +:+ " projection contains duplicate durable identity"))
        | None =>
            if scalar (get row "id") then
              index_rows s rows ids (indexed ++ [(i, row)]) (assoc_set py_eq by_id (get row "id") i)
            else Raise unhashable
        end
      else Raise unhashable
  end.

(** [_identity_indexes] *)
Fixpoint identity_indexes (t : tables) (specs : list Spec) (ids : ids_by_model)
    (out : list (pystr * list (identity * pydict))) : res (list (pystr * list (identity * pydict))) :=
  match specs with
  | [] => Ok out
  | s :: specs =>
      let rows := table_rows t (tablename (sp_model s)) in
      _ ← validate_asn_rows (tablename (sp_model s)) rows NO_NED_CONTEXT;
      ib ← index_rows s rows ids [] [];
      identity_indexes t specs (dict_set ids (sp_model s) ib.2) (dict_set out (sp_model s) ib.1)
  end.

(** [_identity_lineage]; the registry has no chain of parents longer than itself *)
Fixpoint lineage_loop (fuel : nat) (s : Spec) (acc : list Spec) : list Spec :=
  match fuel with
  | O => s :: acc
  | S fuel =>
      match sp_parent s with
      | None => s :: acc
      | Some p => match dict_get spec_by_model p with Some parent => lineage_loop fuel parent (s :: acc) | None => s :: acc end
      end
  end.
Definition identity_lineage (s : Spec) : list Spec := lineage_loop (length spec_by_model) s [].

(** [rows_by_intent_identity] *)
Definition rows_by_intent_identity (t : tables) (table : pystr) : res (list (identity * pydict)) :=
  s ← spec_or_refuse table;
  indexes ← identity_indexes t (identity_lineage s) [] [];
  match dict_get indexes (sp_model s) with Some index => Ok index | None => Raise KeyError end.

Definition index_get (index : list (identity * pydict)) (i : identity) : option pydict := assoc_get identity_eqb index i.
Definition index_has (index : list (identity * pydict)) (i : identity) : bool :=
  match index_get index i with Some _ => true | None => false end.

(** [is_intent_deletion] *)
Definition is_intent_deletion (table : pystr) (i : identity) (desired : list (identity * pydict)) : res bool :=
  s ← spec_or_refuse table; Ok (negb (sp_lifecycle s) && negb (index_has desired i)).

(** ** The state a renderer consumes *)

Definition required (row : pydict) (k : pystr) : res json := match dict_get row k with Some v => Ok v | None => Raise KeyError end.
Definition when_true (row : pydict) (field key : pystr) : pydict :=
  let v := get row field in if json_truthy v then [(key, v)] else [].
Definition when_set (row : pydict) (field key : pystr) : pydict :=
  match get row field with JNull => [] | v => [(key, v)] end.

(** [static_route_entry] *)
Definition static_route_entry (row : pydict) : res pydict :=
  vrf ← required row "vrf";
  prefix ← required row "prefix";
  next_hop ← required row "next_hop";
  Ok ([("vrf", vrf); ("prefix", prefix); ("next-hop", next_hop)] ++
      when_true row "interface_next_hop" "interface-next-hop" ++ when_true row "next_hop_vrf" "next-hop-vrf" ++
      when_set row "metric" "metric" ++ when_true row "permanent" "permanent" ++ when_set row "tag" "tag").

Definition APPLY_BOOKKEEPING_COLUMNS : list pystr := ["last_apply_at"; "last_apply_error"; "pending_clear"; "deployed_key"].

(** A canonical component stored in a row's state: a tuple reads as a sequence. *)
Definition part_json (p : id_part) : json :=
  match p with IdVal v => v | IdDest n rest => JArr (JInt (Z.of_N n) :: map (fun s => JStr (PStr s)) rest) end.

Definition canonical_as (table : pystr) (state : pydict) (field : pystr) : res pydict :=
  match get state field with
  | JNull => Ok state
  | v => n ← checked_asn v table field; Ok (dict_set state field (JInt (Z.of_N n)))
  end.

(** [projection_row_state] *)
Definition projection_row_state (table : pystr) (row : pydict) : res pydict :=
  s ← spec_or_refuse table;
  if bool_decide (sp_model s = "StaticRouteIntent") then static_route_entry row
  else
    fk ← match sp_parent s with Some p => fk ← fk_column (sp_model s) p; Ok [fk] | None => Ok [] end;
    let excluded := ["id"; "device_id"; "accepted_at"] ++ APPLY_BOOKKEEPING_COLUMNS ++ fk in
    let state := List.filter (fun kv => negb (mem kv.1 excluded)) row in
    if bool_decide (sp_model s = "BgpRouterIntent") then
      asn ← required state "asn"; n ← checked_asn asn table "asn"; Ok (dict_set state "asn" (JInt (Z.of_N n)))
    else if bool_decide (sp_model s = "BgpPeerIntent") then
      state ← canonical_as table state "remote_as"; canonical_as table state "local_as"
    else if bool_decide (sp_model s = "RedistributionIntent") then
      canonical ← asn_row_identity table row;
      match canonical with
      | Some [_; destination; _; source] =>
          Ok (dict_set (dict_set state "dest_ref" (part_json destination)) "source_ref" (part_json source))
      | _ => Raise (TypeError "canonical identity")
      end
    else Ok state.

(** The lineage loop never runs out of fuel, and every table of the registry has a lineage that starts at a root. *)
Example lineage_closed :
  forallb (fun ms => match identity_lineage ms.2 with
                     | r :: _ => match sp_parent r with None => true | Some p => negb (dict_mem spec_by_model p) end
                     | [] => false end) spec_by_model = true.
Proof. vm_compute. reflexivity. Qed.

(** ** Live rows

    src/nso_adapter/core/projection.py: [snapshot_stream], the rows of one stream's tables that belong to a device.  [live] holds
    the rows of every table as [_row_dict] serializes them, the [devices] and [interfaces] inventories among them; a table
    without a device column is reached through its parents, as [_scope_ids] builds its subquery. *)


Definition is_int (v : json) (z : Z) : bool := match v with JInt n => (n =? z)%Z | _ => false end.
Definition int_of (v : json) : Z := match v with JInt n => n | _ => 0%Z end.

(** [hasattr(model, 'device_id')] *)
Definition device_scoped (model : pystr) : bool :=
  bool_decide (model = "DbInterface") || match table_of model with Some t => dict_mem (tbl_fks t) "device_id" | None => false end.
Definition model_table (model : pystr) : pystr := parent_table model.

(** [_scope_ids]: the ids of a model's rows that belong to the device; [fuel] bounds the chain of parents *)
Fixpoint scope_ids (fuel : nat) (live : tables) (model : pystr) (device_id : Z) : res (list json) :=
  match fuel with
  | O => Raise RecursionError
  | S fuel =>
      let rows := table_rows live (model_table model) in
      if device_scoped model then Ok (map (fun row => get row "id") (List.filter (fun row => is_int (get row "device_id") device_id) rows))
      else match dict_get spec_by_model model with
           | None => Raise KeyError
           | Some s =>
               match sp_parent s with
               | None => Raise (RuntimeError (model +:+ " is neither device-scoped nor parented"))
               | Some parent =>
                   fk ← fk_column model parent;
                   ids ← scope_ids fuel live parent device_id;
                   Ok (map (fun row => get row "id") (List.filter (fun row => existsb (py_eq (get row fk)) ids) rows))
               end
           end
  end.
Definition scope_fuel : nat := length spec_by_model.

Definition id_le (a b : pydict) : bool := (int_of (get a "id") <=? int_of (get b "id"))%Z.

(** [_rows_for] *)
Definition rows_for (live : tables) (device_id : Z) (s : Spec) : res (list pydict) :=
  let rows := table_rows live (tablename (sp_model s)) in
  rows ← match sp_parent s with
         | None => Ok (List.filter (fun row => is_int (get row "device_id") device_id) rows)
         | Some parent =>
             fk ← fk_column (sp_model s) parent;
             ids ← scope_ids scope_fuel live parent device_id;
             Ok (List.filter (fun row => existsb (py_eq (get row fk)) ids) rows)
         end;
  let rows := match sp_discriminator s with
              | Some (field, value) => List.filter (fun row => is_str (get row field) value) rows
              | None => rows
              end in
  Ok (stable_sort id_le rows).

(** [select(Device.ned_id).where(Device.id == device_id)] *)
Definition device_ned (live : tables) (device_id : Z) : json :=
  match List.find (fun row => is_int (get row "id") device_id) (table_rows live "devices") with
  | Some row => get row "ned_id"
  | None => JNull
  end.

Definition validate_tables (ned : ned_context) (t : tables) : res unit :=
  _ ← map_res (fun tr => validate_asn_rows tr.1 tr.2 ned) t; Ok tt.

(** [snapshot_stream] *)
Definition snapshot_stream (live : tables) (device_id : Z) (stream : pystr) : res tables :=
  if mem stream STREAMS then
    specs ← stream_specs;
    match dict_get specs stream with
    | None => Raise KeyError
    | Some ss =>
        t ← map_res (fun s => rows ← rows_for live device_id s; Ok (tablename (sp_model s), rows)) ss;
        let t := dict_of_pairs t in
        _ ← validate_tables (NedContext (device_ned live device_id)) t;
        Ok t
    end
  else Raise (ValueError ("unknown projection stream " +:+ stream)).

(** ** Fragments *)

Definition tables_json (t : tables) : pydict := map (fun tr => (tr.1, JArr (map JObj tr.2))) t.

(** The streams whose fragments carry a proof of their own rows. *)
Definition PROOF_STREAMS : list pystr := ["interface_config"; "ip"; "static_route"].

Section Freeze.
(** The proof of one of [PROOF_STREAMS]: interface eligibility, or the static-route apply plan. *)
Context (stream_proof : tables -> Z -> pystr -> tables -> pydict -> res pydict).

(** [freeze_fragment] on the device's row *)
Definition freeze_fragment (live : tables) (device_id : Z) (stream : pystr) (t : tables) : res pydict :=
  let ned := device_ned live device_id in
  let dialect := dialect_name (community_dialect_for (match ned with JStr s => Some (py_chars s) | _ => None end)) in
  let context := [("ned_id", ned); ("dialect", JStr (PStr dialect))] in
  proof ← (if mem stream PROOF_STREAMS then p ← stream_proof live device_id stream t context; Ok [("proof", JObj p)] else Ok []);
  Ok (dict_set (tables_json t) EXECUTION_KEY (JObj ([("context", JObj context)] ++ proof))).

(** The freeze of a promoted stream: its live rows, with the context and proof they execute with. *)
Definition freeze_stream (live : tables) (device_id : Z) (stream : pystr) : res pydict :=
  t ← snapshot_stream live device_id stream; freeze_fragment live device_id stream t.
End Freeze.

Example snapshot_scoped :
  snapshot_stream
    [("bgp_router_intent", [[("id", JInt 3); ("device_id", JInt 8); ("asn", JStr "1")]; [("id", JInt 1); ("device_id", JInt 7); ("asn", JStr "64500")]]);
     ("bgp_scope_intent", [[("id", JInt 5); ("router_id", JInt 1); ("vrf", JStr "")]; [("id", JInt 4); ("router_id", JInt 3); ("vrf", JStr "")]])] 7 "bgp" =
  Ok [("bgp_router_intent", [[("id", JInt 1); ("device_id", JInt 7); ("asn", JStr "64500")]]);
      ("bgp_scope_intent", [[("id", JInt 5); ("router_id", JInt 1); ("vrf", JStr "")]]);
      ("bgp_af_intent", []); ("bgp_peer_intent", []); ("bgp_peer_af_intent", []); ("redistribution_intent", [])].
Proof. vm_compute. reflexivity. Qed.
