(* ===== verification/IdentityProps.v ===== *)
(** * Durable identities survive new surrogate ids

    A full-replace writer deletes and re-inserts rows, so every row it writes gets a new primary key, and every child a new
    foreign key.  [remint] renames the primary keys of a set of tables, and the foreign keys to them; the identity index of
    every table is unchanged by it. *)

From stdpp Require Import base list.
From Stdlib Require Import ZArith NArith Lia.
From S2P Require Import Prelude Json Text Registry Document Asn Identity.
Local Open Scope py_scope.

(** ** Renaming surrogate ids *)

Section Remint.
Context (mint : pystr -> json -> json).

(** The foreign key of a spec to a parent that is itself projected. *)
Definition projected_fk (s : Spec) : option (pystr * pystr) :=
  match sp_parent s with
  | None => None
  | Some p => match dict_get spec_by_model p, fk_column (sp_model s) p with Some _, Ok fk => Some (fk, p) | _, _ => None end
  end.

Definition remint_value (s : Spec) (field : pystr) (v : json) : json :=
  if decide (field = "id") then mint (sp_model s) v
  else match projected_fk s with Some (fk, p) => if decide (field = fk) then mint p v else v | None => v end.
Definition remint_row (s : Spec) (row : pydict) : pydict := map (fun kv => (kv.1, remint_value s kv.1 kv.2)) row.
Definition remint (t : tables) : tables :=
  map (fun tr => (tr.1, match dict_get spec_by_table tr.1 with Some s => map (remint_row s) tr.2 | None => tr.2 end)) t.

Definition remint_index (s : Spec) (index : list (identity * pydict)) : list (identity * pydict) :=
  map (fun ir => (ir.1, remint_row s ir.2)) index.
Definition remint_ids (ids : ids_by_model) : ids_by_model :=
  map (fun ml => (ml.1, map (fun ki => (mint ml.1 ki.1, ki.2)) ml.2)) ids.
End Remint.

(** A renaming keeps distinct ids distinct and equal ids equal, and an absent id absent. *)
Class Minting (mint : pystr -> json -> json) : Prop := {
  mint_eq m a b : py_eq (mint m a) (mint m b) = py_eq a b;
  mint_scalar m a : scalar (mint m a) = scalar a;
  mint_null m : mint m JNull = JNull }.

(** ** What the registry guarantees *)

Definition AS_FIELDS : list pystr := ["asn"; "remote_as"; "local_as"; "dest_ref"; "source_ref"; "dest_protocol"; "source_protocol"].
Definition surrogate (s : Spec) (f : pystr) : bool :=
  bool_decide (f = "id") || match projected_fk s with Some (fk, _) => bool_decide (f = fk) | None => false end.

Definition good_spec (s : Spec) : bool :=
  match identity_fields s with
  | Ok fields => forallb (fun f => negb (surrogate s f)) (fields ++ AS_FIELDS)
  | Raise _ => false
  end &&
  match sp_parent s with
  | Some p => match fk_column (sp_model s) p with
              | Ok fk => negb (bool_decide (fk = "id"))
              | Raise _ => false
              end
  | None => true
  end &&
  match dict_get spec_by_table (tablename (sp_model s)) with
  | Some s' => bool_decide (sp_model s' = sp_model s) && bool_decide (sp_parent s' = sp_parent s)
  | None => false
  end.

Lemma registry_good : forallb (fun ms => good_spec ms.2) spec_by_model = true ∧ forallb (fun ts => good_spec ts.2) spec_by_table = true.
Proof. split; vm_compute; reflexivity. Qed.

Lemma good_by_model m s : dict_get spec_by_model m = Some s → good_spec s = true.
Proof.
  intros H%dict_get_Some_in. pose proof (proj1 registry_good) as G. rewrite forallb_forall in G. apply (G (m, s)). by apply list_elem_of_In.
Qed.
Lemma good_by_table t s : dict_get spec_by_table t = Some s → good_spec s = true.
Proof.
  intros H%dict_get_Some_in. pose proof (proj2 registry_good) as G. rewrite forallb_forall in G. apply (G (t, s)). by apply list_elem_of_In.
Qed.

Lemma lineage_good fuel s acc : good_spec s = true → forallb good_spec acc = true → forallb good_spec (lineage_loop fuel s acc) = true.
Proof.
  revert s acc. induction fuel as [|fuel IH]; intros s acc Hs Ha; cbn [lineage_loop]; [cbn [forallb]; by rewrite Hs|].
  destruct (sp_parent s) as [p|]; [|cbn [forallb]; by rewrite Hs].
  destruct (dict_get spec_by_model p) as [q|] eqn:E; [|cbn [forallb]; by rewrite Hs].
  apply IH; [by eapply good_by_model|]. cbn [forallb]. by rewrite Hs.
Qed.

Lemma remint_row_spec mint s s' row : sp_model s' = sp_model s → sp_parent s' = sp_parent s → remint_row mint s' row = remint_row mint s row.
Proof. intros E1 E2. unfold remint_row, remint_value, projected_fk. by rewrite E1, E2. Qed.

(** ** Lemmas *)

(** Rows that agree on every AS field are treated alike by the AS rules. *)
Definition agree (row row' : pydict) : Prop := ∀ f, f ∈ AS_FIELDS → dict_get row' f = dict_get row f.

Lemma agree_get row row' f d : agree row row' → f ∈ AS_FIELDS → get_or row' f d = get_or row f d.
Proof. intros H Hf. unfold get_or. by rewrite H. Qed.

Ltac as_field := unfold AS_FIELDS; rewrite !elem_of_cons; tauto.

Lemma agree_identity t row row' : agree row row' → asn_row_identity t row' = asn_row_identity t row.
Proof.
  intros H. unfold asn_row_identity, destination_identity, source_identity, check_optional_asn, get.
  rewrite !(agree_get row row' _ _ H) by as_field. done.
Qed.

Lemma agree_spelling p p' row row' : agree p p' → agree row row' → same_spelling p' row' = same_spelling p row.
Proof. intros Hp Hr. unfold same_spelling, get. cbn [forallb]. by rewrite !(agree_get p p' _ _ Hp), !(agree_get row row' _ _ Hr) by as_field. Qed.
Lemma agree_collision p p' row row' : agree p p' → agree row row' → collision_field p' row' = collision_field p row.
Proof. intros Hp Hr. unfold collision_field. by rewrite !(Hr "asn"), !(Hp "dest_ref"), !(Hr "dest_ref") by as_field. Qed.

Lemma validate_agree t rows rows' seen seen' :
  Forall2 agree rows rows' → Forall2 (fun a b => b.1 = a.1 ∧ agree a.2 b.2) seen seen' →
  validate_rows_loop t NO_NED_CONTEXT rows' seen' = validate_rows_loop t NO_NED_CONTEXT rows seen.
Proof.
  intros Hr. revert seen seen'. induction Hr as [|row row' rows rows' Ha Hr IH]; intros seen seen' Hs; [done|].
  cbn [validate_rows_loop]. rewrite (agree_identity t row row' Ha). destruct (asn_row_identity t row) as [[i|]|e]; unfold_res; [|by apply IH|done].
  cbn [check_source_rule]. destruct (forallb hashable_part i); [|done].
  assert (match seen_row seen i, seen_row seen' i with None, None => True | Some p, Some p' => agree p p' | _, _ => False end) as Hp.
  { unfold seen_row. clear -Hs. induction Hs as [|[j p] [j' p'] seen seen' [E Hp] Hs IH]; [done|]. cbn in E, Hp. subst j'.
    cbn [List.find]. destruct (identity_eqb i j); [done|exact IH]. }
  destruct (seen_row seen i) as [p|], (seen_row seen' i) as [p'|]; try done.
  - rewrite (agree_spelling p p' row row') by done. rewrite (agree_collision p p' row row') by done.
    destruct (same_spelling p row); [by apply IH|done].
  - apply IH. constructor; done.
Qed.

Section RemintLemmas.
Context (mint : pystr -> json -> json) {HM : Minting mint}.

Lemma dict_get_remint s row f : dict_get (remint_row mint s row) f = remint_value mint s f <$> dict_get row f.
Proof. induction row as [|[k v] row IH]; [done|]. cbn. destruct (decide (f = k)) as [->|]; [done|]. exact IH. Qed.

Lemma remint_value_other s f v : surrogate s f = false → remint_value mint s f v = v.
Proof.
  unfold surrogate, remint_value. intros [H1%bool_decide_eq_false H2]%orb_false_iff. rewrite decide_False by done.
  destruct (projected_fk s) as [[fk p]|]; [|done]. apply bool_decide_eq_false in H2. by rewrite decide_False.
Qed.

Lemma get_remint s row f : surrogate s f = false → dict_get (remint_row mint s row) f = dict_get row f.
Proof. intros H. rewrite dict_get_remint. destruct (dict_get row f); [|done]. cbn. by rewrite remint_value_other. Qed.

Lemma get_remint_id s row : get (remint_row mint s row) "id" = mint (sp_model s) (get row "id").
Proof. unfold get, get_or. rewrite dict_get_remint. destruct (dict_get row "id"); cbn; [done|]. by rewrite mint_null. Qed.

Lemma good_agree s row : good_spec s = true → agree row (remint_row mint s row).
Proof.
  unfold good_spec. intros [[H _]%andb_true_iff _]%andb_true_iff f Hf. apply get_remint. destruct (identity_fields s); [|done].
  rewrite forallb_forall in H. apply negb_true_iff. apply H. apply in_or_app. right. by apply list_elem_of_In.
Qed.

Lemma get_remint_fk s row p fk : good_spec s = true → sp_parent s = Some p → fk_column (sp_model s) p = Ok fk →
  get (remint_row mint s row) fk = match dict_get spec_by_model p with Some _ => mint p (get row fk) | None => get row fk end.
Proof.
  intros Hg Hp Hfk. unfold good_spec in Hg. rewrite Hp, Hfk in Hg. rewrite !andb_true_iff in Hg.
  destruct Hg as [[_ Hne%negb_true_iff%bool_decide_eq_false] _]. unfold get, get_or. rewrite dict_get_remint.
  destruct (dict_get row fk) as [v|]; cbn [fmap option_fmap option_map default from_option id].
  - unfold remint_value. rewrite decide_False by done. unfold projected_fk. rewrite Hp, Hfk.
    destruct (dict_get spec_by_model p); [by rewrite decide_True|done].
  - by destruct (dict_get spec_by_model p); rewrite ?mint_null.
Qed.

Lemma assoc_get_mint {V} m (l : list (json * V)) k :
  assoc_get py_eq (map (fun ki => (mint m ki.1, ki.2)) l) (mint m k) = assoc_get py_eq l k.
Proof. induction l as [|[k' v] l IH]; [done|]. cbn. rewrite mint_eq. by destruct (py_eq k k'). Qed.

Lemma assoc_set_mint {V} m (l : list (json * V)) k v :
  assoc_set py_eq (map (fun ki => (mint m ki.1, ki.2)) l) (mint m k) v = map (fun ki => (mint m ki.1, ki.2)) (assoc_set py_eq l k v).
Proof. induction l as [|[k' v'] l IH]; [done|]. cbn. rewrite mint_eq. destruct (py_eq k k'); [done|]. cbn. by rewrite IH. Qed.

Lemma dict_get_ids ids p : dict_get (remint_ids mint ids) p = map (fun ki => (mint p ki.1, ki.2)) <$> dict_get ids p.
Proof. induction ids as [|[m l] ids IH]; [done|]. cbn. destruct (decide (p = m)) as [->|]; [done|exact IH]. Qed.
Lemma dict_set_ids ids m l : remint_ids mint (dict_set ids m l) = dict_set (remint_ids mint ids) m (map (fun ki => (mint m ki.1, ki.2)) l).
Proof. induction ids as [|[m' l'] ids IH]; [done|]. cbn. destruct (decide (m = m')) as [->|]; [done|]. cbn. f_equal. exact IH. Qed.

Lemma parent_identity_remint s row ids : good_spec s = true →
  parent_identity s (remint_row mint s row) (remint_ids mint ids) = parent_identity s row ids.
Proof.
  intros Hg. unfold parent_identity. destruct (sp_parent s) as [p|] eqn:Hp; [|done].
  destruct (fk_column (sp_model s) p) as [fk|] eqn:Hfk; unfold_res; [|done]. rewrite (get_remint_fk s row p fk) by done. cbv zeta.
  destruct (dict_get spec_by_model p); [|done]. rewrite mint_scalar. destruct (scalar _); [|done]. rewrite dict_get_ids.
  assert (default [] (map (fun ki => (mint p ki.1, ki.2)) <$> dict_get ids p) = map (fun ki => (mint p ki.1, ki.2)) (default [] (dict_get ids p))) as ->
    by by destruct (dict_get ids p).
  by rewrite assoc_get_mint.
Qed.

Lemma row_identity_remint s row ids : good_spec s = true →
  row_identity s (remint_row mint s row) (remint_ids mint ids) = row_identity s row ids.
Proof.
  intros Hg. unfold row_identity. rewrite parent_identity_remint by done. rewrite (agree_identity _ _ _ (good_agree s row Hg)).
  destruct (parent_identity s row ids) as [prefix|]; unfold_res; [|done].
  destruct (identity_fields s) as [fields|] eqn:E; unfold_res; [|done]. cbv zeta.
  assert (map (fun f => IdVal (get (remint_row mint s row) f)) fields = map (fun f => IdVal (get row f)) fields) as ->; [|done].
  apply map_ext_in. intros f Hf. unfold get, get_or. rewrite get_remint; [done|]. unfold good_spec in Hg. rewrite E in Hg.
  rewrite !andb_true_iff, forallb_forall in Hg. apply negb_true_iff. apply Hg. apply in_or_app. by left.
Qed.

Lemma index_get_remint s index i : assoc_get identity_eqb (remint_index mint s index) i = remint_row mint s <$> assoc_get identity_eqb index i.
Proof. induction index as [|[j r] index IH]; [done|]. cbn. by destruct (identity_eqb i j). Qed.

Lemma index_rows_remint s rows ids indexed by_id : good_spec s = true →
  index_rows s (map (remint_row mint s) rows) (remint_ids mint ids) (remint_index mint s indexed) (map (fun ki => (mint (sp_model s) ki.1, ki.2)) by_id) =
  (fun ib => (remint_index mint s ib.1, map (fun ki => (mint (sp_model s) ki.1, ki.2)) ib.2)) <$> index_rows s rows ids indexed by_id.
Proof.
  intros Hg. revert indexed by_id. induction rows as [|row rows IH]; intros indexed by_id; [done|]. cbn [map index_rows].
  rewrite row_identity_remint by done. destruct (row_identity s row ids) as [i|e]; unfold_res; [|done].
  destruct (forallb hashable_part i); [|done]. rewrite index_get_remint. destruct (assoc_get identity_eqb indexed i); [done|]. cbn [fmap option_fmap option_map].
  rewrite get_remint_id, mint_scalar. destruct (scalar (get row "id")); [|done]. rewrite assoc_set_mint.
  rewrite <-IH. unfold remint_index. by rewrite map_app.
Qed.

Lemma table_rows_remint t s : good_spec s = true →
  table_rows (remint mint t) (tablename (sp_model s)) = map (remint_row mint s) (table_rows t (tablename (sp_model s))).
Proof.
  intros Hg. unfold good_spec in Hg. rewrite !andb_true_iff in Hg. destruct Hg as [_ Hg]. unfold table_rows.
  destruct (dict_get spec_by_table (tablename (sp_model s))) as [s'|] eqn:E; [|done]. apply andb_true_iff in Hg as [E1%bool_decide_eq_true E2%bool_decide_eq_true].
  revert E. generalize (tablename (sp_model s)). intros name E.
  induction t as [|[n rows] t IH]; [done|]. cbn [remint map dict_get fst snd]. destruct (decide (name = n)) as [<-|]; [|exact IH].
  rewrite E. cbn [default from_option id]. apply map_ext. intros r. by apply remint_row_spec.
Qed.

Lemma dict_set_map {V} (f : pystr -> V -> V) l k v :
  map (fun ml => (ml.1, f ml.1 ml.2)) (dict_set l k v) = dict_set (map (fun ml => (ml.1, f ml.1 ml.2)) l) k (f k v).
Proof. induction l as [|[k' v'] l IH]; [done|]. cbn. destruct (decide (k = k')) as [->|]; [done|]. cbn. by rewrite IH. Qed.
Lemma dict_get_map {V} (f : pystr -> V -> V) l k : dict_get (map (fun ml => (ml.1, f ml.1 ml.2)) l) k = f k <$> dict_get l k.
Proof. induction l as [|[k' v'] l IH]; [done|]. cbn. destruct (decide (k = k')) as [->|]; [done|exact IH]. Qed.

(** The renaming of a model's index, by the spec the registry has for it. *)
Definition remint_by_model (m : pystr) (index : list (identity * pydict)) : list (identity * pydict) :=
  match dict_get spec_by_table (tablename m) with Some s => remint_index mint s index | None => index end.

Lemma remint_by_model_good s index : good_spec s = true → remint_by_model (sp_model s) index = remint_index mint s index.
Proof.
  intros Hg. unfold good_spec in Hg. rewrite !andb_true_iff in Hg. destruct Hg as [_ Hg]. unfold remint_by_model.
  destruct (dict_get spec_by_table (tablename (sp_model s))) as [s'|]; [|done]. apply andb_true_iff in Hg as [E1%bool_decide_eq_true E2%bool_decide_eq_true].
  apply map_ext. intros [i r]. f_equal. by apply remint_row_spec.
Qed.

Lemma identity_indexes_remint t specs ids out : forallb good_spec specs = true →
  identity_indexes (remint mint t) specs (remint_ids mint ids) (map (fun ml => (ml.1, remint_by_model ml.1 ml.2)) out) =
  map (fun ml => (ml.1, remint_by_model ml.1 ml.2)) <$> identity_indexes t specs ids out.
Proof.
  revert ids out. induction specs as [|s specs IH]; intros ids out Hg; [done|]. cbn [forallb] in Hg. apply andb_true_iff in Hg as [Hs Hg].
  cbn [identity_indexes]. rewrite table_rows_remint by done. cbv zeta. set (rows := table_rows t (tablename (sp_model s))).
  assert (validate_asn_rows (tablename (sp_model s)) (map (remint_row mint s) rows) NO_NED_CONTEXT = validate_asn_rows (tablename (sp_model s)) rows NO_NED_CONTEXT) as ->.
  { apply validate_agree; [|constructor]. clear -Hs HM. induction rows as [|r rows IH]; constructor; [by apply good_agree|done]. }
  destruct (validate_asn_rows _ rows _) as [[]|e]; unfold_res; [|done].
  pose proof (index_rows_remint s rows ids [] [] Hs) as Hi. cbn [remint_index map] in Hi. rewrite Hi.
  destruct (index_rows s rows ids [] []) as [[index by_id]|e]; cbn; [|done]. fold (remint_index mint s index).
  rewrite <-(IH (dict_set ids (sp_model s) by_id) (dict_set out (sp_model s) index) Hg).
  rewrite dict_set_ids, (dict_set_map remint_by_model), remint_by_model_good by done. done.
Qed.
End RemintLemmas.

(** Durable identities do not depend on surrogate ids.  Renaming every primary key of a projection, and the foreign keys that
    reference them, leaves the identity index of every table as it was: the same identities in the same order, each with its
    renamed row, and the same refusal where the tables are refused.  So a writer that replaces its rows and mints new ids makes no
    unchanged BGP scope, peer or address family look deleted. *)
Theorem identities_ignore_surrogate_ids mint `{!Minting mint} t table :
  rows_by_intent_identity (remint mint t) table =
  (fun index => match dict_get spec_by_table table with Some s => remint_index mint s index | None => index end) <$>
    rows_by_intent_identity t table.
Proof.
  unfold rows_by_intent_identity, spec_or_refuse. destruct (dict_get spec_by_table table) as [s|] eqn:E; [|done]. unfold_res.
  assert (good_spec s = true) as Hs by by eapply good_by_table.
  pose proof (identity_indexes_remint mint t (identity_lineage s) [] []) as H. cbn [remint_ids map] in H. rewrite H by by apply lineage_good.
  destruct (identity_indexes t (identity_lineage s) [] []) as [out|e]; [|done]. cbn [fmap res_fmap].
  rewrite (dict_get_map (remint_by_model mint)). destruct (dict_get out (sp_model s)) as [index|]; [|done]. cbn.
  f_equal. by apply remint_by_model_good.
Qed.

(** New ids from a higher range of the sequence. *)
Definition shifted (_ : pystr) (v : json) : json :=
  match v with JInt z => JInt (z + 1000) | JBool b => JInt (Z.b2z b + 1000) | v => v end.
#[global] Instance shifted_minting : Minting shifted.
Proof.
  split.
  - intros m [|[]|z|?|?|?|?] [|[]|z'|?|?|?|?]; try done; cbn [shifted py_eq Z.b2z Bool.eqb];
      repeat match goal with |- context [(?a =? ?b)%Z] => destruct (Z.eqb_spec a b) end; try done; lia.
  - by intros m [].
  - done.
Qed.

Definition bgp_rows : tables :=
  [("bgp_router_intent", [[("id", JInt 1); ("device_id", JInt 7); ("asn", JStr "64500")]]);
   ("bgp_scope_intent", [[("id", JInt 4); ("router_id", JInt 1); ("vrf", JStr "")]; [("id", JInt 5); ("router_id", JInt 1); ("vrf", JStr "blue")]]);
   ("bgp_peer_intent", [[("id", JInt 9); ("scope_id", JInt 5); ("peer_address", JStr "192.0.2.1"); ("remote_as", JStr "1.0")]])].
Definition peer_identity : identity := [IdVal (JStr "64500"); IdVal (JStr "blue"); IdVal (JStr "192.0.2.1")].

Lemma identities_ignore_surrogate_ids_witness :
  ∃ row, rows_by_intent_identity (remint shifted bgp_rows) "bgp_peer_intent" = Ok [(peer_identity, row)] ∧
         dict_get row "scope_id" = Some (JInt 1005).
Proof.
  eexists. split; [|shelve].
  rewrite (identities_ignore_surrogate_ids shifted bgp_rows "bgp_peer_intent"). vm_compute. reflexivity.
  Unshelve. vm_compute. reflexivity.
Defined.
