(* ===== verification/Store.v ===== *)
(** * The store

    The rows of src/nso_adapter/store/models.py that the deployment core reads and writes, and the
    database as one value.  A table is a finite map from its primary key; an autoincrement column
    and a sequence are counters of the database; [clock] is the time both [func.now()] and the
    process clock return, and [last_enqueued] is the request-scoped context variable
    LAST_ENQUEUED_GENERATION_ID. *)

From stdpp Require Import base gmap list strings sorting.
From Stdlib Require Import ZArith NArith Lia.
From S2P Require Import Prelude Json Document.
Local Open Scope py_scope.
Local Open Scope Z_scope.

(** ** Enumerations *)

Inductive JobStatus := queued | running | succeeded | job_failed.
Inductive JobType := sync | detect_drift | connect | apply_job | removal | provision | sync_now | sync_from_nso.
Inductive GenerationMode := networked | detach.
Inductive GenerationStatus := gen_pending | gen_running | settled | gen_failed | outcome_unknown | abandoned.

#[global] Instance JobStatus_eq_dec : EqDecision JobStatus.
Proof. solve_decision. Defined.
#[global] Instance JobType_eq_dec : EqDecision JobType.
Proof. solve_decision. Defined.
#[global] Instance GenerationMode_eq_dec : EqDecision GenerationMode.
Proof. solve_decision. Defined.
#[global] Instance GenerationStatus_eq_dec : EqDecision GenerationStatus.
Proof. solve_decision. Defined.

(** [.value] *)
Definition mode_value (m : GenerationMode) : pystr := match m with networked => "networked" | detach => "detach" end.
Definition job_status_value (s : JobStatus) : pystr :=
  match s with queued => "queued" | running => "running" | succeeded => "succeeded" | job_failed => "failed" end.

(** ** Rows *)

Record Job := mkJob {
  j_id : Z; j_type : JobType; j_status : JobStatus; j_coalescible : bool; j_device_id : option Z;
  j_result : option json; j_error : option json; j_context : option pydict; j_created_at : Z;
  j_started_at : option Z; j_heartbeat_at : option Z; j_run_attempt : Z; j_settle_seq : option Z }.

Record StreamRow := mkStream {
  s_desired : Z; s_authorized : Z; s_applied : Z; s_source_push_seq : option Z;
  s_authorized_document : option pydict; s_prepared_revision : option Z; s_updated_at : Z }.

Record Generation := mkGen {
  g_id : Z; g_device_id : Z; g_seq : Z; g_mode : GenerationMode; g_status : GenerationStatus;
  g_document : pydict; g_digest : pystr; g_allowed_removal_keys : pydict;
  g_source_push_seq : list (pystr * option Z); g_stream_revisions : list (pystr * Z);
  g_settlement_cohort : option Z; g_removal_context : option pydict; g_apply_attempt_id : option pystr;
  g_job_id : option Z; g_carrier_job_id : option Z; g_carrier_job_status : option pystr;
  g_carrier_job_result : option json; g_carrier_job_error : option json; g_attempts : Z;
  g_last_error : option json; g_created_at : Z; g_updated_at : Z; g_settled_at : option Z }.

Record ClaimRow := mkClaim {
  c_token : pystr; c_purpose : pystr; c_job_id : option Z; c_acquired_at : Z; c_heartbeat_at : Z }.

Record TombstoneRow := mkTombstone { t_device_id : Z; t_job_id : option Z }.

(** ** The database *)

Record Db := mkDb {
  devices : gset Z;
  auto_apply : gmap Z bool;
  generation_counter : gmap Z Z;
  settle_counter : gmap Z Z;
  streams : gmap (Z * pystr) StreamRow;
  generations : gmap Z Generation;
  jobs : gmap Z Job;
  claims : gmap Z ClaimRow;
  tombstones : gmap Z TombstoneRow;
  next_generation_id : Z;
  next_job_id : Z;
  cohort_sequence : Z;
  clock : Z;
  last_enqueued : option Z }.

Definition with_counter (m : gmap Z Z) (d : Db) : Db :=
  mkDb (devices d) (auto_apply d) m (settle_counter d) (streams d) (generations d) (jobs d) (claims d)
       (tombstones d) (next_generation_id d) (next_job_id d) (cohort_sequence d) (clock d) (last_enqueued d).
Definition with_settle_counter (m : gmap Z Z) (d : Db) : Db :=
  mkDb (devices d) (auto_apply d) (generation_counter d) m (streams d) (generations d) (jobs d) (claims d)
       (tombstones d) (next_generation_id d) (next_job_id d) (cohort_sequence d) (clock d) (last_enqueued d).
Definition with_streams (m : gmap (Z * pystr) StreamRow) (d : Db) : Db :=
  mkDb (devices d) (auto_apply d) (generation_counter d) (settle_counter d) m (generations d) (jobs d) (claims d)
       (tombstones d) (next_generation_id d) (next_job_id d) (cohort_sequence d) (clock d) (last_enqueued d).
Definition with_generations (m : gmap Z Generation) (d : Db) : Db :=
  mkDb (devices d) (auto_apply d) (generation_counter d) (settle_counter d) (streams d) m (jobs d) (claims d)
       (tombstones d) (next_generation_id d) (next_job_id d) (cohort_sequence d) (clock d) (last_enqueued d).
Definition with_jobs (m : gmap Z Job) (d : Db) : Db :=
  mkDb (devices d) (auto_apply d) (generation_counter d) (settle_counter d) (streams d) (generations d) m (claims d)
       (tombstones d) (next_generation_id d) (next_job_id d) (cohort_sequence d) (clock d) (last_enqueued d).
Definition with_claims (m : gmap Z ClaimRow) (d : Db) : Db :=
  mkDb (devices d) (auto_apply d) (generation_counter d) (settle_counter d) (streams d) (generations d) (jobs d) m
       (tombstones d) (next_generation_id d) (next_job_id d) (cohort_sequence d) (clock d) (last_enqueued d).
Definition with_tombstones (m : gmap Z TombstoneRow) (d : Db) : Db :=
  mkDb (devices d) (auto_apply d) (generation_counter d) (settle_counter d) (streams d) (generations d) (jobs d)
       (claims d) m (next_generation_id d) (next_job_id d) (cohort_sequence d) (clock d) (last_enqueued d).
Definition with_cohort (n : Z) (d : Db) : Db :=
  mkDb (devices d) (auto_apply d) (generation_counter d) (settle_counter d) (streams d) (generations d) (jobs d)
       (claims d) (tombstones d) (next_generation_id d) (next_job_id d) n (clock d) (last_enqueued d).
Definition with_clock (n : Z) (d : Db) : Db :=
  mkDb (devices d) (auto_apply d) (generation_counter d) (settle_counter d) (streams d) (generations d) (jobs d)
       (claims d) (tombstones d) (next_generation_id d) (next_job_id d) (cohort_sequence d) n (last_enqueued d).
Definition with_last_enqueued (id : option Z) (d : Db) : Db :=
  mkDb (devices d) (auto_apply d) (generation_counter d) (settle_counter d) (streams d) (generations d) (jobs d)
       (claims d) (tombstones d) (next_generation_id d) (next_job_id d) (cohort_sequence d) (clock d) id.

(** ** Row updates *)

(** [UPDATE .. SET .. WHERE cond] over a whole table *)
Definition update_where {K V} `{Countable K} (cond : V -> bool) (f : V -> V) (m : gmap K V) : gmap K V :=
  (fun v => if cond v then f v else v) <$> m.

Definition set_g_status (s : GenerationStatus) (at_ : Z) (g : Generation) : Generation :=
  mkGen (g_id g) (g_device_id g) (g_seq g) (g_mode g) s (g_document g) (g_digest g) (g_allowed_removal_keys g)
    (g_source_push_seq g) (g_stream_revisions g) (g_settlement_cohort g) (g_removal_context g) (g_apply_attempt_id g)
    (g_job_id g) (g_carrier_job_id g) (g_carrier_job_status g) (g_carrier_job_result g) (g_carrier_job_error g)
    (g_attempts g) (g_last_error g) (g_created_at g) at_ (g_settled_at g).
Definition set_g_attempts (n : Z) (g : Generation) : Generation :=
  mkGen (g_id g) (g_device_id g) (g_seq g) (g_mode g) (g_status g) (g_document g) (g_digest g)
    (g_allowed_removal_keys g) (g_source_push_seq g) (g_stream_revisions g) (g_settlement_cohort g)
    (g_removal_context g) (g_apply_attempt_id g) (g_job_id g) (g_carrier_job_id g) (g_carrier_job_status g)
    (g_carrier_job_result g) (g_carrier_job_error g) n (g_last_error g) (g_created_at g) (g_updated_at g)
    (g_settled_at g).
Definition set_g_job (j : option Z) (g : Generation) : Generation :=
  mkGen (g_id g) (g_device_id g) (g_seq g) (g_mode g) (g_status g) (g_document g) (g_digest g)
    (g_allowed_removal_keys g) (g_source_push_seq g) (g_stream_revisions g) (g_settlement_cohort g)
    (g_removal_context g) (g_apply_attempt_id g) j (g_carrier_job_id g) (g_carrier_job_status g)
    (g_carrier_job_result g) (g_carrier_job_error g) (g_attempts g) (g_last_error g) (g_created_at g) (g_updated_at g)
    (g_settled_at g).
Definition set_g_settled (at_ : option Z) (err : option json) (g : Generation) : Generation :=
  mkGen (g_id g) (g_device_id g) (g_seq g) (g_mode g) (g_status g) (g_document g) (g_digest g)
    (g_allowed_removal_keys g) (g_source_push_seq g) (g_stream_revisions g) (g_settlement_cohort g)
    (g_removal_context g) (g_apply_attempt_id g) (g_job_id g) (g_carrier_job_id g) (g_carrier_job_status g)
    (g_carrier_job_result g) (g_carrier_job_error g) (g_attempts g) err (g_created_at g) (g_updated_at g) at_.
Definition set_g_carrier (id : option Z) (status : option pystr) (result error : option json) (g : Generation) :
    Generation :=
  mkGen (g_id g) (g_device_id g) (g_seq g) (g_mode g) (g_status g) (g_document g) (g_digest g)
    (g_allowed_removal_keys g) (g_source_push_seq g) (g_stream_revisions g) (g_settlement_cohort g)
    (g_removal_context g) (g_apply_attempt_id g) (g_job_id g) id status result error (g_attempts g) (g_last_error g)
    (g_created_at g) (g_updated_at g) (g_settled_at g).

Definition set_j_status (s : JobStatus) (j : Job) : Job :=
  mkJob (j_id j) (j_type j) s (j_coalescible j) (j_device_id j) (j_result j) (j_error j) (j_context j) (j_created_at j)
    (j_started_at j) (j_heartbeat_at j) (j_run_attempt j) (j_settle_seq j).
Definition set_j_times (started heartbeat : option Z) (j : Job) : Job :=
  mkJob (j_id j) (j_type j) (j_status j) (j_coalescible j) (j_device_id j) (j_result j) (j_error j) (j_context j)
    (j_created_at j) started heartbeat (j_run_attempt j) (j_settle_seq j).
Definition set_j_attempt (n : Z) (j : Job) : Job :=
  mkJob (j_id j) (j_type j) (j_status j) (j_coalescible j) (j_device_id j) (j_result j) (j_error j) (j_context j)
    (j_created_at j) (j_started_at j) (j_heartbeat_at j) n (j_settle_seq j).
Definition set_j_outcome (result error : option json) (j : Job) : Job :=
  mkJob (j_id j) (j_type j) (j_status j) (j_coalescible j) (j_device_id j) result error (j_context j)
    (j_created_at j) (j_started_at j) (j_heartbeat_at j) (j_run_attempt j) (j_settle_seq j).
Definition set_j_device (dev : option Z) (j : Job) : Job :=
  mkJob (j_id j) (j_type j) (j_status j) (j_coalescible j) dev (j_result j) (j_error j) (j_context j)
    (j_created_at j) (j_started_at j) (j_heartbeat_at j) (j_run_attempt j) (j_settle_seq j).
Definition set_j_settle (n : option Z) (j : Job) : Job :=
  mkJob (j_id j) (j_type j) (j_status j) (j_coalescible j) (j_device_id j) (j_result j) (j_error j) (j_context j)
    (j_created_at j) (j_started_at j) (j_heartbeat_at j) (j_run_attempt j) n.

Definition set_s_applied (rev at_ : Z) (r : StreamRow) : StreamRow :=
  mkStream (s_desired r) (s_authorized r) rev (s_source_push_seq r) (s_authorized_document r) (s_prepared_revision r) at_.
Definition set_s_authorized (rev at_ : Z) (r : StreamRow) : StreamRow :=
  mkStream (s_desired r) rev (s_applied r) (s_source_push_seq r) (s_authorized_document r) (s_prepared_revision r) at_.
Definition set_s_document (doc : option pydict) (at_ : Z) (r : StreamRow) : StreamRow :=
  mkStream (s_desired r) (s_authorized r) (s_applied r) (s_source_push_seq r) doc (s_prepared_revision r) at_.

(** [INSERT INTO jobs]: the identity is the next of its column *)
Definition insert_job (ty : JobType) (device : option Z) (coalescible : bool) (context : option pydict) (d : Db) : Db :=
  let id := next_job_id d in
  mkDb (devices d) (auto_apply d) (generation_counter d) (settle_counter d) (streams d) (generations d)
    (<[id := mkJob id ty queued coalescible device None None context (clock d) None None 0 None]> (jobs d))
    (claims d) (tombstones d) (next_generation_id d) (id + 1) (cohort_sequence d) (clock d) (last_enqueued d).

(** [INSERT INTO deployment_generation] *)
Definition insert_generation (device seq : Z) (mode : GenerationMode) (document : pydict) (digest : pystr)
    (allowed : pydict) (source : list (pystr * option Z)) (revisions : list (pystr * Z)) (cohort : option Z)
    (context : option pydict) (attempt : option pystr) (d : Db) : Db :=
  let id := next_generation_id d in
  mkDb (devices d) (auto_apply d) (generation_counter d) (settle_counter d) (streams d)
    (<[id := mkGen id device seq mode gen_pending document digest allowed source revisions cohort context attempt
               None None None None None 0 None (clock d) (clock d) None]> (generations d))
    (jobs d) (claims d) (tombstones d) (id + 1) (next_job_id d) (cohort_sequence d) (clock d) (last_enqueued d).

(** ** Queries *)

Definition all_generations (d : Db) : list Generation := map snd (map_to_list (generations d)).
Definition seq_le (a b : Generation) : bool := (g_seq a <=? g_seq b)%Z.

(** [SELECT .. ORDER BY seq] *)
Definition generations_by_seq (p : Generation -> bool) (d : Db) : list Generation :=
  stable_sort seq_le (List.filter p (all_generations d)).

Definition is_some_eq (o : option Z) (z : Z) : bool := bool_decide (o = Some z).
Definition status_in (s : GenerationStatus) (l : list GenerationStatus) : bool := bool_decide (s ∈ l).

(** ** Generic facts *)

Lemma in_all_generations d g : g ∈ all_generations d ↔ ∃ id, generations d !! id = Some g.
Proof.
  unfold all_generations. split.
  - intros ([id g'] & -> & H%elem_of_map_to_list)%list_elem_of_fmap. eauto.
  - intros [id H]. apply list_elem_of_fmap. exists (id, g). split; [done|]. by apply elem_of_map_to_list.
Qed.

Lemma in_generations_by_seq p d g :
  g ∈ generations_by_seq p d ↔ (∃ id, generations d !! id = Some g) ∧ p g = true.
Proof.
  unfold generations_by_seq. rewrite elem_of_stable_sort, list_elem_of_In, filter_In, <-list_elem_of_In,
    in_all_generations. done.
Qed.

Lemma seq_le_total a b : seq_le a b = false → seq_le b a = true.
Proof. unfold seq_le. rewrite Z.leb_gt, Z.leb_le. lia. Qed.

Lemma by_seq_sorted p d : StronglySorted (fun a b => g_seq a <= g_seq b) (generations_by_seq p d).
Proof.
  unfold generations_by_seq. apply Sorted_StronglySorted; [intros ???; lia|].
  pose proof (stable_sort_sorted seq_le seq_le_total (List.filter p (all_generations d))) as H.
  induction H as [|x l Hl IH Hhd]; constructor; [done|].
  destruct Hhd as [|y l' Hxy]; constructor. unfold seq_le in Hxy. by apply Z.leb_le in Hxy.
Qed.

(** The first row of an ordered query is a row of least sequence. *)
Lemma by_seq_head p d g l : generations_by_seq p d = g :: l →
  (∃ id, generations d !! id = Some g) ∧ p g = true ∧
  ∀ id h, generations d !! id = Some h → p h = true → g_seq g <= g_seq h.
Proof.
  intros E. pose proof (by_seq_sorted p d) as Hs. rewrite E in Hs.
  assert (g ∈ generations_by_seq p d) as [Hg Hp]%in_generations_by_seq by (rewrite E; apply list_elem_of_here).
  split_and!; [done..|]. intros id h Hh Hph.
  assert (h ∈ generations_by_seq p d) as Hin by (apply in_generations_by_seq; eauto).
  rewrite E in Hin. apply elem_of_cons in Hin as [->|Hin]; [lia|].
  apply StronglySorted_inv in Hs as [_ HF]. rewrite Forall_forall in HF. by apply HF.
Qed.

Lemma by_seq_nil p d : generations_by_seq p d = [] →
  ∀ id h, generations d !! id = Some h → p h = false.
Proof.
  intros E id h Hh. destruct (p h) eqn:Hp; [|done].
  assert (h ∈ generations_by_seq p d) as Hin by (apply in_generations_by_seq; eauto).
  rewrite E in Hin. by apply elem_of_nil in Hin.
Qed.

(** The last row of an ordered query is a row of greatest sequence. *)
Lemma by_seq_last p d g : last (generations_by_seq p d) = Some g →
  (∃ id, generations d !! id = Some g) ∧ p g = true ∧
  ∀ id h, generations d !! id = Some h → p h = true → g_seq h <= g_seq g.
Proof.
  intros E. pose proof (by_seq_sorted p d) as Hs. apply last_Some in E as [l E].
  assert (g ∈ generations_by_seq p d) as [Hg Hp]%in_generations_by_seq
    by (rewrite E; apply elem_of_app; right; apply list_elem_of_here).
  split_and!; [done..|]. intros id h Hh Hph.
  assert (h ∈ generations_by_seq p d) as Hin by (apply in_generations_by_seq; eauto).
  rewrite E in Hin, Hs. apply elem_of_app in Hin as [Hin| ->%list_elem_of_singleton]; [|lia].
  clear -Hs Hin. induction l as [|x l IH]; [by apply elem_of_nil in Hin|].
  apply StronglySorted_inv in Hs as [Hs HF]. apply elem_of_cons in Hin as [->|Hin]; [|auto].
  rewrite Forall_forall in HF. apply HF, elem_of_app. right. apply list_elem_of_here.
Qed.

Lemma lookup_update_where {K V} `{Countable K} (cond : V -> bool) (f : V -> V) (m : gmap K V) k :
  update_where cond f m !! k = (fun v => if cond v then f v else v) <$> m !! k.
Proof. apply lookup_fmap. Qed.

Lemma lookup_update_where_Some {K V} `{Countable K} (cond : V -> bool) (f : V -> V) (m : gmap K V) k v :
  update_where cond f m !! k = Some v ↔ ∃ v0, m !! k = Some v0 ∧ v = if cond v0 then f v0 else v0.
Proof. rewrite lookup_update_where. destruct (m !! k); simpl; naive_solver. Qed.
