(* ===== verification/Generation.v ===== *)
(** * Deployment generations: operations

    src/nso_adapter/core/generation.py and the job constructors of core/jobs.py it calls.  Every
    operation runs in its caller's transaction ([txn Db]): it returns a value and the new store or
    raises, and the caller rolls back.  A row lock that the source takes and holds is implied by a
    transaction running alone; the one lock it refuses to wait for (the carrier read of
    [advance_generations_locked]) is the argument [carrier_locked]. *)

From stdpp Require Import base gmap list strings sorting.
From Stdlib Require Import ZArith NArith Lia.
From S2P Require Import Prelude Json Sha256 Registry Document Store.
Local Open Scope py_scope.
Local Open Scope Z_scope.

(** ** Constants *)

Definition CROSSABLE : list GenerationStatus := [settled; abandoned].
Definition TERMINAL : list GenerationStatus := [settled; gen_failed; outcome_unknown; abandoned].
Definition BLOCKED_STATUSES : list GenerationStatus := [gen_failed; outcome_unknown].
Definition DEVICE_WRITING : list JobType := [apply_job; removal].

Definition crossable (g : Generation) : bool := status_in (g_status g) CROSSABLE.
Definition terminal_status (g : Generation) : bool := status_in (g_status g) TERMINAL.

(** [if not b: raise e] inside a transaction *)
Definition ensure (b : bool) (e : exc) : txn Db unit := lift_res (guard_or b e).
Definition put_generations (m : gmap Z Generation) : txn Db unit := modify (with_generations m).
Definition now_ : txn Db Z := gets clock.

(** ** Digest *)

(** [digest_document] *)
Definition digest_payload (mode : GenerationMode) (document allowed_removal_keys : pydict) : pystr :=
  dumps compact_sorted (JObj [("mode", JStr (mode_value mode)); ("document", JObj document);
                              ("allowed_removal_keys", JObj allowed_removal_keys)]).
Definition digest_document (mode : GenerationMode) (document allowed_removal_keys : pydict) : pystr :=
  sha256_hex (ascii_bytes (digest_payload mode document allowed_removal_keys)).

(** ** Locks and counters *)

(** [lock_device_document] *)
Definition lock_device_document (device_id : Z) : txn Db unit := fun d =>
  if bool_decide (device_id ∈ devices d) then Ok (tt, d) else Raise (DeviceProjectionGone device_id).

(** [lock_projection]: the counter row is created on first use *)
Definition lock_projection (device_id : Z) : txn Db unit := fun d =>
  '(_, d) ← lock_device_document device_id d;
  match generation_counter d !! device_id with
  | Some _ => Ok (tt, d)
  | None => Ok (tt, with_counter (<[device_id := 0]> (generation_counter d)) d)
  end.

(** [note_write] *)
Definition note_write (device_id : Z) (stream : pystr) (push_seq : option Z) : txn Db Z := fun d =>
  if mem stream STREAMS then
    '(_, d) ← lock_projection device_id d;
    match streams d !! (device_id, stream) with
    | None =>
        Ok (1, with_streams (<[(device_id, stream) := mkStream 1 0 0 push_seq None None (clock d)]> (streams d)) d)
    | Some r =>
        let r' := mkStream (s_desired r + 1) (s_authorized r) (s_applied r) push_seq (s_authorized_document r)
                    (s_prepared_revision r) (clock d) in
        Ok (s_desired r + 1, with_streams (<[(device_id, stream) := r']> (streams d)) d)
    end
  else Raise (ValueError ("unknown projection stream " +:+ stream)).

(** [_next_seq] *)
Definition next_seq (device_id : Z) : txn Db Z := fun d =>
  match generation_counter d !! device_id with
  | Some n => Ok (n + 1, with_counter (<[device_id := n + 1]> (generation_counter d)) d)
  | None => Raise (DeviceProjectionGone device_id)
  end.

(** [allocate_settlement_cohort] *)
Definition allocate_settlement_cohort : txn Db Z := fun d =>
  let n := cohort_sequence d + 1 in Ok (n, with_cohort n d).

(** [request_settlement_cohort]; [store_only] is the request flag *)
Definition request_settlement_cohort (store_only : bool) (generation_count : Z) : txn Db (option Z) :=
  if generation_count <? 0 then raise (ValueError "generation_count cannot be negative")
  else if (generation_count <=? 1) || store_only then mret None
  else c ← allocate_settlement_cohort; mret (Some c).

(** [auto_apply_requested] *)
Definition auto_apply_requested (device_id mutation_count : Z) : txn Db bool :=
  if mutation_count <? 0 then raise (ValueError "mutation_count cannot be negative")
  else if mutation_count =? 0 then mret false
  else gets (fun d => default false (auto_apply d !! device_id)).

(** [prepare_request_settlement] *)
Definition prepare_request_settlement (store_only : bool) (device_id mutation_count removal_generation_count : Z) :
    txn Db (bool * option Z) :=
  if removal_generation_count <? 0 then raise (ValueError "removal_generation_count cannot be negative")
  else apply_requested ← auto_apply_requested device_id mutation_count;
       cohort ← request_settlement_cohort store_only (removal_generation_count + Z.b2z apply_requested);
       mret (apply_requested, cohort).

(** ** Reading a job's generations *)

(** [_job_generations] *)
Definition job_generations (d : Db) (job_id : Z) : list Generation :=
  generations_by_seq (fun g => is_some_eq (g_job_id g) job_id) d.

(** [execution_streams] *)
Definition execution_streams (gs : list Generation) : gset pystr :=
  list_to_set (flat_map (fun g => map fst (g_stream_revisions g)) gs).

(** [generation_execution_streams] *)
Definition generation_execution_streams (d : Db) (job_id : Z) : option (gset pystr) :=
  match job_generations d job_id with [] => None | gs => Some (execution_streams gs) end.

(** [ExecutionPolicy], [execution_policy] *)
Record ExecutionPolicy := { ep_context : pydict; ep_retain_static_routes : bool; ep_no_networking : bool }.
Definition context_truthy (context : pydict) (key : pystr) : bool :=
  match dict_get context key with Some v => json_truthy v | None => false end.
Definition execution_policy (g : Generation) : ExecutionPolicy :=
  let context := default [] (g_removal_context g) in
  {| ep_context := context;
     ep_retain_static_routes :=
       negb (context_truthy context "force" && bool_decide (dict_get context "scope" = Some (JStr "static_route")));
     ep_no_networking := context_truthy context "detach" |}.

(** [verify_generation_digest] *)
Definition digest_matches (g : Generation) : bool :=
  bool_decide (digest_document (g_mode g) (g_document g) (g_allowed_removal_keys g) = g_digest g).
Definition verify_generation_digest (g : Generation) : res unit :=
  guard_or (digest_matches g) (GenerationTampered (g_id g)).

(** [validate_generation_execution] *)
Definition validate_generation_execution (g : Generation) : res unit :=
  _ ← validate_removal_authority (JObj (g_allowed_removal_keys g));
  _ ← map_res (fun kv => section_context (g_document g) kv.1) (g_document g);
  Ok tt.

(** [executing_generation] *)
Definition executing_generation (d : Db) (job_id : Z) : res (option Generation) :=
  match last (job_generations d job_id) with
  | None => Ok None
  | Some g => _ ← verify_generation_digest g; _ ← validate_generation_execution g; Ok (Some g)
  end.

(** ** Barrier *)

(** [_blocking_predecessor] *)
Definition blocking_predecessor (d : Db) (device_id seq : Z) : option Generation :=
  hd_error (generations_by_seq
    (fun g => (g_device_id g =? device_id) && (g_seq g <? seq) && negb (crossable g)) d).

(** [executable_head], [_locked_executable_head] *)
Definition executable_head (d : Db) (device_id : Z) : option Generation :=
  hd_error (generations_by_seq (fun g => (g_device_id g =? device_id) && negb (crossable g)) d).

(** [job_admissible] *)
Definition device_blocked (d : Db) (device_id : Z) : bool :=
  existsb (fun g => (g_device_id g =? device_id) && status_in (g_status g) BLOCKED_STATUSES) (all_generations d).
Definition job_admissible (d : Db) (job_id device_id : Z) : bool :=
  match job_generations d job_id with
  | [] =>
      match jobs d !! job_id with
      | Some j => if bool_decide (j_type j ∈ DEVICE_WRITING) then negb (device_blocked d device_id) else true
      | None => true
      end
  | first :: _ => match blocking_predecessor d device_id (g_seq first) with None => true | Some _ => false end
  end.

(** [mark_job_generations_running] *)
Definition mark_job_generations_running (job_id : Z) (d : Db) : Db :=
  with_generations
    (update_where (fun g => is_some_eq (g_job_id g) job_id && bool_decide (g_status g = gen_pending))
       (fun g => set_g_attempts (g_attempts g + 1) (set_g_status gen_running (clock d) g)) (generations d)) d.

(** [requeue_job_generations] *)
Definition requeue_job_generations (job_id : Z) (d : Db) : Db :=
  with_generations
    (update_where (fun g => is_some_eq (g_job_id g) job_id && bool_decide (g_status g = gen_running))
       (set_g_status gen_pending (clock d)) (generations d)) d.

(** ** Settlement *)

(** The carrier columns of a terminal write: kept where evidence is already recorded. *)
Definition snapshot_needed (g : Generation) : bool :=
  negb (terminal_status g) ||
  (bool_decide (g_carrier_job_id g = None) && bool_decide (g_carrier_job_status g = None) &&
   bool_decide (g_carrier_job_result g = None) && bool_decide (g_carrier_job_error g = None)).

Definition carrier_snapshot (d : Db) (job_id : option Z) : option Z * option pystr * option json * option json :=
  match (job_id ≫= fun j => jobs d !! j) with
  | Some j =>
      match j_status j with
      | succeeded | job_failed => (Some (j_id j), Some (job_status_value (j_status j)), j_result j, j_error j)
      | _ => (None, None, None, None)
      end
  | None => (None, None, None, None)
  end.

(** The row one terminal UPDATE writes. *)
Definition terminal_row (outcome : GenerationStatus) (error : option json) (at_ : Z)
    (carrier : option Z * option pystr * option json * option json) (g : Generation) : Generation :=
  let '(cid, cstatus, cresult, cerror) := carrier in
  let g1 := if snapshot_needed g then set_g_carrier cid cstatus cresult cerror g else g in
  let g2 := match outcome with
            | settled => set_g_settled (Some at_) None g1
            | _ => match error with Some e => set_g_settled (g_settled_at g1) (Some e) g1 | None => g1 end
            end in
  set_g_status outcome at_ g2.

Definition terminal_condition (expected : option (list GenerationStatus)) (known current : Generation) : bool :=
  bool_decide (g_job_id current = g_job_id known) &&
  match expected with Some l => status_in (g_status current) l | None => true end.

Fixpoint terminalize_loop (gs : list Generation) (outcome : GenerationStatus) (error : option json)
    (expected : option (list GenerationStatus)) (at_ : Z) (landed : gset Z) (d : Db) : gset Z * Db :=
  match gs with
  | [] => (landed, d)
  | known :: rest =>
      match generations d !! g_id known with
      | Some current =>
          if terminal_condition expected known current then
            let row := terminal_row outcome error at_ (carrier_snapshot d (g_job_id known)) current in
            terminalize_loop rest outcome error expected at_ ({[g_id known]} ∪ landed)
              (with_generations (<[g_id known := row]> (generations d)) d)
          else terminalize_loop rest outcome error expected at_ landed d
      | None => terminalize_loop rest outcome error expected at_ landed d
      end
  end.

(** [_terminalize_generations] *)
Definition terminalize_generations (gs : list Generation) (outcome : GenerationStatus) (error : option json)
    (expected : option (list GenerationStatus)) (at_ : Z) : txn Db (gset Z) := fun d =>
  if status_in outcome TERMINAL then Ok (terminalize_loop gs outcome error expected at_ ∅ d)
  else Raise (ValueError "generation terminalization requires a terminal status").

(** A settlement target: device, stream, revision, cohort. *)
Definition target : Type := Z * pystr * Z * option Z.

Definition target_le (a b : target) : bool :=
  let '(d1, s1, r1, c1) := a in
  let '(d2, s2, r2, c2) := b in
  let k1 := match c1 with None => 0 | Some _ => 1 end in
  let k2 := match c2 with None => 0 | Some _ => 1 end in
  if d1 =? d2 then
    if bool_decide (s1 = s2) then
      if r1 =? r2 then if k1 =? k2 then default 0 c1 <=? default 0 c2 else k1 <? k2 else r1 <? r2
    else py_ltb s1 s2
  else d1 <? d2.

Definition blocking_sibling (d : Db) (device_id cohort : Z) : bool :=
  existsb (fun g => (g_device_id g =? device_id) && negb (crossable g) && is_some_eq (g_settlement_cohort g) cohort)
    (all_generations d).

(** One compare-and-set of [_stamp_applied_revisions]. *)
Definition stamp_target (at_ : Z) (t : target) (d : Db) : Db :=
  let '(device_id, stream, revision, cohort) := t in
  match streams d !! (device_id, stream) with
  | Some r =>
      if (s_applied r <? revision) &&
         match cohort with Some c => negb (blocking_sibling d device_id c) | None => true end
      then with_streams (<[(device_id, stream) := set_s_applied revision at_ r]> (streams d)) d
      else d
  | None => d
  end.

(** [_stamp_applied_revisions] over a set of targets *)
Definition stamp_applied_revisions (targets : list target) (at_ : Z) (d : Db) : Db :=
  fold_left (fun d t => stamp_target at_ t d) (stable_sort target_le (remove_dups targets)) d.

Definition generation_targets (g : Generation) : list target :=
  map (fun sr => (g_device_id g, sr.1, sr.2, g_settlement_cohort g)) (g_stream_revisions g).

(** [_stamp_settled_cohort].  [loaded] holds the rows the session loaded before the terminal
    UPDATE: their status attribute is not refreshed by it. *)
Definition seen_status (loaded : gmap Z GenerationStatus) (g : Generation) : GenerationStatus :=
  default (g_status g) (loaded !! g_id g).
Definition stamp_settled_cohort (loaded : gmap Z GenerationStatus) (cohort at_ : Z) (d : Db) : Db :=
  let members := List.filter (fun g => is_some_eq (g_settlement_cohort g) cohort) (all_generations d) in
  if existsb (fun g => bool_decide (seen_status loaded g = settled)) members
  then stamp_applied_revisions (flat_map generation_targets members) at_ d else d.

Definition cohorts_of (gs : list Generation) : list Z :=
  stable_sort Z.leb (remove_dups (omap g_settlement_cohort gs)).

(** [settle_job_generations] *)
Definition settle_job_generations (job_id : Z) (outcome : GenerationStatus) (error : option json) : txn Db unit := fun d =>
  match job_generations d job_id with
  | [] => Ok (tt, d)
  | carried =>
      let at_ := clock d in
      let loaded : gmap Z GenerationStatus := list_to_map (map (fun g => (g_id g, g_status g)) carried) in
      '(landed_ids, d) ← terminalize_generations carried outcome error None at_ d;
      let landed := List.filter (fun g => bool_decide (g_id g ∈ landed_ids)) carried in
      if bool_decide (outcome = settled) then
        let cohorts := cohorts_of landed in
        let cohort_generations :=
          List.filter (fun g => match g_settlement_cohort g with Some c => bool_decide (c ∈ cohorts) | None => false end)
            (all_generations d) in
        let target_generations :=
          List.filter (fun g => bool_decide (g_settlement_cohort g = None)) landed ++ cohort_generations in
        let d := stamp_applied_revisions (flat_map generation_targets target_generations) at_ d in
        Ok (tt, fold_left (fun d c => stamp_settled_cohort loaded c at_ d) (cohorts_of carried) d)
      else Ok (tt, d)
  end.

(** ** Carriers *)

(** [create_dedicated_job] (core/jobs.py) *)
Definition create_dedicated_job (device_id : Z) (ty : JobType) (context : option pydict) : txn Db Z := fun d =>
  if bool_decide (ty ∈ [apply_job; removal]) then Ok (next_job_id d, insert_job ty (Some device_id) false context d)
  else Raise (ValueError "dedicated jobs must be apply or removal").

Definition job_le (a b : Job) : bool :=
  (j_created_at a <? j_created_at b) || ((j_created_at a =? j_created_at b) && (j_id a <=? j_id b)).

(** The rows of the partial unique index [uq_job_queued_per_device_type]. *)
Definition queued_coalescible (device_id : Z) (ty : JobType) (j : Job) : bool :=
  is_some_eq (j_device_id j) device_id && bool_decide (j_type j = ty) && bool_decide (j_status j = queued) &&
  j_coalescible j.

(** [_lock_queued_winner] (core/jobs.py) *)
Definition queued_winner (d : Db) (device_id : Z) (ty : JobType) : option Job :=
  hd_error (stable_sort job_le (List.filter (queued_coalescible device_id ty) (map snd (map_to_list (jobs d))))).

(** [admit_coalescible_job] (core/jobs.py): insert unless the index holds a row, else lock the
    winner; bounded retries. *)
Definition ADMISSION_RETRIES : nat := 3.
Fixpoint admit_loop (retries : nat) (device_id : Z) (ty : JobType) (context : option pydict) :
    txn Db (option Z * option Z) := fun d =>
  match retries with
  | O => Ok ((None, None), d)
  | S retries =>
      if existsb (queued_coalescible device_id ty) (map snd (map_to_list (jobs d))) then
        match queued_winner d device_id ty with
        | Some winner => Ok ((None, Some (j_id winner)), d)
        | None => admit_loop retries device_id ty context d
        end
      else Ok ((Some (next_job_id d), None), insert_job ty (Some device_id) true context d)
  end.
Definition admit_coalescible_job (device_id : Z) (ty : JobType) (context : option pydict) :
    txn Db (option Z * option Z) :=
  if bool_decide (ty ∈ [removal; provision]) then raise (ValueError "jobs are not coalescible")
  else admit_loop ADMISSION_RETRIES device_id ty context.

(** [attach_to_job] *)
Definition attach_to_job (generation_id job_id : Z) : txn Db bool := fun d =>
  match generations d !! generation_id, jobs d !! job_id with
  | Some g, Some j =>
      let bind_it := Ok (true, with_generations (<[generation_id := set_g_job (Some job_id) g]> (generations d)) d) in
      match last (job_generations d job_id) with
      | None => bind_it
      | Some carried =>
          if negb (j_coalescible j) then Ok (false, d)
          else if negb (bool_decide (g_mode carried = g_mode g)) then
            Raise (GenerationModeConflict job_id generation_id)
          else if g_seq carried =? g_seq g - 1 then bind_it else Ok (false, d)
      end
  | _, _ => Raise KeyError
  end.

(** [require_attach_to_job] *)
Definition require_attach_to_job (generation_id job_id : Z) : txn Db unit :=
  attached ← attach_to_job generation_id job_id;
  ensure attached (RuntimeError "freshly created job refused generation").

Definition some_dict (o : option pydict) : bool := match o with Some (_ :: _) => true | _ => false end.

(** [_create_dedicated_carrier] *)
Definition create_dedicated_carrier (generation_id : Z) : txn Db Z := fun d =>
  match generations d !! generation_id with
  | None => Raise KeyError
  | Some g =>
      '(job_id, d) ←
        (if some_dict (g_removal_context g) then
           create_dedicated_job (g_device_id g) removal (g_removal_context g) d
         else match g_mode g with
              | detach => Raise (GenerationCarrierCorruption generation_id)
              | networked => create_dedicated_job (g_device_id g) apply_job None d
              end);
      '(attached, d) ← attach_to_job generation_id job_id d;
      if (attached : bool) then Ok (job_id, d) else Raise (GenerationCarrierCorruption generation_id)
  end.

(** [admit_apply_generation]: the new carrier, or [None] when an existing queued job answers *)
Definition admit_apply_generation (generation_id : Z) : txn Db (option Z) := fun d =>
  match generations d !! generation_id with
  | None => Raise KeyError
  | Some g =>
      if bool_decide (g_settlement_cohort g ≠ None) || match g_allowed_removal_keys g with [] => false | _ => true end then
        '(job_id, d) ← create_dedicated_job (g_device_id g) apply_job None d;
        '(_, d) ← require_attach_to_job generation_id job_id d;
        Ok (Some job_id, d)
      else
        '((created, winner), d) ← admit_coalescible_job (g_device_id g) apply_job None d;
        match winner, g_apply_attempt_id g with
        | Some w, Some _ => Raise (ApplyJobConflict w)
        | _, _ =>
            match created, winner with
            | Some carrier, _ | None, Some carrier =>
                '(_, d) ← attach_to_job generation_id carrier d; Ok (created, d)
            | None, None => Raise (RuntimeError "could not admit an apply job")
            end
        end
  end.

(** ** Operator exits *)

(** [_require_locked_executable_head] *)
Definition require_locked_executable_head (g : Generation) : txn Db Generation := fun d =>
  '(_, d) ← lock_projection (g_device_id g) d;
  match executable_head d (g_device_id g) with
  | Some head => if g_id head =? g_id g then Ok (head, d) else Raise (GenerationNotBlocked (g_id g))
  | None => Raise (GenerationNotBlocked (g_id g))
  end.

(** [_claim_blocked_head]: the compare-and-set both exits share *)
Definition claim_blocked_head (generation_id : Z) (outcome : GenerationStatus) : txn Db unit := fun d =>
  '(claimed, d) ←
    (if status_in outcome TERMINAL then
       terminalize_generations (match generations d !! generation_id with Some g => [g] | None => [] end)
         outcome None (Some BLOCKED_STATUSES) (clock d) d
     else match generations d !! generation_id with
          | Some g =>
              if status_in (g_status g) BLOCKED_STATUSES
              then Ok ({[generation_id]}, with_generations (<[generation_id := set_g_status outcome (clock d) g]> (generations d)) d)
              else Ok ((∅ : gset Z), d)
          | None => Ok (∅, d)
          end);
  if bool_decide (generation_id ∈ (claimed : gset Z)) then Ok (tt, d) else Raise (GenerationNotBlocked generation_id).

(** The tombstone ids the document's operation planes name. *)
Definition json_ids (v : json) : res (list Z) :=
  match v with
  | JArr l => map_res (fun x => match x with JInt z => Ok z | _ => Raise (TypeError "id") end) l
  | _ => Raise (TypeError "object is not iterable")
  end.
Definition operation_tombstone_ids (document : pydict) : res (list Z) :=
  ids ← map_res (fun kv =>
          operation ← section_operation document kv.1;
          json_ids (default (JArr []) (dict_get operation "tombstone_ids")))
        (List.filter (fun kv => mem kv.1 (dict_keys SECTION_REGISTRY)) document);
  Ok (concat ids).

Definition rebind_tombstones (ids : list Z) (device_id : Z) (previous : option Z) (job_id : Z) (d : Db) : Db :=
  with_tombstones
    (map_imap (fun id t => Some (
       if bool_decide (id ∈ ids) && (t_device_id t =? device_id) &&
          (match previous with Some p => is_some_eq (t_job_id t) p | None => false end ||
           bool_decide (t_job_id t = None))
       then mkTombstone (t_device_id t) (Some job_id) else t)) (tombstones d)) d.

(** [retry_generation] *)
Definition retry_generation (generation_id : Z) : txn Db (option Z) := fun d =>
  match generations d !! generation_id with
  | None => Ok (None, d)
  | Some g =>
      '(head, d) ← require_locked_executable_head g d;
      _ ← guard_or (status_in (g_status head) BLOCKED_STATUSES) (GenerationNotBlocked generation_id);
      _ ← verify_generation_digest head;
      '(_, d) ← claim_blocked_head generation_id gen_pending d;
      let previous_carrier := g_job_id head in
      '(job_id, d) ← create_dedicated_carrier generation_id d;
      if some_dict (g_removal_context head) then
        ids ← operation_tombstone_ids (g_document head);
        match ids with
        | [] => Ok (Some job_id, d)
        | _ => Ok (Some job_id, rebind_tombstones ids (g_device_id head) previous_carrier job_id d)
        end
      else Ok (Some job_id, d)
  end.

(** [advance_generations_locked] *)
Definition advance_generations_locked (carrier_locked : bool) (device_id : Z) : txn Db (option Z) := fun d =>
  match executable_head d device_id with
  | None => Ok (None, d)
  | Some head =>
      if negb (bool_decide (g_status head = gen_pending)) then Ok (None, d)
      else
        let replace d := '(job_id, d) ← create_dedicated_carrier (g_id head) d; Ok (Some job_id, d) in
        match g_job_id head with
        | None => replace d
        | Some j =>
            if carrier_locked then Ok (None, d)
            else
              let unbind := with_generations (<[g_id head := set_g_job None head]> (generations d)) d in
              match jobs d !! j with
              | Some carrier =>
                  match j_status carrier with
                  | queued => Ok (Some j, d)
                  | running => Raise (GenerationCarrierCorruption (g_id head))
                  | _ => replace unbind
                  end
              | None => replace unbind
              end
        end
  end.

(** [reconcile_generation] *)
Definition reconcile_generation (carrier_locked : bool) (generation_id : Z) : txn Db (option Z) := fun d =>
  match generations d !! generation_id with
  | None => Ok (None, d)
  | Some g =>
      '(head, d) ← require_locked_executable_head g d;
      _ ← guard_or (status_in (g_status head) BLOCKED_STATUSES) (GenerationNotBlocked generation_id);
      '(_, d) ← claim_blocked_head generation_id abandoned d;
      let d := match g_settlement_cohort head with
               | Some c => stamp_settled_cohort ∅ c (clock d) d
               | None => d
               end in
      advance_generations_locked carrier_locked (g_device_id head) d
  end.

(** [advance_device_generations]: its own transaction *)
Definition advance_device_generations (carrier_locked : bool) (device_id : Z) : txn Db (option Z) := fun d =>
  '(_, d) ← lock_projection device_id d; advance_generations_locked carrier_locked device_id d.

(** ** Startup recovery *)

(** A running generation whose carrier is gone or not running. *)
Definition stranded (d : Db) (g : Generation) : bool :=
  bool_decide (g_status g = gen_running) &&
  match (g_job_id g ≫= fun j => jobs d !! j) with
  | Some j => negb (bool_decide (j_status j = running))
  | None => true
  end.

Fixpoint advance_all (carrier_locked : Z -> bool) (device_ids : list Z) (d : Db) : res Db :=
  match device_ids with
  | [] => Ok d
  | device_id :: rest =>
      match advance_device_generations (carrier_locked device_id) device_id d with
      | Ok (_, d') => advance_all carrier_locked rest d'
      | Raise (GenerationCarrierCorruption _) | Raise (DeviceProjectionGone _) | Raise (GenerationModeConflict _ _) =>
          advance_all carrier_locked rest d
      | Raise e => Raise e
      end
  end.

(** [recover_generations] *)
Definition recover_generations (carrier_locked : Z -> bool) : txn Db Z := fun d =>
  let rows := List.filter (stranded d) (all_generations d) in
  '(terminalized, d) ← terminalize_generations rows outcome_unknown None (Some [gen_running]) (clock d) d;
  let pending_devices :=
    remove_dups (map g_device_id (List.filter (fun g => bool_decide (g_status g = gen_pending)) (all_generations d))) in
  d ← advance_all carrier_locked pending_devices d;
  Ok (Z.of_nat (length (List.filter (fun g => bool_decide (g_id g ∈ terminalized)) rows)), d).

(** ** Creation *)

Section Creation.
(** The parts of the projection the creation path calls that are not modelled here: the snapshot and
    freeze of one stream's live rows ([_freeze] over [snapshot_stream]), the static-route apply
    plan's pruning ([prune_apply_plan]) and the static-route operation plane
    ([build_static_route_operation]). *)
Context (freeze : Db -> Z -> pystr -> res pydict).
Context (prune_apply_plan : json -> list json -> list json -> res json).
Context (static_route_operation : Db -> Z -> pydict -> pydict -> pydict -> list Z -> res pydict).

Definition fragment_rows (fragment : pydict) (table : pystr) : list json :=
  match dict_get fragment table with Some (JArr rows) => rows | _ => [] end.

Definition row_exists (existing : gset Z) (row : json) : bool :=
  match row with
  | JObj r => match dict_get r "id" with Some (JInt z) => bool_decide (z ∈ existing) | _ => false end
  | _ => false
  end.

Definition prune_plan (fragment : pydict) : res pydict :=
  execution ← or_empty (dict_get fragment EXECUTION_KEY);
  proof ← or_empty (dict_get execution "proof");
  match dict_get proof "apply" with
  | None | Some JNull => Ok fragment
  | Some plan =>
      plan ← prune_apply_plan plan (fragment_rows fragment "static_route_intent")
               (fragment_rows fragment "static_route_tombstone");
      Ok (dict_set fragment EXECUTION_KEY
            (JObj (dict_set execution "proof" (JObj (dict_set proof "apply" plan)))))
  end.

(** [prune_consumed_carriers] *)
Definition prune_consumed_carriers (fragment : pydict) (existing : gset Z) : res pydict :=
  specs ← map_res (fun kv => s ← spec_or_refuse kv.1; Ok (kv.1, sp_lifecycle s)) (fragment_tables fragment);
  let carriers := map fst (List.filter snd specs) in
  if forallb (fun table => forallb (row_exists existing) (fragment_rows fragment table)) carriers then Ok fragment
  else prune_plan (fold_left (fun f table =>
         dict_set f table (JArr (List.filter (row_exists existing) (fragment_rows f table)))) carriers fragment).

Definition device_tombstones (d : Db) (device_id : Z) : gset Z :=
  dom (filter (fun kt => t_device_id kt.2 = device_id) (tombstones d)).

Definition device_streams (d : Db) (device_id : Z) : list (pystr * StreamRow) :=
  omap (fun kr => if kr.1.1 =? device_id then Some (kr.1.2, kr.2) else None) (map_to_list (streams d)).

Fixpoint refresh_loop (device_id : Z) (existing : gset Z) (rows : list (pystr * StreamRow))
    (fragments : list (pystr * pydict)) : txn Db (list (pystr * pydict)) := fun d =>
  match rows with
  | [] => Ok (fragments, d)
  | (stream, row) :: rest =>
      match s_authorized_document row with
      | Some ((_ :: _) as fragment) =>
          pruned ← prune_consumed_carriers fragment existing;
          let d := if bool_decide (pruned = fragment) then d
                   else with_streams (<[(device_id, stream) := set_s_document (Some pruned) (clock d) row]> (streams d)) d in
          refresh_loop device_id existing rest (fragments ++ [(stream, pruned)]) d
      | _ => refresh_loop device_id existing rest fragments d
      end
  end.

(** [refresh_consumed_carriers] *)
Definition refresh_consumed_carriers (device_id : Z) (selected : list Z) : txn Db (list (pystr * pydict)) := fun d =>
  let existing := device_tombstones d device_id in
  if forallb (fun id => bool_decide (id ∈ existing)) selected
  then refresh_loop device_id existing (device_streams d device_id) [] d
  else Raise CarrierGone.

(** [_authorized_assignment] *)
Definition fragment_context (fragment : pydict) : res (option json) :=
  execution ← or_empty (dict_get fragment EXECUTION_KEY);
  Ok (match dict_get execution "context" with Some JNull => None | o => o end).
Definition authorized_assignment (stream : pystr) (fragment : pydict) : res pydict :=
  context ← fragment_context fragment;
  match context with
  | Some _ => Ok fragment
  | None => Raise (ValueError ("stream " +:+ stream +:+ " would store an authorized fragment with no execution context"))
  end.

(** The operation plane written over the addressed section. *)
Definition operation_plane (d : Db) (device_id : Z) (body removal_context allowed : pydict) (scope : pystr)
    (tombstone_ids discharged_clear_ids : list Z) (immediate_clear_streams : list pystr) : res pydict :=
  let base := [("pending_clear_ids", JArr (map JInt (stable_sort Z.leb discharged_clear_ids)))] in
  let base := match immediate_clear_streams with
              | [] => base
              | l => base ++ [("immediate_clear_streams", JArr (map JStr (sorted_strs l)))]
              end in
  if bool_decide (scope = "static_route") then
    extra ← static_route_operation d device_id body removal_context allowed tombstone_ids;
    Ok (dict_update base extra)
  else Ok base.

Definition write_operation (d : Db) (device_id : Z) (body : pydict) (removal_context : option pydict)
    (allowed : pydict) (tombstone_ids discharged_clear_ids : list Z) (immediate_clear_streams : list pystr) : res pydict :=
  let context := default [] removal_context in
  match dict_get context "scope" with
  | None | Some JNull => Ok body
  | Some (JStr scope) =>
      match dict_get body scope with
      | None | Some JNull => Raise (OperationSectionAbsent scope)
      | Some (JObj section) =>
          operation ← operation_plane d device_id body context allowed scope tombstone_ids discharged_clear_ids
                        immediate_clear_streams;
          match default (JObj []) (dict_get section EXECUTION_KEY) with
          | JObj execution =>
              Ok (dict_set body scope
                    (JObj (dict_set section EXECUTION_KEY (JObj (dict_set execution "operation" (JObj operation))))))
          | _ => Raise (TypeError "object does not support item assignment")
          end
      | Some _ => Raise (AttributeError "setdefault")
      end
  | Some (JArr _) | Some (JObj _) => Raise (TypeError "unhashable type")
  | Some _ => Raise (OperationSectionAbsent "")
  end.

(** [_store_generation] *)
Definition store_generation (device_id : Z) (mode : GenerationMode) (document allowed : pydict)
    (source_push_seq : list (pystr * option Z)) (stream_revisions : list (pystr * Z)) (removal_context : option pydict)
    (settlement_cohort : option Z) (tombstone_ids discharged_clear_ids : list Z) (apply_attempt_id : option pystr)
    (immediate_clear_streams : list pystr) : txn Db Z := fun d =>
  _ ← validate_removal_authority (JObj allowed);
  body ← write_operation d device_id document removal_context allowed tombstone_ids discharged_clear_ids
           immediate_clear_streams;
  '(seq, d) ← next_seq device_id d;
  let id := next_generation_id d in
  let d := insert_generation device_id seq mode body (digest_document mode body allowed) allowed source_push_seq
             stream_revisions settlement_cohort removal_context apply_attempt_id d in
  Ok (id, with_last_enqueued (Some id) d).

(** One promoted stream: revision, push sequence and frozen fragment. *)
Definition promote_stream (device_id : Z) (frozen : list (pystr * pydict)) (stream : pystr) :
    txn Db (Z * option Z * pydict) := fun d =>
  if mem stream OUT_OF_PROTOCOL_STREAMS then
    match dict_get frozen stream with
    | None => Raise (RuntimeError "promotes its frozen prepared fragment; none was given")
    | Some fragment =>
        match streams d !! (device_id, stream) with
        | Some row =>
            match s_prepared_revision row with
            | Some rev =>
                Ok ((rev, None, fragment),
                    with_streams (<[(device_id, stream) := set_s_authorized rev (clock d) row]> (streams d)) d)
            | None => Raise (RuntimeError "has no prepared snapshot to promote")
            end
        | None => Raise (RuntimeError "has no prepared snapshot to promote")
        end
    end
  else
    match streams d !! (device_id, stream) with
    | None => Raise (RuntimeError "has no accepted write to promote")
    | Some row =>
        let d' := with_streams (<[(device_id, stream) := set_s_authorized (s_desired row) (clock d) row]> (streams d)) d in
        fragment ← match dict_get frozen stream with Some f => Ok f | None => freeze d' device_id stream end;
        Ok ((s_desired row, s_source_push_seq row, fragment), d')
    end.

Fixpoint promote_loop (device_id : Z) (frozen : list (pystr * pydict)) (todo : list pystr)
    (acc : list (pystr * (Z * option Z * pydict))) : txn Db (list (pystr * (Z * option Z * pydict))) := fun d =>
  match todo with
  | [] => Ok (acc, d)
  | stream :: rest =>
      '(p, d) ← promote_stream device_id frozen stream d;
      promote_loop device_id frozen rest (acc ++ [(stream, p)]) d
  end.

Fixpoint store_fragments (device_id : Z) (promoted : list (pystr * (Z * option Z * pydict))) : txn Db unit := fun d =>
  match promoted with
  | [] => Ok (tt, d)
  | (stream, (_, _, fragment)) :: rest =>
      assigned ← authorized_assignment stream fragment;
      let d := match streams d !! (device_id, stream) with
               | Some row => with_streams (<[(device_id, stream) := set_s_document (Some assigned) (clock d) row]> (streams d)) d
               | None => d
               end in
      store_fragments device_id rest d
  end.

(** [create_generation] *)
Definition create_generation (store_only : bool) (device_id : Z) (stream_names : list pystr) (mode : GenerationMode)
    (allowed : pydict) (document : option pydict) (removal_context : option pydict) (settlement_cohort : option Z)
    (tombstone_ids discharged_clear_ids : list Z) (apply_attempt_id : option pystr)
    (frozen : list (pystr * pydict)) (immediate_clear_streams : list pystr) : txn Db Z := fun d =>
  if store_only then Raise (RuntimeError "create_generation reached under a store-only request")
  else match stream_names with
  | [] => Raise (ValueError "a generation must name at least one projection stream")
  | _ =>
      '(_, d) ← lock_projection device_id d;
      '(_, d) ← refresh_consumed_carriers device_id tombstone_ids d;
      '(promoted, d) ← promote_loop device_id frozen (sorted_strs (remove_dups stream_names)) [] d;
      '(_, d) ← store_fragments device_id promoted d;
      '(body, d) ←
        match document with
        | Some body => Ok (body, d)
        | None =>
            '(fragments, d) ← refresh_consumed_carriers device_id [] d;
            body ← compose_authorized_document fragments (map (fun sp => (sp.1, sp.2.2)) promoted);
            Ok (body, d)
        end;
      store_generation device_id mode body allowed (map (fun sp => (sp.1, sp.2.1.2)) promoted)
        (map (fun sp => (sp.1, sp.2.1.1)) promoted) removal_context settlement_cohort tombstone_ids
        discharged_clear_ids apply_attempt_id immediate_clear_streams d
  end.

(** [create_reissue_generation]: promotes nothing *)
Definition create_reissue_generation (device_id : Z) (mode : GenerationMode) (removal_context : option pydict)
    (allowed : pydict) (tombstone_ids discharged_clear_ids : list Z) : txn Db Z := fun d =>
  '(_, d) ← lock_projection device_id d;
  '(fragments, d) ← refresh_consumed_carriers device_id tombstone_ids d;
  let source := omap (fun sr => if dict_mem fragments sr.1 then Some (sr.1, s_source_push_seq sr.2) else None)
                  (device_streams d device_id) in
  body ← compose_document fragments;
  store_generation device_id mode body allowed source [] removal_context None tombstone_ids discharged_clear_ids None [] d.
End Creation.
