(* ===== verification/Admission.v ===== *)
(** * Admission: promotions and the jobs that carry them

    The entry points that turn an accepted write into a generation and its carrier:
    core/generation.py (selection of a prepared revision, metadata-only promotions, the Apply
    companion), core/apply.py [enqueue_apply], core/removal.py [enqueue_removal] from its projection
    lock on, core/tombstone_sweep.py [reissue_removal_job] and the projection half of
    core/switching_intent.py [_prepare]. *)

From stdpp Require Import base gmap list strings sorting.
From Stdlib Require Import ZArith NArith Lia.
From S2P Require Import Prelude Json Sha256 Registry Document Store Generation.
Local Open Scope py_scope.
Local Open Scope Z_scope.

(** ** Selections *)

(** [_resolve_prepared_selection]: the skip reason, or [None] to select *)
Definition resolve_prepared_selection (row : option StreamRow) (revision : Z) : option pystr :=
  match row with
  | None => Some "no_prepared_revision"
  | Some r =>
      match s_prepared_revision r with
      | None => Some "no_prepared_revision"
      | Some prepared =>
          if revision <=? s_applied r then Some "already_applied"
          else if revision <? s_authorized r then Some "superseded"
          else if revision =? s_authorized r then Some "already_authorized"
          else if revision =? prepared then None
          else if revision <? prepared then Some "superseded"
          else Some "no_prepared_revision"
      end
  end.

(** ** Metadata-only promotions *)

(** [_has_pending_static_route_clear] *)
Fixpoint any_pending_clear (rows : list json) : res bool :=
  match rows with
  | [] => Ok false
  | JObj row :: rest =>
      if match dict_get row "pending_clear" with Some v => json_truthy v | None => false end then Ok true
      else any_pending_clear rest
  | _ :: _ => Raise (AttributeError "get")
  end.
Definition has_pending_static_route_clear (fragment : pydict) : res bool :=
  match dict_get fragment "static_route_intent" with
  | None => Ok false
  | Some (JArr rows) => any_pending_clear rows
  | Some _ => Raise (TypeError "object is not iterable")
  end.

Definition context_eqb (a b : option json) : bool :=
  match a, b with None, None => true | Some v, Some w => py_eq v w | _, _ => false end.

(** [_can_settle_wire_equivalent] *)
Definition can_settle_wire_equivalent (d : Db) (device_id : Z) (row : StreamRow) (desired : pydict) : res bool :=
  if negb (s_authorized row =? s_applied row) then Ok false
  else
    pending ← has_pending_static_route_clear desired;
    if (pending : bool) then Ok false
    else
      here ← fragment_context desired;
      there ← fragment_context (default [] (s_authorized_document row));
      if negb (context_eqb here there) then Ok false
      else Ok match executable_head d device_id with None => true | Some _ => false end.

(** [_settle_wire_equivalent] *)
Definition settle_wire_equivalent (device_id : Z) (stream : pystr) (row : StreamRow) (desired : pydict)
    (revision : option Z) : txn Db unit := fun d =>
  let revision := default (s_desired row) revision in
  assigned ← authorized_assignment stream desired;
  Ok (tt, with_streams
            (<[(device_id, stream) := mkStream (s_desired row) revision revision (s_source_push_seq row) (Some assigned)
                                        (s_prepared_revision row) (clock d)]> (streams d)) d).

(** The metadata-only branch of [_create_apply_chain] for one selected stream: [revision] is the
    prepared revision of an out-of-protocol selection and [None] for a receipt lane.  [true] is the
    skip [already_applied]; [false] sends the stream to the Apply companion. *)
Definition settle_selected (device_id : Z) (stream : pystr) (revision : option Z) (desired : pydict) : txn Db bool := fun d =>
  match streams d !! (device_id, stream) with
  | None => Raise (RuntimeError "was selected without a projection row")
  | Some row =>
      can ← can_settle_wire_equivalent d device_id row desired;
      if (can : bool) then '(_, d) ← settle_wire_equivalent device_id stream row desired revision d; Ok (true, d)
      else Ok (false, d)
  end.

(** ** The prepared slot *)

(** [_prepare] of core/switching_intent.py, the columns of the stream row: every write bumps the
    desired revision, and a write that is not store-only makes it the prepared one. *)
Definition prepare_slot (device_id : Z) (stream : pystr) (store_only : bool) : txn Db (Z * option Z) := fun d =>
  '(revision, d) ← note_write device_id stream None d;
  if store_only then Ok ((revision, None), d)
  else Ok ((revision, Some revision),
           with_streams (alter (fun r => mkStream (s_desired r) (s_authorized r) (s_applied r) (s_source_push_seq r)
                                           (s_authorized_document r) (Some revision) (s_updated_at r))
                           (device_id, stream) (streams d)) d).

(** ** Carried promotions *)

Section Enqueue.
Context (freeze : Db -> Z -> pystr -> res pydict).
Context (prune_apply_plan : json -> list json -> list json -> res json).
Context (static_route_operation : Db -> Z -> pydict -> pydict -> pydict -> list Z -> res pydict).

(** [enqueue_apply] *)
Definition enqueue_apply (store_only : bool) (device_id : Z) (stream : pystr) (settlement_cohort : option Z) :
    txn Db (option Z) := fun d =>
  if store_only then Ok (None, d)
  else
    '(generation_id, d) ← create_generation freeze prune_apply_plan static_route_operation store_only device_id [stream]
                            networked [] None None settlement_cohort [] [] None [] [] d;
    admit_apply_generation generation_id d.

(** [_enqueue_action_apply_job] *)
Definition enqueue_action_apply_job (store_only : bool) (device_id : Z) (stream_names : list pystr)
    (apply_attempt_id : option pystr) (document : pydict) (cohort : option Z) (removal_authority : pydict)
    (frozen : list (pystr * pydict)) : txn Db Z := fun d =>
  '(generation_id, d) ← create_generation freeze prune_apply_plan static_route_operation store_only device_id
                          (sorted_strs stream_names) networked removal_authority (Some document) None cohort [] []
                          apply_attempt_id frozen [] d;
  '(_, d) ← admit_apply_generation generation_id d;
  Ok (generation_id, d).

(** [enqueue_removal] from the projection lock on: the decided [context], the discharged pending
    clears and the promoted streams are its inputs. *)
Definition removal_mode (context : pydict) : GenerationMode :=
  if context_truthy context "detach" then detach else networked.
Definition enqueue_removal_generation (store_only force : bool) (device_id : Z) (context : pydict)
    (promotes : list pystr) (allowed : pydict) (document : option pydict) (settlement_cohort : option Z)
    (tombstone_ids discharged_clear_ids : list Z) (apply_attempt_id : option pystr)
    (frozen : list (pystr * pydict)) (immediate_clear_streams : list pystr) : txn Db (option Z) := fun d =>
  if store_only && negb force then Ok (None, d)
  else
    let mode := removal_mode context in
    '(_, d) ← lock_projection device_id d;
    '(generation_id, d) ←
      (if force then
         create_reissue_generation prune_apply_plan static_route_operation device_id mode (Some context) [] []
           discharged_clear_ids d
       else
         create_generation freeze prune_apply_plan static_route_operation store_only device_id promotes mode allowed
           document (Some context) settlement_cohort tombstone_ids discharged_clear_ids apply_attempt_id frozen
           immediate_clear_streams d);
    '(job_id, d) ← create_dedicated_job device_id removal (Some context) d;
    '(_, d) ← require_attach_to_job generation_id job_id d;
    Ok (Some job_id, d).

(** [_removal_context] of core/tombstone_sweep.py: [removed] is the tombstone's key, and its
    deployed key where it differs *)
Definition sweep_context (tombstone_id : Z) (removed : list json) (detach_marking : bool) : pydict :=
  [("scope", JStr "static_route"); ("removed", JObj [("route", JArr removed)]); ("detach", JBool detach_marking);
   ("tombstone_ids", JArr [JInt tombstone_id])].

(** [reissue_removal_job]; [blocked] is [automatic_removal_reissue_blocked] *)
Definition reissue_removal_job (blocked : bool) (device_id tombstone_id : Z) (removed : list json)
    (detach_marking : bool) : txn Db (option Z) := fun d =>
  if blocked then Ok (None, d)
  else
    let context := sweep_context tombstone_id removed detach_marking in
    '(generation_id, d) ← create_reissue_generation prune_apply_plan static_route_operation device_id
                            (removal_mode context) (Some context)
                            [("static_route", JObj [("route", JArr removed)])] [tombstone_id] [] d;
    '(job_id, d) ← create_dedicated_job device_id removal (Some context) d;
    '(attached, d) ← attach_to_job generation_id job_id d;
    if (attached : bool) then
      Ok (Some job_id,
          with_tombstones (alter (fun t => mkTombstone (t_device_id t) (Some job_id)) tombstone_id (tombstones d)) d)
    else Raise (GenerationCarrierCorruption generation_id).
End Enqueue.
