(* ===== verification/Claim.v ===== *)
(** * Device claims and the terminal job writer

    src/nso_adapter/core/claim.py, store/device_settle.py [allocate_settle_seq] and the worker's
    start transaction (core/worker.py [_start_head_under_claim]).  Fresh claim tokens, row locks held
    by a rival ([skip_locked]) and the evidence builder of core/execution.py are arguments. *)

From stdpp Require Import base gmap list strings sorting.
From Stdlib Require Import ZArith NArith Lia.
From S2P Require Import Prelude Json Registry Document Store Generation.
Local Open Scope py_scope.
Local Open Scope Z_scope.

(** ** The claim *)

Definition PURPOSES : list pystr := ["job"; "intent_put"; "teardown"; "sweep"; "failover"].

(** [ClaimRegistration] *)
Record Registration := { reg_device : option Z; reg_token : option pystr; reg_attempt : option Z }.

(** [acquire_claim]: the primary key decides; a vanished device is no claim *)
Definition acquire_claim (device_id : Z) (purpose : pystr) (job_id : option Z) (token : pystr) :
    txn Db (option Registration) := fun d =>
  if mem purpose PURPOSES then
    if bool_decide (device_id ∈ devices d) then
      match claims d !! device_id with
      | Some _ => Ok (None, d)
      | None =>
          if existsb (fun c => bool_decide (c_token c = token)) (map snd (map_to_list (claims d)))
          then Raise (RuntimeError "IntegrityError: uq_device_claim_token")
          else Ok (Some {| reg_device := Some device_id; reg_token := Some token; reg_attempt := None |},
                   with_claims (<[device_id := mkClaim token purpose job_id (clock d) (clock d)]> (claims d)) d)
      end
    else Ok (None, d)
  else Raise (ValueError "unknown claim purpose").

(** [lock_claim]: a no-op while unregistered *)
Definition holds_claim (reg : Registration) (d : Db) : bool :=
  match reg_device reg, reg_token reg with
  | Some dev, Some token =>
      match claims d !! dev with Some c => bool_decide (c_token c = token) | None => false end
  | _, _ => false
  end.
Definition lock_claim (reg : Registration) : txn Db unit := fun d =>
  match reg_token reg with
  | None => Ok (tt, d)
  | Some _ => if holds_claim reg d then Ok (tt, d) else Raise (ClaimLostError (default 0 (reg_device reg)))
  end.

(** [_delete_own_claim] *)
Definition delete_own_claim (reg : Registration) (d : Db) : Db :=
  match reg_device reg, reg_token reg with
  | Some dev, Some _ => if holds_claim reg d then with_claims (delete dev (claims d)) d else d
  | _, _ => d
  end.

Inductive ClaimOutcome := COMMIT_ACKNOWLEDGED | ABORT_KNOWN | OUTCOME_UNKNOWN.

(** [release_claim] up to its COMMIT: a lost claim is a known abort and changes nothing *)
Definition release_claim (reg : Registration) (d : Db) : ClaimOutcome * Db :=
  match reg_token reg with
  | None => (COMMIT_ACKNOWLEDGED, d)
  | Some _ =>
      match lock_claim reg d with
      | Ok (_, d) => (COMMIT_ACKNOWLEDGED, delete_own_claim reg d)
      | Raise _ => (ABORT_KNOWN, d)
      end
  end.

(** ** The terminal writer *)

Definition TERMINAL_STATUSES : list JobStatus := [succeeded; job_failed].

(** [_ownership] *)
Definition owns (expect : JobStatus) (run_attempt : option Z) (j : Job) : bool :=
  bool_decide (j_status j = expect) &&
  match run_attempt with Some n => j_run_attempt j =? n | None => true end.

(** [_cas_job_status]: the single physical status UPDATE *)
Definition cas_job_status (job_id : Z) (expect : JobStatus) (run_attempt : option Z) (f : Job -> Job) (d : Db) :
    option (option Z) * Db :=
  match jobs d !! job_id with
  | Some j =>
      if owns expect run_attempt j
      then (Some (j_device_id (f j)), with_jobs (<[job_id := f j]> (jobs d)) d)
      else (None, d)
  | None => (None, d)
  end.

(** [allocate_settle_seq] *)
Definition allocate_settle_seq (device_id : Z) (d : Db) : option (Z * Db) :=
  match settle_counter d !! device_id with
  | Some n => Some (n + 1, with_settle_counter (<[device_id := n + 1]> (settle_counter d)) d)
  | None => None
  end.

(** [TerminalWrite] *)
Record TerminalWrite := { tw_job : Z; tw_status : JobStatus; tw_device : option Z; tw_settle_seq : option Z }.

Section Terminal.
(** [core.execution.unprepared_evidence] *)
Context (unprepared_evidence : Db -> Job -> option json -> res (option pydict)).

(** [_with_unprepared_evidence] *)
Definition with_unprepared_evidence (d : Db) (j : Job) (result : option pydict) (error : option json) :
    res (option pydict) :=
  if bool_decide (j_type j ∈ DEVICE_WRITING) && bool_decide (j_device_id j ≠ None) then
    evidence ← unprepared_evidence d j error;
    match evidence with
    | None => Ok result
    | Some e =>
        if existsb (fun k => mem k (dict_keys (default [] result))) (dict_keys e)
        then Raise (ValueError "a result without row outcomes already carries the evidence")
        else Ok (Some (dict_update (default [] result) e))
    end
  else Ok result.

(** [terminalize]; [set_device] is [None] for UNSET *)
Definition terminalize (job_id : Z) (status expect : JobStatus) (run_attempt : option Z) (result : option pydict)
    (error : option json) (set_device : option (option Z)) (generation_outcome : option GenerationStatus) :
    txn Db (option TerminalWrite) := fun d =>
  _ ← guard_or (bool_decide (status ∈ TERMINAL_STATUSES)) (ValueError "terminalize is for terminal statuses only");
  let has_outcomes := match result with Some r => dict_mem r "row_outcomes" | None => false end in
  locked ← match jobs d !! job_id with
           | Some j => if owns expect run_attempt j
                       then result ← (if has_outcomes then Ok result else with_unprepared_evidence d j result error);
                            Ok (Some result)
                       else Ok None
           | None => Ok None
           end;
  match locked with
  | None => Ok (None, d)
  | Some result =>
      let write j :=
        let j := set_j_outcome (match result with Some r => Some (JObj r) | None => j_result j end)
                   (match error with Some e => Some e | None => j_error j end) (set_j_status status j) in
        match set_device with Some dev => set_j_device dev j | None => j end in
      match cas_job_status job_id expect run_attempt write d with
      | (None, d) => Ok (None, d)
      | (Some device, d) =>
          let outcome := default (match status with succeeded => settled | _ => gen_failed end) generation_outcome in
          '(_, d) ← settle_job_generations job_id outcome error d;
          match device with
          | None => Ok (Some {| tw_job := job_id; tw_status := status; tw_device := None; tw_settle_seq := None |}, d)
          | Some dev =>
              match allocate_settle_seq dev d with
              | None => Raise (BookkeepingOutcomeUnknown job_id)
              | Some (n, d) =>
                  Ok (Some {| tw_job := job_id; tw_status := status; tw_device := Some dev; tw_settle_seq := Some n |},
                      match jobs d !! job_id with
                      | Some j => with_jobs (<[job_id := set_j_settle (Some n) j]> (jobs d)) d
                      | None => d
                      end)
              end
          end
      end
  end.

(** [disposition_for] *)
Definition disposition_for (ty : JobType) : JobStatus := match ty with apply_job => job_failed | _ => queued end.

(** [_queued_successor_id] *)
Definition queued_successor_id (d : Db) (device_id : Z) (ty : JobType) : option Z :=
  j_id <$> List.find (fun j => is_some_eq (j_device_id j) device_id && bool_decide (j_type j = ty) &&
                               bool_decide (j_status j = queued)) (map snd (map_to_list (jobs d))).

Definition superseded_error (successor : option Z) : json :=
  JObj [("code", JStr "superseded");
        ("message", JStr "Interrupted; an equivalent queued job covers the re-run");
        ("detail", JObj [("queued_successor_id", match successor with Some z => JInt z | None => JNull end)])].

(** The coalescing decision of [terminalize_running]. *)
Definition superseded_by (job_id : Z) (status : JobStatus) (d : Db) : option Z :=
  match status, jobs d !! job_id with
  | queued, Some j =>
      match j_status j, j_device_id j with
      | running, Some dev => if bool_decide (j_type j = removal) then None else queued_successor_id d dev (j_type j)
      | _, _ => None
      end
  | _, _ => None
  end.

(** [terminalize_running].  The constraint race it absorbs needs a rival commit between its two
    statements, which a transaction running alone does not see. *)
Definition terminalize_running (job_id : Z) (status : JobStatus) (error : option json) (expected_attempt : option Z) :
    txn Db (option JobStatus) := fun d =>
  match superseded_by job_id status d with
  | Some successor =>
      '(write, d) ← terminalize job_id job_failed running expected_attempt None (Some (superseded_error (Some successor)))
                      None (Some abandoned) d;
      Ok (option_map tw_status write, d)
  | None =>
      match status with
      | queued =>
          let requeue j :=
            set_j_times None None
              (set_j_outcome (j_result j) (match error with Some e => Some e | None => j_error j end) (set_j_status queued j)) in
          match cas_job_status job_id running expected_attempt requeue d with
          | (Some _, d) => Ok (Some queued, requeue_job_generations job_id d)
          | (None, d) => Ok (None, d)
          end
      | _ =>
          '(write, d) ← terminalize job_id status running expected_attempt None error None
                          (match status with job_failed => Some outcome_unknown | _ => None end) d;
          Ok (option_map tw_status write, d)
      end
  end.

(** [fail_lost_attempt] *)
Definition attempt_lost_error : json :=
  JObj [("code", JStr "attempt_ownership_lost"); ("message", JStr "Execution attempt no longer matches its job");
        ("detail", JObj [])].
Definition fail_lost_attempt (job_id run_attempt : Z) : txn Db (option JobStatus) :=
  terminalize_running job_id job_failed (Some attempt_lost_error) (Some run_attempt).

(** What [dispose_execution_attempt] finds in the attempt table for a run: no prepared attempt, one that
    is already terminal, one it settles - with the result and error it derives from the recorded
    response, [definite] when the device refused or rejected the transaction -, or one that does not
    match the run. *)
Inductive AttemptDisposition :=
| no_attempt
| attempt_terminal
| attempt_settled (result : pydict) (error : json) (definite : bool)
| attempt_ownership_lost.

(** [dispose_execution_attempt]: [true] unless the run has no attempt *)
Definition dispose_execution_attempt (found : AttemptDisposition) (job_id run_attempt : Z) : txn Db bool := fun d =>
  match found with
  | no_attempt => Ok (false, d)
  | attempt_terminal => Ok (true, d)
  | attempt_settled result error definite =>
      '(write, d) ← terminalize job_id job_failed running (Some run_attempt) (Some result) (Some error) None
                      (Some (if definite then gen_failed else outcome_unknown)) d;
      match write with None => Raise AttemptOwnershipLost | Some _ => Ok (true, d) end
  | attempt_ownership_lost => Raise AttemptOwnershipLost
  end.

(** [dispose_run] for a claim's registration; a run without an attempt number has no attempt *)
Definition dispose_run (found : AttemptDisposition) (job_id : Z) (reg : Registration) : txn Db bool := fun d =>
  '(_, d) ← lock_claim reg d;
  match reg_attempt reg with
  | None => Ok (false, d)
  | Some n =>
      match dispose_execution_attempt found job_id n d with
      | Raise AttemptOwnershipLost => Raise (ClaimLostError (default 0 (reg_device reg)))
      | r => r
      end
  end.

(** [revoke_stale_claims] on one stale claim row; a lost attempt's writes are rolled back to the savepoint *)
Definition orphaned_error : json :=
  JObj [("code", JStr "orphaned"); ("message", JStr "Claim revoked after heartbeat loss"); ("detail", JObj [])].
Definition revoke_job (found : AttemptDisposition) (j : Job) : txn Db unit := fun d =>
  match dispose_execution_attempt found (j_id j) (j_run_attempt j) d with
  | Raise AttemptOwnershipLost => '(_, d) ← fail_lost_attempt (j_id j) (j_run_attempt j) d; Ok (tt, d)
  | Raise e => Raise e
  | Ok (true, d) => Ok (tt, d)
  | Ok (false, d) =>
      '(_, d) ← terminalize_running (j_id j) (disposition_for (j_type j))
                  (match disposition_for (j_type j) with job_failed => Some orphaned_error | _ => None end)
                  (Some (j_run_attempt j)) d;
      Ok (tt, d)
  end.
Definition revoke_claim (device_id : Z) (found : AttemptDisposition) : txn Db unit := fun d =>
  match claims d !! device_id with
  | None => Ok (tt, d)
  | Some c =>
      '(_, d) ← match c_job_id c ≫= (fun j => jobs d !! j) with Some j => revoke_job found j d | None => Ok (tt, d) end;
      Ok (tt, with_claims (delete device_id (claims d)) d)
  end.

(** The shared transaction: the claim is validated, the body writes, the claim is deleted; anything
    raised before COMMIT rolls everything back. *)
Definition release_after (body : txn Db unit) (reg : Registration) (d : Db) : ClaimOutcome * Db :=
  match '(_, d1) ← lock_claim reg d; '(_, d1) ← body d1; Ok (delete_own_claim reg d1) with
  | Ok d' => (COMMIT_ACKNOWLEDGED, d')
  | Raise _ => (ABORT_KNOWN, d)
  end.

Definition dispose_body (found : AttemptDisposition) (job_id : Z) (status : JobStatus) (error : option json)
    (reg : Registration) : txn Db unit := fun d =>
  '(handled, d) ← dispose_run found job_id reg d;
  if (handled : bool) then Ok (tt, d)
  else '(_, d) ← terminalize_running job_id status error (reg_attempt reg) d; Ok (tt, d).

Definition failure_error (code message : pystr) : json :=
  JObj [("code", JStr code); ("message", JStr message); ("detail", JObj [])].

(** [mark_failed_and_release] *)
Definition mark_failed_and_release (found : AttemptDisposition) (job_id : Z) (code message : pystr) (reg : Registration) :
    Db -> ClaimOutcome * Db :=
  release_after (dispose_body found job_id job_failed (Some (failure_error code message)) reg) reg.

(** [dispose_cancelled] *)
Definition dispose_cancelled (found : AttemptDisposition) (job_id : Z) (ty : JobType) (reg : Registration) :
    Db -> ClaimOutcome * Db :=
  release_after
    (dispose_body found job_id (disposition_for ty)
       (match disposition_for ty with job_failed => Some (failure_error "cancelled" "Worker cancelled the run") | _ => None end)
       reg) reg.
End Terminal.

(** [terminalize_queued_bulk], [terminalize_offboard_orphans_bulk] *)
Definition terminalize_queued_bulk (device_id : Z) (error : json) (d : Db) : Db :=
  with_jobs (update_where (fun j => is_some_eq (j_device_id j) device_id && bool_decide (j_status j = queued))
    (fun j => set_j_outcome (j_result j) (Some error) (set_j_status job_failed j)) (jobs d)) d.
Definition terminalize_offboard_orphans_bulk (device_id : Z) (error : json) (d : Db) : Db :=
  with_jobs (update_where (fun j => is_some_eq (j_device_id j) device_id && negb (bool_decide (j_status j ∈ TERMINAL_STATUSES)))
    (fun j => set_j_outcome (j_result j) (Some error) (set_j_status job_failed j)) (jobs d)) d.

(** ** The worker's start transaction *)

(** Queued jobs of the device in FIFO order. *)
Definition queued_candidates (d : Db) (device_id : Z) : list Job :=
  stable_sort job_le (List.filter (fun j => is_some_eq (j_device_id j) device_id && bool_decide (j_status j = queued))
    (map snd (map_to_list (jobs d)))).

(** The first candidate the barrier admits; a locked candidate ends the attempt. *)
Fixpoint first_admissible (locked : Z -> bool) (d : Db) (device_id : Z) (candidates : list Job) : option Job :=
  match candidates with
  | [] => None
  | j :: rest =>
      if locked (j_id j) then None
      else if job_admissible d (j_id j) device_id then Some j else first_admissible locked d device_id rest
  end.

Definition start_job (j : Job) (at_ : Z) : Job :=
  set_j_attempt (j_run_attempt j + 1) (set_j_times (Some at_) (Some at_) (set_j_status running j)).

(** [ApplyPreview] as the release check reads it, and what an inspected release expects *)
Definition PREVIEW_KEY : pystr := "device_intent".
Record ApplyPreview := { pv_diffs : list (pystr * pystr); pv_generation_id : option Z; pv_document_digest : option pystr }.
Record Expected := { ex_generation_id : Z; ex_digest : option pystr; ex_preview : option ApplyPreview }.

(** An inspected release starts only the head's job. *)
Definition expected_job (d : Db) (device_id : Z) (expected : option Expected) (job_id : option Z) : res (option Z) :=
  match expected with
  | None => Ok job_id
  | Some e =>
      match executable_head d device_id with
      | Some head => match g_job_id head with Some n => Ok (Some n) | None => Raise (ReleaseRefused (ex_generation_id e)) end
      | None => Raise (ReleaseRefused (ex_generation_id e))
      end
  end.

Definition preview_usable (e : Expected) (carried : Generation) : bool :=
  match ex_preview e with
  | None => false
  | Some pv =>
      bool_decide (pv_generation_id pv = Some (g_id carried)) && bool_decide (pv_document_digest pv = Some (g_digest carried)) &&
      negb match dict_get (pv_diffs pv) PREVIEW_KEY with Some diff => py_contains "preview unavailable" diff | None => false end
  end.

(** The inspected document is the one the job executes, alone, and unchanged. *)
Definition check_release (d : Db) (device_id : Z) (e : Expected) (j : Job) : res unit :=
  let refuse := ReleaseRefused (ex_generation_id e) in
  carried ← match executing_generation d (j_id j) with Raise (GenerationTampered _) => Raise refuse | r => r end;
  match executable_head d device_id, carried with
  | Some head, Some g =>
      _ ← guard_or (bool_decide (g_job_id head = Some (j_id j)) && (g_id g =? ex_generation_id e)) refuse;
      _ ← guard_or (bool_decide (ex_digest e = Some (g_digest g)) && digest_matches g) refuse;
      _ ← guard_or (bool_decide (j_type j ∈ [apply_job; removal]) && (length (job_generations d (j_id j)) =? 1)%nat) refuse;
      guard_or (preview_usable e g) refuse
  | _, _ => Raise refuse
  end.

(** The claim row is pointed at the started job. *)
Definition associate_claim (device_id : Z) (reg : Registration) (job_id : Z) (d : Db) : Db :=
  match claims d !! device_id, reg_token reg with
  | Some c, Some token =>
      if bool_decide (c_token c = token)
      then with_claims (<[device_id := mkClaim token (c_purpose c) (Some job_id) (c_acquired_at c) (c_heartbeat_at c)]> (claims d)) d
      else d
  | _, _ => d
  end.

(** [_start_head_under_claim]: the started job and its attempt *)
Definition start_head_under_claim (locked : Z -> bool) (device_id : Z) (reg : Registration) (expected : option Expected)
    (job_id : option Z) : txn Db (option (Z * Z)) := fun d =>
  '(_, d) ← lock_claim reg d;
  only ← expected_job d device_id expected job_id;
  let candidates := List.filter (fun j => match only with Some n => j_id j =? n | None => true end) (queued_candidates d device_id) in
  match first_admissible locked d device_id candidates with
  | None => Ok (None, d)
  | Some j =>
      _ ← match expected with Some e => check_release d device_id e j | None => Ok tt end;
      let d := mark_job_generations_running (j_id j) d in
      let d := with_jobs (<[j_id j := start_job j (clock d)]> (jobs d)) d in
      Ok (Some (j_id j, j_run_attempt j + 1), associate_claim device_id reg (j_id j) d)
  end.
