(* ===== verification/GenerationInv.v ===== *)
(** * The invariant of the generation chain

    Elementary transitions of the generation and job tables ([move]) and the invariant they keep:
    identities, per-device sequence order, carriers, modes, contiguity and the success barrier.
    [System] shows that every operation is a sequence of such transitions. *)

From stdpp Require Import base gmap list strings sorting.
From Stdlib Require Import ZArith NArith Lia.
From S2P Require Import Prelude Json Sha256 Registry Document Store Generation Claim.
Local Open Scope Z_scope.

(** ** Rows *)

(** Everything about a generation that no operation may change after INSERT. *)
Record core := mkCore {
  co_id : Z; co_device : Z; co_seq : Z; co_mode : GenerationMode; co_document : pydict; co_digest : pystr;
  co_allowed : pydict; co_source : list (pystr * option Z); co_revisions : list (pystr * Z);
  co_cohort : option Z; co_context : option pydict; co_attempt : option pystr }.
Definition core_of (g : Generation) : core :=
  mkCore (g_id g) (g_device_id g) (g_seq g) (g_mode g) (g_document g) (g_digest g) (g_allowed_removal_keys g)
    (g_source_push_seq g) (g_stream_revisions g) (g_settlement_cohort g) (g_removal_context g) (g_apply_attempt_id g).

(** What a job keeps for its whole life. *)
Definition job_core (j : Job) : Z * JobType * bool * option Z := (j_id j, j_type j, j_coalescible j, j_device_id j).

Definition live (j : Job) : bool := bool_decide (j_status j ∈ [queued; running]).
Definition same_device (g h : Generation) : Prop := g_device_id g = g_device_id h.

(** ** The invariant *)

(** A generation and its carrier agree. *)
Definition carried_ok (g : Generation) (j : Job) : Prop :=
  j_device_id j = Some (g_device_id g) ∧
  match j_status j with
  | queued => g_status g = gen_pending
  | running => g_status g = gen_running
  | _ => g_status g ≠ gen_running
  end.

Record Inv (d : Db) : Prop := {
  inv_gid : ∀ i g, generations d !! i = Some g → g_id g = i ∧ i < next_generation_id d;
  inv_jid : ∀ i j, jobs d !! i = Some j → j_id j = i ∧ i < next_job_id d;
  inv_counter : ∀ dev n, generation_counter d !! dev = Some n → 0 <= n;
  inv_seq : ∀ i g, generations d !! i = Some g →
    ∃ n, generation_counter d !! g_device_id g = Some n ∧ 1 <= g_seq g <= n;
  inv_uniq : ∀ i k g h, generations d !! i = Some g → generations d !! k = Some h →
    same_device g h → g_seq g = g_seq h → i = k;
  inv_digest : ∀ i g, generations d !! i = Some g → digest_matches g = true;
  inv_carrier : ∀ i g n, generations d !! i = Some g → g_job_id g = Some n →
    ∃ j, jobs d !! n = Some j ∧ carried_ok g j;
  inv_running : ∀ i g, generations d !! i = Some g → g_status g = gen_running → g_job_id g ≠ None;
  inv_mode : ∀ i k g h n, generations d !! i = Some g → generations d !! k = Some h →
    g_job_id g = Some n → g_job_id h = Some n → g_mode g = g_mode h;
  inv_contig : ∀ i k l g h m n j, generations d !! i = Some g → generations d !! k = Some h →
    generations d !! l = Some m → same_device m g →
    g_job_id g = Some n → g_job_id h = Some n → jobs d !! n = Some j → live j = true →
    g_seq g < g_seq m < g_seq h → g_job_id m = Some n;
  inv_barrier : ∀ i k g h, generations d !! i = Some g → generations d !! k = Some h →
    g_status g = gen_running → same_device h g → g_seq h < g_seq g →
    crossable h = true ∨ (g_status h = gen_running ∧ g_job_id h = g_job_id g);
  inv_dedicated : ∀ n j, jobs d !! n = Some j → j_coalescible j = true → j_type j ≠ removal;
  inv_index : ∀ m n p q dev ty, jobs d !! m = Some p → jobs d !! n = Some q →
    queued_coalescible dev ty p = true → queued_coalescible dev ty q = true → m = n }.

Lemma crossable_spec g : crossable g = true ↔ g_status g = settled ∨ g_status g = abandoned.
Proof. unfold crossable, status_in, CROSSABLE. rewrite bool_decide_eq_true. set_solver. Qed.

Lemma not_crossable g : crossable g = false ↔ g_status g ≠ settled ∧ g_status g ≠ abandoned.
Proof. rewrite <-not_true_iff_false, crossable_spec. naive_solver. Qed.

Lemma live_spec j : live j = true ↔ j_status j = queued ∨ j_status j = running.
Proof. unfold live. rewrite bool_decide_eq_true. set_solver. Qed.

Lemma blocked_spec s : status_in s BLOCKED_STATUSES = true ↔ s = gen_failed ∨ s = outcome_unknown.
Proof. unfold status_in, BLOCKED_STATUSES. rewrite bool_decide_eq_true. set_solver. Qed.

Lemma terminal_spec s :
  status_in s TERMINAL = true ↔ s = settled ∨ s = gen_failed ∨ s = outcome_unknown ∨ s = abandoned.
Proof. unfold status_in, TERMINAL. rewrite bool_decide_eq_true. set_solver. Qed.

Lemma queued_coalescible_spec dev ty j : queued_coalescible dev ty j = true ↔
  j_device_id j = Some dev ∧ j_type j = ty ∧ j_status j = queued ∧ j_coalescible j = true.
Proof. unfold queued_coalescible, is_some_eq. rewrite !andb_true_iff, !bool_decide_eq_true. tauto. Qed.

(** ** Elementary transitions *)

(** Sequence counters as they were, or created at zero. *)
Definition counters_extend (d d' : Db) : Prop :=
  ∀ dev, generation_counter d' !! dev = generation_counter d !! dev ∨
         (generation_counter d !! dev = None ∧ generation_counter d' !! dev = Some 0).

(** The rows of a job before and after a transition that moves its generations to [st]. *)
Definition moved (n : Z) (st : GenerationStatus) (d d' : Db) : Prop :=
  ∀ i, match generations d !! i, generations d' !! i with
       | Some g, Some g' =>
           core_of g' = core_of g ∧ g_job_id g' = g_job_id g ∧
           g_status g' = if decide (g_job_id g = Some n) then st else g_status g
       | None, None => True
       | _, _ => False
       end.

(** One generation changed, the rest untouched. *)
Definition changed (i : Z) (g g' : Generation) (d d' : Db) : Prop :=
  generations d !! i = Some g ∧ generations d' = <[i := g']> (generations d) ∧ core_of g' = core_of g.

Definition same_tables (d d' : Db) : Prop :=
  generation_counter d' = generation_counter d ∧ next_generation_id d' = next_generation_id d ∧
  next_job_id d' = next_job_id d.

(** The partial unique index leaves room for [j] to be queued. *)
Definition index_admits (d : Db) (n : Z) (j : Job) : Prop :=
  ∀ m q dev ty, m ≠ n → jobs d !! m = Some q → queued_coalescible dev ty j = true → queued_coalescible dev ty q = false.

(** The head of a device's chain: every earlier generation is crossable. *)
Definition is_head (d : Db) (g : Generation) : Prop :=
  crossable g = false ∧
  ∀ k h, generations d !! k = Some h → same_device h g → crossable h = false → g_seq g <= g_seq h.

Inductive move (d d' : Db) : Prop :=
| move_frame :
    generations d' = generations d → jobs d' = jobs d → next_generation_id d' = next_generation_id d →
    next_job_id d' = next_job_id d → counters_extend d d' → move d d'
| move_new_generation g n :
    generation_counter d !! g_device_id g = Some n →
    generation_counter d' = <[g_device_id g := n + 1]> (generation_counter d) →
    generations d' = <[next_generation_id d := g]> (generations d) → next_generation_id d' = next_generation_id d + 1 →
    jobs d' = jobs d → next_job_id d' = next_job_id d →
    g_id g = next_generation_id d → g_seq g = n + 1 → g_status g = gen_pending → g_job_id g = None →
    digest_matches g = true → move d d'
| move_new_job j :
    jobs d' = <[next_job_id d := j]> (jobs d) → next_job_id d' = next_job_id d + 1 →
    j_id j = next_job_id d → j_status j = queued → index_admits d (next_job_id d) j →
    (j_coalescible j = true → j_type j ≠ removal) →
    generations d' = generations d → generation_counter d' = generation_counter d →
    next_generation_id d' = next_generation_id d → move d d'
| move_job_field n j j' :
    jobs d !! n = Some j → jobs d' = <[n := j']> (jobs d) → job_core j' = job_core j → j_status j' = j_status j →
    generations d' = generations d → same_tables d d' → move d d'
| move_attach i g n j :
    changed i g (set_g_job (Some n) g) d d' → g_status g = gen_pending →
    jobs d !! n = Some j → j_status j = queued → j_device_id j = Some (g_device_id g) →
    (∀ m old, g_job_id g = Some m → jobs d !! m = Some old → live old = false) →
    (∀ k h, generations d !! k = Some h → g_job_id h = Some n →
       g_mode h = g_mode g ∧ g_seq h < g_seq g ∧
       ∀ l m, generations d !! l = Some m → same_device m g → g_seq h < g_seq m < g_seq g → g_job_id m = Some n) →
    jobs d' = jobs d → same_tables d d' → move d d'
| move_unbind i g :
    changed i g (set_g_job None g) d d' → g_status g ≠ gen_running →
    (∀ m old, g_job_id g = Some m → jobs d !! m = Some old → live old = false) →
    jobs d' = jobs d → same_tables d d' → move d d'
| move_start n j j' dev :
    jobs d !! n = Some j → j_status j = queued → j_device_id j = Some dev →
    jobs d' = <[n := j']> (jobs d) → job_core j' = job_core j → j_status j' = running →
    moved n gen_running d d' →
    (∀ i k g h, generations d !! i = Some g → g_job_id g = Some n → generations d !! k = Some h →
       same_device h g → (∀ l m, generations d !! l = Some m → g_job_id m = Some n → g_seq h < g_seq m) →
       crossable h = true) →
    same_tables d d' → move d d'
| move_terminal n j j' st :
    jobs d !! n = Some j → live j = true → jobs d' = <[n := j']> (jobs d) → job_core j' = job_core j →
    live j' = false → status_in st TERMINAL = true → moved n st d d' → same_tables d d' → move d d'
| move_requeue n j j' :
    jobs d !! n = Some j → j_status j = running → jobs d' = <[n := j']> (jobs d) → job_core j' = job_core j →
    j_status j' = queued → index_admits d n j' → moved n gen_pending d d' → same_tables d d' → move d d'
| move_exit i g g' :
    changed i g g' d d' → g_job_id g' = g_job_id g → status_in (g_status g) BLOCKED_STATUSES = true →
    is_head d g → g_status g' = abandoned ∨ g_status g' = gen_pending →
    jobs d' = jobs d → same_tables d d' → move d d'.

(** Every sequence of elementary transitions. *)
Definition moves : Db -> Db -> Prop := star move.

(** ** Preservation *)

Lemma core_fields g g' : core_of g' = core_of g →
  g_id g' = g_id g ∧ g_device_id g' = g_device_id g ∧ g_seq g' = g_seq g ∧ g_mode g' = g_mode g ∧
  digest_matches g' = digest_matches g.
Proof.
  destruct g, g'. unfold core_of. cbn. intros [=]. subst. done.
Qed.

Lemma job_core_fields j j' : job_core j' = job_core j → j_id j' = j_id j ∧ j_device_id j' = j_device_id j.
Proof. unfold job_core. by intros [=]. Qed.

Lemma carried_device d (I : Inv d) i k g h n :
  generations d !! i = Some g → generations d !! k = Some h → g_job_id g = Some n → g_job_id h = Some n →
  same_device g h.
Proof.
  intros Hg Hh Jg Jh. destruct (inv_carrier d I i g n Hg Jg) as (j & Hj & Hd & _).
  destruct (inv_carrier d I k h n Hh Jh) as (j' & Hj' & Hd' & _). unfold same_device. congruence.
Qed.

Lemma head_status d (I : Inv d) i g n j :
  generations d !! i = Some g → g_job_id g = Some n → jobs d !! n = Some j → live j = true →
  g_status g = gen_pending ∨ g_status g = gen_running.
Proof.
  intros Hg Jg Hj Hl. destruct (inv_carrier d I i g n Hg Jg) as (j' & Hj' & _ & Hs).
  rewrite Hj in Hj'. injection Hj' as <-. apply live_spec in Hl as [E|E]; rewrite E in Hs; auto.
Qed.

(** The generations and jobs of [d'] are those of [d]. *)
Lemma inv_frame d d' :
  Inv d → generations d' = generations d → jobs d' = jobs d → next_generation_id d' = next_generation_id d →
  next_job_id d' = next_job_id d → counters_extend d d' → Inv d'.
Proof.
  intros [H1 H2 H0 H3 H4 H5 H6 H7 H8 H9 H10 H11 H12] Eg Ej En1 En2 Hc. constructor; rewrite ?Eg, ?Ej, ?En1, ?En2; eauto.
  - intros dev n Hn. destruct (Hc dev) as [E|[_ E]]; rewrite E in Hn; [eauto|]. injection Hn as <-. lia.
  - intros i g Hg. destruct (H3 i g Hg) as (n & Hn & Hb). exists n. split; [|done].
    destruct (Hc (g_device_id g)) as [->|[E _]]; congruence.
Qed.

Lemma inv_new_generation d d' g n :
  Inv d → generation_counter d !! g_device_id g = Some n →
  generation_counter d' = <[g_device_id g := n + 1]> (generation_counter d) →
  generations d' = <[next_generation_id d := g]> (generations d) → next_generation_id d' = next_generation_id d + 1 →
  jobs d' = jobs d → next_job_id d' = next_job_id d →
  g_id g = next_generation_id d → g_seq g = n + 1 → g_status g = gen_pending → g_job_id g = None →
  digest_matches g = true → Inv d'.
Proof.
  intros I Hn Ec Eg En Ej Enj Hid Hseq Hst Hjob Hdig.
  assert (∀ i h, generations d !! i = Some h → i ≠ next_generation_id d) as Hfresh.
  { intros i h Hh. destruct (inv_gid d I i h Hh). lia. }
  assert (∀ i h, generations d !! i = Some h → same_device h g → g_seq h <= n) as Hmax.
  { intros i h Hh Hs. destruct (inv_seq d I i h Hh) as (m & Hm & Hb). unfold same_device in Hs.
    rewrite Hs, Hn in Hm. injection Hm as ->. lia. }
  constructor; rewrite ?Eg, ?Ej, ?En, ?Enj.
  - intros i h [[<- <-]|[Hne Hh]]%lookup_insert_Some; [split; [done|lia]|].
    destruct (inv_gid d I i h Hh). split; [done|lia].
  - apply (inv_jid d I).
  - intros dev m. rewrite Ec. pose proof (inv_counter d I _ _ Hn).
    intros [[_ <-]|[_ Hm]]%lookup_insert_Some; [lia|by apply (inv_counter d I dev)].
  - intros i h Hh. rewrite Ec. pose proof (inv_counter d I _ _ Hn) as Hpos. apply lookup_insert_Some in Hh as [[<- <-]|[Hne Hh]].
    + exists (n + 1). rewrite lookup_insert_eq. split; [done|lia].
    + destruct (inv_seq d I i h Hh) as (m & Hm & Hb). destruct (decide (g_device_id g = g_device_id h)) as [E|E].
      * exists (n + 1). rewrite E, lookup_insert_eq. split; [done|]. rewrite <-E, Hn in Hm. injection Hm as ->. lia.
      * exists m. by rewrite lookup_insert_ne.
  - intros i k h m [[<- <-]|[_ Hh]]%lookup_insert_Some [[<- <-]|[_ Hm]]%lookup_insert_Some Hs Hq; try done.
    + specialize (Hmax k m Hm). unfold same_device in *. ospecialize (Hmax _); [done|]. lia.
    + specialize (Hmax i h Hh Hs). lia.
    + by eapply (inv_uniq d I).
  - intros i h [[<- <-]|[_ Hh]]%lookup_insert_Some; [done|by eapply (inv_digest d I)].
  - intros i h m [[<- <-]|[_ Hh]]%lookup_insert_Some; [congruence|by eapply (inv_carrier d I)].
  - intros i h [[<- <-]|[_ Hh]]%lookup_insert_Some; [congruence|by eapply (inv_running d I)].
  - intros i k h m q [[<- <-]|[_ Hh]]%lookup_insert_Some [[<- <-]|[_ Hm]]%lookup_insert_Some; try congruence.
    by eapply (inv_mode d I).
  - intros i k l h m q p j [[<- <-]|[_ Hh]]%lookup_insert_Some [[<- <-]|[_ Hm]]%lookup_insert_Some; try congruence.
    intros [[<- <-]|[_ Hq]]%lookup_insert_Some; [|by eapply (inv_contig d I)].
    intros Hs Jh Jm _ _ Hb. exfalso. pose proof (carried_device d I i k h m p Hh Hm Jh Jm) as Hd.
    specialize (Hmax k m Hm). unfold same_device in *. ospecialize (Hmax _); [congruence|]. lia.
  - intros i k h m [[<- <-]|[_ Hh]]%lookup_insert_Some [[<- <-]|[_ Hm]]%lookup_insert_Some; try congruence.
    + intros _ Hs. specialize (Hmax i h Hh). unfold same_device in *. ospecialize (Hmax _); [done|]. lia.
    + by eapply (inv_barrier d I).
  - apply (inv_dedicated d I).
  - apply (inv_index d I).
Qed.

Lemma inv_new_job d d' j :
  Inv d → jobs d' = <[next_job_id d := j]> (jobs d) → next_job_id d' = next_job_id d + 1 →
  j_id j = next_job_id d → index_admits d (next_job_id d) j → (j_coalescible j = true → j_type j ≠ removal) →
  generations d' = generations d → generation_counter d' = generation_counter d →
  next_generation_id d' = next_generation_id d → Inv d'.
Proof.
  intros I Ej En Hid Hidx Hded Eg Ec Eng.
  assert (∀ i g n, generations d !! i = Some g → g_job_id g = Some n → n ≠ next_job_id d) as Hne.
  { intros i g n Hg Hn. destruct (inv_carrier d I i g n Hg Hn) as (j' & Hj' & _).
    destruct (inv_jid d I n j' Hj'). lia. }
  constructor; rewrite ?Eg, ?Ec, ?Eng, ?Ej, ?En.
  - apply (inv_gid d I).
  - intros i j' [[<- <-]|[_ Hj]]%lookup_insert_Some; [split; [done|lia]|].
    destruct (inv_jid d I i j' Hj). split; [done|lia].
  - apply (inv_counter d I).
  - apply (inv_seq d I).
  - apply (inv_uniq d I).
  - apply (inv_digest d I).
  - intros i g n Hg Hn. rewrite lookup_insert_ne by (symmetry; eauto). by apply (inv_carrier d I i).
  - apply (inv_running d I).
  - apply (inv_mode d I).
  - intros i k l g h m n j' Hg Hh Hm Hs Jg Jh Hj. rewrite lookup_insert_ne in Hj by (symmetry; eauto).
    by eapply (inv_contig d I).
  - apply (inv_barrier d I).
  - intros n q [[<- <-]|[_ Hq]]%lookup_insert_Some; [done|by apply (inv_dedicated d I n)].
  - intros m n p q dev ty [[<- <-]|[Hm Hp]]%lookup_insert_Some [[<- <-]|[Hn Hq]]%lookup_insert_Some Qp Qq; [done|..].
    + by rewrite (Hidx n q dev ty) in Qq.
    + by rewrite (Hidx m p dev ty) in Qp.
    + by apply (inv_index d I m n p q dev ty).
Qed.

(** The status a generation has after its job's generations moved to [st]. *)
Definition status_after (n : Z) (st : GenerationStatus) (g : Generation) : GenerationStatus :=
  if decide (g_job_id g = Some n) then st else g_status g.

Lemma moved_back n st d d' i g' :
  moved n st d d' → generations d' !! i = Some g' →
  ∃ g, generations d !! i = Some g ∧ core_of g' = core_of g ∧ g_job_id g' = g_job_id g ∧ g_status g' = status_after n st g.
Proof.
  intros Hm Hg'. specialize (Hm i). rewrite Hg' in Hm. destruct (generations d !! i) as [g|]; [|done].
  exists g. split; [done|]. exact Hm.
Qed.

(** A job's row and its generations change together. *)
Lemma inv_moved d d' n j j' st :
  Inv d → jobs d !! n = Some j → jobs d' = <[n := j']> (jobs d) → job_core j' = job_core j → moved n st d d' →
  same_tables d d' →
  match j_status j' with queued => st = gen_pending | running => st = gen_running | _ => st ≠ gen_running end →
  (live j' = true → live j = true) → (j_status j' = queued → index_admits d n j') →
  (∀ i k g h, generations d !! i = Some g → generations d !! k = Some h → status_after n st g = gen_running →
     same_device h g → g_seq h < g_seq g →
     (status_after n st h = settled ∨ status_after n st h = abandoned) ∨
     (status_after n st h = gen_running ∧ g_job_id h = g_job_id g)) →
  Inv d'.
Proof.
  intros I Hj Ej Hcore Hm (Ec & En & Enj) Hst Hlive Hidx HB.
  assert (∀ m q, jobs d' !! m = Some q → ∃ q0, jobs d !! m = Some q0 ∧ job_core q = job_core q0 ∧
            (live q = true → live q0 = true)) as Hjobs.
  { intros m q. rewrite Ej. intros [[<- <-]|[_ Hq]]%lookup_insert_Some; eauto. }
  constructor; rewrite ?Ec, ?En, ?Enj.
  - intros i g' (g & Hg & (-> & _)%core_fields & _)%(moved_back _ _ _ _ _ _ Hm). by apply (inv_gid d I).
  - intros i q (q0 & Hq0 & (-> & _)%job_core_fields & _)%Hjobs. by apply (inv_jid d I).
  - apply (inv_counter d I).
  - intros i g' (g & Hg & (_ & -> & -> & _)%core_fields & _)%(moved_back _ _ _ _ _ _ Hm). by apply (inv_seq d I i).
  - intros i k g' h' (g & Hg & (_ & Dg & Sg & _)%core_fields & _)%(moved_back _ _ _ _ _ _ Hm)
      (h & Hh & (_ & Dh & Sh & _)%core_fields & _)%(moved_back _ _ _ _ _ _ Hm) Hs Hq.
    eapply (inv_uniq d I i k g h); [done..| |congruence]. unfold same_device in *. congruence.
  - intros i g' (g & Hg & (_ & _ & _ & _ & ->)%core_fields & _)%(moved_back _ _ _ _ _ _ Hm). by eapply (inv_digest d I).
  - intros i g' m (g & Hg & (_ & Dg & _)%core_fields & Jg & Sg)%(moved_back _ _ _ _ _ _ Hm) Jm. rewrite Jg in Jm.
    destruct (inv_carrier d I i g m Hg Jm) as (q & Hq & Hdev & Hcar). rewrite Ej.
    unfold carried_ok. rewrite Sg, Dg. unfold status_after. destruct (decide (m = n)) as [->|Hne].
    + exists j'. rewrite lookup_insert_eq. split; [done|]. apply job_core_fields in Hcore as [_ ->].
      rewrite Hj in Hq. injection Hq as <-. split; [done|]. by rewrite decide_True.
    + exists q. rewrite lookup_insert_ne by done. split_and!; [done..|]. rewrite decide_False by congruence. done.
  - intros i g' (g & Hg & _ & -> & Sg)%(moved_back _ _ _ _ _ _ Hm) Hr. rewrite Sg in Hr. unfold status_after in Hr.
    destruct (decide (g_job_id g = Some n)); [congruence|by eapply (inv_running d I)].
  - intros i k g' h' m (g & Hg & (_ & _ & _ & -> & _)%core_fields & -> & _)%(moved_back _ _ _ _ _ _ Hm)
      (h & Hh & (_ & _ & _ & -> & _)%core_fields & -> & _)%(moved_back _ _ _ _ _ _ Hm). by eapply (inv_mode d I).
  - intros i k l g' h' m' p q (g & Hg & (_ & Dg & Sg & _)%core_fields & -> & _)%(moved_back _ _ _ _ _ _ Hm)
      (h & Hh & (_ & Dh & Sh & _)%core_fields & -> & _)%(moved_back _ _ _ _ _ _ Hm)
      (m & Hmm & (_ & Dm & Sm & _)%core_fields & -> & _)%(moved_back _ _ _ _ _ _ Hm) Hs Jg Jh
      (q0 & Hq0 & _ & Hl0)%Hjobs Hl Hb.
    eapply (inv_contig d I i k l g h m p q0); [done..| |done|done|done|auto|lia]. unfold same_device in *. congruence.
  - intros i k g' h' (g & Hg & (_ & Dg & Sg & _)%core_fields & Jg & Tg)%(moved_back _ _ _ _ _ _ Hm)
      (h & Hh & (_ & Dh & Sh & _)%core_fields & Jh & Th)%(moved_back _ _ _ _ _ _ Hm) Hr Hs Hlt.
    rewrite crossable_spec, Th, Jh, Jg. apply (HB i k g h); [done|done|congruence| |lia].
    unfold same_device in *. congruence.
  - intros m q (q0 & Hq0 & Hc & _)%Hjobs. unfold job_core in Hc. injection Hc as _ -> -> _. by apply (inv_dedicated d I m q0).
  - rewrite Ej. intros m p a b dev ty [[<- <-]|[Hm1 Hp]]%lookup_insert_Some [[<- <-]|[Hn1 Hq]]%lookup_insert_Some Qa Qb; [done|..].
    + pose proof Qa as (_ & _ & Hs & _)%queued_coalescible_spec. by rewrite (Hidx Hs p b dev ty) in Qb.
    + pose proof Qb as (_ & _ & Hs & _)%queued_coalescible_spec. by rewrite (Hidx Hs m a dev ty) in Qa.
    + by apply (inv_index d I m p a b dev ty).
Qed.

(** One generation's row changes, outside the running state. *)
Lemma inv_changed d d' i g g' :
  Inv d → changed i g g' d d' → jobs d' = jobs d → same_tables d d' → g_status g' ≠ gen_running →
  (∀ n, g_job_id g' = Some n → ∃ j, jobs d !! n = Some j ∧ carried_ok g' j) →
  (∀ k h n, k ≠ i → generations d !! k = Some h → g_job_id g' = Some n → g_job_id h = Some n → g_mode h = g_mode g) →
  (∀ k l h m n j, k ≠ i → l ≠ i → generations d !! k = Some h → generations d !! l = Some m → same_device m g →
     g_job_id g' = Some n → g_job_id h = Some n → jobs d !! n = Some j → live j = true →
     g_seq h < g_seq m < g_seq g ∨ g_seq g < g_seq m < g_seq h → g_job_id m = Some n) →
  (∀ k l h m n j, k ≠ i → l ≠ i → generations d !! k = Some h → generations d !! l = Some m → same_device g h →
     g_job_id h = Some n → g_job_id m = Some n → jobs d !! n = Some j → live j = true →
     g_seq h < g_seq g < g_seq m → g_job_id g' = Some n) →
  (∀ k r, k ≠ i → generations d !! k = Some r → g_status r = gen_running → same_device g r → g_seq g < g_seq r →
     crossable g' = true) →
  Inv d'.
Proof.
  intros I (Hg & Eg & Hcore) Ej (Ec & En & Enj) Hnr Hcar Hmode Hend Hmid Hbar.
  apply core_fields in Hcore as (Cid & Cdev & Cseq & Cmode & Cdig). unfold same_device in *.
  constructor; rewrite ?Ec, ?En, ?Enj, ?Ej, ?Eg.
  - intros k h [[<- <-]|[_ Hh]]%lookup_insert_Some; [rewrite Cid|]; by apply (inv_gid d I).
  - apply (inv_jid d I).
  - apply (inv_counter d I).
  - intros k h [[<- <-]|[_ Hh]]%lookup_insert_Some; [rewrite Cdev, Cseq; by apply (inv_seq d I i)|by apply (inv_seq d I k)].
  - intros k l h m [[<- <-]|[_ Hh]]%lookup_insert_Some [[<- <-]|[_ Hm]]%lookup_insert_Some; unfold same_device;
      rewrite ?Cdev, ?Cseq; [done|by apply (inv_uniq d I i l g m)|by apply (inv_uniq d I k i h g)|
                             by apply (inv_uniq d I k l h m)].
  - intros k h [[<- <-]|[_ Hh]]%lookup_insert_Some; [rewrite Cdig; by apply (inv_digest d I i)|by apply (inv_digest d I k)].
  - intros k h n [[<- <-]|[_ Hh]]%lookup_insert_Some; [apply Hcar|by apply (inv_carrier d I k)].
  - intros k h [[<- <-]|[_ Hh]]%lookup_insert_Some; [done|by apply (inv_running d I k)].
  - intros k l h m n [[<- <-]|[Hk Hh]]%lookup_insert_Some [[<- <-]|[Hl Hm]]%lookup_insert_Some Jh Jm; [done|..].
    + rewrite Cmode. symmetry. by apply (Hmode l m n).
    + rewrite Cmode. by apply (Hmode k h n).
    + by apply (inv_mode d I k l h m n).
  - intros k l p h m q n j [[<- <-]|[Hk Hh]]%lookup_insert_Some [[<- <-]|[Hl Hm]]%lookup_insert_Some
      [[<- <-]|[Hp Hq]]%lookup_insert_Some Hs Jh Jm Hj Hlive Hb; unfold same_device in *;
      rewrite ?Cdev, ?Cseq in *; try lia; try (by auto).
    + by apply (Hend l p m q n j); auto.
    + by apply (Hend k p h q n j); auto; congruence || (destruct (inv_carrier d I k h n Hh Jh) as (j1 & Hj1 & Hd1 & _);
        destruct (Hcar n Jm) as (j2 & Hj2 & Hd2 & _); congruence).
    + by apply (Hmid k l h m n j).
    + by apply (inv_contig d I k l p h m q n j).
  - intros k l h m [[<- <-]|[Hk Hh]]%lookup_insert_Some [[<- <-]|[Hl Hm]]%lookup_insert_Some; unfold same_device;
      rewrite ?Cdev, ?Cseq; intros Hr Hs Hlt; try done.
    + left. by apply (Hbar k h).
    + by apply (inv_barrier d I k l h m).
  - apply (inv_dedicated d I).
  - apply (inv_index d I).
Qed.

Lemma inv_attach d d' i g n j :
  Inv d → changed i g (set_g_job (Some n) g) d d' → g_status g = gen_pending →
  jobs d !! n = Some j → j_status j = queued → j_device_id j = Some (g_device_id g) →
  (∀ m old, g_job_id g = Some m → jobs d !! m = Some old → live old = false) →
  (∀ k h, generations d !! k = Some h → g_job_id h = Some n →
     g_mode h = g_mode g ∧ g_seq h < g_seq g ∧
     ∀ l m, generations d !! l = Some m → same_device m g → g_seq h < g_seq m < g_seq g → g_job_id m = Some n) →
  jobs d' = jobs d → same_tables d d' → Inv d'.
Proof.
  intros I Hch Hp Hj Hq Hdev Hold Hcarried Ej Htab. pose proof Hch as (Hg & _).
  apply (inv_changed d d' i g (set_g_job (Some n) g)); cbn; try done; [by rewrite Hp|..].
  - intros n' [= <-]. exists j. unfold carried_ok. cbn. by rewrite Hq.
  - intros k h n' _ Hh [= <-] Jh. by apply (Hcarried k h).
  - intros k l h m n' j' _ _ Hh Hm Hs [= <-] Jh _ _ [Hb|Hb].
    + by apply (proj2 (proj2 (Hcarried k h Hh Jh)) l m).
    + pose proof (Hcarried k h Hh Jh) as (_ & ? & _). lia.
  - intros k l h m n' j' _ _ Hh Hm Hs Jh Jm Hj' Hl Hb.
    assert (g_job_id g = Some n') as Jg by (by apply (inv_contig d I k l i h m g n' j')).
    rewrite (Hold n' j' Jg Hj') in Hl. done.
  - intros k r _ Hr Hrun Hs Hlt. destruct (inv_barrier d I k i r g Hr Hg Hrun Hs Hlt) as [Hc|[Hc _]].
    + apply crossable_spec in Hc. rewrite Hp in Hc. by destruct Hc.
    + congruence.
Qed.

Lemma inv_unbind d d' i g :
  Inv d → changed i g (set_g_job None g) d d' → g_status g ≠ gen_running →
  (∀ m old, g_job_id g = Some m → jobs d !! m = Some old → live old = false) →
  jobs d' = jobs d → same_tables d d' → Inv d'.
Proof.
  intros I Hch Hnr Hold Ej Htab. pose proof Hch as (Hg & _).
  apply (inv_changed d d' i g (set_g_job None g)); cbn; try done.
  - intros k l h m n' j' _ _ Hh Hm Hs Jh Jm Hj' Hl Hb.
    assert (g_job_id g = Some n') as Jg by (by apply (inv_contig d I k l i h m g n' j')).
    rewrite (Hold n' j' Jg Hj') in Hl. done.
  - intros k r _ Hr Hrun Hs Hlt. destruct (inv_barrier d I k i r g Hr Hg Hrun Hs Hlt) as [Hc|[Hc _]]; done.
Qed.

(** A blocked generation is bound to no live job. *)
Lemma blocked_not_live d i g m j :
  Inv d → generations d !! i = Some g → status_in (g_status g) BLOCKED_STATUSES = true →
  g_job_id g = Some m → jobs d !! m = Some j → live j = false.
Proof.
  intros I Hg Hb%blocked_spec Jg Hj. destruct (live j) eqn:E; [|done].
  destruct (head_status d I i g m j Hg Jg Hj E); intuition congruence.
Qed.

Lemma inv_exit d d' i g g' :
  Inv d → changed i g g' d d' → g_job_id g' = g_job_id g → status_in (g_status g) BLOCKED_STATUSES = true →
  g_status g' = abandoned ∨ g_status g' = gen_pending → jobs d' = jobs d → same_tables d d' → Inv d'.
Proof.
  intros I Hch Jg' Hb Hst Ej Htab. pose proof Hch as (Hg & _ & (_ & Dg & _)%core_fields).
  pose proof (blocked_not_live d i g) as Hnl. pose proof Hb as Hb'%blocked_spec.
  apply (inv_changed d d' i g g'); rewrite ?Jg'; try done.
  - destruct Hst; congruence.
  - intros n Jg. destruct (inv_carrier d I i g n Hg Jg) as (j & Hj & Hdev & Hc). exists j. split; [done|].
    unfold carried_ok. rewrite Dg. split; [done|]. specialize (Hnl n j I Hg Hb Jg Hj).
    assert (¬ (j_status j = queued ∨ j_status j = running)) as Hx by (rewrite <-live_spec; by rewrite Hnl).
    destruct (j_status j); try (by exfalso; auto); destruct Hst; congruence.
  - intros k h n _ Hh Jg Jh. by apply (inv_mode d I k i h g n).
  - intros k l h m n j _ _ Hh Hm _ Jg _ Hj Hl. by rewrite (Hnl n j I Hg Hb Jg Hj) in Hl.
  - intros k l h m n j _ _ Hh Hm Hs Jh Jm Hj Hl Hseq. by apply (inv_contig d I k l i h m g n j).
  - intros k r _ Hr Hrun Hs Hlt. exfalso. destruct (inv_barrier d I k i r g Hr Hg Hrun Hs Hlt) as [Hc|[Hc _]].
    + apply crossable_spec in Hc. intuition congruence.
    + intuition congruence.
Qed.

Lemma inv_start d d' n j j' dev :
  Inv d → jobs d !! n = Some j → j_status j = queued → j_device_id j = Some dev →
  jobs d' = <[n := j']> (jobs d) → job_core j' = job_core j → j_status j' = running → moved n gen_running d d' →
  (∀ i k g h, generations d !! i = Some g → g_job_id g = Some n → generations d !! k = Some h →
     same_device h g → (∀ l m, generations d !! l = Some m → g_job_id m = Some n → g_seq h < g_seq m) →
     crossable h = true) →
  same_tables d d' → Inv d'.
Proof.
  intros I Hj Hq Hdev Ej Hcore Hr Hm Hadm Htab. assert (live j = true) as Hl by (apply live_spec; auto).
  apply (inv_moved d d' n j j' gen_running); try done; [by rewrite Hr|congruence|].
  intros i k g h Hg Hh Hrun Hs Hlt. unfold status_after in *.
  destruct (decide (g_job_id h = Some n)) as [Jh|Jh]; destruct (decide (g_job_id g = Some n)) as [Jg|Jg].
  - right. split; [done|congruence].
  - exfalso. destruct (inv_barrier d I i k g h Hg Hh Hrun Hs Hlt) as [Hc%crossable_spec|[Hc _]];
      destruct (head_status d I k h n j Hh Jh Hj Hl); try (intuition congruence).
    destruct (inv_carrier d I k h n Hh Jh) as (q & Hq' & _ & Hcar). rewrite Hj in Hq'. injection Hq' as <-.
    rewrite Hq in Hcar. congruence.
  - left. apply crossable_spec. apply (Hadm i k g h); [done..|]. intros l m Hml Jm.
    destruct (Z.lt_trichotomy (g_seq h) (g_seq m)) as [?|[E|Hgt]]; [done|exfalso..].
    + assert (k = l) as ->; [|congruence]. apply (inv_uniq d I k l h m); [done..| |done].
      pose proof (carried_device d I i l g m n Hg Hml Jg Jm). unfold same_device in *. congruence.
    + apply Jh. apply (inv_contig d I l i k m g h n j); try done.
      pose proof (carried_device d I i l g m n Hg Hml Jg Jm). unfold same_device in *. congruence.
  - destruct (inv_barrier d I i k g h Hg Hh Hrun Hs Hlt) as [Hc%crossable_spec|Hc]; auto.
Qed.

Lemma inv_terminal d d' n j j' st :
  Inv d → jobs d !! n = Some j → live j = true → jobs d' = <[n := j']> (jobs d) → job_core j' = job_core j →
  live j' = false → st ≠ gen_running → moved n st d d' → same_tables d d' → Inv d'.
Proof.
  intros I Hj Hl Ej Hcore Hl' Hst Hm Htab.
  apply (inv_moved d d' n j j' st); try done.
  2:{ intros Hq. unfold live in Hl'. by rewrite Hq in Hl'. }
  - assert (¬ (j_status j' = queued ∨ j_status j' = running)) by (rewrite <-live_spec; by rewrite Hl').
    destruct (j_status j'); intuition congruence.
  - intros i k g h Hg Hh Hrun Hs Hlt. unfold status_after in *.
    destruct (decide (g_job_id g = Some n)) as [Jg|Jg]; [congruence|].
    destruct (inv_barrier d I i k g h Hg Hh Hrun Hs Hlt) as [Hc%crossable_spec|[Hc Je]].
    + destruct (decide (g_job_id h = Some n)) as [Jh|Jh]; [|by left].
      destruct (head_status d I k h n j Hh Jh Hj Hl); intuition congruence.
    + rewrite Je, decide_False by done. by right.
Qed.

Lemma inv_requeue d d' n j j' :
  Inv d → jobs d !! n = Some j → j_status j = running → jobs d' = <[n := j']> (jobs d) → job_core j' = job_core j →
  j_status j' = queued → index_admits d n j' → moved n gen_pending d d' → same_tables d d' → Inv d'.
Proof.
  intros I Hj Hr Ej Hcore Hq Hidx Hm Htab. assert (live j = true) as Hl by (apply live_spec; auto).
  apply (inv_moved d d' n j j' gen_pending); try done; [by rewrite Hq|].
  intros i k g h Hg Hh Hrun Hs Hlt. unfold status_after in *.
  destruct (decide (g_job_id g = Some n)) as [Jg|Jg]; [congruence|].
  destruct (inv_barrier d I i k g h Hg Hh Hrun Hs Hlt) as [Hc%crossable_spec|[Hc Je]].
  - destruct (decide (g_job_id h = Some n)) as [Jh|Jh]; [|by left].
    destruct (head_status d I k h n j Hh Jh Hj Hl); intuition congruence.
  - rewrite Je, decide_False by done. by right.
Qed.

(** A job's other columns change: its generations keep the status they have. *)
Lemma inv_job_field d d' n j j' :
  Inv d → jobs d !! n = Some j → jobs d' = <[n := j']> (jobs d) → job_core j' = job_core j → j_status j' = j_status j →
  generations d' = generations d → same_tables d d' → Inv d'.
Proof.
  intros I Hj Ej Hcore Hs Eg (Ec & En & Enj). pose proof Hcore as [Cid Cdev]%job_core_fields.
  destruct I as [H1 H2 H0 H3 H4 H5 H6 H7 H8 H9 H10 H11 H12].
  assert (j_type j' = j_type j ∧ j_coalescible j' = j_coalescible j) as [Ct Cc] by (unfold job_core in Hcore; by injection Hcore).
  assert (∀ dev ty, queued_coalescible dev ty j' = queued_coalescible dev ty j) as Cq
    by (intros dev ty; unfold queued_coalescible; by rewrite Ct, Cc, Hs, Cdev).
  constructor; rewrite ?Eg, ?Ec, ?En, ?Enj, ?Ej; try done.
  - intros i q [[<- <-]|[_ Hq]]%lookup_insert_Some; [rewrite Cid|]; by apply H2.
  - intros i g m Hg Jg. destruct (H6 i g m Hg Jg) as (q & Hq & Hok). destruct (decide (n = m)) as [->|Hne].
    + exists j'. rewrite lookup_insert_eq. split; [done|]. rewrite Hj in Hq. injection Hq as <-.
      unfold carried_ok in *. by rewrite Cdev, Hs.
    + exists q. by rewrite lookup_insert_ne.
  - intros i k l g h m p q Hg Hh Hm Hsd Jg Jh [[<- <-]|[_ Hq]]%lookup_insert_Some Hl Hb; [|by apply (H9 i k l g h m p q)].
    apply (H9 i k l g h m n j); try done. unfold live in *. by rewrite <-Hs.
  - intros m q [[<- <-]|[_ Hq]]%lookup_insert_Some; [rewrite Cc, Ct; by apply H11 with n|by apply (H11 m)].
  - intros m p a b dev ty [[<- <-]|[Hm1 Hp]]%lookup_insert_Some [[<- <-]|[Hn1 Hq]]%lookup_insert_Some; rewrite ?Cq; [done|..].
    + by apply (H12 n p j b dev ty).
    + by apply (H12 m n a j dev ty).
    + by apply (H12 m p a b dev ty).
Qed.

Lemma move_inv d d' : move d d' → Inv d → Inv d'.
Proof.
  intros [] I.
  - by eapply inv_frame.
  - by eapply inv_new_generation.
  - by eapply inv_new_job.
  - by eapply inv_job_field.
  - by eapply inv_attach.
  - by eapply inv_unbind.
  - by eapply inv_start.
  - eapply inv_terminal; try done. intros ->; done.
  - by eapply inv_requeue.
  - by eapply inv_exit.
Qed.

Lemma moves_inv d d' : moves d d' → Inv d → Inv d'.
Proof. apply star_invariant. intros s s' I H. by eapply move_inv. Qed.
