(* ===== verification/Moves.v ===== *)
(** * Operations as transitions

    Every operation of [Generation] and [Claim] that touches the generation or job tables is a
    sequence of the elementary transitions of [GenerationInv]; what an operation changes besides
    them is a frame. *)

From stdpp Require Import base gmap list strings sorting.
From Stdlib Require Import ZArith NArith Lia.
From S2P Require Import Prelude Json Sha256 Registry Document Store Generation Claim GenerationInv.
Local Open Scope Z_scope.

(** ** Frames *)

(** Generations, jobs and their identity columns as they were. *)
Definition framed (d d' : Db) : Prop :=
  generations d' = generations d ∧ jobs d' = jobs d ∧ next_generation_id d' = next_generation_id d ∧
  next_job_id d' = next_job_id d ∧ counters_extend d d'.

#[global] Instance framed_preorder : PreOrder framed.
Proof.
  split.
  - intros d. split_and!; try done. intros dev. by left.
  - intros d1 d2 d3 (?&?&?&?&C1) (?&?&?&?&C2). split_and!; try congruence.
    intros dev. destruct (C1 dev) as [E1|[E1 E1']], (C2 dev) as [E2|[E2 E2']]; rewrite ?E2, ?E1; auto; try congruence;
      right; split; congruence.
Qed.

Lemma framed_eq d d' :
  generations d' = generations d → jobs d' = jobs d → next_generation_id d' = next_generation_id d →
  next_job_id d' = next_job_id d → generation_counter d' = generation_counter d → framed d d'.
Proof. intros ???? E. split_and!; try done. intros dev. left. by rewrite E. Qed.

Ltac frame := first [reflexivity | by apply framed_eq].

Lemma framed_moves d d' : framed d d' → moves d d'.
Proof. intros (?&?&?&?&?). eapply star_step; [|apply star_refl]. by apply move_frame. Qed.

Lemma move_moves d d' : move d d' → moves d d'.
Proof. intros H. eapply star_step; [done|apply star_refl]. Qed.

Lemma moves_trans d1 d2 d3 : moves d1 d2 → moves d2 d3 → moves d1 d3.
Proof. apply star_trans. Qed.

Lemma lock_device_document_framed dev d d' : lock_device_document dev d = Ok (tt, d') → d' = d.
Proof. unfold lock_device_document. case_bool_decide; congruence. Qed.

Lemma lock_projection_framed dev d d' : lock_projection dev d = Ok (tt, d') → framed d d'.
Proof.
  unfold lock_projection. intros ([[] d0] & E & H)%bind_Ok. apply lock_device_document_framed in E as ->.
  destruct (generation_counter d !! dev) eqn:En; injection H as <-; [reflexivity|].
  split_and!; try done. intros dev'. cbn. destruct (decide (dev' = dev)) as [->|Hne].
  - right. by rewrite lookup_insert_eq.
  - left. by rewrite lookup_insert_ne.
Qed.

Lemma lock_projection_tables dev d d' : lock_projection dev d = Ok (tt, d') →
  generations d' = generations d ∧ jobs d' = jobs d ∧ clock d' = clock d ∧ streams d' = streams d.
Proof.
  unfold lock_projection. intros ([[] d0] & E & H)%bind_Ok. apply lock_device_document_framed in E as ->.
  destruct (generation_counter d !! dev) eqn:En; injection H as <-; done.
Qed.

Lemma note_write_framed dev stream push n d d' : note_write dev stream push d = Ok (n, d') → framed d d'.
Proof.
  unfold note_write. destruct (mem stream STREAMS); [|done]. intros ([[] d1] & E%lock_projection_framed & H)%bind_Ok.
  etransitivity; [exact E|]. destruct (streams d1 !! (dev, stream)); injection H as _ <-; frame.
Qed.

Lemma refresh_loop_framed prune dev existing rows fragments r d d' :
  refresh_loop prune dev existing rows fragments d = Ok (r, d') → framed d d'.
Proof.
  revert fragments d. induction rows as [|[stream row] rows IH]; intros fragments d; cbn [refresh_loop].
  - intros [= _ <-]. reflexivity.
  - destruct (s_authorized_document row) as [[|kv fragment]|]; [apply IH| |apply IH].
    intros (pruned & _ & H)%bind_Ok. apply IH in H. etransitivity; [|exact H]. case_bool_decide; frame.
Qed.

Lemma refresh_framed prune dev selected r d d' :
  refresh_consumed_carriers prune dev selected d = Ok (r, d') → framed d d'.
Proof.
  unfold refresh_consumed_carriers. destruct (forallb _ _); [|done]. apply refresh_loop_framed.
Qed.

Lemma promote_stream_framed freeze dev frozen stream r d d' :
  promote_stream freeze dev frozen stream d = Ok (r, d') → framed d d'.
Proof.
  unfold promote_stream. destruct (mem stream OUT_OF_PROTOCOL_STREAMS).
  - destruct (dict_get frozen stream); [|done]. destruct (streams d !! _) as [row|]; [|done].
    destruct (s_prepared_revision row); [|done]. intros [= _ <-]. frame.
  - destruct (streams d !! _) as [row|]; [|done]. intros (f & _ & H)%bind_Ok. injection H as _ <-. frame.
Qed.

Lemma promote_loop_framed freeze dev frozen todo acc r d d' :
  promote_loop freeze dev frozen todo acc d = Ok (r, d') → framed d d'.
Proof.
  revert acc d. induction todo as [|stream todo IH]; intros acc d; cbn [promote_loop].
  - intros [= _ <-]. reflexivity.
  - intros ([p d1] & E%promote_stream_framed & H)%bind_Ok. apply IH in H. by etransitivity.
Qed.

Lemma store_fragments_framed dev promoted r d d' : store_fragments dev promoted d = Ok (r, d') → framed d d'.
Proof.
  revert d. induction promoted as [|[stream [[? ?] fragment]] promoted IH]; intros d; cbn [store_fragments].
  - intros [= _ <-]. reflexivity.
  - intros (a & _ & H)%bind_Ok. apply IH in H. etransitivity; [|exact H]. destruct (streams d !! _); frame.
Qed.

Lemma stamp_target_framed at_ t d : framed d (stamp_target at_ t d).
Proof.
  destruct t as [[[dev stream] rev] cohort]. unfold stamp_target. destruct (streams d !! _); [|reflexivity].
  destruct (_ && _); frame.
Qed.

Lemma stamp_framed ts at_ d : framed d (stamp_applied_revisions ts at_ d).
Proof.
  unfold stamp_applied_revisions. generalize (stable_sort target_le (remove_dups ts)). intros l. revert d.
  induction l as [|t l IH]; intros d; cbn; [reflexivity|]. etransitivity; [apply stamp_target_framed|apply IH].
Qed.

Lemma stamp_cohort_framed loaded c at_ d : framed d (stamp_settled_cohort loaded c at_ d).
Proof. unfold stamp_settled_cohort. destruct (existsb _ _); [apply stamp_framed|reflexivity]. Qed.

Lemma stamp_cohorts_framed loaded cs at_ d : framed d (fold_left (fun d c => stamp_settled_cohort loaded c at_ d) cs d).
Proof.
  revert d. induction cs as [|c cs IH]; intros d; cbn; [reflexivity|].
  etransitivity; [apply stamp_cohort_framed|apply IH].
Qed.

(** ** New generations *)

(** A generation just stored: the newest of its device, pending and unbound. *)
Record fresh (d d' : Db) (id : Z) (g : Generation) : Prop := {
  fresh_id : id = next_generation_id d;
  fresh_rows : generations d' = <[id := g]> (generations d);
  fresh_status : g_status g = gen_pending;
  fresh_job : g_job_id g = None;
  fresh_jobs : jobs d' = jobs d;
  fresh_move : move d d' }.

Lemma store_generation_fresh sro dev mode doc allowed source revs ctx cohort ts ds attempt cs id d d' :
  store_generation sro dev mode doc allowed source revs ctx cohort ts ds attempt cs d = Ok (id, d') →
  ∃ g, fresh d d' id g ∧ g_device_id g = dev ∧ g_mode g = mode ∧ g_stream_revisions g = revs ∧
       g_settlement_cohort g = cohort ∧ g_removal_context g = ctx ∧ g_allowed_removal_keys g = allowed ∧
       g_apply_attempt_id g = attempt.
Proof.
  unfold store_generation. intros (? & _ & H)%bind_Ok. apply bind_Ok in H as (body & _ & H).
  apply bind_Ok in H as ([seq d1] & Hs & H). unfold next_seq in Hs.
  destruct (generation_counter d !! dev) as [n|] eqn:En; [|done]. injection Hs as <- <-. injection H as <- <-.
  set (g := mkGen (next_generation_id d) dev (n + 1) mode gen_pending body (digest_document mode body allowed) allowed
              source revs cohort ctx attempt None None None None None 0 None (clock d) (clock d) None).
  exists g. split.
  - constructor; [reflexivity..|]. apply (move_new_generation _ _ g n); [exact En|try reflexivity..].
    unfold digest_matches. by apply bool_decide_eq_true.
  - done.
Qed.

(** The two constructors of a generation: frames, then the new row. *)
Lemma create_generation_fresh freeze prune sro so dev names mode allowed doc ctx cohort ts ds attempt frozen cs id d d' :
  create_generation freeze prune sro so dev names mode allowed doc ctx cohort ts ds attempt frozen cs d = Ok (id, d') →
  ∃ d0 g, framed d d0 ∧ fresh d0 d' id g ∧ g_device_id g = dev ∧ g_mode g = mode ∧ g_removal_context g = ctx.
Proof.
  unfold create_generation. destruct so; [done|]. destruct names as [|nm names]; [done|].
  intros ([[] d1] & F1%lock_projection_framed & H)%bind_Ok. apply bind_Ok in H as ([? d2] & F2%refresh_framed & H).
  apply bind_Ok in H as ([promoted d3] & F3%promote_loop_framed & H).
  apply bind_Ok in H as ([[] d4] & F4%store_fragments_framed & H). apply bind_Ok in H as ([body d5] & F5 & H).
  assert (framed d4 d5) as F5'.
  { destruct doc as [b|]; [injection F5 as _ <-; reflexivity|].
    apply bind_Ok in F5 as ([fr d6] & F6%refresh_framed & F5). apply bind_Ok in F5 as (b & _ & F5).
    by injection F5 as _ <-. }
  apply store_generation_fresh in H as (g & Hf & ? & ? & _ & _ & ? & _). exists d5, g. split_and!; try done.
  do 4 (etransitivity; [eassumption|]). done.
Qed.

Lemma create_reissue_fresh prune sro dev mode ctx allowed ts ds id d d' :
  create_reissue_generation prune sro dev mode ctx allowed ts ds d = Ok (id, d') →
  ∃ d0 g, framed d d0 ∧ fresh d0 d' id g ∧ g_device_id g = dev ∧ g_mode g = mode ∧ g_removal_context g = ctx ∧
          g_stream_revisions g = [].
Proof.
  unfold create_reissue_generation. intros ([[] d1] & F1%lock_projection_framed & H)%bind_Ok.
  apply bind_Ok in H as ([? d2] & F2%refresh_framed & H). apply bind_Ok in H as (body & _ & H).
  apply store_generation_fresh in H as (g & Hf & ? & ? & ? & _ & ? & _). exists d2, g. split_and!; try done.
  by etransitivity.
Qed.

(** ** Carriers *)

Lemma job_generations_spec d n g :
  g ∈ job_generations d n ↔ (∃ i, generations d !! i = Some g) ∧ g_job_id g = Some n.
Proof. unfold job_generations. rewrite in_generations_by_seq. unfold is_some_eq. by rewrite bool_decide_eq_true. Qed.

Lemma job_generations_nil d n : job_generations d n = [] →
  ∀ i g, generations d !! i = Some g → g_job_id g ≠ Some n.
Proof.
  intros E i g Hg Hn. assert (g ∈ job_generations d n) as Hin by (apply job_generations_spec; eauto).
  rewrite E in Hin. by apply elem_of_nil in Hin.
Qed.

(** What admission needs of the job it hands out: queued, of the device. *)
Definition carrier_for (d : Db) (dev n : Z) : Prop :=
  ∃ j, jobs d !! n = Some j ∧ j_status j = queued ∧ j_device_id j = Some dev.

Lemma insert_dedicated_move ty dev ctx d : move d (insert_job ty dev false ctx d).
Proof.
  eapply move_new_job; try done. intros m q dv t _ _ (_ & _ & _ & Hc)%queued_coalescible_spec. done.
Qed.

Lemma insert_coalescible_move ty dev ctx d : ty ≠ removal →
  existsb (queued_coalescible dev ty) (map snd (map_to_list (jobs d))) = false → move d (insert_job ty (Some dev) true ctx d).
Proof.
  intros Hty Hnone. eapply move_new_job; try done.
  intros m q dv t _ Hq (Hd & Ht & _ & _)%queued_coalescible_spec. cbn in Hd, Ht. injection Hd as <-. subst t.
  destruct (queued_coalescible dev ty q) eqn:E; [|done]. exfalso. apply not_true_iff_false in Hnone. apply Hnone.
  apply existsb_exists. exists q. split; [|done]. apply list_elem_of_In, list_elem_of_fmap. exists (m, q).
  split; [done|]. by apply elem_of_map_to_list.
Qed.

Lemma insert_job_carrier ty dev co ctx d : carrier_for (insert_job ty (Some dev) co ctx d) dev (next_job_id d).
Proof. eexists. cbn. by rewrite lookup_insert_eq. Qed.

Lemma dedicated_job_spec dev ty ctx n d d' : create_dedicated_job dev ty ctx d = Ok (n, d') →
  n = next_job_id d ∧ d' = insert_job ty (Some dev) false ctx d.
Proof. unfold create_dedicated_job. case_bool_decide; [|done]. by intros [= <- <-]. Qed.

Lemma winner_carrier d dev ty j : Inv d → queued_winner d dev ty = Some j → carrier_for d dev (j_id j).
Proof.
  intros I Hw. unfold queued_winner in Hw.
  assert (j ∈ stable_sort job_le (List.filter (queued_coalescible dev ty) (map snd (map_to_list (jobs d))))) as Hin.
  { destruct (stable_sort _ _) as [|x l]; [done|]. injection Hw as ->. apply list_elem_of_here. }
  rewrite elem_of_stable_sort, list_elem_of_In, filter_In, <-list_elem_of_In in Hin.
  destruct Hin as [([i j'] & -> & Hi%elem_of_map_to_list)%list_elem_of_fmap Hq]. cbn in *.
  exists j'. destruct (inv_jid d I i j' Hi) as [-> _]. unfold queued_coalescible, is_some_eq in Hq.
  rewrite !andb_true_iff, !bool_decide_eq_true in Hq. tauto.
Qed.

Lemma admit_loop_spec fuel dev ty ctx created winner d d' :
  Inv d → ty ≠ removal → admit_loop fuel dev ty ctx d = Ok ((created, winner), d') →
  moves d d' ∧ generations d' = generations d ∧ (∀ n, created = Some n ∨ winner = Some n → carrier_for d' dev n).
Proof.
  intros I Hty. induction fuel as [|fuel IH]; cbn [admit_loop].
  - intros [= <- <- <-]. split_and!; [apply star_refl|done|]. intros n [?|?]; done.
  - destruct (existsb _ _) eqn:Hex.
    + destruct (queued_winner d dev ty) as [w|] eqn:Hw; [|exact IH]. intros [= <- <- <-].
      split_and!; [apply star_refl|done|]. intros n [?|[= <-]]; [done|]. by eapply winner_carrier.
    + intros [= <- <- <-]. split_and!; [by apply move_moves, insert_coalescible_move|done|].
      intros n [[= <-]|?]; [apply insert_job_carrier|done].
Qed.

(** [attach_to_job] of a waiting generation to a queued job of its device. *)
Lemma attach_move d d' id g n b :
  Inv d → generations d !! id = Some g → g_status g = gen_pending → carrier_for d (g_device_id g) n →
  (∀ m old, g_job_id g = Some m → jobs d !! m = Some old → live old = false) →
  attach_to_job id n d = Ok (b, d') → moves d d' ∧ (b = true → generations d' !! id = Some (set_g_job (Some n) g)).
Proof.
  intros I Hg Hp (j & Hj & Hq & Hd) Hold. unfold attach_to_job. rewrite Hg, Hj.
  assert (∀ b', Ok (true, with_generations (<[id := set_g_job (Some n) g]> (generations d)) d) = Ok (b', d') →
    (∀ k h, generations d !! k = Some h → g_job_id h = Some n →
       g_mode h = g_mode g ∧ g_seq h < g_seq g ∧
       ∀ l m, generations d !! l = Some m → same_device m g → g_seq h < g_seq m < g_seq g → g_job_id m = Some n) →
    moves d d' ∧ (b' = true → generations d' !! id = Some (set_g_job (Some n) g))) as Hbind.
  { intros b' [= <- <-] Hc. split; [|intros _; cbn; by rewrite lookup_insert_eq].
    apply move_moves. by eapply (move_attach d _ id g n j). }
  destruct (last (job_generations d n)) as [carried|] eqn:El.
  - destruct (negb (j_coalescible j)); [intros [= <- <-]; split; [apply star_refl|done]|].
    case_bool_decide as Hmode; cbn [negb]; [|done].
    destruct (Z.eqb_spec (g_seq carried) (g_seq g - 1)) as [Hseq|]; [|intros [= <- <-]; split; [apply star_refl|done]].
    intros H. apply (Hbind b H). intros k h Hh Jh.
    apply by_seq_last in El as ((c & Hc) & Jc & Hmax). unfold is_some_eq in Jc, Hmax.
    setoid_rewrite bool_decide_eq_true in Hmax. apply bool_decide_eq_true in Jc.
    specialize (Hmax k h Hh Jh). split_and!.
    + rewrite <-Hmode. by apply (inv_mode d I k c h carried n).
    + lia.
    + intros l m Hm Hs Hb. pose proof (carried_device d I k c h carried n Hh Hc Jh Jc) as Hdev.
      destruct (inv_carrier d I c carried n Hc Jc) as (j' & Hj' & Hd' & _). unfold same_device in *.
      destruct (decide (g_seq m = g_seq carried)) as [E|E].
      * rewrite (inv_uniq d I l c m carried Hm Hc) in Hm; [|unfold same_device; congruence|done]. congruence.
      * apply (inv_contig d I k c l h carried m n j); [done..| |done|done|done|by apply live_spec; left|lia].
        unfold same_device. congruence.
  - intros H. apply (Hbind b H). intros k h Hh Jh. exfalso. apply last_None in El.
    by apply (job_generations_nil d n El k h).
Qed.

(** A fresh dedicated job and the binding of a waiting generation to it. *)
Lemma dedicated_attach d d1 d2 ty ctx id g n b :
  Inv d → generations d !! id = Some g → g_status g = gen_pending →
  (∀ m old, g_job_id g = Some m → jobs d !! m = Some old → live old = false) →
  create_dedicated_job (g_device_id g) ty ctx d = Ok (n, d1) → attach_to_job id n d1 = Ok (b, d2) →
  moves d d2 ∧ b = true ∧ n = next_job_id d ∧ generations d2 = <[id := set_g_job (Some n) g]> (generations d) ∧
  jobs d2 = jobs (insert_job ty (Some (g_device_id g)) false ctx d).
Proof.
  intros I Hg Hp Hold (-> & ->)%dedicated_job_spec Ha.
  pose proof (insert_dedicated_move ty (Some (g_device_id g)) ctx d) as Hm. set (d1 := insert_job _ _ _ _ d) in *.
  assert (Inv d1) as I1 by (by eapply move_inv).
  assert (job_generations d1 (next_job_id d) = []) as Hnone.
  { destruct (job_generations d1 (next_job_id d)) as [|h l] eqn:E; [done|exfalso].
    assert (h ∈ job_generations d1 (next_job_id d)) as ((k & Hk) & Jk)%job_generations_spec
      by (rewrite E; apply list_elem_of_here).
    destruct (inv_carrier d I k h _ Hk Jk) as (j & Hj & _). destruct (inv_jid d I _ _ Hj). lia. }
  pose proof Ha as Ha'. apply (attach_move d1 d2 id g) in Ha; [|done|done|done|apply insert_job_carrier|].
  - unfold attach_to_job in Ha'. rewrite Hnone in Ha'. unfold d1 in Ha' at 2. cbn in Ha'. rewrite lookup_insert_eq, Hg in Ha'. cbn in Ha'.
    injection Ha' as <- <-. destruct Ha as [Ha _]. split_and!; try done.
    eapply moves_trans; [apply move_moves; exact Hm|exact Ha].
  - intros m old Jm Hold'. unfold d1 in Hold'. cbn in Hold'. apply lookup_insert_Some in Hold' as [[<- <-]|[_ Ho]].
    + destruct (inv_carrier d I id g _ Hg Jm) as (j & Hj & _). destruct (inv_jid d I _ _ Hj). lia.
    + by eapply Hold.
Qed.

Lemma dedicated_carrier_moves d d' id g n :
  Inv d → generations d !! id = Some g → g_status g = gen_pending →
  (∀ m old, g_job_id g = Some m → jobs d !! m = Some old → live old = false) →
  create_dedicated_carrier id d = Ok (n, d') →
  moves d d' ∧ n = next_job_id d ∧ generations d' = <[id := set_g_job (Some n) g]> (generations d) ∧
  jobs d' !! n = Some (mkJob n (if some_dict (g_removal_context g) then removal else apply_job) queued false
                         (Some (g_device_id g)) None None
                         (if some_dict (g_removal_context g) then g_removal_context g else None) (clock d) None None 0 None).
Proof.
  intros I Hg Hp Hold. unfold create_dedicated_carrier. rewrite Hg. intros ([n' d1] & Hc & H)%bind_Ok.
  apply bind_Ok in H as ([b d2] & Ha & H).
  assert (∃ ty ctx, create_dedicated_job (g_device_id g) ty ctx d = Ok (n', d1) ∧
            ty = (if some_dict (g_removal_context g) then removal else apply_job) ∧
            ctx = (if some_dict (g_removal_context g) then g_removal_context g else None)) as (ty & ctx & Hc' & Ety & Ectx).
  { destruct (some_dict (g_removal_context g)); [eauto|]. destruct (g_mode g); [eauto|done]. }
  destruct (dedicated_attach d d1 d2 ty ctx id g n' b I Hg Hp Hold Hc' Ha) as (Hm & -> & -> & Eg & Ej).
  injection H as <- <-. split_and!; [done..|]. rewrite Ej. cbn. rewrite lookup_insert_eq. by subst.
Qed.

(** ** Admission of a new generation *)

Lemma unbound_old g (d : Db) : g_job_id g = None →
  ∀ m old, g_job_id g = Some m → jobs d !! m = Some old → live old = false.
Proof. congruence. Qed.

Lemma fresh_lookup d d' id g : fresh d d' id g → generations d' !! id = Some g.
Proof. intros F. rewrite (fresh_rows _ _ _ _ F). by rewrite lookup_insert_eq. Qed.

Lemma admit_apply_moves d d' id g r :
  Inv d → generations d !! id = Some g → g_status g = gen_pending → g_job_id g = None →
  admit_apply_generation id d = Ok (r, d') → moves d d'.
Proof.
  intros I Hg Hp Hj. unfold admit_apply_generation. rewrite Hg. destruct (_ || _).
  - intros ([n d1] & Hc & H)%bind_Ok. apply bind_Ok in H as ([[] d2] & Ha & H). injection H as _ <-.
    unfold require_attach_to_job in Ha. apply txn_bind_Ok in Ha as (b & d3 & Ha & He).
    destruct (dedicated_attach d d1 d3 apply_job None id g n b I Hg Hp (unbound_old g d Hj) Hc Ha) as (Hm & -> & _).
    unfold ensure, lift_res in He. cbn in He. by injection He as <-.
  - intros ([[created winner] d1] & Hc & H)%bind_Ok. unfold admit_coalescible_job in Hc.
    case_bool_decide; [done|]. apply admit_loop_spec in Hc as (Hm1 & Eg & Hcar); [|done|done].
    assert (Inv d1) as I1 by (by eapply moves_inv).
    assert (∀ n, created = Some n ∨ winner = Some n → ∀ b d2, attach_to_job id n d1 = Ok (b, d2) → moves d d2) as Hat.
    { intros n Hn b d2 Ha. eapply moves_trans; [exact Hm1|].
      eapply (attach_move d1 d2 id g n b); [done|by rewrite Eg|done|by apply Hcar|by apply unbound_old|done]. }
    destruct winner as [w|]; [destruct (g_apply_attempt_id g); [done|]|]; destruct created as [c|]; try done;
      apply bind_Ok in H as ([b d2] & Ha & H); injection H as _ <-; (eapply Hat; [|exact Ha]); auto.
Qed.

(** ** Operator exits *)

Lemma executable_head_spec d dev g : executable_head d dev = Some g →
  (∃ i, generations d !! i = Some g) ∧ g_device_id g = dev ∧ is_head d g.
Proof.
  unfold executable_head. destruct (generations_by_seq _ d) as [|x l] eqn:E; [done|]. intros [= ->].
  apply by_seq_head in E as (Hi & [Hd%Z.eqb_eq Hc%negb_true_iff]%andb_true_iff & Hmin).
  split_and!; [done..|]. split; [done|]. intros k h Hh Hs Hcr. apply (Hmin k h Hh).
  unfold same_device in Hs. rewrite Hcr, Hs, Hd, Z.eqb_refl. done.
Qed.

Lemma locked_head_spec g d d' h : Inv d → generations d !! g_id g = Some g →
  require_locked_executable_head g d = Ok (h, d') → framed d d' ∧ h = g ∧ is_head d' g ∧ clock d' = clock d.
Proof.
  intros I Hg. unfold require_locked_executable_head. intros ([[] d1] & Hl & H)%bind_Ok.
  pose proof (lock_projection_tables _ _ _ Hl) as (Eg & _ & Et & _). apply lock_projection_framed in Hl.
  destruct (executable_head d1 (g_device_id g)) as [x|] eqn:Eh; [|done].
  destruct (Z.eqb_spec (g_id x) (g_id g)) as [Eid|]; [|done]. injection H as <- <-.
  apply executable_head_spec in Eh as ((i & Hi) & _ & Hh). rewrite Eg in Hi.
  destruct (inv_gid d I i x Hi) as [<- _]. assert (x = g) as -> by congruence. done.
Qed.

Lemma terminal_row_core st e at_ c g : core_of (terminal_row st e at_ c g) = core_of g ∧
  g_job_id (terminal_row st e at_ c g) = g_job_id g ∧ g_status (terminal_row st e at_ c g) = st.
Proof.
  destruct c as [[[? ?] ?] ?]. unfold terminal_row.
  destruct (snapshot_needed g), st; destruct e; done.
Qed.

(** The compare-and-set of both exits. *)
Lemma claim_blocked_spec d d' id g st :
  Inv d → generations d !! id = Some g → is_head d g → st = abandoned ∨ st = gen_pending →
  claim_blocked_head id st d = Ok (tt, d') →
  moves d d' ∧ status_in (g_status g) BLOCKED_STATUSES = true ∧ jobs d' = jobs d ∧ clock d' = clock d ∧
  ∃ g', generations d' = <[id := g']> (generations d) ∧ core_of g' = core_of g ∧ g_job_id g' = g_job_id g ∧ g_status g' = st.
Proof.
  intros I Hg Hh Hst. unfold claim_blocked_head. rewrite Hg. pose proof (inv_gid d I id g Hg) as [Eid _].
  assert (∀ g' d0, d0 = with_generations (<[id := g']> (generations d)) d → core_of g' = core_of g → g_job_id g' = g_job_id g →
    g_status g' = st → status_in (g_status g) BLOCKED_STATUSES = true →
    moves d d0 ∧ status_in (g_status g) BLOCKED_STATUSES = true ∧ jobs d0 = jobs d ∧ clock d0 = clock d ∧
    ∃ g', generations d0 = <[id := g']> (generations d) ∧ core_of g' = core_of g ∧ g_job_id g' = g_job_id g ∧ g_status g' = st) as K.
  { intros g' d0 -> Hc Hj Hs Hb. split_and!; try done; [|by exists g'].
    apply move_moves. by eapply (move_exit _ _ id g g'); [|done|done|done|rewrite Hs|..]. }
  intros ([claimed d1] & Hc & H)%bind_Ok. destruct Hst as [-> | ->]; cbn in Hc.
  - unfold terminalize_generations in Hc. cbn [status_in] in Hc.
    replace (status_in abandoned TERMINAL) with true in Hc by done. cbn [terminalize_loop] in Hc. rewrite Eid, Hg in Hc.
    unfold terminal_condition in Hc. rewrite bool_decide_eq_true_2 in Hc by done. cbn [andb] in Hc.
    destruct (status_in (g_status g) BLOCKED_STATUSES) eqn:Hb; injection Hc as <- <-.
    + case_bool_decide; [|done]. injection H as <-.
      destruct (terminal_row_core abandoned None (clock d) (carrier_snapshot d (g_job_id g)) g) as (?&?&?). by eapply K.
    + by rewrite bool_decide_eq_false_2 in H by set_solver.
  - destruct (status_in (g_status g) BLOCKED_STATUSES) eqn:Hb; injection Hc as <- <-.
    + case_bool_decide; [|done]. injection H as <-. by eapply K.
    + by rewrite bool_decide_eq_false_2 in H by set_solver.
Qed.

Lemma framed_inv d d' : framed d d' → Inv d → Inv d'.
Proof. intros F%framed_moves. by apply moves_inv. Qed.

(** Framing keeps rows, so a fact about a row's carrier carries over. *)
Lemma dead_carrier_framed d d' g : framed d d' →
  (∀ m old, g_job_id g = Some m → jobs d !! m = Some old → live old = false) →
  ∀ m old, g_job_id g = Some m → jobs d' !! m = Some old → live old = false.
Proof. intros (_ & -> & _). done. Qed.

Lemma advance_locked_moves b dev r d d' : Inv d → advance_generations_locked b dev d = Ok (r, d') → moves d d'.
Proof.
  intros I. unfold advance_generations_locked. destruct (executable_head d dev) as [g|] eqn:Eh;
    [|intros [= _ <-]; apply star_refl].
  apply executable_head_spec in Eh as ((i & Hg) & Hd & Hh). destruct (inv_gid d I i g Hg) as [<- _].
  case_bool_decide as Hp; cbn [negb]; [|intros [= _ <-]; apply star_refl].
  assert (∀ d0 g0, Inv d0 → generations d0 !! g_id g = Some g0 → g_status g0 = gen_pending → g_job_id g0 = None →
    ('(job_id, d1) ← create_dedicated_carrier (g_id g) d0; Ok (Some job_id, d1)) = Ok (r, d') → moves d0 d') as Hrep.
  { intros d0 g0 I0 Hg0 Hp0 Hn0 ([n d1] & Hc & H)%bind_Ok. injection H as _ <-.
    by eapply dedicated_carrier_moves in Hc as [Hm _]; [..|apply unbound_old]. }
  destruct (g_job_id g) as [n|] eqn:Hj; [|by apply Hrep with (g0 := g)].
  destruct b; [intros [= _ <-]; apply star_refl|].
  assert (∀ P, ('(job_id, d1) ← create_dedicated_carrier (g_id g)
                  (with_generations (<[g_id g := set_g_job None g]> (generations d)) d); Ok (Some job_id, d1)) = P →
    (∀ old, jobs d !! n = Some old → live old = false) → P = Ok (r, d') → moves d d') as Hun.
  { intros P <- Hold H. set (d1 := with_generations (<[g_id g := set_g_job None g]> (generations d)) d) in *.
    assert (move d d1) as M1.
    { apply (move_unbind d d1 (g_id g) g); try done; [congruence|]. intros m old Jm. assert (m = n) as -> by congruence. apply Hold. }
    assert (Inv d1) as I1 by (by eapply move_inv).
    eapply moves_trans; [by apply move_moves|]. eapply (Hrep d1 (set_g_job None g)); try done.
    cbn. by rewrite lookup_insert_eq. }
  destruct (jobs d !! n) as [old|] eqn:Ho.
  - destruct (j_status old) eqn:Es; [intros [= _ <-]; apply star_refl|done|..]; apply (Hun _ eq_refl);
      intros ? [= <-]; unfold live; by rewrite Es.
  - apply (Hun _ eq_refl). done.
Qed.

Lemma advance_device_moves b dev r d d' : Inv d → advance_device_generations b dev d = Ok (r, d') → moves d d'.
Proof.
  intros I. unfold advance_device_generations. intros ([[] d1] & F%lock_projection_framed & H)%bind_Ok.
  apply advance_locked_moves in H; [|by eapply framed_inv]. eapply moves_trans; [by apply framed_moves|done].
Qed.

(** A blocked head, claimed: the shared first half of retry and reconcile. *)
Lemma exit_first_half d d1 d2 id g head st :
  Inv d → generations d !! id = Some g → require_locked_executable_head g d = Ok (head, d1) →
  st = abandoned ∨ st = gen_pending → claim_blocked_head id st d1 = Ok (tt, d2) →
  head = g ∧ framed d d1 ∧ moves d d2 ∧ Inv d2 ∧ status_in (g_status g) BLOCKED_STATUSES = true ∧ jobs d2 = jobs d ∧
  clock d2 = clock d ∧
  ∃ g', generations d2 = <[id := g']> (generations d) ∧ core_of g' = core_of g ∧ g_job_id g' = g_job_id g ∧ g_status g' = st.
Proof.
  intros I Hg Hl Hst Hc. destruct (inv_gid d I id g Hg) as [<- _].
  apply locked_head_spec in Hl as (F & -> & Hh & Ht); [|done..]. pose proof F as (Eg & Ej & _).
  assert (Inv d1) as I1 by (by eapply framed_inv).
  apply (claim_blocked_spec d1 d2 (g_id g) g) in Hc as (Hm & Hb & Ej2 & Et & g' & Hrest); [|done|by rewrite Eg|done|done].
  rewrite Eg in Hrest. split_and!; [done|done| |by eapply moves_inv|done|congruence|congruence|by exists g'].
  eapply moves_trans; [by apply framed_moves|done].
Qed.

Lemma retry_moves id r d d' : Inv d → retry_generation id d = Ok (r, d') → moves d d'.
Proof.
  intros I. unfold retry_generation. destruct (generations d !! id) as [g|] eqn:Hg; [|intros [= _ <-]; apply star_refl].
  intros ([head d1] & Hl & H)%bind_Ok. apply bind_Ok in H as ([] & _ & H). apply bind_Ok in H as ([] & _ & H).
  apply bind_Ok in H as ([[] d2] & Hc & H). apply bind_Ok in H as ([n d3] & Hd & H).
  destruct (exit_first_half d d1 d2 id g head gen_pending) as (-> & F & Hm & I2 & Hb & Ej & _ & g' & Eg & Hcore & Hj & Hs);
    [done..|by right|done|].
  assert (moves d2 d3) as Hm3.
  { apply (dedicated_carrier_moves d2 d3 id g' n); [done|rewrite Eg; apply lookup_insert_eq|done| |done].
    intros m old Jm Ho. rewrite Hj in Jm. rewrite Ej in Ho. by eapply (blocked_not_live d id g m old). }
  eapply moves_trans; [exact Hm|]. eapply moves_trans; [exact Hm3|].
  destruct (some_dict _); [|injection H as _ <-; apply star_refl]. apply bind_Ok in H as (ids & _ & H).
  destruct ids; injection H as _ <-; [apply star_refl|]. apply framed_moves. frame.
Qed.

Lemma reconcile_moves b id r d d' : Inv d → reconcile_generation b id d = Ok (r, d') → moves d d'.
Proof.
  intros I. unfold reconcile_generation. destruct (generations d !! id) as [g|] eqn:Hg; [|intros [= _ <-]; apply star_refl].
  intros ([head d1] & Hl & H)%bind_Ok. apply bind_Ok in H as ([] & _ & H). apply bind_Ok in H as ([[] d2] & Hc & H).
  destruct (exit_first_half d d1 d2 id g head abandoned) as (-> & F & Hm & I2 & _); [done..|by left|done|].
  assert (framed d2 (match g_settlement_cohort g with Some c => stamp_settled_cohort ∅ c (clock d2) d2 | None => d2 end)) as F2.
  { destruct (g_settlement_cohort g); [apply stamp_cohort_framed|reflexivity]. }
  apply advance_locked_moves in H; [|by eapply framed_inv].
  eapply moves_trans; [exact Hm|]. eapply moves_trans; [by apply framed_moves|exact H].
Qed.

(** Under the invariant no running generation is stranded. *)
Lemma no_stranded d : Inv d → List.filter (stranded d) (all_generations d) = [].
Proof.
  intros I. destruct (List.filter (stranded d) (all_generations d)) as [|g l] eqn:E; [done|exfalso].
  assert (In g (List.filter (stranded d) (all_generations d))) as Hin by (rewrite E; by left).
  apply filter_In in Hin as [Hin Hs]. apply list_elem_of_In, in_all_generations in Hin as [i Hg].
  unfold stranded in Hs. apply andb_true_iff in Hs as [Hr%bool_decide_eq_true Hs].
  destruct (g_job_id g) as [n|] eqn:Hj; [|by eapply (inv_running d I i g)].
  destruct (inv_carrier d I i g n Hg Hj) as (j & Hjn & _ & Hc). cbn in Hs. rewrite Hjn in Hs.
  rewrite Hr in Hc. destruct (j_status j); done.
Qed.

Lemma advance_all_moves locked devs d d' : Inv d → advance_all locked devs d = Ok d' → moves d d'.
Proof.
  revert d. induction devs as [|dev devs IH]; intros d I; cbn [advance_all]; [intros [= <-]; apply star_refl|].
  destruct (advance_device_generations (locked dev) dev d) as [[r d1]|e] eqn:E.
  - intros H. pose proof E as Hm%advance_device_moves; [|done]. eapply moves_trans; [exact Hm|].
    apply IH; [by eapply moves_inv|done].
  - destruct e; try done; by apply IH.
Qed.

Lemma recover_moves locked n d d' : Inv d → recover_generations locked d = Ok (n, d') → moves d d'.
Proof.
  intros I. unfold recover_generations. rewrite (no_stranded d I). intros ([t d1] & Ht & H)%bind_Ok. cbn in Ht.
  injection Ht as _ <-. apply bind_Ok in H as (d2 & Ha & H). injection H as _ <-. by eapply advance_all_moves.
Qed.

(** ** The worker *)

(** [d'] differs from [d] in the status-bearing columns of the rows [ids] only. *)
Definition rewritten (ids : gset Z) (st : GenerationStatus) (d d' : Db) : Prop :=
  (∀ i, match generations d !! i, generations d' !! i with
        | Some g, Some g' => core_of g' = core_of g ∧ g_job_id g' = g_job_id g ∧
                             g_status g' = if decide (i ∈ ids) then st else g_status g
        | None, None => True
        | _, _ => False
        end) ∧
  d' = with_generations (generations d') d.

Lemma rewritten_refl st d : rewritten ∅ st d d.
Proof.
  split; [|by destruct d]. intros i. destruct (generations d !! i) as [g|]; [|done].
  rewrite decide_False by set_solver. done.
Qed.

Lemma terminalize_loop_rewritten gs st e at_ landed d :
  (∀ known, known ∈ gs → ∃ cur, generations d !! g_id known = Some cur ∧ g_job_id cur = g_job_id known) →
  rewritten (list_to_set (map g_id gs)) st d (terminalize_loop gs st e None at_ landed d).2 ∧
  (terminalize_loop gs st e None at_ landed d).1 = list_to_set (map g_id gs) ∪ landed.
Proof.
  revert landed d. induction gs as [|known gs IH]; intros landed d Hgs; cbn [terminalize_loop].
  - split; [apply rewritten_refl|set_solver].
  - destruct (Hgs known) as (cur & Hcur & Hj); [apply list_elem_of_here|]. rewrite Hcur.
    unfold terminal_condition. rewrite bool_decide_eq_true_2 by done. cbn [andb].
    set (row := terminal_row st e at_ _ cur). set (d1 := with_generations (<[g_id known := row]> (generations d)) d).
    destruct (terminal_row_core st e at_ (carrier_snapshot d (g_job_id known)) cur) as (Rc & Rj & Rs).
    destruct (IH ({[g_id known]} ∪ landed) d1) as [[Hrow Hd] Hl].
    { intros k Hk. destruct (Hgs k) as (c & Hc & Hjc); [by apply list_elem_of_further|]. unfold d1. cbn.
      destruct (decide (g_id known = g_id k)) as [E|E].
      - exists row. rewrite E, lookup_insert_eq. split; [done|]. unfold row. rewrite Rj. congruence.
      - exists c. by rewrite lookup_insert_ne. }
    split; [|rewrite Hl; set_solver]. split; [|rewrite Hd at 1; by destruct d].
    intros i. specialize (Hrow i). destruct (decide (i = g_id known)) as [->|Hne].
    + rewrite Hcur. unfold d1 in Hrow at 1. cbn in Hrow. rewrite lookup_insert_eq in Hrow.
      destruct (generations (terminalize_loop _ _ _ _ _ _ _).2 !! g_id known) as [g'|]; [|done].
      destruct Hrow as (Hc & Hjj & Hs). cbn in Hs. rewrite (decide_True (P := g_id known ∈ _)) by set_solver. unfold row in *.
      split_and!; [congruence..|]. rewrite Hs. destruct (decide _); congruence.
    + unfold d1 in Hrow at 1. cbn in Hrow. rewrite lookup_insert_ne in Hrow by done.
      destruct (generations d !! i) as [g|], (generations (terminalize_loop _ _ _ _ _ _ _).2 !! i) as [g'|]; try done.
      destruct Hrow as (Hc & Hjj & Hs). split_and!; [done..|]. rewrite Hs.
      apply decide_ext. set_solver.
Qed.

Lemma job_generations_ids d n i g : Inv d → generations d !! i = Some g →
  (i ∈ (list_to_set (map g_id (job_generations d n)) : gset Z) ↔ g_job_id g = Some n).
Proof.
  intros I Hg. rewrite elem_of_list_to_set, list_elem_of_fmap. split.
  - intros (h & -> & ((k & Hk) & Jh)%job_generations_spec). destruct (inv_gid d I k h Hk) as [<- _]. congruence.
  - intros J. exists g. split; [symmetry; apply (inv_gid d I i g Hg)|]. apply job_generations_spec. eauto.
Qed.

(** [settle_job_generations]: its job's generations move to the outcome; the stamps are a frame. *)
Lemma settle_spec n st e d d0 d' :
  Inv d → generations d0 = generations d → settle_job_generations n st e d0 = Ok (tt, d') →
  ∃ d1, framed d1 d' ∧ d1 = with_generations (generations d1) d0 ∧
    (moved n st d d1 ∧ status_in st TERMINAL = true ∨
     generations d1 = generations d ∧ ∀ i g, generations d !! i = Some g → g_job_id g ≠ Some n).
Proof.
  intros I Eg. unfold settle_job_generations.
  assert (job_generations d0 n = job_generations d n) as Ejg.
  { unfold job_generations, generations_by_seq, all_generations. by rewrite Eg. }
  rewrite Ejg. destruct (job_generations d n) as [|g0 gs] eqn:E.
  - intros [= <-]. exists d0. split_and!; [reflexivity|by destruct d0|]. right. split; [done|]. by apply job_generations_nil.
  - rewrite <-E. intros ([landed d1] & Ht & H)%bind_Ok. unfold terminalize_generations in Ht.
    destruct (status_in st TERMINAL) eqn:Hst; [|done].
    destruct (terminalize_loop_rewritten (job_generations d n) st e (clock d0) ∅ d0) as [[Hrow Hd] _].
    { intros known ((k & Hk) & _)%job_generations_spec. rewrite Eg. destruct (inv_gid d I k known Hk) as [-> _]. eauto. }
    injection Ht as Ht. rewrite Ht in Hrow, Hd. cbn in Hrow, Hd. exists d1. split_and!.
    + case_bool_decide; [|injection H as <-; reflexivity]. injection H as <-.
      etransitivity; [|apply stamp_cohorts_framed]. apply stamp_framed.
    + done.
    + left. split; [|done]. intros i. specialize (Hrow i). rewrite Eg in Hrow.
      destruct (generations d !! i) as [g|] eqn:Hg; [|done]. destruct (generations d1 !! i) as [g'|]; [|done].
      destruct Hrow as (? & ? & ->). split_and!; [done..|]. apply decide_ext. by apply job_generations_ids.
Qed.

Lemma moved_none n st d d1 : generations d1 = generations d →
  (∀ i g, generations d !! i = Some g → g_job_id g ≠ Some n) → moved n st d d1.
Proof.
  intros E Hn i. rewrite E. destruct (generations d !! i) as [g|] eqn:Hg; [|done].
  rewrite decide_False by (by eapply Hn). done.
Qed.

Lemma terminalize_moves ue n status expect att result error outcome w d d' :
  Inv d → expect = queued ∨ expect = running →
  terminalize ue n status expect att result error None outcome d = Ok (w, d') → moves d d'.
Proof.
  intros I Hex. unfold terminalize. intros ([] & Hst & H)%bind_Ok. apply guard_or_Ok, bool_decide_eq_true in Hst.
  apply bind_Ok in H as (locked & _ & H). destruct locked as [res|]; [|injection H as _ <-; apply star_refl].
  unfold cas_job_status in H. destruct (jobs d !! n) as [j|] eqn:Hj; [|injection H as _ <-; apply star_refl].
  destruct (owns expect att j) eqn:Ho; [|injection H as _ <-; apply star_refl]. cbn zeta in H.
  set (j' := set_j_outcome _ _ (set_j_status status j)) in *. set (d0 := with_jobs (<[n := j']> (jobs d)) d) in *.
  apply bind_Ok in H as ([[] d2] & Hs & H). apply (settle_spec _ _ _ d) in Hs as (d1 & F & Ed & Hmv); [|done|done].
  set (st := default _ outcome) in *.
  assert (move d d1) as M1.
  { assert (∃ st', status_in st' TERMINAL = true ∧ moved n st' d d1) as (st' & Hst' & Hm).
    { destruct Hmv as [[? ?]|[? ?]]; [eauto|]. exists settled. split; [done|]. by apply moved_none. }
    apply (move_terminal d d1 n j j' st'); try done; [|by rewrite Ed| |by rewrite Ed].
    - apply live_spec. unfold owns in Ho. apply andb_true_iff in Ho as [->%bool_decide_eq_true _]. done.
    - unfold live. cbn. apply bool_decide_eq_false. unfold TERMINAL_STATUSES in Hst. set_solver. }
  eapply moves_trans; [by apply move_moves|]. eapply moves_trans; [by apply framed_moves|].
  assert (j_device_id j' = j_device_id j) as Ej' by done. destruct (j_device_id j') as [dev|]; [|injection H as _ <-; apply star_refl].
  unfold allocate_settle_seq in H. destruct (settle_counter d2 !! dev) as [m|]; [|done].
  cbn in H. injection H as _ <-. destruct (jobs d2 !! n) as [j2|] eqn:Hj2; [|apply framed_moves; frame].
  apply moves_trans with (with_settle_counter (<[dev := m + 1]> (settle_counter d2)) d2); [apply framed_moves; frame|].
  apply move_moves. by apply (move_job_field _ _ n j2 (set_j_settle (Some (m + 1)) j2)).
Qed.

(** Without a queued successor the requeued job does not collide with the index. *)
Lemma requeue_index d n j j' : Inv d → jobs d !! n = Some j → j_status j = running → job_core j' = job_core j →
  superseded_by n queued d = None → index_admits d n j'.
Proof.
  intros I Hj Hr Hcore Hsup m q dev ty Hne Hq (Hd & Ht & _ & Hc)%queued_coalescible_spec.
  unfold job_core in Hcore. injection Hcore as _ Et Ec Ed. rewrite Ed in Hd. rewrite Et in Ht. rewrite Ec in Hc. subst ty.
  unfold superseded_by in Hsup. rewrite Hj, Hr, Hd in Hsup.
  rewrite bool_decide_eq_false_2 in Hsup by (by apply (inv_dedicated d I n)).
  destruct (queued_coalescible dev (j_type j) q) eqn:E; [exfalso|done].
  apply queued_coalescible_spec in E as (Eqd & Eqt & Eqs & _). unfold queued_successor_id in Hsup.
  destruct (List.find _ _) as [x|] eqn:Ef; [done|]. eapply find_none in Ef.
  - unfold is_some_eq in Ef. rewrite Eqd, Eqt, Eqs in Ef. by rewrite !bool_decide_eq_true_2 in Ef.
  - apply list_elem_of_In, list_elem_of_fmap. exists (m, q). split; [done|]. by apply elem_of_map_to_list.
Qed.

Lemma requeue_lookup n d i : generations (requeue_job_generations n d) !! i =
  (fun g => if is_some_eq (g_job_id g) n && bool_decide (g_status g = gen_running)
            then set_g_status gen_pending (clock d) g else g) <$> generations d !! i.
Proof. apply (lookup_update_where (K := Z)). Qed.

Lemma mark_lookup n d i : generations (mark_job_generations_running n d) !! i =
  (fun g => if is_some_eq (g_job_id g) n && bool_decide (g_status g = gen_pending)
            then set_g_attempts (g_attempts g + 1) (set_g_status gen_running (clock d) g) else g) <$> generations d !! i.
Proof. apply (lookup_update_where (K := Z)). Qed.

Lemma terminalize_running_moves ue n status e att r d d' :
  Inv d → terminalize_running ue n status e att d = Ok (r, d') → moves d d'.
Proof.
  intros I. unfold terminalize_running.
  destruct (superseded_by n status d) as [succ|] eqn:Hsup.
  { intros ([w d1] & Ht & H)%bind_Ok. injection H as _ <-. eapply terminalize_moves; [done|by right|exact Ht]. }
  assert (∀ o, ('(w, d1) ← terminalize ue n status running att None e None o d; Ok (option_map tw_status w, d1)) = Ok (r, d') →
            moves d d') as Ht.
  { intros o ([w d1] & Ht & H)%bind_Ok. injection H as _ <-. eapply terminalize_moves; [done|by right|exact Ht]. }
  destruct status; try (by apply Ht). unfold cas_job_status.
  destruct (jobs d !! n) as [j|] eqn:Hj; [|intros [= _ <-]; apply star_refl].
  destruct (owns running att j) eqn:Ho; [|intros [= _ <-]; apply star_refl]. intros [= _ <-].
  unfold owns in Ho. apply andb_true_iff in Ho as [Hr%bool_decide_eq_true _]. apply move_moves.
  eapply move_requeue; [exact Hj|exact Hr|reflexivity|done|done|by eapply requeue_index| |done].
  intros i. rewrite requeue_lookup. cbn [generations with_jobs].
  destruct (generations d !! i) as [g|] eqn:Hg; [|done]. cbn. unfold is_some_eq. destruct (decide (g_job_id g = Some n)) as [J|J].
  - destruct (inv_carrier d I i g n Hg J) as (j' & Hj' & _ & Hc). assert (j' = j) as -> by congruence.
    rewrite Hr in Hc. rewrite !bool_decide_eq_true_2 by done. done.
  - rewrite bool_decide_eq_false_2 by done. done.
Qed.

Lemma delete_own_framed reg d : framed d (delete_own_claim reg d).
Proof. unfold delete_own_claim. destruct (reg_device reg), (reg_token reg); try frame. destruct (holds_claim reg d); frame. Qed.

Lemma lock_claim_same reg d d' : lock_claim reg d = Ok (tt, d') → d' = d.
Proof. unfold lock_claim. destruct (reg_token reg); [destruct (holds_claim reg d)|]; congruence. Qed.

(** What disposing of a run writes: nothing, one terminal write or one requeue, then claim rows. *)
Inductive terminal_write (ue : Db -> Job -> option json -> res (option pydict)) (d d' : Db) : Prop :=
| tw_nothing : d' = d → terminal_write ue d d'
| tw_terminal n status att result error outcome r :
    terminalize ue n status running att result error None outcome d = Ok (r, d') → terminal_write ue d d'
| tw_running n status error att r : terminalize_running ue n status error att d = Ok (r, d') → terminal_write ue d d'.

Definition disposes ue (d d' : Db) : Prop := ∃ d1 m, terminal_write ue d d1 ∧ d' = with_claims m d1.

Lemma claims_same d : d = with_claims (claims d) d.
Proof. by destruct d. Qed.

Lemma dispose_attempt_writes ue found n att r d d' :
  dispose_execution_attempt ue found n att d = Ok (r, d') → terminal_write ue d d' ∧ (r = false → d' = d).
Proof.
  destruct found; cbn; try (intros [= <- <-]; split; [by constructor|done]); [|done].
  intros ([w d1] & Ht & H)%bind_Ok. destruct w; [|done]. injection H as <- <-. split; [by eapply tw_terminal|done].
Qed.

Lemma revoke_disposes ue dev found d d' : revoke_claim ue dev found d = Ok (tt, d') → disposes ue d d'.
Proof.
  unfold revoke_claim. destruct (claims d !! dev) as [c|]; [|intros [= <-]; exists d, (claims d); split; [by constructor|apply claims_same]].
  intros ([[] d1] & Ht & H)%bind_Ok. injection H as <-. exists d1, (delete dev (claims d1)). split; [|done].
  destruct (c_job_id c ≫= _) as [j|]; [|injection Ht as <-; by constructor].
  unfold revoke_job in Ht. destruct (dispose_execution_attempt _ _ _ _ _) as [[[] d2]|[]] eqn:E; try done.
  - injection Ht as <-. by apply dispose_attempt_writes in E as [? _].
  - apply dispose_attempt_writes in E as [_ E]. specialize (E eq_refl). subst d2. apply bind_Ok in Ht as ([r d3] & Ht & H). injection H as <-. by eapply tw_running.
  - apply bind_Ok in Ht as ([r d3] & Ht & H). injection H as <-. by eapply tw_running.
Qed.

Lemma dispose_body_writes ue found n status e reg d d' :
  dispose_body ue found n status e reg d = Ok (tt, d') → terminal_write ue d d'.
Proof.
  unfold dispose_body, dispose_run. intros ([b d1] & Hr & H)%bind_Ok. apply bind_Ok in Hr as ([[] d2] & ->%lock_claim_same & Hr).
  assert (terminal_write ue d d1 ∧ (b = false → d1 = d)) as [W Eq].
  { destruct (reg_attempt reg) as [a|]; [|injection Hr as <- <-; split; [by constructor|done]].
    destruct (dispose_execution_attempt _ _ _ _ _) as [[r d3]|[]] eqn:E; try done.
    injection Hr as <- <-. by apply dispose_attempt_writes in E. }
  destruct b; [by injection H as <-|]. rewrite Eq in H by done.
  apply bind_Ok in H as ([r d3] & Ht & H). injection H as <-. by eapply tw_running.
Qed.

Lemma delete_own_claims reg d : ∃ m, delete_own_claim reg d = with_claims m d.
Proof.
  unfold delete_own_claim. destruct (reg_device reg), (reg_token reg); try (exists (claims d); apply claims_same).
  destruct (holds_claim reg d); eexists; [reflexivity|apply claims_same].
Qed.

Lemma release_after_disposes ue body reg o d d' : (∀ d1, body d = Ok (tt, d1) → terminal_write ue d d1) →
  release_after body reg d = (o, d') → disposes ue d d'.
Proof.
  intros Hb. unfold release_after. destruct (_ ≫= _) as [d1|ex] eqn:E; intros [= _ <-];
    [|exists d, (claims d); split; [by constructor|apply claims_same]].
  apply bind_Ok in E as ([[] d2] & ->%lock_claim_same & E). apply bind_Ok in E as ([[] d3] & Ht & E). injection E as <-.
  destruct (delete_own_claims reg d3) as [m Hm]. exists d3, m. split; [by apply Hb|done].
Qed.

Lemma mark_failed_disposes ue found n code msg reg o d d' :
  mark_failed_and_release ue found n code msg reg d = (o, d') → disposes ue d d'.
Proof. apply release_after_disposes. intros d1. apply dispose_body_writes. Qed.

Lemma dispose_cancelled_disposes ue found n ty reg o d d' :
  dispose_cancelled ue found n ty reg d = (o, d') → disposes ue d d'.
Proof. apply release_after_disposes. intros d1. apply dispose_body_writes. Qed.

Lemma disposes_moves ue d d' : Inv d → disposes ue d d' → moves d d'.
Proof.
  intros I (d1 & m & W & ->). apply moves_trans with d1; [|apply framed_moves; frame]. destruct W as [->|n st att res err o r Ht|n st err att r Ht].
  - apply star_refl.
  - eapply terminalize_moves; [done|by right|exact Ht].
  - by eapply terminalize_running_moves.
Qed.

(** *** Starting *)

Lemma queued_candidates_spec d dev j : Inv d → j ∈ queued_candidates d dev →
  jobs d !! j_id j = Some j ∧ j_status j = queued ∧ j_device_id j = Some dev.
Proof.
  intros I. unfold queued_candidates. rewrite elem_of_stable_sort, list_elem_of_In, filter_In, <-list_elem_of_In.
  intros [([i j'] & -> & Hi%elem_of_map_to_list)%list_elem_of_fmap Hq]. cbn in *.
  destruct (inv_jid d I i j' Hi) as [-> _]. unfold is_some_eq in Hq.
  rewrite !andb_true_iff, !bool_decide_eq_true in Hq. tauto.
Qed.

Lemma first_admissible_spec locked d dev cs j : first_admissible locked d dev cs = Some j →
  j ∈ cs ∧ job_admissible d (j_id j) dev = true.
Proof.
  induction cs as [|c cs IH]; cbn; [done|]. destruct (locked (j_id c)); [done|].
  destruct (job_admissible d (j_id c) dev) eqn:E.
  - intros [= <-]. split; [apply list_elem_of_here|done].
  - intros [? ?]%IH. split; [by apply list_elem_of_further|done].
Qed.

(** Admission is the barrier: everything before the job's first generation is crossable. *)
Lemma admissible_spec d dev n j : Inv d → jobs d !! n = Some j → j_device_id j = Some dev →
  job_admissible d n dev = true →
  ∀ i k g h, generations d !! i = Some g → g_job_id g = Some n → generations d !! k = Some h → same_device h g →
  (∀ l m, generations d !! l = Some m → g_job_id m = Some n → g_seq h < g_seq m) → crossable h = true.
Proof.
  intros I Hj Hdev. unfold job_admissible. destruct (job_generations d n) as [|first rest] eqn:E.
  - intros _ i k g h Hg Jg. by destruct (job_generations_nil d n E i g Hg).
  - destruct (blocking_predecessor d dev (g_seq first)) as [p|] eqn:Ep; [done|]. intros _ i k g h Hg Jg Hh Hs Hlt.
    assert (first ∈ job_generations d n) as ((l & Hl) & Jl)%job_generations_spec by (rewrite E; apply list_elem_of_here).
    specialize (Hlt l first Hl Jl). unfold blocking_predecessor in Ep.
    destruct (generations_by_seq _ d) as [|x xs] eqn:Eb; [|done]. pose proof (by_seq_nil _ _ Eb k h Hh) as Hf.
    destruct (inv_carrier d I i g n Hg Jg) as (j' & Hj' & Hd' & _). assert (j' = j) as -> by congruence.
    unfold same_device in Hs. cbn beta in Hf. rewrite Hdev in Hd'. injection Hd' as ->.
    rewrite Hs, Z.eqb_refl, (proj2 (Z.ltb_lt _ _) Hlt) in Hf. cbn in Hf. by apply negb_false_iff in Hf.
Qed.

Lemma associate_framed dev reg n d : framed d (associate_claim dev reg n d).
Proof.
  unfold associate_claim. destruct (claims d !! dev) as [c|]; [|frame]. destruct (reg_token reg) as [token|]; [|frame].
  destruct (bool_decide (c_token c = token)); frame.
Qed.

(** What a start wrote, whatever release it was asked for. *)
Lemma start_parts locked dev reg expected only r d d' : start_head_under_claim locked dev reg expected only d = Ok (r, d') →
  (r = None ∧ d' = d) ∨
  ∃ j, r = Some (j_id j, j_run_attempt j + 1) ∧ j ∈ queued_candidates d dev ∧ job_admissible d (j_id j) dev = true ∧
    (∀ e, expected = Some e → check_release d dev e j = Ok tt) ∧
    d' = associate_claim dev reg (j_id j)
           (with_jobs (<[j_id j := start_job j (clock d)]> (jobs d)) (mark_job_generations_running (j_id j) d)).
Proof.
  unfold start_head_under_claim. intros ([[] d0] & ->%lock_claim_same & H)%bind_Ok. apply bind_Ok in H as (want & _ & H).
  destruct (first_admissible locked d dev _) as [j|] eqn:Ef; [|injection H as <- <-; by left].
  apply first_admissible_spec in Ef as [Hin Hadm]. apply list_elem_of_In, filter_In in Hin as [Hin _].
  apply bind_Ok in H as ([] & Hrel & H). injection H as <- <-. right. exists j. split_and!; try done; [by apply list_elem_of_In|].
  by intros e ->.
Qed.

Lemma start_moves locked dev reg expected only r d d' : Inv d →
  start_head_under_claim locked dev reg expected only d = Ok (r, d') → moves d d'.
Proof.
  intros I [[_ ->]|(j & _ & Hin & Hadm & _ & ->)]%start_parts; [apply star_refl|].
  destruct (queued_candidates_spec d dev j I Hin) as (Hj & Hq & Hdev).
  set (d1 := with_jobs _ (mark_job_generations_running (j_id j) d)).
  eapply moves_trans; [|apply framed_moves, associate_framed]. apply move_moves.
  eapply (move_start d d1 (j_id j) j _ dev); [exact Hj|exact Hq|exact Hdev|reflexivity|done|done| | |done].
  - intros i. unfold d1. cbn [generations with_jobs]. rewrite mark_lookup.
    destruct (generations d !! i) as [g|] eqn:Hg; [|done]. cbn. unfold is_some_eq. destruct (decide (g_job_id g = Some (j_id j))) as [J|J].
    + destruct (inv_carrier d I i g _ Hg J) as (j' & Hj' & _ & Hc). assert (j' = j) as -> by congruence.
      rewrite Hq in Hc. rewrite !bool_decide_eq_true_2 by done. done.
    + rewrite bool_decide_eq_false_2 by done. done.
  - by apply (admissible_spec d dev (j_id j) j).
Qed.
