(* ===== verification/Lifecycle.v ===== *)
(** * Histories and progress of the chain

    Generations and jobs are never deleted, their identity columns never change, and their status
    moves along fixed edges; then functional specifications of the operations that make the
    chain progress. *)

From stdpp Require Import base gmap list strings sorting.
From Stdlib Require Import ZArith NArith Lia.
From S2P Require Import Prelude Json Sha256 Registry Document Store Generation Claim GenerationInv Moves.

Local Open Scope Z_scope.

(** ** Status graphs *)

(** [GenerationStatus]: pending and running alternate until a terminal status; a blocked one is
    retried or abandoned; settled and abandoned are final. *)
Inductive generation_edge : GenerationStatus -> GenerationStatus -> Prop :=
| edge_start : generation_edge gen_pending gen_running
| edge_requeue : generation_edge gen_running gen_pending
| edge_end s t : s = gen_pending ∨ s = gen_running → status_in t TERMINAL = true → generation_edge s t
| edge_exit s t : status_in s BLOCKED_STATUSES = true → t = gen_pending ∨ t = abandoned → generation_edge s t.

(** [JobStatus]: queued and running alternate until a terminal status. *)
Inductive job_edge : JobStatus -> JobStatus -> Prop :=
| job_start : job_edge queued running
| job_requeue : job_edge running queued
| job_end s t : s = queued ∨ s = running → t = succeeded ∨ t = job_failed → job_edge s t.

Lemma crossable_final s t : star generation_edge s t → s = settled ∨ s = abandoned → t = s.
Proof.
  induction 1 as [s|s1 s2 s3 H _ IH]; [done|]. intros Hs. exfalso.
  inversion H; subst; destruct Hs; try done; try (by intuition congruence);
    match goal with H : status_in _ BLOCKED_STATUSES = true |- _ => apply blocked_spec in H end; intuition congruence.
Qed.

Lemma terminal_job_final s t : star job_edge s t → s = succeeded ∨ s = job_failed → t = s.
Proof. induction 1 as [s|s1 s2 s3 H _ IH]; [done|]. intros Hs. exfalso. inversion H; intuition congruence. Qed.

(** ** Persistence *)

Definition generation_persists (d d' : Db) : Prop :=
  ∀ i g, generations d !! i = Some g →
  ∃ g', generations d' !! i = Some g' ∧ core_of g' = core_of g ∧ star generation_edge (g_status g) (g_status g').

Definition job_persists (d d' : Db) : Prop :=
  ∀ n j, jobs d !! n = Some j →
  ∃ j', jobs d' !! n = Some j' ∧ job_core j' = job_core j ∧ star job_edge (j_status j) (j_status j').

#[global] Instance generation_persists_preorder : PreOrder generation_persists.
Proof.
  split.
  - intros d i g Hg. exists g. split_and!; [done..|apply star_refl].
  - intros d1 d2 d3 H12 H23 i g Hg. destruct (H12 i g Hg) as (g2 & Hg2 & E2 & S2).
    destruct (H23 i g2 Hg2) as (g3 & Hg3 & E3 & S3). exists g3. split_and!; [done|congruence|by eapply star_trans].
Qed.

#[global] Instance job_persists_preorder : PreOrder job_persists.
Proof.
  split.
  - intros d n j Hj. exists j. split_and!; [done..|apply star_refl].
  - intros d1 d2 d3 H12 H23 n j Hj. destruct (H12 n j Hj) as (j2 & Hj2 & E2 & S2).
    destruct (H23 n j2 Hj2) as (j3 & Hj3 & E3 & S3). exists j3. split_and!; [done|congruence|by eapply star_trans].
Qed.

Lemma star_one {S} (R : S -> S -> Prop) a b : R a b → star R a b.
Proof. intros H. eapply star_step; [done|apply star_refl]. Qed.

Lemma moved_persists n st d d' : moved n st d d' →
  (∀ i g, generations d !! i = Some g → g_job_id g = Some n → generation_edge (g_status g) st) → generation_persists d d'.
Proof.
  intros Hm He i g Hg. specialize (Hm i). rewrite Hg in Hm. destruct (generations d' !! i) as [g'|]; [|done].
  destruct Hm as (Hc & _ & Hs). exists g'. split_and!; [done..|]. rewrite Hs.
  destruct (decide (g_job_id g = Some n)) as [J|J]; [|apply star_refl]. apply star_one. by eapply He.
Qed.

Lemma changed_persists i g g' d d' : changed i g g' d d' → star generation_edge (g_status g) (g_status g') →
  generation_persists d d'.
Proof.
  intros (Hg & E & Hc) Hs k h Hh. rewrite E. destruct (decide (i = k)) as [<-|Hne].
  - exists g'. rewrite lookup_insert_eq. assert (h = g) as -> by congruence. done.
  - exists h. rewrite lookup_insert_ne by done. split_and!; [done..|apply star_refl].
Qed.

Lemma updated_job_persists n j j' d d' : jobs d !! n = Some j → jobs d' = <[n := j']> (jobs d) → job_core j' = job_core j →
  star job_edge (j_status j) (j_status j') → job_persists d d'.
Proof.
  intros Hj E Hc Hs k q Hq. rewrite E. destruct (decide (n = k)) as [<-|Hne].
  - exists j'. rewrite lookup_insert_eq. assert (q = j) as -> by congruence. done.
  - exists q. rewrite lookup_insert_ne by done. split_and!; [done..|apply star_refl].
Qed.

Lemma same_generations_persist d d' : generations d' = generations d → generation_persists d d'.
Proof. intros E i g Hg. exists g. rewrite E. split_and!; [done..|apply star_refl]. Qed.
Lemma same_jobs_persist d d' : jobs d' = jobs d → job_persists d d'.
Proof. intros E n j Hj. exists j. rewrite E. split_and!; [done..|apply star_refl]. Qed.

Lemma live_carried_status d n j i g : Inv d → jobs d !! n = Some j → live j = true → generations d !! i = Some g →
  g_job_id g = Some n → g_status g = match j_status j with queued => gen_pending | _ => gen_running end.
Proof.
  intros I Hj Hl Hg J. destruct (inv_carrier d I i g n Hg J) as (j' & Hj' & _ & Hc). assert (j' = j) as -> by congruence.
  apply live_spec in Hl. destruct (j_status j); intuition congruence.
Qed.

Lemma move_generation_persists d d' : Inv d → move d d' → generation_persists d d'.
Proof.
  intros I []; try (by apply same_generations_persist).
  - intros i h Hh. exists h. destruct (inv_gid d I i h Hh). split_and!; [|done|apply star_refl].
    match goal with E : generations d' = _ |- _ => rewrite E end. rewrite lookup_insert_ne by lia. done.
  - eapply changed_persists; [eassumption|apply star_refl].
  - eapply changed_persists; [eassumption|apply star_refl].
  - eapply moved_persists; [done|]. intros i g Hg J. erewrite (live_carried_status d n j i g); try done.
    + match goal with E : j_status j = _ |- _ => rewrite E end. constructor.
    + apply live_spec. auto.
  - eapply moved_persists; [done|]. intros i g Hg J. erewrite (live_carried_status d n j i g) by done.
    apply edge_end; [|done]. destruct (j_status j); auto.
  - eapply moved_persists; [done|]. intros i g Hg J. erewrite (live_carried_status d n j i g); try done.
    + match goal with E : j_status j = _ |- _ => rewrite E end. constructor.
    + apply live_spec. auto.
  - eapply changed_persists; [done|]. apply star_one, edge_exit; [done|]. intuition.
Qed.

Lemma move_job_persists d d' : Inv d → move d d' → job_persists d d'.
Proof.
  intros I []; try (by apply same_jobs_persist).
  - intros n q Hq. exists q. destruct (inv_jid d I n q Hq). split_and!; [|done|apply star_refl].
    match goal with E : jobs d' = _ |- _ => rewrite E end. rewrite lookup_insert_ne by lia. done.
  - eapply updated_job_persists; [done..|]. match goal with E : j_status j' = j_status j |- _ => rewrite E end. apply star_refl.
  - eapply updated_job_persists; [done..|]. apply star_one.
    repeat match goal with E : j_status _ = _ |- _ => rewrite E end. constructor.
  - eapply updated_job_persists; [done..|]. apply star_one. apply job_end.
    + by apply live_spec.
    + destruct (j_status j') eqn:E; auto; unfold live in *; by rewrite E in *.
  - eapply updated_job_persists; [done..|]. apply star_one.
    repeat match goal with E : j_status _ = _ |- _ => rewrite E end. constructor.
Qed.

Lemma moves_persist d d' : Inv d → moves d d' → generation_persists d d' ∧ job_persists d d'.
Proof.
  intros I H. induction H as [d|d1 d2 d3 H12 H23 IH]; [by split|].
  destruct IH as [IHg IHj]; [by eapply move_inv|]. split.
  - etransitivity; [by apply move_generation_persists|done].
  - etransitivity; [by apply move_job_persists|done].
Qed.

(** ** Dense sequences *)

Definition dense (d : Db) : Prop :=
  ∀ dev n s, generation_counter d !! dev = Some n → 1 <= s <= n →
  ∃ i g, generations d !! i = Some g ∧ g_device_id g = dev ∧ g_seq g = s.

Lemma dense_persists d d' : generation_persists d d' →
  (∀ dev n s, generation_counter d' !! dev = Some n → 1 <= s <= n →
     (∃ m, generation_counter d !! dev = Some m ∧ s <= m) ∨
     ∃ i g, generations d' !! i = Some g ∧ g_device_id g = dev ∧ g_seq g = s) → dense d → dense d'.
Proof.
  intros Hp Hc Hd dev n s Hn Hs. destruct (Hc dev n s Hn Hs) as [(m & Hm & Hle)|]; [|done].
  destruct (Hd dev m s Hm) as (i & g & Hg & Ed & Es); [lia|].
  destruct (Hp i g Hg) as (g' & Hg' & (_ & Dg & Sg & _)%core_fields & _). exists i, g'. split_and!; congruence.
Qed.

Lemma move_dense d d' : Inv d → move d d' → dense d → dense d'.
Proof.
  intros I M. pose proof (move_generation_persists d d' I M) as Hp. apply dense_persists; [done|].
  assert (generation_counter d' = generation_counter d →
    ∀ dev n s, generation_counter d' !! dev = Some n → 1 <= s <= n →
     (∃ m, generation_counter d !! dev = Some m ∧ s <= m) ∨
     ∃ i g, generations d' !! i = Some g ∧ g_device_id g = dev ∧ g_seq g = s) as Hsame.
  { intros -> dev n s Hn Hs. left. exists n. split; [done|lia]. }
  destruct M; try (by apply Hsame); try (by apply Hsame; unfold same_tables in *; tauto).
  - intros dev n s Hn Hs. left. match goal with C : counters_extend d d' |- _ => destruct (C dev) as [E|[_ E]] end.
    + exists n. rewrite <-E. split; [done|lia].
    + rewrite E in Hn. injection Hn as <-. lia.
  - match goal with E : generation_counter d' = _, E' : generations d' = _ |- _ => rewrite E, E' end.
    intros dev m s [[<- <-]|[_ Hm]]%lookup_insert_Some Hs; [|left; exists m; split; [done|lia]].
    destruct (decide (s = n + 1)) as [->|]; [|left; exists n; split; [done|lia]].
    right. exists (next_generation_id d), g. by rewrite lookup_insert_eq.
Qed.

Lemma moves_dense d d' : Inv d → moves d d' → dense d → dense d'.
Proof.
  intros I H. induction H as [d|d1 d2 d3 H12 H23 IH]; [done|]. intros D. apply IH; [by eapply move_inv|by eapply move_dense].
Qed.

(** ** Progress of the chain

    Functional specifications of the worker's start, the advancer and the operator's exits, as
    lemmas over any store that satisfies the invariant. *)


(** ** Heads *)

Lemma head_unique d i g : Inv d → generations d !! i = Some g → is_head d g → executable_head d (g_device_id g) = Some g.
Proof.
  intros I Hg [Hc Hmin]. unfold executable_head. destruct (generations_by_seq _ d) as [|x l] eqn:E.
  - pose proof (by_seq_nil _ _ E i g Hg) as H. cbn beta in H. by rewrite Z.eqb_refl, Hc in H.
  - cbn. f_equal. apply by_seq_head in E as ((k & Hx) & [Hd%Z.eqb_eq Hcx%negb_true_iff]%andb_true_iff & Hle).
    assert (g_seq x <= g_seq g). { apply (Hle i g Hg). cbn beta. by rewrite Z.eqb_refl, Hc. }
    assert (g_seq g <= g_seq x). { by apply (Hmin k x). }
    assert (k = i) as ->; [|congruence]. apply (inv_uniq d I k i x g); try done. lia.
Qed.

(** The head's carrier is admissible. *)
Lemma head_admissible d i g n : Inv d → generations d !! i = Some g → is_head d g → g_job_id g = Some n →
  job_admissible d n (g_device_id g) = true.
Proof.
  intros I Hg [Hc Hmin] Hj. unfold job_admissible. destruct (job_generations d n) as [|first rest] eqn:E.
  - by destruct (job_generations_nil d n E i g Hg).
  - destruct (blocking_predecessor d (g_device_id g) (g_seq first)) as [p|] eqn:Ep; [exfalso|done].
    apply by_seq_head in E as (_ & _ & Hle). unfold is_some_eq in Hle. setoid_rewrite bool_decide_eq_true in Hle.
    specialize (Hle i g Hg Hj). unfold blocking_predecessor in Ep.
    destruct (generations_by_seq _ d) as [|x l] eqn:Eb; [done|]. injection Ep as ->.
    apply by_seq_head in Eb as ((k & Hp) & Hcond & _). rewrite !andb_true_iff, Z.eqb_eq, Z.ltb_lt, negb_true_iff in Hcond.
    destruct Hcond as [[Hd Hlt] Hcp]. specialize (Hmin k p Hp Hd Hcp). lia.
Qed.

(** A row whose binding changed is still the head. *)
Lemma head_rebound d d' i g o : generations d !! i = Some g → is_head d g → generations d' = <[i := set_g_job o g]> (generations d) →
  is_head d' (set_g_job o g).
Proof.
  intros Hg [Hc Hmin] E. split; [done|]. intros k h. rewrite E. intros [[<- <-]|[_ Hh]]%lookup_insert_Some Hs Hch; [done|].
  by apply (Hmin k h).
Qed.

(** ** Carriers *)

(** What [create_dedicated_carrier] needs: an apply generation or a removal context. *)
Definition carriable (g : Generation) : Prop := g_mode g = networked ∨ some_dict (g_removal_context g) = true.

Lemma dedicated_carrier_ok d i g : Inv d → generations d !! i = Some g → carriable g →
  ∃ d', create_dedicated_carrier i d = Ok (next_job_id d, d').
Proof.
  intros I Hg Hcar. unfold create_dedicated_carrier. rewrite Hg.
  assert (∃ ty ctx, (if some_dict (g_removal_context g) then create_dedicated_job (g_device_id g) removal (g_removal_context g) d
     else match g_mode g with detach => Raise (GenerationCarrierCorruption i)
          | networked => create_dedicated_job (g_device_id g) apply_job None d end) =
     Ok (next_job_id d, insert_job ty (Some (g_device_id g)) false ctx d)) as (ty & ctx & ->).
  { destruct (some_dict (g_removal_context g)) eqn:E; [by exists removal, (g_removal_context g)|].
    destruct Hcar as [->|]; [|congruence]. by exists apply_job, None. }
  unfold_res. unfold attach_to_job. cbn [generations jobs insert_job]. rewrite Hg, lookup_insert_eq.
  assert (job_generations (insert_job ty (Some (g_device_id g)) false ctx d) (next_job_id d) = []) as ->.
  { destruct (job_generations _ (next_job_id d)) as [|h l] eqn:E; [done|exfalso].
    assert (h ∈ job_generations (insert_job ty (Some (g_device_id g)) false ctx d) (next_job_id d))
      as ((k & Hk) & Jk)%job_generations_spec by (rewrite E; apply list_elem_of_here).
    destruct (inv_carrier d I k h _ Hk Jk) as (j & Hj & _). destruct (inv_jid d I _ _ Hj). lia. }
  cbn. eauto.
Qed.

(** ** Advancing *)

(** The queued job that carries a pending head after it advanced. *)
Definition carries_head (d : Db) (g0 : Generation) (n : Z) : Prop :=
  ∃ g j, executable_head d (g_device_id g0) = Some g ∧ core_of g = core_of g0 ∧ g_status g = gen_pending ∧
    g_job_id g = Some n ∧ jobs d !! n = Some j ∧ j_status j = queued ∧ j_device_id j = Some (g_device_id g0) ∧
    job_admissible d n (g_device_id g0) = true.

Lemma carried_head d i g n j : Inv d → generations d !! i = Some g → is_head d g → g_status g = gen_pending →
  g_job_id g = Some n → jobs d !! n = Some j → j_status j = queued → carries_head d g n.
Proof.
  intros I Hg Hh Hp Hj Hjn Hq. exists g, j. split_and!; try done.
  - by apply (head_unique d i g).
  - destruct (inv_carrier d I i g n Hg Hj) as (j' & Hj' & Hd & _). congruence.
  - by apply (head_admissible d i g n).
Qed.

Lemma new_carrier_head d d' i g n : Inv d → generations d !! i = Some g → is_head d g → g_status g = gen_pending →
  (∀ m old, g_job_id g = Some m → jobs d !! m = Some old → live old = false) →
  create_dedicated_carrier i d = Ok (n, d') → carries_head d' g n.
Proof.
  intros I Hg Hh Hp Hold Hc.
  destruct (dedicated_carrier_moves d d' i g n I Hg Hp Hold Hc) as (Hm & _ & Eg & Hjn).
  assert (Inv d') as I' by (by eapply moves_inv).
  eapply (carried_head d' i (set_g_job (Some n) g)); try done; [by rewrite Eg, lookup_insert_eq|].
  by eapply head_rebound.
Qed.

Lemma advance_locked_progress d dev g : Inv d → executable_head d dev = Some g → g_status g = gen_pending → carriable g →
  ∃ n d', advance_generations_locked false dev d = Ok (Some n, d') ∧ carries_head d' g n.
Proof.
  intros I Eh Hp Hcar. unfold advance_generations_locked. rewrite Eh.
  apply executable_head_spec in Eh as ((i & Hg) & <- & Hh). destruct (inv_gid d I i g Hg) as [<- _].
  rewrite bool_decide_eq_true_2 by done. cbn [negb]. destruct (g_job_id g) as [n|] eqn:Hj.
  - destruct (inv_carrier d I _ g n Hg Hj) as (j & Hjn & Hd & Hs). rewrite Hjn.
    set (d1 := with_generations (<[g_id g := set_g_job None g]> (generations d)) d).
    assert (live j = false → ∃ m d', create_dedicated_carrier (g_id g) d1 = Ok (m, d') ∧ carries_head d' g m) as Hrep.
    { intros Hl. assert (Inv d1) as I1.
      { eapply move_inv; [|exact I]. apply (move_unbind d d1 (g_id g) g); try done; [congruence|].
        intros m old Jm Ho. congruence. }
      assert (generations d1 !! g_id g = Some (set_g_job None g)) as Hg1 by apply lookup_insert_eq.
      destruct (dedicated_carrier_ok d1 (g_id g) (set_g_job None g) I1 Hg1 Hcar) as [d' Hc]. exists (next_job_id d1), d'.
      split; [done|]. change (carries_head d' (set_g_job None g) (next_job_id d1)).
      eapply (new_carrier_head d1 d' (g_id g) (set_g_job None g)); try done. by eapply head_rebound. }
    destruct (j_status j) eqn:Es.
    + exists n, d. split; [done|]. by eapply carried_head.
    + congruence.
    + destruct Hrep as (m & d' & Hc & Hh'); [unfold live; by rewrite Es|]. exists m, d'. unfold_res. by rewrite Hc.
    + destruct Hrep as (m & d' & Hc & Hh'); [unfold live; by rewrite Es|]. exists m, d'. unfold_res. by rewrite Hc.
  - destruct (dedicated_carrier_ok d (g_id g) g I Hg Hcar) as [d' Hc]. exists (next_job_id d), d'. unfold_res. rewrite Hc.
    split; [done|]. eapply new_carrier_head; try done. by apply unbound_old.
Qed.

Lemma lock_projection_ok dev d : dev ∈ devices d → ∃ d', lock_projection dev d = Ok (tt, d').
Proof.
  intros Hd. unfold lock_projection, lock_device_document. rewrite bool_decide_eq_true_2 by done. unfold_res.
  destruct (generation_counter d !! dev); eauto.
Qed.

Lemma framed_head d d' dev : generations d' = generations d → executable_head d' dev = executable_head d dev.
Proof. intros E. unfold executable_head, generations_by_seq, all_generations. by rewrite E. Qed.

Lemma advance_progress d dev g : Inv d → dev ∈ devices d → executable_head d dev = Some g → g_status g = gen_pending →
  carriable g → ∃ n d', advance_device_generations false dev d = Ok (Some n, d') ∧ carries_head d' g n.
Proof.
  intros I Hd Hh Hp Hc. destruct (lock_projection_ok dev d Hd) as [d1 Hl]. unfold advance_device_generations.
  rewrite Hl. unfold_res. apply lock_projection_framed in Hl as F. pose proof F as (Eg & _).
  apply advance_locked_progress; [by eapply framed_inv|by rewrite (framed_head d)|done|done].
Qed.

(** ** The worker's start *)

Lemma first_admissible_some d dev cs n j : j ∈ cs → j_id j = n → job_admissible d n dev = true →
  ∃ m, first_admissible (fun _ => false) d dev cs = Some m.
Proof.
  intros Hin <- Ha. induction cs as [|c cs IH]; [by apply elem_of_nil in Hin|]. cbn.
  destruct (job_admissible d (j_id c) dev) eqn:E; [by eauto|].
  apply elem_of_cons in Hin as [->|Hin]; [congruence|]. by apply IH.
Qed.

(** The first admissible job is minimal in the FIFO order among the admissible ones. *)
Lemma first_admissible_fifo d dev cs m : StronglySorted (fun a b => job_le a b = true) cs →
  first_admissible (fun _ => false) d dev cs = Some m →
  ∀ j, j ∈ cs → job_admissible d (j_id j) dev = true → j = m ∨ job_le m j = true.
Proof.
  intros Hs. induction Hs as [|c cs Hs IH HF]; intros Hf j Hin Ha; [by apply elem_of_nil in Hin|]. cbn in Hf.
  destruct (job_admissible d (j_id c) dev) eqn:E.
  - injection Hf as <-. apply elem_of_cons in Hin as [->|Hin]; [by left|right]. rewrite Forall_forall in HF. by apply HF.
  - apply elem_of_cons in Hin as [->|Hin]; [congruence|]. by apply IH.
Qed.

Lemma job_le_total a b : job_le a b = false → job_le b a = true.
Proof.
  unfold job_le. rewrite orb_false_iff, andb_false_iff, orb_true_iff, andb_true_iff, !Z.ltb_ge, !Z.ltb_lt, !Z.eqb_eq, !Z.eqb_neq,
    Z.leb_gt, Z.leb_le. lia.
Qed.
Lemma job_le_trans a b c : job_le a b = true → job_le b c = true → job_le a c = true.
Proof.
  unfold job_le. rewrite !orb_true_iff, !andb_true_iff, !Z.ltb_lt, !Z.eqb_eq, !Z.leb_le. lia.
Qed.

Lemma candidates_sorted d dev : StronglySorted (fun a b => job_le a b = true) (queued_candidates d dev).
Proof.
  apply Sorted_StronglySorted; [intros a b c; apply job_le_trans|].
  exact (stable_sort_sorted job_le job_le_total _).
Qed.

Lemma queued_candidate d dev n j : Inv d → jobs d !! n = Some j → j_status j = queued → j_device_id j = Some dev →
  j ∈ queued_candidates d dev.
Proof.
  intros I Hj Hq Hd. unfold queued_candidates. rewrite elem_of_stable_sort, list_elem_of_In, filter_In, <-list_elem_of_In.
  split.
  - apply list_elem_of_fmap. exists (n, j). split; [done|]. by apply elem_of_map_to_list.
  - unfold is_some_eq. by rewrite !bool_decide_eq_true_2.
Qed.

Lemma filter_all {A} (l : list A) : List.filter (fun _ => true) l = l.
Proof. induction l as [|x l IH]; cbn; congruence. Qed.

Lemma start_spec d dev reg n j : Inv d → holds_claim reg d = true → jobs d !! n = Some j → j_status j = queued →
  j_device_id j = Some dev → job_admissible d n dev = true →
  ∃ m q d', start_head_under_claim (fun _ => false) dev reg None None d = Ok (Some (m, j_run_attempt q + 1), d') ∧
    jobs d !! m = Some q ∧ (q = j ∨ job_le q j = true) ∧
    (∃ q', jobs d' !! m = Some q' ∧ j_status q' = running ∧ j_run_attempt q' = j_run_attempt q + 1) ∧
    (∀ i g, generations d !! i = Some g → g_job_id g = Some m →
       ∃ g', generations d' !! i = Some g' ∧ g_status g' = gen_running ∧ g_attempts g' = g_attempts g + 1).
Proof.
  intros I Hh Hj Hq Hd Ha. unfold start_head_under_claim.
  assert (lock_claim reg d = Ok (tt, d)) as -> by (unfold lock_claim; rewrite Hh; by destruct (reg_token reg)).
  pose proof (queued_candidate d dev n j I Hj Hq Hd) as Hin. destruct (inv_jid d I n j Hj) as [Eid _].
  destruct (first_admissible_some d dev _ n j Hin Eid Ha) as [q Hf].
  pose proof (first_admissible_spec _ _ _ _ _ Hf) as [Hqin _]. destruct (queued_candidates_spec d dev q I Hqin) as (Hqj & Hqq & _).
  pose proof (first_admissible_fifo _ _ _ _ (candidates_sorted d dev) Hf j Hin) as Hfifo. rewrite Eid in Hfifo. specialize (Hfifo Ha).
  unfold expected_job. unfold_res. rewrite filter_all, Hf. eexists (j_id q), q, _. split; [reflexivity|]. split; [done|].
  split; [intuition|]. set (d1 := with_jobs _ (mark_job_generations_running (j_id q) d)).
  pose proof (associate_framed dev reg (j_id q) d1) as (Eg & Ej & _). split.
  - eexists. rewrite Ej. cbn. rewrite lookup_insert_eq. done.
  - intros i g Hg Jg. eexists. rewrite Eg. unfold d1. cbn [generations with_jobs]. rewrite mark_lookup, Hg. cbn.
    destruct (inv_carrier d I i g _ Hg Jg) as (q' & Hq' & _ & Hs). assert (q' = q) as -> by congruence. rewrite Hqq in Hs.
    unfold is_some_eq. rewrite !bool_decide_eq_true_2 by done. done.
Qed.

(** ** Operator exits *)

Lemma locked_head_ok d i g : Inv d → generations d !! i = Some g → g_device_id g ∈ devices d →
  match require_locked_executable_head g d with
  | Ok (h, d') => h = g ∧ framed d d' ∧ is_head d' g ∧ clock d' = clock d ∧ streams d' = streams d ∧ devices d' = devices d
  | Raise e => e = GenerationNotBlocked i ∧ executable_head d (g_device_id g) ≠ Some g
  end.
Proof.
  intros I Hg Hd. destruct (inv_gid d I i g Hg) as [<- _].
  destruct (lock_projection_ok (g_device_id g) d Hd) as [d1 Hl].
  destruct (require_locked_executable_head g d) as [[h d']|e] eqn:E.
  - pose proof E as (F & -> & Hh & Ht)%locked_head_spec; [|done..]. split_and!; try done.
    all: unfold require_locked_executable_head in E; rewrite Hl in E; unfold_res;
      destruct (executable_head d1 _); [|done]; destruct (_ =? _); [|done]; injection E as _ <-;
      unfold lock_projection, lock_device_document in Hl; unfold_res; destruct (bool_decide _); [|done];
      destruct (generation_counter d !! _); by injection Hl as <-.
  - unfold require_locked_executable_head in E. rewrite Hl in E. unfold_res.
    pose proof (lock_projection_tables _ _ _ Hl) as (Eg & _). rewrite (framed_head d d1 _ Eg) in E.
    destruct (executable_head d (g_device_id g)) as [x|] eqn:Eh.
    + destruct (Z.eqb_spec (g_id x) (g_id g)); [done|]. injection E as <-. split; [done|]. congruence.
    + injection E as <-. done.
Qed.

Lemma claim_blocked_ok d i g st : Inv d → generations d !! i = Some g → status_in (g_status g) BLOCKED_STATUSES = true →
  st = abandoned ∨ st = gen_pending → ∃ g', core_of g' = core_of g ∧ g_job_id g' = g_job_id g ∧ g_status g' = st ∧
  claim_blocked_head i st d = Ok (tt, with_generations (<[i := g']> (generations d)) d).
Proof.
  intros I Hg Hb Hst. destruct (inv_gid d I i g Hg) as [Eid _]. unfold claim_blocked_head. rewrite Hg.
  destruct Hst as [-> | ->].
  - destruct (terminal_row_core abandoned None (clock d) (carrier_snapshot d (g_job_id g)) g) as (?&?&?).
    eexists. split_and!; [done..|]. replace (status_in abandoned TERMINAL) with true by done. unfold terminalize_generations.
    replace (status_in abandoned TERMINAL) with true by done. cbn [terminalize_loop]. rewrite Eid, Hg.
    unfold terminal_condition. rewrite bool_decide_eq_true_2 by done. cbn [andb]. rewrite Hb. unfold_res.
    rewrite bool_decide_eq_true_2 by set_solver. done.
  - exists (set_g_status gen_pending (clock d) g). split_and!; [done..|].
    replace (status_in gen_pending TERMINAL) with false by done. rewrite Hb. unfold_res.
    rewrite bool_decide_eq_true_2 by set_solver. done.
Qed.

Lemma executable_head_at d i g : Inv d → generations d !! i = Some g →
  (executable_head d (g_device_id g) = Some g ↔ is_head d g).
Proof.
  intros I Hg. split; [by intros (_ & _ & ?)%executable_head_spec|]. by apply (head_unique d i g).
Qed.

(** The blocked head returned to pending is still the head. *)
Lemma head_restatused d d' i g g' : generations d !! i = Some g → is_head d g → generations d' = <[i := g']> (generations d) →
  core_of g' = core_of g → crossable g' = false → is_head d' g'.
Proof.
  intros Hg [Hc Hmin] E (_ & Dg & Sg & _)%core_fields Hc'. split; [done|]. intros k h. rewrite E.
  unfold same_device. rewrite Dg, Sg. intros [[<- <-]|[_ Hh]]%lookup_insert_Some Hs Hch; [lia|]. by apply (Hmin k h).
Qed.

Lemma core_carriable g g' : core_of g' = core_of g → carriable g → carriable g'.
Proof. destruct g, g'. unfold core_of, carriable. cbn. intros [=]. by subst. Qed.
Lemma core_context g g' : core_of g' = core_of g → g_removal_context g' = g_removal_context g ∧ g_document g' = g_document g ∧
  g_settlement_cohort g' = g_settlement_cohort g.
Proof. destruct g, g'. unfold core_of. cbn. intros [=]. by subst. Qed.

(** The tombstones a removal retry rebinds can be read off the document. *)
Definition rebindable (g : Generation) : Prop :=
  some_dict (g_removal_context g) = true → is_ok (operation_tombstone_ids (g_document g)) = true.

Lemma retry_ok d i g : Inv d → generations d !! i = Some g → g_device_id g ∈ devices d → is_head d g →
  status_in (g_status g) BLOCKED_STATUSES = true → carriable g → rebindable g →
  ∃ n d' g', retry_generation i d = Ok (Some n, d') ∧ n = next_job_id d ∧
    generations d' = <[i := g']> (generations d) ∧ core_of g' = core_of g ∧ streams d' = streams d ∧ carries_head d' g n.
Proof.
  intros I Hg Hd Hh Hb Hcar Hre. unfold retry_generation. rewrite Hg.
  pose proof (locked_head_ok d i g I Hg Hd) as Hl. destruct (require_locked_executable_head g d) as [[h d1]|e] eqn:El;
    [|by destruct Hl as [_ []]; apply (head_unique d i g)].
  destruct Hl as (-> & F & Hh1 & Hck & Hst & _). pose proof F as (Eg1 & Ej1 & _ & En1 & _).
  assert (Inv d1) as I1 by (by eapply framed_inv). assert (generations d1 !! i = Some g) as Hg1 by (by rewrite Eg1).
  unfold_res. rewrite Hb. unfold verify_generation_digest. rewrite (inv_digest d I i g Hg). unfold_res.
  destruct (claim_blocked_ok d1 i g gen_pending I1 Hg1 Hb) as (g1 & Hc1 & Hj1 & Hs1 & Hcl); [by right|]. rewrite Hcl.
  pose proof Hcl as (Hm2 & _)%(claim_blocked_spec d1 _ i g); [|done|done|done|by right].
  set (d2 := with_generations (<[i := g1]> (generations d1)) d1) in *. assert (Inv d2) as I2 by (by eapply moves_inv).
  assert (generations d2 !! i = Some g1) as Hg2 by apply lookup_insert_eq.
  destruct (dedicated_carrier_ok d2 i g1 I2 Hg2) as [d3 Hc3]; [by eapply core_carriable|]. rewrite Hc3.
  assert (∀ m old, g_job_id g1 = Some m → jobs d2 !! m = Some old → live old = false) as Hold.
  { intros m old Jm Ho. rewrite Hj1 in Jm. by eapply (blocked_not_live d1 i g m old). }
  pose proof (dedicated_carrier_moves d2 d3 i g1 _ I2 Hg2 Hs1 Hold Hc3) as (_ & _ & Eg3 & _).
  assert (carries_head d3 g1 (next_job_id d2)) as Hcarry.
  { eapply (new_carrier_head d2 d3 i g1); try done. eapply (head_restatused d1 d2 i g g1); try done.
    apply not_crossable. by rewrite Hs1. }
  assert (streams d3 = streams d) as Es.
  { rewrite <-Hst. unfold create_dedicated_carrier in Hc3. rewrite Hg2 in Hc3. apply bind_Ok in Hc3 as ([n' d4] & Hc4 & Hc3).
    apply bind_Ok in Hc3 as ([b d5] & Ha & Hc3). destruct b; [|done]. injection Hc3 as _ ->.
    assert (streams d4 = streams d1) as <-.
    { destruct (some_dict _); [|destruct (g_mode g1); [|done]]; by apply dedicated_job_spec in Hc4 as [_ ->]. }
    unfold attach_to_job in Ha. break_res; done. }
  assert (core_of (set_g_job (Some (next_job_id d2)) g1) = core_of g) as Hcore by done.
  assert (carries_head d3 g (next_job_id d2)) as Hcarry'.
  { destruct Hcarry as (x & j & ?). exists x, j. pose proof (core_fields _ _ Hc1) as (_ & Dg & _).
    rewrite <-Dg, <-Hc1. done. }
  exists (next_job_id d2). rewrite <-En1. pose proof (core_context _ _ Hc1) as (Ectx & Edoc & _).
  assert (generations d3 = <[i := set_g_job (Some (next_job_id d2)) g1]> (generations d)) as Eg.
  { rewrite Eg3. unfold d2. cbn. rewrite insert_insert_eq. by rewrite Eg1. }
  destruct (some_dict (g_removal_context g)) eqn:Ec.
  - specialize (Hre Ec). destruct (operation_tombstone_ids (g_document g)) as [ids|]; [|done].
    destruct ids; eexists _, (set_g_job (Some (next_job_id d2)) g1); (split; [reflexivity|]); split_and!; try done.
  - eexists d3, (set_g_job (Some (next_job_id d2)) g1). split; [reflexivity|]. split_and!; try done.
Qed.

(** Reconciling is abandoning the head, then advancing what is behind it. *)
Lemma reconcile_ok b d i g : Inv d → generations d !! i = Some g → g_device_id g ∈ devices d → is_head d g →
  status_in (g_status g) BLOCKED_STATUSES = true →
  ∃ d1 g1, reconcile_generation b i d = advance_generations_locked b (g_device_id g) d1 ∧ Inv d1 ∧
    generations d1 = <[i := g1]> (generations d) ∧ core_of g1 = core_of g ∧ g_status g1 = abandoned ∧ jobs d1 = jobs d ∧
    (g_settlement_cohort g = None → streams d1 = streams d).
Proof.
  intros I Hg Hd Hh Hb. unfold reconcile_generation. rewrite Hg.
  pose proof (locked_head_ok d i g I Hg Hd) as Hl. destruct (require_locked_executable_head g d) as [[h d1]|e] eqn:El;
    [|by destruct Hl as [_ []]; apply (head_unique d i g)].
  destruct Hl as (-> & F & Hh1 & Hck & Hst & _). pose proof F as (Eg1 & Ej1 & _ & En1 & _).
  assert (Inv d1) as I1 by (by eapply framed_inv). assert (generations d1 !! i = Some g) as Hg1 by (by rewrite Eg1).
  unfold_res. rewrite Hb.
  destruct (claim_blocked_ok d1 i g abandoned I1 Hg1 Hb) as (g1 & Hc1 & Hj1 & Hs1 & Hcl); [by left|]. rewrite Hcl.
  pose proof Hcl as (Hm2 & _)%(claim_blocked_spec d1 _ i g); [|done|done|done|by left].
  set (d2 := with_generations (<[i := g1]> (generations d1)) d1) in *. assert (Inv d2) as I2 by (by eapply moves_inv).
  set (d3 := match g_settlement_cohort g with Some c => stamp_settled_cohort ∅ c (clock d2) d2 | None => d2 end).
  assert (framed d2 d3) as F3 by (unfold d3; destruct (g_settlement_cohort g); [apply stamp_cohort_framed|reflexivity]).
  pose proof F3 as (Eg3 & Ej3 & _). exists d3, g1. split_and!; try done.
  - by eapply framed_inv.
  - rewrite Eg3. unfold d2. cbn. by rewrite Eg1.
  - by rewrite Ej3.
  - unfold d3. intros ->. done.
Qed.
