(* ===== verification/Revisions.v ===== *)
(** * Stream revisions

    A stream row counts what was written (desired), what was authorized by a generation and what
    was applied.  The three stay ordered, never decrease, and every generation's promoted revision
    stays within what its stream authorized. *)

From stdpp Require Import base gmap list strings sorting.
From Stdlib Require Import ZArith NArith Lia.
From S2P Require Import Prelude Json Sha256 Registry Document Store Generation Admission Claim GenerationInv Moves Lifecycle.
Local Open Scope Z_scope.

(** ** The invariant *)

Record row_ok (stream : pystr) (r : StreamRow) : Prop := {
  row_applied : 0 <= s_applied r <= s_authorized r;
  row_authorized : s_authorized r <= s_desired r;
  row_prepared : default 0 (s_prepared_revision r) <= s_desired r;
  row_protocol : mem stream OUT_OF_PROTOCOL_STREAMS = true → s_authorized r <= default 0 (s_prepared_revision r) }.

Definition rows_ok (d : Db) : Prop := ∀ k r, streams d !! k = Some r → row_ok k.2 r.

Definition target_ok (d : Db) (dev : Z) (stream : pystr) (rev : Z) : Prop :=
  ∃ r, streams d !! (dev, stream) = Some r ∧ rev <= s_authorized r.
Definition targets_ok (d : Db) : Prop :=
  ∀ i g s rev, generations d !! i = Some g → (s, rev) ∈ g_stream_revisions g → target_ok d (g_device_id g) s rev.

Definition SInv (d : Db) : Prop := rows_ok d ∧ targets_ok d.

(** No revision counter ever decreases. *)
Definition row_le (r r' : StreamRow) : Prop :=
  s_desired r <= s_desired r' ∧ s_authorized r <= s_authorized r' ∧ s_applied r <= s_applied r'.
Definition streams_le (d d' : Db) : Prop :=
  ∀ k r, streams d !! k = Some r → ∃ r', streams d' !! k = Some r' ∧ row_le r r'.

#[global] Instance streams_le_preorder : PreOrder streams_le.
Proof.
  split.
  - intros d k r Hr. exists r. split; [done|]. unfold row_le. lia.
  - intros d1 d2 d3 H12 H23 k r Hr. destruct (H12 k r Hr) as (r2 & Hr2 & L2). destruct (H23 k r2 Hr2) as (r3 & Hr3 & L3).
    exists r3. split; [done|]. unfold row_le in *. lia.
Qed.

Definition safe (d d' : Db) : Prop := SInv d → SInv d' ∧ streams_le d d'.
#[global] Instance safe_preorder : PreOrder safe.
Proof.
  split.
  - intros d H. by split.
  - intros d1 d2 d3 H12 H23 H1. destruct (H12 H1) as [H2 L2]. destruct (H23 H2) as [H3 L3]. split; [done|by etransitivity].
Qed.

Lemma target_ok_le d d' dev s rev : streams_le d d' → target_ok d dev s rev → target_ok d' dev s rev.
Proof. intros Hle (r & Hr & Hb). destruct (Hle _ _ Hr) as (r' & Hr' & ?&?&?). exists r'. split; [done|lia]. Qed.

(** ** Stream-only changes *)

(** One row replaced by an acceptable, larger one. *)
Lemma grow_row d d' k r' : streams d' = <[k := r']> (streams d) → row_ok k.2 r' →
  (∀ r, streams d !! k = Some r → row_le r r') → (rows_ok d → rows_ok d') ∧ streams_le d d'.
Proof.
  intros E Hok Hle. split.
  - intros H q r. rewrite E. intros [[<- <-]|[_ Hr]]%lookup_insert_Some; [done|by apply H].
  - intros q r Hr. rewrite E. destruct (decide (k = q)) as [<-|Hne].
    + exists r'. rewrite lookup_insert_eq. split; [done|by apply Hle].
    + exists r. rewrite lookup_insert_ne by done. split; [done|]. unfold row_le. lia.
Qed.

(** Documents and times changed, revisions as they were. *)
Definition same_revisions (d d' : Db) : Prop :=
  ∀ k, match streams d !! k, streams d' !! k with
       | Some r, Some r' => s_desired r' = s_desired r ∧ s_authorized r' = s_authorized r ∧ s_applied r' = s_applied r ∧
                            s_prepared_revision r' = s_prepared_revision r
       | None, None => True
       | _, _ => False
       end.

#[global] Instance same_revisions_preorder : PreOrder same_revisions.
Proof.
  split.
  - intros d k. by destruct (streams d !! k).
  - intros d1 d2 d3 H12 H23 k. specialize (H12 k). specialize (H23 k).
    destruct (streams d1 !! k), (streams d2 !! k), (streams d3 !! k); try done. intuition congruence.
Qed.

Lemma same_revisions_eq d d' : streams d' = streams d → same_revisions d d'.
Proof. intros E k. rewrite E. by destruct (streams d !! k). Qed.

Lemma same_revisions_row d d' k r r' : streams d !! k = Some r → streams d' = <[k := r']> (streams d) →
  s_desired r' = s_desired r → s_authorized r' = s_authorized r → s_applied r' = s_applied r →
  s_prepared_revision r' = s_prepared_revision r → same_revisions d d'.
Proof.
  intros Hr E ???? q. rewrite E. destruct (decide (k = q)) as [<-|Hne].
  - by rewrite Hr, lookup_insert_eq.
  - rewrite lookup_insert_ne by done. by destruct (streams d !! q).
Qed.

Lemma same_revisions_safe d d' : same_revisions d d' → (rows_ok d → rows_ok d') ∧ streams_le d d'.
Proof.
  intros H. split.
  - intros Hok k r' Hr'. specialize (H k). rewrite Hr' in H. destruct (streams d !! k) as [r|] eqn:Hr; [|done].
    destruct H as (?&?&?&Hp). destruct (Hok k r Hr). constructor; rewrite ?Hp; try lia. intros Hm. specialize (row_protocol0 Hm). lia.
  - intros k r Hr. specialize (H k). rewrite Hr in H. destruct (streams d' !! k) as [r'|]; [|done]. exists r'.
    unfold row_le. split; [done|lia].
Qed.

Lemma stream_only_safe d d' : generations d' = generations d → (rows_ok d → rows_ok d') → streams_le d d' → safe d d'.
Proof.
  intros Eg Hr Hle [H1 H2]. split; [|done]. split; [by apply Hr|]. intros i g s rev. rewrite Eg. intros Hg Hin.
  eapply target_ok_le; [exact Hle|]. by eapply H2.
Qed.

Lemma grow_safe d k r' : row_ok k.2 r' → (∀ r, streams d !! k = Some r → row_le r r') →
  safe d (with_streams (<[k := r']> (streams d)) d).
Proof.
  intros Hok Hle. set (d' := with_streams _ d). destruct (grow_row d d' k r' eq_refl Hok Hle) as [G1 G2].
  by apply stream_only_safe.
Qed.

(** ** Operations that touch no stream row *)

(** Stream rows and the generation identity column as they were. *)
Definition quiet (d d' : Db) : Prop := streams d' = streams d ∧ next_generation_id d' = next_generation_id d.
#[global] Instance quiet_preorder : PreOrder quiet.
Proof. split; [done|]. intros d1 d2 d3 [] []. split; congruence. Qed.

Lemma move_old d d' : Inv d → move d d' → next_generation_id d <= next_generation_id d' ∧
  ∀ i g', generations d' !! i = Some g' → i < next_generation_id d → ∃ g, generations d !! i = Some g ∧ core_of g' = core_of g.
Proof.
  intros I M.
  assert (∀ d0, generations d0 = generations d → ∀ i g', generations d0 !! i = Some g' →
    ∃ g, generations d !! i = Some g ∧ core_of g' = core_of g) as Hsame by (intros d0 ->; eauto).
  assert (∀ n st, moved n st d d' → ∀ i g', generations d' !! i = Some g' →
    ∃ g, generations d !! i = Some g ∧ core_of g' = core_of g) as Hmoved.
  { intros n st Hm i g' (g & ? & ? & _)%(moved_back _ _ _ _ _ _ Hm). eauto. }
  assert (∀ k h h', changed k h h' d d' → ∀ i g', generations d' !! i = Some g' →
    ∃ g, generations d !! i = Some g ∧ core_of g' = core_of g) as Hch.
  { intros k h h' (Hh & E & Hc) i g'. rewrite E. intros [[<- <-]|[_ ?]]%lookup_insert_Some; eauto. }
  destruct M; unfold same_tables in *; (split; [lia|]); try (by eauto).
  match goal with E : generations d' = _ |- _ => rewrite E end.
  intros i g' [[<- <-]|[_ ?]]%lookup_insert_Some Hlt; [lia|eauto].
Qed.

Lemma moves_old d d' : Inv d → moves d d' → next_generation_id d <= next_generation_id d' ∧
  ∀ i g', generations d' !! i = Some g' → i < next_generation_id d → ∃ g, generations d !! i = Some g ∧ core_of g' = core_of g.
Proof.
  intros I H. induction H as [d|d1 d2 d3 H12 H23 IH]; [split; [lia|eauto]|].
  destruct (move_old d1 d2 I H12) as [L1 K1]. destruct IH as [L2 K2]; [by eapply move_inv|]. split; [lia|].
  intros i g3 Hg3 Hlt. destruct (K2 i g3 Hg3) as (g2 & Hg2 & E2); [lia|]. destruct (K1 i g2 Hg2 Hlt) as (g1 & Hg1 & E1).
  exists g1. split; [done|congruence].
Qed.

Lemma core_targets g g' : core_of g' = core_of g → g_device_id g' = g_device_id g ∧ g_stream_revisions g' = g_stream_revisions g ∧
  g_settlement_cohort g' = g_settlement_cohort g.
Proof. destruct g, g'. unfold core_of. cbn. intros [=]. by subst. Qed.

Lemma quiet_safe d d' : Inv d → moves d d' → quiet d d' → safe d d'.
Proof.
  intros I M [Es En] [H1 H2]. destruct (moves_old d d' I M) as [_ Hold]. pose proof (moves_inv d d' M I) as I'.
  assert (streams_le d d') as Hle by (intros k r Hr; exists r; rewrite Es; split; [done|unfold row_le; lia]).
  split; [|done]. split; [intros k r; rewrite Es; apply H1|].
  intros i g' s rev Hg' Hin. destruct (inv_gid d' I' i g' Hg') as [_ Hlt]. rewrite En in Hlt.
  destruct (Hold i g' Hg' Hlt) as (g & Hg & (Ed & Er & _)%core_targets). rewrite Er in Hin. rewrite Ed.
  eapply target_ok_le; [exact Hle|]. by eapply H2.
Qed.

Lemma lock_projection_quiet dev d d' : lock_projection dev d = Ok (tt, d') → quiet d d'.
Proof.
  unfold lock_projection. intros ([[] d0] & E & H)%bind_Ok. apply lock_device_document_framed in E as ->.
  destruct (generation_counter d !! dev); by injection H as <-.
Qed.
Lemma dedicated_job_quiet dev ty ctx n d d' : create_dedicated_job dev ty ctx d = Ok (n, d') → quiet d d'.
Proof. by intros [-> ->]%dedicated_job_spec. Qed.
Lemma attach_quiet id n b d d' : attach_to_job id n d = Ok (b, d') → quiet d d'.
Proof. unfold attach_to_job. intros. break_res; done. Qed.
Lemma require_attach_quiet id n r d d' : require_attach_to_job id n d = Ok (r, d') → quiet d d'.
Proof.
  unfold require_attach_to_job. intros (b & d1 & Q%attach_quiet & He)%txn_bind_Ok. unfold ensure, lift_res in He.
  destruct (guard_or b _); [|done]. by injection He as _ <-.
Qed.
Lemma dedicated_carrier_quiet id n d d' : create_dedicated_carrier id d = Ok (n, d') → quiet d d'.
Proof.
  unfold create_dedicated_carrier. destruct (generations d !! id) as [g|]; [|done].
  intros ([m d1] & Hc & H)%bind_Ok. apply bind_Ok in H as ([b d2] & Q2%attach_quiet & H). destruct b; [|done].
  injection H as _ <-. transitivity d1; [|done].
  destruct (some_dict _); [by eapply dedicated_job_quiet|]. destruct (g_mode g); [by eapply dedicated_job_quiet|done].
Qed.
Lemma admit_loop_quiet fuel dev ty ctx r d d' : admit_loop fuel dev ty ctx d = Ok (r, d') → quiet d d'.
Proof.
  induction fuel as [|fuel IH]; cbn [admit_loop]; [by intros [= _ <-]|]. destruct (existsb _ _); [|by intros [= _ <-]].
  destruct (queued_winner d dev ty); [by intros [= _ <-]|exact IH].
Qed.
Lemma admit_coalescible_quiet dev ty ctx r d d' : admit_coalescible_job dev ty ctx d = Ok (r, d') → quiet d d'.
Proof. unfold admit_coalescible_job. case_bool_decide; [done|]. apply admit_loop_quiet. Qed.
Lemma admit_apply_quiet id r d d' : admit_apply_generation id d = Ok (r, d') → quiet d d'.
Proof.
  unfold admit_apply_generation. destruct (generations d !! id) as [g|]; [|done]. destruct (_ || _).
  - intros ([n d1] & Q1%dedicated_job_quiet & H)%bind_Ok. apply bind_Ok in H as ([[] d2] & Q2%require_attach_quiet & H).
    injection H as _ <-. by etransitivity.
  - intros ([[c w] d1] & Q1%admit_coalescible_quiet & H)%bind_Ok.
    destruct w; [destruct (g_apply_attempt_id g); [done|]|]; destruct c; try done;
      apply bind_Ok in H as ([b d2] & Q2%attach_quiet & H); injection H as _ <-; by etransitivity.
Qed.
Lemma locked_head_quiet g h d d' : require_locked_executable_head g d = Ok (h, d') → quiet d d'.
Proof.
  unfold require_locked_executable_head. intros ([[] d1] & Q%lock_projection_quiet & H)%bind_Ok.
  destruct (executable_head d1 _); [|done]. destruct (_ =? _); [|done]. by injection H as _ <-.
Qed.
Lemma terminalize_loop_quiet gs st e ex at_ landed d : quiet d (terminalize_loop gs st e ex at_ landed d).2.
Proof.
  revert landed d. induction gs as [|g gs IH]; intros landed d; cbn [terminalize_loop]; [done|].
  destruct (generations d !! g_id g); [|apply IH]. destruct (terminal_condition _ _ _); [|apply IH].
  etransitivity; [|apply IH]. done.
Qed.
Lemma terminalize_generations_quiet gs st e ex at_ r d d' : terminalize_generations gs st e ex at_ d = Ok (r, d') → quiet d d'.
Proof.
  unfold terminalize_generations. destruct (status_in st TERMINAL); [|done]. intros [= E].
  pose proof (terminalize_loop_quiet gs st e ex at_ ∅ d) as Q. by rewrite E in Q.
Qed.
Lemma claim_blocked_quiet id st r d d' : claim_blocked_head id st d = Ok (r, d') → quiet d d'.
Proof.
  unfold claim_blocked_head. intros ([c d1] & Hc & H)%bind_Ok. case_bool_decide; [|done]. injection H as _ <-.
  destruct (status_in st TERMINAL); [by eapply terminalize_generations_quiet|].
  destruct (generations d !! id) as [g|]; [|by injection Hc as _ <-]. destruct (status_in _ _); by injection Hc as _ <-.
Qed.
Lemma retry_quiet id r d d' : retry_generation id d = Ok (r, d') → quiet d d'.
Proof.
  unfold retry_generation. destruct (generations d !! id) as [g|]; [|by intros [= _ <-]].
  intros ([h d1] & Q1%locked_head_quiet & H)%bind_Ok. apply bind_Ok in H as ([] & _ & H). apply bind_Ok in H as ([] & _ & H).
  apply bind_Ok in H as ([? d2] & Q2%claim_blocked_quiet & H). apply bind_Ok in H as ([n d3] & Q3%dedicated_carrier_quiet & H).
  transitivity d3; [by etransitivity; [exact Q1|etransitivity; [exact Q2|]]|].
  destruct (some_dict _); [|by injection H as _ <-]. apply bind_Ok in H as (ids & _ & H). by destruct ids; injection H as _ <-.
Qed.
Lemma advance_locked_quiet b dev r d d' : advance_generations_locked b dev d = Ok (r, d') → quiet d d'.
Proof.
  unfold advance_generations_locked. destruct (executable_head d dev) as [g|]; [|by intros [= _ <-]].
  case_bool_decide; cbn [negb]; [|by intros [= _ <-]].
  assert (∀ d0, ('(n, d1) ← create_dedicated_carrier (g_id g) d0; Ok (Some n, d1)) = Ok (r, d') → quiet d0 d') as Hrep.
  { intros d0 ([n d1] & Q%dedicated_carrier_quiet & H')%bind_Ok. by injection H' as _ <-. }
  destruct (g_job_id g) as [n|]; [|apply Hrep]. destruct b; [by intros [= _ <-]|].
  assert (∀ m, quiet d (with_generations m d)) as Hw by done.
  destruct (jobs d !! n) as [j|]; [destruct (j_status j); [by intros [= _ <-]|done|..]|];
    intros Q%Hrep; etransitivity; [|exact Q| |exact Q| |exact Q]; apply Hw.
Qed.
Lemma advance_device_quiet b dev r d d' : advance_device_generations b dev d = Ok (r, d') → quiet d d'.
Proof.
  unfold advance_device_generations. intros ([[] d1] & Q%lock_projection_quiet & H%advance_locked_quiet)%bind_Ok.
  by etransitivity.
Qed.
Lemma advance_all_quiet locked devs d d' : advance_all locked devs d = Ok d' → quiet d d'.
Proof.
  revert d. induction devs as [|dev devs IH]; intros d; cbn [advance_all]; [by intros [= <-]|].
  destruct (advance_device_generations (locked dev) dev d) as [[r d1]|e] eqn:E.
  - intros H%IH. etransitivity; [by eapply advance_device_quiet|done].
  - destruct e; try done; apply IH.
Qed.
Lemma recover_quiet locked n d d' : recover_generations locked d = Ok (n, d') → quiet d d'.
Proof.
  unfold recover_generations. intros ([t d1] & Q%terminalize_generations_quiet & H)%bind_Ok.
  apply bind_Ok in H as (d2 & Q2%advance_all_quiet & H). injection H as _ <-. by etransitivity.
Qed.
Lemma start_quiet locked dev reg expected only r d d' :
  start_head_under_claim locked dev reg expected only d = Ok (r, d') → quiet d d'.
Proof.
  intros [[_ ->]|(j & _ & _ & _ & _ & ->)]%start_parts; [done|]. unfold associate_claim.
  destruct (claims _ !! dev) as [c|]; [|done]. destruct (reg_token reg); [|done]. by destruct (bool_decide _).
Qed.

Lemma acquire_quiet dev purpose job token r d d' : acquire_claim dev purpose job token d = Ok (r, d') → quiet d d'.
Proof. unfold acquire_claim. intros. by break_res. Qed.
Lemma delete_own_quiet reg d : quiet d (delete_own_claim reg d).
Proof.
  unfold delete_own_claim. destruct (reg_device reg); [|done]. destruct (reg_token reg); [|done]. by destruct (holds_claim reg d).
Qed.
Lemma release_quiet reg o d d' : release_claim reg d = (o, d') → quiet d d'.
Proof.
  unfold release_claim. destruct (reg_token reg); [|by intros [= _ <-]].
  destruct (lock_claim reg d) as [[[] d1]|] eqn:E; intros [= _ <-]; [|done]. apply lock_claim_same in E as ->.
  apply delete_own_quiet.
Qed.

(** ** Writes *)

Lemma note_write_spec dev stream push n d d' : note_write dev stream push d = Ok (n, d') → rows_ok d →
  safe d d' ∧ rows_ok d' ∧ ∃ r, streams d' !! (dev, stream) = Some r ∧ s_desired r = n.
Proof.
  intros H Hok. pose proof (note_write_framed _ _ _ _ _ _ H) as (Eg & _). unfold note_write in H.
  destruct (mem stream STREAMS); [|done]. apply bind_Ok in H as ([[] d1] & [Es _]%lock_projection_quiet & H).
  assert (rows_ok d1) as Hok1 by (intros k r; rewrite Es; apply Hok).
  assert (∃ r', streams d' = <[(dev, stream) := r']> (streams d) ∧ s_desired r' = n ∧ row_ok stream r' ∧
            ∀ r, streams d !! (dev, stream) = Some r → row_le r r') as (r' & E & En & Hr' & Hle).
  { destruct (streams d1 !! (dev, stream)) as [r|] eqn:Hr; injection H as <- <-; eexists; cbn; rewrite Es; (split; [reflexivity|]);
      (split; [done|]).
    - destruct (Hok1 _ _ Hr). split; [constructor; cbn; try lia; done|]. intros r0 Hr0. rewrite Es in Hr. rewrite Hr in Hr0.
      injection Hr0 as <-. unfold row_le. cbn. lia.
    - split; [constructor; cbn; lia|]. rewrite Es in Hr. congruence. }
  destruct (grow_row d d' (dev, stream) r' E Hr' Hle) as [G1 G2]. split_and!; [by apply stream_only_safe|by apply G1|].
  exists r'. by rewrite E, lookup_insert_eq.
Qed.

Lemma note_write_safe dev stream push n d d' : note_write dev stream push d = Ok (n, d') → safe d d'.
Proof. intros H [Hok Ht]. by apply (note_write_spec _ _ _ _ _ _ H Hok). Qed.

Lemma prepare_slot_safe dev stream so r d d' : prepare_slot dev stream so d = Ok (r, d') → safe d d'.
Proof.
  intros H [Hok Ht]. unfold prepare_slot in H. apply bind_Ok in H as ([n d1] & Hw & H).
  destruct (note_write_spec _ _ _ _ _ _ Hw Hok) as (Hs & Hok1 & row & Hrow & Hn). destruct (Hs (conj Hok Ht)) as [S1 L1].
  destruct so; injection H as _ <-; [done|].
  assert (streams (with_streams (alter (fun r => mkStream (s_desired r) (s_authorized r) (s_applied r) (s_source_push_seq r)
            (s_authorized_document r) (Some n) (s_updated_at r)) (dev, stream) (streams d1)) d1) =
          <[(dev, stream) := mkStream (s_desired row) (s_authorized row) (s_applied row) (s_source_push_seq row)
            (s_authorized_document row) (Some n) (s_updated_at row)]> (streams d1)) as E.
  { cbn. apply map_eq. intros k. destruct (decide (k = (dev, stream))) as [->|Hne].
    - by rewrite lookup_alter_eq, Hrow, lookup_insert_eq.
    - by rewrite lookup_alter_ne, lookup_insert_ne by done. }
  destruct (Hok1 _ _ Hrow). edestruct (grow_row d1 _ _ _ E) as [G1 G2].
  - constructor; cbn; try lia; done.
  - intros r0 Hr0. rewrite Hrow in Hr0. injection Hr0 as <-. unfold row_le. cbn. lia.
  - edestruct (stream_only_safe d1) as [S2 L2]; [|exact G1|exact G2|exact S1|]; [reflexivity|].
    split; [exact S2|by etransitivity].
Qed.

(** ** Metadata-only promotions *)

Lemma settle_selected_safe dev stream rev desired b d d' :
  match rev with
  | Some v => mem stream OUT_OF_PROTOCOL_STREAMS = true ∧ resolve_prepared_selection (streams d !! (dev, stream)) v = None
  | None => mem stream OUT_OF_PROTOCOL_STREAMS = false
  end →
  settle_selected dev stream rev desired d = Ok (b, d') → safe d d'.
Proof.
  intros Hsel. unfold settle_selected. destruct (streams d !! (dev, stream)) as [r|] eqn:Hr; [|done].
  intros (can & Hcan & H)%bind_Ok. destruct can; [|injection H as _ <-; reflexivity].
  apply bind_Ok in H as ([[] d1] & Hs & H). injection H as _ <-. unfold settle_wire_equivalent in Hs.
  apply bind_Ok in Hs as (a & _ & Hs). injection Hs as <-.
  assert (s_authorized r = s_applied r) as Heq.
  { unfold can_settle_wire_equivalent in Hcan. destruct (Z.eqb_spec (s_authorized r) (s_applied r)); [done|done]. }
  intros [Hok Ht]. pose proof (Hok _ _ Hr) as Hrow.
  assert (s_authorized r <= default (s_desired r) rev <= s_desired r ∧
          (mem stream OUT_OF_PROTOCOL_STREAMS = true → default (s_desired r) rev <= default 0 (s_prepared_revision r)))
    as [Hrev Hprep].
  { destruct Hrow as [HA HB HC HD]. destruct rev as [v|]; cbn [default from_option id]; [|split; [lia|rewrite Hsel; done]]. destruct Hsel as [_ Hsel].
    unfold resolve_prepared_selection in Hsel. destruct (s_prepared_revision r) as [p|]; [|done]. cbn in *.
    destruct (Z.leb_spec v (s_applied r)); [done|]. destruct (Z.ltb_spec v (s_authorized r)); [done|].
    destruct (Z.eqb_spec v (s_authorized r)); [done|]. destruct (Z.eqb_spec v p); [|destruct (v <? p); done].
    split; [lia|intros; lia]. }
  apply grow_safe; [| |done].
  - destruct Hrow. constructor; cbn; try lia; done.
  - intros r0 Hr0. rewrite Hr in Hr0. injection Hr0 as <-. unfold row_le. cbn. lia.
Qed.

(** ** Promotions *)

Lemma promote_stream_spec freeze dev frozen stream rev push fragment d d' : rows_ok d →
  promote_stream freeze dev frozen stream d = Ok ((rev, push, fragment), d') →
  rows_ok d' ∧ streams_le d d' ∧ target_ok d' dev stream rev.
Proof.
  intros Hok H.
  assert (∃ r, streams d !! (dev, stream) = Some r ∧ streams d' = <[(dev, stream) := set_s_authorized rev (clock d) r]> (streams d) ∧
     (mem stream OUT_OF_PROTOCOL_STREAMS = true → s_prepared_revision r = Some rev) ∧
     (mem stream OUT_OF_PROTOCOL_STREAMS = false → s_desired r = rev)) as (r & Hr & E & H1 & H2).
  { unfold promote_stream in H. destruct (mem stream OUT_OF_PROTOCOL_STREAMS).
    - destruct (dict_get frozen stream); [|done]. destruct (streams d !! (dev, stream)) as [r|]; [|done]. exists r.
      destruct (s_prepared_revision r) as [prev|]; [|done]. injection H as <- <- <- <-. done.
    - destruct (streams d !! (dev, stream)) as [r|]; [|done]. exists r. apply bind_Ok in H as (f & _ & H).
      injection H as <- <- <- <-. done. }
  pose proof (Hok _ _ Hr) as Hrow.
  assert (s_authorized r <= rev <= s_desired r ∧
          (mem stream OUT_OF_PROTOCOL_STREAMS = true → rev <= default 0 (s_prepared_revision r))) as [Hb Hp].
  { destruct Hrow as [HA HB HC HD]. cbn [snd] in HD. destruct (mem stream OUT_OF_PROTOCOL_STREAMS) eqn:Em.
    - rewrite H1 in HC, HD |- * by done. cbn [default from_option id] in *. specialize (HD eq_refl). split; [lia|intros; lia].
    - rewrite <-H2 by done. split; [lia|done]. }
  destruct (grow_row d d' _ _ E) as [G1 G2].
  - destruct Hrow. constructor; cbn; try lia; done.
  - intros r0 Hr0. rewrite Hr in Hr0. injection Hr0 as <-. unfold row_le. cbn. lia.
  - split_and!; [by apply G1|done|]. exists (set_s_authorized rev (clock d) r). rewrite E, lookup_insert_eq. split; [done|cbn; lia].
Qed.

Lemma promote_loop_spec freeze dev frozen todo acc res_ d d' : rows_ok d →
  (∀ s p, (s, p) ∈ acc → target_ok d dev s p.1.1) →
  promote_loop freeze dev frozen todo acc d = Ok (res_, d') →
  rows_ok d' ∧ streams_le d d' ∧ ∀ s p, (s, p) ∈ res_ → target_ok d' dev s p.1.1.
Proof.
  revert acc d. induction todo as [|stream todo IH]; intros acc d Hok Hacc; cbn [promote_loop].
  - intros [= <- <-]. done.
  - intros ([[[rev push] fragment] d1] & Hp & H)%bind_Ok.
    destruct (promote_stream_spec _ _ _ _ _ _ _ _ _ Hok Hp) as (Hok1 & L1 & T1).
    apply IH in H as (Hok' & L' & T'); [|done|].
    + split_and!; [done|by etransitivity|done].
    + intros s p [Hin|[= -> ->]%list_elem_of_singleton]%elem_of_app; [|done]. eapply target_ok_le; [done|by apply Hacc].
Qed.

Lemma store_fragments_same dev promoted r d d' : store_fragments dev promoted d = Ok (r, d') → same_revisions d d'.
Proof.
  revert d. induction promoted as [|[stream [[rev push] fragment]] promoted IH]; intros d; cbn [store_fragments].
  - intros [= _ <-]. reflexivity.
  - intros (a & _ & H)%bind_Ok. apply IH in H. etransitivity; [|exact H].
    destruct (streams d !! (dev, stream)) as [row|] eqn:Hr; [|reflexivity]. by eapply (same_revisions_row d _ (dev, stream) row).
Qed.

Lemma refresh_loop_same prune dev existing rows fragments r d d' :
  (∀ s row, (s, row) ∈ rows → streams d !! (dev, s) = Some row) → NoDup (map fst rows) →
  refresh_loop prune dev existing rows fragments d = Ok (r, d') → same_revisions d d'.
Proof.
  revert fragments d. induction rows as [|[s row] rows IH]; intros fragments d Hcur Hnd; cbn [refresh_loop].
  - intros [= _ <-]. reflexivity.
  - cbn in Hnd. apply NoDup_cons in Hnd as [Hni Hnd].
    assert (streams d !! (dev, s) = Some row) as Hr by (apply Hcur, list_elem_of_here).
    assert (∀ q rowq, (q, rowq) ∈ rows → streams d !! (dev, q) = Some rowq) as Hcur'
      by (intros q rowq Hin; apply Hcur; by apply list_elem_of_further).
    destruct (s_authorized_document row) as [[|kv fragment]|]; [by apply IH| |by apply IH].
    intros (pruned & _ & H)%bind_Ok. apply IH in H; [|clear H|done].
    + etransitivity; [|exact H]. case_bool_decide; [reflexivity|]. by eapply (same_revisions_row d _ (dev, s) row).
    + intros q rowq Hin. case_bool_decide; [by apply Hcur'|]. cbn. rewrite lookup_insert_ne; [by apply Hcur'|].
      intros [= ->]. apply Hni. apply list_elem_of_fmap. by exists (q, rowq).
Qed.

Lemma device_streams_spec d dev s row : (s, row) ∈ device_streams d dev ↔ streams d !! (dev, s) = Some row.
Proof.
  unfold device_streams. rewrite list_elem_of_omap. split.
  - intros ([[dv q] r] & Hin & H). cbn in H. destruct (Z.eqb_spec dv dev) as [->|]; [|done]. injection H as <- <-.
    by apply elem_of_map_to_list.
  - intros H. exists ((dev, s), row). split; [by apply elem_of_map_to_list|]. cbn. by rewrite Z.eqb_refl.
Qed.

Lemma device_streams_nodup d dev : NoDup (map fst (device_streams d dev)).
Proof.
  unfold device_streams. pose proof (NoDup_fst_map_to_list (streams d)) as Hnd.
  induction (map_to_list (streams d)) as [|[[dv q] r] l IH]; cbn; [constructor|].
  apply NoDup_cons in Hnd as [Hni Hnd]. destruct (Z.eqb_spec dv dev) as [->|]; cbn; [|by apply IH].
  apply NoDup_cons. split; [|by apply IH]. intros ([q' r'] & -> & Hin)%list_elem_of_fmap. apply Hni.
  apply list_elem_of_omap in Hin as ([[dv' q2] r2] & Hin & H). cbn in H. destruct (Z.eqb_spec dv' dev) as [->|]; [|done].
  injection H as <- <-. apply list_elem_of_fmap. by exists ((dev, q2), r2).
Qed.

Lemma refresh_same prune dev selected r d d' : refresh_consumed_carriers prune dev selected d = Ok (r, d') → same_revisions d d'.
Proof.
  unfold refresh_consumed_carriers. destruct (forallb _ _); [|done]. apply refresh_loop_same.
  - intros s row. by apply device_streams_spec.
  - apply device_streams_nodup.
Qed.

(** ** New generations *)

(** The rows a new generation promotes authorize what it carries. *)
Lemma fresh_safe d0 d' id g : fresh d0 d' id g → streams d' = streams d0 →
  (∀ s rev, (s, rev) ∈ g_stream_revisions g → target_ok d0 (g_device_id g) s rev) → safe d0 d'.
Proof.
  intros F Es Hnew [H1 H2].
  assert (streams_le d0 d') as Hle by (intros k r Hr; exists r; rewrite Es; split; [done|unfold row_le; lia]).
  split; [|done]. split; [intros k r; rewrite Es; apply H1|].
  intros i h s rev. rewrite (fresh_rows _ _ _ _ F). intros [[<- <-]|[_ Hh]]%lookup_insert_Some Hin.
  - eapply target_ok_le; [done|by apply Hnew].
  - eapply target_ok_le; [done|by eapply H2].
Qed.

Lemma store_generation_streams sro dev mode doc allowed source revs ctx cohort ts ds attempt cs id d d' :
  store_generation sro dev mode doc allowed source revs ctx cohort ts ds attempt cs d = Ok (id, d') → streams d' = streams d.
Proof.
  unfold store_generation. intros (? & _ & H)%bind_Ok. apply bind_Ok in H as (body & _ & H).
  apply bind_Ok in H as ([seq d1] & Hs & H). unfold next_seq in Hs.
  destruct (generation_counter d !! dev) as [n|]; [|done]. injection Hs as <- <-. by injection H as _ <-.
Qed.

Lemma frame_same_safe d d' : generations d' = generations d → same_revisions d d' → safe d d'.
Proof. intros Eg [G1 G2]%same_revisions_safe. by apply stream_only_safe. Qed.

Lemma create_generation_safe freeze prune sro so dev names mode allowed doc ctx cohort ts ds attempt frozen cs id d d' :
  create_generation freeze prune sro so dev names mode allowed doc ctx cohort ts ds attempt frozen cs d = Ok (id, d') → safe d d'.
Proof.
  unfold create_generation. destruct so; [done|]. destruct names as [|nm names]; [done|].
  intros ([[] d1] & F1 & H)%bind_Ok. apply bind_Ok in H as ([? d2] & F2 & H).
  apply bind_Ok in H as ([promoted d3] & F3 & H). apply bind_Ok in H as ([[] d4] & F4 & H). apply bind_Ok in H as ([body d5] & F5 & H).
  assert (safe d d2) as S2.
  { transitivity d1.
    - apply frame_same_safe; [apply (lock_projection_framed _ _ _ F1)|apply same_revisions_eq; apply (lock_projection_quiet _ _ _ F1)].
    - apply frame_same_safe; [apply (refresh_framed _ _ _ _ _ _ F2)|by eapply refresh_same]. }
  assert (generations d5 = generations d4 ∧ same_revisions d4 d5) as [Eg5 R5].
  { destruct doc as [b|]; [by injection F5 as _ <-|]. apply bind_Ok in F5 as ([fr d6] & F6 & F5).
    apply bind_Ok in F5 as (b & _ & F5). injection F5 as _ <-.
    split; [apply (refresh_framed _ _ _ _ _ _ F6)|by eapply refresh_same]. }
  intros Sd. destruct (S2 Sd) as [Sd2 L2]. destruct Sd2 as [Ok2 T2].
  destruct (promote_loop_spec _ _ _ _ [] _ _ _ Ok2 ltac:(intros ? ? []%elem_of_nil) F3) as (Ok3 & L3 & T3).
  assert (SInv d3) as Sd3.
  { destruct (stream_only_safe d2 d3) as [? _]; [apply (promote_loop_framed _ _ _ _ _ _ _ _ F3)|done|done|by split|done]. }
  assert (safe d3 d5) as S5.
  { transitivity d4; [|by apply frame_same_safe]. apply frame_same_safe; [apply (store_fragments_framed _ _ _ _ _ F4)|by eapply store_fragments_same]. }
  destruct (S5 Sd3) as [Sd5 L5]. pose proof (store_generation_streams _ _ _ _ _ _ _ _ _ _ _ _ _ _ _ _ H) as Es.
  apply store_generation_fresh in H as (g & Hf & Hdev & _ & Hrevs & _).
  destruct (fresh_safe d5 d' id g Hf Es) as [Sd' L'].
  - intros s rev. rewrite Hrevs, Hdev. intros ([q [[rv ?] ?]] & [= -> ->] & Hin)%list_elem_of_fmap.
    eapply target_ok_le; [exact L5|]. by apply (T3 q (rv, o, p)).
  - done.
  - split; [done|]. do 3 (etransitivity; [eassumption|]). done.
Qed.

Lemma create_reissue_safe prune sro dev mode ctx allowed ts ds id d d' :
  create_reissue_generation prune sro dev mode ctx allowed ts ds d = Ok (id, d') → safe d d'.
Proof.
  unfold create_reissue_generation. intros ([[] d1] & F1 & H)%bind_Ok. apply bind_Ok in H as ([? d2] & F2 & H).
  apply bind_Ok in H as (body & _ & H). pose proof (store_generation_streams _ _ _ _ _ _ _ _ _ _ _ _ _ _ _ _ H) as Es.
  apply store_generation_fresh in H as (g & Hf & _ & _ & Hrevs & _).
  transitivity d1; [apply frame_same_safe; [apply (lock_projection_framed _ _ _ F1)|apply same_revisions_eq; apply (lock_projection_quiet _ _ _ F1)]|].
  transitivity d2; [apply frame_same_safe; [apply (refresh_framed _ _ _ _ _ _ F2)|by eapply refresh_same]|].
  eapply fresh_safe; [done..|]. rewrite Hrevs. by intros s rev ?%elem_of_nil.
Qed.

(** ** Settlement *)

Definition target_in (d : Db) (t : target) : Prop := target_ok d t.1.1.1 t.1.1.2 t.1.2.

Lemma stamp_target_safe at_ t d : target_in d t → safe d (stamp_target at_ t d).
Proof.
  destruct t as [[[dev stream] rev] cohort]. intros (r & Hr & Hb). cbn in Hr, Hb. unfold stamp_target. rewrite Hr.
  destruct (_ && _) eqn:Hc; [|reflexivity]. apply andb_true_iff in Hc as [Hlt%Z.ltb_lt _].
  intros Sd. pose proof (proj1 Sd _ _ Hr) as Hrow. apply grow_safe; [| |done].
  - destruct Hrow. constructor; cbn; try lia; done.
  - intros r0 Hr0. rewrite Hr in Hr0. injection Hr0 as <-. unfold row_le. cbn. lia.
Qed.

Lemma stamp_safe ts at_ d : SInv d → (∀ t, t ∈ ts → target_in d t) →
  SInv (stamp_applied_revisions ts at_ d) ∧ streams_le d (stamp_applied_revisions ts at_ d).
Proof.
  unfold stamp_applied_revisions. intros Sd Hts.
  assert (∀ t, t ∈ stable_sort target_le (remove_dups ts) → target_in d t) as Hts'.
  { intros t. rewrite elem_of_stable_sort, elem_of_remove_dups. apply Hts. }
  revert d Sd Hts Hts'. generalize (stable_sort target_le (remove_dups ts)). intros l.
  induction l as [|t l IH]; intros d Sd Hts Hl; cbn; [by split|].
  destruct (stamp_target_safe at_ t d) as [S1 L1]; [apply Hl, list_elem_of_here|done|].
  destruct (IH (stamp_target at_ t d) S1) as [S2 L2].
  - intros q Hq. eapply target_ok_le; [exact L1|]. by apply Hts.
  - intros q Hq. eapply target_ok_le; [exact L1|]. by apply Hl, list_elem_of_further.
  - split; [done|by etransitivity].
Qed.

Lemma generation_targets_in d i g t : targets_ok d → generations d !! i = Some g → t ∈ generation_targets g → target_in d t.
Proof.
  intros Ht Hg ([s rev] & -> & Hin)%list_elem_of_fmap. by apply (Ht i g).
Qed.

Lemma stamp_cohort_safe loaded c at_ d : safe d (stamp_settled_cohort loaded c at_ d).
Proof.
  intros Sd. unfold stamp_settled_cohort. destruct (existsb _ _); [|by split]. apply stamp_safe; [done|].
  intros t (g & Ht & Hin)%list_elem_of_In%in_flat_map. apply filter_In in Ht as [Ht _].
  apply list_elem_of_In, in_all_generations in Ht as [i Hg]. eapply generation_targets_in; [apply Sd|exact Hg|by apply list_elem_of_In].
Qed.

Lemma stamp_cohorts_safe loaded cs at_ d : safe d (fold_left (fun d c => stamp_settled_cohort loaded c at_ d) cs d).
Proof.
  revert d. induction cs as [|c cs IH]; intros d; cbn; [reflexivity|]. etransitivity; [apply stamp_cohort_safe|apply IH].
Qed.

Lemma settle_safe n st e d d0 d' : Inv d → generations d0 = generations d → next_generation_id d0 = next_generation_id d →
  settle_job_generations n st e d0 = Ok (tt, d') → safe d0 d'.
Proof.
  intros I Eg En. unfold settle_job_generations. destruct (job_generations d0 n) as [|g0 gs] eqn:E; [intros [= <-]; reflexivity|].
  rewrite <-E. intros ([landed d1] & Ht & H)%bind_Ok Sd0. unfold terminalize_generations in Ht.
  destruct (status_in st TERMINAL); [|done].
  destruct (terminalize_loop_rewritten (job_generations d0 n) st e (clock d0) ∅ d0) as [[Hrow _] _].
  { intros known ((k & Hk) & _)%job_generations_spec. pose proof Hk as Hk'. rewrite Eg in Hk'.
    destruct (inv_gid d I k known Hk') as [-> _]. eauto. }
  pose proof (terminalize_loop_quiet (job_generations d0 n) st e None (clock d0) ∅ d0) as [Es _].
  injection Ht as Ht. rewrite Ht in Hrow, Es. cbn in Hrow, Es.
  assert (SInv d1) as S1.
  { destruct Sd0 as [A B]. split; [intros k r; rewrite Es; apply A|]. intros i g' s rev Hg' Hin. specialize (Hrow i).
    rewrite Hg' in Hrow. destruct (generations d0 !! i) as [g|] eqn:Hg; [|done]. destruct Hrow as ((Ed & Er & _)%core_targets & _).
    rewrite Er in Hin. unfold target_ok. rewrite Es, Ed. by eapply B. }
  assert (streams_le d0 d1) as L1 by (intros k r Hr; exists r; rewrite Es; split; [done|unfold row_le; lia]).
  case_bool_decide; [|injection H as <-; by split]. injection H as <-.
  match goal with |- context [stamp_applied_revisions ?ts _ d1] => destruct (stamp_safe ts (clock d0) d1 S1) as [S2 L2] end.
  - intros t (g & Hg & Hin)%list_elem_of_In%in_flat_map. apply in_app_or in Hg as [Hg|Hg]; apply filter_In in Hg as [Hg _].
    + apply filter_In in Hg as [Hg _]. apply list_elem_of_In, job_generations_spec in Hg as ((k & Hk) & _).
      specialize (Hrow k). rewrite Hk in Hrow. destruct (generations d1 !! k) as [g'|] eqn:Hg'; [|done].
      destruct Hrow as ((Ed & Er & Ecoh)%core_targets & _). eapply (generation_targets_in d1 k g'); [apply S1|done|].
      apply list_elem_of_In. unfold generation_targets in *. by rewrite Ed, Er, Ecoh.
    + apply list_elem_of_In, in_all_generations in Hg as [i Hi]. eapply generation_targets_in; [apply S1|exact Hi|by apply list_elem_of_In].
  - destruct (stamp_cohorts_safe (list_to_map (map (fun g => (g_id g, g_status g)) (job_generations d0 n)))
                (cohorts_of (job_generations d0 n)) (clock d0) _ S2) as [S3 L3].
    split; [exact S3|]. etransitivity; [exact L1|]. etransitivity; [exact L2|exact L3].
Qed.
