(* ===== verification/System.v ===== *)
(** * The deployment core as a transition system

    Committed transactions in any order: writes, promotions, admissions, the worker, claims and
    their reaper, operator exits and startup recovery.  [Inv] holds in every reachable store; the
    theorems below are what it gives. *)

From stdpp Require Import base gmap list strings sorting.
From Stdlib Require Import ZArith NArith Lia.
From S2P Require Import Prelude Json Sha256 Registry Document Store Generation Admission Claim GenerationInv Moves.
Local Open Scope Z_scope.

(** An empty store: devices may exist, nothing was ever written for them. *)
Definition initial (d : Db) : Prop :=
  generations d = ∅ ∧ jobs d = ∅ ∧ streams d = ∅ ∧ claims d = ∅ ∧ generation_counter d = ∅.

Section System.
Context (freeze : Db -> Z -> pystr -> res pydict).
Context (prune_apply_plan : json -> list json -> list json -> res json).
Context (static_route_operation : Db -> Z -> pydict -> pydict -> pydict -> list Z -> res pydict).
Context (unprepared_evidence : Db -> Job -> option json -> res (option pydict)).

(** One committed transaction.  A transaction that raises rolls back and is no step.  Deleting a device and the fleet cutover
    (Cutover.v: it runs with the workers stopped and zeroes the authorized and applied revisions) are not steps. *)
Inductive step (d d' : Db) : Prop :=
| step_tick t : clock d <= t → d' = with_clock t d → step d d'
| step_onboard dev : dev ∉ devices d →
    d' = mkDb ({[dev]} ∪ devices d) (auto_apply d) (generation_counter d) (<[dev := 0]> (settle_counter d)) (streams d)
           (generations d) (jobs d) (claims d) (tombstones d) (next_generation_id d) (next_job_id d)
           (cohort_sequence d) (clock d) (last_enqueued d) → step d d'
| step_set_auto_apply m :
    d' = mkDb (devices d) m (generation_counter d) (settle_counter d) (streams d) (generations d) (jobs d) (claims d)
           (tombstones d) (next_generation_id d) (next_job_id d) (cohort_sequence d) (clock d) (last_enqueued d) → step d d'
| step_tombstones m : d' = with_tombstones m d → step d d'
| step_write dev stream push n : note_write dev stream push d = Ok (n, d') → step d d'
| step_prepare dev stream so r : mem stream OUT_OF_PROTOCOL_STREAMS = true →
    prepare_slot dev stream so d = Ok (r, d') → step d d'
| step_settle_selected dev stream rev desired r :
    match rev with
    | Some v => mem stream OUT_OF_PROTOCOL_STREAMS = true ∧
                resolve_prepared_selection (streams d !! (dev, stream)) v = None
    | None => mem stream OUT_OF_PROTOCOL_STREAMS = false
    end →
    settle_selected dev stream rev desired d = Ok (r, d') → step d d'
| step_cohort n : allocate_settlement_cohort d = Ok (n, d') → step d d'
| step_enqueue_apply so dev stream cohort r :
    enqueue_apply freeze prune_apply_plan static_route_operation so dev stream cohort d = Ok (r, d') → step d d'
| step_action_apply so dev names attempt document cohort authority frozen r :
    enqueue_action_apply_job freeze prune_apply_plan static_route_operation so dev names attempt document cohort authority
      frozen d = Ok (r, d') → step d d'
| step_enqueue_removal so force dev context promotes allowed document cohort tombs clears attempt frozen immediate r :
    enqueue_removal_generation freeze prune_apply_plan static_route_operation so force dev context promotes allowed
      document cohort tombs clears attempt frozen immediate d = Ok (r, d') → step d d'
| step_reissue_removal blocked dev tomb removed marking r :
    reissue_removal_job prune_apply_plan static_route_operation blocked dev tomb removed marking d = Ok (r, d') → step d d'
| step_reissue dev mode context allowed tombs clears n :
    create_reissue_generation prune_apply_plan static_route_operation dev mode context allowed tombs clears d = Ok (n, d') →
    step d d'
| step_enqueue_job dev ty context r : admit_coalescible_job dev ty context d = Ok (r, d') → step d d'
| step_acquire dev purpose job token r : acquire_claim dev purpose job token d = Ok (r, d') → step d d'
| step_release reg o : release_claim reg d = (o, d') → step d d'
| step_start locked dev reg expected only r :
    start_head_under_claim locked dev reg expected only d = Ok (r, d') → step d d'
| step_terminalize n status expect att result error outcome r : expect = queued ∨ expect = running →
    terminalize unprepared_evidence n status expect att result error None outcome d = Ok (r, d') → step d d'
| step_terminalize_running n status error att r :
    terminalize_running unprepared_evidence n status error att d = Ok (r, d') → step d d'
| step_revoke dev found : revoke_claim unprepared_evidence dev found d = Ok (tt, d') → step d d'
| step_mark_failed found n code message reg o :
    mark_failed_and_release unprepared_evidence found n code message reg d = (o, d') → step d d'
| step_dispose_cancelled found n ty reg o : dispose_cancelled unprepared_evidence found n ty reg d = (o, d') → step d d'
| step_retry id r : retry_generation id d = Ok (r, d') → step d d'
| step_reconcile locked id r : reconcile_generation locked id d = Ok (r, d') → step d d'
| step_advance locked dev r : advance_device_generations locked dev d = Ok (r, d') → step d d'
| step_recover locked n : recover_generations locked d = Ok (n, d') → step d d'.

Definition steps : Db -> Db -> Prop := star step.
Definition reachable (d : Db) : Prop := ∃ d0, initial d0 ∧ steps d0 d.

(** ** Every step is a sequence of elementary transitions *)

Lemma settle_selected_framed dev stream rev desired r d d' :
  settle_selected dev stream rev desired d = Ok (r, d') → framed d d'.
Proof.
  unfold settle_selected. destruct (streams d !! (dev, stream)) as [row|]; [|done]. intros (can & _ & H)%bind_Ok.
  destruct can; [|injection H as _ <-; reflexivity]. apply bind_Ok in H as ([[] d1] & Hs & H). injection H as _ <-.
  unfold settle_wire_equivalent in Hs. apply bind_Ok in Hs as (a & _ & Hs). injection Hs as <-. frame.
Qed.

Lemma prepare_slot_framed dev stream so r d d' : prepare_slot dev stream so d = Ok (r, d') → framed d d'.
Proof.
  unfold prepare_slot. intros ([n d1] & F%note_write_framed & H)%bind_Ok.
  destruct so; injection H as _ <-; [done|]. etransitivity; [exact F|]. frame.
Qed.

(** A new generation, then whatever is done with it. *)
Lemma fresh_then d d0 d1 d2 id g :
  Inv d → framed d d0 → fresh d0 d1 id g →
  (Inv d1 → generations d1 !! id = Some g → g_status g = gen_pending → g_job_id g = None → moves d1 d2) → moves d d2.
Proof.
  intros I F Hf K. pose proof (framed_inv _ _ F I) as I0. pose proof (move_inv _ _ (fresh_move _ _ _ _ Hf) I0) as I1.
  eapply moves_trans; [by apply framed_moves|]. eapply moves_trans; [apply move_moves, (fresh_move _ _ _ _ Hf)|].
  apply K; [done|by eapply fresh_lookup|by eapply fresh_status|by eapply fresh_job].
Qed.

Lemma enqueue_apply_moves so dev stream cohort r d d' : Inv d →
  enqueue_apply freeze prune_apply_plan static_route_operation so dev stream cohort d = Ok (r, d') → moves d d'.
Proof.
  intros I. unfold enqueue_apply. destruct so; [intros [= _ <-]; apply star_refl|].
  intros ([id d1] & (d0 & g & F & Hf & _)%create_generation_fresh & H)%bind_Ok.
  eapply fresh_then; [done..|]. intros I1 Hg Hp Hj. by eapply admit_apply_moves.
Qed.

Lemma action_apply_moves so dev names attempt document cohort authority frozen r d d' : Inv d →
  enqueue_action_apply_job freeze prune_apply_plan static_route_operation so dev names attempt document cohort authority
    frozen d = Ok (r, d') → moves d d'.
Proof.
  intros I. unfold enqueue_action_apply_job.
  intros ([id d1] & (d0 & g & F & Hf & _)%create_generation_fresh & H)%bind_Ok.
  apply bind_Ok in H as ([c d2] & Ha & H). injection H as _ <-.
  eapply fresh_then; [done..|]. intros I1 Hg Hp Hj. by eapply admit_apply_moves.
Qed.

(** The dedicated removal job of a generation just stored. *)
Lemma removal_job_moves d1 d2 d3 id g ctx n b : Inv d1 → generations d1 !! id = Some g → g_status g = gen_pending →
  g_job_id g = None → create_dedicated_job (g_device_id g) removal ctx d1 = Ok (n, d2) → attach_to_job id n d2 = Ok (b, d3) →
  moves d1 d3.
Proof.
  intros I1 Hg Hp Hj Hc Ha.
  by destruct (dedicated_attach d1 d2 d3 removal ctx id g n b I1 Hg Hp (unbound_old g d1 Hj) Hc Ha) as (Hm & _).
Qed.

Lemma enqueue_removal_moves so force dev context promotes allowed document cohort tombs clears attempt frozen immediate r d d' :
  Inv d →
  enqueue_removal_generation freeze prune_apply_plan static_route_operation so force dev context promotes allowed document
    cohort tombs clears attempt frozen immediate d = Ok (r, d') → moves d d'.
Proof.
  intros I. unfold enqueue_removal_generation. destruct (so && negb force); [intros [= _ <-]; apply star_refl|].
  intros ([[] d0] & F0%lock_projection_framed & H)%bind_Ok. apply bind_Ok in H as ([id d1] & Hgen & H).
  apply bind_Ok in H as ([n d2] & Hc & H). apply bind_Ok in H as ([[] d3] & Ha & H). injection H as _ <-.
  unfold require_attach_to_job in Ha. apply txn_bind_Ok in Ha as (b & d4 & Ha & He).
  assert (d4 = d3) as ->. { unfold ensure, lift_res in He. destruct (guard_or b _); congruence. }
  assert (∃ dd g, framed d0 dd ∧ fresh dd d1 id g ∧ g_device_id g = dev) as (dd & g & F & Hf & <-).
  { destruct force; [apply create_reissue_fresh in Hgen as (dd & g & ?&?&?&_)|
                     apply create_generation_fresh in Hgen as (dd & g & ?&?&?&_)]; by exists dd, g. }
  eapply (fresh_then d dd d1 d3); [done|by etransitivity|done|]. intros I1 Hg Hp Hj. by eapply removal_job_moves.
Qed.

Lemma reissue_removal_moves blocked dev tomb removed marking r d d' : Inv d →
  reissue_removal_job prune_apply_plan static_route_operation blocked dev tomb removed marking d = Ok (r, d') → moves d d'.
Proof.
  intros I. unfold reissue_removal_job. destruct blocked; [intros [= _ <-]; apply star_refl|].
  intros ([id d1] & (dd & g & F & Hf & <- & _)%create_reissue_fresh & H)%bind_Ok.
  apply bind_Ok in H as ([n d2] & Hc & H). apply bind_Ok in H as ([b d3] & Ha & H).
  destruct b; [|done]. injection H as _ <-. apply moves_trans with d3; [|apply framed_moves; frame].
  eapply (fresh_then d dd d1 d3); [done..|]. intros I1 Hg Hp Hj. by eapply removal_job_moves.
Qed.

Lemma step_moves d d' : Inv d → step d d' → moves d d'.
Proof.
  intros I [].
  all: try (subst d'; apply framed_moves; frame).
  - by eapply framed_moves, note_write_framed.
  - by eapply framed_moves, prepare_slot_framed.
  - by eapply framed_moves, settle_selected_framed.
  - unfold allocate_settlement_cohort in *. simplify_eq. apply framed_moves. frame.
  - by eapply enqueue_apply_moves.
  - by eapply action_apply_moves.
  - by eapply enqueue_removal_moves.
  - by eapply reissue_removal_moves.
  - edestruct create_reissue_fresh as (dd & g & F & Hf & _); [done|].
    eapply (fresh_then d dd d' d'); [done..|]. intros. apply star_refl.
  - unfold admit_coalescible_job in *. case_bool_decide as Hty; [done|]. destruct r as [c w].
    eapply (admit_loop_spec ADMISSION_RETRIES dev ty context); [done|set_solver|eassumption].
  - unfold acquire_claim in *. apply framed_moves. break_res; frame.
  - unfold release_claim in *. apply framed_moves. destruct (reg_token reg); [|by simplify_eq].
    destruct (lock_claim reg d) as [[[] d1]|] eqn:E; simplify_eq; [|reflexivity].
    apply lock_claim_same in E as ->. apply delete_own_framed.
  - by eapply start_moves.
  - by eapply terminalize_moves.
  - by eapply terminalize_running_moves.
  - by eapply disposes_moves, revoke_disposes.
  - by eapply disposes_moves, mark_failed_disposes.
  - by eapply disposes_moves, dispose_cancelled_disposes.
  - by eapply retry_moves.
  - by eapply reconcile_moves.
  - by eapply advance_device_moves.
  - by eapply recover_moves.
Qed.

Lemma steps_moves d d' : Inv d → steps d d' → moves d d'.
Proof.
  intros I H. induction H as [d|d1 d2 d3 H12 H23 IH]; [apply star_refl|].
  pose proof (step_moves d1 d2 I H12) as M. eapply moves_trans; [exact M|]. apply IH. by eapply moves_inv.
Qed.

Lemma initial_inv d : initial d → Inv d.
Proof. intros (Eg & Ej & _ & _ & Ec). constructor; rewrite ?Eg, ?Ej, ?Ec; intros; by rewrite lookup_empty in *. Qed.

Lemma reachable_inv d : reachable d → Inv d.
Proof. intros (d0 & H0%initial_inv & Hs). eapply moves_inv; [by eapply steps_moves|done]. Qed.
End System.
