(* ===== verification/Scenario.v ===== *)
(** * A concrete run

    Parameters and a run of the transition system that the witnesses evaluate: one device, an
    address write and an interface write, two applies that coalesce onto one job, a worker that
    starts it, fails it, and the operator's retry. *)

From stdpp Require Import base gmap list strings sorting.
From Stdlib Require Import ZArith NArith Lia.
From S2P Require Import Prelude Json Sha256 Registry Document Store Generation Admission Claim GenerationInv Moves System.
Local Open Scope py_scope.
Local Open Scope Z_scope.

(** ** Parameters *)

Definition sample_freeze (d : Db) (device_id : Z) (stream : pystr) : res pydict :=
  Ok [(EXECUTION_KEY, JObj [("context", JObj [("ned_id", JNull); ("dialect", JStr "identity")])])].
Definition sample_prune (plan : json) (rows tombstones : list json) : res json := Ok plan.
Definition sample_operation (d : Db) (device_id : Z) (body context allowed : pydict) (ids : list Z) : res pydict :=
  Ok [("tombstone_ids", JArr (map JInt ids))].
Definition sample_evidence (d : Db) (j : Job) (error : option json) : res (option pydict) := Ok None.

Notation sstep := (step sample_freeze sample_prune sample_operation sample_evidence).
Notation sreachable := (reachable sample_freeze sample_prune sample_operation sample_evidence).

(** ** Running operations *)

Definition exec {A} (m : txn Db A) (d : Db) : Db := match m d with Ok (_, d') => d' | Raise _ => d end.

Lemma exec_ok {A} (m : txn Db A) d : is_ok (m d) = true → ∃ r, m d = Ok (r, exec m d).
Proof. unfold exec. destruct (m d) as [[r d']|]; [eauto|done]. Qed.

Definition empty_store : Db := mkDb ∅ ∅ ∅ ∅ ∅ ∅ ∅ ∅ ∅ 1 1 0 0 None.
Definition onboarded : Db :=
  mkDb ({[7]} ∪ devices empty_store) (auto_apply empty_store) (generation_counter empty_store)
    (<[7 := 0]> (settle_counter empty_store)) (streams empty_store) (generations empty_store) (jobs empty_store)
    (claims empty_store) (tombstones empty_store) (next_generation_id empty_store) (next_job_id empty_store)
    (cohort_sequence empty_store) (clock empty_store) (last_enqueued empty_store).

Definition sample_apply (stream : pystr) : txn Db (option Z) :=
  enqueue_apply sample_freeze sample_prune sample_operation false 7 stream None.
Definition sample_claim : Registration := {| reg_device := Some 7; reg_token := Some "token"; reg_attempt := Some 1 |}.

Definition wrote : Db := exec (note_write 7 "snmp" (Some 1)) onboarded.
Definition admitted : Db := exec (sample_apply "snmp") wrote.
Definition wrote_again : Db := exec (note_write 7 "ip" (Some 1)) admitted.
Definition coalesced : Db := exec (sample_apply "ip") wrote_again.
Definition claimed : Db := exec (acquire_claim 7 "job" None "token") coalesced.
Definition started : Db := exec (start_head_under_claim (fun _ => false) 7 sample_claim None None) claimed.
Definition failed_run : Db :=
  exec (terminalize sample_evidence 1 job_failed running (Some 1) None (Some (JStr "error")) None None) started.
Definition retried : Db := exec (retry_generation 1) failed_run.
Definition done_run : Db :=
  exec (terminalize sample_evidence 1 succeeded running (Some 1) None None None None) started.
Definition reconciled : Db := exec (reconcile_generation false 1) failed_run.

Lemma reach_step d d' : sreachable d → sstep d d' → sreachable d'.
Proof.
  intros (d0 & H0 & Hs) H. exists d0. split; [done|]. eapply star_trans; [exact Hs|].
  eapply star_step; [exact H|apply star_refl].
Qed.

Ltac run_step C m d :=
  let r := fresh in let E := fresh in destruct (exec_ok m d) as [r E]; [vm_compute; reflexivity|eapply C; exact E].

Lemma onboarded_reachable : sreachable onboarded.
Proof.
  apply reach_step with empty_store; [exists empty_store; split; [done|apply star_refl]|].
  apply (step_onboard _ _ _ _ _ _ 7); [set_solver|reflexivity].
Qed.
Lemma coalesced_reachable : sreachable coalesced.
Proof.
  apply reach_step with wrote_again; [apply reach_step with admitted; [apply reach_step with wrote;
    [apply reach_step with onboarded; [exact onboarded_reachable|]|]|]|].
  - run_step step_write (note_write 7 "snmp" (Some 1)) onboarded.
  - run_step step_enqueue_apply (sample_apply "snmp") wrote.
  - run_step step_write (note_write 7 "ip" (Some 1)) admitted.
  - run_step step_enqueue_apply (sample_apply "ip") wrote_again.
Qed.
Lemma started_reachable : sreachable started.
Proof.
  apply reach_step with claimed; [apply reach_step with coalesced; [exact coalesced_reachable|]|].
  - run_step step_acquire (acquire_claim 7 "job" None "token") coalesced.
  - run_step step_start (start_head_under_claim (fun _ => false) 7 sample_claim None None) claimed.
Qed.
Lemma failed_reachable : sreachable failed_run.
Proof.
  apply reach_step with started; [exact started_reachable|].
  destruct (exec_ok (terminalize sample_evidence 1 job_failed running (Some 1) None (Some (JStr "error")) None None) started)
    as [r E]; [vm_compute; reflexivity|]. by eapply step_terminalize; [right|exact E].
Qed.
Lemma retried_step : sstep failed_run retried.
Proof. run_step step_retry (retry_generation 1) failed_run. Qed.
Lemma done_step : sstep started done_run.
Proof.
  destruct (exec_ok (terminalize sample_evidence 1 succeeded running (Some 1) None None None None) started)
    as [r E]; [vm_compute; reflexivity|]. by eapply step_terminalize; [right|exact E].
Qed.

(** ** Reading rows *)

Definition blank : Generation :=
  mkGen 0 0 0 networked gen_pending [] "" [] [] [] None None None None None None None None 0 None 0 0 None.
Definition row (d : Db) (i : Z) : Generation := default blank (generations d !! i).
Lemma row_lookup d i : bool_decide (is_Some (generations d !! i)) = true → generations d !! i = Some (row d i).
Proof. unfold row. intros [g E]%bool_decide_eq_true. by rewrite E. Qed.

Definition blank_job : Job := mkJob 0 sync queued false None None None None 0 None None 0 None.
Definition job_row (d : Db) (n : Z) : Job := default blank_job (jobs d !! n).
Lemma job_lookup d n : bool_decide (is_Some (jobs d !! n)) = true → jobs d !! n = Some (job_row d n).
Proof. unfold job_row. intros [j E]%bool_decide_eq_true. by rewrite E. Qed.

(** Evaluate a row read, a status test or a head query. *)
Ltac eval_row := first [apply row_lookup | apply job_lookup | idtac]; vm_compute; reflexivity.
