(* ===== verification/SystemProps.v ===== *)
(** * What the deployment core guarantees

    Safety of the generation chain in every reachable store, the histories of generations and jobs,
    progress of the chain, and the operator's exits. *)

From stdpp Require Import base gmap list strings sorting.
From Stdlib Require Import ZArith NArith Lia.
From S2P Require Import Prelude Json Sha256 Registry Document Store Generation Admission Claim GenerationInv Moves Lifecycle System Scenario.
Local Open Scope py_scope.
Local Open Scope Z_scope.

Section Guarantees.
Context (freeze : Db -> Z -> pystr -> res pydict).
Context (prune_apply_plan : json -> list json -> list json -> res json).
Context (static_route_operation : Db -> Z -> pydict -> pydict -> pydict -> list Z -> res pydict).
Context (unprepared_evidence : Db -> Job -> option json -> res (option pydict)).
Notation reach := (reachable freeze prune_apply_plan static_route_operation unprepared_evidence).
Notation run := (steps freeze prune_apply_plan static_route_operation unprepared_evidence).

Lemma reach_inv d : reach d → Inv d.
Proof. apply reachable_inv. Qed.

Lemma reach_run d d' : reach d → run d d' → reach d'.
Proof. intros (d0 & H0 & Hs) H. exists d0. split; [done|]. by eapply star_trans. Qed.

Lemma reach_dense d : reach d → dense d.
Proof.
  intros (d0 & H0 & Hs). pose proof (initial_inv d0 H0) as I0.
  eapply moves_dense; [exact I0|by eapply steps_moves|]. destruct H0 as (_ & _ & _ & _ & E).
  intros dev n s Hn. by rewrite E, lookup_empty in Hn.
Qed.

Lemma run_persists d d' : reach d → run d d' → generation_persists d d' ∧ job_persists d d'.
Proof.
  intros H%reach_inv Hs. apply moves_persist; [done|]. by eapply steps_moves.
Qed.

(** C1: The success barrier.  In every reachable store a running generation is carried by a
    running job of its device, every earlier generation of the device is settled or abandoned or
    runs in the same job, and any other running generation of the device is carried by that same
    job in the same mode. *)
Theorem running_generation_is_exclusive d i g :
  reach d → generations d !! i = Some g → g_status g = gen_running →
  (∃ n j, g_job_id g = Some n ∧ jobs d !! n = Some j ∧ j_status j = running ∧ j_device_id j = Some (g_device_id g)) ∧
  (∀ k h, generations d !! k = Some h → g_device_id h = g_device_id g → g_seq h < g_seq g →
     crossable h = true ∨ (g_status h = gen_running ∧ g_job_id h = g_job_id g)) ∧
  (∀ k h, generations d !! k = Some h → g_device_id h = g_device_id g → g_status h = gen_running →
     g_job_id h = g_job_id g ∧ g_mode h = g_mode g).
Proof.
  intros I%reach_inv Hg Hr. split_and!.
  - destruct (g_job_id g) as [n|] eqn:J; [|by destruct (inv_running d I i g Hg Hr)].
    destruct (inv_carrier d I i g n Hg J) as (j & Hj & Hd & Hs). exists n, j. split_and!; try done.
    rewrite Hr in Hs. by destruct (j_status j).
  - intros k h Hh Hd Hlt. by eapply (inv_barrier d I i k g h).
  - intros k h Hh Hd Hrh.
    assert (g_job_id h = g_job_id g) as Hjob.
    { destruct (Z.lt_trichotomy (g_seq h) (g_seq g)) as [Hlt|[E|Hlt]].
      - destruct (inv_barrier d I i k g h) as [Hc%crossable_spec|[_ ?]]; try done. destruct Hc; congruence.
      - assert (k = i) as -> by (by eapply (inv_uniq d I k i h g)). congruence.
      - destruct (inv_barrier d I k i h g) as [Hc%crossable_spec|[_ ?]]; try done. destruct Hc; congruence. }
    split; [done|]. destruct (g_job_id g) as [n|] eqn:J; [|by destruct (inv_running d I i g Hg Hr)].
    by eapply (inv_mode d I k i h g n).
Qed.

(** The device's sequence.  In every reachable store the sequence numbers a device has issued
    are exactly 1 .. counter, each by one generation. *)
Theorem device_sequence_dense d dev n s :
  reachable freeze prune_apply_plan static_route_operation unprepared_evidence d → generation_counter d !! dev = Some n →
  (1 <= s <= n ↔ ∃ i g, generations d !! i = Some g ∧ g_device_id g = dev ∧ g_seq g = s) ∧
  (∀ i k g h, generations d !! i = Some g → generations d !! k = Some h → g_device_id g = dev → g_device_id h = dev →
     g_seq g = s → g_seq h = s → i = k).
Proof.
  intros Hr Hn. pose proof (reach_inv d Hr) as I. pose proof (reach_dense d Hr) as D. split; [split|].
  - intros Hs. by apply (D dev n s).
  - intros (i & g & Hg & <- & <-). destruct (inv_seq d I i g Hg) as (m & Hm & Hb). rewrite Hn in Hm. by injection Hm as ->.
  - intros i k g h Hg Hh Dg Dh Sg Sh. apply (inv_uniq d I i k g h); try done; unfold same_device; congruence.
Qed.

(** A live job's block.  In every reachable store the generations a queued or running job
    carries form one contiguous run of its device's sequence, in one mode and one status. *)
Theorem live_job_carries_one_block d n j i k l g h m :
  reach d → jobs d !! n = Some j → live j = true →
  generations d !! i = Some g → g_job_id g = Some n → generations d !! k = Some h → g_job_id h = Some n →
  g_device_id g = g_device_id h ∧ g_mode g = g_mode h ∧ g_status g = g_status h ∧
  (generations d !! l = Some m → g_device_id m = g_device_id g → g_seq g < g_seq m < g_seq h → g_job_id m = Some n).
Proof.
  intros I%reach_inv Hj Hl Hg Jg Hh Jh. split_and!.
  - by apply (carried_device d I i k g h n).
  - by apply (inv_mode d I i k g h n).
  - rewrite (live_carried_status d n j i g I Hj Hl Hg Jg). symmetry. by apply (live_carried_status d n j k h).
  - intros Hm Hd Hb. by apply (inv_contig d I i k l g h m n j).
Qed.

(** C3: Immutable authorization.  Whatever happens after a generation is stored, its row stays with
    the same device, sequence, mode, document, digest, removal authority, promoted revisions, cohort,
    context and attempt; its digest still verifies; and its status moved along the edges of the
    life cycle, so a settled or abandoned one keeps its status forever. *)
Theorem generation_is_immutable d d' i g :
  reach d → run d d' → generations d !! i = Some g →
  ∃ g', generations d' !! i = Some g' ∧ core_of g' = core_of g ∧ verify_generation_digest g' = Ok tt ∧
        star generation_edge (g_status g) (g_status g') ∧ (crossable g = true → g_status g' = g_status g).
Proof.
  intros Hr Hs Hg. destruct (run_persists d d' Hr Hs) as [Hp _]. destruct (Hp i g Hg) as (g' & Hg' & Hc & He).
  exists g'. split_and!; try done.
  - unfold verify_generation_digest. rewrite (inv_digest d' (reach_inv d' (reach_run d d' Hr Hs)) i g' Hg'). done.
  - intros Hx%crossable_spec. by apply crossable_final.
Qed.

(** Terminal jobs.  A job row is never deleted and keeps its identity, type and device; once
    succeeded or failed it stays so, whatever runs later. *)
Theorem terminal_job_is_final d d' n j :
  reach d → run d d' → jobs d !! n = Some j →
  ∃ j', jobs d' !! n = Some j' ∧ job_core j' = job_core j ∧ star job_edge (j_status j) (j_status j') ∧
        (live j = false → j_status j' = j_status j).
Proof.
  intros Hr Hs Hj. destruct (run_persists d d' Hr Hs) as [_ Hp]. destruct (Hp n j Hj) as (j' & Hj' & Hc & He).
  exists j'. split_and!; try done. intros Hl. apply terminal_job_final; [done|].
  destruct (j_status j) eqn:E; auto; unfold live in Hl; by rewrite E in Hl.
Qed.

(** What a job executes.  In every reachable store [executing_generation] of a job never finds
    a tampered document: it returns the generation of greatest sequence the job carries, returns
    none exactly when the job carries none, and raises only what the execution metadata check raises. *)
Theorem executing_generation_untampered d n :
  reach d →
  match executing_generation d n with
  | Ok None => ∀ i g, generations d !! i = Some g → g_job_id g ≠ Some n
  | Ok (Some g) => (∃ i, generations d !! i = Some g) ∧ g_job_id g = Some n ∧
                   ∀ i h, generations d !! i = Some h → g_job_id h = Some n → g_seq h <= g_seq g
  | Raise e => ∃ i g, generations d !! i = Some g ∧ g_job_id g = Some n ∧ validate_generation_execution g = Raise e
  end.
Proof.
  intros I%reach_inv. unfold executing_generation. destruct (last (job_generations d n)) as [g|] eqn:E.
  - apply by_seq_last in E as ((i & Hg) & Hj & Hmax). unfold is_some_eq in Hj, Hmax.
    setoid_rewrite bool_decide_eq_true in Hmax. apply bool_decide_eq_true in Hj.
    unfold verify_generation_digest. rewrite (inv_digest d I i g Hg). unfold_res.
    destruct (validate_generation_execution g) as [[]|e] eqn:Ev; [|by exists i, g].
    split_and!; [by exists i|done|done].
  - apply last_None in E. by apply job_generations_nil.
Qed.

(** Progress.  In every reachable store, advancing a device whose head is pending gives that
    head a queued job of the device which the barrier admits: the chain never waits on a pending
    head without a job a worker can start. *)
Theorem advance_gives_head_a_carrier d dev g :
  reach d → dev ∈ devices d → executable_head d dev = Some g → g_status g = gen_pending → carriable g →
  ∃ n d', advance_device_generations false dev d = Ok (Some n, d') ∧ carries_head d' g n.
Proof. intros I%reach_inv. by apply advance_progress. Qed.


(** Retry.  Retrying a blocked head of an existing device succeeds: the generation is pending
    again under a fresh queued job the barrier admits, with its authorization unchanged, and no
    other generation and no stream row is touched. *)
Theorem retry_restarts_blocked_head d i g :
  reach d → generations d !! i = Some g → g_device_id g ∈ devices d → executable_head d (g_device_id g) = Some g →
  status_in (g_status g) BLOCKED_STATUSES = true → carriable g → rebindable g →
  ∃ d' g', retry_generation i d = Ok (Some (next_job_id d), d') ∧ generations d' = <[i := g']> (generations d) ∧
    core_of g' = core_of g ∧ streams d' = streams d ∧ carries_head d' g (next_job_id d).
Proof.
  intros I%reach_inv Hg Hd Hh Hb Hc Hre. apply (executable_head_at d i g I Hg) in Hh.
  destruct (retry_ok d i g I Hg Hd Hh Hb Hc Hre) as (n & d' & g' & Hr & -> & ?). eauto.
Qed.

(** Exits are for blocked heads only.  For a generation that is not its device's head, or whose
    status is neither failed nor outcome_unknown, both retry and reconcile raise
    GenerationNotBlocked. *)
Theorem exits_refuse_unblocked_generation d b i g :
  reach d → generations d !! i = Some g → g_device_id g ∈ devices d →
  executable_head d (g_device_id g) ≠ Some g ∨ status_in (g_status g) BLOCKED_STATUSES = false →
  retry_generation i d = Raise (GenerationNotBlocked i) ∧ reconcile_generation b i d = Raise (GenerationNotBlocked i).
Proof.
  intros I%reach_inv Hg Hd Hor. unfold retry_generation, reconcile_generation. rewrite Hg.
  pose proof (locked_head_ok d i g I Hg Hd) as Hl. destruct (require_locked_executable_head g d) as [[h d1]|e] eqn:El.
  - destruct Hl as (-> & (Eg & _) & Hh & _). destruct Hor as [Hn|Hs].
    + destruct Hn. apply (executable_head_at d i g I Hg). split; [apply Hh|]. rewrite <-Eg. apply Hh.
    + unfold_res. by rewrite Hs.
  - destruct Hl as [-> _]. done.
Qed.

(** Reconcile.  Reconciling a blocked head abandons exactly that generation and then advances
    the chain: a pending successor at the head gets its carrier, and when the chain is empty or its
    new head is not pending nothing else happens. *)
Theorem reconcile_unblocks_chain d i g :
  reach d → generations d !! i = Some g → g_device_id g ∈ devices d → executable_head d (g_device_id g) = Some g →
  status_in (g_status g) BLOCKED_STATUSES = true →
  ∃ d1 g1, generations d1 = <[i := g1]> (generations d) ∧ core_of g1 = core_of g ∧ g_status g1 = abandoned ∧
    jobs d1 = jobs d ∧
    match executable_head d1 (g_device_id g) with
    | Some next =>
        (g_status next = gen_pending → carriable next →
           ∃ n d', reconcile_generation false i d = Ok (Some n, d') ∧ carries_head d' next n) ∧
        (g_status next ≠ gen_pending → reconcile_generation false i d = Ok (None, d1))
    | None => reconcile_generation false i d = Ok (None, d1)
    end.
Proof.
  intros I%reach_inv Hg Hd Hh Hb. apply (executable_head_at d i g I Hg) in Hh.
  destruct (reconcile_ok false d i g I Hg Hd Hh Hb) as (d1 & g1 & Hrec & I1 & Eg & Hc & Hs & Ej & _).
  exists d1, g1. split_and!; try done. rewrite Hrec. destruct (executable_head d1 (g_device_id g)) as [next|] eqn:En.
  - split; [by apply advance_locked_progress|]. intros Hn. unfold advance_generations_locked. rewrite En.
    by rewrite bool_decide_eq_false_2.
  - unfold advance_generations_locked. by rewrite En.
Qed.

Lemma length_one {A} (l : list A) x y : length l = 1%nat → x ∈ l → y ∈ l → x = y.
Proof.
  destruct l as [|a [|b l]]; try done. intros _ Hx%list_elem_of_singleton Hy%list_elem_of_singleton. congruence.
Qed.

(** Inspected release.  When a release that expects a generation and a digest starts a job, the
    generation it named is the head of the device's chain and the only document that job executes,
    its stored digest is the expected one and still matches its content, and the preview it was
    inspected under was rendered from exactly that document. *)
Theorem release_runs_the_inspected_document locked d d' dev reg e only n a :
  reach d → start_head_under_claim locked dev reg (Some e) only d = Ok (Some (n, a), d') →
  ∃ g, executable_head d dev = Some g ∧ g_id g = ex_generation_id e ∧ g_job_id g = Some n ∧
    ex_digest e = Some (g_digest g) ∧ digest_document (g_mode g) (g_document g) (g_allowed_removal_keys g) = g_digest g ∧
    (∀ i h, generations d !! i = Some h → g_job_id h = Some n → h = g) ∧
    ∃ pv, ex_preview e = Some pv ∧ pv_generation_id pv = Some (g_id g) ∧ pv_document_digest pv = Some (g_digest g).
Proof.
  intros I%reach_inv [[? _]|(j & [= -> _] & _ & _ & Hrel & _)]%start_parts; [done|]. specialize (Hrel e eq_refl).
  unfold check_release in Hrel. apply bind_Ok in Hrel as (carried & Hc & Hrel).
  destruct (executable_head d dev) as [head|] eqn:Eh; [|done]. destruct carried as [g|]; [|done].
  apply bind_Ok in Hrel as ([] & H1%guard_or_Ok & Hrel). apply bind_Ok in Hrel as ([] & H2%guard_or_Ok & Hrel).
  apply bind_Ok in Hrel as ([] & H3%guard_or_Ok & H4%guard_or_Ok).
  apply andb_true_iff in H1 as [Hjob%bool_decide_eq_true Hid%Z.eqb_eq].
  apply andb_true_iff in H2 as [Hdig%bool_decide_eq_true Hmatch%bool_decide_eq_true].
  apply andb_true_iff in H3 as [_ Hone%Nat.eqb_eq].
  apply executable_head_spec in Eh as ((i & Hi) & _ & _).
  assert (∀ h, (∃ k, generations d !! k = Some h) → g_job_id h = Some (j_id j) → h = head) as Hsole.
  { intros h Hk Hj. eapply length_one; [exact Hone|by apply job_generations_spec|apply job_generations_spec; eauto]. }
  assert (g = head) as ->.
  { apply Hsole; unfold executing_generation in Hc; destruct (last (job_generations d (j_id j))) as [x|] eqn:El; try done;
      apply by_seq_last in El as (Hx & Jx & _); unfold is_some_eq in Jx; apply bool_decide_eq_true in Jx; unfold_res;
      destruct (digest_matches x) eqn:Ed; unfold verify_generation_digest in Hc; rewrite Ed in Hc; try done; unfold_res;
      destruct (validate_generation_execution x) as [|ex]; [by simplify_eq| |by simplify_eq|]; by destruct ex. }
  exists head. split_and!; try done.
  - intros k h Hk Hj. by eapply Hsole; [exists k|].
  - unfold preview_usable in H4. destruct (ex_preview e) as [pv|]; [|done]. exists pv.
    rewrite !andb_true_iff, !bool_decide_eq_true in H4. tauto.
Qed.
End Guarantees.

(** ** Witnesses *)

Notation at_sample T := (T sample_freeze sample_prune sample_operation sample_evidence) (only parsing).

Lemma started_row1 : generations started !! 1 = Some (row started 1).
Proof. eval_row. Qed.
Lemma started_row2 : generations started !! 2 = Some (row started 2).
Proof. eval_row. Qed.
Lemma started_job : jobs started !! 1 = Some (job_row started 1).
Proof. eval_row. Qed.
Lemma failed_row1 : generations failed_run !! 1 = Some (row failed_run 1).
Proof. eval_row. Qed.
Lemma failed_row2 : generations failed_run !! 2 = Some (row failed_run 2).
Proof. eval_row. Qed.
Lemma done_run_steps : at_sample steps started done_run.
Proof. eapply star_step; [exact done_step|apply star_refl]. Qed.

Lemma running_generation_is_exclusive_witness :
  g_status (row started 2) = gen_running ∧ g_job_id (row started 1) = g_job_id (row started 2).
Proof.
  split; [vm_compute; reflexivity|].
  apply (at_sample running_generation_is_exclusive started 2 (row started 2) started_reachable started_row2
           ltac:(vm_compute; reflexivity)) with (k := 1); [exact started_row1|vm_compute; reflexivity..].
Defined.

Lemma device_sequence_dense_witness : ∃ i g, generations started !! i = Some g ∧ g_device_id g = 7 ∧ g_seq g = 2.
Proof.
  apply (at_sample device_sequence_dense started 7 2 2 started_reachable ltac:(vm_compute; reflexivity)). lia.
Defined.

Lemma live_job_carries_one_block_witness :
  g_device_id (row started 1) = g_device_id (row started 2) ∧ g_mode (row started 1) = g_mode (row started 2).
Proof.
  destruct (at_sample live_job_carries_one_block started 1 (job_row started 1) 1 2 1 (row started 1) (row started 2)
              (row started 1) started_reachable started_job ltac:(vm_compute; reflexivity) started_row1
              ltac:(vm_compute; reflexivity) started_row2 ltac:(vm_compute; reflexivity)) as (H1 & H2 & _).
  split; [exact H1|exact H2].
Defined.

Lemma generation_is_immutable_witness :
  ∃ g', generations done_run !! 1 = Some g' ∧ core_of g' = core_of (row started 1) ∧ verify_generation_digest g' = Ok tt.
Proof.
  destruct (at_sample generation_is_immutable started done_run 1 (row started 1) started_reachable done_run_steps started_row1)
    as (g' & H1 & H2 & H3 & _).
  exists g'. split; [exact H1|split; [exact H2|exact H3]].
Defined.

Lemma terminal_job_is_final_witness :
  ∃ j', jobs done_run !! 1 = Some j' ∧ star job_edge (j_status (job_row started 1)) (j_status j').
Proof.
  destruct (at_sample terminal_job_is_final started done_run 1 (job_row started 1) started_reachable done_run_steps started_job)
    as (j' & H1 & _ & H2 & _).
  exists j'. split; [exact H1|exact H2].
Defined.

Lemma executing_generation_untampered_witness :
  ∃ g, executing_generation started 1 = Ok (Some g) ∧ g_job_id g = Some 1.
Proof.
  pose proof (at_sample executing_generation_untampered started 1 started_reachable) as H.
  destruct (executing_generation started 1) as [[g|]|e] eqn:E.
  - exists g. split; [reflexivity|exact (proj1 (proj2 H))].
  - exfalso. exact (H 1 (row started 1) started_row1 ltac:(vm_compute; reflexivity)).
  - exfalso. revert E. vm_compute. discriminate.
Defined.

Lemma advance_gives_head_a_carrier_witness :
  ∃ n d', advance_device_generations false 7 coalesced = Ok (Some n, d') ∧ carries_head d' (row coalesced 1) n.
Proof.
  apply (at_sample advance_gives_head_a_carrier coalesced 7 (row coalesced 1) coalesced_reachable);
    [decide_vm|vm_compute; reflexivity..|left; vm_compute; reflexivity].
Defined.

Lemma claimed_reachable : at_sample reachable claimed.
Proof.
  apply reach_step with coalesced; [exact coalesced_reachable|].
  run_step step_acquire (acquire_claim 7 "job" None "token") coalesced.
Qed.


Lemma retry_restarts_blocked_head_witness :
  ∃ d', retry_generation 1 failed_run = Ok (Some 2, d') ∧ carries_head d' (row failed_run 1) 2.
Proof.
  destruct (at_sample retry_restarts_blocked_head failed_run 1 (row failed_run 1) failed_reachable failed_row1)
    as (d' & g' & H1 & _ & _ & _ & H2); [decide_vm|vm_compute; reflexivity..|left; vm_compute; reflexivity| |].
  - intros H. vm_compute in H. discriminate H.
  - exists d'. split; [exact H1|exact H2].
Defined.

Lemma exits_refuse_unblocked_generation_witness :
  retry_generation 2 failed_run = Raise (GenerationNotBlocked 2) ∧
  reconcile_generation false 2 failed_run = Raise (GenerationNotBlocked 2).
Proof.
  apply (at_sample exits_refuse_unblocked_generation failed_run false 2 (row failed_run 2) failed_reachable failed_row2).
  - decide_vm.
  - left. vm_compute. discriminate.
Defined.

Lemma reconcile_unblocks_chain_witness :
  ∃ d1 g1, generations d1 = <[1 := g1]> (generations failed_run) ∧ g_status g1 = abandoned ∧ jobs d1 = jobs failed_run.
Proof.
  destruct (at_sample reconcile_unblocks_chain failed_run 1 (row failed_run 1) failed_reachable failed_row1)
    as (d1 & g1 & H1 & _ & H2 & H3 & _); [decide_vm|vm_compute; reflexivity..|].
  exists d1, g1. split; [exact H1|split; [exact H2|exact H3]].
Defined.

(** One apply admitted alone, claimed, and released under inspection. *)
Definition alone : Db := exec (acquire_claim 7 "job" None "token") admitted.
Definition inspected : Expected :=
  {| ex_generation_id := 1; ex_digest := Some (g_digest (row alone 1));
     ex_preview := Some {| pv_diffs := []; pv_generation_id := Some 1; pv_document_digest := Some (g_digest (row alone 1)) |} |}.
Definition released : Db := exec (start_head_under_claim (fun _ => false) 7 sample_claim (Some inspected) None) alone.

Lemma alone_reachable : at_sample reachable alone.
Proof.
  apply reach_step with admitted; [apply reach_step with wrote; [apply reach_step with onboarded; [exact onboarded_reachable|]|]|].
  - run_step step_write (note_write 7 "snmp" (Some 1)) onboarded.
  - run_step step_enqueue_apply (sample_apply "snmp") wrote.
  - run_step step_acquire (acquire_claim 7 "job" None "token") admitted.
Qed.

Lemma release_runs_the_inspected_document_witness :
  ∃ n a, start_head_under_claim (fun _ => false) 7 sample_claim (Some inspected) None alone = Ok (Some (n, a), released) ∧
  ∃ g, executable_head alone 7 = Some g ∧ g_id g = 1 ∧ g_job_id g = Some n.
Proof.
  destruct (exec_ok (start_head_under_claim (fun _ => false) 7 sample_claim (Some inspected) None) alone) as [r E];
    [vm_compute; reflexivity|]. change (exec _ alone) with released in E. destruct r as [[n a]|].
  - exists n, a. split; [exact E|].
    destruct (at_sample release_runs_the_inspected_document (fun _ => false) alone released 7 sample_claim inspected None n a
                alone_reachable E) as (g & H1 & H2 & H3 & _).
    exists g. split; [exact H1|split; [exact H2|exact H3]].
  - exfalso. assert (is_Some (from_option fst None (match start_head_under_claim (fun _ => false) 7 sample_claim (Some inspected) None alone
      with Ok p => Some p | Raise _ => None end))) as Hs by (vm_compute; eauto). rewrite E in Hs. destruct Hs as [? Hs]. discriminate Hs.
Defined.
