(* ===== verification/Delivery.v ===== *)
(** * Revisions over a run

    The revision counters of every stream over the transition system, and what justifies each
    advance of an applied revision. *)

From stdpp Require Import base gmap list strings sorting.
From Stdlib Require Import ZArith NArith Lia.
From S2P Require Import Prelude Json Sha256 Registry Document Store Generation Admission Claim GenerationInv Moves Lifecycle Revisions System Scenario.

Local Open Scope py_scope.
Local Open Scope Z_scope.

(** ** Terminal writes *)

Lemma same_tables_safe d d' : generations d' = generations d → streams d' = streams d → safe d d'.
Proof. intros Eg Es. apply frame_same_safe; [done|]. by apply same_revisions_eq. Qed.

(** A terminal write: the job's row, the settlement, the settle sequence. *)
Lemma terminalize_parts ue n status expect att result error outcome w d d' :
  terminalize ue n status expect att result error None outcome d = Ok (w, d') →
  d' = d ∨ ∃ d0 d2 st, generations d0 = generations d ∧ next_generation_id d0 = next_generation_id d ∧ streams d0 = streams d ∧
    settle_job_generations n st error d0 = Ok (tt, d2) ∧ generations d' = generations d2 ∧ streams d' = streams d2.
Proof.
  unfold terminalize. intros ([] & Hst & H)%bind_Ok. apply bind_Ok in H as (locked & _ & H).
  destruct locked as [res|]; [|injection H as _ <-; by left].
  unfold cas_job_status in H. destruct (jobs d !! n) as [j|]; [|injection H as _ <-; by left].
  destruct (owns expect att j); [|injection H as _ <-; by left]. cbn zeta in H.
  apply bind_Ok in H as ([[] d2] & Hs & H). right. eexists _, d2, _.
  split_and!; [| | |exact Hs| |]; try reflexivity.
  all: destruct (j_device_id _) as [dev|]; [|by injection H as _ <-]; unfold allocate_settle_seq in H;
    destruct (settle_counter d2 !! dev) as [m|]; [|done]; injection H as _ <-; by destruct (jobs _ !! n).
Qed.

Lemma terminalize_safe ue n status expect att result error outcome w d d' : Inv d →
  terminalize ue n status expect att result error None outcome d = Ok (w, d') → safe d d'.
Proof.
  intros I [->|(d0 & d2 & st & Eg & En & Es & Hs & Eg2 & Es2)]%terminalize_parts; [reflexivity|].
  transitivity d0; [by apply same_tables_safe|]. transitivity d2; [by eapply settle_safe|by apply same_tables_safe].
Qed.

Section Run.
Context (freeze : Db -> Z -> pystr -> res pydict).
Context (prune_apply_plan : json -> list json -> list json -> res json).
Context (static_route_operation : Db -> Z -> pydict -> pydict -> pydict -> list Z -> res pydict).
Context (unprepared_evidence : Db -> Job -> option json -> res (option pydict)).
Notation stp := (step freeze prune_apply_plan static_route_operation unprepared_evidence).
Notation reach := (reachable freeze prune_apply_plan static_route_operation unprepared_evidence).
Notation run := (steps freeze prune_apply_plan static_route_operation unprepared_evidence).

(** The requeue branch of [terminalize_running] touches no stream; the others are terminal writes. *)
Lemma terminalize_running_parts n status e att r d d' :
  terminalize_running unprepared_evidence n status e att d = Ok (r, d') →
  quiet d d' ∨ ∃ st err o w, terminalize unprepared_evidence n st running att None err None o d = Ok (w, d').
Proof.
  unfold terminalize_running. destruct (superseded_by n status d).
  { intros ([w d1] & Ht & H)%bind_Ok. injection H as _ <-. right. eauto. }
  destruct status.
  - left. destruct (cas_job_status n running att _ d) as [[o|] d1] eqn:E; injection H as _ <-; unfold cas_job_status in E;
      destruct (jobs d !! n); [destruct (owns _ _ _)| |destruct (owns _ _ _)|]; by simplify_eq.
  - intros ([w d1] & Ht & H)%bind_Ok. injection H as _ <-. right. eauto.
  - intros ([w d1] & Ht & H)%bind_Ok. injection H as _ <-. right. eauto.
  - intros ([w d1] & Ht & H)%bind_Ok. injection H as _ <-. right. eauto.
Qed.

Lemma terminalize_running_safe n status e att r d d' : Inv d →
  terminalize_running unprepared_evidence n status e att d = Ok (r, d') → safe d d'.
Proof.
  intros I H. pose proof (terminalize_running_moves _ _ _ _ _ _ _ _ I H) as M.
  apply terminalize_running_parts in H as [Q|(st & err & o & w & Ht)]; [by apply quiet_safe|by eapply terminalize_safe].
Qed.

Lemma reconcile_safe b id r d d' : Inv d → reconcile_generation b id d = Ok (r, d') → safe d d'.
Proof.
  intros I. unfold reconcile_generation. destruct (generations d !! id) as [g|] eqn:Hg; [|intros [= _ <-]; reflexivity].
  intros ([head d1] & Hl & H)%bind_Ok. apply bind_Ok in H as ([] & _ & H). apply bind_Ok in H as ([[] d2] & Hc & H).
  destruct (exit_first_half d d1 d2 id g head abandoned) as (-> & F & Hm & I2 & _); [done..|by left|done|].
  assert (quiet d d2) as Q2 by (etransitivity; [by eapply locked_head_quiet|by eapply claim_blocked_quiet]).
  set (d3 := match g_settlement_cohort g with Some c => _ | None => d2 end) in H.
  assert (safe d2 d3 ∧ framed d2 d3) as [S3 F3].
  { unfold d3. destruct (g_settlement_cohort g); [split; [apply stamp_cohort_safe|apply stamp_cohort_framed]|by split]. }
  assert (Inv d3) as I3 by (by eapply framed_inv).
  transitivity d2; [by apply quiet_safe|]. transitivity d3; [done|].
  apply quiet_safe; [done|by eapply advance_locked_moves|by eapply advance_locked_quiet].
Qed.

Lemma quiet_tables d d' : Inv d → stp d d' → quiet d d' → safe d d'.
Proof. intros I H Q. apply quiet_safe; [done|by eapply step_moves|done]. Qed.

Lemma fresh_then_safe (d d1 d2 : Db) : Inv d1 → safe d d1 → moves d1 d2 → quiet d1 d2 → safe d d2.
Proof. intros I1 S M Q. transitivity d1; [done|by apply quiet_safe]. Qed.

Lemma created_inv d d0 d1 id g : Inv d → framed d d0 → fresh d0 d1 id g → Inv d1.
Proof. intros I F Hf. eapply move_inv; [by eapply fresh_move|by eapply framed_inv]. Qed.

Lemma enqueue_apply_safe so dev stream cohort r d d' : Inv d →
  enqueue_apply freeze prune_apply_plan static_route_operation so dev stream cohort d = Ok (r, d') → safe d d'.
Proof.
  intros I. unfold enqueue_apply. destruct so; [intros [= _ <-]; reflexivity|]. intros ([id d1] & Hc & H)%bind_Ok.
  pose proof (create_generation_fresh _ _ _ _ _ _ _ _ _ _ _ _ _ _ _ _ _ _ _ Hc) as (d0 & g & F & Hf & _).
  pose proof (created_inv d d0 d1 id g I F Hf) as I1.
  apply (fresh_then_safe d d1 d' I1); [by eapply create_generation_safe| |by eapply admit_apply_quiet].
  eapply admit_apply_moves; [done|by eapply fresh_lookup|by eapply fresh_status|by eapply fresh_job|done].
Qed.

Lemma action_apply_safe so dev names attempt document cohort authority frozen r d d' : Inv d →
  enqueue_action_apply_job freeze prune_apply_plan static_route_operation so dev names attempt document cohort authority
    frozen d = Ok (r, d') → safe d d'.
Proof.
  intros I. unfold enqueue_action_apply_job. intros ([id d1] & Hc & H)%bind_Ok.
  pose proof (create_generation_fresh _ _ _ _ _ _ _ _ _ _ _ _ _ _ _ _ _ _ _ Hc) as (d0 & g & F & Hf & _).
  pose proof (created_inv d d0 d1 id g I F Hf) as I1. apply bind_Ok in H as ([c d2] & Ha & H). injection H as _ <-.
  apply (fresh_then_safe d d1 d2 I1); [by eapply create_generation_safe| |by eapply admit_apply_quiet].
  eapply admit_apply_moves; [done|by eapply fresh_lookup|by eapply fresh_status|by eapply fresh_job|done].
Qed.

Lemma enqueue_removal_safe so force dev context promotes allowed document cohort tombs clears attempt frozen immediate r d d' :
  Inv d →
  enqueue_removal_generation freeze prune_apply_plan static_route_operation so force dev context promotes allowed document
    cohort tombs clears attempt frozen immediate d = Ok (r, d') → safe d d'.
Proof.
  intros I. unfold enqueue_removal_generation. destruct (so && negb force); [intros [= _ <-]; reflexivity|].
  intros ([[] d0] & Hl & H)%bind_Ok. apply bind_Ok in H as ([id d1] & Hgen & H).
  apply bind_Ok in H as ([n d2] & Hc & H). apply bind_Ok in H as ([[] d3] & Ha & H). injection H as _ <-.
  pose proof (lock_projection_framed _ _ _ Hl) as F0. pose proof (framed_inv _ _ F0 I) as I0.
  transitivity d0; [apply same_tables_safe; [apply F0|apply (lock_projection_quiet _ _ _ Hl)]|].
  assert (safe d0 d1 ∧ ∃ dd g, framed d0 dd ∧ fresh dd d1 id g ∧ g_device_id g = dev) as (S1 & dd & g & F & Hf & <-).
  { destruct force.
    - split; [by eapply create_reissue_safe|]. apply create_reissue_fresh in Hgen as (dd & g & ?&?&?&_). by exists dd, g.
    - split; [by eapply create_generation_safe|]. apply create_generation_fresh in Hgen as (dd & g & ?&?&?&_). by exists dd, g. }
  pose proof (created_inv d0 dd d1 id g I0 F Hf) as I1.
  apply (fresh_then_safe d0 d1 d3 I1 S1); [|etransitivity; [by eapply dedicated_job_quiet|by eapply require_attach_quiet]].
  unfold require_attach_to_job in Ha. apply txn_bind_Ok in Ha as (b & d4 & Ha & He).
  assert (d4 = d3) as ->. { unfold ensure, lift_res in He. destruct (guard_or b _); congruence. }
  eapply removal_job_moves; [done|by eapply fresh_lookup|by eapply fresh_status|by eapply fresh_job|done|done].
Qed.

Lemma reissue_removal_safe blocked dev tomb removed marking r d d' : Inv d →
  reissue_removal_job prune_apply_plan static_route_operation blocked dev tomb removed marking d = Ok (r, d') → safe d d'.
Proof.
  intros I. unfold reissue_removal_job. destruct blocked; [intros [= _ <-]; reflexivity|].
  intros ([id d1] & Hgen & H)%bind_Ok. pose proof (create_reissue_fresh _ _ _ _ _ _ _ _ _ _ _ Hgen) as (dd & g & F & Hf & <- & _).
  apply bind_Ok in H as ([n d2] & Hc & H). apply bind_Ok in H as ([b d3] & Ha & H).
  destruct b; [|done]. injection H as _ <-. transitivity d3; [|by apply same_tables_safe].
  pose proof (created_inv d dd d1 id g I F Hf) as I1.
  apply (fresh_then_safe d d1 d3 I1); [by eapply create_reissue_safe| |etransitivity; [by eapply dedicated_job_quiet|by eapply attach_quiet]].
  eapply removal_job_moves; [done|by eapply fresh_lookup|by eapply fresh_status|by eapply fresh_job|done|done].
Qed.

Lemma disposes_safe d d' : Inv d → disposes unprepared_evidence d d' → safe d d'.
Proof.
  intros I (d1 & m & W & ->). transitivity d1; [|by apply same_tables_safe]. destruct W as [->|n st att res err o r Ht|n st err att r Ht].
  - reflexivity.
  - by eapply terminalize_safe.
  - by eapply terminalize_running_safe.
Qed.

Lemma step_safe d d' : Inv d → stp d d' → safe d d'.
Proof.
  intros I H. pose proof (quiet_tables d d' I H) as Hq. destruct H; try (subst d'; by apply Hq).
  - by eapply note_write_safe.
  - by eapply prepare_slot_safe.
  - by eapply settle_selected_safe.
  - unfold allocate_settlement_cohort in *. simplify_eq. by apply Hq.
  - by eapply enqueue_apply_safe.
  - by eapply action_apply_safe.
  - by eapply enqueue_removal_safe.
  - by eapply reissue_removal_safe.
  - by eapply create_reissue_safe.
  - by eapply Hq, admit_coalescible_quiet.
  - by eapply Hq, acquire_quiet.
  - by eapply Hq, release_quiet.
  - by eapply Hq, start_quiet.
  - by eapply terminalize_safe.
  - by eapply terminalize_running_safe.
  - by eapply disposes_safe, revoke_disposes.
  - by eapply disposes_safe, mark_failed_disposes.
  - by eapply disposes_safe, dispose_cancelled_disposes.
  - by eapply Hq, retry_quiet.
  - by eapply reconcile_safe.
  - by eapply Hq, advance_device_quiet.
  - by eapply Hq, recover_quiet.
Qed.

Lemma steps_safe d d' : Inv d → run d d' → safe d d'.
Proof.
  intros I H. induction H as [d|d1 d2 d3 H12 H23 IH]; [reflexivity|]. transitivity d2; [by apply step_safe|].
  apply IH. eapply moves_inv; [by eapply step_moves|done].
Qed.

Lemma reach_sinv d : reach d → SInv d.
Proof.
  intros (d0 & H0 & Hs). apply (steps_safe d0 d (initial_inv d0 H0) Hs).
  destruct H0 as (Eg & _ & Es & _). split; [intros k r; by rewrite Es, lookup_empty|intros i g s rev; by rewrite Eg, lookup_empty].
Qed.

(** C4: Revision counters.  As long as no fleet cutover has retired authority - a separate transaction that sets the authorized and
    applied revisions of every stream to zero - each stream of a reachable store satisfies
    0 <= applied <= authorized <= desired, every generation's promoted revision is within what its
    stream authorized, and over any run no counter of any stream ever decreases. *)
Theorem revisions_ordered_and_monotone d d' :
  reach d → run d d' →
  (∀ k r, streams d !! k = Some r →
     0 <= s_applied r <= s_authorized r ∧ s_authorized r <= s_desired r ∧
     ∃ r', streams d' !! k = Some r' ∧ row_le r r') ∧
  (∀ i g s rev, generations d !! i = Some g → (s, rev) ∈ g_stream_revisions g →
     ∃ r, streams d !! (g_device_id g, s) = Some r ∧ rev <= s_authorized r).
Proof.
  intros Hr Hs. pose proof (reach_sinv d Hr) as Sd. pose proof (reachable_inv _ _ _ _ d Hr) as I.
  destruct (steps_safe d d' I Hs Sd) as [_ Hle]. destruct Sd as [Hrows Ht]. split; [|exact Ht].
  intros k r Hk. destruct (Hrows k r Hk). split_and!; try lia. by apply Hle.
Qed.
End Run.

Lemma revisions_ordered_and_monotone_witness :
  ∃ r r', streams started !! (7, "ip") = Some r ∧ streams done_run !! (7, "ip") = Some r' ∧ row_le r r' ∧ s_applied r' = 1.
Proof.
  destruct (revisions_ordered_and_monotone sample_freeze sample_prune sample_operation sample_evidence started done_run
              started_reachable (star_step _ _ _ _ done_step (star_refl _ _))) as [H _].
  destruct (streams started !! (7, "ip")) as [r|] eqn:Er; [|exfalso; revert Er; vm_compute; discriminate].
  destruct (H _ _ Er) as (_ & _ & r' & Er' & Hle). exists r, r'. split_and!; [reflexivity|exact Er'|exact Hle|].
  assert (s_applied <$> streams done_run !! (7, "ip") = Some 1) as E by (vm_compute; reflexivity). rewrite Er' in E.
  by injection E.
Defined.

(** ** What an applied revision means

    An applied revision advances only for delivered state: the stamp names a settled generation,
    or one whose whole settlement cohort is settled or abandoned. *)


(** The applied revision of a stream; a stream without a row has applied nothing. *)
Definition applied_revision (d : Db) (k : Z * pystr) : Z :=
  match streams d !! k with Some r => s_applied r | None => 0 end.

(** A generation whose delivery certifies the revisions it promoted. *)
Definition delivered (d : Db) (g : Generation) : Prop :=
  match g_settlement_cohort g with
  | None => g_status g = settled
  | Some c => ∀ k h, generations d !! k = Some h → g_device_id h = g_device_id g → g_settlement_cohort h = Some c →
                     crossable h = true
  end.
Definition justified (d : Db) (k : Z * pystr) (rev : Z) : Prop :=
  ∃ i g, generations d !! i = Some g ∧ g_device_id g = k.1 ∧ (k.2, rev) ∈ g_stream_revisions g ∧ delivered d g.

Definition kept (d d' : Db) : Prop := ∀ k, applied_revision d' k = applied_revision d k.
Definition certified (d d' : Db) : Prop :=
  ∀ k, applied_revision d' k = applied_revision d k ∨ justified d' k (applied_revision d' k).

#[global] Instance kept_preorder : PreOrder kept.
Proof. split; [done|]. intros d1 d2 d3 H12 H23 k. by rewrite H23, H12. Qed.

Lemma kept_eq d d' : streams d' = streams d → kept d d'.
Proof. intros E k. unfold applied_revision. by rewrite E. Qed.
Lemma same_revisions_kept d d' : same_revisions d d' → kept d d'.
Proof.
  intros H k. specialize (H k). unfold applied_revision. destruct (streams d !! k), (streams d' !! k); try done. tauto.
Qed.
Lemma quiet_kept d d' : quiet d d' → kept d d'.
Proof. intros [E _]. by apply kept_eq. Qed.
Lemma kept_certified d d' : kept d d' → certified d d'.
Proof. intros H k. left. apply H. Qed.
Lemma kept_row d d' k r r' : streams d !! k = Some r → streams d' = <[k := r']> (streams d) → s_applied r' = s_applied r → kept d d'.
Proof.
  intros Hr E Ha q. unfold applied_revision. rewrite E. destruct (decide (k = q)) as [<-|Hne].
  - by rewrite Hr, lookup_insert_eq.
  - by rewrite lookup_insert_ne.
Qed.

(** Rows that only differ in their carrier certify the same revisions. *)
Definition same_verdicts (d d' : Db) : Prop :=
  ∀ i, match generations d !! i, generations d' !! i with
       | Some g, Some g' => core_of g' = core_of g ∧ g_status g' = g_status g
       | None, None => True
       | _, _ => False
       end.

Lemma same_verdicts_eq d d' : generations d' = generations d → same_verdicts d d'.
Proof. intros E i. rewrite E. by destruct (generations d !! i). Qed.

Lemma justified_verdicts d d' k rev : same_verdicts d d' → justified d k rev → justified d' k rev.
Proof.
  intros Hv (i & g & Hg & Hd & Hin & Hdel). pose proof (Hv i) as Hi. rewrite Hg in Hi.
  destruct (generations d' !! i) as [g'|] eqn:Hg'; [|done]. destruct Hi as [(Ed & Er & Ec)%core_targets Es].
  exists i, g'. rewrite Ed, Er. split_and!; try done. unfold delivered in *. rewrite Ec, Ed, Es.
  destruct (g_settlement_cohort g) as [c|]; [|done]. intros q h' Hh' Hdh Hch. specialize (Hv q). rewrite Hh' in Hv.
  destruct (generations d !! q) as [h|] eqn:Hh; [|done]. destruct Hv as [(Edh & _ & Ech)%core_targets Esh].
  unfold crossable. rewrite Esh. apply (Hdel q h Hh); congruence.
Qed.

Lemma certified_trans d0 d1 d2 d3 : kept d0 d1 → certified d1 d2 → kept d2 d3 → same_verdicts d2 d3 → certified d0 d3.
Proof.
  intros K01 C12 K23 V23 k. rewrite K23. destruct (C12 k) as [E|J]; [left; by rewrite E|right]. by eapply justified_verdicts.
Qed.

(** ** Stamps *)

Lemma blocking_sibling_false d dev c : blocking_sibling d dev c = false →
  ∀ k h, generations d !! k = Some h → g_device_id h = dev → g_settlement_cohort h = Some c → crossable h = true.
Proof.
  intros H k h Hh Hd Hc. destruct (crossable h) eqn:E; [done|]. exfalso. apply not_true_iff_false in H. apply H.
  unfold blocking_sibling. apply existsb_exists. exists h. split; [apply list_elem_of_In, in_all_generations; eauto|].
  unfold is_some_eq. rewrite Hd, Hc, E, Z.eqb_refl. by rewrite bool_decide_eq_true_2.
Qed.

(** A target that may be stamped: cohort-free, or its cohort finished. *)
Definition stampable (d : Db) (t : target) : Prop :=
  match t.2 with Some c => blocking_sibling d t.1.1.1 c = false | None => True end.

Lemma stamp_target_applied at_ t d k : applied_revision (stamp_target at_ t d) k = applied_revision d k ∨
  (t.1.1 = k ∧ applied_revision (stamp_target at_ t d) k = t.1.2 ∧ stampable d t).
Proof.
  destruct t as [[[dev stream] rev] cohort]. unfold stamp_target. destruct (streams d !! (dev, stream)) as [r|] eqn:Hr; [|by left].
  destruct (_ && _) eqn:Hc; [|by left]. apply andb_true_iff in Hc as [_ Hc]. unfold applied_revision. cbn [streams with_streams fst snd].
  destruct (decide (k = (dev, stream))) as [->|Hne].
  - right. rewrite lookup_insert_eq. split_and!; [done..|]. unfold stampable. cbn [fst snd].
    destruct cohort; [by apply negb_true_iff in Hc|done].
  - left. by rewrite lookup_insert_ne.
Qed.

Lemma stamp_target_generations at_ t d : generations (stamp_target at_ t d) = generations d.
Proof. apply (stamp_target_framed at_ t d). Qed.

Lemma stamp_applied ts at_ d k : applied_revision (stamp_applied_revisions ts at_ d) k = applied_revision d k ∨
  ∃ t, t ∈ ts ∧ t.1.1 = k ∧ applied_revision (stamp_applied_revisions ts at_ d) k = t.1.2 ∧ stampable d t.
Proof.
  unfold stamp_applied_revisions.
  assert (∀ t, t ∈ stable_sort target_le (remove_dups ts) → t ∈ ts) as Hsub
    by (intros t; rewrite elem_of_stable_sort, elem_of_remove_dups; done).
  revert d Hsub. generalize (stable_sort target_le (remove_dups ts)). intros l.
  induction l as [|t l IH]; intros d Hsub; cbn; [by left|].
  destruct (IH (stamp_target at_ t d)) as [E|(q & Hq & Hk & Hv & Hs)].
  - intros q Hq. by apply Hsub, list_elem_of_further.
  - rewrite E. destruct (stamp_target_applied at_ t d k) as [E'|(Hk & Hv & Hs)]; [by left|right].
    exists t. split_and!; [apply Hsub, list_elem_of_here|done..].
  - right. exists q. split_and!; try done. unfold stampable, blocking_sibling, all_generations in *.
    by rewrite stamp_target_generations in Hs.
Qed.

(** Stamping the targets of generations that may certify them. *)
Lemma stamp_certified gs at_ d :
  (∀ g, g ∈ gs → ∃ i g', generations d !! i = Some g' ∧ core_of g' = core_of g ∧
     (g_settlement_cohort g = None → g_status g' = settled)) →
  certified d (stamp_applied_revisions (flat_map generation_targets gs) at_ d).
Proof.
  intros Hgs k. destruct (stamp_applied (flat_map generation_targets gs) at_ d k) as [E|(t & Ht & <- & Hv & Hs)]; [by left|right].
  apply list_elem_of_In, in_flat_map in Ht as (g & Hg%list_elem_of_In & Hin%list_elem_of_In).
  apply list_elem_of_fmap in Hin as ([s rev] & -> & Hin). cbn [fst snd] in *.
  destruct (Hgs g Hg) as (i & g' & Hg' & (Ed & Er & Ec)%core_targets & Hset). rewrite Hv.
  eapply justified_verdicts; [apply same_verdicts_eq, (stamp_framed (flat_map generation_targets gs) at_ d)|].
  exists i, g'. cbn. rewrite Ed, Er. split_and!; try done. unfold delivered. rewrite Ec, Ed. unfold stampable in Hs. cbn in Hs.
  destruct (g_settlement_cohort g) as [c|]; [by apply blocking_sibling_false|by apply Hset].
Qed.

Lemma stamp_cohort_certified loaded c at_ d : certified d (stamp_settled_cohort loaded c at_ d).
Proof.
  unfold stamp_settled_cohort. destruct (existsb _ _); [|by apply kept_certified]. apply stamp_certified.
  intros g [Hg Hc]%list_elem_of_In%filter_In. apply list_elem_of_In, in_all_generations in Hg as [i Hg].
  unfold is_some_eq in Hc. apply bool_decide_eq_true in Hc. exists i, g. split_and!; try done. congruence.
Qed.

Lemma certified_same d1 d2 d3 : certified d1 d2 → certified d2 d3 → generations d3 = generations d2 → certified d1 d3.
Proof.
  intros C12 C23 E k. destruct (C23 k) as [Ek|J]; [|by right]. rewrite Ek. destruct (C12 k) as [E1|J]; [by left|right].
  eapply justified_verdicts; [by apply same_verdicts_eq|done].
Qed.

Lemma stamp_cohorts_certified loaded cs at_ d : certified d (fold_left (fun d c => stamp_settled_cohort loaded c at_ d) cs d).
Proof.
  revert d. induction cs as [|c cs IH]; intros d; cbn; [by apply kept_certified|].
  eapply certified_same; [apply (stamp_cohort_certified loaded c at_ d)|apply IH|apply stamp_cohorts_framed].
Qed.

Lemma settle_certified n st e d d0 d' : Inv d → generations d0 = generations d →
  settle_job_generations n st e d0 = Ok (tt, d') → certified d0 d'.
Proof.
  intros I Eg. unfold settle_job_generations. destruct (job_generations d0 n) as [|g0 gs] eqn:E; [intros [= <-]; by apply kept_certified|].
  rewrite <-E. intros ([landed d1] & Ht & H)%bind_Ok. unfold terminalize_generations in Ht.
  destruct (status_in st TERMINAL); [|done].
  destruct (terminalize_loop_rewritten (job_generations d0 n) st e (clock d0) ∅ d0) as [[Hrow _] Hl].
  { intros known ((k & Hk) & _)%job_generations_spec. pose proof Hk as Hk'. rewrite Eg in Hk'.
    destruct (inv_gid d I k known Hk') as [-> _]. eauto. }
  pose proof (terminalize_loop_quiet (job_generations d0 n) st e None (clock d0) ∅ d0) as [Es _].
  injection Ht as Ht. rewrite Ht in Hrow, Es, Hl. cbn in Hrow, Es, Hl.
  case_bool_decide as Hst; [|injection H as <-; by apply kept_certified, kept_eq]. injection H as <-.
  match goal with |- context [stamp_applied_revisions (flat_map generation_targets ?gs) _ d1] =>
    assert (certified d1 (stamp_applied_revisions (flat_map generation_targets gs) (clock d0) d1)) as C1 end.
  - apply stamp_certified. intros g [Hg|Hg]%elem_of_app; apply list_elem_of_In, filter_In in Hg as [Hg Hc].
    + apply filter_In in Hg as [Hg _]. apply list_elem_of_In, job_generations_spec in Hg as ((k & Hk) & Jk).
      specialize (Hrow k). rewrite Hk in Hrow. destruct (generations d1 !! k) as [g'|] eqn:Hg'; [|done].
      destruct Hrow as (Hcore & _ & Hs). exists k, g'. split_and!; try done. intros _. rewrite Hs, decide_True; [done|].
      pose proof Hk as Hk'. rewrite Eg in Hk'. destruct (inv_gid d I k g Hk') as [<- _].
      apply elem_of_list_to_set, list_elem_of_fmap. exists g. split; [done|]. apply job_generations_spec. eauto.
    + apply list_elem_of_In, in_all_generations in Hg as [i Hi]. exists i, g. split_and!; try done.
      intros Hn. by rewrite Hn in Hc.
  - eapply certified_same; [|apply stamp_cohorts_certified|apply stamp_cohorts_framed].
    intros k. destruct (C1 k) as [E1|J]; [left|by right]. rewrite E1. by apply kept_eq.
Qed.

(** ** Operations that stamp nothing *)

Lemma note_write_kept dev stream push n d d' : note_write dev stream push d = Ok (n, d') → kept d d'.
Proof.
  unfold note_write. destruct (mem stream STREAMS); [|done].
  intros ([[] d1] & Q%lock_projection_quiet & H)%bind_Ok. transitivity d1; [by apply quiet_kept|].
  destruct (streams d1 !! (dev, stream)) as [r|] eqn:Hr; injection H as _ <-; [by eapply kept_row|].
  intros k. unfold applied_revision. cbn. destruct (decide (k = (dev, stream))) as [->|Hne].
  - by rewrite lookup_insert_eq, Hr.
  - by rewrite lookup_insert_ne.
Qed.

Lemma prepare_slot_kept dev stream so r d d' : prepare_slot dev stream so d = Ok (r, d') → kept d d'.
Proof.
  unfold prepare_slot. intros ([n d1] & K%note_write_kept & H)%bind_Ok. destruct so; injection H as _ <-; [done|].
  transitivity d1; [done|]. intros k. unfold applied_revision. cbn. destruct (decide (k = (dev, stream))) as [->|Hne].
  - rewrite lookup_alter_eq. by destruct (streams d1 !! (dev, stream)).
  - by rewrite lookup_alter_ne.
Qed.

Lemma promote_loop_kept freeze dev frozen todo acc r d d' : promote_loop freeze dev frozen todo acc d = Ok (r, d') → kept d d'.
Proof.
  revert acc d. induction todo as [|stream todo IH]; intros acc d; cbn [promote_loop]; [by intros [= _ <-]|].
  intros ([p d1] & Hp & H%IH)%bind_Ok. transitivity d1; [|done]. unfold promote_stream in Hp.
  destruct (mem stream OUT_OF_PROTOCOL_STREAMS).
  - destruct (dict_get frozen stream); [|done]. destruct (streams d !! (dev, stream)) as [row|] eqn:Hr; [|done].
    destruct (s_prepared_revision row); [|done]. injection Hp as _ <-. by eapply kept_row.
  - destruct (streams d !! (dev, stream)) as [row|] eqn:Hr; [|done]. apply bind_Ok in Hp as (f & _ & Hp).
    injection Hp as _ <-. by eapply kept_row.
Qed.

Lemma create_generation_kept freeze prune sro so dev names mode allowed doc ctx cohort ts ds attempt frozen cs id d d' :
  create_generation freeze prune sro so dev names mode allowed doc ctx cohort ts ds attempt frozen cs d = Ok (id, d') → kept d d'.
Proof.
  unfold create_generation. destruct so; [done|]. destruct names as [|nm names]; [done|].
  intros ([[] d1] & F1%lock_projection_quiet%quiet_kept & H)%bind_Ok. apply bind_Ok in H as ([? d2] & F2%refresh_same%same_revisions_kept & H).
  apply bind_Ok in H as ([promoted d3] & F3%promote_loop_kept & H).
  apply bind_Ok in H as ([[] d4] & F4%store_fragments_same%same_revisions_kept & H). apply bind_Ok in H as ([body d5] & F5 & H).
  assert (kept d4 d5) as K5.
  { destruct doc as [b|]; [by injection F5 as _ <-|]. apply bind_Ok in F5 as ([fr d6] & F6%refresh_same%same_revisions_kept & F5).
    apply bind_Ok in F5 as (b & _ & F5). by injection F5 as _ <-. }
  apply store_generation_streams, kept_eq in H. do 5 (etransitivity; [eassumption|]). done.
Qed.

Lemma create_reissue_kept prune sro dev mode ctx allowed ts ds id d d' :
  create_reissue_generation prune sro dev mode ctx allowed ts ds d = Ok (id, d') → kept d d'.
Proof.
  unfold create_reissue_generation. intros ([[] d1] & F1%lock_projection_quiet%quiet_kept & H)%bind_Ok.
  apply bind_Ok in H as ([? d2] & F2%refresh_same%same_revisions_kept & H). apply bind_Ok in H as (body & _ & H).
  apply store_generation_streams, kept_eq in H. do 2 (etransitivity; [eassumption|]). done.
Qed.

(** ** Operations that stamp *)

Lemma terminalize_certified ue n status expect att result error outcome w d d' : Inv d →
  terminalize ue n status expect att result error None outcome d = Ok (w, d') → certified d d'.
Proof.
  intros I [->|(d0 & d2 & st & Eg & En & Es & Hs & Eg2 & Es2)]%terminalize_parts; [by apply kept_certified|].
  eapply (certified_trans d d0 d2 d'); [by apply kept_eq|by eapply settle_certified|by apply kept_eq|by apply same_verdicts_eq].
Qed.

Lemma terminalize_running_certified ue n status e att r d d' : Inv d →
  terminalize_running ue n status e att d = Ok (r, d') → certified d d'.
Proof.
  intros I [Q|(st & err & o & w & Ht)]%terminalize_running_parts; [by apply kept_certified, quiet_kept|by eapply terminalize_certified].
Qed.

(** Changing the carrier of a generation changes no verdict. *)
Lemma rebound_verdicts d d' i g o : generations d !! i = Some g → generations d' = <[i := set_g_job o g]> (generations d) →
  same_verdicts d d'.
Proof.
  intros Hg E k. rewrite E. destruct (decide (i = k)) as [<-|Hne].
  - by rewrite Hg, lookup_insert_eq.
  - rewrite lookup_insert_ne by done. by destruct (generations d !! k).
Qed.

Lemma advance_locked_verdicts b dev r d d' : Inv d → advance_generations_locked b dev d = Ok (r, d') → same_verdicts d d'.
Proof.
  intros I. unfold advance_generations_locked. destruct (executable_head d dev) as [g|] eqn:Eh;
    [|intros [= _ <-]; by apply same_verdicts_eq].
  apply executable_head_spec in Eh as ((i & Hg) & Hd & Hh). destruct (inv_gid d I i g Hg) as [<- _].
  case_bool_decide as Hp; cbn [negb]; [|intros [= _ <-]; by apply same_verdicts_eq].
  assert (∀ d0 o, Inv d0 → generations d0 = <[g_id g := set_g_job o g]> (generations d) → o = None →
    ('(job_id, d1) ← create_dedicated_carrier (g_id g) d0; Ok (Some job_id, d1)) = Ok (r, d') → same_verdicts d d') as Hrep.
  { intros d0 o I0 Eg -> ([n d1] & Hc & H)%bind_Ok. injection H as _ <-.
    eapply (dedicated_carrier_moves d0 d1 (g_id g) (set_g_job None g)) in Hc as (_ & _ & E1 & _);
      [|done|rewrite Eg; apply lookup_insert_eq|done|by apply unbound_old].
    eapply (rebound_verdicts d d1 (g_id g) g (Some n)); [done|]. by rewrite E1, Eg, insert_insert_eq. }
  destruct (g_job_id g) as [n|] eqn:Hj.
  - destruct b; [intros [= _ <-]; by apply same_verdicts_eq|].
    destruct (inv_carrier d I _ g n Hg Hj) as (j & Hjn & _ & Hs). rewrite Hjn.
    set (d1 := with_generations (<[g_id g := set_g_job None g]> (generations d)) d).
    assert (live j = false → Inv d1) as I1.
    { intros Hl. eapply move_inv; [|exact I]. apply (move_unbind d d1 (g_id g) g); try done; [congruence|].
      intros m old Jm Ho. congruence. }
    destruct (j_status j) eqn:Es; [intros [= _ <-]; by apply same_verdicts_eq|done|..];
      (apply (Hrep d1 None); [|reflexivity|reflexivity]); apply I1; unfold live; by rewrite Es.
  - apply (Hrep d None); [done| |done]. rewrite insert_id; [done|]. rewrite Hg. f_equal.
    unfold set_g_job. destruct g; cbn in *. by rewrite Hj.
Qed.

Lemma reconcile_certified b id r d d' : Inv d → reconcile_generation b id d = Ok (r, d') → certified d d'.
Proof.
  intros I. unfold reconcile_generation. destruct (generations d !! id) as [g|] eqn:Hg; [|intros [= _ <-]; by apply kept_certified].
  intros ([head d1] & Hl & H)%bind_Ok. apply bind_Ok in H as ([] & _ & H). apply bind_Ok in H as ([[] d2] & Hc & H).
  destruct (exit_first_half d d1 d2 id g head abandoned) as (-> & F & Hm & I2 & _); [done..|by left|done|].
  assert (kept d d2) as K2.
  { apply quiet_kept. etransitivity; [by eapply locked_head_quiet|by eapply claim_blocked_quiet]. }
  set (d3 := match g_settlement_cohort g with Some c => _ | None => d2 end) in H.
  assert (certified d2 d3 ∧ framed d2 d3) as [C3 F3].
  { unfold d3. destruct (g_settlement_cohort g); [split; [apply stamp_cohort_certified|apply stamp_cohort_framed]|].
    split; [by apply kept_certified|reflexivity]. }
  assert (Inv d3) as I3 by (by eapply framed_inv).
  eapply (certified_trans d d2 d3 d'); [done|done|by eapply quiet_kept, advance_locked_quiet|by eapply advance_locked_verdicts].
Qed.

Section Run.
Context (freeze : Db -> Z -> pystr -> res pydict).
Context (prune_apply_plan : json -> list json -> list json -> res json).
Context (static_route_operation : Db -> Z -> pydict -> pydict -> pydict -> list Z -> res pydict).
Context (unprepared_evidence : Db -> Job -> option json -> res (option pydict)).
Notation stp := (step freeze prune_apply_plan static_route_operation unprepared_evidence).
Notation reach := (reachable freeze prune_apply_plan static_route_operation unprepared_evidence).

(** A metadata-only promotion: nothing of the device is unfinished, and the stream was fully applied. *)
Definition metadata_only (d d' : Db) (k : Z * pystr) : Prop :=
  executable_head d k.1 = None ∧
  ∃ r r', streams d !! k = Some r ∧ s_authorized r = s_applied r ∧ streams d' !! k = Some r' ∧ s_applied r' = s_authorized r'.

Lemma settle_selected_certified dev stream rev desired b d d' k : settle_selected dev stream rev desired d = Ok (b, d') →
  applied_revision d' k = applied_revision d k ∨ metadata_only d d' k.
Proof.
  unfold settle_selected. destruct (streams d !! (dev, stream)) as [r|] eqn:Hr; [|done].
  intros (can & Hcan & H)%bind_Ok. destruct can; [|injection H as _ <-; by left].
  apply bind_Ok in H as ([[] d1] & Hs & H). injection H as _ <-. unfold settle_wire_equivalent in Hs.
  apply bind_Ok in Hs as (a & _ & Hs). injection Hs as <-. destruct (decide (k = (dev, stream))) as [->|Hne].
  - right. unfold can_settle_wire_equivalent in Hcan. destruct (Z.eqb_spec (s_authorized r) (s_applied r)) as [Heq|]; [|done].
    cbn [negb] in Hcan. apply bind_Ok in Hcan as (p & _ & Hcan). destruct p; [done|]. apply bind_Ok in Hcan as (h & _ & Hcan).
    apply bind_Ok in Hcan as (t & _ & Hcan). destruct (negb _); [done|]. injection Hcan as Hh. split.
    + cbn. by destruct (executable_head d dev).
    + eexists r, _. split_and!; [done..|cbn; apply lookup_insert_eq|done].
  - left. unfold applied_revision. cbn. by rewrite lookup_insert_ne.
Qed.

Lemma enqueue_apply_kept so dev stream cohort r d d' :
  enqueue_apply freeze prune_apply_plan static_route_operation so dev stream cohort d = Ok (r, d') → kept d d'.
Proof.
  unfold enqueue_apply. destruct so; [by intros [= _ <-]|].
  intros ([id d1] & K1%create_generation_kept & Q%admit_apply_quiet%quiet_kept)%bind_Ok. by etransitivity.
Qed.

Lemma action_apply_kept so dev names attempt document cohort authority frozen r d d' :
  enqueue_action_apply_job freeze prune_apply_plan static_route_operation so dev names attempt document cohort authority
    frozen d = Ok (r, d') → kept d d'.
Proof.
  unfold enqueue_action_apply_job. intros ([id d1] & K1%create_generation_kept & H)%bind_Ok.
  apply bind_Ok in H as ([c d2] & Q%admit_apply_quiet%quiet_kept & H). injection H as _ <-. by etransitivity.
Qed.

Lemma enqueue_removal_kept so force dev context promotes allowed document cohort tombs clears attempt frozen immediate r d d' :
  enqueue_removal_generation freeze prune_apply_plan static_route_operation so force dev context promotes allowed document
    cohort tombs clears attempt frozen immediate d = Ok (r, d') → kept d d'.
Proof.
  unfold enqueue_removal_generation. destruct (so && negb force); [by intros [= _ <-]|].
  intros ([[] d0] & K0%lock_projection_quiet%quiet_kept & H)%bind_Ok. apply bind_Ok in H as ([id d1] & Hgen & H).
  apply bind_Ok in H as ([n d2] & K2%dedicated_job_quiet%quiet_kept & H).
  apply bind_Ok in H as ([[] d3] & K3%require_attach_quiet%quiet_kept & H). injection H as _ <-.
  assert (kept d0 d1) as K1 by (destruct force; [by eapply create_reissue_kept|by eapply create_generation_kept]).
  do 3 (etransitivity; [eassumption|]). done.
Qed.

Lemma reissue_removal_kept blocked dev tomb removed marking r d d' :
  reissue_removal_job prune_apply_plan static_route_operation blocked dev tomb removed marking d = Ok (r, d') → kept d d'.
Proof.
  unfold reissue_removal_job. destruct blocked; [by intros [= _ <-]|].
  intros ([id d1] & K1%create_reissue_kept & H)%bind_Ok. apply bind_Ok in H as ([n d2] & K2%dedicated_job_quiet%quiet_kept & H).
  apply bind_Ok in H as ([b d3] & K3%attach_quiet%quiet_kept & H). destruct b; [|done]. injection H as _ <-.
  do 2 (etransitivity; [eassumption|]). done.
Qed.

Lemma disposes_certified d d' : Inv d → disposes unprepared_evidence d d' → certified d d'.
Proof.
  intros I (d1 & m & W & ->). eapply (certified_trans d d d1); [done| |by apply kept_eq|by apply same_verdicts_eq].
  destruct W as [->|n st att res err o r Ht|n st err att r Ht].
  - by apply kept_certified.
  - by eapply terminalize_certified.
  - by eapply terminalize_running_certified.
Qed.

(** C2: Applied means delivered.  Whenever a step of the system advances a stream's applied
    revision, the new value was promoted by a generation of that device which is settled - or, in
    a settlement cohort, all of whose cohort siblings on the device are settled or abandoned; the
    one other way is a metadata-only promotion of a fully applied stream while the device has no
    unfinished generation. *)
Theorem applied_only_when_delivered d d' k :
  reach d → stp d d' → applied_revision d' k ≠ applied_revision d k →
  justified d' k (applied_revision d' k) ∨ metadata_only d d' k.
Proof.
  intros I%reachable_inv H Hne.
  assert (kept d d' → justified d' k (applied_revision d' k) ∨ metadata_only d d' k) as Hk by (intros K; by destruct Hne).
  assert (certified d d' → justified d' k (applied_revision d' k) ∨ metadata_only d d' k) as Hc
    by (intros C; destruct (C k); [done|by left]).
  assert (applied_revision d' k = applied_revision d k ∨ metadata_only d d' k →
    justified d' k (applied_revision d' k) ∨ metadata_only d d' k) as Hm by (intros [?|?]; [done|by right]). clear Hne.
  destruct H; try (subst d'; apply Hk; by apply kept_eq).
  - by eapply Hk, note_write_kept.
  - by eapply Hk, prepare_slot_kept.
  - by eapply Hm, settle_selected_certified.
  - apply Hk. unfold allocate_settlement_cohort in *. match goal with E : Ok _ = Ok (n, d') |- _ => injection E as _ <- end.
    by apply kept_eq.
  - by eapply Hk, enqueue_apply_kept.
  - by eapply Hk, action_apply_kept.
  - by eapply Hk, enqueue_removal_kept.
  - by eapply Hk, reissue_removal_kept.
  - by eapply Hk, create_reissue_kept.
  - by eapply Hk, quiet_kept, admit_coalescible_quiet.
  - by eapply Hk, quiet_kept, acquire_quiet.
  - by eapply Hk, quiet_kept, release_quiet.
  - by eapply Hk, quiet_kept, start_quiet.
  - by eapply Hc, terminalize_certified.
  - by eapply Hc, terminalize_running_certified.
  - by eapply Hc, disposes_certified, revoke_disposes.
  - by eapply Hc, disposes_certified, mark_failed_disposes.
  - by eapply Hc, disposes_certified, dispose_cancelled_disposes.
  - by eapply Hk, quiet_kept, retry_quiet.
  - by eapply Hc, reconcile_certified.
  - by eapply Hk, quiet_kept, advance_device_quiet.
  - by eapply Hk, quiet_kept, recover_quiet.
Qed.
End Run.

Lemma applied_only_when_delivered_witness :
  applied_revision started (7, "ip") = 0 ∧ applied_revision done_run (7, "ip") = 1 ∧
  (justified done_run (7, "ip") (applied_revision done_run (7, "ip")) ∨ metadata_only started done_run (7, "ip")).
Proof.
  split; [vm_compute; reflexivity|]. split; [vm_compute; reflexivity|].
  apply (applied_only_when_delivered sample_freeze sample_prune sample_operation sample_evidence started done_run (7, "ip")
           started_reachable done_step). vm_compute. discriminate.
Defined.
