(* ===== verification/ClaimProps.v ===== *)
(** * Claims, terminal writes and admission

    The fencing contract of core/claim.py: a worker that lost its claim, or whose attempt was
    superseded, changes nothing; a terminal write is one compare-and-set; admission hands out one
    queued job per device and type. *)

From stdpp Require Import base gmap list strings sorting.
From Stdlib Require Import ZArith NArith Lia.
From S2P Require Import Prelude Json Sha256 Registry Document Store Generation Admission Claim GenerationInv Moves Lifecycle System Scenario.
Local Open Scope py_scope.
Local Open Scope Z_scope.

(** ** Claims *)

(** Another holder, or none, owns the registration's device. *)
Definition claim_lost (reg : Registration) (d : Db) : Prop :=
  is_Some (reg_token reg) ∧ holds_claim reg d = false.

(** C7: Claim fencing.  A registration whose claim was revoked or taken over cannot start a job,
    release a claim or write a disposition: starting raises ClaimLostError, and releasing and
    disposing report a known abort with the store unchanged - in particular the successor's claim
    survives. *)
Theorem lost_claim_is_fenced ue locked dev reg expected only found n code message ty d :
  claim_lost reg d →
  start_head_under_claim locked dev reg expected only d = Raise (ClaimLostError (default 0 (reg_device reg))) ∧
  release_claim reg d = (ABORT_KNOWN, d) ∧ mark_failed_and_release ue found n code message reg d = (ABORT_KNOWN, d) ∧
  dispose_cancelled ue found n ty reg d = (ABORT_KNOWN, d) ∧
  delete_own_claim reg d = d.
Proof.
  intros [[tok Ht] Hh]. assert (lock_claim reg d = Raise (ClaimLostError (default 0 (reg_device reg)))) as Hl
    by (unfold lock_claim; by rewrite Ht, Hh).
  split_and!.
  - unfold start_head_under_claim. by rewrite Hl.
  - unfold release_claim. by rewrite Ht, Hl.
  - unfold mark_failed_and_release, release_after. by rewrite Hl.
  - unfold dispose_cancelled, release_after. by rewrite Hl.
  - unfold delete_own_claim. rewrite Ht, Hh. by destruct (reg_device reg).
Qed.

(** Claim exclusion.  While a device's claim is held, acquiring it - with any purpose, job and
    token - gives no claim and changes nothing; once released by its holder the same acquisition
    succeeds with a claim that only the new token holds. *)
Theorem claim_is_exclusive dev token reg purpose job d :
  reg_device reg = Some dev → reg_token reg = Some token → holds_claim reg d = true → mem purpose PURPOSES = true →
  ∀ token', acquire_claim dev purpose job token' d = Ok (None, d) ∧
  (token' ≠ token → dev ∈ devices d →
   (∀ q c, claims d !! q = Some c → c_token c ≠ token') →
   let d1 := (release_claim reg d).2 in
   ∃ reg' d2, acquire_claim dev purpose job token' d1 = Ok (Some reg', d2) ∧ holds_claim reg' d2 = true ∧
     holds_claim reg d2 = false ∧ ∀ q, q ≠ dev → claims d2 !! q = claims d !! q).
Proof.
  intros Hd Ht Hh Hp token'. pose proof Hh as Hh'. unfold holds_claim in Hh. rewrite Hd, Ht in Hh.
  destruct (claims d !! dev) as [c|] eqn:Hc; [|done]. apply bool_decide_eq_true in Hh. split.
  - unfold acquire_claim. rewrite Hp, Hc. by case_bool_decide.
  - intros Hne Hdev Hfresh d1.
    assert (d1 = with_claims (delete dev (claims d)) d) as ->.
    { unfold d1, release_claim, lock_claim, delete_own_claim. rewrite Ht, Hh', Hd. by rewrite Hh'. }
    unfold acquire_claim. rewrite Hp. cbn [devices claims with_claims]. rewrite bool_decide_eq_true_2 by done.
    rewrite lookup_delete_eq. destruct (existsb _ _) eqn:Hex.
    { apply existsb_exists in Hex as (c' & Hin & Hc'%bool_decide_eq_true).
      apply list_elem_of_In, list_elem_of_fmap in Hin as ([q c2] & -> & Hq%elem_of_map_to_list).
      apply lookup_delete_Some in Hq as [_ Hq]. by destruct (Hfresh q c2 Hq). }
    eexists _, _. split_and!; [reflexivity|..].
    + unfold holds_claim. cbn. rewrite lookup_insert_eq. cbn. by rewrite bool_decide_eq_true_2.
    + unfold holds_claim. rewrite Hd, Ht. cbn. rewrite lookup_insert_eq. cbn. by rewrite bool_decide_eq_false_2.
    + intros q Hq. cbn. by rewrite lookup_insert_ne, lookup_delete_ne.
Qed.

(** ** Terminal writes *)

Lemma settle_jobs n st e d d' : settle_job_generations n st e d = Ok (tt, d') →
  jobs d' = jobs d ∧ settle_counter d' = settle_counter d.
Proof.
  unfold settle_job_generations. destruct (job_generations d n) as [|g gs] eqn:Ejg; [by intros [= <-]|]. rewrite <-Ejg. clear g gs Ejg.
  assert (∀ gs outcome error expected at_ landed d0,
    jobs (terminalize_loop gs outcome error expected at_ landed d0).2 = jobs d0 ∧
    settle_counter (terminalize_loop gs outcome error expected at_ landed d0).2 = settle_counter d0) as Hloop.
  { clear. intros gs. induction gs as [|g gs IH]; intros; cbn [terminalize_loop]; [done|].
    destruct (generations d0 !! g_id g); [|apply IH]. destruct (terminal_condition _ _ _); [|apply IH].
    match goal with |- context [terminalize_loop gs ?o ?e ?x ?a ?l ?dd] => destruct (IH o e x a l dd) as [-> ->] end. done. }
  assert (∀ ts at_ d0, jobs (stamp_applied_revisions ts at_ d0) = jobs d0 ∧
    settle_counter (stamp_applied_revisions ts at_ d0) = settle_counter d0) as Hstamp.
  { clear. intros ts at_ d0. unfold stamp_applied_revisions. generalize (stable_sort target_le (remove_dups ts)). intros l.
    revert d0. induction l as [|t l IH]; intros d0; cbn; [done|]. destruct (IH (stamp_target at_ t d0)) as [-> ->].
    destruct t as [[[dev s] rev] c]. unfold stamp_target. destruct (streams d0 !! _); [|done]. by destruct (_ && _). }
  assert (∀ loaded cs at_ d0, jobs (fold_left (fun d c => stamp_settled_cohort loaded c at_ d) cs d0) = jobs d0 ∧
    settle_counter (fold_left (fun d c => stamp_settled_cohort loaded c at_ d) cs d0) = settle_counter d0) as Hcoh.
  { intros loaded cs at_. induction cs as [|c cs IH]; intros d0; cbn; [done|].
    destruct (IH (stamp_settled_cohort loaded c at_ d0)) as [-> ->]. unfold stamp_settled_cohort.
    destruct (existsb _ _); [apply Hstamp|done]. }
  intros ([landed d1] & Ht & H)%bind_Ok. unfold terminalize_generations in Ht. destruct (status_in st TERMINAL); [|done].
  injection Ht as Ht. destruct (Hloop (job_generations d n) st e None (clock d) ∅ d) as [E1 E2]. rewrite Ht in E1, E2. cbn in E1, E2.
  case_bool_decide; injection H as <-; [|done].
  match goal with |- context [fold_left _ (cohorts_of ?cs) ?dd] =>
    match goal with |- context [stamp_settled_cohort ?l _ ?a _] => destruct (Hcoh l (cohorts_of cs) a dd) as [-> ->] end end.
  match goal with |- context [stamp_applied_revisions ?ts ?a d1] => destruct (Hstamp ts a d1) as [-> ->] end. done.
Qed.

(** C6: One terminal write.  [terminalize] is a compare-and-set on the expected status and attempt:
    when the row is missing, in another status or under another attempt it writes nothing at all;
    when it writes, the job's row takes the terminal status, a device's settle sequence takes the
    next value of that device's counter, and any later terminal write of the same job - by a stale
    worker or by the reaper - does nothing. *)
Theorem terminalize_is_compare_and_set ue n status expect att result error outcome d w d' :
  terminalize ue n status expect att result error None outcome d = Ok (w, d') →
  match w with
  | None => d' = d ∧ ∀ j, jobs d !! n = Some j → owns expect att j = false
  | Some w =>
      (∃ j j', jobs d !! n = Some j ∧ owns expect att j = true ∧ jobs d' !! n = Some j' ∧ j_status j' = status ∧
         match j_device_id j with
         | Some dev => ∃ c, settle_counter d !! dev = Some c ∧ settle_counter d' !! dev = Some (c + 1) ∧
                            j_settle_seq j' = Some (c + 1) ∧ tw_settle_seq w = Some (c + 1)
         | None => tw_settle_seq w = None
         end) ∧
      (∀ status2 expect2 att2 result2 error2 outcome2, expect2 = queued ∨ expect2 = running →
         status2 ∈ TERMINAL_STATUSES →
         terminalize ue n status2 expect2 att2 result2 error2 None outcome2 d' = Ok (None, d'))
  end.
Proof.
  unfold terminalize at 1. intros ([] & Hst & H)%bind_Ok. apply guard_or_Ok, bool_decide_eq_true in Hst.
  apply bind_Ok in H as (locked & Hl & H). destruct (jobs d !! n) as [j|] eqn:Hj.
  2:{ injection Hl as <-. injection H as <- <-. split; [done|]. by intros j [=]. }
  destruct (owns expect att j) eqn:Ho.
  2:{ injection Hl as <-. injection H as <- <-. split; [done|]. by intros j' [= <-]. }
  apply bind_Ok in Hl as (res & _ & Hl). injection Hl as <-. unfold cas_job_status in H. rewrite Hj, Ho in H. cbn zeta in H.
  set (j' := set_j_outcome _ _ (set_j_status status j)) in *. set (d0 := with_jobs (<[n := j']> (jobs d)) d) in *.
  apply bind_Ok in H as ([[] d2] & Hs & H). apply settle_jobs in Hs as [Ej Ec].
  assert (∃ w' q, w = Some w' ∧ jobs d' !! n = Some q ∧ j_status q = status ∧
    match j_device_id j with
    | Some dev => ∃ c, settle_counter d !! dev = Some c ∧ settle_counter d' !! dev = Some (c + 1) ∧
                       j_settle_seq q = Some (c + 1) ∧ tw_settle_seq w' = Some (c + 1)
    | None => tw_settle_seq w' = None
    end) as (w' & q & -> & Hq & Hqs & Hseq).
  { change (j_device_id j') with (j_device_id j) in H. destruct (j_device_id j) as [dev|].
    - unfold allocate_settle_seq in H. destruct (settle_counter d2 !! dev) as [c|] eqn:Hcnt; [|done].
      cbn [jobs with_settle_counter] in H. rewrite Ej in H. cbn [jobs with_jobs d0] in H. unfold d0 in H. cbn [jobs with_jobs] in H.
      rewrite lookup_insert_eq in H. injection H as <- <-. eexists _, _. split_and!; [reflexivity|cbn; apply lookup_insert_eq|done|].
      exists c. rewrite Ec in Hcnt. split_and!; [done|cbn; apply lookup_insert_eq|done|done].
    - injection H as <- <-. eexists _, j'. split_and!; [reflexivity| |done|done]. rewrite Ej. unfold d0. cbn. apply lookup_insert_eq. }
  split; [by exists j, q|]. intros status2 expect2 att2 result2 error2 outcome2 Hex Hst2. unfold terminalize.
  rewrite bool_decide_eq_true_2 by done. rewrite Hq.
  assert (owns expect2 att2 q = false) as ->; [|done].
  unfold owns. rewrite bool_decide_eq_false_2; [done|]. rewrite Hqs. unfold TERMINAL_STATUSES in Hst.
  rewrite !elem_of_cons, elem_of_nil in Hst. destruct Hex, Hst as [|[|[]]]; congruence.
Qed.

(** ** Admission *)

Lemma sort_head_some {A} (le : A -> A -> bool) l x : x ∈ l → ∃ y, hd_error (stable_sort le l) = Some y ∧ y ∈ l.
Proof.
  intros Hin. destruct (stable_sort le l) as [|y l'] eqn:E.
  - rewrite <-(elem_of_stable_sort le), E in Hin. by apply elem_of_nil in Hin.
  - exists y. split; [done|]. rewrite <-(elem_of_stable_sort le), E. apply list_elem_of_here.
Qed.

Lemma job_in_table d j : In j (map snd (map_to_list (jobs d))) ↔ ∃ n, jobs d !! n = Some j.
Proof.
  rewrite <-list_elem_of_In, list_elem_of_fmap. split.
  - intros ([n q] & -> & H%elem_of_map_to_list). by exists n.
  - intros [n H]. exists (n, j). split; [done|]. by apply elem_of_map_to_list.
Qed.

(** Coalescing.  In every reachable store at most one coalescible job of a device and type is
    queued, and admission always answers: with that job when there is one, leaving the store as it
    is, and otherwise with a new queued job. *)
Theorem admission_coalesces freeze prune operation evidence d dev ty context :
  reachable freeze prune operation evidence d → ty ∉ [removal; provision] →
  (∃ n j, jobs d !! n = Some j ∧ queued_coalescible dev ty j = true ∧
     (∀ m q, jobs d !! m = Some q → queued_coalescible dev ty q = true → m = n) ∧
     admit_coalescible_job dev ty context d = Ok ((None, Some n), d)) ∨
  ((∀ m q, jobs d !! m = Some q → queued_coalescible dev ty q = false) ∧
   admit_coalescible_job dev ty context d = Ok ((Some (next_job_id d), None), insert_job ty (Some dev) true context d)).
Proof.
  intros I%reachable_inv Hty. unfold admit_coalescible_job. rewrite bool_decide_eq_false_2 by done.
  unfold ADMISSION_RETRIES. cbn [admit_loop].
  destruct (existsb (queued_coalescible dev ty) (map snd (map_to_list (jobs d)))) eqn:E.
  - left. apply existsb_exists in E as (j0 & Hin0 & Hq0). unfold queued_winner.
    destruct (sort_head_some job_le (List.filter (queued_coalescible dev ty) (map snd (map_to_list (jobs d)))) j0)
      as (w & Hw & Hin); [by apply list_elem_of_In, filter_In|]. rewrite Hw.
    apply list_elem_of_In, filter_In in Hin as [Hin Hqw]. apply job_in_table in Hin as [n Hn].
    destruct (inv_jid d I n w Hn) as [Eid _]. exists n, w. split_and!; try done; [|by rewrite Eid].
    intros m q Hm Hq. by apply (inv_index d I m n q w dev ty).
  - right. split; [|done]. intros m q Hm. destruct (queued_coalescible dev ty q) eqn:Eq; [|done].
    apply not_true_iff_false in E. destruct E. apply existsb_exists. exists q. split; [|done]. apply job_in_table. eauto.
Qed.

(** ** Witnesses *)

Definition other_claim : Registration := {| reg_device := Some 7; reg_token := Some "stale"; reg_attempt := Some 1 |}.

Lemma lost_claim_is_fenced_witness :
  claim_lost other_claim started ∧ release_claim other_claim started = (ABORT_KNOWN, started) ∧
  start_head_under_claim (fun _ => false) 7 other_claim None None started = Raise (ClaimLostError 7).
Proof.
  assert (claim_lost other_claim started) as H by (split; [by exists "stale"|vm_compute; reflexivity]).
  split; [exact H|].
  destruct (lost_claim_is_fenced sample_evidence (fun _ => false) 7 other_claim None None no_attempt 1 "x" "y" apply_job started H) as (H1 & H2 & _).
  split; [exact H2|exact H1].
Defined.

Lemma claim_is_exclusive_witness :
  acquire_claim 7 "sweep" None "next" started = Ok (None, started) ∧
  ∃ reg' d2, acquire_claim 7 "sweep" None "next" (release_claim sample_claim started).2 = Ok (Some reg', d2) ∧
    holds_claim sample_claim d2 = false.
Proof.
  destruct (claim_is_exclusive 7 "token" sample_claim "sweep" None started eq_refl eq_refl
              ltac:(vm_compute; reflexivity) ltac:(vm_compute; reflexivity) "next") as [H1 H2].
  split; [exact H1|]. destruct H2 as (reg' & d2 & H3 & _ & H4 & _); [discriminate|decide_vm| |].
  - assert (map_Forall (fun _ c => c_token c ≠ "next") (claims started)) as HF by decide_vm. exact HF.
  - exists reg', d2. split; [exact H3|exact H4].
Defined.

Lemma terminalize_is_compare_and_set_witness :
  ∃ w, terminalize sample_evidence 1 succeeded running (Some 1) None None None None started = Ok (Some w, done_run) ∧
    terminalize sample_evidence 1 job_failed running (Some 1) None None None None done_run = Ok (None, done_run).
Proof.
  destruct (exec_ok (terminalize sample_evidence 1 succeeded running (Some 1) None None None None) started) as [w E];
    [vm_compute; reflexivity|]. change (exec _ started) with done_run in E.
  pose proof (terminalize_is_compare_and_set sample_evidence 1 succeeded running (Some 1) None None None started w done_run E) as H.
  destruct w as [w|].
  - exists w. split; [exact E|]. destruct H as [_ H].
    exact (H job_failed running (Some 1) None None None (or_intror eq_refl) ltac:(decide_vm)).
  - exfalso. destruct H as [_ H]. assert (owns running (Some 1) (job_row started 1) = true) as Ho by (vm_compute; reflexivity).
    pose proof (H _ (job_lookup started 1 ltac:(vm_compute; reflexivity))) as Hn. congruence.
Defined.

Lemma admission_coalesces_witness :
  admit_coalescible_job 7 apply_job None coalesced = Ok ((None, Some 1), coalesced).
Proof.
  destruct (admission_coalesces sample_freeze sample_prune sample_operation sample_evidence coalesced 7 apply_job None
              coalesced_reachable ltac:(set_solver)) as [(n & j & _ & _ & Hn & E)|[Hnone _]].
  - assert (1 = n) as ->; [apply (Hn 1 (job_row coalesced 1)); [eval_row|vm_compute; reflexivity]|exact E].
  - exfalso. assert (queued_coalescible 7 apply_job (job_row coalesced 1) = true) as Hq by (vm_compute; reflexivity).
    pose proof (Hnone 1 (job_row coalesced 1) ltac:(eval_row)) as Hn. congruence.
Defined.

