(* ===== verification/Receipt.v ===== *)
(** * Push receipts

    src/nso_adapter/core/receipt.py and api/intent_push.py: the admission of keyed intent pushes, the response a repeated delivery
    replays, and the deletion provenance a receipt carries until Apply consumes it.  The state is the store with the live rows and
    the receipts, one per device and stream.  What an endpoint does between admission and the response is the parameter [work]
    of [deliver]: it may write the store and the rows, and of the receipts only their private part. *)

From stdpp Require Import base gmap list.
From Stdlib Require Import ZArith NArith Lia.
From S2P Require Import Prelude Json Codec Sha256 Registry Document Asn Identity Store Generation.
Local Open Scope py_scope.
Local Open Scope Z_scope.

(** ** Data *)

Record PushIdentity := mkIdentity { p_seq : Z; p_digest : pystr; p_store_only : bool; p_delete_origin : bool; p_backfill_only : bool }.
#[global] Instance push_identity_eq_dec : EqDecision PushIdentity.
Proof. solve_decision. Defined.

Record IntentDelivery := mkDelivery { d_stream : pystr; d_identity : PushIdentity }.

Record IntentPushReceipt := mkReceipt {
  r_identity : PushIdentity; r_response : option pydict; r_status : Z; r_generation_id : option Z; r_updated_at : Z }.

(** [StreamPendingClear]: a cleared leaf that no networked deployment carries yet *)
Record PendingClear := mkClear { pc_id : Z; pc_provenance : pystr; pc_revision : Z }.

(** The store, the live rows of every table, the receipts and the pending clears, one per device and stream. *)
Record PushDb := mkPush {
  base : Db; live : tables; receipts : gmap (Z * pystr) IntentPushReceipt; clears : gmap (Z * pystr) PendingClear;
  next_clear_id : Z; next_row_id : Z }.
Definition with_base (d : Db) (s : PushDb) : PushDb := mkPush d (live s) (receipts s) (clears s) (next_clear_id s) (next_row_id s).
Definition with_live (t : tables) (next : Z) (s : PushDb) : PushDb := mkPush (base s) t (receipts s) (clears s) (next_clear_id s) next.
Definition with_receipt (k : Z * pystr) (r : IntentPushReceipt) (s : PushDb) : PushDb :=
  mkPush (base s) (live s) (<[k := r]> (receipts s)) (clears s) (next_clear_id s) (next_row_id s).
Definition with_clears (m : gmap (Z * pystr) PendingClear) (next : Z) (s : PushDb) : PushDb :=
  mkPush (base s) (live s) (receipts s) m next (next_row_id s).

(** A transaction on the store alone. *)
Definition on_base {A} (m : txn Db A) : txn PushDb A := fun s =>
  match m (base s) with Ok (a, d) => Ok (a, with_base d s) | Raise e => Raise e end.

(** [digest_body] *)
Definition digest_body (body : json) : pystr := sha256_hex (ascii_bytes (dumps spaced_sorted body)).

Definition MIN_PUSH_SEQ : Z := 1.
Definition MAX_PUSH_SEQ : Z := 2 ^ 63 - 1.
Definition BACKFILL_ONLY_STREAM : pystr := "static_route".

(** [get_intent_delivery]: the header's bounds are checked by the parameter declaration *)
Definition get_intent_delivery (route : pystr) (x_push_seq : Z) (store_only delete_origin backfill_only : bool) (body : option json) : res IntentDelivery :=
  _ ← guard_or ((MIN_PUSH_SEQ <=? x_push_seq) && (x_push_seq <=? MAX_PUSH_SEQ)) (ApiError 422 "validation_error");
  endpoint ← intent_endpoint route;
  _ ← guard_or (negb (backfill_only && negb (bool_decide (endpoint.1 = BACKFILL_ONLY_STREAM)))) (ApiError 422 "validation_error");
  match body with
  | None => Raise (ApiError 422 "validation_error")
  | Some body => Ok (mkDelivery endpoint.1 (mkIdentity x_push_seq (digest_body body) store_only delete_origin backfill_only))
  end.

(** ** Private response data *)

Definition PROMOTION_DELETIONS : pystr := "_promotion_deletions".
Definition is_private (k : pystr) : bool := chars_prefix (py_chars "_") (py_chars k).

(** [_private_response] *)
Definition private_response (response : option pydict) : pydict :=
  match response with None => [] | Some d => List.filter (fun kv => is_private kv.1) d end.
(** What a replay shows. *)
Definition public_response (d : pydict) : pydict := List.filter (fun kv => negb (is_private kv.1)) d.

(** ** Deletion records *)

Inductive deletion_key := DelRoute (route_id : json) | DelKey (key : list json) | DelId (row_id : json).
Definition deletion_identity : Type := pystr * deletion_key.

Definition is_integer (v : json) : bool := match v with JInt _ | JBool _ => true | _ => false end.

(** [promotion_deletion_identity] *)
Definition promotion_deletion_identity (record : json) : option deletion_identity :=
  match record with
  | JObj d =>
      match get d "table" with
      | JStr table =>
          if is_integer (get d "route_id") then Some (table, DelRoute (get d "route_id"))
          else match get d "key" with
               | JArr key => Some (table, DelKey key)
               | _ => if is_integer (get d "id") then Some (table, DelId (get d "id")) else None
               end
      | _ => None
      end
  | _ => None
  end.

Definition key_eqb (a b : list json) : bool := py_eq (JArr a) (JArr b).
Definition deletion_eqb (a b : deletion_identity) : bool :=
  bool_decide (a.1 = b.1) &&
  match a.2, b.2 with
  | DelRoute v, DelRoute w | DelId v, DelId w => py_eq v w
  | DelKey v, DelKey w => key_eqb v w
  | _, _ => false
  end.
Definition deletion_hashable (i : deletion_identity) : bool := match i.2 with DelKey l => forallb scalar l | _ => true end.
Definition deletion_in (i : deletion_identity) (l : list deletion_identity) : bool := existsb (deletion_eqb i) l.

(** The records under a private key: [response.get('_promotion_deletions') or []].  A text or an object has no record. *)
Definition records_of (response : pydict) : res (list json) :=
  match get response PROMOTION_DELETIONS with
  | JArr l => Ok l
  | JStr _ | JObj _ => Ok []
  | v => if json_truthy v then Raise (TypeError "not iterable") else Ok []
  end.

(** The identified records not in [retired], by identity: a repeated identity keeps its place and its last record. *)
Fixpoint identified (records : list json) (retired : list deletion_identity) (acc : list (deletion_identity * json)) :
    res (list (deletion_identity * json)) :=
  match records with
  | [] => Ok acc
  | record :: records =>
      match promotion_deletion_identity record with
      | None => identified records retired acc
      | Some i =>
          if deletion_hashable i then
            identified records retired (if deletion_in i retired then acc else assoc_set deletion_eqb acc i record)
          else Raise unhashable
      end
  end.
Fixpoint set_defaults (records : list json) (acc : list (deletion_identity * json)) : res (list (deletion_identity * json)) :=
  match records with
  | [] => Ok acc
  | record :: records =>
      match promotion_deletion_identity record with
      | None => set_defaults records acc
      | Some i =>
          if deletion_hashable i then
            set_defaults records (match assoc_get deletion_eqb acc i with Some _ => acc | None => acc ++ [(i, record)] end)
          else Raise unhashable
      end
  end.

Definition without (k : pystr) (d : pydict) : pydict := List.filter (fun kv => negb (bool_decide (kv.1 = k))) d.

(** [_merge_private_response] *)
Definition merge_private_response (previous response : pydict) (retired : list deletion_identity) : res pydict :=
  let merged := without PROMOTION_DELETIONS (dict_update previous response) in
  old ← records_of previous;
  new ← records_of response;
  by_identity ← identified old retired [];
  by_identity ← set_defaults new by_identity;
  Ok (match by_identity with
      | [] => merged
      | _ => dict_set merged PROMOTION_DELETIONS (JArr (map snd by_identity))
      end).

(** [row.get(field) or ''] for the fields of a route key *)
Definition or_blank (v : json) : json := if json_truthy v then v else JStr "".
Definition route_key (row : pydict) : list json := [or_blank (get row "vrf"); or_blank (get row "prefix"); or_blank (get row "next_hop")].

(** [_record_matches_row] *)
Definition record_matches_row (i : deletion_identity) (row : pydict) : bool :=
  match i.2 with
  | DelRoute v => py_eq (get row "route_id") v
  | DelKey l => key_eqb (route_key row) l
  | DelId v => py_eq (get row "id") v
  end.

(** [_restored_deletion_identities] *)
Fixpoint restored_loop (records : list json) (authorized desired : tables) (retired : list deletion_identity) : res (list deletion_identity) :=
  match records with
  | [] => Ok retired
  | record :: records =>
      match promotion_deletion_identity record with
      | None => restored_loop records authorized desired retired
      | Some i =>
          desired_rows ← rows_by_intent_identity desired i.1;
          authorized_rows ← rows_by_intent_identity authorized i.1;
          let by_content := match i.2 with DelId _ => false | _ => existsb (fun ir => record_matches_row i ir.2) desired_rows end in
          let previous := fst <$> List.find (fun ir => record_matches_row i ir.2) authorized_rows in
          let again := match previous with Some p => index_has desired_rows p | None => false end in
          if by_content || again then
            if deletion_hashable i then restored_loop records authorized desired (i :: retired) else Raise unhashable
          else restored_loop records authorized desired retired
      end
  end.
Definition restored_deletion_identities (previous : pydict) (authorized desired : tables) : res (list deletion_identity) :=
  records ← records_of previous; restored_loop records authorized desired [].

Definition DELETE_ORIGIN_MARKING : pystr := "delete_origin".
Definition DETACH_MARKING : pystr := "detach".
Definition marking_of (delete_origin : bool) : pystr := if delete_origin then DELETE_ORIGIN_MARKING else DETACH_MARKING.

(** One table's rows in [_record_projection_deletions]: mark each row that is gone and not marked yet. *)
Fixpoint mark_rows (table marking : pystr) (rows desired : list (identity * pydict)) (explicit : list (deletion_identity * json)) :
    res (list (deletion_identity * json)) :=
  match rows with
  | [] => Ok explicit
  | (i, row) :: rows =>
      gone ← is_intent_deletion table i desired;
      if is_integer (get row "id") && gone then
        let has k := match assoc_get deletion_eqb explicit (table, k) with Some _ => true | None => false end in
        if is_integer (get row "route_id") && has (DelRoute (get row "route_id")) then mark_rows table marking rows desired explicit
        else if forallb scalar (route_key row) then
          if has (DelKey (route_key row)) || has (DelId (get row "id")) then mark_rows table marking rows desired explicit
          else mark_rows table marking rows desired
                 (explicit ++ [((table, DelId (get row "id")), JObj [("table", JStr table); ("id", get row "id"); ("marking", JStr marking)])])
        else Raise unhashable
      else mark_rows table marking rows desired explicit
  end.
Fixpoint mark_tables (marking : pystr) (names : list pystr) (authorized desired : tables) (explicit : list (deletion_identity * json)) :
    res (list (deletion_identity * json)) :=
  match names with
  | [] => Ok explicit
  | table :: names =>
      desired_rows ← rows_by_intent_identity desired table;
      rows ← rows_by_intent_identity authorized table;
      explicit ← mark_rows table marking rows desired_rows explicit;
      mark_tables marking names authorized desired explicit
  end.

(** [_record_projection_deletions] *)
Definition record_projection_deletions (s : PushDb) (device_id : Z) (stream : pystr) (receipt : IntentPushReceipt) (response : pydict) :
    res (pydict * list deletion_identity) :=
  match streams (base s) !! (device_id, stream) with
  | None => Ok (response, [])
  | Some row =>
      match s_authorized_document row with
      | None | Some [] => Ok (response, [])
      | Some document =>
          desired ← snapshot_stream (live s) device_id stream;
          authorized ← tables_of document;
          retired ← restored_deletion_identities (private_response (r_response receipt)) authorized desired;
          records ← records_of response;
          explicit ← identified records [] [];
          explicit ← mark_tables (marking_of (p_delete_origin (r_identity receipt))) (dict_keys authorized) authorized desired explicit;
          Ok (match explicit with
              | [] => response
              | _ => dict_set response PROMOTION_DELETIONS (JArr (map snd explicit))
              end, retired)
      end
  end.

(** ** Admission *)

Definition same_mode (a b : PushIdentity) : bool :=
  Bool.eqb (p_store_only a) (p_store_only b) && Bool.eqb (p_delete_origin a) (p_delete_origin b) && Bool.eqb (p_backfill_only a) (p_backfill_only b).

(** [admit_push] *)
Definition admit_push (device_id : Z) (delivery : IntentDelivery) : txn PushDb (option (option pydict * Z)) := fun s =>
  let stream := d_stream delivery in
  let identity := d_identity delivery in
  if mem stream INTENT_STREAMS then
    match receipts s !! (device_id, stream) with
    | None => Ok (None, with_receipt (device_id, stream) (mkReceipt identity None 200 None (clock (base s))) s)
    | Some receipt =>
        let admitted := r_identity receipt in
        if p_seq admitted =? p_seq identity then
          if bool_decide (p_digest admitted = p_digest identity) && same_mode admitted identity
          then Ok (Some (r_response receipt, r_status receipt), s)
          else Raise (PushSequenceConflict "sequence_reuse" (p_seq identity) (p_seq admitted))
        else if p_seq identity <? p_seq admitted then Raise (PushSequenceConflict "stale" (p_seq identity) (p_seq admitted))
        else
          let private := private_response (r_response receipt) in
          Ok (None, with_receipt (device_id, stream)
                      (mkReceipt identity (match private with [] => None | _ => Some private end) 200 None (clock (base s))) s)
    end
  else Raise (RuntimeError (stream +:+ " is not an in-protocol intent stream")).

(** [consume_promotion_provenance] *)
Definition consume_promotion_provenance (r : IntentPushReceipt) : IntentPushReceipt :=
  mkReceipt (r_identity r) (without PROMOTION_DELETIONS <$> r_response r) (r_status r) (r_generation_id r) (r_updated_at r).

(** [record_response], with the store's pending last-enqueued generation consumed *)
Definition record_response (device_id : Z) (delivery : IntentDelivery) (response : pydict) (status_code : Z) : txn PushDb unit := fun s =>
  let k := (device_id, d_stream delivery) in
  let enqueued := last_enqueued (base s) in
  let s := with_base (with_last_enqueued None (base s)) s in
  match receipts s !! k with
  | None => Raise (RuntimeError "no admitted receipt")
  | Some receipt =>
      if p_seq (r_identity receipt) =? p_seq (d_identity delivery) then
        let previous := private_response (r_response receipt) in
        '(response, retired) ← record_projection_deletions s device_id (d_stream delivery) receipt response;
        old ← records_of previous;
        carried ← identified old retired [];
        merged ← merge_private_response previous response retired;
        let receipt := mkReceipt (r_identity receipt) (Some merged) status_code enqueued (clock (base s)) in
        let promoted := match streams (base s) !! k with Some row => s_desired row <=? s_authorized row | None => false end in
        if promoted then
          match carried with
          | [] => Ok (tt, with_receipt k (consume_promotion_provenance receipt) s)
          | _ => Raise (PromotionProvenanceUnexecutable (d_stream delivery))
          end
        else Ok (tt, with_receipt k receipt s)
      else Raise (RuntimeError "no admitted receipt")
  end.

(** ** Delivery *)

(** [admit_or_replay]: the response to replay, or [None] to do the work *)
Definition admit_or_replay (device_id : Z) (delivery : IntentDelivery) : txn PushDb (option (pydict * Z)) :=
  admitted ← admit_push device_id delivery;
  mret (match admitted with
        | Some (Some stored, status_code) => Some (public_response stored, status_code)
        | Some (None, _) | None => None
        end).

(** The checks of [begin_delivery] on the rows already authorized. *)
Definition check_authorized (s : PushDb) (device_id : Z) (stream : pystr) : res unit :=
  _ ← (if mem stream ["bgp"; "ospf"; "isis"] then t ← snapshot_stream (live s) device_id stream; Ok tt else Ok tt);
  match streams (base s) !! (device_id, stream) with
  | None => Ok tt
  | Some row =>
      t ← tables_of (default [] (s_authorized_document row));
      _ ← map_res (fun tr => _ ← validate_asn_rows tr.1 tr.2 (NedContext (device_ned (live s) device_id));
                             rows_by_intent_identity t tr.1) t;
      Ok tt
  end.

(** [begin_delivery] *)
Definition begin_delivery (device_id : Z) (delivery : IntentDelivery) : txn PushDb (option (pydict * Z)) :=
  _ ← on_base (note_write device_id (d_stream delivery) (Some (p_seq (d_identity delivery))));
  s ← get_state;
  _ ← lift_res (check_authorized s device_id (d_stream delivery));
  admit_or_replay device_id delivery.

Inductive outcome := Performed (response : pydict) (status : Z) | Replayed (response : pydict) (status : Z) | Refused (e : exc).

(** One intent PUT: the endpoint's own work runs after admission and before the response is recorded; a refusal or a replay rolls
    back.  The request starts with no enqueued generation. *)
Definition deliver (work : Z -> IntentDelivery -> txn PushDb pydict) (device_id : Z) (delivery : IntentDelivery) (s : PushDb) : outcome * PushDb :=
  let s0 := with_base (with_last_enqueued None (base s)) s in
  match begin_delivery device_id delivery s0 with
  | Raise e => (Refused e, s)
  | Ok (Some (response, status), _) => (Replayed response status, s)
  | Ok (None, s1) =>
      match (result ← work device_id delivery; _ ← record_response device_id delivery result 200; mret result) s1 with
      | Raise e => (Refused e, s)
      | Ok (result, s2) => (Performed (public_response result) 200, s2)
      end
  end.
