(* ===== verification/ReceiptProps.v ===== *)
(** * Receipts refine a ledger

    The abstract specification of push admission: a ledger with the last admitted delivery of each device and stream, its shown
    response and status.  [deliver] refines it whatever the endpoints do, provided they keep the visible part of the receipts
    ([IntentWork]); over every interleaving of deliveries with the store's other writers, a delivery is performed at most once. *)

From stdpp Require Import base gmap list sorting.
From Stdlib Require Import ZArith NArith Lia.
From S2P Require Import Prelude Json Codec Sha256 Registry Document Asn Identity Store Generation Receipt.
Local Open Scope py_scope.
Local Open Scope Z_scope.

#[local] Arguments public_response : simpl never.
#[local] Arguments is_private : simpl never.

(** ** The interface to the endpoints *)

(** What a redelivery can observe of a receipt. *)
Definition visible (r : IntentPushReceipt) : PushIdentity * option pydict * Z := (r_identity r, public_response <$> r_response r, r_status r).
Definition same_visible (s s' : PushDb) : Prop := ∀ k, visible <$> receipts s' !! k = visible <$> receipts s !! k.

Class IntentWork (work : Z -> IntentDelivery -> txn PushDb pydict) : Prop := {
  work_visible device_id delivery s result s' : work device_id delivery s = Ok (result, s') → same_visible s s';
  work_result device_id delivery s result s' : work device_id delivery s = Ok (result, s') → NoDup (dict_keys result);
  work_error device_id delivery s e : work device_id delivery s = Raise e → (∀ code a b, e ≠ PushSequenceConflict code a b) }.

(** ** The ledger *)

Record entry := mkEntry { e_identity : PushIdentity; e_response : pydict; e_status : Z }.
Notation ledger := (gmap (Z * pystr) entry).

Definition is_conflict (e : exc) : bool := match e with PushSequenceConflict _ _ _ => true | _ => false end.

Inductive ledger_step (L : ledger) (k : Z * pystr) (i : PushIdentity) : outcome -> ledger -> Prop :=
| ledger_perform response status :
    (∀ e, L !! k = Some e → p_seq (e_identity e) < p_seq i) →
    ledger_step L k i (Performed response status) (<[k := mkEntry i response status]> L)
| ledger_replay e :
    L !! k = Some e → e_identity e = i →
    ledger_step L k i (Replayed (e_response e) (e_status e)) L
| ledger_reuse e :
    L !! k = Some e → p_seq (e_identity e) = p_seq i → e_identity e ≠ i →
    ledger_step L k i (Refused (PushSequenceConflict "sequence_reuse" (p_seq i) (p_seq (e_identity e)))) L
| ledger_stale e :
    L !! k = Some e → p_seq i < p_seq (e_identity e) →
    ledger_step L k i (Refused (PushSequenceConflict "stale" (p_seq i) (p_seq (e_identity e)))) L
| ledger_failed e :
    is_conflict e = false →
    ledger_step L k i (Refused e) L.

(** Every receipt of a committed state has its response. *)
Definition recorded (s : PushDb) : Prop := ∀ k r, receipts s !! k = Some r → is_Some (r_response r).

Definition entry_of (r : IntentPushReceipt) : entry := mkEntry (r_identity r) (public_response (default [] (r_response r))) (r_status r).
Definition ledger_of (s : PushDb) : ledger := entry_of <$> receipts s.

(** ** Lemmas *)

Lemma ledger_visible s s' : same_visible s s' → ledger_of s' = ledger_of s.
Proof.
  intros H. apply map_eq. intros k. unfold ledger_of. rewrite !lookup_fmap. specialize (H k).
  destruct (receipts s !! k) as [r|], (receipts s' !! k) as [r'|]; cbn in H |- *; try done.
  unfold entry_of. unfold visible in H. injection H as E1 E2 E3. rewrite E1, E3.
  destruct (r_response r), (r_response r'); cbn in E2 |- *; congruence.
Qed.
Lemma recorded_visible s s' : same_visible s s' → recorded s → recorded s'.
Proof.
  intros H Hr k r E. specialize (H k). rewrite E in H. cbn in H. destruct (receipts s !! k) as [r0|] eqn:E0; [|done].
  destruct (Hr k r0 E0) as [x Hx]. cbn in H. unfold visible in H. rewrite Hx in H. destruct (r_response r); [by eexists|]. cbn in H. congruence.
Qed.

(** *** The shown part of a merged response *)

Lemma public_set_private d k v : is_private k = true → public_response (dict_set d k v) = public_response d.
Proof.
  intros Hk. induction d as [|[k' v'] d IH]; unfold public_response in *; cbn [dict_set List.filter fst]; [by rewrite Hk|].
  destruct (decide (k = k')) as [->|]; cbn [List.filter fst]; [by rewrite Hk|]. by rewrite IH.
Qed.
Lemma public_set d k v : is_private k = false → public_response (dict_set d k v) = dict_set (public_response d) k v.
Proof.
  intros Hk. induction d as [|[k' v'] d IH]; unfold public_response in *; cbn [dict_set List.filter fst]; [by rewrite Hk|].
  destruct (decide (k = k')) as [->|Hne]; cbn [List.filter fst]; [rewrite Hk; cbn [negb dict_set]; by rewrite decide_True|].
  destruct (negb (is_private k')); cbn [dict_set]; [|exact IH]. rewrite decide_False by done. by rewrite IH.
Qed.
Lemma public_cons k v d : public_response ((k, v) :: d) = if is_private k then public_response d else (k, v) :: public_response d.
Proof. unfold public_response. cbn [List.filter fst]. by destruct (is_private k). Qed.
Lemma public_update e d : public_response (dict_update d e) = dict_update (public_response d) (public_response e).
Proof.
  unfold dict_update. revert d. induction e as [|[k v] e IH]; intros d; [done|]. cbn [fold_left fst snd]. rewrite IH.
  rewrite public_cons. destruct (is_private k) eqn:Hk; [by rewrite public_set_private|by rewrite public_set].
Qed.
Lemma dict_update_fresh (d e : pydict) : NoDup (dict_keys (d ++ e)) → dict_update d e = d ++ e.
Proof.
  unfold dict_update. revert d. induction e as [|[k v] e IH]; intros d Hn; cbn [fold_left fst snd]; [by rewrite app_nil_r|].
  assert (k ∉ dict_keys d) as Hk.
  { unfold dict_keys in *. rewrite map_app in Hn. apply NoDup_app in Hn as (_ & Hd & _). intros H. apply (Hd k H). left. }
  rewrite dict_set_fresh by done. rewrite IH; rewrite <-app_assoc; done.
Qed.
Lemma public_private o : public_response (private_response o) = [].
Proof.
  destruct o as [d|]; [|done]. cbn. induction d as [|[k v] d IH]; [done|]. cbn [List.filter fst].
  destruct (is_private k) eqn:Hk; [|done]. unfold public_response in *. cbn [List.filter fst]. by rewrite Hk.
Qed.
Lemma public_idem d : public_response (public_response d) = public_response d.
Proof.
  induction d as [|[k v] d IH]; [done|]. unfold public_response in *. cbn [List.filter fst]. destruct (negb (is_private k)) eqn:E; [|done].
  cbn [List.filter fst]. by rewrite E, IH.
Qed.
Lemma public_without d k : is_private k = true → public_response (without k d) = public_response d.
Proof.
  intros Hk. induction d as [|[k' v] d IH]; [done|]. unfold public_response, without in *. cbn [List.filter fst].
  case_bool_decide as E; cbn [negb List.filter fst]; [subst k'; by rewrite Hk|]. by rewrite IH.
Qed.
Lemma public_NoDup d : NoDup (dict_keys d) → NoDup (dict_keys (public_response d)).
Proof.
  unfold dict_keys, public_response. induction d as [|[k v] d IH]; [done|]. cbn [map List.filter fst]. intros [Hk Hd]%NoDup_cons.
  destruct (negb (is_private k)); [|by apply IH]. cbn [map fst]. constructor; [|by apply IH]. intros Hin. apply Hk.
  apply list_elem_of_In, in_map_iff in Hin as (x & Hx & [Hin _]%filter_In). apply list_elem_of_In, in_map_iff. eauto.
Qed.

Lemma public_merge o response retired merged : NoDup (dict_keys response) →
  merge_private_response (private_response o) response retired = Ok merged → public_response merged = public_response response.
Proof.
  intros Hn. unfold merge_private_response. destruct (records_of (private_response o)); unfold_res; [|done].
  destruct (records_of response); [|done]. destruct (identified _ _ _); [|done]. destruct (set_defaults _ _) as [l|]; [|done].
  intros [= <-]. assert (public_response (without PROMOTION_DELETIONS (dict_update (private_response o) response)) = public_response response) as E.
  { rewrite public_without by done. rewrite public_update, public_private. apply dict_update_fresh. by apply public_NoDup. }
  destruct l; [done|]. by rewrite public_set_private.
Qed.

Lemma deletions_public s dev stream r response response' retired : NoDup (dict_keys response) →
  record_projection_deletions s dev stream r response = Ok (response', retired) →
  NoDup (dict_keys response') ∧ public_response response' = public_response response.
Proof.
  intros Hn. unfold record_projection_deletions. destruct (streams (base s) !! (dev, stream)) as [row|]; [|intros [= <- <-]; done].
  destruct (s_authorized_document row) as [[|kv d]|]; [intros [= <- <-]; done| |intros [= <- <-]; done].
  destruct (snapshot_stream _ _ _); unfold_res; [|done]. destruct (tables_of _); [|done]. destruct (restored_deletion_identities _ _ _); [|done].
  destruct (records_of response); [|done]. destruct (identified _ _ _); [|done]. destruct (mark_tables _ _ _ _ _) as [l|]; [|done].
  destruct l; intros [= <- <-]; [done|]. split; [by apply dict_set_NoDup|by apply public_set_private].
Qed.

(** *** Admission and recording *)

Lemma record_ok dev dlv result st s s' : NoDup (dict_keys result) → record_response dev dlv result st s = Ok (tt, s') →
  ∃ r m g, receipts s !! (dev, d_stream dlv) = Some r ∧ p_seq (r_identity r) = p_seq (d_identity dlv) ∧ public_response m = public_response result ∧
  receipts s' = <[(dev, d_stream dlv) := mkReceipt (r_identity r) (Some m) st g (clock (base s))]> (receipts s).
Proof.
  intros Hn. unfold record_response. cbv zeta. cbn [receipts with_base]. destruct (receipts s !! (dev, d_stream dlv)) as [r|]; [|done].
  destruct (Z.eqb_spec (p_seq (r_identity r)) (p_seq (d_identity dlv))) as [Hseq|]; [|done].
  destruct (record_projection_deletions _ dev _ r result) as [[response' retired]|] eqn:E1; unfold_res; [|done].
  apply deletions_public in E1 as [Hn' Hp]; [|done]. destruct (records_of _); [|done]. destruct (identified _ _ _) as [carried|]; [|done].
  destruct (merge_private_response _ _ _) as [merged|] eqn:E2; [|done]. apply public_merge in E2; [|done].
  match goal with |- (if ?b then _ else _) = _ → _ => destruct b end.
  - destruct carried; [|done]. intros [= <-]. exists r, (without PROMOTION_DELETIONS merged), (last_enqueued (base s)).
    split_and!; [done|done|by rewrite public_without, E2 by done|done].
  - intros [= <-]. exists r, merged, (last_enqueued (base s)). split_and!; [done|done|by rewrite E2|done].
Qed.

Lemma same_mode_eq a b : p_seq a = p_seq b → p_digest a = p_digest b → same_mode a b = true → a = b.
Proof.
  unfold same_mode. destruct a, b. cbn. rewrite !andb_true_iff. intros -> -> [[->%Bool.eqb_prop ->%Bool.eqb_prop] ->%Bool.eqb_prop]. done.
Qed.
Lemma same_mode_refl a : same_mode a a = true.
Proof. unfold same_mode. by rewrite !Bool.eqb_reflx. Qed.

(** The four answers of admission, as the receipt decides them. *)
Lemma admit_cases dev dlv s : mem (d_stream dlv) INTENT_STREAMS = true →
  let k := (dev, d_stream dlv) in let i := d_identity dlv in
  match receipts s !! k with
  | None => ∃ r, admit_push dev dlv s = Ok (None, with_receipt k r s) ∧ r_identity r = i
  | Some r =>
      (r_identity r = i ∧ admit_push dev dlv s = Ok (Some (r_response r, r_status r), s)) ∨
      (p_seq (r_identity r) = p_seq i ∧ r_identity r ≠ i ∧ admit_push dev dlv s = Raise (PushSequenceConflict "sequence_reuse" (p_seq i) (p_seq (r_identity r)))) ∨
      (p_seq i < p_seq (r_identity r) ∧ admit_push dev dlv s = Raise (PushSequenceConflict "stale" (p_seq i) (p_seq (r_identity r)))) ∨
      (p_seq (r_identity r) < p_seq i ∧ ∃ r', admit_push dev dlv s = Ok (None, with_receipt k r' s) ∧ r_identity r' = i)
  end.
Proof.
  intros Hm. cbv zeta. unfold admit_push. rewrite Hm. destruct (receipts s !! (dev, d_stream dlv)) as [r|]; [|by eexists]. cbv zeta.
  destruct (Z.eqb_spec (p_seq (r_identity r)) (p_seq (d_identity dlv))) as [Hseq|Hseq].
  - destruct (decide (r_identity r = d_identity dlv)) as [E|E].
    + left. split; [done|]. rewrite E, same_mode_refl, bool_decide_eq_true_2 by done. done.
    + right. left. split_and!; [done..|]. destruct (decide (p_digest (r_identity r) = p_digest (d_identity dlv))) as [Hd|Hd].
      * rewrite bool_decide_eq_true_2 by done. destruct (same_mode _ _) eqn:Em; [|done]. by apply same_mode_eq in Em.
      * by rewrite bool_decide_eq_false_2.
  - destruct (Z.ltb_spec (p_seq (d_identity dlv)) (p_seq (r_identity r))) as [Hlt|Hge]; [by right; right; left|].
    right. right. right. split; [lia|]. by eexists.
Qed.

(** What [begin_delivery] leaves: the checks fail, or admission runs on the same receipts. *)
Lemma note_write_no_conflict dev stream q d e : note_write dev stream q d = Raise e → is_conflict e = false.
Proof.
  unfold note_write, lock_projection, lock_device_document. destruct (mem stream STREAMS); [|intros [= <-]; done].
  case_bool_decide; unfold_res; [|intros [= <-]; done]. by destruct (generation_counter d !! dev), (streams _ !! _).
Qed.

(** *** Only admission raises a sequence conflict *)

Definition calm {A} (r : res A) : Prop := match r with Raise e => is_conflict e = false | Ok _ => True end.

Lemma calm_bind {A B} (r : res A) (f : A -> res B) : calm r → (∀ a, calm (f a)) → calm (r ≫= f).
Proof. intros H Hf. destruct r; [apply Hf|exact H]. Qed.
Lemma calm_map {A B} (f : A -> res B) l : (∀ a, calm (f a)) → calm (map_res f l).
Proof. intros H. induction l as [|x l IH]; [done|]. cbn [map_res]. apply calm_bind; [done|]. intros y. apply calm_bind; [done|]. done. Qed.

Create HintDb calm.
Ltac calm_step :=
  match goal with
  | |- calm (Ok _) => exact I
  | |- calm (Raise _) => reflexivity
  | |- calm (mbind _ _) => apply calm_bind; [|intro]
  | |- calm (map_res _ _) => apply calm_map; intro
  | |- calm (guard_or _ _) => unfold guard_or
  | |- calm (match ?x with _ => _ end) => destruct x
  | |- calm (let '(_, _) := ?x in _) => destruct x
  | _ => progress cbv zeta
  | _ => solve [eauto with calm]
  end.
Ltac calm := repeat calm_step.

Lemma parse_asn_calm v : calm (parse_asn v).
Proof. unfold parse_asn, asn_text, not_an_asn. calm. Qed.
Lemma checked_asn_calm v t f : calm (checked_asn v t f).
Proof. unfold checked_asn. pose proof (parse_asn_calm v) as H. destruct (parse_asn v) as [|[]]; exact H || reflexivity. Qed.
#[export] Hint Resolve checked_asn_calm : calm.
Lemma asn_row_identity_calm t row : calm (asn_row_identity t row).
Proof. unfold asn_row_identity, check_optional_asn, destination_identity, source_identity, checked_device_source_ref. calm. Qed.
#[export] Hint Resolve asn_row_identity_calm : calm.
Lemma source_rule_calm t ned row : calm (check_source_rule t ned row).
Proof. unfold check_source_rule, checked_intent_source_ref. calm. Qed.
#[export] Hint Resolve source_rule_calm : calm.
Lemma validate_calm t rows ned : calm (validate_asn_rows t rows ned).
Proof. unfold validate_asn_rows. generalize (@nil (identity * pydict)). induction rows as [|row rows IH]; intros seen; [done|]. cbn [validate_rows_loop]. unfold collision_field. calm; apply IH. Qed.
#[export] Hint Resolve validate_calm : calm.
Lemma fk_column_calm m p : calm (fk_column m p).
Proof. unfold fk_column. calm. Qed.
#[export] Hint Resolve fk_column_calm : calm.
Lemma identity_fields_calm s : calm (identity_fields s).
Proof. unfold identity_fields. calm. Qed.
#[export] Hint Resolve identity_fields_calm : calm.
Lemma replace_field_calm fields name v values : calm (replace_field fields name v values).
Proof. revert values. induction fields as [|f fields IH]; intros [|x values]; cbn [replace_field]; calm; apply IH. Qed.
#[export] Hint Resolve replace_field_calm : calm.
Lemma row_identity_calm s row ids : calm (row_identity s row ids).
Proof. unfold row_identity, parent_identity. calm. Qed.
#[export] Hint Resolve row_identity_calm : calm.
Lemma index_rows_calm s rows ids a b : calm (index_rows s rows ids a b).
Proof. revert a b. induction rows as [|row rows IH]; intros a b; cbn [index_rows]; calm; apply IH. Qed.
#[export] Hint Resolve index_rows_calm : calm.
Lemma identity_indexes_calm t specs ids out : calm (identity_indexes t specs ids out).
Proof. revert ids out. induction specs as [|s specs IH]; intros ids out; cbn [identity_indexes]; calm; apply IH. Qed.
#[export] Hint Resolve identity_indexes_calm : calm.
Lemma rows_by_intent_identity_calm t table : calm (rows_by_intent_identity t table).
Proof. unfold rows_by_intent_identity, spec_or_refuse. calm. Qed.
#[export] Hint Resolve rows_by_intent_identity_calm : calm.
Lemma tables_of_calm f : calm (tables_of f).
Proof. unfold tables_of, rows_of, as_row. calm. Qed.
#[export] Hint Resolve tables_of_calm : calm.
Lemma scope_ids_calm fuel live m dev : calm (scope_ids fuel live m dev).
Proof. revert m. induction fuel as [|fuel IH]; intros m; cbn [scope_ids]; calm; apply IH. Qed.
#[export] Hint Resolve scope_ids_calm : calm.
Lemma stream_specs_calm : calm stream_specs.
Proof. vm_compute. exact I. Qed.
#[export] Hint Resolve stream_specs_calm : calm.
Lemma snapshot_calm live dev stream : calm (snapshot_stream live dev stream).
Proof. unfold snapshot_stream, rows_for, validate_tables. calm. Qed.
#[export] Hint Resolve snapshot_calm : calm.
Lemma check_authorized_calm s dev stream : calm (check_authorized s dev stream).
Proof. unfold check_authorized. calm. Qed.

Lemma records_calm d : calm (records_of d).
Proof. unfold records_of. calm. Qed.
Lemma identified_calm l r acc : calm (identified l r acc).
Proof. revert acc. induction l as [|x l IH]; intros acc; cbn [identified]; calm; apply IH. Qed.
Lemma set_defaults_calm l acc : calm (set_defaults l acc).
Proof. revert acc. induction l as [|x l IH]; intros acc; cbn [set_defaults]; calm; apply IH. Qed.
#[export] Hint Resolve records_calm identified_calm set_defaults_calm : calm.
Lemma restored_calm p a d : calm (restored_deletion_identities p a d).
Proof.
  unfold restored_deletion_identities. calm. match goal with |- calm (restored_loop ?l _ _ _) => generalize l end. intros l.
  generalize (@nil deletion_identity). induction l as [|x l IH]; intros acc; cbn [restored_loop]; calm; apply IH.
Qed.
Lemma mark_rows_calm t m rows d e : calm (mark_rows t m rows d e).
Proof. revert e. induction rows as [|[i r] rows IH]; intros e; cbn [mark_rows]; unfold is_intent_deletion, spec_or_refuse; calm; apply IH. Qed.
#[export] Hint Resolve restored_calm mark_rows_calm : calm.
Lemma mark_tables_calm m names a d e : calm (mark_tables m names a d e).
Proof. revert e. induction names as [|t names IH]; intros e; cbn [mark_tables]; calm; apply IH. Qed.
#[export] Hint Resolve mark_tables_calm : calm.
Lemma record_calm dev dlv r st s : calm (record_response dev dlv r st s).
Proof. unfold record_response, record_projection_deletions, merge_private_response. calm. Qed.

(** *** One delivery *)

Lemma receipts_of_note dev stream q s r s' : on_base (note_write dev stream q) s = Ok (r, s') → receipts s' = receipts s.
Proof. unfold on_base. destruct (note_write _ _ _ _) as [[]|]; [|done]. intros [= <- <-]. done. Qed.

Lemma begin_cases dev dlv s :
  (∃ e, begin_delivery dev dlv s = Raise e ∧ is_conflict e = false) ∨
  (∃ s1, receipts s1 = receipts s ∧ begin_delivery dev dlv s = admit_or_replay dev dlv s1).
Proof.
  unfold begin_delivery, mbind, txn_bind, on_base, lift_res, get_state.
  destruct (note_write dev (d_stream dlv) _ (base s)) as [[q d]|e] eqn:E; [|left; eexists; split; [done|by eapply note_write_no_conflict]].
  pose proof (check_authorized_calm (with_base d s) dev (d_stream dlv)) as Hc.
  destruct (check_authorized _ _ _) as [[]|e]; [right; by exists (with_base d s)|left; by exists e].
Qed.

Lemma lookup_ledger s k : ledger_of s !! k = entry_of <$> receipts s !! k.
Proof. apply lookup_fmap. Qed.

(** Work and recording, once a delivery was admitted. *)
Lemma perform_cases (work : Z -> IntentDelivery -> txn PushDb pydict) `{!IntentWork work} dev dlv s0 s1 r :
  receipts s1 = <[(dev, d_stream dlv) := r]> (receipts s0) → r_identity r = d_identity dlv → recorded s0 →
  match (result ← work dev dlv; _ ← record_response dev dlv result 200; mret result) s1 with
  | Raise e => is_conflict e = false
  | Ok (result, s2) => recorded s2 ∧ ledger_of s2 = <[(dev, d_stream dlv) := mkEntry (d_identity dlv) (public_response result) 200]> (ledger_of s0)
  end.
Proof.
  intros Hr Hi Hrec. unfold mbind, txn_bind. destruct (work dev dlv s1) as [[result s2]|e] eqn:Ew.
  2: { pose proof (work_error dev dlv s1 e Ew) as He. destruct e; try done. by destruct (He _ _ _ eq_refl). }
  pose proof (work_visible dev dlv s1 result s2 Ew) as Hv. pose proof (work_result dev dlv s1 result s2 Ew) as Hn.
  pose proof (record_calm dev dlv result 200 s2) as Hc. destruct (record_response dev dlv result 200 s2) as [[[] s3]|e] eqn:Er; [|exact Hc].
  unfold mret, txn_ret. apply record_ok in Er as (r2 & m & g & E2 & Hseq & Hp & E3); [|done].
  assert (r_identity r2 = d_identity dlv) as Hid.
  { specialize (Hv (dev, d_stream dlv)). rewrite Hr, lookup_insert_eq, E2 in Hv. cbn in Hv. unfold visible in Hv. congruence. }
  assert (∀ k, k ≠ (dev, d_stream dlv) → visible <$> receipts s3 !! k = visible <$> receipts s0 !! k) as Hother.
  { intros k Hk. rewrite E3, lookup_insert_ne by done. rewrite (Hv k), Hr, lookup_insert_ne by done. done. }
  split.
  - intros k r' Hk. destruct (decide (k = (dev, d_stream dlv))) as [->|Hne].
    + rewrite E3, lookup_insert_eq in Hk. injection Hk as <-. by eexists.
    + specialize (Hother k Hne). rewrite Hk in Hother. destruct (receipts s0 !! k) as [r0|] eqn:E0; [|done].
      destruct (Hrec k r0 E0) as [x Hx]. cbn in Hother. unfold visible in Hother. rewrite Hx in Hother. destruct (r_response r'); [by eexists|]. cbn in Hother. congruence.
  - apply map_eq. intros k. destruct (decide (k = (dev, d_stream dlv))) as [->|Hne].
    + rewrite lookup_ledger, E3, !lookup_insert_eq. cbn. unfold entry_of. cbn. by rewrite Hid, Hp.
    + rewrite lookup_insert_ne by done. rewrite !lookup_ledger. specialize (Hother k Hne).
      destruct (receipts s3 !! k) as [a|], (receipts s0 !! k) as [b|]; cbn in Hother |- *; try done. unfold entry_of. unfold visible in Hother.
      injection Hother as F1 F2 F3. rewrite F1, F3. destruct (r_response a), (r_response b); cbn in F2 |- *; congruence.
Qed.

Lemma deliver_ledger (work : Z -> IntentDelivery -> txn PushDb pydict) `{!IntentWork work} device_id delivery s o s' :
  recorded s → deliver work device_id delivery s = (o, s') →
  recorded s' ∧ ledger_step (ledger_of s) (device_id, d_stream delivery) (d_identity delivery) o (ledger_of s').
Proof.
  intros Hrec. unfold deliver. cbv zeta. set (s0 := with_base _ s).
  assert (receipts s0 = receipts s) as H0 by done. clearbody s0.
  destruct (begin_cases device_id delivery s0) as [(e & -> & He)|(s1 & H1 & ->)]; [intros [= <- <-]; split; [done|by constructor]|].
  rewrite H0 in H1. unfold admit_or_replay, mbind, txn_bind.
  destruct (mem (d_stream delivery) INTENT_STREAMS) eqn:Hm; [|unfold admit_push; rewrite Hm; intros [= <- <-]; split; [done|by constructor]].
  pose proof (admit_cases device_id delivery s1 Hm) as Ha. cbv zeta in Ha. rewrite H1 in Ha.
  destruct (receipts s !! (device_id, d_stream delivery)) as [r|] eqn:Er.
  - assert (ledger_of s !! (device_id, d_stream delivery) = Some (entry_of r)) as HL by (rewrite lookup_ledger, Er; done).
    destruct Ha as [(Hi & ->)|[(Hseq & Hi & ->)|[(Hseq & ->)|(Hseq & r' & -> & Hi)]]].
    + destruct (Hrec _ _ Er) as [x Hx]. unfold mret, txn_ret. rewrite Hx. intros [= <- <-]. split; [done|].
      pose proof (ledger_replay _ _ _ _ HL Hi) as Hstep. unfold entry_of in Hstep. rewrite Hx in Hstep. exact Hstep.
    + intros [= <- <-]. split; [done|]. by apply (ledger_reuse _ _ _ _ HL).
    + intros [= <- <-]. split; [done|]. by apply (ledger_stale _ _ _ _ HL).
    + unfold mret, txn_ret. pose proof (perform_cases work device_id delivery s (with_receipt (device_id, d_stream delivery) r' s1) r') as Hp.
      cbn [receipts with_receipt] in Hp. rewrite H1 in Hp. specialize (Hp eq_refl Hi Hrec). unfold mbind, txn_bind, mret, txn_ret in Hp |- *.
      destruct (match work _ _ _ with Ok _ => _ | Raise _ => _ end) as [[result s2]|e]; intros [= <- <-]; [|split; [done|by constructor]].
      destruct Hp as [Hr2 ->]. split; [done|]. apply ledger_perform. intros e HLe. rewrite HL in HLe. injection HLe as <-. done.
  - assert (ledger_of s !! (device_id, d_stream delivery) = None) as HL by (rewrite lookup_ledger, Er; done). destruct Ha as (r' & -> & Hi).
    unfold mret, txn_ret. pose proof (perform_cases work device_id delivery s (with_receipt (device_id, d_stream delivery) r' s1) r') as Hp.
    cbn [receipts with_receipt] in Hp. rewrite H1 in Hp. specialize (Hp eq_refl Hi Hrec). unfold mbind, txn_bind, mret, txn_ret in Hp |- *.
    destruct (match work _ _ _ with Ok _ => _ | Raise _ => _ end) as [[result s2]|e]; intros [= <- <-]; [|split; [done|by constructor]].
    destruct Hp as [Hr2 ->]. split; [done|]. apply ledger_perform. intros e HLe. rewrite HL in HLe. done.
Qed.

(** C23: Push admission refines the ledger.  Whatever the endpoint does, one intent PUT is a step of the ledger: a newer sequence is
    performed and becomes the entry with the response the client saw; a repeat of the admitted delivery - the same sequence, body
    digest and mode - is answered with that response and changes nothing; the same sequence with another body or mode and an older
    sequence are refused; and any other failure leaves no trace. *)
Theorem deliver_refines_ledger (work : Z -> IntentDelivery -> txn PushDb pydict) `{!IntentWork work} device_id delivery s o s' :
  recorded s → deliver work device_id delivery s = (o, s') →
  recorded s' ∧ ledger_step (ledger_of s) (device_id, d_stream delivery) (d_identity delivery) o (ledger_of s').
Proof. apply (deliver_ledger work). Qed.

(** ** Interleavings *)

(** The store's other writers - workers, Apply, deletion of a device's inventory rows - may change everything but what a receipt shows. *)
Inductive push_step (work : Z -> IntentDelivery -> txn PushDb pydict) (s : PushDb) : list (Z * pystr * Z) -> PushDb -> Prop :=
| step_delivery device_id delivery o s' :
    deliver work device_id delivery s = (o, s') →
    push_step work s (match o with Performed _ _ => [(device_id, d_stream delivery, p_seq (d_identity delivery))] | _ => [] end) s'
| step_other s' : same_visible s s' → push_step work s [] s'.

(** The deliveries performed over a run, in order. *)
Inductive push_run (work : Z -> IntentDelivery -> txn PushDb pydict) (s : PushDb) : list (Z * pystr * Z) -> PushDb -> Prop :=
| run_empty : push_run work s [] s
| run_then performed s1 more s2 : push_step work s performed s1 → push_run work s1 more s2 → push_run work s (performed ++ more) s2.

(** The sequence the ledger holds for a key, or one below every admissible sequence of a fresh key. *)
Definition later (L : ledger) (performed : list (Z * pystr * Z)) : Prop :=
  ∀ p e, p ∈ performed → L !! p.1 = Some e → p_seq (e_identity e) < p.2.

Lemma ledger_step_grows L k i o L' : ledger_step L k i o L' →
  ∀ k' e, L !! k' = Some e → ∃ e', L' !! k' = Some e' ∧ p_seq (e_identity e) <= p_seq (e_identity e').
Proof.
  destruct 1 as [response status Hlt|e0 H1 H2|e0 H1 H2 H3|e0 H1 H2|e0 H1]; intros k' e He; try (exists e; split; [done|lia]).
  destruct (decide (k' = k)) as [->|Hne]; [|rewrite lookup_insert_ne by done; exists e; split; [done|lia]].
  rewrite lookup_insert_eq. eexists. split; [done|]. cbn. specialize (Hlt e He). lia.
Qed.

Lemma push_step_spec work `{!IntentWork work} s performed s' : recorded s → push_step work s performed s' →
  recorded s' ∧ later (ledger_of s) performed ∧ NoDup performed ∧
  (∀ p, p ∈ performed → ∃ e, ledger_of s' !! p.1 = Some e ∧ p.2 <= p_seq (e_identity e)) ∧
  (∀ k e, ledger_of s !! k = Some e → ∃ e', ledger_of s' !! k = Some e' ∧ p_seq (e_identity e) <= p_seq (e_identity e')).
Proof.
  intros Hrec Hstep. destruct Hstep as [dev dlv o s' Hd|s' Hv].
  - assert (recorded s' ∧ ledger_step (ledger_of s) (dev, d_stream dlv) (d_identity dlv) o (ledger_of s')) as [Hr Hl]
      by by eapply deliver_ledger.
    split; [done|]. pose proof (ledger_step_grows _ _ _ _ _ Hl) as Hg. clear Hd Hr. revert Hl Hg. generalize (ledger_of s'). intros L' Hl Hg.
    destruct Hl as [response status Hlt|e0 H1 H2|e0 H1 H2 H3|e0 H1 H2|e0 H1].
    2-5: split_and!; [intros p e Hp; by apply elem_of_nil in Hp|apply NoDup_nil_2|intros p Hp; by apply elem_of_nil in Hp|exact Hg].
    split_and!; [|apply NoDup_singleton| |exact Hg].
    + intros p e ->%list_elem_of_singleton He. by apply Hlt.
    + intros p ->%list_elem_of_singleton. rewrite lookup_insert_eq. eexists. split; [done|]. cbn. lia.
  - rewrite (ledger_visible s s' Hv). split_and!; [by eapply recorded_visible|intros p e Hp; by apply elem_of_nil in Hp|apply NoDup_nil_2|intros p Hp; by apply elem_of_nil in Hp|].
    intros k e He. exists e. split; [done|lia].
Qed.

(** C24: A push is performed at most once.  Over any interleaving of deliveries - repeated, reordered, racing with the store's other
    writers - no sequence of a device's stream is performed twice, and each one performed is newer than the last: a lost response
    or an out-of-order redelivery never authorizes a second deployment. *)
Theorem push_performed_at_most_once work `{!IntentWork work} s performed s' : recorded s → push_run work s performed s' →
  NoDup performed ∧
  (∀ i j p q, (i < j)%nat → performed !! i = Some p → performed !! j = Some q → p.1 = q.1 → p.2 < q.2).
Proof.
  intros Hrec Hrun.
  assert (later (ledger_of s) performed ∧ NoDup performed ∧
          (∀ i j p q, (i < j)%nat → performed !! i = Some p → performed !! j = Some q → p.1 = q.1 → p.2 < q.2)) as (_ & H1 & H2); [|done].
  induction Hrun as [s|s first s1 more s2 Hstep Hrun IH].
  - split_and!; [intros p e Hp; by apply elem_of_nil in Hp|apply NoDup_nil_2|done].
  - pose proof (push_step_spec work s first s1 Hrec Hstep) as (Hr1 & Hlate & Hnd & Hin & Hgrow).
    specialize (IH Hr1) as (IHl & IHn & IHo).
    assert (∀ p q, p ∈ first → q ∈ more → p.1 = q.1 → p.2 < q.2) as Hcross.
    { intros p q Hp Hq E. destruct (Hin p Hp) as (e & He & Hle). rewrite E in He. specialize (IHl q e Hq He). lia. }
    split_and!.
    + intros p e [Hp|Hp]%elem_of_app He; [by apply (Hlate p e)|]. destruct (Hgrow _ _ He) as (e' & He' & Hle). specialize (IHl p e' Hp He'). lia.
    + apply NoDup_app. split_and!; [done| |done]. intros p Hp Hq. specialize (Hcross p p Hp Hq eq_refl). lia.
    + intros i j p q Hij Hi Hj E. apply lookup_app_Some in Hi as [Hi|[Hli Hi]], Hj as [Hj|[Hlj Hj]].
      * assert (length first <= 1)%nat as Hlen by (clear -Hstep; destruct Hstep as [? ? []|]; cbn; lia).
        apply lookup_lt_Some in Hi, Hj. lia.
      * apply Hcross; [by eapply list_elem_of_lookup_2|by eapply list_elem_of_lookup_2|done].
      * apply lookup_lt_Some in Hj. lia.
      * apply (IHo (i - length first)%nat (j - length first)%nat); [lia|done..].
Qed.
