(* ===== verification/Removal.v ===== *)
(** * Removal admission

    src/nso_adapter/core/removal.py: which changes a merge cannot express ([is_cleared], [lost_content]), the pending clears a
    stream owes the device, and [enqueue_removal] with [replace_on_removal], which turn a shrink or a clear into a generation and
    its removal job.  The freeze of a stream's live rows and the static-route planner are parameters, as in Generation. *)

From stdpp Require Import base gmap list.
From Stdlib Require Import ZArith NArith Lia.
From S2P Require Import Prelude Json Registry Document Asn Identity Store Generation Admission Receipt.
Local Open Scope py_scope.
Local Open Scope Z_scope.

(** ** Changes a merge cannot express *)

Definition EXPLICIT_FALSE_EMISSION_FIELDS : list (pystr * pystr) :=
  [("isis_interface_intent", "bfd_enabled"); ("isis_interface_intent", "frr_enabled"); ("isis_process_intent", "overload_bit");
   ("isis_process_intent", "microloop_avoidance"); ("isis_level_intent", "wide_metrics_only"); ("isis_level_intent", "disabled")].

(** [is_cleared] *)
Definition is_cleared (before after : json) (emission_field : option (pystr * pystr)) : bool :=
  match before with
  | JNull => false
  | JBool false => match after with
                   | JNull => match emission_field with Some f => bool_decide (f ∈ EXPLICIT_FALSE_EMISSION_FIELDS) | None => false end
                   | _ => false
                   end
  | JStr s => if bool_decide (s = "") then false else match after with JNull => true | JStr a => bool_decide (a = "") | _ => false end
  | _ => match after with JNull => true | _ => false end
  end.

Definition ENTRY_KEY_LEAVES : list pystr := ["sequence"; "seq"; "index"; "order"].

(** [str(v)] on a key leaf; a container, which no leaf holds, by its JSON text *)
Definition leaf_text (v : json) : pystr :=
  match v with
  | JStr s => s
  | JInt z => py_str_int z
  | JBool b => if b then "True" else "False"
  | JFloat lit => lit
  | _ => dumps spaced_sorted v
  end.

Inductive entry_id := KeyedEntry (leaf text : pystr) | PlainEntry (text : pystr).
#[global] Instance entry_id_eq_dec : EqDecision entry_id.
Proof. solve_decision. Defined.

(** [_entry_identity] *)
Definition entry_identity (item : json) : entry_id :=
  match item with
  | JObj d =>
      match List.find (fun leaf => match get d leaf with JNull => false | _ => true end) ENTRY_KEY_LEAVES with
      | Some leaf => KeyedEntry leaf (leaf_text (get d leaf))
      | None => PlainEntry (dumps spaced_sorted item)
      end
  | _ => PlainEntry (dumps spaced_sorted item)
  end.

(** The entry with an identity: a repeated identity keeps its last entry. *)
Definition entry_of_id (after : list json) (i : entry_id) : option json := List.find (fun item => bool_decide (entry_identity item = i)) (rev after).

(** [lost_content] *)
Fixpoint lost_content (before after : json) : bool :=
  is_cleared before after None ||
  match before with
  | JObj b =>
      match after with
      | JObj a => (fix members b := match b with [] => false | (k, v) :: b => lost_content v (get a k) || members b end) b
      | _ => match b with [] => false | _ => true end
      end
  | JArr b =>
      match after with
      | JArr a =>
          (fix items b := match b with
                          | [] => false
                          | item :: b => match entry_of_id a (entry_identity item) with
                                         | None => true
                                         | Some found => lost_content item found || items b
                                         end
                          end) b
      | _ => match b with [] => false | _ => true end
      end
  | _ => false
  end.

(** ** Pending clears *)

Definition AUTHORIZED_PROVENANCE : pystr := "authorized".
Definition STORE_ONLY_PROVENANCE : pystr := "store_only".

(** One stream of [_record_pending_clears]: a store-only clear never weakens an authorized one. *)
Definition record_clear (device_id : Z) (provenance stream : pystr) : txn PushDb unit := fun s =>
  match streams (base s) !! (device_id, stream) with
  | None => Raise (RuntimeError "no accepted write to record")
  | Some row =>
      let revision := s_desired row in
      let k := (device_id, stream) in
      match clears s !! k with
      | None => Ok (tt, with_clears (<[k := mkClear (next_clear_id s) provenance revision]> (clears s)) (next_clear_id s + 1) s)
      | Some c =>
          if bool_decide (provenance = STORE_ONLY_PROVENANCE) then
            if bool_decide (pc_provenance c = STORE_ONLY_PROVENANCE)
            then Ok (tt, with_clears (<[k := mkClear (pc_id c) (pc_provenance c) (Z.max (pc_revision c) revision)]> (clears s)) (next_clear_id s) s)
            else Ok (tt, s)
          else Ok (tt, with_clears (<[k := mkClear (pc_id c) AUTHORIZED_PROVENANCE (Z.max revision (pc_revision c))]> (clears s)) (next_clear_id s) s)
      end
  end.
Fixpoint for_each {A} (f : A -> txn PushDb unit) (l : list A) : txn PushDb unit :=
  match l with [] => mret tt | x :: l => _ ← f x; for_each f l end.
Definition record_pending_clears (device_id : Z) (names : list pystr) (provenance : pystr) : txn PushDb unit :=
  for_each (record_clear device_id provenance) (sorted_strs (remove_dups names)).

(** One stream of [_promote_parked_clears] *)
Definition promote_clear (device_id : Z) (stream : pystr) : txn PushDb unit := fun s =>
  let k := (device_id, stream) in
  match clears s !! k with
  | None => Ok (tt, s)
  | Some c =>
      let revision := match streams (base s) !! k with Some row => s_desired row | None => 0 end in
      Ok (tt, with_clears (<[k := mkClear (pc_id c) AUTHORIZED_PROVENANCE (Z.max (pc_revision c) revision)]> (clears s)) (next_clear_id s) s)
  end.
Definition promote_parked_clears (device_id : Z) (names : list pystr) : txn PushDb unit :=
  for_each (promote_clear device_id) (sorted_strs (remove_dups names)).

(** [_discharge_pending_clear_streams] *)
Definition discharge_pending_clear_streams (device_id : Z) (names : list pystr) : txn PushDb unit := fun s =>
  Ok (tt, with_clears (filter (fun kc => ¬ (kc.1.1 = device_id ∧ kc.1.2 ∈ names)) (clears s)) (next_clear_id s) s).

(** [_pending_clears_discharged_by] *)
Definition pending_clears_discharged_by (s : PushDb) (device_id : Z) (scope : pystr) (promotes : list pystr) (mode : GenerationMode) (force : bool) : res (list Z) :=
  let ids names := Ok (stable_sort Z.leb (omap (fun kc => if bool_decide (kc.1.1 = device_id ∧ kc.1.2 ∈ names) then Some (pc_id kc.2) else None) (map_to_list (clears s)))) in
  if force then names ← section_streams scope; ids names
  else if negb (bool_decide (scope = "static_route")) && bool_decide (mode = networked) then ids promotes
  else Ok [].

(** [_settle_pending_clears_at_admission] *)
Definition settle_pending_clears_at_admission (device_id : Z) (scope : pystr) (promotes : list pystr) (mode : GenerationMode) (force : bool) : txn PushDb unit :=
  if force then names ← lift_res (section_streams scope); discharge_pending_clear_streams device_id names
  else if negb (bool_decide (scope = "static_route")) then
    match mode with
    | networked => discharge_pending_clear_streams device_id promotes
    | detach => promote_parked_clears device_id promotes
    end
  else mret tt.

(** ** Enqueueing *)

(** The arguments of [enqueue_removal]. *)
Record RemovalRequest := mkRemoval {
  rq_scope : pystr; rq_marking : option pystr; rq_defer_retract : bool; rq_promotes : list pystr; rq_cohort : option Z;
  rq_interfaces : list pystr; rq_removed : list (pystr * list json); rq_allowed : option pydict; rq_vault_refs : pydict;
  rq_force : bool; rq_retract : bool; rq_shrank : bool; rq_document : option pydict; rq_tombstones : list Z;
  rq_attempt : option pystr; rq_frozen : list (pystr * pydict) }.

Definition nonempty {A} (l : list A) : bool := match l with [] => false | _ => true end.
Definition given {A} (o : option A) : bool := match o with Some _ => true | None => false end.

(** [_refuse_force_incompatible] *)
Definition refuse_force_incompatible (q : RemovalRequest) : res unit :=
  guard_or (negb (nonempty (rq_promotes q) || given (rq_marking q) || given (rq_document q) || given (rq_allowed q) || given (rq_cohort q) ||
                  given (rq_attempt q) || nonempty (rq_frozen q) || nonempty (rq_tombstones q)))
    (ValueError "a force-removal carries no promotion").

Definition removed_context (q : RemovalRequest) : pydict :=
  match rq_removed q with
  | [] => []
  | removed => [("removed", JObj (map (fun lk => (lk.1, JArr lk.2)) (List.filter (fun lk => nonempty lk.2) removed)))]
  end.
Definition deletes (q : RemovalRequest) : bool := rq_shrank q || existsb (fun lk => nonempty lk.2) (rq_removed q).

(** [_refuse_unmarked_deletion], [_refuse_deferred_delete_origin] *)
Definition refuse_unmarked_deletion (q : RemovalRequest) : res unit :=
  guard_or (negb (negb (given (rq_marking q)) && deletes q && negb (rq_force q))) (ValueError "an unmarked deletion would commit networked instead of detaching").
Definition refuse_deferred_delete_origin (q : RemovalRequest) : res unit :=
  guard_or (negb (rq_retract q && rq_defer_retract q && negb (bool_decide (rq_scope q = "static_route")) &&
                  bool_decide (rq_marking q = Some DELETE_ORIGIN_MARKING)))
    (ValueError "a deferred retract cannot ride a delete-origin removal job").

(** The job's context: what it removes, and how it commits. *)
Definition removal_context (q : RemovalRequest) : pydict :=
  [("scope", JStr (rq_scope q))] ++
  (if nonempty (rq_interfaces q) then [("interfaces", JArr (map JStr (rq_interfaces q)))] else []) ++
  removed_context q ++
  (if nonempty (rq_vault_refs q) then [("vault_refs", JObj (rq_vault_refs q))] else []) ++
  (if rq_retract q && rq_defer_retract q then [("retract_deferred", JBool true)] else []) ++
  (if rq_force q then [("force", JBool true)]
   else if bool_decide (rq_marking q = Some DETACH_MARKING) && negb (rq_retract q && negb (deletes q)) then [("detach", JBool true)]
   else []).

(** [scope_qualified] *)
Definition scope_qualified (scope : pystr) (context : pydict) : pydict :=
  match dict_get context "removed" with Some (JObj (kv :: l)) => [(scope, JObj (kv :: l))] | _ => [] end.

Section Enqueueing.
Context (freeze : tables -> Db -> Z -> pystr -> res pydict).
Context (prune_apply_plan : json -> list json -> list json -> res json).
Context (static_route_operation : Db -> Z -> pydict -> pydict -> pydict -> list Z -> res pydict).

(** [enqueue_removal] *)
Definition enqueue_removal (store_only : bool) (device_id : Z) (q : RemovalRequest) : txn PushDb (option Z) := fun s =>
  sections ← projection_sections;
  _ ← guard_or (mem (rq_scope q) sections) (ValueError "Unknown removal scope");
  _ ← match rq_marking q with
      | Some m => guard_or (mem m [DELETE_ORIGIN_MARKING; DETACH_MARKING]) (ValueError "Unknown removal marking")
      | None => Ok tt
      end;
  _ ← (if rq_force q then refuse_force_incompatible q else Ok tt);
  _ ← refuse_unmarked_deletion q;
  _ ← refuse_deferred_delete_origin q;
  '(_, s) ← (if rq_retract q && negb (bool_decide (rq_scope q = "static_route")) && (rq_defer_retract q || store_only)
             then record_pending_clears device_id (rq_promotes q) (if store_only then STORE_ONLY_PROVENANCE else AUTHORIZED_PROVENANCE) s
             else Ok (tt, s));
  if store_only && negb (rq_force q) then Ok (None, s)
  else
    let context := removal_context q in
    let mode := removal_mode context in
    discharged ← pending_clears_discharged_by s device_id (rq_scope q) (rq_promotes q) mode (rq_force q);
    '(job, s) ← on_base (enqueue_removal_generation (freeze (live s)) prune_apply_plan static_route_operation store_only (rq_force q) device_id
                           context (rq_promotes q) (default (scope_qualified (rq_scope q) context) (rq_allowed q)) (rq_document q) (rq_cohort q)
                           (rq_tombstones q) discharged (rq_attempt q) (rq_frozen q)
                           (if rq_retract q && negb (rq_defer_retract q) && bool_decide (mode = networked) &&
                               negb (bool_decide (rq_scope q = "static_route")) then rq_promotes q else [])) s;
    '(_, s) ← settle_pending_clears_at_admission device_id (rq_scope q) (rq_promotes q) mode (rq_force q) s;
    Ok (job, s).

(** [_section_by_model]: a discriminated table is excluded *)
Definition section_by_model : list (pystr * pystr) :=
  fold_left (fun d ms => dict_setdefault d ms.1 ms.2)
    (flat_map (fun se => omap (fun sp => match sp_discriminator sp with None => Some (sp_model sp, se.1) | Some _ => None end) (se_tables se.2)) section_registry) [].

Definition ROUTE_POLICY_FAMILY_LISTS : list (pystr * pystr) :=
  [("prefix_list", "prefix-list"); ("community_list", "community-list"); ("as_path", "as-path"); ("route_map", "route-map")].

(** [removed_map]: the keys a simple scope removed, under its guarded list *)
Definition removed_map (scope : pystr) (removed : list json) : res (list (pystr * list json)) :=
  if bool_decide (scope = "route_policy") then
    pairs ← map_res (fun k => match k with JArr [JStr family; name] => Ok (family, name) | _ => Raise (ValueError "not enough values to unpack") end) removed;
    Ok (fold_left (fun d fn => match dict_get ROUTE_POLICY_FAMILY_LISTS fn.1 with
                               | Some l => dict_set d l (default [] (dict_get d l) ++ [fn.2])
                               | None => d
                               end) pairs [])
  else match dict_get section_registry scope with
       | Some e => match se_guard_lists e with [g] => Ok [(gl_label g, removed)] | _ => Ok [] end
       | None => Ok []
       end.

(** [query_flag_marking] *)
Definition query_flag_marking (delete_origin deletes : bool) : pystr * bool :=
  let marking := marking_of delete_origin in (marking, deletes && bool_decide (marking = DETACH_MARKING)).

(** [replace_on_removal] *)
Definition replace_on_removal (store_only delete_origin : bool) (device_id : Z) (removed : list json) (store_model stream : pystr)
    (retract : bool) (settlement_cohort : option Z) : txn PushDb bool := fun s =>
  if negb (nonempty removed) && negb retract then Ok (false, s)
  else match dict_get section_by_model store_model with
       | None => Ok (false, s)
       | Some scope =>
           section ← stream_section stream;
           _ ← guard_or (bool_decide (section = scope)) (ValueError "stream does not belong to removal scope");
           let '(marking, defer_retract) := query_flag_marking delete_origin (nonempty removed) in
           keys ← (if nonempty removed then removed_map scope removed else Ok []);
           '(job, s) ← enqueue_removal store_only device_id
                         (mkRemoval scope (Some marking) defer_retract [stream] settlement_cohort [] keys None [] false retract (nonempty removed)
                            None [] None []) s;
           Ok (given job, s)
       end.
End Enqueueing.

Example clears_detected :
  is_cleared (JStr "blue") (JStr "") None = true ∧ is_cleared (JInt 0) JNull None = true ∧ is_cleared (JBool true) (JBool false) None = false ∧
  is_cleared (JBool false) JNull (Some ("isis_level_intent", "disabled")) = true ∧ is_cleared (JBool false) JNull None = false ∧
  lost_content (JArr [JObj [("seq", JInt 10); ("set", JStr "x")]]) (JArr [JObj [("seq", JStr "10"); ("set", JStr "y")]]) = false ∧
  lost_content (JArr [JStr "A"; JStr "B"]) (JArr [JStr "A"]) = true.
Proof. vm_compute. split_and!; reflexivity. Qed.
