(* ===== verification/RemovalProps.v ===== *)
(** * No cleared leaf is forgotten

    A leaf that goes from set to unset reaches the device only through a networked replace.  Whatever a removal admission
    decides - nothing, store-only, a detach or a networked job - a stream that owed a clear, or whose request makes one, ends
    with a pending clear on record or with a networked generation that promotes the stream's whole desired revision. *)

From stdpp Require Import base gmap list.
From Stdlib Require Import ZArith NArith Lia.
From S2P Require Import Prelude Json Registry Document Asn Identity Store Generation Admission GenerationInv Moves Revisions Receipt Removal.
Local Open Scope py_scope.
Local Open Scope Z_scope.

(** ** What a new generation promotes *)

Definition desired (d : Db) (k : Z * pystr) : option Z := s_desired <$> streams d !! k.

Lemma same_revisions_desired d d' : same_revisions d d' → ∀ k, desired d' k = desired d k.
Proof. intros H k. specialize (H k). unfold desired. destruct (streams d !! k), (streams d' !! k); cbn; try done. by destruct H as [-> _]. Qed.
Lemma lock_desired dev r d d' : lock_projection dev d = Ok (r, d') → ∀ k, desired d' k = desired d k.
Proof.
  unfold lock_projection, lock_device_document. case_bool_decide; [|done]. unfold_res. destruct (generation_counter d !! dev); by intros [= _ <-].
Qed.

Lemma promote_stream_desired freeze dev frozen stream p d d' : promote_stream freeze dev frozen stream d = Ok (p, d') →
  (∀ k, desired d' k = desired d k) ∧ (mem stream OUT_OF_PROTOCOL_STREAMS = false → desired d (dev, stream) = Some p.1.1).
Proof.
  unfold promote_stream, desired. destruct (mem stream OUT_OF_PROTOCOL_STREAMS).
  - destruct (dict_get frozen stream); [|done]. destruct (streams d !! (dev, stream)) as [row|] eqn:E; [|done].
    destruct (s_prepared_revision row); [|done]. intros [= <- <-]. split; [|done]. intros k. cbn.
    destruct (decide (k = (dev, stream))) as [->|]; [by rewrite lookup_insert_eq, E|by rewrite lookup_insert_ne].
  - destruct (streams d !! (dev, stream)) as [row|] eqn:E; [|done]. intros (f & _ & [= <- <-])%bind_Ok. split; [|done]. intros k. cbn.
    destruct (decide (k = (dev, stream))) as [->|]; [by rewrite lookup_insert_eq, E|by rewrite lookup_insert_ne].
Qed.

Lemma promote_loop_covers freeze dev frozen todo acc r d d' : promote_loop freeze dev frozen todo acc d = Ok (r, d') →
  (∀ k, desired d' k = desired d k) ∧ (∀ x, x ∈ acc → x ∈ r) ∧
  (∀ stream, stream ∈ todo → mem stream OUT_OF_PROTOCOL_STREAMS = false → ∃ p, (stream, p) ∈ r ∧ desired d (dev, stream) = Some p.1.1).
Proof.
  revert acc d. induction todo as [|nm todo IH]; intros acc d; cbn [promote_loop].
  { intros [= <- <-]. split_and!; [done..|]. intros stream H. by apply elem_of_nil in H. }
  intros ([p d1] & Hp & (D1 & A1 & C1)%IH)%bind_Ok. apply promote_stream_desired in Hp as [D0 C0]. split_and!.
  - intros k. by rewrite D1, D0.
  - intros x Hx. apply A1. apply elem_of_app. by left.
  - intros stream [->|Hin]%elem_of_cons Ho.
    + exists p. split; [|by apply C0]. apply A1. apply elem_of_app. right. by apply list_elem_of_singleton.
    + destruct (C1 stream Hin Ho) as (q & Hq & E). exists q. by rewrite <-D0.
Qed.

(** The generation carries the desired revision of every stream it was asked to promote. *)
Lemma create_generation_covers freeze prune sro so dev names mode allowed doc ctx cohort ts ds attempt frozen cs id d d' :
  create_generation freeze prune sro so dev names mode allowed doc ctx cohort ts ds attempt frozen cs d = Ok (id, d') →
  ∃ g, generations d' !! id = Some g ∧ g_mode g = mode ∧ g_device_id g = dev ∧
    ∀ stream, stream ∈ names → mem stream OUT_OF_PROTOCOL_STREAMS = false →
      ∃ rev, (stream, rev) ∈ g_stream_revisions g ∧ desired d (dev, stream) = Some rev.
Proof.
  unfold create_generation. destruct so; [done|]. destruct names as [|nm names]; [done|]. intros ([[] d1] & F1 & H)%bind_Ok.
  apply bind_Ok in H as ([? d2] & F2%refresh_same & H). apply bind_Ok in H as ([promoted d3] & F3%promote_loop_covers & H).
  apply bind_Ok in H as ([[] d4] & _ & H). apply bind_Ok in H as ([body d5] & _ & H).
  apply store_generation_fresh in H as (g & Hf & Hdev & Hm & Hrevs & _). destruct F3 as (_ & _ & C3).
  exists g. split_and!; [rewrite (fresh_rows _ _ _ _ Hf); apply lookup_insert_eq|done|done|]. intros stream Hin Ho.
  destruct (C3 stream) as (p & Hp & E); [|done|].
  - unfold sorted_strs. rewrite elem_of_stable_sort. by apply elem_of_remove_dups.
  - exists p.1.1. split; [rewrite Hrevs; apply list_elem_of_fmap; by exists (stream, p)|]. rewrite (same_revisions_desired _ _ F2) in E.
    by rewrite (lock_desired _ _ _ _ F1) in E.
Qed.

(** The removal job of a networked or detaching admission carries such a generation. *)
Definition carries (d : Db) (job : Z) (mode : GenerationMode) (dev : Z) (k : pystr) (rev : Z) : Prop :=
  ∃ id g, generations d !! id = Some g ∧ g_job_id g = Some job ∧ g_mode g = mode ∧ g_device_id g = dev ∧ (k, rev) ∈ g_stream_revisions g.

Lemma removal_generation_carries freeze prune sro dev context promotes allowed document cohort ts ds attempt frozen cs r d d' :
  enqueue_removal_generation freeze prune sro false false dev context promotes allowed document cohort ts ds attempt frozen cs d = Ok (r, d') →
  ∃ job, r = Some job ∧ ∀ stream, stream ∈ promotes → mem stream OUT_OF_PROTOCOL_STREAMS = false →
    ∃ rev, desired d (dev, stream) = Some rev ∧ carries d' job (removal_mode context) dev stream rev.
Proof.
  unfold enqueue_removal_generation. cbn [andb negb]. cbv zeta. intros ([[] d0] & F0 & H)%bind_Ok.
  apply bind_Ok in H as ([id d1] & Hg%create_generation_covers & H). apply bind_Ok in H as ([n d2] & Hj & H).
  apply bind_Ok in H as ([[] d3] & Ha & H). injection H as <- <-. destruct Hg as (g & Eg & Hm & Hd & Hc).
  assert (generations d2 = generations d1) as E2.
  { unfold create_dedicated_job in Hj. destruct (bool_decide _); [|done]. by injection Hj as _ <-. }
  unfold require_attach_to_job in Ha. apply txn_bind_Ok in Ha as (b & d4 & Ha & He). unfold ensure, lift_res, guard_or in He.
  destruct b; [|done]. injection He as <-. unfold attach_to_job in Ha. rewrite E2, Eg in Ha. destruct (jobs d2 !! n); [|done].
  assert (d4 = with_generations (<[id := set_g_job (Some n) g]> (generations d1)) d2) as ->.
  { cbv zeta in Ha. repeat case_match; simplify_eq; done. }
  exists n. split; [done|]. intros stream Hin Ho. destruct (Hc stream Hin Ho) as (rev & Hrev & Hdes). exists rev. split.
  - by rewrite (lock_desired _ _ _ _ F0) in Hdes.
  - exists id, (set_g_job (Some n) g). cbn. rewrite lookup_insert_eq. done.
Qed.

(** ** Clears on record *)

Record grows (s s' : PushDb) : Prop := {
  grows_base : base s' = base s;
  grows_receipts : receipts s' = receipts s;
  grows_live : live s' = live s;
  grows_clears k : is_Some (clears s !! k) → is_Some (clears s' !! k) }.
#[local] Instance grows_preorder : PreOrder grows.
Proof. split; [by intros s|]. intros s1 s2 s3 [? ? ? H1] [? ? ? H2]. split; [congruence..|auto]. Qed.

Lemma grows_insert s k c n : grows s (with_clears (<[k := c]> (clears s)) n s).
Proof. split; [done..|]. intros k' H. cbn. destruct (decide (k' = k)) as [->|]; [by rewrite lookup_insert_eq|by rewrite lookup_insert_ne]. Qed.

Lemma record_clear_spec dev prov stream s s' : record_clear dev prov stream s = Ok (tt, s') → grows s s' ∧ is_Some (clears s' !! (dev, stream)).
Proof.
  unfold record_clear. destruct (streams (base s) !! _); [|done]. cbv zeta. destruct (clears s !! (dev, stream)) eqn:E.
  - repeat case_bool_decide; intros [= <-]; (split; [apply grows_insert || reflexivity|cbn; rewrite ?lookup_insert_eq, ?E; by eexists]).
  - intros [= <-]. split; [apply grows_insert|]. cbn. rewrite lookup_insert_eq. by eexists.
Qed.

Lemma promote_clear_spec dev stream s s' : promote_clear dev stream s = Ok (tt, s') → grows s s'.
Proof. unfold promote_clear. cbv zeta. destruct (clears s !! (dev, stream)); intros [= <-]; [apply grows_insert|reflexivity]. Qed.

Lemma for_each_grows {A} (f : A -> txn PushDb unit) (P : A -> PushDb -> Prop) l s s' :
  (∀ x s s', f x s = Ok (tt, s') → grows s s' ∧ P x s') → (∀ x s s', grows s s' → P x s → P x s') →
  for_each f l s = Ok (tt, s') → grows s s' ∧ ∀ x, x ∈ l → P x s'.
Proof.
  intros Hf HP. revert s. induction l as [|x l IH]; intros s; cbn [for_each].
  { intros [= <-]. split; [done|]. intros x H. by apply elem_of_nil in H. }
  intros H. apply txn_bind_Ok in H as ([] & s1 & [G1 P1]%Hf & [G2 P2]%IH). split; [by etransitivity|].
  intros y [->|Hy]%elem_of_cons; [by eapply HP|by apply P2].
Qed.

Lemma record_clears_spec dev names prov s s' : record_pending_clears dev names prov s = Ok (tt, s') →
  grows s s' ∧ ∀ stream, stream ∈ names → is_Some (clears s' !! (dev, stream)).
Proof.
  intros H. apply (for_each_grows _ (fun stream s => is_Some (clears s !! (dev, stream)))) in H as [G P].
  - split; [done|]. intros stream Hin. apply P. unfold sorted_strs. rewrite elem_of_stable_sort. by apply elem_of_remove_dups.
  - intros x s1 s2. apply record_clear_spec.
  - intros x s1 s2 G. apply (grows_clears _ _ G).
Qed.

Lemma promote_clears_spec dev names s s' : promote_parked_clears dev names s = Ok (tt, s') → grows s s'.
Proof.
  intros H. apply (for_each_grows _ (fun _ _ => True)) in H as [G _]; [done| |done]. intros x s1 s2 G%promote_clear_spec. done.
Qed.

(** ** Admission *)

(** The clear of a stream is on record, or a networked job carries the stream's desired revision. *)
Definition clear_covered (s s' : PushDb) (job : option Z) (dev : Z) (stream : pystr) : Prop :=
  is_Some (clears s' !! (dev, stream)) ∨
  ∃ j rev, job = Some j ∧ desired (base s) (dev, stream) = Some rev ∧ carries (base s') j networked dev stream rev.

(** A caller that drops rows unmarked says so: an un-own defers the clear. *)
Definition defers (q : RemovalRequest) : Prop := rq_marking q = Some DETACH_MARKING → deletes q = true → rq_defer_retract q = true.

Lemma detach_mode q : rq_force q = false → removal_mode (removal_context q) = detach →
  rq_marking q = Some DETACH_MARKING ∧ (rq_retract q = true → deletes q = true).
Proof.
  intros Hf. unfold removal_mode, context_truthy, removal_context. rewrite Hf.
  destruct (decide (rq_marking q = Some DETACH_MARKING)) as [E|E].
  - rewrite bool_decide_eq_true_2 by done. destruct (rq_retract q), (deletes q); cbn [negb andb]; try done. intros H. exfalso. revert H.
    unfold removed_context. destruct (nonempty (rq_interfaces q)), (rq_removed q), (nonempty (rq_vault_refs q)), (rq_defer_retract q); vm_compute; done.
  - rewrite bool_decide_eq_false_2 by done. cbn [andb]. intros H. exfalso. revert H. unfold removed_context.
    destruct (nonempty (rq_interfaces q)), (rq_removed q), (nonempty (rq_vault_refs q)), (rq_retract q), (rq_defer_retract q); vm_compute; done.
Qed.

Section Covered.
Context (freeze : tables -> Db -> Z -> pystr -> res pydict).
Context (prune_apply_plan : json -> list json -> list json -> res json).
Context (static_route_operation : Db -> Z -> pydict -> pydict -> pydict -> list Z -> res pydict).

Lemma enqueue_removal_covered so dev q s job s' stream :
  enqueue_removal freeze prune_apply_plan static_route_operation so dev q s = Ok (job, s') →
  rq_force q = false → rq_scope q ≠ "static_route" → defers q → stream ∈ rq_promotes q → mem stream OUT_OF_PROTOCOL_STREAMS = false →
  rq_retract q = true ∨ is_Some (clears s !! (dev, stream)) → clear_covered s s' job dev stream.
Proof.
  intros H Hforce Hscope Hdefer Hin Ho Howes. unfold enqueue_removal in H. rewrite Hforce in H.
  do 6 (apply bind_Ok in H as (? & _ & H)). apply bind_Ok in H as ([[] s1] & Hrec & H). rewrite bool_decide_eq_false_2 in Hrec by done.
  assert (grows s s1 ∧ (rq_retract q = true → rq_defer_retract q || so = true → is_Some (clears s1 !! (dev, stream)))) as [G R].
  { cbn [negb] in Hrec. rewrite andb_true_r in Hrec. destruct (rq_retract q && (rq_defer_retract q || so)) eqn:Eb.
    - apply record_clears_spec in Hrec as [G P]. split; [done|]. intros _ _. by apply P.
    - injection Hrec as <-. split; [done|]. intros E1 E2. by rewrite E1, E2 in Eb. }
  destruct so; cbn [negb andb] in H.
  { injection H as <- <-. left. destruct Howes as [Hr|Hc]; [apply R; [done|apply orb_true_r]|by apply (grows_clears _ _ G)]. }
  cbv zeta in H. apply bind_Ok in H as (discharged & _ & H). apply bind_Ok in H as ([j s2] & Hgen & H).
  apply bind_Ok in H as ([[] s3] & Hset & H). injection H as <- <-.
  unfold on_base in Hgen. destruct (enqueue_removal_generation _ _ _ _ _ _ _ _ _ _ _ _ _ _ _ _ _) as [[j' d2]|] eqn:Eg; [|done].
  injection Hgen as <- <-. apply removal_generation_carries in Eg as (n & -> & Hc).
  unfold settle_pending_clears_at_admission in Hset. rewrite bool_decide_eq_false_2 in Hset by done. cbn [negb] in Hset.
  destruct (removal_mode (removal_context q)) eqn:Em.
  - right. injection Hset as <-. destruct (Hc stream Hin Ho) as (rev & Hd & Hcar). exists n, rev. split_and!; [done| |done].
    by rewrite <-(grows_base _ _ G).
  - left. apply promote_clears_spec in Hset. apply (grows_clears _ _ Hset). cbn [clears with_base].
    destruct (detach_mode q Hforce Em) as [Hm Hdel]. destruct Howes as [Hr|Hc']; [|by apply (grows_clears _ _ G)].
    apply R; [done|]. by rewrite (Hdefer Hm (Hdel Hr)).
Qed.
End Covered.

