(* ===== verification/Mirror.v ===== *)
(** * Full-replace intent endpoints

    The intent PUTs whose body is one flat list of rows: api/svi.py, api/bfd.py, api/interface_mtu.py, api/subinterface.py and
    api/l2_service.py.  Each handler deletes the device's rows the body does not name, updates the ones it does, inserts the rest,
    and then asks for a removal, where a row or an owned leaf went, and for an apply.  A [MirrorSpec] is what differs between them:
    the model, its key columns, the columns an entry writes, and the leaves whose clearing a merge cannot express.  An entry is a
    validated body item with its defaults filled in; row keys are texts; a timestamp is the store's clock. *)

From stdpp Require Import base gmap list.
From Stdlib Require Import ZArith NArith Lia.
From S2P Require Import Prelude Json Registry Document Asn Identity Store Generation Admission Receipt ReceiptProps Removal.
Local Open Scope py_scope.
Local Open Scope Z_scope.

(** A column of the row, the field of the entry it is written from, and whether a blank is stored as NULL. *)
Record Column := mkColumn { col_name : pystr; col_field : pystr; col_or_none : bool }.
Record MirrorSpec := mkMirror {
  ms_model : pystr; ms_stream : pystr; ms_keys : list pystr; ms_columns : list Column; ms_state_fields : list pystr }.

Definition plain (c : pystr) : Column := mkColumn c c false.
Definition or_none (c : pystr) : Column := mkColumn c c true.

(** [put_svi_intent], [put_bfd_intent], [put_interface_mtu_intent], [put_subinterface_intent], [put_l2_sap_intent] *)
Definition svi_mirror : MirrorSpec :=
  mkMirror "SviIntent" "svi" ["interface_name"] [plain "vlan_id"; mkColumn "svi_type" "type" false; or_none "vrf"] ["vrf"].
Definition bfd_mirror : MirrorSpec :=
  mkMirror "BfdIntent" "bfd" ["interface_name"] [plain "min_tx"; plain "min_rx"; plain "multiplier"; plain "micro_bfd"] ["min_tx"; "min_rx"; "multiplier"].
Definition interface_mtu_mirror : MirrorSpec :=
  mkMirror "InterfaceMtuIntent" "interface_mtu" ["interface_name"] [plain "mtu"; plain "ip_mtu"; plain "mpls_mtu"] ["mtu"; "ip_mtu"; "mpls_mtu"].
Definition subinterface_mirror : MirrorSpec :=
  mkMirror "SubinterfaceIntent" "subinterface" ["interface_name"]
    [or_none "parent_interface"; plain "dot1q_vlan"; mkColumn "sub_type" "type" false; or_none "vrf"] ["vrf"].
Definition l2_sap_mirror : MirrorSpec :=
  mkMirror "L2SapIntent" "l2_sap" ["service_name"; "sap_id"] [plain "service_type"; plain "port"; plain "outer_tag"; plain "inner_tag"] [].
Definition mirrors : list MirrorSpec := [svi_mirror; bfd_mirror; interface_mtu_mirror; subinterface_mirror; l2_sap_mirror].

(** The key of a row or an entry: one text, or the tuple of its parts. *)
Definition key_of (m : MirrorSpec) (row : pydict) : json :=
  match ms_keys m with [k] => get row k | ks => JArr (map (get row) ks) end.

Definition column_value (entry : pydict) (c : Column) : json :=
  let v := get entry (col_field c) in if col_or_none c then (if json_truthy v then v else JNull) else v.
Definition accepted_value (now : Z) (entry : pydict) : json :=
  let v := get entry "accepted_at" in if json_truthy v then v else JStr (py_str_int now).

(** The columns one entry writes on its row. *)
Definition assign (m : MirrorSpec) (now : Z) (entry row : pydict) : pydict :=
  dict_set (fold_left (fun row c => dict_set row (col_name c) (column_value entry c)) (ms_columns m) row) "accepted_at" (accepted_value now entry).

Definition new_row (m : MirrorSpec) (device_id now : Z) (id : Z) (entry : pydict) : pydict :=
  assign m now entry ([("id", JInt id); ("device_id", JInt device_id)] ++ map (fun k => (k, get entry k)) (ms_keys m) ++
                      [("last_apply_at", JNull); ("last_apply_error", JNull)]).

Definition of_device (device_id : Z) (row : pydict) : bool := is_int (get row "device_id") device_id.
Definition is_row (m : MirrorSpec) (device_id : Z) (k : json) (row : pydict) : bool := of_device device_id row && bool_decide (key_of m row = k).

Definition row_cleared (m : MirrorSpec) (before after : pydict) : bool :=
  existsb (fun f => is_cleared (get before f) (get after f) None) (ms_state_fields m).

(** The handler's loop: the table's rows, the entries to insert, and whether an owned leaf was cleared. *)
Fixpoint upsert (m : MirrorSpec) (device_id now : Z) (existing : list json) (entries : list pydict) (rows : list pydict) (fresh : list pydict) (cleared : bool) :
    list pydict * list pydict * bool :=
  match entries with
  | [] => (rows, fresh, cleared)
  | e :: entries =>
      let k := key_of m e in
      if bool_decide (k ∈ existing) then
        let gone := existsb (fun row => is_row m device_id k row && row_cleared m row (assign m now e row)) rows in
        upsert m device_id now existing entries (map (fun row => if is_row m device_id k row then assign m now e row else row) rows) fresh (cleared || gone)
      else upsert m device_id now existing entries rows (fresh ++ [e]) cleared
  end.

Fixpoint insert_rows (m : MirrorSpec) (device_id now id : Z) (entries : list pydict) : list pydict :=
  match entries with [] => [] | e :: entries => new_row m device_id now id e :: insert_rows m device_id now (id + 1) entries end.

(** The rows after the handler's flush; two inserts with one key violate the table's unique constraint. *)
Record mirrored := mkMirrored { mi_rows : list pydict; mi_next : Z; mi_removed : list json; mi_cleared : bool }.
Definition mirror_rows (m : MirrorSpec) (device_id now : Z) (entries rows : list pydict) (next : Z) : res mirrored :=
  let existing := map (key_of m) (List.filter (of_device device_id) rows) in
  let new_keys := map (key_of m) entries in
  let removed := List.filter (fun k => negb (bool_decide (k ∈ new_keys))) existing in
  let kept := List.filter (fun row => negb (of_device device_id row && bool_decide (key_of m row ∈ removed))) rows in
  let '(rows, fresh, cleared) := upsert m device_id now existing entries kept [] false in
  if bool_decide (NoDup (map (key_of m) fresh)) then
    Ok (mkMirrored (rows ++ insert_rows m device_id now next fresh) (next + Z.of_nat (length fresh)) removed cleared)
  else Raise IntegrityError.

Section Endpoint.
Context (stream_proof : tables -> Z -> pystr -> tables -> pydict -> res pydict).
Context (prune_apply_plan : json -> list json -> list json -> res json).
Context (static_route_operation : Db -> Z -> pydict -> pydict -> pydict -> list Z -> res pydict).

Definition freeze_live (t : tables) (_ : Db) (device_id : Z) (stream : pystr) : res pydict := freeze_stream stream_proof t device_id stream.

(** What the handler does between admission and the recorded response. *)
Definition mirror_work (m : MirrorSpec) (entries : list pydict) (device_id : Z) (delivery : IntentDelivery) : txn PushDb pydict := fun s =>
  let table := tablename (ms_model m) in
  let store_only := p_store_only (d_identity delivery) in
  let now := clock (base s) in
  written ← mirror_rows m device_id now entries (table_rows (live s) table) (next_row_id s);
  let s := with_live (dict_set (live s) table (mi_rows written)) (mi_next written) s in
  let shrinks := nonempty (mi_removed written) || mi_cleared written in
  let count := Z.of_nat (length entries) in
  '((apply_requested, cohort), s) ← on_base (prepare_request_settlement store_only device_id count (Z.b2z shrinks)) s;
  '(replaced, s) ← (if shrinks then
                      replace_on_removal freeze_live prune_apply_plan static_route_operation store_only (p_delete_origin (d_identity delivery)) device_id
                        (mi_removed written) (ms_model m) (d_stream delivery) (mi_cleared written) cohort s
                    else Ok (false, s));
  '(_, s) ← (if (apply_requested : bool) then
               on_base (enqueue_apply (freeze_live (live s)) prune_apply_plan static_route_operation store_only device_id (d_stream delivery) cohort) s
             else Ok (None, s));
  Ok ([("device_id", JInt device_id); ("count", JInt count); ("removed", JInt (Z.of_nat (length (mi_removed written)))); ("replaced", JBool replaced)], s).

(** The endpoint: an unknown device is a 404, and everything else one delivery. *)
Definition put_mirror_intent (m : MirrorSpec) (entries : list pydict) (device_id : Z) (delivery : IntentDelivery) (s : PushDb) : outcome * PushDb :=
  if bool_decide (device_id ∈ devices (base s)) then deliver (mirror_work m entries) device_id delivery s
  else (Refused (ApiError 404 "not_found"), s).
End Endpoint.

(** Every mirror writes a table of its stream, keyed by the table's durable identity. *)
Example mirrors_registered :
  forallb (fun m => match dict_get spec_by_model (ms_model m) with
                    | Some s => match identity_fields s with Ok f => bool_decide (f = ms_keys m) | Raise _ => false end &&
                                match dict_get STREAM_TABLES (ms_stream m) with Some ts => mem (tablename (ms_model m)) ts | None => false end
                    | None => false
                    end) mirrors = true.
Proof. vm_compute. reflexivity. Qed.
