(* ===== verification/MirrorProps.v ===== *)
(** * What a full-replace endpoint leaves

    The endpoints of Mirror satisfy the interface push admission needs ([IntentWork]), and the device's rows are the body:
    one row per entry, in place where the key existed, and nothing else of the store's rows touched. *)

From stdpp Require Import base gmap list.
From Stdlib Require Import ZArith NArith Lia.
From S2P Require Import Prelude Json Registry Document Asn Identity Store Generation Admission Receipt ReceiptProps Removal RemovalProps Mirror.
Local Open Scope py_scope.
Local Open Scope Z_scope.

(** ** Only admission raises a sequence conflict *)

Lemma calm_txn {S A B} (m : txn S A) (f : A -> txn S B) s : calm (m s) → (∀ a s', calm (f a s')) → calm ((m ≫= f) s).
Proof. intros H Hf. unfold mbind, txn_bind. destruct (m s) as [[a s']|e]; [apply Hf|exact H]. Qed.
Lemma on_base_calm {A} (m : txn Db A) s : calm (m (base s)) → calm (on_base m s).
Proof. unfold on_base. destruct (m (base s)) as [[]|]; [done|]. intros H. exact H. Qed.

Ltac calm_txn_step :=
  match goal with
  | |- calm (mbind _ _ _) => apply calm_txn; [|intros ? ?]
  | |- calm (on_base _ _) => apply on_base_calm
  | |- calm (mret _ _) => exact I
  | |- calm (raise _ _) => reflexivity
  | |- calm (gets _ _) => exact I
  | |- calm (lift_res ?r _) => let H := fresh in assert (calm r) as H; [|unfold lift_res; destruct r; [exact I|exact H]]
  | |- calm ((if ?b then _ else _) _) => destruct b
  | |- calm ((match ?x with _ => _ end) _) => destruct x
  | _ => calm_step
  end.
Ltac calm_txn := repeat calm_txn_step.

Lemma settlement_calm so dev n r d : calm (prepare_request_settlement so dev n r d).
Proof. unfold prepare_request_settlement, auto_apply_requested, request_settlement_cohort, allocate_settlement_cohort. calm_txn. Qed.
Lemma lock_projection_calm dev d : calm (lock_projection dev d).
Proof. unfold lock_projection, lock_device_document. calm. Qed.
#[local] Hint Resolve settlement_calm lock_projection_calm : calm.
Lemma or_empty_calm v : calm (or_empty v).
Proof. unfold or_empty. calm. Qed.
#[local] Hint Resolve or_empty_calm : calm.
Lemma attach_calm g j d : calm (attach_to_job g j d).
Proof. unfold attach_to_job. calm. Qed.
#[local] Hint Resolve attach_calm : calm.
Lemma require_attach_calm g j d : calm (require_attach_to_job g j d).
Proof. unfold require_attach_to_job, ensure, guard_or. calm_txn. Qed.
#[local] Hint Resolve require_attach_calm : calm.
Lemma dedicated_calm dev ty ctx d : calm (create_dedicated_job dev ty ctx d).
Proof. unfold create_dedicated_job. calm. Qed.
#[local] Hint Resolve dedicated_calm : calm.
Lemma admit_loop_calm n dev ty ctx d : calm (admit_loop n dev ty ctx d).
Proof. induction n as [|n IH]; cbn [admit_loop]; calm. Qed.
#[local] Hint Resolve admit_loop_calm : calm.
Lemma admit_apply_calm g d : calm (admit_apply_generation g d).
Proof. unfold admit_apply_generation, admit_coalescible_job. calm_txn. Qed.
#[local] Hint Resolve admit_apply_calm : calm.
Lemma section_context_calm d s : calm (section_context d s).
Proof. unfold section_context, section_execution, check_dialect. calm. Qed.
#[local] Hint Resolve section_context_calm : calm.
Lemma merge_fields_calm r m : calm (merge_fields r m).
Proof. revert m. induction r as [|[f v] r IH]; intros m; cbn [merge_fields]; calm. Qed.
#[local] Hint Resolve merge_fields_calm : calm.
Lemma merge_interfaces_calm r m : calm (merge_interfaces r m).
Proof. revert m. induction r as [|[f v] r IH]; intros m; cbn [merge_interfaces]; unfold merge_interface_records; calm. Qed.
#[local] Hint Resolve merge_interfaces_calm : calm.
Lemma merge_proof_calm r m : calm (merge_proof r m).
Proof. revert m. induction r as [|[f v] r IH]; intros m; cbn [merge_proof]; unfold merge_proof_member; calm. Qed.
#[local] Hint Resolve merge_proof_calm : calm.
Lemma compose_loop_calm s l c p : calm (compose_loop s l c p).
Proof. revert c p. induction l as [|[f v] l IH]; intros c p; cbn [compose_loop]; calm. Qed.
#[local] Hint Resolve compose_loop_calm : calm.
Lemma projection_streams_calm : calm projection_streams.
Proof. vm_compute. exact I. Qed.
Lemma stream_sections_calm : calm stream_sections.
Proof. vm_compute. exact I. Qed.
Lemma projection_sections_calm : calm projection_sections.
Proof. vm_compute. exact I. Qed.
#[local] Opaque projection_streams stream_sections projection_sections.
#[local] Hint Resolve projection_streams_calm stream_sections_calm projection_sections_calm : calm.
Lemma stream_section_calm s : calm (stream_section s).
Proof. unfold stream_section. calm. Qed.
Lemma section_streams_calm s : calm (section_streams s).
Proof. unfold section_streams. calm. Qed.
#[local] Hint Resolve stream_section_calm section_streams_calm : calm.
Lemma group_sections_calm l acc : calm (group_sections l acc).
Proof. revert acc. induction l as [|[f v] l IH]; intros acc; cbn [group_sections]; calm. Qed.
#[local] Hint Resolve group_sections_calm : calm.
Lemma compose_calm l : calm (compose_document l).
Proof. unfold compose_document, section_body, compose_section_execution. calm. Qed.
#[local] Hint Resolve compose_calm : calm.
Lemma authority_calm v : calm (validate_removal_authority v).
Proof. unfold validate_removal_authority. calm. Qed.
#[local] Hint Resolve authority_calm : calm.

Section Calm.
Context (stream_proof : tables -> Z -> pystr -> tables -> pydict -> res pydict).
Context (prune_apply_plan : json -> list json -> list json -> res json).
Context (static_route_operation : Db -> Z -> pydict -> pydict -> pydict -> list Z -> res pydict).
(** Neither the proofs of the three special streams nor the static-route planner know of push sequences. *)
Context (proof_calm : ∀ live dev stream t c, calm (stream_proof live dev stream t c)).
Context (prune_calm : ∀ plan rows ts, calm (prune_apply_plan plan rows ts)).
Context (operation_calm : ∀ d dev b c a ids, calm (static_route_operation d dev b c a ids)).
#[local] Hint Resolve proof_calm prune_calm operation_calm : calm.

Lemma freeze_live_calm t d dev stream : calm (freeze_live stream_proof t d dev stream).
Proof. unfold freeze_live, freeze_stream, freeze_fragment. calm. Qed.
#[local] Hint Resolve freeze_live_calm : calm.
Lemma refresh_loop_calm dev ex l acc d : calm (refresh_loop prune_apply_plan dev ex l acc d).
Proof.
  revert acc d. induction l as [|[st row] l IH]; intros acc d; cbn [refresh_loop]; [done|].
  unfold prune_consumed_carriers, prune_plan, spec_or_refuse. calm.
Qed.
#[local] Hint Resolve refresh_loop_calm : calm.
Lemma refresh_calm dev ids d : calm (refresh_consumed_carriers prune_apply_plan dev ids d).
Proof. unfold refresh_consumed_carriers. calm. Qed.
#[local] Hint Resolve refresh_calm : calm.
Lemma promote_calm t dev frozen todo acc d : calm (promote_loop (freeze_live stream_proof t) dev frozen todo acc d).
Proof. revert acc d. induction todo as [|st todo IH]; intros acc d; cbn [promote_loop]; unfold promote_stream; calm. Qed.
#[local] Hint Resolve promote_calm : calm.
Lemma fragments_calm dev l d : calm (store_fragments dev l d).
Proof. revert d. induction l as [|[st [[? ?] f]] l IH]; intros d; cbn [store_fragments]; unfold authorized_assignment, fragment_context; calm. Qed.
#[local] Hint Resolve fragments_calm : calm.
Lemma store_calm dev mode doc allowed source revs ctx cohort ts ds attempt cs d :
  calm (store_generation static_route_operation dev mode doc allowed source revs ctx cohort ts ds attempt cs d).
Proof. unfold store_generation, write_operation, operation_plane, next_seq. calm. Qed.
#[local] Hint Resolve store_calm : calm.
Lemma create_calm t so dev names mode allowed doc ctx cohort ts ds attempt frozen cs d :
  calm (create_generation (freeze_live stream_proof t) prune_apply_plan static_route_operation so dev names mode allowed doc ctx cohort ts ds attempt frozen cs d).
Proof. unfold create_generation, compose_authorized_document. calm. Qed.
#[local] Hint Resolve create_calm : calm.
Lemma reissue_calm dev mode ctx allowed ts ds d : calm (create_reissue_generation prune_apply_plan static_route_operation dev mode ctx allowed ts ds d).
Proof. unfold create_reissue_generation. calm. Qed.
#[local] Hint Resolve reissue_calm : calm.
Lemma record_clears_calm dev names prov s : calm (record_pending_clears dev names prov s).
Proof.
  unfold record_pending_clears. generalize (sorted_strs (remove_dups names)). intros l. revert s.
  induction l as [|x l IH]; intros s; cbn [for_each]; unfold record_clear; calm_txn; apply IH.
Qed.
Lemma promote_clears_calm dev names s : calm (promote_parked_clears dev names s).
Proof.
  unfold promote_parked_clears. generalize (sorted_strs (remove_dups names)). intros l. revert s.
  induction l as [|x l IH]; intros s; cbn [for_each]; unfold promote_clear; calm_txn; apply IH.
Qed.
#[local] Hint Resolve record_clears_calm promote_clears_calm : calm.
Lemma removal_calm so dev q s : calm (enqueue_removal (freeze_live stream_proof) prune_apply_plan static_route_operation so dev q s).
Proof.
  unfold enqueue_removal, refuse_force_incompatible, refuse_unmarked_deletion, refuse_deferred_delete_origin, pending_clears_discharged_by,
    settle_pending_clears_at_admission, discharge_pending_clear_streams, enqueue_removal_generation. calm_txn.
Qed.
#[local] Hint Resolve removal_calm : calm.
Lemma replace_calm so del dev removed model stream retract cohort s :
  calm (replace_on_removal (freeze_live stream_proof) prune_apply_plan static_route_operation so del dev removed model stream retract cohort s).
Proof. unfold replace_on_removal, removed_map. calm_txn. Qed.
#[local] Hint Resolve replace_calm : calm.
Lemma mirror_calm m entries dev dlv s : calm (mirror_work stream_proof prune_apply_plan static_route_operation m entries dev dlv s).
Proof. unfold mirror_work, mirror_rows, enqueue_apply. calm_txn. Qed.
End Calm.

(** ** The receipts are left alone *)

Lemma on_base_receipts {A} (m : txn Db A) s a s' : on_base m s = Ok (a, s') → receipts s' = receipts s.
Proof. unfold on_base. destruct (m (base s)) as [[]|]; [|done]. by intros [= _ <-]. Qed.

Lemma removal_receipts freeze prune sro so dev q s a s' : enqueue_removal freeze prune sro so dev q s = Ok (a, s') → receipts s' = receipts s.
Proof.
  unfold enqueue_removal. intros H. do 6 (apply bind_Ok in H as (? & _ & H)). apply bind_Ok in H as ([[] s1] & Hrec & H).
  assert (receipts s1 = receipts s) as E1.
  { destruct (_ && _); [|by injection Hrec as <-]. apply record_clears_spec in Hrec as [G _]. apply (grows_receipts _ _ G). }
  destruct (so && _); [by injection H as _ <-|]. cbv zeta in H. apply bind_Ok in H as (? & _ & H). apply bind_Ok in H as ([j s2] & E2%on_base_receipts & H).
  apply bind_Ok in H as ([[] s3] & H & Hr). injection Hr as _ <-. rewrite <-E1, <-E2. unfold settle_pending_clears_at_admission in H.
  destruct (rq_force q).
  - apply txn_bind_Ok in H as (names & s4 & Hl & H). unfold lift_res in Hl. destruct (section_streams _); [|done]. injection Hl as _ <-. by injection H as <-.
  - destruct (negb _); [|by injection H as <-]. destruct (removal_mode _); [by injection H as <-|]. apply promote_clears_spec in H. apply (grows_receipts _ _ H).
Qed.

Lemma mirror_receipts sp prune sro m entries dev dlv s r s' : mirror_work sp prune sro m entries dev dlv s = Ok (r, s') → receipts s' = receipts s.
Proof.
  unfold mirror_work. intros H. apply bind_Ok in H as (w & _ & H). cbv zeta in H. apply bind_Ok in H as ([[ar co] s1] & E1%on_base_receipts & H).
  apply bind_Ok in H as ([rep s2] & H2 & H). apply bind_Ok in H as ([? s3] & H3 & H). injection H as _ <-.
  assert (receipts s2 = receipts s1) as E2.
  { destruct (_ || _); [|by injection H2 as _ <-]. unfold replace_on_removal in H2. destruct (_ && _); [by injection H2 as _ <-|].
    destruct (dict_get section_by_model _); [|by injection H2 as _ <-]. apply bind_Ok in H2 as (? & _ & H2). apply bind_Ok in H2 as (? & _ & H2).
    destruct (query_flag_marking _ _). apply bind_Ok in H2 as (? & _ & H2). apply bind_Ok in H2 as ([? s4] & E4%removal_receipts & H2). by injection H2 as _ <-. }
  assert (receipts s3 = receipts s2) as E3 by (destruct ar; [by apply on_base_receipts in H3|by injection H3 as _ <-]).
  by rewrite E3, E2, E1.
Qed.

(** The endpoint is admissible work. *)
#[global] Instance mirror_intent_work sp prune sro m entries :
  (∀ live dev stream t c, calm (sp live dev stream t c)) → (∀ plan rows ts, calm (prune plan rows ts)) →
  (∀ d dev b c a ids, calm (sro d dev b c a ids)) → IntentWork (mirror_work sp prune sro m entries).
Proof.
  intros H1 H2 H3. split.
  - intros dev dlv s r s' E%mirror_receipts k. by rewrite E.
  - intros dev dlv s r s' E. unfold mirror_work in E. apply bind_Ok in E as (w & _ & E). cbv zeta in E. apply bind_Ok in E as ([[ar co] s1] & _ & E).
    apply bind_Ok in E as ([rep s2] & _ & E). apply bind_Ok in E as ([? s3] & _ & E). injection E as <- _. apply (bool_decide_unpack _). vm_compute. exact I.
  - intros dev dlv s e E code a b ->. pose proof (mirror_calm sp prune sro H1 H2 H3 m entries dev dlv s) as Hc. rewrite E in Hc. done.
Qed.

(** ** The rows are the body *)

Definition device_rows (dev : Z) (rows : list pydict) : list pydict := List.filter (of_device dev) rows.

(** Keys, columns and bookkeeping fields of a mirror do not overlap. *)
Definition mirror_ok (m : MirrorSpec) : bool :=
  bool_decide (NoDup (["id"; "device_id"; "accepted_at"; "last_apply_at"; "last_apply_error"] ++ ms_keys m ++ map col_name (ms_columns m))).
Lemma mirrors_ok : forallb mirror_ok mirrors = true.
Proof. vm_compute. reflexivity. Qed.

Lemma get_set row k v f : get (dict_set row k v) f = if decide (f = k) then v else get row f.
Proof.
  unfold get, get_or. destruct (decide (f = k)) as [->|]; [by rewrite dict_get_set_eq|by rewrite dict_get_set_ne].
Qed.

Section Rows.
Context (m : MirrorSpec) (dev now : Z) (Hm : mirror_ok m = true).

Lemma get_columns_other e cs row f : f ∉ map col_name cs →
  get (fold_left (fun row c => dict_set row (col_name c) (column_value e c)) cs row) f = get row f.
Proof.
  revert row. induction cs as [|c cs IH]; intros row; cbn [fold_left map]; [done|]. intros [H1 H2]%not_elem_of_cons.
  rewrite IH by done. by rewrite get_set, decide_False.
Qed.
Lemma get_columns e cs row c : NoDup (map col_name cs) → c ∈ cs →
  get (fold_left (fun row c => dict_set row (col_name c) (column_value e c)) cs row) (col_name c) = column_value e c.
Proof.
  revert row. induction cs as [|c0 cs IH]; intros row; cbn [fold_left map]; [intros _ H; by apply elem_of_nil in H|].
  intros [H1 H2]%NoDup_cons [->|H]%elem_of_cons; [|by apply IH]. rewrite get_columns_other by done. by rewrite get_set, decide_True.
Qed.

(** The fields of the mirror are apart. *)
Lemma mirror_fields :
  NoDup (map col_name (ms_columns m)) ∧ NoDup (ms_keys m) ∧
  (∀ f, f ∈ ["id"; "device_id"] ++ ms_keys m → f ≠ "accepted_at" ∧ f ∉ map col_name (ms_columns m)) ∧
  (∀ f, f ∈ ms_keys m → f ∉ ["id"; "device_id"; "last_apply_at"; "last_apply_error"]) ∧ "accepted_at" ∉ map col_name (ms_columns m).
Proof.
  pose proof Hm as H. unfold mirror_ok in H. apply bool_decide_eq_true in H. apply NoDup_app in H as (H0 & H1 & H2). apply NoDup_app in H2 as (H2 & H3 & H4).
  split_and!; [done|done| | |].
  - intros f [Hf|Hf]%elem_of_app.
    + split; [intros ->; revert Hf; rewrite !elem_of_cons, elem_of_nil; naive_solver|]. intros Hc. eapply (H1 f); [|apply elem_of_app; by right].
      revert Hf. rewrite !elem_of_cons. tauto.
    + split; [|by apply H3]. intros ->. apply (H1 "accepted_at"); [rewrite !elem_of_cons; tauto|apply elem_of_app; by left].
  - intros f Hf Hin. apply (H1 f); [|apply elem_of_app; by left]. revert Hin. rewrite !elem_of_cons. tauto.
  - intros Hc. apply (H1 "accepted_at"); [rewrite !elem_of_cons; tauto|apply elem_of_app; by right].
Qed.

Lemma get_assign_other e row f : f ∈ ["id"; "device_id"] ++ ms_keys m → get (assign m now e row) f = get row f.
Proof.
  intros Hf. destruct mirror_fields as (_ & _ & H & _). destruct (H f Hf) as [H1 H2]. unfold assign. rewrite get_set, decide_False by done.
  by apply get_columns_other.
Qed.
Lemma get_assign e row c : c ∈ ms_columns m → get (assign m now e row) (col_name c) = column_value e c.
Proof.
  intros Hc. destruct mirror_fields as (Hn & _ & _ & _ & Ha). unfold assign. rewrite get_set, decide_False; [by apply get_columns|].
  intros E. apply Ha. rewrite <-E. by apply list_elem_of_fmap_2.
Qed.

Lemma key_of_ext row row' : (∀ k, k ∈ ms_keys m → get row' k = get row k) → key_of m row' = key_of m row.
Proof.
  intros H. unfold key_of. assert (map (get row') (ms_keys m) = map (get row) (ms_keys m)) as E.
  { apply map_ext_in. intros k Hk. apply H. by apply list_elem_of_In. }
  destruct (ms_keys m) as [|k [|k' ks]]; [done|apply H; left|by rewrite E].
Qed.
Lemma key_assign e row : key_of m (assign m now e row) = key_of m row.
Proof. apply key_of_ext. intros k Hk. apply get_assign_other. apply elem_of_app. by right. Qed.
Lemma dev_assign e row : of_device dev (assign m now e row) = of_device dev row.
Proof. unfold of_device. rewrite get_assign_other; [done|]. rewrite elem_of_app, !elem_of_cons. tauto. Qed.

Lemma get_app_keys (ks : list pystr) (e rest : pydict) k : k ∈ ks → get (map (fun k => (k, get e k)) ks ++ rest) k = get e k.
Proof.
  unfold get, get_or. induction ks as [|k0 ks IH]; intros H; [by apply elem_of_nil in H|]. cbn [map app dict_get].
  destruct (decide (k = k0)) as [->|Hne]; [done|]. apply elem_of_cons in H as [->|H]; [done|]. by apply IH.
Qed.
Lemma new_row_key id e : key_of m (new_row m dev now id e) = key_of m e.
Proof.
  unfold new_row. rewrite key_assign. apply key_of_ext. intros k Hk. destruct mirror_fields as (_ & _ & _ & H & _).
  specialize (H k Hk). rewrite !not_elem_of_cons in H. destruct H as (H1 & H2 & _). unfold get, get_or. cbn [app dict_get].
  rewrite !decide_False by done. by apply (get_app_keys (ms_keys m) e).
Qed.
Lemma new_row_dev id e : of_device dev (new_row m dev now id e) = true.
Proof. unfold new_row. rewrite dev_assign. unfold of_device. cbn. apply Z.eqb_refl. Qed.

(** *** The loop *)

Definition refreshed (existing : list json) (entries : list pydict) (row : pydict) : pydict :=
  if of_device dev row && bool_decide (key_of m row ∈ existing) then
    match List.find (fun e => bool_decide (key_of m e = key_of m row)) entries with Some e => assign m now e row | None => row end
  else row.

Lemma find_none entries k : k ∉ map (key_of m) entries → List.find (fun e => bool_decide (key_of m e = k)) entries = None.
Proof.
  induction entries as [|e entries IH]; cbn [map List.find]; [done|]. intros [H1 H2]%not_elem_of_cons. rewrite bool_decide_eq_false_2 by done. by apply IH.
Qed.

Lemma upsert_spec existing entries rows fresh cleared : NoDup (map (key_of m) entries) →
  ∃ c, upsert m dev now existing entries rows fresh cleared =
       (map (refreshed existing entries) rows, fresh ++ List.filter (fun e => negb (bool_decide (key_of m e ∈ existing))) entries, c).
Proof.
  revert rows fresh cleared. induction entries as [|e entries IH]; intros rows fresh cleared Hn; cbn [upsert].
  { exists cleared. cbn. rewrite app_nil_r. f_equal. f_equal. symmetry. etransitivity; [|apply map_id]. apply map_ext. intros row. unfold refreshed. by destruct (_ && _). }
  cbn [map] in Hn. apply NoDup_cons in Hn as [He Hn]. cbn [List.filter]. destruct (decide (key_of m e ∈ existing)) as [Hin|Hin].
  - rewrite bool_decide_eq_true_2 by done. cbn [negb]. edestruct IH as [c ->]; [done|]. exists c. f_equal. f_equal. rewrite map_map. apply map_ext. intros row.
    unfold is_row. destruct (of_device dev row) eqn:Ed; cbn [andb].
    + destruct (decide (key_of m row = key_of m e)) as [Ek|Ek].
      * rewrite (bool_decide_eq_true_2 (key_of m row = _)) by done. unfold refreshed. rewrite dev_assign, key_assign, Ed, Ek. cbn [List.find].
        rewrite (bool_decide_eq_true_2 (key_of m e = key_of m e)), find_none by done. by rewrite bool_decide_eq_true_2.
      * rewrite (bool_decide_eq_false_2 (key_of m row = _)) by done. unfold refreshed. rewrite Ed. cbn [List.find].
        by rewrite (bool_decide_eq_false_2 (key_of m e = _)) by congruence.
    + unfold refreshed. by rewrite Ed.
  - rewrite bool_decide_eq_false_2 by done. cbn [negb]. edestruct IH as [c ->]; [done|]. exists c. rewrite <-app_assoc. cbn [app]. f_equal. f_equal.
    apply map_ext. intros row. unfold refreshed. destruct (of_device dev row); [|done]. cbn [andb]. destruct (decide (key_of m row ∈ existing)) as [Hr|Hr].
    + rewrite bool_decide_eq_true_2 by done. cbn [List.find]. rewrite bool_decide_eq_false_2 by congruence. done.
    + by rewrite bool_decide_eq_false_2.
Qed.

Lemma key_refreshed existing entries row : key_of m (refreshed existing entries row) = key_of m row.
Proof. unfold refreshed. destruct (_ && _); [|done]. destruct (List.find _ _); [apply key_assign|done]. Qed.
Lemma dev_refreshed existing entries row : of_device dev (refreshed existing entries row) = of_device dev row.
Proof. unfold refreshed. destruct (_ && _) eqn:E; [|done]. destruct (List.find _ _); [|done]. apply dev_assign. Qed.

Lemma insert_rows_spec entries id row : row ∈ insert_rows m dev now id entries → ∃ n e, e ∈ entries ∧ row = new_row m dev now n e.
Proof.
  revert id. induction entries as [|e entries IH]; intros id; cbn [insert_rows]; [intros H; by apply elem_of_nil in H|].
  intros [->|H]%elem_of_cons; [exists id, e; split; [left|done]|]. destruct (IH _ H) as (n & e' & Hin & ->). exists n, e'. split; [by right|done].
Qed.
Lemma insert_rows_keys entries id : map (key_of m) (insert_rows m dev now id entries) = map (key_of m) entries.
Proof. revert id. induction entries as [|e entries IH]; intros id; [done|]. cbn [insert_rows map]. by rewrite new_row_key, IH. Qed.
Lemma insert_rows_dev entries id : device_rows dev (insert_rows m dev now id entries) = insert_rows m dev now id entries.
Proof. revert id. unfold device_rows. induction entries as [|e entries IH]; intros id; [done|]. cbn [insert_rows List.filter]. by rewrite new_row_dev, IH. Qed.
End Rows.

Lemma filter_map_dev {A} (f : A -> A) (p : A -> bool) l : (∀ x, p (f x) = p x) → List.filter p (map f l) = map f (List.filter p l).
Proof. intros H. induction l as [|x l IH]; [done|]. cbn [map List.filter]. rewrite H, IH. by destruct (p x). Qed.
Lemma elem_of_filter_bool {A} (p : A -> bool) (l : list A) x : x ∈ List.filter p l ↔ x ∈ l ∧ p x = true.
Proof. rewrite !list_elem_of_In. apply filter_In. Qed.
Lemma NoDup_filter_map {A B} (f : A -> B) (p : A -> bool) l : NoDup (map f l) → NoDup (map f (List.filter p l)).
Proof.
  induction l as [|x l IH]; [done|]. cbn [map List.filter]. intros [Hx Hl]%NoDup_cons. destruct (p x); [|by apply IH]. cbn [map]. constructor; [|by apply IH].
  intros (y & E & [Hy _]%elem_of_filter_bool)%list_elem_of_fmap. apply Hx. apply list_elem_of_fmap. eauto.
Qed.
Lemma NoDup_map_inj {A B} (f : A -> B) l x y : NoDup (map f l) → x ∈ l → y ∈ l → f x = f y → x = y.
Proof.
  induction l as [|z l IH]; [intros _ H; by apply elem_of_nil in H|]. cbn [map]. intros [Hz Hl]%NoDup_cons [->|Hx]%elem_of_cons [->|Hy]%elem_of_cons E; [done| | |by apply IH].
  - destruct Hz. apply list_elem_of_fmap. eauto.
  - destruct Hz. apply list_elem_of_fmap. eauto.
Qed.

(** The device's rows that survive the delete step. *)
Definition kept_rows (m : MirrorSpec) (dev : Z) (entries rows : list pydict) : list pydict :=
  List.filter (fun row => bool_decide (key_of m row ∈ map (key_of m) entries)) (device_rows dev rows).

Section Replaced.
Context (m : MirrorSpec) (dev now : Z) (Hm : mirror_ok m = true) (entries rows : list pydict) (next : Z).
Context (Hrows : NoDup (map (key_of m) (device_rows dev rows))) (Hentries : NoDup (map (key_of m) entries)).
Notation existing := (map (key_of m) (device_rows dev rows)).
Notation fresh := (List.filter (fun e => negb (bool_decide (key_of m e ∈ existing))) entries).

(** What the handler computes. *)
Lemma mirror_rows_spec : ∃ out rest, mirror_rows m dev now entries rows next = Ok out ∧
  mi_rows out = map (refreshed m dev now existing entries) rest ++ insert_rows m dev now next fresh ∧
  device_rows dev rest = kept_rows m dev entries rows ∧
  List.filter (fun row => negb (of_device dev row)) rest = List.filter (fun row => negb (of_device dev row)) rows.
Proof.
  unfold mirror_rows. cbv zeta. fold (device_rows dev rows). set (removed := List.filter _ existing).
  set (rest := List.filter _ rows). destruct (upsert_spec m dev now Hm existing entries rest [] false Hentries) as [c ->]. cbn [app].
  rewrite bool_decide_eq_true_2 by by apply NoDup_filter_map. eexists _, rest. split; [done|]. split; [done|].
  assert (∀ row, row ∈ rows → of_device dev row = true →
    negb (bool_decide (key_of m row ∈ removed)) = bool_decide (key_of m row ∈ map (key_of m) entries)) as Hk.
  { intros row Hin Hd. unfold removed. destruct (decide (key_of m row ∈ map (key_of m) entries)) as [Hb|Hb].
    - rewrite (bool_decide_eq_true_2 (_ ∈ map _ entries)) by done. rewrite bool_decide_eq_false_2; [done|].
      intros [_ H]%elem_of_filter_bool. by rewrite bool_decide_eq_true_2 in H.
    - rewrite (bool_decide_eq_false_2 (_ ∈ map _ entries)) by done. rewrite bool_decide_eq_true_2; [done|]. apply elem_of_filter_bool. split.
      + apply list_elem_of_fmap. exists row. split; [done|]. by apply elem_of_filter_bool.
      + by rewrite bool_decide_eq_false_2. }
  split.
  - unfold rest, kept_rows, device_rows. clear rest. clearbody removed. clear -Hk. induction rows as [|r l IH]; [done|]. cbn [List.filter]. assert (∀ row, row ∈ l → of_device dev row = true →
      negb (bool_decide (key_of m row ∈ removed)) = bool_decide (key_of m row ∈ map (key_of m) entries)) as Hk' by (intros; apply Hk; [by right|done]).
    specialize (IH Hk'). destruct (of_device dev r) eqn:Ed; cbn [andb negb List.filter]; [|by rewrite Ed].
    rewrite (Hk r) by (left || done). destruct (bool_decide _); cbn [List.filter]; [by rewrite Ed, IH|done].
  - unfold rest. clear rest. clearbody removed. clear. induction rows as [|r l IH]; [done|]. cbn [List.filter]. destruct (of_device dev r) eqn:Ed; cbn [andb negb].
    + destruct (negb _); cbn [List.filter]; [by rewrite Ed|done].
    + cbn [List.filter]. rewrite Ed. cbn [negb]. by rewrite IH.
Qed.

(** The rows of the device afterwards: the kept ones updated, then the new ones. *)
Lemma mirror_device_rows out rest :
  mi_rows out = map (refreshed m dev now existing entries) rest ++ insert_rows m dev now next fresh →
  device_rows dev rest = kept_rows m dev entries rows →
  device_rows dev (mi_rows out) = map (refreshed m dev now existing entries) (kept_rows m dev entries rows) ++ insert_rows m dev now next fresh.
Proof.
  intros E1 E2. unfold device_rows. rewrite E1, List.filter_app. fold (device_rows dev (insert_rows m dev now next fresh)). rewrite insert_rows_dev by done.
  rewrite filter_map_dev by (intros; by apply dev_refreshed). fold (device_rows dev rest). by rewrite E2.
Qed.

Lemma kept_key row : row ∈ kept_rows m dev entries rows → of_device dev row = true ∧ key_of m row ∈ existing ∧
  ∃ e, e ∈ entries ∧ key_of m e = key_of m row ∧ refreshed m dev now existing entries row = assign m now e row.
Proof.
  unfold kept_rows. intros [Hr Hb]%elem_of_filter_bool. pose proof Hr as [_ Hd]%elem_of_filter_bool. apply bool_decide_eq_true in Hb.
  assert (key_of m row ∈ existing) as He by (apply list_elem_of_fmap; eauto). split_and!; [done|done|].
  unfold refreshed. rewrite Hd, bool_decide_eq_true_2 by done. cbn [andb]. destruct (List.find _ entries) as [e|] eqn:Ef.
  - apply find_some in Ef as [Hin%list_elem_of_In Hk%bool_decide_eq_true]. eauto.
  - apply list_elem_of_fmap in Hb as (e & Ek & Hin). apply list_elem_of_In in Hin. apply (List.find_none _ _ Ef) in Hin. by rewrite bool_decide_eq_true_2 in Hin.
Qed.
End Replaced.

Lemma mirror_in_ok m : m ∈ mirrors → mirror_ok m = true.
Proof. intros H. pose proof mirrors_ok as G. rewrite forallb_forall in G. apply G. by apply list_elem_of_In. Qed.

(** C26: A full-replace endpoint leaves the device's rows as its body.  For each of the five endpoints, a body without repeated keys is
    always accepted; afterwards the device has exactly one row per entry, holding that entry's columns; a row whose key was there
    before keeps its primary key; and no row of another device is touched. *)
Theorem mirror_rows_are_the_body m dev now entries rows next : m ∈ mirrors →
  NoDup (map (key_of m) (device_rows dev rows)) → NoDup (map (key_of m) entries) →
  ∃ out, mirror_rows m dev now entries rows next = Ok out ∧
    map (key_of m) (device_rows dev (mi_rows out)) ≡ₚ map (key_of m) entries ∧
    (∀ row e, row ∈ device_rows dev (mi_rows out) → e ∈ entries → key_of m row = key_of m e →
       ∀ c, c ∈ ms_columns m → get row (col_name c) = column_value e c) ∧
    (∀ old, old ∈ device_rows dev rows → key_of m old ∈ map (key_of m) entries →
       ∃ row, row ∈ device_rows dev (mi_rows out) ∧ key_of m row = key_of m old ∧ get row "id" = get old "id") ∧
    List.filter (fun row => negb (of_device dev row)) (mi_rows out) = List.filter (fun row => negb (of_device dev row)) rows.
Proof.
  intros Hm%mirror_in_ok Hr He. destruct (mirror_rows_spec m dev now Hm entries rows next He) as (out & rest & E & Eo & Ek & Ef).
  exists out. split; [done|]. pose proof (mirror_device_rows m dev now Hm entries rows next out rest Eo Ek) as Ed. rewrite Ed.
  pose proof (kept_key m dev now entries rows) as Hkept. set (fresh := List.filter _ entries) in *. split_and!.
  - apply NoDup_Permutation; [|done|].
    + rewrite map_app, map_map, insert_rows_keys by done. rewrite (map_ext _ (key_of m)) by (intros; by apply key_refreshed).
      apply NoDup_app. split_and!; [by apply NoDup_filter_map| |by apply NoDup_filter_map].
      intros k (r & -> & Hk)%list_elem_of_fmap (e & Ee & [_ Hf]%elem_of_filter_bool)%list_elem_of_fmap. rewrite <-Ee in Hf.
      destruct (Hkept r Hk) as (_ & Hx & _). by rewrite bool_decide_eq_true_2 in Hf.
    + intros k. rewrite map_app, map_map, insert_rows_keys, elem_of_app by done. rewrite (map_ext _ (key_of m)) by (intros; by apply key_refreshed).
      rewrite !list_elem_of_fmap. split.
      * intros [(r & -> & Hk)|(e & -> & [Hin _]%elem_of_filter_bool)]; [|eauto]. destruct (Hkept r Hk) as (_ & _ & e & Hin & Eq & _). eauto.
      * intros (e & -> & Hin). destruct (decide (key_of m e ∈ map (key_of m) (device_rows dev rows))) as [(r & Er & Hrow)%list_elem_of_fmap|Hn].
        -- left. exists r. split; [done|]. apply elem_of_filter_bool. split; [done|]. apply bool_decide_eq_true. rewrite <-Er. by apply list_elem_of_fmap_2.
        -- right. exists e. split; [done|]. apply elem_of_filter_bool. split; [done|]. by rewrite bool_decide_eq_false_2.
  - intros row e [(r & -> & Hk)%list_elem_of_fmap|(n & e' & [Hin _]%elem_of_filter_bool & ->)%insert_rows_spec]%elem_of_app Hine Eq c Hc.
    + destruct (Hkept r Hk) as (_ & _ & e' & Hin' & Eq' & Ea). rewrite Ea in Eq |- *. rewrite key_assign in Eq by done.
      rewrite (NoDup_map_inj (key_of m) entries e e') by (done || congruence). by apply get_assign.
    + rewrite new_row_key in Eq by done. rewrite (NoDup_map_inj (key_of m) entries e e') by (done || congruence). unfold new_row. by apply get_assign.
  - intros old Hold Hkey. assert (old ∈ kept_rows m dev entries rows) as Hk by (apply elem_of_filter_bool; split; [done|by apply bool_decide_eq_true]).
    destruct (Hkept old Hk) as (_ & _ & e & _ & _ & Ea). exists (refreshed m dev now (map (key_of m) (device_rows dev rows)) entries old).
    split_and!; [apply elem_of_app; left; apply list_elem_of_fmap; eauto|by apply key_refreshed|]. rewrite Ea. apply get_assign_other; [done|]. rewrite elem_of_app, !elem_of_cons. tauto.
  - rewrite Eo, List.filter_app, filter_map_dev by (intros; by rewrite dev_refreshed). rewrite <-Ef.
    assert (List.filter (fun row => negb (of_device dev row)) (insert_rows m dev now next fresh) = []) as ->.
    { clearbody fresh. clear -Hm. generalize next. induction fresh as [|e l IH]; intros n; [done|]. cbn [insert_rows List.filter]. rewrite new_row_dev by done. cbn [negb]. apply IH. }
    rewrite app_nil_r. etransitivity; [|apply map_id]. apply map_ext_in. intros r [_ Hd]%filter_In. unfold refreshed. apply negb_true_iff in Hd. by rewrite Hd.
Qed.
