(* ===== verification/PushScenario.v ===== *)
(** * Concrete pushes

    A device with two VLAN interfaces: a push that names one of them and a new one, its redelivery, and a push that clears a
    routing instance.  The witnesses of the push, removal and endpoint theorems evaluate it. *)

From stdpp Require Import base gmap list.
From Stdlib Require Import ZArith NArith Lia.
From S2P Require Import Prelude Json Registry Document Asn Identity Store Generation Admission Scenario Receipt ReceiptProps Removal RemovalProps Mirror MirrorProps.
Local Open Scope py_scope.
Local Open Scope Z_scope.

Definition sample_proof (live : tables) (device_id : Z) (stream : pystr) (t : tables) (context : pydict) : res pydict := Ok [].

Definition svi_row (id device : Z) (name : pystr) (vlan : Z) (vrf : json) : pydict :=
  [("id", JInt id); ("device_id", JInt device); ("interface_name", JStr name); ("vlan_id", JInt vlan); ("svi_type", JStr "svi"); ("vrf", vrf);
   ("accepted_at", JStr "0"); ("last_apply_at", JNull); ("last_apply_error", JNull)].
Definition svi_entry (name : pystr) (vlan : Z) (vrf : pystr) : pydict :=
  [("interface_name", JStr name); ("vlan_id", JInt vlan); ("type", JStr "svi"); ("vrf", JStr vrf); ("accepted_at", JNull)].

Definition svi_rows : list pydict :=
  [svi_row 1 7 "Vlan10" 10 (JStr "blue"); svi_row 2 7 "Vlan20" 20 JNull; svi_row 3 8 "Vlan10" 10 JNull].
Definition svi_body : list pydict := [svi_entry "Vlan10" 10 "blue"; svi_entry "Vlan30" 30 ""].

Definition auto_applied : Db :=
  mkDb (devices onboarded) (<[7 := true]> (auto_apply onboarded)) (generation_counter onboarded) (settle_counter onboarded) (streams onboarded)
    (generations onboarded) (jobs onboarded) (claims onboarded) (tombstones onboarded) (next_generation_id onboarded) (next_job_id onboarded)
    (cohort_sequence onboarded) (clock onboarded) (last_enqueued onboarded).
Definition push_start : PushDb :=
  mkPush auto_applied [("devices", [[("id", JInt 7); ("ned_id", JStr "cisco-ios-cli-6.95")]]); ("svi_intent", svi_rows)] ∅ ∅ 1 4.

Definition push (seq : Z) (digest : pystr) : IntentDelivery := mkDelivery "svi" (mkIdentity seq digest false false false).
Definition svi_work : Z -> IntentDelivery -> txn PushDb pydict := mirror_work sample_proof sample_prune sample_operation svi_mirror svi_body.

#[global] Instance svi_intent_work : IntentWork svi_work.
Proof. apply mirror_intent_work; done. Qed.

Definition first_push : outcome * PushDb := deliver svi_work 7 (push 1 "a") push_start.
Definition second_push : outcome * PushDb := deliver svi_work 7 (push 1 "a") first_push.2.
Definition third_push : outcome * PushDb := deliver svi_work 7 (push 2 "b") second_push.2.

Definition svi_response (removed : Z) (replaced : bool) : pydict :=
  [("device_id", JInt 7); ("count", JInt 2); ("removed", JInt removed); ("replaced", JBool replaced)].

Lemma push_outcomes :
  first_push.1 = Performed (svi_response 1 true) 200 ∧ second_push.1 = Replayed (svi_response 1 true) 200 ∧
  third_push.1 = Performed (svi_response 0 false) 200 ∧
  (deliver svi_work 7 (push 1 "z") first_push.2).1 = Refused (PushSequenceConflict "sequence_reuse" 1 1) ∧
  (deliver svi_work 7 (push 1 "a") third_push.2).1 = Refused (PushSequenceConflict "stale" 1 2).
Proof. split_and!; vm_compute; reflexivity. Qed.

Lemma start_recorded : recorded push_start.
Proof. intros k r H. cbn in H. by rewrite lookup_empty in H. Qed.

Lemma deliver_refines_ledger_witness :
  recorded first_push.2 ∧
  ledger_step (ledger_of push_start) (7, "svi") (d_identity (push 1 "a")) (Performed (svi_response 1 true) 200) (ledger_of first_push.2).
Proof.
  rewrite <-(proj1 push_outcomes).
  apply (deliver_refines_ledger svi_work 7 (push 1 "a") push_start first_push.1 first_push.2 start_recorded). apply surjective_pairing.
Defined.

Lemma three_pushes : push_run svi_work push_start [(7, "svi", 1); (7, "svi", 2)] third_push.2.
Proof.
  pose proof push_outcomes as (H1 & H2 & H3 & _).
  pose proof (step_delivery svi_work push_start 7 (push 1 "a") first_push.1 first_push.2 (surjective_pairing _)) as S1.
  pose proof (step_delivery svi_work first_push.2 7 (push 1 "a") second_push.1 second_push.2 (surjective_pairing _)) as S2.
  pose proof (step_delivery svi_work second_push.2 7 (push 2 "b") third_push.1 third_push.2 (surjective_pairing _)) as S3.
  rewrite H1 in S1. rewrite H2 in S2. rewrite H3 in S3.
  exact (run_then _ _ _ _ _ _ S1 (run_then _ _ _ _ _ _ S2 (run_then _ _ _ _ _ _ S3 (run_empty _ _)))).
Qed.

Lemma push_performed_at_most_once_witness : NoDup [(7, "svi", 1); (7, "svi", 2)].
Proof. apply (push_performed_at_most_once svi_work push_start _ third_push.2 start_recorded three_pushes). Defined.

(** ** A cleared routing instance *)

Definition clear_vrf (store_only : bool) : txn PushDb bool :=
  replace_on_removal (freeze_live sample_proof) sample_prune sample_operation store_only false 7 [] "SviIntent" "svi" true None.
Definition after_clear (store_only : bool) : bool * PushDb :=
  match clear_vrf store_only first_push.2 with Ok r => r | Raise _ => (false, push_start) end.
Lemma clear_runs store_only :
  replace_on_removal (freeze_live sample_proof) sample_prune sample_operation store_only false 7 [] "SviIntent" "svi" true None first_push.2 =
  Ok ((after_clear store_only).1, (after_clear store_only).2).
Proof.
  change (clear_vrf store_only first_push.2 = Ok ((after_clear store_only).1, (after_clear store_only).2)). rewrite <-surjective_pairing.
  assert (is_ok (clear_vrf store_only first_push.2) = true) as H by (destruct store_only; vm_compute; reflexivity).
  unfold after_clear. destruct (clear_vrf store_only first_push.2); done.
Qed.
Lemma svi_section : dict_get section_by_model "SviIntent" = Some "svi".
Proof. vm_compute. reflexivity. Qed.
Lemma svi_protocol : mem "svi" OUT_OF_PROTOCOL_STREAMS = false.
Proof. vm_compute. reflexivity. Qed.


(** ** The rows *)

Lemma mirror_rows_are_the_body_witness : ∃ out, mirror_rows svi_mirror 7 5 svi_body svi_rows 4 = Ok out ∧
  map (key_of svi_mirror) (device_rows 7 (mi_rows out)) ≡ₚ [JStr "Vlan10"; JStr "Vlan30"] ∧ mi_removed out = [JStr "Vlan20"].
Proof.
  destruct (mirror_rows_are_the_body svi_mirror 7 5 svi_body svi_rows 4) as (out & E & H & _);
    [left|apply (bool_decide_unpack _); vm_compute; exact I|apply (bool_decide_unpack _); vm_compute; exact I|].
  exists out. split; [exact E|]. split; [exact H|]. vm_compute in E. injection E as <-. reflexivity.
Defined.

(** A key repeated in the body: on a new key the insert violates the table's unique constraint, on an existing one the last entry wins. *)
Lemma repeated_key_depends_on_store :
  mirror_rows svi_mirror 7 5 [svi_entry "Vlan30" 30 ""; svi_entry "Vlan30" 31 ""] svi_rows 4 = Raise IntegrityError ∧
  is_ok (mirror_rows svi_mirror 7 5 [svi_entry "Vlan10" 30 ""; svi_entry "Vlan10" 31 ""] svi_rows 4) = true.
Proof. split; vm_compute; reflexivity. Qed.
