(* ===== verification/Plan.v ===== *)
(** * Planning an Apply

    src/nso_adapter/core/generation.py: what a selected stream's promotion removes, replaces and adds ([_fragment_deletions],
    [_content_losing_rows], [_has_positive_delta]), and the links of the chain it needs ([_plan_action_links]): networked and
    detaching removals, the apply companion, and the streams that settle without a deployment. *)

From stdpp Require Import base gmap list.
From Stdlib Require Import ZArith NArith Lia.
From S2P Require Import Prelude Json Registry Document Asn Identity Store Generation Receipt Removal.

Local Open Scope py_scope.
Local Open Scope Z_scope.

(** ** Deletions *)

(** [_explicit_deletion_markings] *)
Fixpoint markings_of (records : list json) (acc : list (deletion_identity * pystr)) : res (list (deletion_identity * pystr)) :=
  match records with
  | [] => Ok acc
  | record :: records =>
      match promotion_deletion_identity record, record with
      | Some i, JObj d =>
          match get d "marking" with
          | JStr marking => if deletion_hashable i then markings_of records (assoc_set deletion_eqb acc i marking) else Raise unhashable
          | _ => markings_of records acc
          end
      | _, _ => markings_of records acc
      end
  end.
Definition explicit_deletion_markings (receipt : IntentPushReceipt) : res (list (deletion_identity * pystr)) :=
  records ← records_of (default [] (r_response receipt)); markings_of records [].

(** The route ids the desired rows of a table carry; only static routes are correlated by one. *)
Definition successor_route_ids (table : pystr) (desired : list (identity * pydict)) : list json :=
  if bool_decide (table = "static_route_intent")
  then List.filter (fun v => match v with JNull => false | _ => true end) (map (fun ir => get ir.2 "route_id") desired) else [].

(** The marking a removed row was recorded with: by key, else by route id, else by row id, else the receipt's own. *)
Definition marking_for (explicit : list (deletion_identity * pystr)) (table dflt : pystr) (row : pydict) : pystr :=
  let find k := assoc_get deletion_eqb explicit (table, k) in
  let m := if is_integer (get row "id") then default dflt (find (DelId (get row "id"))) else dflt in
  let m := if is_integer (get row "route_id") then default m (find (DelRoute (get row "route_id"))) else m in
  default m (find (DelKey (route_key row))).

Definition add_row (t : tables) (table : pystr) (row : pydict) : tables := dict_set t table (default [] (dict_get t table) ++ [row]).

(** One table of [_fragment_deletions]. *)
Fixpoint split_deletions (explicit : list (deletion_identity * pystr)) (table dflt : pystr) (moved : list json) (desired rows : list (identity * pydict))
    (networked detached : tables) : res (tables * tables) :=
  match rows with
  | [] => Ok (networked, detached)
  | (i, row) :: rows =>
      gone ← is_intent_deletion table i desired;
      if (gone : bool) then
        if forallb scalar (route_key row) && scalar (get row "route_id") then
          if existsb (py_eq (get row "route_id")) moved then split_deletions explicit table dflt moved desired rows networked detached
          else if bool_decide (marking_for explicit table dflt row = DELETE_ORIGIN_MARKING)
               then split_deletions explicit table dflt moved desired rows (add_row networked table row) detached
               else split_deletions explicit table dflt moved desired rows networked (add_row detached table row)
        else Raise unhashable
      else split_deletions explicit table dflt moved desired rows networked detached
  end.
Fixpoint deletions_loop (explicit : list (deletion_identity * pystr)) (dflt : pystr) (names : list pystr) (old desired networked detached : tables) : res (tables * tables) :=
  match names with
  | [] => Ok (networked, detached)
  | table :: names =>
      desired_rows ← rows_by_intent_identity desired table;
      rows ← rows_by_intent_identity old table;
      nd ← split_deletions explicit table dflt (successor_route_ids table desired_rows) desired_rows rows networked detached;
      deletions_loop explicit dflt names old desired nd.1 nd.2
  end.

(** [_fragment_deletions] *)
Definition fragment_deletions (old desired : tables) (receipt : IntentPushReceipt) : res (tables * tables) :=
  explicit ← explicit_deletion_markings receipt;
  deletions_loop explicit (marking_of (p_delete_origin (r_identity receipt))) (sorted_strs (dict_keys old)) old desired [] [].

(** ** Replacements and additions *)

(** [_content_losing_rows], one table *)
Fixpoint losing_rows (table : pystr) (desired rows : list (identity * pydict)) (acc : tables) : res tables :=
  match rows with
  | [] => Ok acc
  | (i, row) :: rows =>
      match index_get desired i with
      | None => losing_rows table desired rows acc
      | Some after =>
          before_state ← projection_row_state table row;
          after_state ← projection_row_state table after;
          losing_rows table desired rows (if lost_content (JObj before_state) (JObj after_state) then add_row acc table row else acc)
      end
  end.
Fixpoint losing_loop (names : list pystr) (old desired acc : tables) : res tables :=
  match names with
  | [] => Ok acc
  | table :: names =>
      desired_rows ← rows_by_intent_identity desired table;
      rows ← rows_by_intent_identity old table;
      acc ← losing_rows table desired_rows rows acc;
      losing_loop names old desired acc
  end.
Definition content_losing_rows (old desired : tables) : res tables := losing_loop (sorted_strs (dict_keys old)) old desired [].

(** [_has_positive_content] *)
Fixpoint has_positive_content (before after : json) : bool :=
  match after with
  | JObj a =>
      (fix members a := match a with
                        | [] => false
                        | (k, v) :: a => has_positive_content (match before with JObj b => get b k | _ => JNull end) v || members a
                        end) a
  | JArr a =>
      let old := match before with JArr b => map (dumps spaced_sorted) b | _ => [] end in
      existsb (fun v => negb (mem (dumps spaced_sorted v) old)) a
  | JNull => false
  | JStr s => negb (bool_decide (s = "")) && negb (py_eq before after)
  | _ => negb (py_eq before after)
  end.

(** [_has_positive_delta], one table *)
Fixpoint positive_rows (table : pystr) (previous rows : list (identity * pydict)) : res bool :=
  match rows with
  | [] => Ok false
  | (i, row) :: rows =>
      match index_get previous i with
      | None => Ok true
      | Some before =>
          before_state ← projection_row_state table before;
          after_state ← projection_row_state table row;
          if has_positive_content (JObj before_state) (JObj after_state) then Ok true else positive_rows table previous rows
      end
  end.
Fixpoint positive_loop (names : list pystr) (old desired : tables) : res bool :=
  match names with
  | [] => Ok false
  | table :: names =>
      previous ← rows_by_intent_identity old table;
      rows ← rows_by_intent_identity desired table;
      positive ← positive_rows table previous rows;
      if (positive : bool) then Ok true else positive_loop names old desired
  end.
Definition has_positive_delta (old desired : tables) : res bool :=
  positive_loop (sorted_strs (remove_dups (dict_keys old ++ dict_keys desired))) old desired.

(** ** Prepared snapshots *)

(** [_prepared_deletions]: each group is a table of rows *)
Definition group_tables (groups : pydict) (name : pystr) : res tables :=
  group ← or_empty (dict_get groups name); map_res (fun kv => rows ← rows_of kv.2; Ok (kv.1, rows)) group.
Definition extend_rows (t : tables) (tr : pystr * list pydict) : tables := dict_set t tr.1 (default [] (dict_get t tr.1) ++ tr.2).
Definition prepared_deletions (groups : option pydict) : res (tables * tables) :=
  let groups := default [] groups in
  delete_origin ← group_tables groups "delete_origin";
  owned_content ← group_tables groups "owned_content";
  detached ← group_tables groups "detach";
  Ok (fold_left extend_rows (stable_sort key_le delete_origin ++ stable_sort key_le owned_content) [], detached).

(** ** The comparable state of a fragment *)

Definition logical_state : Type := list (pystr * list (identity * pydict)).

(** [_logical_table_state] *)
Definition logical_table_state (t : tables) : res logical_state :=
  map_res (fun table =>
    rows ← rows_by_intent_identity t table;
    states ← map_res (fun ir => state ← projection_row_state table ir.2; Ok (ir.1, state)) rows;
    Ok (table, states)) (sorted_strs (dict_keys t)).

Definition index_eqb (a b : list (identity * pydict)) : bool :=
  Nat.eqb (length a) (length b) &&
  forallb (fun ir => match index_get b ir.1 with Some r => py_eq (JObj ir.2) (JObj r) | None => false end) a.
Definition logical_eqb (a b : logical_state) : bool :=
  Nat.eqb (length a) (length b) &&
  forallb (fun tr => match dict_get b tr.1 with Some rows => index_eqb tr.2 rows | None => false end) a.

(** [_tables_unchanged], [_retained_tables_changed] *)
Definition tables_unchanged (old desired : tables) : res bool :=
  before ← logical_table_state old; after ← logical_table_state desired; Ok (logical_eqb before after).
Definition retained_tables_changed (old desired : tables) : res bool :=
  before ← logical_table_state old;
  after ← logical_table_state desired;
  Ok (existsb (fun tr => existsb (fun ir => match dict_get before tr.1 with
                                            | Some rows => match index_get rows ir.1 with Some s => negb (py_eq (JObj s) (JObj ir.2)) | None => false end
                                            | None => false
                                            end) tr.2) after).

(** ** Links *)

(** [_Promotion]: the tables already authorized and those promoted, the delta between them, and the revision of a prepared selection *)
Record Promotion := mkPromotion {
  pm_old : tables; pm_desired : tables; pm_networked : tables; pm_detached : tables; pm_replacement : tables; pm_positive : bool; pm_revision : option Z }.

(** [_RemovalLink] *)
Record RemovalLink := mkLink { ln_stream : pystr; ln_mode : GenerationMode; ln_removed : tables; ln_replacement : tables }.

Definition any_rows (t : tables) : bool := existsb (fun tr => nonempty tr.2) t.

(** [_wire_equivalent_streams] *)
Definition wire_equivalent_streams : list pystr := "static_route" :: OUT_OF_PROTOCOL_STREAMS.

Record plan := mkPlan {
  pl_networked : list RemovalLink; pl_detach : list RemovalLink; pl_apply : list pystr; pl_equivalent : list pystr; pl_unexecutable : list pystr }.

(** One stream of [_plan_action_links]. *)
Definition plan_stream (stream : pystr) (p : Promotion) (pl : plan) : res plan :=
  let has_networked := any_rows (pm_networked p) in
  let has_detach := any_rows (pm_detached p) in
  let has_replacement := any_rows (pm_replacement p) in
  if has_detach && has_replacement && mem stream INTENT_STREAMS then
    Ok (mkPlan (pl_networked pl) (pl_detach pl) (pl_apply pl) (pl_equivalent pl) (pl_unexecutable pl ++ [stream]))
  else
    let networked_links := if has_networked || has_replacement
                           then pl_networked pl ++ [mkLink stream networked (pm_networked p) (pm_replacement p)] else pl_networked pl in
    let detach_links := if has_detach then pl_detach pl ++ [mkLink stream detach (pm_detached p) []] else pl_detach pl in
    let to_apply := Ok (mkPlan networked_links detach_links (pl_apply pl ++ [stream]) (pl_equivalent pl) (pl_unexecutable pl)) in
    let unchanged := Ok (mkPlan networked_links detach_links (pl_apply pl) (pl_equivalent pl) (pl_unexecutable pl)) in
    if negb (has_networked || has_detach || has_replacement) then
      settles ← (if mem stream wire_equivalent_streams && negb (pm_positive p) then
                   match pm_revision p with None => Ok true | Some _ => tables_unchanged (pm_old p) (pm_desired p) end
                 else Ok false);
      if (settles : bool) then Ok (mkPlan networked_links detach_links (pl_apply pl) (pl_equivalent pl ++ [stream]) (pl_unexecutable pl)) else to_apply
    else if pm_positive p then to_apply
    else if has_detach && negb (has_networked || has_replacement) && given (pm_revision p) then
      changed ← retained_tables_changed (pm_old p) (pm_desired p); if (changed : bool) then to_apply else unchanged
    else unchanged.
Fixpoint plan_loop (promotions : list (pystr * Promotion)) (pl : plan) : res plan :=
  match promotions with
  | [] => Ok pl
  | (stream, p) :: promotions => pl ← plan_stream stream p pl; plan_loop promotions pl
  end.

(** [_plan_action_links] *)
Definition plan_action_links (promotions : list (pystr * Promotion)) : res plan :=
  pl ← plan_loop promotions (mkPlan [] [] [] [] []);
  match pl_unexecutable pl with [] => Ok pl | streams => Raise (ApplyUnexecutable streams) end.

(** The promotion of a receipt lane, as [_create_apply_chain] computes it from the authorized and the frozen desired tables. *)
Definition receipt_promotion (old desired : tables) (receipt : IntentPushReceipt) : res Promotion :=
  nd ← fragment_deletions old desired receipt;
  replacement ← content_losing_rows old desired;
  positive ← has_positive_delta old desired;
  Ok (mkPromotion old desired nd.1 nd.2 replacement positive None).
(** The promotion of a prepared snapshot. *)
Definition prepared_promotion (old prepared : tables) (groups : option pydict) (revision : Z) : res Promotion :=
  nd ← prepared_deletions groups;
  replacement ← content_losing_rows old prepared;
  positive ← has_positive_delta old prepared;
  Ok (mkPromotion old prepared nd.1 nd.2 replacement positive (Some revision)).

(** ** What the plan of an Apply covers

    Every removed row is planned exactly once, with the marking it was recorded with; and what an empty plan says about the rows
    of the two fragments. *)

Lemma rows_by_spec t table rows : rows_by_intent_identity t table = Ok rows → ∃ s, spec_or_refuse table = Ok s.
Proof. unfold rows_by_intent_identity. destruct (spec_or_refuse table) as [s|]; [eauto|done]. Qed.

(** ** Deletions *)

Definition gone_row (s : Spec) (desired : list (identity * pydict)) (ir : identity * pydict) : bool := negb (sp_lifecycle s) && negb (index_has desired ir.1).
Definition moved_row (moved : list json) (ir : identity * pydict) : bool := existsb (py_eq (get ir.2 "route_id")) moved.

(** The removed rows of a table that are no key moves, by their marking. *)
Definition marked_rows (explicit : list (deletion_identity * pystr)) (table dflt : pystr) (s : Spec) (desired rows : list (identity * pydict)) (origin : bool) : list pydict :=
  map snd (List.filter (fun ir => gone_row s desired ir && negb (moved_row (successor_route_ids table desired) ir) &&
                                  Bool.eqb (bool_decide (marking_for explicit table dflt ir.2 = DELETE_ORIGIN_MARKING)) origin) rows).

Lemma table_rows_set t table rows other : table_rows (dict_set t table rows) other = if decide (other = table) then rows else table_rows t other.
Proof. unfold table_rows. destruct (decide (other = table)) as [->|]; [by rewrite dict_get_set_eq|by rewrite dict_get_set_ne]. Qed.
Lemma table_rows_add t table row other : table_rows (add_row t table row) other = if decide (other = table) then table_rows t other ++ [row] else table_rows t other.
Proof. unfold add_row. rewrite table_rows_set. destruct (decide (other = table)) as [->|]; done. Qed.

Lemma split_deletions_spec explicit table dflt s desired rows networked detached n d : spec_or_refuse table = Ok s →
  split_deletions explicit table dflt (successor_route_ids table desired) desired rows networked detached = Ok (n, d) →
  (table_rows n table = table_rows networked table ++ marked_rows explicit table dflt s desired rows true ∧
   table_rows d table = table_rows detached table ++ marked_rows explicit table dflt s desired rows false) ∧
  ∀ other, other ≠ table → table_rows n other = table_rows networked other ∧ table_rows d other = table_rows detached other.
Proof.
  intros Hs. revert networked detached. unfold marked_rows. induction rows as [|[i row] rows IH]; intros networked detached; cbn [split_deletions].
  { intros [= <- <-]. cbn. rewrite !app_nil_r. auto. }
  unfold is_intent_deletion. rewrite Hs. unfold_res. cbn [List.filter].
  replace (gone_row s desired (i, row)) with (negb (sp_lifecycle s) && negb (index_has desired i)) by done.
  replace (moved_row (successor_route_ids table desired) (i, row)) with (existsb (py_eq (get row "route_id")) (successor_route_ids table desired)) by done.
  cbn [snd]. destruct (negb (sp_lifecycle s) && negb (index_has desired i)); cbn [andb]; [|apply IH].
  destruct (forallb scalar (route_key row) && scalar (get row "route_id")); [|done].
  destruct (existsb _ (successor_route_ids table desired)); cbn [negb andb]; [apply IH|].
  destruct (bool_decide (marking_for explicit table dflt row = DELETE_ORIGIN_MARKING)); cbn [Bool.eqb map snd]; intros [[-> ->] H]%IH;
    rewrite table_rows_add, decide_True, <-app_assoc by reflexivity; (split; [split; reflexivity|]); intros other Ho; destruct (H other Ho) as [-> ->];
    rewrite table_rows_add, decide_False by exact Ho; split; reflexivity.
Qed.

Lemma deletions_loop_spec explicit dflt names old desired networked detached n d : NoDup names →
  deletions_loop explicit dflt names old desired networked detached = Ok (n, d) →
  (∀ table, table ∈ names → ∃ s rows desired_rows, spec_or_refuse table = Ok s ∧ rows_by_intent_identity old table = Ok rows ∧
     rows_by_intent_identity desired table = Ok desired_rows ∧
     table_rows n table = table_rows networked table ++ marked_rows explicit table dflt s desired_rows rows true ∧
     table_rows d table = table_rows detached table ++ marked_rows explicit table dflt s desired_rows rows false) ∧
  (∀ table, table ∉ names → table_rows n table = table_rows networked table ∧ table_rows d table = table_rows detached table).
Proof.
  revert networked detached. induction names as [|table names IH]; intros networked detached Hn; cbn [deletions_loop].
  { intros [= <- <-]. split; [|done]. intros table H. by apply elem_of_nil in H. }
  apply NoDup_cons in Hn as [Ht Hn]. intros (desired_rows & Hd & H)%bind_Ok. apply bind_Ok in H as (rows & Hr & H).
  apply bind_Ok in H as ([n1 d1] & Hsplit & H). cbn [fst snd] in H. destruct (rows_by_spec _ _ _ Hr) as [s Hs].
  destruct (split_deletions_spec _ _ _ _ _ _ _ _ _ _ Hs Hsplit) as [[E1 E2] Eo]. destruct (IH _ _ Hn H) as [I1 I2]. split.
  - intros other [->|Hin]%elem_of_cons.
    + exists s, rows, desired_rows. destruct (I2 table Ht) as [-> ->]. auto.
    + destruct (I1 other Hin) as (s' & r' & dr' & ? & ? & ? & -> & ->). exists s', r', dr'. destruct (Eo other) as [-> ->]; [congruence|]. auto.
  - intros other [Hne Hin]%not_elem_of_cons. destruct (I2 other Hin) as [-> ->]. by apply Eo.
Qed.

Lemma NoDup_sorted (l : list pystr) : NoDup l → NoDup (sorted_strs l).
Proof. intros H. unfold sorted_strs. by rewrite stable_sort_perm. Qed.

(** Every removed row is planned exactly once, under its own marking.  For each table of the authorized fragment, the networked
    group holds the rows the desired fragment no longer has whose recorded marking is a deletion at the origin, the detach group
    the other ones, in order and nothing else; only a route whose route id lives on in a desired row is in neither group.  Lifecycle
    carriers are never planned, and no other table appears. *)
Theorem deletions_split_exactly old desired receipt networked detached : NoDup (dict_keys old) →
  fragment_deletions old desired receipt = Ok (networked, detached) →
  ∃ explicit, explicit_deletion_markings receipt = Ok explicit ∧
  let dflt := marking_of (p_delete_origin (r_identity receipt)) in
  (∀ table, table ∈ dict_keys old → ∃ s rows desired_rows,
     spec_or_refuse table = Ok s ∧ rows_by_intent_identity old table = Ok rows ∧ rows_by_intent_identity desired table = Ok desired_rows ∧
     table_rows networked table = marked_rows explicit table dflt s desired_rows rows true ∧
     table_rows detached table = marked_rows explicit table dflt s desired_rows rows false) ∧
  (∀ table, table ∉ dict_keys old → table_rows networked table = [] ∧ table_rows detached table = []).
Proof.
  intros Hn H. unfold fragment_deletions in H. apply bind_Ok in H as (explicit & Hx & H). exists explicit. split; [done|]. cbv zeta.
  destruct (deletions_loop_spec _ _ _ _ _ _ _ _ _ (NoDup_sorted _ Hn) H) as [H1 H2]. unfold sorted_strs in H1, H2. split.
  - intros table Ht. apply H1. by rewrite elem_of_stable_sort.
  - intros table Ht. apply H2. by rewrite elem_of_stable_sort.
Qed.

(** ** Streams that settle without a deployment *)

Lemma any_rows_false t table : any_rows t = false → table_rows t table = [].
Proof.
  unfold any_rows, table_rows. induction t as [|[k rows] t IH]; [done|]. cbn [existsb dict_get snd]. intros [H1 H2]%orb_false_iff.
  destruct (decide (table = k)); [|by apply IH]. by destruct rows.
Qed.

Lemma add_row_nonempty t table row : any_rows (add_row t table row) = true.
Proof.
  destruct (any_rows (add_row t table row)) eqn:H; [done|]. apply (any_rows_false _ table) in H. rewrite table_rows_add, decide_True in H by done.
  by destruct (table_rows t table).
Qed.

Lemma add_row_keeps t table row : any_rows t = true → any_rows (add_row t table row) = true.
Proof. intros _. apply add_row_nonempty. Qed.

(** Rows of both fragments that lose nothing. *)
Definition keeps_content (table : pystr) (desired : list (identity * pydict)) (ir : identity * pydict) : Prop :=
  ∀ after, index_get desired ir.1 = Some after → ∃ b a, projection_row_state table ir.2 = Ok b ∧ projection_row_state table after = Ok a ∧
    lost_content (JObj b) (JObj a) = false.

Lemma losing_rows_nonempty table desired rows acc out : losing_rows table desired rows acc = Ok out → any_rows acc = true → any_rows out = true.
Proof.
  revert acc. induction rows as [|[i row] rows IH]; intros acc; cbn [losing_rows]; [by intros [= ->]|].
  destruct (index_get desired i); [|apply IH]. intros (b & _ & H)%bind_Ok Ha. apply bind_Ok in H as (a & _ & H). eapply IH; [exact H|].
  destruct (lost_content _ _); [by apply add_row_nonempty|done].
Qed.
Lemma losing_rows_none table desired rows acc out : losing_rows table desired rows acc = Ok out → any_rows out = false →
  any_rows acc = false ∧ Forall (keeps_content table desired) rows.
Proof.
  revert acc. induction rows as [|[i row] rows IH]; intros acc; cbn [losing_rows]; [by intros [= ->]|]. intros H Ho.
  destruct (index_get desired i) as [after|] eqn:Hi.
  - apply bind_Ok in H as (b & Hb & H). apply bind_Ok in H as (a & Ha & H). destruct (IH _ H Ho) as [Hacc Hf].
    destruct (lost_content (JObj b) (JObj a)) eqn:Hl; [by rewrite add_row_nonempty in Hacc|]. split; [done|]. constructor; [|done].
    intros x. cbn [fst snd]. rewrite Hi. intros [= <-]. eauto.
  - destruct (IH _ H Ho) as [Hacc Hf]. split; [done|]. constructor; [|done]. intros x. cbn [fst snd]. by rewrite Hi.
Qed.
Lemma losing_loop_none names old desired acc out : losing_loop names old desired acc = Ok out → any_rows out = false →
  any_rows acc = false ∧ ∀ table, table ∈ names → ∃ rows desired_rows, rows_by_intent_identity old table = Ok rows ∧
    rows_by_intent_identity desired table = Ok desired_rows ∧ Forall (keeps_content table desired_rows) rows.
Proof.
  revert acc. induction names as [|t names IH]; intros acc; cbn [losing_loop].
  { intros [= ->] H. split; [done|]. intros table Ht. by apply elem_of_nil in Ht. }
  intros (desired_rows & Hd & H)%bind_Ok Ho. apply bind_Ok in H as (rows & Hr & H). apply bind_Ok in H as (acc' & Hl & H).
  destruct (IH _ H Ho) as [Hacc Hall]. destruct (losing_rows_none _ _ _ _ _ Hl Hacc) as [? Hf]. split; [done|].
  intros table [->|Ht]%elem_of_cons; [eauto|by apply Hall].
Qed.

(** A desired row that was there and adds nothing. *)
Definition adds_nothing (table : pystr) (previous : list (identity * pydict)) (ir : identity * pydict) : Prop :=
  ∃ before b a, index_get previous ir.1 = Some before ∧ projection_row_state table before = Ok b ∧ projection_row_state table ir.2 = Ok a ∧
    has_positive_content (JObj b) (JObj a) = false.

Lemma positive_rows_none table previous rows : positive_rows table previous rows = Ok false → Forall (adds_nothing table previous) rows.
Proof.
  induction rows as [|[i row] rows IH]; cbn [positive_rows]; [done|]. destruct (index_get previous i) as [before|] eqn:Hi; [|done].
  intros (b & Hb & H)%bind_Ok. apply bind_Ok in H as (a & Ha & H). destruct (has_positive_content _ _) eqn:Hp; [done|].
  constructor; [|by apply IH]. exists before, b, a. auto.
Qed.
Lemma positive_loop_none names old desired : positive_loop names old desired = Ok false →
  ∀ table, table ∈ names → ∃ rows desired_rows, rows_by_intent_identity old table = Ok rows ∧
    rows_by_intent_identity desired table = Ok desired_rows ∧ Forall (adds_nothing table rows) desired_rows.
Proof.
  induction names as [|t names IH]; cbn [positive_loop]; [by intros _ table Ht%elem_of_nil|].
  intros (rows & Hr & H)%bind_Ok. apply bind_Ok in H as (desired_rows & Hd & H). apply bind_Ok in H as ([] & Hp & H); [done|].
  intros table [->|Ht]%elem_of_cons; [|by apply IH]. eauto 6 using positive_rows_none.
Qed.
