(* ===== verification/RouteSettle.v ===== *)
(** * Static routes that settle without a deployment

    A promoted static_route stream whose plan is empty is recorded as already applied, with no generation.  Its routes then render
    exactly as the authorized ones - unless a route took over the key of another one, which the planner mistakes for a move of
    its own. *)

From stdpp Require Import base gmap list.
From Stdlib Require Import ZArith NArith Lia.
From S2P Require Import Prelude Json Registry Document Asn Identity Store Generation Receipt Removal Plan.
Local Open Scope py_scope.
Local Open Scope Z_scope.

(** ** Static routes *)

Definition text_field (v : json) : Prop := v = JNull ∨ ∃ s, v = JStr s.
Definition number_field (v : json) : Prop := v = JNull ∨ ∃ z, v = JInt z.
Definition flag_field (v : json) : Prop := v = JNull ∨ ∃ b, v = JBool b.

(** The column types of static_route_intent that a renderer reads. *)
Record route_row (row : pydict) : Prop := {
  route_vrf : ∃ s, dict_get row "vrf" = Some (JStr s);
  route_prefix : ∃ s, dict_get row "prefix" = Some (JStr s);
  route_next_hop : ∃ s, dict_get row "next_hop" = Some (JStr s);
  route_interface : text_field (get row "interface_next_hop");
  route_leak : text_field (get row "next_hop_vrf");
  route_metric : number_field (get row "metric");
  route_permanent : flag_field (get row "permanent");
  route_tag : number_field (get row "tag") }.

(** An optional leaf: nothing when it is not set. *)
Definition leaf (k : pystr) (v : json) : pydict := match v with JNull => [] | v => [(k, v)] end.
Definition set_value (v : json) : json := if json_truthy v then v else JNull.
Definition route_entry (vrf prefix next_hop : pystr) (inh nhv metric permanent tag : json) : pydict :=
  [("vrf", JStr vrf); ("prefix", JStr prefix); ("next-hop", JStr next_hop)] ++
  leaf "interface-next-hop" inh ++ leaf "next-hop-vrf" nhv ++ leaf "metric" metric ++ leaf "permanent" permanent ++ leaf "tag" tag.

Lemma when_true_leaf row field k : when_true row field k = leaf k (set_value (get row field)).
Proof. unfold when_true, set_value. destruct (json_truthy (get row field)) eqn:H; [|done]. by destruct (get row field). Qed.
Lemma when_set_leaf row field k : when_set row field k = leaf k (get row field).
Proof. unfold when_set. by destruct (get row field). Qed.

(** What a leaf of each type carries when it is set. *)
Inductive leaf_type := text_leaf | number_leaf | flag_leaf.
Definition leaf_value (t : leaf_type) (v : json) : Prop :=
  v = JNull ∨ match t with text_leaf => ∃ s, v = JStr s ∧ s ≠ "" | number_leaf => ∃ z, v = JInt z | flag_leaf => v = JBool true end.
Lemma text_field_leaf v : text_field v → leaf_value text_leaf (set_value v).
Proof.
  intros [->|[s ->]]; [by left|]. unfold set_value. cbn [json_truthy]. destruct (py_truthy s) eqn:Hs; [|by left]. right. exists s.
  split; [done|]. by intros ->.
Qed.
Lemma flag_field_leaf v : flag_field v → leaf_value flag_leaf (set_value v).
Proof. intros [->|[[] ->]]; [by left|by right|by left]. Qed.
Lemma number_field_leaf v : number_field v → leaf_value number_leaf v.
Proof. intros [->|[z ->]]; [by left|right; eauto]. Qed.

Lemma route_entry_of row e : route_row row → static_route_entry row = Ok e → ∃ vrf prefix next_hop inh nhv metric permanent tag,
  e = route_entry vrf prefix next_hop inh nhv metric permanent tag ∧
  leaf_value text_leaf inh ∧ leaf_value text_leaf nhv ∧ leaf_value number_leaf metric ∧ leaf_value flag_leaf permanent ∧ leaf_value number_leaf tag.
Proof.
  intros [[v Hv] [p Hp] [n Hn] Hi Hl Hm Hpm Ht]. unfold static_route_entry, required. rewrite Hv, Hp, Hn. unfold_res. intros [= <-].
  rewrite !when_true_leaf, !when_set_leaf. exists v, p, n, (set_value (get row "interface_next_hop")), (set_value (get row "next_hop_vrf")), (get row "metric"),
    (set_value (get row "permanent")), (get row "tag").
  split_and!; [reflexivity|by apply text_field_leaf|by apply text_field_leaf|by apply number_field_leaf|by apply flag_field_leaf|by apply number_field_leaf].
Qed.

Lemma get_leaf_eq k v (l : pydict) : get l k = JNull → get (leaf k v ++ l) k = v.
Proof. destruct v; cbn; try done; unfold get; cbn; rewrite decide_True by done; done. Qed.
Lemma get_leaf_ne k k' v (l : pydict) : k ≠ k' → get (leaf k' v ++ l) k = get l k.
Proof. intros H. destruct v; cbn; try done; unfold get; cbn; by rewrite decide_False. Qed.

Lemma lost_member b a k v : lost_content (JObj b) (JObj a) = false → (k, v) ∈ b → lost_content v (get a k) = false.
Proof.
  cbn [lost_content is_cleared orb]. induction b as [|[k' v'] b IH]; intros H Hin; [by apply elem_of_nil in Hin|].
  apply orb_false_iff in H as [H1 H2]. apply elem_of_cons in Hin as [[= -> ->]|Hin]; [done|by apply IH].
Qed.
Lemma positive_member b a k v : has_positive_content (JObj b) (JObj a) = false → (k, v) ∈ a → has_positive_content (get b k) v = false.
Proof.
  cbn [has_positive_content]. induction a as [|[k' v'] a IH]; intros H Hin; [by apply elem_of_nil in Hin|].
  apply orb_false_iff in H as [H1 H2]. apply elem_of_cons in Hin as [[= -> ->]|Hin]; [done|by apply IH].
Qed.

(** A leaf of both entries that is neither lost nor added. *)
Lemma leaf_unchanged t b a : leaf_value t b → leaf_value t a → (b ≠ JNull → lost_content b a = false) → (a ≠ JNull → has_positive_content b a = false) → b = a.
Proof.
  destruct t; intros [->|Hb] [->|Ha] Hl Hp; try done.
  - destruct Ha as (s & -> & Hs). specialize (Hp ltac:(done)). cbn in Hp. by rewrite bool_decide_false in Hp.
  - destruct Hb as (s & -> & Hs). specialize (Hl ltac:(done)). cbn in Hl. by rewrite bool_decide_false in Hl.
  - destruct Hb as (s & -> & Hs), Ha as (s' & -> & Hs'). specialize (Hp ltac:(done)). cbn in Hp. rewrite (bool_decide_false (s' = "")) in Hp by done.
    by apply negb_false_iff, bool_decide_eq_true in Hp as ->.
  - destruct Ha as [z ->]. by specialize (Hp ltac:(done)).
  - destruct Hb as [z ->]. by specialize (Hl ltac:(done)).
  - destruct Hb as [z ->], Ha as [z' ->]. specialize (Hp ltac:(done)). by apply negb_false_iff, Z.eqb_eq in Hp as ->.
  - rewrite Ha in *. by specialize (Hp ltac:(done)).
  - rewrite Hb in *. by specialize (Hl ltac:(done)).
  - congruence.
Qed.
Lemma key_unchanged s s' : lost_content (JStr s) (JStr s') = false → has_positive_content (JStr s) (JStr s') = false → s = s'.
Proof.
  cbn. destruct (decide (s = "")) as [->|Hs]; [|rewrite (bool_decide_false (s = "")) by done];
    (destruct (decide (s' = "")) as [->|Hs']; [|rewrite (bool_decide_false (s' = "")) by done]); try done; cbn; intros _ H;
    by apply negb_false_iff, bool_decide_eq_true in H.
Qed.

Lemma leaf_elem k v : v ≠ JNull → (k, v) ∈ leaf k v.
Proof. destruct v; try done; intros _; by apply list_elem_of_singleton. Qed.

Section RouteEntry.
Context (vrf prefix next_hop : pystr) (inh nhv metric permanent tag : json).
Local Notation e := (route_entry vrf prefix next_hop inh nhv metric permanent tag).

Definition entry_members : list (pystr * json) :=
  [("vrf", JStr vrf); ("prefix", JStr prefix); ("next-hop", JStr next_hop); ("interface-next-hop", inh); ("next-hop-vrf", nhv);
   ("metric", metric); ("permanent", permanent); ("tag", tag)].

Lemma entry_get k v : (k, v) ∈ entry_members → get e k = v.
Proof.
  unfold entry_members, route_entry. rewrite !elem_of_cons, elem_of_nil. intros [[= -> ->]|[[= -> ->]|[[= -> ->]|H]]]; [done..|].
  replace (get _ k) with (get (leaf "interface-next-hop" inh ++ leaf "next-hop-vrf" nhv ++ leaf "metric" metric ++ leaf "permanent" permanent ++ leaf "tag" tag) k);
    [|unfold get; cbn; destruct H as [[= -> ->]|[[= -> ->]|[[= -> ->]|[[= -> ->]|[[= -> ->]|[]]]]]]; done].
  rewrite <-(app_nil_r (leaf "tag" tag)).
  destruct H as [[= -> ->]|[[= -> ->]|[[= -> ->]|[[= -> ->]|[[= -> ->]|[]]]]]]; repeat first [rewrite get_leaf_ne by done | rewrite get_leaf_eq]; done.
Qed.
Lemma entry_elem k v : (k, v) ∈ entry_members → v ≠ JNull → (k, v) ∈ e.
Proof.
  unfold entry_members, route_entry. rewrite !elem_of_cons, elem_of_nil, !elem_of_app. intros H Hv.
  destruct H as [[= -> ->]|[[= -> ->]|[[= -> ->]|[[= -> ->]|[[= -> ->]|[[= -> ->]|[[= -> ->]|[[= -> ->]|[]]]]]]]]]; auto 12 using leaf_elem, list_elem_of_here, list_elem_of_further.
Qed.
End RouteEntry.

Lemma entry_unchanged v p n inh nhv m pm t v' p' n' inh' nhv' m' pm' t' :
  let e := route_entry v p n inh nhv m pm t in
  let e' := route_entry v' p' n' inh' nhv' m' pm' t' in
  (leaf_value text_leaf inh ∧ leaf_value text_leaf nhv ∧ leaf_value number_leaf m ∧ leaf_value flag_leaf pm ∧ leaf_value number_leaf t) →
  (leaf_value text_leaf inh' ∧ leaf_value text_leaf nhv' ∧ leaf_value number_leaf m' ∧ leaf_value flag_leaf pm' ∧ leaf_value number_leaf t') →
  lost_content (JObj e) (JObj e') = false → has_positive_content (JObj e) (JObj e') = false → e = e'.
Proof.
  intros e e' (? & ? & ? & ? & ?) (? & ? & ? & ? & ?) Hl Hp.
  assert (L : ∀ k b a, (k, b) ∈ entry_members v p n inh nhv m pm t → (k, a) ∈ entry_members v' p' n' inh' nhv' m' pm' t' →
    (b ≠ JNull → lost_content b a = false) ∧ (a ≠ JNull → has_positive_content b a = false)).
  { intros k b a Hb Ha. split; intros Hn.
    - rewrite <-(entry_get _ _ _ _ _ _ _ _ _ _ Ha). eapply lost_member; [exact Hl|]. by apply entry_elem.
    - rewrite <-(entry_get _ _ _ _ _ _ _ _ _ _ Hb). eapply positive_member; [exact Hp|]. by apply entry_elem. }
  assert (M : ∀ k ty b a, (k, b) ∈ entry_members v p n inh nhv m pm t → (k, a) ∈ entry_members v' p' n' inh' nhv' m' pm' t' →
    leaf_value ty b → leaf_value ty a → b = a) by (intros k ty b a Hb Ha ??; destruct (L k b a Hb Ha); eauto using leaf_unchanged).
  assert (K : ∀ k s s', (k, JStr s) ∈ entry_members v p n inh nhv m pm t → (k, JStr s') ∈ entry_members v' p' n' inh' nhv' m' pm' t' → s = s')
    by (intros k s s' Hb Ha; destruct (L k _ _ Hb Ha); apply key_unchanged; auto).
  unfold e, e', entry_members in *. f_equal.
  - apply (K "vrf"); repeat constructor.
  - apply (K "prefix"); repeat constructor.
  - apply (K "next-hop"); repeat constructor.
  - apply (M "interface-next-hop" text_leaf); [repeat constructor..|done|done].
  - apply (M "next-hop-vrf" text_leaf); [repeat constructor..|done|done].
  - apply (M "metric" number_leaf); [repeat constructor..|done|done].
  - apply (M "permanent" flag_leaf); [repeat constructor..|done|done].
  - apply (M "tag" number_leaf); [repeat constructor..|done|done].
Qed.

(** Rows lost nothing and added nothing render alike. *)
Lemma route_unchanged before after b a : route_row before → route_row after → static_route_entry before = Ok b → static_route_entry after = Ok a →
  lost_content (JObj b) (JObj a) = false → has_positive_content (JObj b) (JObj a) = false → b = a.
Proof.
  intros Hb Ha Eb Ea. destruct (route_entry_of _ _ Hb Eb) as (?&?&?&?&?&?&?&?&->&?). destruct (route_entry_of _ _ Ha Ea) as (?&?&?&?&?&?&?&?&->&?).
  by apply entry_unchanged.
Qed.

(** *** The index of static routes *)

Definition SR : pystr := "static_route_intent".
Definition SR_SPEC : Spec := {| sp_model := "StaticRouteIntent"; sp_parent := None; sp_discriminator := None; sp_identity := None; sp_lifecycle := false |}.
Definition route_identity (row : pydict) : identity := [IdVal (get row "vrf"); IdVal (get row "prefix"); IdVal (get row "next_hop")].

Lemma sr_spec : spec_or_refuse SR = Ok SR_SPEC.
Proof. vm_compute. reflexivity. Qed.
Lemma sr_lineage : identity_lineage SR_SPEC = [SR_SPEC].
Proof. vm_compute. reflexivity. Qed.
Lemma sr_fields : identity_fields SR_SPEC = Ok ["vrf"; "prefix"; "next_hop"].
Proof. vm_compute. reflexivity. Qed.
Lemma sr_table : tablename "StaticRouteIntent" = SR.
Proof. vm_compute. reflexivity. Qed.
Lemma sr_row_identity row ids : row_identity SR_SPEC row ids = Ok (route_identity row).
Proof.
  unfold row_identity, parent_identity. rewrite sr_fields. cbn [sp_parent SR_SPEC sp_model]. rewrite sr_table. unfold_res.
  unfold asn_row_identity. by rewrite !bool_decide_false by done.
Qed.

Lemma string_identity_eqb row row' : route_row row → route_row row' →
  identity_eqb (route_identity row) (route_identity row') = true ↔ route_identity row = route_identity row'.
Proof.
  intros [[v Hv] [p Hp] [n Hn] _ _ _ _ _] [[v' Hv'] [p' Hp'] [n' Hn'] _ _ _ _ _]. unfold route_identity, get, get_or. rewrite Hv, Hp, Hn, Hv', Hp', Hn'.
  change (default JNull (Some ?x)) with x. cbn [identity_eqb part_eqb py_eq]. rewrite andb_true_r, !andb_true_iff, !bool_decide_eq_true. split; [by intros (-> & -> & ->)|]. by intros [= -> -> ->].
Qed.

(** An index of typed routes by their identity, each identity once. *)
Definition route_index (index : list (identity * pydict)) : Prop :=
  Forall (fun ir => ir.1 = route_identity ir.2 ∧ route_row ir.2) index ∧ NoDup (map fst index).

Lemma route_index_elem index i row : route_index index → (i, row) ∈ index → i = route_identity row ∧ route_row row ∧ index_get index i = Some row.
Proof.
  unfold index_get. intros [Hf Hn] Hin. induction index as [|[j row'] index IH]; [by apply elem_of_nil in Hin|].
  apply Forall_cons in Hf as [[Hj Hr] Hf]. apply NoDup_cons in Hn as [Hjn Hn]. cbn [fst snd] in Hj, Hr. cbn [assoc_get fst]. apply elem_of_cons in Hin as [[= -> ->]|Hin].
  - split; [done|]. split; [done|]. subst j. by rewrite (proj2 (string_identity_eqb _ _ Hr Hr) eq_refl).
  - destruct (IH Hf Hn Hin) as (-> & Hr' & Hg). split; [done|]. split; [done|]. subst j. destruct (identity_eqb _ _) eqn:He; [|done].
    apply (string_identity_eqb _ _ Hr' Hr) in He. destruct Hjn. rewrite <-He. apply list_elem_of_fmap. exists (route_identity row, row). auto.
Qed.
Lemma route_index_found index row after : route_index index → route_row row → index_get index (route_identity row) = Some after → (route_identity row, after) ∈ index.
Proof.
  unfold index_get. intros [Hf _] Hr. induction index as [|[j row'] index IH]; [done|]. apply Forall_cons in Hf as [[Hj Hr'] Hf]. cbn [fst snd] in Hj, Hr'. subst j.
  cbn [assoc_get]. destruct (identity_eqb _ _) eqn:He; [|right; by apply IH]. intros [= ->]. apply (string_identity_eqb _ _ Hr Hr') in He. rewrite He. left.
Qed.

Lemma index_rows_routes rows ids indexed by_id out out' : Forall route_row rows → route_index indexed →
  index_rows SR_SPEC rows ids indexed by_id = Ok (out, out') → route_index out.
Proof.
  revert indexed by_id. induction rows as [|row rows IH]; intros indexed by_id Hf Hx; cbn [index_rows]; [by intros [= <- _]|].
  apply Forall_cons in Hf as [Hr Hf]. rewrite sr_row_identity. unfold_res. destruct (forallb _ _); [|done].
  change (assoc_get identity_eqb indexed (route_identity row)) with (index_get indexed (route_identity row)). destruct (index_get _ _) eqn:Hn; [done|].
  destruct (scalar _); [|done]. apply IH; [done|]. destruct Hx as [H1 H2]. split; [apply Forall_app; auto|]. rewrite map_app. apply NoDup_app.
  split_and!; [done| |by apply NoDup_singleton]. intros i Hi Hi'. apply list_elem_of_singleton in Hi'. cbn in Hi'. subst i.
  apply list_elem_of_fmap in Hi as ([j r] & Hj & Hin). cbn in Hj. rewrite Forall_forall in H1. destruct (H1 _ Hin) as [Hj' Hr']. cbn in Hj', Hr'.
  rewrite Hj, Hj' in Hn. rewrite <-Hj' in Hn. by rewrite (proj2 (proj2 (route_index_elem indexed j r (conj (proj2 (Forall_forall _ _) H1) H2) Hin))) in Hn.
Qed.

Lemma sr_index t rows : rows_by_intent_identity t SR = Ok rows → Forall route_row (table_rows t SR) → route_index rows.
Proof.
  unfold rows_by_intent_identity. rewrite sr_spec. unfold_res. rewrite sr_lineage. cbn [identity_indexes sp_model SR_SPEC]. rewrite sr_table. intros H Ht.
  apply bind_Ok in H as (out & H & Ho). apply bind_Ok in H as (? & _ & H). apply bind_Ok in H as ([index ids] & H & [= <-]). cbn [dict_set fst] in Ho.
  cbn [dict_get] in Ho. rewrite decide_True in Ho by reflexivity. injection Ho as <-. eapply index_rows_routes; [exact Ht| |exact H].
  split; [apply List.Forall_nil|apply NoDup_nil_2].
Qed.
Lemma sr_state row b : projection_row_state SR row = Ok b → static_route_entry row = Ok b.
Proof. unfold projection_row_state. rewrite sr_spec. unfold_res. cbn [sp_model SR_SPEC]. by rewrite bool_decide_true by reflexivity. Qed.

(** No removed route's id lives on at the key of another authorized route. *)
Definition no_takeover (rows desired : list (identity * pydict)) : Prop :=
  ∀ i row j after, (i, row) ∈ rows → index_has desired i = false → (j, after) ∈ desired → get after "route_id" ≠ JNull →
    py_eq (get row "route_id") (get after "route_id") = true → index_has rows j = false.

Lemma not_moved rows desired i row : no_takeover rows desired → (∀ j after, (j, after) ∈ desired → index_has rows j = true) →
  (i, row) ∈ rows → index_has desired i = false → moved_row (successor_route_ids SR desired) (i, row) = false.
Proof.
  intros Hno Hall Hin Hi. destruct (moved_row _ _) eqn:H; [|done]. unfold moved_row, successor_route_ids in H. rewrite bool_decide_true in H by reflexivity.
  apply existsb_exists in H as (v & Hv & He). apply filter_In in Hv as [Hv Hn]. apply in_map_iff in Hv as ([j after] & <- & Hj).
  apply list_elem_of_In in Hj. cbn [snd] in *. assert (get after "route_id" ≠ JNull) by (by intros E; rewrite E in Hn).
  specialize (Hno _ _ _ _ Hin Hi Hj H He). by rewrite (Hall _ _ Hj) in Hno.
Qed.

(** A stream joins the settled ones only when its promotion removes, replaces and adds nothing. *)
Lemma settled_plan stream p pl pl' : plan_stream stream p pl = Ok pl' → stream ∉ pl_equivalent pl → stream ∈ pl_equivalent pl' →
  any_rows (pm_networked p) = false ∧ any_rows (pm_detached p) = false ∧ any_rows (pm_replacement p) = false ∧ pm_positive p = false.
Proof.
  intros H Hn Hin. unfold plan_stream in H.
  destruct (any_rows (pm_detached p) && any_rows (pm_replacement p) && mem stream INTENT_STREAMS); [by injection H as <-|].
  destruct (negb _) eqn:E in H.
  - apply negb_true_iff in E. apply orb_false_iff in E as [[E1 E2]%orb_false_iff E3]. split_and!; [done..|].
    destruct (pm_positive p); [|done]. rewrite andb_false_r in H. cbn [mbind] in H. injection H as <-. done.
  - exfalso. destruct (pm_positive p); [by injection H as <-|]. destruct (_ && given (pm_revision p)) in H; [|by injection H as <-].
    apply bind_Ok in H as ([] & _ & [= <-]); done.
Qed.

Lemma positive_table old desired table rows desired_rows : has_positive_delta old desired = Ok false → table ∈ dict_keys old →
  rows_by_intent_identity old table = Ok rows → rows_by_intent_identity desired table = Ok desired_rows → Forall (adds_nothing table rows) desired_rows.
Proof.
  intros H Ht Hr Hd. destruct (positive_loop_none _ _ _ H table) as (rows' & drows' & Hr' & Hd' & Hf).
  { unfold sorted_strs. rewrite elem_of_stable_sort, elem_of_remove_dups. apply elem_of_app. auto. }
  rewrite Hr in Hr'. rewrite Hd in Hd'. injection Hr' as <-. injection Hd' as <-. exact Hf.
Qed.
Lemma losing_table old desired out table rows desired_rows : content_losing_rows old desired = Ok out → any_rows out = false → table ∈ dict_keys old →
  rows_by_intent_identity old table = Ok rows → rows_by_intent_identity desired table = Ok desired_rows → Forall (keeps_content table desired_rows) rows.
Proof.
  intros H Ho Ht Hr Hd. destruct (losing_loop_none _ _ _ _ _ H Ho) as [_ Hall]. destruct (Hall table) as (rows' & drows' & Hr' & Hd' & Hf).
  { unfold sorted_strs. by rewrite elem_of_stable_sort. }
  rewrite Hr in Hr'. rewrite Hd in Hd'. injection Hr' as <-. injection Hd' as <-. exact Hf.
Qed.
(** With both groups empty, a removed route must be a key move. *)
Lemma deletions_none old desired receipt n d rows desired_rows i row : fragment_deletions old desired receipt = Ok (n, d) →
  any_rows n = false → any_rows d = false → NoDup (dict_keys old) → SR ∈ dict_keys old →
  rows_by_intent_identity old SR = Ok rows → rows_by_intent_identity desired SR = Ok desired_rows →
  (i, row) ∈ rows → index_has desired_rows i = false → moved_row (successor_route_ids SR desired_rows) (i, row) = true.
Proof.
  intros H Hn Hd Hnd HSR Hr Hdr Hin Hi. unfold fragment_deletions in H. apply bind_Ok in H as (explicit & _ & H).
  destruct (deletions_loop_spec _ _ _ _ _ _ _ _ _ (NoDup_sorted _ Hnd) H) as [H1 _]. destruct (H1 SR) as (s & rows' & drows' & Hs & Hr' & Hdr' & En & Ed).
  { unfold sorted_strs. by rewrite elem_of_stable_sort. }
  rewrite Hr in Hr'. rewrite Hdr in Hdr'. rewrite sr_spec in Hs. injection Hr' as <-. injection Hdr' as <-. injection Hs as <-.
  rewrite (any_rows_false _ SR Hn) in En. rewrite (any_rows_false _ SR Hd) in Ed. cbn [app table_rows dict_get default] in En, Ed.
  destruct (moved_row _ _) eqn:Hm; [reflexivity|]. exfalso. unfold marked_rows in En, Ed. clear H1 H.
  set (dflt := marking_of _) in En, Ed.
  assert (Hx : ∀ origin, bool_decide (marking_for explicit SR dflt row = DELETE_ORIGIN_MARKING) = origin →
    [] = map snd (List.filter (fun ir => gone_row SR_SPEC desired_rows ir && negb (moved_row (successor_route_ids SR desired_rows) ir) &&
           Bool.eqb (bool_decide (marking_for explicit SR dflt ir.2 = DELETE_ORIGIN_MARKING)) origin) rows) → False).
  { intros origin Hb E. apply (List.in_nil (a := row)). rewrite E. apply in_map_iff. exists (i, row). split; [reflexivity|]. apply filter_In.
    split; [by apply list_elem_of_In|]. cbn [snd]. rewrite Hb, Hm, Bool.eqb_reflx. unfold gone_row. cbn [sp_lifecycle SR_SPEC fst]. by rewrite Hi. }
  destruct (bool_decide (marking_for explicit SR dflt row = DELETE_ORIGIN_MARKING)) eqn:Hb; eapply Hx; eauto.
Qed.
Lemma route_pair_unchanged rows desired_rows i row after : route_index rows → route_index desired_rows →
  Forall (keeps_content SR desired_rows) rows → Forall (adds_nothing SR rows) desired_rows → (i, row) ∈ rows → (i, after) ∈ desired_rows →
  static_route_entry row = static_route_entry after.
Proof.
  intros Xr Xd Hk Ha Hir Hia. rewrite Forall_forall in Hk, Ha. destruct (route_index_elem _ _ _ Xr Hir) as (_ & Hr & Gr).
  destruct (route_index_elem _ _ _ Xd Hia) as (_ & Hra & Ga). destruct (Hk _ Hir _ Ga) as (b & a & Eb & Ea & Hl).
  destruct (Ha _ Hia) as (before & b' & a' & Gb & Eb' & Ea' & Hp). cbn [fst snd] in *. rewrite Gr in Gb. injection Gb as <-.
  rewrite Eb in Eb'. rewrite Ea in Ea'. injection Eb' as <-. injection Ea' as <-. apply sr_state in Eb, Ea. rewrite Eb, Ea. f_equal.
  eapply (route_unchanged row after); eassumption.
Qed.

(** A static_route lane that is recorded as already applied renders exactly as the authorized one: every authorized route is
    among the desired ones with an identical wire entry, and there are no others.  It needs that no removed route's id lives on
    at the key of another authorized route. *)
Theorem settled_routes_render_alike old desired receipt p pl pl' rows desired_rows :
  NoDup (dict_keys old) → SR ∈ dict_keys old → Forall route_row (table_rows old SR) → Forall route_row (table_rows desired SR) →
  receipt_promotion old desired receipt = Ok p → plan_stream "static_route" p pl = Ok pl' →
  "static_route" ∉ pl_equivalent pl → "static_route" ∈ pl_equivalent pl' →
  rows_by_intent_identity old SR = Ok rows → rows_by_intent_identity desired SR = Ok desired_rows → no_takeover rows desired_rows →
  (∀ i row, (i, row) ∈ rows → ∃ after, index_get desired_rows i = Some after ∧ static_route_entry row = static_route_entry after) ∧
  (∀ i after, (i, after) ∈ desired_rows → index_has rows i = true).
Proof.
  intros Hnd HSR Ho Hd Hp Hplan Hnot Hin Hrows Hdes Hno. destruct (settled_plan _ _ _ _ Hplan Hnot Hin) as (E1 & E2 & E3 & E4). clear Hplan Hnot Hin.
  unfold receipt_promotion in Hp. apply bind_Ok in Hp as ([n d] & Hdel & Hp). apply bind_Ok in Hp as (rep & Hrep & Hp). apply bind_Ok in Hp as (pos & Hpos & [= <-]).
  cbn [pm_networked pm_detached pm_replacement pm_positive fst snd] in *. subst pos.
  pose proof (sr_index _ _ Hrows Ho) as Xr. pose proof (sr_index _ _ Hdes Hd) as Xd.
  pose proof (positive_table _ _ _ _ _ Hpos HSR Hrows Hdes) as Hadd. pose proof (losing_table _ _ _ _ _ _ Hrep E3 HSR Hrows Hdes) as Hkeep.
  assert (Hall : ∀ j after, (j, after) ∈ desired_rows → index_has rows j = true).
  { intros j after Hj. rewrite Forall_forall in Hadd. destruct (Hadd _ Hj) as (before & _ & _ & Hb & _). unfold index_has. cbn [fst] in Hb. by rewrite Hb. }
  split; [|done]. intros i row Hir. destruct (route_index_elem _ _ _ Xr Hir) as (Hi & Hr & _).
  destruct (index_get desired_rows i) as [after|] eqn:Ha.
  - exists after. split; [reflexivity|]. rewrite Hi in Ha. apply (route_index_found _ _ _ Xd Hr) in Ha as Hm. rewrite <-Hi in Hm.
    eapply (route_pair_unchanged rows desired_rows); eassumption.
  - assert (index_has desired_rows i = false) as Hgone by (unfold index_has; by rewrite Ha).
    pose proof (deletions_none _ _ _ _ _ _ _ _ _ Hdel E1 E2 Hnd HSR Hrows Hdes Hir Hgone) as Hm. by rewrite (not_moved _ _ _ _ Hno Hall Hir Hgone) in Hm.
Qed.

(** ** On concrete routes *)

Definition route (id route_id : Z) (prefix next_hop : pystr) (extra : pydict) : pydict :=
  [("id", JInt id); ("route_id", JInt route_id); ("vrf", JStr ""); ("prefix", JStr prefix); ("next_hop", JStr next_hop)] ++ extra.
Definition route_lane (routes : list pydict) : tables := [(SR, routes)].
Definition push_receipt (deletions : list json) : IntentPushReceipt :=
  mkReceipt (mkIdentity 7 "d" false false false) (Some [(PROMOTION_DELETIONS, JArr deletions)]) 200 None 0.
Definition no_plan : plan := mkPlan [] [] [] [] [].

Definition lane_before : tables := route_lane [route 1 5 "10.0.0.0/8" "192.0.2.1" [("metric", JInt 0)]; route 2 6 "10.1.0.0/16" "192.0.2.2" []].
(** Only the name, which no leaf renders, changes. *)
Definition lane_renamed : tables :=
  route_lane [route 1 5 "10.0.0.0/8" "192.0.2.1" [("metric", JInt 0); ("name", JStr "core")]; route 2 6 "10.1.0.0/16" "192.0.2.2" [("permanent", JBool false)]].

Definition idx (r : res (list (identity * pydict))) : list (identity * pydict) := match r with Ok l => l | Raise _ => [] end.
Definition settled_static : plan := mkPlan [] [] [] ["static_route"] [].
Definition renamed_promotion : Promotion := mkPromotion lane_before lane_renamed [] [] [] false None.

Lemma route_is_typed id rid prefix next_hop extra : route_row (route id rid prefix next_hop extra) ↔
  text_field (get (route id rid prefix next_hop extra) "interface_next_hop") ∧ text_field (get (route id rid prefix next_hop extra) "next_hop_vrf") ∧
  number_field (get (route id rid prefix next_hop extra) "metric") ∧ flag_field (get (route id rid prefix next_hop extra) "permanent") ∧
  number_field (get (route id rid prefix next_hop extra) "tag").
Proof. split; [intros []; auto|]. intros (?&?&?&?&?). split; try done; eexists; reflexivity. Qed.
Ltac typed_route := apply route_is_typed; repeat split; first [by left | right; eexists; vm_compute; reflexivity].
Lemma lanes_typed : Forall route_row (table_rows lane_before SR) ∧ Forall route_row (table_rows lane_renamed SR).
Proof. split; (apply List.Forall_cons; [typed_route|]; apply List.Forall_cons; [typed_route|]; apply List.Forall_nil). Qed.
Lemma renamed_promotes : receipt_promotion lane_before lane_renamed (push_receipt []) = Ok renamed_promotion.
Proof. vm_compute. reflexivity. Qed.
Lemma renamed_settles : plan_stream "static_route" renamed_promotion no_plan = Ok settled_static.
Proof. vm_compute. reflexivity. Qed.
Lemma before_index : rows_by_intent_identity lane_before SR = Ok (idx (rows_by_intent_identity lane_before SR)).
Proof. vm_compute. reflexivity. Qed.
Lemma renamed_index : rows_by_intent_identity lane_renamed SR = Ok (idx (rows_by_intent_identity lane_renamed SR)).
Proof. vm_compute. reflexivity. Qed.
Lemma renamed_in_place : no_takeover (idx (rows_by_intent_identity lane_before SR)) (idx (rows_by_intent_identity lane_renamed SR)).
Proof.
  intros i row j after Hi Hn Hj _ _. exfalso. revert Hn. vm_compute in Hi. apply elem_of_cons in Hi as [Hi|[Hi|Hi%elem_of_nil]%elem_of_cons]; [| |done].
  all: injection Hi as -> _; vm_compute; discriminate.
Qed.
Lemma lane_keys : NoDup (dict_keys lane_before) ∧ SR ∈ dict_keys lane_before.
Proof. split; [apply NoDup_singleton|left]. Qed.
Lemma settled_routes_render_alike_witness :
  (∀ i row, (i, row) ∈ idx (rows_by_intent_identity lane_before SR) → ∃ after, index_get (idx (rows_by_intent_identity lane_renamed SR)) i = Some after ∧
     static_route_entry row = static_route_entry after) ∧
  (∀ i after, (i, after) ∈ idx (rows_by_intent_identity lane_renamed SR) → index_has (idx (rows_by_intent_identity lane_before SR)) i = true).
Proof.
  refine (settled_routes_render_alike lane_before lane_renamed (push_receipt []) renamed_promotion no_plan settled_static _ _
    (proj1 lane_keys) (proj2 lane_keys) (proj1 lanes_typed) (proj2 lanes_typed) renamed_promotes renamed_settles (not_elem_of_nil _) _ before_index renamed_index renamed_in_place).
  left.
Defined.

(** The key of a deleted route taken over by another one: route 6 is deleted, and route 5 moves from 10.0.0.0/8 to its key.  Nothing
    is planned and the lane settles as already applied, while 10.0.0.0/8 is still authorized on the device. *)
Lemma takeover_settles_silently :
  let desired := route_lane [route 1 5 "10.1.0.0/16" "192.0.2.2" []] in
  let receipt := push_receipt [JObj [("table", JStr SR); ("route_id", JInt 6); ("key", JArr [JStr ""; JStr "10.1.0.0/16"; JStr "192.0.2.2"]); ("marking", JStr DELETE_ORIGIN_MARKING)]] in
  (p ← receipt_promotion lane_before desired receipt; plan_action_links [("static_route", p)]) = Ok settled_static ∧
  (i ← rows_by_intent_identity desired SR; Ok (index_has i (route_identity (route 1 5 "10.0.0.0/8" "192.0.2.1" [])))) = Ok false.
Proof. vm_compute. split; reflexivity. Qed.

Definition drop_receipt : IntentPushReceipt :=
  push_receipt [JObj [("table", JStr SR); ("route_id", JInt 6); ("marking", JStr DELETE_ORIGIN_MARKING)]].
Definition lane_dropped : tables := route_lane [].
Definition drop_networked : tables := [(SR, [route 2 6 "10.1.0.0/16" "192.0.2.2" []])].
Definition drop_detached : tables := [(SR, [route 1 5 "10.0.0.0/8" "192.0.2.1" [("metric", JInt 0)]])].
Lemma drop_splits : fragment_deletions lane_before lane_dropped drop_receipt = Ok (drop_networked, drop_detached).
Proof. vm_compute. reflexivity. Qed.
Lemma deletions_split_exactly_witness : ∃ explicit, explicit_deletion_markings drop_receipt = Ok explicit ∧ ∃ s rows desired_rows,
  spec_or_refuse SR = Ok s ∧ rows_by_intent_identity lane_before SR = Ok rows ∧
  table_rows drop_networked SR = marked_rows explicit SR DETACH_MARKING s desired_rows rows true ∧
  table_rows drop_detached SR = marked_rows explicit SR DETACH_MARKING s desired_rows rows false.
Proof.
  destruct (deletions_split_exactly lane_before lane_dropped drop_receipt drop_networked drop_detached (proj1 lane_keys) drop_splits) as (explicit & Hx & Hall & _).
  destruct (Hall SR (proj2 lane_keys)) as (s & rows & desired_rows & Hs & Hr & _ & Hn & Hd).
  exact (ex_intro _ explicit (conj Hx (ex_intro _ s (ex_intro _ rows (ex_intro _ desired_rows (conj Hs (conj Hr (conj Hn Hd)))))))).
Defined.
