(* ===== verification/StaticPlan.v ===== *)
(** * Static-route plans

    src/nso_adapter/core/static_route_plan.py, the whole module: the clear vocabulary and the [pending_clear] carrier, the
    classification of a creation-time snapshot into the apply plan and the removal plan, their recorded form, and the worker's
    hydration of it.  A row is its serialized record: an attribute of the hydrated instance is a member of the record, a stored
    timestamp its text.  Key parts are text and primary keys integers, as the columns declare; anything else is refused. *)

From stdpp Require Import base list.
From Stdlib Require Import ZArith NArith Lia.
From S2P Require Import Prelude Json Text Registry Document Asn Identity.
Local Open Scope py_scope.
Local Open Scope Z_scope.

Definition SR_INTENT : pystr := "static_route_intent".
Definition SR_TOMBSTONE : pystr := "static_route_tombstone".

Definition SR_CLEAR_FIELDS : list pystr := ["interface_next_hop"; "next_hop_vrf"; "metric"; "permanent"; "tag"].
Definition AUTHORIZED : pystr := "authorized".
Definition STORE_ONLY : pystr := "store_only".
Definition CLEAR_WIRE_LEAF : list (pystr * pystr) :=
  [("interface_next_hop", "interface-next-hop"); ("next_hop_vrf", "next-hop-vrf"); ("metric", "metric"); ("permanent", "permanent"); ("tag", "tag")].

(** ** Keys *)

Definition Triple : Type := pystr * pystr * pystr.
#[global] Instance triple_eq_dec : EqDecision Triple.
Proof. solve_decision. Defined.

(** [v or ''] on a key part *)
Definition key_part (v : json) : res pystr :=
  match v with JStr s => Ok s | v => if json_truthy v then Raise (TypeError "a key part is not text") else Ok "" end.
Definition key_parts (vrf prefix next_hop : json) : res Triple :=
  vrf ← key_part vrf; prefix ← key_part prefix; next_hop ← key_part next_hop; Ok (vrf, prefix, next_hop).

(** [triple_of] and [_row_triple] *)
Definition row_triple (row : pydict) : res Triple := key_parts (get row "vrf") (get row "prefix") (get row "next_hop").

(** [as_triple] *)
Definition as_triple (v : json) : res (option Triple) :=
  if json_truthy v then
    match v with
    | JArr [a; b; c] => t ← key_parts a b c; Ok (Some t)
    | JArr _ => Raise (ValueError "values to unpack")
    | _ => Raise (TypeError "cannot unpack")
    end
  else Ok None.

Definition triple_json (t : Triple) : json := JArr [JStr t.1.1; JStr t.1.2; JStr t.2].

(** [_sr_key] *)
Definition sr_key (v : json) : res Triple :=
  match v with
  | JArr [a; b; c] => key_parts a b c
  | _ => Raise (ValueError "a static-route execution key must contain three values")
  end.

(** A set of keys is its sorted list. *)
Definition triple_ltb (a b : Triple) : bool :=
  py_ltb a.1.1 b.1.1 || bool_decide (a.1.1 = b.1.1) && (py_ltb a.1.2 b.1.2 || bool_decide (a.1.2 = b.1.2) && py_ltb a.2 b.2).
Definition triple_le (a b : Triple) : bool := negb (triple_ltb b a).
Definition key_set (l : list Triple) : list Triple := stable_sort triple_le (remove_dups l).
Definition in_keys (t : Triple) (l : list Triple) : bool := bool_decide (t ∈ l).

Definition deployed_of (row : pydict) : res (option Triple) := as_triple (get row "deployed_key").

(** [null_route_id_count], [fence_open] *)
Definition null_route_id_count (rows : list pydict) : nat :=
  length (List.filter (fun r => match get r "route_id" with JNull => true | _ => false end) rows).
Definition fence_open (rows : list pydict) : bool := Nat.eqb (null_route_id_count rows) 0.

(** The predecessor key a row still owes: its deployed key, when it is not the one it renders. *)
Definition open_predecessor (row : pydict) : res (option Triple) :=
  deployed ← deployed_of row;
  match deployed with
  | None => Ok None
  | Some k => here ← row_triple row; Ok (if bool_decide (k = here) then None else Some k)
  end.

(** [replacement_open] *)
Definition replacement_open (row : pydict) : res bool :=
  k ← open_predecessor row; Ok (match k with Some _ => true | None => false end).

(** ** Clears *)

(** [wire_set], [sr_is_cleared] *)
Definition wire_set (field : pystr) (v : json) : bool :=
  if mem field ["metric"; "tag"] then match v with JNull => false | _ => true end else json_truthy v.
Definition sr_is_cleared (field : pystr) (before after : json) : bool := wire_set field before && negb (wire_set field after).

(** [{*(carrier.get(half) or ())}] *)
Definition carrier_half (carrier : json) (half : pystr) : res (list pystr) :=
  if json_truthy carrier then
    match carrier with
    | JObj d =>
        let v := get d half in
        if json_truthy v then
          match v with
          | JArr l => map_res (fun f => match f with JStr s => Ok s | _ => Raise (TypeError "a field name is not text") end) l
          | _ => Raise (TypeError "not a list of fields")
          end
        else Ok []
    | _ => Raise (AttributeError "get")
    end
  else Ok [].

(** [pending_clear_fields], [authorized_clear_fields] *)
Definition pending_clear_fields (carrier : json) : res (list pystr) :=
  a ← carrier_half carrier AUTHORIZED; s ← carrier_half carrier STORE_ONLY; Ok (remove_dups (a ++ s)).
Definition authorized_clear_fields (carrier : json) : res (list pystr) := a ← carrier_half carrier AUTHORIZED; Ok (remove_dups a).

(** [clears_suppressed] *)
Definition clears_suppressed (context : pydict) : bool := json_truthy (get context "detach") || json_truthy (get context "retract_deferred").

(** [candidate_clear_fields] *)
Definition candidate_clear_fields (row : pydict) : res (list pystr) :=
  fields ← authorized_clear_fields (get row "pending_clear");
  match fields with
  | [] => Ok []
  | _ => opened ← replacement_open row;
         Ok (if opened : bool then [] else stable_sort py_leb (List.filter (fun f => negb (wire_set f (get row f))) fields))
  end.

(** [str(v)] of a leaf *)
Definition leaf_chars (v : json) : list N :=
  match v with JStr s => py_chars s | JBool true => py_chars "True" | JBool false => py_chars "False" | v => py_chars (dumps spaced_sorted v) end.

(** [leaf_is_neutral] *)
Definition leaf_is_neutral (field : pystr) (entry : pydict) : res bool :=
  match dict_get CLEAR_WIRE_LEAF field with
  | None => Raise KeyError
  | Some leaf =>
      Ok match dict_get entry leaf with
         | None | Some JNull => true
         | Some v =>
             if bool_decide (field = "permanent") then
               match v with JBool false => true | _ => bool_decide (lower (strip (leaf_chars v)) = py_chars "false") end
             else if mem field ["interface_next_hop"; "next_hop_vrf"] then bool_decide (leaf_chars v = []) else false
         end
  end.

Definition sorted_fields (l : list pystr) : json := JArr (map JStr (stable_sort py_leb l)).
Definition fields_without (l m : list pystr) : list pystr := List.filter (fun f => negb (mem f m)) l.
Definition fields_union (l m : list pystr) : list pystr := remove_dups (l ++ m).

(** [update_pending_clear]: the row's new carrier *)
Definition update_pending_clear (carrier : json) (cleared reset : list pystr) (store_only : bool) : res json :=
  a ← carrier_half carrier AUTHORIZED;
  s ← carrier_half carrier STORE_ONLY;
  let authorized := fields_without (remove_dups a) reset in
  let store := fields_without (remove_dups s) reset in
  let store' := if store_only then fields_union store (fields_without cleared authorized) else fields_without store cleared in
  let authorized' := if store_only then authorized else fields_union authorized cleared in
  Ok match authorized', store' with
     | [], [] => JNull
     | _, _ => JObj [(AUTHORIZED, sorted_fields authorized'); (STORE_ONLY, sorted_fields store')]
     end.

(** ** Hydrated rows *)

Definition SR_COLUMNS : list pystr :=
  ["id"; "device_id"; "route_id"; "intent_generation"; "deployed_key"; "pending_clear"; "vrf"; "prefix"; "next_hop"; "interface_next_hop";
   "next_hop_vrf"; "metric"; "permanent"; "tag"; "name"; "accepted_at"; "last_apply_at"; "last_apply_error"].
Definition TOMBSTONE_COLUMNS : list pystr :=
  ["id"; "device_id"; "route_id"; "vrf"; "prefix"; "next_hop"; "deployed_key"; "marking"; "job_id"; "created_at"].

Definition hydrate_row (columns : list pystr) (record : pydict) : res pydict :=
  _ ← guard_or (subset_of (dict_keys record) columns) (ValueError "names unknown column");
  match get record "id" with JNull => Raise (ValueError "omits the primary key") | _ => Ok record end.
Definition hydrate_table (tr : pystr * list pydict) : res (pystr * list pydict) :=
  if bool_decide (tr.1 = SR_INTENT) then rows ← map_res (hydrate_row SR_COLUMNS) tr.2; Ok (tr.1, rows)
  else if bool_decide (tr.1 = SR_TOMBSTONE) then rows ← map_res (hydrate_row TOMBSTONE_COLUMNS) tr.2; Ok (tr.1, rows)
  else Raise (ValueError "document table does not belong to section").

(** [hydrate_section(document, 'static_route')] *)
Definition hydrate_static_routes (document : pydict) : res tables :=
  if dict_mem document "static_route" then
    context ← section_context document "static_route";
    section ← or_empty (dict_get document "static_route");
    t ← tables_of section;
    _ ← validate_tables (NedContext (get context "ned_id")) t;
    map_res hydrate_table t
  else Raise (ValueError "document does not carry section").

(** ** Plans *)

Record SrCas := mkCas { cas_row_id : Z; cas_route_id : json; cas_sent : Triple; cas_expected_old : json }.
Record SrPlan := mkSrPlan {
  sp_mode : pystr; sp_rows : list pydict; sp_allowed : list Triple; sp_tombstones : list pydict; sp_cas : list SrCas; sp_watermark : Z }.
Record SrClear := mkSrClear { cl_row_id : Z; cl_key : Triple; cl_fields : list pystr }.
Record SrRemovalPlan := mkRemovalPlan {
  rp_authorized : list Triple; rp_claimed : list Triple; rp_tombstone_ids : list Z; rp_clears : list SrClear; rp_reclaimed : list Triple }.

(** The integer primary key of a row. *)
Definition row_id (row : pydict) : res Z := match get row "id" with JInt z => Ok z | _ => Raise (TypeError "a primary key is not an integer") end.
Definition max_id (ids : list Z) : Z := match ids with [] => 0 | i :: ids => fold_left Z.max ids i end.

(** A tombstone's own key and its deployed key. *)
Definition tombstone_keys (t : pydict) : res (list Triple) :=
  here ← row_triple t; deployed ← deployed_of t; Ok (here :: match deployed with Some k => [k] | None => [] end).
Definition predecessors (row : pydict) : res (list Triple) := k ← open_predecessor row; Ok (match k with Some k => [k] | None => [] end).
Definition collect {A B} (f : A -> res (list B)) (l : list A) : res (list B) := r ← map_res f l; Ok (concat r).

Definition accepted (row : pydict) : bool := match get row "accepted_at" with JNull => false | _ => true end.
Definition plan_mode (replacement : bool) : pystr := if replacement then "PUT" else "PATCH".
Definition cas_of (row : pydict) : res SrCas := i ← row_id row; t ← row_triple row; Ok (mkCas i (get row "route_id") t (get row "deployed_key")).

(** [classify_apply_plan] *)
Definition classify_apply_plan (all_rows tombstones : list pydict) : res SrPlan :=
  let rows := List.filter accepted all_rows in
  opened ← map_res replacement_open rows;
  from_rows ← collect predecessors rows;
  from_tombstones ← collect tombstone_keys tombstones;
  cas ← map_res cas_of rows;
  ids ← map_res row_id tombstones;
  Ok (mkSrPlan (plan_mode (existsb id opened)) rows (key_set (from_rows ++ from_tombstones)) tombstones cas (max_id ids)).

(** [_removal_keys] *)
Definition removal_keys (allowed : pydict) : res (list Triple) :=
  _ ← validate_removal_authority (JObj allowed);
  section ← or_empty (dict_get allowed "static_route");
  match get section "route" with
  | JArr l => map_res sr_key l
  | v => if json_truthy v then Raise (TypeError "not a list of keys") else Ok []
  end.

(** [promotion_removal_keys] *)
Definition promotion_removal_keys (removed : tables) : res pydict :=
  keys ← collect tombstone_keys (table_rows removed SR_INTENT);
  Ok match keys with [] => [] | _ => [("route", JArr (map triple_json (key_set keys)))] end.

Definition clear_of (row : pydict) : res (list SrClear) :=
  fields ← candidate_clear_fields row;
  match fields with
  | [] => Ok []
  | _ => i ← row_id row; t ← row_triple row; Ok [mkSrClear i t fields]
  end.

(** [classify_removal_plan] *)
Definition classify_removal_plan (rows tombstones : list pydict) (allowed context : pydict) : res SrRemovalPlan :=
  keys ← removal_keys allowed;
  from_tombstones ← collect tombstone_keys tombstones;
  rendered ← map_res row_triple rows;
  deployed ← map_res deployed_of rows;
  let authorized := keys ++ from_tombstones in
  clears ← (if clears_suppressed context then Ok [] else collect clear_of rows);
  ids ← map_res row_id tombstones;
  Ok (mkRemovalPlan (key_set (List.filter (fun k => negb (in_keys k rendered)) authorized)) (key_set (rendered ++ omap id deployed)) ids clears
        (key_set (List.filter (fun k => in_keys k rendered) authorized))).

(** ** The recorded form *)

Definition cas_json (c : SrCas) : json :=
  JObj [("row_id", JInt (cas_row_id c)); ("route_id", cas_route_id c); ("sent_triple", triple_json (cas_sent c)); ("expected_old", cas_expected_old c)].

(** [_serialize_apply_plan] *)
Definition serialize_apply_plan (p : SrPlan) : res pydict :=
  row_ids ← map_res row_id (sp_rows p);
  tombstone_ids ← map_res row_id (sp_tombstones p);
  Ok [("mode", JStr (sp_mode p)); ("row_ids", JArr (map JInt row_ids)); ("allowed_removal_keys", JArr (map triple_json (sp_allowed p)));
      ("tombstone_ids", JArr (map JInt tombstone_ids)); ("cas", JArr (map cas_json (sp_cas p))); ("tombstone_id_watermark", JInt (sp_watermark p))].

Definition clear_json (c : SrClear) : json :=
  JObj [("row_id", JInt (cl_row_id c)); ("key", triple_json (cl_key c)); ("fields", JArr (map JStr (cl_fields c)))].

(** [_serialize_removal_plan] *)
Definition serialize_removal_plan (p : SrRemovalPlan) : pydict :=
  [("authorized_removal_keys", JArr (map triple_json (rp_authorized p))); ("claimed_keys", JArr (map triple_json (rp_claimed p)));
   ("tombstone_ids", JArr (map JInt (rp_tombstone_ids p))); ("candidate_clears", JArr (map clear_json (rp_clears p)));
   ("reclaimed_keys", JArr (map triple_json (rp_reclaimed p)))].

(** [freeze_static_route_proof] *)
Definition freeze_static_route_proof (t : tables) (context : pydict) : res pydict :=
  hydrated ← hydrate_static_routes [("static_route", JObj (dict_set (tables_json t) EXECUTION_KEY (JObj [("context", JObj context)])))];
  plan ← classify_apply_plan (table_rows hydrated SR_INTENT) (table_rows hydrated SR_TOMBSTONE);
  recorded ← serialize_apply_plan plan;
  Ok [("apply", JObj recorded)].

(** ** Rebuilding a recorded apply plan *)

Definition as_plan (v : json) : res pydict := match v with JObj d => Ok d | _ => Raise (TypeError "not a mapping") end.
Definition items_of (v : json) : res (list json) := match v with JArr l => Ok l | _ => Raise (TypeError "not a list") end.
Definition member_items (d : pydict) (k : pystr) : res (list json) := v ← required d k; items_of v.
Definition int_item (v : json) : res Z := match v with JInt z => Ok z | _ => Raise (TypeError "not an integer id") end.

(** [prune_apply_plan] *)
Definition prune_apply_plan (plan : json) (rows tombstones : list json) : res json :=
  d ← as_plan plan;
  selected ← member_items d "row_ids";
  rows ← map_res as_row rows;
  tombstones ← map_res as_row tombstones;
  from_rows ← collect predecessors (List.filter (fun r => existsb (py_eq (get r "id")) selected) rows);
  from_tombstones ← collect tombstone_keys tombstones;
  ids ← map_res row_id tombstones;
  Ok (JObj (dict_update d [("allowed_removal_keys", JArr (map triple_json (key_set (from_rows ++ from_tombstones))));
                           ("tombstone_ids", JArr (map JInt ids)); ("tombstone_id_watermark", JInt (max_id ids))])).

(** [tuple(key)] of a recorded key *)
Definition recorded_key (v : json) : res Triple :=
  match v with JArr [JStr a; JStr b; JStr c] => Ok (a, b, c) | _ => Raise (TypeError "not a recorded key") end.
Definition cas_item (v : json) : res (Z * json) :=
  match v with JObj d => i ← required d "row_id"; z ← int_item i; Ok (z, v) | _ => Raise (TypeError "not a CAS record") end.
Definition lookup_cas (l : list (Z * json)) (i : Z) : option json := assoc_get Z.eqb l i.

(** The retained rows' loop of [extend_apply_plan]: the row ids, the CAS records, the keys and the mode. *)
Fixpoint extend_loop (source : list (Z * json)) (rows : list pydict) (ids : list Z) (cas : list (Z * json)) (allowed : list Triple) (mode : json) :
    res (list Z * list (Z * json) * list Triple * json) :=
  match rows with
  | [] => Ok (ids, cas, allowed, mode)
  | row :: rows =>
      i ← row_id row;
      if bool_decide (i ∈ ids) then extend_loop source rows ids cas allowed mode
      else match lookup_cas source i with
           | None => Raise (ValueError "retained static-route row has no recorded CAS coordinates")
           | Some item =>
               k ← open_predecessor row;
               match k with
               | None => extend_loop source rows (ids ++ [i]) (assoc_set Z.eqb cas i item) allowed mode
               | Some k => extend_loop source rows (ids ++ [i]) (assoc_set Z.eqb cas i item) (allowed ++ [k]) (JStr "PUT")
               end
           end
  end.

(** [{item['row_id']: item for item in l}] *)
Definition cas_index (l : list json) : res (list (Z * json)) :=
  items ← map_res cas_item l; Ok (fold_left (fun d iv => assoc_set Z.eqb d iv.1 iv.2) items []).

(** [extend_apply_plan] *)
Definition extend_apply_plan (desired : option json) (source : pydict) (retained : list pydict) : res json :=
  match desired with
  | None | Some JNull => Raise (ValueError "a retained static-route fragment carries no apply plan to extend")
  | Some desired =>
      match retained with
      | [] => Ok desired
      | _ =>
          source ← match dict_get source "cas" with
                   | Some v => if json_truthy v then l ← items_of v; cas_index l else Ok []
                   | None => Ok []
                   end;
          d ← as_plan desired;
          ids ← (l ← member_items d "row_ids"; map_res int_item l);
          cas ← (l ← member_items d "cas"; cas_index l);
          allowed ← (l ← member_items d "allowed_removal_keys"; map_res recorded_key l);
          mode ← required d "mode";
          '(ids, cas, allowed, mode) ← extend_loop source retained (remove_dups ids) cas allowed mode;
          let ordered := stable_sort Z.leb ids in
          items ← map_res (fun i => match lookup_cas cas i with Some v => Ok v | None => Raise KeyError end) ordered;
          Ok (JObj (dict_update d [("mode", mode); ("row_ids", JArr (map JInt ordered)); ("cas", JArr items);
                                   ("allowed_removal_keys", JArr (map triple_json (key_set allowed)))]))
      end
  end.

(** ** The operation plane of a removal *)

(** The selected carriers, by primary key, of one device. *)
Definition selected_tombstones (live : tables) (device_id : Z) (ids : list Z) : list pydict :=
  stable_sort id_le (List.filter (fun t => is_int (get t "device_id") device_id && existsb (is_int (get t "id")) ids) (table_rows live SR_TOMBSTONE)).

(** [build_static_route_operation] *)
Definition build_static_route_operation (live : tables) (device_id : Z) (document removal_context allowed : pydict) (tombstone_ids : list Z) : res pydict :=
  match dict_get document "static_route" with
  | None | Some JNull => Raise (ValueError "a static_route removal generation carries no static_route section to classify")
  | Some _ =>
      hydrated ← hydrate_static_routes document;
      let selected := selected_tombstones live device_id tombstone_ids in
      ids ← map_res row_id selected;
      _ ← guard_or (forallb (fun i => bool_decide (i ∈ ids)) tombstone_ids) (RuntimeError "static_route removal references missing tombstones");
      plan ← classify_removal_plan (table_rows hydrated SR_INTENT) selected allowed removal_context;
      Ok [("removal", JObj (serialize_removal_plan plan)); ("tombstone_ids", JArr (map JInt (stable_sort Z.leb tombstone_ids)))]
  end.

(** ** Hydration of the recorded plans *)

(** [_recorded_apply] *)
Definition recorded_apply (document : pydict) : res json := proof ← section_proof document "static_route"; Ok (get (default [] proof) "apply").

Definition MODES : list pystr := ["PATCH"; "PUT"].
Definition mode_of (v : json) : option pystr := match v with JStr m => if mem m MODES then Some m else None | _ => None end.

(** [recorded_static_route_apply_mode] *)
Definition recorded_static_route_apply_mode (document : pydict) : res (option pystr) :=
  if dict_mem document "static_route" then
    record ← recorded_apply document;
    match record with
    | JObj d => match mode_of (get d "mode") with Some m => Ok (Some m) | None => Raise (ValueError "invalid recorded apply mode") end
    | _ => Raise (ValueError "invalid recorded apply mode")
    end
  else Ok None.

Definition APPLY_RECORD : list pystr := ["mode"; "row_ids"; "allowed_removal_keys"; "tombstone_ids"; "cas"; "tombstone_id_watermark"].
Definition REMOVAL_RECORD : list pystr := ["authorized_removal_keys"; "claimed_keys"; "tombstone_ids"; "candidate_clears"; "reclaimed_keys"].

(** Rows by primary key: a repeated key keeps its last row. *)
Definition by_id (rows : list pydict) (i : json) : option pydict := List.find (fun r => py_eq (get r "id") i) (rev rows).
Definition recorded_rows (rows : list pydict) (v : option json) (e : pystr) : res (list pydict) :=
  match v with
  | Some (JArr l) => map_res (fun i => match by_id rows i with Some r => Ok r | None => Raise (ValueError e) end) l
  | _ => Raise (ValueError e)
  end.

Definition cas_of_json (v : json) : res SrCas :=
  match v with
  | JObj d => i ← required d "row_id"; z ← int_item i; route ← required d "route_id"; sent ← required d "sent_triple"; key ← sr_key sent;
              old ← required d "expected_old"; Ok (mkCas z route key old)
  | _ => Raise (AttributeError "get")
  end.

(** [hydrate_static_route_apply_plan] *)
Definition hydrate_static_route_apply_plan (document : pydict) : res SrPlan :=
  _ ← section_context document "static_route";
  record ← recorded_apply document;
  match record with
  | JObj d =>
      match same_members (dict_keys d) APPLY_RECORD, mode_of (get d "mode") with
      | true, Some mode =>
          hydrated ← hydrate_static_routes document;
          rows ← recorded_rows (table_rows hydrated SR_INTENT) (dict_get d "row_ids") "apply plan does not match its rows";
          tombstones ← recorded_rows (table_rows hydrated SR_TOMBSTONE) (dict_get d "tombstone_ids") "apply plan does not match its tombstones";
          ids ← map_res row_id rows;
          items ← member_items d "cas";
          cas ← map_res cas_of_json (List.filter (fun v => match v with JObj c => existsb (fun i => is_int (get c "row_id") i) ids | _ => true end) items);
          _ ← guard_or (forallb (fun i => bool_decide (i ∈ map cas_row_id cas)) ids) (ValueError "apply plan has invalid CAS coordinates");
          allowed ← (l ← member_items d "allowed_removal_keys"; map_res sr_key l);
          watermark ← (v ← required d "tombstone_id_watermark"; int_item v);
          Ok (mkSrPlan mode rows (key_set allowed) tombstones cas watermark)
      | _, _ => Raise (ValueError "invalid recorded apply plan")
      end
  | _ => Raise (ValueError "invalid recorded apply plan")
  end.

(** [_certify_clears], one clear against the document's own rows *)
Definition certify_clear (rows : list pydict) (c : SrClear) : res unit :=
  match by_id rows (JInt (cl_row_id c)) with
  | None => Raise (ValueError "recorded static-route clear names a row this document does not carry")
  | Some row =>
      here ← row_triple row;
      _ ← guard_or (bool_decide (cl_key c = here)) (ValueError "recorded static-route clear does not match the row's rendered key");
      fields ← authorized_clear_fields (get row "pending_clear");
      guard_or (subset_of (cl_fields c) (List.filter (fun f => negb (wire_set f (get row f))) fields))
        (ValueError "recorded static-route clear names fields its carrier does not hold wire-unset")
  end.
Definition certify_clears (document : pydict) (clears : list SrClear) : res unit :=
  match clears with
  | [] => Ok tt
  | _ => section ← or_empty (dict_get document "static_route");
         rows ← rows_of (default (JArr []) (dict_get section SR_INTENT));
         _ ← map_res (certify_clear rows) clears; Ok tt
  end.

Definition clear_of_json (v : json) : res SrClear :=
  match v with
  | JObj d => i ← required d "row_id"; z ← int_item i; k ← required d "key"; key ← sr_key k; l ← member_items d "fields";
              fields ← map_res (fun f => match f with JStr s => Ok s | _ => Raise (TypeError "a field name is not text") end) l;
              Ok (mkSrClear z key fields)
  | _ => Raise (TypeError "not a clear record")
  end.

(** [hydrate_static_route_removal_plan] *)
Definition hydrate_static_route_removal_plan (document : pydict) : res SrRemovalPlan :=
  _ ← section_context document "static_route";
  operation ← section_operation document "static_route";
  match get operation "removal" with
  | JObj d =>
      _ ← guard_or (same_members (dict_keys d) REMOVAL_RECORD) (ValueError "invalid recorded removal plan");
      clears ← (l ← member_items d "candidate_clears"; map_res clear_of_json l);
      _ ← certify_clears document clears;
      authorized ← (l ← member_items d "authorized_removal_keys"; map_res sr_key l);
      claimed ← (l ← member_items d "claimed_keys"; map_res sr_key l);
      ids ← (l ← member_items d "tombstone_ids"; map_res int_item l);
      reclaimed ← (l ← member_items d "reclaimed_keys"; map_res sr_key l);
      Ok (mkRemovalPlan (key_set authorized) (key_set claimed) ids clears reclaimed)
  | _ => Raise (ValueError "invalid recorded removal plan")
  end.
