(* ===== verification/StaticPlanProps.v ===== *)
(** * What static-route plans guarantee

    The clear carrier's two halves, the authority a removal plan grants, the round trip of both plans through their recorded form,
    and the equivalence of a pruned plan with a fresh classification over the surviving carriers. *)

From stdpp Require Import base list sorting.
From Stdlib Require Import ZArith NArith Lia.
From S2P Require Import Prelude Json Text Registry Document Asn Identity Store Generation StaticPlan.
Local Open Scope py_scope.
Local Open Scope Z_scope.

(** ** The order of keys *)

Lemma chars_ltb_irrefl a : chars_ltb a a = false.
Proof. induction a as [|x a IH]; [done|]. cbn. by rewrite N.ltb_irrefl, IH, andb_false_r. Qed.
Lemma chars_ltb_trans a b c : chars_ltb a b = true → chars_ltb b c = true → chars_ltb a c = true.
Proof.
  revert b c. induction a as [|x a IH]; intros [|y b] [|z c]; cbn; try done.
  rewrite !orb_true_iff, !andb_true_iff, !N.ltb_lt, !N.eqb_eq. intros [H1|[-> H1]] [H2|[-> H2]]; [left; lia|by left|by left|right; eauto].
Qed.
Lemma chars_ltb_total a b : a ≠ b → chars_ltb a b = false → chars_ltb b a = true.
Proof.
  revert b. induction a as [|x a IH]; intros [|y b]; cbn; try done.
  rewrite orb_false_iff, andb_false_iff, orb_true_iff, andb_true_iff, !N.ltb_lt, !N.ltb_ge, !N.eqb_neq, !N.eqb_eq. intros Hne [H [Hxy|Hab]].
  - left. lia.
  - destruct (decide (y = x)) as [->|]; [|left; lia]. right. split; [done|]. apply IH; [|done]. by intros ->.
Qed.

(** A boolean strict total order. *)
Class StrictOrder {A} (ltb : A -> A -> bool) : Prop := {
  ltb_irrefl a : ltb a a = false;
  ltb_trans a b c : ltb a b = true → ltb b c = true → ltb a c = true;
  ltb_total a b : a ≠ b → ltb a b = false → ltb b a = true }.
#[export] Instance py_ltb_order : StrictOrder py_ltb.
Proof.
  split.
  - intros [a]. apply chars_ltb_irrefl.
  - intros [a] [b] [c]. apply chars_ltb_trans.
  - intros [a] [b] H. apply chars_ltb_total. cbn. congruence.
Qed.
(** Lexicographic composition. *)
Lemma lex_order {A B} `{EqDecision A} `{EqDecision B} (la : A -> A -> bool) (lb : B -> B -> bool) : StrictOrder la → StrictOrder lb →
  StrictOrder (fun x y : A * B => la x.1 y.1 || bool_decide (x.1 = y.1) && lb x.2 y.2).
Proof.
  intros Ha Hb. split.
  - intros [a b]. cbn. by rewrite ltb_irrefl, ltb_irrefl, andb_false_r.
  - intros [a b] [a' b'] [a'' b'']. cbn. rewrite !orb_true_iff, !andb_true_iff, !bool_decide_eq_true.
    intros [H1|[-> H1]] [H2|[-> H2]]; eauto 6 using ltb_trans.
  - intros [a b] [a' b'] Hne. cbn. rewrite orb_false_iff, andb_false_iff, orb_true_iff, andb_true_iff, bool_decide_eq_true, bool_decide_eq_false.
    intros [H1 H2]. destruct (decide (a = a')) as [->|Hd]; [|left; by apply ltb_total]. right. split; [done|].
    apply ltb_total; [congruence|]. by destruct H2.
Qed.
#[export] Instance triple_order : StrictOrder triple_ltb.
Proof.
  pose proof (lex_order _ _ py_ltb_order (lex_order _ _ py_ltb_order py_ltb_order)) as [Hi Ht Hl]. split.
  - intros [[a b] c]. apply (Hi (a, (b, c))).
  - intros [[a b] c] [[a' b'] c'] [[a'' b''] c'']. apply (Ht (a, (b, c)) (a', (b', c')) (a'', (b'', c''))).
  - intros [[a b] c] [[a' b'] c'] Hne. apply (Hl (a, (b, c)) (a', (b', c'))). congruence.
Qed.

Section Sets.
Context {A : Type} `{EqDecision A} (ltb : A -> A -> bool) `{!StrictOrder ltb}.
Local Definition leb (a b : A) : bool := negb (ltb b a).
Local Notation set_of l := (stable_sort leb (remove_dups l)).

Lemma leb_total a b : leb a b = false → leb b a = true.
Proof.
  unfold leb. rewrite negb_false_iff, negb_true_iff. intros H. destruct (ltb a b) eqn:E; [|done].
  pose proof (ltb_trans _ _ _ H E) as C. by rewrite ltb_irrefl in C.
Qed.
#[local] Instance leb_trans : Transitive (fun a b => leb a b = true).
Proof.
  intros a b c. unfold leb. rewrite !negb_true_iff. intros H1 H2. destruct (ltb c a) eqn:E; [|done].
  destruct (decide (a = b)) as [->|Hne]; [congruence|]. assert (ltb a b = true) by (apply ltb_total; [congruence|done]).
  by rewrite (ltb_trans _ _ _ E H) in H2.
Qed.
#[local] Instance leb_anti : AntiSymm (=) (fun a b => leb a b = true).
Proof.
  intros a b. unfold leb. rewrite !negb_true_iff. intros H1 H2. destruct (decide (a = b)) as [|Hne]; [done|].
  pose proof (ltb_total b a (not_eq_sym Hne) H1). congruence.
Qed.

Lemma elem_of_set_of x l : x ∈ set_of l ↔ x ∈ l.
Proof. by rewrite elem_of_stable_sort, elem_of_remove_dups. Qed.
Lemma NoDup_set_of l : NoDup (set_of l).
Proof. rewrite stable_sort_perm. apply NoDup_remove_dups. Qed.
(** Sets are equal when they have the same elements. *)
Lemma set_of_ext l l' : (∀ x, x ∈ l ↔ x ∈ l') → set_of l = set_of l'.
Proof.
  intros H. apply (Sorted_unique (fun a b => leb a b = true)); [apply stable_sort_sorted, leb_total..|].
  apply NoDup_Permutation; [apply NoDup_set_of..|]. intros x. by rewrite !elem_of_set_of.
Qed.
Lemma set_of_idem l : set_of (set_of l) = set_of l.
Proof. apply set_of_ext. intros x. apply elem_of_set_of. Qed.
End Sets.

Lemma elem_of_key_set k l : k ∈ key_set l ↔ k ∈ l.
Proof. apply (elem_of_set_of triple_ltb). Qed.
Lemma key_set_ext l l' : (∀ k, k ∈ l ↔ k ∈ l') → key_set l = key_set l'.
Proof. apply (set_of_ext triple_ltb). Qed.
Lemma key_set_idem l : key_set (key_set l) = key_set l.
Proof. apply (set_of_idem triple_ltb). Qed.

(** ** The clear carrier *)

Lemma map_res_map {A B C} (f : B -> res C) (g : A -> B) (h : A -> C) l : (∀ x, f (g x) = Ok (h x)) → map_res f (map g l) = Ok (map h l).
Proof. intros H. induction l as [|x l IH]; [done|]. cbn [map map_res]. by rewrite H, IH. Qed.

Lemma elem_of_without f l m : f ∈ fields_without l m ↔ f ∈ l ∧ f ∉ m.
Proof. unfold fields_without. rewrite list_elem_of_In, filter_In, negb_true_iff, <-list_elem_of_In. unfold mem. by rewrite bool_decide_eq_false. Qed.
Lemma elem_of_union_fields f l m : f ∈ fields_union l m ↔ f ∈ l ∨ f ∈ m.
Proof. unfold fields_union. by rewrite elem_of_remove_dups, elem_of_app. Qed.

Definition half_of (a s : list pystr) (half : pystr) : list pystr := if bool_decide (half = AUTHORIZED) then a else s.
Definition carrier_of (a s : list pystr) : json :=
  match a, s with [], [] => JNull | _, _ => JObj [(AUTHORIZED, sorted_fields a); (STORE_ONLY, sorted_fields s)] end.
Lemma carrier_half_of a s half : half = AUTHORIZED ∨ half = STORE_ONLY → carrier_half (carrier_of a s) half = Ok (stable_sort py_leb (half_of a s half)).
Proof.
  assert (Hl : ∀ l, (if json_truthy (sorted_fields l) then
    match sorted_fields l with JArr l => map_res (fun f => match f with JStr s => Ok s | _ => Raise (TypeError "a field name is not text") end) l | _ => Raise (TypeError "not a list of fields") end
    else Ok []) = Ok (stable_sort py_leb l)).
  { intros l. unfold sorted_fields. destruct (stable_sort py_leb l) as [|f fs] eqn:E; [done|]. cbn [json_truthy map]. rewrite <-E.
    change (JStr f :: map JStr fs) with (map JStr (f :: fs)). rewrite <-E. rewrite (map_res_map _ _ id) by done. by rewrite map_id. }
  intros [-> | ->]; unfold carrier_of, half_of; destruct a as [|x a]; destruct s as [|y s]; try done; unfold carrier_half; cbn [json_truthy];
    first [rewrite bool_decide_true by done | rewrite bool_decide_false by done]; rewrite <-Hl; reflexivity.
Qed.

(** The clear carrier.  Every push leaves a carrier whose authorized half is the old one without the re-set fields, with the
    cleared ones added exactly when the push may write the device; its store-only half gets the clears of a store-only push that
    are not authorized already, and loses what an ordinary push clears.  The halves stay disjoint, so a store-only push never
    authorizes a clear and never demotes one. *)
Theorem clear_carrier_halves carrier cleared reset store_only a s : carrier_half carrier AUTHORIZED = Ok a → carrier_half carrier STORE_ONLY = Ok s →
  ∃ carrier' a' s', update_pending_clear carrier cleared reset store_only = Ok carrier' ∧
    carrier_half carrier' AUTHORIZED = Ok a' ∧ carrier_half carrier' STORE_ONLY = Ok s' ∧
    (∀ f, f ∈ a' ↔ (f ∈ a ∧ f ∉ reset) ∨ (store_only = false ∧ f ∈ cleared)) ∧
    (∀ f, f ∈ s' ↔ f ∈ s ∧ f ∉ reset ∧ (store_only = false → f ∉ cleared) ∨ store_only = true ∧ f ∈ cleared ∧ ¬ (f ∈ a ∧ f ∉ reset)) ∧
    (a ## s → a' ## s').
Proof.
  intros Ha Hs. unfold update_pending_clear. rewrite Ha, Hs. unfold_res.
  set (au := if store_only then _ else _) at 1. set (st := if store_only then _ else _).
  change (match au with [] => _ | _ => _ end) with (carrier_of au st).
  assert (Ea : ∀ f, f ∈ stable_sort py_leb au ↔ (f ∈ a ∧ f ∉ reset) ∨ (store_only = false ∧ f ∈ cleared)).
  { intros f. rewrite elem_of_stable_sort. unfold au. destruct store_only; rewrite ?elem_of_union_fields, ?elem_of_without, ?elem_of_remove_dups; naive_solver. }
  assert (Es : ∀ f, f ∈ stable_sort py_leb st ↔ f ∈ s ∧ f ∉ reset ∧ (store_only = false → f ∉ cleared) ∨ store_only = true ∧ f ∈ cleared ∧ ¬ (f ∈ a ∧ f ∉ reset)).
  { intros f. rewrite elem_of_stable_sort. unfold st. destruct store_only; rewrite ?elem_of_union_fields, ?elem_of_without, ?elem_of_remove_dups; naive_solver. }
  exists (carrier_of au st), (stable_sort py_leb au), (stable_sort py_leb st).
  split; [reflexivity|]. rewrite !carrier_half_of by auto. split; [done|]. split; [done|]. split; [done|]. split; [done|].
  intros Hd f Hf Hf'. rewrite Ea in Hf. rewrite Es in Hf'. specialize (Hd f). destruct store_only; naive_solver.
Qed.

(** ** Collected lists *)

Lemma map_res_elem {A B} (f : A -> res B) l out y : map_res f l = Ok out → y ∈ out → ∃ x, x ∈ l ∧ f x = Ok y.
Proof.
  revert out. induction l as [|x l IH]; intros out; cbn [map_res]; [by intros [= <-] ?%elem_of_nil|].
  intros (y' & Hy & H)%bind_Ok. apply bind_Ok in H as (out' & H & [= <-]). intros [->|Hin]%elem_of_cons; [exists x; split; [left|done]|].
  destruct (IH _ H Hin) as (x' & ? & ?). exists x'. split; [by right|done].
Qed.
Lemma collect_elem {A B} (f : A -> res (list B)) l out y : collect f l = Ok out → y ∈ out → ∃ x ys, x ∈ l ∧ f x = Ok ys ∧ y ∈ ys.
Proof.
  unfold collect. intros (r & H & [= <-])%bind_Ok Hy. apply list_elem_of_In, in_concat in Hy as (ys & Hys & Hy).
  apply list_elem_of_In in Hys, Hy.
  destruct (map_res_elem _ _ _ _ H Hys) as (x & ? & ?). eauto.
Qed.

(** ** Removal plans *)

Lemma candidate_fields row fields : candidate_clear_fields row = Ok fields → fields ≠ [] → ∃ a, authorized_clear_fields (get row "pending_clear") = Ok a ∧
  replacement_open row = Ok false ∧ ∀ f, f ∈ fields → f ∈ a ∧ wire_set f (get row f) = false.
Proof.
  unfold candidate_clear_fields. intros (a & Ha & H)%bind_Ok Hne. exists a. split; [done|]. destruct a as [|x a]; [injection H as <-; congruence|].
  apply bind_Ok in H as ([] & Ho & [= <-]); [done|]. split; [done|]. intros f Hf. apply elem_of_stable_sort in Hf.
  change (f ∈ List.filter (fun f => negb (wire_set f (get row f))) (x :: a)) in Hf. apply list_elem_of_In, filter_In in Hf as [Hf Hw]. apply list_elem_of_In in Hf. by apply negb_true_iff in Hw.
Qed.
Lemma clear_of_elem row cs c : clear_of row = Ok cs → c ∈ cs → row_id row = Ok (cl_row_id c) ∧ row_triple row = Ok (cl_key c) ∧
  candidate_clear_fields row = Ok (cl_fields c) ∧ cl_fields c ≠ [].
Proof.
  unfold clear_of. intros (fields & Hf & H)%bind_Ok Hc. destruct fields as [|f fs]; [injection H as <-; by apply elem_of_nil in Hc|].
  apply bind_Ok in H as (i & Hi & H). apply bind_Ok in H as (t & Ht & [= <-]). apply list_elem_of_singleton in Hc as ->. done.
Qed.

(** The authority of a removal.  A removal plan authorizes exactly the keys its generation or its carriers name that no
    surviving route renders; the named keys that are rendered again are recorded as reclaimed.  It clears leaves only outside
    detached and deferred removals, of a route with no open replacement, that the row holds unset, and only those in the
    authorized half of its carrier. *)
Theorem removal_plan_authority rows tombstones allowed context p : classify_removal_plan rows tombstones allowed context = Ok p →
  ∃ keys owed rendered, removal_keys allowed = Ok keys ∧ collect tombstone_keys tombstones = Ok owed ∧ map_res row_triple rows = Ok rendered ∧
    (∀ k, k ∈ rp_authorized p ↔ (k ∈ keys ∨ k ∈ owed) ∧ k ∉ rendered) ∧
    (∀ k, k ∈ rp_reclaimed p ↔ (k ∈ keys ∨ k ∈ owed) ∧ k ∈ rendered) ∧
    (∀ c, c ∈ rp_clears p → clears_suppressed context = false ∧ ∃ row a, row ∈ rows ∧ row_id row = Ok (cl_row_id c) ∧ row_triple row = Ok (cl_key c) ∧
       replacement_open row = Ok false ∧ authorized_clear_fields (get row "pending_clear") = Ok a ∧
       ∀ f, f ∈ cl_fields c → f ∈ a ∧ wire_set f (get row f) = false).
Proof.
  unfold classify_removal_plan. intros (keys & Hk & H)%bind_Ok. apply bind_Ok in H as (owed & Ho & H). apply bind_Ok in H as (rendered & Hr & H).
  apply bind_Ok in H as (deployed & _ & H). apply bind_Ok in H as (clears & Hc & H). apply bind_Ok in H as (ids & _ & [= <-]).
  exists keys, owed, rendered. split_and!; [done..| | |]; cbn [rp_authorized rp_reclaimed rp_clears].
  - intros k. rewrite elem_of_key_set, list_elem_of_In, filter_In, <-list_elem_of_In, negb_true_iff, elem_of_app. unfold in_keys. by rewrite bool_decide_eq_false.
  - intros k. rewrite elem_of_key_set, list_elem_of_In, filter_In, <-list_elem_of_In, elem_of_app. unfold in_keys. by rewrite bool_decide_eq_true.
  - intros c Hin. destruct (clears_suppressed context); [injection Hc as <-; by apply elem_of_nil in Hin|]. split; [done|].
    destruct (collect_elem _ _ _ _ Hc Hin) as (row & cs & Hrow & Hcs & Hcc). destruct (clear_of_elem _ _ _ Hcs Hcc) as (Hi & Ht & Hf & Hne).
    destruct (candidate_fields _ _ Hf Hne) as (a & ? & ? & ?). exists row, a. done.
Qed.

(** ** The recorded plans *)

Lemma sr_key_json t : sr_key (triple_json t) = Ok t.
Proof. by destruct t as [[a b] c]. Qed.
Lemma sr_keys_json l : map_res sr_key (map triple_json l) = Ok l.
Proof. rewrite (map_res_map _ _ id) by apply sr_key_json. by rewrite map_id. Qed.
Lemma int_items_json l : map_res int_item (map JInt l) = Ok l.
Proof. rewrite (map_res_map _ _ id) by done. by rewrite map_id. Qed.
Lemma clear_round c : clear_of_json (clear_json c) = Ok c.
Proof.
  destruct c as [i [[a b] k] fs]. unfold clear_of_json, clear_json, member_items, required. cbn [dict_get cl_row_id cl_key cl_fields].
  repeat (rewrite decide_False by done). rewrite !decide_True by done. unfold_res. cbn. rewrite (map_res_map _ _ id) by done. by rewrite map_id.
Qed.
Lemma clears_round l : map_res clear_of_json (map clear_json l) = Ok l.
Proof. rewrite (map_res_map _ _ id) by apply clear_round. by rewrite map_id. Qed.

(** Rows with distinct integer primary keys. *)
Definition distinct_ids (rows : list pydict) : Prop := ∃ ids, map_res row_id rows = Ok ids ∧ NoDup ids.

Lemma row_id_get row i : row_id row = Ok i → get row "id" = JInt i.
Proof. unfold row_id. destruct (get row "id"); try done. by intros [= ->]. Qed.
Lemma by_id_unique rows row i : distinct_ids rows → row ∈ rows → row_id row = Ok i → by_id rows (JInt i) = Some row.
Proof.
  intros (ids & Hids & Hn) Hin Hi. unfold by_id. apply map_res_Ok in Hids.
  assert (Hall : ∀ r, r ∈ rows → py_eq (get r "id") (JInt i) = true → r = row).
  { intros r Hr He. apply list_elem_of_lookup in Hr as [n Hr], Hin as [m Hm]. destruct (Forall2_lookup_l _ _ _ _ _ Hids Hr) as (j & Hj & Ej).
    destruct (Forall2_lookup_l _ _ _ _ _ Hids Hm) as (j' & Hj' & Ej'). rewrite (row_id_get _ _ Ej) in He. cbn in He. apply Z.eqb_eq in He as ->.
    rewrite Hi in Ej'. injection Ej' as <-. pose proof (NoDup_lookup _ _ _ _ Hn Hj Hj') as ->. congruence. }
  destruct (List.find _ (rev rows)) as [r|] eqn:E.
  - apply find_some in E as [Hr He]. f_equal. apply Hall; [|done]. apply list_elem_of_In. by apply in_rev.
  - apply list_elem_of_In, in_rev in Hin. pose proof (find_none _ _ E _ Hin) as C. cbn beta in C.
    rewrite (row_id_get _ _ Hi) in C. cbn in C. by rewrite Z.eqb_refl in C.
Qed.

Lemma subset_of_spec a b : subset_of a b = true ↔ ∀ f, f ∈ a → f ∈ b.
Proof.
  unfold subset_of. rewrite forallb_forall. split; intros H f Hf.
  - apply list_elem_of_In, H in Hf. unfold mem in Hf. by apply bool_decide_eq_true in Hf.
  - apply bool_decide_eq_true, H. by apply list_elem_of_In.
Qed.

(** A clear of the classification is certified by the rows it was classified from. *)
Lemma clear_certified rows row cs c : distinct_ids rows → row ∈ rows → clear_of row = Ok cs → c ∈ cs → certify_clear rows c = Ok tt.
Proof.
  intros Hd Hin Hcs Hc. destruct (clear_of_elem _ _ _ Hcs Hc) as (Hi & Ht & Hf & Hne). destruct (candidate_fields _ _ Hf Hne) as (a & Ha & _ & Hall).
  unfold certify_clear. rewrite (by_id_unique _ _ _ Hd Hin Hi), Ht. unfold_res. rewrite bool_decide_true by done. cbn [guard_or]. rewrite Ha. unfold_res.
  apply guard_or_Ok, subset_of_spec. intros f Hff. destruct (Hall _ Hff) as [H1 H2]. apply list_elem_of_In, filter_In. split; [by apply list_elem_of_In|].
  by rewrite H2.
Qed.
Lemma clears_certified rows clears : distinct_ids rows → collect clear_of rows = Ok clears → ∃ l, map_res (certify_clear rows) clears = Ok l.
Proof.
  intros Hd Hc. assert (H : ∀ c, c ∈ clears → certify_clear rows c = Ok tt).
  { intros c Hin. destruct (collect_elem _ _ _ _ Hc Hin) as (row & cs & ? & ? & ?). eauto using clear_certified. }
  clear Hc. induction clears as [|c clears IH]; [eauto|]. cbn [map_res]. rewrite H by left. destruct IH as [l Hl]; [intros c' Hc'; apply H; by right|].
  unfold_res. rewrite Hl. eauto.
Qed.

(** *** Sections *)

Lemma map_res_same {A} (f : A -> res A) l out : (∀ x y, f x = Ok y → y = x) → map_res f l = Ok out → out = l.
Proof. intros Hf H%map_res_Ok. induction H as [|x y l out Hxy _ IH]; [done|]. f_equal; auto. Qed.
Lemma hydrate_row_same columns x y : hydrate_row columns x = Ok y → y = x.
Proof. unfold hydrate_row. intros (u & _ & H)%bind_Ok. by destruct (get x "id"); try done; injection H as <-. Qed.
Lemma hydrate_table_same x y : hydrate_table x = Ok y → y = x.
Proof.
  unfold hydrate_table. destruct x as [table rows]. cbn [fst snd].
  case_bool_decide; [|case_bool_decide; [|done]]; intros (out & Hout & [= <-])%bind_Ok; f_equal; apply (map_res_same (hydrate_row _)) in Hout; auto;
    intros a b; apply hydrate_row_same.
Qed.
Lemma hydrate_same document h : hydrate_static_routes document = Ok h → ∃ context section, section_context document "static_route" = Ok context ∧
  or_empty (dict_get document "static_route") = Ok section ∧ tables_of section = Ok h.
Proof.
  unfold hydrate_static_routes. destruct (dict_mem document "static_route"); [|done]. intros (context & Hc & H)%bind_Ok. apply bind_Ok in H as (section & Hs & H).
  apply bind_Ok in H as (t & Ht & H). apply bind_Ok in H as (u & _ & H). apply map_res_same in H as ->; [eauto|apply hydrate_table_same].
Qed.
Lemma tables_of_rows section t table : tables_of section = Ok t → table ≠ EXECUTION_KEY →
  rows_of (default (JArr []) (dict_get section table)) = Ok (table_rows t table).
Proof.
  unfold tables_of, table_rows. intros H%map_res_Ok Hne. unfold fragment_tables in H. revert t H. induction section as [|[k v] section IH]; intros t H.
  - cbn in H. inversion H; subst. done.
  - cbn [List.filter fst] in H. cbn [dict_get]. case_bool_decide as Hk; cbn [negb] in H.
    + subst k. rewrite decide_False by done. by apply IH.
    + inversion H as [|x y l l' Hxy Hrest]; subst. apply bind_Ok in Hxy as (rows & Hr & [= <-]). cbn [fst snd] in *. cbn [dict_get].
      destruct (decide (table = k)); [done|]. by apply IH.
Qed.

(** Writing the operation plane changes neither the section's context nor its tables. *)
Definition with_operation (body : pydict) (section execution operation : pydict) : pydict :=
  dict_set body "static_route" (JObj (dict_set section EXECUTION_KEY (JObj (dict_set execution "operation" (JObj operation))))).

Lemma or_empty_obj d kv : or_empty (Some (JObj (kv :: d))) = Ok (kv :: d).
Proof. done. Qed.
Lemma dict_set_cons {V} (d : list (pystr * V)) k v : ∃ kv d', dict_set d k v = kv :: d'.
Proof. destruct d as [|[k' v'] d]; cbn; [eauto|]. destruct (decide _); eauto. Qed.
Lemma written_section body section execution operation :
  or_empty (dict_get (with_operation body section execution operation) "static_route") =
  Ok (dict_set section EXECUTION_KEY (JObj (dict_set execution "operation" (JObj operation)))).
Proof. unfold with_operation. rewrite dict_get_set_eq. destruct (dict_set_cons section EXECUTION_KEY (JObj (dict_set execution "operation" (JObj operation)))) as (kv & d' & ->). done. Qed.
Lemma written_execution body section execution operation :
  section_execution (with_operation body section execution operation) "static_route" = Ok (dict_set execution "operation" (JObj operation)).
Proof. unfold section_execution. rewrite written_section. unfold_res. by rewrite dict_get_set_eq. Qed.
Lemma written_context body section execution operation context : section_execution body "static_route" = Ok execution →
  section_context body "static_route" = Ok context → section_context (with_operation body section execution operation) "static_route" = Ok context.
Proof.
  unfold section_context. rewrite written_execution. intros ->. unfold_res. by rewrite dict_get_set_ne by done.
Qed.
Lemma written_operation body section execution operation :
  section_operation (with_operation body section execution operation) "static_route" = Ok operation.
Proof. unfold section_operation. rewrite written_execution. unfold_res. by rewrite dict_get_set_eq. Qed.

(** What the worker hydrates from a recorded plan. *)
Lemma removal_plan_hydrates document context operation rows p clears_context :
  section_context document "static_route" = Ok context → section_operation document "static_route" = Ok operation →
  get operation "removal" = JObj (serialize_removal_plan p) → distinct_ids rows →
  (section ← or_empty (dict_get document "static_route"); rows_of (default (JArr []) (dict_get section SR_INTENT))) = Ok rows →
  key_set (rp_authorized p) = rp_authorized p → key_set (rp_claimed p) = rp_claimed p →
  (if clears_suppressed clears_context then Ok [] else collect clear_of rows) = Ok (rp_clears p) →
  hydrate_static_route_removal_plan document = Ok p.
Proof.
  intros Hc Ho Hg Hd Hrows E1 E2 Hcl. unfold hydrate_static_route_removal_plan. rewrite Hc, Ho. unfold_res. rewrite Hg. clear Hg Hc Ho.
  replace (same_members (dict_keys (serialize_removal_plan p)) REMOVAL_RECORD) with true by reflexivity. cbn [guard_or].
  unfold member_items, required.
  replace (dict_get (serialize_removal_plan p) "candidate_clears") with (Some (JArr (map clear_json (rp_clears p)))) by reflexivity.
  replace (dict_get (serialize_removal_plan p) "authorized_removal_keys") with (Some (JArr (map triple_json (rp_authorized p)))) by reflexivity.
  replace (dict_get (serialize_removal_plan p) "claimed_keys") with (Some (JArr (map triple_json (rp_claimed p)))) by reflexivity.
  replace (dict_get (serialize_removal_plan p) "tombstone_ids") with (Some (JArr (map JInt (rp_tombstone_ids p)))) by reflexivity.
  replace (dict_get (serialize_removal_plan p) "reclaimed_keys") with (Some (JArr (map triple_json (rp_reclaimed p)))) by reflexivity.
  unfold_res. cbn [items_of]. rewrite clears_round, !sr_keys_json, int_items_json. unfold_res.
  assert (Hcert : certify_clears document (rp_clears p) = Ok tt).
  { unfold certify_clears. destruct (rp_clears p) as [|c cs] eqn:E; [done|]. destruct (clears_suppressed clears_context); [done|].
    apply bind_Ok in Hrows as (section & Hs & Hrows). rewrite Hs. unfold_res. rewrite Hrows. unfold_res.
    destruct (clears_certified _ _ Hd Hcl) as [l Hl]. by rewrite Hl. }
  rewrite Hcert, E1, E2. unfold_res. by destruct p.
Qed.

(** The operation an addressed static_route section gets. *)
Definition static_operation (live : tables) : Db -> Z -> pydict -> pydict -> pydict -> list Z -> res pydict :=
  fun _ => build_static_route_operation live.

Lemma removal_recorded live device_id document context allowed ids operation : build_static_route_operation live device_id document context allowed ids = Ok operation →
  ∃ h p, hydrate_static_routes document = Ok h ∧
    classify_removal_plan (table_rows h SR_INTENT) (selected_tombstones live device_id ids) allowed context = Ok p ∧
    operation = [("removal", JObj (serialize_removal_plan p)); ("tombstone_ids", JArr (map JInt (stable_sort Z.leb ids)))].
Proof.
  unfold build_static_route_operation. destruct (dict_get document "static_route") as [[| | | | | |]|]; try done;
    intros (h & Hh & H)%bind_Ok; apply bind_Ok in H as (? & _ & H); apply bind_Ok in H as (? & _ & H); apply bind_Ok in H as (p & Hp & [= <-]); eauto 6.
Qed.
Lemma plan_sets rows tombstones allowed context p : classify_removal_plan rows tombstones allowed context = Ok p →
  key_set (rp_authorized p) = rp_authorized p ∧ key_set (rp_claimed p) = rp_claimed p ∧
  (if clears_suppressed context then Ok [] else collect clear_of rows) = Ok (rp_clears p).
Proof.
  unfold classify_removal_plan. intros (? & _ & H)%bind_Ok. apply bind_Ok in H as (? & _ & H). apply bind_Ok in H as (? & _ & H).
  apply bind_Ok in H as (? & _ & H). apply bind_Ok in H as (clears & Hc & H). apply bind_Ok in H as (? & _ & [= <-]). cbn [rp_authorized rp_claimed rp_clears].
  by rewrite !key_set_idem.
Qed.

(** C33: Recorded removal plans.  When the operation plane of a static-route removal is written over a document whose routes have
    distinct ids, what the worker hydrates from the written document is the classification made at creation, key for key and
    clear for clear: no recorded clear is refused by its own document. *)
Theorem removal_plan_round_trip live d device_id body context allowed tombstone_ids discharged immediate body' :
  dict_get context "scope" = Some (JStr "static_route") →
  (∀ h, hydrate_static_routes body = Ok h → distinct_ids (table_rows h SR_INTENT)) →
  write_operation (static_operation live) d device_id body (Some context) allowed tombstone_ids discharged immediate = Ok body' →
  ∃ h p, hydrate_static_routes body = Ok h ∧
    classify_removal_plan (table_rows h SR_INTENT) (selected_tombstones live device_id tombstone_ids) allowed context = Ok p ∧
    hydrate_static_route_removal_plan body' = Ok p.
Proof.
  intros Hscope Hids H. unfold write_operation in H. change (default [] (Some context)) with context in H. rewrite Hscope in H.
  destruct (dict_get body "static_route") as [[| | | | | |section]|] eqn:Hsec; try done. apply bind_Ok in H as (operation & Hop & H).
  unfold operation_plane in Hop. rewrite bool_decide_true in Hop by done. apply bind_Ok in Hop as (extra & Hx & Hop).
  destruct (removal_recorded _ _ _ _ _ _ _ Hx) as (h & p & Hh & Hp & ->).
  assert (Hg : get operation "removal" = JObj (serialize_removal_plan p)) by (injection Hop as <-; unfold get, get_or; by rewrite dict_get_set_ne, dict_get_set_eq by done).
  clear Hop. exists h, p. split; [done|]. split; [done|].
  destruct (hydrate_same _ _ Hh) as (ctx & section' & Hctx & Hs' & Ht).
  assert (Hexec : ∃ execution, section_execution body "static_route" = Ok execution)
    by (unfold section_context in Hctx; apply bind_Ok in Hctx as (e & He & _); eauto).
  destruct Hexec as [execution He]. assert (Hse : section' = section ∧ dict_get section EXECUTION_KEY = Some (JObj execution)).
  { unfold section_execution in He. apply bind_Ok in He as (b & Hb & He). rewrite Hs' in Hb. injection Hb as <-. rewrite Hsec in Hs'.
    destruct section as [|kv section]; [injection Hs' as <-; done|]. injection Hs' as <-. split; [done|]. by destruct (dict_get (kv :: section) EXECUTION_KEY) as [[| | | | | |]|]; try done; injection He as <-. }
  destruct Hse as [-> Hex]. rewrite Hex in H. change (default (JObj []) (Some ?v)) with v in H. injection H as <-. fold (with_operation body section execution operation).
  destruct (plan_sets _ _ _ _ _ Hp) as (E1 & E2 & E3).
  eapply (removal_plan_hydrates _ ctx operation (table_rows h SR_INTENT)); [by apply written_context|apply written_operation|done|by apply Hids| |done|done|done].
  rewrite written_section. unfold_res. rewrite dict_get_set_ne by done. by apply tables_of_rows.
Qed.

(** ** Apply plans *)

Lemma as_rows_json l : map_res as_row (map JObj l) = Ok l.
Proof. rewrite (map_res_map _ _ id) by done. by rewrite map_id. Qed.
Lemma filter_ext_elem {A} (f g : A -> bool) l : (∀ x, x ∈ l → f x = g x) → List.filter f l = List.filter g l.
Proof. intros H. apply filter_ext_in. intros x Hx. apply H. by apply list_elem_of_In. Qed.

Lemma distinct_row_ids rows r : distinct_ids rows → r ∈ rows → ∃ i, row_id r = Ok i.
Proof. intros (ids & H%map_res_Ok & _) Hr. apply list_elem_of_lookup in Hr as [n Hn]. destruct (Forall2_lookup_l _ _ _ _ _ H Hn) as (i & _ & ?). eauto. Qed.

(** The recorded row ids select the accepted rows again. *)
Lemma selected_accepted rows ids : distinct_ids rows → map_res row_id (List.filter accepted rows) = Ok ids →
  List.filter (fun r => existsb (py_eq (get r "id")) (map JInt ids)) rows = List.filter accepted rows.
Proof.
  intros Hd Hids. apply filter_ext_elem. intros r Hr. apply Bool.eq_iff_eq_true. rewrite existsb_exists. destruct (distinct_row_ids _ _ Hd Hr) as [i Hi].
  rewrite (row_id_get _ _ Hi). split.
  - intros (v & Hv & He). apply in_map_iff in Hv as (j & <- & Hj). cbn in He. apply Z.eqb_eq in He as <-. apply list_elem_of_In in Hj.
    destruct (map_res_elem _ _ _ _ Hids Hj) as (r' & Hr' & Hi'). apply list_elem_of_In, filter_In in Hr' as [Hr' Ha]. apply list_elem_of_In in Hr'.
    pose proof (by_id_unique _ _ _ Hd Hr Hi) as E1. rewrite (by_id_unique _ _ _ Hd Hr' Hi') in E1. by injection E1 as <-.
  - intros Ha. exists (JInt i). split; [|cbn; apply Z.eqb_refl]. apply in_map. apply map_res_Ok in Hids.
    assert (r ∈ List.filter accepted rows) as Hf by (apply list_elem_of_In, filter_In; split; [by apply list_elem_of_In|done]).
    apply list_elem_of_lookup in Hf as [n Hn]. destruct (Forall2_lookup_l _ _ _ _ _ Hids Hn) as (j & Hj & E). rewrite Hi in E. injection E as <-.
    apply list_elem_of_In. by apply list_elem_of_lookup_2 in Hj.
Qed.

(** The parts of a classification. *)
Lemma classify_parts rows tombstones p : classify_apply_plan rows tombstones = Ok p → ∃ opened from_rows from_tombstones cas ids,
  map_res replacement_open (List.filter accepted rows) = Ok opened ∧ collect predecessors (List.filter accepted rows) = Ok from_rows ∧
  collect tombstone_keys tombstones = Ok from_tombstones ∧ map_res cas_of (List.filter accepted rows) = Ok cas ∧ map_res row_id tombstones = Ok ids ∧
  p = mkSrPlan (plan_mode (existsb id opened)) (List.filter accepted rows) (key_set (from_rows ++ from_tombstones)) tombstones cas (max_id ids).
Proof.
  unfold classify_apply_plan. intros (opened & ? & H)%bind_Ok. apply bind_Ok in H as (from_rows & ? & H). apply bind_Ok in H as (from_tombstones & ? & H).
  apply bind_Ok in H as (cas & ? & H). apply bind_Ok in H as (ids & ? & [= <-]). exists opened, from_rows, from_tombstones, cas, ids. done.
Qed.
Lemma serialize_parts p recorded : serialize_apply_plan p = Ok recorded → ∃ row_ids tombstone_ids, map_res row_id (sp_rows p) = Ok row_ids ∧
  map_res row_id (sp_tombstones p) = Ok tombstone_ids ∧
  recorded = [("mode", JStr (sp_mode p)); ("row_ids", JArr (map JInt row_ids)); ("allowed_removal_keys", JArr (map triple_json (sp_allowed p)));
              ("tombstone_ids", JArr (map JInt tombstone_ids)); ("cas", JArr (map cas_json (sp_cas p))); ("tombstone_id_watermark", JInt (sp_watermark p))].
Proof. unfold serialize_apply_plan. intros (row_ids & ? & H)%bind_Ok. apply bind_Ok in H as (ids & ? & [= <-]). eauto. Qed.

(** Pruning is reclassification.  Pruning the consumed carriers out of a recorded apply plan gives exactly the plan a fresh
    classification of the same routes over the surviving carriers records: same mode, rows, coordinates, authority and
    watermark. *)
Theorem prune_is_reclassification rows tombstones survivors p recorded p' : distinct_ids rows →
  classify_apply_plan rows tombstones = Ok p → serialize_apply_plan p = Ok recorded → classify_apply_plan rows survivors = Ok p' →
  ∃ recorded', serialize_apply_plan p' = Ok recorded' ∧ prune_apply_plan (JObj recorded) (map JObj rows) (map JObj survivors) = Ok (JObj recorded').
Proof.
  intros Hd Hp Hs Hp'. destruct (classify_parts _ _ _ Hp) as (opened & fr & ft & cas & ids & Ho & Hfr & Hft & Hcas & Hids & ->).
  destruct (classify_parts _ _ _ Hp') as (opened' & fr' & ft' & cas' & ids' & Ho' & Hfr' & Hft' & Hcas' & Hids' & ->).
  destruct (serialize_parts _ _ Hs) as (row_ids & tids & Hrow & Htid & ->). cbn [sp_rows sp_tombstones sp_mode sp_allowed sp_cas sp_watermark] in *.
  rewrite Ho in Ho'. rewrite Hfr in Hfr'. rewrite Hcas in Hcas'. injection Ho' as <-. injection Hfr' as <-. injection Hcas' as <-.
  unfold serialize_apply_plan. cbn [sp_rows sp_tombstones sp_mode sp_allowed sp_cas sp_watermark]. rewrite Hrow, Hids'. unfold_res.
  eexists. split; [reflexivity|]. unfold prune_apply_plan, as_plan, member_items, required. unfold_res.
  change (dict_get (("mode", ?v) :: ?l) "row_ids") with (dict_get l "row_ids"). change (dict_get (("row_ids", ?v) :: ?l) "row_ids") with (Some v).
  unfold_res. cbn [items_of]. rewrite !as_rows_json. unfold_res. rewrite (selected_accepted _ _ Hd Hrow), Hfr, Hft', Hids'. reflexivity.
Qed.

(** *** The recorded apply plan *)

Lemma fragment_tables_set_execution d v : fragment_tables (dict_set d EXECUTION_KEY v) = fragment_tables d.
Proof.
  unfold fragment_tables. induction d as [|[k w] d IH]; [done|]. cbn [dict_set]. destruct (decide (EXECUTION_KEY = k)) as [<-|Hne]; cbn [List.filter fst].
  - by rewrite !bool_decide_true by done.
  - by rewrite IH.
Qed.
Lemma cas_round c : cas_of_json (cas_json c) = Ok c.
Proof. destruct c as [i r [[a b] k] o]. reflexivity. Qed.
Lemma cas_of_ids rows cas : map_res cas_of rows = Ok cas → map_res row_id rows = Ok (map cas_row_id cas).
Proof.
  rewrite !map_res_Ok. induction 1 as [|x c rows cas Hx _ IH]; [constructor|]. cbn [map]. constructor; [|done].
  unfold cas_of in Hx. apply bind_Ok in Hx as (i & Hi & H). by apply bind_Ok in H as (? & _ & [= <-]).
Qed.
Lemma recorded_rows_all rows sel ids e : distinct_ids rows → (∀ r, r ∈ sel → r ∈ rows) → map_res row_id sel = Ok ids →
  recorded_rows rows (Some (JArr (map JInt ids))) e = Ok sel.
Proof.
  intros Hd Hsub H%map_res_Ok. unfold recorded_rows. induction H as [|r i sel ids Hi _ IH]; [done|]. cbn [map map_res].
  rewrite (by_id_unique _ _ _ Hd (Hsub _ (list_elem_of_here _ _)) Hi). unfold_res. rewrite IH; [done|]. intros r' Hr'. apply Hsub. by right.
Qed.

(** The frozen section, with or without the recorded proof, hydrates to the same rows under the same context. *)
Definition frozen_section (t : tables) (execution : pydict) : pydict := dict_set (tables_json t) EXECUTION_KEY (JObj execution).
Lemma frozen_or_empty document t execution : dict_get document "static_route" = Some (JObj (frozen_section t execution)) →
  or_empty (dict_get document "static_route") = Ok (frozen_section t execution).
Proof. intros ->. unfold frozen_section. by destruct (dict_set_cons (tables_json t) EXECUTION_KEY (JObj execution)) as (kv & d & ->). Qed.
Lemma frozen_execution document t execution : dict_get document "static_route" = Some (JObj (frozen_section t execution)) →
  section_execution document "static_route" = Ok execution.
Proof. intros H. unfold section_execution. rewrite (frozen_or_empty _ _ _ H). unfold_res. unfold frozen_section. by rewrite dict_get_set_eq. Qed.
Lemma frozen_context document document' t execution execution' : dict_get document "static_route" = Some (JObj (frozen_section t execution)) →
  dict_get document' "static_route" = Some (JObj (frozen_section t execution')) → dict_get execution "context" = dict_get execution' "context" →
  section_context document "static_route" = section_context document' "static_route".
Proof. intros H H' E. unfold section_context. rewrite (frozen_execution _ _ _ H), (frozen_execution _ _ _ H'). unfold_res. by rewrite E. Qed.
Lemma frozen_hydrates document document' t execution execution' : dict_get document "static_route" = Some (JObj (frozen_section t execution)) →
  dict_get document' "static_route" = Some (JObj (frozen_section t execution')) → dict_get execution "context" = dict_get execution' "context" →
  hydrate_static_routes document = hydrate_static_routes document'.
Proof.
  intros H H' E. unfold hydrate_static_routes, dict_mem. rewrite (frozen_or_empty _ _ _ H), (frozen_or_empty _ _ _ H'), (frozen_context _ _ _ _ _ H H' E), H, H'.
  unfold_res. unfold tables_of, frozen_section. by rewrite !fragment_tables_set_execution.
Qed.

(** The proof of the static_route stream. *)
Definition static_proof (other : tables -> Z -> pystr -> tables -> pydict -> res pydict) : tables -> Z -> pystr -> tables -> pydict -> res pydict :=
  fun live device_id stream t context => if bool_decide (stream = "static_route") then freeze_static_route_proof t context else other live device_id stream t context.

Lemma cas_filter_all cas :
  List.filter (fun v => match v with JObj c => existsb (fun i => is_int (get c "row_id") i) (map cas_row_id cas) | _ => true end) (map cas_json cas) = map cas_json cas.
Proof.
  assert (H : ∀ l, (∀ c, c ∈ l → c ∈ cas) → List.filter (fun v => match v with JObj c => existsb (fun i => is_int (get c "row_id") i) (map cas_row_id cas) | _ => true end)
    (map cas_json l) = map cas_json l).
  { induction l as [|c l IH]; intros Hl; [done|]. cbn [map List.filter]. unfold cas_json at 1. replace (existsb _ _) with true.
    - rewrite IH; [done|]. intros c' Hc'. apply Hl. by right.
    - symmetry. apply existsb_exists. exists (cas_row_id c). split; [apply in_map, list_elem_of_In, Hl; left|]. apply Z.eqb_refl. }
  by apply H.
Qed.

(** The hydration of a recorded classification, part by part. *)
Lemma apply_plan_hydrates document h p recorded context : section_context document "static_route" = Ok context →
  recorded_apply document = Ok (JObj recorded) → hydrate_static_routes document = Ok h →
  distinct_ids (table_rows h SR_INTENT) → distinct_ids (table_rows h SR_TOMBSTONE) →
  classify_apply_plan (table_rows h SR_INTENT) (table_rows h SR_TOMBSTONE) = Ok p → serialize_apply_plan p = Ok recorded →
  hydrate_static_route_apply_plan document = Ok p.
Proof.
  intros Hc Hr Hh Hd Hd' Hp Hs. destruct (classify_parts _ _ _ Hp) as (opened & fr & ft & cas & tids & _ & _ & _ & Hcas & Htids & ->).
  destruct (serialize_parts _ _ Hs) as (ids & tids' & Hids & Htids' & ->). cbn [sp_rows sp_tombstones sp_mode sp_allowed sp_cas sp_watermark] in *.
  rewrite Htids in Htids'. injection Htids' as <-.
  unfold hydrate_static_route_apply_plan. rewrite Hc, Hr. unfold_res. set (mode := plan_mode _). set (keys := key_set _). match goal with |- context [dict_keys ?x] => set (d := x) end.
  replace (same_members (dict_keys d) APPLY_RECORD) with true by reflexivity.
  replace (mode_of (get d "mode")) with (Some mode) by (unfold mode; by destruct (existsb id opened)). rewrite Hh. unfold_res.
  unfold member_items, required.
  replace (dict_get d "row_ids") with (Some (JArr (map JInt ids))) by reflexivity.
  replace (dict_get d "tombstone_ids") with (Some (JArr (map JInt tids))) by reflexivity.
  replace (dict_get d "cas") with (Some (JArr (map cas_json cas))) by reflexivity.
  replace (dict_get d "allowed_removal_keys") with (Some (JArr (map triple_json keys))) by reflexivity.
  replace (dict_get d "tombstone_id_watermark") with (Some (JInt (max_id tids))) by reflexivity.
  rewrite (recorded_rows_all _ _ _ _ Hd) by (try exact Hids; intros r Hr'; apply list_elem_of_In, filter_In in Hr' as [Hr' _]; by apply list_elem_of_In).
  unfold_res. rewrite (recorded_rows_all _ _ _ _ Hd' (fun r Hr => Hr) Htids). unfold_res. rewrite Hids. unfold_res. cbn [items_of].
  pose proof (cas_of_ids _ _ Hcas) as E. rewrite Hids in E. injection E as ->.
  rewrite cas_filter_all. rewrite (map_res_map _ _ id) by apply cas_round. rewrite map_id. unfold_res.
  rewrite (proj2 (forallb_forall _ _)) by (intros i Hi; apply bool_decide_eq_true; by apply list_elem_of_In). cbn [guard_or]. rewrite sr_keys_json. unfold_res.
  unfold keys. by rewrite key_set_idem.
Qed.

(** Recorded apply plans.  Freezing a static_route fragment whose rows and carriers have distinct ids records a plan from which
    the worker hydrates exactly the classification of the frozen rows, out of any document that carries the fragment as its
    section. *)
Theorem apply_plan_round_trip other live device_id t fragment document :
  freeze_fragment (static_proof other) live device_id "static_route" t = Ok fragment → dict_get document "static_route" = Some (JObj fragment) →
  (∀ h, hydrate_static_routes document = Ok h → distinct_ids (table_rows h SR_INTENT) ∧ distinct_ids (table_rows h SR_TOMBSTONE)) →
  ∃ h p, hydrate_static_routes document = Ok h ∧ classify_apply_plan (table_rows h SR_INTENT) (table_rows h SR_TOMBSTONE) = Ok p ∧
    hydrate_static_route_apply_plan document = Ok p.
Proof.
  unfold freeze_fragment. intros H Hdoc Hids. replace (mem "static_route" PROOF_STREAMS) with true in H by reflexivity.
  apply bind_Ok in H as (proof & Hproof & H). apply bind_Ok in Hproof as (q & Hq & [= <-]). unfold static_proof in Hq. rewrite bool_decide_true in Hq by done.
  set (context := [("ned_id", _); _]) in *. unfold freeze_static_route_proof in Hq. apply bind_Ok in Hq as (h & Hh & Hq).
  apply bind_Ok in Hq as (p & Hp & Hq). apply bind_Ok in Hq as (recorded & Hrec & [= <-]).
  assert (Hsec : dict_get document "static_route" = Some (JObj (frozen_section t [("context", JObj context); ("proof", JObj [("apply", JObj recorded)])])))
    by (rewrite Hdoc; by injection H as <-).
  set (document0 := [("static_route", JObj (dict_set (tables_json t) EXECUTION_KEY (JObj [("context", JObj context)])))]) in Hh.
  assert (Hsec0 : dict_get document0 "static_route" = Some (JObj (frozen_section t [("context", JObj context)]))) by done.
  rewrite (frozen_hydrates _ _ _ _ _ Hsec0 Hsec eq_refl) in Hh. exists h, p. split; [done|]. split; [done|].
  destruct (hydrate_same _ _ Hh) as (ctx & _ & Hctx & _). destruct (Hids _ Hh) as [Hd Hd'].
  refine (apply_plan_hydrates _ _ _ _ _ Hctx _ Hh Hd Hd' Hp Hrec). unfold recorded_apply, section_proof. by rewrite (frozen_execution _ _ _ Hsec).
Qed.
