(* ===== verification/InterfaceProof.v ===== *)
(** * The proof an interface section executes with

    src/nso_adapter/core/projection.py: the interface records and eligibility decisions an authorization freezes
    ([build_interface_proof], [_freeze_interface_proof]), the worker's hydration of them ([hydrate_interface_execution]), the
    proof of rows retained from an earlier authorization ([retained_proof]), and [_freeze_proof], which picks the proof of a
    stream.  Interface ids are integers, as the columns declare. *)

From stdpp Require Import base list.
From Stdlib Require Import ZArith NArith Lia.
From S2P Require Import Prelude Json Text Registry Document Asn Identity StaticPlan.
Local Open Scope py_scope.
Local Open Scope Z_scope.

Definition INTERFACE_INTENT : pystr := "interface_intent".
Definition INTERFACE_IP_INTENT : pystr := "interface_ip_intent".
Definition INTERFACE_ATTRIBUTE_ELIGIBLE_STATES : list pystr := ["accepted"; "apply_failed"; "drifted"; "in_sync"].
Definition INTERFACE_PROOF_FIELDS : list pystr := ["id"; "name"; "kind"; "parent_binding"; "encap_tag"; "vrf"; "service"].

(** [_attribute_eligibility_key] *)
Definition attribute_eligibility_key (interface_id : Z) (attribute : pystr) : pystr := py_str_int interface_id +:+ "/" +:+ attribute.

(** [row['interface_id']], [row['attribute']] *)
Definition interface_id_of (row : pydict) : res Z := v ← required row "interface_id"; int_item v.
Definition attribute_of (row : pydict) : res pystr :=
  v ← required row "attribute"; match v with JStr s => Ok s | _ => Raise (TypeError "an attribute is not text") end.
Definition attribute_key_of (row : pydict) : res (Z * pystr) := i ← interface_id_of row; a ← attribute_of row; Ok (i, a).

Definition id_set (l : list Z) : list Z := stable_sort Z.leb (remove_dups l).
Definition attr_le (a b : Z * pystr) : bool := (a.1 <? b.1) || (a.1 =? b.1) && py_leb a.2 b.2.
Definition attr_set (l : list (Z * pystr)) : list (Z * pystr) := stable_sort attr_le (remove_dups l).

(** An eligibility verdict per interface and attribute. *)
Definition decisions : Type := list ((Z * pystr) * bool).
Definition decision_of (ds : decisions) (k : Z * pystr) : option bool := assoc_get (fun a b => bool_decide (a = b)) ds k.

Definition interface_by_id (interfaces : list pydict) (i : Z) : option pydict := List.find (fun r => is_int (get r "id") i) (rev interfaces).
Definition interface_record (row : pydict) : pydict := map (fun f => (f, get row f)) INTERFACE_PROOF_FIELDS.

(** The ids the rows of both tables reference. *)
Definition referenced_interfaces (t : tables) : res (list Z) :=
  ids ← map_res interface_id_of (table_rows t INTERFACE_INTENT ++ table_rows t INTERFACE_IP_INTENT); Ok (id_set ids).

(** [build_interface_proof] *)
Definition build_interface_proof (stream : pystr) (t : tables) (interfaces : list pydict) (ds : decisions) : res pydict :=
  let attr_rows := table_rows t INTERFACE_INTENT in
  ids ← referenced_interfaces t;
  records ← map_res (fun i => match interface_by_id interfaces i with
                              | Some row => Ok (py_str_int i, JObj (interface_record row))
                              | None => Raise InterfaceEligibilityUnresolved
                              end) ids;
  let proof := [("interfaces", JObj records)] in
  match attr_rows, bool_decide (stream = "interface_config") with
  | [], false => Ok proof
  | _, _ =>
      keys ← map_res attribute_key_of attr_rows;
      verdicts ← map_res (fun k => match decision_of ds k with
                                   | Some b => Ok (attribute_eligibility_key k.1 k.2, JBool b)
                                   | None => Raise InterfaceEligibilityUnresolved
                                   end) (attr_set keys);
      Ok (proof ++ [("attribute_eligibility", JObj verdicts)])
  end.

(** The verdicts of the states of the referenced interfaces: a later state of the same pair replaces an earlier one. *)
Definition state_decisions (live : tables) (ids : list Z) : res decisions :=
  entries ← map_res (fun row => k ← attribute_key_of row;
                                Ok (k, match get row "sync_state" with JStr s => mem s INTERFACE_ATTRIBUTE_ELIGIBLE_STATES | _ => false end))
              (List.filter (fun row => existsb (is_int (get row "interface_id")) ids) (table_rows live "interface_attr_state"));
  Ok (fold_left (fun ds e => assoc_set (fun a b => bool_decide (a = b)) ds e.1 e.2) entries []).

(** [_freeze_interface_proof] *)
Definition freeze_interface_proof (live : tables) (device_id : Z) (stream : pystr) (t : tables) : res pydict :=
  ids ← referenced_interfaces t;
  match ids with
  | [] => build_interface_proof stream t [] []
  | _ =>
      let interfaces := stable_sort id_le (List.filter (fun row => is_int (get row "device_id") device_id && existsb (is_int (get row "id")) ids) (table_rows live "interfaces")) in
      ds ← state_decisions live ids;
      build_interface_proof stream t interfaces ds
  end.

(** [_freeze_proof] on the streams that have one *)
Definition freeze_proof (live : tables) (device_id : Z) (stream : pystr) (t : tables) (context : pydict) : res pydict :=
  if mem stream ["interface_config"; "ip"] then freeze_interface_proof live device_id stream t else freeze_static_route_proof t context.

(** ** Hydration *)

Record InterfaceExecution := mkExecution { ie_interfaces : list (Z * pydict); ie_eligible : list (Z * pystr) }.

Definition hydrate_interface (kr : pystr * json) : res (Z * pydict) :=
  match kr.2 with
  | JObj record =>
      _ ← guard_or (same_members (dict_keys record) INTERFACE_PROOF_FIELDS) (ValueError "has invalid interface context");
      i ← int_item (get record "id");
      _ ← guard_or (bool_decide (py_str_int i = kr.1)) (ValueError "files interface under another key");
      Ok (i, record)
  | _ => Raise (ValueError "has invalid interface context")
  end.

(** [str(key).partition('/')] with a number before the separator *)
Definition hydrate_decision (kv : pystr * json) : res ((Z * pystr) * bool) :=
  match partition_on 47 (py_chars kv.1), kv.2 with
  | Some (digits, (_ :: _) as attribute), JBool b =>
      if isdigit digits then n ← int_of_digits digits; Ok ((Z.of_N n, PStr attribute), b) else Raise (ValueError "has an invalid eligibility decision")
  | _, _ => Raise (ValueError "has an invalid eligibility decision")
  end.

Definition same_ids (a b : list Z) : bool := forallb (fun i => bool_decide (i ∈ b)) a && forallb (fun i => bool_decide (i ∈ a)) b.
Definition or_object (v : json) : res pydict :=
  if json_truthy v then match v with JObj d => Ok d | _ => Raise (ValueError "has invalid execution proof") end else Ok [].

(** [hydrate_interface_execution] *)
Definition hydrate_interface_execution (document : pydict) : res InterfaceExecution :=
  section ← or_empty (dict_get document "interface_config");
  _ ← section_context document "interface_config";
  proof ← section_proof document "interface_config";
  let proof := default [] proof in
  _ ← guard_or (subset_of (dict_keys proof) ["interfaces"; "attribute_eligibility"] && dict_mem proof "interfaces") (ValueError "has invalid execution proof");
  match get proof "interfaces" with
  | JObj serialized =>
      eligibility ← or_object (get proof "attribute_eligibility");
      interfaces ← map_res hydrate_interface serialized;
      attr_rows ← rows_of (default (JArr []) (dict_get section INTERFACE_INTENT));
      ip_rows ← rows_of (default (JArr []) (dict_get section INTERFACE_IP_INTENT));
      referenced ← map_res interface_id_of (attr_rows ++ ip_rows);
      _ ← guard_or (same_ids (map fst interfaces) referenced) (ValueError "execution context does not match its rows");
      keys ← map_res attribute_key_of attr_rows;
      _ ← guard_or (same_members (dict_keys eligibility) (map (fun k => attribute_eligibility_key k.1 k.2) keys)) (ValueError "eligibility does not match its attribute rows");
      verdicts ← map_res hydrate_decision eligibility;
      Ok (mkExecution interfaces (map fst (List.filter snd verdicts)))
  | _ => Raise (ValueError "has invalid execution proof")
  end.

(** ** Retained rows *)

Definition any_retained (t : tables) : bool := existsb (fun tr => match tr.2 with [] => false | _ => true end) t.
(** [result.setdefault(key, {})] as a mapping *)
Definition member_object (d : pydict) (k : pystr) : res pydict :=
  match dict_get d k with None => Ok [] | Some (JObj o) => Ok o | Some _ => Raise (AttributeError "get") end.

Fixpoint retain_interfaces (rows : list pydict) (origin interfaces : pydict) : res pydict :=
  match rows with
  | [] => Ok interfaces
  | row :: rows =>
      i ← interface_id_of row;
      match dict_get origin (py_str_int i) with
      | None | Some JNull => Raise (ValueError "retained interface row references an interface with no recorded context")
      | Some record => interfaces ← merge_interface_records interfaces record (py_str_int i); retain_interfaces rows origin interfaces
      end
  end.
Fixpoint retain_eligibility (rows : list pydict) (origin eligibility : pydict) : res pydict :=
  match rows with
  | [] => Ok eligibility
  | row :: rows =>
      k ← attribute_key_of row;
      let key := attribute_eligibility_key k.1 k.2 in
      if dict_mem eligibility key then retain_eligibility rows origin eligibility
      else match dict_get origin key with
           | None | Some JNull => Raise (ValueError "retained attribute row has no recorded eligibility decision")
           | Some decision => retain_eligibility rows origin (dict_set eligibility key decision)
           end
  end.

(** [retained_proof] *)
Definition retained_proof (stream : pystr) (desired : option json) (source : option json) (retained : tables) : res (option json) :=
  if any_retained retained then
    result ← match desired with None | Some JNull => Ok [] | Some (JObj d) => Ok d | Some _ => Raise (AttributeError "setdefault") end;
    origin ← or_empty source;
    if mem stream ["interface_config"; "ip"] then
      interfaces ← member_object result "interfaces";
      origin_interfaces ← or_empty (dict_get origin "interfaces");
      interfaces ← retain_interfaces (concat (map snd retained)) origin_interfaces interfaces;
      let result := dict_set result "interfaces" (JObj interfaces) in
      if bool_decide (stream = "interface_config") then
        eligibility ← member_object result "attribute_eligibility";
        origin_eligibility ← or_empty (dict_get origin "attribute_eligibility");
        eligibility ← retain_eligibility (table_rows retained INTERFACE_INTENT) origin_eligibility eligibility;
        Ok (Some (JObj (dict_set result "attribute_eligibility" (JObj eligibility))))
      else Ok (Some (JObj result))
    else if bool_decide (stream = "static_route") then
      origin_apply ← or_empty (dict_get origin "apply");
      plan ← extend_apply_plan (dict_get result "apply") origin_apply (table_rows retained SR_INTENT);
      Ok (Some (JObj (dict_set result "apply" plan)))
    else Ok (Some (JObj result))
  else Ok (match desired with Some JNull => None | o => o end).
