(* ===== verification/PromotionContext.v ===== *)
(** * The removal context of a promoted stream

    src/nso_adapter/core/removal.py: [promotion_removal_context], which maps the rows a promotion removes to the guarded keys, the
    interfaces and the secret references its removal job executes with. *)

From stdpp Require Import base list.
From Stdlib Require Import ZArith NArith Lia.
From S2P Require Import Prelude Json Text Ip Registry Document Asn Identity Store Generation Receipt Removal StaticPlan InterfaceProof.
Local Open Scope py_scope.
Local Open Scope Z_scope.

(** ** Keys in the order of their text *)

(** [repr(s)]; a character beyond ASCII stands for itself *)
Definition repr_char (quote c : N) : list N :=
  if N.eqb c quote || N.eqb c 92 then [92%N; c]
  else if N.eqb c 10 then py_chars "\n" else if N.eqb c 13 then py_chars "\r" else if N.eqb c 9 then py_chars "\t"
  else if N.ltb c 32 || N.eqb c 127 then py_chars "\x" ++ hex_padded 2 c else [c].
Definition repr_text (s : list N) : list N :=
  let quote := if negb (lacks 39 s) && lacks 34 s then 34%N else 39%N in [quote] ++ concat (map (repr_char quote) s) ++ [quote].

(** [str(v)] and [repr(v)] of a column value *)
Definition value_text (v : json) : list N :=
  match v with
  | JNull => py_chars "None"
  | JBool b => py_chars (if b then "True" else "False")
  | JStr s => py_chars s
  | v => py_chars (dumps spaced_sorted v)
  end.
Definition value_repr (v : json) : list N := match v with JStr s => repr_text (py_chars s) | v => value_text v end.

(** The text of a key: one value, or a tuple of several. *)
Definition key_text (fields : list json) : pystr :=
  match fields with
  | [v] => PStr (value_text v)
  | l => PStr (py_chars "(" ++ join_chars (py_chars ", ") (map value_repr l) ++ py_chars ")")
  end.

Fixpoint distinct_keys (keys : list (list json)) (seen : list (list json)) : list (list json) :=
  match keys with
  | [] => []
  | k :: keys => if existsb (key_eqb k) seen then distinct_keys keys seen else k :: distinct_keys keys (k :: seen)
  end.
Definition key_json (fields : list json) : json := match fields with [v] => v | l => JArr l end.

(** [_row_keys] *)
Definition row_keys (t : tables) (table : pystr) (fields : list pystr) : res (list json) :=
  let keys := map (fun row => map (get row) fields) (table_rows t table) in
  if forallb (forallb scalar) keys
  then Ok (map key_json (stable_sort (fun a b => py_leb (key_text a) (key_text b)) (distinct_keys keys [])))
  else Raise unhashable.

Definition PROMOTION_GUARD_FIELDS : list (pystr * list (pystr * pystr * list pystr)) :=
  [("vlan", [("vlan_intent", "vlan", ["vlan_id"])]);
   ("bfd", [("bfd_intent", "interface", ["interface_name"])]);
   ("svi", [("svi_intent", "interface", ["interface_name"])]);
   ("subinterface", [("subinterface_intent", "interface", ["interface_name"])]);
   ("interface_mtu", [("interface_mtu_intent", "interface", ["interface_name"])]);
   ("logging", [("logging_host_intent", "host", ["address"])]);
   ("l2_sap", [("l2_sap_intent", "sap", ["service_name"; "sap_id"])]);
   ("static_route", [("static_route_intent", "route", ["vrf"; "prefix"; "next_hop"])]);
   ("snmp", [("snmp_community_intent", "community", ["label"]); ("snmp_v3_user_intent", "v3-user", ["username"]); ("snmp_host_intent", "host", ["address"])]);
   ("bgp", [("bgp_router_intent", "router", ["asn"]); ("bgp_peer_intent", "peer", ["peer_address"])]);
   ("ospf", [("ospf_instance_intent", "process-config", ["process_id"]); ("ospf_interface_intent", "interface-config", ["interface_name"])]);
   ("isis", [("isis_process_intent", "process-config", ["process_tag"]); ("isis_interface_intent", "interface-config", ["interface_name"; "af"])])].

(** Guarded keys by label. *)
Definition labels : Type := list (pystr * list json).
Definition add_key (l : labels) (label : pystr) (k : json) : labels := dict_set l label (default [] (dict_get l label) ++ [k]).

(** ** Interfaces *)

(** [ip_interface(text).version]: an address with an optional prefix length or, for IPv4, a netmask *)
Definition prefix_digits (bound : N) (s : list N) : bool :=
  match s with [] => false | _ => forallb is_digit_char s && (of_digits 10 (map (fun c => c - 48)%N s) <=? bound)%N end.
Definition v4_number (octets : list N) : N := of_digits 256 octets.
(** [_prefix_from_ip_int] succeeds: ones followed by zeros *)
Definition contiguous_mask (n : N) : bool := existsb (fun k => (n =? (2 ^ 32 - 2 ^ k))%N) (map N.of_nat (seq 0 33)).
Definition v4_mask (s : list N) : bool :=
  prefix_digits 32 s || match parse_v4 s with
                        | Some octets => contiguous_mask (v4_number octets) || contiguous_mask (N.lxor (v4_number octets) (2 ^ 32 - 1))
                        | None => false
                        end.
Definition parse_v6_scoped (s : list N) : option (list N) :=
  match partition_on 37 s with
  | None => parse_v6 s
  | Some (addr, scope) => if lacks 37 scope && negb (length scope =? 0)%nat then parse_v6 addr else None
  end.
Definition ip_interface_version (text : pystr) : option Z :=
  let '(addr, mask) := match split_on 47 (py_chars text) with
                       | [addr] => (Some addr, None)
                       | [addr; mask] => (Some addr, Some mask)
                       | _ => (None, None)
                       end in
  match addr with
  | None => None
  | Some addr =>
      match parse_v4 addr, match mask with Some m => v4_mask m | None => true end with
      | Some _, true => Some 4
      | _, _ => match parse_v6_scoped addr, match mask with Some m => prefix_digits 128 m | None => true end with Some _, true => Some 6 | _, _ => None end
      end
  end.

Definition INTERFACE_ATTRIBUTE_LEAVES : list pystr := ["description"; "enabled"].
(** [s.rsplit('/', 1)[0]] *)
Definition host_part (s : pystr) : pystr :=
  match split_on 47 (py_chars s) with [] => s | [_] => s | parts => PStr (join_chars [47%N] (removelast parts)) end.

Fixpoint address_keys (addresses : list Triple) (keys : labels) : res labels :=
  match addresses with
  | [] => Ok keys
  | (interface, address, _) :: addresses =>
      match ip_interface_version address with
      | None => Raise (ApplyUnexecutable ["ip"])
      | Some v => address_keys addresses (add_key keys (if v =? 4 then "ipv4-address" else "ipv6-address") (JArr [JStr interface; JStr (host_part address)]))
      end
  end.

(** [interface_removal_keys] *)
Definition interface_removal_keys (interfaces : list pystr) (addresses : list Triple) (attributes : list (pystr * pystr)) : res labels :=
  let keys := fold_left (fun l ia => if mem ia.2 INTERFACE_ATTRIBUTE_LEAVES then add_key l ia.2 (JArr [JStr ia.1]) else l) attributes [] in
  let keys := match addresses with [] => keys | l => dict_set keys "address" (map triple_json l) end in
  keys ← address_keys addresses keys;
  Ok match interfaces with [] => keys | l => dict_set keys "interface" (map (fun n => JArr [JStr n]) l) end.

(** The names of the interfaces of a device, by id. *)
Definition name_of (live : tables) (device_id i : Z) : option pystr :=
  match List.find (fun row => is_int (get row "id") i && is_int (get row "device_id") device_id) (table_rows live "interfaces") with
  | Some row => match get row "name" with JStr s => Some s | _ => None end
  | None => None
  end.
Definition row_interface (row : pydict) : option Z := match get row "interface_id" with JInt i => Some i | _ => None end.
Definition named (live : tables) (device_id : Z) (row : pydict) : option pystr := i ← row_interface row; name_of live device_id i.
Definition all_rows (t : tables) : list pydict := concat (map snd t).
Definition name_set (l : list pystr) : list pystr := sorted_strs (remove_dups l).

(** [_promotion_interface_context] *)
Definition promotion_interface_context (live : tables) (device_id : Z) (removed replacement : tables) : res (list pystr * labels) :=
  let rows := all_rows removed ++ all_rows replacement in
  let ids := omap row_interface rows in
  _ ← guard_or (forallb (fun i => given (name_of live device_id i)) ids) PromotionInterfaceUnresolved;
  let interfaces := name_set (omap (named live device_id) rows) in
  addresses ← map_res (fun ra => a ← key_part (get ra.2 "address"); v ← key_part (get ra.2 "vrf"); Ok (ra.1, a, v))
                (omap (fun row => n ← named live device_id row; Some (n, row)) (table_rows removed INTERFACE_IP_INTENT));
  let replaced := omap (named live device_id) (all_rows replacement) in
  let emptied := name_set (List.filter (fun n => negb (mem n replaced)) (omap (named live device_id) (all_rows removed))) in
  attributes ← map_res (fun ra => a ← attribute_of ra.2; Ok (ra.1, a))
                 (omap (fun row => n ← named live device_id row; Some (n, row)) (table_rows removed INTERFACE_INTENT));
  let pair_le (a b : pystr * pystr) := py_ltb a.1 b.1 || bool_decide (a.1 = b.1) && py_leb a.2 b.2 in
  keys ← interface_removal_keys emptied (key_set addresses) (stable_sort pair_le (remove_dups attributes));
  Ok (interfaces, keys).

(** ** The context *)

Record PromotionRemovalContext := mkContext { px_interfaces : list pystr; px_removed : labels; px_vault_refs : pydict }.

Definition policy_keys (rows : list pydict) (l : labels) : labels :=
  fold_left (fun l row => match get row "family" with
                          | JStr family => match dict_get ROUTE_POLICY_FAMILY_LISTS family with Some label => add_key l label (get row "name") | None => l end
                          | _ => l
                          end) rows l.
Definition vault_refs_of (rows : list pydict) : res pydict :=
  refs ← map_res (fun row => match get row "label" with JStr s => Ok (s, get row "vault_ref") | _ => Raise (TypeError "a label is not text") end)
           (List.filter (fun row => json_truthy (get row "label") && json_truthy (get row "vault_ref")) rows);
  Ok (dict_of_pairs refs).

(** [promotion_removal_context]; an absent list is an empty one, as every reader tests it *)
Definition promotion_removal_context (live : tables) (device_id : Z) (scope : pystr) (removed_rows replacement_rows : tables) : res PromotionRemovalContext :=
  sections ← projection_sections;
  _ ← guard_or (mem scope sections) (ValueError "Unknown removal scope");
  let ned := NedContext (device_ned live device_id) in
  _ ← validate_tables ned removed_rows;
  _ ← validate_tables ned replacement_rows;
  guarded ← map_res (fun g => let '(table, label, fields) := g in keys ← row_keys removed_rows table fields; Ok (label, keys))
              (default [] (dict_get PROMOTION_GUARD_FIELDS scope));
  let removed := fold_left (fun l g => dict_set l g.1 g.2) (List.filter (fun g => nonempty g.2) guarded) [] in
  let removed := if bool_decide (scope = "route_policy") then policy_keys (table_rows removed_rows "route_policy_object_intent") removed else removed in
  refs ← (if bool_decide (scope = "snmp") then vault_refs_of (table_rows removed_rows "snmp_community_intent") else Ok []);
  if bool_decide (scope = "interface_config") then
    ik ← promotion_interface_context live device_id removed_rows replacement_rows; Ok (mkContext ik.1 ik.2 refs)
  else Ok (mkContext [] removed refs).
