(* ===== verification/Chain.v ===== *)
(** * The chain of an Apply

    src/nso_adapter/core/generation.py: the selection of receipts and prepared revisions ([_selected_promotions]), the fragments,
    documents and links of the chain that promotes them ([_create_apply_chain], [_enqueue_action_removal_links]), and the two entry
    points [create_action_apply] and [create_automatic_apply].  The prepared columns of the stream rows, which nothing here
    writes, are the argument [prepared]. *)

From stdpp Require Import base gmap list.
From Stdlib Require Import ZArith NArith Lia.
From S2P Require Import Prelude Json Text Registry Document Asn Identity Store Generation Admission Receipt Removal Plan StaticPlan InterfaceProof PromotionContext.
Local Open Scope py_scope.
Local Open Scope Z_scope.

(** ** Selections *)

(** [_Selection]: the receipt of a receipt lane, or the prepared revision *)
Record Selection := mkSelection { sel_receipt : option IntentPushReceipt; sel_revision : option Z }.

Definition generation_seq_le (a b : Generation) : bool := g_seq a <=? g_seq b.

(** [_authorized_generation_detail]: the generation's id, sequence and status *)
Definition authorized_generation_detail (d : Db) (device_id : Z) (stream : pystr) (revision : Z) : option Generation :=
  hd_error (stable_sort generation_seq_le
    (List.filter (fun g => (g_device_id g =? device_id) && negb (bool_decide (g_status g = settled)) &&
                           bool_decide (dict_get (g_stream_revisions g) stream = Some revision))
       (map snd (map_to_list (generations d))))).

Inductive resolution := Selected (s : Selection) | Skipped (reason : pystr) (detail : option Generation).

(** [_resolve_receipt_selection] *)
Definition resolve_receipt_selection (d : Db) (device_id : Z) (stream : pystr) (push_seq : Z) (row : option StreamRow) (receipt : option IntentPushReceipt) :
    res resolution :=
  match receipt, row with
  | Some receipt, Some row =>
      let seq := p_seq (r_identity receipt) in
      if push_seq <? seq then Ok (Skipped "superseded" None)
      else if negb (seq =? push_seq) then Ok (Skipped "no_receipt" None)
      else if p_backfill_only (r_identity receipt) then Ok (Skipped "backfill_only" None)
      else if negb (bool_decide (s_source_push_seq row = Some push_seq)) then Ok (Skipped "revision_mismatch" None)
      else if s_desired row <=? s_applied row then Ok (Skipped "already_applied" None)
      else if s_desired row <=? s_authorized row then
        match authorized_generation_detail d device_id stream (s_authorized row) with
        | Some g => Ok (Skipped "already_authorized" (Some g))
        | None =>
            (* the row is read again *)
            match streams d !! (device_id, stream) with
            | Some row => if (s_desired row <=? s_authorized row) && (s_authorized row <=? s_applied row) then Ok (Skipped "already_authorized" None)
                          else Raise (RuntimeError "is authorized but has no unsettled generation")
            | None => Raise (RuntimeError "could not refresh the row")
            end
        end
      else Ok (Selected (mkSelection (Some receipt) None))
  | _, _ => Ok (Skipped "no_receipt" None)
  end.

(** One stream of [_selected_promotions]. *)
Definition resolve_selection (s : PushDb) (device_id : Z) (stream : pystr) (selector : Z) : res resolution :=
  let row := streams (base s) !! (device_id, stream) in
  if mem stream OUT_OF_PROTOCOL_STREAMS then
    Ok match resolve_prepared_selection row selector with
       | None => Selected (mkSelection None (Some selector))
       | Some reason => Skipped reason (if bool_decide (reason = "already_authorized") then authorized_generation_detail (base s) device_id stream selector else None)
       end
  else resolve_receipt_selection (base s) device_id stream selector row (receipts s !! (device_id, stream)).

Record selections := mkSelections { sl_promotable : list (pystr * Selection); sl_skipped : list (pystr * pystr); sl_detail : list (pystr * Generation) }.

Definition add_resolution (acc : selections) (stream : pystr) (r : resolution) : selections :=
  match r with
  | Selected x => mkSelections (sl_promotable acc ++ [(stream, x)]) (sl_skipped acc) (sl_detail acc)
  | Skipped reason detail =>
      mkSelections (sl_promotable acc) (sl_skipped acc ++ [(stream, reason)])
        (sl_detail acc ++ match detail with Some g => [(stream, g)] | None => [] end)
  end.
Fixpoint selection_loop (s : PushDb) (device_id : Z) (selected : list (pystr * Z)) (acc : selections) : res selections :=
  match selected with
  | [] => Ok acc
  | (stream, selector) :: selected => r ← resolve_selection s device_id stream selector; selection_loop s device_id selected (add_resolution acc stream r)
  end.

(** [_selected_promotions] *)
Definition selected_promotions (s : PushDb) (device_id : Z) (selected : list (pystr * Z)) : res selections :=
  selection_loop s device_id (stable_sort stream_le selected) (mkSelections [] [] []).

(** ** Fragments *)

(** [_promote_static_route_clears], one row *)
Definition promote_row_clears (device_id : Z) (row : pydict) : res pydict :=
  if is_int (get row "device_id") device_id then
    stored ← carrier_half (get row "pending_clear") STORE_ONLY;
    match stored with
    | [] => Ok row
    | _ =>
        authorized ← carrier_half (get row "pending_clear") AUTHORIZED;
        Ok (dict_set row "pending_clear" (JObj [(AUTHORIZED, sorted_fields (remove_dups (authorized ++ stored))); (STORE_ONLY, JArr [])]))
    end
  else Ok row.
Definition promote_static_route_clears (device_id : Z) : txn PushDb unit := fun s =>
  rows ← map_res (promote_row_clears device_id) (table_rows (live s) SR_INTENT);
  Ok (tt, with_live (match dict_get (live s) SR_INTENT with Some _ => dict_set (live s) SR_INTENT rows | None => live s end) (next_row_id s) s).

(** [_freeze] *)
Definition freeze_selected (live : tables) (device_id : Z) (stream : pystr) (t : tables) : res pydict :=
  match freeze_fragment freeze_proof live device_id stream t with
  | Raise InterfaceEligibilityUnresolved => Raise (ApplyUnexecutable ["interface_config"])
  | r => r
  end.
(** The freeze of a stream no caller froze, in [create_generation]. *)
Definition freeze_live (live : tables) (_ : Db) (device_id : Z) (stream : pystr) : res pydict :=
  t ← snapshot_stream live device_id stream; freeze_selected live device_id stream t.

(** [_retain_rows], one table *)
Definition retain_table (result : pydict) (table : pystr) (rows : list pydict) : res pydict :=
  present ← rows_of (default (JArr []) (dict_get result table));
  let combined := present ++ rows in
  ids ← map_res (fun row => v ← required row "id"; int_item v) combined;
  _ ← guard_or (bool_decide (NoDup ids)) (ValueError "retained rows duplicate a desired row id");
  Ok (dict_set result table (JArr (map JObj (stable_sort id_le combined)))).
Fixpoint retain_tables (result : pydict) (retained : tables) : res pydict :=
  match retained with [] => Ok result | (table, rows) :: retained => result ← retain_table result table rows; retain_tables result retained end.

(** [_retain_rows] *)
Definition retain_rows (desired : pydict) (retained : tables) (stream : pystr) (source : option pydict) : res pydict :=
  result ← retain_tables desired retained;
  execution ← member_object result EXECUTION_KEY;
  source_execution ← or_empty (dict_get (default [] source) EXECUTION_KEY);
  proof ← retained_proof stream (dict_get execution "proof") (dict_get source_execution "proof") retained;
  Ok (dict_set result EXECUTION_KEY (JObj match proof with Some p => dict_set execution "proof" p | None => execution end)).

(** ** Removal authority *)

Definition label_lists (v : json) : res labels :=
  match v with JObj l => map_res (fun lk => keys ← items_of lk.2; Ok (lk.1, keys)) l | _ => Raise (AttributeError "items") end.
Definition authority : Type := list (pystr * labels).

(** [_merge_authority] *)
Definition merge_labels (target extra : labels) : labels := fold_left (fun t lk => dict_set t lk.1 (default [] (dict_get t lk.1) ++ lk.2)) extra target.
Definition merge_authority (base_ extra : authority) : authority :=
  fold_left (fun m sl => dict_set m sl.1 (merge_labels (default [] (dict_get m sl.1)) sl.2)) extra base_.
Definition authority_json (a : authority) : pydict := map (fun sl => (sl.1, JObj (map (fun lk => (lk.1, JArr lk.2)) sl.2))) a.
(** [scope_qualified] *)
Definition scope_labels (scope : pystr) (removed : labels) : authority := match removed with [] => [] | l => [(scope, l)] end.

(** Identity parts of one column have one type. *)
Definition part_ltb (a b : id_part) : bool :=
  match a, b with
  | IdVal (JStr s), IdVal (JStr t) => py_ltb s t
  | IdVal (JInt x), IdVal (JInt y) => x <? y
  | _, _ => false
  end.
Fixpoint identity_ltb (a b : identity) : bool :=
  match a, b with
  | [], _ :: _ => true
  | x :: a, y :: b => if part_eqb x y then identity_ltb a b else part_ltb x y
  | _, [] => false
  end.
Definition identity_le (a b : identity) : bool := negb (identity_ltb b a).

(** [_switching_removal_keys] *)
Definition switching_removal_keys (stream : pystr) (authorized networked : tables) : res authority :=
  section ← stream_section stream;
  keys ← map_res (fun tr =>
           index ← rows_by_intent_identity authorized tr.1;
           let removed := List.filter (fun ir => existsb (fun row => py_eq (get ir.2 "id") (get row "id")) tr.2) index in
           Ok (tr.1, map (fun i => JArr (map part_json i)) (stable_sort identity_le (map fst removed)))) (stable_sort stream_le networked);
  Ok (scope_labels section (List.filter (fun tk => nonempty tk.2) keys)).

(** ** Links *)

Definition operation_of (live : tables) : Db -> Z -> pydict -> pydict -> pydict -> list Z -> res pydict := fun _ => build_static_route_operation live.

(** One link of the first pass of [_enqueue_action_removal_links]: its context and its own keys. *)
Definition link_context (live : tables) (device_id : Z) (removal_authority : authority) (link : RemovalLink) : res (PromotionRemovalContext * authority) :=
  scope ← stream_section (ln_stream link);
  context ← match promotion_removal_context live device_id scope (ln_removed link) (ln_replacement link) with
            | Raise PromotionInterfaceUnresolved => Raise (ApplyUnexecutable [ln_stream link])
            | r => r
            end;
  _ ← guard_or (negb (bool_decide (scope = "interface_config") && negb (nonempty (px_interfaces context)))) (ApplyUnexecutable [ln_stream link]);
  let context := if mem scope CLAIM_LESS_SECTIONS && bool_decide (ln_mode link = networked)
                 then mkContext (px_interfaces context) (default [] (dict_get removal_authority scope)) (px_vault_refs context) else context in
  own ← (if bool_decide (scope = "static_route") then keys ← promotion_removal_keys (ln_removed link); label_lists (JObj keys) else Ok (px_removed context));
  Ok (context, scope_labels scope own).

(** The first pass: every link's context, and the authority all networked links carry. *)
Fixpoint link_contexts (live : tables) (device_id : Z) (removal_authority : authority) (links : list RemovalLink)
    (contexts : list (pystr * (PromotionRemovalContext * authority))) (union_ : authority) :
    res (list (pystr * (PromotionRemovalContext * authority)) * authority) :=
  match links with
  | [] => Ok (contexts, union_)
  | link :: links =>
      co ← link_context live device_id removal_authority link;
      scope ← stream_section (ln_stream link);
      link_contexts live device_id removal_authority links (dict_set contexts (ln_stream link) co)
        (if bool_decide (ln_mode link = networked) && negb (mem scope CLAIM_LESS_SECTIONS) then merge_authority union_ co.2 else union_)
  end.

(** What every link of one chain shares. *)
Record chain_inputs := mkInputs {
  ci_attempt : option pystr; ci_cohort : option Z; ci_intermediate : pydict; ci_final : pydict; ci_frozen : list (pystr * pydict) }.

(** The request of one link of the second pass. *)
Definition link_request (inputs : chain_inputs) (scope : pystr) (context : PromotionRemovalContext) (own union_ : authority) (link : RemovalLink) : RemovalRequest :=
  let is_networked := bool_decide (ln_mode link = networked) in
  mkRemoval scope (if is_networked then if nonempty (ln_removed link) then Some DELETE_ORIGIN_MARKING else None else Some DETACH_MARKING)
    false [ln_stream link] (ci_cohort inputs) (px_interfaces context) (px_removed context)
    (Some (authority_json (if is_networked then union_ else own))) (px_vault_refs context) false (nonempty (ln_replacement link)) (nonempty (ln_removed link))
    (Some (if is_networked then ci_intermediate inputs else ci_final inputs)) [] (ci_attempt inputs) (ci_frozen inputs).

Definition job_generation (d : Db) (job_id : Z) : option Generation :=
  hd_error (stable_sort generation_seq_le (List.filter (fun g => bool_decide (g_job_id g = Some job_id)) (map snd (map_to_list (generations d))))).

Fixpoint enqueue_links (inputs : chain_inputs) (device_id : Z) (contexts : list (pystr * (PromotionRemovalContext * authority))) (union_ : authority)
    (links : list RemovalLink) (acc : list Z) : txn PushDb (list Z) := fun s =>
  match links with
  | [] => Ok (acc, s)
  | link :: links =>
      scope ← stream_section (ln_stream link);
      match dict_get contexts (ln_stream link) with
      | None => Raise KeyError
      | Some (context, own) =>
          '(job, s) ← enqueue_removal freeze_live prune_apply_plan (operation_of (live s)) false device_id (link_request inputs scope context own union_ link) s;
          match job with
          | None => Raise (AttributeError "id")
          | Some job_id =>
              match job_generation (base s) job_id with
              | None => Raise (RuntimeError "removal job has no deployment generation")
              | Some g => enqueue_links inputs device_id contexts union_ links (acc ++ [g_id g]) s
              end
          end
      end
  end.

(** [_enqueue_action_removal_links] *)
Definition enqueue_action_removal_links (inputs : chain_inputs) (device_id : Z) (links : list RemovalLink) (removal_authority : authority) :
    txn PushDb (list Z * authority) := fun s =>
  cu ← link_contexts (live s) device_id removal_authority links [] removal_authority;
  '(generations, s) ← enqueue_links inputs device_id cu.1 cu.2 links [] s;
  Ok ((generations, cu.2), s).

(** ** The chain *)

(** One selected stream, frozen once: its fragment, its promotion, and the fragment of the intermediate document. *)
Record promoted := mkPromoted { pd_receipt : option IntentPushReceipt; pd_fragment : pydict; pd_promotion : Promotion; pd_intermediate : pydict }.

Definition promote_selected (prepared : gmap (Z * pystr) (tables * option pydict)) (s : PushDb) (device_id : Z) (stream : pystr) (x : Selection) :
    res (promoted * authority) :=
  match streams (base s) !! (device_id, stream) with
  | None => Raise KeyError
  | Some row =>
      let source := s_authorized_document row in
      old ← tables_of (default [] source);
      match sel_revision x, sel_receipt x with
      | None, Some receipt =>
          t ← snapshot_stream (live s) device_id stream;
          fragment ← freeze_selected (live s) device_id stream t;
          desired ← tables_of fragment;
          p ← receipt_promotion old desired receipt;
          intermediate ← retain_rows fragment (pm_detached p) stream source;
          Ok (mkPromoted (Some receipt) fragment p intermediate, [])
      | Some revision, _ =>
          let '(t, groups) := default ([], None) (prepared !! (device_id, stream)) in
          fragment ← freeze_selected (live s) device_id stream t;
          p ← prepared_promotion old t groups revision;
          keys ← switching_removal_keys stream old (pm_networked p);
          intermediate ← retain_rows fragment (pm_detached p) stream source;
          Ok (mkPromoted None fragment p intermediate, keys)
      | None, None => Raise (AttributeError "response")
      end
  end.
Fixpoint promote_all (prepared : gmap (Z * pystr) (tables * option pydict)) (s : PushDb) (device_id : Z) (selected : list (pystr * Selection))
    (acc : list (pystr * promoted)) (removal_authority : authority) : res (list (pystr * promoted) * authority) :=
  match selected with
  | [] => Ok (acc, removal_authority)
  | (stream, x) :: selected =>
      pk ← promote_selected prepared s device_id stream x;
      promote_all prepared s device_id selected (acc ++ [(stream, pk.1)]) (merge_authority removal_authority pk.2)
  end.

(** The metadata-only promotions: the skips, and the streams that must be applied after all. *)
Fixpoint settle_equivalent (device_id : Z) (promotions : list (pystr * promoted)) (names : list pystr) (skipped : list (pystr * pystr)) (to_apply : list pystr) :
    txn PushDb (list (pystr * pystr) * list pystr) := fun s =>
  match names with
  | [] => Ok ((skipped, to_apply), s)
  | stream :: names =>
      match dict_get promotions stream with
      | None => Raise KeyError
      | Some p =>
          '(settled_, s) ← on_base (settle_selected device_id stream (pm_revision (pd_promotion p)) (pd_fragment p)) s;
          if (settled_ : bool) then settle_equivalent device_id promotions names (skipped ++ [(stream, "already_applied")]) to_apply s
          else settle_equivalent device_id promotions names skipped (to_apply ++ [stream]) s
      end
  end.

Fixpoint consume_receipts (device_id : Z) (promotions : list (pystr * promoted)) (s : PushDb) : PushDb :=
  match promotions with
  | [] => s
  | (stream, p) :: promotions =>
      consume_receipts device_id promotions
        match pd_receipt p, receipts s !! (device_id, stream) with
        | Some _, Some r => with_receipt (device_id, stream) (consume_promotion_provenance r) s
        | _, _ => s
        end
  end.

Record ActionApplyResult := mkResult { ar_generations : list Z; ar_skipped : list (pystr * pystr); ar_detail : list (pystr * Generation) }.

(** What [_create_apply_chain] computes before it writes: the promotions, both documents and the plan. *)
Record chain_plan := mkChainPlan {
  cp_promotions : list (pystr * promoted); cp_authority : authority; cp_final : pydict; cp_intermediate : pydict; cp_plan : plan }.
Definition plan_chain (prepared : gmap (Z * pystr) (tables * option pydict)) (device_id : Z) (selected : list (pystr * Selection))
    (authorized : list (pystr * pydict)) (s : PushDb) : res chain_plan :=
  built ← promote_all prepared s device_id selected [] [];
  final ← compose_document (fold_left (fun f sp => dict_set f sp.1 (pd_fragment sp.2)) built.1 authorized);
  intermediate ← compose_document (fold_left (fun f sp => dict_set f sp.1 (pd_intermediate sp.2)) built.1 authorized);
  pl ← plan_action_links (map (fun sp => (sp.1, pd_promotion sp.2)) built.1);
  Ok (mkChainPlan built.1 built.2 final intermediate pl).

(** The writes: metadata-only promotions, then networked removals, the Apply companion and detaching removals, in that order. *)
Definition run_chain (device_id : Z) (apply_attempt_id : option pystr) (cp : chain_plan) : txn PushDb ActionApplyResult := fun s =>
  let pl := cp_plan cp in
  '((skipped, left_), s) ← settle_equivalent device_id (cp_promotions cp) (pl_equivalent pl) [] [] s;
  let apply_streams := pl_apply pl ++ left_ in
  let link_count := (length (pl_networked pl) + length (pl_detach pl) + (if nonempty apply_streams then 1 else 0))%nat in
  '(cohort, s) ← (if (1 <? link_count)%nat then '(c, s) ← on_base allocate_settlement_cohort s; Ok (Some c, s) else Ok (None, s));
  let frozen := map (fun sp => (sp.1, pd_fragment sp.2)) (cp_promotions cp) in
  let inputs := mkInputs apply_attempt_id cohort (cp_intermediate cp) (cp_final cp) frozen in
  '((first, union_), s) ← enqueue_action_removal_links inputs device_id (pl_networked pl) (cp_authority cp) s;
  '(middle, s) ← (if nonempty apply_streams then
                    '(g, s) ← on_base (enqueue_action_apply_job (freeze_live (live s)) prune_apply_plan (operation_of (live s)) false device_id apply_streams
                                         apply_attempt_id (cp_intermediate cp) cohort (authority_json union_) frozen) s;
                    Ok ([g], s)
                  else Ok ([], s));
  '((last, _), s) ← enqueue_action_removal_links inputs device_id (pl_detach pl) [] s;
  Ok (mkResult (first ++ middle ++ last) skipped [], consume_receipts device_id (cp_promotions cp) s).

(** [_create_apply_chain] *)
Definition create_apply_chain (prepared : gmap (Z * pystr) (tables * option pydict)) (store_only : bool) (device_id : Z) (selected : list (pystr * Selection))
    (apply_attempt_id : option pystr) : txn PushDb ActionApplyResult := fun s =>
  if store_only then Raise (RuntimeError "_create_apply_chain reached under a store-only request - store-only never promotes")
  else
    '(_, s) ← (if dict_mem selected "static_route" then promote_static_route_clears device_id s else Ok (tt, s));
    '(authorized, s) ← on_base (refresh_consumed_carriers prune_apply_plan device_id []) s;
    _ ← guard_or (bool_decide (device_id ∈ devices (base s))) (DeviceProjectionGone device_id);
    cp ← plan_chain prepared device_id selected authorized s;
    run_chain device_id apply_attempt_id cp s.

(** ** Entry points *)

Definition live_job (device_id : Z) (j : Job) : bool := is_some_eq (j_device_id j) device_id && bool_decide (j_status j ∈ [queued; running]).
Definition first_live_job (d : Db) (device_id : Z) : option Job :=
  hd_error (stable_sort job_le (List.filter (live_job device_id) (map snd (map_to_list (jobs d))))).

(** [create_action_apply] *)
Definition create_action_apply (prepared : gmap (Z * pystr) (tables * option pydict)) (store_only : bool) (device_id : Z) (selected : list (pystr * Z))
    (apply_attempt_id : pystr) : txn PushDb ActionApplyResult := fun s =>
  '(_, s) ← on_base (lock_projection device_id) s;
  sl ← selected_promotions s device_id selected;
  match sl_promotable sl with
  | [] => Ok (mkResult [] (sl_skipped sl) (sl_detail sl), s)
  | promotable =>
      match first_live_job (base s) device_id with
      | Some j => Raise (ApplyJobConflict (j_id j))
      | None =>
          '(r, s) ← create_apply_chain prepared store_only device_id promotable (Some apply_attempt_id) s;
          Ok (mkResult (ar_generations r) (fold_left (fun d kv => dict_set d kv.1 kv.2) (ar_skipped r) (sl_skipped sl)) (sl_detail sl), s)
      end
  end.

Definition BENIGN_AUTOMATIC_SKIPS : list pystr := ["already_applied"; "already_authorized"; "backfill_only"; "superseded"].

(** [create_automatic_apply] *)
Definition create_automatic_apply (prepared : gmap (Z * pystr) (tables * option pydict)) (store_only : bool) (device_id : Z) (stream : pystr) (push_seq : Z) :
    txn PushDb unit := fun s =>
  '(_, s) ← on_base (lock_projection device_id) s;
  sl ← selected_promotions s device_id [(stream, push_seq)];
  _ ← guard_or (forallb (fun kv => mem kv.2 BENIGN_AUTOMATIC_SKIPS) (sl_skipped sl)) (RuntimeError "automatic delivery could not promote");
  match sl_promotable sl with
  | [] => Ok (tt, s)
  | promotable => '(_, s) ← create_apply_chain prepared store_only device_id promotable None s; Ok (tt, s)
  end.
