(* ===== verification/ChainShape.v ===== *)
(** * What an Apply promotes, and how

    The selection is exact, and a chain is one block of new generations: networked removals, the Apply companion, detaching
    removals, in consecutive sequence, under one settlement cohort, with one authority and the shared documents. *)

From stdpp Require Import base gmap list.
From Stdlib Require Import ZArith NArith Lia.
From S2P Require Import Prelude Json Text Registry Document Asn Identity Store Generation Admission Claim GenerationInv Moves Lifecycle Revisions System Receipt Removal RemovalProps Plan StaticPlan InterfaceProof PromotionContext Chain.

Local Open Scope py_scope.
Local Open Scope Z_scope.

(** ** Selections *)

(** A selector that names work to promote: the admitted push of a receipt lane, which is what the stream desires and neither
    authorized nor applied; or the prepared revision of an out-of-protocol stream. *)
Definition promotes_push (row : StreamRow) (receipt : IntentPushReceipt) (push_seq : Z) : Prop :=
  p_seq (r_identity receipt) = push_seq ∧ p_backfill_only (r_identity receipt) = false ∧ s_source_push_seq row = Some push_seq ∧
  s_applied row < s_desired row ∧ s_authorized row < s_desired row.
Definition promotes_prepared (row : StreamRow) (revision : Z) : Prop :=
  s_prepared_revision row = Some revision ∧ s_applied row < revision ∧ s_authorized row < revision.
Definition eligible (s : PushDb) (device_id : Z) (stream : pystr) (selector : Z) (x : Selection) : Prop :=
  ∃ row, streams (base s) !! (device_id, stream) = Some row ∧
  if mem stream OUT_OF_PROTOCOL_STREAMS then promotes_prepared row selector ∧ x = mkSelection None (Some selector)
  else ∃ receipt, receipts s !! (device_id, stream) = Some receipt ∧ promotes_push row receipt selector ∧ x = mkSelection (Some receipt) None.

Lemma resolve_prepared_None row revision : resolve_prepared_selection row revision = None ↔ ∃ r, row = Some r ∧ promotes_prepared r revision.
Proof.
  unfold resolve_prepared_selection, promotes_prepared. destruct row as [r|]; [|split; [done|by intros (? & ? & _)]].
  destruct (s_prepared_revision r) as [p|] eqn:Hp; [|split; [done|intros (? & [= <-] & H & _); congruence]].
  destruct (revision <=? s_applied r) eqn:E1; [apply Z.leb_le in E1; split; [done|intros (? & [= <-] & _ & ? & _); lia]|]. apply Z.leb_gt in E1.
  destruct (revision <? s_authorized r) eqn:E2; [apply Z.ltb_lt in E2; split; [done|intros (? & [= <-] & _ & _ & ?); lia]|]. apply Z.ltb_ge in E2.
  destruct (revision =? s_authorized r) eqn:E3; [apply Z.eqb_eq in E3; split; [done|intros (? & [= <-] & _ & _ & ?); lia]|]. apply Z.eqb_neq in E3.
  destruct (revision =? p) eqn:E4.
  - apply Z.eqb_eq in E4 as ->. split; [|done]. intros _. exists r. split_and!; [done|done|lia|lia].
  - apply Z.eqb_neq in E4. split; [by destruct (revision <? p)|]. intros (? & [= <-] & H & _). congruence.
Qed.

Lemma resolve_receipt_selected d dev stream seq row receipt x : resolve_receipt_selection d dev stream seq row receipt = Ok (Selected x) ↔
  ∃ r c, row = Some r ∧ receipt = Some c ∧ promotes_push r c seq ∧ x = mkSelection (Some c) None.
Proof.
  unfold resolve_receipt_selection, promotes_push. destruct receipt as [c|]; [|split; [done|by intros (? & ? & _ & ? & _)]].
  destruct row as [r|]; [|split; [done|by intros (? & ? & ? & _)]].
  destruct (seq <? _) eqn:E1; [apply Z.ltb_lt in E1; split; [done|intros (? & ? & [= <-] & [= <-] & (? & _) & _); lia]|].
  destruct (negb (_ =? seq)) eqn:E2; [apply negb_true_iff, Z.eqb_neq in E2; split; [done|by intros (? & ? & [= <-] & [= <-] & (? & _) & _)]|].
  apply negb_false_iff, Z.eqb_eq in E2.
  destruct (p_backfill_only _) eqn:E3; [split; [done|intros (? & ? & [= <-] & [= <-] & (_ & ? & _) & _); congruence]|].
  destruct (negb (bool_decide _)) eqn:E4; [apply negb_true_iff, bool_decide_eq_false in E4; split; [done|by intros (? & ? & [= <-] & [= <-] & (_ & _ & ? & _) & _)]|].
  apply negb_false_iff, bool_decide_eq_true in E4.
  destruct (s_desired r <=? s_applied r) eqn:E5; [apply Z.leb_le in E5; split; [done|intros (? & ? & [= <-] & [= <-] & (_ & _ & _ & ? & _) & _); lia]|].
  apply Z.leb_gt in E5. destruct (s_desired r <=? s_authorized r) eqn:E6.
  - apply Z.leb_le in E6. split; [|intros (? & ? & [= <-] & [= <-] & (_ & _ & _ & _ & ?) & _); lia].
    destruct (authorized_generation_detail _ _ _ _); [done|]. destruct (streams d !! _); [|done]. by destruct (_ && _).
  - apply Z.leb_gt in E6. split; [intros [= <-]; exists r, c; done|]. by intros (? & ? & [= <-] & [= <-] & _ & ->).
Qed.

Lemma resolve_selected s dev stream selector x : resolve_selection s dev stream selector = Ok (Selected x) ↔ eligible s dev stream selector x.
Proof.
  unfold resolve_selection, eligible. destruct (mem stream OUT_OF_PROTOCOL_STREAMS).
  - destruct (resolve_prepared_selection (streams (base s) !! (dev, stream)) selector) eqn:E.
    + split; [done|]. intros (r & Hr & Hp & _). assert (None = Some p) by (rewrite <-E; symmetry; apply resolve_prepared_None; eauto). done.
    + apply resolve_prepared_None in E as (r & Hr & Hp). split; [intros [= <-]; eauto|]. by intros (? & _ & _ & ->).
  - rewrite resolve_receipt_selected. split; [intros (r & c & ? & ? & ? & ->); eauto 8|]. intros (r & Hr & c & ? & ? & ->). eauto 8.
Qed.

Lemma selection_loop_spec s dev selected acc sl : selection_loop s dev selected acc = Ok sl →
  (∀ stream x, (stream, x) ∈ sl_promotable sl ↔ (stream, x) ∈ sl_promotable acc ∨ ∃ selector, (stream, selector) ∈ selected ∧ eligible s dev stream selector x) ∧
  (∀ stream reason, (stream, reason) ∈ sl_skipped sl ↔ (stream, reason) ∈ sl_skipped acc ∨
     ∃ selector detail, (stream, selector) ∈ selected ∧ resolve_selection s dev stream selector = Ok (Skipped reason detail)) ∧
  (∀ stream selector, (stream, selector) ∈ selected → ∃ r, resolve_selection s dev stream selector = Ok r).
Proof.
  revert acc. induction selected as [|[stream selector] selected IH]; intros acc; cbn [selection_loop].
  { intros [= <-]. split_and!; [set_solver|set_solver|]. by intros ?? ?%elem_of_nil. }
  intros (r & Hr & H)%bind_Ok. apply IH in H as (Hp & Hs & Hall). split_and!.
  - intros k x. rewrite Hp. destruct r as [y|reason detail]; cbn [add_resolution sl_promotable].
    + pose proof (proj1 (resolve_selected _ _ _ _ _) Hr) as He. rewrite elem_of_app, list_elem_of_singleton. split.
      * intros [[?|[= -> ->]]|(sel & ? & ?)]; [by left|right; exists selector; split; [constructor|done]|right; exists sel; split; [by constructor|done]].
      * intros [?|(sel & Hin & Hx)]; [by do 2 left|]. apply elem_of_cons in Hin as [[= -> ->]|Hin]; [|by right; exists sel].
        left. right. apply resolve_selected in Hx. congruence.
    + split.
      * intros [?|(sel & ? & ?)]; [by left|right; exists sel; split; [by constructor|done]].
      * intros [?|(sel & Hin & Hx)]; [by left|]. apply elem_of_cons in Hin as [[= -> ->]|Hin]; [|by right; exists sel].
        apply resolve_selected in Hx. congruence.
  - intros k why. rewrite Hs. destruct r as [y|reason detail]; cbn [add_resolution sl_skipped].
    + split.
      * intros [?|(sel & det & ? & ?)]; [by left|right; exists sel, det; split; [by constructor|done]].
      * intros [?|(sel & det & Hin & Hx)]; [by left|]. apply elem_of_cons in Hin as [[= -> ->]|Hin]; [congruence|by right; exists sel, det].
    + rewrite elem_of_app, list_elem_of_singleton. split.
      * intros [[?|[= -> ->]]|(sel & det & ? & ?)]; [by left|right; exists selector, detail; split; [constructor|done]|right; exists sel, det; split; [by constructor|done]].
      * intros [?|(sel & det & Hin & Hx)]; [by do 2 left|]. apply elem_of_cons in Hin as [[= -> ->]|Hin]; [|by right; exists sel, det].
        left. right. congruence.
  - intros k sel [[= -> ->]|Hin]%elem_of_cons; [by exists r|by eapply Hall].
Qed.

(** The selection of an Apply is exact.  It promotes, of the streams selected, precisely those whose selector still names undelivered
    work: in a receipt lane the push whose receipt is the one last admitted, not a backfill, the source of what the stream desires,
    beyond both the authorized and the applied revision; in an out-of-protocol stream the prepared revision, again beyond both.  Every
    other selected stream is reported as skipped, with a reason. *)
Theorem selection_is_exact s dev selected sl : selected_promotions s dev selected = Ok sl →
  (∀ stream x, (stream, x) ∈ sl_promotable sl ↔ ∃ selector, (stream, selector) ∈ selected ∧ eligible s dev stream selector x) ∧
  (∀ stream selector, (stream, selector) ∈ selected →
     (∃ x, eligible s dev stream selector x) ∨ ∃ reason, (stream, reason) ∈ sl_skipped sl).
Proof.
  intros (Hp & Hs & Hall)%selection_loop_spec. split.
  - intros stream x. rewrite Hp. cbn. setoid_rewrite elem_of_stable_sort. set_solver.
  - intros stream selector Hin. pose proof Hin as Hin'. rewrite <-(elem_of_stable_sort stream_le) in Hin'.
    destruct (Hall _ _ Hin') as [[x|reason detail] Hr]; [left; exists x; by apply resolve_selected|right].
    exists reason. apply Hs. right. by exists selector, detail.
Qed.

(** ** The shape of an Apply's chain

    A chain is one block of new generations of the device, in consecutive sequence: the networked removals, the Apply companion and the
    detaching removals, under one settlement cohort, with one authority and the two shared documents. *)

Local Notation len l := (Z.of_nat (length l)).

(** ** Blocks of new generations *)

Definition counter (dev : Z) (d : Db) : Z := default 0 (generation_counter d !! dev).

(** From [d] to [d'], exactly the generations [cs] were stored, all of [dev] and in consecutive sequence. *)
Record block (dev : Z) (d d' : Db) (cs : list core) : Prop := {
  bl_moves : moves d d';
  bl_ids : map co_id cs = seqZ (next_generation_id d) (len cs);
  bl_next : next_generation_id d' = next_generation_id d + len cs;
  bl_rows : Forall (fun c => ∃ g, generations d' !! co_id c = Some g ∧ core_of g = c) cs;
  bl_device : Forall (fun c => co_device c = dev) cs;
  bl_seqs : map co_seq cs = seqZ (counter dev d + 1) (len cs);
  bl_counter : counter dev d' = counter dev d + len cs }.

Lemma counters_default dev d d' : counters_extend d d' → counter dev d' = counter dev d.
Proof. intros C. unfold counter. destruct (C dev) as [->|[-> ->]]; done. Qed.

Lemma framed_block dev d d' : framed d d' → block dev d d' [].
Proof.
  intros F. pose proof F as (_ & _ & En & _ & C). split; cbn; [by apply framed_moves|done| |done|done|done|].
  - by rewrite En, Z.add_0_r.
  - by rewrite (counters_default _ _ _ C), Z.add_0_r.
Qed.

Lemma block_app dev d d1 d2 l1 l2 : Inv d → block dev d d1 l1 → block dev d1 d2 l2 → block dev d d2 (l1 ++ l2).
Proof.
  intros I [M1 I1 N1 R1 D1 S1 C1] [M2 I2 N2 R2 D2 S2 C2]. split.
  - by eapply moves_trans.
  - rewrite map_app, length_app, Nat2Z.inj_add, seqZ_app, I1, I2, N1 by lia. done.
  - rewrite N2, N1, length_app. lia.
  - apply Forall_app. split; [|done]. eapply Forall_impl; [exact R1|]. intros c (g & Hg & E).
    destruct (moves_persist _ _ (moves_inv _ _ M1 I) M2) as [P _]. destruct (P _ _ Hg) as (g' & Hg' & E' & _). exists g'. split; [done|congruence].
  - by apply Forall_app.
  - rewrite map_app, length_app, Nat2Z.inj_add, seqZ_app, S1, S2, C1 by lia. f_equal. f_equal. lia.
  - rewrite C2, C1, length_app. lia.
Qed.

(** ** One new generation *)

Lemma promote_loop_names freeze dev frozen todo acc r d d' : promote_loop freeze dev frozen todo acc d = Ok (r, d') → map fst r = map fst acc ++ todo.
Proof.
  revert acc d. induction todo as [|stream todo IH]; intros acc d; cbn [promote_loop].
  - intros [= <- _]. by rewrite app_nil_r.
  - intros ([p d1] & _ & H)%bind_Ok. apply IH in H. by rewrite H, map_app, <-app_assoc.
Qed.

(** A generation deploys a shared document: all of it, but for the execution plane of its own removal scope. *)
Definition deploys (c : core) (body : pydict) : Prop :=
  match co_context c with
  | None => co_document c = body
  | Some ctx => ∃ scope section section', dict_get ctx "scope" = Some (JStr scope) ∧
      dict_get body scope = Some (JObj section) ∧ dict_get (co_document c) scope = Some (JObj section') ∧
      (∀ k, k ≠ EXECUTION_KEY → dict_get section' k = dict_get section k) ∧
      ∀ k, k ≠ scope → dict_get (co_document c) k = dict_get body k
  end.

(** What one link of a chain stores. *)
Record link_core (streams_ : list pystr) (mode : GenerationMode) (cohort : option Z) (attempt : option pystr) (allowed body : pydict) (c : core) : Prop := {
  lc_streams : map fst (co_revisions c) = sorted_strs (remove_dups streams_);
  lc_mode : co_mode c = mode;
  lc_cohort : co_cohort c = cohort;
  lc_attempt : co_attempt c = attempt;
  lc_allowed : co_allowed c = allowed;
  lc_document : deploys c body }.

Lemma written_sections sro d dev body ctx allowed ts ds cs scope out : dict_get ctx "scope" = Some (JStr scope) →
  write_operation sro d dev body (Some ctx) allowed ts ds cs = Ok out →
  ∃ section section', dict_get body scope = Some (JObj section) ∧ dict_get out scope = Some (JObj section') ∧
    (∀ k, k ≠ EXECUTION_KEY → dict_get section' k = dict_get section k) ∧ ∀ k, k ≠ scope → dict_get out k = dict_get body k.
Proof.
  intros Hs. unfold write_operation. change (default [] (Some ctx)) with ctx. cbv zeta. rewrite Hs. clear Hs.
  destruct (dict_get body scope) as [v|] eqn:Hb; [|done]. destruct v as [| | | | | |section]; try done.
  intros (op & _ & H)%bind_Ok. destruct (default (JObj []) (dict_get section EXECUTION_KEY)) as [| | | | | |execution]; try done.
  injection H as <-. eexists section, _. split_and!; [done|by rewrite dict_get_set_eq| |].
  - intros k Hk. by rewrite dict_get_set_ne.
  - intros k Hk. by rewrite dict_get_set_ne.
Qed.

(** A generation just stored, with the identities it took. *)
Record stored (dev : Z) (d0 d' : Db) (id : Z) (g : Generation) : Prop := {
  st_fresh : fresh d0 d' id g;
  st_id : g_id g = id;
  st_next : next_generation_id d' = id + 1;
  st_device : g_device_id g = dev;
  st_seq : g_seq g = counter dev d0 + 1;
  st_counter : counter dev d' = counter dev d0 + 1 }.

Lemma store_generation_stored sro dev mode doc allowed source revs ctx cohort ts ds attempt cs id d d' :
  store_generation sro dev mode doc allowed source revs ctx cohort ts ds attempt cs d = Ok (id, d') →
  ∃ g body, stored dev d d' id g ∧ write_operation sro d dev doc ctx allowed ts ds cs = Ok body ∧
    core_of g = mkCore id dev (g_seq g) mode body (digest_document mode body allowed) allowed source revs cohort ctx attempt.
Proof.
  unfold store_generation. intros (? & _ & H)%bind_Ok. apply bind_Ok in H as (body & Hw & H). rename Hw into Hbody.
  apply bind_Ok in H as ([seq d1] & Hs & H). unfold next_seq in Hs.
  destruct (generation_counter d !! dev) as [n|] eqn:En; [|done]. injection Hs as <- <-. injection H as <- <-.
  set (g := mkGen (next_generation_id d) dev (n + 1) mode gen_pending body (digest_document mode body allowed) allowed
              source revs cohort ctx attempt None None None None None 0 None (clock d) (clock d) None).
  exists g, body. split_and!; [|done|done]. assert (counter dev d = n) as En' by (unfold counter; by rewrite En). split; try done.
  - constructor; [reflexivity..|]. apply (move_new_generation _ _ g n); [exact En|try reflexivity..]. unfold digest_matches. by apply bool_decide_eq_true.
  - by rewrite En'.
  - rewrite En'. unfold counter. cbn. by rewrite lookup_insert_eq.
Qed.

Lemma create_generation_link freeze prune sro so dev names mode allowed body ctx cohort ts ds attempt frozen cs id d d' :
  create_generation freeze prune sro so dev names mode allowed (Some body) ctx cohort ts ds attempt frozen cs d = Ok (id, d') →
  match ctx with Some c => ∃ scope, dict_get c "scope" = Some (JStr scope) | None => True end →
  ∃ d0 g, framed d d0 ∧ stored dev d0 d' id g ∧ link_core names mode cohort attempt allowed body (core_of g).
Proof.
  intros H Hctx. unfold create_generation in H. destruct so; [done|]. destruct names as [|nm names]; [done|].
  apply bind_Ok in H as ([[] d1] & F1%lock_projection_framed & H). apply bind_Ok in H as ([? d2] & F2%refresh_framed & H).
  apply bind_Ok in H as ([promoted d3] & Hp & H). pose proof (promote_loop_names _ _ _ _ _ _ _ _ Hp) as Hn. apply promote_loop_framed in Hp.
  apply bind_Ok in H as ([[] d4] & F4%store_fragments_framed & H). cbn [mbind] in H. apply bind_Ok in H as ([b d5] & Hb & H). injection Hb as <- <-.
  apply store_generation_stored in H as (g & out & Hst & Hw & Hc). exists d4, g. split_and!; [do 3 (etransitivity; [done|]); done|done|].
  rewrite Hc. split; try done.
  - cbn [co_revisions]. rewrite map_map. exact Hn.
  - unfold deploys. cbn [co_context co_document]. destruct ctx as [c|]; [|cbn in Hw; congruence].
    destruct Hctx as (scope & Hs). pose proof (written_sections _ _ _ _ _ _ _ _ _ _ _ Hs Hw) as (sec & sec' & ?). by exists scope, sec, sec'.
Qed.

(** ** Binding it to its carrier *)

Definition same_counters (d d' : Db) : Prop := next_generation_id d' = next_generation_id d ∧ generation_counter d' = generation_counter d.
#[local] Instance same_counters_preorder : PreOrder same_counters.
Proof. split; [by intros d|]. intros d1 d2 d3 [??] [??]. split; congruence. Qed.

Lemma dedicated_ids dev ty ctx n d d' : create_dedicated_job dev ty ctx d = Ok (n, d') → same_counters d d'.
Proof. intros (-> & ->)%dedicated_job_spec. done. Qed.
Lemma attach_ids id n b d d' : attach_to_job id n d = Ok (b, d') → same_counters d d'.
Proof. unfold attach_to_job. cbv zeta. intros H. repeat case_match; simplify_eq; done. Qed.
Lemma require_attach_ids id n d d' : require_attach_to_job id n d = Ok (tt, d') → same_counters d d'.
Proof.
  unfold require_attach_to_job. intros H. apply txn_bind_Ok in H as (b & d1 & Ha%attach_ids & He). unfold ensure, lift_res in He.
  destruct b; [|done]. by injection He as <-.
Qed.
Lemma admit_loop_ids fuel dev ty ctx r d d' : admit_loop fuel dev ty ctx d = Ok (r, d') → same_counters d d'.
Proof.
  induction fuel as [|fuel IH]; cbn [admit_loop]; [by intros [= _ <-]|]. destruct (existsb _ _); [|by intros [= _ <-]].
  destruct (queued_winner d dev ty); [by intros [= _ <-]|exact IH].
Qed.
Lemma admit_apply_ids id r d d' : admit_apply_generation id d = Ok (r, d') → same_counters d d'.
Proof.
  unfold admit_apply_generation. destruct (generations d !! id) as [g|]; [|done]. destruct (_ || _).
  - intros ([n d1] & E1%dedicated_ids & H)%bind_Ok. apply bind_Ok in H as ([[] d2] & E2%require_attach_ids & H). injection H as _ <-. by etransitivity.
  - intros ([[created winner] d1] & Hc & H)%bind_Ok. unfold admit_coalescible_job in Hc. case_bool_decide; [done|]. apply admit_loop_ids in Hc.
    destruct winner as [w|]; [destruct (g_apply_attempt_id g); [done|]|]; destruct created as [c|]; try done;
      apply bind_Ok in H as ([b d2] & E2%attach_ids & H); injection H as _ <-; by etransitivity.
Qed.

(** A generation stored and then carried is a block of one. *)
Lemma stored_block dev d d0 d1 d2 id g : Inv d → framed d d0 → stored dev d0 d1 id g →
  (Inv d1 → generations d1 !! id = Some g → g_status g = gen_pending → g_job_id g = None → moves d1 d2) → same_counters d1 d2 →
  block dev d d2 [core_of g].
Proof.
  intros I F [Hf Ei En Ed Es Ec] K [Sn Sc]. pose proof (fresh_then _ _ _ _ _ _ I F Hf K) as M. pose proof F as (_ & _ & Fn & _ & Fc).
  pose proof (counters_default dev _ _ Fc) as Ecd. pose proof (framed_inv _ _ F I) as I0. pose proof (move_inv _ _ (fresh_move _ _ _ _ Hf) I0) as I1.
  pose proof (fresh_id _ _ _ _ Hf) as Hid. split; cbn [map length co_id co_seq core_of].
  - done.
  - rewrite Ei, Hid, Fn. done.
  - rewrite Sn, En, Hid, Fn. done.
  - constructor; [|done]. assert (moves d1 d2) as M12.
    { apply K; [done|by eapply fresh_lookup|by eapply fresh_status|by eapply fresh_job]. }
    destruct (moves_persist _ _ I1 M12) as [P _]. destruct (P id g (fresh_lookup _ _ _ _ Hf)) as (g' & Hg' & E' & _). exists g'. cbn. by rewrite Ei.
  - by constructor.
  - rewrite Es, Ecd. done.
  - unfold counter in *. rewrite Sc, Ec, Ecd. done.
Qed.

(** ** Links *)

Lemma on_base_Ok {A} (m : txn Db A) s a s' : on_base m s = Ok (a, s') → ∃ d, m (base s) = Ok (a, d) ∧ s' = with_base d s.
Proof. unfold on_base. destruct (m (base s)) as [[a' d]|]; [|done]. intros [= <- <-]. eauto. Qed.

Lemma enqueue_removal_base freeze prune sro dev q s job s' : rq_force q = false → enqueue_removal freeze prune sro false dev q s = Ok (job, s') →
  live s' = live s ∧ ∃ discharged immediate,
  enqueue_removal_generation (freeze (live s)) prune sro false false dev (removal_context q) (rq_promotes q)
    (default (scope_qualified (rq_scope q) (removal_context q)) (rq_allowed q)) (rq_document q) (rq_cohort q) (rq_tombstones q) discharged
    (rq_attempt q) (rq_frozen q) immediate (base s) = Ok (job, base s').
Proof.
  intros Hforce H. unfold enqueue_removal in H. rewrite Hforce in H. do 6 (apply bind_Ok in H as (? & _ & H)).
  apply bind_Ok in H as ([[] s1] & Hrec & H).
  assert (grows s s1) as G. { destruct (_ && _); [by apply record_clears_spec in Hrec as [G _]|by injection Hrec as <-]. }
  cbn [negb andb] in H. cbv zeta in H. apply bind_Ok in H as (discharged & _ & H). apply bind_Ok in H as ([j s2] & Hgen & H).
  apply bind_Ok in H as ([[] s3] & Hset & H). injection H as <- <-. apply on_base_Ok in Hgen as (d & Hgen & ->).
  rewrite (grows_base _ _ G), (grows_live _ _ G) in Hgen.
  assert (base s3 = d ∧ live s3 = live s) as [-> ->].
  { unfold settle_pending_clears_at_admission in Hset. destruct (negb _); [|injection Hset as <-; by rewrite <-(grows_live _ _ G)].
    destruct (removal_mode _); [injection Hset as <-; by rewrite <-(grows_live _ _ G)|].
    apply promote_clears_spec in Hset as G2. by rewrite (grows_base _ _ G2), (grows_live _ _ G2), <-(grows_live _ _ G). }
  split; [done|]. by eexists _, _.
Qed.

(** The mode a request commits in. *)
Lemma networked_mode q : rq_force q = false → rq_marking q ≠ Some DETACH_MARKING → removal_mode (removal_context q) = networked.
Proof.
  intros Hf Hm. destruct (removal_mode (removal_context q)) eqn:E; [done|]. by apply detach_mode in E as [? _].
Qed.
Lemma unowning_mode q : rq_force q = false → rq_marking q = Some DETACH_MARKING → rq_retract q = false → removal_mode (removal_context q) = detach.
Proof.
  intros Hf Hm Hr. unfold removal_mode, context_truthy, removal_context. rewrite Hf, Hm, Hr, bool_decide_eq_true_2 by done. cbn [negb andb].
  unfold removed_context. destruct (nonempty (rq_interfaces q)), (rq_removed q), (nonempty (rq_vault_refs q)); vm_compute; done.
Qed.

Definition link_mode_ok (l : RemovalLink) : Prop := ln_mode l = detach → ln_replacement l = [].
Lemma link_request_mode inputs scope context own union_ l : link_mode_ok l →
  removal_mode (removal_context (link_request inputs scope context own union_ l)) = ln_mode l.
Proof.
  intros Hl. destruct (ln_mode l) eqn:Em.
  - apply networked_mode; [done|]. cbn. rewrite Em. rewrite bool_decide_eq_true_2 by done. by destruct (nonempty _).
  - apply unowning_mode; [done| |]; cbn; [rewrite Em; by rewrite bool_decide_eq_false_2|by rewrite (Hl Em)].
Qed.

Lemma job_generation_one d n id g : generations d !! id = Some g → g_job_id g = Some n →
  (∀ i h, generations d !! i = Some h → g_job_id h = Some n → i = id) → job_generation d n = Some g.
Proof.
  intros Hg Jg Huniq. unfold job_generation.
  set (l := List.filter _ _). assert (∀ h, h ∈ l ↔ h = g) as Hl.
  { intros h. unfold l. rewrite list_elem_of_In, filter_In, <-list_elem_of_In, bool_decide_eq_true. split.
    - intros [Hin Jh]. apply list_elem_of_fmap in Hin as ([i h'] & -> & Hin%elem_of_map_to_list). cbn in *.
      pose proof (Huniq _ _ Hin Jh). congruence.
    - intros ->. split; [|done]. apply list_elem_of_fmap. exists (id, g). split; [done|]. by apply elem_of_map_to_list. }
  assert (∀ h, h ∈ stable_sort generation_seq_le l ↔ h = g) as Hs by (intros h; by rewrite elem_of_stable_sort).
  destruct (stable_sort generation_seq_le l) as [|h t]; cbn.
  - exfalso. eapply (not_elem_of_nil g). by apply Hs.
  - f_equal. apply Hs. apply list_elem_of_here.
Qed.

(** What the link [l] of a chain stores, with the authority and the document of its mode. *)
Definition link_stores (inputs : chain_inputs) (union_ : authority) (l : RemovalLink) (c : core) : Prop :=
  ∃ allowed, (ln_mode l = networked → allowed = authority_json union_) ∧
  link_core [ln_stream l] (ln_mode l) (ci_cohort inputs) (ci_attempt inputs) allowed
    match ln_mode l with networked => ci_intermediate inputs | detach => ci_final inputs end c.

Lemma enqueue_link inputs dev scope context own union_ l s job s' : Inv (base s) → link_mode_ok l →
  enqueue_removal freeze_live prune_apply_plan (operation_of (live s)) false dev (link_request inputs scope context own union_ l) s = Ok (job, s') →
  ∃ n g g', job = Some n ∧ job_generation (base s') n = Some g' ∧ core_of g' = core_of g ∧ block dev (base s) (base s') [core_of g] ∧
    link_stores inputs union_ l (core_of g).
Proof.
  intros I Hl H. apply enqueue_removal_base in H as (_ & discharged & immediate & H); [|done].
  unfold enqueue_removal_generation in H. cbn [andb negb] in H. cbv zeta in H. rewrite link_request_mode in H by done.
  apply bind_Ok in H as ([[] d0] & F0%lock_projection_framed & H). apply bind_Ok in H as ([id d1] & Hgen & H).
  apply create_generation_link in Hgen as (d2 & g & F & Hst & Hlc); [|by exists scope].
  apply bind_Ok in H as ([n d3] & Hc & H). apply bind_Ok in H as ([[] d4] & Ha & H). injection H as <- <-.
  pose proof (dedicated_ids _ _ _ _ _ _ Hc) as S1. pose proof (require_attach_ids _ _ _ _ Ha) as S2.
  unfold require_attach_to_job in Ha. apply txn_bind_Ok in Ha as (b & d5 & Ha & He). unfold ensure, lift_res in He. destruct b; [|done].
  injection He as ->. assert (framed (base s) d2) as F2 by (by etransitivity). rewrite <-(st_device _ _ _ _ _ Hst) in Hc.
  pose proof (move_inv _ _ (fresh_move _ _ _ _ (st_fresh _ _ _ _ _ Hst)) (framed_inv _ _ F2 I)) as I1.
  pose proof (fresh_lookup _ _ _ _ (st_fresh _ _ _ _ _ Hst)) as Hg. pose proof (fresh_status _ _ _ _ (st_fresh _ _ _ _ _ Hst)) as Hp.
  pose proof (fresh_job _ _ _ _ (st_fresh _ _ _ _ _ Hst)) as Hj.
  destruct (dedicated_attach d1 d3 d4 removal _ id g n true I1 Hg Hp (unbound_old g d1 Hj) Hc Ha) as (M & _ & En & Eg & _).
  exists n, g, (set_g_job (Some n) g). split_and!; [done| |done| |].
  - apply (job_generation_one _ _ id); [by rewrite Eg, lookup_insert_eq|done|]. intros i h Hi Ji.
    rewrite Eg in Hi. apply lookup_insert_Some in Hi as [[<- _]|[_ Hi]]; [done|exfalso].
    destruct (inv_carrier d1 I1 i h n Hi Ji) as (j & Hjn & _). destruct (inv_jid d1 I1 _ _ Hjn). lia.
  - eapply stored_block; [done|exact F2|exact Hst|by intros _ _ _ _|by etransitivity].
  - exists (authority_json (if bool_decide (ln_mode l = networked) then union_ else own)). split.
    + intros ->. by rewrite bool_decide_eq_true_2.
    + cbn [rq_allowed rq_promotes rq_cohort rq_attempt link_request default] in Hlc. destruct (ln_mode l); exact Hlc.
Qed.

Lemma enqueue_links_block inputs dev contexts union_ links acc ids s s' : Inv (base s) → Forall link_mode_ok links →
  enqueue_links inputs dev contexts union_ links acc s = Ok (ids, s') →
  ∃ cs, ids = acc ++ map co_id cs ∧ block dev (base s) (base s') cs ∧ Forall2 (link_stores inputs union_) links cs.
Proof.
  intros I Hl. revert acc s I. induction Hl as [|l links Hl Hls IH]; intros acc s I; cbn [enqueue_links].
  { intros [= <- <-]. exists []. rewrite app_nil_r. split_and!; [done|by apply framed_block|done]. }
  intros (scope & _ & H)%bind_Ok. destruct (dict_get contexts (ln_stream l)) as [[context own]|]; [|done].
  apply bind_Ok in H as ([job s1] & Hq & H). apply enqueue_link in Hq as (n & g & g' & -> & Hjg & Ec & B & Hst); [|done|done].
  rewrite Hjg in H. apply IH in H as (cs & -> & B' & F2); [|by eapply moves_inv, I; apply B]. exists (core_of g :: cs). split_and!.
  - cbn [map]. rewrite <-app_assoc. cbn. do 2 f_equal. by apply core_fields in Ec as (? & _).
  - by apply (block_app dev (base s) (base s1) (base s') [core_of g] cs).
  - by constructor.
Qed.

Lemma enqueue_action_links_block inputs dev links removal_authority ids union_ s s' : Inv (base s) → Forall link_mode_ok links →
  enqueue_action_removal_links inputs dev links removal_authority s = Ok ((ids, union_), s') →
  ∃ cs, ids = map co_id cs ∧ block dev (base s) (base s') cs ∧ Forall2 (link_stores inputs union_) links cs.
Proof.
  intros I Hl. unfold enqueue_action_removal_links. intros (cu & _ & H)%bind_Ok. apply bind_Ok in H as ([gs s1] & H & E).
  injection E as <- <- <-. by apply (enqueue_links_block _ _ _ _ _ [] _ _ _ I Hl) in H.
Qed.

Lemma settle_equivalent_framed dev promotions names skipped to_apply r s s' :
  settle_equivalent dev promotions names skipped to_apply s = Ok (r, s') → framed (base s) (base s').
Proof.
  revert skipped to_apply s. induction names as [|stream names IH]; intros skipped to_apply s; cbn [settle_equivalent].
  - intros [= _ <-]. reflexivity.
  - destruct (dict_get promotions stream); [|done]. intros ([b s1] & (d & Hs%settle_selected_framed & ->)%on_base_Ok & H)%bind_Ok.
    transitivity d; [done|]. destruct b; by apply IH in H.
Qed.

Lemma consume_receipts_base dev promotions s : base (consume_receipts dev promotions s) = base s.
Proof.
  revert s. induction promotions as [|[stream p] promotions IH]; intros s; cbn [consume_receipts]; [done|]. rewrite IH.
  by destruct (pd_receipt p), (receipts s !! (dev, stream)).
Qed.

(** ** The plan *)

Record planned (streams_ : list pystr) (pl : plan) : Prop := {
  pn_networked : Forall (fun l => ln_mode l = networked) (pl_networked pl);
  pn_detach : Forall (fun l => ln_mode l = detach ∧ ln_replacement l = []) (pl_detach pl);
  pn_covered stream : stream ∈ streams_ →
    stream ∈ map ln_stream (pl_networked pl) ∨ stream ∈ map ln_stream (pl_detach pl) ∨ stream ∈ pl_apply pl ∨ stream ∈ pl_equivalent pl ∨ stream ∈ pl_unexecutable pl }.

Lemma plan_stream_planned stream p names pl pl' : planned names pl → plan_stream stream p pl = Ok pl' → planned (names ++ [stream]) pl'.
Proof.
  intros [Hn Hd Hc] H. unfold plan_stream in H. cbv zeta in H.
  assert (∀ ns ds ap eq un, Forall (fun l => ln_mode l = networked) ns → Forall (fun l => ln_mode l = detach ∧ ln_replacement l = []) ds →
    pl_networked pl ⊆ ns → pl_detach pl ⊆ ds → pl_apply pl ⊆ ap → pl_equivalent pl ⊆ eq → pl_unexecutable pl ⊆ un →
    stream ∈ map ln_stream ns ∨ stream ∈ map ln_stream ds ∨ stream ∈ ap ∨ stream ∈ eq ∨ stream ∈ un → planned (names ++ [stream]) (mkPlan ns ds ap eq un)) as K.
  { intros ns ds ap eq un Fn Fd Sn Sd Sa Se Su Hs. split; [done..|]. cbn. intros k [Hk| ->%list_elem_of_singleton]%elem_of_app; [|done].
    assert (∀ a b : list RemovalLink, a ⊆ b → k ∈ map ln_stream a → k ∈ map ln_stream b) as Hmap.
    { intros a b Hab (l & -> & Hl)%list_elem_of_fmap. apply list_elem_of_fmap. exists l. auto. }
    destruct (Hc k Hk) as [Hi|[Hi|[Hi|[Hi|Hi]]]]; [left; by apply (Hmap _ _ Sn)|right; left; by apply (Hmap _ _ Sd)|do 2 right; left; by apply Sa|
      do 3 right; left; by apply Se|do 4 right; by apply Su]. }
  set (ns := if any_rows (pm_networked p) || any_rows (pm_replacement p) then _ else _) in H.
  set (ds := if any_rows (pm_detached p) then _ else _) in H.
  assert (Forall (fun l => ln_mode l = networked) ns) as Fn.
  { unfold ns. destruct (_ || _); [|done]. apply Forall_app. split; [done|]. by constructor. }
  assert (Forall (fun l => ln_mode l = detach ∧ ln_replacement l = []) ds) as Fd.
  { unfold ds. destruct (any_rows (pm_detached p)); [|done]. apply Forall_app. split; [done|]. by constructor. }
  assert (pl_networked pl ⊆ ns) as Sn by (unfold ns; destruct (_ || _); set_solver).
  assert (pl_detach pl ⊆ ds) as Sd by (unfold ds; destruct (any_rows (pm_detached p)); set_solver).
  assert (any_rows (pm_networked p) || any_rows (pm_detached p) || any_rows (pm_replacement p) = true → stream ∈ map ln_stream ns ∨ stream ∈ map ln_stream ds) as Hlink.
  { intros E. unfold ns, ds. destruct (any_rows (pm_detached p)).
    - right. rewrite map_app. apply elem_of_app. right. by apply list_elem_of_singleton.
    - rewrite orb_false_r in E. rewrite E. left. rewrite map_app. apply elem_of_app. right. by apply list_elem_of_singleton. }
  destruct (_ && _ && _) in H; [injection H as <-; apply K; set_solver|].
  destruct (any_rows (pm_networked p) || any_rows (pm_detached p) || any_rows (pm_replacement p)) eqn:E; cbn [negb] in H.
  - specialize (Hlink eq_refl). destruct (pm_positive p); [injection H as <-; apply K; set_solver|].
    destruct (_ && _ && _) in H.
    + apply bind_Ok in H as ([] & _ & H); injection H as <-; apply K; set_solver.
    + injection H as <-; apply K; set_solver.
  - apply bind_Ok in H as ([] & _ & H); injection H as <-; apply K; set_solver.
Qed.

Lemma plan_loop_planned promotions names pl pl' : planned names pl → plan_loop promotions pl = Ok pl' → planned (names ++ map fst promotions) pl'.
Proof.
  revert names pl. induction promotions as [|[stream p] promotions IH]; intros names pl Hp; cbn [plan_loop].
  - intros [= <-]. by rewrite app_nil_r.
  - intros (pl1 & H1 & H)%bind_Ok. eapply plan_stream_planned in H1; [|done]. eapply IH in H; [|done]. by rewrite <-app_assoc in H.
Qed.

Lemma plan_links_planned promotions pl : plan_action_links promotions = Ok pl → planned (map fst promotions) pl ∧ pl_unexecutable pl = [].
Proof.
  unfold plan_action_links. intros (pl1 & H1 & H)%bind_Ok. apply (plan_loop_planned _ []) in H1; [|split; [constructor..|]; by intros ? ?%elem_of_nil].
  destruct (pl_unexecutable pl1) eqn:E; [|done]. injection H as <-. done.
Qed.

(** ** The chain *)

Lemma promote_all_names prepared s dev selected acc auth r : promote_all prepared s dev selected acc auth = Ok r → map fst r.1 = map fst acc ++ map fst selected.
Proof.
  revert acc auth. induction selected as [|[stream x] selected IH]; intros acc auth; cbn [promote_all].
  - intros [= <-]. by rewrite app_nil_r.
  - intros (pk & _ & H)%bind_Ok. apply IH in H. by rewrite H, map_app, <-app_assoc.
Qed.

Lemma plan_chain_planned prepared dev selected authorized s cp : plan_chain prepared dev selected authorized s = Ok cp →
  planned (map fst selected) (cp_plan cp) ∧ pl_unexecutable (cp_plan cp) = [].
Proof.
  unfold plan_chain. intros (built & Hb%promote_all_names & H)%bind_Ok. apply bind_Ok in H as (final & _ & H). apply bind_Ok in H as (inter & _ & H).
  apply bind_Ok in H as (pl & Hp%plan_links_planned & H). injection H as <-. cbn [cp_plan]. by rewrite (eq_trans (map_map (fun sp : pystr * promoted => (sp.1, pd_promotion sp.2)) fst built.1) Hb) in Hp.
Qed.

Lemma settle_equivalent_spec dev promotions names skipped to_apply sk ta s s' : settle_equivalent dev promotions names skipped to_apply s = Ok ((sk, ta), s') →
  (∀ x, x ∈ skipped → x ∈ sk) ∧ (∀ x, x ∈ to_apply → x ∈ ta) ∧ ∀ stream, stream ∈ names → (stream, "already_applied"%py) ∈ sk ∨ stream ∈ ta.
Proof.
  revert skipped to_apply s. induction names as [|k names IH]; intros skipped to_apply s; cbn [settle_equivalent].
  { intros [= <- <- <-]. split_and!; [done..|]. by intros ? ?%elem_of_nil. }
  destruct (dict_get promotions k); [|done]. intros ([[] s1] & _ & (A & B & C)%IH)%bind_Ok.
  - split_and!; [set_solver|done|]. intros stream [->|?]%elem_of_cons; [|by apply C]. left. apply A. set_solver.
  - split_and!; [done|set_solver|]. intros stream [->|?]%elem_of_cons; [|by apply C]. right. apply B. set_solver.
Qed.

(** The links of a chain: networked removals and the Apply companion with the intermediate document and one shared authority, then
    the detaching removals with the final document. *)
Record chain_links (dev : Z) (attempt : option pystr) (cp : chain_plan) (left_ : list pystr) (s s' : PushDb) (cs : list core) : Prop := {
  ch_block : block dev (base s) (base s') cs;
  ch_links : ∃ cohort shared first middle last, cs = first ++ middle ++ last ∧ (is_Some cohort ↔ (1 < length cs)%nat) ∧
    let inputs := mkInputs attempt cohort (cp_intermediate cp) (cp_final cp) [] in
    Forall2 (link_stores inputs shared) (pl_networked (cp_plan cp)) first ∧
    (if nonempty (pl_apply (cp_plan cp) ++ left_)
     then ∃ c, middle = [c] ∧ co_context c = None ∧
            link_core (sorted_strs (pl_apply (cp_plan cp) ++ left_)) networked cohort attempt (authority_json shared) (cp_intermediate cp) c
     else middle = []) ∧
    Forall2 (link_stores inputs []) (pl_detach (cp_plan cp)) last }.

Lemma action_apply_block freeze prune sro dev names attempt document cohort allowed frozen id d d' : Inv d →
  enqueue_action_apply_job freeze prune sro false dev names attempt document cohort allowed frozen d = Ok (id, d') →
  ∃ c, id = co_id c ∧ block dev d d' [c] ∧ co_context c = None ∧ link_core (sorted_strs names) networked cohort attempt allowed document c.
Proof.
  intros I. unfold enqueue_action_apply_job. intros ([i d1] & Hc & H)%bind_Ok. apply bind_Ok in H as ([r d2] & Ha & H). injection H as <- <-.
  pose proof (create_generation_fresh _ _ _ _ _ _ _ _ _ _ _ _ _ _ _ _ _ _ _ Hc) as (dd & gg & _ & Hf & _ & _ & Ectx).
  apply create_generation_link in Hc as (d0 & g & F & Hst & Hl); [|done].
  assert (gg = g) as ->. { pose proof (fresh_lookup _ _ _ _ Hf). pose proof (fresh_lookup _ _ _ _ (st_fresh _ _ _ _ _ Hst)). congruence. }
  exists (core_of g). split_and!; [by rewrite <-(st_id _ _ _ _ _ Hst)| |done|done].
  eapply stored_block; [done|exact F|exact Hst| |by eapply admit_apply_ids]. intros I1 Hg Hp Hj. by eapply admit_apply_moves.
Qed.

Lemma allocate_framed n d d' : allocate_settlement_cohort d = Ok (n, d') → framed d d'.
Proof. unfold allocate_settlement_cohort. intros [= _ <-]. frame. Qed.

(** The authority of a detaching link is its own. *)
Lemma detach_stores inputs inputs' shared shared' links cs :
  (ci_attempt inputs, ci_cohort inputs, ci_final inputs) = (ci_attempt inputs', ci_cohort inputs', ci_final inputs') →
  Forall (fun l => ln_mode l = detach ∧ ln_replacement l = []) links →
  Forall2 (link_stores inputs shared) links cs → Forall2 (link_stores inputs' shared') links cs.
Proof.
  intros [= Ea Ec Ef] Hd F. induction F as [|l c links cs (allowed & _ & H) F IH]; [constructor|]. inversion Hd as [|? ? [Em _] Hd']; subst.
  constructor; [|by apply IH]. exists allowed. rewrite Em in *. split; [done|]. by rewrite <-Ea, <-Ec, <-Ef.
Qed.

Lemma run_chain_links dev attempt streams_ cp r s s' : Inv (base s) → planned streams_ (cp_plan cp) → run_chain dev attempt cp s = Ok (r, s') →
  ∃ left_ cs, ar_generations r = map co_id cs ∧ chain_links dev attempt cp left_ s s' cs ∧
    ∀ stream, stream ∈ pl_equivalent (cp_plan cp) → (stream, "already_applied"%py) ∈ ar_skipped r ∨ stream ∈ left_.
Proof.
  intros I [Hn Hd _] H. unfold run_chain in H. cbv zeta in H. apply bind_Ok in H as ([[sk left_] s1] & Hse & H).
  pose proof (settle_equivalent_spec _ _ _ _ _ _ _ _ _ Hse) as (_ & _ & Hcov). apply settle_equivalent_framed in Hse as F1.
  cbv beta iota in H. apply bind_Ok in H as ([cohort s2] & Hco & H). exists left_.
  set (frozen := map _ _) in H. set (inputs := mkInputs attempt cohort (cp_intermediate cp) (cp_final cp) frozen) in H.
  assert (framed (base s1) (base s2) ∧ (is_Some cohort ↔ (1 < length (pl_networked (cp_plan cp)) + length (pl_detach (cp_plan cp)) +
    (if nonempty (pl_apply (cp_plan cp) ++ left_) then 1 else 0))%nat)) as [F2 Hcohort].
  { destruct (_ <? _)%nat eqn:E in Hco.
    - apply bind_Ok in Hco as ([c s3] & (d & Ha%allocate_framed & ->)%on_base_Ok & Hco). injection Hco as <- <-. apply Nat.ltb_lt in E. split; [done|].
      split; [done|by eexists].
    - injection Hco as <- <-. apply Nat.ltb_ge in E. split; [done|]. split; [by intros []|lia]. }
  apply bind_Ok in H as ([[first union_] s3] & H1 & H). cbv beta iota in H.
  assert (framed (base s) (base s2)) as F by (by etransitivity). pose proof (framed_inv _ _ F I) as I2.
  apply enqueue_action_links_block in H1 as (cs1 & -> & B1 & L1); [|done|eapply Forall_impl; [exact Hn|]; intros l El E; congruence].
  pose proof (moves_inv _ _ (bl_moves _ _ _ _ B1) I2) as I3. apply bind_Ok in H as ([middle s4] & H2 & H). cbv beta iota in H.
  assert (∃ cs2, middle = map co_id cs2 ∧ block dev (base s3) (base s4) cs2 ∧ length cs2 = (if nonempty (pl_apply (cp_plan cp) ++ left_) then 1 else 0)%nat ∧
    if nonempty (pl_apply (cp_plan cp) ++ left_)
    then ∃ c, cs2 = [c] ∧ co_context c = None ∧ link_core (sorted_strs (pl_apply (cp_plan cp) ++ left_)) networked cohort attempt (authority_json union_) (cp_intermediate cp) c
    else cs2 = []) as (cs2 & -> & B2 & E2 & L2).
  { destruct (nonempty _).
    - apply bind_Ok in H2 as ([g s5] & (d & Ha & ->)%on_base_Ok & H2). injection H2 as <- <-.
      apply action_apply_block in Ha as (c & -> & B & Ec & L); [|done]. exists [c]. split_and!; [done|done|done|]. by exists c.
    - injection H2 as <- <-. exists []. split_and!; [done|by apply framed_block|done|done]. }
  pose proof (moves_inv _ _ (bl_moves _ _ _ _ B2) I3) as I4. apply bind_Ok in H as ([[last u] s5] & H3 & H). cbv beta iota in H. injection H as <- <-.
  apply enqueue_action_links_block in H3 as (cs3 & -> & B3 & L3); [|done|eapply Forall_impl; [exact Hd|]; by intros l [_ E] _].
  exists (cs1 ++ cs2 ++ cs3). cbn [ar_generations ar_skipped]. split_and!; [by rewrite !map_app| |done]. split.
  - rewrite consume_receipts_base. apply (block_app dev _ (base s2) _ []); [done|by apply framed_block|].
    eapply block_app; [done|exact B1|]. by eapply block_app.
  - exists cohort, union_, cs1, cs2, cs3. cbv zeta. split_and!; [done| |by apply L1|done|].
    + assert (length (pl_networked (cp_plan cp)) + length (pl_detach (cp_plan cp)) + (if nonempty (pl_apply (cp_plan cp) ++ left_) then 1 else 0) =
        length (cs1 ++ cs2 ++ cs3))%nat as <-; [|done]. rewrite !length_app, E2, (Forall2_length _ _ _ L1), (Forall2_length _ _ _ L3). lia.
    + by eapply detach_stores.
Qed.

Lemma promote_clears_base dev s s' : promote_static_route_clears dev s = Ok (tt, s') → base s' = base s.
Proof. unfold promote_static_route_clears. intros (rows & _ & H)%bind_Ok. by injection H as <-. Qed.

Lemma create_chain_links prepared store_only dev selected attempt s r s' : Inv (base s) → create_apply_chain prepared store_only dev selected attempt s = Ok (r, s') →
  ∃ s1 authorized cp left_ cs, plan_chain prepared dev selected authorized s1 = Ok cp ∧ ar_generations r = map co_id cs ∧
    chain_links dev attempt cp left_ s s' cs ∧
    ∀ stream, stream ∈ pl_equivalent (cp_plan cp) → (stream, "already_applied"%py) ∈ ar_skipped r ∨ stream ∈ left_.
Proof.
  intros I. unfold create_apply_chain. destruct store_only; [done|]. intros ([[] s1] & Hc & H)%bind_Ok.
  assert (base s1 = base s) as E1. { destruct (dict_mem selected _); [by apply promote_clears_base in Hc|by injection Hc as <-]. }
  apply bind_Ok in H as ([authorized s2] & Hr & H). apply on_base_Ok in Hr as (d & F%refresh_framed & ->). rewrite E1 in F.
  apply bind_Ok in H as (? & _ & H). apply bind_Ok in H as (cp & Hcp & H). pose proof (plan_chain_planned _ _ _ _ _ _ Hcp) as [Hpl _].
  pose proof (framed_inv _ _ F I) as I1. apply (run_chain_links _ _ _ _ _ (with_base d s1) _ I1 Hpl) in H as (left_ & cs & Eg & [B L] & Hcov).
  exists (with_base d s1), authorized, cp, left_, cs. split_and!; [done|done| |done]. split; [|done].
  apply (block_app dev _ d _ []); [done|by apply framed_block|exact B].
Qed.

(** C31: The shape of an Apply's chain.  The generations it stores are one block of the device: fresh identifiers, consecutive sequence
    numbers after the device's last, no other new row.  They are, in this order, one networked removal per planned link, the Apply
    companion of the streams that add content, and one detaching removal per planned link.  Each promotes exactly its own streams; the
    ones that network deploy the intermediate document and all carry the same removal authority, the detaching ones deploy the final
    document; all have the request's attempt, and they share one settlement cohort precisely when there is more than one. *)
Theorem apply_chain_shape prepared store_only dev selected attempt s r s' : Inv (base s) →
  create_apply_chain prepared store_only dev selected attempt s = Ok (r, s') →
  ∃ s1 authorized cp left_ cs, plan_chain prepared dev selected authorized s1 = Ok cp ∧ ar_generations r = map co_id cs ∧
    chain_links dev attempt cp left_ s s' cs.
Proof. intros I H. destruct (create_chain_links _ _ _ _ _ _ _ _ I H) as (s1 & a & cp & l & cs & ? & ? & ? & _). by exists s1, a, cp, l, cs. Qed.

(** ** Nothing selected is lost *)

Lemma dict_get_fold {A} (upd : list (pystr * A)) d k : is_Some (dict_get d k) ∨ k ∈ map fst upd →
  is_Some (dict_get (fold_left (fun d kv => dict_set d kv.1 kv.2) upd d) k).
Proof.
  revert d. induction upd as [|[x v] upd IH]; intros d; cbn [fold_left map].
  - intros [H|H%elem_of_nil]; done.
  - intros H. apply IH. destruct (decide (k = x)) as [->|Hne]; [left; cbn; by rewrite dict_get_set_eq|].
    destruct H as [H|[H|H]%elem_of_cons]; [left; cbn; by rewrite dict_get_set_ne|done|by right].
Qed.
Lemma dict_get_elem {A} (d : list (pystr * A)) k v : (k, v) ∈ d → is_Some (dict_get d k).
Proof. intros H. apply dict_get_in_keys. apply list_elem_of_fmap. by exists (k, v). Qed.

Lemma link_core_streams names mode cohort attempt allowed body c stream : link_core names mode cohort attempt allowed body c → stream ∈ names →
  stream ∈ map fst (co_revisions c).
Proof. intros L Hin. rewrite (lc_streams _ _ _ _ _ _ _ L). unfold sorted_strs. rewrite elem_of_stable_sort. by apply elem_of_remove_dups. Qed.

Lemma stored_streams inputs shared links cs stream : Forall2 (link_stores inputs shared) links cs → stream ∈ map ln_stream links →
  ∃ c, c ∈ cs ∧ stream ∈ map fst (co_revisions c).
Proof.
  intros F (l & -> & Hl)%list_elem_of_fmap. induction F as [|l' c links cs (allowed & _ & L) F IH]; [by apply elem_of_nil in Hl|].
  apply elem_of_cons in Hl as [->|Hl].
  - exists c. split; [apply list_elem_of_here|]. eapply link_core_streams; [exact L|by apply list_elem_of_singleton].
  - destruct (IH Hl) as (c' & ? & ?). exists c'. split; [by constructor|done].
Qed.

Lemma chain_covers prepared store_only dev selected attempt s r s' stream x : Inv (base s) →
  create_apply_chain prepared store_only dev selected attempt s = Ok (r, s') → (stream, x) ∈ selected →
  is_Some (dict_get (ar_skipped r) stream) ∨
  ∃ i g, i ∈ ar_generations r ∧ generations (base s') !! i = Some g ∧ stream ∈ map fst (g_stream_revisions g).
Proof.
  intros I H Hin. destruct (create_chain_links _ _ _ _ _ _ _ _ I H) as (s1 & a & cp & left_ & cs & Hcp & Eg & [B L] & Hcov).
  destruct L as (cohort & shared & first & middle & last & Ecs & _ & L1 & L2 & L3). destruct (plan_chain_planned _ _ _ _ _ _ Hcp) as [[_ _ Hpl] Eu].
  assert (∀ c, c ∈ cs → stream ∈ map fst (co_revisions c) → ∃ i g, i ∈ ar_generations r ∧ generations (base s') !! i = Some g ∧ stream ∈ map fst (g_stream_revisions g)) as K.
  { intros c Hc Hs. pose proof (bl_rows _ _ _ _ B) as R. rewrite Forall_forall in R. destruct (R c Hc) as (g & Hg & E). exists (co_id c), g.
    split_and!; [rewrite Eg; apply list_elem_of_fmap; by exists c|done|]. by rewrite <-E in Hs. }
  assert (stream ∈ pl_apply (cp_plan cp) ++ left_ → ∃ i g, i ∈ ar_generations r ∧ generations (base s') !! i = Some g ∧ stream ∈ map fst (g_stream_revisions g)) as Ka.
  { intros Ha. destruct (pl_apply (cp_plan cp) ++ left_) as [|a0 la]; [by apply elem_of_nil in Ha|]. destruct L2 as (c & -> & _ & L2).
    apply (K c); [subst cs; set_solver|]. eapply link_core_streams; [exact L2|]. unfold sorted_strs. by rewrite elem_of_stable_sort. }
  destruct (Hpl stream) as [Hs|[Hs|[Hs|[Hs|Hs]]]]; [apply list_elem_of_fmap; by exists (stream, x)| | | | |].
  - right. destruct (stored_streams _ _ _ _ _ L1 Hs) as (c & Hc & Hr). apply (K c); [subst cs; set_solver|done].
  - right. destruct (stored_streams _ _ _ _ _ L3 Hs) as (c & Hc & Hr). apply (K c); [subst cs; set_solver|done].
  - right. apply Ka. set_solver.
  - destruct (Hcov _ Hs) as [Hk|Hl]; [left; by eapply dict_get_elem|right; apply Ka; set_solver].
  - rewrite Eu in Hs. by apply elem_of_nil in Hs.
Qed.

(** C32: Nothing an Apply selects is lost.  After a manual Apply every selected stream is either reported as skipped with a reason, or
    promoted by a generation the Apply stored and returned - for each stream of any selection, whatever mixture of removals, additions and
    metadata-only changes it is. *)
Theorem selected_streams_answered prepared store_only dev selected attempt s r s' stream selector : Inv (base s) →
  create_action_apply prepared store_only dev selected attempt s = Ok (r, s') → (stream, selector) ∈ selected →
  (∃ reason, dict_get (ar_skipped r) stream = Some reason) ∨
  ∃ i g, i ∈ ar_generations r ∧ generations (base s') !! i = Some g ∧ stream ∈ map fst (g_stream_revisions g).
Proof.
  intros I H Hin. unfold create_action_apply in H. apply bind_Ok in H as ([[] s1] & Hl & H). apply on_base_Ok in Hl as (d & F%lock_projection_framed & ->).
  apply bind_Ok in H as (sl & Hsl & H). pose proof (selection_loop_spec _ _ _ _ _ Hsl) as (Hp & Hs & Hall).
  assert ((∃ x, (stream, x) ∈ sl_promotable sl) ∨ is_Some (dict_get (sl_skipped sl) stream)) as Hsel.
  { assert ((stream, selector) ∈ stable_sort stream_le selected) as Hin' by (by rewrite elem_of_stable_sort).
    destruct (Hall _ _ Hin') as [[x|reason detail] Hr].
    - left. exists x. apply Hp. right. exists selector. split; [done|]. by apply resolve_selected.
    - right. eapply dict_get_elem, Hs. right. by exists selector, detail. }
  destruct (sl_promotable sl) as [|p ps] eqn:Ep.
  { injection H as <- <-. left. destruct Hsel as [[x Hx%elem_of_nil]|[reason E]]; [done|]. by exists reason. }
  destruct (first_live_job _ _); [done|]. apply bind_Ok in H as ([r1 s2] & Hch & H). cbv beta iota in H. injection H as <- <-.
  cbn [ar_skipped ar_generations]. destruct Hsel as [[x Hx]|Hk].
  - destruct (chain_covers _ _ _ _ _ (with_base d s) _ _ _ _ (framed_inv _ _ F I) Hch Hx) as [[reason Hk]|?]; [left|by right].
    assert (stream ∈ map fst (ar_skipped r1)) as Hm. { apply dict_get_Some_in in Hk. apply list_elem_of_fmap. by exists (stream, reason). }
    destruct (dict_get_fold (ar_skipped r1) (sl_skipped sl) stream (or_intror Hm)) as [v Hv]. by exists v.
  - left. destruct (dict_get_fold (ar_skipped r1) (sl_skipped sl) stream (or_introl Hk)) as [v Hv]. by exists v.
Qed.

(** Manual and automatic Apply are built from the elementary transitions of the generation and job tables: each keeps the chain's
    invariant - unique and ordered sequences, carriers, modes, contiguity and the success barrier - and neither changes a stored
    generation. *)
Theorem applies_refine_moves prepared store_only dev s s' : Inv (base s) →
  (∃ selected attempt r, create_action_apply prepared store_only dev selected attempt s = Ok (r, s')) ∨
  (∃ stream push_seq, create_automatic_apply prepared store_only dev stream push_seq s = Ok (tt, s')) →
  moves (base s) (base s') ∧ Inv (base s') ∧ generation_persists (base s) (base s').
Proof.
  intros I H. assert (moves (base s) (base s')) as M; [|by split_and!; [done|eapply moves_inv|apply moves_persist]].
  destruct H as [(selected & attempt & r & H)|(stream & seq & H)]; [unfold create_action_apply in H|unfold create_automatic_apply in H];
    apply bind_Ok in H as ([[] s1] & Hl & H); apply on_base_Ok in Hl as (d & F%lock_projection_framed & ->); apply bind_Ok in H as (sl & _ & H).
  - destruct (sl_promotable sl); [injection H as _ <-; by apply framed_moves|]. destruct (first_live_job _ _); [done|].
    apply bind_Ok in H as ([r1 s2] & Hch & H). cbv beta iota in H. injection H as _ <-.
    destruct (create_chain_links _ _ _ _ _ (with_base d s) _ _ (framed_inv _ _ F I) Hch) as (? & ? & ? & ? & ? & _ & _ & [B _] & _).
    eapply moves_trans; [by apply framed_moves|]. apply B.
  - apply bind_Ok in H as (? & _ & H). destruct (sl_promotable sl); [injection H as <-; by apply framed_moves|].
    apply bind_Ok in H as ([r1 s2] & Hch & H). cbv beta iota in H. injection H as <-.
    destruct (create_chain_links _ _ _ _ _ (with_base d s) _ _ (framed_inv _ _ F I) Hch) as (? & ? & ? & ? & ? & _ & _ & [B _] & _).
    eapply moves_trans; [by apply framed_moves|]. apply B.
Qed.
