(* ===== verification/ChainScenario.v ===== *)
(** * Applies on a concrete device

    The witnesses of the planning theorems evaluate static-route plans and a manual Apply.  The routes: two accepted routes, one with an undelivered identity edit and one with an authorized clear, and a carrier of a deleted
    route. *)

From stdpp Require Import base gmap list.
From Stdlib Require Import ZArith NArith Lia.
From S2P Require Import Prelude Json Text Registry Document Asn Identity Store Generation Admission Claim GenerationInv Moves Lifecycle System Scenario Receipt Removal Mirror PushScenario Plan StaticPlan StaticPlanProps InterfaceProof PromotionContext Chain ChainShape.

Local Open Scope py_scope.
Local Open Scope Z_scope.

Definition key_json (prefix next_hop : pystr) : json := JArr [JStr ""; JStr prefix; JStr next_hop].
Definition route_record (id route_id : Z) (prefix next_hop : pystr) (deployed clear : json) : pydict :=
  [("id", JInt id); ("device_id", JInt 7); ("route_id", JInt route_id); ("vrf", JStr ""); ("prefix", JStr prefix); ("next_hop", JStr next_hop);
   ("deployed_key", deployed); ("pending_clear", clear); ("accepted_at", JStr "2026-01-01T00:00:00+00:00")].
(** Moved from 192.0.2.9, which is still deployed. *)
Definition moved_route : pydict := route_record 1 5 "10.0.0.0/8" "192.0.2.1" (key_json "10.0.0.0/8" "192.0.2.9") JNull.
(** Its metric was cleared by an ordinary push, its tag by a store-only one. *)
Definition cleared_route : pydict :=
  route_record 2 6 "10.1.0.0/16" "192.0.2.2" JNull (JObj [(AUTHORIZED, JArr [JStr "metric"]); (STORE_ONLY, JArr [JStr "tag"])]).
Definition dead_route : pydict :=
  [("id", JInt 4); ("device_id", JInt 7); ("route_id", JInt 9); ("vrf", JStr ""); ("prefix", JStr "10.9.0.0/16"); ("next_hop", JStr "192.0.2.3");
   ("deployed_key", JNull); ("marking", JStr "delete_origin"); ("job_id", JNull); ("created_at", JStr "2026-01-01T00:00:00+00:00")].

Definition sr_tables : tables := [(SR_INTENT, [moved_route; cleared_route]); (SR_TOMBSTONE, [dead_route])].
Definition sr_live : tables := [("devices", [[("id", JInt 7); ("ned_id", JStr "cisco-ios-cli-6.77")]]); (SR_TOMBSTONE, [dead_route])].
Definition no_proof : tables -> Z -> pystr -> tables -> pydict -> res pydict := fun _ _ _ _ _ => Ok [].
Definition ok {A} (d : A) (r : res A) : A := match r with Ok a => a | Raise _ => d end.
Definition sr_fragment : pydict := ok [] (freeze_fragment (static_proof no_proof) sr_live 7 "static_route" sr_tables).
Definition sr_document : pydict := [("static_route", JObj sr_fragment)].
Definition sr_context : pydict := [("scope", JStr "static_route")].
Definition sr_allowed : pydict := [("static_route", JObj [("route", JArr [key_json "10.9.0.0/16" "192.0.2.3"; key_json "10.1.0.0/16" "192.0.2.2"])])].
Definition sr_store : Db := mkDb ∅ ∅ ∅ ∅ ∅ ∅ ∅ ∅ ∅ 1 1 0 0 None.

Definition sr_hydrated : tables := sr_tables.
Lemma sr_frozen : freeze_fragment (static_proof no_proof) sr_live 7 "static_route" sr_tables = Ok sr_fragment.
Proof. vm_compute. reflexivity. Qed.
Lemma sr_hydrates : hydrate_static_routes sr_document = Ok sr_hydrated.
Proof. vm_compute. reflexivity. Qed.
Lemma sr_distinct : distinct_ids (table_rows sr_hydrated SR_INTENT) ∧ distinct_ids (table_rows sr_hydrated SR_TOMBSTONE).
Proof.
  split; [exists [1; 2]|exists [4]]; (split; [vm_compute; reflexivity|]).
  - apply NoDup_cons. split; [|apply NoDup_singleton]. by intros ?%list_elem_of_singleton.
  - apply NoDup_singleton.
Qed.
Lemma sr_distinct_of h : hydrate_static_routes sr_document = Ok h → distinct_ids (table_rows h SR_INTENT) ∧ distinct_ids (table_rows h SR_TOMBSTONE).
Proof. rewrite sr_hydrates. intros H. injection H as <-. exact sr_distinct. Qed.

Lemma apply_plan_round_trip_witness : ∃ h p, hydrate_static_routes sr_document = Ok h ∧
  classify_apply_plan (table_rows h SR_INTENT) (table_rows h SR_TOMBSTONE) = Ok p ∧ hydrate_static_route_apply_plan sr_document = Ok p.
Proof. exact (apply_plan_round_trip no_proof sr_live 7 sr_tables sr_fragment sr_document sr_frozen eq_refl sr_distinct_of). Defined.

Definition sr_written : pydict := ok [] (write_operation (static_operation sr_live) sr_store 7 sr_document (Some sr_context) sr_allowed [4] [] []).
Lemma sr_writes : write_operation (static_operation sr_live) sr_store 7 sr_document (Some sr_context) sr_allowed [4] [] [] = Ok sr_written.
Proof. vm_compute. reflexivity. Qed.
Lemma removal_plan_round_trip_witness : ∃ h p, hydrate_static_routes sr_document = Ok h ∧
  classify_removal_plan (table_rows h SR_INTENT) (selected_tombstones sr_live 7 [4]) sr_allowed sr_context = Ok p ∧
  hydrate_static_route_removal_plan sr_written = Ok p.
Proof.
  exact (removal_plan_round_trip sr_live sr_store 7 sr_document sr_context sr_allowed [4] [] [] sr_written eq_refl (fun h H => proj1 (sr_distinct_of h H)) sr_writes).
Defined.

Definition sr_removal : SrRemovalPlan :=
  mkRemovalPlan [("", "10.9.0.0/16", "192.0.2.3")]
    [("", "10.0.0.0/8", "192.0.2.1"); ("", "10.0.0.0/8", "192.0.2.9"); ("", "10.1.0.0/16", "192.0.2.2")] [4]
    [mkSrClear 2 ("", "10.1.0.0/16", "192.0.2.2") ["metric"]] [("", "10.1.0.0/16", "192.0.2.2")].
Lemma sr_classified : classify_removal_plan [moved_route; cleared_route] [dead_route] sr_allowed sr_context = Ok sr_removal.
Proof. vm_compute. reflexivity. Qed.
Lemma removal_plan_authority_witness : ∃ keys owed rendered, removal_keys sr_allowed = Ok keys ∧ collect tombstone_keys [dead_route] = Ok owed ∧
  map_res row_triple [moved_route; cleared_route] = Ok rendered ∧ (∀ k, k ∈ rp_authorized sr_removal ↔ (k ∈ keys ∨ k ∈ owed) ∧ k ∉ rendered).
Proof.
  destruct (removal_plan_authority _ _ _ _ _ sr_classified) as (keys & owed & rendered & Hk & Ho & Hr & Ha & _).
  exact (ex_intro _ keys (ex_intro _ owed (ex_intro _ rendered (conj Hk (conj Ho (conj Hr Ha)))))).
Defined.

Lemma clear_carrier_halves_witness : ∃ carrier' a' s', update_pending_clear (get cleared_route "pending_clear") ["tag"; "permanent"] ["metric"] false = Ok carrier' ∧
  carrier_half carrier' AUTHORIZED = Ok a' ∧ carrier_half carrier' STORE_ONLY = Ok s' ∧
  (∀ f, f ∈ a' ↔ (f ∈ ["metric" : pystr] ∧ f ∉ ["metric" : pystr]) ∨ (false = false ∧ f ∈ ["tag" : pystr; "permanent"])).
Proof.
  destruct (clear_carrier_halves (get cleared_route "pending_clear") ["tag"; "permanent"] ["metric"] false ["metric"] ["tag"] eq_refl eq_refl) as (c & a & s & H1 & H2 & H3 & H4 & _).
  exact (ex_intro _ c (ex_intro _ a (ex_intro _ s (conj H1 (conj H2 (conj H3 H4)))))).
Defined.

Definition sr_plan : SrPlan := ok (mkSrPlan "" [] [] [] [] 0) (classify_apply_plan [moved_route; cleared_route] [dead_route]).
Definition sr_recorded : pydict := ok [] (serialize_apply_plan sr_plan).
Definition sr_survivors : SrPlan := ok (mkSrPlan "" [] [] [] [] 0) (classify_apply_plan [moved_route; cleared_route] []).
Lemma sr_plans : classify_apply_plan [moved_route; cleared_route] [dead_route] = Ok sr_plan ∧ serialize_apply_plan sr_plan = Ok sr_recorded ∧
  classify_apply_plan [moved_route; cleared_route] [] = Ok sr_survivors.
Proof. vm_compute. split_and!; reflexivity. Qed.
Lemma prune_is_reclassification_witness : ∃ recorded', serialize_apply_plan sr_survivors = Ok recorded' ∧
  prune_apply_plan (JObj sr_recorded) (map JObj [moved_route; cleared_route]) (map JObj []) = Ok (JObj recorded').
Proof. exact (prune_is_reclassification [moved_route; cleared_route] [dead_route] [] sr_plan sr_recorded sr_survivors (proj1 sr_distinct) (proj1 sr_plans) (proj1 (proj2 sr_plans)) (proj2 (proj2 sr_plans))). Defined.

(** ** A manual Apply on a concrete device

    The authorized fragment has two VLAN interfaces; the admitted push keeps one, drops the other without deleting it at its origin and
    adds a third.  The Apply selects that stream and one that has no receipt. *)


Definition device_table : pystr * list pydict := ("devices", [[("id", JInt 7); ("ned_id", JStr "cisco-ios-cli-6.95")]]).
Definition authorized_live : tables := [device_table; ("svi_intent", [svi_row 1 7 "Vlan10" 10 JNull; svi_row 2 7 "Vlan20" 20 JNull])].
Definition desired_live : tables := [device_table; ("svi_intent", [svi_row 1 7 "Vlan10" 10 JNull; svi_row 4 7 "Vlan30" 30 JNull])].
Definition authorized_fragment : pydict := match Chain.freeze_live authorized_live onboarded 7 "svi" with Ok f => f | Raise _ => [] end.

Definition apply_store : Db :=
  mkDb (devices onboarded) ∅ ∅ ∅ {[(7, "svi" : pystr) := mkStream 2 1 1 (Some 5) (Some authorized_fragment) None 0]} ∅ ∅ ∅ ∅ 1 1 0 0 None.
Definition apply_start : PushDb := mkPush apply_store desired_live {[(7, "svi" : pystr) := mkReceipt (mkIdentity 5 "a" false false false) (Some []) 200 None 0]} ∅ 1 5.
Definition apply_selected : list (pystr * Z) := [("svi" : pystr, 5); ("static_route" : pystr, 3)].
Definition apply_chosen : list (pystr * Selection) :=
  match selected_promotions apply_start 7 apply_selected with Ok sl => sl_promotable sl | Raise _ => [] end.
Definition or_start (r : res (ActionApplyResult * PushDb)) : ActionApplyResult * PushDb := match r with Ok r => r | Raise _ => (mkResult [] [] [], apply_start) end.
Definition apply_run : ActionApplyResult * PushDb := or_start (create_action_apply ∅ false 7 apply_selected "attempt" apply_start).
Definition chain_run : ActionApplyResult * PushDb := or_start (create_apply_chain ∅ false 7 apply_chosen (Some "attempt") apply_start).

Lemma apply_start_inv : Inv (base apply_start).
Proof. constructor; cbn; intros; by rewrite lookup_empty in *. Qed.
Lemma runs_of r : is_ok r = true → r = Ok ((or_start r).1, (or_start r).2).
Proof. destruct r as [[a b]|]; done. Qed.
Lemma apply_ok : is_ok (create_action_apply ∅ false 7 apply_selected "attempt" apply_start) = true.
Proof. vm_compute. reflexivity. Qed.
Lemma chain_ok : is_ok (create_apply_chain ∅ false 7 apply_chosen (Some "attempt") apply_start) = true.
Proof. vm_compute. reflexivity. Qed.
Lemma apply_runs : create_action_apply ∅ false 7 apply_selected "attempt" apply_start = Ok (apply_run.1, apply_run.2).
Proof. unfold apply_run. exact (runs_of _ apply_ok). Qed.
Lemma chain_runs : create_apply_chain ∅ false 7 apply_chosen (Some "attempt") apply_start = Ok (chain_run.1, chain_run.2).
Proof. unfold chain_run. exact (runs_of _ chain_ok). Qed.
Lemma apply_selection : selected_promotions apply_start 7 apply_selected =
  Ok (mkSelections [("svi" : pystr, mkSelection (Some (mkReceipt (mkIdentity 5 "a" false false false) (Some []) 200 None 0)) None)]
        [("static_route" : pystr, "no_receipt" : pystr)] []).
Proof. vm_compute. reflexivity. Qed.

Definition apply_choice : Selection := mkSelection (Some (mkReceipt (mkIdentity 5 "a" false false false) (Some []) 200 None 0)) None.
Lemma selection_is_exact_witness :
  ("svi"%py, apply_choice) ∈ [("svi"%py, apply_choice)] ↔ ∃ selector, ("svi"%py, selector) ∈ apply_selected ∧ eligible apply_start 7 "svi" selector apply_choice.
Proof. exact (proj1 (selection_is_exact apply_start 7 apply_selected _ apply_selection) "svi"%py apply_choice). Defined.

Lemma apply_chain_shape_witness : ∃ s1 authorized cp left_ cs, plan_chain ∅ 7 apply_chosen authorized s1 = Ok cp ∧ ar_generations chain_run.1 = map co_id cs ∧
  chain_links 7 (Some "attempt") cp left_ apply_start chain_run.2 cs.
Proof. exact (apply_chain_shape ∅ false 7 apply_chosen (Some "attempt") apply_start chain_run.1 chain_run.2 apply_start_inv chain_runs). Defined.

Lemma selected_streams_answered_witness :
  (∃ reason, dict_get (ar_skipped apply_run.1) "svi" = Some reason) ∨
  ∃ i g, i ∈ ar_generations apply_run.1 ∧ generations (base apply_run.2) !! i = Some g ∧ "svi"%py ∈ map fst (g_stream_revisions g).
Proof.
  exact (selected_streams_answered ∅ false 7 apply_selected "attempt" apply_start apply_run.1 apply_run.2 "svi" 5 apply_start_inv apply_runs
           (list_elem_of_here _ _)).
Defined.

Lemma applies_refine_moves_witness : moves (base apply_start) (base apply_run.2) ∧ Inv (base apply_run.2) ∧
  generation_persists (base apply_start) (base apply_run.2).
Proof.
  exact (applies_refine_moves ∅ false 7 apply_start apply_run.2 apply_start_inv
           (or_introl (ex_intro _ apply_selected (ex_intro _ ("attempt" : pystr) (ex_intro _ apply_run.1 apply_runs))))).
Defined.

(** The companion adds Vlan30 to the document that still has Vlan20; the second generation then lets Vlan20 go. *)
Example apply_two_links :
  (ar_generations apply_run.1, ar_skipped apply_run.1) = ([1; 2], [("static_route" : pystr, "no_receipt" : pystr)]) ∧
  (g_mode <$> generations (base apply_run.2) !! 1) = Some networked ∧ (g_mode <$> generations (base apply_run.2) !! 2) = Some detach.
Proof. vm_compute. split_and!; reflexivity. Qed.
