(* ===== verification/WireJson.v ===== *)
(** * Request bodies NSO's lexer can read

    src/nso_adapter/nso/nso_json.py: [boundary_safe_dumps] moves a bare JSON token that would straddle a multiple of 64 KiB past it
    with spaces, and [straddling_bare_tokens] finds such tokens.  The loops run on what is left of the text, with fuel; every
    iteration consumes a character, so the length of the text is enough. *)

From stdpp Require Import base list.
From Stdlib Require Import ZArith NArith Lia.
From S2P Require Import Prelude Json.
Local Open Scope py_scope.
Local Open Scope N_scope.
Local Notation len l := (N.of_nat (length l)).

(** ** The code *)

Definition NSO_LEX_CHUNK : N := 65536.
Definition BARE_START : list N := py_chars "-0123456789tfn".
Definition BARE_CHARS : list N := py_chars "-+.0123456789eEtruefalsn".
Definition bare_start (c : N) : bool := existsb (N.eqb c) BARE_START.
Definition bare_char (c : N) : bool := existsb (N.eqb c) BARE_CHARS.

(** The inner loop over a string literal, after its opening quote: the rest of the literal and what follows it. *)
Fixpoint string_tail (s : list N) : list N * list N :=
  match s with
  | [] => ([], [])
  | c :: r =>
      if c =? 92 then match r with [] => ([c], []) | e :: r => let '(lit, rest) := string_tail r in (c :: e :: lit, rest) end
      else if c =? 34 then ([c], r)
      else let '(lit, rest) := string_tail r in (c :: lit, rest)
  end.
(** The inner loop over a bare token. *)
Fixpoint span_bare (s : list N) : list N * list N :=
  match s with
  | c :: r => if bare_char c then let '(tok, rest) := span_bare r in (c :: tok, rest) else ([], s)
  | [] => ([], [])
  end.

Definition next_boundary (chunk pos : N) : N := (pos / chunk + 1) * chunk.
Definition straddles (chunk pos n : N) : bool := (pos <? next_boundary chunk pos) && (next_boundary chunk pos <? pos + n).

(** The loop of [boundary_safe_dumps]: [pos] is the output offset. *)
Fixpoint pad_loop (fuel : nat) (pos : N) (s : list N) : option (list N) :=
  match s with
  | [] => Some []
  | c :: r =>
      match fuel with
      | O => None
      | S fuel =>
          if c =? 34 then
            let '(lit, rest) := string_tail r in
            out ← pad_loop fuel (pos + 1 + len lit) rest; Some (c :: lit ++ out)
          else if bare_start c then
            let '(tok, rest) := span_bare s in
            if straddles NSO_LEX_CHUNK pos (len tok) then
              let pad := next_boundary NSO_LEX_CHUNK pos - pos in
              out ← pad_loop fuel (pos + pad + len tok) rest; Some (repeat 32 (N.to_nat pad) ++ tok ++ out)
            else out ← pad_loop fuel (pos + len tok) rest; Some (tok ++ out)
          else out ← pad_loop fuel (pos + 1) r; Some (c :: out)
      end
  end.

(** [json.dumps(obj)] *)
Definition spaced : dump_options := DumpOptions [44; 32] [58; 32] false.

(** [boundary_safe_dumps] *)
Definition boundary_safe_dumps (v : json) : option pystr :=
  let s := dump_chars spaced v in
  if len s <=? NSO_LEX_CHUNK then Some (PStr s) else PStr <$> pad_loop (length s) 0 s.

(** [straddling_bare_tokens], for a positive [chunk] (Python divides by it) *)
Fixpoint straddle_loop (fuel : nat) (chunk i : N) (s : list N) : option (list (N * list N)) :=
  match s with
  | [] => Some []
  | c :: r =>
      match fuel with
      | O => None
      | S fuel =>
          if c =? 34 then let '(lit, rest) := string_tail r in straddle_loop fuel chunk (i + 1 + len lit) rest
          else if bare_start c then
            let '(tok, rest) := span_bare s in
            found ← straddle_loop fuel chunk (i + len tok) rest;
            Some (if straddles chunk i (len tok) then (i, tok) :: found else found)
          else straddle_loop fuel chunk (i + 1) r
      end
  end.
Definition straddling_bare_tokens (s : pystr) (chunk : N) : option (list (N * list N)) := straddle_loop (length (py_chars s)) chunk 0 (py_chars s).

Example short_bodies_unchanged : boundary_safe_dumps (JObj [("a", JArr [JBool false; JInt (-1)])]) = Some (dumps spaced (JObj [("a", JArr [JBool false; JInt (-1)])])).
Proof. vm_compute. reflexivity. Qed.
Example straddling_found : straddling_bare_tokens "[true, 1]" 3 = Some [(1, py_chars "true")].
Proof. vm_compute. reflexivity. Qed.

(** ** Every iteration consumes a character *)

Lemma string_tail_length s : (length (string_tail s).2 <= length s)%nat.
Proof.
  enough (∀ n s, (length s <= n)%nat → (length (string_tail s).2 <= length s)%nat) as H by (by eapply H).
  clear s. induction n as [|n IH]; intros [|c r] Hn; cbn in *; try lia.
  destruct (c =? 92).
  - destruct r as [|e r]; cbn in *; [lia|]. pose proof (IH r ltac:(lia)). destruct (string_tail r). cbn in *. lia.
  - destruct (c =? 34); cbn; [lia|]. pose proof (IH r ltac:(lia)). destruct (string_tail r). cbn in *. lia.
Qed.
Lemma span_bare_length s : (length (span_bare s).2 <= length s)%nat.
Proof. induction s as [|c r IH]; [done|]. cbn [span_bare]. destruct (bare_char c); [|done]. destruct (span_bare r). cbn in *. lia. Qed.
Lemma bare_start_char c : bare_start c = true → bare_char c = true.
Proof.
  unfold bare_start. intros (x & Hx & ->%N.eqb_eq)%existsb_exists. revert x Hx. apply forallb_forall. vm_compute. reflexivity.
Qed.
Lemma span_bare_shorter c r : bare_start c = true → (length (span_bare (c :: r)).2 <= length r)%nat.
Proof. intros Hc%bare_start_char. cbn [span_bare]. rewrite Hc. pose proof (span_bare_length r). by destruct (span_bare r). Qed.

Lemma pad_loop_total fuel pos s : (length s <= fuel)%nat → ∃ out, pad_loop fuel pos s = Some out.
Proof.
  revert pos s. induction fuel as [|fuel IH]; intros pos [|c r] Hf; [by eexists|cbn in Hf; lia|by eexists|]. cbn [pad_loop length] in *.
  destruct (c =? 34).
  - pose proof (string_tail_length r). destruct (string_tail r) as [lit rest]. cbn in *. edestruct (IH (pos + 1 + len lit) rest) as [out ->]; [lia|]. by eexists.
  - destruct (bare_start c) eqn:Hb.
    + pose proof (span_bare_shorter c r Hb) as Hs. destruct (span_bare (c :: r)) as [tok rest]. cbn in Hs.
      destruct (straddles _ _ _); match goal with |- context [pad_loop fuel ?p rest] => destruct (IH p rest) as [out ->]; [lia|] end; by eexists.
    + edestruct (IH (pos + 1) r) as [out ->]; [lia|]. by eexists.
Qed.
Lemma pad_loop_more fuel fuel' pos s out : pad_loop fuel pos s = Some out → (fuel <= fuel')%nat → pad_loop fuel' pos s = Some out.
Proof.
  revert fuel' pos s out. induction fuel as [|fuel IH]; intros fuel' pos [|c r] out H Hf; [by destruct fuel'|done|by destruct fuel'|].
  destruct fuel' as [|fuel']; [lia|]. cbn [pad_loop] in *. destruct (c =? 34).
  - destruct (string_tail r) as [lit rest]. destruct (pad_loop fuel _ rest) eqn:E; [|done]. rewrite (IH fuel' _ _ _ E) by lia. done.
  - destruct (bare_start c).
    + destruct (span_bare (c :: r)) as [tok rest]. destruct (straddles _ _ _); (destruct (pad_loop fuel _ rest) eqn:E; [|done]); rewrite (IH fuel' _ _ _ E) by lia; done.
    + destruct (pad_loop fuel _ r) eqn:E; [|done]. rewrite (IH fuel' _ _ _ E) by lia. done.
Qed.
Lemma straddle_loop_total fuel chunk i s : (length s <= fuel)%nat → ∃ found, straddle_loop fuel chunk i s = Some found.
Proof.
  revert i s. induction fuel as [|fuel IH]; intros i [|c r] Hf; [by eexists|cbn in Hf; lia|by eexists|]. cbn [straddle_loop length] in *.
  destruct (c =? 34).
  - pose proof (string_tail_length r). destruct (string_tail r) as [lit rest]. cbn in *. apply IH. lia.
  - destruct (bare_start c) eqn:Hb; [|apply IH; lia].
    pose proof (span_bare_shorter c r Hb) as Hs. destruct (span_bare (c :: r)) as [tok rest]. cbn in Hs. edestruct (IH (i + len tok) rest) as [out ->]; [lia|]. by eexists.
Qed.
Lemma straddle_loop_more fuel fuel' chunk i s found : straddle_loop fuel chunk i s = Some found → (fuel <= fuel')%nat → straddle_loop fuel' chunk i s = Some found.
Proof.
  revert fuel' i s found. induction fuel as [|fuel IH]; intros fuel' i [|c r] found H Hf; [by destruct fuel'|done|by destruct fuel'|].
  destruct fuel' as [|fuel']; [lia|]. cbn [straddle_loop] in *. destruct (c =? 34).
  - destruct (string_tail r) as [lit rest]. apply (IH fuel') in H; [done|lia].
  - destruct (bare_start c).
    + destruct (span_bare (c :: r)) as [tok rest]. destruct (straddle_loop fuel chunk _ rest) eqn:E; [|done]. rewrite (IH fuel' _ _ _ E) by lia. done.
    + apply (IH fuel') in H; [done|lia].
Qed.

(** C39: Both scanners of a request body terminate on every text, balanced or not: with the text's length as fuel, the loop of
    boundary_safe_dumps and the loop of straddling_bare_tokens return, whatever the offset. *)
Theorem scanners_terminate (s : list N) (pos chunk : N) :
  (∃ out, pad_loop (length s) pos s = Some out ∧ ∀ fuel, (length s <= fuel)%nat → pad_loop fuel pos s = Some out) ∧
  (∃ found, straddle_loop (length s) chunk pos s = Some found ∧ ∀ fuel, (length s <= fuel)%nat → straddle_loop fuel chunk pos s = Some found).
Proof.
  split.
  - destruct (pad_loop_total (length s) pos s) as [out H]; [done|]. exists out. split; [done|]. intros fuel Hf. by eapply pad_loop_more.
  - destruct (straddle_loop_total (length s) chunk pos s) as [found H]; [done|]. exists found. split; [done|]. intros fuel Hf. by eapply straddle_loop_more.
Qed.

(** ** The loops without fuel *)

Definition pad (pos : N) (s : list N) : list N := default [] (pad_loop (length s) pos s).
Definition scan (chunk i : N) (s : list N) : list (N * list N) := default [] (straddle_loop (length s) chunk i s).

Lemma pad_fuel fuel pos s : (length s <= fuel)%nat → pad_loop fuel pos s = Some (pad pos s).
Proof. intros Hf. unfold pad. destruct (pad_loop_total (length s) pos s) as [out H]; [done|]. rewrite H. by eapply pad_loop_more. Qed.
Lemma scan_fuel_enough fuel chunk i s : (length s <= fuel)%nat → straddle_loop fuel chunk i s = Some (scan chunk i s).
Proof. intros Hf. unfold scan. destruct (straddle_loop_total (length s) chunk i s) as [out H]; [done|]. rewrite H. by eapply straddle_loop_more. Qed.

(** A bare token at an output offset. *)
Definition pad_token (pos : N) (tok : list N) : list N :=
  (if straddles NSO_LEX_CHUNK pos (len tok) then repeat 32 (N.to_nat (next_boundary NSO_LEX_CHUNK pos - pos)) else []) ++ tok.

Lemma pad_string pos r lit rest : string_tail r = (lit, rest) → pad pos (34 :: r) = 34 :: lit ++ pad (pos + 1 + len lit) rest.
Proof.
  intros E. pose proof (string_tail_length r) as Hl. rewrite E in Hl. unfold pad at 1. cbn [length pad_loop N.eqb Pos.eqb]. rewrite E.
  by rewrite pad_fuel.
Qed.
Lemma pad_bare pos c r tok rest : bare_start c = true → c ≠ 34 → span_bare (c :: r) = (tok, rest) →
  pad pos (c :: r) = pad_token pos tok ++ pad (pos + len (pad_token pos tok)) rest.
Proof.
  intros Hb Hc E. pose proof (span_bare_shorter c r Hb) as Hl. rewrite E in Hl. cbn in Hl. unfold pad at 1. cbn [length pad_loop].
  apply N.eqb_neq in Hc as ->. rewrite Hb, E. unfold pad_token. destruct (straddles NSO_LEX_CHUNK pos (len tok)).
  - rewrite pad_fuel by done. cbn [mbind option_bind default from_option]. unfold id. rewrite <-app_assoc, length_app, repeat_length.
    do 3 f_equal. lia.
  - rewrite pad_fuel by done. done.
Qed.
Lemma pad_other pos c r : c ≠ 34 → bare_start c = false → pad pos (c :: r) = c :: pad (pos + 1) r.
Proof. intros Hc Hb. unfold pad at 1. cbn [length pad_loop]. apply N.eqb_neq in Hc as ->. rewrite Hb. by rewrite pad_fuel. Qed.

Lemma scan_string_literal chunk i r lit rest : string_tail r = (lit, rest) → scan chunk i (34 :: r) = scan chunk (i + 1 + len lit) rest.
Proof.
  intros E. pose proof (string_tail_length r) as Hl. rewrite E in Hl. unfold scan at 1. cbn [length straddle_loop N.eqb Pos.eqb]. rewrite E.
  by rewrite scan_fuel_enough.
Qed.
Lemma scan_bare chunk i c r tok rest : bare_start c = true → c ≠ 34 → span_bare (c :: r) = (tok, rest) → straddles chunk i (len tok) = false →
  scan chunk i (c :: r) = scan chunk (i + len tok) rest.
Proof.
  intros Hb Hc E Hs. pose proof (span_bare_shorter c r Hb) as Hl. rewrite E in Hl. cbn in Hl. unfold scan at 1. cbn [length straddle_loop].
  apply N.eqb_neq in Hc as ->. rewrite Hb, E, scan_fuel_enough by done. cbn. by rewrite Hs.
Qed.
Lemma scan_other chunk i c r : c ≠ 34 → bare_start c = false → scan chunk i (c :: r) = scan chunk (i + 1) r.
Proof. intros Hc Hb. unfold scan at 1. cbn [length straddle_loop]. apply N.eqb_neq in Hc as ->. rewrite Hb. by rewrite scan_fuel_enough. Qed.

(** ** String literals *)

Lemma string_tail_plain c r : c ≠ 34 → c ≠ 92 → string_tail (c :: r) = let '(lit, rest) := string_tail r in (c :: lit, rest).
Proof. intros H1%N.eqb_neq H2%N.eqb_neq. cbn [string_tail]. by rewrite H2, H1. Qed.
Lemma string_tail_escaped e r : string_tail (92 :: e :: r) = let '(lit, rest) := string_tail r in (92 :: e :: lit, rest).
Proof. done. Qed.
Lemma hex_digit_plain n : n < 16 → hex_digit n ≠ 34 ∧ hex_digit n ≠ 92.
Proof. intros H. unfold hex_digit. destruct (N.ltb_spec n 10); lia. Qed.
Lemma string_tail_hex4 n r : string_tail (hex4 n ++ r) = let '(lit, rest) := string_tail r in (hex4 n ++ lit, rest).
Proof.
  assert (∀ m, m mod 16 < 16) as Hm by (intros m; by apply N.mod_lt). unfold hex4. cbn [app].
  rewrite 4 string_tail_plain by (by apply hex_digit_plain). by destruct (string_tail r).
Qed.
Lemma string_tail_escape c r : string_tail (escape_char c ++ r) = let '(lit, rest) := string_tail r in (escape_char c ++ lit, rest).
Proof.
  unfold escape_char. destruct (N.eqb_spec c 34) as [->|H1]; [done|]. destruct (N.eqb_spec c 92) as [->|H2]; [done|].
  repeat (match goal with |- context [N.eqb c ?k] => destruct (N.eqb c k) end; [done|]).
  destruct (_ && _); [by apply string_tail_plain|]. destruct (c <? 65536).
  - rewrite <-app_assoc. cbn [app]. rewrite string_tail_escaped, string_tail_hex4. by destruct (string_tail r).
  - rewrite <-!app_assoc. cbn [app]. rewrite string_tail_escaped, string_tail_hex4. change (92 :: 117 :: ?x ++ ?y) with ([92; 117] ++ x ++ y).
    cbn [app]. rewrite string_tail_escaped, string_tail_hex4. destruct (string_tail r). by rewrite <-app_assoc.
Qed.
Lemma string_tail_literal cs r : string_tail (flat_map escape_char cs ++ 34 :: r) = (flat_map escape_char cs ++ [34], r).
Proof. induction cs as [|c cs IH]; [done|]. cbn [flat_map]. rewrite <-app_assoc, string_tail_escape, IH. by rewrite <-app_assoc. Qed.

Lemma pad_str pos s r : pad pos (dump_str s ++ r) = dump_str s ++ pad (pos + len (dump_str s)) r.
Proof.
  unfold dump_str. rewrite <-!app_assoc. cbn [app]. erewrite pad_string by apply string_tail_literal. cbn [app length]. rewrite <-app_assoc. cbn [app].
  replace (pos + 1 + len (flat_map escape_char (py_chars s) ++ [34])) with (pos + N.of_nat (S (length (flat_map escape_char (py_chars s) ++ [34])))) by lia.
  done.
Qed.
Lemma scan_str chunk i s r : scan chunk i (dump_str s ++ r) = scan chunk (i + len (dump_str s)) r.
Proof.
  unfold dump_str. rewrite <-!app_assoc. cbn [app]. erewrite scan_string_literal by apply string_tail_literal. cbn [app length]. f_equal. lia.
Qed.

(** ** Bare tokens *)

Lemma not_bare_delim r : delim r = true → span_bare r = ([], r).
Proof. intros [->|(c & r' & -> & [->|[->| ->]])]%delim_cases; done. Qed.
Lemma span_bare_app tok r : forallb bare_char tok = true → delim r = true → span_bare (tok ++ r) = (tok, r).
Proof.
  intros Ht Hr. induction tok as [|c tok IH]; [by apply not_bare_delim|]. cbn [forallb] in Ht. apply andb_prop in Ht as [Hc Ht].
  cbn [app span_bare]. by rewrite Hc, IH.
Qed.

(** The rendering of a number or a keyword. *)
Definition bare_token (tok : list N) : Prop :=
  forallb bare_char tok = true ∧ (∃ c t, tok = c :: t ∧ bare_start c = true) ∧ len tok <= NSO_LEX_CHUNK.

Lemma bare_start_quote c : bare_start c = true → c ≠ 34.
Proof. intros H ->. by vm_compute in H. Qed.
Lemma pad_bare_token pos tok r : bare_token tok → delim r = true → pad pos (tok ++ r) = pad_token pos tok ++ pad (pos + len (pad_token pos tok)) r.
Proof.
  intros (Ht & (c & t & -> & Hc) & _) Hr. apply pad_bare; [done|by apply bare_start_quote|]. by apply (span_bare_app (c :: t)).
Qed.

Lemma boundary_after chunk pos : 0 < chunk → pos < next_boundary chunk pos ∧ next_boundary chunk pos <= pos + chunk.
Proof.
  intros H. unfold next_boundary. pose proof (N.Div0.div_mod pos chunk) as E. pose proof (N.mod_lt pos chunk ltac:(lia)) as L.
  rewrite N.mul_add_distr_r, (N.mul_comm (pos / chunk) chunk), N.mul_1_l. revert E L. generalize (chunk * (pos / chunk)), (pos mod chunk). lia.
Qed.
Lemma boundary_straddles chunk pos n : 0 < chunk → n <= chunk → straddles chunk (next_boundary chunk pos) n = false.
Proof.
  intros H Hn. unfold straddles. assert (next_boundary chunk (next_boundary chunk pos) = next_boundary chunk pos + chunk) as ->.
  { unfold next_boundary. rewrite N.div_mul by lia. lia. }
  apply andb_false_iff. right. apply N.ltb_ge. lia.
Qed.
Lemma scan_spaces chunk i k s : scan chunk i (repeat 32 k ++ s) = scan chunk (i + N.of_nat k) s.
Proof.
  revert i. induction k as [|k IH]; intros i; cbn [repeat app]; [f_equal; lia|]. rewrite scan_other by done. rewrite IH. f_equal. lia.
Qed.
Lemma scan_pad_token i tok r : bare_token tok → delim r = true →
  scan NSO_LEX_CHUNK i (pad_token i tok ++ r) = scan NSO_LEX_CHUNK (i + len (pad_token i tok)) r.
Proof.
  intros (Ht & (c & t & -> & Hc) & Hl) Hr. unfold pad_token. destruct (straddles NSO_LEX_CHUNK i (len (c :: t))) eqn:Es.
  - rewrite <-app_assoc, scan_spaces, length_app, repeat_length.
    pose proof (boundary_after NSO_LEX_CHUNK i ltac:(done)). set (b := next_boundary NSO_LEX_CHUNK i) in *.
    replace (i + N.of_nat (N.to_nat (b - i))) with b by lia. cbn [app].
    rewrite (scan_bare _ b c (t ++ r) (c :: t) r); [f_equal; lia|done|by apply bare_start_quote|by apply (span_bare_app (c :: t))|].
    by apply boundary_straddles.
  - cbn [app]. rewrite (scan_bare _ i c (t ++ r) (c :: t) r); [done|done|by apply bare_start_quote|by apply (span_bare_app (c :: t))|done].
Qed.

(** ** The rendering the loop produces *)

(** The text of a value at an output offset: a bare token moved past a boundary it would straddle. *)
Fixpoint padded (pos : N) (v : json) : list N :=
  match v with
  | JStr s => dump_str s
  | JArr l =>
      [91] ++ (fix items (pos : N) (l : list json) : list N :=
                 match l with
                 | [] => []
                 | v :: l => let t := padded pos v in t ++ match l with [] => [] | _ => [44; 32] ++ items (pos + len t + 2) l end
                 end) (pos + 1) l ++ [93]
  | JObj l =>
      [123] ++ (fix members (pos : N) (l : list (pystr * json)) : list N :=
                  match l with
                  | [] => []
                  | kv :: l =>
                      let k := dump_str kv.1 in
                      let t := padded (pos + len k + 2) kv.2 in
                      k ++ [58; 32] ++ t ++ match l with [] => [] | _ => [44; 32] ++ members (pos + len k + 2 + len t + 2) l end
                  end) (pos + 1) l ++ [125]
  | v => pad_token pos (dump_chars spaced v)
  end.
Fixpoint padded_items (pos : N) (l : list json) : list N :=
  match l with
  | [] => []
  | v :: l => let t := padded pos v in t ++ match l with [] => [] | _ => [44; 32] ++ padded_items (pos + len t + 2) l end
  end.
Fixpoint padded_members (pos : N) (l : list (pystr * json)) : list N :=
  match l with
  | [] => []
  | kv :: l =>
      let k := dump_str kv.1 in
      let t := padded (pos + len k + 2) kv.2 in
      k ++ [58; 32] ++ t ++ match l with [] => [] | _ => [44; 32] ++ padded_members (pos + len k + 2 + len t + 2) l end
  end.
Lemma padded_arr pos l : padded pos (JArr l) = [91] ++ padded_items (pos + 1) l ++ [93].
Proof. done. Qed.
Lemma padded_obj pos l : padded pos (JObj l) = [123] ++ padded_members (pos + 1) l ++ [125].
Proof. done. Qed.

Abbreviation dump := (dump_chars spaced).
Definition dump_items (l : list json) : list N := join_chars [44; 32] (map dump l).
Definition dump_entry (kv : pystr * json) : list N := dump_str kv.1 ++ [58; 32] ++ dump kv.2.
Definition dump_entries (l : list (pystr * json)) : list N := join_chars [44; 32] (map dump_entry l).
Lemma dump_arr l : dump (JArr l) = [91] ++ dump_items l ++ [93].
Proof. done. Qed.
Lemma dump_obj l : dump (JObj l) = [123] ++ dump_entries l ++ [125].
Proof. cbn [dump_chars sort_keys spaced]. rewrite map_map. done. Qed.
Lemma dump_items_cons v l : dump_items (v :: l) = dump v ++ match l with [] => [] | _ => [44; 32] ++ dump_items l end.
Proof. unfold dump_items. destruct l; cbn [map join_chars]; [by rewrite app_nil_r|done]. Qed.
Lemma dump_entries_cons kv l : dump_entries (kv :: l) = dump_str kv.1 ++ [58; 32] ++ dump kv.2 ++ match l with [] => [] | _ => [44; 32] ++ dump_entries l end.
Proof. unfold dump_entries. destruct l; cbn [map join_chars]; unfold dump_entry; by rewrite <-?app_assoc, ?app_nil_r. Qed.

(** A value is processed as a unit wherever a value may end. *)
Definition pads_as (v : json) : Prop := ∀ pos r, delim r = true → pad pos (dump v ++ r) = padded pos v ++ pad (pos + len (padded pos v)) r.

Lemma pad_sep pos c r : c = 44 ∨ c = 58 → pad pos (c :: 32 :: r) = c :: 32 :: pad (pos + 2) r.
Proof. intros H. rewrite pad_other by (by destruct H as [->| ->]). rewrite pad_other by done. do 3 f_equal. lia. Qed.

Lemma dump_tail_delim {A} (l : list A) s r : delim r = true → delim (match l with [] => [] | _ => [44; 32] ++ s end ++ r) = true.
Proof. by destruct l. Qed.

Lemma pad_items l pos r : Forall pads_as l → pad pos (dump_items l ++ 93 :: r) = padded_items pos l ++ pad (pos + len (padded_items pos l)) (93 :: r).
Proof.
  intros H. revert pos. induction H as [|v l Hv Hl IH]; intros pos; [by rewrite N.add_0_r|]. rewrite dump_items_cons. cbn [padded_items]. cbv zeta.
  rewrite <-app_assoc, Hv by (by apply dump_tail_delim). rewrite <-app_assoc. f_equal. destruct l as [|w l].
  - cbn [app]. rewrite app_nil_r. done.
  - rewrite <-app_assoc. cbn [app]. rewrite pad_sep by auto. rewrite IH. do 3 f_equal. rewrite length_app. cbn [app length]. f_equal. lia.
Qed.
Lemma pad_members l pos r : Forall (fun kv => pads_as kv.2) l →
  pad pos (dump_entries l ++ 125 :: r) = padded_members pos l ++ pad (pos + len (padded_members pos l)) (125 :: r).
Proof.
  intros H. revert pos. induction H as [|kv l Hv Hl IH]; intros pos; [by rewrite N.add_0_r|]. rewrite dump_entries_cons. cbn [padded_members]. cbv zeta.
  rewrite <-!app_assoc, pad_str. f_equal. cbn [app]. rewrite pad_sep by auto. do 2 f_equal. rewrite Hv by (by apply dump_tail_delim).
  f_equal. destruct l as [|w l].
  - cbn [app]. rewrite app_nil_r, !length_app. cbn [length]. f_equal. lia.
  - cbn [app]. rewrite pad_sep by auto. rewrite IH. do 3 f_equal. rewrite !length_app. cbn [app length]. rewrite !length_app. cbn [length]. f_equal. lia.
Qed.

Lemma bare_digit c : is_digit_char c = true → bare_char c = true ∧ bare_start c = true.
Proof.
  unfold is_digit_char. rewrite andb_true_iff, !N.leb_le. intros [H1 H2].
  assert (c = 48 ∨ c = 49 ∨ c = 50 ∨ c = 51 ∨ c = 52 ∨ c = 53 ∨ c = 54 ∨ c = 55 ∨ c = 56 ∨ c = 57) as H by lia. intuition (subst; reflexivity).
Qed.
Lemma dump_int_token z : (length (uint_chars (N.to_uint (Z.abs_N z))) <= int_max_str_digits)%nat → bare_token (dump_int z).
Proof.
  intros Hl. unfold dump_int. pose proof (uint_chars_digits (N.to_uint (Z.abs_N z))) as Hd. set (u := uint_chars _) in *.
  assert (forallb bare_char u = true) as Hb by (eapply forallb_impl; [|exact Hd]; intros c Hc; by apply bare_digit).
  destruct (uint_chars_head (Z.abs_N z)) as (c & t & E & Hc). fold u in E. split_and!.
  - destruct (z <? 0)%Z; [|done]. cbn [app forallb]. by rewrite Hb.
  - destruct (z <? 0)%Z; [by eexists _, _|]. exists c, t. split; [done|]. by apply bare_digit.
  - unfold int_max_str_digits, NSO_LEX_CHUNK in *. rewrite length_app. destruct (z <? 0)%Z; cbn [length]; lia.
Qed.

Lemma padded_loop v : json_plain v = true → pads_as v.
Proof.
  induction v as [|b|z|lit|s|l IH|l IH] using json_ind'; intros Hp pos r Hr; try done.
  - apply pad_bare_token; [|done]. split_and!; [done|by eexists _, _|done].
  - apply pad_bare_token; [|done]. destruct b; (split_and!; [done|by eexists _, _|done]).
  - apply pad_bare_token; [|done]. apply dump_int_token. by apply Nat.leb_le.
  - apply pad_str.
  - apply forallb_Forall in Hp. rewrite dump_arr, padded_arr. rewrite <-!app_assoc. cbn [app]. rewrite pad_other by done. rewrite pad_items.
    + rewrite pad_other by done. cbn [app length]. do 4 f_equal. rewrite length_app. cbn [length]. lia.
    + rewrite Forall_forall in *. eauto.
  - cbn [json_plain] in Hp. apply andb_prop in Hp as [Hp _]. apply forallb_Forall in Hp. rewrite dump_obj, padded_obj. rewrite <-!app_assoc. cbn [app].
    rewrite pad_other by done. rewrite pad_members.
    + rewrite pad_other by done. cbn [app length]. do 4 f_equal. rewrite length_app. cbn [length]. lia.
    + rewrite Forall_forall in *. intros kv Hin. destruct (andb_prop _ _ (Hp _ Hin)). auto.
Qed.

(** ** No token straddles *)

Abbreviation checked := (scan NSO_LEX_CHUNK).
Definition scans_as (v : json) : Prop := ∀ i r, delim r = true → checked i (padded i v ++ r) = checked (i + len (padded i v)) r.

Lemma scan_sep i c r : c = 44 ∨ c = 58 → checked i (c :: 32 :: r) = checked (i + 2) r.
Proof. intros H. rewrite scan_other by (by destruct H as [->| ->]). rewrite scan_other by done. f_equal. lia. Qed.

Lemma scan_items_padded l i r : Forall scans_as l → checked i (padded_items i l ++ 93 :: r) = checked (i + len (padded_items i l)) (93 :: r).
Proof.
  intros H. revert i. induction H as [|v l Hv Hl IH]; intros i; [by rewrite N.add_0_r|]. cbn [padded_items]. cbv zeta.
  rewrite <-app_assoc, Hv by (by apply dump_tail_delim). destruct l as [|w l].
  - cbn [app]. by rewrite app_nil_r.
  - cbn [app]. rewrite scan_sep by auto. rewrite IH. f_equal. rewrite length_app. cbn [app length]. lia.
Qed.
Lemma scan_members_padded l i r : Forall (fun kv => scans_as kv.2) l →
  checked i (padded_members i l ++ 125 :: r) = checked (i + len (padded_members i l)) (125 :: r).
Proof.
  intros H. revert i. induction H as [|kv l Hv Hl IH]; intros i; [by rewrite N.add_0_r|]. cbn [padded_members]. cbv zeta.
  rewrite <-!app_assoc, scan_str. cbn [app]. rewrite scan_sep by auto. rewrite Hv by (by apply dump_tail_delim). destruct l as [|w l].
  - cbn [app]. rewrite app_nil_r, !length_app. cbn [length]. f_equal. lia.
  - cbn [app]. rewrite scan_sep by auto. rewrite IH. f_equal. rewrite !length_app. cbn [app length]. rewrite !length_app. cbn [length]. lia.
Qed.

Lemma padded_scans v : json_plain v = true → scans_as v.
Proof.
  induction v as [|b|z|lit|s|l IH|l IH] using json_ind'; intros Hp i r Hr; try done.
  - apply scan_pad_token; [|done]. split_and!; [done|by eexists _, _|done].
  - apply scan_pad_token; [|done]. destruct b; (split_and!; [done|by eexists _, _|done]).
  - apply scan_pad_token; [|done]. apply dump_int_token. by apply Nat.leb_le.
  - apply scan_str.
  - apply forallb_Forall in Hp. rewrite padded_arr. rewrite <-!app_assoc. cbn [app]. rewrite scan_other by done. rewrite scan_items_padded.
    + rewrite scan_other by done. cbn [app length]. f_equal. rewrite length_app. cbn [length]. lia.
    + rewrite Forall_forall in *. eauto.
  - cbn [json_plain] in Hp. apply andb_prop in Hp as [Hp _]. apply forallb_Forall in Hp. rewrite padded_obj. rewrite <-!app_assoc. cbn [app].
    rewrite scan_other by done. rewrite scan_members_padded.
    + rewrite scan_other by done. cbn [app length]. f_equal. rewrite length_app. cbn [length]. lia.
    + rewrite Forall_forall in *. intros kv Hin. destruct (andb_prop _ _ (Hp _ Hin)). auto.
Qed.

(** ** Short bodies are not padded *)

Lemma pad_token_short pos tok : 0 < len tok → pos + len tok <= NSO_LEX_CHUNK → pad_token pos tok = tok.
Proof.
  intros H0 H. unfold pad_token, straddles, next_boundary. rewrite (N.div_small pos) by (unfold NSO_LEX_CHUNK in *; lia).
  replace ((0 + 1) * NSO_LEX_CHUNK <? pos + len tok) with false by (symmetry; apply N.ltb_ge; lia). by rewrite andb_false_r.
Qed.
Definition short_as (v : json) : Prop := ∀ pos, pos + len (dump v) <= NSO_LEX_CHUNK → padded pos v = dump v.
Lemma short_items l pos : Forall short_as l → pos + len (dump_items l) <= NSO_LEX_CHUNK → padded_items pos l = dump_items l.
Proof.
  intros H. revert pos. induction H as [|v l Hv Hl IH]; intros pos Hp; [done|]. rewrite dump_items_cons in *. cbn [padded_items]. cbv zeta.
  rewrite length_app in Hp. rewrite Hv by lia. destruct l as [|w l]; [done|]. rewrite length_app in Hp. cbn [length] in Hp. rewrite IH by lia. done.
Qed.
Lemma short_members l pos : Forall (fun kv => short_as kv.2) l → pos + len (dump_entries l) <= NSO_LEX_CHUNK → padded_members pos l = dump_entries l.
Proof.
  intros H. revert pos. induction H as [|kv l Hv Hl IH]; intros pos Hp; [done|]. rewrite dump_entries_cons in *. cbn [padded_members]. cbv zeta.
  rewrite !length_app in Hp. cbn [length] in Hp.
  assert (padded (pos + len (dump_str kv.1) + 2) kv.2 = dump kv.2) as E by (apply Hv; lia). rewrite E.
  destruct l as [|w l]; [done|]. rewrite length_app in Hp. cbn [length] in Hp. rewrite IH by lia. done.
Qed.
Lemma padded_short v : json_plain v = true → short_as v.
Proof.
  induction v as [|b|z|lit|s|l IH|l IH] using json_ind'; intros Hp pos Hs; try done.
  - by apply pad_token_short.
  - destruct b; by apply pad_token_short.
  - apply pad_token_short; [|done]. change (dump (JInt z)) with (dump_int z). destruct (dump_int_token z) as (_ & (c & t & -> & _) & _); [by apply Nat.leb_le|]. cbn [length]. lia.
  - apply forallb_Forall in Hp. rewrite dump_arr, padded_arr in *. rewrite !length_app in Hs. cbn [length] in Hs. rewrite short_items; [done| |lia].
    rewrite Forall_forall in *. eauto.
  - cbn [json_plain] in Hp. apply andb_prop in Hp as [Hp _]. apply forallb_Forall in Hp. rewrite dump_obj, padded_obj in *. rewrite !length_app in Hs.
    cbn [length] in Hs. rewrite short_members; [done| |lia]. rewrite Forall_forall in *. intros kv Hin. destruct (andb_prop _ _ (Hp _ Hin)). auto.
Qed.

Lemma boundary_safe_padded v : json_plain v = true → boundary_safe_dumps v = Some (PStr (padded 0 v)).
Proof.
  intros Hp. unfold boundary_safe_dumps. cbv zeta. destruct (N.leb_spec (len (dump v)) NSO_LEX_CHUNK) as [Hl|_].
  - by rewrite padded_short by done.
  - rewrite pad_fuel by done. pose proof (padded_loop v Hp 0 [] eq_refl) as H. rewrite app_nil_r in H. rewrite H. cbn. by rewrite app_nil_r.
Qed.

(** C40: A request body never breaks NSO's lexer.  For every document the adapter can send - strings, integers, booleans, null, lists and
    objects - boundary_safe_dumps returns a text in which no number and no keyword straddles a multiple of 64 KiB, as
    straddling_bare_tokens itself reports; a body of at most 64 KiB is the plain rendering. *)
Theorem bodies_never_straddle v : json_plain v = true →
  ∃ body, boundary_safe_dumps v = Some body ∧ straddling_bare_tokens body NSO_LEX_CHUNK = Some [] ∧
    (N.of_nat (length (dump_chars spaced v)) <= NSO_LEX_CHUNK → body = dumps spaced v).
Proof.
  intros Hp. exists (PStr (padded 0 v)). split_and!; [by apply boundary_safe_padded| |].
  - unfold straddling_bare_tokens. rewrite scan_fuel_enough by done. f_equal. pose proof (padded_scans v Hp 0 [] eq_refl) as H.
    rewrite app_nil_r in H. exact H.
  - intros Hs. unfold dumps. by rewrite padded_short.
Qed.

(** ** The document is read back *)

Section ReadBack.
Context (hook : list (pystr * json) -> res json) (ce : exc).
Context (hook_distinct : ∀ l, NoDup (dict_keys l) → hook l = Ok (JObj l)).
Abbreviation once := (scan_once hook ce).

Lemma skip_spaces k s : skip_ws (repeat 32 k ++ s) = skip_ws s.
Proof. induction k as [|k IH]; [done|exact IH]. Qed.
Lemma pad_token_skips pos c t r : is_ws c = false → skip_ws (pad_token pos (c :: t) ++ r) = c :: t ++ r.
Proof. intros Hc. unfold pad_token. destruct (straddles _ _ _); rewrite <-app_assoc, ?skip_spaces; cbn [app]; by apply skip_ws_head. Qed.
Lemma skip_sep s : skip_ws (32 :: s) = skip_ws s.
Proof. done. Qed.

(** The first character of a value after the spaces: never a closing bracket. *)
Lemma padded_head pos v r : json_plain v = true → ∃ c t, skip_ws (padded pos v ++ r) = c :: t ∧ c ≠ 93 ∧ c ≠ 125 ∧ is_ws c = false.
Proof.
  destruct v as [|[|]|z|lit|s|l|l]; intros Hp; try done.
  1-3: eexists _, _; (split; [by apply pad_token_skips|done]).
  - unfold padded. change (dump (JInt z)) with (dump_int z). unfold dump_int. destruct (uint_chars_head (Z.abs_N z)) as (c & t & -> & Hc).
    destruct (z <? 0)%Z; cbn [app]; eexists _, _; (split; [apply pad_token_skips|]); try done.
    all: unfold is_digit_char in Hc; apply andb_prop in Hc as [H1%N.leb_le H2%N.leb_le]; unfold is_ws; rewrite ?orb_false_iff, ?N.eqb_neq; lia.
  - eexists _, _. split; [by apply skip_ws_head|done].
  - rewrite padded_arr. eexists _, _. split; [by apply skip_ws_head|done].
  - rewrite padded_obj. eexists _, _. split; [by apply skip_ws_head|done].
Qed.

Definition reads_padded (v : json) : Prop := ∀ pos fuel depth r,
  (2 * length (padded pos v) < fuel)%nat → (json_depth v <= depth)%nat → delim r = true → once fuel depth (skip_ws (padded pos v ++ r)) = Scanned (v, r).

Lemma read_token pos v fuel depth r : (∃ c t, dump v = c :: t ∧ is_ws c = false) → padded pos v = pad_token pos (dump v) →
  once fuel depth (dump v ++ r) = Scanned (v, r) → once fuel depth (skip_ws (padded pos v ++ r)) = Scanned (v, r).
Proof. intros (c & t & E & Hc) -> H. rewrite E in H |- *. rewrite pad_token_skips by done. exact H. Qed.

Lemma read_items l pos fuel depth r acc : Forall (fun v => json_plain v = true ∧ reads_padded v) l → l ≠ [] →
  Forall (fun v => json_depth v <= depth)%nat l → (2 * length (padded_items pos l) + 1 < fuel)%nat →
  scan_items hook ce fuel depth (skip_ws (padded_items pos l ++ 93 :: r)) acc = Scanned (JArr (rev acc ++ l), r).
Proof.
  intros Hl Hne Hd. revert pos fuel acc. induction Hl as [|v l [Hp Hv] Hl IH]; intros pos fuel acc Hf; [done|].
  inversion Hd as [|? ? Hdv Hdl]; subst. destruct fuel as [|fuel]; [lia|]. cbn [padded_items] in *. cbv zeta in *. rewrite length_app in Hf.
  rewrite scan_items_S, <-app_assoc, Hv; [|lia|done|by apply dump_tail_delim]. destruct l as [|w l].
  - done.
  - cbn [app]. cbn [mbind scanned_bind]. rewrite skip_ws_head by done. cbn [N.eqb Pos.eqb]. rewrite skip_sep. cbn [app length] in Hf.
    rewrite IH; [|done|done|lia]. cbn [rev]. by rewrite <-app_assoc.
Qed.

Lemma read_members l pos fuel depth r acc : Forall (fun kv => plain_str kv.1 = true ∧ json_plain kv.2 = true ∧ reads_padded kv.2) l → l ≠ [] →
  Forall (fun kv => json_depth kv.2 <= depth)%nat l → NoDup (dict_keys (rev acc ++ l)) → (2 * length (padded_members pos l) + 1 < fuel)%nat →
  scan_members hook ce fuel depth (padded_members pos l ++ 125 :: r) acc = Scanned (JObj (rev acc ++ l), r).
Proof.
  intros Hl Hne Hd. revert pos fuel acc. induction Hl as [|[k v] l (Hk & Hp & Hv) Hl IH]; intros pos fuel acc HN Hf; [done|].
  inversion Hd as [|? ? Hdv Hdl]; subst. destruct fuel as [|fuel]; [lia|]. cbn [padded_members fst snd] in *. cbv zeta in *.
  set (p1 := pos + len (dump_str k) + 2) in *. set (t := padded p1 v) in *. set (p2 := p1 + len t + 2) in *. clearbody p2. clearbody p1. unfold dump_str in *. rewrite <-!app_assoc. cbn [app]. rewrite !length_app in Hf. cbn [length] in Hf.
  rewrite ?length_app in Hf. rewrite scan_members_S. cbn [N.eqb Pos.eqb]. rewrite scan_string_escaped; [|done|rewrite length_app; cbn [length]; lia].
  cbn [mbind scanned_bind of_option rev app]. rewrite skip_ws_head by done. cbn [N.eqb Pos.eqb]. rewrite skip_sep, <-?app_assoc.
  unfold t at 1. rewrite Hv; [|fold t; lia|done|by apply dump_tail_delim]. cbn [mbind scanned_bind]. destruct k as [k]. cbn [py_chars]. destruct l as [|w l].
  - cbn. by rewrite hook_distinct.
  - cbn [app]. rewrite skip_ws_head by done. cbn [N.eqb Pos.eqb]. rewrite skip_sep.
    match goal with |- context [skip_ws (padded_members ?p ?l ++ ?x)] => replace (skip_ws (padded_members p l ++ x)) with (padded_members p l ++ x) end;
      [|cbn [padded_members]; unfold dump_str; cbn [app]; by rewrite skip_ws_head].
    cbn [app length] in Hf. rewrite IH; [|done|done| |lia]; cbn [rev]; by rewrite <-app_assoc.
Qed.

Lemma padded_reads v : json_plain v = true → reads_padded v.
Proof.
  induction v as [|b|z|lit|s|l IH|l IH] using json_ind'; intros Hp pos fuel depth r Hf Hd Hr; (destruct fuel as [|fuel]; [lia|]); try done.
  - apply read_token; [by eexists _, _|done|done].
  - destruct b; (apply read_token; [by eexists _, _|done|done]).
  - apply read_token; [|done|].
    + destruct (dump_int_token z) as (_ & (c & t & E & Hc) & _); [by apply Nat.leb_le|]. exists c, t. split; [exact E|].
      revert Hc. unfold bare_start. rewrite existsb_exists. intros (x & Hx & ->%N.eqb_eq). apply negb_true_iff. clear E. revert x Hx.
      apply (forallb_forall (fun c => negb (is_ws c))). vm_compute. reflexivity.
    + apply scan_int_once; [done|]. by apply Nat.leb_le.
  - change (once (S fuel) depth (dump_str s ++ r) = Scanned (JStr s, r)). by apply scan_str_once.
  - apply forallb_Forall in Hp. rewrite padded_arr in *. cbn [json_depth] in Hd. destruct depth as [|depth]; [lia|]. rewrite <-!app_assoc. cbn [app].
    rewrite skip_ws_head by done. destruct l as [|v l]; [done|]. inversion Hp as [|? ? Hpv Hpl]; subst.
    destruct (padded_head (pos + 1) v (match l with [] => [] | _ => [44; 32] ++ padded_items (pos + 1 + len (padded (pos + 1) v) + 2) l end ++ 93 :: r) Hpv) as (c & t & E & Hc & _).
    pose proof (read_items (v :: l) (pos + 1) fuel depth r []) as Hi. rewrite !length_app in Hf. cbn [length] in Hf.
    cbn [padded_items] in Hi, Hf |- *. cbv zeta in Hi, Hf |- *. rewrite <-app_assoc in Hi |- *. rewrite E in Hi.
    erewrite scan_once_array; [|exact E|done]. apply Hi; [|done| |lia].
    + rewrite Forall_forall in *. intros x Hx. split; [by apply Hp|]. by apply IH, Hp.
    + apply foldr_max_Forall. lia.
  - cbn [json_plain] in Hp. apply andb_prop in Hp as [Hp HN]. apply bool_decide_eq_true in HN. apply forallb_Forall in Hp. rewrite padded_obj in *.
    cbn [json_depth] in Hd. destruct depth as [|depth]; [lia|]. rewrite <-!app_assoc. cbn [app]. rewrite skip_ws_head by done. destruct l as [|kv l].
    { transitivity (v ← of_res (hook []); Scanned (v, r)); [done|]. by rewrite hook_distinct. }
    rewrite !length_app in Hf. cbn [length] in Hf. pose proof (read_members (kv :: l) (pos + 1) fuel depth r []) as Hi.
    assert (∃ t, padded_members (pos + 1) (kv :: l) ++ 125 :: r = 34 :: t) as (t & E) by (cbn [padded_members]; unfold dump_str; cbn [app]; eauto).
    rewrite E in Hi |- *. erewrite scan_once_object; [|by apply skip_ws_head|done]. apply Hi; [|done| |done|lia].
    + rewrite Forall_forall in *. intros x Hx. destruct (andb_prop _ _ (Hp _ Hx)). auto.
    + apply (foldr_max_Forall (fun kv => json_depth kv.2)). lia.
Qed.
End ReadBack.

Lemma dict_of_distinct {V} (l : list (pystr * V)) : NoDup (dict_keys l) → dict_of_pairs l = l.
Proof.
  intros H. unfold dict_of_pairs. change l with ([] ++ l) in H. change l with ([] ++ l) at 2. generalize dependent (@nil (pystr * V)).
  induction l as [|[k v] l IH]; intros acc H; [cbn; by rewrite app_nil_r|]. cbn [fold_left fst snd]. unfold dict_keys in *. rewrite map_app in H.
  rewrite dict_set_fresh.
  - rewrite IH by (by rewrite <-app_assoc, map_app). by rewrite <-app_assoc.
  - apply NoDup_app in H as (_ & H & _). intros Hin. apply (H k Hin). apply list_elem_of_here.
Qed.

Lemma padded_first pos v : json_plain v = true → ∃ x s, padded pos v = x :: s ∧ x < 128.
Proof.
  assert (∀ c t, c < 128 → ∃ x s, pad_token pos (c :: t) = x :: s ∧ x < 128) as K.
  { intros c t Hc. unfold pad_token. destruct (straddles _ _ _); [|by exists c, t]. destruct (N.to_nat _); [by exists c, t|]. by eexists 32, _. }
  destruct v as [|[|]|z|lit|s|l|l]; intros Hp; try done; try (by apply K); try (by eexists _, _).
  unfold padded. change (dump (JInt z)) with (dump_int z). unfold dump_int. destruct (uint_chars_head (Z.abs_N z)) as (c & t & -> & Hc).
  unfold is_digit_char in Hc. apply andb_prop in Hc as [_ H2%N.leb_le]. destruct (z <? 0)%Z; cbn [app]; apply K; lia.
Qed.

(** What NSO reads is the document.  The text boundary_safe_dumps returns for a document, whatever was padded in it, parses back to
    that document, under any recursion limit as deep as the document. *)
Theorem bodies_read_back v depth : json_plain v = true → (json_depth v <= depth)%nat →
  ∃ body, boundary_safe_dumps v = Some body ∧ loads dict_hook JSONDecodeError depth body = Ok v.
Proof.
  intros Hp Hd. exists (PStr (padded 0 v)). split; [by apply boundary_safe_padded|]. unfold loads. cbn [py_chars].
  assert (∀ l, NoDup (dict_keys l) → dict_hook l = Ok (JObj l)) as Hh by (intros l Hl; unfold dict_hook; by rewrite dict_of_distinct).
  pose proof (padded_reads dict_hook JSONDecodeError Hh v Hp 0 (scan_fuel (padded 0 v)) depth []) as H. rewrite app_nil_r in H.
  rewrite H by (unfold scan_fuel; done || lia).
  destruct (padded_first 0 v Hp) as (x & s & -> & Hx). cbn [chars_prefix]. by rewrite (proj2 (N.eqb_neq 65279 x)) by lia.
Qed.

(** A body of 70 000 characters whose 65 536th is inside a number. *)
Definition long_document : json := JArr (JStr (PStr (repeat 97 65524)) :: JBool true :: JInt (-7) :: repeat (JBool false) 600).
Lemma long_plain : json_plain long_document = true.
Proof. vm_compute. reflexivity. Qed.
Lemma bodies_never_straddle_witness : ∃ body, boundary_safe_dumps long_document = Some body ∧ straddling_bare_tokens body NSO_LEX_CHUNK = Some [] ∧
  (N.of_nat (length (dump_chars spaced long_document)) <= NSO_LEX_CHUNK → body = dumps spaced long_document).
Proof. exact (bodies_never_straddle long_document long_plain). Defined.
Lemma bodies_read_back_witness : ∃ body, boundary_safe_dumps long_document = Some body ∧ loads dict_hook JSONDecodeError 1 body = Ok long_document.
Proof. refine (bodies_read_back long_document 1 long_plain _). vm_compute. apply le_n. Defined.
(** Without the padding it does straddle. *)
Example plain_rendering_straddles : straddling_bare_tokens (dumps spaced long_document) NSO_LEX_CHUNK = Some [(65535, py_chars "-7")].
Proof. vm_compute. reflexivity. Qed.
