(* ===== verification/VaultRef.v ===== *)
(** * Vault references and secret fingerprints

    src/nso_adapter/secrets/refs.py: a reference names a mount, a path and optionally a key; a fingerprint is the head of a
    SHA-256 digest. *)

From stdpp Require Import base list.
From Stdlib Require Import ZArith NArith Lia.
From S2P Require Import Prelude Json Text Sha256.
Local Open Scope py_scope.
Local Open Scope N_scope.

(** ** References *)

Record VaultRef := mkVaultRef { vr_mount : pystr; vr_path : pystr; vr_key : option pystr }.

(** [VaultRef.__str__] *)
Definition vault_ref_str (r : VaultRef) : pystr :=
  let base := vr_mount r +:+ "/" +:+ vr_path r in
  match vr_key r with Some key => base +:+ "#" +:+ key | None => base end.

Definition HASH : N := 35.
Definition SLASH : N := 47.

(** [s.partition(c)]: the part before the separator, whether it was found, the part after it *)
Definition partition (c : N) (s : list N) : list N * bool * list N :=
  match partition_on c s with Some (a, b) => (a, true, b) | None => (s, false, []) end.

(** [parse_vault_ref] *)
Definition parse_vault_ref (reference : json) (require_key : option bool) : res VaultRef :=
  match reference with
  | JStr (PStr s) =>
      _ ← guard_or (negb (bool_decide (s = []))) (VaultRefError "vault_ref is empty or not a string");
      _ ← guard_or (negb (existsb is_space s)) (VaultRefError "vault_ref contains whitespace");
      _ ← guard_or (negb (1 <? count_char HASH s)%nat) (VaultRefError "vault_ref has more than one '#'");
      let '(locator, sep, key) := partition HASH s in
      _ ← guard_or (negb (sep && bool_decide (key = []))) (VaultRefError "vault_ref has an empty key after '#'");
      _ ← guard_or (negb (bool_decide (require_key = Some true) && negb sep)) (VaultRefError "vault_ref must end in '#<key>'");
      _ ← guard_or (negb (bool_decide (require_key = Some false) && sep)) (VaultRefError "vault_ref must not carry a '#<key>' here");
      let '(mount, slash, path) := partition SLASH locator in
      _ ← guard_or (slash && negb (bool_decide (mount = [])) && negb (bool_decide (path = []))) (VaultRefError "vault_ref must be '<mount>/<path...>'");
      _ ← guard_or (negb (bool_decide ([] ∈ split_on SLASH path))) (VaultRefError "vault_ref has an empty path segment");
      Ok (mkVaultRef (PStr mount) (PStr path) (if sep then Some (PStr key) else None))
  | _ => Raise (VaultRefError "vault_ref is empty or not a string")
  end.

(** ** Fingerprints *)

Definition FINGERPRINT_HEX_CHARS : nat := 16.

(** [s.encode()]: UTF-8, which has no form for a surrogate *)
Definition utf8_char (c : N) : option (list Z) :=
  let byte n := Z.of_N n in
  if c <? 128 then Some [byte c]
  else if c <? 2048 then Some [byte (192 + c / 64); byte (128 + c mod 64)]
  else if (55296 <=? c) && (c <=? 57343) then None
  else if c <? 65536 then Some [byte (224 + c / 4096); byte (128 + c / 64 mod 64); byte (128 + c mod 64)]
  else Some [byte (240 + c / 262144); byte (128 + c / 4096 mod 64); byte (128 + c / 64 mod 64); byte (128 + c mod 64)].
Definition utf8_encode (s : pystr) : res (list Z) :=
  match mapM utf8_char (py_chars s) with Some bytes => Ok (concat bytes) | None => Raise UnicodeEncodeError end.

(** [secret_fingerprint] *)
Definition secret_fingerprint (value : pystr) : res pystr :=
  bytes ← utf8_encode value; Ok (PStr (take FINGERPRINT_HEX_CHARS (py_chars (sha256_hex bytes)))).

(** [re.fullmatch(SECRET_FINGERPRINT_PATTERN, value)] *)
Definition fingerprint_pattern (s : pystr) : bool := Nat.eqb (py_len s) FINGERPRINT_HEX_CHARS && forallb is_hex (py_chars s).

(** [require_secret_fingerprint] *)
Definition require_secret_fingerprint (value : json) : res pystr :=
  match value with
  | JStr s => if fingerprint_pattern s then Ok s else Raise (ValueError "secret fingerprint must be 16 lowercase hexadecimal characters")
  | _ => Raise (ValueError "secret fingerprint must be 16 lowercase hexadecimal characters")
  end.

Example golden_references :
  parse_vault_ref (JStr "kv/netbox/snmp#ro") (Some true) = Ok (mkVaultRef "kv" "netbox/snmp" (Some "ro")) ∧
  parse_vault_ref (JStr "kv/netbox/snmp") None = Ok (mkVaultRef "kv" "netbox/snmp" None) ∧
  parse_vault_ref (JStr "kv//snmp#ro") (Some true) = Raise (VaultRefError "vault_ref has an empty path segment") ∧
  parse_vault_ref (JStr "kv#ro") (Some true) = Raise (VaultRefError "vault_ref must be '<mount>/<path...>'").
Proof. vm_compute. split_and!; reflexivity. Qed.

(** ** The grammar *)

Definition clean (s : pystr) : bool := forallb (fun c => negb (is_space c)) (py_chars s) && lacks HASH (py_chars s).
Record wf_ref (r : VaultRef) : Prop := {
  wf_mount : vr_mount r ≠ PStr [] ∧ lacks SLASH (py_chars (vr_mount r)) = true ∧ clean (vr_mount r) = true;
  wf_path : [] ∉ split_on SLASH (py_chars (vr_path r)) ∧ clean (vr_path r) = true;
  wf_key : ∀ k, vr_key r = Some k → k ≠ PStr [] ∧ clean k = true }.
Definition key_allowed (require_key : option bool) (r : VaultRef) : Prop :=
  match require_key with Some true => is_Some (vr_key r) | Some false => vr_key r = None | None => True end.

Lemma spaces_clean s : existsb is_space s = negb (forallb (fun c => negb (is_space c)) s).
Proof. induction s as [|c s IH]; [done|]. cbn [existsb forallb]. rewrite IH. by destruct (is_space c). Qed.
Lemma count_zero c s : count_char c s = 0%nat → lacks c s = true.
Proof.
  unfold lacks, count_char. induction s as [|x s IH]; [done|]. cbn. rewrite (N.eqb_sym c x). destruct (x =? c); [done|]. cbn. apply IH.
Qed.

(** A text without separators of its own around one separator. *)
Lemma locator_parts mount path : lacks SLASH mount = true → partition SLASH (mount ++ SLASH :: path) = (mount, true, path).
Proof. intros H. unfold partition. by rewrite partition_app. Qed.

Lemma clean_parts s : clean s = true → forallb (fun c => negb (is_space c)) (py_chars s) = true ∧ lacks HASH (py_chars s) = true.
Proof. unfold clean. by rewrite andb_true_iff. Qed.
Lemma nonspace_app a b : forallb (fun c => negb (is_space c)) (a ++ b) = forallb (fun c => negb (is_space c)) a && forallb (fun c => negb (is_space c)) b.
Proof. apply forallb_app. Qed.
Lemma nonspace_cons c a : forallb (fun c => negb (is_space c)) (c :: a) = negb (is_space c) && forallb (fun c => negb (is_space c)) a.
Proof. done. Qed.
Lemma separators_visible : is_space HASH = false ∧ is_space SLASH = false ∧ (SLASH =? HASH) = false.
Proof. vm_compute. done. Qed.
Lemma clean_locator mount path : clean (PStr mount) = true → clean (PStr path) = true →
  forallb (fun c => negb (is_space c)) (mount ++ SLASH :: path) = true ∧ lacks HASH (mount ++ SLASH :: path) = true.
Proof.
  intros [H1 H2]%clean_parts [H3 H4]%clean_parts. cbn [py_chars] in *. destruct separators_visible as (_ & Hs & He).
  rewrite nonspace_app, nonspace_cons, lacks_app, H1, H2, H3, Hs. split; [done|]. unfold lacks in *. cbn [forallb]. by rewrite He, H4.
Qed.

Lemma parse_prints r require_key : wf_ref r → key_allowed require_key r → parse_vault_ref (JStr (vault_ref_str r)) require_key = Ok r.
Proof.
  destruct r as [[mount] [path] key]. intros [Hm Hp Hk] Ha. cbn [vr_mount vr_path vr_key py_chars] in *. destruct Hm as (Hm0 & Hms & Hmc), Hp as (Hp0 & Hpc).
  destruct (clean_locator mount path Hmc Hpc) as [Hls Hlh]. set (locator := mount ++ SLASH :: path) in *.
  assert (mount ≠ []) as Hm1 by congruence. assert (path ≠ []) as Hp1. { intros ->. apply Hp0. apply list_elem_of_here. }
  assert (∀ s, vault_ref_str (mkVaultRef (PStr mount) (PStr path) key) = PStr s → s = locator ++ match key with Some (PStr k) => HASH :: k | None => [] end) as Hs.
  { intros s. unfold vault_ref_str. cbn [vr_mount vr_path vr_key]. unfold py_app. cbn. unfold locator. destruct key as [[k]|]; cbn; intros [= <-]; by rewrite ?app_nil_r, <-?app_assoc. }
  destruct (vault_ref_str _) as [s] eqn:E. rewrite (Hs s eq_refl). clear Hs E.
  assert (locator ≠ []) as Hl0 by (unfold locator; by destruct mount). unfold parse_vault_ref. destruct key as [[k]|].
  - destruct (Hk _ eq_refl) as [Hk0 Hkc]. assert (k ≠ []) as Hk1 by congruence. apply clean_parts in Hkc as [Hks Hkh]. cbn [py_chars] in *.
    rewrite (bool_decide_false (locator ++ HASH :: k = [])) by (intros Hx; by apply app_eq_nil in Hx as [_ Hx]). rewrite spaces_clean, nonspace_app, nonspace_cons, Hls, Hks. destruct separators_visible as (-> & _).
    rewrite count_app, count_lacks by done. unfold count_char. cbn [List.filter]. rewrite N.eqb_refl. cbn [length]. fold (count_char HASH k). rewrite count_lacks by done.
    unfold partition at 1. rewrite partition_app by done. rewrite (bool_decide_false (k = [])) by done. rewrite !andb_false_r. unfold_res. cbn [guard_or negb andb Nat.ltb Nat.leb Nat.add].
    assert (bool_decide (require_key = Some false) = false) as -> by (apply bool_decide_eq_false; intros ->; done). cbn [andb negb guard_or].
    unfold locator. rewrite locator_parts by done. rewrite (bool_decide_false (mount = [])), (bool_decide_false (path = [])), (bool_decide_false ([] ∈ _)) by done. done.
  - rewrite app_nil_r. rewrite (bool_decide_false (locator = [])) by done. rewrite spaces_clean, Hls, count_lacks by done. unfold partition at 1. rewrite partition_none by done.
    unfold_res. cbn [guard_or negb andb Nat.ltb Nat.leb].
    assert (bool_decide (require_key = Some true) = false) as -> by (apply bool_decide_eq_false; intros ->; by destruct Ha). cbn [andb negb guard_or]. rewrite andb_false_r. cbn [negb guard_or].
    unfold locator. rewrite locator_parts by done. rewrite (bool_decide_false (mount = [])), (bool_decide_false (path = [])), (bool_decide_false ([] ∈ _)) by done. done.
Qed.

Lemma guard_passed b e x : guard_or b e = Ok x → b = true.
Proof. by destruct b. Qed.
Ltac passed H := apply bind_Ok in H as (? & ?%guard_passed & H).

Lemma partition_spec c s a sep b : partition c s = (a, sep, b) → lacks c a = true ∧ (sep = true ∧ s = a ++ c :: b ∨ sep = false ∧ s = a ∧ b = []).
Proof.
  unfold partition. destruct (partition_on c s) as [[a' b']|] eqn:E.
  - intros [= <- <- <-]. apply partition_some in E as [-> H]. auto.
  - intros [= <- <- <-]. split; [|auto]. clear -E. induction s as [|x s IH]; [done|]. cbn in *. destruct (x =? c); [done|].
    destruct (partition_on c s) as [[]|]; [done|]. by apply IH.
Qed.

Lemma parse_sound v require_key r : parse_vault_ref v require_key = Ok r → wf_ref r ∧ key_allowed require_key r ∧ v = JStr (vault_ref_str r).
Proof.
  destruct v as [| | | |[s]| |]; try done. unfold parse_vault_ref. intros H. passed H. passed H. passed H.
  destruct (partition HASH s) as [[locator sep] key] eqn:Eh. passed H. passed H. passed H.
  destruct (partition SLASH locator) as [[mount slash] path] eqn:Es. passed H. passed H. injection H as <-.
  apply partition_spec in Eh as [Hl Eh]. apply partition_spec in Es as [Hms Es].
  repeat match goal with H : negb _ = true |- _ => apply negb_true_iff in H end.
  match goal with H : slash && _ && _ = true |- _ => rewrite !andb_true_iff, !negb_true_iff, !bool_decide_eq_false in H; destruct H as [[-> Hm0] Hp0] end.
  destruct Es as [[_ ->]|[? _]]; [|done].
  match goal with H : existsb is_space s = false |- _ => rewrite spaces_clean in H; apply negb_false_iff in H; rename H into Hsp end.
  match goal with H : bool_decide ([] ∈ _) = false |- _ => apply bool_decide_eq_false in H; rename H into Hseg end.
  match goal with H : (1 <? count_char HASH s)%nat = false |- _ => apply Nat.ltb_ge in H; rename H into Hc end.
  match goal with H : sep && bool_decide (key = []) = false |- _ => rename H into Hk end.
  match goal with H : bool_decide (require_key = Some true) && _ = false |- _ => rename H into Hr1 end.
  match goal with H : bool_decide (require_key = Some false) && _ = false |- _ => rename H into Hr2 end.
  assert (lacks HASH mount = true ∧ lacks HASH path = true) as [Hmh Hph].
  { rewrite lacks_app in Hl. apply andb_prop in Hl as [? Hl]. split; [done|]. unfold lacks in *. cbn [forallb] in Hl. by apply andb_prop in Hl as [_ ?]. }
  destruct Eh as [[-> ->]|(-> & -> & ->)].
  - rewrite !nonspace_app, !nonspace_cons in Hsp.
    repeat match goal with H : _ && _ = true |- _ => apply andb_prop in H as [? ?] end.
    rewrite count_app in Hc. unfold count_char in Hc at 2. cbn [List.filter] in Hc. rewrite N.eqb_refl in Hc. cbn [length] in Hc. fold (count_char HASH key) in Hc.
    assert (lacks HASH key = true) as Hkh by (apply count_zero; lia). cbn [andb] in Hk. apply bool_decide_eq_false in Hk. split_and!.
    + split; cbn; [split_and!; [congruence|done|]|split; [done|]|intros k [= <-]; split; [congruence|]]; unfold clean; cbn [py_chars]; by apply andb_true_iff.
    + destruct require_key as [[]|]; cbn; [by eexists|by rewrite bool_decide_true in Hr2|done].
    + unfold vault_ref_str, py_app. cbn. by rewrite <-!app_assoc.
  - rewrite !nonspace_app, !nonspace_cons in Hsp. repeat match goal with H : _ && _ = true |- _ => apply andb_prop in H as [? ?] end. split_and!.
    + split; cbn; [split_and!; [congruence|done|]|split; [done|]|done]; unfold clean; cbn [py_chars]; by apply andb_true_iff.
    + destruct require_key as [[]|]; cbn; [by rewrite bool_decide_true in Hr1|done|done].
    + done.
Qed.

(** A Vault reference is accepted exactly when it is the printed form of a well-formed mount, path and key - no white space, one
    separator, no empty segment - with the key its caller requires; parsing it gives back those parts, and printing them the
    reference. *)
Theorem vault_ref_exact v require_key r :
  parse_vault_ref v require_key = Ok r ↔ wf_ref r ∧ key_allowed require_key r ∧ v = JStr (vault_ref_str r).
Proof. split; [apply parse_sound|]. intros (Hw & Hk & ->). by apply parse_prints. Qed.

Lemma Ok_inj {A} (a b : A) : Ok a = Ok b → a = b.
Proof. by intros [=]. Qed.

Lemma pattern_of_prefix h : py_len h = 64%nat → forallb is_hex (py_chars h) = true → fingerprint_pattern (PStr (take FINGERPRINT_HEX_CHARS (py_chars h))) = true.
Proof.
  intros Hl Hh. unfold fingerprint_pattern, py_len in *. cbn [py_chars]. rewrite length_take, Hl. cbn [Nat.min FINGERPRINT_HEX_CHARS Nat.eqb andb].
  apply forallb_Forall. apply Forall_take. by apply forallb_Forall.
Qed.
(** A fingerprint passes the check at the request boundary. *)
Lemma fingerprint_accepted value f : secret_fingerprint value = Ok f → require_secret_fingerprint (JStr f) = Ok f.
Proof.
  unfold secret_fingerprint. intros (bytes & _ & H)%bind_Ok. apply Ok_inj in H. destruct (sha256_hex_shape bytes) as [Hl Hh].
  pose proof (pattern_of_prefix _ Hl Hh) as Hp. rewrite H in Hp. unfold require_secret_fingerprint. rewrite Hp. reflexivity.
Qed.
