(* ===== verification/Failover.v ===== *)
(** * Management-address failover

    src/nso_adapter/core/failover.py and the failover jobs of core/scheduler.py.  NSO is the address it dials and an oracle
    [env] that answers every call: with a fault, a probe verdict and a jitter.  A fault of [set_address] may leave
    NSO with either address.  Python mutates the row in place, so the state survives an exception: an operation
    returns its result and the world it leaves.  Times are integers; log calls are left out. *)

From stdpp Require Import base gmap list strings.
From Stdlib Require Import ZArith NArith Lia.
From S2P Require Import Prelude Json Text Ip Registry Document Store Generation Claim.
Local Open Scope py_scope.
Local Open Scope Z_scope.

(** ** Data *)

Inductive ActiveAddress := on_primary | on_oob.
#[global] Instance active_address_eq_dec : EqDecision ActiveAddress.
Proof. solve_decision. Defined.

Inductive ProbeStatus := probe_ok | probe_unreachable | probe_timeout | probe_error.
#[global] Instance probe_status_eq_dec : EqDecision ProbeStatus.
Proof. solve_decision. Defined.

Record ReachabilityProbe := mkProbe { pr_status : ProbeStatus; pr_detail : pystr }.
(** [ReachabilityProbe.reachable] *)
Definition probe_reached (p : ReachabilityProbe) : bool := bool_decide (pr_status p = probe_ok).

Inductive Blocked := address_unreadable | active_oob_address_conflict | stored_address_invalid.
#[global] Instance blocked_eq_dec : EqDecision Blocked.
Proof. solve_decision. Defined.

(** [oob_healthy], [oob_health_result], [oob_health_detail], [oob_health_checked_at] *)
Record OobHealth := mkHealth {
  healthy : option bool; health_result : option ProbeStatus; health_detail : option pystr; health_checked_at : option Z }.
(** [last_probe_at], [last_probe_result], [last_probe_target], [last_probe_detail] *)
Record LastProbe := mkLast {
  probe_at : option Z; probe_result : option ProbeStatus; probe_target : option ActiveAddress; probe_detail : option pystr }.
Definition no_health : OobHealth := mkHealth None None None None.
Definition no_probe : LastProbe := mkLast None None None None.

Record DeviceFailover := mkFailover {
  primary_ip : option pystr;
  oob_ip : option pystr;
  active_address : ActiveAddress;
  consecutive_failures : Z;
  consecutive_successes : Z;
  manual_override : bool;
  failback_blocked_reason : option Blocked;
  oob_health : OobHealth;
  last_probe : LastProbe;
  last_switch_at : option Z;
  next_primary_probe_at : option Z;
  next_oob_probe_at : option Z }.

(** A new row carries the column defaults. *)
Definition new_failover : DeviceFailover := mkFailover None None on_primary 0 0 false None no_health no_probe None None None.

Definition set_primary_ip v f := mkFailover v (oob_ip f) (active_address f) (consecutive_failures f) (consecutive_successes f)
  (manual_override f) (failback_blocked_reason f) (oob_health f) (last_probe f) (last_switch_at f) (next_primary_probe_at f) (next_oob_probe_at f).
Definition set_oob_ip v f := mkFailover (primary_ip f) v (active_address f) (consecutive_failures f) (consecutive_successes f)
  (manual_override f) (failback_blocked_reason f) (oob_health f) (last_probe f) (last_switch_at f) (next_primary_probe_at f) (next_oob_probe_at f).
Definition set_active v f := mkFailover (primary_ip f) (oob_ip f) v (consecutive_failures f) (consecutive_successes f)
  (manual_override f) (failback_blocked_reason f) (oob_health f) (last_probe f) (last_switch_at f) (next_primary_probe_at f) (next_oob_probe_at f).
Definition set_counters n m f := mkFailover (primary_ip f) (oob_ip f) (active_address f) n m
  (manual_override f) (failback_blocked_reason f) (oob_health f) (last_probe f) (last_switch_at f) (next_primary_probe_at f) (next_oob_probe_at f).
Definition set_override v f := mkFailover (primary_ip f) (oob_ip f) (active_address f) (consecutive_failures f) (consecutive_successes f)
  v (failback_blocked_reason f) (oob_health f) (last_probe f) (last_switch_at f) (next_primary_probe_at f) (next_oob_probe_at f).
Definition set_blocked v f := mkFailover (primary_ip f) (oob_ip f) (active_address f) (consecutive_failures f) (consecutive_successes f)
  (manual_override f) v (oob_health f) (last_probe f) (last_switch_at f) (next_primary_probe_at f) (next_oob_probe_at f).
Definition set_health v f := mkFailover (primary_ip f) (oob_ip f) (active_address f) (consecutive_failures f) (consecutive_successes f)
  (manual_override f) (failback_blocked_reason f) v (last_probe f) (last_switch_at f) (next_primary_probe_at f) (next_oob_probe_at f).
Definition set_last_probe v f := mkFailover (primary_ip f) (oob_ip f) (active_address f) (consecutive_failures f) (consecutive_successes f)
  (manual_override f) (failback_blocked_reason f) (oob_health f) v (last_switch_at f) (next_primary_probe_at f) (next_oob_probe_at f).
Definition set_switched v f := mkFailover (primary_ip f) (oob_ip f) (active_address f) (consecutive_failures f) (consecutive_successes f)
  (manual_override f) (failback_blocked_reason f) (oob_health f) (last_probe f) v (next_primary_probe_at f) (next_oob_probe_at f).
Definition set_next_primary v f := mkFailover (primary_ip f) (oob_ip f) (active_address f) (consecutive_failures f) (consecutive_successes f)
  (manual_override f) (failback_blocked_reason f) (oob_health f) (last_probe f) (last_switch_at f) v (next_oob_probe_at f).
Definition set_next_oob v f := mkFailover (primary_ip f) (oob_ip f) (active_address f) (consecutive_failures f) (consecutive_successes f)
  (manual_override f) (failback_blocked_reason f) (oob_health f) (last_probe f) (last_switch_at f) (next_primary_probe_at f) v.

(** ** Configuration; the timeouts are passed to NSO only *)

Record EffectiveFailoverConfig := mkConfig {
  enabled : bool;
  failover_primary_probe_interval : Z;
  failover_oob_probe_interval : Z;
  failover_failure_threshold : Z;
  failover_success_threshold : Z;
  failover_probe_timeout : Z;
  failover_active_probe_timeout : Z;
  failover_sync_from_after_switch : bool;
  probe_concurrency : Z;
  max_flips_per_tick : Z }.

(** [FailoverConfig], the one-row table, has the same columns. *)
Definition FailoverConfig := EffectiveFailoverConfig.
Definition default_config : FailoverConfig := mkConfig true 15 360 3 5 10 45 true 8 8.

(** [get_effective_failover_config]; the static fallback is always enabled *)
Definition get_effective_failover_config (row : option FailoverConfig) (static : EffectiveFailoverConfig) : EffectiveFailoverConfig :=
  match row with
  | Some r => r
  | None => mkConfig true (failover_primary_probe_interval static) (failover_oob_probe_interval static)
              (failover_failure_threshold static) (failover_success_threshold static) (failover_probe_timeout static)
              (failover_active_probe_timeout static) (failover_sync_from_after_switch static) (probe_concurrency static)
              (max_flips_per_tick static)
  end.

(** The keyword arguments of [upsert_failover_config]; [None] leaves a column alone *)
Record ConfigFields := mkFields {
  f_enabled : option bool; f_primary_interval : option Z; f_oob_interval : option Z; f_failures : option Z; f_successes : option Z;
  f_timeout : option Z; f_active_timeout : option Z; f_sync_from : option bool; f_concurrency : option Z; f_flips : option Z }.
Definition upsert_failover_config (row : option FailoverConfig) (f : ConfigFields) : FailoverConfig :=
  let r := default default_config row in
  mkConfig (default (enabled r) (f_enabled f)) (default (failover_primary_probe_interval r) (f_primary_interval f))
    (default (failover_oob_probe_interval r) (f_oob_interval f)) (default (failover_failure_threshold r) (f_failures f))
    (default (failover_success_threshold r) (f_successes f)) (default (failover_probe_timeout r) (f_timeout f))
    (default (failover_active_probe_timeout r) (f_active_timeout f)) (default (failover_sync_from_after_switch r) (f_sync_from f))
    (default (probe_concurrency r) (f_concurrency f)) (default (max_flips_per_tick r) (f_flips f)).

(** ** Hysteresis *)

Record CounterStep := mkStep { failures : Z; successes : Z; act : bool }.

Definition step_failover (reachable : bool) (failures : Z) (has_oob : bool) (threshold : Z) : CounterStep :=
  if reachable then mkStep 0 0 false
  else let failures := failures + 1 in
       if has_oob && (threshold <=? failures) then mkStep 0 0 true else mkStep failures 0 false.

Definition step_failback (reachable : bool) (successes : Z) (threshold : Z) : CounterStep :=
  if reachable
  then let successes := successes + 1 in
       if threshold <=? successes then mkStep 0 0 true else mkStep 0 successes false
  else mkStep 0 0 false.

(** ** NSO *)

Inductive NsoCall := Get | Set_ (address : pystr) | Disconnect | Connect (timeout : Z) | SyncFrom | Jitter (interval : Z).

(** A reply: the exception a call ends with; the exception [set_address] ends with and whether the change was made all
    the same; the verdict of a connect by dialed address; the random jitter. *)
Record Reply := mkReply {
  rp_fault : option exc; rp_set_fault : option (exc * bool); rp_probe : option pystr -> ReachabilityProbe; rp_jitter : Z }.

(** The row, the address NSO dials, the calls made (latest first) and the tick's [FlipBudget]. *)
Record World := mkWorld { w_fo : DeviceFailover; w_address : option pystr; w_trace : list NsoCall; w_budget : option Z }.

Definition io (A : Type) : Type := World -> res A * World.
#[export] Instance io_ret : MRet io := fun A a w => (Ok a, w).
#[export] Instance io_bind : MBind io := fun A B f m w =>
  match m w with (Ok a, w') => f a w' | (Raise e, w') => (Raise e, w') end.

Definition io_raise {A} (e : exc) : io A := fun w => (Raise e, w).
Definition io_res {A} (r : res A) : io A := fun w => (r, w).
Definition get_fo : io DeviceFailover := fun w => (Ok (w_fo w), w).
Definition upd (f : DeviceFailover -> DeviceFailover) : io unit := fun w =>
  (Ok tt, mkWorld (f (w_fo w)) (w_address w) (w_trace w) (w_budget w)).
Definition dial (a : pystr) : io unit := fun w => (Ok tt, mkWorld (w_fo w) (Some a) (w_trace w) (w_budget w)).
Definition dialed : io (option pystr) := fun w => (Ok (w_address w), w).

(** [except Exception]: a cancellation passes *)
Definition is_cancel (e : exc) : bool := bool_decide (e = CancelledError).
Definition except_ {A} (m : io A) (h : io A) : io A := fun w =>
  match m w with
  | (Raise e, w') => if is_cancel e then (Raise e, w') else h w'
  | r => r
  end.
(** [try: m finally: f] *)
Definition finally {A} (m : io A) (f : A -> bool) (h : io unit) : io A := fun w =>
  let '(r, w1) := m w in
  match r with
  | Ok a => if f a then match h w1 with (Ok _, w2) => (Ok a, w2) | (Raise e, w2) => (Raise e, w2) end else (Ok a, w1)
  | Raise e => match h w1 with (Ok _, w2) => (Raise e, w2) | (Raise e', w2) => (Raise e', w2) end
  end.

(** [FlipBudget.take] through [_take_flip] *)
Definition take_flip : io bool := fun w =>
  match w_budget w with
  | None => (Ok true, w)
  | Some n => if n <=? 0 then (Ok false, w) else (Ok true, mkWorld (w_fo w) (w_address w) (w_trace w) (Some (n - 1)))
  end.

Section Tick.
Context {addr : Type} `{IpAddressing addr}.
Context (env : nat -> Reply) (cfg : EffectiveFailoverConfig).

Definition call (c : NsoCall) : io Reply := fun w =>
  (Ok (env (length (w_trace w))), mkWorld (w_fo w) (w_address w) (c :: w_trace w) (w_budget w)).
Definition answer (r : Reply) : io unit := match rp_fault r with Some e => io_raise e | None => mret tt end.

Definition get_address : io (option pystr) := r ← call Get; _ ← answer r; dialed.
Definition nso_set_address (a : pystr) : io unit :=
  r ← call (Set_ a);
  match rp_set_fault r with
  | None => dial a
  | Some (e, applied) => _ ← (if (applied : bool) then dial a else mret tt); io_raise e
  end.
Definition disconnect : io unit := r ← call Disconnect; answer r.
Definition probe_reachable (timeout : Z) : io ReachabilityProbe := r ← call (Connect timeout); _ ← answer r; a ← dialed; mret (rp_probe r a).
Definition nso_sync_from : io unit := r ← call SyncFrom; answer r.

(** [_due], [_next_due]: [jittered] for a positive jitter fraction *)
Definition due (next_at : option Z) (now : Z) : bool := match next_at with None => true | Some t => t <=? now end.
Definition next_due (now interval : Z) (jittered : bool) : io Z :=
  if jittered then r ← call (Jitter interval); mret (now + interval * 60 + rp_jitter r) else mret (now + interval * 60).

(** [_safe_disconnect], [_safe_sync_from], [_set_address], [_revert_address] *)
Definition safe_disconnect : io bool := except_ (_ ← disconnect; mret true) (mret false).
Definition safe_sync_from : io unit := except_ nso_sync_from (mret tt).
Definition set_address (a : pystr) : io bool := _ ← nso_set_address a; safe_disconnect.
Definition revert_address (a : pystr) : io unit := except_ (_ ← set_address a; mret tt) (mret tt).

(** [_stored_failover_address], [_managed_address_role], [_invalid_stored_address_fields] *)
Definition stored_failover_address (value : option pystr) : res (option addr) :=
  match value with
  | None => Ok None
  | Some s => match ip_address s with Some a => Ok (Some a) | None => Raise (ValueError "Invalid stored failover address") end
  end.
Definition managed_address_role (fo : DeviceFailover) (a : addr) : res (option ActiveAddress) :=
  p ← stored_failover_address (primary_ip fo);
  if bool_decide (p = Some a) then Ok (Some on_primary)
  else o ← stored_failover_address (oob_ip fo); Ok (if bool_decide (o = Some a) then Some on_oob else None).
Definition invalid_stored_address_fields (fo : DeviceFailover) : bool * bool :=
  (negb (is_ok (stored_failover_address (primary_ip fo))), negb (is_ok (stored_failover_address (oob_ip fo)))).

(** The address NSO dials, [None] for an unreadable or malformed one. *)
Definition read_address : io (option (pystr * addr)) :=
  except_ (a ← get_address;
           match a with
           | None => mret None
           | Some s => match ip_address s with Some x => mret (Some (s, x)) | None => io_raise (ValueError "not an address") end
           end)
          (mret None).

Definition block_unreadable (fo : DeviceFailover) : DeviceFailover :=
  if bool_decide (failback_blocked_reason fo = Some active_oob_address_conflict) then fo
  else set_blocked (Some address_unreadable) fo.
Definition clear_unreadable (fo : DeviceFailover) : DeviceFailover :=
  if bool_decide (failback_blocked_reason fo = Some address_unreadable) then set_blocked None fo else fo.

(** [_reconcile_active_address] *)
Definition reconcile_active_address : io bool :=
  current ← read_address;
  match current with
  | None => _ ← upd block_unreadable; mret false
  | Some (_, a) =>
      _ ← upd clear_unreadable;
      fo ← get_fo;
      role ← io_res (managed_address_role fo a);
      match role with
      | None => _ ← upd (set_override true); mret false
      | Some r =>
          _ ← upd (set_override false);
          _ ← (if bool_decide (active_address fo = r) then mret tt else upd (fun fo => set_counters 0 0 (set_active r fo)));
          mret true
      end
  end.

(** [_record_probe], [_legacy_health] *)
Definition record_probe (now : Z) (p : ReachabilityProbe) (target : ActiveAddress) : DeviceFailover -> DeviceFailover :=
  set_last_probe (mkLast (Some now) (Some (pr_status p)) (Some target) (if py_truthy (pr_detail p) then Some (pr_detail p) else None)).
Definition legacy_health (p : ReachabilityProbe) : option bool :=
  match pr_status p with probe_ok => Some true | probe_unreachable => Some false | _ => None end.
Definition record_health (now : Z) (p : ReachabilityProbe) : DeviceFailover -> DeviceFailover :=
  set_health (mkHealth (legacy_health p) (Some (pr_status p)) (if py_truthy (pr_detail p) then Some (pr_detail p) else None) (Some now)).

(** [_switch_to_oob], [_commit_failback] *)
Definition switch_to_oob (address : pystr) (now : Z) : io unit :=
  _ ← set_address address;
  _ ← upd (fun fo => set_next_oob (Some now) (set_switched (Some now) (set_counters 0 0 (set_active on_oob fo))));
  if failover_sync_from_after_switch cfg then safe_sync_from else mret tt.
Definition commit_failback (now : Z) : io unit :=
  t ← next_due now (failover_oob_probe_interval cfg) false;
  _ ← upd (fun fo => set_next_oob (Some t) (set_switched (Some now) (set_counters 0 0 (set_blocked None (set_active on_primary fo)))));
  if failover_sync_from_after_switch cfg then safe_sync_from else mret tt.

Definition arm : DeviceFailover -> DeviceFailover := fun fo => set_counters (failover_failure_threshold cfg) (consecutive_successes fo) fo.

(** [_active_primary_probe]: the switch, once the failures reach the threshold *)
Definition switch_if_ready (now : Z) (oob : option pystr) (job_active : bool) : io bool :=
  known ← (if job_active then mret false else reconcile_active_address);
  if (known : bool) then
    fo ← get_fo;
    if bool_decide (active_address fo ≠ on_primary) then mret true
    else
      granted ← take_flip;
      if (granted : bool) then
        match oob with
        | None => io_raise (RuntimeError "failover switch has no OOB address")
        | Some o => _ ← upd (set_override false); _ ← switch_to_oob o now; mret true
        end
      else _ ← upd arm; mret false
  else _ ← upd arm; mret true.
Definition active_primary_probe (now : Z) (oob : option pystr) (job_active : bool) : io bool :=
  outcome ← probe_reachable (failover_active_probe_timeout cfg);
  _ ← upd (record_probe now outcome on_primary);
  fo ← get_fo;
  let s := step_failover (probe_reached outcome) (consecutive_failures fo) (bool_decide (oob ≠ None)) (failover_failure_threshold cfg) in
  _ ← upd (set_counters (failures s) (successes s));
  if act s then switch_if_ready now oob job_active else mret true.

(** [_failback_flip_probe] *)
Definition failback_decision (now : Z) : io bool :=
  outcome ← probe_reachable (failover_probe_timeout cfg);
  _ ← upd (record_probe now outcome on_primary);
  fo ← get_fo;
  let s := step_failback (probe_reached outcome) (consecutive_successes fo) (failover_success_threshold cfg) in
  _ ← upd (set_counters (failures s) (successes s));
  if act s then _ ← commit_failback now; mret true else mret false.
Definition failback_flip_probe (now : Z) (primary : pystr) (job_active : bool) : io bool :=
  if job_active then mret true
  else
    before ← read_address;
    match before with
    | None => _ ← upd block_unreadable; mret true
    | Some (s, a) =>
        _ ← upd clear_unreadable;
        fo ← get_fo;
        role ← io_res (managed_address_role fo a);
        match role with
        | None => _ ← upd (set_override true); mret true
        | Some _ =>
            granted ← take_flip;
            if (granted : bool) then
              _ ← upd (set_override false);
              _ ← set_address primary;
              _ ← finally (failback_decision now) negb (revert_address s);
              mret true
            else mret false
        end
    end.

(** [_probe_primary] *)
Definition probe_primary (now : Z) (primary : pystr) (oob : option pystr) (job_active : bool) : io bool :=
  fo ← get_fo;
  if bool_decide (active_address fo = on_primary) then active_primary_probe now oob job_active
  else failback_flip_probe now primary job_active.

(** [_probe_oob] *)
Definition probe_oob (now : Z) (primary : option pystr) (oob : pystr) (job_active : bool) : io bool :=
  fo ← get_fo;
  if bool_decide (active_address fo = on_oob) then
    outcome ← probe_reachable (failover_active_probe_timeout cfg);
    _ ← upd (fun fo => record_health now outcome (record_probe now outcome on_oob fo));
    mret true
  else match primary with
  | None => io_raise (RuntimeError "proactive OOB flip-probe without a primary address")
  | Some _ =>
      if job_active then mret true
      else
        before ← read_address;
        match before with
        | None => _ ← upd block_unreadable; mret true
        | Some (s, a) =>
            role ← io_res (managed_address_role fo a);
            match role with
            | None => _ ← upd (set_override true); mret true
            | Some _ =>
                granted ← take_flip;
                if (granted : bool) then
                  _ ← upd (set_override false);
                  _ ← set_address oob;
                  finally (outcome ← probe_reachable (failover_probe_timeout cfg);
                           _ ← upd (record_health now outcome); mret true)
                    (fun _ => true) (revert_address s)
                else mret false
            end
        end
  end.

(** [_oob_probe_interval] *)
Definition oob_probe_interval (fo : DeviceFailover) : Z :=
  if bool_decide (active_address fo = on_oob) then failover_primary_probe_interval cfg else failover_oob_probe_interval cfg.

Definition arm_primary (now : Z) (jittered : bool) : io unit :=
  t ← next_due now (failover_primary_probe_interval cfg) jittered; upd (set_next_primary (Some t)).
Definition arm_oob (now : Z) (jittered : bool) : io unit :=
  fo ← get_fo; t ← next_due now (oob_probe_interval fo) jittered; upd (set_next_oob (Some t)).
Definition when_ (b : bool) (m : io unit) : io unit := if b then m else mret tt.
Definition is_set (v : option pystr) : bool := match v with Some _ => true | None => false end.

(** The due probes of [run_failover_tick], after the role is known. *)
Definition run_primary (now : Z) (primary oob : option pystr) (job_active jittered : bool) : io unit :=
  fo ← get_fo;
  match primary with
  | Some p =>
      if due (next_primary_probe_at fo) now then
        ran ← probe_primary now p oob job_active; when_ ran (arm_primary now jittered)
      else mret tt
  | None => mret tt
  end.
Definition run_oob (before : ActiveAddress) (now : Z) (primary oob : option pystr) (job_active jittered : bool) : io unit :=
  fo ← get_fo;
  match oob with
  | Some o =>
      if bool_decide (active_address fo = before) && due (next_oob_probe_at fo) now then
        ran ← probe_oob now primary o job_active; when_ ran (arm_oob now jittered)
      else mret tt
  | None => mret tt
  end.

(** [run_failover_tick] *)
Definition run_failover_tick (now : Z) (job_active jittered : bool) : io unit :=
  fo ← get_fo;
  let '(bad_primary, bad_oob) := invalid_stored_address_fields fo in
  if bad_primary || bad_oob then
    _ ← upd (set_blocked (Some stored_address_invalid));
    _ ← when_ (is_set (primary_ip fo)) (arm_primary now jittered);
    when_ (is_set (oob_ip fo)) (arm_oob now jittered)
  else
    primary_address ← io_res (stored_failover_address (primary_ip fo));
    oob_address ← io_res (stored_failover_address (oob_ip fo));
    let primary := primary_ip fo in
    let oob := if bool_decide (oob_address = primary_address) then None else oob_ip fo in
    if negb (is_set primary) && negb (is_set oob) then mret tt
    else
      let primary_due := is_set primary && due (next_primary_probe_at fo) now in
      let oob_due := is_set oob && due (next_oob_probe_at fo) now in
      if primary_due || oob_due || manual_override fo then
        known ← reconcile_active_address;
        if (known : bool) then
          reconciled ← get_fo;
          _ ← when_ (bool_decide (active_address fo ≠ active_address reconciled) && bool_decide (active_address reconciled = on_oob))
                (_ ← arm_primary now jittered; upd (set_next_oob (Some now)));
          _ ← run_primary now primary oob job_active jittered;
          run_oob (active_address reconciled) now primary oob job_active jittered
        else
          _ ← when_ primary_due (arm_primary now jittered);
          when_ oob_due (arm_oob now jittered)
      else mret tt.

(** ** The scheduler's transaction *)

(** [_failover_tick_under_claim] after its guard: commit on success, rollback of the row on any exception; what NSO was
    told stays *)
Definition committed_tick (now : Z) (job_active jittered : bool) (w : World) : World :=
  match run_failover_tick now job_active jittered w with
  | (Ok _, w') => w'
  | (Raise _, w') => mkWorld (w_fo w) (w_address w') (w_trace w') (w_budget w')
  end.

(** [has_any_active_job] *)
Definition has_any_active_job (device_id : Z) (d : Db) : bool :=
  existsb (fun j => is_some_eq (j_device_id j) device_id && bool_decide (j_status j ∈ [queued; running])) (map snd (map_to_list (jobs d))).

(** [_probe_one_failover_device]: the tick runs under the device's claim, released at its end *)
Definition probe_one_failover_device (device_id : Z) (token : pystr) (now : Z) (d : Db) (w : World) : res (Db * World) :=
  '(claim, d) ← acquire_claim device_id "failover" None token d;
  match claim with
  | None => Ok (d, w)
  | Some reg =>
      '(_, d) ← lock_claim reg d;
      let w := committed_tick now (has_any_active_job device_id d) true w in
      Ok ((release_claim reg d).2, w)
  end.

(** [_due_failover_device_ids] on one linked device *)
Definition failover_selected (fo : DeviceFailover) (now : Z) : bool :=
  is_set (primary_ip fo) && due (next_primary_probe_at fo) now || is_set (oob_ip fo) && due (next_oob_probe_at fo) now.

(** ** Address ingestion *)

Definition conflict_mark (conflict : bool) (fo : DeviceFailover) : bool * DeviceFailover :=
  if conflict then
    if bool_decide (failback_blocked_reason fo = Some active_oob_address_conflict) then (false, fo)
    else (true, set_blocked (Some active_oob_address_conflict) fo)
  else if bool_decide (failback_blocked_reason fo = Some active_oob_address_conflict) then (true, set_blocked None fo)
  else (false, fo).

Definition truthy_ip (v : option pystr) : bool := match v with Some s => py_truthy s | None => false end.
Definition accept_primary (changed : bool) (ip : option pystr) (now : Z) (fo : DeviceFailover) : bool * DeviceFailover :=
  if changed then
    let fo := set_last_probe no_probe (set_counters 0 0 (set_primary_ip ip fo)) in
    (true, if truthy_ip ip then set_next_primary (Some now) fo else fo)
  else (false, fo).
Definition accept_oob (changed : bool) (ip : option pystr) (now : Z) (fo : DeviceFailover) : bool * DeviceFailover :=
  if changed then
    let fo := set_health no_health (set_oob_ip ip fo) in
    (true, if truthy_ip ip then set_next_oob (Some now) fo else fo)
  else (false, fo).

(** The last loop stores the canonical text; the reason of an invalid stored address is lifted when both are valid. *)
Definition canonicalise (primary oob : option pystr) (fo : DeviceFailover) : bool * DeviceFailover :=
  (negb (bool_decide (primary_ip fo = primary)) || negb (bool_decide (oob_ip fo = oob)), set_oob_ip oob (set_primary_ip primary fo)).
Definition lift_invalid (fo : DeviceFailover) : bool * DeviceFailover :=
  if bool_decide (failback_blocked_reason fo = Some stored_address_invalid) &&
     bool_decide (invalid_stored_address_fields fo = (false, false))
  then (true, set_blocked None fo) else (false, fo).

(** A stored address; a malformed one counts as none. *)
Definition stored_address (ip : option pystr) : option addr := match stored_failover_address ip with Ok a => a | Raise _ => None end.

(** [active_oob_conflict], and the addresses a report may store *)
Definition conflicts (fo : DeviceFailover) (primary oob : option addr) : bool :=
  bool_decide (active_address fo = on_oob) && bool_decide (stored_address (oob_ip fo) ≠ None) &&
  (negb (bool_decide (oob = stored_address (oob_ip fo))) || bool_decide (primary = stored_address (oob_ip fo))).
Definition accepted (fo : DeviceFailover) (primary oob : option addr) : option addr * option addr :=
  (if conflicts fo primary oob && bool_decide (primary = stored_address (oob_ip fo)) then stored_address (primary_ip fo) else primary,
   if conflicts fo primary oob then stored_address (oob_ip fo) else oob).

(** The body of [upsert_failover_ips] on an existing or new row *)
Definition ingest (fo : DeviceFailover) (primary oob : option addr) (now : Z) : bool * DeviceFailover :=
  let '(bad_primary, bad_oob) := invalid_stored_address_fields fo in
  let '(ap, ao) := accepted fo primary oob in
  let '(c1, f1) := conflict_mark (conflicts fo primary oob) fo in
  let '(c2, f2) := accept_primary (bad_primary || negb (bool_decide (stored_address (primary_ip fo) = ap))) (ip_str <$> ap) now f1 in
  let '(c3, f3) := accept_oob (bad_oob || negb (bool_decide (stored_address (oob_ip fo) = ao))) (ip_str <$> ao) now f2 in
  let '(c4, f4) := canonicalise (ip_str <$> ap) (ip_str <$> ao) f3 in
  let '(c5, f5) := lift_invalid f4 in
  (c1 || c2 || c3 || c4 || c5, f5).

(** [upsert_failover_ips]: whether anything changed, and the device's row; nothing to store creates no row *)
Definition upsert_failover_ips (existing : option DeviceFailover) (primary oob : option pystr) (now : Z) :
    res (bool * option DeviceFailover) :=
  primary_address ← stored_failover_address primary;
  oob_address ← stored_failover_address oob;
  match existing, primary_address, oob_address with
  | None, None, None => Ok (false, None)
  | _, _, _ => let '(changed, fo) := ingest (default new_failover existing) primary_address oob_address now in Ok (changed, Some fo)
  end.
End Tick.
