(* ===== verification/FailoverProps.v ===== *)
(** * Failover: what a tick may do

    Weakest preconditions for the operations of [Failover], then the contracts: how often a tick may redirect NSO, that the
    stored role follows the address NSO dials, that the counters implement the sliding-window specification of hysteresis,
    and that address reports converge. *)

From stdpp Require Import base gmap list strings.
From Stdlib Require Import ZArith NArith Lia.
From S2P Require Import Prelude Json Text Ip Registry Document Store Generation Claim Failover.
Local Open Scope py_scope.
Local Open Scope Z_scope.

(** ** Weakest preconditions; an operation ends with a result or an exception, and a world *)

Definition wp {A} (m : io A) (Q : res A -> World -> Prop) (w : World) : Prop := Q (m w).1 (m w).2.
Definition continue {A B} (f : A -> io B) (Q : res B -> World -> Prop) (r : res A) (w : World) : Prop :=
  match r with Ok a => wp (f a) Q w | Raise e => Q (Raise e) w end.

Lemma wp_bind {A B} (m : io A) (f : A -> io B) Q w : wp m (continue f Q) w → wp (m ≫= f) Q w.
Proof. unfold wp, continue, mbind, io_bind. destruct (m w) as [[a|e] w']; done. Qed.

Lemma wp_wand {A} (m : io A) (Q Q' : res A -> World -> Prop) w : wp m Q w → (∀ r w', Q r w' → Q' r w') → wp m Q' w.
Proof. unfold wp. auto. Qed.

Lemma wp_step {A B} (m : io A) (f : A -> io B) (Q : res B -> World -> Prop) (P : res A -> World -> Prop) w :
  wp m P w → (∀ a w', P (Ok a) w' → wp (f a) Q w') → (∀ e w', P (Raise e) w' → Q (Raise e) w') → wp (m ≫= f) Q w.
Proof. intros Hm Hok Hr. apply wp_bind. eapply wp_wand; [exact Hm|]. intros [a|e] w'; cbn; auto. Qed.

Lemma wp_except {A} (m h : io A) (P Q : res A -> World -> Prop) w :
  wp m P w → (∀ a w', P (Ok a) w' → Q (Ok a) w') →
  (∀ e w', P (Raise e) w' → if is_cancel e then Q (Raise e) w' else wp h Q w') → wp (except_ m h) Q w.
Proof.
  unfold wp, except_. intros Hm Hok Hr. destruct (m w) as [[a|e] w']; cbn in *; [by apply Hok|].
  specialize (Hr e w' Hm). by destruct (is_cancel e).
Qed.

Lemma wp_finally {A} (m : io A) (f : A -> bool) (h : io unit) (P Q : res A -> World -> Prop) w :
  wp m P w →
  (∀ a w', P (Ok a) w' → if f a then wp h (fun r w'' => Q (match r with Ok _ => Ok a | Raise e => Raise e end) w'') w' else Q (Ok a) w') →
  (∀ e w', P (Raise e) w' → wp h (fun r w'' => Q (match r with Ok _ => Raise e | Raise e' => Raise e' end) w'') w') →
  wp (finally m f h) Q w.
Proof.
  unfold wp, finally. intros Hm Hok Hr. destruct (m w) as [[a|e] w']; cbn in *.
  - specialize (Hok a w' Hm). destruct (f a); [|done]. by destruct (h w') as [[[]|e] w''].
  - specialize (Hr e w' Hm). by destruct (h w') as [[[]|e'] w''].
Qed.

Lemma get_fo_bind {A} (f : DeviceFailover -> io A) w : (get_fo ≫= f) w = f (w_fo w) w.
Proof. done. Qed.

Lemma wp_get {A} (f : DeviceFailover -> io A) Q w : wp (f (w_fo w)) Q w → wp (get_fo ≫= f) Q w.
Proof. done. Qed.
Lemma wp_res {A B} (r : res A) (f : A -> io B) Q w : continue f Q r w → wp (io_res r ≫= f) Q w.
Proof. by destruct r. Qed.

Lemma wp_assoc {A B C} (m : io A) (k : A -> io B) (h : B -> io C) Q w :
  wp (m ≫= k) (continue h Q) w → wp (m ≫= fun a => k a ≫= h) Q w.
Proof.
  unfold wp, continue, mbind, io_bind. destruct (m w) as [[a|e] w1]; [|done]. by destruct (k a w1) as [[b|e] w2].
Qed.

(** ** Accounting *)

Definition is_set_call (c : NsoCall) : bool := match c with Set_ _ => true | _ => false end.
Definition sets (l : list NsoCall) : nat := length (List.filter is_set_call l).

(** From [w] to [w']: at most [s] address writes and exactly [t] flips of the budget, the configured addresses kept. *)
Definition did (s t : nat) (w w' : World) : Prop :=
  (∃ l, w_trace w' = l ++ w_trace w ∧ (sets l <= s)%nat) ∧
  w_budget w' = (fun n => n - Z.of_nat t) <$> w_budget w ∧
  (∀ n, w_budget w = Some n → (0 < t)%nat → Z.of_nat t <= n) ∧
  primary_ip (w_fo w') = primary_ip (w_fo w) ∧ oob_ip (w_fo w') = oob_ip (w_fo w).
(** NSO is left alone. *)
Definition quiet (w w' : World) : Prop := did 0 0 w w' ∧ w_address w' = w_address w.

Lemma did_refl w : did 0 0 w w.
Proof.
  split_and!; [exists []; split; [done|cbn; lia]| |lia|done|done]. destruct (w_budget w); cbn; [|done]. f_equal. lia.
Qed.

Lemma did_trans s t s' t' w1 w2 w3 : did s t w1 w2 → did s' t' w2 w3 → did (s + s') (t + t') w1 w3.
Proof.
  intros ((l & E & L) & B & C & P & O) ((l' & E' & L') & B' & C' & P' & O'). split_and!; [|..|congruence|congruence].
  - exists (l' ++ l). split; [rewrite E', E; apply app_assoc|]. unfold sets in *. rewrite List.filter_app, length_app. lia.
  - rewrite B', B. destruct (w_budget w1); cbn; [|done]. f_equal. lia.
  - intros n Hn Ht. rewrite Hn in B. cbn in B. specialize (C' _ B). specialize (C _ Hn).
    destruct (decide (t' = 0%nat)) as [->|]; [rewrite Nat.add_0_r in *; by apply C|]. lia.
Qed.

#[global] Instance quiet_preorder : PreOrder quiet.
Proof.
  split; [intros w; split; [apply did_refl|done]|]. intros w1 w2 w3 [D1 E1] [D2 E2]. split; [by apply (did_trans 0 0 0 0 w1 w2)|congruence].
Qed.

Lemma quiet_did w w' : quiet w w' → did 0 0 w w'.
Proof. by intros []. Qed.

(** A call that does not write the address. *)
Lemma call_quiet env c w : is_set_call c = false → quiet w (call env c w).2.
Proof.
  intros H. split; [|done]. split_and!; [exists [c]; split; [done|unfold sets; cbn; rewrite H; cbn; lia]| |lia|done|done].
  cbn. destruct (w_budget w); cbn; [|done]. f_equal. lia.
Qed.

(** An update of the row that keeps its addresses. *)
Lemma upd_quiet f w : (∀ fo, primary_ip (f fo) = primary_ip fo ∧ oob_ip (f fo) = oob_ip fo) → quiet w (upd f w).2.
Proof.
  intros H. destruct (H (w_fo w)) as [H1 H2]. split; [|done].
  split_and!; [exists []; split; [done|cbn; lia]| |lia|done|done]. cbn. destruct (w_budget w); cbn; [|done]. f_equal. lia.
Qed.

(** ** Operations along a preorder on worlds *)

Definition along (R : World -> World -> Prop) {A} (m : io A) : Prop := ∀ w, R w (m w).2.

Section Along.
Context {R : World -> World -> Prop} `{!PreOrder R}.

Lemma along_ret {A} (a : A) : along R (mret a).
Proof. intros w. reflexivity. Qed.
Lemma along_raise {A} e : along R (io_raise (A := A) e).
Proof. intros w. reflexivity. Qed.
Lemma along_res {A} (r : res A) : along R (io_res r).
Proof. intros w. reflexivity. Qed.
Lemma along_get : along R get_fo.
Proof. intros w. reflexivity. Qed.
Lemma along_dialed : along R dialed.
Proof. intros w. reflexivity. Qed.
Lemma along_bind {A B} (m : io A) (f : A -> io B) : along R m → (∀ a, along R (f a)) → along R (m ≫= f).
Proof.
  intros Hm Hf w. unfold mbind, io_bind. specialize (Hm w). destruct (m w) as [[a|e] w']; [|done]. cbn in *.
  etransitivity; [exact Hm|apply Hf].
Qed.
Lemma along_except {A} (m h : io A) : along R m → along R h → along R (except_ m h).
Proof.
  intros Hm Hh w. unfold except_. specialize (Hm w). destruct (m w) as [[a|e] w']; [done|]. cbn in *.
  destruct (is_cancel e); [done|]. etransitivity; [exact Hm|apply Hh].
Qed.
Lemma along_if {A} (b : bool) (m m' : io A) : along R m → along R m' → along R (if b then m else m').
Proof. by destruct b. Qed.
Lemma along_when b m : along R m → along R (when_ b m).
Proof. intros. apply along_if; [done|apply along_ret]. Qed.
End Along.

#[export] Hint Extern 1 (along _ (mret _)) => apply along_ret : nso.
#[export] Hint Extern 1 (along _ (io_raise _)) => apply along_raise : nso.
#[export] Hint Extern 1 (along _ (io_res _)) => apply along_res : nso.
#[export] Hint Extern 1 (along _ get_fo) => apply along_get : nso.
#[export] Hint Extern 1 (along _ dialed) => apply along_dialed : nso.
#[export] Hint Extern 1 (along _ (when_ _ _)) => apply along_when : nso.
#[export] Hint Extern 1 (is_set_call _ = false) => reflexivity : nso.

Ltac along := repeat (intros; match goal with
  | |- along _ (_ ≫= _) => apply along_bind
  | |- along _ (except_ _ _) => apply along_except
  | |- along _ (if _ then _ else _) => apply along_if
  | |- along _ (when_ _ _) => apply along_when
  | |- along _ (match ?x with _ => _ end) => destruct x
  | _ => solve [auto with nso]
  end).

(** ** Every operation but the address writes is quiet *)

Notation quietly := (along quiet).

Lemma quietly_upd f : (∀ fo, primary_ip (f fo) = primary_ip fo ∧ oob_ip (f fo) = oob_ip fo) → quietly (upd f).
Proof. intros H0 w. by apply upd_quiet. Qed.
Lemma quietly_call env c : is_set_call c = false → quietly (call env c).
Proof. intros Hc w. by apply call_quiet. Qed.

#[export] Hint Resolve quietly_call : nso.
#[export] Hint Extern 1 (along quiet (upd _)) => apply quietly_upd; intros ?; cbn; repeat case_bool_decide; split; reflexivity : nso.

Section QuietOps.
Context {addr : Type} `{IpAddressing addr}.
Context (env : nat -> Reply) (cfg : EffectiveFailoverConfig).

Lemma answer_quietly r : quietly (answer r).
Proof. unfold answer. along. Qed.
Hint Resolve answer_quietly : nso.

Lemma probe_quietly t : quietly (probe_reachable env t).
Proof. unfold probe_reachable. along. Qed.
Lemma read_address_quietly : quietly (read_address env).
Proof. unfold read_address, get_address. along. Qed.
Lemma safe_disconnect_quietly : quietly (safe_disconnect env).
Proof. unfold safe_disconnect, disconnect. along. Qed.
Lemma safe_sync_quietly : quietly (safe_sync_from env).
Proof. unfold safe_sync_from, nso_sync_from. along. Qed.
Lemma next_due_quietly now i j : quietly (next_due env now i j).
Proof. unfold next_due. along. Qed.
Hint Resolve probe_quietly read_address_quietly safe_disconnect_quietly safe_sync_quietly next_due_quietly : nso.

Lemma arm_primary_quietly now j : quietly (arm_primary env cfg now j).
Proof. unfold arm_primary. along. Qed.
Lemma arm_oob_quietly now j : quietly (arm_oob env cfg now j).
Proof. unfold arm_oob. along. Qed.
Lemma reconcile_quietly : quietly (reconcile_active_address env).
Proof. unfold reconcile_active_address, block_unreadable, clear_unreadable. along. Qed.
Lemma commit_failback_quietly now : quietly (commit_failback env cfg now).
Proof. unfold commit_failback. along. Qed.
Lemma failback_decision_quietly now : quietly (failback_decision env cfg now).
Proof. unfold failback_decision. pose proof (commit_failback_quietly now). along. Qed.
Lemma when_quietly b m : quietly m → quietly (when_ b m).
Proof. apply along_when. Qed.
End QuietOps.

#[export] Hint Resolve answer_quietly probe_quietly read_address_quietly safe_disconnect_quietly safe_sync_quietly next_due_quietly
  arm_primary_quietly arm_oob_quietly reconcile_quietly commit_failback_quietly failback_decision_quietly when_quietly : nso.

(** ** Flips *)

Lemma did_weaken s s' t w w' : did s t w w' → (s <= s')%nat → did s' t w w'.
Proof. intros ((l & E & L) & R) Hs. split; [exists l; split; [done|lia]|done]. Qed.

(** [did] along a sequence: quiet parts are free. *)
Lemma quiet_then_did s t w1 w2 w3 : quiet w1 w2 → did s t w2 w3 → did s t w1 w3.
Proof. intros [D _] D'. by apply (did_trans 0 0 s t w1 w2). Qed.
Lemma did_then_quiet s t w1 w2 w3 : did s t w1 w2 → quiet w2 w3 → did s t w1 w3.
Proof. intros D [D' _]. pose proof (did_trans s t 0 0 w1 w2 w3 D D') as K. by rewrite !Nat.add_0_r in K. Qed.

(** The role survives. *)
Definition keeps_role {A} (m : io A) : Prop := ∀ w, active_address (w_fo (m w).2) = active_address (w_fo w).

Section Flips.
Context {addr : Type} `{IpAddressing addr}.
Context (env : nat -> Reply) (cfg : EffectiveFailoverConfig).

Lemma set_address_did a w : did 1 0 w (set_address env a w).2.
Proof.
  assert (did 1 0 w (nso_set_address env a w).2) as D.
  { unfold nso_set_address, mbind, io_bind. cbn.
    assert (∀ b : option pystr, did 1 0 w (mkWorld (w_fo w) b (Set_ a :: w_trace w) (w_budget w))) as D.
    { intros b. split_and!; [exists [Set_ a]; split; [done|cbn; lia]| |lia|done|done]. cbn. destruct (w_budget w); cbn; [|done].
      f_equal. lia. }
    destruct (rp_set_fault _) as [[e []]|]; cbn; apply D. }
  unfold set_address, mbind, io_bind. destruct (nso_set_address env a w) as [[[]|e] w1]; [|done]. cbn in *.
  eapply did_then_quiet; [exact D|apply safe_disconnect_quietly].
Qed.

Lemma revert_address_did a w : did 1 0 w (revert_address env a w).2.
Proof.
  unfold revert_address, except_. unfold mbind, io_bind at 1. pose proof (set_address_did a w) as D.
  destruct (set_address env a w) as [[b|e] w1]; [done|]. cbn in *. by destruct (is_cancel e).
Qed.

Lemma take_flip_spec w : wp take_flip (fun r w' => ∃ b, r = Ok b ∧ if (b : bool) then did 0 1 w w' ∧ w_address w' = w_address w ∧ w_fo w' = w_fo w else w' = w) w.
Proof.
  unfold wp, take_flip. destruct (w_budget w) as [n|] eqn:E.
  - destruct (Z.leb_spec n 0); cbn; [by exists false|]. exists true. split; [done|]. split; [|done].
    split_and!; [exists []; split; [done|cbn; lia]|by rewrite E| |done|done]. rewrite E. intros m [= <-]. lia.
  - exists true. split; [done|]. split; [|done]. split_and!; [exists []; split; [done|cbn; lia]|by rewrite E| |done|done]. by rewrite E.
Qed.

(** A flip-probe: redirect NSO, run the body, restore unless the body kept the change. *)
Lemma flip_did {A} a s (body : io A) keep w : quietly body →
  did 2 0 w ((_ ← set_address env a; finally body keep (revert_address env s)) w).2.
Proof.
  intros Hb. unfold mbind, io_bind. pose proof (set_address_did a w) as D. destruct (set_address env a w) as [[x|e] w1];
    [|cbn in *; eapply did_weaken; [exact D|lia]]. cbn in D. unfold finally. specialize (Hb w1).
  destruct (body w1) as [r w2]. cbn in Hb. pose proof (did_then_quiet _ _ _ _ _ D Hb) as D2.
  pose proof (revert_address_did s w2) as D3. pose proof (did_trans 1 0 1 0 _ _ _ D2 D3) as D4. cbn in D4.
  assert (did 2 0 w w2) as D2' by (eapply did_weaken; [exact D2|lia]).
  destruct r as [y|e]; [destruct (keep y); [|done]|]; by destruct (revert_address env s w2) as [[[]|e'] w3].
Qed.

(** What probing may do to NSO: nothing, or one paid flip after which no further flip of this tick is possible. *)
Definition at_most_one_flip (before : ActiveAddress) (w : World) {A} (r : res A) (w' : World) : Prop :=
  quiet w w' ∨ did 2 1 w w' ∧ ∀ a, r = Ok a → active_address (w_fo w') = on_oob ∨ active_address (w_fo w') ≠ before.

Lemma granted_flip {A} before w w' w'' (r : res A) : did 0 1 w w' → did 2 0 w' w'' →
  (∀ a, r = Ok a → active_address (w_fo w'') = on_oob ∨ active_address (w_fo w'') ≠ before) → at_most_one_flip before w r w''.
Proof. intros D1 D2 Hr. right. split; [|done]. by apply (did_trans 0 1 2 0 w w'). Qed.

Lemma keeps_role_bind {A B} (m : io A) (f : A -> io B) : keeps_role m → (∀ a, keeps_role (f a)) → keeps_role (m ≫= f).
Proof.
  intros Hm Hf w. unfold mbind, io_bind. specialize (Hm w). destruct (m w) as [[a|e] w']; [|done]. cbn in *. by rewrite Hf.
Qed.
Lemma safe_sync_keeps_role : keeps_role (safe_sync_from env).
Proof.
  intros w. unfold safe_sync_from, except_, nso_sync_from, answer, mbind, io_bind. cbn.
  destruct (rp_fault _) as [e|]; cbn; [by destruct (is_cancel e)|done].
Qed.

Lemma switch_to_oob_spec o now w :
  wp (switch_to_oob env cfg o now) (fun r w' => did 2 0 w w' ∧ ∀ a, r = Ok a → active_address (w_fo w') = on_oob) w.
Proof.
  unfold switch_to_oob. eapply wp_step with (P := fun _ w' => did 1 0 w w'); [apply set_address_did| |].
  2: { intros e w' D. split; [eapply did_weaken; [exact D|lia]|done]. }
  intros dropped w1 D1. eapply did_weaken with (s' := 2%nat) in D1; [|lia].
  eapply wp_step with (P := fun r w' => did 2 0 w w' ∧ active_address (w_fo w') = on_oob).
  - split; [|done]. eapply did_then_quiet; [exact D1|]. by apply upd_quiet.
  - intros [] w2 [D2 R2]. destruct (failover_sync_from_after_switch cfg); [|split; [done|by intros]].
    split; [eapply did_then_quiet; [exact D2|apply safe_sync_quietly]|]. intros _ _. by rewrite safe_sync_keeps_role.
  - intros e w2 [D2 _]. done.
Qed.
End Flips.

Section Bounded.
Context {addr : Type} `{IpAddressing addr}.
Context (env : nat -> Reply) (cfg : EffectiveFailoverConfig).
Implicit Types (w : World) (before : ActiveAddress).

Lemma one_flip_bind {A B} before (m : io A) (f : A -> io B) w0 w : quietly m → quiet w0 w →
  (∀ a w1, quiet w0 w1 → wp (f a) (at_most_one_flip before w0) w1) → wp (m ≫= f) (at_most_one_flip before w0) w.
Proof.
  intros Hm Hw Hf. eapply wp_step with (P := fun _ w1 => quiet w0 w1).
  - unfold wp. etransitivity; [exact Hw|apply Hm].
  - intros a w1. apply Hf.
  - intros e w1 Q. by left.
Qed.

Lemma one_flip_quiet {A} before (m : io A) w0 w : quietly m → quiet w0 w → wp m (at_most_one_flip before w0) w.
Proof. intros Hm Hw. left. etransitivity; [exact Hw|apply Hm]. Qed.

Ltac skip := apply one_flip_bind; [by auto with nso|done|intros; cbv beta].

Lemma one_flip_granted {A} before (m m' : io A) w0 w :
  quiet w0 w → quietly m' →
  (∀ w1, did 0 1 w0 w1 → w_fo w1 = w_fo w → wp m (at_most_one_flip before w0) w1) →
  wp (granted ← take_flip; if (granted : bool) then m else m') (at_most_one_flip before w0) w.
Proof.
  intros Hw Hm' Hm. eapply wp_step; [apply take_flip_spec| |by intros e w1 (b & ? & _)].
  intros b w1 (b' & [= <-] & Hb). destruct b; [|subst w1; by apply one_flip_quiet].
  destruct Hb as (D & _ & F). apply Hm; [by eapply quiet_then_did|done].
Qed.

Lemma one_flip_paid {A} before (m : io A) w0 w :
  did 0 1 w0 w → wp m (fun r w' => did 2 0 w w' ∧ ∀ a, r = Ok a → active_address (w_fo w') = on_oob ∨ active_address (w_fo w') ≠ before) w →
  wp m (at_most_one_flip before w0) w.
Proof. intros D Hm. eapply wp_wand; [exact Hm|]. intros r w' [D' R]. by eapply granted_flip. Qed.

Lemma active_primary_probe_flips now oob job w :
  wp (active_primary_probe env cfg now oob job) (at_most_one_flip on_primary w) w.
Proof.
  unfold active_primary_probe, switch_if_ready. assert (quiet w w) as Q by done. skip. skip. skip.
  set (s := step_failover _ _ _ _). clearbody s. skip. destruct (act s); [|by apply one_flip_quiet; [auto with nso|]].
  apply one_flip_bind; [destruct job; auto with nso|done|]. intros known w' Qw. cbv beta.
  destruct known; [|apply one_flip_quiet; [along|done]]. skip.
  case_bool_decide; [by apply one_flip_quiet; [auto with nso|]|].
  apply one_flip_granted; [done|along|]. intros wg Dg _. destruct oob as [o|]; [|].
  - apply one_flip_paid; [done|]. eapply wp_step with (P := fun r w' => quiet wg w'); [apply upd_quiet; done| |].
    + intros [] wu Qu. eapply wp_step; [apply switch_to_oob_spec| |].
      * intros [] ws [D R]. split; [by eapply quiet_then_did|]. intros. left. by apply (R tt).
      * intros e ws [D _]. split; [by eapply quiet_then_did|done].
    + intros e wu Qu. split; [eapply did_weaken; [by apply quiet_did|lia]|done].
  - right. split; [|done]. eapply did_weaken; [exact Dg|lia].
Qed.

Lemma failback_flip_probe_flips now p job w :
  wp (failback_flip_probe env cfg now p job) (at_most_one_flip on_oob w) w.
Proof.
  assert (∀ fo : DeviceFailover, active_address fo = on_oob ∨ active_address fo ≠ on_oob) as Hrole
    by (intros fo; destruct (active_address fo); auto).
  unfold failback_flip_probe. assert (quiet w w) as Q by done. destruct job; [by apply one_flip_quiet; [auto with nso|]|].
  skip. destruct a as [[s a]|]; [|apply one_flip_quiet; [unfold block_unreadable; along|done]].
  apply one_flip_bind; [unfold clear_unreadable; along|done|]. intros [] w2 Q2. skip.
  apply one_flip_bind; [auto with nso|done|]. intros role w4 Q4. cbv beta.
  destruct role; [|apply one_flip_quiet; [along|done]].
  apply one_flip_granted; [done|along|]. intros wg Dg _. apply one_flip_paid; [done|].
  eapply wp_step with (P := fun r w' => quiet wg w'); [apply upd_quiet; done| |].
  - intros [] wu Qu. apply (wp_wand _ (fun _ w' => did 2 0 wu w')); [|intros r w' D; split; [by eapply quiet_then_did|auto]].
    unfold wp. pose proof (flip_did env p s (failback_decision env cfg now) negb wu (failback_decision_quietly env cfg now)) as D.
    unfold mbind, io_bind in *. destruct (set_address env p wu) as [[x|e] w6]; [|done].
    by destruct (finally _ _ _ w6) as [[y|e] w7].
  - intros e wu Qu. split; [eapply did_weaken; [by apply quiet_did|lia]|done].
Qed.

(** One flip at most, for the OOB probe too. *)
Definition one_flip (w w' : World) : Prop := quiet w w' ∨ did 2 1 w w'.

Lemma probe_oob_flips now primary o job w :
  wp (probe_oob env cfg now primary o job) (fun _ w' => one_flip w w') w ∧
  (active_address (w_fo w) = on_oob → quiet w (probe_oob env cfg now primary o job w).2).
Proof.
  split.
  - apply (wp_wand _ (at_most_one_flip on_oob w)); [|intros r w' [Q|[D _]]; [by left|by right]].
    assert (∀ fo : DeviceFailover, active_address fo = on_oob ∨ active_address fo ≠ on_oob) as Hrole
      by (intros fo; destruct (active_address fo); auto).
    unfold probe_oob. assert (quiet w w) as Q by done. skip. case_bool_decide; [apply one_flip_quiet; [along|done]|].
    destruct primary; [|by apply one_flip_quiet; [auto with nso|]].
    destruct job; [by apply one_flip_quiet; [auto with nso|]|]. skip.
    destruct a0 as [[s a0]|]; [|apply one_flip_quiet; [unfold block_unreadable; along|done]].
    apply one_flip_bind; [auto with nso|done|]. intros role w4 Q4. cbv beta.
    destruct role; [|apply one_flip_quiet; [along|done]].
    apply one_flip_granted; [done|along|]. intros wg Dg _. apply one_flip_paid; [done|].
    eapply wp_step with (P := fun r w' => quiet wg w'); [apply upd_quiet; done| |].
    + intros [] wu Qu. apply (wp_wand _ (fun _ w' => did 2 0 wu w')); [|intros r w' D; split; [by eapply quiet_then_did|auto]].
      apply flip_did. along.
    + intros e wu Qu. split; [eapply did_weaken; [by apply quiet_did|lia]|done].
  - intros Hr. unfold probe_oob. rewrite get_fo_bind. cbv beta. rewrite bool_decide_eq_true_2 by done.
    assert (quietly (outcome ← probe_reachable env (failover_active_probe_timeout cfg);
      _ ← upd (fun fo => record_health now outcome (record_probe now outcome on_oob fo)); mret true)) as Hq by along. apply Hq.
Qed.

Lemma run_oob_flips before now primary oob job j w :
  one_flip w (run_oob env cfg before now primary oob job j w).2 ∧
  (active_address (w_fo w) = on_oob ∨ active_address (w_fo w) ≠ before →
   quiet w (run_oob env cfg before now primary oob job j w).2).
Proof.
  unfold run_oob. rewrite !get_fo_bind. cbv beta.
  destruct oob as [o|]; [|by split; [left|]].
  case_bool_decide as Hb; cbn [andb]; [|by split; [left|]]. destruct (due _ _); [|by split; [left|]].
  destruct (probe_oob_flips now primary o job w) as [H1 H2]. unfold wp in H1. unfold mbind, io_bind.
  pose proof (fun b => when_quietly b _ (arm_oob_quietly env cfg now j)) as Hw.
  destruct (probe_oob env cfg now primary o job w) as [[ran|e] w1]; cbn in *; [|by split; [|intros [?|?]; auto]].
  split; [|intros [Hr|?]; [etransitivity; [by apply H2|apply Hw]|done]].
  destruct H1 as [Q|D]; [left; etransitivity; [exact Q|apply Hw]|right; eapply did_then_quiet; [exact D|apply Hw]].
Qed.

Lemma run_primary_flips now primary oob job j w :
  wp (run_primary env cfg now primary oob job j) (at_most_one_flip (active_address (w_fo w)) w) w.
Proof.
  unfold run_primary. apply wp_bind. unfold wp at 1. cbn. destruct primary as [p|]; [|by left]. destruct (due _ _); [|by left].
  assert (wp (probe_primary env cfg now p oob job) (at_most_one_flip (active_address (w_fo w)) w) w) as Hp.
  { unfold probe_primary. apply wp_bind. unfold wp at 1. cbn. case_bool_decide as Hb.
    - rewrite Hb. apply active_primary_probe_flips.
    - destruct (active_address (w_fo w)); [done|]. apply failback_flip_probe_flips. }
  pose proof (fun b => when_quietly b _ (arm_primary_quietly env cfg now j)) as Hw.
  assert (∀ b, keeps_role (when_ b (arm_primary env cfg now j))) as Hk.
  { intros b w1. unfold when_, arm_primary, next_due. destruct b, j; done. }
  eapply wp_step; [exact Hp| |].
  - intros ran w1 [Q|[D R]]; [left; etransitivity; [exact Q|apply Hw]|]. right.
    split; [eapply did_then_quiet; [exact D|apply Hw]|]. intros a _. rewrite (Hk ran w1). by apply (R ran).
  - intros e w1 [Q|[D R]]; [by left|by right].
Qed.

Lemma tick_flips now job j w : one_flip w (run_failover_tick env cfg now job j w).2.
Proof.
  change (wp (run_failover_tick env cfg now job j) (fun _ w' => one_flip w w') w).
  assert (∀ (A : Type) (m : io A) w1, quiet w w1 → quietly m → one_flip w (m w1).2) as Hq
    by (intros A m w1 Q Hm; left; etransitivity; [exact Q|apply Hm]).
  unfold run_failover_tick. apply wp_bind. unfold wp at 1. cbn. destruct (negb _ || negb _).
  { apply Hq; [done|]. along. }
  destruct (stored_failover_address (primary_ip (w_fo w))) as [pa|]; [|by left].
  destruct (stored_failover_address (oob_ip (w_fo w))) as [oa|]; [|by left].
  apply wp_bind. unfold wp at 1. cbn. apply wp_bind. unfold wp at 1. cbn.
  set (oob := if bool_decide (oa = pa) then None else oob_ip (w_fo w)). destruct (negb _ && negb _); [by left|]. destruct (_ || _ || _); [|by left].
  eapply wp_step with (P := fun _ w1 => quiet w w1); [apply reconcile_quietly| |intros e w1 Q; by left].
  intros known w1 Q1. destruct known; [|apply Hq; [done|along]]. apply wp_bind. unfold wp at 1. cbn.
  eapply wp_step with (P := fun _ w2 => quiet w w2 ∧ active_address (w_fo w2) = active_address (w_fo w1)).
  { unfold wp. split; [etransitivity; [exact Q1|apply when_quietly; along]|].
    unfold when_, arm_primary, next_due. destruct (_ && _); [|done]. by destruct j. }
  2: { intros e w2 [Q _]. by left. }
  intros [] w2 [Q2 R2]. rewrite <-R2. eapply wp_step; [apply run_primary_flips| |].
  - intros [] w3 [Q3|[D R]].
    + destruct (run_oob_flips (active_address (w_fo w2)) now (primary_ip (w_fo w)) oob job j w3) as [[Q|D] _].
      * left. do 2 (etransitivity; [eassumption|]). exact Q.
      * right. do 2 (eapply quiet_then_did; [eassumption|]). exact D.
    + right. destruct (run_oob_flips (active_address (w_fo w2)) now (primary_ip (w_fo w)) oob job j w3) as [_ Hs].
      eapply quiet_then_did; [exact Q2|]. eapply did_then_quiet; [exact D|]. apply Hs. by apply (R tt).
  - intros e w3 [Q3|[D _]]; [left; by etransitivity|right; by eapply quiet_then_did].
Qed.
End Bounded.

Section Busy.
Context {addr : Type} `{IpAddressing addr}.
Context (env : nat -> Reply) (cfg : EffectiveFailoverConfig).

Lemma busy_primary_quietly now p oob : quietly (probe_primary env cfg now p oob true).
Proof.
  unfold probe_primary. apply along_bind; [auto with nso|]. intros fo0. apply along_if; [|apply along_ret].
  unfold active_primary_probe, switch_if_ready. do 4 (apply along_bind; [auto with nso|intros ?]). cbv zeta.
  destruct (act _); [|auto with nso].
  assert (quietly (_ ← upd (arm cfg); mret true)) as Ha by along. intros w. exact (Ha w).
Qed.

Lemma busy_oob_quietly now primary o : quietly (probe_oob env cfg now primary o true).
Proof. unfold probe_oob. along. Qed.

Lemma busy_tick_quietly now j : quietly (run_failover_tick env cfg now true j).
Proof.
  pose proof (busy_primary_quietly now). pose proof (busy_oob_quietly now).
  unfold run_failover_tick, run_primary, run_oob. cbv zeta.
  apply along_bind; [auto with nso|]. intros fo. destruct (invalid_stored_address_fields fo). along.
Qed.
End Busy.

(** ** How much a tick may disturb *)

Section Disturbance.
Context {addr : Type} `{IpAddressing addr}.
Context (env : nat -> Reply) (cfg : EffectiveFailoverConfig).

Lemma committed_trace now job j w w1 : (run_failover_tick env cfg now job j w).2 = w1 →
  w_trace (committed_tick env cfg now job j w) = w_trace w1 ∧ w_budget (committed_tick env cfg now job j w) = w_budget w1 ∧
  w_address (committed_tick env cfg now job j w) = w_address w1.
Proof. intros <-. unfold committed_tick. by destruct (run_failover_tick env cfg now job j w) as [[[]|e] w']. Qed.

(** C28: Failover is gentle.  Probing one device under its claim writes NSO's address at most twice - one flip and its
    restore, whatever NSO answers, faults and cancellations included -, every flip is taken from the tick's budget, which never
    goes below zero, and while the device's claim is held or a job of the device is queued or running the address is not
    touched at all.  The device's claim is free again afterwards. *)
Theorem failover_disturbance_bounded dev token now d w d' w' :
  probe_one_failover_device env cfg dev token now d w = Ok (d', w') →
  claims d' = claims d ∧
  ∃ l, w_trace w' = l ++ w_trace w ∧ (sets l <= 2)%nat ∧
  (∀ n, w_budget w = Some n → ∃ t, w_budget w' = Some (n - t) ∧ 0 <= t <= 1 ∧ t <= Z.max 0 n ∧ Z.of_nat (sets l) <= 2 * t) ∧
  (is_Some (claims d !! dev) ∨ has_any_active_job dev d = true → sets l = 0%nat ∧ w_address w' = w_address w).
Proof.
  unfold probe_one_failover_device. intros ([claim d1] & Ha & Hb)%bind_Ok.
  destruct claim as [reg|]; [|injection Hb as <- <-].
  2: { assert (d1 = d) as ->. { unfold acquire_claim in Ha. break_res; done. }
       split; [done|]. exists []. split_and!; [done|cbn; lia| |done]. intros n Hn. exists 0. rewrite Hn. cbn. split_and!; try lia. f_equal. lia. }
  apply bind_Ok in Hb as ([[] d2] & Hl & Hb). injection Hb as <- <-. assert (d2 = d1) as ->.
  { unfold lock_claim in Hl. destruct (reg_token reg); [destruct (holds_claim reg d1)|]; congruence. }
  unfold acquire_claim in Ha. destruct (mem _ _); [|done]. case_bool_decide as Hdev; [|done].
  destruct (claims d !! dev) as [c|] eqn:Hc; [done|]. destruct (existsb _ _); [done|]. injection Ha as <- <-.
  set (job := has_any_active_job dev _). assert (job = has_any_active_job dev d) as Hjob by done.
  destruct (committed_trace now job true w _ eq_refl) as (Et & Eb & Ea). split.
  { unfold release_claim, lock_claim, delete_own_claim. cbn. unfold holds_claim. cbn. rewrite lookup_insert_eq. cbn.
    rewrite bool_decide_eq_true_2 by done. cbn. rewrite lookup_insert_eq. cbn. rewrite bool_decide_eq_true_2 by done. cbn.
    by rewrite delete_insert_eq, delete_id. }
  destruct (tick_flips env cfg now job true w) as [[((l & E & L) & B & C & _) Q]|((l & E & L) & B & C & _)]; exists l.
  - split_and!; [congruence|lia| |intros _; split; [lia|congruence]]. intros n Hn. exists 0. rewrite Eb, B, Hn. cbn. split_and!; try lia. done.
  - split_and!; [congruence|lia| |].
    + intros n Hn. exists 1. rewrite Eb, B, Hn. specialize (C n Hn). cbn. split_and!; try lia. done.
    + intros [Hs|Hs]; [by destruct Hs|]. assert (job = true) as Hjt by congruence.
      pose proof (busy_tick_quietly env cfg now true w) as [((l' & E' & L') & _) Q]. rewrite <-Hjt in E', Q.
      assert (l' = l) as ->; [by apply (app_inv_tail (w_trace w)); congruence|]. split; [lia|congruence].
Qed.
End Disturbance.

(** ** The stored role follows NSO *)

Section Follows.
Context {addr : Type} `{IpAddressing addr}.
Context (env : nat -> Reply) (cfg : EffectiveFailoverConfig).

(** NSO dials one of the device's two addresses. *)
Definition managed (w : World) (r : ActiveAddress) : Prop :=
  ∃ s a, w_address w = Some s ∧ ip_address s = Some a ∧ managed_address_role (w_fo w) a = Ok (Some r).
(** ... and the row knows which. *)
Definition synced (w : World) : Prop := managed w (active_address (w_fo w)).

Definition same_ips (w w' : World) : Prop :=
  primary_ip (w_fo w') = primary_ip (w_fo w) ∧ oob_ip (w_fo w') = oob_ip (w_fo w).
(** NSO is not redirected, and the role changes only to the right one. *)
Definition stays (w w' : World) : Prop :=
  w_address w' = w_address w ∧ same_ips w w' ∧ (active_address (w_fo w') = active_address (w_fo w) ∨ synced w').

Lemma role_same fo fo' a : primary_ip fo' = primary_ip fo → oob_ip fo' = oob_ip fo →
  managed_address_role fo' a = managed_address_role fo a.
Proof. unfold managed_address_role. by intros -> ->. Qed.

Lemma managed_same w w' r : w_address w' = w_address w → same_ips w w' → managed w r → managed w' r.
Proof. intros E [E1 E2] (s & a & Hs & Ha & Hr). exists s, a. rewrite E, (role_same _ _ _ E1 E2). done. Qed.

Lemma stays_synced w w' : stays w w' → synced w → synced w'.
Proof. intros (E & Ei & [R|S]) Hs; [|done]. unfold synced in *. rewrite R. by eapply managed_same. Qed.

#[local] Instance stays_preorder : PreOrder stays.
Proof.
  split; [intros w; repeat split; by left|]. intros w1 w2 w3 (E & [P O] & R) (E' & [P' O'] & R').
  repeat split; [congruence..|]. destruct R' as [R'|S']; [|by right]. destruct R as [R|S]; [left; congruence|right].
  eapply stays_synced; [|exact S]. repeat split; auto.
Qed.

Lemma stays_upd f : (∀ fo, primary_ip (f fo) = primary_ip fo ∧ oob_ip (f fo) = oob_ip fo ∧ active_address (f fo) = active_address fo) →
  along stays (upd f).
Proof. intros Hf w. destruct (Hf (w_fo w)) as (? & ? & ?). repeat split; [done..|by left]. Qed.
Lemma stays_call c : along stays (call env c).
Proof. intros w. repeat split. by left. Qed.
Hint Resolve stays_call : nso.
Hint Extern 1 (along stays (upd _)) => apply stays_upd; intros ?; cbn; repeat case_bool_decide; repeat split; reflexivity : nso.

Lemma answer_stays r : along stays (answer r).
Proof. unfold answer. along. Qed.
Hint Resolve answer_stays : nso.
Lemma probe_stays t : along stays (probe_reachable env t).
Proof. unfold probe_reachable. along. Qed.
Lemma read_address_stays : along stays (read_address env).
Proof. unfold read_address, get_address. along. Qed.
Lemma safe_disconnect_stays : along stays (safe_disconnect env).
Proof. unfold safe_disconnect, disconnect. along. Qed.
Lemma safe_sync_stays : along stays (safe_sync_from env).
Proof. unfold safe_sync_from, nso_sync_from. along. Qed.
Lemma next_due_stays now i j : along stays (next_due env now i j).
Proof. unfold next_due. along. Qed.
Hint Resolve probe_stays read_address_stays safe_disconnect_stays safe_sync_stays next_due_stays : nso.
Lemma arm_primary_stays now j : along stays (arm_primary env cfg now j).
Proof. unfold arm_primary. along. Qed.
Lemma arm_oob_stays now j : along stays (arm_oob env cfg now j).
Proof. unfold arm_oob. along. Qed.
Lemma take_flip_stays : along stays take_flip.
Proof. intros w. unfold take_flip. destruct (w_budget w) as [n|]; [destruct (n <=? 0)|]; repeat split; by left. Qed.
Hint Resolve arm_primary_stays arm_oob_stays take_flip_stays : nso.

(** What [read_address] reports is what NSO dials. *)
Lemma read_address_reports w : wp (read_address env)
  (fun r w' => stays w w' ∧ w_fo w' = w_fo w ∧ ∀ s a, r = Ok (Some (s, a)) → w_address w = Some s ∧ ip_address s = Some a) w.
Proof.
  unfold wp. split; [apply read_address_stays|]. unfold read_address, get_address, except_, mbind, io_bind, answer. cbn.
  destruct (rp_fault _) as [e|]; cbn; [destruct (is_cancel e); cbn; split; done|].
  destruct (w_address w) as [s|]; cbn; [|done]. destruct (ip_address s) as [x|] eqn:Ex; cbn; [|done].
  split; [done|]. by intros s' a' [= <- <-].
Qed.

Lemma reconcile_follows w : wp (reconcile_active_address env) (fun r w' => stays w w' ∧ (r = Ok true → synced w')) w.
Proof.
  unfold reconcile_active_address. eapply wp_step; [apply read_address_reports| |intros e w1 (S & _); split; [done|discriminate]].
  intros current w1 (S1 & F1 & Hc). destruct current as [[s a]|].
  2: { assert (along stays (_ ← upd block_unreadable; mret false)) as Hb by (unfold block_unreadable; along).
       split; [etransitivity; [exact S1|apply Hb]|]. done. }
  destruct (Hc s a eq_refl) as [Hs Ha]. clear Hc.
  eapply wp_step with (P := fun _ w2 => stays w w2 ∧ w_address w2 = Some s).
  { unfold wp. assert (along stays (upd clear_unreadable)) as Hb by (unfold clear_unreadable; along).
    split; [etransitivity; [exact S1|apply Hb]|]. cbn. destruct S1 as [-> _]. done. }
  2: { intros e w2 [S2 _]. split; [done|discriminate]. }
  intros [] w2 [S2 A2]. apply wp_bind. unfold wp at 1. cbn. apply wp_bind. unfold wp at 1. cbn.
  destruct (managed_address_role (w_fo w2) a) as [[role|]|e] eqn:Er; cbn.
  - assert (∃ w3, wp (_ ← upd (set_override false);
        _ ← (if bool_decide (active_address (w_fo w2) = role) then mret tt else upd (fun fo => set_counters 0 0 (set_active role fo)));
        mret true) (fun r w' => r = Ok true ∧ w' = w3) w2 ∧ w_address w3 = Some s ∧ same_ips w2 w3 ∧ active_address (w_fo w3) = role)
      as (w3 & Hw & A3 & I3 & R3).
    { case_bool_decide as Hr; (eexists; split; [unfold wp, mbind, io_bind; cbn; split; reflexivity|]); repeat split; done. }
    assert (synced w3) as Sy.
    { exists s, a. rewrite (role_same (w_fo w2) (w_fo w3) a) by apply I3. rewrite R3. done. }
    eapply wp_wand; [exact Hw|]. intros r w' [_ ->]. split; [|done]. destruct S2 as (E2 & [P2 O2] & _), I3 as [P3 O3].
    repeat split; [congruence..|by right].
  - split; [|done]. etransitivity; [exact S2|]. apply (stays_upd (set_override true)). done.
  - split; [done|discriminate].
Qed.

(** *** Without failed address writes and cancellations *)

Context (no_set_fault : ∀ i, rp_set_fault (env i) = None) (no_cancel : ∀ i, rp_fault (env i) ≠ Some CancelledError).

Lemma except_total {A} (m : io A) (a : A) w : (∀ e, (m w).1 = Raise e → is_cancel e = false) →
  ∃ b, (except_ m (mret a) w).1 = Ok b.
Proof. intros Hm. unfold except_. destruct (m w) as [[b|e] w']; cbn in *; [eauto|]. rewrite (Hm e) by done. cbn. eauto. Qed.

Lemma answer_no_cancel i w e : (answer (env i) w).1 = Raise e → is_cancel e = false.
Proof.
  unfold answer. destruct (rp_fault (env i)) as [e'|] eqn:E; cbn; [|done]. intros [= ->]. apply bool_decide_eq_false_2.
  intros ->. by apply (no_cancel i).
Qed.

(** An address write succeeds and changes nothing else. *)
Lemma set_address_ok a w : ∃ b w1, set_address env a w = (Ok b, w1) ∧ w_fo w1 = w_fo w ∧ w_address w1 = Some a.
Proof.
  unfold set_address, nso_set_address, mbind, io_bind. cbn. rewrite no_set_fault. cbn.
  set (w1 := mkWorld _ _ _ _). destruct (except_total (_ ← disconnect env; mret true) false w1) as [b Hb].
  - intros e. unfold disconnect, mbind, io_bind. cbn. pose proof (answer_no_cancel (length (w_trace w1))) as Hn.
    specialize (Hn (call env Disconnect w1).2). cbn in Hn. destruct (answer _ _) as [[[]|e'] w2]; cbn in *; [done|].
    intros [= ->]. by apply Hn.
  - unfold safe_disconnect. destruct (except_ _ _ w1) as [r w2] eqn:E. cbn in Hb. subst r. exists b, w2. split; [done|].
    revert E. unfold except_, disconnect, answer, mbind, io_bind. cbn.
    destruct (rp_fault _) as [e|]; cbn; [destruct (is_cancel e); cbn|]; intros [= _ <-]; done.
Qed.

Lemma revert_address_ok a w : ∃ w1, revert_address env a w = (Ok tt, w1) ∧ w_fo w1 = w_fo w ∧ w_address w1 = Some a.
Proof.
  unfold revert_address, except_, mbind, io_bind. destruct (set_address_ok a w) as (b & w1 & -> & F & A1). cbn. eauto.
Qed.

Lemma probe_fo t w : w_fo (probe_reachable env t w).2 = w_fo w ∧ w_address (probe_reachable env t w).2 = w_address w.
Proof. unfold probe_reachable, answer, mbind, io_bind. cbn. by destruct (rp_fault _). Qed.

(** A flip-probe whose body does not commit leaves NSO where it was. *)
Lemma flip_returns {A} a s (body : io A) keep w :
  w_address w = Some s →
  (∀ w1, w_fo w1 = w_fo w → w_address (body w1).2 = w_address w1 ∧ same_ips w1 (body w1).2) →
  wp (_ ← set_address env a; finally body keep (revert_address env s)) (fun r w' => same_ips w w' ∧
    ∃ w1, w_fo w1 = w_fo w ∧ w_address w1 = Some a ∧ w_fo w' = w_fo (body w1).2 ∧ r = (body w1).1 ∧
    match r with Ok x => w_address w' = if keep x then Some s else Some a | Raise _ => w_address w' = Some s end) w.
Proof.
  intros Hs Hb. unfold wp, mbind, io_bind. destruct (set_address_ok a w) as (b & w1 & -> & F1 & A1).
  destruct (Hb w1 F1) as [A2 [P2 O2]]. unfold finally. destruct (body w1) as [r w2] eqn:Eb. cbn [fst snd] in *.
  destruct (revert_address_ok s w2) as (w3 & E3 & F3 & A3).
  destruct r as [x|e]; [destruct (keep x) eqn:Ek|]; rewrite ?E3; cbn [fst snd].
  - split; [split; rewrite F3, <-F1; done|]. exists w1. rewrite Eb, Ek. done.
  - split; [split; rewrite <-F1; done|]. exists w1. rewrite Eb, Ek, A2. done.
  - split; [split; rewrite F3, <-F1; done|]. exists w1. rewrite Eb. done.
Qed.

Lemma probe_oob_stays now primary o job : along stays (probe_oob env cfg now primary o job).
Proof.
  unfold probe_oob. apply along_bind; [auto with nso|]. intros fo0. apply along_if; [along|].
  destruct primary; [|along]. apply along_if; [along|]. intros w.
  match goal with |- stays w (?m w).2 => change (wp m (fun _ w' => stays w w') w) end.
  eapply wp_step; [apply read_address_reports| |by intros e w1 [S _]]. intros before w1 (S1 & F1 & Hc).
  assert (∀ A (m : io A), along stays m → wp m (fun _ w' => stays w w') w1) as Hst
    by (intros A m Hm; unfold wp; etransitivity; [exact S1|apply Hm]).
  destruct before as [[s a]|]; [|apply Hst; unfold block_unreadable; along].
  destruct (Hc s a eq_refl) as [Hs _]. apply wp_res.
  destruct (managed_address_role fo0 a) as [[role|]|e]; cbn [continue]; [|apply Hst; along|done].
  eapply wp_step with (P := fun _ w2 => stays w w2).
  { unfold wp. etransitivity; [exact S1|apply take_flip_stays]. } 2: by intros e w2 S2.
  intros granted w2 S2. destruct granted; [|done]. eapply wp_step with (P := fun _ w3 => stays w w3).
  { unfold wp. etransitivity; [exact S2|]. by apply (stays_upd (set_override false)). } 2: by intros e w3 S3.
  intros [] w3 S3. eapply wp_wand; [apply (flip_returns o s)|].
  - destruct S3 as [-> _]. done.
  - intros w4 F4. unfold mbind, io_bind. destruct (probe_fo (failover_probe_timeout cfg) w4) as [F5 A5].
    destruct (probe_reachable env _ w4) as [[x|e] w5]; cbn in *; repeat split; cbn; congruence.
  - intros r w5 (I5 & w4 & F4 & A4 & F5 & Er & A5). assert (w_address w5 = Some s) as A5' by (destruct r; done).
    etransitivity; [exact S3|]. destruct S3 as (A3 & _). repeat split; [congruence|apply I5|apply I5|]. left. rewrite F5, <-F4.
    unfold mbind, io_bind. destruct (probe_fo (failover_probe_timeout cfg) w4) as [F6 A6].
    destruct (probe_reachable env _ w4) as [[x|e] w6]; cbn in *; by rewrite F6.
Qed.


Lemma safe_sync_same w : w_fo (safe_sync_from env w).2 = w_fo w ∧ w_address (safe_sync_from env w).2 = w_address w.
Proof.
  unfold safe_sync_from, except_, nso_sync_from, answer, mbind, io_bind. cbn.
  destruct (rp_fault _) as [e|]; cbn; [by destruct (is_cancel e)|done].
Qed.

Lemma failback_decision_spec now w : wp (failback_decision env cfg now) (fun r w' =>
  w_address w' = w_address w ∧ same_ips w w' ∧ (r = Ok true → active_address (w_fo w') = on_primary) ∧
  (r = Ok false → active_address (w_fo w') = active_address (w_fo w))) w.
Proof.
  unfold failback_decision. eapply wp_step with (P := fun _ w1 => w_fo w1 = w_fo w ∧ w_address w1 = w_address w); [apply probe_fo| |].
  2: { intros e w1 [F A1]. repeat split; try congruence; discriminate. }
  intros outcome w1 [F1 A1]. apply wp_bind. unfold wp at 1. cbn [continue upd fst snd]. apply wp_get.
  set (st := step_failback _ _ _). apply wp_bind. unfold wp at 1. cbn [continue upd fst snd].
  destruct (act st); [|unfold wp; cbn; repeat split; intros; cbn in *; rewrite ?F1; congruence].
  unfold commit_failback, next_due. apply wp_bind. unfold wp, mbind, io_bind. cbn.
  destruct (failover_sync_from_after_switch cfg); [|repeat split; intros; cbn in *; congruence].
  match goal with |- context [safe_sync_from env ?w2] => destruct (safe_sync_same w2) as [F2 A2]; destruct (safe_sync_from env w2) as [[[]|e] w3] end;
    cbn in *; repeat split; intros; cbn in *; rewrite ?F2; cbn; congruence.
Qed.

(** The result of probing the primary: NSO is where it was, or the switch is made and recorded. *)
Definition probed (primary : pystr) (oob : option pystr) (w : World) {A} (r : res A) (w' : World) : Prop :=
  match r with
  | Ok _ => stays w w' ∨ same_ips w w' ∧ active_address (w_fo w') ≠ active_address (w_fo w) ∧
      match active_address (w_fo w') with on_primary => w_address w' = Some primary | on_oob => is_Some oob ∧ w_address w' = oob end
  | Raise _ => w_address w' = w_address w
  end.

Lemma stays_probed {A} p oob w (r : res A) w' : stays w w' → probed p oob w r w'.
Proof. intros S. destruct r; [by left|apply S]. Qed.

Lemma failback_probed now p oob job w : active_address (w_fo w) = on_oob →
  wp (failback_flip_probe env cfg now p job) (probed p oob w) w.
Proof.
  intros Hrole. unfold failback_flip_probe. destruct job; [by left|].
  eapply wp_step; [apply read_address_reports| |intros e w1 [S _]; by apply stays_probed]. intros before w1 (S1 & F1 & Hc).
  assert (∀ A (m : io A), along stays m → wp m (probed p oob w) w1) as Hst
    by (intros A m Hm; apply stays_probed; etransitivity; [exact S1|apply Hm]).
  destruct before as [[s a]|]; [|apply Hst; unfold block_unreadable; along].
  destruct (Hc s a eq_refl) as [Hs _]. clear Hc Hst.
  eapply wp_step with (P := fun _ w2 => stays w w2 ∧ active_address (w_fo w2) = on_oob).
  { split; [etransitivity; [exact S1|]; apply (stays_upd clear_unreadable)|]; unfold clear_unreadable.
    - intros fo. by case_bool_decide.
    - cbn. case_bool_decide; cbn; congruence. }
  2: { intros e w2 [S2 _]. by apply stays_probed. }
  intros [] w2 [S2 R2]. apply wp_get, wp_res.
  destruct (managed_address_role (w_fo w2) a) as [[role|]|e]; cbn [continue]; [| |by apply stays_probed].
  2: { apply stays_probed. etransitivity; [exact S2|]. by apply (stays_upd (set_override true)). }
  eapply wp_step; [apply take_flip_spec| |by intros e w3 (b & ? & _)]. intros granted w3 (b & [= <-] & Hg).
  destruct granted; [|subst w3; by apply stays_probed]. destruct Hg as (_ & A3 & F3).
  apply wp_bind. unfold wp at 1. cbn [continue upd fst snd]. set (w4 := mkWorld _ _ _ _).
  assert (stays w w4) as S4.
  { etransitivity; [exact S2|]. unfold w4. repeat split; cbn; rewrite ?F3; auto. }
  assert (w_address w4 = Some s) as A4 by (destruct S4 as [-> _]; done).
  apply wp_assoc. eapply wp_wand; [apply (flip_returns p s); [done|]|].
  { intros w5 _. destruct (failback_decision_spec now w5) as (A5 & I5 & _). done. }
  intros r w5 (I5 & w6 & F6 & A6 & F5 & -> & A5). destruct (failback_decision_spec now w6) as (_ & _ & Hyes & Hno).
  assert (active_address (w_fo w4) = on_oob) as R4 by (unfold w4; cbn; by rewrite F3).
  assert (same_ips w w5) as I by (destruct S4 as (_ & [P O] & _), I5 as [P5 O5]; split; congruence).
  destruct (failback_decision env cfg now w6) as [[[]|e] w7]; cbn in *.
  - right. split; [done|]. rewrite F5, Hyes by done. rewrite Hrole. split; [done|]. done.
  - left. split; [destruct S4 as [E4 _]; congruence|]. split; [done|]. left. rewrite F5, Hno, F6, Hrole by done. exact R4.
  - destruct S4 as [E4 _]. congruence.
Qed.

Lemma safe_sync_ok w : (safe_sync_from env w).1 = Ok tt.
Proof.
  destruct (except_total (nso_sync_from env) tt w) as [[] Hb]; [|done]. intros e. unfold nso_sync_from, mbind, io_bind. cbn.
  pose proof (answer_no_cancel (length (w_trace w)) (call env SyncFrom w).2) as Hn. cbn in Hn. apply Hn.
Qed.

Lemma switch_follows o now w : wp (switch_to_oob env cfg o now) (fun r w' =>
  r = Ok tt ∧ same_ips w w' ∧ active_address (w_fo w') = on_oob ∧ w_address w' = Some o) w.
Proof.
  unfold switch_to_oob, wp, mbind, io_bind. destruct (set_address_ok o w) as (b & w1 & -> & F1 & A1). cbn.
  destruct (failover_sync_from_after_switch cfg); [|unfold same_ips; cbn; rewrite F1; done].
  match goal with |- context [safe_sync_from env ?w2] => destruct (safe_sync_same w2) as [F2 A2]; pose proof (safe_sync_ok w2) as O2;
    destruct (safe_sync_from env w2) as [r w3] end.
  cbn in *. split; [done|]. unfold same_ips. rewrite F2, A2. cbn. rewrite F1. done.
Qed.

Lemma active_probed now p oob job w : active_address (w_fo w) = on_primary →
  wp (active_primary_probe env cfg now oob job) (probed p oob w) w.
Proof.
  intros Hrole. unfold active_primary_probe, switch_if_ready.
  eapply wp_step with (P := fun _ w1 => stays w w1); [apply probe_stays| |intros e w1 S; by apply stays_probed].
  intros outcome w1 S1. eapply wp_step with (P := fun _ w2 => stays w w2).
  { unfold wp. etransitivity; [exact S1|]. by apply (stays_upd (record_probe now outcome on_primary)). }
  2: by intros e w2 S2; apply stays_probed.
  intros [] w2 S2. apply wp_get. set (st := step_failover _ _ _ _). eapply wp_step with (P := fun _ w3 => stays w w3).
  { unfold wp. etransitivity; [exact S2|]. by apply (stays_upd (set_counters (failures st) (successes st))). }
  2: by intros e w3 S3; apply stays_probed.
  intros [] w3 S3. assert (∀ A (m : io A) w', stays w w' → along stays m → wp m (probed p oob w) w') as Hst
    by (intros A m w' S Hm; apply stays_probed; etransitivity; [exact S|apply Hm]).
  destruct (act st); [|by apply Hst; [done|along]].
  eapply wp_step with (P := fun _ w4 => stays w w4).
  { destruct job; [done|]. eapply wp_wand; [apply reconcile_follows|]. intros r w4 [S4 _]. by etransitivity. }
  2: by intros e w4 S4; apply stays_probed.
  intros known w4 S4. destruct known; [|apply Hst; [done|along]]. apply wp_get.
  case_bool_decide as Hr; [by apply Hst; [done|along]|].
  eapply wp_step; [apply take_flip_spec| |by intros e w5 (b & ? & _)]. intros granted w5 (b & [= <-] & Hg).
  destruct granted; [|subst w5; apply Hst; [done|along]]. destruct Hg as (_ & A5 & F5).
  destruct oob as [o|]; [|cbn; destruct S4 as [-> _] in A5; done].
  apply wp_bind. unfold wp at 1. cbn [continue upd fst snd]. set (w6 := mkWorld _ _ _ _).
  assert (same_ips w w6) as I6 by (destruct S4 as (_ & [P O] & _); split; cbn; rewrite F5; congruence).
  eapply wp_step; [apply switch_follows| |by intros e w7 [? _]]. intros [] w7 (_ & [P7 O7] & R7 & A7).
  right. destruct I6 as [P6 O6]. unfold mret, io_ret. cbn [fst snd]. rewrite R7, Hrole. repeat split; [congruence..|done|by eexists|done].
Qed.

Lemma run_primary_probed now primary oob job j w :
  wp (run_primary env cfg now primary oob job j) (fun r w' => (primary = None ∧ stays w w') ∨ ∃ p, primary = Some p ∧ probed p oob w r w') w.
Proof.
  unfold run_primary. apply wp_get. destruct primary as [p|]; [|by left]. destruct (due _ _); [|right; exists p; split; [done|by left]].
  assert (wp (probe_primary env cfg now p oob job) (probed p oob w) w) as Hp.
  { unfold probe_primary. apply wp_get. case_bool_decide as Hb; [by apply active_probed|].
    apply failback_probed. by destruct (active_address (w_fo w)). }
  eapply wp_step; [exact Hp| |intros e w1 P1; right; by exists p].
  intros ran w1 P1. right. exists p. split; [done|]. unfold when_. destruct ran; [|done].
  destruct (arm_primary_stays now j w1) as (A2 & [I2 O2] & R2). assert (active_address (w_fo (arm_primary env cfg now j w1).2) = active_address (w_fo w1)) as R3
    by (unfold arm_primary, next_due; by destruct j).
  destruct (arm_primary env cfg now j w1) as [[[]|e] w2] eqn:Ea; [|unfold arm_primary, next_due in Ea; by destruct j]. cbn in *.
  destruct P1 as [S1|([I1 O1] & N1 & M1)].
  - left. etransitivity; [exact S1|]. repeat split; auto.
  - right. rewrite R3, A2. repeat split; [congruence..|done|done].
Qed.

(** A recorded switch is in step with NSO. *)
Lemma switched_synced p oob w' : primary_ip (w_fo w') = Some p → (∀ o, oob = Some o → oob_ip (w_fo w') = Some o) →
  is_ok (stored_failover_address (primary_ip (w_fo w'))) = true → is_ok (stored_failover_address (oob_ip (w_fo w'))) = true →
  (is_Some oob → stored_failover_address (oob_ip (w_fo w')) ≠ stored_failover_address (primary_ip (w_fo w'))) →
  match active_address (w_fo w') with on_primary => w_address w' = Some p | on_oob => is_Some oob ∧ w_address w' = oob end → synced w'.
Proof.
  intros Hp Ho Vp Vo Hne Hm. unfold synced, managed. rewrite Hp in *. cbn in Vp. destruct (ip_address p) as [a|] eqn:Ea; [|done].
  destruct (active_address (w_fo w')).
  - exists p, a. split_and!; [done..|]. unfold managed_address_role. rewrite Hp. cbn. rewrite Ea. unfold_res.
    by rewrite bool_decide_eq_true_2.
  - destruct Hm as [[o ->] Hm]. specialize (Hne (mk_is_Some _ _ eq_refl)). rewrite (Ho o eq_refl) in *. cbn in *.
    rewrite Ea in Hne. destruct (ip_address o) as [b|] eqn:Eb; [|done]. exists o, b. split_and!; [done..|].
    unfold managed_address_role. rewrite Hp, (Ho o eq_refl). cbn. rewrite Ea, Eb. unfold_res.
    rewrite bool_decide_eq_false_2 by congruence. by rewrite bool_decide_eq_true_2.
Qed.

Lemma run_oob_stays before now primary oob job j : along stays (run_oob env cfg before now primary oob job j).
Proof.
  unfold run_oob. apply along_bind; [auto with nso|]. intros fo0. destruct oob as [o|]; [|along]. apply along_if; [|along].
  apply along_bind; [apply probe_oob_stays|]. intros ran. along.
Qed.

(** What a tick leaves behind: a role in step with NSO, or, on an exception, NSO where it was. *)
Definition follows (w : World) {A} (r : res A) (w' : World) : Prop :=
  match r with Ok _ => synced w' | Raise _ => w_address w' = w_address w end.

(** The addresses the probes of a tick use. *)
Definition usable (oob : option pystr) (fo : DeviceFailover) : Prop :=
  is_ok (stored_failover_address (primary_ip fo)) = true ∧ is_ok (stored_failover_address (oob_ip fo)) = true ∧
  (∀ o, oob = Some o → oob_ip fo = Some o) ∧
  (is_Some oob → stored_failover_address (oob_ip fo) ≠ stored_failover_address (primary_ip fo)).

Lemma probes_follow now oob job j w : synced w → usable oob (w_fo w) →
  wp (_ ← run_primary env cfg now (primary_ip (w_fo w)) oob job j;
      run_oob env cfg (active_address (w_fo w)) now (primary_ip (w_fo w)) oob job j) (follows w) w.
Proof.
  intros Hs (Vp & Vo & Ho & Hne). eapply wp_step; [apply run_primary_probed| |].
  - intros [] w1 Hp. assert (stays w w1 → wp (run_oob env cfg (active_address (w_fo w)) now (primary_ip (w_fo w)) oob job j) (follows w) w1) as Hst.
    { intros S1. pose proof (run_oob_stays (active_address (w_fo w)) now (primary_ip (w_fo w)) oob job j w1) as S2. unfold wp.
      destruct (run_oob env cfg _ now _ oob job j w1) as [[[]|e] w2]; cbn in *.
      - eapply stays_synced; [exact S2|]. by eapply stays_synced.
      - destruct S1 as [E1 _], S2 as [E2 _]. congruence. }
    destruct Hp as [[_ S]|(p & Ep & [S|([P1 O1] & N1 & M1)])]; [by apply Hst|by apply Hst|].
    unfold run_oob. apply wp_get. rewrite (bool_decide_eq_false_2 _ N1). destruct oob as [o|]; cbn [andb].
    all: unfold wp; cbn; eapply switched_synced; rewrite ?P1, ?O1; eauto.
  - intros e w1 [[_ S]|(p & _ & P1)]; [apply S|exact P1].
Qed.

Definition primary_due (fo : DeviceFailover) (now : Z) : bool := is_set (primary_ip fo) && due (next_primary_probe_at fo) now.

(** A tick that reads NSO's address before it probes. *)
Definition heals (now : Z) (w : World) : Prop :=
  primary_due (w_fo w) now = true ∧ invalid_stored_address_fields (w_fo w) = (false, false) ∧ (reconcile_active_address env w).1 = Ok true.

Lemma reconcile_known w r : managed w r → rp_fault (env (length (w_trace w))) = None → (reconcile_active_address env w).1 = Ok true.
Proof.
  intros (s & a & Hs & Ha & Hr) Hf. unfold reconcile_active_address, read_address, get_address, except_, answer, mbind, io_bind. cbn.
  rewrite Hf. cbn. rewrite Hs. cbn. rewrite Ha. cbn.
  assert (primary_ip (clear_unreadable (w_fo w)) = primary_ip (w_fo w) ∧ oob_ip (clear_unreadable (w_fo w)) = oob_ip (w_fo w))
    as [E1 E2] by (unfold clear_unreadable; by case_bool_decide).
  rewrite (role_same (w_fo w) (clear_unreadable (w_fo w)) a E1 E2), Hr. cbn. by case_bool_decide.
Qed.

Lemma tick_follows now job j w : wp (run_failover_tick env cfg now job j) (fun r w' =>
  match r with Ok _ => synced w ∨ heals now w → synced w' | Raise _ => w_address w' = w_address w end) w.
Proof.
  assert (∀ (m : io unit) w1, along stays m → stays w w1 → ¬ heals now w →
    wp m (fun r w' => match r with Ok _ => synced w ∨ heals now w → synced w' | Raise _ => w_address w' = w_address w end) w1) as Hst.
  { intros m w1 Hm S1 Hh. specialize (Hm w1). unfold wp. destruct (m w1) as [[[]|e] w2]; cbn in *.
    - intros [Hs|?]; [|done]. eapply stays_synced; [exact Hm|]. by eapply stays_synced.
    - destruct S1 as [<- _]. apply Hm. }
  unfold run_failover_tick. apply wp_get. destruct (invalid_stored_address_fields (w_fo w)) as [bp bo] eqn:Ei.
  assert (bp || bo = true → ¬ heals now w) as Hbad by (intros Hb (_ & E & _); rewrite Ei in E; injection E as -> ->; done).
  unfold invalid_stored_address_fields in Ei. injection Ei as Ep Eo. destruct (bp || bo) eqn:Eb; [apply Hst; [along|done|auto]|].
  apply orb_false_iff in Eb as [-> ->]. apply negb_false_iff in Ep, Eo.
  destruct (stored_failover_address (primary_ip (w_fo w))) as [pa|] eqn:Epa; [|done]. apply wp_res. cbn [continue].
  destruct (stored_failover_address (oob_ip (w_fo w))) as [oa|] eqn:Eoa; [|done]. apply wp_res. cbn [continue]. cbv zeta.
  set (oob := if bool_decide (oa = pa) then None else oob_ip (w_fo w)).
  destruct (negb _ && negb _) eqn:Eset.
  { apply Hst; [along|done|]. intros (Hd & _). unfold primary_due in Hd. by destruct (is_set (primary_ip (w_fo w))). }
  destruct (_ || _ || _) eqn:Edue.
  2: { apply Hst; [along|done|]. intros (Hd & _). unfold primary_due in Hd. by rewrite Hd in Edue. }
  eapply wp_step with (P := fun r w1 => stays w w1 ∧ (r = Ok true → synced w1) ∧ (heals now w → r = Ok true)).
  { destruct (reconcile_follows w) as [S1 K1]. split; [done|]. split; [done|]. by intros (_ & _ & ?). }
  2: { intros e w1 [S1 _]. apply S1. }
  intros known w1 (S1 & K1 & Hh). destruct known; [|apply Hst; [along|done|intros Hx; by specialize (Hh Hx)]]. specialize (K1 eq_refl). apply wp_get.
  eapply wp_step with (P := fun r w2 => stays w1 w2 ∧ is_ok r = true ∧ active_address (w_fo w2) = active_address (w_fo w1)).
  { unfold wp, when_. destruct (bool_decide _ && bool_decide _); [|split; [apply along_ret|done]].
    assert (along stays (_ ← arm_primary env cfg now j; upd (set_next_oob (Some now)))) as Ha by along.
    split; [apply Ha|]. unfold arm_primary, next_due. by destruct j. }
  2: { intros e w2 (_ & ? & _). done. }
  intros [] w2 (S2 & _ & R2).
  assert (primary_ip (w_fo w) = primary_ip (w_fo w2)) as EP by (destruct S1 as (_ & [? ?] & _), S2 as (_ & [? ?] & _); congruence).
  assert (oob_ip (w_fo w) = oob_ip (w_fo w2)) as EO by (destruct S1 as (_ & [? ?] & _), S2 as (_ & [? ?] & _); congruence).
  rewrite <-R2, EP. eapply wp_wand; [apply probes_follow; [by eapply stays_synced|]|].
  - rewrite EP in Epa. rewrite EO in Eoa. unfold usable. rewrite Epa, Eoa. split_and!; [done..| |]; unfold oob; case_bool_decide; try done.
    + intros o <-. by rewrite EO.
    + intros _. congruence.
  - intros [[]|e] w3; cbn; [done|]. intros ->. destruct S2 as [-> _]. by destruct S1 as [-> _].
Qed.

Lemma committed_synced now job j w : synced w → synced (committed_tick env cfg now job j w).
Proof.
  intros Hs. pose proof (tick_follows now job j w) as Ht. unfold wp in Ht. unfold committed_tick.
  destruct (run_failover_tick env cfg now job j w) as [[[]|e] w1]; cbn in *; [auto|]. by apply (managed_same w).
Qed.

(** The stored role follows NSO.  As long as no address write fails and no tick is cancelled - and whatever else fails -, a row
    whose role names the address NSO dials stays so through a committed or rolled back tick; and a row whose role is wrong, for one
    after a crash between NSO's change and the commit, is corrected by the next tick with a due primary probe that can read one
    of the device's two addresses from NSO. *)
Theorem role_follows_nso now job j w :
  let w' := committed_tick env cfg now job j w in
  (synced w → synced w') ∧
  (∀ r, managed w r → primary_due (w_fo w) now = true → invalid_stored_address_fields (w_fo w) = (false, false) →
   rp_fault (env (length (w_trace w))) = None → (run_failover_tick env cfg now job j w).1 = Ok tt → synced w').
Proof.
  cbv zeta. split; [apply committed_synced|]. intros r Hm Hd Hv Hf Hok. pose proof (tick_follows now job j w) as Ht.
  unfold wp in Ht. unfold committed_tick. destruct (run_failover_tick env cfg now job j w) as [[[]|e] w1]; cbn in *; [|done].
  apply Ht. right. split_and!; [done..|]. by eapply reconcile_known.
Qed.
End Follows.
