(* ===== verification/FailoverSpec.v ===== *)
(** * Failover: the sliding-window specification

    The hysteresis counters of a device are an implementation of a window over the outcomes of the primary probe: the device
    leaves its primary after [failure_threshold] failures in a row and returns after [success_threshold] successes in a row,
    counted from the moment it took its role.  A tick with a due primary probe, on a responsive NSO, simulates one step of
    that specification. *)

From stdpp Require Import base gmap list strings.
From Stdlib Require Import ZArith NArith Lia.
From S2P Require Import Prelude Json Text Ip Registry Document Store Generation Claim Failover FailoverProps.
Local Open Scope py_scope.
Local Open Scope Z_scope.

(** ** The specification *)

(** The role and the outcomes of the primary probe since it was taken, latest first. *)
Record Window := mkWindow { win_role : ActiveAddress; win_history : list bool }.

(** The last [n] outcomes exist and all satisfy [f]. *)
Definition window (f : bool -> bool) (n : nat) (h : list bool) : bool := (n <=? length h)%nat && forallb f (take n h).

Definition window_step (has_oob : bool) (fail_after return_after : nat) (reached : bool) (st : Window) : Window :=
  let h := reached :: win_history st in
  match win_role st with
  | on_primary => if has_oob && window negb fail_after h then mkWindow on_oob [] else mkWindow on_primary h
  | on_oob => if window id return_after h then mkWindow on_primary [] else mkWindow on_oob h
  end.

(** ** Counters against windows *)

Fixpoint leading (f : bool -> bool) (h : list bool) : nat :=
  match h with x :: h' => if f x then S (leading f h') else O | [] => O end.

Lemma window_leading f n h : window f n h = (n <=? leading f h)%nat.
Proof.
  unfold window. revert n. induction h as [|x h IH]; intros [|n]; cbn; [done..|]. destruct (f x); cbn; [apply IH|].
  by rewrite andb_false_r.
Qed.

(** The counters of a row represent a window. *)
Definition counts (has_oob : bool) (fail_after return_after : Z) (st : Window) (fo : DeviceFailover) : Prop :=
  active_address fo = win_role st ∧
  match win_role st with
  | on_primary => consecutive_failures fo = Z.of_nat (leading negb (win_history st)) ∧
                  (has_oob = true → consecutive_failures fo < fail_after)
  | on_oob => consecutive_successes fo = Z.of_nat (leading id (win_history st)) ∧ consecutive_successes fo < return_after
  end.

(** One evaluation of the counters, by role. *)
Definition counter_step (has_oob : bool) (fail_after return_after : Z) (reached : bool) (fo : DeviceFailover) : ActiveAddress * Z * Z :=
  match active_address fo with
  | on_primary => let s := step_failover reached (consecutive_failures fo) has_oob fail_after in
                  if act s then (on_oob, 0, 0) else (on_primary, failures s, successes s)
  | on_oob => let s := step_failback reached (consecutive_successes fo) return_after in
              if act s then (on_primary, 0, 0) else (on_oob, failures s, successes s)
  end.
Definition counters (fo : DeviceFailover) : ActiveAddress * Z * Z :=
  (active_address fo, consecutive_failures fo, consecutive_successes fo).

(** The counters implement the window. *)
Lemma counters_implement_window has_oob m n reached st fo fo' : 1 <= m → 1 <= n →
  counts has_oob m n st fo → counters fo' = counter_step has_oob m n reached fo →
  counts has_oob m n (window_step has_oob (Z.to_nat m) (Z.to_nat n) reached st) fo'.
Proof.
  intros Hm Hn [Hr Hc] Hs. unfold counter_step, counters in Hs. rewrite Hr in Hs. unfold window_step. rewrite !window_leading.
  destruct (win_role st).
  - destruct Hc as [Hf Hlt]. unfold step_failover in Hs. cbn [leading]. destruct reached; cbn [negb].
    + rewrite (proj2 (Nat.leb_gt _ 0)) by lia. rewrite andb_false_r. cbn in Hs. injection Hs as E1 E2 _.
      unfold counts. cbn. repeat split; [done|done|lia].
    + destruct has_oob; cbn [andb] in *.
      * destruct (Z.leb_spec m (consecutive_failures fo + 1)); cbn in Hs; injection Hs as E1 E2 E3.
        -- rewrite (proj2 (Nat.leb_le _ _)) by lia. unfold counts. cbn. repeat split; [done|done|lia].
        -- rewrite (proj2 (Nat.leb_gt _ _)) by lia. unfold counts. cbn. repeat split; [done|lia|lia].
      * cbn in Hs. injection Hs as E1 E2 _. unfold counts. cbn. repeat split; [done|lia|done].
  - destruct Hc as [Hf Hlt]. unfold step_failback in Hs. cbn [leading]. unfold id at 1. destruct reached.
    + destruct (Z.leb_spec n (consecutive_successes fo + 1)); cbn in Hs; injection Hs as E1 E2 E3.
      * rewrite (proj2 (Nat.leb_le _ _)) by lia. unfold counts. cbn. repeat split; [done|done|lia].
      * rewrite (proj2 (Nat.leb_gt _ _)) by lia. unfold counts. cbn. repeat split; [done|lia|lia].
    + rewrite (proj2 (Nat.leb_gt _ 0)) by lia. cbn in Hs. injection Hs as E1 _ E3. unfold counts. cbn. repeat split; [done|done|lia].
Qed.

(** ** A tick on a responsive NSO *)

(** [m] succeeds with [v] and leaves this row, address and budget. *)
Definition yields {A} (m : io A) (w : World) (v : A) (fo : DeviceFailover) (a : option pystr) (b : option Z) : Prop :=
  ∃ tr, m w = (Ok v, mkWorld fo a tr b).

Lemma yields_bind {A B} (m : io A) (f : A -> io B) w x fo a b v fo' a' b' :
  yields m w x fo a b → (∀ tr, yields (f x) (mkWorld fo a tr b) v fo' a' b') → yields (m ≫= f) w v fo' a' b'.
Proof. intros [tr E] H. unfold yields, mbind, io_bind. rewrite E. apply H. Qed.

(** [m] succeeds and its result and world satisfy [Q]. *)
Definition total {A} (m : io A) (Q : A -> World -> Prop) (w : World) : Prop := ∃ v w', m w = (Ok v, w') ∧ Q v w'.

Lemma total_bind {A B} (m : io A) (f : A -> io B) P Q w :
  total m P w → (∀ v w', P v w' → total (f v) Q w') → total (m ≫= f) Q w.
Proof. intros (v & w' & E & HP) H. destruct (H v w' HP) as (u & w'' & E' & HQ). exists u, w''. unfold mbind, io_bind. by rewrite E. Qed.
Lemma total_then {A B} (m : io A) (f : A -> io B) Q w x fo a b :
  yields m w x fo a b → (∀ tr, total (f x) Q (mkWorld fo a tr b)) → total (m ≫= f) Q w.
Proof. intros [tr E] H. destruct (H tr) as (u & w'' & E' & HQ). exists u, w''. unfold mbind, io_bind. by rewrite E. Qed.
Lemma total_last {A} (m : io A) (Q : A -> World -> Prop) w x fo a b :
  yields m w x fo a b → (∀ tr, Q x (mkWorld fo a tr b)) → total m Q w.
Proof. intros [tr E] H. exists x, (mkWorld fo a tr b). auto. Qed.
Lemma total_ret {A} (v : A) (Q : A -> World -> Prop) w : Q v w → total (mret v) Q w.
Proof. intros HQ. by exists v, w. Qed.
Lemma total_wand {A} (m : io A) (P Q : A -> World -> Prop) w : total m P w → (∀ v w', P v w' → Q v w') → total m Q w.
Proof. intros (v & w' & E & HP) H. exists v, w'. auto. Qed.

Lemma yields_self {A} (m : io A) w v : m w = (Ok v, w) → yields m w v (w_fo w) (w_address w) (w_budget w).
Proof. intros E. exists (w_trace w). rewrite E. by destruct w. Qed.

Section Responsive.
Context {addr : Type} `{IpAddressing addr}.
Context (env : nat -> Reply) (cfg : EffectiveFailoverConfig).
Context (no_fault : ∀ i, rp_fault (env i) = None) (no_set_fault : ∀ i, rp_set_fault (env i) = None).
Implicit Types (w : World) (fo : DeviceFailover).

Lemma yields_probe t fo a tr b :
  yields (probe_reachable env t) (mkWorld fo a tr b) (rp_probe (env (length tr)) a) fo a b.
Proof. unfold yields, probe_reachable, answer, mbind, io_bind. cbn. rewrite no_fault. cbn. eauto. Qed.

Lemma yields_read fo s x tr b : ip_address s = Some x →
  yields (read_address env) (mkWorld fo (Some s) tr b) (Some (s, x)) fo (Some s) b.
Proof.
  intros Hx. unfold yields, read_address, get_address, except_, answer, mbind, io_bind. cbn. rewrite no_fault. cbn. rewrite Hx. cbn. eauto.
Qed.

Lemma yields_set s fo a tr b : yields (set_address env s) (mkWorld fo a tr b) true fo (Some s) b.
Proof.
  unfold yields, set_address, nso_set_address, safe_disconnect, disconnect, except_, answer, mbind, io_bind. cbn.
  rewrite no_set_fault. cbn. rewrite no_fault. cbn. eauto.
Qed.

Lemma yields_sync fo a tr b : yields (safe_sync_from env) (mkWorld fo a tr b) tt fo a b.
Proof. unfold yields, safe_sync_from, nso_sync_from, except_, answer, mbind, io_bind. cbn. rewrite no_fault. cbn. eauto. Qed.

Lemma yields_upd f fo a tr b : yields (upd f) (mkWorld fo a tr b) tt (f fo) a b.
Proof. unfold yields, upd. cbn. eauto. Qed.

Lemma yields_get fo a tr b : yields get_fo (mkWorld fo a tr b) fo fo a b.
Proof. by exists tr. Qed.

Lemma yields_ret {A} (v : A) fo a tr b : yields (mret v) (mkWorld fo a tr b) v fo a b.
Proof. by exists tr. Qed.

Lemma yields_flip fo a tr b : match b with Some n => 0 < n | None => True end →
  yields take_flip (mkWorld fo a tr b) true fo a (option_map (fun n => n - 1) b).
Proof. unfold yields, take_flip. cbn. destruct b as [n|]; cbn; [|eauto]. intros Hn. destruct (Z.leb_spec n 0); [lia|]. eauto. Qed.

Lemma yields_next_due now i j fo a tr b : ∃ t, yields (next_due env now i j) (mkWorld fo a tr b) t fo a b.
Proof. unfold yields, next_due, mbind, io_bind. destruct j; cbn; eauto. Qed.

(** A row whose role NSO confirms is kept, override and unreadable marks aside. *)
Definition confirmed fo : DeviceFailover := set_override false (clear_unreadable fo).

Lemma yields_reconcile fo s x tr b : ip_address s = Some x → managed_address_role fo x = Ok (Some (active_address fo)) →
  yields (reconcile_active_address env) (mkWorld fo (Some s) tr b) true (confirmed fo) (Some s) b.
Proof.
  intros Hx Hr. unfold reconcile_active_address. eapply yields_bind; [by apply yields_read|]. intros tr1. cbv beta iota.
  eapply yields_bind; [apply yields_upd|]. intros tr2. eapply yields_bind; [apply yields_self; reflexivity|]. intros tr3. cbn.
  assert (managed_address_role (clear_unreadable fo) x = Ok (Some (active_address (clear_unreadable fo)))) as ->.
  { unfold clear_unreadable. by case_bool_decide. }
  eapply yields_bind; [apply yields_self; reflexivity|]. intros tr4. cbn. eapply yields_bind; [apply yields_upd|]. intros tr5.
  rewrite bool_decide_eq_true_2 by done. eapply yields_bind; [apply yields_self; reflexivity|]. intros tr6. cbn. by exists tr6.
Qed.

Lemma confirmed_counters fo : counters (confirmed fo) = counters fo.
Proof. unfold confirmed, clear_unreadable. by case_bool_decide. Qed.
Lemma confirmed_role fo x : managed_address_role (confirmed fo) x = managed_address_role fo x.
Proof. apply role_same; unfold confirmed, clear_unreadable; by case_bool_decide. Qed.
Lemma confirmed_active fo : active_address (confirmed fo) = active_address fo.
Proof. unfold confirmed, clear_unreadable. by case_bool_decide. Qed.

Definition budgeted (b : option Z) : Prop := match b with Some n => 0 < n | None => True end.
#[local] Instance budgeted_dec b : Decision (budgeted b).
Proof. destruct b; cbn; apply _. Defined.
Definition step_of (has_oob reached : bool) fo : ActiveAddress * Z * Z :=
  counter_step has_oob (failover_failure_threshold cfg) (failover_success_threshold cfg) reached fo.

(** The outcome of a due primary probe of the row [fo] while NSO dials [s]. *)
Definition probed_to (c : ActiveAddress * Z * Z) fo (s : pystr) (w' : World) : Prop :=
  counters (w_fo w') = c ∧ primary_ip (w_fo w') = primary_ip fo ∧ oob_ip (w_fo w') = oob_ip fo ∧
  (active_address (w_fo w') = active_address fo → w_address w' = Some s).

Tactic Notation "run" uconstr(L) := eapply total_then; [by eapply L|intros ?tr; cbv beta iota zeta; cbn [w_fo w_address w_budget]].

Lemma active_step now oob fo s x tr b reached :
  ip_address s = Some x → managed_address_role fo x = Ok (Some on_primary) → active_address fo = on_primary → budgeted b →
  (∀ i, probe_reached (rp_probe (env i) (Some s)) = reached) →
  total (active_primary_probe env cfg now oob false)
    (fun _ w' => probed_to (step_of (bool_decide (oob ≠ None)) reached fo) fo s w') (mkWorld fo (Some s) tr b).
Proof.
  intros Hx Hr Ha Hb Hreach. unfold active_primary_probe. run yields_probe. run yields_upd. run yields_get. rewrite Hreach.
  change (consecutive_failures (record_probe _ _ _ fo)) with (consecutive_failures fo).
  unfold step_of, counter_step. rewrite Ha. set (st := step_failover _ _ _ _). run yields_upd. set (fo1 := set_counters _ _ _).
  destruct (act st) eqn:Eact.
  2: { apply total_ret. unfold probed_to, counters, fo1. cbn. by rewrite Ha. }
  destruct oob as [o|].
  2: { unfold st, step_failover in Eact. destruct reached; [done|]. by rewrite bool_decide_eq_false_2 in Eact by auto. }
  assert (managed_address_role fo1 x = Ok (Some (active_address fo1))) as Hr1 by (unfold fo1; cbn; rewrite Ha; done).
  unfold switch_if_ready. run yields_reconcile. run yields_get.
  rewrite bool_decide_eq_false_2 by (rewrite confirmed_active; unfold fo1; cbn; rewrite Ha; tauto).
  run yields_flip. run yields_upd. eapply total_bind with (P := fun _ w' => probed_to (on_oob, 0, 0) fo s w'); [|intros; by apply total_ret].
  unfold switch_to_oob. run yields_set. run yields_upd. set (fo2 := set_next_oob _ _).
  assert (counters fo2 = (on_oob, 0, 0) ∧ primary_ip fo2 = primary_ip fo ∧ oob_ip fo2 = oob_ip fo) as (E1 & E2 & E3)
    by (unfold fo2, confirmed, clear_unreadable, fo1; case_bool_decide; done).
  assert (active_address fo2 = on_oob) as E4 by (unfold counters in E1; congruence).
  destruct (failover_sync_from_after_switch cfg).
  - eapply total_last; [apply yields_sync|]. intros tr'. repeat split; [done..|]. cbn. congruence.
  - apply total_ret. repeat split; [done..|]. cbn. congruence.
Qed.

(** The decision of a failback probe; [c]: committed. *)
Lemma decision_step now p fo tr b reached : active_address fo = on_oob →
  (∀ i, probe_reached (rp_probe (env i) (Some p)) = reached) →
  total (failback_decision env cfg now) (fun c w' => w_address w' = Some p ∧ counters (w_fo w') = step_of true reached fo ∧
    primary_ip (w_fo w') = primary_ip fo ∧ oob_ip (w_fo w') = oob_ip fo ∧
    (c = false → active_address (w_fo w') = on_oob) ∧ (c = true → active_address (w_fo w') = on_primary)) (mkWorld fo (Some p) tr b).
Proof.
  intros Ha Hreach. unfold failback_decision. run yields_probe. run yields_upd. run yields_get. rewrite Hreach.
  change (consecutive_successes (record_probe _ _ _ fo)) with (consecutive_successes fo).
  unfold step_of, counter_step. rewrite Ha. set (st := step_failback _ _ _). run yields_upd. destruct (act st).
  - eapply total_bind with (P := fun _ w' => w_address w' = Some p ∧ counters (w_fo w') = (on_primary, 0, 0) ∧
      primary_ip (w_fo w') = primary_ip fo ∧ oob_ip (w_fo w') = oob_ip fo).
    + unfold commit_failback, next_due. run yields_ret. run yields_upd.
      match goal with |- total _ _ (mkWorld ?f _ _ _) => set (fo1 := f) end. destruct (failover_sync_from_after_switch cfg).
      * eapply total_last; [apply yields_sync|]. done.
      * by apply total_ret.
    + intros [] w' (A' & C' & P' & O'). apply total_ret. unfold counters in *. split_and!; try done; congruence.
  - apply total_ret. unfold counters. cbn. rewrite Ha. done.
Qed.

Lemma total_flip {A} s (body : io A) keep (Q : A -> World -> Prop) w :
  total body (fun v w' => Q v (if (keep v : bool) then mkWorld (w_fo w') (Some s) (w_trace w') (w_budget w') else w')) w →
  (∀ v w' tr, Q v w' → Q v (mkWorld (w_fo w') (w_address w') tr (w_budget w'))) →
  total (finally body keep (revert_address env s)) Q w.
Proof.
  intros (v & w' & E & HQ) Htr. unfold total, finally. rewrite E. destruct (keep v); [|by exists v, w'].
  unfold revert_address, except_, mbind, io_bind. destruct w' as [f a t b]. destruct (yields_set s f a t b) as [tr' ->]. cbn.
  exists v. eexists. split; [done|]. by apply (Htr v _ tr') in HQ.
Qed.

Lemma failback_step now p fo s x tr b reached :
  ip_address s = Some x → managed_address_role fo x = Ok (Some on_oob) → active_address fo = on_oob → budgeted b →
  (∀ i, probe_reached (rp_probe (env i) (Some p)) = reached) →
  total (failback_flip_probe env cfg now p false) (fun _ w' => probed_to (step_of true reached fo) fo s w') (mkWorld fo (Some s) tr b).
Proof.
  intros Hx Hr Ha Hb Hreach. unfold failback_flip_probe. run yields_read. run yields_upd. run yields_get.
  assert (managed_address_role (clear_unreadable fo) x = Ok (Some on_oob)) as Hr' by (unfold clear_unreadable; by case_bool_decide).
  rewrite Hr'. eapply total_then; [by exists tr2|]. intros tr3. cbv beta iota. run yields_flip. run yields_upd. run yields_set.
  fold (confirmed fo). assert (active_address (confirmed fo) = on_oob) as Hca by by rewrite confirmed_active.
  assert (step_of true reached (confirmed fo) = step_of true reached fo) as Hcs.
  { unfold step_of, counter_step. rewrite Hca, Ha. do 2 f_equal. unfold confirmed, clear_unreadable. by case_bool_decide. }
  assert (primary_ip (confirmed fo) = primary_ip fo ∧ oob_ip (confirmed fo) = oob_ip fo) as [Hcp Hco]
    by (unfold confirmed, clear_unreadable; by case_bool_decide).
  eapply total_bind with (P := fun _ w' => probed_to (step_of true reached fo) fo s w'); [|intros; by apply total_ret].
  apply total_flip; [|done]. eapply total_wand; [by apply decision_step|]. cbv beta.
  intros c w' (A' & C' & P' & O' & Hno & Hyes). rewrite Hcs in C'. unfold probed_to. destruct c; cbn.
  - rewrite Ha, Hyes by done. split_and!; [done|congruence|congruence|done].
  - split_and!; [done|congruence|congruence|done].
Qed.

(** A due OOB probe leaves role, counters and addresses alone. *)
Lemma oob_step now primary o fo s x tr b :
  ip_address s = Some x → managed_address_role fo x = Ok (Some (active_address fo)) → (active_address fo = on_primary → is_Some primary) →
  total (probe_oob env cfg now primary o false) (fun _ w' => counters (w_fo w') = counters fo ∧ primary_ip (w_fo w') = primary_ip fo ∧
    oob_ip (w_fo w') = oob_ip fo) (mkWorld fo (Some s) tr b).
Proof.
  intros Hx Hr Hp. unfold probe_oob. run yields_get. case_bool_decide as Ha; [run yields_probe; run yields_upd; by apply total_ret|].
  destruct (Hp ltac:(by destruct (active_address fo))) as [p ->]. run yields_read. rewrite Hr.
  eapply total_then; [by eexists|]. intros tr2. cbv beta iota.
  destruct (decide (budgeted b)) as [Hb|Hb].
  - run yields_flip. run yields_upd. run yields_set. apply total_flip; [|done]. run yields_probe. run yields_upd. by apply total_ret.
  - destruct b as [n|]; [|done]. cbn in Hb. eapply total_then with (x := false); [|intros; by apply total_ret].
    unfold yields, take_flip. cbn. destruct (Z.leb_spec n 0); [by eexists|lia].
Qed.

Lemma arm_step (m : io unit) (Q : World -> Prop) b w : (m = arm_primary env cfg b true ∨ m = arm_primary env cfg b false) →
  (∀ t tr, Q (mkWorld (set_next_primary t (w_fo w)) (w_address w) tr (w_budget w))) → total m (fun _ w' => Q w') w.
Proof.
  intros Hm HQ. destruct w as [fo a tr bud].
  destruct Hm as [-> | ->]; unfold arm_primary, next_due, total, mbind, io_bind; cbn; eexists _, _; (split; [done|]); apply HQ.
Qed.

(** The OOB address a tick may switch to. *)
Definition fallback fo : option pystr :=
  if bool_decide (stored_failover_address (oob_ip fo) = stored_failover_address (primary_ip fo)) then None else oob_ip fo.
Definition has_fallback fo : bool := bool_decide (fallback fo ≠ None).

(** The primary answers probes with [reached], whatever text NSO holds for it. *)
Definition primary_answers fo (reached : bool) : Prop :=
  ∀ i s, (∃ p, primary_ip fo = Some p ∧ ip_address s = ip_address p) → probe_reached (rp_probe (env i) (Some s)) = reached.

Definition ready fo now : Prop :=
  invalid_stored_address_fields fo = (false, false) ∧ primary_due fo now = true.

Lemma managed_primary fo x : managed_address_role fo x = Ok (Some on_primary) → ∃ p, primary_ip fo = Some p ∧ ip_address p = Some x.
Proof.
  unfold managed_address_role, stored_failover_address. destruct (primary_ip fo) as [p|].
  - destruct (ip_address p) as [y|] eqn:Ey; unfold_res; [|done]. case_bool_decide as E; [intros _; exists p; split; congruence|].
    destruct (oob_ip fo) as [o|]; [destruct (ip_address o)|]; [|done|]; case_bool_decide; congruence.
  - unfold_res. case_bool_decide; [congruence|]. destruct (oob_ip fo) as [o|]; [destruct (ip_address o)|]; [|done|]; case_bool_decide; congruence.
Qed.

Lemma primary_step now fo s x tr b reached j p :
  ip_address s = Some x → managed_address_role fo x = Ok (Some (active_address fo)) → budgeted b → ready fo now →
  primary_ip fo = Some p → primary_answers fo reached →
  total (run_primary env cfg now (primary_ip fo) (fallback fo) false j)
    (fun _ w' => probed_to (step_of (has_fallback fo) reached fo) fo s w') (mkWorld fo (Some s) tr b).
Proof.
  intros Hx Hr Hb [_ Hd] Hp Hans. unfold run_primary. run yields_get. rewrite Hp. unfold primary_due in Hd.
  apply andb_true_iff in Hd as [_ ->].
  assert (total (probe_primary env cfg now p (fallback fo) false)
    (fun _ w' => probed_to (step_of (has_fallback fo) reached fo) fo s w') (mkWorld fo (Some s) tr0 b)) as Hpp.
  { unfold probe_primary. run yields_get. destruct (active_address fo) eqn:Ea.
    - rewrite bool_decide_eq_true_2 by done. destruct (managed_primary fo x Hr) as (p' & Hp' & Hpx).
      apply (active_step now (fallback fo) fo s x _ b reached); [done..|]. intros i. apply Hans. exists p'. split; [done|]. congruence.
    - rewrite bool_decide_eq_false_2 by done. eapply total_wand; [apply (failback_step now p fo s x _ b reached); [done..|]|].
      + intros i. apply Hans. by exists p.
      + cbv beta. unfold step_of, counter_step. rewrite Ea. done. }
  eapply total_bind; [exact Hpp|]. cbv beta. intros ran w1 P1. unfold when_. destruct ran; [|by apply total_ret].
  apply (arm_step _ _ now); [destruct j; auto|]. done.
Qed.

(** The OOB probe that may follow keeps what the primary probe left. *)
Lemma run_oob_step now primary oob c fo s x w j :
  probed_to c fo s w → ip_address s = Some x → managed_address_role fo x = Ok (Some (active_address fo)) →
  (active_address fo = on_primary → is_Some primary) →
  total (run_oob env cfg (active_address fo) now primary oob false j)
    (fun _ w' => counters (w_fo w') = c ∧ primary_ip (w_fo w') = primary_ip fo ∧ oob_ip (w_fo w') = oob_ip fo) w.
Proof.
  intros (C & P & O & A) Hx Hr Hp. destruct w as [f a tr b]. cbn in *. unfold run_oob. run yields_get.
  destruct oob as [o|]; [|by apply total_ret]. case_bool_decide as Ha; cbn [andb]; [|by apply total_ret].
  destruct (due _ _); [|by apply total_ret]. rewrite (A Ha).
  eapply total_bind with (P := fun _ w' => counters (w_fo w') = c ∧ primary_ip (w_fo w') = primary_ip fo ∧ oob_ip (w_fo w') = oob_ip fo).
  - eapply total_wand; [apply (oob_step now primary o f s x)|].
    + done.
    + rewrite (role_same fo f x P O), Ha. done.
    + by rewrite Ha.
    + cbv beta. intros _ w' (C' & P' & O'). split_and!; congruence.
  - cbv beta. intros ran [f' a' tr' b'] H'. cbn in H'. unfold when_. destruct ran; [|by apply total_ret].
    unfold arm_oob. run yields_get. match goal with |- total _ _ (mkWorld _ _ ?t _) =>
      destruct (yields_next_due now (oob_probe_interval cfg f') j f' a' t b') as [u Hu] end. run Hu.
    eapply total_last; [apply yields_upd|]. done.
Qed.

(** One tick simulates one step of the counters. *)
Lemma tick_step now fo s x tr b reached j :
  ip_address s = Some x → managed_address_role fo x = Ok (Some (active_address fo)) → budgeted b → ready fo now →
  primary_answers fo reached →
  total (run_failover_tick env cfg now false j)
    (fun _ w' => counters (w_fo w') = step_of (has_fallback fo) reached fo ∧ primary_ip (w_fo w') = primary_ip fo ∧ oob_ip (w_fo w') = oob_ip fo)
    (mkWorld fo (Some s) tr b).
Proof.
  intros Hx Hr Hb Hrd Hans. pose proof Hrd as [Hv Hd]. unfold run_failover_tick. run yields_get. rewrite Hv. cbn [orb].
  unfold invalid_stored_address_fields in Hv. injection Hv as Vp Vo. apply negb_false_iff in Vp, Vo.
  unfold primary_due in Hd. destruct (primary_ip fo) as [p|] eqn:Hp; [|done].
  assert (fallback fo = if bool_decide (stored_failover_address (oob_ip fo) = stored_failover_address (Some p)) then None else oob_ip fo)
    as Hfb by (unfold fallback; by rewrite Hp).
  destruct (stored_failover_address (Some p)) as [pa|] eqn:Epa; [|done].
  destruct (stored_failover_address (oob_ip fo)) as [oa|] eqn:Eoa; [|done].
  eapply total_then; [by eexists|]. intros tr1. cbv beta. eapply total_then; [by eexists|]. intros tr2. cbv beta zeta.
  assert ((if bool_decide (oa = pa) then None else oob_ip fo) = fallback fo) as ->.
  { rewrite Hfb. do 2 case_bool_decide; congruence. }
  cbn [is_set negb andb] in Hd |- *. rewrite Hd. cbn [orb]. run yields_reconcile. run yields_get. set (cf := confirmed fo).
  assert (primary_ip cf = primary_ip fo ∧ oob_ip cf = oob_ip fo ∧ active_address cf = active_address fo ∧ consecutive_failures cf = consecutive_failures fo ∧
    consecutive_successes cf = consecutive_successes fo ∧ next_primary_probe_at cf = next_primary_probe_at fo) as (CP & CO & CA & CX & CY & CN)
    by (clear; unfold cf, confirmed, clear_unreadable; case_bool_decide; repeat split).
  rewrite (bool_decide_eq_false_2 (active_address fo ≠ active_address cf)) by (rewrite CA; tauto). cbn [andb when_].
  eapply total_then; [apply yields_ret|]. intros tr5. cbv beta.
  assert (fallback cf = fallback fo) as CF by (unfold fallback; by rewrite CP, CO).
  assert (step_of (has_fallback cf) reached cf = step_of (has_fallback fo) reached fo) as CS.
  { unfold step_of, counter_step, has_fallback. by rewrite CF, CA, CX, CY. }
  assert (managed_address_role cf x = Ok (Some (active_address cf))) as CR by (rewrite (role_same fo cf x CP CO), CA; done).
  assert (ready cf now) as CRd.
  { unfold ready, invalid_stored_address_fields, primary_due in *. rewrite CP, CO, CN, Hp. split; [|by rewrite Hp in Hrd; apply Hrd].
    by rewrite Epa, Eoa. }
  assert (primary_ip cf = Some p) as Hcp by congruence.
  assert (primary_answers cf reached) as CAns by (intros i s' (p' & Hp' & E'); apply Hans; exists p'; split; congruence).
  rewrite <-CF, <-Hcp. eapply total_bind; [by apply (primary_step now cf s x tr5 b reached j p)|]. cbv beta. intros [] w' Hpr. rewrite CS in Hpr.
  eapply total_wand; [apply (run_oob_step now _ _ _ cf s x w' j Hpr); [done|done|by rewrite Hcp]|]. cbv beta.
  intros _ w'' (C' & P' & O'). split_and!; congruence.
Qed.
End Responsive.

(** ** Refinement *)

Section Refinement.
Context {addr : Type} `{IpAddressing addr}.
Context (cfg : EffectiveFailoverConfig).

(** Ticks of the scheduler on a responsive NSO with a due primary probe, no job and budget left; [l] lists whether the
    primary answered.  Each tick starts with a budget of its own. *)
Inductive ticks : list bool -> World -> World -> Prop :=
| ticks_nil w : ticks [] w w
| ticks_cons env now j reached b l w w' :
    (∀ i, rp_fault (env i) = None) → (∀ i, rp_set_fault (env i) = None) → budgeted b →
    ready (w_fo w) now → primary_answers env (w_fo w) reached →
    ticks l (committed_tick env cfg now false j (mkWorld (w_fo w) (w_address w) [] b)) w' →
    ticks (reached :: l) w w'.

End Refinement.
