(* ===== verification/FailoverIngest.v ===== *)
(** * Failover: address reports

    [upsert_failover_ips] against what a report promises: the address NSO dials is never taken away, stored addresses become
    canonical and valid, and repeating a report changes nothing. *)

From stdpp Require Import base gmap list strings.
From Stdlib Require Import ZArith NArith Lia.
From S2P Require Import Prelude Json Text Ip Registry Document Store Generation Claim Failover.
Local Open Scope py_scope.
Local Open Scope Z_scope.

Section Ingest.
Context {addr : Type} `{IpAddressing addr}.
Implicit Types (fo : DeviceFailover) (a : option addr).

(** An address that some text denotes; its own text denotes it again. *)
Definition denoted a : Prop := ∃ s, stored_failover_address s = Ok a.

Lemma canonical_text a : denoted a → stored_failover_address (ip_str <$> a) = Ok a.
Proof.
  intros [[s|] Hs]; unfold stored_failover_address in *; [|injection Hs as <-; done].
  destruct (ip_address s) as [x|] eqn:E; [|done]. injection Hs as <-. cbn. by rewrite (ip_str_parse s x E).
Qed.

Lemma stored_address_denoted ip : denoted (stored_address ip).
Proof. unfold stored_address. destruct (stored_failover_address ip) as [a|] eqn:E; [by exists ip|by exists None]. Qed.

Lemma conflict_mark_keeps c fo : active_address (conflict_mark c fo).2 = active_address fo ∧
  primary_ip (conflict_mark c fo).2 = primary_ip fo ∧ oob_ip (conflict_mark c fo).2 = oob_ip fo.
Proof. unfold conflict_mark. destruct c; case_bool_decide; done. Qed.
Lemma accept_primary_keeps c ip now fo : active_address (accept_primary c ip now fo).2 = active_address fo ∧
  failback_blocked_reason (accept_primary c ip now fo).2 = failback_blocked_reason fo.
Proof. unfold accept_primary. destruct c; [destruct (truthy_ip ip)|]; done. Qed.
Lemma accept_oob_keeps c ip now fo : active_address (accept_oob c ip now fo).2 = active_address fo ∧
  failback_blocked_reason (accept_oob c ip now fo).2 = failback_blocked_reason fo.
Proof. unfold accept_oob. destruct c; [destruct (truthy_ip ip)|]; done. Qed.

(** The row a report leaves: canonical addresses, the role kept, the block reason settled. *)
Definition settled_reason (conflict : bool) fo : option Blocked :=
  if conflict then Some active_oob_address_conflict
  else match failback_blocked_reason fo with
       | Some active_oob_address_conflict | Some stored_address_invalid => None
       | r => r
       end.

Lemma ingest_spec fo pa oa now : denoted pa → denoted oa →
  let fo' := (ingest fo pa oa now).2 in
  let '(ap, ao) := accepted fo pa oa in
  denoted ap ∧ denoted ao ∧ primary_ip fo' = ip_str <$> ap ∧ oob_ip fo' = ip_str <$> ao ∧ active_address fo' = active_address fo ∧
  failback_blocked_reason fo' = settled_reason (conflicts fo pa oa) fo.
Proof.
  intros Dpa Doa. cbv zeta. unfold ingest. destruct (invalid_stored_address_fields fo) as [bp bo].
  destruct (accepted fo pa oa) as [ap ao] eqn:Eacc.
  assert (denoted ap ∧ denoted ao) as [Dp Do].
  { unfold accepted in Eacc. injection Eacc as <- <-. split; destruct (conflicts _ pa oa); cbn [andb]; repeat case_bool_decide;
      auto using stored_address_denoted. }
  destruct (conflict_mark (conflicts fo pa oa) fo) as [c1 f1] eqn:E1.
  destruct (accept_primary _ _ now f1) as [c2 f2] eqn:E2. destruct (accept_oob _ _ now f2) as [c3 f3] eqn:E3.
  destruct (conflict_mark_keeps (conflicts fo pa oa) fo) as (K1 & _). rewrite E1 in K1.
  match type of E2 with accept_primary ?c ?i ?n ?f = _ => destruct (accept_primary_keeps c i n f) as [K2 R2] end. rewrite E2 in K2, R2.
  match type of E3 with accept_oob ?c ?i ?n ?f = _ => destruct (accept_oob_keeps c i n f) as [K3 R3] end. rewrite E3 in K3, R3.
  unfold canonicalise. set (f4 := set_oob_ip _ _). cbn [snd] in *.
  assert (invalid_stored_address_fields f4 = (false, false)) as Hv by (unfold invalid_stored_address_fields, f4; cbn; by rewrite !canonical_text).
  assert (failback_blocked_reason f4 = failback_blocked_reason (conflict_mark (conflicts fo pa oa) fo).2) as Hr
    by (unfold f4; cbn; rewrite E1; cbn; congruence).
  assert (active_address f4 = active_address fo) as Ha by (unfold f4; cbn; congruence).
  assert (primary_ip f4 = ip_str <$> ap ∧ oob_ip f4 = ip_str <$> ao) as [Hp Ho] by done. clearbody f4. clear E1 E2 E3 K1 K2 K3 R2 R3.
  unfold lift_invalid. rewrite (bool_decide_eq_true_2 _ Hv), andb_true_r.
  assert (failback_blocked_reason f4 = if conflicts fo pa oa then Some active_oob_address_conflict else
    match failback_blocked_reason fo with Some active_oob_address_conflict => None | r => r end) as Hr'.
  { rewrite Hr. unfold conflict_mark. destruct (conflicts fo pa oa); case_bool_decide as Hc; cbn; try congruence; rewrite ?Hc; try done.
    destruct (failback_blocked_reason fo) as [[]|]; congruence. }
  unfold settled_reason. clear Hr. destruct (decide (failback_blocked_reason f4 = Some stored_address_invalid)) as [Hb|Hb];
    [rewrite (bool_decide_eq_true_2 _ Hb)|rewrite (bool_decide_eq_false_2 _ Hb)]; cbn [snd]; split_and!; try exact Dp; try exact Do; try (cbn; congruence).
  - cbn. rewrite Hr' in Hb. destruct (conflicts fo pa oa); [done|]. destruct (failback_blocked_reason fo) as [[]|]; congruence.
  - rewrite Hr' in Hb |- *. destruct (conflicts fo pa oa); [done|]. destruct (failback_blocked_reason fo) as [[]|]; congruence.
Qed.

(** Storing the same report again is the identity. *)
Lemma ingest_again fo pa oa now fo' :
  (active_address fo = on_primary ∨ pa ≠ oa) → let '(ap, ao) := accepted fo pa oa in
  stored_address (primary_ip fo') = ap → stored_address (oob_ip fo') = ao → primary_ip fo' = ip_str <$> ap → oob_ip fo' = ip_str <$> ao →
  active_address fo' = active_address fo → invalid_stored_address_fields (addr := addr) fo' = (false, false) →
  failback_blocked_reason fo' = settled_reason (conflicts fo pa oa) fo → ingest fo' pa oa now = (false, fo').
Proof.
  intros Hok. destruct (accepted fo pa oa) as [ap ao] eqn:Eacc. intros Sp So Ep Eo Ea Hv Er.
  assert (conflicts fo' pa oa = conflicts fo pa oa ∧ accepted fo' pa oa = (ap, ao)) as [Ec Eac].
  { unfold accepted in *. injection Eacc as Eap Eao. destruct (conflicts fo pa oa) eqn:Ec.
    - assert (conflicts fo' pa oa = true) as Ec'.
      { unfold conflicts in *. rewrite So, <-Eao, Ea. exact Ec. }
      rewrite Ec', So, Sp. split; [done|]. cbn [andb] in *. rewrite Eao in Eap. f_equal. case_bool_decide; done.
    - assert (conflicts fo' pa oa = false) as Ec'.
      { unfold conflicts in *. rewrite So, Ea, <-Eao. rewrite (bool_decide_eq_true_2 (oa = oa) eq_refl). cbn [negb orb].
        destruct Hok as [Hp|Hne]; [by rewrite Hp|]. rewrite (bool_decide_eq_false_2 _ Hne). by rewrite andb_false_r. }
      rewrite Ec'. split; [done|]. cbn [andb] in *. by rewrite Eap, Eao. }
  unfold ingest. rewrite Hv, Eac, Ec.
  assert (conflict_mark (conflicts fo pa oa) fo' = (false, fo')) as ->.
  { unfold conflict_mark. rewrite Er. unfold settled_reason. destruct (conflicts fo pa oa); [done|].
    destruct (failback_blocked_reason fo) as [[]|]; done. }
  rewrite Sp, So. rewrite !(bool_decide_eq_true_2 (_ = _)) by done. cbn [orb negb accept_primary accept_oob].
  unfold canonicalise. rewrite Ep, Eo, !(bool_decide_eq_true_2 (_ = _)) by done. cbn [orb negb].
  assert (set_oob_ip (ip_str <$> ao) (set_primary_ip (ip_str <$> ap) fo') = fo') as -> by (rewrite <-Ep, <-Eo; by destruct fo').
  unfold lift_invalid. rewrite (bool_decide_eq_false_2 (_ = Some stored_address_invalid)); [done|].
  rewrite Er. unfold settled_reason. destruct (conflicts fo pa oa); [done|]. by destruct (failback_blocked_reason fo) as [[]|].
Qed.

(** Address reports converge.  A stored report keeps the device's role; while the device runs on OOB with a readable OOB address, that
    address stays stored and is never taken over as the primary (unless both already were the same); the stored texts are valid and
    canonical; and repeating the report at any time changes nothing and says so - except when one address is reported for both
    roles of a device on OOB, which the second report marks as a conflict. *)
Theorem reported_addresses_converge existing primary oob now changed fo' :
  upsert_failover_ips existing primary oob now = Ok (changed, Some fo') →
  let fo := default new_failover existing in
  active_address fo' = active_address fo ∧ invalid_stored_address_fields (addr := addr) fo' = (false, false) ∧
  (∀ x : addr, active_address fo = on_oob → stored_address (oob_ip fo) = Some x →
    stored_address (oob_ip fo') = Some x ∧ (stored_address (primary_ip fo') = Some x → stored_address (primary_ip fo) = Some x)) ∧
  (active_address fo = on_primary ∨ stored_failover_address (addr := addr) primary ≠ stored_failover_address oob →
   ∀ now', upsert_failover_ips (Some fo') primary oob now' = Ok (false, Some fo')).
Proof.
  unfold upsert_failover_ips. intros (pa & Hpa & Hu)%bind_Ok. apply bind_Ok in Hu as (oa & Hoa & Hu). cbv zeta.
  rewrite Hpa, Hoa. set (fo := default new_failover existing) in *.
  assert (fo' = (ingest fo pa oa now).2) as E'.
  { destruct (ingest fo pa oa now) as [c f]. destruct existing, pa, oa; simplify_eq; done. }
  pose proof (ingest_spec fo pa oa now ltac:(by eexists) ltac:(by eexists)) as Hs. cbv zeta in Hs. rewrite <-E' in Hs. clear E' Hu.
  destruct (accepted fo pa oa) as [ap ao] eqn:Eacc. destruct Hs as (Dp & Do & Ep & Eo & Ea & Er).
  assert (stored_address (primary_ip fo') = ap) as Sp by (unfold stored_address; by rewrite Ep, canonical_text).
  assert (stored_address (oob_ip fo') = ao) as So by (unfold stored_address; by rewrite Eo, canonical_text).
  assert (invalid_stored_address_fields fo' = (false, false)) as Hv
    by (unfold invalid_stored_address_fields; rewrite Ep, Eo; by rewrite !canonical_text).
  split_and!; [done|done|..].
  - intros x Hr Ha. rewrite Sp, So. unfold accepted in Eacc. injection Eacc as <- <-. unfold conflicts. rewrite Ha.
    rewrite (bool_decide_eq_true_2 _ Hr), (bool_decide_eq_true_2 (Some x ≠ None)) by done. cbn [andb].
    destruct (decide (oa = Some x)) as [->|Hne], (decide (pa = Some x)) as [->|Hnp];
      rewrite ?(bool_decide_eq_true_2 (Some x = Some x) eq_refl), ?(bool_decide_eq_false_2 _ Hne), ?(bool_decide_eq_false_2 _ Hnp); cbn; done.
  - intros Hok now'. assert (active_address fo = on_primary ∨ pa ≠ oa) as Hok' by (destruct Hok as [?|Hne]; [by left|right; congruence]).
    pose proof (ingest_again fo pa oa now' fo' Hok') as K. rewrite Eacc in K. unfold mbind, res_bind. cbn [default from_option id]. by rewrite K.
Qed.
End Ingest.
