(* ===== verification/FailoverScenario.v ===== *)
(** * Failover: a concrete device

    A device whose primary address stopped answering: its probes, its switch to OOB, and reports of its addresses.  The
    witnesses of the failover theorems evaluate it. *)

From stdpp Require Import base gmap list strings.
From Stdlib Require Import ZArith NArith Lia.
From S2P Require Import Prelude Json Text Ip Registry Document Store Generation Admission Claim GenerationInv Moves System Scenario Failover FailoverProps FailoverSpec FailoverIngest.
Local Open Scope py_scope.
Local Open Scope Z_scope.

Definition sample_config : EffectiveFailoverConfig := mkConfig true 2 15 2 2 10 45 true 8 8.

(** NSO answers every call; the primary is down, the OOB address is up. *)
Definition primary_down (_ : nat) : Reply :=
  mkReply None None (fun a => if bool_decide ((a ≫= parse_ip) = Some (V4 [10; 0; 0; 1]%N)) then mkProbe probe_unreachable "down"
                              else mkProbe probe_ok "") 0.

Definition sample_row : DeviceFailover := set_oob_ip (Some "10.0.1.1") (set_primary_ip (Some "10.0.0.1") new_failover).
Definition sample_world : World := mkWorld sample_row (Some "10.0.0.1") [] (Some 8).

Lemma sample_synced : synced (addr := IpAddr) sample_world.
Proof. exists "10.0.0.1", (V4 [10; 0; 0; 1]%N). split_and!; vm_compute; reflexivity. Qed.

(** Two ticks, the second due after the first. *)
Definition tick_at (now : Z) (w : World) : World :=
  committed_tick (addr := IpAddr) primary_down sample_config now false false (mkWorld (w_fo w) (w_address w) [] (Some 8)).

Example primary_lost : active_address (w_fo (tick_at 0 sample_world)) = on_primary ∧
  active_address (w_fo (tick_at 200 (tick_at 0 sample_world))) = on_oob ∧
  w_address (tick_at 200 (tick_at 0 sample_world)) = Some "10.0.1.1".
Proof. vm_compute. done. Qed.

Lemma primary_silent fo : primary_ip fo = Some ("10.0.0.1" : pystr) → primary_answers (addr := IpAddr) primary_down fo false.
Proof.
  intros Hp i s (p & Hp' & Hs). assert (p = "10.0.0.1") as -> by congruence. cbn [ip_address python_ip] in Hs.
  assert (parse_ip s = Some (V4 [10; 0; 0; 1]%N)) as Hs' by (rewrite Hs; vm_compute; reflexivity).
  unfold primary_down. cbn. by rewrite Hs'.
Qed.

Lemma failover_disturbance_bounded_witness : ∃ d' w',
  probe_one_failover_device (addr := IpAddr) primary_down sample_config 7 "tick" 0 onboarded sample_world = Ok (d', w') ∧
  claims d' = claims onboarded ∧ ∃ l, w_trace w' = l ++ w_trace sample_world ∧ (sets l <= 2)%nat.
Proof.
  destruct (probe_one_failover_device (addr := IpAddr) primary_down sample_config 7 "tick" 0 onboarded sample_world) as [[d' w']|e] eqn:E;
    [|vm_compute in E; discriminate E].
  exists d', w'. split; [reflexivity|]. pose proof (failover_disturbance_bounded _ _ _ _ _ _ _ _ _ E) as (H1 & l & H2 & H3 & _).
  split; [exact H1|]. exists l. split; [exact H2|exact H3].
Defined.

Lemma role_follows_nso_witness :
  synced (addr := IpAddr) sample_world ∧ synced (addr := IpAddr) (committed_tick (addr := IpAddr) primary_down sample_config 0 false true sample_world).
Proof.
  split; [exact sample_synced|].
  apply (role_follows_nso primary_down sample_config (fun _ => eq_refl) ltac:(discriminate) 0 false true sample_world). exact sample_synced.
Defined.

Lemma sample_ticks : ticks (addr := IpAddr) sample_config [false; false] sample_world (tick_at 200 (tick_at 0 sample_world)).
Proof.
  unfold tick_at. apply (ticks_cons sample_config primary_down 0 false false (Some 8)); [done|done|done| | |].
  - split; vm_compute; reflexivity.
  - by apply primary_silent.
  - apply (ticks_cons sample_config primary_down 200 false false (Some 8)); [done|done|done| | |].
    + split; vm_compute; reflexivity.
    + apply primary_silent. vm_compute. reflexivity.
    + apply ticks_nil.
Qed.


Definition reported_row : DeviceFailover := Eval vm_compute in
  match upsert_failover_ips (addr := IpAddr) None (Some "10.0.0.1") (Some "2001:DB8::0:1") 0 with Ok (_, Some f) => f | _ => new_failover end.

Lemma reported_addresses_converge_witness :
  upsert_failover_ips (addr := IpAddr) None (Some "10.0.0.1") (Some "2001:DB8::0:1") 0 = Ok (true, Some reported_row) ∧
  oob_ip reported_row = Some "2001:db8::1" ∧
  ∀ now, upsert_failover_ips (addr := IpAddr) (Some reported_row) (Some "10.0.0.1") (Some "2001:DB8::0:1") now = Ok (false, Some reported_row).
Proof.
  assert (upsert_failover_ips (addr := IpAddr) None (Some "10.0.0.1") (Some "2001:DB8::0:1") 0 = Ok (true, Some reported_row)) as E
    by (vm_compute; reflexivity).
  split; [exact E|]. split; [vm_compute; reflexivity|].
  pose proof (reported_addresses_converge (addr := IpAddr) None (Some "10.0.0.1") (Some "2001:DB8::0:1") 0 true reported_row E) as (_ & _ & _ & H).
  apply H. left. reflexivity.
Defined.
