(* ===== verification/Hydrate.v ===== *)
(** * Hydration of a document's rows

    The intent tables of src/nso_adapter/store/models.py with their columns, and [hydrate_section] of
    src/nso_adapter/core/projection.py, which rebuilds a section's rows and their parent collections from a stored document.  A
    hydrated instance is its table, its column values and its loaded collections; a timestamp is its ISO text. *)

From stdpp Require Import base list.
From Stdlib Require Import ZArith NArith Lia.
From S2P Require Import Prelude Json Text Registry Document Asn Identity StaticPlan VaultRef.
Local Open Scope py_scope.

(** ** Columns *)

Inductive coltype := TInteger | TBigInteger | TString (n : N) | TText | TBoolean | TDateTime | TJson.
#[global] Instance coltype_eq_dec : EqDecision coltype.
Proof. solve_decision. Defined.
Record column := col { col_name : pystr; col_type : coltype; col_nullable : bool }.

Definition InterfaceIntent_columns : list column :=
  [col "id" TInteger false; col "interface_id" TInteger false; col "attribute" (TString 64) false; col "intent_value" TText true;
   col "accepted_at" TDateTime true; col "last_apply_at" TDateTime true; col "last_apply_error" TJson true].
Definition LagBundleIntent_columns : list column :=
  [col "id" TInteger false; col "device_id" TInteger false; col "name" (TString 128) false; col "lag_id" TBigInteger true;
   col "min_links" TInteger true; col "system_priority" TInteger true; col "system_id" (TString 17) true; col "timer" (TString 8) true;
   col "admin_key" TInteger true; col "accepted_at" TDateTime false; col "last_apply_at" TDateTime true; col "last_apply_error" TJson true].
Definition LagMemberIntent_columns : list column :=
  [col "id" TInteger false; col "lag_bundle_id" TInteger false; col "interface_name" (TString 128) false; col "mode" (TString 16) true;
   col "port_priority" TInteger true].
Definition VlanIntent_columns : list column :=
  [col "id" TInteger false; col "device_id" TInteger false; col "vlan_id" TInteger false; col "name" (TString 128) true;
   col "accepted_at" TDateTime true; col "last_apply_at" TDateTime true; col "last_apply_error" TJson true].
Definition SwitchportIntent_columns : list column :=
  [col "id" TInteger false; col "device_id" TInteger false; col "interface_name" (TString 128) false; col "mode" (TString 16) true;
   col "untagged_vlan" TInteger true; col "accepted_at" TDateTime false; col "last_apply_at" TDateTime true; col "last_apply_error" TJson true].
Definition SwitchportTaggedVlanIntent_columns : list column :=
  [col "id" TInteger false; col "switchport_id" TInteger false; col "vlan_id" TInteger false].
Definition InterfaceIpIntent_columns : list column :=
  [col "id" TInteger false; col "interface_id" TInteger false; col "address" (TString 64) false; col "vrf" (TString 256) false;
   col "family" (TString 8) false; col "secondary" TBoolean false; col "accepted_at" TDateTime true; col "last_apply_at" TDateTime true;
   col "last_apply_error" TJson true].
Definition SnmpCommunityIntent_columns : list column :=
  [col "id" TInteger false; col "device_id" TInteger false; col "label" (TString 128) false; col "vault_ref" (TString 512) false;
   col "access" (TString 4) false; col "acl" (TString 256) true; col "accepted_at" TDateTime true; col "last_apply_at" TDateTime true;
   col "last_apply_error" TJson true].
Definition SnmpV3UserIntent_columns : list column :=
  [col "id" TInteger false; col "device_id" TInteger false; col "username" (TString 128) false; col "group_name" (TString 128) true;
   col "auth_protocol" (TString 16) true; col "priv_protocol" (TString 16) true; col "auth_vault_ref" (TString 512) true;
   col "priv_vault_ref" (TString 512) true; col "accepted_at" TDateTime true; col "last_apply_at" TDateTime true; col "last_apply_error" TJson true].
Definition SnmpHostIntent_columns : list column :=
  [col "id" TInteger false; col "device_id" TInteger false; col "address" (TString 64) false; col "version" (TString 4) false;
   col "notify_type" (TString 8) false; col "community_or_user" (TString 128) false; col "port" TInteger true; col "accepted_at" TDateTime true;
   col "last_apply_at" TDateTime true; col "last_apply_error" TJson true].
Definition SnmpSystemInfoIntent_columns : list column :=
  [col "id" TInteger false; col "device_id" TInteger false; col "location" (TString 256) true; col "contact" (TString 256) true;
   col "accepted_at" TDateTime true; col "last_apply_at" TDateTime true; col "last_apply_error" TJson true].
Definition StaticRouteIntent_columns : list column :=
  [col "id" TInteger false; col "device_id" TInteger false; col "route_id" TInteger true; col "intent_generation" TBigInteger true;
   col "deployed_key" TJson true; col "pending_clear" TJson true; col "vrf" (TString 128) false; col "prefix" (TString 64) false;
   col "next_hop" (TString 64) false; col "interface_next_hop" (TString 128) true; col "next_hop_vrf" (TString 128) true; col "metric" TInteger true;
   col "permanent" TBoolean true; col "tag" TInteger true; col "name" (TString 256) true; col "accepted_at" TDateTime true;
   col "last_apply_at" TDateTime true; col "last_apply_error" TJson true].
Definition StaticRouteTombstone_columns : list column :=
  [col "id" TInteger false; col "device_id" TInteger false; col "route_id" TInteger false; col "vrf" (TString 128) false;
   col "prefix" (TString 64) false; col "next_hop" (TString 64) false; col "deployed_key" TJson true; col "marking" (TString 16) false;
   col "job_id" TInteger true; col "created_at" TDateTime false].
Definition SviIntent_columns : list column :=
  [col "id" TInteger false; col "device_id" TInteger false; col "interface_name" (TString 128) false; col "vlan_id" TInteger false;
   col "svi_type" (TString 8) false; col "vrf" (TString 128) true; col "accepted_at" TDateTime true; col "last_apply_at" TDateTime true;
   col "last_apply_error" TJson true].
Definition SubinterfaceIntent_columns : list column :=
  [col "id" TInteger false; col "device_id" TInteger false; col "interface_name" (TString 128) false; col "parent_interface" (TString 128) true;
   col "dot1q_vlan" TInteger false; col "sub_type" (TString 16) false; col "vrf" (TString 128) true; col "accepted_at" TDateTime true;
   col "last_apply_at" TDateTime true; col "last_apply_error" TJson true].
Definition LoggingHostIntent_columns : list column :=
  [col "id" TInteger false; col "device_id" TInteger false; col "address" (TString 256) false; col "port" TInteger true;
   col "severity" (TString 32) false; col "facility" (TString 32) false; col "transport" (TString 16) false; col "vrf" (TString 128) false;
   col "source" (TString 256) false; col "accepted_at" TDateTime true; col "last_apply_at" TDateTime true; col "last_apply_error" TJson true].
Definition LoggingLevelsIntent_columns : list column :=
  [col "id" TInteger false; col "device_id" TInteger false; col "console_severity" (TString 16) true; col "monitor_severity" (TString 16) true;
   col "module_severity" (TString 16) true; col "accepted_at" TDateTime true; col "last_apply_at" TDateTime true; col "last_apply_error" TJson true].
Definition L2SapIntent_columns : list column :=
  [col "id" TInteger false; col "device_id" TInteger false; col "service_name" (TString 64) false; col "service_type" (TString 16) false;
   col "sap_id" (TString 64) false; col "port" (TString 64) false; col "outer_tag" TInteger true; col "inner_tag" TInteger true;
   col "accepted_at" TDateTime true; col "last_apply_at" TDateTime true; col "last_apply_error" TJson true].
Definition BfdIntent_columns : list column :=
  [col "id" TInteger false; col "device_id" TInteger false; col "interface_name" (TString 128) false; col "min_tx" TInteger true;
   col "min_rx" TInteger true; col "multiplier" TInteger true; col "micro_bfd" TBoolean false; col "accepted_at" TDateTime true;
   col "last_apply_at" TDateTime true; col "last_apply_error" TJson true].
Definition InterfaceMtuIntent_columns : list column :=
  [col "id" TInteger false; col "device_id" TInteger false; col "interface_name" (TString 128) false; col "mtu" TInteger true;
   col "ip_mtu" TInteger true; col "mpls_mtu" TInteger true; col "accepted_at" TDateTime true; col "last_apply_at" TDateTime true;
   col "last_apply_error" TJson true].
Definition IsisInterfaceIntent_columns : list column :=
  [col "id" TInteger false; col "device_id" TInteger false; col "interface_name" (TString 128) false; col "af" (TString 8) false;
   col "process_tag" (TString 128) false; col "circuit_type" (TString 32) true; col "network_type" (TString 32) true; col "metric" TInteger true;
   col "passive" TBoolean false; col "bfd_enabled" TBoolean true; col "frr_enabled" TBoolean true; col "frr_protection" (TString 8) true;
   col "accepted_at" TDateTime true; col "last_apply_at" TDateTime true; col "last_apply_error" TJson true].
Definition IsisProcessIntent_columns : list column :=
  [col "id" TInteger false; col "device_id" TInteger false; col "process_tag" (TString 128) false; col "net" (TString 100) true;
   col "is_type" (TString 50) true; col "metric_style" (TString 20) true; col "overload_bit" TBoolean true; col "area_auth_type" (TString 10) true;
   col "area_auth_key" (TString 128) true; col "domain_auth_type" (TString 10) true; col "domain_auth_key" (TString 128) true;
   col "fast_reroute" (TString 16) true; col "microloop_avoidance" TBoolean true; col "accepted_at" TDateTime true;
   col "last_apply_at" TDateTime true; col "last_apply_error" TJson true].
Definition IsisLevelIntent_columns : list column :=
  [col "id" TInteger false; col "device_id" TInteger false; col "process_tag" (TString 128) false; col "level" TInteger false;
   col "wide_metrics_only" TBoolean true; col "labeled_preference" TInteger true; col "disabled" TBoolean true; col "accepted_at" TDateTime true;
   col "last_apply_at" TDateTime true; col "last_apply_error" TJson true].
Definition IsisFlexAlgoIntent_columns : list column :=
  [col "id" TInteger false; col "device_id" TInteger false; col "process_tag" (TString 128) false; col "algo_id" TInteger false;
   col "metric_type" (TString 40) true; col "priority" TInteger true; col "admin_group_exclude" (TString 200) true;
   col "admin_group_include_any" (TString 200) true; col "admin_group_include_all" (TString 200) true; col "accepted_at" TDateTime true;
   col "last_apply_at" TDateTime true; col "last_apply_error" TJson true].
Definition BgpRouterIntent_columns : list column :=
  [col "id" TInteger false; col "device_id" TInteger false; col "asn" (TString 32) false; col "router_id" (TString 64) true;
   col "accepted_at" TDateTime true; col "last_apply_at" TDateTime true; col "last_apply_error" TJson true].
Definition BgpScopeIntent_columns : list column :=
  [col "id" TInteger false; col "router_id" TInteger false; col "vrf" (TString 128) false].
Definition BgpAfIntent_columns : list column :=
  [col "id" TInteger false; col "scope_id" TInteger false; col "af" (TString 32) false].
Definition BgpPeerIntent_columns : list column :=
  [col "id" TInteger false; col "scope_id" TInteger false; col "peer_address" (TString 64) false; col "enabled" TBoolean false;
   col "peer_group" (TString 128) true; col "remote_as" (TString 32) true; col "local_as" (TString 32) true; col "ttl" TInteger true;
   col "password" (TString 256) true; col "source" (TString 256) true].
Definition BgpPeerAfIntent_columns : list column :=
  [col "id" TInteger false; col "peer_id" TInteger false; col "af" (TString 32) false; col "enabled" TBoolean false;
   col "routemap_in" (TString 255) true; col "routemap_out" (TString 255) true; col "prefixlist_in" (TString 255) true;
   col "prefixlist_out" (TString 255) true].
Definition RoutePolicyObjectIntent_columns : list column :=
  [col "id" TInteger false; col "device_id" TInteger false; col "family" (TString 32) false; col "name" (TString 255) false;
   col "entries" TJson false; col "invert_match" TBoolean false; col "accepted_at" TDateTime true; col "last_apply_at" TDateTime true;
   col "last_apply_error" TJson true].
Definition OspfInstanceIntent_columns : list column :=
  [col "id" TInteger false; col "device_id" TInteger false; col "process_id" (TString 64) false; col "router_id" (TString 64) true;
   col "vrf" (TString 64) false; col "areas" TJson true; col "enabled" TBoolean true; col "accepted_at" TDateTime true;
   col "last_apply_at" TDateTime true; col "last_apply_error" TJson true].
Definition OspfInterfaceIntent_columns : list column :=
  [col "id" TInteger false; col "device_id" TInteger false; col "interface_name" (TString 128) false; col "process_id" (TString 64) true;
   col "area_id" (TString 64) true; col "passive" TBoolean false; col "priority" TInteger true; col "cost" TInteger true;
   col "network_type" (TString 32) true; col "auth_type" (TString 32) true; col "auth_key" (TString 128) true; col "accepted_at" TDateTime true;
   col "last_apply_at" TDateTime true; col "last_apply_error" TJson true].
Definition RedistributionIntent_columns : list column :=
  [col "id" TInteger false; col "device_id" TInteger false; col "dest_protocol" (TString 16) false; col "dest_ref" (TString 128) false;
   col "source_protocol" (TString 16) false; col "source_ref" (TString 64) false; col "route_map" (TString 128) true; col "metric" TInteger true;
   col "metric_type" (TString 16) true; col "accepted_at" TDateTime true; col "last_apply_at" TDateTime true; col "last_apply_error" TJson true].

Definition model_columns : list (pystr * list column) :=
  [("InterfaceIntent", InterfaceIntent_columns); ("LagBundleIntent", LagBundleIntent_columns); ("LagMemberIntent", LagMemberIntent_columns);
   ("VlanIntent", VlanIntent_columns); ("SwitchportIntent", SwitchportIntent_columns);
   ("SwitchportTaggedVlanIntent", SwitchportTaggedVlanIntent_columns); ("InterfaceIpIntent", InterfaceIpIntent_columns);
   ("SnmpCommunityIntent", SnmpCommunityIntent_columns); ("SnmpV3UserIntent", SnmpV3UserIntent_columns); ("SnmpHostIntent", SnmpHostIntent_columns);
   ("SnmpSystemInfoIntent", SnmpSystemInfoIntent_columns); ("StaticRouteIntent", StaticRouteIntent_columns);
   ("StaticRouteTombstone", StaticRouteTombstone_columns); ("SviIntent", SviIntent_columns); ("SubinterfaceIntent", SubinterfaceIntent_columns);
   ("LoggingHostIntent", LoggingHostIntent_columns); ("LoggingLevelsIntent", LoggingLevelsIntent_columns); ("L2SapIntent", L2SapIntent_columns);
   ("BfdIntent", BfdIntent_columns); ("InterfaceMtuIntent", InterfaceMtuIntent_columns); ("IsisInterfaceIntent", IsisInterfaceIntent_columns);
   ("IsisProcessIntent", IsisProcessIntent_columns); ("IsisLevelIntent", IsisLevelIntent_columns); ("IsisFlexAlgoIntent", IsisFlexAlgoIntent_columns);
   ("BgpRouterIntent", BgpRouterIntent_columns); ("BgpScopeIntent", BgpScopeIntent_columns); ("BgpAfIntent", BgpAfIntent_columns);
   ("BgpPeerIntent", BgpPeerIntent_columns); ("BgpPeerAfIntent", BgpPeerAfIntent_columns);
   ("RoutePolicyObjectIntent", RoutePolicyObjectIntent_columns); ("OspfInstanceIntent", OspfInstanceIntent_columns);
   ("OspfInterfaceIntent", OspfInterfaceIntent_columns); ("RedistributionIntent", RedistributionIntent_columns)].

Definition table_columns (table : pystr) : list column :=
  match dict_get spec_by_table table with Some s => default [] (dict_get model_columns (sp_model s)) | None => [] end.

(** ** The document's values *)

(** [_VAULT_REFERENCE_COLUMNS] *)
Definition VAULT_REFERENCE_COLUMNS : list (pystr * list pystr) :=
  [("snmp_community_intent", ["vault_ref"]); ("snmp_v3_user_intent", ["auth_vault_ref"; "priv_vault_ref"])].

(** [_document_value] *)
Definition document_value (table key : pystr) (value : json) : res json :=
  match value with
  | JNull => Ok JNull
  | _ =>
      if negb (is_str value "") && mem key (default [] (dict_get VAULT_REFERENCE_COLUMNS table)) then
        match parse_vault_ref value (Some true) with
        | Ok _ => Ok value
        | Raise (VaultRefError _) => Raise (ValueError "refusing to serialize non-reference secret material")
        | Raise e => Raise e
        end
      else Ok value
  end.

(** [_row_dict] *)
Definition row_dict (table : pystr) (row : pydict) : res pydict :=
  map_res (fun c => v ← document_value table (col_name c) (get row (col_name c)); Ok (col_name c, v)) (table_columns table).

(** ** Hydrated instances *)

Inductive hrow := HRow (hr_table : pystr) (hr_cols : pydict) (hr_kids : list (pystr * list hrow)).
Definition hr_table (r : hrow) : pystr := let 'HRow t _ _ := r in t.
Definition hr_cols (r : hrow) : pydict := let 'HRow _ c _ := r in c.
Definition hr_kids (r : hrow) : list (pystr * list hrow) := let 'HRow _ _ k := r in k.
(** [row.name]: an unset column of a transient instance reads as [None] *)
Definition attr (r : hrow) (name : pystr) : json := get (hr_cols r) name.
Definition kids (r : hrow) (relationship : pystr) : list hrow := default [] (dict_get (hr_kids r) relationship).

(** [_collection_relationship] *)
Definition COLLECTIONS : list (pystr * pystr) :=
  [("BgpScopeIntent", "scopes"); ("BgpAfIntent", "address_families"); ("BgpPeerIntent", "peers");
   ("BgpPeerAfIntent", "peer_address_families"); ("SwitchportTaggedVlanIntent", "tagged_vlans"); ("LagMemberIntent", "members")].
Definition collection_relationship (child : pystr) : pystr := default "" (dict_get COLLECTIONS child).

Definition projected_parent (s : Spec) : option pystr :=
  match sp_parent s with Some p => if dict_mem spec_by_model p then Some p else None | None => None end.
(** The models of a section that take part in a parent collection. *)
Definition relationship_models (specs : list Spec) : list pystr :=
  flat_map (fun s => match projected_parent s with Some p => [p; sp_model s] | None => [] end) specs.

Definition rows_index : Type := list (pystr * list (identity * pydict)).
Definition index_of_model (indexes : rows_index) (model : pystr) : list (identity * pydict) := default [] (dict_get indexes model).

(** [identity[:-local_identity_size]] *)
Definition parent_prefix (size : nat) (i : identity) : identity := take (length i - size) i.

(** One child table of [_attach_hydrated_relationships]: every row names an indexed parent. *)
Definition check_children (indexes : rows_index) (s : Spec) : res unit :=
  match projected_parent s with
  | None => Ok tt
  | Some parent =>
      fields ← identity_fields s;
      match fields with
      | [] => Raise (RuntimeError (tablename (sp_model s) +:+ " has no local durable identity"))
      | _ =>
          guard_or (forallb (fun ir => existsb (fun pr => identity_eqb pr.1 (parent_prefix (length fields) ir.1)) (index_of_model indexes parent))
                      (index_of_model indexes (sp_model s)))
            (RuntimeError (tablename (sp_model s) +:+ " row references missing durable parent identity"))
      end
  end.

Definition child_rows (indexes : rows_index) (s : Spec) (i : identity) : list (identity * pydict) :=
  let size := length (match identity_fields s with Ok f => f | Raise _ => [] end) in
  List.filter (fun ir => identity_eqb (parent_prefix size ir.1) i) (index_of_model indexes (sp_model s)).

(** The instance of an indexed row with its collections; [fuel] bounds the chain of collections. *)
Fixpoint build_instance (fuel : nat) (specs : list Spec) (indexes : rows_index) (model : pystr) (i : identity) (record : pydict) : hrow :=
  match fuel with
  | O => HRow (tablename model) record []
  | S fuel =>
      HRow (tablename model) record
        (map (fun s => (collection_relationship (sp_model s),
                        map (fun ir => build_instance fuel specs indexes (sp_model s) ir.1 ir.2) (child_rows indexes s i)))
             (List.filter (fun s => bool_decide (sp_parent s = Some model)) specs))
  end.

(** The instances of one table of the section. *)
Definition table_instances (specs : list Spec) (indexes : rows_index) (tr : pystr * list pydict) : list hrow :=
  match dict_get spec_by_table tr.1 with
  | Some s => if mem (sp_model s) (relationship_models specs)
              then map (fun ir => build_instance (length specs) specs indexes (sp_model s) ir.1 ir.2) (index_of_model indexes (sp_model s))
              else map (fun r => HRow tr.1 r []) tr.2
  | None => []
  end.

(** One table of the document: its model must be of the section, its rows name known columns and carry their key. *)
Definition hydrate_records (section : pystr) (specs : list Spec) (tr : pystr * list pydict) : res unit :=
  match dict_get spec_by_table tr.1 with
  | None => Raise (ValueError ("document section " +:+ section +:+ " names unknown table"))
  | Some s =>
      if mem (sp_model s) (map sp_model specs) then
        _ ← map_res (hydrate_row (map col_name (table_columns tr.1))) tr.2; Ok tt
      else Raise (ValueError "document table does not belong to section")
  end.

Definition hydrated : Type := list (pystr * list hrow).

(** [hydrate_section] *)
Definition hydrate_section (document : pydict) (section : pystr) : res hydrated :=
  if dict_mem document section then
    context ← section_context document section;
    body ← or_empty (dict_get document section);
    t ← tables_of body;
    _ ← validate_tables (NedContext (get context "ned_id")) t;
    match dict_get SECTION_REGISTRY section with
    | None => Raise KeyError
    | Some entry =>
        let specs := se_tables entry in
        _ ← map_res (hydrate_records section specs) t;
        indexes ← identity_indexes t (List.filter (fun s => mem (sp_model s) (relationship_models specs)) specs) [] [];
        _ ← map_res (check_children indexes) specs;
        Ok (map (fun tr => (tr.1, table_instances specs indexes tr)) t)
    end
  else Raise (ValueError "document does not carry section").

(** [rows_by_table] *)
Definition rows_by_table (section : pystr) (h : hydrated) : hydrated :=
  match dict_get SECTION_REGISTRY section with
  | Some entry => dict_of_pairs (map (fun s => let t := tablename (sp_model s) in (t, default [] (dict_get h t))) (se_tables entry))
  | None => []
  end.
(** [section_rows_by_table] *)
Definition section_rows_by_table (document : pydict) (section : pystr) : res hydrated :=
  h ← hydrate_section document section; Ok (rows_by_table section h).

(** Every child table of the registry has its collection, and no chain of collections is longer than the section's tables. *)
Example collections_complete :
  forallb (fun ms => match projected_parent ms.2 with Some _ => dict_mem COLLECTIONS ms.1 | None => true end) spec_by_model = true.
Proof. vm_compute. reflexivity. Qed.
Example columns_complete : forallb (fun ms => dict_mem model_columns ms.1) spec_by_model = true.
Proof. vm_compute. reflexivity. Qed.
