(* ===== verification/Origins.v ===== *)
(** * Encoding origins

    src/nso_adapter/nso/origins.py, the whole module, and [execution_context] of src/nso_adapter/core/generation.py: which stored
    rows produced each construct of an encoded section, and the attribution of NSO's refusal records to them.  An encoder runs
    its [OriginRecorder] as state; a timestamp is its ISO text. *)

From stdpp Require Import base list.
From Stdlib Require Import ZArith NArith Lia.
From S2P Require Import Prelude Json Sha256 RefusalProtocol Registry Document Asn Identity Store Hydrate.
Local Open Scope py_scope.
Local Open Scope Z_scope.

(** ** Data *)

(** [OriginContext] *)
Inductive OriginContext := mkContext (oc_generation_id : option Z) (oc_source_push_seq : list (pystr * option Z))
  (oc_stream_revisions : list (pystr * Z)) (oc_settlement_cohort : option Z) (oc_stream_contexts : list (pystr * OriginContext)).
Definition oc_generation_id (c : OriginContext) : option Z := let 'mkContext g _ _ _ _ := c in g.
Definition oc_source_push_seq (c : OriginContext) : list (pystr * option Z) := let 'mkContext _ p _ _ _ := c in p.
Definition oc_stream_revisions (c : OriginContext) : list (pystr * Z) := let 'mkContext _ _ r _ _ := c in r.
Definition oc_settlement_cohort (c : OriginContext) : option Z := let 'mkContext _ _ _ k _ := c in k.
Definition oc_stream_contexts (c : OriginContext) : list (pystr * OriginContext) := let 'mkContext _ _ _ _ s := c in s.
Definition no_context : OriginContext := mkContext None [] [] None [].

(** [OriginContext.for_stream] *)
Definition for_stream (c : OriginContext) (stream : pystr) : OriginContext := default c (dict_get (oc_stream_contexts c) stream).
(** [context.source_push_seq.get(stream)] *)
Definition push_seq_of (c : OriginContext) (stream : pystr) : option Z := default None (dict_get (oc_source_push_seq c) stream).
Definition revision_of (c : OriginContext) (stream : pystr) : option Z := dict_get (oc_stream_revisions c) stream.

(** [OriginContext.from_generation] *)
Definition from_generation (g : Generation) : OriginContext :=
  mkContext (Some (g_id g)) (g_source_push_seq g) (g_stream_revisions g) (g_settlement_cohort g) [].

(** [execution_context] *)
Definition stream_contexts (gs : list Generation) : list (pystr * OriginContext) :=
  dict_of_pairs (flat_map (fun g => map (fun sr => (sr.1, from_generation g)) (g_stream_revisions g)) gs).
Definition execution_context (gs : list Generation) : res OriginContext :=
  match last gs with
  | None => Raise (ValueError "Execution requires a carried generation")
  | Some highest =>
      let contexts := stream_contexts gs in
      revisions ← map_res (fun sc => match revision_of sc.2 sc.1 with Some r => Ok (sc.1, r) | None => Raise KeyError end) contexts;
      Ok (mkContext (Some (g_id highest)) (map (fun sc => (sc.1, push_seq_of sc.2 sc.1)) contexts) revisions
            (g_settlement_cohort highest) contexts)
  end.

(** [SourceRef] *)
Record SourceRef := mkSource {
  sr_table : pystr; sr_row_identity : list Z; sr_content : pystr; sr_revision : option Z; sr_accepted_at : option pystr;
  sr_live_join : option (pystr * Z) }.

(** [SettlementOwner] *)
Record SettlementOwner := mkOwner {
  so_stream : pystr; so_table : pystr; so_root_row : RowRef; so_push_seq : option Z; so_revision : option Z;
  so_accepted_at : option pystr; so_generation : option Z; so_cohort : option Z; so_content : pystr }.

(** [LogicalRow] *)
Record LogicalRow := mkLogical {
  lr_stream : pystr; lr_row : RowRef; lr_sources : list SourceRef; lr_push_seq : option Z; lr_revision : option Z;
  lr_acceptance : option pystr; lr_generation : option Z; lr_cohort : option Z; lr_carrier : SettlementOwner }.

#[global] Instance SourceRef_eq_dec : EqDecision SourceRef. Proof. solve_decision. Defined.
#[global] Instance SettlementOwner_eq_dec : EqDecision SettlementOwner. Proof. solve_decision. Defined.
#[global] Instance LogicalRow_eq_dec : EqDecision LogicalRow. Proof. solve_decision. Defined.

Definition opt_int (o : option Z) : json := match o with Some z => JInt z | None => JNull end.

(** [SettlementOwner.public_record] *)
Definition owner_record (o : SettlementOwner) : json :=
  JObj [("stream", JStr (so_stream o)); ("row", row_record (so_root_row o)); ("source_push_seq", opt_int (so_push_seq o));
        ("frozen_revision", opt_int (so_revision o)); ("accepted_at", opt_str (so_accepted_at o));
        ("generation_id", opt_int (so_generation o)); ("settlement_cohort", opt_int (so_cohort o))].
(** [LogicalRow.public_record] *)
Definition public_record (l : LogicalRow) : json :=
  JObj [("stream", JStr (lr_stream l)); ("row", row_record (lr_row l)); ("source_push_seq", opt_int (lr_push_seq l));
        ("frozen_revision", opt_int (lr_revision l)); ("acceptance_identity", opt_str (lr_acceptance l));
        ("generation_id", opt_int (lr_generation l)); ("settlement_cohort", opt_int (lr_cohort l)); ("carrier", owner_record (lr_carrier l))].

(** [OriginKey] *)
Record OriginKey := mkKey { ok_family : pystr; ok_row : RowRef; ok_field : option pystr }.
#[global] Instance OriginKey_eq_dec : EqDecision OriginKey. Proof. solve_decision. Defined.

Inductive Provenance := Current | Retained | Prior.
#[global] Instance Provenance_eq_dec : EqDecision Provenance. Proof. solve_decision. Defined.
(** [FailureReason] *)
Inductive FailureReason := missing_binding | mixed_stream | missing_baseline_provenance | missing_removal_provenance | missing_natural_key
  | invalid_source_identity.
#[global] Instance FailureReason_eq_dec : EqDecision FailureReason. Proof. solve_decision. Defined.

(** [RemovalAuthority] *)
Record RemovalAuthority := mkAuthority {
  ra_generation : Z; ra_stream : pystr; ra_revision : Z; ra_operation : pystr; ra_row : RowRef; ra_fields : list pystr }.

(** [OriginBinding] *)
Record OriginBinding := mkBinding {
  ob_stream : pystr; ob_sources : list SourceRef; ob_construct : pystr; ob_provenance : Provenance; ob_rows : list LogicalRow;
  ob_baseline_attempt : option Z; ob_fingerprint : option pystr; ob_authority : option RemovalAuthority }.

(** [RetainedContribution], [PriorContribution] *)
Record RetainedContribution := mkRetained { rc_row : RowRef; rc_fingerprint : pystr }.
Record PriorContribution := mkPrior { pc_family : pystr; pc_row : RowRef; pc_authority : option RemovalAuthority }.

(** [OriginIndex] *)
Record OriginIndex := mkIndex {
  oi_bindings : list (OriginKey * OriginBinding); oi_unsupported : list (OriginKey * FailureReason);
  oi_retained : list RetainedContribution; oi_omitted : list PriorContribution; oi_unsupported_subjects : list (pystr * FailureReason) }.
Definition empty_index : OriginIndex := mkIndex [] [] [] [] [].

(** ** The index *)

(** [d.pop(k, None)] *)
Definition dict_pop {K V} `{EqDecision K} (d : list (K * V)) (k : K) : list (K * V) := List.filter (fun kv => negb (bool_decide (kv.1 = k))) d.

Definition index_keys (i : OriginIndex) : list OriginKey := dict_keys (oi_bindings i) ++ dict_keys (oi_unsupported i).

Definition duplicate_origin : exc := OriginConstructionError "duplicate origin".

Definition update_dict {K V} `{EqDecision K} (d e : list (K * V)) : list (K * V) := fold_left (fun d kv => dict_set d kv.1 kv.2) e d.

(** [OriginIndex.merge] *)
Definition merge_index (a b : OriginIndex) : res OriginIndex :=
  if existsb (fun k => bool_decide (k ∈ index_keys a)) (index_keys b) then Raise duplicate_origin
  else Ok (mkIndex (update_dict (oi_bindings a) (oi_bindings b)) (update_dict (oi_unsupported a) (oi_unsupported b))
             (oi_retained a ++ oi_retained b) (oi_omitted a ++ oi_omitted b)
             (update_dict (oi_unsupported_subjects a) (oi_unsupported_subjects b))).

(** [SUBJECTS[subject].fields] *)
Definition subject_fields (subject : pystr) : res (list pystr) :=
  match dict_get SUBJECTS subject with Some s => Ok (sub_fields s) | None => Raise KeyError end.

(** One key of [OriginIndex.mark_unsupported] *)
Definition mark_key (reason : FailureReason) (preserve_current : bool) (i : OriginIndex) (key : OriginKey) : OriginIndex :=
  let current := match dict_get (oi_bindings i) key with Some b => bool_decide (ob_provenance b = Current) | None => false end in
  if preserve_current && current then i
  else mkIndex (dict_pop (oi_bindings i) key) (dict_set (oi_unsupported i) key reason) (oi_retained i) (oi_omitted i) (oi_unsupported_subjects i).
(** [OriginIndex.mark_unsupported] *)
Definition mark_unsupported (i : OriginIndex) (family : pystr) (row : RowRef) (reason : FailureReason) (preserve_current : bool) : res OriginIndex :=
  fields ← subject_fields (rr_subject row);
  Ok (fold_left (mark_key reason preserve_current) (map (mkKey family row) (None :: map Some fields)) i).

(** [content_digest] *)
Definition content_digest (v : json) : pystr := sha256_hex (ascii_bytes (dumps compact_sorted v)).

(** A value as a natural key of a path: anything but text and integers is refused like [None]. *)
Definition key_of (v : json) : keyval := match v with JStr s => KVStr s | JInt z => KVInt z | JBool b => KVBool b | _ => KVNone end.
(** [v or ''] *)
Definition or_text (v : json) : json := if json_truthy v then v else JStr "".

(** [OriginIndex.record_retained] *)
Definition record_retained (i : OriginIndex) (entry : pydict) : res OriginIndex :=
  prefix ← required entry "prefix";
  row ← row_ref "static-route" "static-route.route"
          [("route", [key_of (or_text (get entry "vrf")); key_of prefix; key_of (or_text (get entry "next-hop"))])];
  let i := mkIndex (oi_bindings i) (oi_unsupported i) (oi_retained i ++ [mkRetained row (content_digest (JObj entry))]) (oi_omitted i)
             (oi_unsupported_subjects i) in
  i ← mark_unsupported i "static-route" row missing_baseline_provenance false;
  family_row ← row_ref "static-route" "static-route" [];
  mark_unsupported i "static-route" family_row missing_baseline_provenance false.

(** [OriginIndex.record_omission] *)
Definition record_omission (i : OriginIndex) (c : PriorContribution) : res OriginIndex :=
  let i := mkIndex (oi_bindings i) (oi_unsupported i) (oi_retained i) (oi_omitted i ++ [c]) (oi_unsupported_subjects i) in
  mark_unsupported i (pc_family c) (pc_row c) missing_removal_provenance true.

(** [dict.fromkeys(l)]: the first occurrences, in order *)
Fixpoint fromkeys_loop {A} `{EqDecision A} (seen l : list A) : list A :=
  match l with
  | [] => []
  | x :: l => if bool_decide (x ∈ seen) then fromkeys_loop seen l else x :: fromkeys_loop (x :: seen) l
  end.
Definition fromkeys {A} `{EqDecision A} (l : list A) : list A := fromkeys_loop [] l.

(** [current_membership] *)
Definition carried_by (carried : list (pystr * OriginContext)) (l : LogicalRow) : bool :=
  match dict_get carried (lr_stream l) with
  | None => false
  | Some c => bool_decide (lr_generation l = oc_generation_id c) && bool_decide (lr_revision l = revision_of c (lr_stream l)) &&
              bool_decide (lr_push_seq l = push_seq_of c (lr_stream l))
  end.
Definition current_membership (i : OriginIndex) (context : OriginContext) : list LogicalRow :=
  fromkeys (List.filter (carried_by (oc_stream_contexts context))
    (flat_map (fun kb => if bool_decide (ob_provenance kb.2 = Current) then ob_rows kb.2 else []) (oi_bindings i))).

Record EncodedSection := mkEncoded { es_body : pydict; es_origins : OriginIndex }.

(** ** Attribution of refusals *)

Record AttributedRefusal := mkAttributed { ar_refusal : Refusal; ar_sources : list SourceRef; ar_rows : list LogicalRow }.

(** [accepted_at.utcoffset() is not None]: an ISO text with an offset after its time *)
Definition aware (t : pystr) : bool := existsb (fun c => (c =? 43)%N || (c =? 45)%N) (drop 11 (py_chars t)).

(** [_valid_source] *)
Definition valid_source (s : SourceRef) : bool :=
  py_truthy (sr_table s) &&
  match sr_row_identity s with [i] => 0 <? i | _ => false end &&
  Nat.eqb (py_len (sr_content s)) 64 && forallb (in_chars HEX) (py_chars (sr_content s)) &&
  match sr_accepted_at s with None => true | Some t => aware t end.

Definition refusal_key (r : Refusal) : OriginKey := mkKey (r_family r) (r_row r) (r_field r).

(** One iteration of [resolve_refusals]: the attributed record, or the reason of the failure *)
Definition resolve_one (i : OriginIndex) (r : Refusal) : AttributedRefusal + FailureReason :=
  let key := refusal_key r in
  match dict_get (oi_unsupported i) key with
  | Some reason => inr reason
  | None =>
      match dict_get (oi_bindings i) key with
      | None => inr (default missing_binding (dict_get (oi_unsupported_subjects i) (rr_subject (ok_row key))))
      | Some b =>
          let unbased := match ob_baseline_attempt b with None => true | Some _ => false end in
          if bool_decide (ob_provenance b = Retained) && (unbased || match ob_fingerprint b with None => true | Some _ => false end)
          then inr missing_baseline_provenance
          else if bool_decide (ob_provenance b = Prior) && (unbased || match ob_authority b with None => true | Some _ => false end)
          then inr missing_removal_provenance
          else if match ob_rows b with [] => true | _ => false end || match ob_sources b with [] => true | _ => false end ||
                  existsb (fun s => negb (valid_source s)) (ob_sources b)
          then inr invalid_source_identity
          else if existsb (fun l => match lr_sources l with [] => true | _ => false end || existsb (fun s => negb (valid_source s)) (lr_sources l)) (ob_rows b)
          then inr invalid_source_identity
          else if existsb (fun l => negb (bool_decide (lr_stream l = ob_stream b)) || negb (bool_decide (so_stream (lr_carrier l) = ob_stream b))) (ob_rows b)
          then inr mixed_stream
          else inl (mkAttributed r (ob_sources b) (ob_rows b))
      end
  end.

(** [resolve_refusals]: every record attributed, or the first failure with its key *)
Fixpoint resolve_refusals (rs : list Refusal) (i : OriginIndex) : list AttributedRefusal + FailureReason * OriginKey :=
  match rs with
  | [] => inl []
  | r :: rs =>
      match resolve_one i r with
      | inr reason => inr (reason, refusal_key r)
      | inl a => match resolve_refusals rs i with inl rest => inl (a :: rest) | inr f => inr f end
      end
  end.

(** ** Sources *)

(** [str(value)] of a timestamp, as [json.dumps(default=str)] renders it *)
Definition timestamp_text (v : json) : json :=
  match v with JStr s => JStr (PStr (take 10 (py_chars s) ++ match drop 10 (py_chars s) with _ :: r => 32%N :: r | [] => [] end)) | _ => v end.
Definition column_value (row : hrow) (c : column) : json :=
  let v := attr row (col_name c) in if bool_decide (col_type c = TDateTime) then timestamp_text v else v.
Definition intent_values (row : hrow) : pydict :=
  map (fun c => (col_name c, column_value row c))
    (List.filter (fun c => negb (mem (col_name c) APPLY_BOOKKEEPING_COLUMNS)) (table_columns (hr_table row))).

Definition stamp_of (v : json) : option pystr := match v with JStr s => Some s | _ => None end.

(** [source_ref] *)
Definition source_ref (row : hrow) (table stream : pystr) (context : OriginContext) (children : list SourceRef) (stampable : bool)
    (writer_context : json) : SourceRef :=
  let identity := match attr row "id" with JInt i => Some i | _ => None end in
  mkSource table (match identity with Some i => [i] | None => [] end)
    (content_digest (JArr [JObj (intent_values row); JArr (map (fun c => JStr (sr_content c)) children); writer_context]))
    (revision_of context stream) (stamp_of (attr row "accepted_at"))
    (match identity with Some i => if stampable then Some (table, i) else None | None => None end).

(** ** The recorder *)

(** [OriginRecorder] *)
Record Recorder := mkRecorder {
  rec_family : pystr; rec_context : OriginContext; rec_index : OriginIndex; rec_contributors : list LogicalRow;
  rec_contributor_keys : list (pystr * RowRef) }.
Definition new_recorder (family : pystr) (context : option OriginContext) : Recorder :=
  mkRecorder family (default no_context context) empty_index [] [].
Definition with_index (r : Recorder) (i : OriginIndex) : Recorder :=
  mkRecorder (rec_family r) (rec_context r) i (rec_contributors r) (rec_contributor_keys r).

(** [OriginRecorder.source] *)
Definition source (row : hrow) (table stream : pystr) (children : list SourceRef) (stampable : bool) (writer_context : json) : txn Recorder SourceRef :=
  gets (fun r => source_ref row table stream (rec_context r) children stampable writer_context).

(** [OriginRecorder.logical] *)
Definition logical (subject : pystr) (path : natural_path) (src : SourceRef) (stream : pystr) (carrier : option SettlementOwner)
    (children : list SourceRef) : txn Recorder LogicalRow :=
  r ← get_state;
  row ← lift_res (row_ref (rec_family r) subject path);
  let context := for_stream (rec_context r) stream in
  let carrier := match carrier with
                 | Some c => c
                 | None => mkOwner stream (sr_table src) row (push_seq_of context stream) (sr_revision src) (sr_accepted_at src)
                             (oc_generation_id context) (oc_settlement_cohort context) (sr_content src)
                 end in
  let acceptance := match sr_accepted_at src with Some t => Some t | None => so_accepted_at carrier end in
  let l := mkLogical stream row (src :: children) (push_seq_of context stream) (sr_revision src) acceptance
             (oc_generation_id context) (oc_settlement_cohort context) carrier in
  if bool_decide ((stream, row) ∈ rec_contributor_keys r) then raise duplicate_origin
  else
    _ ← modify (fun r => mkRecorder (rec_family r) (rec_context r) (rec_index r) (rec_contributors r ++ [l])
                           ((stream, row) :: rec_contributor_keys r));
    mret l.

(** [OriginRecorder._bind] *)
Definition bind_key (key : OriginKey) (logicals : list LogicalRow) (construct : pystr) (sources : option (list SourceRef)) : txn Recorder unit :=
  r ← get_state;
  let i := rec_index r in
  if dict_mem (oi_bindings i) key || dict_mem (oi_unsupported i) key then raise duplicate_origin
  else
    match fromkeys (map lr_stream logicals) with
    | [stream] =>
        let refs := match sources with Some s => s | None => fromkeys (flat_map lr_sources logicals) end in
        let b := mkBinding stream refs construct Current logicals None None None in
        modify (fun r => with_index r (mkIndex (dict_set (oi_bindings i) key b) (oi_unsupported i) (oi_retained i) (oi_omitted i) (oi_unsupported_subjects i)))
    | streams =>
        let reason := match streams with [] => missing_binding | _ => mixed_stream end in
        modify (fun r => with_index r (mkIndex (oi_bindings i) (dict_set (oi_unsupported i) key reason) (oi_retained i) (oi_omitted i) (oi_unsupported_subjects i)))
    end.

Definition rows_by_field : Type := list (pystr * list LogicalRow).
Definition sources_by_field : Type := list (pystr * list SourceRef).

(** One declared field of [OriginRecorder.emit] *)
Definition bind_field (row : RowRef) (subject : pystr) (logicals : list LogicalRow) (field_rows : option rows_by_field)
    (sources : option (list SourceRef)) (field_sources : option sources_by_field) (declared : pystr) : txn Recorder unit :=
  family ← gets rec_family;
  let owners := match field_rows with
                | Some fr => match dict_get fr declared with Some rows => fromkeys rows | None => logicals end
                | None => logicals
                end in
  let refs := match field_sources with
              | Some fs => dict_get fs declared
              | None => if bool_decide (owners = logicals) then sources else None
              end in
  bind_key (mkKey family row (Some declared)) owners subject refs.

Fixpoint for_all {S A} (f : A -> txn S unit) (l : list A) : txn S unit :=
  match l with [] => mret tt | x :: l => _ ← f x; for_all f l end.

(** [OriginRecorder.emit] *)
Definition emit (subject : pystr) (path : natural_path) (logical_rows : list LogicalRow) (field_rows : option rows_by_field)
    (sources : option (list SourceRef)) (field_sources : option sources_by_field) : txn Recorder RowRef :=
  family ← gets rec_family;
  row ← lift_res (row_ref family subject path);
  let logicals := fromkeys logical_rows in
  _ ← bind_key (mkKey family row None) logicals subject sources;
  fields ← lift_res (subject_fields subject);
  _ ← for_all (bind_field row subject logicals field_rows sources field_sources) fields;
  mret row.

(** [OriginRecorder.finish] *)
Definition finish (body : pydict) : txn Recorder EncodedSection :=
  r ← get_state;
  _ ← match rec_contributors r with
      | [] => mret tt
      | contributors => _ ← emit (rec_family r) [] contributors None None None; mret tt
      end;
  gets (fun r => mkEncoded body (rec_index r)).

(** [index.mark_unsupported(...)] and [index.unsupported_subjects[s] = ...] on the recorder's index *)
Definition rec_mark_unsupported (family : pystr) (row : RowRef) (reason : FailureReason) : txn Recorder unit :=
  r ← get_state;
  i ← lift_res (mark_unsupported (rec_index r) family row reason false);
  modify (fun r => with_index r i).
Definition rec_unsupported_subject (subject : pystr) (reason : FailureReason) : txn Recorder unit :=
  modify (fun r => let i := rec_index r in
    with_index r (mkIndex (oi_bindings i) (oi_unsupported i) (oi_retained i) (oi_omitted i) (dict_set (oi_unsupported_subjects i) subject reason))).

(** [_origin_row] of nso/apply.py: one row, one construct *)
Definition origin_row (subject : pystr) (path : natural_path) (row : hrow) (table stream : pystr) : txn Recorder LogicalRow :=
  src ← source row table stream [] true JNull;
  l ← logical subject path src stream None [];
  _ ← emit subject path [l] None None None;
  mret l.
