(* ===== verification/Encode.v ===== *)
(** * Section encoders: the flat sections

    src/nso_adapter/nso/apply.py: the encoders whose body is a list of independent rows (static routes, logging, SNMP, SVIs,
    subinterfaces, VLANs, BFD, MTU, L2 SAPs, switchports, LAGs), with the gate on local logging levels.  [require_vlan_id] is
    src/nso_adapter/nso/shape.py.  Integer columns hold integers and text columns text, as the models declare. *)

From stdpp Require Import base list.
From Stdlib Require Import ZArith NArith Lia.
From S2P Require Import Prelude Json Text Dialect RefusalProtocol Registry Document Asn Identity StaticPlan InterfaceProof VaultRef Hydrate Origins.
Local Open Scope py_scope.
Local Open Scope Z_scope.

(** [SectionExecution] *)
Record SectionExecution := mkSection {
  sx_ned_id : option pystr; sx_dialect : CommunityDialect; sx_proof : option InterfaceExecution; sx_origin_context : option OriginContext }.

(** [rows[table]] *)
Definition rows_in (rows : hydrated) (table : pystr) : res (list hrow) :=
  match dict_get rows table with Some l => Ok l | None => Raise KeyError end.

Fixpoint map_txn {S A B} (f : A -> txn S B) (l : list A) : txn S (list B) :=
  match l with [] => mret [] | x :: l => y ← f x; ys ← map_txn f l; mret (y :: ys) end.

(** An encoder's body run on the recorder of its family *)
Definition recording (family : pystr) (ex : SectionExecution) (m : txn Recorder EncodedSection) : res EncodedSection :=
  '(e, _) ← m (new_recorder family (sx_origin_context ex)); Ok e.

(** ** Leaves *)

Definition VLAN_ID_MIN : Z := 1.
Definition VLAN_ID_MAX : Z := 4094.
(** [require_vlan_id] *)
Definition require_vlan_id (v : json) : res unit :=
  match v with
  | JInt z => guard_or ((VLAN_ID_MIN <=? z) && (z <=? VLAN_ID_MAX)) (ValueError "has invalid vlan id")
  | _ => Raise (ValueError "has invalid vlan id")
  end.

(** [if row.field: entry[leaf] = row.field], [if row.field is not None: entry[leaf] = row.field] *)
Definition if_true (row : hrow) (field leaf : pystr) : pydict := when_true (hr_cols row) field leaf.
Definition if_set (row : hrow) (field leaf : pystr) : pydict := when_set (hr_cols row) field leaf.
Definition leaf (row : hrow) (field name : pystr) : pystr * json := (name, attr row field).
(** [bool(row.field)] *)
Definition as_bool (row : hrow) (field : pystr) : json := JBool (json_truthy (attr row field)).
(** An instance's columns, the unset ones as [None] *)
Definition loaded (row : hrow) : pydict := map (fun c => (col_name c, attr row (col_name c))) (table_columns (hr_table row)).
Definition keyed (row : hrow) (list_name field : pystr) : natural_path := [(list_name, [key_of (attr row field)])].

(** The loop seven flat encoders share in shape ([for row in rows[table]: ...; origins.source, .logical, .emit; append]): each row's entry
    and its origin.  What differs between them - the family, the subject, the table, the stream, the list, the entry and its path - are arguments *)
Definition encode_row (subject table stream : pystr) (entry : hrow -> res pydict) (path : hrow -> natural_path) (row : hrow) : txn Recorder json :=
  e ← lift_res (entry row);
  _ ← origin_row subject (path row) row table stream;
  mret (JObj e).
Definition encode_list (subject table stream : pystr) (entry : hrow -> res pydict) (path : hrow -> natural_path) (rows : hydrated) : txn Recorder (list json) :=
  l ← lift_res (rows_in rows table);
  map_txn (encode_row subject table stream entry path) l.
Definition encode_flat (family subject table stream list_name : pystr) (entry : hrow -> res pydict) (path : hrow -> natural_path)
    (rows : hydrated) (ex : SectionExecution) : res EncodedSection :=
  recording family ex (entries ← encode_list subject table stream entry path rows; finish [(list_name, JArr entries)]).

(** ** Interfaces and VLANs *)

Definition svi_entry (row : hrow) : res pydict :=
  _ ← require_vlan_id (attr row "vlan_id");
  Ok ([leaf row "interface_name" "interface-name"; leaf row "vlan_id" "vlan-id"; leaf row "svi_type" "type"] ++ if_true row "vrf" "vrf").
(** [encode_svi] *)
Definition encode_svi : hydrated -> SectionExecution -> res EncodedSection :=
  encode_flat "svi" "svi.interface" "svi_intent" "svi" "interface" svi_entry (fun row => keyed row "interface" "interface_name").

(** [build_subif_interfaces] on one row *)
Definition build_subif_interface (row : hrow) : res pydict :=
  _ ← guard_or (negb (bool_decide (attr row "dot1q_vlan" = JNull))) (ValueError "subinterface has no dot1q_vlan");
  _ ← require_vlan_id (attr row "dot1q_vlan");
  Ok ([leaf row "interface_name" "interface-name"; leaf row "parent_interface" "parent-interface"; leaf row "dot1q_vlan" "dot1q-vlan";
       leaf row "sub_type" "type"] ++ if_true row "vrf" "vrf").
(** [encode_subinterface] *)
Definition encode_subinterface : hydrated -> SectionExecution -> res EncodedSection :=
  encode_flat "subinterface" "subinterface.interface" "subinterface_intent" "subinterface" "interface" build_subif_interface
    (fun row => keyed row "interface" "interface_name").

Definition vlan_entry (row : hrow) : res pydict :=
  _ ← require_vlan_id (attr row "vlan_id"); Ok ([leaf row "vlan_id" "vlan-id"] ++ if_true row "name" "name").
(** [encode_vlan] *)
Definition encode_vlan : hydrated -> SectionExecution -> res EncodedSection :=
  encode_flat "vlan" "vlan.vlan" "vlan_intent" "vlan" "vlan" vlan_entry (fun row => keyed row "vlan" "vlan_id").

Definition bfd_entry (row : hrow) : res pydict :=
  Ok ([leaf row "interface_name" "interface-name"; ("micro-bfd", as_bool row "micro_bfd")] ++
      if_set row "min_tx" "min-tx" ++ if_set row "min_rx" "min-rx" ++ if_set row "multiplier" "multiplier").
(** [encode_bfd] *)
Definition encode_bfd : hydrated -> SectionExecution -> res EncodedSection :=
  encode_flat "bfd" "bfd.interface" "bfd_intent" "bfd" "interface" bfd_entry (fun row => keyed row "interface" "interface_name").

Definition mtu_entry (row : hrow) : res pydict :=
  Ok ([leaf row "interface_name" "interface-name"] ++ if_set row "mtu" "mtu" ++ if_set row "ip_mtu" "ip-mtu" ++ if_set row "mpls_mtu" "mpls-mtu").
(** [encode_interface_mtu] *)
Definition encode_interface_mtu : hydrated -> SectionExecution -> res EncodedSection :=
  encode_flat "mtu" "mtu.interface" "interface_mtu_intent" "interface_mtu" "interface" mtu_entry (fun row => keyed row "interface" "interface_name").

Definition sap_entry (row : hrow) : res pydict :=
  Ok ([leaf row "service_name" "service-name"; leaf row "sap_id" "sap-id"; leaf row "service_type" "service-type"] ++
      if_true row "port" "port" ++ if_set row "outer_tag" "outer-tag" ++ if_set row "inner_tag" "inner-tag").
(** [encode_l2_sap] *)
Definition encode_l2_sap : hydrated -> SectionExecution -> res EncodedSection :=
  encode_flat "l2-sap" "l2-sap.sap" "l2_sap_intent" "l2_sap" "sap" sap_entry
    (fun row => [("sap", [key_of (attr row "service_name"); key_of (attr row "sap_id")])]).

(** [encode_static_route] *)
Definition static_path (row : hrow) : natural_path :=
  [("route", [key_of (attr row "vrf"); key_of (attr row "prefix"); key_of (attr row "next_hop")])].
Definition encode_static_route : hydrated -> SectionExecution -> res EncodedSection :=
  encode_flat "static-route" "static-route.route" "static_route_intent" "static_route" "route"
    (fun row => static_route_entry (loaded row)) static_path.

(** ** Logging *)

Definition LOCAL_LEVEL_LEAVES : list (pystr * pystr) :=
  [("console-severity", "console_severity"); ("monitor-severity", "monitor_severity"); ("module-severity", "module_severity")].
(** [_local_levels] *)
Definition local_levels (row : hrow) : pydict := flat_map (fun la => if_true row la.2 la.1) LOCAL_LEVEL_LEAVES.

(** [refuse_gated_local_levels]; [gate] is [local_levels_write_enabled()] *)
Fixpoint refuse_levels (rows : list hrow) : res unit :=
  match rows with
  | [] => Ok tt
  | row :: rows => match local_levels row with [] => refuse_levels rows | _ => Raise (NsoApplyError "local_levels_gated") end
  end.
Definition refuse_gated_local_levels (gate : bool) (rows : hydrated) : res unit :=
  if gate then Ok tt else l ← rows_in rows "logging_levels_intent"; refuse_levels l.

Definition logging_host_entry (row : hrow) : res pydict :=
  Ok ([leaf row "address" "address"] ++ if_set row "port" "port" ++ if_true row "severity" "severity" ++ if_true row "facility" "facility" ++
      if_true row "transport" "transport" ++ if_true row "vrf" "vrf" ++ if_true row "source" "source").
(** The local-levels singleton: each row with severities records its origin and sets the container *)
Fixpoint logging_levels (rows : list hrow) (body : pydict) : txn Recorder pydict :=
  match rows with
  | [] => mret body
  | row :: rows =>
      match local_levels row with
      | [] => logging_levels rows body
      | levels =>
          _ ← origin_row "logging.local-levels" [] row "logging_levels_intent" "logging";
          logging_levels rows (dict_set body "local-levels" (JObj levels))
      end
  end.
(** [encode_logging] *)
Definition encode_logging (rows : hydrated) (ex : SectionExecution) : res EncodedSection :=
  recording "logging" ex (
    hosts ← encode_list "logging.host" "logging_host_intent" "logging" logging_host_entry (fun row => keyed row "host" "address") rows;
    l ← lift_res (rows_in rows "logging_levels_intent");
    body ← logging_levels l [("host", JArr hosts)];
    finish body).

(** ** SNMP *)

Definition SNMP_ACCESS : list (pystr * pystr) := [("ro", "ro"); ("rw", "rw")].
Definition SNMP_VERSION : list (pystr * pystr) :=
  [("1", "v1"); ("v1", "v1"); ("2", "v2c"); ("2c", "v2c"); ("v2c", "v2c"); ("3", "v3"); ("v3", "v3")].
Definition SNMP_NOTIFY : list (pystr * pystr) := [("trap", "traps"); ("traps", "traps"); ("inform", "informs"); ("informs", "informs")].

(** [_snmp_enum]: the text of any other value is no spelling *)
Definition snmp_enum (v : json) (mapping : list (pystr * pystr)) : res json :=
  let token := match v with JStr s => Some (py_chars s) | JInt z => Some (dump_int z) | _ => None end in
  match token ≫= (fun t => dict_get mapping (PStr (lower (strip t)))) with
  | Some y => Ok (JStr y)
  | None => Raise (NsoApplyError "invalid_snmp_intent")
  end.

(** [_snmp_vault_triple] *)
Definition snmp_vault_triple (v : json) (prefix : pystr) : res pydict :=
  match parse_vault_ref v (Some true) with
  | Ok r => Ok [(prefix +:+ "vault-mount", JStr (vr_mount r)); (prefix +:+ "vault-path", JStr (vr_path r));
                (prefix +:+ "vault-key", match vr_key r with Some k => JStr k | None => JNull end)]
  | Raise (VaultRefError _) => Raise (NsoApplyError "invalid_vault_ref")
  | Raise e => Raise e
  end.
Definition vault_triple_if (row : hrow) (field prefix : pystr) : res pydict :=
  if json_truthy (attr row field) then snmp_vault_triple (attr row field) prefix else Ok [].

Definition snmp_community_entry (row : hrow) : res pydict :=
  access ← snmp_enum (attr row "access") SNMP_ACCESS;
  triple ← snmp_vault_triple (attr row "vault_ref") "";
  Ok ([leaf row "label" "name"; ("access", access)] ++ if_true row "acl" "acl" ++ triple).
Definition snmp_v3_user_entry (row : hrow) : res pydict :=
  auth ← vault_triple_if row "auth_vault_ref" "auth-";
  priv ← vault_triple_if row "priv_vault_ref" "priv-";
  Ok ([leaf row "username" "username"] ++ if_true row "group_name" "group" ++ if_true row "auth_protocol" "auth-protocol" ++
      if_true row "priv_protocol" "priv-protocol" ++ auth ++ priv).
Definition snmp_host_entry (row : hrow) : res pydict :=
  version ← snmp_enum (attr row "version") SNMP_VERSION;
  notify ← snmp_enum (attr row "notify_type") SNMP_NOTIFY;
  Ok ([leaf row "address" "address"; ("version", version); ("notify-type", notify)] ++
      if_true row "community_or_user" "community-or-user" ++ if_set row "port" "port").

Definition when_any (name : pystr) (entries : list json) : pydict := match entries with [] => [] | _ => [(name, JArr entries)] end.

(** The system-info singleton *)
Fixpoint snmp_system_info (rows : list hrow) (body : pydict) : txn Recorder pydict :=
  match rows with
  | [] => mret body
  | info :: rows =>
      _ ← match attr info "location", attr info "contact" with
          | JNull, JNull => mret tt
          | _, _ => _ ← origin_row "snmp.system-info" [] info "snmp_system_info_intent" "snmp"; mret tt
          end;
      let body := match attr info "location" with JNull => body | v => dict_set body "location" v end in
      let body := match attr info "contact" with JNull => body | v => dict_set body "contact" v end in
      snmp_system_info rows body
  end.

(** [encode_snmp] *)
Definition encode_snmp (rows : hydrated) (ex : SectionExecution) : res EncodedSection :=
  recording "snmp" ex (
    communities ← encode_list "snmp.community" "snmp_community_intent" "snmp" snmp_community_entry (fun row => keyed row "community" "label") rows;
    users ← encode_list "snmp.v3-user" "snmp_v3_user_intent" "snmp" snmp_v3_user_entry (fun row => keyed row "v3-user" "username") rows;
    hosts ← encode_list "snmp.host" "snmp_host_intent" "snmp" snmp_host_entry (fun row => keyed row "host" "address") rows;
    infos ← lift_res (rows_in rows "snmp_system_info_intent");
    body ← snmp_system_info infos (when_any "community" communities ++ when_any "v3-user" users ++ when_any "host" hosts);
    finish body).

(** ** Switchports *)

Definition switchport_entry (row : hrow) : res pydict :=
  _ ← match attr row "untagged_vlan" with JNull => Ok tt | v => require_vlan_id v end;
  ids ← map_res (fun t => int_item (attr t "vlan_id")) (kids row "tagged_vlans");
  let tagged := stable_sort Z.leb ids in
  _ ← guard_or (bool_decide (NoDup tagged)) duplicate_origin;
  _ ← map_res (fun z => require_vlan_id (JInt z)) tagged;
  Ok ([leaf row "interface_name" "interface-name"] ++ if_true row "mode" "mode" ++ if_set row "untagged_vlan" "untagged-vlan" ++
      when_any "tagged-vlan" (map JInt tagged)).
Definition switchport_row (row : hrow) : txn Recorder json :=
  e ← lift_res (switchport_entry row);
  children ← map_txn (fun tag => source tag "switchport_tagged_vlan_intent" "switchport" [] false JNull) (kids row "tagged_vlans");
  src ← source row "switchport_intent" "switchport" children true JNull;
  let path := keyed row "interface" "interface_name" in
  l ← logical "switchport.interface" path src "switchport" None children;
  _ ← emit "switchport.interface" path [l] None None None;
  mret (JObj e).
(** [encode_switchport] *)
Definition encode_switchport (rows : hydrated) (ex : SectionExecution) : res EncodedSection :=
  recording "switchport" ex (
    l ← lift_res (rows_in rows "switchport_intent");
    interfaces ← map_txn switchport_row l;
    finish [("interface", JArr interfaces)]).

(** ** LAGs *)

Definition LAG_BUNDLE_LEAVES : list (pystr * pystr) :=
  [("lag_id", "lag-id"); ("min_links", "min-links"); ("system_priority", "system-priority"); ("system_id", "system-id"); ("timer", "timer");
   ("admin_key", "admin-key")].
Definition lag_member_entry (member : hrow) : pydict :=
  [leaf member "interface_name" "interface-name"] ++ if_true member "mode" "mode" ++ if_set member "port_priority" "port-priority".
Definition lag_member (path : natural_path) (carrier : SettlementOwner) (ms : hrow * SourceRef) : txn Recorder LogicalRow :=
  let member_path := path ++ keyed ms.1 "member" "interface_name" in
  l ← logical "lag.bundle.member" member_path ms.2 "lag" (Some carrier) [];
  _ ← emit "lag.bundle.member" member_path [l] None None None;
  mret l.
(** [field_rows] of a bundle: the members own the member mode *)
Definition bundle_field_rows (bundle : LogicalRow) (members : list LogicalRow) (fields : list pystr) : rows_by_field :=
  map (fun f => (f, match members with
                    | [] => [bundle]
                    | _ => if bool_decide (f = "lag.member_mode") then members else [bundle]
                    end)) fields.
Definition lag_row (row : hrow) : txn Recorder json :=
  let path := keyed row "bundle" "name" in
  member_sources ← map_txn (fun m => source m "lag_member_intent" "lag" [] false JNull) (kids row "members");
  src ← source row "lag_bundle_intent" "lag" member_sources true JNull;
  bundle ← logical "lag.bundle" path src "lag" None [];
  members ← map_txn (lag_member path (lr_carrier bundle)) (zip (kids row "members") member_sources);
  fields ← lift_res (subject_fields "lag.bundle");
  _ ← emit "lag.bundle" path (bundle :: members) (Some (bundle_field_rows bundle members fields)) None None;
  mret (JObj ([leaf row "name" "name"] ++ flat_map (fun al => if_set row al.1 al.2) LAG_BUNDLE_LEAVES ++
              when_any "member" (map (fun m => JObj (lag_member_entry m)) (kids row "members")))).
(** [encode_lag] *)
Definition encode_lag (rows : hydrated) (ex : SectionExecution) : res EncodedSection :=
  recording "lag" ex (
    l ← lift_res (rows_in rows "lag_bundle_intent");
    bundles ← map_txn lag_row l;
    finish [("bundle", JArr bundles)]).
