(* ===== verification/EncodeRouting.v ===== *)
(** * Section encoders: IS-IS, OSPF and BGP

    src/nso_adapter/nso/apply.py: the encoders that nest redistribution, flex-algo and per-level rows under their process, and
    address families and peers under their BGP router, creating a parent for a child that has none.  The dictionaries that share
    a process or router entry by reference are one tree here, updated at the key. *)

From stdpp Require Import base list.
From Stdlib Require Import ZArith NArith Lia.
From S2P Require Import Prelude Json Text Dialect RefusalProtocol Registry Document Asn Identity StaticPlan Hydrate Origins Encode.
Local Open Scope py_scope.
Local Open Scope Z_scope.

(** [d.setdefault(k, []).append(x)] *)
Definition push {K V} `{EqDecision K} (d : list (K * list V)) (k : K) (x : V) : list (K * list V) := dict_set d k (default [] (dict_get d k) ++ [x]).
Definition group_get {K V} `{EqDecision K} (d : list (K * list V)) (k : K) : list V := default [] (dict_get d k).

Fixpoint fold_txn {S A B} (f : B -> A -> txn S B) (l : list A) (b : B) : txn S B :=
  match l with [] => mret b | x :: l => b ← f b x; fold_txn f l b end.

(** [int(row.field)] of an integer column *)
Definition as_int (row : hrow) (field : pystr) : res json := z ← int_item (attr row field); Ok (JInt z).
Definition int_if_set (row : hrow) (field name : pystr) : res pydict :=
  match attr row field with JNull => Ok [] | _ => v ← as_int row field; Ok [(name, v)] end.
Definition bool_if_set (row : hrow) (field name : pystr) : pydict :=
  match attr row field with JNull => [] | _ => [(name, as_bool row field)] end.
(** [bool(row.field) if row.field is not None else d] *)
Definition bool_or (row : hrow) (field : pystr) (d : bool) : json := match attr row field with JNull => JBool d | _ => as_bool row field end.
(** [row.process_tag or ''] *)
Definition tag_of (row : hrow) : json := or_text (attr row "process_tag").
(** [str(v)] of a text or integer column *)
Definition text_of (v : json) : res json :=
  match v with
  | JStr s => Ok (JStr s)
  | JInt z => Ok (JStr (py_str_int z))
  | JNull => Ok (JStr "None")
  | _ => Raise (TypeError "not a text column")
  end.

(** [isis_level] *)
Definition isis_level (v : json) : json := if is_str v "level-2" then JStr "level-2-only" else v.

(** [_redistribute_entry], [_bgp_redistribute_entry] *)
Definition source_ref_leaf (row : hrow) (ned_id : option pystr) : res json :=
  if is_str (attr row "source_protocol") "bgp" then s ← checked_intent_source_ref (attr row "source_ref") ned_id; Ok (JStr s)
  else Ok (attr row "source_ref").
Definition bgp_redistribute_entry (row : hrow) (ned_id : option pystr) : res pydict :=
  reference ← source_ref_leaf row ned_id;
  Ok ([leaf row "source_protocol" "source-protocol"; ("source-ref", reference)] ++ if_true row "route_map" "route-map" ++ if_set row "metric" "metric").
Definition redistribute_entry (row : hrow) (ned_id : option pystr) : res pydict :=
  e ← bgp_redistribute_entry row ned_id; Ok (e ++ if_true row "metric_type" "metric-type").
Definition redistribute_step (e : pydict) : pystr * list keyval := ("redistribute", [key_of (get e "source-protocol"); key_of (get e "source-ref")]).
Definition process_step (tag : json) : pystr * list keyval := ("process-config", [key_of tag]).

(** Entries and contributors by process *)
Definition by_tag (V : Type) : Type := list (json * list V).
Definition contributor_sources (children : by_tag LogicalRow) (tag : json) : list SourceRef := flat_map lr_sources (group_get children tag).

(** One nested row: its entry under its process tag, its logical row among the process's contributors *)
Definition nested_row (subject table stream : pystr) (tag : hrow -> json) (entry : hrow -> res pydict) (step : pydict -> pystr * list keyval)
    (acc : by_tag json * by_tag LogicalRow) (row : hrow) : txn Recorder (by_tag json * by_tag LogicalRow) :=
  e ← lift_res (entry row);
  l ← origin_row subject [process_step (tag row); step e] row table stream;
  mret (push acc.1 (tag row) (JObj e), push acc.2 (tag row) l).
Definition nested_rows (subject table stream : pystr) (tag : hrow -> json) (entry : hrow -> res pydict) (step : pydict -> pystr * list keyval)
    (rows : hydrated) (children : by_tag LogicalRow) : txn Recorder (by_tag json * by_tag LogicalRow) :=
  l ← lift_res (rows_in rows table);
  fold_txn (nested_row subject table stream tag entry step) l ([], children).
Definition dest_ref (row : hrow) : json := attr row "dest_ref".

(** ** IS-IS *)

(** [_isis_process_entry] *)
Definition auth_leaves (row : hrow) (type_field type_leaf key_field key_leaf : pystr) : pydict :=
  if json_truthy (attr row type_field) then (type_leaf, attr row type_field) :: if_set row key_field key_leaf else [].
Definition isis_process_entry (row : hrow) (redistribute : list json) : pydict :=
  [("process-tag", tag_of row)] ++ if_set row "net" "net" ++
  (if json_truthy (attr row "is_type") then [("is-type", isis_level (attr row "is_type"))] else []) ++
  if_true row "metric_style" "metric-style" ++ bool_if_set row "overload_bit" "overload-bit" ++
  auth_leaves row "area_auth_type" "area-auth-type" "area_auth_key" "area-auth-key" ++
  auth_leaves row "domain_auth_type" "domain-auth-type" "domain_auth_key" "domain-auth-key" ++
  if_true row "fast_reroute" "fast-reroute" ++ bool_if_set row "microloop_avoidance" "microloop-avoidance" ++
  when_any "redistribute" redistribute.
(** [_isis_flex_algo_entry] *)
Definition isis_flex_algo_entry (row : hrow) : res pydict :=
  algo ← as_int row "algo_id";
  priority ← int_if_set row "priority" "priority";
  Ok ([("algo-id", algo)] ++ if_true row "metric_type" "metric-type" ++ priority ++ if_true row "admin_group_exclude" "admin-group-exclude" ++
      if_true row "admin_group_include_any" "admin-group-include-any" ++ if_true row "admin_group_include_all" "admin-group-include-all").
(** [_isis_level_entry] *)
Definition isis_level_entry (row : hrow) : res pydict :=
  level ← as_int row "level";
  preference ← int_if_set row "labeled_preference" "labeled-preference";
  Ok ([("level", level)] ++ bool_if_set row "wide_metrics_only" "wide-metrics-only" ++ preference ++ bool_if_set row "disabled" "disabled").
(** [build_isis_interface_payload] on one row *)
Definition isis_interface_entry (row : hrow) : res pydict :=
  Ok ([leaf row "interface_name" "interface-name"; leaf row "af" "af"; ("process-tag", tag_of row); ("passive", bool_or row "passive" false)] ++
      (if json_truthy (attr row "circuit_type") then [("circuit-type", isis_level (attr row "circuit_type"))] else []) ++
      if_true row "network_type" "network-type" ++ if_set row "metric" "metric" ++ bool_if_set row "bfd_enabled" "bfd-enabled" ++
      bool_if_set row "frr_enabled" "frr-enabled" ++ if_true row "frr_protection" "frr-protection").

(** The processes of the section: the rows' own entries, then an entry for each tag only children name *)
Definition processes : Type := list (json * pydict).
Definition attach_children (name : pystr) (groups : by_tag json) (ps : processes) : processes :=
  fold_left (fun ps te => dict_set ps te.1 (dict_set (default [("process-tag", te.1)] (dict_get ps te.1)) name (JArr te.2))) groups ps.
Definition orphan_redistribution (groups : by_tag json) (ps : processes) : processes :=
  fold_left (fun ps te => if dict_mem ps te.1 then ps else ps ++ [(te.1, [("process-tag", te.1); ("redistribute", JArr te.2)])]) groups ps.

Definition isis_process_row (redist : by_tag json) (children : by_tag LogicalRow) (acc : processes * list (json * LogicalRow)) (row : hrow) :
    txn Recorder (processes * list (json * LogicalRow)) :=
  let tag := tag_of row in
  src ← source row "isis_process_intent" "isis" (contributor_sources children tag) true JNull;
  l ← logical "isis.process-config" [process_step tag] src "isis" None [];
  mret (dict_set acc.1 tag (isis_process_entry row (group_get redist tag)), dict_set acc.2 tag l).

(** The origin of one process: its row owns the fields, its children contribute *)
Definition emit_process (subject : pystr) (own : list (json * LogicalRow)) (children : by_tag LogicalRow) (tag : json) : txn Recorder unit :=
  fields ← lift_res (subject_fields subject);
  let mine := dict_get own tag in
  let contributors := match mine with Some l => [l] | None => [] end ++ group_get children tag in
  let field_rows := match mine with Some l => Some (map (fun f => (f, [l])) fields) | None => None end in
  _ ← emit subject [process_step tag] contributors field_rows None None;
  mret tt.

(** [encode_isis] *)
Definition encode_isis (rows : hydrated) (ex : SectionExecution) : res EncodedSection :=
  recording "isis" ex (
    '(redist, children) ← nested_rows "isis.process-config.redistribute" "redistribution_intent" "isis" dest_ref
        (fun row => redistribute_entry row (sx_ned_id ex)) redistribute_step rows [];
    '(flex, children) ← nested_rows "isis.process-config.flex-algo" "isis_flex_algo_intent" "isis_flex_algo" tag_of isis_flex_algo_entry
        (fun e => ("flex-algo", [key_of (get e "algo-id")])) rows children;
    '(levels, children) ← nested_rows "isis.process-config.level" "isis_level_intent" "isis" tag_of isis_level_entry
        (fun e => ("level", [key_of (get e "level")])) rows children;
    own_rows ← lift_res (rows_in rows "isis_process_intent");
    '(ps, own) ← fold_txn (isis_process_row redist children) own_rows ([], []);
    let ps := attach_children "level" levels (attach_children "flex-algo" flex (orphan_redistribution redist ps)) in
    _ ← for_all (emit_process "isis.process-config" own children) (dict_keys ps);
    interfaces ← encode_list "isis.interface-config" "isis_interface_intent" "isis" isis_interface_entry
        (fun row => [("interface-config", [key_of (attr row "interface_name"); key_of (attr row "af")])]) rows;
    finish (when_any "interface-config" interfaces ++ when_any "process-config" (map (fun te => JObj te.2) ps))).

(** ** OSPF *)

(** [_ospf_process_entry] *)
Definition ospf_process_entry (row : hrow) (pid : json) (redistribute : list json) : pydict :=
  [("process-id", pid)] ++ if_true row "router_id" "router-id" ++ if_true row "vrf" "vrf" ++ [("enabled", bool_or row "enabled" true)] ++
  when_any "redistribute" redistribute.
(** [_ospf_interface_entry] *)
Definition ospf_interface_entry (row : hrow) : res pydict :=
  pid ← text_of (attr row "process_id");
  priority ← int_if_set row "priority" "priority";
  cost ← int_if_set row "cost" "cost";
  Ok ([leaf row "interface_name" "interface-name"; ("process-id", pid); leaf row "area_id" "area-id"; ("passive", bool_or row "passive" false)] ++
      priority ++ cost ++ if_true row "network_type" "network-type" ++
      (if json_truthy (attr row "auth_type") then leaf row "auth_type" "auth-type" :: if_true row "auth_key" "auth-key" else [])).

Definition ospf_process_row (redist : by_tag json) (children : by_tag LogicalRow) (acc : list json * list json) (row : hrow) :
    txn Recorder (list json * list json) :=
  pid ← lift_res (text_of (attr row "process_id"));
  src ← source row "ospf_instance_intent" "ospf" (contributor_sources children pid) true JNull;
  l ← logical "ospf.process-config" [process_step pid] src "ospf" None [];
  fields ← lift_res (subject_fields "ospf.process-config");
  _ ← emit "ospf.process-config" [process_step pid] (l :: group_get children pid) (Some (map (fun f => (f, [l])) fields)) None None;
  mret (acc.1 ++ [JObj (ospf_process_entry row pid (group_get redist pid))], acc.2 ++ [pid]).
(** A redistribution whose process has no row *)
Definition ospf_orphan (children : by_tag LogicalRow) (acc : list json * list json) (group : json * list json) : txn Recorder (list json * list json) :=
  if bool_decide (group.1 ∈ acc.2) then mret acc
  else
    _ ← emit "ospf.process-config" [process_step group.1] (group_get children group.1) None None None;
    mret (acc.1 ++ [JObj [("process-id", group.1); ("enabled", JBool true); ("redistribute", JArr group.2)]], acc.2 ++ [group.1]).

(** [encode_ospf] *)
Definition encode_ospf (rows : hydrated) (ex : SectionExecution) : res EncodedSection :=
  recording "ospf" ex (
    '(redist, children) ← nested_rows "ospf.process-config.redistribute" "redistribution_intent" "ospf" dest_ref
        (fun row => redistribute_entry row (sx_ned_id ex)) redistribute_step rows [];
    own_rows ← lift_res (rows_in rows "ospf_instance_intent");
    acc ← fold_txn (ospf_process_row redist children) own_rows ([], []);
    '(ps, _) ← fold_txn (ospf_orphan children) redist acc;
    interfaces ← encode_list "ospf.interface-config" "ospf_interface_intent" "ospf" ospf_interface_entry
        (fun row => keyed row "interface-config" "interface_name") rows;
    finish (when_any "interface-config" interfaces ++ when_any "process-config" ps)).

(** ** BGP *)

Inductive bgp_key := KRouter (asn : N) | KScope (asn : N) (vrf : json) | KAf (asn : N) (vrf af : json).
#[global] Instance bgp_key_eq_dec : EqDecision bgp_key. Proof. solve_decision. Defined.

(** [_BgpConstruct] *)
Record BgpConstruct := mkConstruct {
  bc_subject : pystr; bc_path : natural_path; bc_contributors : list LogicalRow; bc_sources : list SourceRef;
  bc_field_rows : option rows_by_field; bc_field_sources : option sources_by_field }.
Definition constructs : Type := list (bgp_key * BgpConstruct).

Record BgpAf := mkAf { ba_afi : json; ba_redistribute : list json }.
Record BgpScope := mkScope { bs_vrf : json; bs_afs : list BgpAf; bs_peers : list json }.
Record BgpRouter := mkRouter { br_asn : N; br_scopes : list BgpScope; br_router_id : pydict }.
Definition af_json (a : BgpAf) : json := JObj ([("afi", ba_afi a)] ++ when_any "redistribute" (ba_redistribute a)).
Definition scope_json (s : BgpScope) : json :=
  JObj [("vrf", bs_vrf s); ("address-family", JArr (map af_json (bs_afs s))); ("peer", JArr (bs_peers s))].
Definition router_json (r : BgpRouter) : json :=
  JObj ([("asn", JInt (Z.of_N (br_asn r))); ("scope", JArr (map scope_json (br_scopes r)))] ++ br_router_id r).

(** [construct.contributors.append(logical); construct.sources.extend(logical.source_refs)] *)
Definition contribute (l : LogicalRow) (cs : constructs) (key : bgp_key) : constructs :=
  match dict_get cs key with
  | Some c => dict_set cs key (mkConstruct (bc_subject c) (bc_path c) (bc_contributors c ++ [l]) (bc_sources c ++ lr_sources l) (bc_field_rows c)
                                 (bc_field_sources c))
  | None => cs
  end.

(** [_bgp_nested_sources] *)
Definition peer_source (peer : hrow) : txn Recorder (SourceRef * list SourceRef) :=
  afs ← map_txn (fun af => source af "bgp_peer_af_intent" "bgp" [] false JNull) (kids peer "peer_address_families");
  src ← source peer "bgp_peer_intent" "bgp" afs false JNull;
  mret (src, afs).
Definition bgp_nested_sources (router : hrow) : txn Recorder (list SourceRef) :=
  map_txn (fun scope =>
    afs ← map_txn (fun af => source af "bgp_af_intent" "bgp" [] false JNull) (kids scope "address_families");
    peers ← map_txn peer_source (kids scope "peers");
    source scope "bgp_scope_intent" "bgp" (afs ++ map fst peers) false JNull) (kids router "scopes").

(** The optional leaves of a peer; AS numbers are rendered as asplain text *)
Definition peer_leaf (peer : hrow) (field name : pystr) : res pydict :=
  match attr peer field with
  | JNull => Ok []
  | v => if mem field ["remote_as"; "local_as"] then n ← checked_asn v "bgp_peer_intent" field; Ok [(name, JStr (str_of n))] else Ok [(name, v)]
  end.
Definition PEER_LEAVES : list (pystr * pystr) :=
  [("peer_group", "peer-group"); ("remote_as", "remote-as"); ("local_as", "local-as"); ("ttl", "ttl"); ("password", "password"); ("source", "source")].
Definition peer_af_entry (af : hrow) : json :=
  JObj ([leaf af "af" "afi"; leaf af "enabled" "enabled"] ++ if_true af "routemap_in" "routemap-in" ++ if_true af "routemap_out" "routemap-out" ++
        if_true af "prefixlist_in" "prefixlist-in" ++ if_true af "prefixlist_out" "prefixlist-out").

(** [_bgp_peer_entry] *)
Definition bgp_peer_entry (peer : hrow) (path : natural_path) (carrier : SettlementOwner) : txn Recorder (json * LogicalRow) :=
  '(src, af_sources) ← peer_source peer;
  l ← logical "bgp.router.scope.peer" path src "bgp" (Some carrier) af_sources;
  leaves ← lift_res (map_res (fun fl => peer_leaf peer fl.1 fl.2) PEER_LEAVES);
  _ ← for_all (fun fs => _ ← emit "bgp.router.scope.peer.peer-address-family" (path ++ keyed fs.1 "peer-address-family" "af") [l] None (Some [fs.2]) None;
                         mret tt) (zip (kids peer "peer_address_families") af_sources);
  fields ← lift_res (subject_fields "bgp.router.scope.peer");
  let field_sources := map (fun f => (f, match af_sources with
                                         | [] => [src]
                                         | _ => if bool_decide (f = "bgp.paf.enabled") then af_sources else [src]
                                         end)) fields in
  _ ← emit "bgp.router.scope.peer" path [l] None None (Some field_sources);
  mret (JObj ([leaf peer "peer_address" "peer-address"; leaf peer "enabled" "enabled"] ++ concat leaves ++
              [("peer-address-family", JArr (map peer_af_entry (kids peer "peer_address_families")))]), l).

Definition router_step (asn : N) : pystr * list keyval := ("router", [KVStr (str_of asn)]).
Definition scope_path (asn : N) (vrf : json) : natural_path := [router_step asn; ("scope", [key_of vrf])].
Definition af_path (asn : N) (vrf af : json) : natural_path := scope_path asn vrf ++ [("address-family", [key_of af])].

Definition add_construct (key : bgp_key) (c : BgpConstruct) (cs : constructs) : res constructs :=
  if dict_mem cs key then Raise duplicate_origin else Ok (cs ++ [(key, c)]).

(** The address families and the peers of one scope *)
Definition scope_af (asn : N) (scope : hrow) (router : LogicalRow) (cs : constructs) (af : hrow) : txn Recorder constructs :=
  src ← source af "bgp_af_intent" "bgp" [] false JNull;
  lift_res (add_construct (KAf asn (attr scope "vrf") (attr af "af"))
    (mkConstruct "bgp.router.scope.address-family" (af_path asn (attr scope "vrf") (attr af "af")) [router] [src] None None) cs).
Definition scope_peer (asn : N) (scope : hrow) (router : LogicalRow) (acc : list json * constructs) (peer : hrow) : txn Recorder (list json * constructs) :=
  '(e, l) ← bgp_peer_entry peer (scope_path asn (attr scope "vrf") ++ keyed peer "peer" "peer_address") (lr_carrier router);
  mret (acc.1 ++ [e], contribute l (contribute l acc.2 (KScope asn (attr scope "vrf"))) (KRouter asn)).

(** [_bgp_scope_entry] *)
Definition bgp_scope_entry (asn : N) (router : LogicalRow) (acc : list BgpScope * constructs) (scope : hrow) : txn Recorder (list BgpScope * constructs) :=
  let vrf := attr scope "vrf" in
  src ← source scope "bgp_scope_intent" "bgp" [] false JNull;
  cs ← lift_res (add_construct (KScope asn vrf)
         (mkConstruct "bgp.router.scope" (scope_path asn vrf) [router] [src] (Some [("bgp.scope.vrf", [router])]) (Some [("bgp.scope.vrf", [src])])) acc.2);
  cs ← fold_txn (scope_af asn scope router) (kids scope "address_families") cs;
  '(peers, cs) ← fold_txn (scope_peer asn scope router) (kids scope "peers") ([], cs);
  mret (acc.1 ++ [mkScope vrf (map (fun af => mkAf (attr af "af") []) (kids scope "address_families")) peers], cs).

Definition bgp_router_row (acc : list BgpRouter * constructs) (row : hrow) : txn Recorder (list BgpRouter * constructs) :=
  asn ← lift_res (checked_asn (attr row "asn") "bgp_router_intent" "asn");
  nested ← bgp_nested_sources row;
  src ← source row "bgp_router_intent" "bgp" nested true JNull;
  l ← logical "bgp.router" [router_step asn] src "bgp" None [];
  fields ← lift_res (subject_fields "bgp.router");
  let c := mkConstruct "bgp.router" [router_step asn] [l] [src] (Some (map (fun f => (f, [l])) fields)) (Some (map (fun f => (f, [src])) fields)) in
  '(scopes, cs) ← fold_txn (bgp_scope_entry asn l) (kids row "scopes") ([], dict_set acc.2 (KRouter asn) c);
  mret (acc.1 ++ [mkRouter asn scopes (if_true row "router_id" "router-id")], cs).

(** Update the element at a key, or append one *)
Fixpoint alter_or_add {A} (here : A -> bool) (f : A -> A) (fresh : A) (l : list A) : list A :=
  match l with [] => [f fresh] | x :: l => if here x then f x :: l else x :: alter_or_add here f fresh l end.
Definition nest_redistribution (asn : N) (vrf af e : json) (routers : list BgpRouter) : list BgpRouter :=
  alter_or_add (fun r => bool_decide (br_asn r = asn))
    (fun r => mkRouter (br_asn r)
       (alter_or_add (fun s => bool_decide (bs_vrf s = vrf))
          (fun s => mkScope (bs_vrf s)
             (alter_or_add (fun a => bool_decide (ba_afi a = af)) (fun a => mkAf (ba_afi a) (ba_redistribute a ++ [e])) (mkAf af []) (bs_afs s)) (bs_peers s))
          (mkScope vrf [] []) (br_scopes r)) (br_router_id r))
    (mkRouter asn [] []) routers.

(** [_bgp_attach_redistribution] *)
Definition bgp_attach_redistribution (ned_id : option pystr) (acc : list BgpRouter * constructs) (rd : hrow * id_part) :
    txn Recorder (list BgpRouter * constructs) :=
  match rd.2 with
  | IdDest asn [vrf; af] =>
      let vrf := JStr (PStr vrf) in let af := JStr (PStr af) in
      e ← lift_res (bgp_redistribute_entry rd.1 ned_id);
      l ← origin_row "bgp.router.scope.address-family.redistribute" (af_path asn vrf af ++ [redistribute_step e]) rd.1 "redistribution_intent" "bgp";
      let fresh subject path := mkConstruct subject path [] [] None None in
      let cs := dict_setdefault acc.2 (KRouter asn) (fresh "bgp.router" [router_step asn]) in
      let cs := dict_setdefault cs (KScope asn vrf) (fresh "bgp.router.scope" (scope_path asn vrf)) in
      let cs := dict_setdefault cs (KAf asn vrf af) (fresh "bgp.router.scope.address-family" (af_path asn vrf af)) in
      mret (nest_redistribution asn vrf af (JObj e) acc.1, fold_left (contribute l) [KRouter asn; KScope asn vrf; KAf asn vrf af] cs)
  | _ => raise (ValueError "not a BGP destination")
  end.

(** The records the AS number checks read *)
Definition redistribution_record (row : hrow) : pydict :=
  [leaf row "id" "id"; ("dest_protocol", JStr "bgp"); leaf row "dest_ref" "dest_ref"; leaf row "source_protocol" "source_protocol";
   leaf row "source_ref" "source_ref"].
Definition destination_of (record : pydict) : res id_part :=
  i ← asn_row_identity "redistribution_intent" record;
  match i with Some (_ :: d :: _) => Ok d | _ => Raise (TypeError "canonical identity") end.

Definition emit_construct (c : BgpConstruct) : txn Recorder unit :=
  _ ← emit (bc_subject c) (bc_path c) (bc_contributors c) (bc_field_rows c) (Some (fromkeys (bc_sources c))) (bc_field_sources c); mret tt.

(** [encode_bgp] *)
Definition encode_bgp (rows : hydrated) (ex : SectionExecution) : res EncodedSection :=
  recording "bgp" ex (
    router_rows ← lift_res (rows_in rows "bgp_router_intent");
    _ ← lift_res (validate_asn_rows "bgp_router_intent" (map (fun row => [leaf row "id" "id"; leaf row "asn" "asn"]) router_rows) NO_NED_CONTEXT);
    redistribution ← lift_res (rows_in rows "redistribution_intent");
    let records := map redistribution_record redistribution in
    _ ← lift_res (validate_asn_rows "redistribution_intent" records (NedContext (match sx_ned_id ex with Some s => JStr s | None => JNull end)));
    acc ← fold_txn bgp_router_row router_rows ([], []);
    '(routers, cs) ← fold_txn (fun acc rr => d ← lift_res (destination_of rr.2); bgp_attach_redistribution (sx_ned_id ex) acc (rr.1, d))
        (zip redistribution records) acc;
    _ ← for_all (fun kc => emit_construct kc.2) cs;
    finish [("router", JArr (map router_json routers))]).
