(* ===== verification/EncodePolicy.v ===== *)
(** * Section encoders: route policies and interfaces

    src/nso_adapter/nso/apply.py: policy objects with the community dialect and the route-map key spellings, and the interface
    section, which joins the attribute rows and the address rows of each interface into one entry. *)

From stdpp Require Import base list.
From Stdlib Require Import ZArith NArith Lia.
From S2P Require Import Prelude Json Text Dialect RefusalProtocol Registry Document Asn Identity StaticPlan InterfaceProof Hydrate Origins Encode EncodeRouting.
Local Open Scope py_scope.
Local Open Scope Z_scope.

(** ** Route policies *)

(** [_RM_ENTRY_KEY_MAP] *)
Definition RM_ENTRY_KEY_MAP : list (pystr * pystr) :=
  [("sequence", "sequence"); ("action", "action"); ("match-prefix-lists", "match-prefix-lists"); ("match_prefix_lists", "match-prefix-lists");
   ("match-community-lists", "match-community-lists"); ("match_community_lists", "match-community-lists");
   ("match-as-paths", "match-as-paths"); ("match_as_paths", "match-as-paths"); ("match-json", "match-json"); ("match_json", "match-json");
   ("match", "match-json"); ("set-json", "set-json"); ("set_json", "set-json"); ("set", "set-json")].

(** [json.dumps(value or {}, sort_keys=True)] of a value that is no text *)
Definition blob_text (yang_key : pystr) (v : json) : json :=
  if mem yang_key ["match-json"; "set-json"] then
    match v with JStr _ => v | _ => JStr (dumps spaced_sorted (if json_truthy v then v else JObj [])) end
  else v.

(** One member of [_normalize_route_map_entry]: the entry so far and the spelling each leaf came from *)
Definition normalize_member (acc : pydict * list (pystr * pystr)) (kv : pystr * json) : pydict * list (pystr * pystr) :=
  match dict_get RM_ENTRY_KEY_MAP kv.1 with
  | None => acc
  | Some yang_key =>
      let v := blob_text yang_key kv.2 in
      let kept := match dict_get acc.1 yang_key with
                  | Some old => negb (py_eq old v) &&
                                (bool_decide (dict_get acc.2 yang_key = Some yang_key) || negb (bool_decide (kv.1 = yang_key)))
                  | None => false
                  end in
      if kept then acc else (dict_set acc.1 yang_key v, dict_set acc.2 yang_key kv.1)
  end.
(** [_normalize_route_map_entry] *)
Definition normalize_route_map_entry (entry : pydict) : pydict := (fold_left normalize_member entry ([], [])).1.

(** [_community_member] *)
Definition community_member (entry : json) : res (pydict * pystr) :=
  match entry with
  | JObj e => match get e "community" with JStr s => Ok (e, s) | _ => Raise (NsoApplyError "invalid_route_policy_intent") end
  | _ => Raise (NsoApplyError "invalid_route_policy_intent")
  end.

(** The wire form of a community entry, or nothing when the dialect cannot hold its member *)
Definition community_entry (dialect : CommunityDialect) (entry : json) : res (option json) :=
  '(e, member) ← community_member entry;
  wire ← from_canonical dialect (py_chars member);
  match wire with
  | None => Ok None
  | Some w => Ok (Some (if bool_decide (PStr w = member) then entry else JObj (dict_set e "community" (JStr (PStr w)))))
  end.

(** ['sequence' in entry] and [entry['sequence']] *)
Definition entry_sequence (entry : json) : res (option json) :=
  match entry with
  | JObj e => Ok (dict_get e "sequence")
  | JStr s => if py_contains "sequence" s then Raise (TypeError "string indices must be integers") else Ok None
  | JArr l => if existsb (fun v => is_str v "sequence") l then Raise (TypeError "list indices must be integers") else Ok None
  | _ => Raise (TypeError "argument is not iterable")
  end.

Definition LIST_NAMES : list pystr := ["prefix-list"; "community-list"; "as-path"; "route-map"].
Definition family_text (row : hrow) : res (list N) :=
  match attr row "family" with JStr s => Ok (py_chars s) | _ => Raise (AttributeError "replace") end.
Definition policy_entries (row : hrow) : res (list json) :=
  entries ← py_iter (attr row "entries");
  Ok (if is_str (attr row "family") "route_map"
      then flat_map (fun v => match v with JObj e => [JObj (normalize_route_map_entry e)] | _ => [] end) entries else entries).

(** One entry of a policy object *)
Definition policy_entry (dialect : CommunityDialect) (row : hrow) (subject : pystr) (path : natural_path) (l : LogicalRow) (kept : list json) (entry : json) :
    txn Recorder (list json) :=
  wire ← lift_res (if is_str (attr row "family") "community_list" then community_entry dialect entry else Ok (Some entry));
  match wire with
  | None => mret kept
  | Some entry =>
      sequence ← lift_res (entry_sequence entry);
      _ ← match sequence with
          | Some s => _ ← emit (subject +:+ ".entry") (path ++ [("entry", [key_of s])]) [l] None None None; mret tt
          | None => rec_unsupported_subject (subject +:+ ".entry") missing_natural_key
          end;
      mret (kept ++ [entry])
  end.

(** One policy object, appended to its list *)
Definition policy_row (dialect : CommunityDialect) (body : list (pystr * list json)) (row : hrow) : txn Recorder (list (pystr * list json)) :=
  family ← lift_res (family_text row);
  let list_name := PStr (replace_char 95 45 family) in
  if dict_mem body list_name then
    let subject := "route-policy." +:+ list_name in
    let path := keyed row list_name "name" in
    src ← source row "route_policy_object_intent" "route_policy" [] true JNull;
    l ← logical subject path src "route_policy" None [];
    entries ← lift_res (policy_entries row);
    kept ← fold_txn (policy_entry dialect row subject path l) entries [];
    let emitted := [leaf row "name" "name"] ++
                   (if is_str (attr row "family") "community_list" then [("invert-match", as_bool row "invert_match")] else []) ++ [("entry", JArr kept)] in
    _ ← emit subject path [l] None None None;
    mret (push body list_name (JObj emitted))
  else mret body.

(** [encode_route_policy] *)
Definition encode_route_policy (rows : hydrated) (ex : SectionExecution) : res EncodedSection :=
  recording "route-policy" ex (
    l ← lift_res (rows_in rows "route_policy_object_intent");
    body ← fold_txn (policy_row (sx_dialect ex)) l (map (fun n => (n, [])) LIST_NAMES);
    finish (map (fun nl => (nl.1, JArr nl.2)) body)).

(** [unrenderable_route_policy_members] *)
Definition unrenderable_entry (dialect : CommunityDialect) (name entry : json) : res (list (json * pystr)) :=
  '(_, member) ← community_member entry;
  wire ← from_canonical dialect (py_chars member);
  Ok (match wire with None => [(name, member)] | Some _ => [] end).
Definition unrenderable_row (dialect : CommunityDialect) (row : hrow) : res (list (json * pystr)) :=
  if is_str (attr row "family") "community_list" then
    entries ← py_iter (attr row "entries"); collect (unrenderable_entry dialect (attr row "name")) entries
  else Ok [].
Definition unrenderable_route_policy_members (rows : hydrated) (dialect : CommunityDialect) : res (list (json * pystr)) :=
  l ← rows_in rows "route_policy_object_intent"; collect (unrenderable_row dialect) l.

(** ** Interfaces *)

(** [_coerce_enabled_intent]: no other value has the text of a boolean *)
Definition coerce_enabled_intent (v : json) : res json :=
  let token := match v with JStr s => lower (strip (py_chars s)) | _ => [] end in
  match v with
  | JBool b => Ok (JBool b)
  | _ => if bool_decide (token = py_chars "true") then Ok (JBool true)
         else if bool_decide (token = py_chars "false") then Ok (JBool false)
         else Raise (NsoApplyError "invalid_enabled_value")
  end.

(** [_add_nokia_routed_context] *)
Definition add_nokia_routed_context (entry : pydict) (kind : option pystr) (service parent_binding encap_tag : json) : pydict :=
  match kind with
  | None => entry
  | Some k =>
      let add d leaf v := if json_truthy v then dict_set d leaf v else d in
      add (add (add (dict_set entry "kind" (JStr k)) "service" service) "parent-binding" parent_binding) "encap-tag" encap_tag
  end.

(** [nokia_routed_kind], [nokia_attr_kind] *)
Definition nokia_routed_kind (iface : pydict) : option pystr :=
  if is_str (get iface "kind") "logical" || is_str (get iface "kind") "loopback" then
    if json_truthy (get iface "service") then
      Some (if json_truthy (get iface "vrf") && py_eq (get iface "vrf") (get iface "service") then "vprn" else "ies")
    else Some "base"
  else None.
Definition nokia_attr_kind (iface : pydict) : option pystr := if is_str (get iface "kind") "lag" then Some "lag" else nokia_routed_kind iface.
(** [iface.service if kind in ('ies', 'vprn') else None] *)
Definition service_for (kind : option pystr) (iface : pydict) : json :=
  match kind with Some k => if mem k ["ies"; "vprn"] then get iface "service" else JNull | None => JNull end.

Definition interface_step (name : json) : pystr * list keyval := ("interface", [key_of name]).
Definition writer_context (name : json) (kind : option pystr) (service parent_binding encap_tag : json) : json :=
  JArr [name; opt_str kind; service; parent_binding; encap_tag].

(** [int(text)]: a signed decimal with single underscores between digits, surrounded by white space *)
Fixpoint digit_groups (s : list N) : option (list N) :=
  match s with
  | [] => Some []
  | c :: r =>
      if (c =? 95)%N then match r with d :: _ => if (d =? 95)%N then None else digit_groups r | [] => None end
      else d ← decimal_value c; ds ← digit_groups r; Some (d :: ds)
  end.
Definition py_int (s : list N) : option Z :=
  let t := strip s in
  let '(sign, digits) := match t with
                         | c :: r => if (c =? 45)%N then (-1, r) else if (c =? 43)%N then (1, r) else (1, t)
                         | [] => (1, [])
                         end in
  match digits with
  | [] => None
  | c :: _ =>
      if (c =? 95)%N then None
      else ds ← digit_groups digits; if (length ds <=? int_max_str_digits)%nat then Some (sign * Z.of_N (of_digits 10 ds)) else None
  end.
(** [text.rsplit('/', 1)] of a text with a slash *)
Definition rsplit_slash (s : list N) : option (list N * list N) :=
  match partition_on 47 (rev s) with Some (tail, head) => Some (rev head, rev tail) | None => None end.

(** [row.address] split into the address and its prefix length *)
Definition split_address (v : json) : res (pystr * Z) :=
  match v with
  | JStr s =>
      match rsplit_slash (py_chars s) with
      | None => Raise (NsoApplyError "invalid_ip_address")
      | Some (addr, plen) => match py_int plen with Some n => Ok (PStr addr, n) | None => Raise (NsoApplyError "invalid_ip_address") end
      end
  | _ => Raise (NsoApplyError "invalid_ip_address")
  end.

Record IpAcc := mkIpAcc { ip_v4 : list json; ip_v6 : list json; ip_logicals : list LogicalRow; ip_vrf_logicals : list LogicalRow }.

(** One address row of [build_interface_ip_body] *)
Definition ip_row (name context : json) (acc : IpAcc) (row : hrow) : txn Recorder IpAcc :=
  '(addr, plen) ← lift_res (split_address (attr row "address"));
  match attr row "family" with
  | JStr family =>
      if mem family ["ipv4"; "ipv6"] then
        let subject := "interface." +:+ family +:+ "-address" in
        let path := [interface_step name; (family +:+ "-address", [KVStr addr])] in
        src ← source row "interface_ip_intent" "ip" [] true context;
        l ← logical subject path src "ip" None [];
        _ ← emit subject path [l] None None None;
        let base := [("address", JStr addr); ("prefix-length", JInt plen)] in
        let v4 := bool_decide (family = "ipv4") in
        mret (mkIpAcc (if v4 then ip_v4 acc ++ [JObj (base ++ [("secondary", as_bool row "secondary")])] else ip_v4 acc)
                (if v4 then ip_v6 acc else ip_v6 acc ++ [JObj base]) (ip_logicals acc ++ [l])
                (if json_truthy (attr row "vrf") then ip_vrf_logicals acc ++ [l] else ip_vrf_logicals acc))
      else raise (NsoApplyError "unsupported_ip_family")
  | _ => raise (NsoApplyError "unsupported_ip_family")
  end.

(** [build_interface_ip_body] *)
Definition build_interface_ip_body (name : json) (rows : list hrow) (kind : option pystr) (service parent_binding encap_tag : json) : txn Recorder pydict :=
  let vrfs := fromkeys (map (fun row => attr row "vrf") rows) in
  _ ← lift_res (guard_or (length vrfs <=? 1)%nat (OriginConstructionError "competing field producers"));
  let entry := [("interface-name", name)] ++ match vrfs with v :: _ => if json_truthy v then [("vrf", v)] else [] | [] => [] end in
  let entry := add_nokia_routed_context entry kind service parent_binding encap_tag in
  acc ← fold_txn (ip_row name (writer_context name kind service parent_binding encap_tag)) rows (mkIpAcc [] [] [] []);
  _ ← match ip_logicals acc with
      | [] => mret tt
      | _ => _ ← emit "interface.vrf" [interface_step name] (match ip_vrf_logicals acc with [] => ip_logicals acc | l => l end) None None None; mret tt
      end;
  mret (entry ++ when_any "ipv4-address" (ip_v4 acc) ++ when_any "ipv6-address" (ip_v6 acc)).

(** Entries and attribute rows by interface name *)
Definition entries_by_name : Type := list (json * pydict).
Definition attributes_by_name : Type := list (json * list (pystr * LogicalRow)).
(** [by_name.setdefault(name, {'interface-name': name})] *)
Definition named_entry (by_name : entries_by_name) (name : json) : pydict := default [("interface-name", name)] (dict_get by_name name).

Definition proof_interface (proof : InterfaceExecution) (row : hrow) : res pydict :=
  i ← int_item (attr row "interface_id"); match dict_get (ie_interfaces proof) i with Some r => Ok r | None => Raise KeyError end.
Definition eligible (proof : InterfaceExecution) (row : hrow) : bool :=
  match attr row "interface_id", attr row "attribute" with JInt i, JStr a => bool_decide ((i, a) ∈ ie_eligible proof) | _, _ => false end.

(** One row of [_interface_attribute_rows] *)
Definition attribute_row (proof : InterfaceExecution) (acc : entries_by_name * attributes_by_name) (row : hrow) :
    txn Recorder (entries_by_name * attributes_by_name) :=
  if eligible proof row then
    iface ← lift_res (proof_interface proof row);
    attribute ← lift_res (attribute_of (hr_cols row));
    _ ← lift_res (guard_or (mem attribute INTERFACE_ATTRIBUTE_LEAVES) (NsoApplyError "unsupported_attribute"));
    let name := get iface "name" in
    value ← lift_res (if bool_decide (attribute = "description")
                      then Ok (match attr row "intent_value" with JNull => JStr "" | v => v end)
                      else coerce_enabled_intent (attr row "intent_value"));
    let context := writer_context name (nokia_attr_kind iface) (get iface "service") (get iface "parent_binding") (get iface "encap_tag") in
    src ← source row "interface_intent" "interface_config" [] true context;
    l ← logical ("interface." +:+ attribute) [interface_step name] src "interface_config" None [];
    mret (dict_set acc.1 name (dict_set (named_entry acc.1 name) attribute value),
          dict_set acc.2 name (dict_set (default [] (dict_get acc.2 name)) attribute l))
  else mret acc.

(** [_interface_parent_origins] *)
Definition attribute_origin (path : natural_path) (attrs : list (pystr * LogicalRow)) (attribute : pystr) : txn Recorder unit :=
  let subject := "interface." +:+ attribute in
  match attrs with
  | [] => row ← lift_res (row_ref "interface" subject path); rec_mark_unsupported "interface" row missing_binding
  | _ => _ ← emit subject path (match dict_get attrs attribute with Some l => [l] | None => map snd attrs end) None None None; mret tt
  end.
Definition interface_parent_origins (name : json) (attrs : list (pystr * LogicalRow)) (ips : list LogicalRow) (attr_kind ip_kind : option pystr) :
    txn Recorder unit :=
  let path := [interface_step name] in
  let attr_rows := map snd attrs in
  _ ← for_all (attribute_origin path attrs) ["description"; "enabled"];
  let structural := match attr_kind, ip_kind with Some _, _ => attr_rows | None, Some _ => ips | None, None => attr_rows ++ ips end in
  fields ← lift_res (subject_fields "interface.interface");
  let field_rows := dict_set (map (fun f => (f, structural)) fields) "interface.attrs.interface_name" (match attr_rows with [] => ips | _ => attr_rows end) in
  _ ← emit "interface.interface" path (attr_rows ++ ips) (Some field_rows) None None;
  mret tt.

Record IfaceAcc := mkIfaceAcc { ia_by_name : entries_by_name; ia_ips : list (json * list LogicalRow); ia_ip_kinds : list (json * option pystr) }.

(** The addresses of one interface *)
Definition interface_addresses (proof : InterfaceExecution) (acc : IfaceAcc) (group : Z * list hrow) : txn Recorder IfaceAcc :=
  match dict_get (ie_interfaces proof) group.1 with
  | None => raise KeyError
  | Some iface =>
      let kind := nokia_routed_kind iface in
      let name := get iface "name" in
      before ← gets (fun r => length (rec_contributors r));
      entry ← build_interface_ip_body name group.2 kind (service_for kind iface) (get iface "parent_binding") (get iface "encap_tag");
      logicals ← gets (fun r => drop before (rec_contributors r));
      mret (mkIfaceAcc (dict_set (ia_by_name acc) name
                          (dict_update (named_entry (ia_by_name acc) name) (List.filter (fun kv => negb (bool_decide (kv.1 = "interface-name"))) entry)))
              (dict_set (ia_ips acc) name logicals) (dict_set (ia_ip_kinds acc) name kind))
  end.

(** The writer context an interface's attributes need *)
Definition attribute_context (attributes : attributes_by_name) (acc : entries_by_name * list (json * option pystr)) (iface : pydict) :
    res (entries_by_name * list (json * option pystr)) :=
  let name := get iface "name" in
  if dict_mem attributes name then
    let kind := nokia_attr_kind iface in
    match dict_get acc.1 name with
    | None => Raise KeyError
    | Some entry =>
        Ok (dict_set acc.1 name (add_nokia_routed_context entry kind (service_for kind iface) (get iface "parent_binding") (get iface "encap_tag")),
            dict_set acc.2 name kind)
    end
  else Ok acc.
Fixpoint fold_res {A B} (f : B -> A -> res B) (l : list A) (b : B) : res B := match l with [] => Ok b | x :: l => b ← f b x; fold_res f l b end.

(** [encode_interface_config] *)
Definition encode_interface_config (rows : hydrated) (ex : SectionExecution) : res EncodedSection :=
  recording "interface" ex (
    match sx_proof ex with
    | None => raise (AttributeError "interfaces")
    | Some proof =>
        attr_rows ← lift_res (rows_in rows "interface_intent");
        '(by_name, attributes) ← fold_txn (attribute_row proof) attr_rows ([], []);
        ip_rows ← lift_res (rows_in rows "interface_ip_intent");
        groups ← lift_res (fold_res (fun d row => i ← int_item (attr row "interface_id"); Ok (push d i row)) ip_rows []);
        acc ← fold_txn (interface_addresses proof) groups (mkIfaceAcc by_name [] []);
        '(by_name, attr_kinds) ← lift_res (fold_res (attribute_context attributes) (map snd (ie_interfaces proof)) (ia_by_name acc, []));
        _ ← for_all (fun name => interface_parent_origins name (default [] (dict_get attributes name)) (default [] (dict_get (ia_ips acc) name))
                       (default None (dict_get attr_kinds name)) (default None (dict_get (ia_ip_kinds acc) name))) (dict_keys by_name);
        finish [("interface", JArr (map (fun ne => JObj ne.2) by_name))]
    end).
