(* ===== verification/DeviceBody.v ===== *)
(** * The body of a device's document

    src/nso_adapter/core/apply.py: [encode_section], [encode_device_document] and [build_device_containers], with the retention of
    certified static routes, the recorded omissions, and the rows an apply attempts ([select_frozen_apply],
    [eligible_membership]); the certified reader of src/nso_adapter/core/static_route_reader.py; and [_unprepared_membership] of
    src/nso_adapter/core/execution.py.  NSO's answer to the service-instance read is an argument. *)

From stdpp Require Import base gmap list.
From Stdlib Require Import ZArith NArith Lia.
From S2P Require Import Prelude Json Text Dialect RefusalProtocol Registry Document Asn Identity Store Generation StaticPlan InterfaceProof Hydrate Origins Encode EncodeRouting EncodePolicy.
Local Open Scope py_scope.
Local Open Scope Z_scope.

(** ** One section *)

(** The encoder the registry binds to a section *)
Definition section_encoder (section : pystr) : option (hydrated -> SectionExecution -> res EncodedSection) :=
  dict_get [("snmp", encode_snmp); ("static_route", encode_static_route); ("logging", encode_logging); ("svi", encode_svi);
            ("subinterface", encode_subinterface); ("vlan", encode_vlan); ("bfd", encode_bfd); ("interface_mtu", encode_interface_mtu);
            ("l2_sap", encode_l2_sap); ("isis", encode_isis); ("bgp", encode_bgp); ("route_policy", encode_route_policy); ("ospf", encode_ospf);
            ("switchport", encode_switchport); ("lag", encode_lag); ("interface_config", encode_interface_config)] section.

(** [_carried]: an intent row must be accepted, a carrier has no such column *)
Definition has_accepted_at (row : hrow) : bool := mem "accepted_at" (map col_name (table_columns (hr_table row))).
Definition is_carried (row : hrow) : bool := negb (has_accepted_at row) || negb (bool_decide (attr row "accepted_at" = JNull)).
Definition carried_rows (rows : hydrated) : hydrated := map (fun tr => (tr.1, List.filter is_carried tr.2)) rows.

(** [section_execution] *)
Definition encoder_execution (document : pydict) (section : pystr) (proof : option InterfaceExecution) (context : option OriginContext) : res SectionExecution :=
  facts ← section_context document section;
  dialect ← match get facts "dialect" with JStr d => community_dialect_by_name (py_chars d) | _ => Raise KeyError end;
  Ok (mkSection (stamp_of (get facts "ned_id")) dialect proof context).

(** [_hydrated_proof] *)
Definition hydrated_proof (document : pydict) (section : pystr) : res (option InterfaceExecution) :=
  if bool_decide (section = "interface_config") then e ← hydrate_interface_execution document; Ok (Some e) else Ok None.

(** [encode_section] *)
Definition encode_section (document : pydict) (section : pystr) (rows : option hydrated) (proof : option InterfaceExecution)
    (context : option OriginContext) : res EncodedSection :=
  match section_encoder section with
  | None => Raise KeyError
  | Some encode =>
      source ← match rows with Some r => Ok r | None => section_rows_by_table document section end;
      proof ← match proof with Some p => Ok (Some p) | None => hydrated_proof document section end;
      ex ← encoder_execution document section proof context;
      match encode (carried_rows source) ex with
      | Raise (OriginConstructionError _) => Raise (NsoApplyError "origin_construction")
      | r => r
      end
  end.

(** ** The certified static-route section *)

(** [service_instance_state]: NSO's instance, or that the read was inconclusive *)
Record InstanceState := mkState { is_inconclusive : bool; is_entry : json }.

(** [CertifiedSection] *)
Inductive CertifiedSection := certified_inconclusive | certified_absent (instance : json) | certified_present (routes : list pydict) (instance : json).
Definition certified_routes (c : CertifiedSection) : list pydict := match c with certified_present routes _ => routes | _ => [] end.

(** [_certify_entry] *)
Definition certify_entry (route : json) : option pydict :=
  match route with
  | JObj r =>
      let text_or_absent k := match get r k with JNull | JStr _ => true | _ => false end in
      match get r "prefix" with
      | JStr p => if py_truthy p && text_or_absent "vrf" && text_or_absent "next-hop" then Some r else None
      | _ => None
      end
  | _ => None
  end.
(** [_project]: [None] where the code raises [_Uncertifiable] *)
Definition project (entry : json) : option (list pydict) :=
  match entry with
  | JNull => Some []
  | JObj e =>
      match dict_get e "static-route" with
      | None => if dict_mem e "route" then None else Some []
      | Some (JObj section) =>
          match dict_get section "route" with
          | None => Some []
          | Some (JArr routes) => mapM certify_entry routes
          | Some _ => None
          end
      | Some _ => None
      end
  | _ => None
  end.
(** [certified_static_route_section] *)
Definition certified_static_route_section (state : InstanceState) : CertifiedSection :=
  if is_inconclusive state then certified_inconclusive
  else match project (is_entry state) with
       | None => certified_inconclusive
       | Some [] => certified_absent (is_entry state)
       | Some routes => certified_present routes (is_entry state)
       end.

(** ** Static-route retention *)

(** [static_route_entry_key] *)
Definition static_route_entry_key (entry : pydict) : json * json * json :=
  (or_text (get entry "vrf"), or_text (get entry "prefix"), or_text (get entry "next-hop")).
Definition triple_key (t : Triple) : json * json * json := (JStr t.1.1, JStr t.1.2, JStr t.2).
Definition route_key : Type := json * json * json.

(** [overlay_retained_routes]: the loop over the retained entries *)
Fixpoint overlay_loop (retained : list pydict) (keys : list route_key) (routes : list json) (i : OriginIndex) :
    res (list route_key * list json * OriginIndex) :=
  match retained with
  | [] => Ok (keys, routes, i)
  | entry :: retained =>
      let key := static_route_entry_key entry in
      if bool_decide (key ∈ keys) then overlay_loop retained keys routes i
      else i ← record_retained i entry; overlay_loop retained (keys ++ [key]) (routes ++ [JObj entry]) i
  end.
Definition rendered_routes (body : pydict) : list pydict :=
  match get body "route" with JArr l => flat_map (fun v => match v with JObj e => [e] | _ => [] end) l | _ => [] end.
Definition overlay_retained_routes (e : EncodedSection) (retained : list pydict) : res (EncodedSection * list route_key) :=
  let routes := rendered_routes (es_body e) in
  '(keys, routes, i) ← overlay_loop retained (map static_route_entry_key routes) (map JObj routes) (es_origins e);
  Ok (mkEncoded (dict_set (es_body e) "route" (JArr routes)) i, keys).

(** [_operation_selected_routes] *)
Definition operation_selected_routes (document : pydict) : res (list Triple) :=
  operation ← section_operation document "static_route";
  removal ← or_empty (dict_get operation "removal");
  let raw := get removal "authorized_removal_keys" in
  items ← (if json_truthy raw then items_of raw else Ok []);
  keys ← map_res as_triple items;
  Ok (key_set (omap id keys)).

(** [_record_route_omissions]; Python walks a set difference, whose order is unspecified: here it is the order of the sorted keys *)
Definition omission_authority (context : option OriginContext) (row : RowRef) : option RemovalAuthority :=
  c ← context; g ← oc_generation_id c; r ← revision_of c "static_route"; Some (mkAuthority g "static_route" r "removal" row []).
Definition record_one_omission (context : option OriginContext) (i : OriginIndex) (key : Triple) : res OriginIndex :=
  row ← row_ref "static-route" "static-route.route" [("route", [KVStr key.1.1; KVStr key.1.2; KVStr key.2])];
  record_omission i (mkPrior "static-route" row (omission_authority context row)).
Definition record_route_omissions (i : OriginIndex) (document : pydict) (sent : list route_key) (context : option OriginContext) : res OriginIndex :=
  selected ← operation_selected_routes document;
  fold_res (record_one_omission context) (List.filter (fun k => negb (bool_decide (triple_key k ∈ sent))) selected) i.

(** [_static_route_snapshot]: the live entries a carrier still claims, no row renders and this operation may not remove *)
Definition retained_keys (document : pydict) (plan : SrPlan) : res (list Triple) :=
  claimed ← collect tombstone_keys (sp_tombstones plan);
  rendered ← map_res row_triple (sp_rows plan);
  selected ← operation_selected_routes document;
  Ok (List.filter (fun k => negb (in_keys k rendered) && negb (in_keys k selected)) claimed).
Definition static_route_snapshot (certified : CertifiedSection) (document : pydict) (plan : SrPlan) : res (list pydict) :=
  match certified with
  | certified_inconclusive => Raise (NsoApplyError "static_route_snapshot_inconclusive")
  | _ =>
      keep ← retained_keys document plan;
      Ok (List.filter (fun e => bool_decide (static_route_entry_key e ∈ map triple_key keep)) (certified_routes certified))
  end.

(** ** The whole document *)

Definition by_section (A : Type) : Type := list (pystr * A).

(** [encode_device_document] *)
Fixpoint encode_sections (document : pydict) (rows : by_section hydrated) (proofs : by_section InterfaceExecution) (context : option OriginContext)
    (sections : list (pystr * SectionEntry)) (acc : EncodedSection) : res EncodedSection :=
  match sections with
  | [] => Ok acc
  | (section, entry) :: sections =>
      if dict_mem document section then
        match encode_section document section (dict_get rows section) (dict_get proofs section) context with
        | Raise (NsoApplyError _) => encode_sections document rows proofs context sections acc
        | Raise e => Raise e
        | Ok encoded =>
            i ← merge_index (es_origins acc) (es_origins encoded);
            encode_sections document rows proofs context sections
              (mkEncoded (dict_set (es_body acc) (se_container entry) (JObj (es_body encoded))) i)
        end
      else encode_sections document rows proofs context sections acc
  end.
Definition encode_device_document (document : pydict) (rows : by_section hydrated) (proofs : by_section InterfaceExecution) (context : option OriginContext) :
    res EncodedSection :=
  encode_sections document rows proofs context section_registry (mkEncoded [] empty_index).

(** [DeviceBody] *)
Record DeviceBody := mkBody {
  db_containers : pydict; db_sent_routes : option (list route_key); db_errors : list (pystr * pystr); db_origins : OriginIndex;
  db_static_route : option CertifiedSection }.

(** One section of [build_device_containers]: its body, or an error with the origins its encoder identified *)
Inductive section_outcome :=
| built (e : EncodedSection) (sent : option (list route_key)) (certified : option CertifiedSection)
| failed (code : pystr) (origins : option OriginIndex).

(** [except NsoApplyError as exc] *)
Definition or_failed (encoded : option EncodedSection) (r : res section_outcome) : res section_outcome :=
  match r with Raise (NsoApplyError code) => Ok (failed code (es_origins <$> encoded)) | r => r end.

Section Build.
Context (gate : bool) (read : InstanceState) (document : pydict) (rows : by_section hydrated) (proofs : by_section InterfaceExecution).
Context (plan : option SrPlan) (retain : bool) (context : option OriginContext) (supplied : option CertifiedSection).

Definition complete_section (section : pystr) (encoded : EncodedSection) : res section_outcome :=
  if bool_decide (section = "logging") then
    source ← match dict_get rows section with Some r => Ok r | None => section_rows_by_table document section end;
    _ ← refuse_gated_local_levels gate (carried_rows source);
    Ok (built encoded None None)
  else if bool_decide (section = "static_route") then
    '(certified, retained) ← (if retain then
        plan ← match plan with Some p => Ok p | None => hydrate_static_route_apply_plan document end;
        let certified := default (certified_static_route_section read) supplied in
        retained ← static_route_snapshot certified document plan;
        Ok (Some certified, retained)
      else Ok (supplied, []));
    '(encoded, keys) ← overlay_retained_routes encoded retained;
    i ← record_route_omissions (es_origins encoded) document keys context;
    Ok (built (mkEncoded (es_body encoded) i) (Some keys) certified)
  else Ok (built encoded None None).

Definition build_section (section : pystr) : res section_outcome :=
  match encode_section document section (dict_get rows section) (dict_get proofs section) context with
  | Ok encoded => or_failed (Some encoded) (complete_section section encoded)
  | Raise e => or_failed None (Raise e)
  end.

Definition add_outcome (section : pystr) (entry : SectionEntry) (acc : DeviceBody) (o : section_outcome) : res DeviceBody :=
  match o with
  | built e sent certified =>
      i ← merge_index (db_origins acc) (es_origins e);
      Ok (mkBody (dict_set (db_containers acc) (se_container entry) (JObj (es_body e)))
            (match sent with Some _ => sent | None => db_sent_routes acc end) (db_errors acc) i
            (match certified with Some _ => certified | None => db_static_route acc end))
  | failed code origins =>
      i ← match origins with Some o => merge_index (db_origins acc) o | None => Ok (db_origins acc) end;
      Ok (mkBody (db_containers acc) (db_sent_routes acc) (dict_set (db_errors acc) section code) i (db_static_route acc))
  end.

Fixpoint build_sections (sections : list (pystr * SectionEntry)) (acc : DeviceBody) : res DeviceBody :=
  match sections with
  | [] => Ok acc
  | (section, entry) :: sections =>
      if dict_mem document section then
        o ← build_section section;
        acc ← add_outcome section entry acc o;
        build_sections sections acc
      else build_sections sections acc
  end.

(** [build_device_containers]; [gate] is the local-levels write gate and [read] NSO's answer to the instance read *)
Definition build_device_containers : res DeviceBody := build_sections section_registry (mkBody [] None [] empty_index supplied).
End Build.

(** ** The rows an apply attempts *)

(** [_is_eligible] *)
Definition is_eligible (force : bool) (row : hrow) : bool :=
  negb (bool_decide (attr row "accepted_at" = JNull)) &&
  (force || bool_decide (attr row "last_apply_at" = JNull) || negb (bool_decide (attr row "last_apply_error" = JNull))).

(** [FrozenApplySelection] *)
Record FrozenApplySelection := mkSelection {
  fs_sections : list pystr; fs_executed : list (pystr * pystr); fs_force : bool; fs_rows : by_section hydrated; fs_hydrated : by_section hydrated;
  fs_interface : option InterfaceExecution; fs_attributes : list hrow; fs_static_route : option SrPlan }.

Definition executes (s : FrozenApplySelection) (section table : pystr) : bool := bool_decide ((section, table) ∈ fs_executed s).
(** [FrozenApplySelection.push] *)
Definition push_rows (s : FrozenApplySelection) (section table : pystr) : list hrow :=
  if executes s section table then List.filter (is_eligible (fs_force s)) (default [] (dict_get (default [] (dict_get (fs_hydrated s) section)) table)) else [].

(** The static-route plan's rows as instances *)
Definition plan_rows (table : pystr) (rows : list pydict) : list hrow := map (fun r => HRow table r []) rows.

(** [_stampable] *)
Definition stampable_spec (s : Spec) : bool := match sp_parent s with None => negb (sp_lifecycle s) | Some _ => false end.

(** [FrozenApplySelection.sent] *)
Definition sent_rows (s : FrozenApplySelection) (section : pystr) : list hrow :=
  match bool_decide (section = "static_route"), fs_static_route s with
  | true, Some plan => if executes s section SR_INTENT then plan_rows SR_INTENT (sp_rows plan) else []
  | _, _ =>
      if bool_decide (section = "interface_config") then []
      else match dict_get section_registry section with
           | Some entry => flat_map (fun sp => push_rows s section (tablename (sp_model sp))) (List.filter stampable_spec (se_tables entry))
           | None => []
           end
  end.

(** [FrozenApplySelection.identities] *)
Definition row_join (row : hrow) : list (pystr * Z) := match attr row "id" with JInt i => [(hr_table row, i)] | _ => [] end.
Definition selection_identities (s : FrozenApplySelection) : list (pystr * Z) :=
  flat_map row_join (flat_map (fun sr => sent_rows s sr.1) (fs_rows s) ++ fs_attributes s ++
                     (if dict_mem (fs_rows s) "interface_config" then push_rows s "interface_config" INTERFACE_IP_INTENT else [])).

(** The executed [(section, table)] pairs of the carried streams *)
Definition executed_tables (streams : list pystr) : res (list (pystr * pystr)) :=
  pairs ← map_res (fun st => section ← stream_section st; ts ← stream_tables st; Ok (map (fun t => (section, t)) ts)) streams; Ok (concat pairs).

(** The sections of a document with their rows: a recorded static-route plan owns its own *)
Fixpoint selected_rows (document : pydict) (plan : option SrPlan) (sections : list (pystr * SectionEntry)) : res (by_section (hydrated * hydrated)) :=
  match sections with
  | [] => Ok []
  | (section, _) :: sections =>
      if dict_mem document section then
        h ← hydrate_section document section;
        let by_table := rows_by_table section h in
        let by_table := match bool_decide (section = "static_route"), plan with
                        | true, Some p => dict_set (dict_set by_table SR_INTENT (plan_rows SR_INTENT (sp_rows p))) SR_TOMBSTONE (plan_rows SR_TOMBSTONE (sp_tombstones p))
                        | _, _ => by_table
                        end in
        rest ← selected_rows document plan sections;
        Ok ((section, (by_table, h)) :: rest)
      else selected_rows document plan sections
  end.

Definition check_interface_rows (interface : InterfaceExecution) (h : hydrated) : res unit :=
  guard_or (forallb (fun row => match attr row "interface_id" with JInt i => dict_mem (ie_interfaces interface) i | _ => false end)
              (default [] (dict_get h INTERFACE_INTENT) ++ default [] (dict_get h INTERFACE_IP_INTENT)))
    (ValueError "interface_config document has no context for interface id").

(** [select_frozen_apply] *)
Definition select_frozen_apply (document : pydict) (streams : list pystr) (force : bool) : res FrozenApplySelection :=
  sections ← map_res stream_section streams;
  executed ← executed_tables streams;
  plan ← (if dict_mem document "static_route" then p ← hydrate_static_route_apply_plan document; Ok (Some p) else Ok None);
  rows ← selected_rows document plan section_registry;
  let loaded := map (fun sr => (sr.1, sr.2.2)) (List.filter (fun sr => mem sr.1 sections || bool_decide (sr.1 = "interface_config")) rows) in
  let selection interface attributes := mkSelection sections executed force (map (fun sr => (sr.1, sr.2.1)) rows) loaded interface attributes plan in
  if dict_mem document "interface_config" then
    interface ← hydrate_interface_execution document;
    let h := default [] (dict_get loaded "interface_config") in
    _ ← check_interface_rows interface h;
    let attributes := if bool_decide (("interface_config", INTERFACE_INTENT) ∈ executed)
                      then List.filter (eligible interface) (default [] (dict_get h INTERFACE_INTENT)) else [] in
    Ok (selection (Some interface) attributes)
  else Ok (selection None []).

(** [eligible_membership] *)
Definition joins_carrier (identities : list (pystr * Z)) (l : LogicalRow) : bool :=
  existsb (fun s => match sr_live_join s with Some j => bool_decide (j ∈ identities) | None => false end &&
                    bool_decide (sr_table s = so_table (lr_carrier l)) && bool_decide (sr_content s = so_content (lr_carrier l))) (lr_sources l).
Definition eligible_membership (membership : list LogicalRow) (s : FrozenApplySelection) : list LogicalRow :=
  let identities := selection_identities s in
  let carriers := map lr_carrier (List.filter (joins_carrier identities) membership) in
  List.filter (fun l => bool_decide (lr_carrier l ∈ carriers)) membership.

Definition WORKER_APPLY_FORCE : bool := true.

(** [_unprepared_membership] *)
Definition unprepared_membership (removal : bool) (gs : list Generation) : res (list LogicalRow) :=
  context ← execution_context gs;
  match last gs with
  | None => Raise (ValueError "Execution requires a carried generation")
  | Some g =>
      _ ← validate_generation_execution g;
      if removal then
        encoded ← encode_device_document (g_document g) [] [] (Some context);
        Ok (current_membership (es_origins encoded) context)
      else
        selection ← select_frozen_apply (g_document g) (remove_dups (flat_map (fun g => map fst (g_stream_revisions g)) gs)) WORKER_APPLY_FORCE;
        encoded ← encode_device_document (g_document g) (fs_rows selection)
                    (match fs_interface selection with Some p => [("interface_config", p)] | None => [] end) (Some context);
        Ok (eligible_membership (current_membership (es_origins encoded) context) selection)
  end.
