(* ===== verification/OriginProps.v ===== *)
(** * Well-formed origins

    A small program logic for encoders: [keeps Φ m] says that [m] leaves the recorder well formed and returns a value in [Φ].  In a
    well-formed recorder every construct and declared field has one producer, and every binding is of one stream, with rows that
    carry their stream's frozen push, revision and generation. *)

From stdpp Require Import base list sets.
From Stdlib Require Import ZArith NArith Lia.
From S2P Require Import Prelude Json Sha256 RefusalProtocol Registry Document Asn Identity Store Hydrate Origins Encode EncodeRouting EncodePolicy.
Local Open Scope py_scope.
Local Open Scope Z_scope.

(** ** Dictionaries and first occurrences *)


Section Keys.
Context {K V : Type} `{EqDecision K}.
Implicit Types d : list (K * V).

Lemma dict_mem_keys d k : dict_mem d k = true ↔ k ∈ dict_keys d.
Proof. unfold dict_mem. rewrite <-dict_get_in_keys. destruct (dict_get d k) as [v|]; split; [by exists v|done|done|by intros []]. Qed.
Lemma dict_get_app d e k : dict_get (d ++ e) k = match dict_get d k with Some v => Some v | None => dict_get e k end.
Proof. induction d as [|[k' v'] d IH]; simpl; [done|]. destruct (decide (k = k')); done. Qed.
Lemma dict_pop_keys d k : dict_keys (dict_pop d k) = List.filter (fun k' => negb (bool_decide (k' = k))) (dict_keys d).
Proof. unfold dict_keys, dict_pop. induction d as [|[k' v'] d IH]; simpl; [done|]. destruct (bool_decide (k' = k)); simpl; by rewrite ?IH. Qed.
Lemma in_dict_set d k v k' v' : (k', v') ∈ dict_set d k v → (k' = k ∧ v' = v) ∨ (k', v') ∈ d.
Proof.
  induction d as [|[k0 v0] d IH]; simpl; [rewrite list_elem_of_singleton; intros [= -> ->]; by left|].
  destruct (decide (k = k0)) as [->|]; rewrite !elem_of_cons.
  - intros [[= -> ->]|?]; [by left|by right; right].
  - intros [?|H]; [by right; left|]. destruct (IH H); [by left|by right; right].
Qed.
Lemma filter_sub {A} (f : A -> bool) (l : list A) x : x ∈ List.filter f l → x ∈ l.
Proof. rewrite !list_elem_of_In. by intros [? _]%filter_In. Qed.
Lemma update_disjoint (e d : list (K * V)) : NoDup (dict_keys e) → (∀ k, k ∈ dict_keys e → k ∉ dict_keys d) → update_dict d e = d ++ e.
Proof.
  unfold update_dict, dict_keys. revert d. induction e as [|[k v] e IH]; intros d; simpl; [by rewrite app_nil_r|].
  intros [Hk He]%NoDup_cons Hd. rewrite dict_set_fresh by (apply Hd; left). rewrite IH, <-app_assoc; [done|done|].
  intros k' Hk'. unfold dict_keys. rewrite map_app, elem_of_app. simpl. rewrite list_elem_of_singleton. intros [H| ->]; [|done].
  apply (Hd k'); [by right|done].
Qed.
End Keys.

Section Fromkeys.
Context {A : Type} `{EqDecision A}.
Lemma elem_of_fromkeys_loop (l seen : list A) x : x ∈ fromkeys_loop seen l ↔ x ∈ l ∧ x ∉ seen.
Proof.
  revert seen. induction l as [|y l IH]; intros seen; simpl; [set_solver|].
  case_bool_decide as Hy; rewrite ?elem_of_cons, IH; [set_solver|]. destruct (decide (x = y)) as [->|]; set_solver.
Qed.
Lemma elem_of_fromkeys (l : list A) x : x ∈ fromkeys l ↔ x ∈ l.
Proof. unfold fromkeys. rewrite elem_of_fromkeys_loop. set_solver. Qed.
Lemma fromkeys_singleton (l : list A) x : fromkeys l = [x] → ∀ y, y ∈ l → y = x.
Proof. intros H y Hy. apply elem_of_fromkeys in Hy. rewrite H in Hy. by apply list_elem_of_singleton. Qed.
Lemma fromkeys_nonempty (l : list A) : l ≠ [] → fromkeys l ≠ [].
Proof. destruct l as [|x l]; [done|]. intros _ H. assert (x ∈ fromkeys (x :: l)) as Hx by (rewrite elem_of_fromkeys; left). rewrite H in Hx. set_solver. Qed.
Lemma fromkeys_one (x : A) : fromkeys [x] = [x].
Proof. done. Qed.
Lemma fromkeys_Forall (P : A -> Prop) (l : list A) : Forall P l → Forall P (fromkeys l).
Proof. rewrite !Forall_forall. intros H x Hx. by apply H, elem_of_fromkeys. Qed.
End Fromkeys.

(** ** Well-formed indexes *)

Section Good.
Context (F : pystr) (C : OriginContext) (V : SourceRef -> Prop).

Definition good_source (stream : pystr) (s : SourceRef) : Prop := V s ∧ sr_revision s = revision_of C stream.

(** A logical row stamped with the frozen facts of its stream, settled by a carrier of the same stream *)
Record good_row (l : LogicalRow) : Prop := {
  good_push : lr_push_seq l = push_seq_of (for_stream C (lr_stream l)) (lr_stream l);
  good_generation : lr_generation l = oc_generation_id (for_stream C (lr_stream l));
  good_revision : lr_revision l = revision_of C (lr_stream l);
  good_carrier : so_stream (lr_carrier l) = lr_stream l;
  good_present : lr_sources l ≠ [];
  good_sources : Forall V (lr_sources l) }.

Record good_binding (k : OriginKey) (b : OriginBinding) : Prop := {
  gb_family : ok_family k = F;
  gb_current : ob_provenance b = Current;
  gb_nonempty : ob_rows b ≠ [];
  gb_rows : ∀ l, l ∈ ob_rows b → good_row l ∧ lr_stream l = ob_stream b;
  gb_present : ob_sources b ≠ [];
  gb_sources : Forall V (ob_sources b) }.

Record good_index (i : OriginIndex) : Prop := {
  gi_unique : NoDup (index_keys i);
  gi_bindings : ∀ k b, (k, b) ∈ oi_bindings i → good_binding k b;
  gi_family : ∀ k, k ∈ index_keys i → ok_family k = F;
  gi_reasons : ∀ k reason, (k, reason) ∈ oi_unsupported i → reason = missing_binding ∨ reason = mixed_stream;
  gi_subjects : ∀ s reason, (s, reason) ∈ oi_unsupported_subjects i → reason = missing_natural_key;
  gi_retained : oi_retained i = [];
  gi_omitted : oi_omitted i = [] }.

Record good_recorder (r : Recorder) : Prop := {
  gr_family : rec_family r = F;
  gr_context : rec_context r = C;
  gr_index : good_index (rec_index r);
  gr_contributors : Forall good_row (rec_contributors r);
  gr_distinct : NoDup (rec_contributor_keys r);
  gr_keys : ∀ l, l ∈ rec_contributors r → (lr_stream l, lr_row l) ∈ rec_contributor_keys r }.

Definition keeps {A} (Φ : A -> Prop) (m : txn Recorder A) : Prop :=
  ∀ r a r', good_recorder r → m r = Ok (a, r') → good_recorder r' ∧ Φ a.
Definition any {A} (_ : A) : Prop := True.

(** ** The rules *)

Lemma keeps_ret {A} (Φ : A -> Prop) a : Φ a → keeps Φ (mret a).
Proof. by intros H r ? ? Hr [= <- <-]. Qed.
Lemma keeps_bind {A B} (Φ : A -> Prop) (Ψ : B -> Prop) m f : keeps Φ m → (∀ a, Φ a → keeps Ψ (f a)) → keeps Ψ (m ≫= f).
Proof. intros Hm Hf r b r' Hr (a & s & H1 & H2)%txn_bind_Ok. destruct (Hm _ _ _ Hr H1) as [Hs Ha]. by apply (Hf a Ha s). Qed.
Lemma keeps_weaken {A} (Φ Ψ : A -> Prop) m : keeps Φ m → (∀ a, Φ a → Ψ a) → keeps Ψ m.
Proof. intros Hm H r a r' Hr E. destruct (Hm _ _ _ Hr E). auto. Qed.
Lemma keeps_raise {A} (Φ : A -> Prop) e : keeps Φ (raise e).
Proof. by intros r a r' Hr [=]. Qed.
Lemma keeps_lift {A} (Φ : A -> Prop) (x : res A) : (∀ a, x = Ok a → Φ a) → keeps Φ (lift_res x).
Proof. intros H r a r' Hr. unfold lift_res. destruct x; [|done]. intros [= <- <-]. auto. Qed.
Lemma keeps_gets {A} (Φ : A -> Prop) f : (∀ r, good_recorder r → Φ (f r)) → keeps Φ (gets f).
Proof. intros H r a r' Hr [= <- <-]. auto. Qed.
Lemma keeps_map {A B} (P : A -> Prop) (Φ : B -> Prop) f l : (∀ x, P x → keeps Φ (f x)) → Forall P l → keeps (Forall Φ) (map_txn f l).
Proof.
  intros Hf. induction 1 as [|x l Hx Hl IH]; simpl; [by apply keeps_ret; constructor|].
  eapply keeps_bind; [by apply Hf|]. intros y Hy. eapply keeps_bind; [apply IH|]. intros ys Hys. apply keeps_ret. by constructor.
Qed.
Lemma keeps_fold {A B} (P : A -> Prop) (Φ : B -> Prop) f l b : (∀ b x, Φ b → P x → keeps Φ (f b x)) → Forall P l → Φ b → keeps Φ (fold_txn f l b).
Proof.
  intros Hf Hl. revert b. induction Hl as [|x l Hx Hl IH]; intros b Hb; simpl; [by apply keeps_ret|].
  eapply keeps_bind; [by apply Hf|]. intros b' Hb'. by apply IH.
Qed.
Lemma keeps_for_all {A} (P : A -> Prop) f l : (∀ x, P x → keeps any (f x)) → Forall P l → keeps any (for_all f l).
Proof. intros Hf. induction 1 as [|x l Hx Hl IH]; simpl; [by apply keeps_ret|]. eapply keeps_bind; [by apply Hf|]. auto. Qed.

(** ** The recorder's operations *)

Lemma keeps_modify_index f : (∀ i, good_index i → good_index (f i)) → keeps any (modify (fun r => with_index r (f (rec_index r)))).
Proof. intros Hf r a r' [] [= <- <-]. split; [|done]. split; simpl; auto. Qed.

Lemma good_logical r subject path src stream carrier children l r' :
  good_recorder r → good_source stream src → Forall V children → (∀ c, carrier = Some c → so_stream c = stream) →
  logical subject path src stream carrier children r = Ok (l, r') → good_recorder r' ∧ good_row l ∧ lr_stream l = stream.
Proof.
  intros [HF HC Hi Hc Hd Hk] [HV Hrev] Hch Hcar. unfold logical.
  intros (r0 & ? & [= <- <-] & (row & r1 & H1 & H2)%txn_bind_Ok)%txn_bind_Ok. unfold lift_res in H1. destruct (row_ref _ _ _); [|done]. injection H1 as -> <-.
  case_bool_decide as Hin; [done|]. injection H2 as <- <-.
  match goal with |- context [rec_contributors r ++ [?x]] => set (lr := x) in * end.
  assert (good_row lr) as Hlr.
  { subst lr. rewrite HC. split; simpl; [done|done|by rewrite Hrev| |done|by constructor]. destruct carrier as [c|]; simpl; [by apply Hcar|done]. }
  split; [|done]. split; simpl; [done|done|done| | |].
  - apply Forall_app. split; [done|]. by constructor.
  - by constructor.
  - intros l0. rewrite elem_of_app, list_elem_of_singleton, elem_of_cons. intros [?| ->]; [right; auto|by left].
Qed.
Lemma keeps_logical subject path src stream carrier children :
  good_source stream src → Forall V children → (∀ c, carrier = Some c → so_stream c = stream) →
  keeps (fun l => good_row l ∧ lr_stream l = stream) (logical subject path src stream carrier children).
Proof. intros Hs Hc Ho r l r' Hr H. by apply (good_logical r subject path src stream carrier children). Qed.

Lemma bind_sources (sources : option (list SourceRef)) logicals : logicals ≠ [] → Forall good_row logicals →
  (∀ s, sources = Some s → s ≠ [] ∧ Forall V s) →
  let refs := match sources with Some s => s | None => fromkeys (flat_map lr_sources logicals) end in refs ≠ [] ∧ Forall V refs.
Proof.
  intros Hn Hg Hs. destruct sources as [s|]; simpl; [by apply Hs|]. split.
  - apply fromkeys_nonempty. destruct Hg as [|l ls Hl Hls]; [done|]. simpl. destruct (lr_sources l) eqn:E; [|done]. by destruct Hl.
  - apply fromkeys_Forall. clear Hn Hs. induction Hg as [|l ls Hl Hls IH]; simpl; [constructor|]. apply Forall_app. split; [apply Hl|done].
Qed.

(** Adding a fresh key to either dictionary *)
Lemma fresh_keys (i : OriginIndex) key (keys : list OriginKey) : key ∉ index_keys i → ok_family key = F → good_index i → keys ≡ₚ key :: index_keys i →
  NoDup keys ∧ (∀ k, k ∈ keys → ok_family k = F).
Proof.
  intros Hk HF Hi Hp. split; [rewrite Hp; constructor; [done|apply Hi]|]. intros k. rewrite Hp, elem_of_cons. intros [->|?]; [done|by apply Hi].
Qed.
Lemma good_unsupported i key reason : key ∉ index_keys i → ok_family key = F → good_index i → reason = missing_binding ∨ reason = mixed_stream →
  good_index (mkIndex (oi_bindings i) (dict_set (oi_unsupported i) key reason) (oi_retained i) (oi_omitted i) (oi_unsupported_subjects i)).
Proof.
  intros Hk HF Hi Hr.
  assert (dict_keys (oi_bindings i) ++ dict_keys (dict_set (oi_unsupported i) key reason) ≡ₚ key :: index_keys i) as Hp.
  { unfold index_keys, dict_keys in *. rewrite dict_set_fresh by (intros H; apply Hk, elem_of_app; auto). rewrite map_app, app_assoc. by rewrite Permutation_app_comm. }
  destruct (fresh_keys i key _ Hk HF Hi Hp) as [H1 H2]. split; simpl; [done|apply Hi|done| |apply Hi|apply Hi|apply Hi].
  intros k reason' [[-> ->]|?]%in_dict_set; [done|by eapply Hi].
Qed.
Lemma good_bound i key b : key ∉ index_keys i → good_binding key b → good_index i →
  good_index (mkIndex (dict_set (oi_bindings i) key b) (oi_unsupported i) (oi_retained i) (oi_omitted i) (oi_unsupported_subjects i)).
Proof.
  intros Hk Hb Hi.
  assert (dict_keys (dict_set (oi_bindings i) key b) ++ dict_keys (oi_unsupported i) ≡ₚ key :: index_keys i) as Hp.
  { unfold index_keys, dict_keys in *. rewrite dict_set_fresh by (intros H; apply Hk, elem_of_app; auto). rewrite map_app, <-app_assoc. simpl. by rewrite <-Permutation_middle. }
  destruct (fresh_keys i key _ Hk (gb_family _ _ Hb) Hi Hp) as [H1 H2]. split; simpl; [done| |done|apply Hi|apply Hi|apply Hi|apply Hi].
  intros k b' [[-> ->]|?]%in_dict_set; [done|by eapply Hi].
Qed.
Lemma good_with_index r i : good_recorder r → good_index i → good_recorder (with_index r i).
Proof. intros [] ?. by split. Qed.

Lemma keeps_bind_key row field logicals construct sources :
  Forall good_row logicals → (logicals ≠ [] → ∀ s, sources = Some s → s ≠ [] ∧ Forall V s) →
  keeps any (bind_key (mkKey F row field) logicals construct sources).
Proof.
  intros Hl Hs r [] r' Hr. unfold bind_key. set (key := mkKey F row field).
  intros (r0 & ? & [= <- <-] & H)%txn_bind_Ok. revert H.
  destruct (dict_mem (oi_bindings (rec_index r)) key || dict_mem (oi_unsupported (rec_index r)) key) eqn:E; [done|].
  apply orb_false_iff in E as [Eb Eu].
  assert (key ∉ index_keys (rec_index r)) as Hk by (unfold index_keys; rewrite elem_of_app, <-!dict_mem_keys; naive_solver congruence).
  destruct (fromkeys (map lr_stream logicals)) as [|stream [|s2 ss]] eqn:Es; intros [= <-]; (split; [|done]); (apply good_with_index; [done|]).
  - apply good_unsupported; auto. apply Hr.
  - assert (logicals ≠ []) as Hne by (intros ->; done).
    destruct (bind_sources sources logicals Hne Hl (Hs Hne)) as [Hr1 Hr2].
    apply good_bound; [done| |apply Hr]. split; simpl; try done. intros l Hin. split; [by eapply Forall_forall|].
    apply (fromkeys_singleton _ _ Es). by apply list_elem_of_fmap_2.
  - apply good_unsupported; auto. apply Hr.
Qed.

(** Sources a caller hands to [emit]: never empty *)
Definition good_refs (s : list SourceRef) : Prop := s ≠ [] ∧ Forall V s.
Definition good_fields (fr : option rows_by_field) : Prop := ∀ d f l, fr = Some d → dict_get d f = Some l → Forall good_row l.
Definition good_field_sources (fs : option sources_by_field) : Prop := ∀ d f s, fs = Some d → dict_get d f = Some s → good_refs s.

Lemma keeps_bind_field row subject logicals field_rows sources field_sources declared :
  Forall good_row logicals → good_fields field_rows → (logicals ≠ [] → ∀ s, sources = Some s → good_refs s) → good_field_sources field_sources →
  keeps any (bind_field row subject logicals field_rows sources field_sources declared).
Proof.
  intros Hl Hf Hs Hfs. unfold bind_field.
  apply (keeps_bind (fun f => f = F)); [apply keeps_gets; intros r Hr; apply Hr|]. intros ? ->. apply keeps_bind_key.
  - destruct field_rows as [fr|]; [|done]. destruct (dict_get fr declared) as [rows|] eqn:E; [|done]. apply fromkeys_Forall. by eapply Hf.
  - intros Hne s. destruct field_sources as [fs|]; [by apply Hfs|]. case_bool_decide as E; [|done]. rewrite E in Hne. by apply Hs.
Qed.
Lemma keeps_emit subject path rows field_rows sources field_sources :
  Forall good_row rows → good_fields field_rows → (rows ≠ [] → ∀ s, sources = Some s → good_refs s) → good_field_sources field_sources →
  keeps any (emit subject path rows field_rows sources field_sources).
Proof.
  intros Hl Hf Hs Hfs. unfold emit.
  assert (Forall good_row (fromkeys rows)) as Hl' by by apply fromkeys_Forall.
  assert (fromkeys rows ≠ [] → ∀ s, sources = Some s → good_refs s) as Hs' by (intros H; apply Hs; intros ->; done).
  apply (keeps_bind (fun f => f = F)); [apply keeps_gets; intros r Hr; apply Hr|]. intros ? ->.
  eapply keeps_bind; [by apply (keeps_lift any)|]. intros row _.
  eapply keeps_bind; [by apply keeps_bind_key|]. intros _ _.
  eapply keeps_bind; [by apply (keeps_lift any)|]. intros fields _.
  eapply keeps_bind; [|intros; by apply keeps_ret].
  apply (keeps_for_all any); [|by apply Forall_true]. intros f _. by apply keeps_bind_field.
Qed.
(** The common case: the construct and its fields are all produced by the same rows *)
Lemma keeps_emit_plain subject path rows : Forall good_row rows → keeps any (emit subject path rows None None None).
Proof. intros H. by apply keeps_emit; [|intros ? ? ? [=]|intros ? ? [=]|intros ? ? ? [=]]. Qed.

Lemma keeps_finish body : keeps (fun e => es_body e = body ∧ good_index (es_origins e)) (finish body).
Proof.
  intros r e r' Hr (r0 & ? & [= <- <-] & (u & r1 & H1 & [= <- <-])%txn_bind_Ok)%txn_bind_Ok.
  assert (good_recorder r1) as Hr1; [|by split; [|split; [|apply Hr1]]].
  destruct (rec_contributors r) eqn:E; [by injection H1 as <- <-|]. apply txn_bind_Ok in H1 as (? & ? & H1 & [= <- <-]).
  eapply keeps_emit_plain; [|done|apply H1]. rewrite <-E. apply Hr.
Qed.

(** Marking a row unsupported drops its bindings *)
Lemma good_mark_key i key : good_index i → ok_family key = F → good_index (mark_key missing_binding false i key).
Proof.
  intros Hi HF. unfold mark_key. simpl. destruct Hi as [Hn Hb Hf Hr Hs Hret Hom]. unfold index_keys in *. apply NoDup_app in Hn as (Hn1 & Hn2 & Hn3).
  assert (∀ k, k ∈ dict_keys (dict_pop (oi_bindings i) key) → k ≠ key ∧ k ∈ dict_keys (oi_bindings i)) as Hpop.
  { intros k. rewrite dict_pop_keys, !list_elem_of_In. intros [? H]%filter_In. apply negb_true_iff, bool_decide_eq_false in H. done. }
  assert (∀ k, k ∈ dict_keys (dict_set (oi_unsupported i) key missing_binding) → k = key ∨ k ∈ dict_keys (oi_unsupported i)) as Hset.
  { intros k. rewrite dict_set_keys. destruct (decide (key ∈ dict_keys (oi_unsupported i))); [auto|]. rewrite elem_of_app, list_elem_of_singleton. naive_solver. }
  split; simpl; unfold index_keys; simpl.
  - apply NoDup_app. split; [rewrite dict_pop_keys; apply NoDup_ListNoDup, List.NoDup_filter; by apply NoDup_ListNoDup|]. split.
    + intros k [Hk1 Hk2]%Hpop [?|?]%Hset; [done|]. by apply (Hn2 k).
    + rewrite dict_set_keys. destruct (decide (key ∈ dict_keys (oi_unsupported i))); [done|]. apply NoDup_app. split; [done|]. split; [|by apply NoDup_singleton].
      intros k ? ->%list_elem_of_singleton. done.
  - intros k b H. apply Hb. by eapply filter_sub.
  - intros k. rewrite elem_of_app. intros [[? ?]%Hpop|[->|?]%Hset]; [apply Hf|done|apply Hf]; rewrite elem_of_app; auto.
  - intros k reason [[-> ->]|?]%in_dict_set; [by left|eauto].
  - done.
  - done.
  - done.
Qed.
Lemma keeps_mark_unsupported row : keeps any (rec_mark_unsupported F row missing_binding).
Proof.
  intros r [] r' Hr (r0 & ? & [= <- <-] & (i & r1 & H1 & [= <-])%txn_bind_Ok)%txn_bind_Ok. split; [|done].
  unfold lift_res, mark_unsupported in H1. destruct (subject_fields (rr_subject row)) as [fields|]; [|done]. cbn in H1. injection H1 as <- <-.
  apply good_with_index; [done|].
  assert (∀ l i, Forall (fun k => ok_family k = F) l → good_index i → good_index (fold_left (mark_key missing_binding false) l i)) as H.
  { induction l as [|k l IH]; intros i; simpl; [done|]. intros [? ?]%Forall_cons Hi. apply IH; [done|by apply good_mark_key]. }
  apply (H (mkKey F row None :: map (mkKey F row) (map Some fields))); [|apply Hr].
  constructor; [done|]. apply Forall_map, Forall_true. done.
Qed.
Lemma keeps_unsupported_subject subject : keeps any (rec_unsupported_subject subject missing_natural_key).
Proof.
  apply (keeps_modify_index (fun i => mkIndex (oi_bindings i) (oi_unsupported i) (oi_retained i) (oi_omitted i) (dict_set (oi_unsupported_subjects i) subject missing_natural_key))).
  intros i []. split; simpl; try done. intros s reason [[-> ->]|?]%in_dict_set; [done|eauto].
Qed.
End Good.

Lemma good_new_recorder F V context : good_recorder F (default no_context context) V (new_recorder F context).
Proof.
  split; simpl; [done|done| |constructor|constructor|by intros ? ?%elem_of_nil].
  split; simpl; [constructor|by intros ? ? ?%elem_of_nil|by intros ? ?%elem_of_nil|by intros ? ? ?%elem_of_nil|by intros ? ? ?%elem_of_nil|done|done].
Qed.

(** An encoder that keeps the recorder well formed yields a well-formed index *)
Lemma recording_good F V ex m e :
  keeps F (default no_context (sx_origin_context ex)) V (fun e => good_index F (default no_context (sx_origin_context ex)) V (es_origins e)) m →
  recording F ex m = Ok e → good_index F (default no_context (sx_origin_context ex)) V (es_origins e).
Proof.
  unfold recording. intros H. destruct (m _) as [[e' r']|] eqn:E; [|done]. intros [= <-].
  by destruct (H _ _ _ (good_new_recorder F V (sx_origin_context ex)) E).
Qed.
