(* ===== verification/EncodeProps.v ===== *)
(** * Every encoder keeps its origins well formed

    One lemma per encoder of src/nso_adapter/nso/apply.py in the program logic of [OriginProps], for any rows whose instances
    satisfy [Rok] (with their collections) and any property [V] of the sources such instances give. *)

From stdpp Require Import base list sets.
From Stdlib Require Import ZArith NArith Lia.
From S2P Require Import Prelude Json Dialect Sha256 RefusalProtocol Registry Document Asn Identity Store InterfaceProof Hydrate Origins Encode EncodeRouting EncodePolicy OriginProps.
Local Open Scope py_scope.
Local Open Scope Z_scope.

Section Encoders.
Context (C : OriginContext) (V : SourceRef -> Prop) (Rok : hrow -> Prop).
Context (HV : ∀ row table stream children stampable wc, Rok row → py_truthy table = true → V (source_ref row table stream C children stampable wc)).
Context (Hkids : ∀ row relationship, Rok row → Forall Rok (kids row relationship)).

Definition rows_ok (rows : hydrated) : Prop := ∀ table l, dict_get rows table = Some l → Forall Rok l.
Lemma rows_in_ok rows table l : rows_ok rows → rows_in rows table = Ok l → Forall Rok l.
Proof. intros H. unfold rows_in. destruct (dict_get rows table) as [l'|] eqn:E; [|done]. intros [= <-]. by eapply H. Qed.

Section Family.
Context (F : pystr).
Notation keeps := (keeps F C V).
Notation good_row := (good_row C V).
Notation good_index := (good_index F C V).
Notation finished := (fun e : EncodedSection => good_index (es_origins e)).

(** A logical row of a given stream *)
Definition row_of (stream : pystr) (l : LogicalRow) : Prop := good_row l ∧ lr_stream l = stream.

Lemma keeps_source row table stream children stampable wc : Rok row → py_truthy table = true →
  keeps (good_source C V stream) (source row table stream children stampable wc).
Proof. intros Hr Ht. apply keeps_gets. intros r Hr'. rewrite (gr_context _ _ _ _ Hr'). split; [by apply HV|done]. Qed.

Lemma good_V stream s : good_source C V stream s → V s.
Proof. by intros []. Qed.
Lemma good_Vs stream l : Forall (good_source C V stream) l → Forall V l.
Proof. intros H. eapply Forall_impl; [done|]. apply good_V. Qed.
Lemma rows_good stream l : Forall (row_of stream) l → Forall good_row l.
Proof. intros H. eapply Forall_impl; [done|]. by intros ? []. Qed.

Lemma keeps_logical_own subject path src stream children : good_source C V stream src → Forall V children →
  keeps (row_of stream) (logical subject path src stream None children).
Proof. intros. by apply keeps_logical. Qed.
Lemma keeps_logical_carried subject path src stream l children : good_source C V stream src → Forall V children → row_of stream l →
  keeps (row_of stream) (logical subject path src stream (Some (lr_carrier l)) children).
Proof. intros ? ? [Hg <-]. apply keeps_logical; [done|done|]. intros c [= <-]. by apply Hg. Qed.

Lemma keeps_emit_row subject path l stream : row_of stream l → keeps any (emit subject path [l] None None None).
Proof. intros [? _]. apply keeps_emit_plain. by constructor. Qed.

Lemma keeps_origin_row subject path row table stream : Rok row → py_truthy table = true → keeps (row_of stream) (origin_row subject path row table stream).
Proof.
  intros Hr Ht. unfold origin_row. eapply keeps_bind; [by apply keeps_source|]. intros src Hs.
  eapply keeps_bind; [by apply keeps_logical_own|]. intros l Hl. eapply keeps_bind; [by eapply keeps_emit_row|]. intros _ _. by apply keeps_ret.
Qed.

Lemma keeps_finish_body body : keeps finished (finish body).
Proof. eapply keeps_weaken; [apply keeps_finish|]. by intros e []. Qed.
Lemma keeps_rows rows table : rows_ok rows → keeps (Forall Rok) (lift_res (rows_in rows table)).
Proof. intros H. apply keeps_lift. intros l. by apply rows_in_ok. Qed.
Lemma keeps_pure {A} (x : res A) : keeps any (lift_res x).
Proof. by apply keeps_lift. Qed.

(** A field map that sends every field to rows of the construct *)
Lemma good_fields_map (f : pystr -> list LogicalRow) fields : (∀ x, Forall good_row (f x)) → good_fields C V (Some (map (fun x => (x, f x)) fields)).
Proof.
  intros H d x l [= <-]. induction fields as [|y fields IH]; simpl; [done|]. destruct (decide (x = y)); [by intros [= <-]|done].
Qed.
Lemma good_field_sources_map (f : pystr -> list SourceRef) fields : (∀ x, good_refs V (f x)) → good_field_sources V (Some (map (fun x => (x, f x)) fields)).
Proof.
  intros H d x l [= <-]. induction fields as [|y fields IH]; simpl; [done|]. destruct (decide (x = y)); [by intros [= <-]|done].
Qed.
Lemma good_refs_one s : V s → good_refs V [s].
Proof. intros H. split; [done|]. by constructor. Qed.
Lemma no_fields : good_fields C V None. Proof. by intros ? ? ? [=]. Qed.
Lemma no_field_sources : good_field_sources V None. Proof. by intros ? ? ? [=]. Qed.

(** ** Flat encoders *)

Lemma keeps_encode_list subject table stream entry path rows : rows_ok rows → py_truthy table = true →
  keeps any (encode_list subject table stream entry path rows).
Proof.
  intros Hr Ht. unfold encode_list. eapply keeps_bind; [by apply keeps_rows|]. intros l Hl.
  eapply keeps_weaken; [eapply (keeps_map _ _ _ Rok any); [|done]|done].
  intros row Hrow. unfold encode_row. eapply keeps_bind; [apply keeps_pure|]. intros e _.
  eapply keeps_bind; [by apply keeps_origin_row|]. intros ? _. by apply keeps_ret.
Qed.
Lemma keeps_flat subject table stream list_name entry path rows : rows_ok rows → py_truthy table = true →
  keeps finished (entries ← encode_list subject table stream entry path rows; finish [(list_name, JArr entries)]).
Proof. intros. eapply keeps_bind; [by apply keeps_encode_list|]. intros ? _. apply keeps_finish_body. Qed.

Lemma keeps_logging_levels l body : Forall Rok l → keeps any (logging_levels l body).
Proof.
  intros H. revert body. induction H as [|row l Hrow Hl IH]; intros body; simpl; [by apply keeps_ret|].
  destruct (local_levels row); [apply IH|]. eapply keeps_bind; [by apply keeps_origin_row|]. intros ? _. apply IH.
Qed.
Lemma keeps_system_info l body : Forall Rok l → keeps any (snmp_system_info l body).
Proof.
  intros H. revert body. induction H as [|row l Hrow Hl IH]; intros body; simpl; [by apply keeps_ret|].
  eapply (keeps_bind _ _ _ any); [|intros ? _; apply IH].
  destruct (attr row "location"), (attr row "contact"); first [by apply keeps_ret|eapply keeps_bind; [by apply keeps_origin_row|intros ? _; by apply keeps_ret]].
Qed.

Lemma keeps_switchport_row row : Rok row → keeps any (switchport_row row).
Proof.
  intros Hr. unfold switchport_row. eapply keeps_bind; [apply keeps_pure|]. intros e _.
  eapply keeps_bind; [eapply (keeps_map _ _ _ Rok); [intros tag Ht; by apply (keeps_source tag)|by apply Hkids]|]. intros children Hc.
  eapply keeps_bind; [by apply keeps_source|]. intros src Hs.
  eapply keeps_bind; [apply keeps_logical_own; [done|by eapply good_Vs]|]. intros l Hl.
  eapply keeps_bind; [by eapply keeps_emit_row|]. intros _ _. by apply keeps_ret.
Qed.

Lemma Forall_zip {A B} (P : A -> Prop) (Q : B -> Prop) l k : Forall P l → Forall Q k → Forall (fun x => P x.1 ∧ Q x.2) (zip l k).
Proof. intros Hl. revert k. induction Hl; intros k Hk; [constructor|]. destruct Hk; constructor; [done|]. by apply IHHl. Qed.

Lemma keeps_lag_row row : Rok row → keeps any (lag_row row).
Proof.
  intros Hr. unfold lag_row.
  eapply keeps_bind; [eapply (keeps_map _ _ _ Rok); [intros m Hm; by apply (keeps_source m)|by apply Hkids]|]. intros sources Hs.
  eapply keeps_bind; [by apply keeps_source|]. intros src Hsrc.
  eapply keeps_bind; [by apply keeps_logical_own|]. intros bundle Hb.
  eapply keeps_bind; [eapply (keeps_map _ _ _ (fun ms => good_source C V "lag" ms.2) (row_of "lag"))|].
  { intros [m s] Hms. unfold lag_member. eapply keeps_bind; [by apply keeps_logical_carried|]. intros l Hl.
    eapply keeps_bind; [by eapply keeps_emit_row|]. intros _ _. by apply keeps_ret. }
  { eapply Forall_impl; [apply (Forall_zip Rok); [by apply Hkids|exact Hs]|]. by intros [] []. }
  intros members Hm. eapply keeps_bind; [apply keeps_pure|]. intros fields _.
  eapply keeps_bind; [|intros _ _; by apply keeps_ret].
  apply keeps_emit; [constructor; [apply Hb|by eapply rows_good]| |by intros ? ? [=]|apply no_field_sources].
  apply good_fields_map. intros x. destruct members as [|l members]; [constructor; [apply Hb|constructor]|].
  case_bool_decide; [by eapply rows_good|constructor; [apply Hb|constructor]].
Qed.

(** ** Nested encoders *)

(** Contributors by key *)
Definition grouped {K} (d : list (K * list LogicalRow)) : Prop := Forall (fun kl => Forall good_row kl.2) d.
Lemma grouped_get {K} `{EqDecision K} (d : list (K * list LogicalRow)) k : grouped d → Forall good_row (group_get d k).
Proof.
  intros H. unfold group_get. destruct (dict_get d k) as [l|] eqn:E; [|constructor]. apply dict_get_Some_in in E.
  by apply (proj1 (Forall_forall _ _) H (k, l)).
Qed.
Lemma Forall_dict_set {K A} `{EqDecision K} (P : K * A -> Prop) (d : list (K * A)) k v : Forall P d → P (k, v) → Forall P (dict_set d k v).
Proof. rewrite !Forall_forall. intros H Hk [k' v'] [[-> ->]|?]%in_dict_set; auto. Qed.
Lemma grouped_push {K} `{EqDecision K} (d : list (K * list LogicalRow)) k l : grouped d → good_row l → grouped (push d k l).
Proof. intros Hd Hl. apply Forall_dict_set; [done|]. simpl. apply Forall_app. split; [by apply grouped_get|by constructor]. Qed.
Lemma grouped_sources (d : by_tag LogicalRow) tag : grouped d → Forall V (contributor_sources d tag).
Proof.
  intros H. unfold contributor_sources. pose proof (grouped_get d tag H) as Hg. induction Hg as [|l ls Hl Hls IH]; simpl; [constructor|].
  apply Forall_app. split; [apply Hl|done].
Qed.

Lemma keeps_nested subject table stream tag entry step rows children : rows_ok rows → py_truthy table = true → grouped children →
  keeps (fun rc => grouped rc.2) (nested_rows subject table stream tag entry step rows children).
Proof.
  intros Hr Ht Hc. unfold nested_rows. eapply keeps_bind; [by apply keeps_rows|]. intros l Hl.
  eapply (keeps_fold _ _ _ Rok (fun rc => grouped rc.2)); [|done|done]. intros [es cs] row Hcs Hrow. unfold nested_row.
  eapply keeps_bind; [apply keeps_pure|]. intros e _. eapply keeps_bind; [by apply keeps_origin_row|]. intros lr Hlr.
  apply keeps_ret. simpl. apply grouped_push; [done|apply Hlr].
Qed.

Lemma keeps_emit_process subject own children tag : Forall (fun kl => good_row kl.2) own → grouped children → keeps any (emit_process subject own children tag).
Proof.
  intros Ho Hc. unfold emit_process. eapply keeps_bind; [apply keeps_pure|]. intros fields _.
  eapply keeps_bind; [|intros _ _; by apply keeps_ret].
  assert (∀ l, dict_get own tag = Some l → good_row l) as Hown by (intros l E; by apply (proj1 (Forall_forall _ _) Ho (tag, l)), dict_get_Some_in).
  apply keeps_emit; [| |by intros ? ? [=]|apply no_field_sources].
  - apply Forall_app. split; [|by apply grouped_get]. destruct (dict_get own tag) as [l|] eqn:E; [|constructor]. constructor; [by apply Hown|constructor].
  - destruct (dict_get own tag) as [l|] eqn:E; [|apply no_fields]. apply (good_fields_map (fun _ => [l])). intros _. constructor; [by apply Hown|constructor].
Qed.

Lemma keeps_isis_process_row redist children acc row : grouped children → Rok row → Forall (fun kl => good_row kl.2) acc.2 →
  keeps (fun acc => Forall (fun kl => good_row kl.2) acc.2) (isis_process_row redist children acc row).
Proof.
  intros Hc Hr Ha. unfold isis_process_row. eapply keeps_bind; [by apply keeps_source|]. intros src Hs.
  eapply keeps_bind; [by apply keeps_logical_own|]. intros l Hl. apply keeps_ret. simpl. apply Forall_dict_set; [done|apply Hl].
Qed.

Lemma keeps_ospf_process_row redist children acc row : grouped children → Rok row → keeps any (ospf_process_row redist children acc row).
Proof.
  intros Hc Hr. unfold ospf_process_row. eapply keeps_bind; [apply keeps_pure|]. intros pid _.
  eapply keeps_bind; [by apply keeps_source|]. intros src Hs. eapply keeps_bind; [by apply keeps_logical_own|]. intros l Hl.
  eapply keeps_bind; [apply keeps_pure|]. intros fields _. eapply keeps_bind; [|intros _ _; by apply keeps_ret].
  apply keeps_emit; [constructor; [apply Hl|by apply grouped_get]| |by intros ? ? [=]|apply no_field_sources].
  apply (good_fields_map (fun _ => [l])). intros _. constructor; [apply Hl|constructor].
Qed.
Lemma keeps_ospf_orphan children acc group : grouped children → keeps any (ospf_orphan children acc group).
Proof.
  intros Hc. unfold ospf_orphan. case_bool_decide; [by apply keeps_ret|]. eapply keeps_bind; [|intros _ _; by apply keeps_ret].
  apply keeps_emit_plain. by apply grouped_get.
Qed.

(** ** BGP *)

Record good_construct (c : BgpConstruct) : Prop := {
  gc_rows : Forall good_row (bc_contributors c);
  gc_sources : Forall V (bc_sources c);
  gc_present : bc_contributors c ≠ [] → bc_sources c ≠ [];
  gc_fields : good_fields C V (bc_field_rows c);
  gc_field_sources : good_field_sources V (bc_field_sources c) }.
Definition good_constructs (cs : constructs) : Prop := Forall (fun kc => good_construct kc.2) cs.

Lemma keeps_sources_of (l : list hrow) table stream : Forall Rok l → py_truthy table = true →
  keeps (Forall (good_source C V stream)) (map_txn (fun row => source row table stream [] false JNull) l).
Proof. intros Hl Ht. eapply (keeps_map _ _ _ Rok); [|done]. intros row Hr. by apply keeps_source. Qed.
Lemma keeps_peer_source peer : Rok peer → keeps (fun sa => good_source C V "bgp" sa.1 ∧ Forall (good_source C V "bgp") sa.2) (peer_source peer).
Proof.
  intros Hp. unfold peer_source. eapply keeps_bind; [apply keeps_sources_of; [by apply Hkids|done]|]. intros afs Ha.
  eapply keeps_bind; [by apply keeps_source|]. intros src Hs. by apply keeps_ret.
Qed.
Lemma keeps_nested_sources router : Rok router → keeps any (bgp_nested_sources router).
Proof.
  intros Hr. unfold bgp_nested_sources. eapply keeps_weaken; [eapply (keeps_map _ _ _ Rok any); [|by apply Hkids]|done].
  intros scope Hscope. eapply keeps_bind; [apply keeps_sources_of; [by apply Hkids|done]|]. intros afs Ha.
  eapply keeps_bind; [eapply (keeps_map _ _ _ Rok); [intros peer Hp; by apply keeps_peer_source|by apply Hkids]|]. intros peers Hps.
  eapply keeps_weaken; [by apply keeps_source|done].
Qed.

Lemma keeps_peer_entry peer path router : Rok peer → row_of "bgp" router → keeps (fun el => row_of "bgp" el.2) (bgp_peer_entry peer path (lr_carrier router)).
Proof.
  intros Hp Hr. unfold bgp_peer_entry. eapply keeps_bind; [by apply keeps_peer_source|]. intros [src afs] [Hs Ha]. simpl in Hs, Ha.
  pose proof (good_Vs _ _ Ha) as Hafs. pose proof (good_V _ _ Hs) as Hsrc.
  eapply keeps_bind; [by apply keeps_logical_carried|]. intros l Hl. eapply keeps_bind; [apply keeps_pure|]. intros leaves _.
  eapply keeps_bind; [eapply (keeps_for_all _ _ _ (fun fs => V fs.2))|].
  { intros [af s] Hvs. eapply keeps_bind; [|intros ? _; by apply keeps_ret].
    apply keeps_emit; [constructor; [apply Hl|constructor]|apply no_fields|intros _ ? [= <-]; by apply good_refs_one|apply no_field_sources]. }
  { eapply Forall_impl; [apply (Forall_zip Rok); [by apply Hkids|exact Hafs]|]. by intros [] []. }
  intros _ _. eapply keeps_bind; [apply keeps_pure|]. intros fields _. eapply keeps_bind; [|intros _ _; apply keeps_ret; exact Hl].
  apply keeps_emit; [constructor; [apply Hl|constructor]|apply no_fields|by intros ? ? [=]|].
  apply (good_field_sources_map (fun f => match afs with [] => [src] | _ => if bool_decide (f = "bgp.paf.enabled") then afs else [src] end)).
  intros x. destruct afs as [|a afs]; [by apply good_refs_one|]. case_bool_decide; [by split|by apply good_refs_one].
Qed.

Lemma good_contribute l cs key : good_row l → good_constructs cs → good_constructs (contribute l cs key).
Proof.
  intros Hl Hcs. unfold contribute. destruct (dict_get cs key) as [c|] eqn:E; [|done].
  assert (good_construct c) as [] by (apply dict_get_Some_in in E; by apply (proj1 (Forall_forall _ _) Hcs (key, c))).
  apply Forall_dict_set; [done|]. split; simpl; [apply Forall_app; split; [done|by constructor]|apply Forall_app; split; [done|apply Hl]| |done|done].
  intros _ H. apply app_eq_nil in H as [_ H]. by apply (good_present _ _ _ Hl).
Qed.
Lemma good_add key c cs cs' : good_construct c → good_constructs cs → add_construct key c cs = Ok cs' → good_constructs cs'.
Proof. intros Hc Hcs. unfold add_construct. destruct (dict_mem cs key); [done|]. intros [= <-]. apply Forall_app. split; [done|by constructor]. Qed.
Lemma good_setdefault cs key subject path : good_constructs cs → good_constructs (dict_setdefault cs key (mkConstruct subject path [] [] None None)).
Proof.
  intros H. unfold dict_setdefault. destruct (dict_mem cs key); [done|]. apply Forall_app. split; [done|]. constructor; [|constructor].
  split; simpl; [constructor|constructor|done|apply no_fields|apply no_field_sources].
Qed.
(** A construct made of one row *)
Lemma good_own_construct subject path l src fr fs : good_row l → V src → good_fields C V fr → good_field_sources V fs →
  good_construct (mkConstruct subject path [l] [src] fr fs).
Proof. intros. split; simpl; [by constructor|by constructor|done|done|done]. Qed.

Lemma keeps_scope_af asn scope router cs af : row_of "bgp" router → good_constructs cs → Rok af → keeps good_constructs (scope_af asn scope router cs af).
Proof.
  intros [Hg _] Hcs Haf. unfold scope_af. eapply keeps_bind; [by apply keeps_source|]. intros src [Hs _]. apply keeps_lift. intros cs' H.
  eapply good_add; [|exact Hcs|exact H]. apply good_own_construct; [done|done|apply no_fields|apply no_field_sources].
Qed.
Lemma keeps_scope_peer asn scope router acc peer : row_of "bgp" router → good_constructs acc.2 → Rok peer →
  keeps (fun acc => good_constructs acc.2) (scope_peer asn scope router acc peer).
Proof.
  intros Hr Hcs Hp. unfold scope_peer. eapply keeps_bind; [by apply keeps_peer_entry|]. intros [e l] [Hl _]. apply keeps_ret. simpl.
  by apply good_contribute, good_contribute.
Qed.
Lemma good_single_field x l : good_row l → good_fields C V (Some [(x, [l])]).
Proof. intros H. apply (good_fields_map (fun _ => [l]) [x]). intros _. by constructor. Qed.
Lemma keeps_scope_entry asn router acc scope : row_of "bgp" router → good_constructs acc.2 → Rok scope →
  keeps (fun acc => good_constructs acc.2) (bgp_scope_entry asn router acc scope).
Proof.
  intros Hr Hcs Hs. unfold bgp_scope_entry. eapply keeps_bind; [by apply keeps_source|]. intros src [Hsrc _].
  eapply keeps_bind; [apply keeps_lift; intros cs H; eapply (good_add _ _ _ _ _ Hcs H)|].
  Unshelve. 2: { apply good_own_construct; [apply Hr|done|apply good_single_field, Hr|].
    apply (good_field_sources_map (fun _ => [src]) ["bgp.scope.vrf"]). intros _. by apply good_refs_one. }
  intros cs Hcs'. eapply keeps_bind; [eapply (keeps_fold _ _ _ Rok good_constructs); [|by apply Hkids|done]|].
  { intros cs0 af H1 H2. by apply keeps_scope_af. }
  intros cs2 Hcs2. eapply keeps_bind; [eapply (keeps_fold _ _ _ Rok (fun acc : list json * constructs => good_constructs acc.2)); [|by apply Hkids|done]|].
  { intros acc0 peer H1 H2. by apply keeps_scope_peer. }
  intros [peers cs3] Hcs3. by apply keeps_ret.
Qed.
Lemma keeps_router_row acc row : good_constructs acc.2 → Rok row → keeps (fun acc => good_constructs acc.2) (bgp_router_row acc row).
Proof.
  intros Hcs Hr. unfold bgp_router_row. eapply keeps_bind; [apply keeps_pure|]. intros asn _.
  eapply keeps_bind; [by apply keeps_nested_sources|]. intros nested _. eapply keeps_bind; [by apply keeps_source|]. intros src Hs.
  eapply keeps_bind; [by apply keeps_logical_own|]. intros l Hl. eapply keeps_bind; [apply keeps_pure|]. intros fields _.
  eapply keeps_bind; [eapply (keeps_fold _ _ _ Rok (fun acc : list BgpScope * constructs => good_constructs acc.2)); [|by apply Hkids|]|].
  { intros acc0 scope H1 H2. by apply keeps_scope_entry. }
  { simpl. apply Forall_dict_set; [done|]. apply good_own_construct; [apply Hl|by eapply good_V| |].
    - apply (good_fields_map (fun _ => [l])). intros _. constructor; [apply Hl|constructor].
    - apply (good_field_sources_map (fun _ => [src])). intros _. apply good_refs_one. by eapply good_V. }
  intros [scopes cs] H. by apply keeps_ret.
Qed.
Lemma keeps_attach ned acc rd : good_constructs acc.2 → Rok rd.1 → keeps (fun acc => good_constructs acc.2) (bgp_attach_redistribution ned acc rd).
Proof.
  intros Hcs Hr. unfold bgp_attach_redistribution. destruct rd.2 as [|asn [|vrf [|af [|]]]]; try apply keeps_raise.
  eapply keeps_bind; [apply keeps_pure|]. intros e _. eapply keeps_bind; [by apply keeps_origin_row|]. intros l [Hl _]. apply keeps_ret.
  cbn [snd fold_left]. do 3 (apply good_contribute; [done|]). by do 3 apply good_setdefault.
Qed.
Lemma keeps_emit_construct c : good_construct c → keeps any (emit_construct c).
Proof.
  intros []. unfold emit_construct. eapply keeps_bind; [|intros _ _; by apply keeps_ret]. apply keeps_emit; [done|done| |done].
  intros Hn s [= <-]. split; [by apply fromkeys_nonempty, gc_present0|by apply fromkeys_Forall].
Qed.

(** ** Route policies *)

Lemma keeps_policy_entry dialect row subject path l kept entry : good_row l → keeps any (policy_entry dialect row subject path l kept entry).
Proof.
  intros Hl. unfold policy_entry. eapply keeps_bind; [apply keeps_pure|]. intros [wire|] _; [|by apply keeps_ret].
  eapply keeps_bind; [apply keeps_pure|]. intros sequence _. eapply (keeps_bind _ _ _ any); [|intros ? _; by apply keeps_ret].
  destruct sequence; [|apply keeps_unsupported_subject]. eapply keeps_bind; [|intros ? _; by apply keeps_ret].
  apply keeps_emit_plain. by constructor.
Qed.
Lemma keeps_policy_row dialect body row : Rok row → keeps any (policy_row dialect body row).
Proof.
  intros Hr. unfold policy_row. eapply keeps_bind; [apply keeps_pure|]. intros family _. destruct (dict_mem _ _); [|by apply keeps_ret].
  eapply keeps_bind; [by apply keeps_source|]. intros src Hs. eapply keeps_bind; [by apply keeps_logical_own|]. intros l Hl.
  eapply keeps_bind; [apply keeps_pure|]. intros entries _.
  eapply keeps_bind; [eapply (keeps_fold _ _ _ any any); [|by apply Forall_true|done]; intros; apply keeps_policy_entry, Hl|]. intros kept _.
  eapply keeps_bind; [by eapply keeps_emit_row|]. intros _ _. by apply keeps_ret.
Qed.

(** ** Interfaces *)

Definition good_ips (acc : IpAcc) : Prop := Forall good_row (ip_logicals acc) ∧ Forall good_row (ip_vrf_logicals acc).
Lemma keeps_ip_row name context acc row : good_ips acc → Rok row → keeps good_ips (ip_row name context acc row).
Proof.
  intros [H1 H2] Hr. unfold ip_row. eapply keeps_bind; [apply keeps_pure|]. intros [addr plen] _.
  destruct (attr row "family") as [| | | |family| |]; try apply keeps_raise. destruct (mem family _); [|apply keeps_raise].
  eapply keeps_bind; [by apply keeps_source|]. intros src Hs. eapply keeps_bind; [by apply keeps_logical_own|]. intros l Hl.
  eapply keeps_bind; [by eapply keeps_emit_row|]. intros _ _. apply keeps_ret. destruct Hl as [Hl _].
  split; simpl; [apply Forall_app; split; [done|by constructor]|]. destruct (json_truthy _); [apply Forall_app; split; [done|by constructor]|done].
Qed.
Lemma keeps_ip_body name rows kind service parent_binding encap_tag : Forall Rok rows →
  keeps any (build_interface_ip_body name rows kind service parent_binding encap_tag).
Proof.
  intros Hr. unfold build_interface_ip_body. eapply keeps_bind; [apply keeps_pure|]. intros _ _.
  eapply keeps_bind; [eapply (keeps_fold _ _ _ Rok good_ips); [|done|by split]; intros; by apply keeps_ip_row|]. intros acc [H1 H2].
  eapply (keeps_bind _ _ _ any); [|intros ? _; by apply keeps_ret]. destruct (ip_logicals acc); [by apply keeps_ret|].
  eapply keeps_bind; [|intros ? _; by apply keeps_ret]. apply keeps_emit_plain. by destruct (ip_vrf_logicals acc).
Qed.

Definition good_attributes (acc : entries_by_name * attributes_by_name) : Prop := Forall (fun na => Forall (fun al => good_row al.2) na.2) acc.2.
Lemma keeps_attribute_row proof acc row : good_attributes acc → Rok row → keeps good_attributes (attribute_row proof acc row).
Proof.
  intros Ha Hr. unfold attribute_row. destruct (eligible proof row); [|by apply keeps_ret].
  eapply keeps_bind; [apply keeps_pure|]. intros iface _. eapply keeps_bind; [apply keeps_pure|]. intros attribute _.
  eapply keeps_bind; [apply keeps_pure|]. intros _ _. eapply keeps_bind; [apply keeps_pure|]. intros value _.
  eapply keeps_bind; [by apply keeps_source|]. intros src Hs. eapply keeps_bind; [by apply keeps_logical_own|]. intros l [Hl _].
  apply keeps_ret. unfold good_attributes. simpl. apply Forall_dict_set; [done|]. simpl. apply Forall_dict_set; [|done].
  destruct (dict_get acc.2 (get iface "name")) as [al|] eqn:E; [|constructor]. apply dict_get_Some_in in E. by apply (proj1 (Forall_forall _ _) Ha _ E).
Qed.

Definition good_iface (acc : IfaceAcc) : Prop := grouped (ia_ips acc).
Lemma keeps_addresses proof acc group : good_iface acc → Forall Rok group.2 → keeps good_iface (interface_addresses proof acc group).
Proof.
  intros Ha Hr. unfold interface_addresses. destruct (dict_get (ie_interfaces proof) group.1) as [iface|]; [|apply keeps_raise].
  eapply keeps_bind; [by apply (keeps_gets _ _ _ any)|]. intros before _. eapply keeps_bind; [by apply keeps_ip_body|]. intros entry _.
  eapply (keeps_bind _ _ _ (Forall good_row)); [apply keeps_gets; intros r Hg; by apply Forall_drop, Hg|]. intros logicals Hl.
  apply keeps_ret. unfold good_iface. simpl. by apply Forall_dict_set.
Qed.

Lemma snds_good (attrs : list (pystr * LogicalRow)) : Forall (fun al => good_row al.2) attrs → Forall good_row (map snd attrs).
Proof. intros H. by apply Forall_map. Qed.
End Family.

Lemma keeps_attribute_origin path attrs attribute : Forall (fun al => good_row C V al.2) attrs → keeps "interface" C V any (attribute_origin path attrs attribute).
Proof.
  intros Ha. unfold attribute_origin. destruct attrs as [|a attrs].
  - eapply keeps_bind; [apply keeps_pure|]. intros row _. apply keeps_mark_unsupported.
  - eapply keeps_bind; [|intros _ _; by apply keeps_ret]. apply keeps_emit_plain.
    destruct (dict_get (a :: attrs) attribute) as [l|] eqn:E; [|by apply snds_good]. constructor; [|constructor].
    apply dict_get_Some_in in E. by apply (proj1 (Forall_forall _ _) Ha _ E).
Qed.
Lemma keeps_parent_origins name attrs ips attr_kind ip_kind : Forall (fun al => good_row C V al.2) attrs → Forall (good_row C V) ips →
  keeps "interface" C V any (interface_parent_origins name attrs ips attr_kind ip_kind).
Proof.
  intros Ha Hi. pose proof (snds_good attrs Ha) as Hr. unfold interface_parent_origins.
  eapply keeps_bind; [apply (keeps_for_all _ _ _ any); [intros; by apply keeps_attribute_origin|by apply Forall_true]|]. intros _ _.
  eapply keeps_bind; [apply keeps_pure|]. intros fields _. eapply keeps_bind; [|intros _ _; by apply keeps_ret].
  apply keeps_emit; [by apply Forall_app| |by intros ? ? [=]|apply no_field_sources].
  intros d f l [= <-] [[-> ->]|E%list_elem_of_fmap]%dict_get_Some_in%in_dict_set; [by destruct (map snd attrs)|].
  destruct E as (x & [= -> ->] & _). destruct attr_kind, ip_kind; try done. by apply Forall_app.
Qed.
End Encoders.
