(* ===== verification/SectionProps.v ===== *)
(** * Origins of whole documents

    Every section's encoder yields a well-formed index of the section's own family, so the indexes of a document merge without a
    conflict, a refusal resolves exactly when its construct is bound, and the logical rows of an execution are those of the
    streams its generations carry. *)

From stdpp Require Import base gmap list sets.
From Stdlib Require Import ZArith NArith Lia.
From S2P Require Import Prelude Json Dialect Sha256 RefusalProtocol Registry Document Asn Identity Store Generation StaticPlan InterfaceProof Hydrate Origins Encode EncodeRouting EncodePolicy DeviceBody OriginProps EncodeProps.
Local Open Scope py_scope.
Local Open Scope Z_scope.

(** The wire family of a section is its container. *)
Definition section_family (section : pystr) : pystr := default "" (se_container <$> dict_get section_registry section).

Section Sections.
Context (V : SourceRef -> Prop) (Rok : hrow -> Prop) (ex : SectionExecution).
Notation C := (default no_context (sx_origin_context ex)).
Context (HV : ∀ row table stream children stampable wc, Rok row → py_truthy table = true → V (source_ref row table stream C children stampable wc)).
Context (Hkids : ∀ row relationship, Rok row → Forall Rok (kids row relationship)).

Lemma encoded_flat F subject table stream list_name entry path rows e : rows_ok Rok rows → py_truthy table = true →
  encode_flat F subject table stream list_name entry path rows ex = Ok e → good_index F C V (es_origins e).
Proof. intros Hr Ht. apply recording_good. by eapply keeps_flat. Qed.

Lemma encoded_logging rows e : rows_ok Rok rows → encode_logging rows ex = Ok e → good_index "logging" C V (es_origins e).
Proof.
  intros Hr. apply recording_good. eapply keeps_bind; [by eapply keeps_encode_list|]. intros hosts _.
  eapply keeps_bind; [by eapply keeps_rows|]. intros l Hl. eapply keeps_bind; [by eapply keeps_logging_levels|]. intros body _. apply keeps_finish_body.
Qed.
Lemma encoded_snmp rows e : rows_ok Rok rows → encode_snmp rows ex = Ok e → good_index "snmp" C V (es_origins e).
Proof.
  intros Hr. apply recording_good. do 3 (eapply keeps_bind; [by eapply keeps_encode_list|]; intros ? _).
  eapply keeps_bind; [by eapply keeps_rows|]. intros l Hl. eapply keeps_bind; [by eapply keeps_system_info|]. intros body _. apply keeps_finish_body.
Qed.
Lemma encoded_mapped F table list_name (f : hrow -> txn Recorder json) rows e : rows_ok Rok rows → (∀ row, Rok row → keeps F C V any (f row)) →
  recording F ex (l ← lift_res (rows_in rows table); entries ← map_txn f l; finish [(list_name, JArr entries)]) = Ok e → good_index F C V (es_origins e).
Proof.
  intros Hr Hf. apply recording_good. eapply keeps_bind; [by eapply keeps_rows|]. intros l Hl.
  eapply keeps_bind; [by eapply (keeps_map _ _ _ Rok any)|]. intros ? _. apply keeps_finish_body.
Qed.
Lemma encoded_switchport rows e : rows_ok Rok rows → encode_switchport rows ex = Ok e → good_index "switchport" C V (es_origins e).
Proof. intros Hr. apply encoded_mapped; [done|]. intros row Hrow. by eapply keeps_switchport_row. Qed.
Lemma encoded_lag rows e : rows_ok Rok rows → encode_lag rows ex = Ok e → good_index "lag" C V (es_origins e).
Proof. intros Hr. apply encoded_mapped; [done|]. intros row Hrow. by eapply keeps_lag_row. Qed.

Lemma encoded_isis rows e : rows_ok Rok rows → encode_isis rows ex = Ok e → good_index "isis" C V (es_origins e).
Proof.
  intros Hr. apply recording_good.
  eapply keeps_bind; [by eapply keeps_nested; [..|constructor]|]. intros [redist c1] H1.
  eapply keeps_bind; [by eapply keeps_nested|]. intros [flex c2] H2. eapply keeps_bind; [by eapply keeps_nested|]. intros [levels c3] H3.
  eapply keeps_bind; [by eapply keeps_rows|]. intros own_rows Hown.
  eapply keeps_bind; [eapply (keeps_fold _ _ _ Rok (fun acc : processes * list (json * LogicalRow) => Forall (fun kl => good_row C V kl.2) acc.2)); [|done|constructor]|].
  { intros acc row Ha Hrow. by eapply keeps_isis_process_row. }
  intros [ps own] Ho. eapply keeps_bind; [apply (keeps_for_all _ _ _ any); [intros; by apply keeps_emit_process|by apply Forall_true]|]. intros _ _.
  eapply keeps_bind; [by eapply keeps_encode_list|]. intros ? _. apply keeps_finish_body.
Qed.
Lemma encoded_ospf rows e : rows_ok Rok rows → encode_ospf rows ex = Ok e → good_index "ospf" C V (es_origins e).
Proof.
  intros Hr. apply recording_good.
  eapply keeps_bind; [by eapply keeps_nested; [..|constructor]|]. intros [redist children] Hc.
  eapply keeps_bind; [by eapply keeps_rows|]. intros own_rows Hown.
  eapply keeps_bind; [eapply (keeps_fold _ _ _ Rok any); [|done|done]; intros; by eapply keeps_ospf_process_row|]. intros acc _.
  eapply keeps_bind; [eapply (keeps_fold _ _ _ any any); [|by apply Forall_true|done]; intros; by eapply keeps_ospf_orphan|]. intros [ps pids] _.
  eapply keeps_bind; [by eapply keeps_encode_list|]. intros ? _. apply keeps_finish_body.
Qed.
Lemma encoded_bgp rows e : rows_ok Rok rows → encode_bgp rows ex = Ok e → good_index "bgp" C V (es_origins e).
Proof.
  intros Hr. apply recording_good.
  eapply keeps_bind; [by eapply keeps_rows|]. intros routers Hrt. eapply keeps_bind; [apply keeps_pure|]. intros _ _.
  eapply keeps_bind; [by eapply keeps_rows|]. intros redist Hrd. eapply keeps_bind; [apply keeps_pure|]. intros _ _.
  eapply keeps_bind; [eapply (keeps_fold _ _ _ Rok (fun acc : list BgpRouter * constructs => good_constructs C V acc.2)); [|done|constructor]|].
  { intros acc row Ha Hrow. by eapply keeps_router_row. }
  intros acc Ha.
  eapply keeps_bind; [eapply (keeps_fold _ _ _ (fun rr : hrow * pydict => Rok rr.1) (fun acc : list BgpRouter * constructs => good_constructs C V acc.2)); [|
    |exact Ha]|].
  { intros acc0 rr Hacc Hrr. eapply keeps_bind; [apply keeps_pure|]. intros d _. by eapply keeps_attach. }
  { eapply Forall_impl; [apply (Forall_zip Rok (fun _ : pydict => True)); [done|by apply Forall_true]|]. by intros [] []. }
  intros [rs cs] Hcs. eapply keeps_bind; [eapply (keeps_for_all _ _ _ (fun kc => good_construct C V kc.2)); [|exact Hcs]|].
  { intros kc Hkc. by apply keeps_emit_construct. }
  intros _ _. apply keeps_finish_body.
Qed.
Lemma encoded_route_policy rows e : rows_ok Rok rows → encode_route_policy rows ex = Ok e → good_index "route-policy" C V (es_origins e).
Proof.
  intros Hr. apply recording_good. eapply keeps_bind; [by eapply keeps_rows|]. intros l Hl.
  eapply keeps_bind; [eapply (keeps_fold _ _ _ Rok any); [|done|done]; intros; by eapply keeps_policy_row|]. intros ? _. apply keeps_finish_body.
Qed.

(** Grouping the address rows keeps them *)
Lemma grouped_rows (P : hrow -> Prop) l d : Forall (fun il : Z * list hrow => Forall P il.2) d → Forall P l → ∀ d',
  fold_res (fun d row => i ← int_item (attr row "interface_id"); Ok (push d i row)) l d = Ok d' → Forall (fun il => Forall P il.2) d'.
Proof.
  intros Hd Hl. revert d Hd. induction Hl as [|row l Hrow Hl IH]; intros d Hd d'; simpl; [by intros [= <-]|].
  destruct (int_item (attr row "interface_id")) as [i|]; [|done]. simpl. apply IH. apply Forall_dict_set; [done|]. simpl.
  apply Forall_app. split; [|by constructor]. destruct (dict_get d i) as [l0|] eqn:E; [|constructor]. apply dict_get_Some_in in E.
  by apply (proj1 (Forall_forall _ _) Hd _ E).
Qed.
Lemma encoded_interface rows e : rows_ok Rok rows → encode_interface_config rows ex = Ok e → good_index "interface" C V (es_origins e).
Proof.
  intros Hr. apply recording_good. destruct (sx_proof ex) as [proof|]; [|apply keeps_raise].
  eapply keeps_bind; [by eapply keeps_rows|]. intros attr_rows Hattr.
  eapply keeps_bind; [eapply (keeps_fold _ _ _ Rok (good_attributes C V)); [|done|constructor]; intros; by eapply keeps_attribute_row|].
  intros [by_name attributes] Ha. unfold good_attributes in Ha. simpl in Ha.
  eapply keeps_bind; [by eapply keeps_rows|]. intros ip_rows Hip.
  eapply keeps_bind; [apply keeps_lift; intros d; apply (grouped_rows Rok); [constructor|done]|]. intros groups Hg.
  eapply keeps_bind; [eapply (keeps_fold _ _ _ (fun g : Z * list hrow => Forall Rok g.2) (good_iface C V)); [|done|constructor]; intros; by eapply keeps_addresses|].
  intros acc Hacc. eapply keeps_bind; [apply keeps_pure|]. intros [by_name' kinds] _.
  eapply keeps_bind; [apply (keeps_for_all _ _ _ any); [|by apply Forall_true]|intros ? _; apply keeps_finish_body].
  intros name _. apply keeps_parent_origins.
  - destruct (dict_get attributes name) as [al|] eqn:E; [|constructor]. apply dict_get_Some_in in E. by apply (proj1 (Forall_forall _ _) Ha _ E).
  - apply grouped_get, Hacc.
Qed.

(** Every encoder of the registry *)
Lemma encoder_good section encode rows e : section_encoder section = Some encode → rows_ok Rok rows → encode rows ex = Ok e →
  good_index (section_family section) C V (es_origins e).
Proof.
  unfold section_encoder. cbn [dict_get].
  repeat (case_decide as Hs; [intros [= <-] Hr; subst section;
    match goal with |- _ → good_index (section_family ?s) _ _ _ => let f := eval vm_compute in (section_family s) in change (section_family s) with f end;
    first [by apply encoded_snmp|by apply encoded_logging|by apply encoded_isis|by apply encoded_bgp|by apply encoded_route_policy|by apply encoded_ospf
          |by apply encoded_switchport|by apply encoded_lag|by apply encoded_interface|by apply encoded_flat]|clear Hs]).
  done.
Qed.
End Sections.

(** ** Documents *)

(** Indexes of several families *)
Record wf_index (C : OriginContext) (V : SourceRef -> Prop) (families : list pystr) (i : OriginIndex) : Prop := {
  wf_unique : NoDup (index_keys i);
  wf_bindings : ∀ k b, (k, b) ∈ oi_bindings i → good_binding (ok_family k) C V k b;
  wf_families : ∀ k, k ∈ index_keys i → ok_family k ∈ families;
  wf_reasons : ∀ k reason, (k, reason) ∈ oi_unsupported i → reason = missing_binding ∨ reason = mixed_stream;
  wf_subjects : ∀ s reason, (s, reason) ∈ oi_unsupported_subjects i → reason = missing_natural_key;
  wf_retained : oi_retained i = [];
  wf_omitted : oi_omitted i = [] }.

(** The union of two indexes, without the check *)
Definition union_index (a b : OriginIndex) : OriginIndex :=
  mkIndex (oi_bindings a ++ oi_bindings b) (oi_unsupported a ++ oi_unsupported b) (oi_retained a ++ oi_retained b) (oi_omitted a ++ oi_omitted b)
    (update_dict (oi_unsupported_subjects a) (oi_unsupported_subjects b)).

Lemma index_keys_union a b : index_keys (union_index a b) ≡ₚ index_keys a ++ index_keys b.
Proof. unfold index_keys, dict_keys. simpl. rewrite !map_app. solve_Permutation. Qed.

Lemma in_update_dict {K W} `{EqDecision K} (e d : list (K * W)) x : x ∈ update_dict d e → x ∈ d ∨ x ∈ e.
Proof.
  unfold update_dict. revert d. induction e as [|[k v] e IH]; intros d; simpl; [auto|]. intros [H|?]%IH; [|set_solver].
  destruct x as [k' v']. apply in_dict_set in H as [[-> ->]|?]; set_solver.
Qed.

Lemma merge_disjoint C V families F a b : wf_index C V families a → good_index F C V b → F ∉ families →
  merge_index a b = Ok (union_index a b) ∧ wf_index C V (families ++ [F]) (union_index a b).
Proof.
  intros Ha Hb HF. assert (∀ k, k ∈ index_keys b → k ∉ index_keys a) as Hdis.
  { intros k Hk Hka. apply (gi_family _ _ _ _ Hb) in Hk. apply (wf_families _ _ _ _ Ha) in Hka. congruence. }
  assert (NoDup (index_keys a ++ index_keys b)) as HND.
  { apply NoDup_app. split; [apply Ha|]. split; [|apply Hb]. intros k ? ?. by apply (Hdis k). }
  split.
  - unfold merge_index. destruct (existsb _ _) eqn:E.
    { apply existsb_exists in E as (k & Hk & E). apply bool_decide_eq_true in E. apply list_elem_of_In in Hk. by apply Hdis in Hk. }
    pose proof (gi_unique _ _ _ _ Hb) as Hn. unfold index_keys in Hn, Hdis. apply NoDup_app in Hn as (Hn1 & _ & Hn2).
    unfold union_index. f_equal. f_equal; apply update_disjoint; try done; intros k Hk Hka; apply (Hdis k); rewrite elem_of_app; auto.
  - split; simpl.
    + by rewrite index_keys_union.
    + intros k x [?|Hin]%elem_of_app; [by apply Ha|]. pose proof (gi_bindings _ _ _ _ Hb _ _ Hin) as Hg. by rewrite (gb_family _ _ _ _ _ Hg).
    + intros k. rewrite index_keys_union, !elem_of_app, list_elem_of_singleton. intros [?|?]; [left; by apply Ha|right; by apply Hb].
    + intros k reason [?|?]%elem_of_app; [by eapply Ha|by eapply Hb].
    + intros k reason [?|?]%in_update_dict; [by eapply Ha|by eapply Hb].
    + by rewrite (wf_retained _ _ _ _ Ha), (gi_retained _ _ _ _ Hb).
    + by rewrite (wf_omitted _ _ _ _ Ha), (gi_omitted _ _ _ _ Hb).
Qed.

(** What one section contributes: nothing when it is absent or its body cannot be built *)
Definition section_result (document : pydict) (rows : by_section hydrated) (proofs : by_section InterfaceExecution) (context : option OriginContext)
    (se : pystr * SectionEntry) : res (option (pystr * EncodedSection)) :=
  if dict_mem document se.1 then
    match encode_section document se.1 (dict_get rows se.1) (dict_get proofs se.1) context with
    | Raise (NsoApplyError _) => Ok None
    | Raise e => Raise e
    | Ok e => Ok (Some (se_container se.2, e))
    end
  else Ok None.

(** The document as the plain union of its sections *)
Definition union_of (acc : EncodedSection) (results : list (option (pystr * EncodedSection))) : EncodedSection :=
  fold_left (fun acc r => match r with
                          | Some (container, e) => mkEncoded (es_body acc ++ [(container, JObj (es_body e))]) (union_index (es_origins acc) (es_origins e))
                          | None => acc
                          end) results acc.

(** The rows a document is encoded from: those handed in, or its own *)
Definition rows_for_section (document : pydict) (rows : by_section hydrated) (section : pystr) : res hydrated :=
  match dict_get rows section with Some r => Ok r | None => section_rows_by_table document section end.

Section Documents.
Context (V : SourceRef -> Prop) (Rok : hrow -> Prop) (context : option OriginContext).
Notation C := (default no_context context).
Context (HV : ∀ row table stream children stampable wc, Rok row → py_truthy table = true → V (source_ref row table stream C children stampable wc)).
Context (Hkids : ∀ row relationship, Rok row → Forall Rok (kids row relationship)).
Context (document : pydict) (rows : by_section hydrated) (proofs : by_section InterfaceExecution).
Context (Hrows : ∀ section h, rows_for_section document rows section = Ok h → rows_ok Rok h).

Lemma carried_rows_get h table l : dict_get (carried_rows h) table = Some l → ∃ l', dict_get h table = Some l' ∧ l = List.filter is_carried l'.
Proof.
  unfold carried_rows. induction h as [|[t r] h IH]; simpl; [done|]. destruct (decide (table = t)); [intros [= <-]; eauto|done].
Qed.
Lemma carried_rows_ok h : rows_ok Rok h → rows_ok Rok (carried_rows h).
Proof.
  intros H table l (l' & E & ->)%carried_rows_get. apply H in E. rewrite Forall_forall in *. intros x Hx. apply E. by eapply filter_sub.
Qed.

Lemma encode_section_good section proof e : encode_section document section (dict_get rows section) proof context = Ok e →
  good_index (section_family section) C V (es_origins e).
Proof.
  unfold encode_section. destruct (section_encoder section) as [encode|] eqn:E; [|done].
  destruct (match dict_get rows section with Some r => Ok r | None => section_rows_by_table document section end) as [h|] eqn:Eh; [|done]. cbn [mbind res_bind].
  destruct (match proof with Some p => Ok (Some p) | None => hydrated_proof document section end) as [p|]; [|done]. cbn [mbind res_bind].
  destruct (encoder_execution document section p context) as [ex|] eqn:Ex; [|done]. cbn [mbind res_bind].
  assert (sx_origin_context ex = context) as Hc.
  { revert Ex. unfold encoder_execution. destruct (section_context document section); [|done]. cbn [mbind res_bind].
    destruct (match get _ "dialect" with JStr d => _ | _ => _ end); [|done]. cbn [mbind res_bind]. by intros [= <-]. }
  destruct (encode (carried_rows h) ex) as [e'|e'] eqn:Ee; [|by destruct e'].
  intros Heq. assert (e' = e) as -> by congruence. rewrite <-Hc.
  eapply encoder_good; [| |exact E| |exact Ee]; [by rewrite Hc|done|]. apply carried_rows_ok. by eapply Hrows.
Qed.

Lemma encode_sections_union sections acc families :
  Forall (fun se : pystr * SectionEntry => section_family se.1 = se_container se.2) sections →
  NoDup (families ++ map (fun se : pystr * SectionEntry => se_container se.2) sections) →
  wf_index C V families (es_origins acc) → Forall (fun kv => kv.1 ∈ families) (es_body acc) →
  encode_sections document rows proofs context sections acc =
    (results ← map_res (section_result document rows proofs context) sections; Ok (union_of acc results)) ∧
  ∀ e, encode_sections document rows proofs context sections acc = Ok e → ∃ families, wf_index C V families (es_origins e).
Proof.
  intros Hf. revert acc families. induction Hf as [|[section entry] sections Hs Hf IH]; intros acc families Hn Ha Hb.
  { simpl. split; [done|]. intros e [= <-]. by exists families. }
  simpl in Hs, Hn |- *. set (R := section_result document rows proofs context) in *.
  assert (R (section, entry) = if dict_mem document section then
      match encode_section document section (dict_get rows section) (dict_get proofs section) context with
      | Raise (NsoApplyError _) => Ok None | Raise e => Raise e | Ok e => Ok (Some (se_container entry, e)) end else Ok None) as -> by done.
  assert (NoDup (families ++ map (fun se : pystr * SectionEntry => se_container se.2) sections)) as Hn'.
  { rewrite <-Permutation_middle in Hn. by apply NoDup_cons in Hn as [_ ?]. }
  assert (∀ r : res (option (pystr * EncodedSection)), r = Ok None →
    encode_sections document rows proofs context sections acc =
      (results ← (y ← r; ys ← map_res R sections; Ok (y :: ys)); Ok (union_of acc results)) ∧
    ∀ e, encode_sections document rows proofs context sections acc = Ok e → ∃ families, wf_index C V families (es_origins e)) as Hskip.
  { intros r ->. destruct (IH acc families Hn' Ha Hb) as [H1 H2]. split; [|exact H2]. rewrite H1. by destruct (map_res R sections). }
  destruct (dict_mem document section); [|exact (Hskip _ eq_refl)].
  destruct (encode_section document section (dict_get rows section) (dict_get proofs section) context) as [e|x] eqn:E.
  - destruct (merge_disjoint C V families (section_family section) (es_origins acc) (es_origins e) Ha (encode_section_good _ _ _ E)) as [Hm Hw].
    { rewrite Hs. rewrite <-Permutation_middle in Hn. apply NoDup_cons in Hn as [Hn _]. intros H. apply Hn. rewrite elem_of_app. by left. }
    rewrite Hm. cbn [mbind res_bind]. rewrite Hs in Hw.
    rewrite dict_set_fresh. 2: { intros H. unfold dict_keys in H. apply list_elem_of_fmap in H as ([k v] & Heq & Hin). simpl in Heq. subst k. apply (proj1 (Forall_forall _ _) Hb) in Hin. simpl in Hin.
      rewrite <-Permutation_middle in Hn. apply NoDup_cons in Hn as [Hn _]. apply Hn. rewrite elem_of_app. by left. }
    destruct (IH (mkEncoded (es_body acc ++ [(se_container entry, JObj (es_body e))]) (union_index (es_origins acc) (es_origins e))) (families ++ [se_container entry])) as [H1 H2].
    + by rewrite <-app_assoc.
    + done.
    + apply Forall_app. split; [eapply Forall_impl; [done|]; intros ? ?; rewrite elem_of_app; auto|]. constructor; [|constructor]. simpl. rewrite elem_of_app, list_elem_of_singleton. auto.
    + split; [|exact H2]. rewrite H1. by destruct (map_res R sections).
  - destruct x; first [exact (Hskip _ eq_refl)|split; [reflexivity|intros e He; discriminate He]].
Qed.

Lemma registry_families : Forall (fun se : pystr * SectionEntry => section_family se.1 = se_container se.2) section_registry ∧
  NoDup (map (fun se : pystr * SectionEntry => se_container se.2) section_registry).
Proof. split; [by apply (bool_decide_unpack _); vm_compute|by apply (bool_decide_unpack _); vm_compute]. Qed.

Lemma document_union : encode_device_document document rows proofs context =
    (results ← map_res (section_result document rows proofs context) section_registry; Ok (union_of (mkEncoded [] empty_index) results)) ∧
  ∀ e, encode_device_document document rows proofs context = Ok e → ∃ families, wf_index C V families (es_origins e).
Proof.
  destruct registry_families as [H1 H2]. apply (encode_sections_union section_registry (mkEncoded [] empty_index) []); [done|done| |constructor].
  split; simpl; [constructor|by intros ? ? ?%elem_of_nil|by intros ? ?%elem_of_nil|by intros ? ? ?%elem_of_nil|by intros ? ? ?%elem_of_nil|done|done].
Qed.
End Documents.
