(* ===== verification/Attribution.v ===== *)
(** * Attribution

    What the origins of an encoded document give: the membership of an execution is exactly the rows of the streams its
    generations carry, every refusal of a bound construct is attributed to its rows, and a flat section binds each wire entry, with
    every declared field, to the one row it was rendered from. *)

From stdpp Require Import base gmap list sets.
From Stdlib Require Import ZArith NArith Lia.
From stdpp Require Import base list sets.
From S2P Require Import Prelude Json Dialect Sha256 RefusalProtocol Registry Document Asn Identity Store Generation StaticPlan InterfaceProof VaultRef Hydrate Origins Encode EncodeRouting EncodePolicy DeviceBody OriginProps EncodeProps SectionProps.

Local Open Scope py_scope.
Local Open Scope Z_scope.

(** A document's encoding is the plain union of its sections' encodings, in registry order: a section whose body cannot be built
    contributes nothing, any other failure is the document's, and no two sections ever claim one origin. *)
Theorem document_is_union_of_sections document rows proofs context :
  encode_device_document document rows proofs context =
    (results ← map_res (section_result document rows proofs context) section_registry; Ok (union_of (mkEncoded [] empty_index) results)).
Proof. apply (document_union (fun _ => True) (fun _ => True)); try done; [by intros; apply Forall_true|by intros ? ? ? ? ? ?; apply Forall_true]. Qed.

(** ** Membership *)

Definition bound (l : LogicalRow) (i : OriginIndex) : Prop := ∃ k b, (k, b) ∈ oi_bindings i ∧ l ∈ ob_rows b.

(** The generation that authorizes a stream in an execution: the last one that carries it *)
Definition carrier_of (gs : list Generation) (stream : pystr) : option Generation :=
  last (List.filter (fun g => dict_mem (g_stream_revisions g) stream) gs).

Lemma fold_set_get {K W} `{EqDecision K} (l : list (K * W)) d k :
  dict_get (fold_left (fun d kv => dict_set d kv.1 kv.2) l d) k =
    match last (List.filter (fun kv => bool_decide (kv.1 = k)) l) with Some kv => Some kv.2 | None => dict_get d k end.
Proof.
  revert d. induction l as [|[k' v] l IH]; intros d; [done|]. simpl fold_left. rewrite IH. simpl List.filter.
  case_bool_decide as Hk; [|by rewrite dict_get_set_ne by done]. subst. rewrite last_cons.
  destruct (last (List.filter _ l)); [done|]. by rewrite dict_get_set_eq.
Qed.
Lemma carrier_context gs stream : dict_get (stream_contexts gs) stream = from_generation <$> carrier_of gs stream.
Proof.
  unfold stream_contexts, dict_of_pairs, carrier_of. rewrite fold_set_get. simpl.
  induction gs as [|g gs IH] using rev_ind; [done|].
  rewrite flat_map_app, !List.filter_app. simpl. rewrite app_nil_r.
  assert (last (List.filter (fun kv : pystr * OriginContext => bool_decide (kv.1 = stream)) (map (fun sr : pystr * Z => (sr.1, from_generation g)) (g_stream_revisions g))) =
          if dict_mem (g_stream_revisions g) stream then Some (stream, from_generation g) else None) as Hg.
  { unfold dict_mem. induction (g_stream_revisions g) as [|[s r] l IHl]; [done|]. simpl. destruct (decide (stream = s)) as [->|Hne].
    - rewrite bool_decide_eq_true_2 by done. rewrite last_cons, IHl. by destruct (dict_get l s).
    - by rewrite bool_decide_eq_false_2 by done. }
  rewrite last_app, Hg. destruct (dict_mem (g_stream_revisions g) stream); simpl; [by rewrite last_snoc|]. by rewrite app_nil_r.
Qed.

Lemma dict_get_fmap {K A B} `{EqDecision K} (f : K -> A -> B) (d : list (K * A)) k : dict_get (map (fun kv => (kv.1, f kv.1 kv.2)) d) k = f k <$> dict_get d k.
Proof. induction d as [|[k' v] d IH]; simpl; [done|]. by destruct (decide (k = k')) as [->|]. Qed.

(** The context of an execution answers each carried stream with its own generation *)
Lemma execution_context_spec gs ctx stream g : execution_context gs = Ok ctx → carrier_of gs stream = Some g →
  for_stream ctx stream = from_generation g ∧ revision_of ctx stream = dict_get (g_stream_revisions g) stream.
Proof.
  unfold execution_context. destruct (last gs) as [highest|]; [|done]. destruct (map_res _ _) as [revisions|] eqn:E; [|done]. intros [= <-] Hg.
  pose proof (carrier_context gs stream) as Hc. rewrite Hg in Hc. simpl in Hc. unfold for_stream, revision_of at 1. simpl. rewrite Hc. split; [done|].
  revert Hc E. generalize (stream_contexts gs). intros contexts. revert revisions. induction contexts as [|[s c] contexts IH]; intros revisions; simpl; [done|].
  destruct (revision_of c s) as [r|] eqn:Er; [|done]. cbn [mbind res_bind].
  destruct (map_res _ contexts) as [rest|] eqn:E; [|done]. cbn [mbind res_bind]. intros Hd [= <-]. simpl.
  destruct (decide (stream = s)) as [->|]; [|by apply IH]. injection Hd as ->. by rewrite <-Er.
Qed.
Lemma not_carried gs ctx stream : execution_context gs = Ok ctx → carrier_of gs stream = None → dict_get (oc_stream_contexts ctx) stream = None.
Proof.
  unfold execution_context. destruct (last gs) as [highest|]; [|done]. destruct (map_res _ _) as [revisions|]; [|done]. intros [= <-] Hg. simpl.
  by rewrite carrier_context, Hg.
Qed.
Lemma carried_get gs ctx stream g : execution_context gs = Ok ctx → carrier_of gs stream = Some g → dict_get (oc_stream_contexts ctx) stream = Some (from_generation g).
Proof.
  unfold execution_context. destruct (last gs) as [highest|]; [|done]. destruct (map_res _ _) as [revisions|]; [|done]. intros [= <-] Hg. simpl.
  by rewrite carrier_context, Hg.
Qed.

(** The rows of an encoded document carry their stream's frozen facts *)
Lemma bound_good document rows proofs context e l : encode_device_document document rows proofs context = Ok e → bound l (es_origins e) →
  good_row (default no_context context) (fun _ => True) l.
Proof.
  intros H (k & b & Hin & Hl).
  destruct (document_union (fun _ => True) (fun _ => True) context) with (document := document) (rows := rows) (proofs := proofs) as [_ Hw]; try done.
  { by intros; apply Forall_true. } { by intros ? ? ? ? ? ?; apply Forall_true. }
  destruct (Hw e H) as [families Hf]. by apply (wf_bindings _ _ _ _ Hf _ _ Hin).
Qed.
Lemma bound_current document rows proofs context e k b : encode_device_document document rows proofs context = Ok e → (k, b) ∈ oi_bindings (es_origins e) → ob_provenance b = Current.
Proof.
  intros H Hin.
  destruct (document_union (fun _ => True) (fun _ => True) context) with (document := document) (rows := rows) (proofs := proofs) as [_ Hw]; try done.
  { by intros; apply Forall_true. } { by intros ? ? ? ? ? ?; apply Forall_true. }
  destruct (Hw e H) as [families Hf]. by apply (wf_bindings _ _ _ _ Hf _ _ Hin).
Qed.

Lemma membership_spec gs ctx document rows proofs e l :
  execution_context gs = Ok ctx → encode_device_document document rows proofs (Some ctx) = Ok e →
  l ∈ current_membership (es_origins e) ctx ↔ bound l (es_origins e) ∧ carried_by (oc_stream_contexts ctx) l = true.
Proof.
  intros Hctx He. unfold current_membership. rewrite elem_of_fromkeys, list_elem_of_In, filter_In, <-list_elem_of_In.
  assert (l ∈ flat_map (fun kb : OriginKey * OriginBinding => if bool_decide (ob_provenance kb.2 = Current) then ob_rows kb.2 else []) (oi_bindings (es_origins e)) ↔
          bound l (es_origins e)) as ->; [|done].
  rewrite list_elem_of_In, in_flat_map. split.
  - intros ([k b] & Hin & Hl). apply list_elem_of_In in Hin. exists k, b. split; [done|]. simpl in Hl. apply list_elem_of_In. by destruct (bool_decide _).
  - intros (k & b & Hin & Hl). exists (k, b). split; [by apply list_elem_of_In|]. simpl. rewrite bool_decide_eq_true_2; [by apply list_elem_of_In|]. by eapply bound_current.
Qed.
(** The stamps of a row the document bound are its carrier's. *)
Lemma bound_stamps gs ctx document rows proofs e l g :
  execution_context gs = Ok ctx → encode_device_document document rows proofs (Some ctx) = Ok e → bound l (es_origins e) → carrier_of gs (lr_stream l) = Some g →
  lr_generation l = Some (g_id g) ∧ lr_revision l = dict_get (g_stream_revisions g) (lr_stream l) ∧ lr_push_seq l = default None (dict_get (g_source_push_seq g) (lr_stream l)).
Proof.
  intros Hctx He Hb Eg. pose proof (bound_good _ _ _ _ _ _ He Hb) as Hg. simpl in Hg. destruct (execution_context_spec _ _ _ _ Hctx Eg) as [Hfor Hrev].
  destruct Hg as [H1 H2 H3 _ _ _]. by rewrite H1, H2, H3, Hfor, Hrev.
Qed.

Lemma eligible_membership_spec members selection l : l ∈ eligible_membership members selection ↔
  l ∈ members ∧ ∃ m, m ∈ members ∧ joins_carrier (selection_identities selection) m = true ∧ lr_carrier m = lr_carrier l.
Proof.
  unfold eligible_membership. rewrite list_elem_of_In, filter_In, <-list_elem_of_In, bool_decide_eq_true, (list_elem_of_In _ (lr_carrier l)), in_map_iff.
  split; intros [Hl (m & H)]; (split; [done|]); exists m.
  - destruct H as [Hc [Hm Hj]%filter_In]. by rewrite list_elem_of_In.
  - destruct H as (Hm & Hj & Hc). split; [done|]. apply filter_In. by rewrite <-list_elem_of_In.
Qed.

(** C36: The rows of an encoded document that an execution accounts for are exactly the bound rows whose stream one of its generations
    carries: none is left out.  Each such row was stamped with the generation, revision and push of the last generation that carries its
    stream.  An Apply records of them the rows whose carrier some row its selection joins has. *)
Theorem membership_is_carried_streams gs ctx document rows proofs e :
  execution_context gs = Ok ctx → encode_device_document document rows proofs (Some ctx) = Ok e →
  (∀ l, l ∈ current_membership (es_origins e) ctx ↔ bound l (es_origins e) ∧ is_Some (carrier_of gs (lr_stream l))) ∧
  (∀ l g, bound l (es_origins e) → carrier_of gs (lr_stream l) = Some g →
     lr_generation l = Some (g_id g) ∧ lr_revision l = dict_get (g_stream_revisions g) (lr_stream l) ∧
     lr_push_seq l = default None (dict_get (g_source_push_seq g) (lr_stream l))) ∧
  (∀ selection l, l ∈ eligible_membership (current_membership (es_origins e) ctx) selection ↔ l ∈ current_membership (es_origins e) ctx ∧
     ∃ m, m ∈ current_membership (es_origins e) ctx ∧ joins_carrier (selection_identities selection) m = true ∧ lr_carrier m = lr_carrier l).
Proof.
  intros Hctx He. split; [|split; [intros l g Hb Eg; by eapply bound_stamps|intros; apply eligible_membership_spec]]. intros l. rewrite (membership_spec _ _ _ _ _ _ _ Hctx He). split; intros [Hb H]; (split; [done|]).
  - unfold carried_by in H. destruct (carrier_of gs (lr_stream l)) as [g|] eqn:Eg; [done|]. by rewrite (not_carried _ _ _ Hctx Eg) in H.
  - destruct H as [g Eg]. destruct (bound_stamps _ _ _ _ _ _ _ _ Hctx He Hb Eg) as (H1 & H2 & H3). unfold carried_by. rewrite (carried_get _ _ _ _ Hctx Eg), H1, H2, H3.
    by rewrite !bool_decide_eq_true_2.
Qed.

(** ** Refusals *)

(** A stored record with a usable identity: a positive key, and an acceptance stamp with its offset. *)
Definition record_ok (r : pydict) : bool :=
  match get r "id" with JInt i => 0 <? i | _ => false end && match get r "accepted_at" with JStr t => aware t | _ => true end.
Inductive tree_ok : hrow -> Prop :=
| tree_ok_intro table cols ks : record_ok cols = true -> (∀ relationship l, dict_get ks relationship = Some l -> ∀ k, k ∈ l -> tree_ok k) ->
    tree_ok (HRow table cols ks).

Lemma tree_ok_kids row relationship : tree_ok row → Forall tree_ok (kids row relationship).
Proof.
  intros [table cols ks _ Hk]. unfold kids. simpl. destruct (dict_get ks relationship) as [l|] eqn:E; [|constructor]. apply Forall_forall. by eapply Hk.
Qed.
Lemma content_digest_shape v : py_len (content_digest v) = 64%nat ∧ forallb (in_chars HEX) (py_chars (content_digest v)) = true.
Proof.
  unfold content_digest. destruct (sha256_hex_shape (ascii_bytes (dumps compact_sorted v))) as [H1 H2]. split; [exact H1|].
  eapply forallb_impl; [|exact H2]. intros c. unfold is_hex, in_chars, HEX. simpl. rewrite !orb_true_iff, !andb_true_iff, !N.leb_le, !N.eqb_eq. lia.
Qed.
Lemma valid_source_ref row table stream C children stampable wc : tree_ok row → py_truthy table = true →
  valid_source (source_ref row table stream C children stampable wc) = true.
Proof.
  intros [t cols ks Hr _] Ht. unfold record_ok in Hr. apply andb_true_iff in Hr as [H1 H2].
  unfold valid_source, source_ref, attr. cbn [sr_table sr_row_identity sr_content sr_accepted_at hr_cols].
  destruct (content_digest_shape (JArr [JObj (intent_values (HRow t cols ks)); JArr (map (fun c => JStr (sr_content c)) children); wc])) as [H3 H4].
  rewrite Ht, H3, H4. destruct (get cols "id"); try done. rewrite H1. destruct (get cols "accepted_at"); done.
Qed.

(** Every row of every table of the document *)
Definition document_ok (document : pydict) : bool :=
  forallb (fun kv => match or_empty (Some kv.2) with
                     | Ok body => match tables_of body with Ok t => forallb (fun tr => forallb record_ok tr.2) t | Raise _ => true end
                     | Raise _ => true
                     end) document.

Lemma index_rows_in s rows ids indexed by_id r : index_rows s rows ids indexed by_id = Ok r → ∀ ir, ir ∈ r.1 → ir ∈ indexed ∨ ir.2 ∈ rows.
Proof.
  revert indexed by_id. induction rows as [|row rows IH]; intros indexed by_id; simpl; [by intros [= <-]; auto|].
  destruct (row_identity s row ids) as [i|]; [|done]. cbn [mbind res_bind]. destruct (forallb hashable_part i); [|done].
  destruct (assoc_get identity_eqb indexed i); [done|]. destruct (scalar (get row "id")); [|done].
  intros H ir Hir. apply (IH _ _ H) in Hir as [Hin|?]; [|right; by right]. apply elem_of_app in Hin as [?| ->%list_elem_of_singleton]; [by left|]. right. by left.
Qed.
Definition index_ok (indexes : rows_index) : Prop := ∀ model ir, ir ∈ index_of_model indexes model → record_ok ir.2 = true.
Lemma identity_indexes_ok t specs ids out indexes : (∀ table, Forall (fun r => record_ok r = true) (table_rows t table)) → index_ok out →
  identity_indexes t specs ids out = Ok indexes → index_ok indexes.
Proof.
  intros Ht. revert ids out. induction specs as [|s specs IH]; intros ids out Ho; simpl; [by intros [= <-]|].
  destruct (validate_asn_rows _ _ _); [|done]. cbn [mbind res_bind].
  destruct (index_rows s (table_rows t (tablename (sp_model s))) ids [] []) as [ib|] eqn:E; [|done]. cbn [mbind res_bind]. apply IH.
  intros model ir. unfold index_of_model. destruct (decide (model = sp_model s)) as [->|Hne].
  - rewrite dict_get_set_eq. simpl. intros Hin. apply (index_rows_in _ _ _ _ _ _ E) in Hin as [?%elem_of_nil|Hin]; [done|].
    by apply (proj1 (Forall_forall _ _) (Ht (tablename (sp_model s)))).
  - rewrite dict_get_set_ne by done. apply Ho.
Qed.
Lemma build_instance_ok fuel specs indexes model i record : index_ok indexes → record_ok record = true → tree_ok (build_instance fuel specs indexes model i record).
Proof.
  intros Hi. revert model i record. induction fuel as [|fuel IH]; intros model i record Hr; simpl; [by constructor|]. constructor; [done|].
  intros rel l Hl k Hk. apply dict_get_Some_in, list_elem_of_fmap in Hl as (s & [= -> ->] & _).
  apply list_elem_of_fmap in Hk as (ir & -> & Hin). apply IH. eapply Hi. by eapply filter_sub.
Qed.

Lemma hydrate_section_ok document section h : document_ok document = true → hydrate_section document section = Ok h → rows_ok tree_ok h.
Proof.
  unfold hydrate_section, dict_mem. intros Hd. destruct (dict_get document section) as [v|] eqn:E; [|done].
  destruct (section_context document section) as [context|]; [|done]. cbn [mbind res_bind].
  destruct (or_empty (Some v)) as [body|] eqn:Eb; [|done]. cbn [mbind res_bind]. destruct (tables_of body) as [t|] eqn:Et; [|done]. cbn [mbind res_bind].
  destruct (validate_tables _ t); [|done]. cbn [mbind res_bind]. destruct (dict_get SECTION_REGISTRY section) as [entry|]; [|done].
  destruct (map_res (hydrate_records _ _) t); [|done]. cbn [mbind res_bind]. destruct (identity_indexes t _ [] []) as [indexes|] eqn:Ei; [|done]. cbn [mbind res_bind].
  destruct (map_res (check_children indexes) _); [|done]. intros [= <-].
  assert (∀ tr, tr ∈ t → Forall (fun r => record_ok r = true) tr.2) as Ht.
  { intros tr Htr. apply dict_get_Some_in in E. unfold document_ok in Hd. rewrite forallb_Forall, Forall_forall in Hd. specialize (Hd _ E). cbn [snd] in Hd.
    rewrite Eb, Et in Hd. rewrite forallb_Forall, Forall_forall in Hd. apply forallb_Forall. by apply Hd. }
  assert (index_ok indexes) as Hi.
  { eapply identity_indexes_ok; [| |exact Ei]; [|by intros model ir ?%elem_of_nil]. intros table. unfold table_rows.
    destruct (dict_get t table) as [l|] eqn:El; [|constructor]. by apply dict_get_Some_in, Ht in El. }
  intros table l Hl. apply dict_get_Some_in, list_elem_of_fmap in Hl as (tr & [= -> ->] & Htr). unfold table_instances.
  destruct (dict_get spec_by_table tr.1) as [s|]; [|constructor]. destruct (mem (sp_model s) _); apply Forall_forall; intros x Hx; apply list_elem_of_fmap in Hx as (y & -> & Hy).
  - apply build_instance_ok; [done|]. by eapply Hi.
  - constructor; [|done]. by apply (proj1 (Forall_forall _ _) (Ht _ Htr)).
Qed.
Lemma section_rows_ok document section h : document_ok document = true → section_rows_by_table document section = Ok h → rows_ok tree_ok h.
Proof.
  unfold section_rows_by_table. intros Hd. destruct (hydrate_section document section) as [h'|] eqn:E; [|done]. cbn [mbind res_bind]. intros [= <-].
  pose proof (hydrate_section_ok _ _ _ Hd E) as H. unfold rows_by_table. destruct (dict_get SECTION_REGISTRY section) as [entry|]; [|done].
  intros table l. unfold dict_of_pairs. rewrite fold_set_get. simpl.
  destruct (last _) as [[t l']|] eqn:El; [|done]. intros [= <-]. apply last_Some_elem_of in El. apply filter_sub in El.
  apply list_elem_of_fmap in El as (s & [= -> ->] & _). destruct (dict_get h' _) as [l0|] eqn:Eh; [by eapply H|constructor].
Qed.

(** A refusal resolves exactly when its construct is bound *)
Lemma resolve_bound C families i r : wf_index C (fun s => valid_source s = true) families i →
  match dict_get (oi_bindings i) (refusal_key r) with
  | Some b => resolve_one i r = inl (mkAttributed r (ob_sources b) (ob_rows b))
  | None => ∃ reason, resolve_one i r = inr reason ∧ reason ∈ [missing_binding; mixed_stream; missing_natural_key]
  end.
Proof.
  intros Hi. unfold resolve_one. destruct (dict_get (oi_bindings i) (refusal_key r)) as [b|] eqn:Eb.
  - destruct (dict_get (oi_unsupported i) (refusal_key r)) as [reason|] eqn:Eu.
    { exfalso. pose proof (wf_unique _ _ _ _ Hi) as Hn. unfold index_keys in Hn. apply NoDup_app in Hn as (_ & Hn & _).
      apply (Hn (refusal_key r)); apply dict_get_in_keys; eauto. }
    apply dict_get_Some_in, (wf_bindings _ _ _ _ Hi) in Eb as [_ Hp Hne Hrows Hsne Hs]. rewrite Hp. simpl.
    assert (∀ k, Forall (fun s => valid_source s = true) k → existsb (fun s => negb (valid_source s)) k = false) as Hv.
    { intros k. induction 1 as [|s k Hk _ IH]; simpl; [done|]. by rewrite Hk. }
    rewrite (Hv _ Hs). destruct (ob_sources b) as [|s0 ss] eqn:E1; [done|]. destruct (ob_rows b) as [|l0 ls] eqn:E2; [done|]. rewrite <-E2 in *. cbn [orb].
    destruct (existsb _ (ob_rows b)) eqn:E3.
    { apply existsb_exists in E3 as (l & Hl%list_elem_of_In & E3). destruct (Hrows _ Hl) as [[_ _ _ _ Hpr Hso] _]. rewrite (Hv _ Hso), orb_false_r in E3.
      by destruct (lr_sources l). }
    destruct (existsb _ (ob_rows b)) eqn:E4 at 1; [|done].
    apply existsb_exists in E4 as (l & Hl%list_elem_of_In & E4). destruct (Hrows _ Hl) as [[_ _ _ Hca _ _] Hst]. rewrite Hca, Hst in E4.
    rewrite bool_decide_eq_true_2 in E4 by done. done.
  - destruct (dict_get (oi_unsupported i) (refusal_key r)) as [reason|] eqn:Eu.
    { exists reason. split; [done|]. apply dict_get_Some_in, (wf_reasons _ _ _ _ Hi) in Eu as [->| ->]; set_solver. }
    destruct (dict_get (oi_unsupported_subjects i) _) as [reason|] eqn:Es; simpl; [|exists missing_binding; set_solver].
    exists reason. split; [done|]. apply dict_get_Some_in, (wf_subjects _ _ _ _ Hi) in Es as ->. set_solver.
Qed.


(** ** Flat sections bind each entry to its row

    Recording only ever adds bindings, so what a row's turn records is still there when the section is finished. *)


Definition binding_at (r : Recorder) (k : OriginKey) : option OriginBinding := dict_get (oi_bindings (rec_index r)) k.

(** The recorder after some more recording *)
Record extends (r r' : Recorder) : Prop := {
  ext_family : rec_family r' = rec_family r;
  ext_context : rec_context r' = rec_context r;
  ext_bindings : ∀ k b, binding_at r k = Some b → binding_at r' k = Some b }.

#[global] Instance extends_refl : Reflexive extends.
Proof. by split. Qed.
#[global] Instance extends_trans : Transitive extends.
Proof. intros r1 r2 r3 [] []. split; [congruence|congruence|auto]. Qed.

Definition grows {A} (m : txn Recorder A) : Prop := ∀ r a r', m r = Ok (a, r') → extends r r'.

Lemma grows_bind {A B} (m : txn Recorder A) (f : A -> txn Recorder B) : grows m → (∀ a, grows (f a)) → grows (m ≫= f).
Proof. intros Hm Hf r b r' (a & s & H1 & H2)%txn_bind_Ok. etransitivity; [by eapply Hm|by eapply Hf]. Qed.
Lemma grows_ret {A} (a : A) : grows (mret a).
Proof. by intros r ? ? [= <- <-]. Qed.
Lemma grows_gets {A} (f : Recorder -> A) : grows (gets f).
Proof. by intros r ? ? [= <- <-]. Qed.
Lemma grows_lift {A} (x : res A) : grows (lift_res x).
Proof. intros r a r'. unfold lift_res. destruct x; [|done]. by intros [= <- <-]. Qed.
Lemma grows_for_all {A} (f : A -> txn Recorder unit) l : (∀ x, grows (f x)) → grows (for_all f l).
Proof. intros Hf. induction l as [|x l IH]; simpl; [apply grows_ret|]. by apply grows_bind. Qed.
Lemma grows_map {A B} (f : A -> txn Recorder B) l : (∀ x, grows (f x)) → grows (map_txn f l).
Proof. intros Hf. induction l as [|x l IH]; simpl; [apply grows_ret|]. apply grows_bind; [done|]. intros y. apply grows_bind; [done|]. intros. apply grows_ret. Qed.

Lemma grows_bind_key key logicals construct sources : grows (bind_key key logicals construct sources).
Proof.
  intros r [] r' (r0 & ? & [= <- <-] & H)%txn_bind_Ok. revert H.
  cbv beta zeta. match goal with |- context [if ?c then _ else _] => destruct c eqn:E; [by intros [=]|] end. apply orb_false_iff in E as [E _].
  destruct (fromkeys (map lr_stream logicals)) as [|stream [|]]; intros [= <-]; split; try done; unfold binding_at; simpl.
  intros k b Hk. destruct (decide (k = key)) as [->|]; [|by rewrite dict_get_set_ne by done]. unfold dict_mem in E. by rewrite Hk in E.
Qed.
Lemma grows_bind_field row subject logicals fr sources fs declared : grows (bind_field row subject logicals fr sources fs declared).
Proof. apply grows_bind; [apply grows_gets|]. intros family. apply grows_bind_key. Qed.
Lemma grows_emit subject path rows fr sources fs : grows (emit subject path rows fr sources fs).
Proof.
  apply grows_bind; [apply grows_gets|]. intros family. apply grows_bind; [apply grows_lift|]. intros row.
  apply grows_bind; [apply grows_bind_key|]. intros _. apply grows_bind; [apply grows_lift|]. intros fields.
  apply grows_bind; [apply grows_for_all; intros; apply grows_bind_field|]. intros _. apply grows_ret.
Qed.
Lemma logical_spec subject path src stream carrier children r l r' : logical subject path src stream carrier children r = Ok (l, r') →
  extends r r' ∧ lr_stream l = stream ∧ lr_sources l = src :: children ∧ row_ref (rec_family r) subject path = Ok (lr_row l).
Proof.
  intros (r0 & ? & [= <- <-] & (row & r1 & H1 & H2)%txn_bind_Ok)%txn_bind_Ok. unfold lift_res in H1.
  destruct (row_ref (rec_family r) subject path) as [ref|] eqn:E; [|done]. injection H1 as -> <-. case_bool_decide; [done|]. injection H2 as <- <-. by repeat split.
Qed.

(** The binding of a construct that one row alone produced *)
Definition sole_binding (l : LogicalRow) (construct : pystr) : OriginBinding :=
  mkBinding (lr_stream l) (fromkeys (lr_sources l)) construct Current [l] None None None.

Lemma bind_sole key l construct r r' : bind_key key [l] construct None r = Ok (tt, r') → binding_at r' key = Some (sole_binding l construct).
Proof.
  intros (r0 & ? & [= <- <-] & H)%txn_bind_Ok. revert H.
  cbv beta zeta. match goal with |- context [if ?c then _ else _] => destruct c eqn:E; [by intros [=]|] end. cbn [map]. rewrite fromkeys_one. intros [= <-]. unfold binding_at. simpl.
  rewrite dict_get_set_eq, app_nil_r. done.
Qed.
Lemma bind_fields_sole row subject l fields r r' : for_all (bind_field row subject [l] None None None) fields r = Ok (tt, r') →
  extends r r' ∧ ∀ f, f ∈ fields → binding_at r' (mkKey (rec_family r) row (Some f)) = Some (sole_binding l subject).
Proof.
  revert r. induction fields as [|f fields IH]; intros r; simpl; [intros [= <-]; split; [done|by intros ? ?%elem_of_nil]|].
  intros ([] & r1 & H1 & H2)%txn_bind_Ok. pose proof (grows_bind_field _ _ _ _ _ _ _ _ _ _ H1) as E1. destruct (IH _ H2) as [E2 H].
  split; [by etransitivity|]. intros f' [->|Hf]%elem_of_cons; [|rewrite <-(ext_family _ _ E1); by apply H].
  apply (ext_bindings _ _ E2). unfold bind_field in H1. apply txn_bind_Ok in H1 as (family & ? & [= <- <-] & H1). cbn [bool_decide] in H1.
  eapply bind_sole. by destruct (bool_decide ([l] = [l])).
Qed.
Lemma emit_sole subject path l r ref r' : emit subject path [l] None None None r = Ok (ref, r') →
  extends r r' ∧ row_ref (rec_family r) subject path = Ok ref ∧
  ∃ fields, subject_fields subject = Ok fields ∧
    ∀ field, field = None ∨ (∃ f, field = Some f ∧ f ∈ fields) → binding_at r' (mkKey (rec_family r) ref field) = Some (sole_binding l subject).
Proof.
  intros H. pose proof (grows_emit _ _ _ _ _ _ _ _ _ H) as Hext. split; [done|]. revert H.
  intros (family & ? & [= <- <-] & (row & r1 & H1 & ([] & r2 & H2 & (fields & r3 & H3 & ([] & r4 & H4 & [= <- <-])%txn_bind_Ok)%txn_bind_Ok)%txn_bind_Ok)%txn_bind_Ok)%txn_bind_Ok.
  unfold lift_res in H1, H3. destruct (row_ref (rec_family r) subject path) as [?|] eqn:E; [|done]. injection H1 as -> <-. split; [done|].
  destruct (subject_fields subject) as [?|]; [|done]. injection H3 as -> <-. exists fields. split; [done|]. rewrite fromkeys_one in H2, H4.
  pose proof (grows_bind_key _ _ _ _ _ _ _ H2) as E2. destruct (bind_fields_sole _ _ _ _ _ _ H4) as [E4 Hf].
  intros field [->|(f & -> & Hin)]; [apply (ext_bindings _ _ E4); by eapply bind_sole|]. rewrite <-(ext_family _ _ E2). by apply Hf.
Qed.

(** What [_origin_row] records for one row *)
Definition row_bound (F : pystr) (C : OriginContext) (subject table stream : pystr) (path : natural_path) (row : hrow) (at_ : OriginKey -> option OriginBinding) : Prop :=
  ∃ ref l fields, row_ref F subject path = Ok ref ∧ subject_fields subject = Ok fields ∧ lr_row l = ref ∧ lr_stream l = stream ∧
    lr_sources l = [source_ref row table stream C [] true JNull] ∧
    ∀ field, field = None ∨ (∃ f, field = Some f ∧ f ∈ fields) → at_ (mkKey F ref field) = Some (sole_binding l subject).

Lemma origin_row_spec subject path row table stream r l r' : origin_row subject path row table stream r = Ok (l, r') →
  extends r r' ∧ row_bound (rec_family r) (rec_context r) subject table stream path row (binding_at r').
Proof.
  intros (src & r1 & [= <- <-] & (l' & r2 & H2 & (ref & r3 & H3 & [= -> <-])%txn_bind_Ok)%txn_bind_Ok)%txn_bind_Ok.
  apply logical_spec in H2 as (E1 & Hs & Hsrc & Href). apply emit_sole in H3 as (E2 & Href2 & fields & Hf & Hb).
  rewrite (ext_family _ _ E1) in *. split; [by etransitivity|]. assert (lr_row l = ref) as Heq by congruence.
  exists ref, l, fields. by repeat split.
Qed.
Lemma row_bound_extends r r' F C subject table stream path row : extends r r' →
  row_bound F C subject table stream path row (binding_at r) → row_bound F C subject table stream path row (binding_at r').
Proof.
  intros E (ref & l & fields & H1 & H2 & H3 & H4 & H5 & H). exists ref, l, fields. repeat split; try done. intros field Hfield. apply E. by apply H.
Qed.

Lemma recording_Ok F ex m e : recording F ex m = Ok e → ∃ r', m (new_recorder F (sx_origin_context ex)) = Ok (e, r').
Proof. unfold recording. destruct (m (new_recorder F (sx_origin_context ex))) as [[e' r']|]; [|done]. intros [= <-]. by exists r'. Qed.

Section Flat.
Context (F subject table stream : pystr) (entry : hrow -> res pydict) (path : hrow -> natural_path).

Lemma encode_rows_spec l r vs r' : map_txn (encode_row subject table stream entry path) l r = Ok (vs, r') →
  extends r r' ∧ (∃ entries, map_res entry l = Ok entries ∧ vs = map JObj entries) ∧
  ∀ row, row ∈ l → row_bound (rec_family r) (rec_context r) subject table stream (path row) row (binding_at r').
Proof.
  revert r vs. induction l as [|row l IH]; intros r vs; simpl.
  { intros [= <- <-]. split; [done|]. split; [by exists []|by intros ? ?%elem_of_nil]. }
  intros (v & r1 & H1 & (vs' & r2 & H2 & [= <- <-])%txn_bind_Ok)%txn_bind_Ok.
  apply txn_bind_Ok in H1 as (e & r0 & H0 & (lr & r3 & H3 & [= <- <-])%txn_bind_Ok). unfold lift_res in H0.
  destruct (entry row) as [?|]; [|done]. injection H0 as -> <-. apply origin_row_spec in H3 as [E1 Hrow].
  destruct (IH _ _ H2) as (E2 & (entries & -> & ->) & Hrest). split; [by etransitivity|]. split; [by exists (e :: entries)|].
  intros row' [->|Hin]%elem_of_cons; [by eapply row_bound_extends|]. rewrite <-(ext_family _ _ E1), <-(ext_context _ _ E1). by apply Hrest.
Qed.

Lemma encode_flat_spec list_name rows ex e :
  encode_flat F subject table stream list_name entry path rows ex = Ok e →
  ∃ l entries, dict_get rows table = Some l ∧ map_res entry l = Ok entries ∧ es_body e = [(list_name, JArr (map JObj entries))] ∧
    ∀ row, row ∈ l → row_bound F (default no_context (sx_origin_context ex)) subject table stream (path row) row (dict_get (oi_bindings (es_origins e))).
Proof.
  intros (r' & E)%recording_Ok.
  apply txn_bind_Ok in E as (vs & r1 & (l & r0 & H0 & H1)%txn_bind_Ok & H2). unfold lift_res, rows_in in H0.
  destruct (dict_get rows table) as [?|]; [|done]. injection H0 as -> <-. apply encode_rows_spec in H1 as (E1 & (entries & He & ->) & Hrows).
  exists l, entries. split; [done|]. split; [done|].
  apply txn_bind_Ok in H2 as (? & ? & [= <- <-] & (u & r2 & H3 & [= <- <-])%txn_bind_Ok). split; [done|].
  assert (extends r1 r2) as E2.
  { destruct (rec_contributors r1); [by injection H3 as <- <-|]. apply txn_bind_Ok in H3 as (? & ? & H3 & [= <- <-]). by eapply grows_emit. }
  intros row Hrow. apply (row_bound_extends _ _ _ _ _ _ _ _ _ E2). by apply Hrows.
Qed.

End Flat.

(** The path under which NSO names an entry of a list: the list and the entry's key leaves *)
Definition entry_path (list_name : pystr) (keys : list pystr) (entry : pydict) : natural_path := [(list_name, map (fun k => key_of (get entry k)) keys)].
(** [encoder] sends one entry per row of [table], in order, and binds each entry's construct, with every field its subject declares, to that row *)
Definition binds_rows (encoder : hydrated -> SectionExecution -> res EncodedSection) (family subject table stream list_name : pystr) (keys : list pystr)
    (entry : hrow -> res pydict) : Prop :=
  ∀ rows ex e, encoder rows ex = Ok e →
  ∃ l entries, dict_get rows table = Some l ∧ es_body e = [(list_name, JArr (map JObj entries))] ∧
    Forall2 (fun row en => entry row = Ok en ∧
      row_bound family (default no_context (sx_origin_context ex)) subject table stream (entry_path list_name keys en) row (dict_get (oi_bindings (es_origins e)))) l entries.

(** The key of an entry is the key its row is bound under. *)
Lemma flat_binds_rows family subject table stream list_name keys entry path : (∀ row en, entry row = Ok en → path row = entry_path list_name keys en) →
  binds_rows (encode_flat family subject table stream list_name entry path) family subject table stream list_name keys entry.
Proof.
  intros Hkey rows ex e (l & entries & Hl & He & Hb & Hrows)%encode_flat_spec. exists l, entries. split; [done|]. split; [done|]. clear Hl Hb.
  revert entries He. induction l as [|row l IH]; intros entries He; cbn [map_res] in He; [by apply Ok_inj in He as <-|].
  rewrite bind_Ok in He. destruct He as (en & Hen & He). rewrite bind_Ok in He. destruct He as (ens & Hens & He%Ok_inj). subst entries.
  constructor; [|apply IH; [intros; apply Hrows; by right|done]]. split; [done|]. rewrite <-(Hkey _ _ Hen). apply Hrows. by left.
Qed.
Lemma loaded_value row c v : dict_get (loaded row) c = Some v → v = attr row c.
Proof. unfold loaded. induction (table_columns (hr_table row)) as [|k l IH]; [done|]. cbn [map dict_get]. destruct (decide (c = col_name k)) as [->|]; [by intros [= <-]|exact IH]. Qed.
Lemma static_entry_keyed row en : static_route_entry (loaded row) = Ok en → static_path row = entry_path "route" ["vrf"; "prefix"; "next-hop"] en.
Proof.
  unfold static_route_entry, required. destruct (dict_get (loaded row) "vrf") as [v|] eqn:Ev; [|discriminate]. destruct (dict_get (loaded row) "prefix") as [p|] eqn:Ep; [|discriminate].
  destruct (dict_get (loaded row) "next_hop") as [n|] eqn:En; [|discriminate]. apply loaded_value in Ev, Ep, En. subst v p n. intros H%Ok_inj. subst en. reflexivity.
Qed.
(** An entry that starts with its key leaf *)
Ltac first_leaf := intros row en H; repeat (apply bind_Ok in H as ([] & _ & H)); apply Ok_inj in H; subst en; reflexivity.

(** C38: Each of the seven flat encoders sends one entry per row of its table, in order, and binds the construct under the entry's own list
    key, with every field its subject declares, to one logical row of its stream whose only source is that row: a refusal of an entry or
    of one of its fields names the row. *)
Theorem flat_entries_bound_to_rows :
  binds_rows encode_svi "svi" "svi.interface" "svi_intent" "svi" "interface" ["interface-name"] svi_entry ∧
  binds_rows encode_subinterface "subinterface" "subinterface.interface" "subinterface_intent" "subinterface" "interface" ["interface-name"] build_subif_interface ∧
  binds_rows encode_vlan "vlan" "vlan.vlan" "vlan_intent" "vlan" "vlan" ["vlan-id"] vlan_entry ∧
  binds_rows encode_bfd "bfd" "bfd.interface" "bfd_intent" "bfd" "interface" ["interface-name"] bfd_entry ∧
  binds_rows encode_interface_mtu "mtu" "mtu.interface" "interface_mtu_intent" "interface_mtu" "interface" ["interface-name"] mtu_entry ∧
  binds_rows encode_l2_sap "l2-sap" "l2-sap.sap" "l2_sap_intent" "l2_sap" "sap" ["service-name"; "sap-id"] sap_entry ∧
  binds_rows encode_static_route "static-route" "static-route.route" "static_route_intent" "static_route" "route" ["vrf"; "prefix"; "next-hop"]
    (fun row => static_route_entry (loaded row)).
Proof. split_and!; apply flat_binds_rows; [first_leaf..|exact static_entry_keyed]. Qed.
