(* ===== verification/BodyProps.v ===== *)
(** * What the body of a PUT contains

    Every section of a document is either a container of the body or a reported error, and the static routes of a body are the
    accepted rows' entries followed by the live entries the device must keep. *)

From stdpp Require Import base gmap list sets.
From Stdlib Require Import ZArith NArith Lia.
From S2P Require Import Prelude Json Text Dialect RefusalProtocol Registry Document Asn Identity Store Generation StaticPlan StaticPlanProps InterfaceProof VaultRef Hydrate Origins Encode EncodeRouting EncodePolicy DeviceBody OriginProps EncodeProps SectionProps Attribution.
Local Open Scope py_scope.
Local Open Scope Z_scope.

(** ** Sections *)

Section Body.
Context (gate : bool) (read : InstanceState) (document : pydict) (rows : by_section hydrated) (proofs : by_section InterfaceExecution).
Context (plan : option SrPlan) (retain : bool) (context : option OriginContext) (supplied : option CertifiedSection).
Notation outcome := (build_section gate read document rows proofs plan retain context supplied).
Notation build := (build_sections gate read document rows proofs plan retain context supplied).

(** What the body says of one section of the registry *)
Definition accounted (b : DeviceBody) (se : pystr * SectionEntry) : Prop :=
  if dict_mem document se.1 then
    match outcome se.1 with
    | Ok (built e _ _) => dict_get (db_containers b) (se_container se.2) = Some (JObj (es_body e)) ∧ dict_get (db_errors b) se.1 = None
    | Ok (failed code _) => dict_get (db_containers b) (se_container se.2) = None ∧ dict_get (db_errors b) se.1 = Some code
    | Raise _ => False
    end
  else dict_get (db_containers b) (se_container se.2) = None ∧ dict_get (db_errors b) se.1 = None.

Lemma add_outcome_gets section entry acc o acc' : add_outcome section entry acc o = Ok acc' →
  (∀ c, c ≠ se_container entry → dict_get (db_containers acc') c = dict_get (db_containers acc) c) ∧
  (∀ s, s ≠ section → dict_get (db_errors acc') s = dict_get (db_errors acc) s) ∧
  match o with
  | built e _ _ => dict_get (db_containers acc') (se_container entry) = Some (JObj (es_body e)) ∧ db_errors acc' = db_errors acc
  | failed code _ => db_containers acc' = db_containers acc ∧ dict_get (db_errors acc') section = Some code
  end.
Proof.
  unfold add_outcome. destruct o as [e sent certified|code origins].
  - destruct (merge_index _ _) as [i|]; [|done]. intros [= <-]. simpl. split; [intros; by rewrite dict_get_set_ne|].
    split; [done|]. by rewrite dict_get_set_eq.
  - destruct (match origins with Some o => _ | None => _ end) as [i|]; [|done]. intros [= <-]. simpl. split; [done|].
    split; [intros; by rewrite dict_get_set_ne|]. by rewrite dict_get_set_eq.
Qed.

Lemma build_gets sections acc b : build sections acc = Ok b →
  NoDup (map fst sections) → NoDup (map (fun se : pystr * SectionEntry => se_container se.2) sections) →
  (∀ c, c ∉ map (fun se : pystr * SectionEntry => se_container se.2) sections → dict_get (db_containers b) c = dict_get (db_containers acc) c) ∧
  (∀ s, s ∉ map fst sections → dict_get (db_errors b) s = dict_get (db_errors acc) s) ∧
  ((∀ se, se ∈ sections → dict_get (db_containers acc) (se_container se.2) = None ∧ dict_get (db_errors acc) se.1 = None) →
   Forall (accounted b) sections).
Proof.
  revert acc. induction sections as [|[section entry] sections IH]; intros acc; simpl; [intros [= <-]; repeat split; constructor|].
  intros H [Hs1 Hs2]%NoDup_cons [Hc1 Hc2]%NoDup_cons. unfold accounted at 1. simpl.
  destruct (dict_mem document section) eqn:Em.
  - destruct (outcome section) as [o|x] eqn:Eo; [|done]. cbn [mbind res_bind] in H.
    destruct (add_outcome section entry acc o) as [acc'|] eqn:Ea; [|done]. cbn [mbind res_bind] in H.
    destruct (add_outcome_gets _ _ _ _ _ Ea) as (A1 & A2 & A3). destruct (IH _ H Hs2 Hc2) as (B1 & B2 & B3).
    split; [intros c Hc; rewrite B1, A1 by set_solver; done|]. split; [intros s Hs; rewrite B2, A2 by set_solver; done|].
    intros Hacc. constructor.
    + unfold accounted. simpl. rewrite Em, Eo, (B1 _ Hc1), (B2 _ Hs1). destruct (Hacc _ (list_elem_of_here _ _)) as [N1 N2]. simpl in *.
      destruct o as [e s c|code og]; destruct A3 as [A3 A4].
      * split; [exact A3|]. by rewrite A4.
      * split; [by rewrite A3|exact A4].
    + apply B3. intros se Hse. rewrite A1, A2; [apply Hacc; by right| |].
      * intros Heq. apply Hs1. rewrite <-Heq. apply list_elem_of_fmap. by exists se.
      * intros Heq. apply Hc1. rewrite <-Heq. apply list_elem_of_fmap. by exists se.
  - destruct (IH _ H Hs2 Hc2) as (B1 & B2 & B3). split; [intros; apply B1; set_solver|]. split; [intros; apply B2; set_solver|].
    intros Hacc. constructor.
    + unfold accounted. simpl. rewrite Em, (B1 _ Hc1), (B2 _ Hs1). by destruct (Hacc _ (list_elem_of_here _ _)).
    + apply B3. intros se Hse. apply Hacc. by right.
Qed.
End Body.

Lemma registry_distinct : NoDup (map fst section_registry) ∧ NoDup (map (fun se : pystr * SectionEntry => se_container se.2) section_registry).
Proof. split; by apply (bool_decide_unpack _); vm_compute. Qed.

Lemma static_registered : ∃ entry, ("static_route", entry) ∈ section_registry ∧ se_container entry = "static-route".
Proof.
  assert (is_Some (dict_get section_registry "static_route")) as [entry He] by (vm_compute; eauto). exists entry. split; [by apply dict_get_Some_in|].
  assert (section_family "static_route" = "static-route") as <- by (vm_compute; reflexivity). unfold section_family. by rewrite He.
Qed.
#[local] Opaque section_registry.

Lemma body_accounted gate read document rows proofs plan retain context supplied b :
  build_device_containers gate read document rows proofs plan retain context supplied = Ok b →
  Forall (accounted gate read document rows proofs plan retain context supplied b) section_registry.
Proof.
  unfold build_device_containers. intros H. destruct registry_distinct as [H1 H2]. destruct (build_gets _ _ _ _ _ _ _ _ _ _ _ _ H H1 H2) as (_ & _ & B).
  apply B. intros se _. split; reflexivity.
Qed.

(** C35: A built body accounts for every section its document carries: the section is sent under its own container or reported with the
    code of its failure, never both and never neither. A section of the registry the document does not carry is neither sent nor
    reported. *)
Theorem sections_sent_or_reported gate read document rows proofs plan retain context supplied b section entry :
  build_device_containers gate read document rows proofs plan retain context supplied = Ok b → (section, entry) ∈ section_registry →
  accounted gate read document rows proofs plan retain context supplied b (section, entry).
Proof. intros H Hin. by apply (proj1 (Forall_forall _ _) (body_accounted _ _ _ _ _ _ _ _ _ _ H)). Qed.

(** ** Static routes *)

Lemma overlay_loop_spec retained keys routes i keys' routes' i' : overlay_loop retained keys routes i = Ok (keys', routes', i') →
  ∃ kept, routes' = routes ++ map JObj kept ∧ keys' = keys ++ map static_route_entry_key kept ∧
    (∀ e, e ∈ kept → e ∈ retained ∧ static_route_entry_key e ∉ keys) ∧ NoDup (map static_route_entry_key kept) ∧
    ∀ e, e ∈ retained → static_route_entry_key e ∈ keys'.
Proof.
  revert keys routes i. induction retained as [|entry retained IH]; intros keys routes i; simpl.
  { intros [= <- <- <-]. exists []. rewrite !app_nil_r. split_and!; [done|done|by intros ? ?%elem_of_nil|constructor|by intros ? ?%elem_of_nil]. }
  case_bool_decide as Hk.
  - intros (kept & -> & -> & H1 & H2 & H3)%IH. exists kept. split_and!; [done|done| |done|].
    { intros e He. apply H1 in He as [? ?]. split; [by right|done]. }
    intros e [->|He]%elem_of_cons; [by apply elem_of_app; left|by apply H3].
  - destruct (record_retained i entry) as [i1|]; [|done]. cbn [mbind res_bind]. intros (kept & -> & -> & H1 & H2 & H3)%IH.
    exists (entry :: kept). simpl. rewrite <-!app_assoc. split_and!; [done|done| | |].
    + intros e [->|He]%elem_of_cons; [split; [by left|done]|]. apply H1 in He as [? He]. split; [by right|]. intros Hin. apply He. rewrite elem_of_app. by left.
    + apply NoDup_cons. split; [|done]. intros (e & Heq & He)%list_elem_of_fmap. apply H1 in He as [_ He]. apply He. rewrite elem_of_app, list_elem_of_singleton. by right.
    + intros e [->|He]%elem_of_cons; [rewrite elem_of_app; right; by left|]. apply H3 in He. by rewrite <-app_assoc in He.
Qed.

Lemma rendered_of_list body l : dict_get body "route" = Some (JArr (map JObj l)) → rendered_routes body = l.
Proof.
  unfold rendered_routes, get, get_or. intros H. rewrite H. simpl. clear H. induction l as [|e l IH]; simpl; [done|]. by rewrite IH.
Qed.

Lemma map_res_in {A B} (f : A -> res B) l out x : map_res f l = Ok out → x ∈ l → ∃ y, f x = Ok y ∧ y ∈ out.
Proof.
  revert out. induction l as [|a l IH]; intros out; [by intros _ ?%elem_of_nil|]. simpl. destruct (f a) as [y|] eqn:E; [|done]. cbn [mbind res_bind].
  destruct (map_res f l) as [ys|]; [|done]. cbn [mbind res_bind]. intros [= <-] [->|Hx]%elem_of_cons; [exists y; set_solver|].
  destruct (IH _ eq_refl Hx) as (z & ? & ?). exists z. set_solver.
Qed.

Lemma map_res_of_map {A B D} (f : B -> res D) (g : A -> B) l : map_res f (map g l) = map_res (fun x => f (g x)) l.
Proof. induction l as [|x l IH]; simpl; [done|]. by rewrite IH. Qed.

(** The columns of a static-route row *)
Lemma loaded_get row c : c ∈ map col_name (table_columns (hr_table row)) → dict_get (loaded row) c = Some (attr row c).
Proof.
  unfold loaded. induction (table_columns (hr_table row)) as [|k l IH]; simpl; [by intros ?%elem_of_nil|].
  destruct (decide (c = col_name k)) as [->|]; [done|]. intros [?|?]%elem_of_cons; [done|by apply IH].
Qed.
Definition plan_row (r : pydict) : hrow := HRow SR_INTENT r [].
Lemma sr_columns : Forall (fun c => c ∈ map col_name (table_columns SR_INTENT)) ["vrf"; "prefix"; "next_hop"; "accepted_at"].
Proof. by apply (bool_decide_unpack _); vm_compute. Qed.
Lemma sr_loaded r c : c ∈ ["vrf"; "prefix"; "next_hop"; "accepted_at"] → dict_get (loaded (plan_row r)) c = Some (get r c).
Proof. intros Hc. rewrite loaded_get; [done|]. by apply (proj1 (Forall_forall _ _) sr_columns). Qed.

Lemma key_part_text v s : key_part v = Ok s → or_text v = JStr s.
Proof. unfold key_part, or_text. destruct v; try (destruct (json_truthy _); [done|by intros [= <-]]). intros [= <-]. simpl. destruct s0 as [[|]]; done. Qed.

(** A row renders under the key its plan gives it *)
Lemma entry_of_row r e t : static_route_entry (loaded (plan_row r)) = Ok e → row_triple r = Ok t → static_route_entry_key e = triple_key t.
Proof.
  unfold static_route_entry, required. rewrite !sr_loaded by (apply list_elem_of_In; simpl; auto). cbn [mbind res_bind]. intros He Ht.
  unfold row_triple, key_parts in Ht.
  destruct (key_part (get r "vrf")) as [v|] eqn:E1; [|done]. destruct (key_part (get r "prefix")) as [p|] eqn:E2; [|done].
  destruct (key_part (get r "next_hop")) as [n|] eqn:E3; [|done]. injection Ht as <-.
  match type of He with Ok (_ ++ ?t) = _ => generalize dependent t end. intros t He. assert (e = ([("vrf", get r "vrf"); ("prefix", get r "prefix"); ("next-hop", get r "next_hop")] ++ t)) as -> by congruence.
  change ((or_text (get r "vrf"), or_text (get r "prefix"), or_text (get r "next_hop")) = (JStr v, JStr p, JStr n)).
  by rewrite (key_part_text _ _ E1), (key_part_text _ _ E2), (key_part_text _ _ E3).
Qed.

Lemma accepted_carried r : accepted r = true → is_carried (plan_row r) = true.
Proof.
  unfold is_carried, accepted, attr. cbn [plan_row hr_cols]. intros H. apply orb_true_iff. right. apply negb_true_iff, bool_decide_eq_false. intros E. by rewrite E in H.
Qed.

(** The static-route rows a body renders: the caller's, or else the document's, that are accepted *)
Definition sent_intents (document : pydict) (rows : by_section hydrated) : res (list hrow) :=
  h ← match dict_get rows "static_route" with Some h => Ok h | None => section_rows_by_table document "static_route" end;
  l ← rows_in h SR_INTENT; Ok (List.filter is_carried l).
Definition rendered_entry (row : hrow) : res pydict := static_route_entry (loaded row).

Lemma encode_static_rows document rows proof context e : encode_section document "static_route" (dict_get rows "static_route") proof context = Ok e →
  ∃ l entries, sent_intents document rows = Ok l ∧ map_res rendered_entry l = Ok entries ∧ es_body e = [("route", JArr (map JObj entries))].
Proof.
  unfold encode_section, sent_intents. change (section_encoder "static_route") with (Some encode_static_route). cbv iota beta.
  destruct (match dict_get rows "static_route" with Some h => Ok h | None => section_rows_by_table document "static_route" end) as [h|]; [|done]. cbn [mbind res_bind].
  destruct (match proof with Some p => Ok (Some p) | None => hydrated_proof document "static_route" end) as [p|]; [|done]. cbn [mbind res_bind].
  destruct (encoder_execution document "static_route" p context) as [ex|]; [|done]. cbn [mbind res_bind].
  destruct (encode_static_route (carried_rows h) ex) as [e'|x] eqn:Ee; [|by destruct x]. intros He. assert (e' = e) as -> by congruence.
  apply encode_flat_spec in Ee as (l & entries & H1 & H2 & H3 & _). apply carried_rows_get in H1 as (l' & H1 & ->).
  exists (List.filter is_carried l'), entries. split_and!; [|done|done]. unfold rows_in, SR_INTENT. by rewrite H1.
Qed.

(** The two ways the builder is called: an Apply hands it its plan and the plan's rows, every other sender the document alone *)
Definition rows_of_plan (rows : by_section hydrated) (plan : SrPlan) : Prop :=
  ∃ h, dict_get rows "static_route" = Some h ∧ dict_get h SR_INTENT = Some (plan_rows SR_INTENT (sp_rows plan)).
Definition call_shape (rows : by_section hydrated) (plan : option SrPlan) : Prop :=
  match plan with Some p => rows_of_plan rows p | None => dict_get rows "static_route" = None end.
Definition plan_of (document : pydict) (plan : option SrPlan) : res SrPlan :=
  match plan with Some p => Ok p | None => hydrate_static_route_apply_plan document end.

Lemma recorded_rows_in rows v e out r : recorded_rows rows v e = Ok out → r ∈ out → r ∈ rows.
Proof.
  unfold recorded_rows. destruct v as [[]|]; try discriminate. intros H Hr. destruct (map_res_elem _ _ _ _ H Hr) as (i & _ & Hi).
  destruct (by_id rows i) as [r'|] eqn:E; [|discriminate]. apply Ok_inj in Hi as ->. unfold by_id in E. apply find_some in E as [E _].
  by apply list_elem_of_In, in_rev.
Qed.
Lemma hydrated_plan_rows document p r : hydrate_static_route_apply_plan document = Ok p → r ∈ sp_rows p →
  ∃ h, hydrate_static_routes document = Ok h ∧ r ∈ table_rows h SR_INTENT.
Proof.
  unfold hydrate_static_route_apply_plan. intros (c & _ & H)%bind_Ok. apply bind_Ok in H as (record & _ & H). destruct record as [| | | | | |d]; try discriminate.
  destruct (same_members _ _); [|discriminate]. destruct (mode_of _) as [mode|]; [|discriminate]. apply bind_Ok in H as (h & Hh & H). apply bind_Ok in H as (rows & Hr & H).
  do 7 (apply bind_Ok in H as (? & _ & H)). apply Ok_inj in H as <-. intros Hin. exists h. split; [done|]. by eapply recorded_rows_in.
Qed.
(** The static-route tables of the registry are flat. *)
Lemma static_tables : match dict_get SECTION_REGISTRY "static_route", dict_get spec_by_table SR_INTENT with
  | Some entry, Some s => mem (sp_model s) (relationship_models (se_tables entry)) = false ∧ SR_INTENT ∈ map (fun s => tablename (sp_model s)) (se_tables entry)
  | _, _ => False
  end.
Proof. vm_compute. split; [reflexivity|]. left. Qed.
Lemma dict_of_pairs_get {V} (f : pystr -> V) (l : list pystr) k : k ∈ l → dict_get (dict_of_pairs (map (fun t => (t, f t)) l)) k = Some (f k).
Proof.
  intros Hk. unfold dict_of_pairs. assert (∀ d, k ∈ l ∨ dict_get d k = Some (f k) → dict_get (fold_left (fun d kv => dict_set d kv.1 kv.2) (map (fun t => (t, f t)) l) d) k = Some (f k)) as H.
  { clear Hk. induction l as [|t l IH]; intros d Hd; cbn [map fold_left fst snd]; [destruct Hd as [?%elem_of_nil|]; done|]. apply IH.
    destruct (decide (k = t)) as [->|Hne]; [right; apply dict_get_set_eq|]. rewrite dict_get_set_ne by done. destruct Hd as [[?|?]%elem_of_cons|?]; [done|by left|by right]. }
  apply H. by left.
Qed.
Lemma document_intents document h sh : hydrate_static_routes document = Ok h → section_rows_by_table document "static_route" = Ok sh →
  dict_get sh SR_INTENT = Some (plan_rows SR_INTENT (table_rows h SR_INTENT)).
Proof.
  intros (context & section & _ & Hs & Ht)%hydrate_same. unfold section_rows_by_table, hydrate_section.
  intros (ih & Hi & H)%bind_Ok. destruct (dict_mem document "static_route"); [|discriminate]. apply bind_Ok in Hi as (c & _ & Hi). apply bind_Ok in Hi as (body & Hb & Hi).
  rewrite Hs in Hb. apply Ok_inj in Hb as <-. apply bind_Ok in Hi as (t & Ht' & Hi). rewrite Ht in Ht'. apply Ok_inj in Ht' as <-. apply bind_Ok in Hi as (? & _ & Hi).
  pose proof static_tables as Hst. unfold rows_by_table in H. destruct (dict_get SECTION_REGISTRY "static_route") as [entry|]; [|done].
  destruct (dict_get spec_by_table SR_INTENT) as [s|] eqn:Es; [|done]. destruct Hst as [Hm Hin].
  apply bind_Ok in Hi as (? & _ & Hi). apply bind_Ok in Hi as (indexes & _ & Hi). apply bind_Ok in Hi as (? & _ & Hi). apply Ok_inj in Hi as <-. apply Ok_inj in H as <-.
  cbv zeta. set (d := map _ h). assert (map (fun s => (tablename (sp_model s), default [] (dict_get d (tablename (sp_model s))))) (se_tables entry) =
    map (fun t => (t, default [] (dict_get d t))) (map (fun s => tablename (sp_model s)) (se_tables entry))) as -> by (by rewrite map_map).
  rewrite (dict_of_pairs_get (fun t => default [] (dict_get d t))) by done. f_equal. unfold d.
  rewrite (dict_get_fmap (fun k v => table_instances (se_tables entry) indexes (k, v))). unfold table_rows. 
  destruct (dict_get h SR_INTENT) as [l|]; [|done]. cbn [fmap option_fmap option_map default]. unfold table_instances. cbn [fst snd]. by rewrite Es, Hm.
Qed.

Lemma mark_keys_omitted reason preserve ks i : oi_omitted (fold_left (mark_key reason preserve) ks i) = oi_omitted i.
Proof. revert i. induction ks as [|k ks IH]; intros i; simpl; [done|]. rewrite IH. unfold mark_key. by destruct (_ && _). Qed.

(** What is recorded of an authorized removal *)
Definition recorded_omission (context : option OriginContext) (key : Triple) (c : PriorContribution) : Prop :=
  ∃ row, row_ref "static-route" "static-route.route" [("route", [KVStr key.1.1; KVStr key.1.2; KVStr key.2])] = Ok row ∧
    c = mkPrior "static-route" row (omission_authority context row).

Lemma record_one_omitted context i key i' : record_one_omission context i key = Ok i' →
  ∃ c, recorded_omission context key c ∧ oi_omitted i' = oi_omitted i ++ [c].
Proof.
  unfold record_one_omission, recorded_omission. destruct (row_ref _ _ _) as [row|]; [|done]. cbn [mbind res_bind].
  unfold record_omission, mark_unsupported. destruct (subject_fields _) as [fields|]; [|done]. cbn [mbind res_bind]. intros H%Ok_inj.
  eexists. split; [by exists row|]. by rewrite <-H, mark_keys_omitted.
Qed.
Lemma fold_index_omitted context l i i' : fold_res (record_one_omission context) l i = Ok i' →
  ∃ added, oi_omitted i' = oi_omitted i ++ added ∧ Forall2 (recorded_omission context) l added.
Proof.
  revert i. induction l as [|key l IH]; intros i; cbn [fold_res]; [intros [= <-]; exists []; rewrite app_nil_r; by split|].
  destruct (record_one_omission context i key) as [i1|] eqn:E; [|done]. cbn [mbind res_bind]. intros (added & Ho & Hf)%IH.
  apply record_one_omitted in E as (c & Hc & E). exists (c :: added). split; [by rewrite Ho, E, <-app_assoc|by constructor].
Qed.

(** The entries the snapshot retains *)
Lemma snapshot_spec certified document plan retained : static_route_snapshot certified document plan = Ok retained →
  certified ≠ certified_inconclusive ∧ ∃ claimed rendered selected, collect tombstone_keys (sp_tombstones plan) = Ok claimed ∧
    map_res row_triple (sp_rows plan) = Ok rendered ∧ operation_selected_routes document = Ok selected ∧
    ∀ x, x ∈ retained ↔ x ∈ certified_routes certified ∧ ∃ key, static_route_entry_key x = triple_key key ∧ key ∈ claimed ∧ key ∉ rendered ∧ key ∉ selected.
Proof.
  intros H. assert (certified ≠ certified_inconclusive ∧ ∃ keep, retained_keys document plan = Ok keep ∧
    retained = List.filter (fun e => bool_decide (static_route_entry_key e ∈ map triple_key keep)) (certified_routes certified)) as [Hc (keep & Hk & ->)].
  { unfold static_route_snapshot in H. destruct certified; [done|..]; (destruct (retained_keys document plan) as [keep|] eqn:E; [|done]);
      cbn [mbind res_bind] in H; apply Ok_inj in H; (split; [done|]); by exists keep. }
  split; [done|]. unfold retained_keys in Hk.
  destruct (collect tombstone_keys (sp_tombstones plan)) as [claimed|]; [|done]. destruct (map_res row_triple (sp_rows plan)) as [rendered|]; [|done].
  destruct (operation_selected_routes document) as [selected|]; [|done]. cbn [mbind res_bind] in Hk. apply Ok_inj in Hk as <-.
  exists claimed, rendered, selected. split_and!; [done..|]. intros x. rewrite list_elem_of_In, filter_In, <-list_elem_of_In, bool_decide_eq_true, list_elem_of_fmap.
  assert (∀ key, key ∈ List.filter (fun k => negb (in_keys k rendered) && negb (in_keys k selected)) claimed ↔ key ∈ claimed ∧ key ∉ rendered ∧ key ∉ selected) as Hf.
  { intros key. rewrite list_elem_of_In, filter_In, <-list_elem_of_In, andb_true_iff, !negb_true_iff. unfold in_keys. by rewrite !bool_decide_eq_false. }
  setoid_rewrite Hf. done.
Qed.

(** What the overlay adds to a body that renders [entries] *)
Lemma overlay_spec e entries retained e' keys : es_body e = [("route", JArr (map JObj entries))] → overlay_retained_routes e retained = Ok (e', keys) →
  ∃ kept, rendered_routes (es_body e') = entries ++ kept ∧ keys = map static_route_entry_key (entries ++ kept) ∧ (∀ x, x ∈ kept → x ∈ retained) ∧
    ∀ x, x ∈ retained → static_route_entry_key x ∈ keys.
Proof.
  intros Hb. unfold overlay_retained_routes. rewrite (rendered_of_list (es_body e) entries) by (by rewrite Hb).
  destruct (overlay_loop _ _ _ _) as [[[ks routes] i]|] eqn:E; [|done]. cbn [mbind res_bind]. intros H%Ok_inj. injection H as <- <-.
  apply overlay_loop_spec in E as (kept & -> & -> & H1 & _ & H3). exists kept. split_and!.
  - apply rendered_of_list. cbn [es_body]. by rewrite dict_get_set_eq, <-map_app.
  - by rewrite map_app.
  - intros x Hx. by apply H1.
  - done.
Qed.

Lemma triple_key_inj a b : triple_key a = triple_key b → a = b.
Proof. destruct a as [[? ?] ?], b as [[? ?] ?]. unfold triple_key. simpl. by intros [= -> -> ->]. Qed.

(** The routes of a body that retains: the rendered [entries], then live entries, as they are, that a carrier claims, no row of the plan
    renders and no authority removes; and when the plan's rows are accepted, every live entry that a carrier claims and no authority removes
    is among the keys sent *)
Definition put_routes (certified : CertifiedSection) (document : pydict) (plan : SrPlan) (entries routes : list pydict) : Prop :=
  ∃ kept claimed rendered selected, collect tombstone_keys (sp_tombstones plan) = Ok claimed ∧ map_res row_triple (sp_rows plan) = Ok rendered ∧
    operation_selected_routes document = Ok selected ∧ routes = entries ++ kept ∧
    (∀ x, x ∈ kept → x ∈ certified_routes certified ∧ ∃ key, static_route_entry_key x = triple_key key ∧ key ∈ claimed ∧ key ∉ rendered ∧ key ∉ selected) ∧
    (Forall (fun r => accepted r = true) (sp_rows plan) →
     ∀ x key, x ∈ certified_routes certified → static_route_entry_key x = triple_key key → key ∈ claimed → key ∉ selected →
       ∃ y, y ∈ routes ∧ static_route_entry_key y = triple_key key).

(** An accepted row of the plan is rendered, under the key the plan gives it. *)
Lemma plan_row_sent document rows plan p l r : call_shape rows plan → plan_of document plan = Ok p → sent_intents document rows = Ok l →
  r ∈ sp_rows p → accepted r = true → plan_row r ∈ l.
Proof.
  intros Hshape Hp Hl Hr Ha. assert (∃ rs, l = List.filter is_carried (plan_rows SR_INTENT rs) ∧ r ∈ rs) as (rs & -> & Hrs).
  { unfold sent_intents in Hl. destruct plan as [p'|]; cbn [call_shape plan_of] in *.
    - apply Ok_inj in Hp as ->. destruct Hshape as (h & Hh & Hi). rewrite Hh in Hl. unfold rows_in in Hl. cbn [mbind res_bind] in Hl. rewrite Hi in Hl. apply Ok_inj in Hl as <-. by exists (sp_rows p).
    - rewrite Hshape in Hl. apply bind_Ok in Hl as (sh & Hsh & Hl). destruct (hydrated_plan_rows _ _ _ Hp Hr) as (h & Hh & Hin).
      unfold rows_in in Hl. rewrite (document_intents _ _ _ Hh Hsh) in Hl. apply Ok_inj in Hl as <-. by exists (table_rows h SR_INTENT). }
  apply list_elem_of_In, filter_In. split; [|by apply accepted_carried]. apply in_map_iff. exists r. split; [done|by apply list_elem_of_In].
Qed.
Lemma rendered_in_entries document rows plan p l entries rendered key : call_shape rows plan → plan_of document plan = Ok p → sent_intents document rows = Ok l →
  Forall (fun r => accepted r = true) (sp_rows p) → map_res rendered_entry l = Ok entries → map_res row_triple (sp_rows p) = Ok rendered →
  key ∈ rendered → triple_key key ∈ map static_route_entry_key entries.
Proof.
  intros Hshape Hp Hl Hacc He Hr Hk. destruct (map_res_elem _ _ _ _ Hr Hk) as (r & Hin & Ht).
  assert (plan_row r ∈ l) as Hrl by (eapply plan_row_sent; eauto; by apply (proj1 (Forall_forall _ _) Hacc)).
  destruct (map_res_in _ _ _ _ He Hrl) as (e & Hre & Hee). apply list_elem_of_fmap. exists e. split; [|done]. symmetry. by eapply entry_of_row.
Qed.

(** The recorded removals: the authorized keys the body does not send, in order, each under its generation's authority *)
Definition omissions_recorded (document : pydict) (context : option OriginContext) (routes : list pydict) (i : OriginIndex) : Prop :=
  ∃ selected, operation_selected_routes document = Ok selected ∧
    Forall2 (recorded_omission context) (List.filter (fun k => negb (bool_decide (triple_key k ∈ map static_route_entry_key routes))) selected) (oi_omitted i).

Lemma mark_unsupported_omitted i family row reason preserve i' : mark_unsupported i family row reason preserve = Ok i' → oi_omitted i' = oi_omitted i.
Proof.
  unfold mark_unsupported. destruct (subject_fields (rr_subject row)) as [fields|]; [|done]. cbn [mbind res_bind]. intros H%Ok_inj. by rewrite <-H, mark_keys_omitted.
Qed.
Lemma record_retained_omitted i entry i' : record_retained i entry = Ok i' → oi_omitted i' = oi_omitted i.
Proof.
  unfold record_retained. intros (prefix & _ & (row & _ & (i1 & H1 & (family & _ & H2)%bind_Ok)%bind_Ok)%bind_Ok)%bind_Ok.
  apply mark_unsupported_omitted in H1, H2. by rewrite H2, H1.
Qed.
Lemma overlay_loop_omitted retained keys routes i r : overlay_loop retained keys routes i = Ok r → oi_omitted r.2 = oi_omitted i.
Proof.
  revert keys routes i. induction retained as [|entry retained IH]; intros keys routes i; cbn [overlay_loop]; [by intros <-%Ok_inj|].
  cbv zeta. destruct (bool_decide _); [apply IH|]. destruct (record_retained i entry) as [i1|] eqn:E; [|done]. cbn [mbind res_bind]. intros H%IH.
  by rewrite H, (record_retained_omitted _ _ _ E).
Qed.
Lemma overlay_omitted e retained e' keys : overlay_retained_routes e retained = Ok (e', keys) → oi_omitted (es_origins e') = oi_omitted (es_origins e).
Proof.
  unfold overlay_retained_routes. destruct (overlay_loop _ _ _ _) as [[[ks routes] i]|] eqn:E; [|done]. cbn [mbind res_bind]. intros H%Ok_inj.
  injection H as <- <-. by apply overlay_loop_omitted in E.
Qed.
Lemma encode_section_omits document rows section proof context e :
  encode_section document section (dict_get rows section) proof context = Ok e → oi_omitted (es_origins e) = [].
Proof.
  intros H. assert (good_index (section_family section) (default no_context context) (fun _ => True) (es_origins e)) as [] by
    (eapply (encode_section_good (fun _ => True) (fun _ => True)); [done|by intros; apply Forall_true|by intros ? ? ? ? ? ?; apply Forall_true|exact H]).
  done.
Qed.

(** What a body says of the static routes: [retain] is false for a flush *)
Definition static_routes_built (read : InstanceState) (document : pydict) (rows : by_section hydrated) (plan : option SrPlan) (retain : bool)
    (context : option OriginContext) (supplied : option CertifiedSection) (routes : list pydict) (origins : OriginIndex) : Prop :=
  ∃ l entries, sent_intents document rows = Ok l ∧ map_res rendered_entry l = Ok entries ∧ omissions_recorded document context routes origins ∧
    (if retain
     then let certified := default (certified_static_route_section read) supplied in
          certified ≠ certified_inconclusive ∧ ∃ p, plan_of document plan = Ok p ∧ put_routes certified document p entries routes
     else routes = entries).

(** A snapshot, where the caller retains *)
Definition retained_now (read : InstanceState) (document : pydict) (plan : option SrPlan) (retain : bool) (supplied : option CertifiedSection) :
    res (option CertifiedSection * list pydict) :=
  if retain then p ← plan_of document plan; let certified := default (certified_static_route_section read) supplied in
                 kept ← static_route_snapshot certified document p; Ok (Some certified, kept)
  else Ok (supplied, []).
Lemma overlaid_routes read document rows plan retain supplied l entries e certified retained e' keys :
  call_shape rows plan → sent_intents document rows = Ok l → map_res rendered_entry l = Ok entries → es_body e = [("route", JArr (map JObj entries))] →
  retained_now read document plan retain supplied = Ok (certified, retained) → overlay_retained_routes e retained = Ok (e', keys) →
  if retain
  then default (certified_static_route_section read) supplied ≠ certified_inconclusive ∧
       ∃ p, plan_of document plan = Ok p ∧ put_routes (default (certified_static_route_section read) supplied) document p entries (rendered_routes (es_body e'))
  else rendered_routes (es_body e') = entries.
Proof.
  intros Hshape Hl He Hb Hn Ho. destruct (overlay_spec _ _ _ _ _ Hb Ho) as (kept & Hr & Hkeys & Hkept & Hall). rewrite Hr. unfold retained_now in Hn. destruct retain.
  - apply bind_Ok in Hn as (p & Hp & Hn). apply bind_Ok in Hn as (ret & Hs & Hn). apply Ok_inj in Hn. injection Hn as _ ->.
    destruct (snapshot_spec _ _ _ _ Hs) as (Hc & claimed & rendered & selected & Hclaimed & Hrendered & Hselected & Hret). split; [done|]. exists p. split; [done|].
    exists kept, claimed, rendered, selected. split_and!; [done..| |].
    + intros x Hx. by apply Hret, Hkept.
    + intros Hacc x key Hx Hkey Hcl Hsel. assert (triple_key key ∈ map static_route_entry_key (entries ++ kept)) as Hin.
      { destruct (decide (key ∈ rendered)) as [Hren|Hren]; [rewrite map_app, elem_of_app; left; by eapply rendered_in_entries|].
        rewrite <-Hkey. subst keys. apply Hall, Hret. split; [done|]. by exists key. }
      apply list_elem_of_fmap in Hin as (y & Hy & Hin). by exists y.
  - apply Ok_inj in Hn. injection Hn as _ <-. destruct kept as [|x kept]; [by rewrite app_nil_r|]. exfalso. apply (not_elem_of_nil x), Hkept. by left.
Qed.

(** The static-route section of a built body *)
Lemma static_section_spec gate read document rows proofs plan retain context supplied e sent certified : call_shape rows plan →
  build_section gate read document rows proofs plan retain context supplied "static_route" = Ok (built e sent certified) →
  static_routes_built read document rows plan retain context supplied (rendered_routes (es_body e)) (es_origins e).
Proof.
  intros Hshape. unfold build_section.
  destruct (encode_section document "static_route" (dict_get rows "static_route") (dict_get proofs "static_route") context) as [encoded|x] eqn:Ee;
    [|by destruct x].
  destruct (encode_static_rows _ _ _ _ _ Ee) as (l & entries & Hl & He & Hb). apply encode_section_omits in Ee.
  unfold complete_section. change (bool_decide ("static_route"%py = "logging"%py)) with false. change (bool_decide ("static_route"%py = "static_route"%py)) with true.
  cbv iota. fold (plan_of document plan). fold (retained_now read document plan retain supplied).
  destruct (retained_now read document plan retain supplied) as [[certified' retained]|x] eqn:En; [|by destruct x]; cbn [mbind res_bind].
  destruct (overlay_retained_routes encoded retained) as [[encoded' keys]|x] eqn:Eo; [|by destruct x]; cbn [mbind res_bind].
  destruct (record_route_omissions _ _ _ _) as [i|x] eqn:Er; [|by destruct x]; cbn [mbind res_bind or_failed]. intros H%Ok_inj. injection H as <- <- <-. cbn [es_body es_origins].
  pose proof (overlay_omitted _ _ _ _ Eo) as Ho. exists l, entries. split_and!; [done|done| |by eapply overlaid_routes].
  destruct (overlay_spec _ _ _ _ _ Hb Eo) as (kept & Hr & -> & _). unfold record_route_omissions in Er. apply bind_Ok in Er as (selected & Hselected & Er).
  apply fold_index_omitted in Er as (added & Hadd & Hf). exists selected. split; [done|]. rewrite Hadd, Ho, Ee, Hr. exact Hf.
Qed.

(** ** The whole body *)

Definition outcome_omitted (o : res section_outcome) : list PriorContribution :=
  match o with
  | Ok (built e _ _) => oi_omitted (es_origins e)
  | Ok (failed _ (Some i)) => oi_omitted i
  | _ => []
  end.

Lemma merge_omitted a b i : merge_index a b = Ok i → oi_omitted i = oi_omitted a ++ oi_omitted b.
Proof. unfold merge_index. destruct (existsb _ _); [done|]. by intros <-%Ok_inj. Qed.

Lemma add_outcome_omitted section entry acc o acc' : add_outcome section entry acc o = Ok acc' →
  oi_omitted (db_origins acc') = oi_omitted (db_origins acc) ++ outcome_omitted (Ok o).
Proof.
  unfold add_outcome. destruct o as [e sent certified|code [i|]]; intros (j & H1 & H2)%bind_Ok; apply Ok_inj in H2 as <-; cbn [db_origins outcome_omitted].
  - by apply merge_omitted.
  - by apply merge_omitted.
  - apply Ok_inj in H1 as ->. by rewrite app_nil_r.
Qed.

Lemma concat_one {A B} (f : A -> list B) l x : NoDup l → x ∈ l → (∀ y, y ∈ l → y ≠ x → f y = []) → concat (map f l) = f x.
Proof.
  induction 1 as [|y l Hy Hl IH]; intros Hin Hf; [by apply elem_of_nil in Hin|]. cbn [map concat]. apply elem_of_cons in Hin as [->|Hin].
  - assert (concat (map f l) = []) as ->; [|apply app_nil_r].
    assert (∀ z, z ∈ l → f z = []) as Hz by (intros z Hz; apply Hf; [by right|by intros ->]). clear -Hz. induction l as [|z l IH]; [done|].
    cbn [map concat]. rewrite Hz by left. apply IH. intros. apply Hz. by right.
  - rewrite (Hf y); [|left|by intros ->]. apply IH; [done|]. intros z Hz. apply Hf. by right.
Qed.

Section Whole.
Context (gate : bool) (read : InstanceState) (document : pydict) (rows : by_section hydrated) (proofs : by_section InterfaceExecution).
Context (plan : option SrPlan) (retain : bool) (context : option OriginContext) (supplied : option CertifiedSection).
Notation outcome := (build_section gate read document rows proofs plan retain context supplied).
Notation build := (build_sections gate read document rows proofs plan retain context supplied).

Definition contributes (se : pystr * SectionEntry) : list PriorContribution := if dict_mem document se.1 then outcome_omitted (outcome se.1) else [].

Lemma build_omitted sections acc b : build sections acc = Ok b → oi_omitted (db_origins b) = oi_omitted (db_origins acc) ++ concat (map contributes sections).
Proof.
  revert acc. induction sections as [|[section entry] sections IH]; intros acc; cbn [build_sections map concat]; [intros <-%Ok_inj; by rewrite app_nil_r|].
  unfold contributes at 1. cbn [fst]. destruct (dict_mem document section); [|apply IH].
  intros (o & Ho & (acc' & Ha & H)%bind_Ok)%bind_Ok. by rewrite (IH _ H), (add_outcome_omitted _ _ _ _ _ Ha), Ho, app_assoc.
Qed.

(** Only the static routes record removals *)
Lemma other_sections_omit_nothing section : section ≠ "static_route" → outcome_omitted (outcome section) = [].
Proof.
  intros Hs. unfold build_section.
  destruct (encode_section document section (dict_get rows section) (dict_get proofs section) context) as [e|x] eqn:E; [|by destruct x].
  apply encode_section_omits in E. unfold complete_section. rewrite (bool_decide_eq_false_2 _ Hs).
  destruct (bool_decide (section = "logging")); [|exact E].
  destruct (match dict_get rows section with Some r => Ok r | None => section_rows_by_table document section end) as [source|x]; [|by destruct x]. cbn [mbind res_bind].
  destruct (refuse_gated_local_levels gate (carried_rows source)) as [[]|x]; [exact E|]. cbn [mbind res_bind or_failed]. by destruct x.
Qed.
End Whole.

