(* ===== verification/OriginScenario.v ===== *)
(** * The body of a concrete document

    A generation carries the VLAN interfaces of a device, and its document also has static routes: one live route is still claimed
    by the carrier of a deleted row. *)

From stdpp Require Import base gmap list.
From Stdlib Require Import ZArith NArith Lia.
From S2P Require Import Prelude Json Text Dialect RefusalProtocol Registry Document Asn Identity Store Generation PushScenario StaticPlan StaticPlanProps InterfaceProof ChainScenario Hydrate Origins Encode EncodePolicy DeviceBody SectionProps Attribution BodyProps.
Local Open Scope py_scope.
Local Open Scope Z_scope.

Definition accepted_stamp : json := JStr "2026-01-01T00:00:00+00:00".
Definition svi_record (id : Z) (name : pystr) (vlan : Z) : pydict :=
  [("id", JInt id); ("device_id", JInt 7); ("interface_name", JStr name); ("vlan_id", JInt vlan); ("svi_type", JStr "irb"); ("vrf", JNull);
   ("accepted_at", accepted_stamp)].
Definition svi_section : json :=
  JObj [("svi_intent", JArr [JObj (svi_record 1 "Vlan10" 10); JObj (svi_record 2 "Vlan20" 20)]);
        (EXECUTION_KEY, JObj [("context", JObj [("ned_id", JStr "cisco-ios-cli-6.77"); ("dialect", JStr "identity")])])].
Definition body_document : pydict := [("svi", svi_section); ("static_route", JObj sr_fragment)].
Definition body_generation : Generation :=
  mkGen 11 7 3 networked gen_running body_document "" [] [("svi", Some 5)] [("svi", 2)] None None None None None None None None 1 None 0 0 None.
Definition body_context : OriginContext := ok no_context (execution_context [body_generation]).
Definition body_encoded : EncodedSection := ok (mkEncoded [] empty_index) (encode_device_document body_document [] [] (Some body_context)).

Lemma body_carries : execution_context [body_generation] = Ok body_context.
Proof. vm_compute. reflexivity. Qed.
Lemma body_encodes : encode_device_document body_document [] [] (Some body_context) = Ok body_encoded.
Proof. unfold body_encoded. assert (is_ok (encode_device_document body_document [] [] (Some body_context)) = true) by (vm_compute; reflexivity).
  destruct (encode_device_document body_document [] [] (Some body_context)); [reflexivity|discriminate].
Qed.
Definition no_row : RowRef := {| rr_subject := ""; rr_key := "" |}.
Definition no_logical : LogicalRow := mkLogical "" no_row [] None None None None None (mkOwner "" "" no_row None None None None None "").
Definition svi_logical : LogicalRow := default no_logical (head (current_membership (es_origins body_encoded) body_context)).

(** The two VLAN interfaces are the execution's members; the static routes are in the document but not carried. *)
Example body_members : map (fun l => (lr_stream l, map sr_live_join (lr_sources l))) (current_membership (es_origins body_encoded) body_context) =
  [("svi" : pystr, [Some ("svi_intent" : pystr, 1)]); ("svi" : pystr, [Some ("svi_intent" : pystr, 2)])].
Proof. vm_compute. reflexivity. Qed.

Lemma svi_is_member : svi_logical ∈ current_membership (es_origins body_encoded) body_context.
Proof. apply (bool_decide_unpack _). vm_compute. exact I. Qed.
(** Both interfaces are accounted for, stamped with generation 11 at revision 2 of push 5; the static route, whose stream the generation does
    not carry, is bound and not a member. *)
Lemma membership_is_carried_streams_witness :
  (bound svi_logical (es_origins body_encoded) ∧ is_Some (carrier_of [body_generation] (lr_stream svi_logical))) ∧
  lr_generation svi_logical = Some 11 ∧ lr_revision svi_logical = Some 2 ∧ lr_push_seq svi_logical = Some 5.
Proof.
  destruct (membership_is_carried_streams [body_generation] body_context body_document [] [] body_encoded body_carries body_encodes) as (H & Hs & _).
  pose proof (proj1 (H svi_logical) svi_is_member) as [Hb Hc]. split; [exact (conj Hb Hc)|]. apply (Hs svi_logical body_generation Hb). vm_compute. reflexivity.
Defined.
Example route_not_member :
  (length (current_membership (es_origins body_encoded) body_context), existsb (fun kb => bool_decide (ob_stream kb.2 = "static_route")) (oi_bindings (es_origins body_encoded))) = (2%nat, true).
Proof. vm_compute. reflexivity. Qed.

(** NSO refuses the VLAN leaf of the first interface. *)
Definition svi_refusal : Refusal :=
  {| r_family := "svi"; r_row := lr_row svi_logical; r_field := Some "svi.vlan_binding"; r_reason := "unsupported"; r_message_id := ""; r_message := ""; r_related := None |}.
Lemma svi_resolved : is_Some (dict_get (oi_bindings (es_origins body_encoded)) (refusal_key svi_refusal)).
Proof. apply (bool_decide_unpack _). vm_compute. exact I. Qed.
Lemma document_has_identities : document_ok body_document = true.
Proof. vm_compute. reflexivity. Qed.
Example svi_refusal_attributed :
  match resolve_refusals [svi_refusal] (es_origins body_encoded) with inl [a] => map sr_live_join (ar_sources a) | _ => [] end = [Some ("svi_intent" : pystr, 1)].
Proof. vm_compute. reflexivity. Qed.

(** ** One flat section *)

Definition svi_rows : hydrated := [("svi_intent", [HRow "svi_intent" (svi_record 1 "Vlan10" 10) []])].
Definition svi_execution : SectionExecution := mkSection None identity_dialect None (Some body_context).
Definition svi_encoded : EncodedSection := ok (mkEncoded [] empty_index) (encode_svi svi_rows svi_execution).
Lemma svi_encodes : encode_svi svi_rows svi_execution = Ok svi_encoded.
Proof. vm_compute. reflexivity. Qed.
Lemma flat_entries_bound_to_rows_witness : ∃ l entries, dict_get svi_rows "svi_intent" = Some l ∧ es_body svi_encoded = [("interface" : pystr, JArr (map JObj entries))] ∧
  Forall2 (fun row en => svi_entry row = Ok en ∧
    row_bound "svi" body_context "svi.interface" "svi_intent" "svi" (entry_path "interface" ["interface-name" : pystr] en) row (dict_get (oi_bindings (es_origins svi_encoded)))) l entries.
Proof. exact (proj1 flat_entries_bound_to_rows svi_rows svi_execution svi_encoded svi_encodes). Defined.

(** ** The body of the PUT *)

Definition sr_plan : SrPlan := ok (mkSrPlan "" [] [] [] [] 0) (hydrate_static_route_apply_plan body_document).
Definition sr_rows : by_section hydrated := [("static_route", [(SR_INTENT, plan_rows SR_INTENT (sp_rows sr_plan)); (SR_TOMBSTONE, plan_rows SR_TOMBSTONE (sp_tombstones sr_plan))])].
(** Live on the device: the deleted route, with a leaf the store does not have, and a foreign one. *)
Definition live_instance : InstanceState :=
  mkState false (JObj [("static-route", JObj [("route", JArr
    [JObj [("vrf", JStr ""); ("prefix", JStr "10.9.0.0/16"); ("next-hop", JStr "192.0.2.3"); ("metric", JInt 5)];
     JObj [("prefix", JStr "172.16.0.0/12"); ("next-hop", JStr "192.0.2.8")]])])]).
Definition built_body : DeviceBody :=
  ok (mkBody [] None [] empty_index None) (build_device_containers false live_instance body_document sr_rows [] (Some sr_plan) true (Some body_context) None).
Lemma body_builds : build_device_containers false live_instance body_document sr_rows [] (Some sr_plan) true (Some body_context) None = Ok built_body.
Proof.
  unfold built_body. assert (is_ok (build_device_containers false live_instance body_document sr_rows [] (Some sr_plan) true (Some body_context) None) = true) by
    (vm_compute; reflexivity).
  destruct (build_device_containers _ _ _ _ _ _ _ _ _); [reflexivity|discriminate].
Qed.
Definition object_of (v : option json) : pydict := match v with Some (JObj b) => b | _ => [] end.
Definition static_body : pydict := object_of (dict_get (db_containers built_body) "static-route").
(** The rows' entries, then the claimed route as it is on the device; the foreign route is not sent. *)
Example sent_prefixes : map (fun e => (get e "prefix", get e "metric")) (rendered_routes static_body) =
  [(JStr "10.0.0.0/8", JNull); (JStr "10.1.0.0/16", JNull); (JStr "10.9.0.0/16", JInt 5)].
Proof. vm_compute. reflexivity. Qed.

Lemma sr_rows_of_plan : rows_of_plan sr_rows sr_plan.
Proof. exists (match dict_get sr_rows "static_route" with Some h => h | None => [] end). split; reflexivity. Qed.
Lemma sr_rows_accepted : Forall (fun r => accepted r = true) (sp_rows sr_plan).
Proof. vm_compute. repeat constructor. Qed.
Lemma static_sent : dict_get (db_containers built_body) "static-route" = Some (JObj static_body).
Proof. vm_compute. reflexivity. Qed.
(** The removal of the same route.  A second deletion, of 10.8.0.0/16, is still carried and was not authorized. *)
Definition other_dead_route : pydict :=
  [("id", JInt 6); ("device_id", JInt 7); ("route_id", JInt 10); ("vrf", JStr ""); ("prefix", JStr "10.8.0.0/16"); ("next_hop", JStr "192.0.2.4");
   ("deployed_key", JNull); ("marking", JStr "delete_origin"); ("job_id", JNull); ("created_at", JStr "2026-01-01T00:00:00+00:00")].
Definition two_dead_fragment : pydict :=
  ok [] (freeze_fragment (static_proof no_proof) sr_live 7 "static_route" [(SR_INTENT, [moved_route; cleared_route]); (SR_TOMBSTONE, [dead_route; other_dead_route])]).
Definition removal_document : pydict :=
  ok [] (write_operation (static_operation sr_live) sr_store 7 [("static_route", JObj two_dead_fragment)] (Some sr_context) sr_allowed [4] [] []).
Definition removal_generation : Generation :=
  mkGen 12 7 4 networked gen_running removal_document "" [] [("static_route", Some 6)] [("static_route", 3)] None None None None None None None None 1 None 0 0 None.
Definition removal_origins : OriginContext := ok no_context (execution_context [removal_generation]).
(** Live on the device: both deleted routes and a foreign one. *)
Definition live_before_removal : InstanceState :=
  mkState false (JObj [("static-route", JObj [("route", JArr
    [JObj [("vrf", JStr ""); ("prefix", JStr "10.9.0.0/16"); ("next-hop", JStr "192.0.2.3"); ("metric", JInt 5)];
     JObj [("vrf", JStr ""); ("prefix", JStr "10.8.0.0/16"); ("next-hop", JStr "192.0.2.4"); ("metric", JInt 8)];
     JObj [("prefix", JStr "172.16.0.0/12"); ("next-hop", JStr "192.0.2.8")]])])]).
Definition removal_body (retain : bool) : DeviceBody :=
  ok (mkBody [] None [] empty_index None) (build_device_containers false live_before_removal removal_document [] [] None retain (Some removal_origins) None).
Definition removal_routes (retain : bool) : pydict := object_of (dict_get (db_containers (removal_body retain)) "static-route").
Lemma removal_builds retain : build_device_containers false live_before_removal removal_document [] [] None retain (Some removal_origins) None = Ok (removal_body retain).
Proof.
  unfold removal_body. assert (is_ok (build_device_containers false live_before_removal removal_document [] [] None retain (Some removal_origins) None) = true) by
    (destruct retain; vm_compute; reflexivity).
  destruct (build_device_containers _ _ _ _ _ _ _ _ _); [reflexivity|discriminate].
Qed.
Lemma removal_sent retain : dict_get (db_containers (removal_body retain)) "static-route" = Some (JObj (removal_routes retain)).
Proof. destruct retain; vm_compute; reflexivity. Qed.
(** The authorized route is left out, on the record, and the other one stays; a flush sends neither. *)
Example removal_prefixes :
  map (fun e => (get e "prefix", get e "metric")) (rendered_routes (removal_routes true)) = [(JStr "10.0.0.0/8", JNull); (JStr "10.1.0.0/16", JNull); (JStr "10.8.0.0/16", JInt 8)] ∧
  map (fun e => get e "prefix") (rendered_routes (removal_routes false)) = [JStr "10.0.0.0/8"; JStr "10.1.0.0/16"] ∧
  map (fun c => ra_revision <$> pc_authority c) (oi_omitted (db_origins (removal_body true))) = [Some 3].
Proof. vm_compute. repeat split; reflexivity. Qed.

Definition no_entry : SectionEntry := Build_SectionEntry [] "" "" NoComparison [] [] [] [].
Definition svi_registered : SectionEntry := default no_entry (dict_get section_registry "svi").
Lemma svi_in_registry : ("svi"%py, svi_registered) ∈ section_registry.
Proof. apply dict_get_Some_in. vm_compute. reflexivity. Qed.
Lemma sections_sent_or_reported_witness :
  accounted false live_instance body_document sr_rows [] (Some sr_plan) true (Some body_context) None built_body ("svi"%py, svi_registered).
Proof.
  exact (sections_sent_or_reported false live_instance body_document sr_rows [] (Some sr_plan) true (Some body_context) None built_body "svi" svi_registered body_builds
           svi_in_registry).
Defined.
