(* ===== verification/Sender.v ===== *)
(** * Sending a device document

    src/nso_adapter/nso/apply.py: the commit URL, the dry run and its deltas, the verification after a commit, the sanitized error
    detail and [apply_device_intent]; the instance read of src/nso_adapter/nso/client.py; and the rejection allowlist of
    src/nso_adapter/core/capability.py.

    NSO is an oracle: what it answers to a request given the requests before it, [None] when the exchange raised.  A response is
    the HTTP library's: its status, its bytes and what its [json()] gives.  The checkpoint callback is an oracle as well: whether
    it returns or raises.  Requests and checkpoints are recorded in order and survive an exception. *)

From stdpp Require Import base list.
From Stdlib Require Import ZArith NArith Lia.
From S2P Require Import Prelude Json Text RefusalProtocol Refusals Registry Document Asn Identity WireJson VaultRef DeviceBody.
Local Open Scope py_scope.
Local Open Scope Z_scope.

(** ** Settings *)

(** [s.lower()]: outside ASCII only U+212A and U+0130 have ASCII in their lower case *)
Definition lower_of (c : N) : list N := if (c =? 8490)%N then [107%N] else if (c =? 304)%N then [105%N; 775%N] else [lower_char c].
Definition lower_text (s : list N) : list N := flat_map lower_of s.
Definition chars_in (s : list N) (l : list pystr) : bool := existsb (fun x => bool_decide (py_chars x = s)) l.

(** [VERIFY_AFTER_APPLY] and [RECONCILE_COMMIT] from the environment *)
Definition VERIFY_AFTER_APPLY (env : option pystr) : bool :=
  negb (chars_in (lower_text (strip (py_chars (default "1" env)))) ["0"; "false"; "no"]).
Definition RECONCILE_COMMIT (env : option pystr) : list N :=
  let raw := strip (py_chars (default "keep-non-service-config" env)) in
  if chars_in (lower_text raw) [""; "0"; "off"; "false"; "no"; "none"] then [] else raw.

Record Settings := mkSettings { st_verify : bool; st_reconcile : list N }.

Inductive DryRun := no_dry_run | dry_native | dry_cli.

(** [_commit_url] *)
Definition url_params (st : Settings) (dry : DryRun) (no_networking : bool) : list (list N) :=
  match dry with no_dry_run => [] | dry_native => [py_chars "dry-run=native"] | dry_cli => [py_chars "dry-run=cli"] end ++
  (if no_networking then [py_chars "no-networking"] else []) ++
  match st_reconcile st with [] => [] | r => [py_chars "reconcile=" ++ r] end.
Definition commit_url (st : Settings) (url : list N) (dry : DryRun) (no_networking : bool) : list N :=
  match url_params st dry no_networking with
  | [] => url
  | params => url ++ [if existsb (N.eqb 63) url then 38%N else 63%N] ++ join_chars [38%N] params
  end.

(** [_url_key]: [quote(value, safe='')] *)
Definition unreserved (c : Z) : bool :=
  (48 <=? c) && (c <=? 57) || (65 <=? c) && (c <=? 90) || (97 <=? c) && (c <=? 122) || (c =? 95) || (c =? 46) || (c =? 45) || (c =? 126).
Definition upper_hex (n : Z) : N := Z.to_N (if n <? 10 then 48 + n else 55 + n).
Definition quote_byte (c : Z) : list N := if unreserved c then [Z.to_N c] else [37%N; upper_hex (c / 16); upper_hex (c mod 16)].
Definition url_key (value : pystr) : res (list N) := bytes ← utf8_encode value; Ok (flat_map quote_byte bytes).

Definition DEVICE_INTENT_ROOT : pystr := "device-intent:device-intent".
Definition DEVICE_INTENT_PATH : list N := py_chars "/restconf/data/" ++ py_chars DEVICE_INTENT_ROOT.
Definition instance_url (base : pystr) (device_name : pystr) : res (list N) :=
  key ← url_key device_name; Ok (py_chars base ++ DEVICE_INTENT_PATH ++ [61%N] ++ key).

(** ** Deltas *)

(** [v in (None, {})] *)
Definition none_or_empty (v : json) : bool := match v with JNull | JObj [] => true | _ => false end.

(** [_device_delta_from_dry_run]: a delta is the text of the value returned *)
Fixpoint device_entry (entries : list json) (device_name : pystr) : json :=
  match entries with
  | [] => JStr ""
  | JObj e :: rest => if bool_decide (get e "name" = JStr device_name) then (if json_truthy (get e "data") then get e "data" else JStr "") else device_entry rest device_name
  | _ :: rest => device_entry rest device_name
  end.
Definition device_delta_from_dry_run (body : json) (device_name : pystr) : option json :=
  match body with
  | JObj b =>
      match get b "dry-run-result" with
      | JObj result =>
          let native := get result "native" in
          if none_or_empty native then Some (JStr "")
          else match native with
               | JObj n => let devices := get n "device" in
                           if json_truthy devices then match devices with JArr l => Some (device_entry l device_name) | _ => None end else Some (JStr "")
               | _ => None
               end
      | _ => None
      end
  | _ => None
  end.
(** [_cli_delta_from_dry_run] *)
Definition cli_delta_from_dry_run (body : json) : option json :=
  match body with
  | JObj b =>
      match get b "dry-run-result" with
      | JObj result =>
          let cli := get result "cli" in
          if none_or_empty cli then Some (JStr "")
          else match cli with
               | JObj c => match get c "local-node" with
                           | JObj node => Some (if json_truthy (get node "data") then get node "data" else JStr "")
                           | _ => Some (JStr "")
                           end
               | _ => None
               end
      | _ => None
      end
  | _ => None
  end.
(** [not delta.strip()] of the delta's text: a truthy value that is no text never renders as white space *)
Definition blank_delta (v : json) : bool := match v with JStr s => match strip (py_chars s) with [] => true | _ => false end | v => negb (json_truthy v) end.

(** ** The rejection allowlist *)

(** The command prefixes of [_REJECTION_CONSTRUCTS], [_IFACE_CMD_CONSTRUCTS] and the names of [_SET_KEY_CONSTRUCTS],
    [_MATCH_KEY_CONSTRUCTS] *)
Definition REJECTION_PREFIXES : list pystr :=
  ["set extcommunity color"; "set extcommunity"; "set comm-list"; "set extcomm-list"; "set metric-type"; "set large-community"; "set tag";
   "set level"; "match route-type"; "match local-preference"; "match length"; "match as-path"; "ip community-list standard";
   "ip community-list expanded"; "ip large-community-list"].
Definition IFACE_CMD_PREFIXES : list pystr := ["ip address"; "ipv6 address"; "vrf"; "ip vrf"; "description"; "shutdown"; "no shutdown"].
Definition SET_KEY_CONSTRUCTS : list (pystr * list pystr) :=
  [("community", ["set community"]); ("community_additive", ["set community"]); ("extcommunity_rt", ["set extcommunity"]);
   ("extcommunity_soo", ["set extcommunity"]); ("extcommunity_color", ["set extcommunity color"; "set extcommunity"]);
   ("comm_list_delete", ["set comm-list delete"]); ("extcomm_list_delete", ["set extcomm-list delete"]); ("metric_type", ["set metric-type"]);
   ("tag", ["set tag"]); ("level", ["set level"]); ("large_community", ["set large-community"])].
Definition MATCH_KEY_CONSTRUCTS : list (pystr * list pystr) :=
  [("route_type", ["match route-type"]); ("local_preference", ["match local-preference"]); ("length", ["match length"]);
   ("large_community", ["match large-community"])].
Definition IFACE_PATH_TOKENS : list pystr :=
  ["ipv4-address"; "ipv6-address"; ":vrf"; ":kind"; "parent-binding"; "encap-tag"; ":description"; ":enabled"].

(** [_rejection_command_allowlist]: the set's names, longest first; two names of one length are never both a prefix *)
Definition longer (a b : pystr) : bool := Nat.leb (py_len b) (py_len a).
Definition rejection_command_allowlist : list pystr :=
  stable_sort longer (remove_dups (REJECTION_PREFIXES ++ IFACE_CMD_PREFIXES ++ concat (map snd SET_KEY_CONSTRUCTS) ++ concat (map snd MATCH_KEY_CONSTRUCTS))).

(** [re.search('command:\s*(.+)', text)]: at the first place where some text follows, to the end of its line *)
Definition NEWLINE : N := 10%N.
Fixpoint to_newline (s : list N) : list N := match s with c :: r => if (c =? NEWLINE)%N then [] else c :: to_newline r | [] => [] end.
(** [\s*(.+)] at a position: the line after the white space, or the last white space that is not a newline *)
Definition after_command (s : list N) : option (list N) :=
  match lstrip s with
  | _ :: _ => Some (to_newline (lstrip s))
  | [] => if existsb (fun c => negb (c =? NEWLINE)%N) s then Some [] else None
  end.
Fixpoint search_command (s : list N) : option (list N) :=
  match (if chars_prefix (py_chars "command:") s then after_command (drop 8 s) else None) with
  | Some group => Some group
  | None => match s with _ :: r => search_command r | [] => None end
  end.
(** [token in text] *)
Fixpoint occurs (token s : list N) : bool := chars_prefix token s || match s with _ :: r => occurs token r | [] => false end.

(** [allowlisted_rejection_fragment] *)
Definition allowlisted_rejection_fragment (message : pystr) : pystr :=
  match search_command (py_chars message) with
  | Some group =>
      let cmd := lower_text (strip group) in
      match List.find (fun name => chars_prefix (py_chars name) cmd) rejection_command_allowlist with
      | Some name => py_app "command: " name
      | None => ""
      end
  | None =>
      let low := lower_text (py_chars message) in
      default "" (List.find (fun token => occurs (py_chars token) low) IFACE_PATH_TOKENS)
  end.

(** [_diagnostic_message], [_sanitized_nso_error], [_ordinary_error_detail] *)
Definition REDACTED : pystr := "[redacted]".
Definition diagnostic_message (v : json) : json :=
  match v with
  | JStr s => let f := allowlisted_rejection_fragment s in JStr (if py_truthy f then f else REDACTED)
  | _ => JStr REDACTED
  end.
Definition NESTED_ERROR_MEMBERS : list pystr := ["ietf-restconf:errors"; "errors"; "error"].
Definition KEPT_ERROR_MEMBERS : list pystr := NESTED_ERROR_MEMBERS ++ ["error-message"; "error-info"; "raw"].
Fixpoint sanitized_nso_error (v : json) : json :=
  match v with
  | JObj members =>
      JObj ((fix go (l : list (pystr * json)) : list (pystr * json) :=
               match l with
               | [] => []
               | (key, child) :: l =>
                   if mem key KEPT_ERROR_MEMBERS then
                     (key, if mem key NESTED_ERROR_MEMBERS then sanitized_nso_error child
                           else if bool_decide (key = "error-message") then diagnostic_message child else JStr REDACTED) :: go l
                   else go l
               end) members)
  | JArr items => JArr (map sanitized_nso_error items)
  | v => diagnostic_message v
  end.

(** ** The exchange *)

(** A response of the HTTP library *)
Record Response := mkResponse { rs_status : Z; rs_content : list N; rs_json : res json }.
Inductive SenderPhase := pre_commit_dry_run | commit_phase | post_commit_verification.
Record Request := mkRequest { rq_url : list N; rq_payload : pystr }.
(** A checkpoint: the phase, [None] or the classification, whether the commit is acknowledged *)
Record Checkpoint := mkCheckpoint { ck_phase : SenderPhase; ck_classification : option classification; ck_acknowledged : bool }.

(** [NsoApplyError] *)
Record ApplyError := mkApplyError {
  ae_code : pystr; ae_detail : option json; ae_classification : option classification; ae_phase : SenderPhase; ae_acknowledged : bool }.

(** What a sender step ends with: a value, an [NsoApplyError], or another exception *)
Inductive ended (A : Type) := Done (a : A) | Failed (e : ApplyError) | Escaped (e : exc).
Arguments Done {A} a.
Arguments Failed {A} e.
Arguments Escaped {A} e.

Record Trace := mkTrace { tr_requests : list Request; tr_checkpoints : list Checkpoint }.
Definition empty_trace : Trace := mkTrace [] [].
Definition sends (A : Type) : Type := Trace -> ended A * Trace.
#[global] Instance sends_ret : MRet sends := fun A a t => (Done a, t).
#[global] Instance sends_bind : MBind sends := fun A B f m t =>
  match m t with
  | (Done a, t') => f a t'
  | (Failed e, t') => (Failed e, t')
  | (Escaped e, t') => (Escaped e, t')
  end.
Definition fails {A} (e : ApplyError) : sends A := fun t => (Failed e, t).
Definition of_python {A} (r : res A) : sends A := fun t => match r with Ok a => (Done a, t) | Raise e => (Escaped e, t) end.

Section Send.
Context (rec_limit : nat) (st : Settings).
(** NSO's answer to a request, after the earlier ones *)
Context (nso : list Request -> Request -> option Response).
(** The checkpoint callback, if there is one: what it does with a checkpoint, after the earlier ones *)
Context (callback : option (list Checkpoint -> Checkpoint -> res unit)).

Definition put (url : list N) (payload : pystr) : sends (option Response) := fun t =>
  let rq := mkRequest url payload in
  (Done (nso (tr_requests t) rq), mkTrace (tr_requests t ++ [rq]) (tr_checkpoints t)).
Definition checkpoint (phase : SenderPhase) (c : option classification) (acknowledged : bool) : sends unit := fun t =>
  match callback with
  | None => (Done tt, t)
  | Some f =>
      let ck := mkCheckpoint phase c acknowledged in
      match f (tr_checkpoints t) ck with
      | Ok _ => (Done tt, mkTrace (tr_requests t) (tr_checkpoints t ++ [ck]))
      | Raise e => (Escaped e, t)
      end
  end.

(** The classification of an answer, [None] for an acknowledged one *)
Definition classify (answer : option Response) : sends (option classification) :=
  c ← of_python (match answer with
                 | None => classify_error rec_limit None BodyNone
                 | Some r => classify_error rec_limit (Some (rs_status r)) (BodyBytes (rs_content r))
                 end);
  mret (match c with NotAnError => None | c => Some c end).

(** [response.json()], its [ValueError]s caught *)
Definition response_json (r : Response) : sends json := fun t =>
  match rs_json r with
  | Ok v => (Done v, t)
  | Raise (ValueError _) => (Done JNull, t)
  | Raise e => (Escaped e, t)
  end.

(** [_ordinary_error_detail] *)
Definition ordinary_error_detail (answer : option Response) : sends json :=
  body ← match answer with Some r => response_json r | None => mret JNull end;
  mret (JObj [("nso_error", sanitized_nso_error body)]).
Definition detail_of (c : classification) (answer : option Response) : sends (option json) :=
  match c with OrdinaryRejection => d ← ordinary_error_detail answer; mret (Some d) | _ => mret None end.

(** [_classified_apply_error] *)
Definition classified_apply_error (c : classification) (phase : SenderPhase) (detail : option json) : ApplyError :=
  let code : pystr := match c with
              | DefiniteRefusal _ => "refused"
              | ProtocolFault => "refusal_protocol_fault"
              | Unavailable => "nso_unavailable"
              | _ => match phase with commit_phase => "nso_put_failed" | _ => "dry_run_rejected" end
              end in
  mkApplyError code detail (Some c) phase (match phase with post_commit_verification => true | _ => false end).

Definition raises (strict : bool) (c : classification) : bool :=
  match c with DefiniteRefusal _ | ProtocolFault => true | OrdinaryRejection => strict | _ => false end.

(** [native_dry_run] *)
Definition native_dry_run (url : list N) (payload device_name : pystr) (strict : bool) (dry : DryRun) (no_networking : bool) (phase : SenderPhase) :
    sends (option json) :=
  answer ← put (commit_url st url dry no_networking) payload;
  c ← classify answer;
  match c with
  | Some c =>
      _ ← checkpoint phase (Some c) false;
      if raises strict c then detail ← detail_of c answer; fails (classified_apply_error c phase detail) else mret None
  | None =>
      match answer with
      | None => mret None
      | Some r =>
          if rs_status r =? 204 then mret (Some (JStr ""))
          else
            body ← response_json r;
            let delta := match dry with dry_cli => cli_delta_from_dry_run body | _ => device_delta_from_dry_run body device_name end in
            match delta with
            | None => _ ← checkpoint phase (Some Unavailable) false; mret None
            | Some d => mret (Some d)
            end
      end
  end.

Inductive Verdict := VERIFY_CONCLUSIVE | VERIFY_INCONCLUSIVE | VERIFY_DISABLED.

(** [_verify_native_or_raise] *)
Definition verify_native_or_raise (url : list N) (payload device_name : pystr) (no_networking : bool) : sends Verdict :=
  if st_verify st then
    delta ← native_dry_run url payload device_name true dry_native no_networking post_commit_verification;
    match delta with
    | None => mret VERIFY_INCONCLUSIVE
    | Some d =>
        if blank_delta d then _ ← checkpoint post_commit_verification None false; mret VERIFY_CONCLUSIVE
        else
          _ ← checkpoint post_commit_verification (Some Unavailable) false;
          fails (mkApplyError "verify_mismatch" (Some (JObj [("device_delta", JStr REDACTED)])) (Some Unavailable) post_commit_verification true)
    end
  else
    _ ← checkpoint post_commit_verification (Some Unavailable) false;
    mret VERIFY_DISABLED.

(** [device_intent_instance] *)
Definition device_intent_instance (device_name : pystr) (containers : pydict) : json :=
  JObj (fold_left (fun d kv => dict_set d kv.1 kv.2) containers [("device", JStr device_name)]).
Definition payload_of (device_name : pystr) (containers : pydict) : res pystr :=
  match boundary_safe_dumps (JObj [(DEVICE_INTENT_ROOT, JArr [device_intent_instance device_name containers])]) with
  | Some p => Ok p
  | None => Raise (RuntimeError "the renderer ran out of fuel")
  end.

(** What [apply_device_intent] returns: a dry run's delta or a commit's verdict *)
Inductive Sent := Delta (d : option json) | Committed (v : Verdict).

(** The commit of [apply_device_intent] *)
Definition commit_device_intent (url : list N) (payload device_name : pystr) (no_networking : bool) : sends Verdict :=
  answer ← put (commit_url st url no_dry_run no_networking) payload;
  c ← classify answer;
  _ ← checkpoint commit_phase c (match c with None => true | Some _ => false end);
  match c with
  | Some c => detail ← detail_of c answer; fails (classified_apply_error c commit_phase detail)
  | None => verify_native_or_raise url payload device_name no_networking
  end.

(** [apply_device_intent] *)
Definition apply_device_intent (base device_name : pystr) (containers : pydict) (dry : DryRun) (no_networking strict : bool) : sends Sent :=
  payload ← of_python (payload_of device_name containers);
  url ← of_python (instance_url base device_name);
  match dry with
  | no_dry_run => v ← commit_device_intent url payload device_name no_networking; mret (Committed v)
  | _ => d ← native_dry_run url payload device_name strict dry no_networking pre_commit_dry_run; mret (Delta d)
  end.
End Send.

(** ** The certified instance read *)

(** [NsoClient.service_instance_state]: [None] when the exchange raised or its status did; [ok_status] is the library's
    [raise_for_status] *)
Definition service_instance_state (ok_status : Z -> bool) (device_name : pystr) (answer : option Response) : option InstanceState :=
  r ← answer;
  if rs_status r =? 404 then Some (mkState false JNull)
  else if negb (ok_status (rs_status r)) then None
  else Some match rs_json r with
            | Ok (JObj data) =>
                let entries := match get data DEVICE_INTENT_ROOT with JNull => get data "device-intent" | v => v end in
                match entries with
                | JArr [JObj ((_ :: _) as entry)] => if bool_decide (get entry "device" = JStr device_name) then mkState false (JObj entry) else mkState true JNull
                | _ => mkState true JNull
                end
            | _ => mkState true JNull
            end.
