(* ===== verification/SenderProps.v ===== *)
(** * What a send proves

    The requests a send makes, in order, what its verdict or error says of the commit, and what its errors may quote. *)

From stdpp Require Import base list.
From Stdlib Require Import ZArith NArith Lia.
From S2P Require Import Prelude Json Text RefusalProtocol Refusals Registry Document Asn Identity WireJson VaultRef DeviceBody Sender.
Local Open Scope py_scope.
Local Open Scope Z_scope.

(** ** Answers *)

(** What is wrong with an answer; [None] for an acknowledgement *)
Definition problem (rec_limit : nat) (answer : option Response) : option classification :=
  match match answer with
        | None => classify_error rec_limit None BodyNone
        | Some r => classify_error rec_limit (Some (rs_status r)) (BodyBytes (rs_content r))
        end with
  | Ok NotAnError | Raise _ => None
  | Ok c => Some c
  end.
Lemma classify_answer rec_limit answer t : classify rec_limit answer t = (Done (problem rec_limit answer), t).
Proof.
  unfold classify, problem, mbind, sends_bind, of_python.
  destruct (match answer with None => _ | Some r => _ end) as [c|e] eqn:E; [done|]. exfalso.
  destruct answer as [r|]; [destruct (classify_error_verdict rec_limit (Some (rs_status r)) (BodyBytes (rs_content r))) as [c Hc]
                           |destruct (classify_error_verdict rec_limit None BodyNone) as [c Hc]]; congruence.
Qed.
Lemma problem_none rec_limit : problem rec_limit None = Some Unavailable.
Proof. done. Qed.
(** An acknowledged answer is a response with a 2xx status *)
Lemma acknowledged_2xx rec_limit answer : problem rec_limit answer = None → ∃ r, answer = Some r ∧ 200 <= rs_status r < 300.
Proof.
  destruct answer as [r|]; [|done]. intros H. exists r. split; [done|]. revert H. unfold problem.
  destruct (classify_error_verdict rec_limit (Some (rs_status r)) (BodyBytes (rs_content r))) as [c Hc]. rewrite Hc. intros H. assert (c = NotAnError) as -> by (by destruct c).
  revert Hc. unfold classify_error. destruct (decode_outer rec_limit (BodyBytes (rs_content r))) as [decoded|]; [|done]. cbn [mbind res_bind].
  destruct (_ || _)%bool; [destruct (match decoded with Some v => _ | None => _ end) as [[rs|]|]; cbn [mbind res_bind]; [destruct (_ =? 500)|..]; done|].
  destruct (_ && _)%bool; [done|]. destruct (_ && _)%bool; [done|]. destruct (_ && _)%bool; [done|].
  destruct (_ && _)%bool eqn:E; [|done]. intros _. apply andb_prop in E as [E1 E2]. lia.
Qed.

(** ** The dry run *)

Section Dry.
Context (rec_limit : nat) (st : Settings) (nso : list Request -> Request -> option Response) (callback : option (list Checkpoint -> Checkpoint -> res unit)).
Notation dry_run := (native_dry_run rec_limit st nso callback).

(** The checkpoints a step may leave behind *)
Definition adds_checkpoints (P : Checkpoint -> Prop) (t t' : Trace) : Prop :=
  ∃ l, tr_checkpoints t' = tr_checkpoints t ++ l ∧ Forall P l.

Lemma checkpoint_spec phase c acknowledged t r t' : checkpoint callback phase c acknowledged t = (r, t') →
  tr_requests t' = tr_requests t ∧ adds_checkpoints (fun ck => ck = mkCheckpoint phase c acknowledged) t t' ∧
  (r = Done tt ∨ ∃ e, r = Escaped e).
Proof.
  unfold checkpoint. destruct callback as [f|]; [destruct (f _ _)|]; intros [= <- <-]; simpl; (split; [done|]).
  - split; [exists [mkCheckpoint phase c acknowledged]; split; [done|by repeat constructor]|destruct a; auto].
  - split; [exists []; by rewrite app_nil_r|eauto].
  - split; [exists []; by rewrite app_nil_r|auto].
Qed.

Lemma response_json_spec r t x t' : response_json r t = (x, t') → t' = t ∧ ((∃ v, x = Done v) ∨ ∃ e, x = Escaped e).
Proof. unfold response_json. destruct (rs_json r) as [v|[]]; intros [= <- <-]; eauto. Qed.
Lemma detail_of_spec c answer t x t' : detail_of c answer t = (x, t') →
  t' = t ∧ ((∃ d, x = Done d ∧ (d = None ∨ ∃ v, d = Some (JObj [("nso_error", sanitized_nso_error v)]))) ∨ ∃ e, x = Escaped e).
Proof.
  unfold detail_of, ordinary_error_detail, mbind, sends_bind. destruct c; try (intros [= <- <-]; split; [done|left; eauto]).
  destruct answer as [r|].
  - destruct (response_json r t) as [y t1] eqn:E. apply response_json_spec in E as [-> [[v ->]|[e ->]]]; intros [= <- <-]; split; try done; [left; eauto|right; eauto].
  - intros [= <- <-]. split; [done|]. left. eexists. split; [done|]. right. by exists JNull.
Qed.

(** The answer of a dry run shows no change *)
Definition shows_nothing (device_name : pystr) (answer : option Response) : Prop :=
  ∃ r, answer = Some r ∧ 200 <= rs_status r < 300 ∧
    (rs_status r = 204 ∨ ∃ d, device_delta_from_dry_run (match rs_json r with Ok v => v | Raise _ => JNull end) device_name = Some d ∧ blank_delta d = true).

Definition quiet_checkpoint_of (phase : SenderPhase) (ck : Checkpoint) : Prop :=
  ck_phase ck = phase ∧ is_Some (ck_classification ck) ∧ ck_acknowledged ck = false.
Lemma quiet_after phase c t t1 t2 : adds_checkpoints (quiet_checkpoint_of phase) t t1 →
  adds_checkpoints (fun ck => ck = mkCheckpoint phase (Some c) false) t1 t2 → adds_checkpoints (quiet_checkpoint_of phase) t t2.
Proof.
  intros (l & Hl & Hp) (l' & Hl' & Hp'). exists (l ++ l'). split; [by rewrite Hl', Hl, app_assoc|]. apply Forall_app. split; [done|].
  eapply Forall_impl; [exact Hp'|]. intros ck ->. unfold quiet_checkpoint_of. simpl. eauto.
Qed.

Lemma dry_run_spec url payload device_name strict dry no_networking phase t r t' :
  dry_run url payload device_name strict dry no_networking phase t = (r, t') →
  let rq := mkRequest (commit_url st url dry no_networking) payload in
  tr_requests t' = tr_requests t ++ [rq] ∧
  adds_checkpoints (quiet_checkpoint_of phase) t t' ∧
  match r with
  | Done (Some d) => problem rec_limit (nso (tr_requests t) rq) = None ∧ (dry = dry_native → blank_delta d = true → shows_nothing device_name (nso (tr_requests t) rq))
  | Done None => True
  | Failed e => ∃ c detail, problem rec_limit (nso (tr_requests t) rq) = Some c ∧ raises strict c = true ∧ e = classified_apply_error c phase detail ∧
                  (detail = None ∨ ∃ v, detail = Some (JObj [("nso_error", sanitized_nso_error v)]))
  | Escaped _ => True
  end.
Proof.
  unfold native_dry_run, put. unfold mbind at 1, sends_bind at 1. cbv beta zeta iota. unfold mbind at 1, sends_bind at 1. rewrite classify_answer.
  set (rq := mkRequest (commit_url st url dry no_networking) payload). set (answer := nso (tr_requests t) rq).
  set (t1 := mkTrace (tr_requests t ++ [rq]) (tr_checkpoints t)).
  assert (adds_checkpoints (quiet_checkpoint_of phase) t t1) as H1 by (exists []; by rewrite app_nil_r).
  destruct (problem rec_limit answer) as [c|] eqn:Ep.
  - unfold mbind, sends_bind. destruct (checkpoint callback phase (Some c) false t1) as [x t2] eqn:Ec.
    apply checkpoint_spec in Ec as (Hr & Hc & Hx). assert (adds_checkpoints (quiet_checkpoint_of phase) t t2) as H2 by (by eapply quiet_after).
    destruct Hx as [->|[e ->]]; [|intros [= <- <-]; by rewrite Hr].
    destruct (raises strict c) eqn:Er; [|intros [= <- <-]; by rewrite Hr].
    destruct (detail_of c answer t2) as [y t3] eqn:Ed. apply detail_of_spec in Ed as [-> [(d & -> & Hd)|[e ->]]]; intros [= <- <-]; rewrite Hr; [|done].
    split_and!; [done|done|]. exists c, d. done.
  - destruct (acknowledged_2xx _ _ Ep) as (r0 & Ha & Hst). rewrite Ha. destruct (rs_status r0 =? 204) eqn:E204.
    { intros [= <- <-]. split_and!; [done|done|done|]. intros _ _. exists r0. apply Z.eqb_eq in E204. auto. }
    unfold mbind, sends_bind. destruct (response_json r0 t1) as [y t2] eqn:Ej. pose proof Ej as Ej'.
    apply response_json_spec in Ej as [-> [[v ->]|[e ->]]]; [|intros [= <- <-]; done].
    assert ((match rs_json r0 with Ok v => v | Raise _ => JNull end) = v) as Hv by (revert Ej'; unfold response_json; destruct (rs_json r0) as [?|[]]; by intros [= ->]).
    destruct (match dry with dry_cli => cli_delta_from_dry_run v | _ => device_delta_from_dry_run v device_name end) as [d|] eqn:Edl.
    + intros [= <- <-]. split_and!; [done|done|done|]. intros -> Hb. exists r0. rewrite Hv. eauto 6.
    + destruct (checkpoint callback phase (Some Unavailable) false t1) as [x t2] eqn:Ec.
      apply checkpoint_spec in Ec as (Hr & Hc & Hx). assert (adds_checkpoints (quiet_checkpoint_of phase) t t2) as H2 by (by eapply quiet_after).
      destruct Hx as [->|[e ->]]; intros [= <- <-]; by rewrite Hr.
Qed.

(** ** The commit *)

(** A detail quotes a sanitized answer or a redacted delta *)
Definition detail_kept (d : option json) : Prop :=
  d = None ∨ (∃ v, d = Some (JObj [("nso_error", sanitized_nso_error v)])) ∨ d = Some (JObj [("device_delta", JStr REDACTED)]).

Lemma verify_spec url payload device_name no_networking t r t' :
  verify_native_or_raise rec_limit st nso callback url payload device_name no_networking t = (r, t') →
  let verify := mkRequest (commit_url st url dry_native no_networking) payload in
  tr_requests t' = tr_requests t ++ (if st_verify st then [verify] else []) ∧
  adds_checkpoints (fun ck => ck_phase ck = post_commit_verification ∧ ck_acknowledged ck = false) t t' ∧
  match r with
  | Done VERIFY_CONCLUSIVE => st_verify st = true ∧ shows_nothing device_name (nso (tr_requests t) verify)
  | Done VERIFY_INCONCLUSIVE => st_verify st = true
  | Done VERIFY_DISABLED => st_verify st = false
  | Failed e => st_verify st = true ∧ ae_phase e = post_commit_verification ∧ ae_acknowledged e = true ∧ detail_kept (ae_detail e)
  | Escaped _ => True
  end.
Proof.
  intros H verify. assert (∀ a b c, adds_checkpoints (quiet_checkpoint_of post_commit_verification) a b →
    adds_checkpoints (fun ck => ck_phase ck = post_commit_verification ∧ ck_acknowledged ck = false) b c →
    adds_checkpoints (fun ck => ck_phase ck = post_commit_verification ∧ ck_acknowledged ck = false) a c) as Hadd.
  { intros a b c (l & Hl & Hp) (l' & Hl' & Hp'). exists (l ++ l'). split; [by rewrite Hl', Hl, app_assoc|]. apply Forall_app. split; [|done].
    eapply Forall_impl; [exact Hp|]. by intros ck (? & _ & ?). }
  assert (∀ b, adds_checkpoints (fun ck => ck_phase ck = post_commit_verification ∧ ck_acknowledged ck = false) b b) as Hrefl.
  { intros b. exists []. by rewrite app_nil_r. }
  assert (∀ c a b, adds_checkpoints (fun ck => ck = mkCheckpoint post_commit_verification c false) a b →
    adds_checkpoints (fun ck => ck_phase ck = post_commit_verification ∧ ck_acknowledged ck = false) a b) as Hone.
  { intros c a b (l & Hl & Hp). exists l. split; [done|]. eapply Forall_impl; [exact Hp|]. by intros ck ->. }
  revert H. unfold verify_native_or_raise. destruct (st_verify st) eqn:Ev; unfold mbind, sends_bind.
  - destruct (native_dry_run _ _ _ _ _ _ _ _ _ _ _ t) as [x t1] eqn:Ed. apply dry_run_spec in Ed as (Hr & Hc & Hx). fold verify in Hr, Hx.
    destruct x as [[d|]|e|e]; [|intros [= <- <-]; rewrite Hr; eauto|intros [= <- <-]; rewrite Hr|intros [= <- <-]; rewrite Hr; eauto].
    + destruct Hx as [Hp Hs]. destruct (blank_delta d) eqn:Eb.
      * destruct (checkpoint callback post_commit_verification None false t1) as [y t2] eqn:Ec. apply checkpoint_spec in Ec as (Hr2 & Hc2 & Hy).
        destruct Hy as [->|[e ->]]; intros [= <- <-]; rewrite Hr2, Hr; split_and!; eauto.
      * destruct (checkpoint callback post_commit_verification (Some Unavailable) false t1) as [y t2] eqn:Ec. apply checkpoint_spec in Ec as (Hr2 & Hc2 & Hy).
        destruct Hy as [->|[e ->]]; intros [= <- <-]; rewrite Hr2, Hr; split_and!; eauto. right. by right.
    + destruct Hx as (c & detail & _ & _ & -> & Hd). split_and!; eauto. destruct Hd as [->|[v ->]]; [by left|right; left; by exists v].
  - destruct (checkpoint callback post_commit_verification (Some Unavailable) false t) as [y t2] eqn:Ec. apply checkpoint_spec in Ec as (Hr2 & Hc2 & Hy).
    destruct Hy as [->|[e ->]]; intros [= <- <-]; rewrite Hr2, app_nil_r; split_and!; eauto.
Qed.

Lemma commit_spec url payload device_name no_networking t r t' :
  commit_device_intent rec_limit st nso callback url payload device_name no_networking t = (r, t') →
  let commit := mkRequest (commit_url st url no_dry_run no_networking) payload in
  let verify := mkRequest (commit_url st url dry_native no_networking) payload in
  let answered := problem rec_limit (nso (tr_requests t) commit) in
  ∃ rest, tr_requests t' = tr_requests t ++ commit :: rest ∧ (rest = [] ∨ rest = [verify] ∧ answered = None) ∧
    adds_checkpoints (fun ck => ck_acknowledged ck = true → ck_phase ck = commit_phase ∧ answered = None) t t' ∧
    match r with
    | Done VERIFY_CONCLUSIVE => answered = None ∧ rest = [verify] ∧ shows_nothing device_name (nso (tr_requests t ++ [commit]) verify)
    | Done _ => answered = None
    | Failed e => (ae_acknowledged e = true ↔ answered = None) ∧ (ae_phase e = commit_phase ↔ is_Some answered) ∧ (is_Some answered → rest = []) ∧
                  detail_kept (ae_detail e)
    | Escaped _ => True
    end.
Proof.
  unfold commit_device_intent, put. unfold mbind at 1, sends_bind at 1. cbv beta zeta iota. unfold mbind at 1, sends_bind at 1. rewrite classify_answer.
  set (commit := mkRequest (commit_url st url no_dry_run no_networking) payload). set (answered := problem rec_limit (nso (tr_requests t) commit)).
  set (t1 := mkTrace (tr_requests t ++ [commit]) (tr_checkpoints t)). unfold mbind, sends_bind.
  destruct (checkpoint callback commit_phase answered _ t1) as [x t2] eqn:Ec. apply checkpoint_spec in Ec as (Hr & Hc & Hx).
  assert (adds_checkpoints (fun ck => ck_acknowledged ck = true → ck_phase ck = commit_phase ∧ answered = None) t t2) as H2.
  { destruct Hc as (l & Hl & Hp). exists l. split; [done|]. eapply Forall_impl; [exact Hp|]. intros ck ->. simpl. by destruct answered. }
  destruct Hx as [->|[e ->]]; [|intros [= <- <-]; exists []; rewrite Hr; split_and!; auto].
  destruct answered as [c|] eqn:Ea.
  - destruct (detail_of c (nso (tr_requests t) commit) t2) as [y t3] eqn:Ed. apply detail_of_spec in Ed as [-> [(d & -> & Hd)|[e ->]]]; intros [= <- <-];
      exists []; rewrite Hr; split_and!; auto; simpl; try (by split; intros; eauto).
    destruct Hd as [->|[v ->]]; [by left|right; left; by exists v].
  - intros Hv. destruct (verify_spec _ _ _ _ _ _ _ Hv) as (Hr3 & (l3 & Hl3 & Hp3) & Hres). rewrite Hr in Hr3, Hres. simpl in Hr3, Hres.
    exists (if st_verify st then [mkRequest (commit_url st url dry_native no_networking) payload] else []). rewrite Hr3, <-app_assoc. split_and!; [done| | |].
    + destruct (st_verify st); auto.
    + destruct H2 as (l & Hl & Hp). exists (l ++ l3). split; [by rewrite Hl3, Hl, app_assoc|]. apply Forall_app. split; [done|].
      eapply Forall_impl; [exact Hp3|]. intros ck (_ & ->). done.
    + destruct r as [[| |]|e|e]; try done.
      * destruct Hres as [-> Hs]. done.
      * destruct Hres as (-> & Hph & Hack & Hd). rewrite Hph, Hack. split_and!; try done; split; try done; by intros [].
Qed.
End Dry.

(** ** What an error may quote *)

Definition KEPT_TEXTS : list pystr := REDACTED :: map (py_app "command: ") rejection_command_allowlist ++ IFACE_PATH_TOKENS.
Definition KEPT_NAMES : list pystr := ["nso_error"; "device_delta"] ++ KEPT_ERROR_MEMBERS.
(** Only texts of a list, under names of a list *)
Fixpoint quotes_only (texts names : list pystr) (v : json) : bool :=
  match v with
  | JStr s => mem s texts
  | JArr items => forallb (quotes_only texts names) items
  | JObj members => forallb (fun kv => mem kv.1 names && quotes_only texts names kv.2) members
  | _ => false
  end.

Lemma find_in {A} (p : A -> bool) l x : List.find p l = Some x → x ∈ l.
Proof. intros H. apply list_elem_of_In. by apply find_some in H as [? _]. Qed.
Lemma fragment_allowlisted message : py_truthy (allowlisted_rejection_fragment message) = true → allowlisted_rejection_fragment message ∈ KEPT_TEXTS.
Proof.
  unfold allowlisted_rejection_fragment, KEPT_TEXTS. rewrite elem_of_cons, elem_of_app. destruct (search_command (py_chars message)) as [group|].
  - destruct (List.find _ rejection_command_allowlist) as [name|] eqn:E; [|done]. intros _. right. left. apply list_elem_of_fmap. exists name. split; [done|].
    by eapply find_in.
  - destruct (List.find _ IFACE_PATH_TOKENS) as [token|] eqn:E; [|done]. intros _. right. right. by eapply find_in.
Qed.
Lemma mem_true x l : x ∈ l → mem x l = true.
Proof. intros. by apply bool_decide_eq_true. Qed.
Lemma redacted_kept : mem REDACTED KEPT_TEXTS = true.
Proof. apply mem_true. left. Qed.
Lemma diagnostic_kept v : quotes_only KEPT_TEXTS KEPT_NAMES (diagnostic_message v) = true.
Proof.
  unfold diagnostic_message. destruct v; try exact redacted_kept. cbn [quotes_only].
  destruct (py_truthy (allowlisted_rejection_fragment s)) eqn:E; [by apply mem_true, fragment_allowlisted|exact redacted_kept].
Qed.
Lemma kept_names key : mem key KEPT_ERROR_MEMBERS = true → mem key KEPT_NAMES = true.
Proof. unfold mem. rewrite !bool_decide_eq_true. unfold KEPT_NAMES. rewrite elem_of_app. auto. Qed.
Lemma sanitized_kept v : quotes_only KEPT_TEXTS KEPT_NAMES (sanitized_nso_error v) = true.
Proof.
  induction v as [|b|z|f|s|items IH|members IH] using json_ind'; try apply diagnostic_kept.
  - cbn [sanitized_nso_error quotes_only]. induction IH as [|x l Hx _ IHl]; [done|]. cbn [map forallb]. by rewrite Hx, IHl.
  - cbn [sanitized_nso_error quotes_only]. induction IH as [|[key child] l Hc _ IHl]; [done|]. destruct (mem key KEPT_ERROR_MEMBERS) eqn:Ek; [|exact IHl].
    cbn [forallb fst snd]. rewrite (kept_names _ Ek), IHl. rewrite andb_true_r, andb_true_l.
    destruct (mem key NESTED_ERROR_MEMBERS); [exact Hc|]. destruct (bool_decide (key = "error-message")); [apply diagnostic_kept|exact redacted_kept].
Qed.
Lemma detail_quotes d v : detail_kept d → d = Some v → quotes_only KEPT_TEXTS KEPT_NAMES v = true.
Proof.
  intros [->|[[w ->]| ->]]; [done| |]; intros [= <-]; cbn [quotes_only forallb fst snd].
  - rewrite sanitized_kept. rewrite !andb_true_r. apply mem_true. left.
  - rewrite redacted_kept, !andb_true_r. apply mem_true. right. left.
Qed.

(** ** Sends *)

Section Sends.
Context (rec_limit : nat) (st : Settings) (nso : list Request -> Request -> option Response) (callback : option (list Checkpoint -> Checkpoint -> res unit)).
Context (base device_name : pystr) (containers : pydict) (no_networking strict : bool).
Notation send dry := (apply_device_intent rec_limit st nso callback base device_name containers dry no_networking strict empty_trace).

(** The two requests of a committing send *)
Definition commit_request (url : list N) (payload : pystr) : Request := mkRequest (commit_url st url no_dry_run no_networking) payload.
Definition verify_request (url : list N) (payload : pystr) : Request := mkRequest (commit_url st url dry_native no_networking) payload.

(** Rendering always ends *)
Lemma payload_total : ∃ p, payload_of device_name containers = Ok p.
Proof.
  unfold payload_of, boundary_safe_dumps. destruct (_ <=? _)%N; [eauto|].
  match goal with |- context [pad_loop ?n 0 ?s] => destruct (pad_loop_total n 0 s) as [out ->] end; [done|]. simpl. eauto.
Qed.

Lemma send_parts dry r t : send dry = (r, t) →
  (∃ e, r = Escaped e ∧ t = empty_trace) ∨
  ∃ url payload, instance_url base device_name = Ok url ∧ payload_of device_name containers = Ok payload ∧
    match dry with
    | no_dry_run => ∃ v, commit_device_intent rec_limit st nso callback url payload device_name no_networking empty_trace = (v, t) ∧
                         r = match v with Done v => Done (Committed v) | Failed e => Failed e | Escaped e => Escaped e end
    | _ => ∃ d, native_dry_run rec_limit st nso callback url payload device_name strict dry no_networking pre_commit_dry_run empty_trace = (d, t) ∧
                r = match d with Done d => Done (Delta d) | Failed e => Failed e | Escaped e => Escaped e end
    end.
Proof.
  unfold apply_device_intent, of_python, mbind, sends_bind. destruct (payload_of device_name containers) as [payload|e]; [|intros [= <- <-]; eauto].
  destruct (instance_url base device_name) as [url|e]; [|intros [= <- <-]; eauto]. intros H. right. exists url, payload. split; [done|]. split; [done|].
  destruct dry.
  - destruct (commit_device_intent _ _ _ _ _ _ _ _ _) as [v t'] eqn:E. exists v. destruct v; injection H as <- <-; done.
  - destruct (native_dry_run _ _ _ _ _ _ _ _ _ _ _) as [v t'] eqn:E. exists v. destruct v; injection H as <- <-; done.
  - destruct (native_dry_run _ _ _ _ _ _ _ _ _ _ _) as [v t'] eqn:E. exists v. destruct v; injection H as <- <-; done.
Qed.

(** C8: A conclusive verdict is a proof of delivery: the document was sent once and acknowledged with a 2xx answer that claims no
    refusal, the same document was then sent once more as a dry run, and NSO answered that it would push nothing further. *)
Theorem conclusive_means_delivered t : send no_dry_run = (Done (Committed VERIFY_CONCLUSIVE), t) →
  ∃ url payload, instance_url base device_name = Ok url ∧ payload_of device_name containers = Ok payload ∧
    tr_requests t = [commit_request url payload; verify_request url payload] ∧
    problem rec_limit (nso [] (commit_request url payload)) = None ∧
    shows_nothing device_name (nso [commit_request url payload] (verify_request url payload)).
Proof.
  intros [(e & [=] & _)|(url & payload & Hu & Hp & v & Hc & Hr)]%send_parts. destruct v as [v|e|e]; [|done..]. injection Hr as <-.
  apply commit_spec in Hc as (rest & Hreq & _ & _ & Ha & -> & Hs). exists url, payload. done.
Qed.

(** C9: An error of a committing send says whether the device may have changed: it reports an acknowledged commit exactly when the
    commit was acknowledged, and the commit's phase exactly when it was not, in which case nothing else was sent; a checkpoint
    acknowledges only an acknowledged commit; and whatever NSO answered, the error quotes only literals of the allowlist. *)
Theorem errors_say_what_was_committed e t : send no_dry_run = (Failed e, t) →
  ∃ url payload rest, tr_requests t = commit_request url payload :: rest ∧
    let answered := problem rec_limit (nso [] (commit_request url payload)) in
    (ae_acknowledged e = true ↔ answered = None) ∧ (ae_phase e = commit_phase ↔ is_Some answered) ∧
    (rest = [] ∨ rest = [verify_request url payload] ∧ answered = None) ∧
    (∀ ck, ck ∈ tr_checkpoints t → ck_acknowledged ck = true → answered = None) ∧
    ∀ d, ae_detail e = Some d → quotes_only KEPT_TEXTS KEPT_NAMES d = true.
Proof.
  intros [(x & [=] & _)|(url & payload & _ & _ & v & Hc & Hr)]%send_parts. destruct v as [v|x|x]; [done| |done]. injection Hr as <-.
  apply commit_spec in Hc as (rest & Hreq & Hrest & (l & Hl & Hck) & Hack & Hph & _ & Hd). exists url, payload, rest. split; [done|]. cbv zeta. split_and!; try done.
  - intros ck Hin Ht. rewrite Hl in Hin. by destruct (proj1 (Forall_forall _ _) Hck ck Hin Ht).
  - intros d. by apply detail_quotes.
Qed.

Lemma occurs_app token a b : occurs token b = true → occurs token (a ++ b) = true.
Proof. intros H. induction a as [|c a IH]; [done|]. cbn [app occurs]. rewrite IH. apply orb_true_r. Qed.
Lemma occurs_prefix token s r : chars_prefix token s = true → occurs token (s ++ r) = true.
Proof.
  intros H. assert (chars_prefix token (s ++ r) = true) as Hp.
  { revert s H. induction token as [|c token IH]; intros [|x s] H; try done. cbn in *. apply andb_prop in H as [-> H]. by rewrite IH. }
  destruct (s ++ r) as [|c k]; cbn [occurs]; by rewrite Hp.
Qed.
Lemma dry_url_marked url dry : dry ≠ no_dry_run → occurs (py_chars "dry-run=") (commit_url st url dry no_networking) = true.
Proof.
  intros Hd. unfold commit_url. assert (∃ p ps, url_params st dry no_networking = p :: ps ∧ chars_prefix (py_chars "dry-run=") p = true) as (p & ps & -> & Hp).
  { unfold url_params. destruct dry; [done|..]; eexists _, _; (split; [reflexivity|done]). }
  apply occurs_app, occurs_app. destruct ps as [|q ps]; cbn [join_chars]; [rewrite <-(app_nil_r p)|]; by apply occurs_prefix.
Qed.

(** A preview never commits: a dry run makes at most one request, which asks NSO to commit nothing, and neither its checkpoints
    nor its error report an acknowledged commit. *)
Theorem dry_runs_never_commit dry r t : dry ≠ no_dry_run → send dry = (r, t) →
  (tr_requests t = [] ∨ ∃ url payload, tr_requests t = [mkRequest (commit_url st url dry no_networking) payload]) ∧
  Forall (fun rq => occurs (py_chars "dry-run=") (rq_url rq) = true) (tr_requests t) ∧
  Forall (fun ck => ck_acknowledged ck = false) (tr_checkpoints t) ∧
  (∀ e, r = Failed e → ae_acknowledged e = false).
Proof.
  intros Hd [(x & -> & ->)|(url & payload & _ & _ & H)]%send_parts; [split_and!; [by left|constructor|constructor|done]|].
  assert (∃ d, native_dry_run rec_limit st nso callback url payload device_name strict dry no_networking pre_commit_dry_run empty_trace = (d, t) ∧
    r = match d with Done d => Done (Delta d) | Failed e => Failed e | Escaped e => Escaped e end) as (d & Hn & ->) by (by destruct dry).
  apply dry_run_spec in Hn as (Hr & (l & Hl & Hck) & Hres). cbn in Hr, Hl. split_and!.
  - right. by exists url, payload.
  - rewrite Hr. constructor; [by apply dry_url_marked|constructor].
  - rewrite Hl. eapply Forall_impl; [exact Hck|]. by intros ck (_ & _ & ?).
  - intros e. destruct d as [d|x|x]; [done| |done]. intros [= ->]. destruct Hres as (c & detail & _ & _ & -> & _). done.
Qed.
End Sends.
