(* ===== verification/Evidence.v ===== *)
(** * Durable execution evidence

    src/nso_adapter/store/execution_evidence.py: the catalog form of refusals, and the recorded form of logical rows and of origin
    indexes.  A timestamp is its ISO text, so [isoformat] and [fromisoformat] are the identity; a stored value of a type no writer
    stores is a [TypeError]. *)

From stdpp Require Import base list.
From Stdlib Require Import ZArith NArith Lia.
From S2P Require Import Prelude Json Sha256 RefusalCatalog RefusalProtocol RefusalProtocolProps Registry Document Asn Identity WireJson Hydrate Origins OriginProps.

Local Open Scope py_scope.
Local Open Scope Z_scope.

(** ** Refusals *)

(** One record of [catalog_records] *)
Definition catalog_record (rec_limit : nat) (r : Refusal) : res (list json) :=
  message ← render_refusals [r];
  _ ← parse_refusals rec_limit (JStr message);
  decoded ← loads dict_hook JSONDecodeError rec_limit (py_drop (py_len PREFIX) message);
  match decoded with
  | JObj d => match dict_get d "refusals" with Some (JArr l) => Ok l | _ => Raise KeyError end
  | _ => Raise (TypeError "not subscriptable")
  end.
(** [except (ValueError, TypeError, AttributeError)] *)
Definition evidence_error (e : exc) : bool :=
  match e with ValueError _ | TypeError _ | AttributeError _ | RefusalProtocolError _ | UnicodeEncodeError => true | _ => false end.
(** [catalog_records] *)
Definition catalog_records (rec_limit : nat) (records : list Refusal) : res (list json) :=
  match map_res (catalog_record rec_limit) records with
  | Ok l => Ok (concat l)
  | Raise e => if evidence_error e then Raise (ValueError "Refusal evidence must use the codec catalog") else Raise e
  end.

(** Reading stored members *)
Definition text_of_json (v : json) : res pystr := match v with JStr s => Ok s | _ => Raise (TypeError "not text") end.
Definition opt_text_of_json (v : json) : res (option pystr) := match v with JNull => Ok None | JStr s => Ok (Some s) | _ => Raise (TypeError "not text") end.
Definition opt_int_of_json (v : json) : res (option Z) := match v with JNull => Ok None | JInt z => Ok (Some z) | _ => Raise (TypeError "not an integer") end.
Definition int_of_json (v : json) : res Z := match v with JInt z => Ok z | _ => Raise (TypeError "not an integer") end.
Definition list_of_json (v : json) : res (list json) := match v with JArr l => Ok l | _ => Raise (TypeError "not a list") end.
Definition dict_of_json (v : json) : res pydict := match v with JObj d => Ok d | _ => Raise (TypeError "not a mapping") end.
Definition member_of (d : pydict) (k : pystr) : res json := match dict_get d k with Some v => Ok v | None => Raise KeyError end.
Definition text_at (d : pydict) (k : pystr) : res pystr := v ← member_of d k; text_of_json v.
Definition opt_text_at (d : pydict) (k : pystr) : res (option pystr) := v ← member_of d k; opt_text_of_json v.
Definition opt_int_at (d : pydict) (k : pystr) : res (option Z) := v ← member_of d k; opt_int_of_json v.
Definition list_at (d : pydict) (k : pystr) : res (list json) := v ← member_of d k; list_of_json v.
(** [RowRef( **record )] *)
Definition row_of_json (v : json) : res RowRef :=
  d ← dict_of_json v;
  subject ← text_at d "subject"; key ← text_at d "key";
  _ ← guard_or (Nat.eqb (length d) 2) (TypeError "unexpected keyword argument");
  Ok {| rr_subject := subject; rr_key := key |}.
Definition row_at (d : pydict) (k : pystr) : res RowRef := v ← member_of d k; row_of_json v.

(** [_refusal_from_record] *)
Definition related_from_record (v : json) : res (option RelatedSite) :=
  match v with
  | JNull => Ok None
  | _ =>
      d ← dict_of_json v;
      family ← text_at d "family";
      raw ← member_of d "row";
      row ← match raw with JNull => Ok None | _ => r ← row_of_json raw; Ok (Some r) end;
      field ← opt_text_at d "field";
      Ok (Some {| rs_family := family; rs_row := row; rs_field := field |})
  end.
Definition refusal_from_record (v : json) : res Refusal :=
  d ← dict_of_json v;
  related ← member_of d "related"; related ← related_from_record related;
  family ← text_at d "family"; row ← row_at d "row"; field ← opt_text_at d "field"; reason ← text_at d "reason";
  message_id ← text_at d "message_id"; message ← text_at d "message";
  Ok {| r_family := family; r_row := row; r_field := field; r_reason := reason; r_message_id := message_id; r_message := message; r_related := related |}.

(** [validate_catalog_payload].  Python compares the mappings by value; objects here are ordered and the evidence is read back in the order it was
    written in, so the comparison is also of the order: a record with its members permuted, which nothing writes, would be refused *)
Definition record_is_canonical (rec_limit : nat) (v : json) : res bool :=
  r ← refusal_from_record v; l ← catalog_records rec_limit [r]; Ok (bool_decide (l = [v])).
Definition validate_catalog_payload (rec_limit : nat) (payload : list json) : res unit :=
  match map_res (record_is_canonical rec_limit) payload with
  | Ok oks => guard_or (forallb id oks) (ValueError "Refusal evidence must use the codec catalog")
  | Raise e => if evidence_error e || bool_decide (e = KeyError) then Raise (ValueError "Refusal evidence must use the codec catalog") else Raise e
  end.
(** [refusals_from_payload] *)
Definition refusals_from_payload (rec_limit : nat) (payload : list json) : res (list Refusal) :=
  _ ← validate_catalog_payload rec_limit payload; map_res refusal_from_record payload.

(** ** Logical rows *)

Definition join_json (j : option (pystr * Z)) : json := match j with Some (t, i) => JArr [JStr t; JInt i] | None => JNull end.
(** [source_record] *)
Definition source_record (s : SourceRef) : json :=
  JObj [("source_table", JStr (sr_table s)); ("frozen_row_identity", JArr (map JInt (sr_row_identity s))); ("content_identity", JStr (sr_content s));
        ("frozen_revision", opt_int (sr_revision s)); ("accepted_at", opt_str (sr_accepted_at s)); ("live_stamp_join", join_json (sr_live_join s))].
(** [logical_record] *)
Definition public_members (l : LogicalRow) : pydict := match public_record l with JObj d => d | _ => [] end.
Definition logical_record (l : LogicalRow) : json :=
  JObj (public_members l ++ [("sources", JArr (map source_record (lr_sources l))); ("carrier_content_identity", JStr (so_content (lr_carrier l)));
                             ("carrier_source_table", JStr (so_table (lr_carrier l)))]).

(** [datetime.fromisoformat(v) if v else None] *)
Definition stamp_of_json (v : json) : res (option pystr) :=
  match v with JNull => Ok None | JStr s => Ok (if py_truthy s then Some s else None) | _ => Raise (TypeError "not a timestamp") end.
Definition stamp_at (d : pydict) (k : pystr) : res (option pystr) := v ← member_of d k; stamp_of_json v.
Definition join_of_json (v : json) : res (option (pystr * Z)) :=
  match v with JNull | JArr [] => Ok None | JArr [JStr t; JInt i] => Ok (Some (t, i)) | _ => Raise (TypeError "not a stamp join") end.
(** [_source_from_record] *)
Definition source_from_record (v : json) : res SourceRef :=
  d ← dict_of_json v;
  table ← text_at d "source_table"; raw ← list_at d "frozen_row_identity"; identity ← map_res int_of_json raw;
  content ← text_at d "content_identity"; revision ← opt_int_at d "frozen_revision"; accepted ← stamp_at d "accepted_at";
  raw ← member_of d "live_stamp_join"; join ← join_of_json raw;
  Ok (mkSource table identity content revision accepted join).
(** [logical_from_record] *)
Definition owner_from_record (d carrier : pydict) : res SettlementOwner :=
  stream ← text_at carrier "stream"; table ← text_at d "carrier_source_table"; row ← row_at carrier "row";
  push ← opt_int_at carrier "source_push_seq"; revision ← opt_int_at carrier "frozen_revision"; accepted ← stamp_at carrier "accepted_at";
  generation ← opt_int_at carrier "generation_id"; cohort ← opt_int_at carrier "settlement_cohort"; content ← text_at d "carrier_content_identity";
  Ok (mkOwner stream table row push revision accepted generation cohort content).
Definition logical_from_record (v : json) : res LogicalRow :=
  d ← dict_of_json v;
  raw ← member_of d "carrier"; carrier ← dict_of_json raw;
  raw ← list_at d "sources"; sources ← map_res source_from_record raw;
  owner ← owner_from_record d carrier;
  stream ← text_at d "stream"; row ← row_at d "row"; push ← opt_int_at d "source_push_seq"; revision ← opt_int_at d "frozen_revision";
  acceptance ← opt_text_at d "acceptance_identity"; generation ← opt_int_at d "generation_id"; cohort ← opt_int_at d "settlement_cohort";
  Ok (mkLogical stream row sources push revision acceptance generation cohort owner).

(** ** Origin indexes *)

Definition provenance_name (p : Provenance) : pystr := match p with Current => "current" | Retained => "retained" | Prior => "prior" end.
Definition provenance_of (s : pystr) : res Provenance :=
  match dict_get [("current", Current); ("retained", Retained); ("prior", Prior)] s with Some p => Ok p | None => Raise (TypeError "not a provenance") end.
Definition reason_name (r : FailureReason) : pystr :=
  match r with
  | missing_binding => "missing_binding" | mixed_stream => "mixed_stream" | missing_baseline_provenance => "missing_baseline_provenance"
  | missing_removal_provenance => "missing_removal_provenance" | missing_natural_key => "missing_natural_key"
  | invalid_source_identity => "invalid_source_identity"
  end.
Definition reason_of (s : pystr) : res FailureReason :=
  match dict_get (map (fun r => (reason_name r, r)) [missing_binding; mixed_stream; missing_baseline_provenance; missing_removal_provenance; missing_natural_key; invalid_source_identity]) s
  with Some r => Ok r | None => Raise (TypeError "not a reason") end.

Definition authority_record (a : option RemovalAuthority) : json :=
  match a with
  | None => JNull
  | Some a => JObj [("generation_id", JInt (ra_generation a)); ("stream", JStr (ra_stream a)); ("frozen_revision", JInt (ra_revision a));
                    ("operation", JStr (ra_operation a)); ("row", row_record (ra_row a)); ("fields", JArr (map JStr (ra_fields a)))]
  end.
Definition key_members (k : OriginKey) : pydict := [("family", JStr (ok_family k)); ("row", row_record (ok_row k)); ("field", opt_str (ok_field k))].
Definition binding_record (kb : OriginKey * OriginBinding) : json :=
  let b := kb.2 in
  JObj (key_members kb.1 ++
        [("stream", JStr (ob_stream b)); ("construct", JStr (ob_construct b)); ("provenance", JStr (provenance_name (ob_provenance b)));
         ("sources", JArr (map source_record (ob_sources b))); ("logical_rows", JArr (map logical_record (ob_rows b)));
         ("baseline_attempt_id", opt_int (ob_baseline_attempt b)); ("entry_fingerprint", opt_str (ob_fingerprint b));
         ("authority", authority_record (ob_authority b))]).
Definition unsupported_record (kr : OriginKey * FailureReason) : json :=
  JObj (key_members kr.1 ++ [("unsupported_reason", JStr (reason_name kr.2)); ("logical_rows", JArr [])]).
Definition subject_record (sr : pystr * FailureReason) : json :=
  JObj [("subject", JStr sr.1); ("unsupported_reason", JStr (reason_name sr.2)); ("logical_rows", JArr [])].
(** [origin_records] *)
Definition origin_records (i : OriginIndex) : list json :=
  map binding_record (oi_bindings i) ++ map unsupported_record (oi_unsupported i) ++ map subject_record (oi_unsupported_subjects i).

Definition authority_from_record (v : json) : res (option RemovalAuthority) :=
  match v with
  | JNull => Ok None
  | _ =>
      d ← dict_of_json v;
      g ← member_of d "generation_id"; generation ← int_of_json g; stream ← text_at d "stream"; r ← member_of d "frozen_revision"; revision ← int_of_json r;
      operation ← text_at d "operation"; row ← row_at d "row"; raw ← list_at d "fields"; fields ← map_res text_of_json raw;
      Ok (Some (mkAuthority generation stream revision operation row fields))
  end.
Definition binding_from_record (d : pydict) : res OriginBinding :=
  authority ← authority_from_record (get d "authority");
  stream ← text_at d "stream"; raw ← list_at d "sources"; sources ← map_res source_from_record raw; construct ← text_at d "construct";
  p ← text_at d "provenance"; provenance ← provenance_of p;
  raw ← list_at d "logical_rows"; rows ← map_res logical_from_record raw;
  baseline ← opt_int_of_json (get d "baseline_attempt_id"); fingerprint ← opt_text_of_json (get d "entry_fingerprint");
  Ok (mkBinding stream sources construct provenance rows baseline fingerprint authority).
Definition key_from_record (d : pydict) : res OriginKey :=
  family ← text_at d "family"; row ← row_at d "row"; field ← opt_text_at d "field"; Ok (mkKey family row field).
(** One record of [origins_from_records] *)
Definition add_record (i : OriginIndex) (v : json) : res OriginIndex :=
  d ← dict_of_json v;
  if dict_mem d "family" then
    key ← key_from_record d;
    if dict_mem d "unsupported_reason" then
      r ← text_at d "unsupported_reason"; reason ← reason_of r;
      Ok (mkIndex (oi_bindings i) (dict_set (oi_unsupported i) key reason) (oi_retained i) (oi_omitted i) (oi_unsupported_subjects i))
    else
      b ← binding_from_record d;
      Ok (mkIndex (dict_set (oi_bindings i) key b) (oi_unsupported i) (oi_retained i) (oi_omitted i) (oi_unsupported_subjects i))
  else
    subject ← text_at d "subject"; r ← text_at d "unsupported_reason"; reason ← reason_of r;
    Ok (mkIndex (oi_bindings i) (oi_unsupported i) (oi_retained i) (oi_omitted i) (dict_set (oi_unsupported_subjects i) subject reason)).
(** [origins_from_records] *)
Fixpoint add_records (records : list json) (i : OriginIndex) : res OriginIndex :=
  match records with [] => Ok i | v :: records => i ← add_record i v; add_records records i end.
Definition origins_from_records (records : list json) : res OriginIndex := add_records records empty_index.

(** [attributed_catalog_records] *)
Definition attributed_record (rec_limit : nat) (i : OriginIndex) (phase : pystr) (a : AttributedRefusal) : res json :=
  l ← catalog_records rec_limit [ar_refusal a];
  match l with
  | JObj d :: _ =>
      b ← match dict_get (oi_bindings i) (refusal_key (ar_refusal a)) with Some b => Ok b | None => Raise KeyError end;
      Ok (JObj (fold_left (fun d kv => dict_set d kv.1 kv.2)
            [("logical_rows", JArr (map public_record (ar_rows a))); ("provenance", JStr (provenance_name (ob_provenance b))); ("sender_phase", JStr phase)] d))
  | _ => Raise (TypeError "not a mapping")
  end.
Definition attributed_catalog_records (rec_limit : nat) (attributed : list AttributedRefusal) (i : OriginIndex) (phase : pystr) : res (list json) :=
  map_res (attributed_record rec_limit i phase) attributed.

(** ** Recorded evidence reads back

    Every catalog refusal is recorded as its canonical record and read back as itself, and an origin index survives its recorded
    form, so attribution made from stored evidence is attribution made from the encoding. *)


Lemma map_res_inverse {A B} (f : B -> res A) (g : A -> B) (P : A -> Prop) l : (∀ x, P x → f (g x) = Ok x) → Forall P l → map_res f (map g l) = Ok l.
Proof. intros H. induction 1 as [|x l Hx _ IH]; [done|]. cbn [map map_res]. by rewrite H, IH. Qed.

(** ** Refusals *)

Lemma ordered_one r : valid_refusal r → ordered [r] = Ok [r].
Proof. intros H. apply ordered_Ok. split_and!; [done|by constructor|apply NoDup_singleton|done]. Qed.
Lemma dict_hook_distinct l : NoDup (dict_keys l) → dict_hook l = Ok (JObj l).
Proof. intros H. unfold dict_hook. by rewrite dict_of_distinct. Qed.

Lemma catalog_one rec_limit r : valid_refusal r → (5 <= rec_limit)%nat → catalog_record rec_limit r = Ok [record r].
Proof.
  intros Hr Hl. pose proof (ordered_one r Hr) as Ho. unfold catalog_record.
  rewrite (proj2 (render_refusals_Ok [r] (render [r]))) by eauto. cbn [mbind res_bind]. rewrite parse_render by done. cbn [mbind res_bind].
  rewrite render_drop. assert (Forall valid_refusal [r]) as Hv by by constructor. unfold RefusalProtocol.dump.
  rewrite (loads_dumps dict_hook JSONDecodeError dict_hook_distinct); [|by apply json_clean_plain, message_clean_json|pose proof (message_depth _ Hv); lia].
  reflexivity.
Qed.
Lemma catalog_all rec_limit rs : Forall valid_refusal rs → (5 <= rec_limit)%nat → catalog_records rec_limit rs = Ok (map record rs).
Proof.
  intros Hr Hl. unfold catalog_records. assert (map_res (catalog_record rec_limit) rs = Ok (map (fun r => [record r]) rs)) as ->.
  { induction Hr as [|r rs Hr _ IH]; [done|]. cbn [map map_res]. by rewrite (catalog_one _ _ Hr Hl), IH. }
  f_equal. induction rs as [|r rs IH]; [done|]. cbn [map concat app]. inversion Hr; subst. by rewrite IH.
Qed.
Lemma refusal_round_trip r : refusal_from_record (record r) = Ok r.
Proof.
  destruct r as [fam [subj key] field reason mid msg related].
  destruct field, related as [[rf [[rsub rk]|] [rfield|]]|]; vm_compute; reflexivity.
Qed.
Lemma payload_round_trip rec_limit rs : Forall valid_refusal rs → (5 <= rec_limit)%nat → refusals_from_payload rec_limit (map record rs) = Ok rs.
Proof.
  intros Hr Hl. unfold refusals_from_payload, validate_catalog_payload.
  assert (map_res (record_is_canonical rec_limit) (map record rs) = Ok (map (fun _ => true) rs)) as ->.
  { induction Hr as [|r rs Hr _ IH]; [done|]. cbn [map map_res]. rewrite IH. unfold record_is_canonical. rewrite refusal_round_trip. cbn [mbind res_bind].
    rewrite (catalog_all rec_limit [r]) by (try done; by constructor). cbn [mbind res_bind map]. by rewrite bool_decide_eq_true_2. }
  assert (forallb id (map (fun _ => true) rs) = true) as -> by (clear; induction rs; done). cbn [mbind res_bind guard_or].
  apply (map_res_inverse _ _ (fun _ => True)); [intros; apply refusal_round_trip|by apply Forall_true].
Qed.

(** ** Logical rows *)

Definition stamped (t : option pystr) : Prop := match t with Some s => py_truthy s = true | None => True end.
Definition source_stamped (s : SourceRef) : Prop := stamped (sr_accepted_at s).
Definition logical_stamped (l : LogicalRow) : Prop := stamped (so_accepted_at (lr_carrier l)) ∧ Forall source_stamped (lr_sources l).

Lemma stamp_round_trip t : stamped t → stamp_of_json (opt_str t) = Ok t.
Proof. destruct t as [s|]; [|done]. simpl. by intros ->. Qed.
Lemma opt_int_round_trip z : opt_int_of_json (opt_int z) = Ok z.
Proof. by destruct z. Qed.
Lemma opt_text_round_trip t : opt_text_of_json (opt_str t) = Ok t.
Proof. by destruct t. Qed.
Lemma ints_round_trip l : map_res int_of_json (map JInt l) = Ok l.
Proof. apply (map_res_inverse _ _ (fun _ => True)); [done|by apply Forall_true]. Qed.
Lemma texts_round_trip l : map_res text_of_json (map JStr l) = Ok l.
Proof. apply (map_res_inverse _ _ (fun _ => True)); [done|by apply Forall_true]. Qed.
Lemma row_round_trip r : row_of_json (row_record r) = Ok r.
Proof. by destruct r. Qed.
Lemma join_round_trip j : join_of_json (join_json j) = Ok j.
Proof. by destruct j as [[]|]. Qed.

Lemma source_round_trip s : source_stamped s → source_from_record (source_record s) = Ok s.
Proof.
  destruct s as [table identity content revision accepted join]. intros Hs. unfold source_stamped in Hs. cbn [sr_accepted_at] in Hs.
  change (source_from_record (source_record (mkSource table identity content revision accepted join))) with
    (identity ← map_res int_of_json (map JInt identity); revision ← opt_int_of_json (opt_int revision); accepted ← stamp_of_json (opt_str accepted);
     join ← join_of_json (join_json join); Ok (mkSource table identity content revision accepted join)).
  rewrite ints_round_trip, opt_int_round_trip, (stamp_round_trip _ Hs), join_round_trip. reflexivity.
Qed.
Lemma sources_round_trip l : Forall source_stamped l → map_res source_from_record (map source_record l) = Ok l.
Proof. apply map_res_inverse. exact source_round_trip. Qed.

Lemma logical_round_trip l : logical_stamped l → logical_from_record (logical_record l) = Ok l.
Proof.
  destruct l as [stream row sources push revision acceptance generation cohort [cstream ctable crow cpush crevision caccepted cgeneration ccohort ccontent]].
  intros [Hc Hs]. cbn [lr_carrier lr_sources so_accepted_at] in Hc, Hs.
  match goal with |- logical_from_record (logical_record ?l) = _ => change (logical_from_record (logical_record l)) with
    (sources ← map_res source_from_record (map source_record sources);
     owner ← (crow ← row_of_json (row_record crow); cpush ← opt_int_of_json (opt_int cpush); crevision ← opt_int_of_json (opt_int crevision);
              caccepted ← stamp_of_json (opt_str caccepted); cgeneration ← opt_int_of_json (opt_int cgeneration); ccohort ← opt_int_of_json (opt_int ccohort);
              Ok (mkOwner cstream ctable crow cpush crevision caccepted cgeneration ccohort ccontent));
     row ← row_of_json (row_record row); push ← opt_int_of_json (opt_int push); revision ← opt_int_of_json (opt_int revision);
     acceptance ← opt_text_of_json (opt_str acceptance); generation ← opt_int_of_json (opt_int generation); cohort ← opt_int_of_json (opt_int cohort);
     Ok (mkLogical stream row sources push revision acceptance generation cohort owner)) end.
  by rewrite (sources_round_trip _ Hs), !row_round_trip, !opt_int_round_trip, (stamp_round_trip _ Hc), opt_text_round_trip.
Qed.
Lemma logicals_round_trip l : Forall logical_stamped l → map_res logical_from_record (map logical_record l) = Ok l.
Proof. apply map_res_inverse. exact logical_round_trip. Qed.

(** ** Origin indexes *)

Definition binding_stamped (b : OriginBinding) : Prop := Forall source_stamped (ob_sources b) ∧ Forall logical_stamped (ob_rows b).

Lemma authority_round_trip a : authority_from_record (authority_record a) = Ok a.
Proof.
  destruct a as [[g stream revision operation row fields]|]; [|done].
  match goal with |- authority_from_record (authority_record ?a) = _ => change (authority_from_record (authority_record a)) with
    (row ← row_of_json (row_record row); fields ← map_res text_of_json (map JStr fields); Ok (Some (mkAuthority g stream revision operation row fields))) end.
  by rewrite row_round_trip, texts_round_trip.
Qed.
Lemma provenance_round_trip p : provenance_of (provenance_name p) = Ok p.
Proof. by destruct p. Qed.
Lemma reason_round_trip r : reason_of (reason_name r) = Ok r.
Proof. by destruct r. Qed.
Lemma key_round_trip k rest : key_from_record (key_members k ++ rest) = Ok k.
Proof.
  destruct k as [family row field].
  change (key_from_record (key_members (mkKey family row field) ++ rest)) with
    (row ← row_of_json (row_record row); field ← opt_text_of_json (opt_str field); Ok (mkKey family row field)).
  by rewrite row_round_trip, opt_text_round_trip.
Qed.
Lemma binding_round_trip k b : binding_stamped b →
  binding_from_record (match binding_record (k, b) with JObj d => d | _ => [] end) = Ok b.
Proof.
  destruct b as [stream sources construct provenance rows baseline fingerprint authority]. intros [Hs Hr]. cbn [ob_sources ob_rows] in Hs, Hr.
  match goal with |- ?t = _ => change t with
    (authority ← authority_from_record (authority_record authority); sources ← map_res source_from_record (map source_record sources);
     provenance ← provenance_of (provenance_name provenance); rows ← map_res logical_from_record (map logical_record rows);
     baseline ← opt_int_of_json (opt_int baseline); fingerprint ← opt_text_of_json (opt_str fingerprint);
     Ok (mkBinding stream sources construct provenance rows baseline fingerprint authority)) end.
  by rewrite authority_round_trip, (sources_round_trip _ Hs), provenance_round_trip, (logicals_round_trip _ Hr), opt_int_round_trip, opt_text_round_trip.
Qed.

Lemma add_binding i k b : binding_stamped b →
  add_record i (binding_record (k, b)) = Ok (mkIndex (dict_set (oi_bindings i) k b) (oi_unsupported i) (oi_retained i) (oi_omitted i) (oi_unsupported_subjects i)).
Proof.
  intros Hb. change (add_record i (binding_record (k, b))) with
    (key ← key_from_record (match binding_record (k, b) with JObj d => d | _ => [] end);
     b ← binding_from_record (match binding_record (k, b) with JObj d => d | _ => [] end);
     Ok (mkIndex (dict_set (oi_bindings i) key b) (oi_unsupported i) (oi_retained i) (oi_omitted i) (oi_unsupported_subjects i))).
  rewrite (binding_round_trip _ _ Hb). cbn [binding_record]. by rewrite key_round_trip.
Qed.
Lemma add_unsupported i k r :
  add_record i (unsupported_record (k, r)) = Ok (mkIndex (oi_bindings i) (dict_set (oi_unsupported i) k r) (oi_retained i) (oi_omitted i) (oi_unsupported_subjects i)).
Proof.
  change (add_record i (unsupported_record (k, r))) with
    (key ← key_from_record (match unsupported_record (k, r) with JObj d => d | _ => [] end); reason ← reason_of (reason_name r);
     Ok (mkIndex (oi_bindings i) (dict_set (oi_unsupported i) key reason) (oi_retained i) (oi_omitted i) (oi_unsupported_subjects i))).
  cbn [unsupported_record]. by rewrite key_round_trip, reason_round_trip.
Qed.
Lemma add_subject i s r :
  add_record i (subject_record (s, r)) = Ok (mkIndex (oi_bindings i) (oi_unsupported i) (oi_retained i) (oi_omitted i) (dict_set (oi_unsupported_subjects i) s r)).
Proof.
  change (add_record i (subject_record (s, r))) with
    (reason ← reason_of (reason_name r);
     Ok (mkIndex (oi_bindings i) (oi_unsupported i) (oi_retained i) (oi_omitted i) (dict_set (oi_unsupported_subjects i) s reason))).
  by rewrite reason_round_trip.
Qed.

Lemma add_records_app a b i : add_records (a ++ b) i = (i ← add_records a i; add_records b i).
Proof. revert i. induction a as [|v a IH]; intros i; [done|]. cbn [app add_records]. destruct (add_record i v); [apply IH|done]. Qed.
Lemma add_bindings l i : Forall (fun kb => binding_stamped kb.2) l →
  add_records (map binding_record l) i =
    Ok (mkIndex (update_dict (oi_bindings i) l) (oi_unsupported i) (oi_retained i) (oi_omitted i) (oi_unsupported_subjects i)).
Proof.
  intros H. revert i. induction H as [|[k b] l Hb _ IH]; intros i; [by destruct i|]. cbn [map add_records]. rewrite add_binding by done. cbn [mbind res_bind].
  by rewrite IH.
Qed.
Lemma add_unsupporteds l i :
  add_records (map unsupported_record l) i =
    Ok (mkIndex (oi_bindings i) (update_dict (oi_unsupported i) l) (oi_retained i) (oi_omitted i) (oi_unsupported_subjects i)).
Proof.
  revert i. induction l as [|[k r] l IH]; intros i; [by destruct i|]. cbn [map add_records]. rewrite add_unsupported. cbn [mbind res_bind]. by rewrite IH.
Qed.
Lemma add_subjects l i :
  add_records (map subject_record l) i =
    Ok (mkIndex (oi_bindings i) (oi_unsupported i) (oi_retained i) (oi_omitted i) (update_dict (oi_unsupported_subjects i) l)).
Proof.
  revert i. induction l as [|[k r] l IH]; intros i; [by destruct i|]. cbn [map add_records]. rewrite add_subject. cbn [mbind res_bind]. by rewrite IH.
Qed.

(** An index whose keys are distinct and whose stamps are real timestamps *)
Record recordable (i : OriginIndex) : Prop := {
  rec_keys : NoDup (index_keys i);
  rec_subjects : NoDup (dict_keys (oi_unsupported_subjects i));
  rec_stamped : Forall (fun kb => binding_stamped kb.2) (oi_bindings i) }.

Lemma update_empty {K V} `{EqDecision K} (l : list (K * V)) : NoDup (dict_keys l) → update_dict [] l = l.
Proof. intros H. rewrite update_disjoint; [done|done|]. by intros k _ ?%elem_of_nil. Qed.

Lemma origins_read_back i : recordable i →
  origins_from_records (origin_records i) = Ok (mkIndex (oi_bindings i) (oi_unsupported i) [] [] (oi_unsupported_subjects i)).
Proof.
  intros [Hk Hs Hb]. unfold origins_from_records, origin_records. unfold index_keys in Hk. apply NoDup_app in Hk as (Hk1 & _ & Hk2).
  rewrite add_records_app, add_bindings by done. cbn [mbind res_bind]. rewrite add_records_app, add_unsupporteds. cbn [mbind res_bind]. rewrite add_subjects.
  cbn [oi_bindings oi_unsupported oi_retained oi_omitted oi_unsupported_subjects empty_index]. by rewrite !update_empty.
Qed.

(** Attribution reads the bindings and the unsupported sites only *)
Lemma resolve_ignores_history rs i :
  resolve_refusals rs (mkIndex (oi_bindings i) (oi_unsupported i) [] [] (oi_unsupported_subjects i)) = resolve_refusals rs i.
Proof.
  induction rs as [|r rs IH]; [done|]. cbn [resolve_refusals].
  change (resolve_one (mkIndex (oi_bindings i) (oi_unsupported i) [] [] (oi_unsupported_subjects i)) r) with (resolve_one i r). by rewrite IH.
Qed.

(** C16: What a worker attributes after a restart, from the stored origins and the stored refusal records alone, is what it would have
    attributed from the encoding and NSO's answer themselves. *)
Theorem stored_evidence_attributes_alike rec_limit i rs : recordable i → Forall valid_refusal rs → (5 <= rec_limit)%nat →
  (payload ← catalog_records rec_limit rs; records ← refusals_from_payload rec_limit payload; stored ← origins_from_records (origin_records i);
   Ok (resolve_refusals records stored)) = Ok (resolve_refusals rs i).
Proof.
  intros Hi Hr Hl. rewrite catalog_all by done. cbn [mbind res_bind]. rewrite payload_round_trip by done. cbn [mbind res_bind].
  rewrite (origins_read_back _ Hi). cbn [mbind res_bind]. by rewrite resolve_ignores_history.
Qed.
