(* ===== verification/Bookkeeping.v ===== *)
(** * Bookkeeping snapshots and live content fences

    src/nso_adapter/store/execution_bookkeeping.py, the whole module: what a worker reads of the live rows a document sends before
    it sends it, and the fenced writes that restore or stamp those rows afterwards.  The database is the store of [Store] with the
    intent rows by table and primary key, the interface inventory and the attribute states; a lock is a read, since every write
    of a transaction runs under the locks it took.  A timestamp is its ISO text. *)

From stdpp Require Import base list gmap.
From Stdlib Require Import ZArith NArith Lia.
From S2P Require Import Prelude Json Sha256 RefusalProtocol Registry Document Asn Identity Store StaticPlan InterfaceProof Hydrate Origins.
Local Open Scope py_scope.
Local Open Scope Z_scope.

(** ** State *)

(** [SyncState] *)
Inductive SyncState := st_imported | st_changed | st_error | st_unknown | st_accepted | st_deploying | st_in_sync | st_apply_failed | st_drifted.
#[global] Instance SyncState_eq_dec : EqDecision SyncState. Proof. solve_decision. Defined.
(** [InterfaceAttrState], filed under its unique interface and attribute *)
Record AttrState := mkAttr {
  as_id : Z; as_nso_value : option pystr; as_netbox_value : option pystr; as_sync : SyncState; as_checked_at : option pystr }.
#[global] Instance AttrState_eq_dec : EqDecision AttrState. Proof. solve_decision. Defined.
Definition set_sync (s : SyncState) (a : AttrState) : AttrState :=
  mkAttr (as_id a) (as_nso_value a) (as_netbox_value a) s (as_checked_at a).

Record Live := mkLive { lv_db : Db; lv_rows : gmap (pystr * Z) pydict; lv_interfaces : gmap Z pydict; lv_attributes : gmap (Z * pystr) AttrState }.
Definition with_rows (m : gmap (pystr * Z) pydict) (l : Live) : Live := mkLive (lv_db l) m (lv_interfaces l) (lv_attributes l).
Definition with_attributes (m : gmap (Z * pystr) AttrState) (l : Live) : Live := mkLive (lv_db l) (lv_rows l) (lv_interfaces l) m.

(** ** Content *)

(** [intent_state] and its digest *)
Definition intent_state (table : pystr) (row : pydict) : res pydict :=
  d ← row_dict table row; Ok (List.filter (fun kv => negb (mem kv.1 APPLY_BOOKKEEPING_COLUMNS)) d).
Definition content_of (table : pystr) (row : pydict) : res pystr := d ← intent_state table row; Ok (content_digest (JObj d)).

(** [_parent_column] *)
Definition parent_column (s : Spec) : res pystr :=
  match sp_parent s with
  | None => Raise (AttributeError "no parent")
  | Some p =>
      match List.filter (fun fk => bool_decide (fk.2 = parent_table p)) (default [] (tbl_fks <$> table_of (sp_model s))) with
      | [fk] => Ok fk.1
      | _ => Raise (ValueError "Bookkeeping content fence requires one parent join")
      end
  end.

(** The frozen rows of a document, by table and primary key *)
Definition frozen_rows : Type := list ((pystr * json) * pydict).
Definition frozen_of (h : hydrated) : list ((pystr * json) * pydict) :=
  flat_map (fun tl => map (fun r => ((hr_table r, attr r "id"), hr_cols r)) tl.2) h.

Definition id_le (a b : (pystr * json) * pydict) : bool := match a.1.2, b.1.2 with JInt x, JInt y => x <=? y | _, _ => true end.
(** [_frozen_children] at one key *)
Definition frozen_children (frozen : frozen_rows) (table column : pystr) (parent : json) : frozen_rows :=
  stable_sort id_le (List.filter (fun kr => bool_decide (kr.1.1 = table) && bool_decide (get kr.2 column = parent)) frozen).

(** The content tree of a row *)
Inductive tree := Tree (tr_table : pystr) (tr_id : Z) (tr_content : pystr) (tr_children : list (pystr * pystr * list tree)).
Definition tr_table (t : tree) : pystr := let 'Tree x _ _ _ := t in x.
Definition tr_id (t : tree) : Z := let 'Tree _ x _ _ := t in x.
Definition tr_content (t : tree) : pystr := let 'Tree _ _ x _ := t in x.
Definition tr_children (t : tree) : list (pystr * pystr * list tree) := let 'Tree _ _ _ x := t in x.

(** [==] of two trees *)
Fixpoint tree_eqb (a b : tree) {struct a} : bool :=
  match a, b with
  | Tree t i c k, Tree t' i' c' k' =>
      bool_decide (t = t') && bool_decide (i = i') && bool_decide (c = c') &&
      (fix groups (k k' : list (pystr * pystr * list tree)) {struct k} : bool :=
         match k, k' with
         | [], [] => true
         | (x, y, ts) :: k, (x', y', ts') :: k' =>
             bool_decide (x = x') && bool_decide (y = y') &&
             (fix rows (ts ts' : list tree) {struct ts} : bool :=
                match ts, ts' with [], [] => true | t :: ts, t' :: ts' => tree_eqb t t' && rows ts ts' | _, _ => false end) ts ts' &&
             groups k k'
         | _, _ => false
         end) k k'
  end.

(** The specs whose parent is the model of a table *)
Definition child_specs (table : pystr) : list Spec :=
  match dict_get spec_by_table table with
  | Some s => List.filter (fun c => bool_decide (sp_parent c = Some (sp_model s))) (map snd spec_by_model)
  | None => []
  end.
(** [_tree]; [fuel] bounds the chain of child tables *)
Fixpoint tree_of (fuel : nat) (frozen : frozen_rows) (table : pystr) (row : pydict) : res tree :=
  match fuel with
  | O => Raise RecursionError
  | S fuel =>
      children ← map_res (fun s => column ← parent_column s;
                                   rows ← map_res (fun kr => tree_of fuel frozen kr.1.1 kr.2)
                                            (frozen_children frozen (tablename (sp_model s)) column (get row "id"));
                                   Ok (tablename (sp_model s), column, rows)) (child_specs table);
      id ← int_item (get row "id");
      content ← content_of table row;
      Ok (Tree table id content children)
  end.
Definition tree_fuel : nat := length spec_by_model.

(** The interface an attribute is encoded against *)
Record InterfaceContext := mkInterfaceContext { ic_id : Z; ic_columns : list pystr; ic_content : pystr }.
Record Fence := mkFence { fc_tree : tree; fc_interface : option InterfaceContext }.

(** ** Fenced reads *)

Definition columns_digest (row : pydict) (columns : list pystr) : pystr := content_digest (JObj (map (fun c => (c, get row c)) columns)).
Definition interface_matches (l : Live) (context : option InterfaceContext) : bool :=
  match context with
  | None => true
  | Some c =>
      match lv_interfaces l !! ic_id c with
      | None => false
      | Some row => bool_decide (columns_digest row (ic_columns c) = ic_content c)
      end
  end.
(** The ids of the rows of [table] whose [column] is [parent], in order *)
Definition is_child (table column : pystr) (parent : Z) (kr : (pystr * Z) * pydict) : Prop := kr.1.1 = table ∧ get kr.2 column = JInt parent.
#[global] Instance is_child_dec table column parent kr : Decision (is_child table column parent kr).
Proof. unfold is_child. solve_decision. Defined.
Definition live_children (rows : gmap (pystr * Z) pydict) (table column : pystr) (parent : Z) : list Z :=
  stable_sort Z.leb (map snd (elements (dom (filter (is_child table column parent) rows)))).

(** Every check of [_lock_tree] below the interface context *)
Fixpoint tree_matches (rows : gmap (pystr * Z) pydict) (t : tree) : res bool :=
  match t with
  | Tree table id content children =>
      match rows !! (table, id) with
      | None => Ok false
      | Some row =>
          d ← content_of table row;
          if bool_decide (d = content) then
            (fix groups (gs : list (pystr * pystr * list tree)) : res bool := match gs with
             | [] => Ok true
             | (child, column, ts) :: gs =>
                 if bool_decide (live_children rows child column id = map tr_id ts) then
                   b ← (fix all (ts : list tree) : res bool := match ts with
                        | [] => Ok true
                        | t :: ts => b ← tree_matches rows t; if b : bool then all ts else Ok false
                        end) ts;
                   if b : bool then groups gs else Ok false
                 else Ok false
             end) children
          else Ok false
      end
  end.
(** [_lock_tree] *)
Definition lock_tree (l : Live) (f : Fence) : res (option pydict) :=
  if interface_matches l (fc_interface f) then
    b ← tree_matches (lv_rows l) (fc_tree f); Ok (if b : bool then lv_rows l !! (tr_table (fc_tree f), tr_id (fc_tree f)) else None)
  else Ok None.

(** [_lock_attribute] *)
Definition lock_attribute (l : Live) (row : pydict) : option ((Z * pystr) * AttrState) :=
  match get row "interface_id", get row "attribute" with
  | JInt i, JStr a => (fun s => ((i, a), s)) <$> lv_attributes l !! (i, a)
  | _, _ => None
  end.

(** [_attribute_observation] *)
Record Observation := mkObservation { ob_sync : SyncState; ob_checked_at : option pystr; ob_nso : pystr; ob_netbox : pystr }.
#[global] Instance Observation_eq_dec : EqDecision Observation. Proof. solve_decision. Defined.
Definition attribute_observation (a : AttrState) : Observation :=
  mkObservation (as_sync a) (as_checked_at a) (content_digest (opt_str (as_nso_value a))) (content_digest (opt_str (as_netbox_value a))).

(** [_bookkeeping] *)
Definition bookkeeping (table : pystr) (row : pydict) : pydict :=
  map (fun k => (k, get row k)) (List.filter (fun k => mem k (map col_name (table_columns table))) ["last_apply_at"; "last_apply_error"]).

(** ** Snapshots *)

Record Contributor := mkContributor { ct_stream : pystr; ct_row : RowRef; ct_cohort : option Z }.
#[global] Instance Contributor_eq_dec : EqDecision Contributor. Proof. solve_decision. Defined.
Record SnapAttribute := mkSnapAttribute { sa_id : Z; sa_prior : SyncState; sa_expected : Observation }.
Record BookSnapshot := mkBook {
  bs_stream : pystr; bs_revision : Z; bs_writer_context : pystr; bs_fence : Fence; bs_expected : pydict; bs_attribute : option SnapAttribute;
  bs_contributors : list Contributor }.

(** [_authorized] *)
Definition authorized (l : Live) (device_id : Z) (stream : pystr) (revision : Z) (certified : option BookSnapshot) : res bool :=
  match streams (lv_db l) !! (device_id, stream) with
  | None => Ok false
  | Some current =>
      if s_authorized current =? revision then Ok true
      else
        match certified, s_authorized_document current with
        | Some snapshot, Some body =>
            section ← stream_section stream;
            let document := [(section, JObj body)] in
            context ← section_context document section;
            if bool_decide (content_digest (JObj context) = bs_writer_context snapshot) then
              h ← hydrate_section document section;
              let frozen := dict_of_pairs (frozen_of h) in
              let t := fc_tree (bs_fence snapshot) in
              match dict_get frozen (tr_table t, JInt (tr_id t)) with
              | None => Ok false
              | Some original => current_tree ← tree_of tree_fuel frozen (tr_table t) original; Ok (tree_eqb current_tree t)
              end
            else Ok false
        | _, _ => Ok false
        end
  end.

Definition Target : Type := (pystr * Z) * pystr * option Z.
(** The stamp joins of the sources that carry a settlement owner's content *)
Definition binding_sources (i : OriginIndex) : list SourceRef := flat_map (fun kb => ob_sources kb.2) (oi_bindings i).
Definition carrier_joins (i : OriginIndex) (o : SettlementOwner) : list (pystr * Z) :=
  omap sr_live_join (List.filter (fun s => bool_decide (sr_table s = so_table o) && bool_decide (sr_content s = so_content o)) (binding_sources i)).
Definition source_joins (l : LogicalRow) : list (pystr * Z) := omap sr_live_join (lr_sources l).
(** [_snapshot_indexes]: the targets, and the contributors of one *)
Definition row_targets (i : OriginIndex) (l : LogicalRow) : list Target :=
  map (fun j => (j, lr_stream l, lr_revision l)) (source_joins l) ++
  map (fun j => (j, so_stream (lr_carrier l), so_revision (lr_carrier l))) (carrier_joins i (lr_carrier l)).
Definition target_set (i : OriginIndex) (ls : list LogicalRow) : list Target := remove_dups (flat_map (row_targets i) ls).
Definition contributor (l : LogicalRow) : Contributor := mkContributor (lr_stream l) (lr_row l) (lr_cohort l).
Definition contributors_of (i : OriginIndex) (ls : list LogicalRow) (t : Target) : list Contributor :=
  map contributor (List.filter (fun l => bool_decide (t.1.2 = lr_stream l) && bool_decide (t.2 = lr_revision l) &&
                                         bool_decide (t.1.1 ∈ source_joins l ++ carrier_joins i (lr_carrier l))) ls).

(** [sorted(targets)]: tuples compare member by member, and a missing revision does not compare with a number *)
Definition opt_le (a b : option Z) : bool := match a, b with Some x, Some y => x <=? y | _, _ => true end.
Definition target_le (a b : Target) : bool :=
  let '(ta, ia, sa, ra) := a in let '(tb, ib, sb, rb) := b in
  py_ltb ta tb || bool_decide (ta = tb) && ((ia <? ib) || (ia =? ib) && (py_ltb sa sb || bool_decide (sa = sb) && opt_le ra rb)).
Definition incomparable (a b : Target) : bool := bool_decide (a.1 = b.1) && negb (bool_decide (is_Some a.2 ↔ is_Some b.2)).
Definition sorted_targets (ts : list Target) : res (list Target) :=
  if existsb (fun a => existsb (incomparable a) ts) ts then Raise (TypeError "'<' not supported") else Ok (stable_sort target_le ts).

Definition is_interface_intent (table : pystr) : bool := bool_decide (table = INTERFACE_INTENT).
(** The interface an eligible attribute was proved against; [None] when the attribute is not eligible *)
Definition attribute_context (document original : pydict) : res (option InterfaceContext) :=
  proof ← hydrate_interface_execution document;
  key ← attribute_key_of original;
  if bool_decide (key ∈ ie_eligible proof) then
    match dict_get (ie_interfaces proof) key.1 with
    | None => Raise KeyError
    | Some interface =>
        let columns := sorted_strs (dict_keys interface) in
        id ← int_item (get interface "id");
        Ok (Some (mkInterfaceContext id columns (columns_digest interface columns)))
    end
  else Ok None.
(** The fence of a frozen row; [None] skips it *)
Definition fence_of (document : pydict) (frozen : frozen_rows) (table : pystr) (original : pydict) : res (option Fence) :=
  t ← tree_of tree_fuel frozen table original;
  if is_interface_intent table then
    context ← attribute_context document original;
    Ok (match context with Some c => Some (mkFence t (Some c)) | None => None end)
  else Ok (Some (mkFence t None)).

(** Marking the attribute a worker is about to send *)
Definition deploy_attribute (table : pystr) (row : pydict) (l : Live) : option SnapAttribute * Live :=
  if is_interface_intent table then
    match lock_attribute l row with
    | Some (key, a) =>
        let a' := set_sync st_deploying a in
        (Some (mkSnapAttribute (as_id a) (as_sync a) (attribute_observation a')), with_attributes (<[key := a']> (lv_attributes l)) l)
    | None => (None, l)
    end
  else (None, l).

Section Snapshots.
Variables (g : Generation) (origins : OriginIndex) (logicals : list LogicalRow).

(** One target of [snapshot_bookkeeping] *)
Definition snapshot_target (frozen : frozen_rows) (t : Target) : txn Live (list BookSnapshot) := fun l =>
  let '(table, id, stream, revision) := t in
  match revision, dict_get frozen (table, JInt id) with
  | None, _ => Raise (ValueError "Bookkeeping target requires a frozen stream revision")
  | _, None => Raise (ValueError "Bookkeeping target is absent from the frozen generation")
  | Some revision, Some original =>
      current ← authorized l (g_device_id g) stream revision None;
      if negb current then Ok ([], l)
      else
        fence ← fence_of (g_document g) frozen table original;
        match fence with
        | None => Ok ([], l)
        | Some fence =>
            locked ← lock_tree l fence;
            match locked with
            | None => Ok ([], l)
            | Some row =>
                let '(attribute, l) := deploy_attribute table row l in
                let prior := bookkeeping table row in
                match prior, attribute with
                | [], None => Ok ([], l)
                | _, _ =>
                    section ← stream_section stream;
                    context ← section_context (g_document g) section;
                    Ok ([mkBook stream revision (content_digest (JObj context)) fence prior attribute (contributors_of origins logicals t)], l)
                end
            end
        end
  end.
Fixpoint snapshot_targets (frozen : frozen_rows) (ts : list Target) : txn Live (list BookSnapshot) :=
  match ts with
  | [] => mret []
  | t :: ts => s ← snapshot_target frozen t; rest ← snapshot_targets frozen ts; mret (s ++ rest)
  end.
(** [snapshot_bookkeeping] *)
Definition frozen_document (document : pydict) : res frozen_rows :=
  hs ← map_res (fun kv => hydrate_section document kv.1) (List.filter (fun kv => dict_mem section_registry kv.1) document);
  Ok (dict_of_pairs (flat_map frozen_of hs)).
Definition snapshot_bookkeeping : txn Live (list BookSnapshot) := fun l =>
  frozen ← frozen_document (g_document g);
  ts ← sorted_targets (target_set origins logicals);
  snapshot_targets frozen ts l.
End Snapshots.

(** ** Fenced writes *)

(** [_bookkeeping_target] *)
Definition bookkeeping_target (l : Live) (device_id : Z) (s : BookSnapshot) (certified : bool) : res (option (pydict * option ((Z * pystr) * AttrState))) :=
  ok ← authorized l device_id (bs_stream s) (bs_revision s) (if certified then Some s else None);
  if negb ok then Ok None
  else
    locked ← lock_tree l (bs_fence s);
    match locked with
    | None => Ok None
    | Some row =>
        if bool_decide (bookkeeping (tr_table (fc_tree (bs_fence s))) row = bs_expected s) then
          match bs_attribute s with
          | None => Ok (Some (row, None))
          | Some a =>
              match lock_attribute l row with
              | Some (key, state) =>
                  if bool_decide (as_id state = sa_id a) && bool_decide (attribute_observation state = sa_expected a) then Ok (Some (row, Some (key, state))) else Ok None
              | None => Ok None
              end
          end
        else Ok None
    end.

Definition target_key (s : BookSnapshot) : pystr * Z := (tr_table (fc_tree (bs_fence s)), tr_id (fc_tree (bs_fence s))).
Definition set_state (state : option ((Z * pystr) * AttrState)) (sync : SyncState) (l : Live) : Live :=
  match state with Some (key, a) => with_attributes (<[key := set_sync sync a]> (lv_attributes l)) l | None => l end.
Definition set_row (key : pystr * Z) (row : pydict) (l : Live) : Live := with_rows (<[key := row]> (lv_rows l)) l.
Definition has_column (s : BookSnapshot) (column : pystr) : bool := mem column (map col_name (table_columns (target_key s).1)).

(** [matching_bookkeeping_rows] *)
Definition matching_bookkeeping_rows (l : Live) (device_id : Z) (ss : list BookSnapshot) : res (list ((pystr * Z) * pydict)) :=
  found ← map_res (fun s => t ← bookkeeping_target l device_id s false; Ok (match t with Some (row, _) => [(target_key s, row)] | None => [] end)) ss;
  Ok (dict_of_pairs (concat found)).

(** [restore_bookkeeping]: the restored targets *)
Definition restore_state (s : BookSnapshot) (state : option ((Z * pystr) * AttrState)) (l : Live) : Live :=
  match bs_attribute s with Some a => set_state state (sa_prior a) l | None => l end.
Fixpoint restore_bookkeeping (device_id : Z) (ss : list BookSnapshot) : txn Live (list (pystr * Z)) := fun l =>
  match ss with
  | [] => Ok ([], l)
  | s :: ss =>
      t ← bookkeeping_target l device_id s false;
      match t with
      | None => restore_bookkeeping device_id ss l
      | Some (_, state) => '(restored, l) ← restore_bookkeeping device_id ss (restore_state s state l); Ok (target_key s :: restored, l)
      end
  end.
(** One snapshot of [stamp_refused_bookkeeping] *)
Definition refused_records (causes : list (Contributor * list json)) (s : BookSnapshot) : list json :=
  flat_map (fun c => default [] (dict_get causes c)) (bs_contributors s).
Definition distinct_records (records : list json) : list json := map snd (dict_of_pairs (map (fun r => (content_digest r, r)) records)).
Definition refused_error (records : list json) : json := JObj [("code", JStr "refused"); ("refusals", JArr (distinct_records records))].
Definition stamp_refused (device_id : Z) (causes : list (Contributor * list json)) (s : BookSnapshot) (l : Live) : res Live :=
  match refused_records causes s with
  | [] => Ok l
  | records =>
      t ← bookkeeping_target l device_id s false;
      Ok (match t with
          | Some (row, state) =>
              set_state state st_apply_failed (if has_column s "last_apply_error" then set_row (target_key s) (dict_set row "last_apply_error" (refused_error records)) l else l)
          | None => l
          end)
  end.
(** One snapshot of [stamp_certified_bookkeeping] *)
Definition certified_of (dispositions : list (Contributor * pystr)) (s : BookSnapshot) : bool :=
  forallb (fun c => bool_decide (dict_get dispositions c = Some ("in_sync" : pystr))) (bs_contributors s).
Definition stamp_certified (device_id : Z) (dispositions : list (Contributor * pystr)) (now : pystr) (s : BookSnapshot) (l : Live) : res Live :=
  if certified_of dispositions s then
    t ← bookkeeping_target l device_id s true;
    Ok (match t with
        | Some (row, state) =>
            set_state state st_in_sync
              (if has_column s "last_apply_at" then set_row (target_key s) (dict_set (dict_set row "last_apply_at" (JStr now)) "last_apply_error" JNull) l else l)
        | None => l
        end)
  else Ok l.

Fixpoint for_snapshots (f : BookSnapshot -> Live -> res Live) (ss : list BookSnapshot) (l : Live) : res Live :=
  match ss with [] => Ok l | s :: ss => l ← f s l; for_snapshots f ss l end.
Definition stamp_refused_bookkeeping (device_id : Z) (causes : list (Contributor * list json)) : list BookSnapshot -> Live -> res Live :=
  for_snapshots (stamp_refused device_id causes).
Definition stamp_certified_bookkeeping (device_id : Z) (dispositions : list (Contributor * pystr)) (now : pystr) : list BookSnapshot -> Live -> res Live :=
  for_snapshots (stamp_certified device_id dispositions now).
