(* ===== verification/BookkeepingProps.v ===== *)
(** * Bookkeeping never outruns the intent it speaks for

    Restoring right after preparation returns the store to what it was, and a stamp only lands on a row whose live content is the
    content the document froze. *)

From stdpp Require Import base list gmap.
From Stdlib Require Import ZArith NArith Lia.
From S2P Require Import Prelude Json Sha256 RefusalProtocol Registry Document Asn Identity Store StaticPlan InterfaceProof VaultRef Hydrate Origins OriginProps Bookkeeping.
Local Open Scope py_scope.
Local Open Scope Z_scope.

Notation attr_map := (gmap (Z * pystr) AttrState).

(** ** Preparation marks, restoration unmarks *)

Lemma set_sync_twice a b s : set_sync a (set_sync b s) = set_sync a s.
Proof. by destruct s. Qed.
Lemma set_sync_self s : set_sync (as_sync s) s = s.
Proof. by destruct s. Qed.
Lemma observed_deploying s : attribute_observation s = attribute_observation (set_sync st_deploying s) → as_sync s = st_deploying.
Proof. by intros [= H]. Qed.

(** What a snapshot took of the live rows *)
Record took (l : Live) (device : Z) (s : BookSnapshot) (row : pydict) : Prop := {
  tk_authorized : authorized l device (bs_stream s) (bs_revision s) None = Ok true;
  tk_locked : lock_tree l (bs_fence s) = Ok (Some row);
  tk_expected : bookkeeping (tr_table (fc_tree (bs_fence s))) row = bs_expected s }.
Definition attribute_key (row : pydict) (k : Z * pystr) : Prop := get row "interface_id" = JInt k.1 ∧ get row "attribute" = JStr k.2.
Definition marks (a : SnapAttribute) (st : AttrState) : Prop :=
  sa_id a = as_id st ∧ sa_prior a = as_sync st ∧ sa_expected a = attribute_observation (set_sync st_deploying st).

Inductive prepared_from (l : Live) (device : Z) : attr_map -> list BookSnapshot -> attr_map -> Prop :=
| prepared_nil m : prepared_from l device m [] m
| prepared_row m m' s ss row : took l device s row → bs_attribute s = None → prepared_from l device m ss m' → prepared_from l device m (s :: ss) m'
| prepared_attribute m m' s ss row a k st : took l device s row → bs_attribute s = Some a → attribute_key row k → m !! k = Some st → marks a st →
    prepared_from l device (<[k := set_sync st_deploying st]> m) ss m' → prepared_from l device m (s :: ss) m'.

Lemma lock_attribute_spec l row k st : lock_attribute l row = Some (k, st) ↔ attribute_key row k ∧ lv_attributes l !! k = Some st.
Proof.
  unfold lock_attribute, attribute_key. destruct k as [i a]. cbn [fst snd].
  destruct (get row "interface_id"); try naive_solver. destruct (get row "attribute"); try naive_solver. rewrite fmap_Some. naive_solver.
Qed.
Lemma with_attributes_twice m m' l : with_attributes m (with_attributes m' l) = with_attributes m l.
Proof. done. Qed.
Lemma with_own_attributes l : with_attributes (lv_attributes l) l = l.
Proof. by destruct l. Qed.
Lemma tree_of_table fuel frozen table row t : tree_of fuel frozen table row = Ok t → tr_table t = table.
Proof. destruct fuel; [done|]. cbn [tree_of]. rewrite !bind_Ok. intros (? & _ & H). rewrite !bind_Ok in H. destruct H as (? & _ & H). rewrite !bind_Ok in H. by destruct H as (? & _ & [= <-]). Qed.
Lemma fence_of_tree document frozen table original f : fence_of document frozen table original = Ok (Some f) →
  tree_of tree_fuel frozen table original = Ok (fc_tree f).
Proof.
  unfold fence_of. rewrite bind_Ok. intros (t & -> & H). destruct (is_interface_intent table); [|by injection H as [= <-]].
  rewrite bind_Ok in H. destruct H as (c & _ & H). destruct c; [|done]. by injection H as [= <-].
Qed.

(** The chains of child tables are short: [tree_fuel] reaches the end of each. *)
Fixpoint reaches (n : nat) (table : pystr) : bool :=
  match n with O => false | S n => forallb (fun s => reaches n (tablename (sp_model s))) (child_specs table) end.
Lemma tree_fuel_reaches table : reaches tree_fuel table = true.
Proof.
  destruct (dict_get spec_by_table table) as [s|] eqn:E.
  - assert (forallb (fun ts => reaches tree_fuel ts.1) spec_by_table = true) as H by (vm_compute; reflexivity).
    apply dict_get_Some_in, list_elem_of_In in E. by apply (proj1 (forallb_forall _ _) H) in E.
  - change tree_fuel with (S (pred tree_fuel)). cbn [reaches]. unfold child_specs. by rewrite E.
Qed.
Lemma map_res_ext_in {A B} (f g : A -> res B) l : (∀ x, x ∈ l → f x = g x) → map_res f l = map_res g l.
Proof.
  induction l as [|x l IH]; intros H; [done|]. cbn [map_res]. rewrite (H x) by (by left). by rewrite IH by (intros y Hy; apply H; by right).
Qed.
Lemma tree_of_stable n m frozen table row : reaches n table = true → (n <= m)%nat → tree_of m frozen table row = tree_of n frozen table row.
Proof.
  revert m table row. induction n as [|n IH]; intros m table row Hr Hm; [done|]. destruct m as [|m]; [lia|]. cbn [tree_of reaches] in *.
  assert (∀ (a b : res (list (pystr * pystr * list tree))) k, a = b → (x ← a; k x : res tree) = (x ← b; k x)) as Hb by (by intros ??? ->). apply Hb.
  apply map_res_ext_in. intros s Hs. destruct (parent_column s) as [column|]; [|done]. cbn [mbind res_bind].
  rewrite (map_res_ext_in (fun kr => tree_of m frozen kr.1.1 kr.2) (fun kr => tree_of n frozen kr.1.1 kr.2)); [done|].
  intros kr Hkr. apply IH; [|lia]. unfold frozen_children in Hkr. apply elem_of_stable_sort in Hkr. apply list_elem_of_In, filter_In in Hkr as [_ Hkr].
  apply andb_prop in Hkr as [Ht%bool_decide_eq_true _]. rewrite Ht. apply list_elem_of_In in Hs. exact (proj1 (forallb_forall _ _) Hr s Hs).
Qed.
(** More fuel changes no content tree. *)
Lemma tree_fuel_enough n frozen table row : (tree_fuel <= n)%nat → tree_of n frozen table row = tree_of tree_fuel frozen table row.
Proof. apply tree_of_stable, tree_fuel_reaches. Qed.
Opaque tree_fuel.

Lemma deploy_attribute_spec table row l d a : deploy_attribute table row l = (a, d) →
  (a = None ∧ d = l) ∨ ∃ sa k st, a = Some sa ∧ attribute_key row k ∧ lv_attributes l !! k = Some st ∧ marks sa st ∧
    d = with_attributes (<[k := set_sync st_deploying st]> (lv_attributes l)) l.
Proof.
  unfold deploy_attribute. destruct (is_interface_intent table); [|by intros [= <- <-]; left].
  destruct (lock_attribute l row) as [[k st]|] eqn:E; [|by intros [= <- <-]; left].
  intros [= <- <-]. apply lock_attribute_spec in E as [Ek Es]. right. eexists _, k, st. by split_and!.
Qed.
(** A snapshot's fence is the content tree of the row frozen under its key. *)
Definition frozen_fence (frozen : frozen_rows) (s : BookSnapshot) : Prop :=
  ∃ row id, dict_get frozen (tr_table (fc_tree (bs_fence s)), JInt id) = Some row ∧
    tree_of tree_fuel frozen (tr_table (fc_tree (bs_fence s))) row = Ok (fc_tree (bs_fence s)).

Lemma snapshot_target_spec g o ls frozen t l ss l' : snapshot_target g o ls frozen t l = Ok (ss, l') →
  ∃ m', l' = with_attributes m' l ∧ prepared_from l (g_device_id g) (lv_attributes l) ss m' ∧ Forall (frozen_fence frozen) ss.
Proof.
  assert (∃ m', l = with_attributes m' l ∧ prepared_from l (g_device_id g) (lv_attributes l) [] m' ∧ Forall (frozen_fence frozen) []) as Hq.
  { exists (lv_attributes l). split_and!; [by rewrite with_own_attributes|constructor|constructor]. }
  destruct t as [[[table id] stream] [revision|]]; [|done]. unfold snapshot_target. destruct (dict_get frozen _) as [original|] eqn:Eo; [|done].
  rewrite bind_Ok. intros ([] & Ha & H); [|by injection H as <- <-]. cbn [negb] in H. rewrite bind_Ok in H. destruct H as ([fence|] & Hf & H); [|by injection H as <- <-].
  rewrite bind_Ok in H. destruct H as ([row|] & Hk & H); [|by injection H as <- <-].
  apply fence_of_tree in Hf. pose proof (tree_of_table _ _ _ _ _ Hf) as Ht.
  destruct (deploy_attribute table row l) as [a d] eqn:Ed. apply deploy_attribute_spec in Ed.
  assert (∀ c x, took l (g_device_id g) (mkBook stream revision c fence (bookkeeping table row) a x) row) as Htk.
  { intros c x. split; [done|done|]. cbn [bs_fence bs_expected]. rewrite Ht. reflexivity. }
  assert (∀ c x, ∃ m', d = with_attributes m' l ∧ prepared_from l (g_device_id g) (lv_attributes l) [mkBook stream revision c fence (bookkeeping table row) a x] m' ∧
      Forall (frozen_fence frozen) [mkBook stream revision c fence (bookkeeping table row) a x]) as Hp.
  { intros c x. assert (frozen_fence frozen (mkBook stream revision c fence (bookkeeping table row) a x)) as Hfz.
    { exists original, id. unfold frozen_fence. cbn [bs_fence]. rewrite Ht. by split. }
    destruct Ed as [[Ea ->]|(sa & k & st & Ea & Hk1 & Hk2 & Hm & ->)].
    - exists (lv_attributes l). split_and!; [by rewrite with_own_attributes| |by apply Forall_singleton]. eapply prepared_row; [apply Htk|done|constructor].
    - eexists. split_and!; [done| |by apply Forall_singleton]. eapply prepared_attribute; [apply Htk|done|done|done|done|constructor]. }
  destruct (bookkeeping table row) as [|p prior], a as [sa|].
  2: { destruct Ed as [[_ ->]|(? & ? & ? & [=] & _)]. by injection H as <- <-. }
  all: rewrite bind_Ok in H; destruct H as (section & _ & H); rewrite bind_Ok in H; destruct H as (context & _ & H); injection H as <- <-; apply Hp.
Qed.

Lemma took_attributes l m device s row : took (with_attributes m l) device s row ↔ took l device s row.
Proof. split; intros [H1 H2 H3]; by split. Qed.
Lemma prepared_attributes l m0 device m ss m' : prepared_from (with_attributes m0 l) device m ss m' → prepared_from l device m ss m'.
Proof.
  induction 1 as [|m m' s ss row Htk Ha _ IH|m m' s ss row a k st Htk Ha Hk Hm Hs _ IH]; [constructor| |].
  - eapply prepared_row; [by apply (took_attributes l m0)|done|done].
  - eapply prepared_attribute; [by apply (took_attributes l m0)|done..].
Qed.
Lemma prepared_app l device m1 ss1 m2 ss2 m3 : prepared_from l device m1 ss1 m2 → prepared_from l device m2 ss2 m3 → prepared_from l device m1 (ss1 ++ ss2) m3.
Proof. intros H. induction H; intros Hrest; [done|eapply prepared_row; eauto|eapply prepared_attribute; eauto]. Qed.
Lemma snapshot_targets_spec g o ls frozen ts l ss l' : snapshot_targets g o ls frozen ts l = Ok (ss, l') →
  ∃ m', l' = with_attributes m' l ∧ prepared_from l (g_device_id g) (lv_attributes l) ss m' ∧ Forall (frozen_fence frozen) ss.
Proof.
  revert l ss l'. induction ts as [|t ts IH]; intros l ss l'; cbn [snapshot_targets].
  { intros [= <- <-]. exists (lv_attributes l). split_and!; [by rewrite with_own_attributes|constructor|constructor]. }
  rewrite txn_bind_Ok. intros (s1 & l1 & H1 & H). rewrite txn_bind_Ok in H. destruct H as (rest & l2 & H2 & [= <- <-]).
  apply snapshot_target_spec in H1 as (m1 & -> & P1 & F1). apply IH in H2 as (m2 & -> & P2 & F2). cbn [lv_attributes with_attributes] in P2.
  exists m2. split_and!; [done| |by apply Forall_app]. eapply prepared_app; [done|]. by apply prepared_attributes in P2.
Qed.

(** ** Restoring undoes preparation *)

(** A marked attribute stays marked until it is restored. *)
Lemma prepared_keeps l device m ss m' k st : prepared_from l device m ss m' → m !! k = Some (set_sync st_deploying st) → m' !! k = Some (set_sync st_deploying st).
Proof.
  induction 1 as [| |m m' s ss row a k' st' Htk Ha Hk Hm Hs _ IH]; [done|done|]. intros H. apply IH. destruct (decide (k = k')) as [->|Hn].
  - rewrite lookup_insert_eq. rewrite Hm in H. injection H as ->. by rewrite set_sync_twice.
  - by rewrite lookup_insert_ne.
Qed.

Lemma target_of_took l device s row M : took l device s row →
  bookkeeping_target (with_attributes M l) device s false =
    match bs_attribute s with
    | None => Ok (Some (row, None))
    | Some a => match lock_attribute (with_attributes M l) row with
                | Some (key, state) => if bool_decide (as_id state = sa_id a) && bool_decide (attribute_observation state = sa_expected a)
                                       then Ok (Some (row, Some (key, state))) else Ok None
                | None => Ok None
                end
    end.
Proof.
  intros [H1 H2 H3]. unfold bookkeeping_target. change (authorized (with_attributes M l)) with (authorized l). change (lock_tree (with_attributes M l)) with (lock_tree l).
  rewrite H1. cbn [mbind res_bind negb]. rewrite H2. cbn [mbind res_bind]. by rewrite bool_decide_eq_true_2.
Qed.

(** The attributes restored so far hold their prior state, the others still hold the prepared one. *)
Record restoring (m0 m m1 M : attr_map) (D : gset (Z * pystr)) : Prop := {
  rs_done : ∀ k, k ∈ D → M !! k = m0 !! k ∧ ∃ st, m0 !! k = Some st ∧ m !! k = Some (set_sync st_deploying st);
  rs_todo : ∀ k, k ∉ D → M !! k = m1 !! k ∧ m !! k = m0 !! k }.

Lemma restore_prepared l device m0 m ss m1 M D : prepared_from l device m ss m1 → restoring m0 m m1 M D →
  ∃ restored, restore_bookkeeping device ss (with_attributes M l) = Ok (restored, with_attributes m0 l).
Proof.
  intros H. revert M D. induction H as [m|m m' s ss row Htk Ha _ IH|m m' s ss row a k st Htk Ha Hk Hm (Hs1 & Hs2 & Hs3) Hrest IH]; intros M D [Hd Ht].
  - exists []. assert (M = m0) as ->; [|done]. apply map_eq. intros k. destruct (decide (k ∈ D)) as [Hk|Hk]; [by apply Hd|]. destruct (Ht _ Hk). congruence.
  - destruct (IH M D (Build_restoring _ _ _ _ _ Hd Ht)) as (r & Hr). exists (target_key s :: r). cbn [restore_bookkeeping]. rewrite (target_of_took _ _ _ _ _ Htk), Ha. cbn [mbind res_bind].
    unfold restore_state. by rewrite Ha, Hr.
  - cbn [restore_bookkeeping]. rewrite (target_of_took _ _ _ _ _ Htk), Ha. destruct (decide (k ∈ D)) as [HkD|HkD].
    + destruct (Hd _ HkD) as (HM & st0 & H0 & Hm0). rewrite Hm in Hm0. injection Hm0 as ->. rewrite H0 in HM.
      assert (<[k := set_sync st_deploying (set_sync st_deploying st0)]> m = m) as Hsame by (rewrite set_sync_twice; by apply insert_id).
      rewrite Hsame in IH. rewrite (proj2 (lock_attribute_spec (with_attributes M l) row k st0) (conj Hk HM)).
      destruct (IH M D (Build_restoring _ _ _ _ _ Hd Ht)) as (r & Hr).
      destruct (_ && _) eqn:E; cbn [mbind res_bind]; [|by exists r].
      apply andb_prop in E as [_ E%bool_decide_eq_true]. rewrite Hs3, set_sync_twice in E. apply observed_deploying in E.
      exists (target_key s :: r). unfold restore_state. rewrite Ha, Hs2. cbn [set_state lv_attributes with_attributes]. rewrite with_attributes_twice.
      assert (set_sync (as_sync (set_sync st_deploying st0)) st0 = st0) as -> by (cbn [as_sync set_sync]; rewrite <-E; apply set_sync_self).
      by rewrite insert_id, Hr.
    + destruct (Ht _ HkD) as [HM H0]. rewrite Hm in H0. assert (m' !! k = Some (set_sync st_deploying st)) as Hk' by (eapply prepared_keeps; [done|apply lookup_insert_eq]).
      rewrite Hk' in HM. rewrite (proj2 (lock_attribute_spec (with_attributes M l) row k (set_sync st_deploying st)) (conj Hk HM)).
      rewrite Hs1, Hs3, !bool_decide_eq_true_2 by done. cbn [andb mbind res_bind]. unfold restore_state. rewrite Ha, Hs2. cbn [set_state lv_attributes with_attributes].
      rewrite with_attributes_twice, set_sync_twice, set_sync_self.
      destruct (IH (<[k := st]> M) ({[k]} ∪ D)) as (r & Hr); [|exists (target_key s :: r); by rewrite Hr]. split.
      * intros k'. rewrite elem_of_union, elem_of_singleton. intros [->|Hk1].
        -- rewrite lookup_insert_eq. split; [done|]. exists st. by rewrite lookup_insert_eq.
        -- assert (k' ≠ k) as Hne by congruence. rewrite !lookup_insert_ne by done. by apply Hd.
      * intros k' Hk1. rewrite not_elem_of_union, not_elem_of_singleton in Hk1. destruct Hk1 as [Hne Hk1]. rewrite !lookup_insert_ne by done. by apply Ht.
Qed.

(** C15: Preparation marks the attributes a document sends as deploying; when the send comes to nothing, restoring what was prepared puts
    the store back exactly as it was. *)
Theorem restore_undoes_preparation g origins logicals l ss l' : snapshot_bookkeeping g origins logicals l = Ok (ss, l') →
  ∃ restored, restore_bookkeeping (g_device_id g) ss l' = Ok (restored, l).
Proof.
  unfold snapshot_bookkeeping. rewrite bind_Ok. intros (frozen & _ & H). rewrite bind_Ok in H. destruct H as (ts & _ & H).
  apply snapshot_targets_spec in H as (m' & -> & H & _).
  destruct (restore_prepared l _ (lv_attributes l) _ _ _ m' ∅ H) as (r & Hr); [by split; [intros ? ?%elem_of_empty|]|].
  exists r. by rewrite Hr, with_own_attributes.
Qed.

(** ** Stamps keep to the intent that was sent *)

Definition STAMPS : list pystr := ["last_apply_at"; "last_apply_error"].
Definition row_alike (r r' : pydict) : Prop := ∀ c, c ∉ STAMPS → get r' c = get r c.
(** The same rows, up to their apply stamps *)
Definition same_intent (rows rows' : gmap (pystr * Z) pydict) : Prop :=
  ∀ k, match rows !! k, rows' !! k with Some r, Some r' => row_alike r r' | None, None => True | _, _ => False end.

Lemma same_intent_refl rows : same_intent rows rows.
Proof. intros k. by destruct (rows !! k). Qed.
Lemma same_intent_trans a b c : same_intent a b → same_intent b c → same_intent a c.
Proof.
  intros H1 H2 k. specialize (H1 k). specialize (H2 k). destruct (a !! k), (b !! k), (c !! k); try done. intros x Hx. by rewrite H2, H1.
Qed.

Lemma stamp_value table c v : c ∈ STAMPS → document_value table c v = Ok v.
Proof.
  intros Hc. unfold document_value. assert (mem c (default [] (dict_get VAULT_REFERENCE_COLUMNS table)) = false) as ->.
  { apply bool_decide_eq_false. cbn [dict_get VAULT_REFERENCE_COLUMNS]. repeat case_decide; cbn [default]; unfold STAMPS in Hc; set_solver. }
  rewrite andb_false_r. by destruct v.
Qed.
Lemma content_alike table r r' : row_alike r r' → content_of table r' = content_of table r.
Proof.
  intros H. unfold content_of, intent_state, row_dict. generalize (table_columns table) as cs.
  set (f := fun (r : pydict) c => v ← document_value table (col_name c) (get r (col_name c)); Ok (col_name c, v)).
  assert (∀ cs, (d ← map_res (f r') cs; Ok (List.filter (fun kv => negb (mem kv.1 APPLY_BOOKKEEPING_COLUMNS)) d)) =
                (d ← map_res (f r) cs; Ok (List.filter (fun kv => negb (mem kv.1 APPLY_BOOKKEEPING_COLUMNS)) d))) as Hf; [|intros cs; by rewrite Hf].
  induction cs as [|c cs IH]; [done|]. cbn [map_res]. destruct (decide (col_name c ∈ STAMPS)) as [Hc|Hc].
  - assert (∀ r, f r c = Ok (col_name c, get r (col_name c))) as Hv by (intros r0; unfold f; by rewrite stamp_value). rewrite !Hv. cbn [mbind res_bind].
    assert (mem (col_name c) APPLY_BOOKKEEPING_COLUMNS = true) as Hm by (apply bool_decide_eq_true; unfold STAMPS, APPLY_BOOKKEEPING_COLUMNS in *; set_solver).
    destruct (map_res (f r') cs) as [d'|e'], (map_res (f r) cs) as [d|e]; cbn [mbind res_bind] in IH |- *; cbn [List.filter fst]; rewrite ?Hm; cbn [negb]; done.
  - assert (f r' c = f r c) as -> by (unfold f; by rewrite H). destruct (f r c) as [kv|]; [|done]. cbn [mbind res_bind].
    destruct (map_res (f r') cs) as [d'|e'], (map_res (f r) cs) as [d|e]; cbn [mbind res_bind] in IH |- *; try congruence.
    cbn [List.filter]. destruct (negb _); congruence.
Qed.
Lemma live_children_alike rows rows' table column parent : same_intent rows rows' → column ∉ STAMPS →
  live_children rows' table column parent = live_children rows table column parent.
Proof.
  intros H Hc. unfold live_children. do 2 f_equal. f_equal. apply leibniz_equiv. intros k. rewrite !elem_of_dom. unfold is_Some. setoid_rewrite map_lookup_filter_Some.
  specialize (H k). unfold is_child. destruct (rows !! k) as [r|], (rows' !! k) as [r'|]; [|done..|naive_solver].
  cbn [fst snd]. specialize (H column Hc). split; intros (x & [= <-] & H1 & H2); eexists; (split; [done|]); split; congruence.
Qed.

(** Induction on content trees *)
Lemma tree_induction (P : tree -> Prop) :
  (∀ table id content children, Forall (fun g => Forall P g.2) children → P (Tree table id content children)) → ∀ t, P t.
Proof.
  intros H. fix IH 1. intros [table id content children]. apply H. induction children as [|[g ts] gs IHg]; constructor; [|exact IHg].
  cbn [snd]. induction ts as [|t ts IHt]; constructor; [apply IH|exact IHt].
Qed.
(** The child rows of a fence are read by a column no stamp writes. *)
Fixpoint fenced (t : tree) : Prop :=
  let 'Tree _ _ _ children := t in
  (fix groups (gs : list (pystr * pystr * list tree)) : Prop :=
     match gs with
     | [] => True
     | (_, column, ts) :: gs => column ∉ STAMPS ∧ (fix all (ts : list tree) : Prop := match ts with [] => True | t :: ts => fenced t ∧ all ts end) ts ∧ groups gs
     end) children.

Lemma tree_matches_alike rows rows' t : same_intent rows rows' → fenced t → tree_matches rows' t = tree_matches rows t.
Proof.
  intros H. induction t as [table id content children IH] using tree_induction. cbn [fenced tree_matches]. intros Hf.
  pose proof (H (table, id)) as Hr. destruct (rows !! (table, id)) as [r|], (rows' !! (table, id)) as [r'|]; try done.
  rewrite (content_alike _ _ _ Hr). destruct (content_of table r) as [d|]; [|done]. cbn [mbind res_bind]. case_bool_decide; [|done].
  induction IH as [|[[child column] ts] gs Hts _ IHg]; [done|]. destruct Hf as (Hc & Ha & Hg). rewrite (live_children_alike _ _ child column id H Hc).
  case_bool_decide; [|done]. rewrite (IHg Hg). f_equal. clear -Hts Ha. cbn [snd] in Hts. induction Hts as [|t ts Ht _ IHt]; [done|]. destruct Ha as [Ha1 Ha2].
  rewrite (Ht Ha1). destruct (tree_matches rows t) as [[]|]; [|done..]. cbn [mbind res_bind]. by apply IHt.
Qed.

(** One fenced write *)
Record fenced_step (allowed : Prop) (s : BookSnapshot) (l l' : Live) : Prop := {
  fs_intent : same_intent (lv_rows l) (lv_rows l');
  fs_changed : ∀ k, lv_rows l' !! k ≠ lv_rows l !! k → k = target_key s ∧ allowed ∧ tree_matches (lv_rows l) (fc_tree (bs_fence s)) = Ok true }.
Lemma fenced_step_refl allowed s l : fenced_step allowed s l l.
Proof. split; [apply same_intent_refl|done]. Qed.
Lemma fenced_set_state allowed s l l' state sync : fenced_step allowed s l l' → fenced_step allowed s l (set_state state sync l').
Proof. intros [H1 H2]. by destruct state as [[k a]|]; split. Qed.

Lemma bookkeeping_target_locked l device s certified row state : bookkeeping_target l device s certified = Ok (Some (row, state)) →
  tree_matches (lv_rows l) (fc_tree (bs_fence s)) = Ok true ∧ lv_rows l !! target_key s = Some row.
Proof.
  unfold bookkeeping_target. rewrite bind_Ok. intros (ok & _ & H). destruct ok; [|done]. cbn [negb] in H. rewrite bind_Ok in H. destruct H as (locked & Hl & H).
  destruct locked as [row'|]; [|done]. assert (row' = row) as ->.
  { destruct (bool_decide _); [|done]. destruct (bs_attribute s) as [a|]; [|by injection H as -> _]. destruct (lock_attribute l row') as [[k st]|]; [|done].
    destruct (_ && _); [|done]. by injection H as -> _. }
  unfold lock_tree in Hl. destruct (interface_matches l _); [|done]. rewrite bind_Ok in Hl. destruct Hl as (b & Hb & Hl). destruct b; [|done]. apply Ok_inj in Hl. by split.
Qed.
Lemma fenced_set_row (allowed : Prop) s l row row' : allowed → tree_matches (lv_rows l) (fc_tree (bs_fence s)) = Ok true →
  lv_rows l !! target_key s = Some row → row_alike row row' → fenced_step allowed s l (set_row (target_key s) row' l).
Proof.
  intros Ha Hm Hr Hal. split; cbn [lv_rows set_row with_rows].
  - intros k. destruct (decide (k = target_key s)) as [->|Hn]; [by rewrite Hr, lookup_insert_eq|]. rewrite lookup_insert_ne by done. by destruct (lv_rows l !! k).
  - intros k. destruct (decide (k = target_key s)) as [->|Hn]; [done|]. by rewrite lookup_insert_ne.
Qed.
Lemma row_alike_set r k v : k ∈ STAMPS → row_alike r (dict_set r k v).
Proof. intros Hk c Hc. unfold get, get_or. rewrite dict_get_set_ne; [done|]. by intros ->. Qed.
Lemma row_alike_trans a b c : row_alike a b → row_alike b c → row_alike a c.
Proof. intros H1 H2 x Hx. by rewrite H2, H1. Qed.

Lemma stamp_certified_fenced device ds now s l l' : stamp_certified device ds now s l = Ok l' → fenced_step (certified_of ds s = true) s l l'.
Proof.
  unfold stamp_certified. destruct (certified_of ds s) eqn:Ec; [|intros [= <-]; apply fenced_step_refl]. rewrite bind_Ok. intros (t & Ht & H). apply Ok_inj in H. subst l'.
  destruct t as [[row state]|]; [|apply fenced_step_refl]. apply bookkeeping_target_locked in Ht as [Hm Hr]. apply fenced_set_state.
  destruct (has_column _ _); [|apply fenced_step_refl]. eapply fenced_set_row; [done..|].
  eapply row_alike_trans; apply row_alike_set; unfold STAMPS; set_solver.
Qed.
Lemma stamp_refused_fenced device causes s l l' : stamp_refused device causes s l = Ok l' → fenced_step (refused_records causes s ≠ []) s l l'.
Proof.
  unfold stamp_refused. destruct (refused_records causes s) as [|r rs]; [intros [= <-]; apply fenced_step_refl|]. rewrite bind_Ok. intros (t & Ht & H). apply Ok_inj in H. subst l'.
  destruct t as [[row state]|]; [|apply fenced_step_refl]. apply bookkeeping_target_locked in Ht as [Hm Hr]. apply fenced_set_state.
  destruct (has_column _ _); [|apply fenced_step_refl]. eapply fenced_set_row; [done..|]. apply row_alike_set. unfold STAMPS; set_solver.
Qed.
Lemma for_snapshots_fenced f (allowed : BookSnapshot -> Prop) ss l l' : (∀ s l l', f s l = Ok l' → fenced_step (allowed s) s l l') →
  Forall (fun s => fenced (fc_tree (bs_fence s))) ss → for_snapshots f ss l = Ok l' →
  same_intent (lv_rows l) (lv_rows l') ∧
  ∀ k, lv_rows l' !! k ≠ lv_rows l !! k → ∃ s, s ∈ ss ∧ k = target_key s ∧ allowed s ∧ tree_matches (lv_rows l) (fc_tree (bs_fence s)) = Ok true.
Proof.
  intros Hf Hs. revert l. induction Hs as [|s ss Hs1 Hss IH]; intros l; cbn [for_snapshots]; [intros [= <-]; split; [apply same_intent_refl|done]|].
  rewrite bind_Ok. intros (l1 & [H1 H2]%Hf & [H3 H4]%IH). split; [by eapply same_intent_trans|]. intros k Hk.
  destruct (decide (lv_rows l1 !! k = lv_rows l !! k)) as [He|Hn].
  - rewrite <-He in Hk. destruct (H4 _ Hk) as (s' & Hin & ? & ? & Hm). exists s'. split_and!; [by right|done|done|]. rewrite <-Hm. symmetry. apply tree_matches_alike; [done|].
    by apply (proj1 (Forall_forall _ ss) Hss).
  - destruct (H2 _ Hn) as (-> & ? & ?). exists s. split_and!; [by left|done..].
Qed.

(** The fences of a document *)
Lemma parent_columns_unstamped :
  forallb (fun s => match parent_column s with Ok c => negb (bool_decide (c ∈ STAMPS)) | Raise _ => true end) (map snd spec_by_model) = true.
Proof. vm_compute. reflexivity. Qed.
Lemma child_column table s column : s ∈ child_specs table → parent_column s = Ok column → column ∉ STAMPS.
Proof.
  unfold child_specs. destruct (dict_get spec_by_table table) as [p|]; [|by intros ?%elem_of_nil]. rewrite list_elem_of_In, filter_In. intros [Hs _] Hc.
  pose proof (proj1 (forallb_forall _ _) parent_columns_unstamped s Hs) as H. cbn beta in H. rewrite Hc in H. by apply negb_true_iff, bool_decide_eq_false in H.
Qed.
Lemma tree_of_fenced fuel frozen table row t : tree_of fuel frozen table row = Ok t → fenced t.
Proof.
  revert table row t. induction fuel as [|fuel IH]; intros table row t; [done|]. cbn [tree_of]. rewrite bind_Ok. intros (children & Hc & H). rewrite bind_Ok in H.
  destruct H as (id & _ & H). rewrite bind_Ok in H. destruct H as (content & _ & [= <-]). cbn [fenced].
  assert (∀ s, s ∈ child_specs table → s ∈ child_specs table) as Hs by done. revert Hs children Hc. generalize (child_specs table) at 1 3 as ss.
  induction ss as [|s ss IHs]; intros Hs children; cbn [map_res]; [by intros [= <-]|]. rewrite bind_Ok. intros (g & Hg & H). rewrite bind_Ok in H. destruct H as (gs & Hgs & [= <-]).
  rewrite bind_Ok in Hg. destruct Hg as (column & Hcol & Hg). rewrite bind_Ok in Hg. destruct Hg as (ts & Hts & [= <-]).
  split_and!; [by eapply child_column; [apply Hs; left|]| |by apply IHs; [intros s' Hs'; apply Hs; by right|]].
  revert ts Hts. generalize (frozen_children frozen (tablename (sp_model s)) column (get row "id")) as rows.
  induction rows as [|kr rows IHr]; intros ts; cbn [map_res]; [by intros [= <-]|]. rewrite bind_Ok. intros (t & Ht%IH & H). rewrite bind_Ok in H.
  destruct H as (ts' & Hts & [= <-]). split; [done|by apply IHr].
Qed.

Definition keyed_rows (frozen : frozen_rows) : Prop := ∀ k r, (k, r) ∈ frozen → get r "id" = k.2.
Lemma frozen_document_keyed document frozen : frozen_document document = Ok frozen → keyed_rows frozen.
Proof.
  unfold frozen_document. rewrite bind_Ok. intros (hs & _ & [= <-]) k r. unfold dict_of_pairs.
  assert (∀ l d : frozen_rows, keyed_rows l → keyed_rows d → ∀ k r, (k, r) ∈ fold_left (fun d kv => dict_set d kv.1 kv.2) l d → get r "id" = k.2) as Hfold.
  { induction l as [|[k1 r1] l IH]; intros d Hl Hd; [done|]. cbn [fold_left fst snd]. apply IH; [intros k2 r2 Hin; apply Hl; by right|].
    intros k2 r2 [[-> ->]|Hin]%in_dict_set; [by apply Hl; left|by apply Hd]. }
  apply Hfold; [|by intros ?? ?%elem_of_nil]. intros k1 r1 Hin. apply list_elem_of_In, in_flat_map in Hin as (h & _ & Hin).
  apply in_flat_map in Hin as (tl & _ & Hin). apply in_map_iff in Hin as (row & [= <- <-] & _). done.
Qed.
Lemma tree_of_root fuel frozen table row t : tree_of fuel frozen table row = Ok t → get row "id" = JInt (tr_id t) ∧ content_of table row = Ok (tr_content t).
Proof.
  destruct fuel; [done|]. cbn [tree_of]. rewrite bind_Ok. intros (children & _ & H). rewrite bind_Ok in H. destruct H as (id & Hid & H). rewrite bind_Ok in H.
  destruct H as (content & Hc & [= <-]). split; [|done]. unfold int_item in Hid. destruct (get row "id") as [| |z| | | |]; try (exfalso; revert Hid; discriminate). apply Ok_inj in Hid. by rewrite Hid.
Qed.
Lemma tree_matches_root rows t : tree_matches rows t = Ok true → ∃ row, rows !! (tr_table t, tr_id t) = Some row ∧ content_of (tr_table t) row = Ok (tr_content t).
Proof.
  destruct t as [table id content children]. cbn [tree_matches tr_table tr_id tr_content]. destruct (rows !! (table, id)) as [row|]; [|done]. rewrite bind_Ok.
  intros (d & Hd & H). exists row. split; [done|]. case_bool_decide; [congruence|done].
Qed.

(** The live row under a key holds the content of the row the document froze under it. *)
Definition live_as_frozen (g : Generation) (l : Live) (k : pystr * Z) : Prop :=
  ∃ frozen original row content, frozen_document (g_document g) = Ok frozen ∧ dict_get frozen (k.1, JInt k.2) = Some original ∧ lv_rows l !! k = Some row ∧
    content_of k.1 original = Ok content ∧ content_of k.1 row = Ok content.

Lemma snapshots_frozen g o ls l ss l' : snapshot_bookkeeping g o ls l = Ok (ss, l') →
  ∃ frozen, frozen_document (g_document g) = Ok frozen ∧ Forall (frozen_fence frozen) ss.
Proof.
  unfold snapshot_bookkeeping. rewrite bind_Ok. intros (frozen & Hf & H). rewrite bind_Ok in H. destruct H as (ts & _ & H).
  apply snapshot_targets_spec in H as (m' & _ & _ & H). eauto.
Qed.
Lemma writes_keep_to_frozen g o ls l0 ss l1 f allowed l l' : snapshot_bookkeeping g o ls l0 = Ok (ss, l1) →
  (∀ s l l', f s l = Ok l' → fenced_step (allowed s) s l l') → for_snapshots f ss l = Ok l' →
  same_intent (lv_rows l) (lv_rows l') ∧
  ∀ k, lv_rows l' !! k ≠ lv_rows l !! k → live_as_frozen g l k ∧ ∃ s, s ∈ ss ∧ k = target_key s ∧ allowed s.
Proof.
  intros Hs Hf H. apply snapshots_frozen in Hs as (frozen & Hd & Hss).
  apply (for_snapshots_fenced f allowed) in H as [Hi Hc]; [|done|].
  - split; [done|]. intros k Hk. destruct (Hc k Hk) as (s & Hin & -> & Ha & Hm). split; [|by eauto].
    destruct (proj1 (Forall_forall _ _) Hss _ Hin) as (original & id & Ho & Ht). apply tree_of_root in Ht as [Hid Hco]. apply tree_matches_root in Hm as (row & Hr & Hcr).
    assert (JInt id = JInt (tr_id (fc_tree (bs_fence s)))) as Heq.
    { rewrite <-Hid. symmetry. apply (frozen_document_keyed _ _ Hd (tr_table (fc_tree (bs_fence s)), JInt id)). by apply dict_get_Some_in. }
    rewrite Heq in Ho. exists frozen, original, row, (tr_content (fc_tree (bs_fence s))). by split_and!.
  - eapply Forall_impl; [done|]. intros s (original & id & _ & Ht). by eapply tree_of_fenced.
Qed.

(** C14: Whatever happened to the store between preparing a document and settling it: a stamp changes a row only when the row still
    holds the content the document froze and sent, it changes nothing but the apply stamps, and it needs every contributor of
    the row certified, or a refusal recorded for one of them. *)
Theorem stamps_keep_to_sent_intent g origins logicals l0 ss l1 : snapshot_bookkeeping g origins logicals l0 = Ok (ss, l1) →
  (∀ device ds now l l', stamp_certified_bookkeeping device ds now ss l = Ok l' → same_intent (lv_rows l) (lv_rows l') ∧
     ∀ k, lv_rows l' !! k ≠ lv_rows l !! k → live_as_frozen g l k ∧ ∃ s, s ∈ ss ∧ k = target_key s ∧
       ∀ c, c ∈ bs_contributors s → dict_get ds c = Some "in_sync"%py) ∧
  (∀ device causes l l', stamp_refused_bookkeeping device causes ss l = Ok l' → same_intent (lv_rows l) (lv_rows l') ∧
     ∀ k, lv_rows l' !! k ≠ lv_rows l !! k → live_as_frozen g l k ∧ ∃ s, s ∈ ss ∧ k = target_key s ∧
       ∃ c records, c ∈ bs_contributors s ∧ dict_get causes c = Some records ∧ records ≠ []).
Proof.
  intros Hs. split; intros device x.
  - intros now l l' H. apply (writes_keep_to_frozen g origins logicals l0 ss l1 _ (fun s => certified_of x s = true)) in H as [Hi Hk]; [|done|intros; by eapply stamp_certified_fenced].
    split; [done|]. intros k Hne. destruct (Hk k Hne) as (Hl & s & Hin & -> & Hc). split; [done|]. exists s. split_and!; [done..|]. intros c Hc'.
    apply list_elem_of_In in Hc'. by apply (proj1 (forallb_forall _ _) Hc) in Hc' as Hb%bool_decide_eq_true.
  - intros l l' H. apply (writes_keep_to_frozen g origins logicals l0 ss l1 _ (fun s => refused_records x s ≠ [])) in H as [Hi Hk]; [|done|intros; by eapply stamp_refused_fenced].
    split; [done|]. intros k Hne. destruct (Hk k Hne) as (Hl & s & Hin & -> & Hc). split; [done|]. exists s. split_and!; [done..|].
    unfold refused_records in Hc. induction (bs_contributors s) as [|c cs IH]; [done|]. cbn [flat_map] in Hc. destruct (dict_get x c) as [[|r rs]|] eqn:E; cbn [default app] in Hc.
    1,3: destruct (IH Hc) as (c' & rs & ? & ? & ?); exists c', rs; split_and!; [by right|done..].
    exists c, (r :: rs). split_and!; [by left|done..].
Qed.
