(* ===== verification/Attempt.v ===== *)
(** * Execution attempts

    src/nso_adapter/store/execution_attempt_store.py: the evidence a worker freezes before it sends, the checkpoints it records of
    NSO's answers, and the terminal transaction that turns them into row outcomes, bookkeeping and a job result.  A function that
    raises leaves the transaction to its caller, who rolls it back. *)

From stdpp Require Import base list gmap.
From Stdlib Require Import ZArith NArith Lia.
From S2P Require Import Prelude Json Sha256 RefusalCatalog RefusalProtocol Refusals Registry Document Asn Identity Store Claim StaticPlan InterfaceProof Hydrate Origins Encode DeviceBody Sender Evidence Bookkeeping.
Local Open Scope py_scope.
Local Open Scope Z_scope.

(** ** State *)

(** A member of [generation_authorities] *)
Record Authority := mkAuthorityRecord {
  au_generation : Z; au_digest : pystr; au_revisions : list (pystr * Z); au_push_seq : list (pystr * option Z); au_cohort : option Z }.
#[global] Instance Authority_eq_dec : EqDecision Authority. Proof. solve_decision. Defined.

Inductive AttemptPhase := at_prepared | at_response_recorded | at_terminal.
#[global] Instance AttemptPhase_eq_dec : EqDecision AttemptPhase. Proof. solve_decision. Defined.
Inductive Disposition := d_in_sync | d_refused | d_not_applied | d_unavailable.
#[global] Instance Disposition_eq_dec : EqDecision Disposition. Proof. solve_decision. Defined.
Definition disposition_value (d : Disposition) : pystr :=
  match d with d_in_sync => "in_sync" | d_refused => "refused" | d_not_applied => "not_applied" | d_unavailable => "unavailable" end.

(** [ApplyExecutionAttempt] *)
Record Attempt := mkAttempt {
  at_device : Z; at_generation : Z; at_job : option Z; at_correlation : Z; at_run : Z; at_kind : JobType; at_digest : pystr; at_token : pystr;
  at_revisions : list (pystr * Z); at_authorities : list Authority; at_manual : option pystr; at_tombstones : list Z;
  at_membership : list json; at_carriers : list pydict; at_origins : list json; at_prior : list BookSnapshot;
  at_phase : AttemptPhase; at_response_phase : option SenderPhase; at_responses : list (pystr * json); at_acknowledged : bool }.
Definition set_at_phase (p : AttemptPhase) (a : Attempt) : Attempt :=
  mkAttempt (at_device a) (at_generation a) (at_job a) (at_correlation a) (at_run a) (at_kind a) (at_digest a) (at_token a) (at_revisions a) (at_authorities a)
    (at_manual a) (at_tombstones a) (at_membership a) (at_carriers a) (at_origins a) (at_prior a) p (at_response_phase a) (at_responses a) (at_acknowledged a).
Definition set_at_response (p : option SenderPhase) (responses : list (pystr * json)) (acknowledged : bool) (a : Attempt) : Attempt :=
  mkAttempt (at_device a) (at_generation a) (at_job a) (at_correlation a) (at_run a) (at_kind a) (at_digest a) (at_token a) (at_revisions a) (at_authorities a)
    (at_manual a) (at_tombstones a) (at_membership a) (at_carriers a) (at_origins a) (at_prior a) at_response_recorded p responses acknowledged.

(** [ApplyExecutionAttempt.job_id] after its job was deleted ([ondelete=SET NULL]) *)
Definition unlinked (a : Attempt) : Attempt :=
  mkAttempt (at_device a) (at_generation a) None (at_correlation a) (at_run a) (at_kind a) (at_digest a) (at_token a) (at_revisions a) (at_authorities a)
    (at_manual a) (at_tombstones a) (at_membership a) (at_carriers a) (at_origins a) (at_prior a) (at_phase a) (at_response_phase a) (at_responses a) (at_acknowledged a).
Definition unlink_attempt (job_id : Z) (a : Attempt) : Attempt := if bool_decide (at_job a = Some job_id) then unlinked a else a.

(** [RowOutcome], and [UnsentOutcome] without its attempt *)
Record RowOutcome := mkOutcome {
  ro_attempt : Z; ro_identity : Contributor; ro_sources : list json; ro_logical : json; ro_carrier : json; ro_disposition : Disposition; ro_refusals : list json }.

Record Ev := mkEv { ev_live : Live; ev_attempts : gmap Z Attempt; ev_outcomes : list RowOutcome; ev_next_attempt : Z }.
Definition ev_db (e : Ev) : Db := lv_db (ev_live e).
Definition with_live (l : Live) (e : Ev) : Ev := mkEv l (ev_attempts e) (ev_outcomes e) (ev_next_attempt e).
Definition with_attempts (m : gmap Z Attempt) (e : Ev) : Ev := mkEv (ev_live e) m (ev_outcomes e) (ev_next_attempt e).
Definition with_outcomes (l : list RowOutcome) (e : Ev) : Ev := mkEv (ev_live e) (ev_attempts e) l (ev_next_attempt e).
Definition unlink_job (job_id : Z) (e : Ev) : Ev := with_attempts (unlink_attempt job_id <$> ev_attempts e) e.
Definition with_db (d : Db) (l : Live) : Live := mkLive d (lv_rows l) (lv_interfaces l) (lv_attributes l).

(** ** Ownership *)

(** [_lock_run] *)
Definition claim_matches (d : Db) (job_id : Z) (token : option pystr) : bool :=
  let device := match jobs d !! job_id with Some j => j_device_id j | None => None end in
  let claim := match device with Some device => claims d !! device | None => None end in
  match token, claim with
  | None, None => true
  | Some t, Some c => bool_decide (c_token c = t) && bool_decide (c_job_id c = Some job_id)
  | _, _ => false
  end.
Definition lock_run (d : Db) (job_id run_attempt : Z) (token : option pystr) (generation_id : Z) : res (Job * list Generation) :=
  let gs := generations_by_seq (fun g => is_some_eq (g_job_id g) job_id) d in
  match jobs d !! job_id, last gs with
  | Some j, Some highest =>
      if claim_matches d job_id token && owns running (Some run_attempt) j && (g_id highest =? generation_id) &&
         forallb (fun g => bool_decide (Some (g_device_id g) = j_device_id j)) gs && bool_decide (j_type j ∈ [apply_job; removal])
      then Ok (j, gs) else Raise AttemptOwnershipLost
  | _, _ => Raise AttemptOwnershipLost
  end.

(** [_generation_authorities] *)
Definition generation_authorities (gs : list Generation) : list Authority :=
  map (fun g => mkAuthorityRecord (g_id g) (g_digest g) (g_stream_revisions g) (g_source_push_seq g) (g_settlement_cohort g)) gs.

(** [validate_logical_membership] *)
Definition logical_matches (gs : list Generation) (l : LogicalRow) : bool :=
  match (match lr_generation l with Some id => List.find (fun g => g_id g =? id) (rev gs) | None => None end) with
  | None => false
  | Some g =>
      let revision := dict_get (g_stream_revisions g) (lr_stream l) in
      let push := default None (dict_get (g_source_push_seq g) (lr_stream l)) in
      bool_decide (is_Some revision) && bool_decide (lr_revision l = revision) && bool_decide (lr_push_seq l = push) &&
      bool_decide (lr_cohort l = g_settlement_cohort g) && bool_decide (so_generation (lr_carrier l) = Some (g_id g)) &&
      bool_decide (so_stream (lr_carrier l) = lr_stream l) && bool_decide (so_revision (lr_carrier l) = lr_revision l) &&
      bool_decide (so_cohort (lr_carrier l) = lr_cohort l) && bool_decide (so_push_seq (lr_carrier l) = lr_push_seq l)
  end.
Definition validate_logical_membership (gs : list Generation) (ls : list LogicalRow) : res unit :=
  _ ← guard_or (bool_decide (NoDup (map contributor ls))) (ValueError "Attempted logical membership must be unique");
  guard_or (forallb (logical_matches gs) ls) (ValueError "Logical membership does not match the frozen generation").

(** ** Preparation *)

Definition carrier_record (o : SettlementOwner) : pydict :=
  (match owner_record o with JObj d => d | _ => [] end) ++ [("source_table", JStr (so_table o)); ("content_identity", JStr (so_content o))].

(** The tombstones a removal document's operation planes name; anything but integers is refused *)
Definition tombstone_identity (v : json) : res Z :=
  match v with JInt z => if 0 <? z then Ok z else Raise (ValueError "Removal authority requires concrete tombstone identities")
  | _ => Raise (ValueError "Removal authority requires concrete tombstone identities") end.
Definition section_tombstones (document : pydict) (section : pystr) : res (list json) :=
  operation ← section_operation document section; list_of_json (default (JArr []) (dict_get operation "tombstone_ids")).
Definition removal_tombstones (document : pydict) : res (list Z) :=
  raw ← map_res (fun kv => section_tombstones document kv.1) (List.filter (fun kv => dict_mem section_registry kv.1) document);
  ids ← map_res tombstone_identity (concat raw); Ok (id_set ids).
Definition owns_tombstone (d : Db) (job_id : Z) (j : Job) (id : Z) : bool :=
  match tombstones d !! id with
  | Some t => bool_decide (Some (t_device_id t) = j_device_id j) && bool_decide (t_job_id t = Some job_id)
  | None => false
  end.

Definition same_run (job_id run_attempt : Z) (a : Attempt) : bool := (at_correlation a =? job_id) && (at_run a =? run_attempt).
Definition find_attempt (e : Ev) (job_id run_attempt : Z) : option (Z * Attempt) :=
  List.find (fun ia => same_run job_id run_attempt ia.2) (map_to_list (ev_attempts e)).

(** [prepare_execution_attempt] *)
Definition prepare_execution_attempt (job_id run_attempt : Z) (token : pystr) (generation_id : Z) (origins : OriginIndex) (logicals : list LogicalRow) :
    txn Ev Z := fun e =>
  let d := ev_db e in
  '(j, gs) ← lock_run d job_id run_attempt (Some token) generation_id;
  match last gs with
  | None => Raise AttemptOwnershipLost
  | Some g =>
      _ ← validate_logical_membership gs logicals;
      tombstones ← (if bool_decide (j_type j = removal) then removal_tombstones (g_document g) else Ok []);
      _ ← guard_or (forallb (owns_tombstone d job_id j) tombstones) AttemptOwnershipLost;
      '(prior, l) ← snapshot_bookkeeping g origins logicals (ev_live e);
      _ ← guard_or (match find_attempt e job_id run_attempt with None => 0 <? run_attempt | Some _ => false end) IntegrityError;
      let a := mkAttempt (g_device_id g) (g_id g) (Some job_id) job_id run_attempt (j_type j) (g_digest g) token
                 (dict_of_pairs (flat_map g_stream_revisions gs)) (generation_authorities gs) (g_apply_attempt_id g) tombstones
                 (map logical_record logicals) (map carrier_record (fromkeys (map lr_carrier logicals))) (origin_records origins) prior
                 at_prepared None [] false in
      Ok (ev_next_attempt e, mkEv l (<[ev_next_attempt e := a]> (ev_attempts e)) (ev_outcomes e) (ev_next_attempt e + 1))
  end.

(** [_owned_attempt] *)
Definition owned_attempt (e : Ev) (attempt_id job_id run_attempt : Z) (token : pystr) : res Attempt :=
  match ev_attempts e !! attempt_id with
  | None => Raise AttemptOwnershipLost
  | Some a =>
      '(j, gs) ← lock_run (ev_db e) job_id run_attempt (Some token) (at_generation a);
      if bool_decide (at_job a = Some job_id) && (at_run a =? run_attempt) && bool_decide (at_token a = token) &&
         bool_decide (Some (at_digest a) = g_digest <$> last gs) && bool_decide (at_authorities a = generation_authorities gs) &&
         negb (bool_decide (at_phase a = at_terminal))
      then Ok a else Raise AttemptOwnershipLost
  end.

(** ** Checkpoints *)

Definition phase_value (p : SenderPhase) : pystr :=
  match p with pre_commit_dry_run => "pre_commit_dry_run" | commit_phase => "commit" | post_commit_verification => "post_commit_verification" end.
Definition kind_record (kind : pystr) : json := JObj [("kind", JStr kind)].
Definition checkpoint_kind (v : json) : json := match v with JObj d => get d "kind" | _ => JNull end.
Definition is_kind (v : json) (kind : pystr) : bool := is_str (checkpoint_kind v) kind.

Section Checkpoints.
Context (rec_limit : nat).

(** The stored form of a classified response *)
Definition checkpoint_of (c : option classification) (phase : SenderPhase) (acknowledged : bool) : res json :=
  match c, phase, acknowledged with
  | Some (DefiniteRefusal []), _, _ => Raise (ValueError "A refusal checkpoint requires codec catalog records")
  | Some (DefiniteRefusal rs), _, _ => l ← catalog_records rec_limit rs; Ok (JObj [("kind", JStr "refused"); ("refusals", JArr l)])
  | Some ProtocolFault, _, _ => Ok (kind_record "protocol_fault")
  | Some Unavailable, _, _ => Ok (kind_record "unavailable")
  | Some OrdinaryRejection, _, _ => Ok (kind_record "rejected")
  | _, post_commit_verification, _ => Ok (kind_record "verified")
  | _, commit_phase, true => Ok (kind_record "acknowledged")
  | _, _, _ => Raise (ValueError "A response checkpoint requires safe classification")
  end.
(** The guards and writes of [record_classified_response] on an owned attempt *)
Definition record_response (a : Attempt) (ck : Checkpoint) : res Attempt :=
  let phase := ck_phase ck in
  checkpoint ← checkpoint_of (ck_classification ck) phase (ck_acknowledged ck);
  _ ← guard_or (negb (dict_mem (at_responses a) (phase_value phase))) (ValueError "A recorded response checkpoint is immutable");
  _ ← guard_or (negb (ck_acknowledged ck) || is_kind checkpoint "acknowledged") (ValueError "Commit acknowledgement requires a successful commit response");
  _ ← guard_or (match phase with post_commit_verification => at_acknowledged a | _ => true end)
        (ValueError "Verification requires a recorded commit acknowledgement");
  Ok (set_at_response (Some phase) (dict_set (at_responses a) (phase_value phase) checkpoint) (at_acknowledged a || ck_acknowledged ck) a).
(** [record_classified_response] *)
Definition record_classified_response (attempt_id job_id run_attempt : Z) (token : pystr) (ck : Checkpoint) : txn Ev unit := fun e =>
  a ← owned_attempt e attempt_id job_id run_attempt token;
  a ← record_response a ck;
  Ok (tt, with_attempts (<[attempt_id := a]> (ev_attempts e)) e).
End Checkpoints.

(** ** Outcomes *)

(** [origin.get(k)] of a stored origin or cause *)
Definition stored_member (v : json) (k : pystr) : json := match v with JObj d => get d k | _ => JNull end.
Definition names_row (identity cause origin : json) : bool :=
  forallb (fun k : pystr => bool_decide (stored_member origin k = stored_member cause k)) ["family"; "row"; "field"] &&
  match stored_member origin "logical_rows" with JArr l => bool_decide (identity ∈ l) | _ => false end.
Definition sources_of (l : LogicalRow) : list json := map source_record (lr_sources l).

(** The constraints of [row_outcome]: one outcome per logical row, refusals exactly on a refused one *)
Definition outcome_allowed (outcomes : list RowOutcome) (o : RowOutcome) : bool :=
  forallb (fun p => negb (bool_decide (ro_attempt p = ro_attempt o) && bool_decide (ro_identity p = ro_identity o))) outcomes &&
  Bool.eqb (bool_decide (ro_disposition o = d_refused)) (negb (bool_decide (ro_refusals o = []))).

Section Outcomes.
Context (rec_limit : nat).

(** [_stage_outcome] *)
Definition stage_outcome (attempt_id : Z) (a : Attempt) (l : LogicalRow) (d : Disposition) (refusals : list Refusal) : txn Ev RowOutcome := fun e =>
  let identity := logical_record l in
  _ ← guard_or (bool_decide (identity ∈ at_membership a)) (ValueError "Row outcome is outside attempted logical membership");
  causes ← catalog_records rec_limit refusals;
  _ ← guard_or (forallb (fun cause => existsb (names_row identity cause) (at_origins a)) causes) (ValueError "Refusal site does not belong to this logical outcome");
  let o := mkOutcome attempt_id (contributor l) (sources_of l) (public_record l) (owner_record (lr_carrier l)) d causes in
  _ ← validate_catalog_payload rec_limit causes;
  _ ← guard_or (outcome_allowed (ev_outcomes e) o) IntegrityError;
  Ok (o, with_outcomes (ev_outcomes e ++ [o]) e).
(** [stage_row_outcome] *)
Definition stage_row_outcome (attempt_id job_id run_attempt : Z) (token : pystr) (l : LogicalRow) (d : Disposition) (refusals : list Refusal) : txn Ev RowOutcome := fun e =>
  a ← owned_attempt e attempt_id job_id run_attempt token; stage_outcome attempt_id a l d refusals e.

(** [_identity] of a stored logical row *)
Definition stored_identity (v : json) : res Contributor :=
  d ← dict_of_json v; stream ← text_at d "stream"; row ← row_at d "row"; cohort ← opt_int_at d "settlement_cohort"; Ok (mkContributor stream row cohort).

Definition same_set {A} `{EqDecision A} (a b : list A) : bool := forallb (fun x => bool_decide (x ∈ b)) a && forallb (fun x => bool_decide (x ∈ a)) b.
(** Every contributor of a snapshot came to nothing *)
Definition unnamed (dispositions : list (Contributor * Disposition)) (s : BookSnapshot) : res bool :=
  ds ← map_res (fun c => match dict_get dispositions c with Some d => Ok d | None => Raise KeyError end) (bs_contributors s);
  Ok (forallb (fun d => bool_decide (d ∈ [d_not_applied; d_unavailable])) ds).
(** [_restore_attempt_bookkeeping] *)
Definition restore_attempt_bookkeeping (attempt_id : Z) (a : Attempt) : txn Ev (list (pystr * Z)) := fun e =>
  let outcomes := List.filter (fun o => ro_attempt o =? attempt_id) (ev_outcomes e) in
  let dispositions := dict_of_pairs (map (fun o => (ro_identity o, ro_disposition o)) outcomes) in
  membership ← map_res stored_identity (at_membership a);
  _ ← guard_or (same_set (dict_keys dispositions) membership) (ValueError "Restoration requires the complete staged logical outcome set");
  flags ← map_res (fun s => b ← unnamed dispositions s; Ok (s, b)) (at_prior a);
  '(restored, l) ← restore_bookkeeping (at_device a) (map fst (List.filter snd flags)) (ev_live e);
  Ok (restored, with_live l e).
(** [restore_prior_bookkeeping] *)
Definition restore_prior_bookkeeping (attempt_id job_id run_attempt : Z) (token : pystr) : txn Ev (list (pystr * Z)) := fun e =>
  a ← owned_attempt e attempt_id job_id run_attempt token; restore_attempt_bookkeeping attempt_id a e.

(** ** Evidence *)

(** The kinds of [_disposition_evidence] *)
Inductive EvidenceKind := ev_refused | ev_rejected | ev_unavailable | ev_post_commit_unavailable | ev_attribution_failed.
Definition kind_value (k : EvidenceKind) : pystr :=
  match k with ev_refused => "refused" | ev_rejected => "rejected" | ev_unavailable => "unavailable" | ev_post_commit_unavailable => "post_commit_unavailable"
  | ev_attribution_failed => "attribution_failed" end.
Definition Causes : Type := list (pystr * list json).

Definition response_of (a : Attempt) (phase : SenderPhase) : json := default (JObj []) (dict_get (at_responses a) (phase_value phase)).
Definition decisive_phase (a : Attempt) : SenderPhase := if dict_mem (at_responses a) (phase_value commit_phase) then commit_phase else pre_commit_dry_run.
Definition checkpoint_refusals (v : json) : res (list Refusal) := payload ← list_of_json (stored_member v "refusals"); refusals_from_payload rec_limit payload.
(** The causes of each logical row, in the order of the sites *)
Definition add_cause (causes : Causes) (site : LogicalRow * list json) : Causes :=
  let key := content_digest (public_record site.1) in dict_set causes key (default [] (dict_get causes key) ++ site.2).
Definition site_causes (attributed : list AttributedRefusal) : res Causes :=
  sites ← map_res (fun a => l ← catalog_records rec_limit [ar_refusal a]; Ok (map (fun row => (row, l)) (ar_rows a))) attributed;
  Ok (fold_left add_cause (concat sites) []).
(** [_disposition_evidence] *)
Definition disposition_evidence (a : Attempt) : res (EvidenceKind * Causes * list json) :=
  let phase := decisive_phase a in
  let checkpoint := response_of a phase in
  if negb (at_acknowledged a) && is_kind checkpoint "refused" then
    records ← checkpoint_refusals checkpoint;
    origins ← origins_from_records (at_origins a);
    match resolve_refusals records origins with
    | inr _ => Ok (ev_attribution_failed, [], [])
    | inl attributed =>
        causes ← site_causes attributed;
        document_records ← attributed_catalog_records rec_limit attributed origins (phase_value phase);
        Ok (ev_refused, causes, document_records)
    end
  else if at_acknowledged a then
    let verification := response_of a post_commit_verification in
    if is_kind verification "refused" then
      origins ← origins_from_records (at_origins a);
      records ← checkpoint_refusals verification;
      match resolve_refusals records origins with
      | inr _ => Ok (ev_attribution_failed, [], [])
      | inl attributed =>
          verification_records ← attributed_catalog_records rec_limit attributed origins "post_commit_verification";
          Ok (ev_post_commit_unavailable, [], verification_records)
      end
    else Ok (ev_post_commit_unavailable, [], [])
  else if is_kind checkpoint "rejected" then Ok (ev_rejected, [], [])
  else Ok (ev_unavailable, [], []).
(** NSO decided against the transaction *)
Definition definite (k : EvidenceKind) : bool := match k with ev_refused | ev_rejected => true | _ => false end.
End Outcomes.

(** ** Results *)

Record Count := mkCount { n_in_sync : Z; n_apply_failed : Z; n_not_applied : Z; n_unavailable : Z }.
Definition no_count : Count := mkCount 0 0 0 0.
Definition count_one (d : Disposition) (c : Count) : Count :=
  match d with
  | d_in_sync => mkCount (n_in_sync c + 1) (n_apply_failed c) (n_not_applied c) (n_unavailable c)
  | d_refused => mkCount (n_in_sync c) (n_apply_failed c + 1) (n_not_applied c) (n_unavailable c)
  | d_not_applied => mkCount (n_in_sync c) (n_apply_failed c) (n_not_applied c + 1) (n_unavailable c)
  | d_unavailable => mkCount (n_in_sync c) (n_apply_failed c) (n_not_applied c) (n_unavailable c + 1)
  end.
Definition count_json (c : Count) : json :=
  JObj [("in_sync", JInt (n_in_sync c)); ("apply_failed", JInt (n_apply_failed c)); ("not_applied", JInt (n_not_applied c)); ("unavailable", JInt (n_unavailable c))].
Definition count_key (key : pystr) : pystr := key +:+ "_count_by_outcome".
Definition empty_counts : list (pystr * Count) := dict_of_pairs (flat_map (fun se => map (fun k => (count_key k, no_count)) (se_result_keys se.2)) section_registry).

Definition priority (d : Disposition) : Z := match d with d_in_sync => 0 | d_not_applied => 1 | d_unavailable => 2 | d_refused => 3 end.
Definition worst (d : Disposition) (ds : list Disposition) : Disposition := fold_left (fun a b => if priority a <? priority b then b else a) ds d.
Definition public_carrier (carrier : pydict) : pydict := List.filter (fun kv => negb (mem kv.1 ["source_table"; "content_identity"])) carrier.
Definition members_of (outcomes : list RowOutcome) (carrier : pydict) : list RowOutcome :=
  List.filter (fun o => bool_decide (ro_carrier o = JObj (public_carrier carrier))) outcomes.
Definition carrier_disposition (outcomes : list RowOutcome) (carrier : pydict) : res Disposition :=
  match map ro_disposition (members_of outcomes carrier) with
  | [] => Raise (ValueError "An attempted carrier requires logical outcomes")
  | d :: ds => Ok (worst d ds)
  end.
(** [_carrier_results] *)
Fixpoint carrier_results (outcomes : list RowOutcome) (attempted : list pydict) (carriers : list json) (counts : list (pystr * Count)) :
    res (list json * list (pystr * Count)) :=
  match attempted with
  | [] => Ok (carriers, counts)
  | carrier :: attempted =>
      d ← carrier_disposition outcomes carrier;
      stream ← text_at carrier "stream";
      key ← stream_result_key stream;
      let public := JObj (dict_set (public_carrier carrier) "disposition" (JStr (disposition_value d))) in
      carrier_results outcomes attempted (carriers ++ [public])
        (dict_set counts (count_key key) (count_one d (default no_count (dict_get counts (count_key key)))))
  end.
(** [_outcome_result] *)
Definition outcome_json (o : RowOutcome) : json :=
  JObj (fold_left (fun d kv => dict_set d kv.1 kv.2) [("disposition", JStr (disposition_value (ro_disposition o))); ("refusals", JArr (ro_refusals o))]
          (match ro_logical o with JObj d => d | _ => [] end)).
Definition outcome_result (attempted : list pydict) (outcomes : list RowOutcome) (refusals : list json) (acknowledged : bool) : res pydict :=
  '(carriers, counts) ← carrier_results outcomes attempted [] empty_counts;
  Ok (map (fun kc => (kc.1, count_json kc.2)) counts ++
      [("row_outcomes", JArr (map outcome_json outcomes)); ("refusals", JArr refusals); ("settlement_owners", JArr carriers); ("commit_acknowledged", JBool acknowledged)]).

(** [static_route_fingerprint] *)
Definition static_route_fingerprint (row : hrow) : res pystr := entry ← static_route_entry (loaded row); Ok (content_digest (JObj entry)).
(** The outcome of each static-route row: the last one a source names *)
Definition route_sources (o : RowOutcome) : list (json * RowOutcome) :=
  flat_map (fun s => if is_str (stored_member s "source_table") "static_route_intent"
                     then match stored_member s "frozen_row_identity" with JArr (i :: _) => [(i, o)] | _ => [] end else []) (ro_sources o).
Definition route_result (error : json) (row : hrow) (o : RowOutcome) : res json :=
  t ← row_triple (hr_cols row);
  fingerprint ← static_route_fingerprint row;
  let failed := bool_decide (ro_disposition o ∈ [d_refused; d_not_applied]) in
  Ok (JObj [("route_id", attr row "route_id"); ("row_id", attr row "id"); ("key", triple_json t); ("fingerprint", JStr fingerprint);
            ("generation", attr row "intent_generation"); ("outcome", JStr (if failed then "apply_failed" else "unproven"));
            ("error", match ro_disposition o with
                      | d_refused => JObj [("code", JStr "refused"); ("message", JStr "The device refused this route");
                                           ("detail", JObj [("refusals", JArr (ro_refusals o))])]
                      | d_not_applied => error
                      | _ => JNull
                      end)]).
(** [route_outcome_results] *)
Definition route_outcome_results (g : Generation) (outcomes : list RowOutcome) (error : json) : res (list json) :=
  rows ← (if dict_mem (g_document g) "static_route" then h ← hydrate_section (g_document g) "static_route"; Ok (default [] (dict_get h "static_route_intent"))
          else Ok []);
  let by_id := dict_of_pairs (flat_map route_sources outcomes) in
  found ← map_res (fun row => match dict_get by_id (attr row "id") with Some o => r ← route_result error row o; Ok [r] | None => Ok [] end) rows;
  Ok (concat found).
Definition add_routes (result : pydict) (routes : list json) : pydict := match routes with [] => result | _ => dict_set result "static_route_results" (JArr routes) end.

(** [unsent_execution_result]; an [UnsentOutcome] has no attempt *)
Definition unsent_outcome (l : LogicalRow) : RowOutcome :=
  mkOutcome 0 (contributor l) (sources_of l) (public_record l) (owner_record (lr_carrier l)) d_not_applied [].
Definition unsent_execution_result (g : Generation) (membership : list LogicalRow) (error : json) : res pydict :=
  let outcomes := map unsent_outcome membership in
  let carriers := map (fun o => match owner_record o with JObj d => d | _ => [] end) (fromkeys (map lr_carrier membership)) in
  result ← outcome_result carriers outcomes [] false;
  routes ← route_outcome_results g outcomes error;
  Ok (add_routes result routes).

(** ** Settlement *)

(** [_EXIT_MESSAGES] *)
Inductive ExitReason := exit_cancelled | exit_timeout | exit_runner_failed | exit_removal_failed | exit_disposed | exit_orphaned | exit_claim_expired.
Definition exit_value (x : ExitReason) : pystr :=
  match x with
  | exit_cancelled => "cancelled" | exit_timeout => "timeout" | exit_runner_failed => "runner_failed" | exit_removal_failed => "removal_failed"
  | exit_disposed => "disposed" | exit_orphaned => "orphaned" | exit_claim_expired => "claim_expired"
  end.
Definition exit_message (x : ExitReason) : pystr :=
  match x with
  | exit_cancelled => "Execution cancelled" | exit_timeout => "Execution budget expired" | exit_runner_failed => "Execution runner failed"
  | exit_removal_failed => "Removal runner failed" | exit_disposed => "Execution ownership disposed" | exit_orphaned => "Execution interrupted by restart"
  | exit_claim_expired => "Execution claim expired"
  end.
Definition job_error (k : EvidenceKind) (x : ExitReason) (terminal_error : option pydict) : json :=
  match k, terminal_error with
  | ev_attribution_failed, _ => JObj [("code", JStr "attribution_failed"); ("message", JStr "Refusal attribution failed"); ("detail", JObj [])]
  | _, Some ((_ :: _) as error) => JObj error
  | _, _ => JObj [("code", JStr (kind_value k)); ("message", JStr (exit_message x)); ("detail", JObj [])]
  end.
(** A delivery nobody can account for *)
Definition note_delivery (k : EvidenceKind) (x : ExitReason) (a : Attempt) : Attempt :=
  match k with
  | ev_unavailable | ev_attribution_failed =>
      if dict_mem (at_responses a) "delivery" then a
      else set_at_response (at_response_phase a) (at_responses a ++ [("delivery", JObj [("kind", JStr "unavailable"); ("reason", JStr (exit_value x))])]) (at_acknowledged a) a
  | _ => a
  end.

Inductive Disposed := no_attempt_found | already_terminal | attempt_was_settled.

Section Settlement.
Context (rec_limit : nat).
Context (unprepared_evidence : Db -> Job -> option json -> res (option pydict)).

(** The outcome of one frozen row *)
Definition row_disposition (k : EvidenceKind) (causes : list json) : Disposition :=
  match causes with [] => if definite k then d_not_applied else d_unavailable | _ => d_refused end.
Definition settle_row (attempt_id : Z) (a : Attempt) (k : EvidenceKind) (causes : Causes) (frozen : json) : txn Ev RowOutcome := fun e =>
  l ← logical_from_record frozen;
  let row_causes := default [] (dict_get causes (content_digest (public_record l))) in
  refusals ← refusals_from_payload rec_limit row_causes;
  stage_outcome rec_limit attempt_id a l (row_disposition k row_causes) refusals e.
Fixpoint for_rows (f : json -> txn Ev RowOutcome) (rows : list json) : txn Ev (list RowOutcome) :=
  match rows with [] => mret [] | r :: rows => o ← f r; os ← for_rows f rows; mret (o :: os) end.
Definition staged_causes (outcomes : list RowOutcome) : list (Contributor * list json) :=
  dict_of_pairs (flat_map (fun o => match ro_refusals o with [] => [] | rs => [(ro_identity o, rs)] end) outcomes).

(** The rows, bookkeeping and result of an attempt a settlement owns *)
Definition settle_evidence (attempt_id : Z) (a : Attempt) (g : Generation) (k : EvidenceKind) (causes : Causes) (records : list json) (error : json) :
    txn Ev pydict := fun e =>
  '(outcomes, e) ← for_rows (settle_row attempt_id a k causes) (at_membership a) e;
  '(_, e) ← restore_attempt_bookkeeping attempt_id a e;
  l ← stamp_refused_bookkeeping (at_device a) (staged_causes outcomes) (at_prior a) (ev_live e);
  result ← outcome_result (at_carriers a) outcomes records (at_acknowledged a);
  routes ← route_outcome_results g outcomes error;
  Ok (add_routes result routes, with_live l e).
Definition settle_attempt (attempt_id : Z) (a : Attempt) (g : Generation) (x : ExitReason) (terminal_error : option pydict) : txn Ev (pydict * json * bool) := fun e =>
  '(k, causes, records) ← disposition_evidence rec_limit a;
  let error := job_error k x terminal_error in
  '(result, e) ← settle_evidence attempt_id a g k causes records error (with_attempts (<[attempt_id := note_delivery k x a]> (ev_attempts e)) e);
  Ok ((result, error, definite k), e).
Definition attempt_matches (a : Attempt) (job_id : Z) (token : option pystr) (gs : list Generation) : bool :=
  bool_decide (at_job a = Some job_id) && match token with Some t => bool_decide (at_token a = t) | None => true end &&
  bool_decide (Some (at_digest a) = g_digest <$> last gs) && bool_decide (at_authorities a = generation_authorities gs).
Definition lift_db {A} (m : txn Db A) : txn Ev A := fun e => '(x, d) ← m (ev_db e); Ok (x, with_live (with_db d (ev_live e)) e).
(** [dispose_execution_attempt] *)
Definition dispose_execution_attempt (job_id run_attempt : Z) (token : option pystr) (x : ExitReason) (terminal_error : option pydict) : txn Ev Disposed := fun e =>
  match find_attempt e job_id run_attempt with
  | None => Ok (no_attempt_found, e)
  | Some (attempt_id, a) =>
      if bool_decide (at_phase a = at_terminal) then Ok (already_terminal, e)
      else
        '(j, gs) ← lock_run (ev_db e) job_id run_attempt token (at_generation a);
        match last gs with
        | None => Raise AttemptOwnershipLost
        | Some g =>
            _ ← guard_or (attempt_matches a job_id token gs) AttemptOwnershipLost;
            '((result, error, certain), e) ← settle_attempt attempt_id a g x terminal_error e;
            '(write, e) ← lift_db (terminalize unprepared_evidence job_id job_failed running (Some run_attempt) (Some result) (Some error) None
                                     (Some (if certain : bool then gen_failed else outcome_unknown))) e;
            match write with
            | None => Raise AttemptOwnershipLost
            | Some _ => Ok (attempt_was_settled, with_attempts (alter (set_at_phase at_terminal) attempt_id (ev_attempts e)) e)
            end
        end
  end.

(** [complete_execution_result] *)
Definition certified_row (attempt_id : Z) (a : Attempt) (dispositions : list (Contributor * Disposition)) (frozen : json) : txn Ev RowOutcome := fun e =>
  l ← logical_from_record frozen;
  identity ← stored_identity frozen;
  let d := default d_unavailable (dict_get dispositions identity) in
  _ ← guard_or (negb (bool_decide (d = d_refused))) (ValueError "Completion requires a certified logical disposition");
  stage_outcome rec_limit attempt_id a l d [] e.
Definition complete_execution_result (job_id run_attempt : Z) (token : pystr) (dispositions : list (Contributor * Disposition)) (now : pystr) : txn Ev pydict := fun e =>
  match List.find (fun ia => bool_decide (at_job ia.2 = Some job_id) && (at_run ia.2 =? run_attempt)) (map_to_list (ev_attempts e)) with
  | None => Raise (ValueError "Terminal execution requires its prepared attempt")
  | Some (attempt_id, _) =>
      a ← owned_attempt e attempt_id job_id run_attempt token;
      '(outcomes, e) ← for_rows (certified_row attempt_id a dispositions) (at_membership a) e;
      '(_, e) ← restore_attempt_bookkeeping attempt_id a e;
      l ← stamp_certified_bookkeeping (at_device a) (map (fun cd => (cd.1, disposition_value cd.2)) dispositions) now (at_prior a) (ev_live e);
      result ← outcome_result (at_carriers a) outcomes [] (at_acknowledged a);
      Ok (result, with_attempts (alter (set_at_phase at_terminal) attempt_id (ev_attempts e)) (with_live l e))
  end.
End Settlement.
