(* ===== verification/AttemptProps.v ===== *)
(** * What an attempt's evidence says

    A send recorded checkpoint by checkpoint is settled by what NSO answered; settling an attempt is the abstract disposal the
    claim protocol is proved against; and a settlement accounts for every frozen row and carrier once. *)

From stdpp Require Import base list gmap.
From Stdlib Require Import ZArith NArith Lia.
From S2P Require Import Prelude Json Sha256 RefusalCatalog RefusalProtocol RefusalProtocolProps Refusals Registry Document Asn Identity Store Claim StaticPlan VaultRef Hydrate Origins DeviceBody OriginProps Sender SenderProps Evidence Bookkeeping BookkeepingProps Attempt.
Local Open Scope py_scope.
Local Open Scope Z_scope.

(** ** Recording a send *)

Section Recording.
Context (rec_limit : nat) (st : Settings) (nso : list Request -> Request -> option Response) (a0 : Attempt).

(** The attempt after some checkpoints, and the callback that records one more: each is its own committed transaction. *)
Fixpoint record_all (a : Attempt) (cks : list Checkpoint) : res Attempt :=
  match cks with [] => Ok a | ck :: cks => a ← record_response rec_limit a ck; record_all a cks end.
Definition recorder (before : list Checkpoint) (ck : Checkpoint) : res unit :=
  a ← record_all a0 before; _ ← record_response rec_limit a ck; Ok tt.

Lemma record_all_app a l l' : record_all a (l ++ l') = (a ← record_all a l; record_all a l').
Proof. revert a. induction l as [|ck l IH]; intros a; [done|]. cbn [app record_all]. destruct (record_response rec_limit a ck); [apply IH|done]. Qed.

(** A step of the sender that leaves the recorded attempt in [Q] *)
Definition recorded (Q : Attempt -> Prop) (t : Trace) : Prop := ∃ a, record_all a0 (tr_checkpoints t) = Ok a ∧ Q a.
Definition keeps {A} (Q : Attempt -> Prop) (m : sends A) : Prop := ∀ t r t', recorded Q t → m t = (r, t') → recorded Q t'.
Lemma sends_keep_ret {A} Q (x : A) : keeps Q (mret x : sends A).
Proof. intros t r t' H [= _ <-]. done. Qed.
Lemma keeps_fails {A} Q e : keeps Q (fails e : sends A).
Proof. intros t r t' H [= _ <-]. done. Qed.
Lemma sends_keep_bind {A B} Q (m : sends A) (f : A -> sends B) : keeps Q m → (∀ x, keeps Q (f x)) → keeps Q (x ← m; f x).
Proof.
  intros Hm Hf t r t' H. unfold mbind, sends_bind. destruct (m t) as [x t1] eqn:E. apply Hm in E; [|done]. destruct x as [x|e|e]; [by apply Hf|by intros [= _ <-]..].
Qed.
Lemma keeps_put Q url payload : keeps Q (put nso url payload).
Proof. intros t r t' H [= _ <-]. done. Qed.
Lemma keeps_classify Q answer : keeps Q (classify rec_limit answer).
Proof. intros t r t' H. rewrite classify_answer. by intros [= _ <-]. Qed.
Lemma keeps_response_json Q r0 : keeps Q (response_json r0).
Proof. intros t r t' H E. by apply response_json_spec in E as [-> _]. Qed.
Lemma keeps_detail Q c answer : keeps Q (detail_of c answer).
Proof. intros t r t' H E. by apply detail_of_spec in E as [-> _]. Qed.
Lemma keeps_checkpoint (Q : Attempt -> Prop) phase c acknowledged :
  (∀ a a', Q a → record_response rec_limit a (mkCheckpoint phase c acknowledged) = Ok a' → Q a') → keeps Q (checkpoint (Some recorder) phase c acknowledged).
Proof.
  intros HQ t r t' (a & Ha & Hq). unfold checkpoint, recorder. rewrite Ha. cbn [mbind res_bind]. destruct (record_response rec_limit a _) as [a'|e] eqn:E; cbn [mbind res_bind].
  - intros [= _ <-]. exists a'. cbn [tr_checkpoints]. rewrite record_all_app, Ha. cbn [mbind res_bind record_all]. rewrite E. split; [done|by eapply HQ].
  - intros [= _ <-]. by exists a.
Qed.

Lemma record_response_Ok a ck a' : record_response rec_limit a ck = Ok a' ↔
  ∃ v, checkpoint_of rec_limit (ck_classification ck) (ck_phase ck) (ck_acknowledged ck) = Ok v ∧ dict_mem (at_responses a) (phase_value (ck_phase ck)) = false ∧
    (ck_acknowledged ck = true → is_kind v "acknowledged" = true) ∧ (ck_phase ck = post_commit_verification → at_acknowledged a = true) ∧
    a' = set_at_response (Some (ck_phase ck)) (dict_set (at_responses a) (phase_value (ck_phase ck)) v) (at_acknowledged a || ck_acknowledged ck) a.
Proof.
  unfold record_response. rewrite bind_Ok. split.
  - intros (v & Hv & H). exists v. rewrite !bind_Ok in H. destruct H as ([] & H1%guard_or_Ok & H). rewrite bind_Ok in H. destruct H as ([] & H2%guard_or_Ok & H).
    rewrite bind_Ok in H. destruct H as ([] & H3%guard_or_Ok & H). apply Ok_inj in H. apply negb_true_iff in H1. apply orb_prop in H2.
    split_and!; [done|done|intros Hk; rewrite Hk in H2; by destruct H2|intros Hp; by rewrite Hp in H3|done].
  - intros (v & Hv & H1 & H2 & H3 & ->). exists v. split; [done|]. rewrite H1. cbn [negb guard_or mbind res_bind].
    assert (negb (ck_acknowledged ck) || is_kind v "acknowledged" = true) as -> by (destruct (ck_acknowledged ck); [by rewrite H2|done]). cbn [guard_or mbind res_bind].
    destruct (ck_phase ck); [done|done|]. by rewrite H3.
Qed.

(** After an acknowledged commit only the verification is recorded. *)
Definition committed_evidence (v : json) (a : Attempt) : Prop :=
  at_acknowledged a = true ∧ dict_get (at_responses a) (phase_value commit_phase) = Some v ∧ at_origins a = at_origins a0.
Lemma keeps_verification v c : keeps (committed_evidence v) (checkpoint (Some recorder) post_commit_verification c false).
Proof.
  apply keeps_checkpoint. intros a a' (H1 & H2 & H3) (w & _ & _ & _ & _ & ->)%record_response_Ok. split_and!; [cbn; by rewrite H1| |done].
  cbn [at_responses set_at_response ck_phase]. by rewrite dict_get_set_ne.
Qed.
Lemma keeps_verify v url payload device no_networking : keeps (committed_evidence v) (verify_native_or_raise rec_limit st nso (Some recorder) url payload device no_networking).
Proof.
  unfold verify_native_or_raise, native_dry_run. destruct (st_verify st).
  2: { apply sends_keep_bind; [apply keeps_verification|intros; apply sends_keep_ret]. }
  apply sends_keep_bind.
  - apply sends_keep_bind; [apply keeps_put|]. intros answer. apply sends_keep_bind; [apply keeps_classify|]. intros [c|].
    + apply sends_keep_bind; [apply keeps_verification|]. intros _. destruct (raises true c); [|apply sends_keep_ret].
      apply sends_keep_bind; [apply keeps_detail|intros; apply keeps_fails].
    + destruct answer as [r|]; [|apply sends_keep_ret]. destruct (rs_status r =? 204); [apply sends_keep_ret|]. apply sends_keep_bind; [apply keeps_response_json|]. intros body.
      cbv zeta. destruct (device_delta_from_dry_run body device); [apply sends_keep_ret|]. apply sends_keep_bind; [apply keeps_verification|intros; apply sends_keep_ret].
  - intros [d|]; [|apply sends_keep_ret]. destruct (blank_delta d); (apply sends_keep_bind; [apply keeps_verification|]); intros; [apply sends_keep_ret|apply keeps_fails].
Qed.

(** The stored form of NSO's answer to the commit *)
Definition commit_value (answered : option classification) : json :=
  match answered with
  | None | Some NotAnError => kind_record "acknowledged"
  | Some (DefiniteRefusal rs) => JObj [("kind", JStr "refused"); ("refusals", JArr (map record rs))]
  | Some ProtocolFault => kind_record "protocol_fault"
  | Some Unavailable => kind_record "unavailable"
  | Some OrdinaryRejection => kind_record "rejected"
  end.
Lemma problem_refusals answer rs : problem rec_limit answer = Some (DefiniteRefusal rs) → rs ≠ [] ∧ Forall valid_refusal rs.
Proof.
  unfold problem. destruct answer as [r|].
  - destruct (classify_error rec_limit (Some (rs_status r)) (BodyBytes (rs_content r))) as [[]|] eqn:E; try done. intros [= ->]. by eapply definite_records.
  - by destruct (classify_error rec_limit None BodyNone) as [[]|] eqn:E; try done.
Qed.
Lemma problem_error answer : problem rec_limit answer ≠ Some NotAnError.
Proof. unfold problem. destruct (match answer with None => _ | Some r => _ end) as [[]|]; done. Qed.

Hypothesis (Hlimit : (5 <= rec_limit)%nat) (Hfresh : at_responses a0 = [] ∧ at_acknowledged a0 = false).

Lemma commit_recorded answer : let answered := problem rec_limit answer in
  let acknowledged := match answered with None => true | Some _ => false end in
  record_response rec_limit a0 (mkCheckpoint commit_phase answered acknowledged) =
    Ok (set_at_response (Some commit_phase) [(phase_value commit_phase, commit_value answered)] acknowledged a0).
Proof.
  intros answered acknowledged. apply record_response_Ok. cbn [ck_classification ck_phase ck_acknowledged]. destruct Hfresh as [-> ->]. exists (commit_value answered).
  subst acknowledged. split_and!; [|done|by destruct answered|done|done].
  subst answered. destruct (problem rec_limit answer) as [[rs| | | |]|] eqn:E; try done; [|by apply problem_error in E].
  apply problem_refusals in E as [Hne Hv]. cbn [checkpoint_of commit_value]. rewrite catalog_all by done. by destruct rs.
Qed.

(** What a settlement may make of NSO's answer to a commit *)
Definition settled_as (answered : option classification) (k : EvidenceKind) : Prop :=
  match answered with
  | None | Some NotAnError => k = ev_post_commit_unavailable ∨ k = ev_attribution_failed
  | Some (DefiniteRefusal _) => k = ev_refused ∨ k = ev_attribution_failed
  | Some OrdinaryRejection => k = ev_rejected
  | Some ProtocolFault | Some Unavailable => k = ev_unavailable
  end.
Lemma acknowledged_evidence a k causes records : at_acknowledged a = true → disposition_evidence rec_limit a = Ok (k, causes, records) →
  k = ev_post_commit_unavailable ∨ k = ev_attribution_failed.
Proof.
  intros Ha. unfold disposition_evidence. rewrite Ha. cbn [negb andb]. destruct (is_kind _ _); [|intros H; apply Ok_inj in H; left; congruence].
  rewrite bind_Ok. intros (o & _ & H). rewrite bind_Ok in H. destruct H as (rs & _ & H). destruct (resolve_refusals rs o) as [at_|]; [|apply Ok_inj in H; right; congruence].
  rewrite bind_Ok in H. destruct H as (l & _ & H). apply Ok_inj in H. left. congruence.
Qed.
Lemma decisive_commit a v : at_responses a = [(phase_value commit_phase, v)] → decisive_phase a = commit_phase ∧ response_of a commit_phase = v.
Proof. intros H. unfold decisive_phase, response_of, dict_mem. rewrite H. cbn [dict_get]. by rewrite decide_True. Qed.
Lemma unacknowledged_evidence a answered k causes records : answered ≠ Some NotAnError → is_Some answered → at_acknowledged a = false →
  at_responses a = [(phase_value commit_phase, commit_value answered)] → disposition_evidence rec_limit a = Ok (k, causes, records) → settled_as answered k.
Proof.
  intros Hn [c ->] Ha [Hd Hv]%decisive_commit. unfold disposition_evidence. rewrite Ha, Hd, Hv. cbn [negb andb]. cbv zeta.
  destruct c as [rs| | | |]; [| | | |done]; cbn [settled_as].
  - replace (is_kind _ _) with true by reflexivity. rewrite bind_Ok. intros (l & _ & H). rewrite bind_Ok in H. destruct H as (o & _ & H).
    destruct (resolve_refusals l o); [|apply Ok_inj in H; right; congruence].
    rewrite bind_Ok in H. destruct H as (cs & _ & H). rewrite bind_Ok in H. destruct H as (d & _ & H). apply Ok_inj in H. left. congruence.
  - replace (is_kind _ "refused") with false by reflexivity. replace (is_kind _ "rejected") with false by reflexivity. intros H. apply Ok_inj in H. congruence.
  - replace (is_kind _ "refused") with false by reflexivity. replace (is_kind _ "rejected") with false by reflexivity. intros H. apply Ok_inj in H. congruence.
  - replace (is_kind _ "refused") with false by reflexivity. replace (is_kind _ "rejected") with true by reflexivity. intros H. apply Ok_inj in H. congruence.
Qed.

(** What a recorded send leaves in the attempt *)
Lemma send_recorded base device containers no_networking strict r t :
  apply_device_intent rec_limit st nso (Some recorder) base device containers no_dry_run no_networking strict empty_trace = (r, t) →
  ∃ a, record_all a0 (tr_checkpoints t) = Ok a ∧
    ((tr_requests t = [] ∧ a = a0) ∨
     ∃ url payload rest, tr_requests t = commit_request st no_networking url payload :: rest ∧
       let answered := problem rec_limit (nso [] (commit_request st no_networking url payload)) in
       at_acknowledged a = bool_decide (answered = None) ∧
       (is_Some answered → at_responses a = [(phase_value commit_phase, commit_value answered)])).
Proof.
  intros [(e & -> & ->)|(url & payload & _ & _ & v & Hc & _)]%send_parts; [exists a0; split; [done|by left]|].
  pose proof Hc as Hreq. apply commit_spec in Hreq as (rest & Hreq & _). revert Hc. unfold commit_device_intent, put. unfold mbind at 1, sends_bind at 1. cbv beta zeta iota.
  unfold mbind at 1, sends_bind at 1. rewrite classify_answer. cbn [tr_requests empty_trace app]. fold (commit_request st no_networking url payload) in *.
  set (answered := problem rec_limit (nso [] (commit_request st no_networking url payload))).
  pose proof (commit_recorded (nso [] (commit_request st no_networking url payload))) as Hrec. fold answered in Hrec. cbv zeta in Hrec.
  unfold mbind, sends_bind, checkpoint at 1, recorder at 1. cbn [tr_checkpoints].
  change (record_all a0 (tr_checkpoints empty_trace)) with (Ok a0). unfold mbind at 1, res_bind at 1. rewrite Hrec. cbn [mbind res_bind].
  set (a1 := set_at_response _ _ _ a0) in *. set (ck := mkCheckpoint _ _ _) in *. set (t1 := mkTrace _ (_ ++ [ck])).
  assert (record_all a0 (tr_checkpoints t1) = Ok a1) as H1 by (change (record_all a0 (tr_checkpoints t1)) with (a ← record_response rec_limit a0 ck; Ok a); by rewrite Hrec).
  intros Hc. assert (∃ a, record_all a0 (tr_checkpoints t) = Ok a ∧ at_acknowledged a = bool_decide (answered = None) ∧
     (is_Some answered → at_responses a = [(phase_value commit_phase, commit_value answered)])) as (a & Ha & Hfin).
  { revert Hc. destruct answered as [c|] eqn:Ea.
    - match goal with |- context [detail_of c ?answer t1] => destruct (detail_of c answer t1) as [y t2] eqn:Ed end.
      apply detail_of_spec in Ed as [-> [(d & -> & _)|[e ->]]]; intros [= _ <-]; by exists a1.
    - intros Hv. destruct (keeps_verify (commit_value None) url payload device no_networking t1 v t) as (a & Ha & (Hack & _ & _)); [by exists a1|done|].
      exists a. split_and!; [done|done|by intros []]. }
  exists a. split; [done|]. right. by exists url, payload, rest.
Qed.

(** C10: The recorder never refuses a checkpoint of the commit, so the attempt always knows whether NSO acknowledged it; and the
    settlement of an interrupted or failed run follows NSO's answer: the generation is given up as failed - safe to send again -
    only when NSO refused or rejected the transaction, never when the device may have changed. *)
Theorem settlement_follows_the_answer base device containers no_networking strict r t :
  apply_device_intent rec_limit st nso (Some recorder) base device containers no_dry_run no_networking strict empty_trace = (r, t) →
  ∃ a, record_all a0 (tr_checkpoints t) = Ok a ∧
    ((tr_requests t = [] ∧ a = a0) ∨
     ∃ url payload rest, tr_requests t = commit_request st no_networking url payload :: rest ∧
       let answered := problem rec_limit (nso [] (commit_request st no_networking url payload)) in
       at_acknowledged a = bool_decide (answered = None) ∧
       ∀ k causes records, disposition_evidence rec_limit a = Ok (k, causes, records) → settled_as answered k ∧ (definite k = true → answered ≠ None)).
Proof.
  intros (a & Ha & [H|(url & payload & rest & Hreq & Hack & Hr)])%send_recorded; exists a; (split; [done|]); [by left|]. right. exists url, payload, rest. split; [done|].
  cbv zeta. split; [done|]. intros k causes records H. assert (settled_as (problem rec_limit (nso [] (commit_request st no_networking url payload))) k) as Hk.
  { pose proof (problem_error (nso [] (commit_request st no_networking url payload))) as Hn. destruct (problem rec_limit _) as [c|] eqn:E.
    - eapply unacknowledged_evidence; [done|done|by rewrite Hack|by apply Hr|done].
    - eapply acknowledged_evidence; [by rewrite Hack|done]. }
  split; [done|]. intros Hd Hnone. rewrite Hnone in Hk. destruct Hk as [->| ->]; done.
Qed.
End Recording.

(** ** Settlement and the claim protocol *)

Lemma restore_keeps_db device ss l restored l' : restore_bookkeeping device ss l = Ok (restored, l') → lv_db l' = lv_db l.
Proof.
  revert l restored. induction ss as [|s ss IH]; intros l restored; cbn [restore_bookkeeping]; [by intros [= _ <-]|]. rewrite bind_Ok. intros (t & _ & H).
  destruct t as [[row state]|]; [|by eapply IH]. rewrite bind_Ok in H. destruct H as ([r1 l1] & H1 & H). apply Ok_inj in H. injection H as _ <-.
  apply IH in H1. rewrite H1. unfold restore_state. by destruct (bs_attribute s), state as [[? ?]|].
Qed.
Lemma stamp_refused_keeps_db device causes ss l l' : stamp_refused_bookkeeping device causes ss l = Ok l' → lv_db l' = lv_db l.
Proof.
  unfold stamp_refused_bookkeeping. revert l. induction ss as [|s ss IH]; intros l; cbn [for_snapshots]; [by intros [= <-]|]. rewrite bind_Ok. intros (l1 & H1 & H).
  rewrite (IH _ H). revert H1. unfold stamp_refused. destruct (refused_records causes s); [by intros [= <-]|]. rewrite bind_Ok. intros (t & _ & H1). apply Ok_inj in H1. subst l1.
  destruct t as [[row state]|]; [|done]. destruct (has_column _ _), state as [[? ?]|]; done.
Qed.
Lemma stage_outcome_spec rec_limit id a l d refusals e o e' : stage_outcome rec_limit id a l d refusals e = Ok (o, e') →
  ∃ causes, catalog_records rec_limit refusals = Ok causes ∧ o = mkOutcome id (contributor l) (sources_of l) (public_record l) (owner_record (lr_carrier l)) d causes ∧
    e' = with_outcomes (ev_outcomes e ++ [o]) e ∧ (d = d_refused ↔ causes ≠ []).
Proof.
  unfold stage_outcome. rewrite bind_Ok. intros ([] & _ & H). rewrite bind_Ok in H. destruct H as (causes & Hc & H). rewrite bind_Ok in H. destruct H as ([] & _ & H).
  rewrite bind_Ok in H. destruct H as ([] & _ & H). rewrite bind_Ok in H. destruct H as ([] & Hg%guard_or_Ok & H). apply Ok_inj in H. injection H as <- <-.
  exists causes. do 3 (split; [done|]). unfold outcome_allowed in Hg; apply andb_prop in Hg as [_ Hg%Bool.eqb_prop]; cbn [ro_disposition ro_refusals] in Hg. split.
  - intros Hd Hcs. rewrite bool_decide_eq_true_2 in Hg by done. rewrite bool_decide_eq_true_2 in Hg; done.
  - intros Hn. rewrite (bool_decide_eq_false_2 (causes = [])) in Hg by done. by apply bool_decide_eq_true in Hg.
Qed.
Lemma for_rows_live (f : json -> txn Ev RowOutcome) rows e os e' : (∀ v e o e', f v e = Ok (o, e') → ev_live e' = ev_live e) →
  for_rows f rows e = Ok (os, e') → ev_live e' = ev_live e.
Proof.
  intros Hf. revert e os. induction rows as [|v rows IH]; intros e os; cbn [for_rows]; [by intros [= _ <-]|]. rewrite txn_bind_Ok. intros (o & e1 & H1 & H).
  rewrite txn_bind_Ok in H. destruct H as (os' & e2 & H2 & [= _ <-]). rewrite (IH _ _ H2). by eapply Hf.
Qed.
Lemma settle_row_live rec_limit id a k causes v e o e' : settle_row rec_limit id a k causes v e = Ok (o, e') → ev_live e' = ev_live e.
Proof.
  unfold settle_row. rewrite bind_Ok. intros (l & _ & H). rewrite bind_Ok in H. destruct H as (rs & _ & H). by apply stage_outcome_spec in H as (? & _ & _ & -> & _).
Qed.
Lemma restore_attempt_db id a e restored e' : restore_attempt_bookkeeping id a e = Ok (restored, e') → ev_db e' = ev_db e ∧ ev_outcomes e' = ev_outcomes e ∧ ev_attempts e' = ev_attempts e.
Proof.
  unfold restore_attempt_bookkeeping. rewrite bind_Ok. intros (ms & _ & H). rewrite bind_Ok in H. destruct H as ([] & _ & H). rewrite bind_Ok in H. destruct H as (fs & _ & H).
  rewrite bind_Ok in H. destruct H as ([r l] & Hr & H). apply Ok_inj in H. injection H as _ <-. apply restore_keeps_db in Hr. done.
Qed.

Section Disposal.
Context (rec_limit : nat) (unprepared_evidence : Db -> Job -> option json -> res (option pydict)).

Lemma settle_evidence_spec id a g k causes records error e result e' : settle_evidence rec_limit id a g k causes records error e = Ok (result, e') →
  ev_db e' = ev_db e ∧ ∃ outcomes e1, for_rows (settle_row rec_limit id a k causes) (at_membership a) e = Ok (outcomes, e1) ∧ ev_outcomes e' = ev_outcomes e1 ∧
    ev_attempts e' = ev_attempts e1 ∧
    ∃ body routes, outcome_result (at_carriers a) outcomes records (at_acknowledged a) = Ok body ∧ route_outcome_results g outcomes error = Ok routes ∧ result = add_routes body routes.
Proof.
  unfold settle_evidence. rewrite bind_Ok. intros ([outcomes e1] & H1 & H). rewrite bind_Ok in H. destruct H as ([restored e2] & H2 & H). rewrite bind_Ok in H. destruct H as (l & H3 & H).
  rewrite bind_Ok in H. destruct H as (body & H4 & H). rewrite bind_Ok in H. destruct H as (routes & H5 & H). apply Ok_inj in H. injection H as <- <-.
  apply restore_attempt_db in H2 as (D2 & O2 & A2). apply stamp_refused_keeps_db in H3. assert (ev_live e1 = ev_live e) as L1.
  { eapply for_rows_live; [|exact H1]. intros. by eapply settle_row_live. }
  split. { change (lv_db l = ev_db e). rewrite H3. change (ev_db e2 = ev_db e). rewrite D2. unfold ev_db. by rewrite L1. }
  exists outcomes, e1. split_and!; [done|exact O2|exact A2|]. exists body, routes. done.
Qed.
Lemma settle_attempt_db id a g x terminal_error e result error certain e' : settle_attempt rec_limit id a g x terminal_error e = Ok ((result, error, certain), e') → ev_db e' = ev_db e.
Proof.
  unfold settle_attempt. rewrite bind_Ok. intros ([[k causes] records] & _ & H). rewrite bind_Ok in H. destruct H as ([body e1] & H1 & H). apply Ok_inj in H. injection H as _ _ _ <-.
  by apply settle_evidence_spec in H1 as [-> _].
Qed.

(** The attempt an outcome of the disposal speaks for *)
Definition disposal_of (r : Disposed) (found : AttemptDisposition) : Prop :=
  match r with
  | no_attempt_found => found = no_attempt
  | already_terminal => found = attempt_terminal
  | attempt_was_settled => ∃ result error certain, found = attempt_settled result error certain
  end.
(** Disposing of an attempt is, on the jobs, generations, claims and counters, the disposal the claim protocol's theorems
    assume: everything else it writes - outcomes, bookkeeping, the attempt itself - is outside them. *)
Theorem disposal_refines_claim_protocol job_id run_attempt token x terminal_error e r e' :
  Attempt.dispose_execution_attempt rec_limit unprepared_evidence job_id run_attempt token x terminal_error e = Ok (r, e') →
  ∃ found, disposal_of r found ∧
    Claim.dispose_execution_attempt unprepared_evidence found job_id run_attempt (ev_db e) = Ok (match r with no_attempt_found => false | _ => true end, ev_db e').
Proof.
  unfold Attempt.dispose_execution_attempt. destruct (find_attempt e job_id run_attempt) as [[id a]|]; [|intros [= <- <-]; by exists no_attempt].
  case_bool_decide; [intros [= <- <-]; by exists attempt_terminal|]. rewrite bind_Ok. intros ([j gs] & _ & H1). destruct (last gs) as [g|]; [|done].
  rewrite bind_Ok in H1. destruct H1 as ([] & _ & H1). rewrite bind_Ok in H1. destruct H1 as ([[[result error] certain] e1] & Hs & H1). rewrite bind_Ok in H1.
  destruct H1 as ([write e2] & Ht & H1). destruct write as [w|]; [|done]. apply Ok_inj in H1. injection H1 as <- <-.
  exists (attempt_settled result error certain). split; [by repeat eexists|]. apply settle_attempt_db in Hs. unfold lift_db in Ht. rewrite bind_Ok in Ht.
  destruct Ht as ([write d] & Ht & H1). apply Ok_inj in H1. injection H1 as -> <-. rewrite Hs in Ht. unfold Claim.dispose_execution_attempt. rewrite Ht. done.
Qed.
End Disposal.

(** ** Every row and every carrier, once *)

Lemma catalog_cons rec_limit r rs l ls : catalog_records rec_limit [r] = Ok l → catalog_records rec_limit rs = Ok ls → catalog_records rec_limit (r :: rs) = Ok (l ++ ls).
Proof.
  unfold catalog_records. cbn [map_res]. destruct (catalog_record rec_limit r) as [x|e]; cbn [mbind res_bind]; [|destruct (evidence_error e); discriminate].
  destruct (map_res (catalog_record rec_limit) rs) as [y|e]; cbn [mbind res_bind]; [|destruct (evidence_error e); discriminate].
  intros H1%Ok_inj H2%Ok_inj. subst. cbn [concat]. by rewrite app_nil_r.
Qed.
(** Refusals read from a payload are recorded as that payload. *)
Lemma catalog_of_payload rec_limit payload rs : refusals_from_payload rec_limit payload = Ok rs → catalog_records rec_limit rs = Ok payload.
Proof.
  unfold refusals_from_payload, validate_catalog_payload. rewrite bind_Ok. intros ([] & Hv & H). destruct (map_res (record_is_canonical rec_limit) payload) as [oks|e] eqn:E.
  2: { destruct (_ || _)%bool; discriminate. }
  apply guard_or_Ok in Hv. revert oks rs E Hv H. induction payload as [|v payload IH]; intros oks rs; cbn [map_res]; [intros _ _ H%Ok_inj; by subst|].
  rewrite bind_Ok. intros (ok & Hok & H). rewrite bind_Ok in H. destruct H as (oks' & Hoks & H%Ok_inj). subst oks. cbn [forallb]. intros [Ho Hs]%andb_prop. unfold id in Ho. subst ok.
  rewrite bind_Ok. intros (r & Hr & H). rewrite bind_Ok in H. destruct H as (rs' & Hrs & H%Ok_inj). subst rs.
  unfold record_is_canonical in Hok. rewrite Hr in Hok. cbn [mbind res_bind] in Hok. rewrite bind_Ok in Hok. destruct Hok as (l & Hl & Hok%Ok_inj). apply bool_decide_eq_true in Hok. subst l.
  exact (catalog_cons _ _ _ _ _ Hl (IH _ _ Hoks Hs Hrs)).
Qed.

(** The outcome of a frozen row *)
Record row_settled (id : Z) (certain : bool) (causes : Causes) (l : LogicalRow) (o : RowOutcome) : Prop := {
  rw_attempt : ro_attempt o = id;
  rw_identity : ro_identity o = contributor l;
  rw_logical : ro_logical o = public_record l;
  rw_carrier : ro_carrier o = owner_record (lr_carrier l);
  rw_refusals : ro_refusals o = default [] (dict_get causes (content_digest (public_record l)));
  rw_disposition : ro_disposition o = match ro_refusals o with [] => if certain then d_not_applied else d_unavailable | _ => d_refused end }.

Lemma settle_row_spec rec_limit id a k causes l e o e' : logical_stamped l → settle_row rec_limit id a k causes (logical_record l) e = Ok (o, e') →
  row_settled id (definite k) causes l o ∧ e' = with_outcomes (ev_outcomes e ++ [o]) e.
Proof.
  intros Hl. unfold settle_row. rewrite logical_round_trip by done. cbn [mbind res_bind]. rewrite bind_Ok. intros (rs & Hrs & H).
  apply stage_outcome_spec in H as (records & Hc & -> & -> & _). apply catalog_of_payload in Hrs. rewrite Hrs in Hc. apply Ok_inj in Hc. subst records. by repeat split.
Qed.
Lemma settle_rows_spec rec_limit id a k causes ls e os e' : Forall logical_stamped ls → for_rows (settle_row rec_limit id a k causes) (map logical_record ls) e = Ok (os, e') →
  Forall2 (row_settled id (definite k) causes) ls os ∧ ev_outcomes e' = ev_outcomes e ++ os.
Proof.
  intros Hl. revert e os. induction Hl as [|l ls Hl _ IH]; intros e os; cbn [map for_rows]; [intros [= <- <-]; split; [constructor|by rewrite app_nil_r]|].
  rewrite txn_bind_Ok. intros (o & e1 & H1 & H). rewrite txn_bind_Ok in H. destruct H as (os' & e2 & H2 & [= <- <-]).
  apply settle_row_spec in H1 as [Hr ->]; [|done]. apply IH in H2 as [Hrs He]. split; [by constructor|]. rewrite He. cbn [ev_outcomes with_outcomes]. by rewrite <-app_assoc.
Qed.

(** Carriers *)
Lemma count_key_long k : (17 <= py_len (count_key k))%nat.
Proof. unfold count_key, py_len. destruct k as [cs]. cbn [py_app py_chars]. rewrite length_app. cbn. lia. Qed.
Lemma count_key_inj k k' : count_key k = count_key k' → k = k'.
Proof. destruct k as [a], k' as [b]. unfold count_key. cbn [py_app]. intros [= H%app_inv_tail]. by subst. Qed.

Definition tally (d : Disposition) (c : Count) : Z :=
  match d with d_in_sync => n_in_sync c | d_refused => n_apply_failed c | d_not_applied => n_not_applied c | d_unavailable => n_unavailable c end.
Lemma tally_one d d' c : tally d (count_one d' c) = tally d c + (if bool_decide (d = d') then 1 else 0).
Proof. case_bool_decide as H; [subst d'; destruct d; reflexivity|]. destruct d, d'; try (by destruct H); cbn [tally count_one n_in_sync n_apply_failed n_not_applied n_unavailable]; lia. Qed.
Definition counted (counts : list (pystr * Count)) (key : pystr) : Count := default no_count (dict_get counts key).
Definition carrier_key (carrier : pydict) : res pystr := stream ← text_at carrier "stream"; stream_result_key stream.
Definition verdict_of (outcomes : list RowOutcome) (carrier : pydict) (kd : pystr * Disposition) : Prop :=
  carrier_key carrier = Ok kd.1 ∧ carrier_disposition outcomes carrier = Ok kd.2.
Definition verdicts_for (key : pystr) (d : Disposition) (verdicts : list (pystr * Disposition)) : Z :=
  Z.of_nat (length (List.filter (fun kd => bool_decide (kd.1 = key) && bool_decide (kd.2 = d)) verdicts)).

Lemma carrier_results_counts outcomes attempted verdicts : Forall2 (verdict_of outcomes) attempted verdicts → ∀ carriers counts,
  ∃ carriers' counts', carrier_results outcomes attempted carriers counts = Ok (carriers', counts') ∧ length carriers' = (length carriers + length attempted)%nat ∧
    (∀ key d, tally d (counted counts' (count_key key)) = tally d (counted counts (count_key key)) + verdicts_for key d verdicts).
Proof.
  induction 1 as [|carrier [k d] attempted verdicts [Hk Hd] _ IH]; intros carriers counts; cbn [carrier_results].
  { exists carriers, counts. split_and!; [done|cbn; lia|]. intros. unfold verdicts_for. cbn. lia. }
  rewrite Hd. cbn [mbind res_bind fst snd] in *. unfold carrier_key in Hk. destruct (text_at carrier "stream") as [stream|]; [|discriminate]. cbn [mbind res_bind] in Hk |- *.
  rewrite Hk. cbn [mbind res_bind].
  edestruct IH as (carriers' & counts' & -> & Hlen & Hc). exists carriers', counts'. split; [done|]. split; [rewrite Hlen, length_app; cbn; lia|].
  intros key d'. rewrite Hc. unfold verdicts_for, counted. cbn [List.filter fst snd]. destruct (decide (k = key)) as [->|Hn].
  - rewrite dict_get_set_eq. cbn [from_option]; unfold id at 1. rewrite tally_one, (bool_decide_eq_true_2 (key = key)) by done. cbn [andb].
    destruct (decide (d' = d)) as [->|Hd'']; [rewrite !bool_decide_eq_true_2 by done|rewrite !bool_decide_eq_false_2 by congruence]; cbn [length]; lia.
  - rewrite dict_get_set_ne by (intros Heq%count_key_inj; congruence). rewrite (bool_decide_eq_false_2 (k = key)) by done. cbn [andb]. lia.
Qed.
Lemma carrier_results_keys outcomes attempted carriers counts carriers' counts' : carrier_results outcomes attempted carriers counts = Ok (carriers', counts') →
  Forall (fun kc : pystr * Count => (17 <= py_len kc.1)%nat) counts → Forall (fun kc : pystr * Count => (17 <= py_len kc.1)%nat) counts'.
Proof.
  revert carriers counts. induction attempted as [|c attempted IH]; intros carriers counts; cbn [carrier_results]; [by intros [= _ <-]|].
  rewrite bind_Ok. intros (d & _ & H). rewrite bind_Ok in H. destruct H as (stream & _ & H). rewrite bind_Ok in H. destruct H as (key & _ & H). intros Hc. eapply IH; [exact H|].
  apply Forall_forall. intros [k v] [[-> _]|Hin]%in_dict_set; [apply count_key_long|]. exact (proj1 (Forall_forall _ _) Hc _ Hin).
Qed.
Lemma empty_counts_long : Forall (fun kc : pystr * Count => (17 <= py_len kc.1)%nat) empty_counts.
Proof. apply Forall_forall. intros x Hx. apply Nat.leb_le. revert x Hx. apply Forall_forall, forallb_Forall. vm_compute. done. Qed.
Lemma dict_get_app_fresh {V} (a b : list (pystr * V)) k : k ∉ dict_keys a → dict_get (a ++ b) k = dict_get b k.
Proof. unfold dict_keys. induction a as [|[k' v] a IH]; [done|]. cbn. rewrite not_elem_of_cons. intros [? ?]. rewrite decide_False by done. by apply IH. Qed.
Lemma result_outcomes carriers outcomes refusals acknowledged body routes : outcome_result carriers outcomes refusals acknowledged = Ok body →
  dict_get (add_routes body routes) "row_outcomes" = Some (JArr (map outcome_json outcomes)).
Proof.
  unfold outcome_result. rewrite bind_Ok. intros ([cs counts] & Hc & H%Ok_inj). apply carrier_results_keys in Hc; [|apply empty_counts_long]. subst body.
  assert (∀ rest, dict_get (map (fun kc : pystr * Count => (kc.1, count_json kc.2)) counts ++ ("row_outcomes"%py, JArr (map outcome_json outcomes)) :: rest) "row_outcomes" =
    Some (JArr (map outcome_json outcomes))) as Hget.
  { intros rest. rewrite dict_get_app_fresh; [cbn [dict_get]; by rewrite decide_True|]. unfold dict_keys. rewrite map_map. cbn [fst]. intros (kc & Heq & Hin)%list_elem_of_fmap.
    pose proof (proj1 (Forall_forall _ _) Hc _ Hin) as Hlen. cbn beta in Hlen. rewrite <-Heq in Hlen. vm_compute in Hlen. lia. }
  unfold add_routes. destruct routes; [apply Hget|]. rewrite dict_get_set_ne; [apply Hget|done].
Qed.

(** C13: What settles an attempt accounts for each of its rows once, in order: a row is refused exactly when a refusal of NSO was
    attributed to it, with those records; the others were not applied when NSO decided against the transaction, and nothing is
    known of them otherwise; and the job result lists the same outcomes. *)
Theorem every_row_settled_once rec_limit id a g x terminal_error ls e result error certain e' : at_membership a = map logical_record ls → Forall logical_stamped ls →
  settle_attempt rec_limit id a g x terminal_error e = Ok ((result, error, certain), e') →
  ∃ k causes records outcomes, disposition_evidence rec_limit a = Ok (k, causes, records) ∧ certain = definite k ∧
    ev_outcomes e' = ev_outcomes e ++ outcomes ∧ Forall2 (row_settled id certain causes) ls outcomes ∧
    dict_get result "row_outcomes" = Some (JArr (map outcome_json outcomes)).
Proof.
  intros Hm Hl. unfold settle_attempt. rewrite bind_Ok. intros ([[k causes] records] & Hd & H). rewrite bind_Ok in H. destruct H as ([body e1] & H1 & H). apply Ok_inj in H.
  injection H as <- _ <- <-. apply settle_evidence_spec in H1 as (_ & outcomes & e2 & H1 & -> & _ & base & routes & Hb & _ & ->). rewrite Hm in H1.
  apply settle_rows_spec in H1 as [H1 ->]; [|done]. exists k, causes, records, outcomes. split_and!; try done.
  by eapply result_outcomes.
Qed.

Lemma worst_spec d ds : worst d ds ∈ d :: ds ∧ ∀ x, x ∈ d :: ds → priority x <= priority (worst d ds).
Proof.
  revert d. induction ds as [|y ds IH]; intros d; [split; [by left|intros x [->|H]%elem_of_cons; [done|by apply elem_of_nil in H]]|].
  change (worst d (y :: ds)) with (worst (if priority d <? priority y then y else d) ds). destruct (IH (if priority d <? priority y then y else d)) as [Hin Hmax]. split.
  - apply elem_of_cons in Hin as [->|Hin]; [destruct (_ <? _); [right; by left|by left]|right; by right].
  - intros x Hx. assert (priority (if priority d <? priority y then y else d) <= priority (worst (if priority d <? priority y then y else d) ds)) as Hd by (apply Hmax; by left).
    apply elem_of_cons in Hx as [->|[->|Hx]%elem_of_cons]; [| |apply Hmax; by right]; destruct (Z.ltb_spec (priority d) (priority y)); lia.
Qed.
Lemma public_carrier_record o : JObj (public_carrier (carrier_record o)) = owner_record o.
Proof. by destruct o. Qed.
Lemma carrier_record_stream o : text_at (carrier_record o) "stream" = Ok (so_stream o).
Proof. by destruct o. Qed.
Lemma known_stream_keys : forallb (fun s => is_ok (stream_result_key s)) STREAMS = true.
Proof. vm_compute. reflexivity. Qed.
Lemma fromkeys_sub {A} `{EqDecision A} (seen l : list A) x : x ∈ fromkeys_loop seen l → x ∈ l.
Proof.
  revert seen. induction l as [|y l IH]; intros seen; cbn [fromkeys_loop]; [done|]. destruct (bool_decide (y ∈ seen)); [intros H; right; by eapply IH|].
  rewrite elem_of_cons. intros [->|H]; [by left|right; by eapply IH].
Qed.
Lemma empty_counts_zero key d : tally d (counted empty_counts key) = 0.
Proof.
  unfold counted. destruct (dict_get empty_counts key) as [c|] eqn:E; [|by destruct d]. apply dict_get_Some_in in E.
  assert (Forall (fun kc : pystr * Count => kc.2 = no_count) empty_counts) as H by (vm_compute; repeat constructor).
  apply (proj1 (Forall_forall _ _) H) in E. cbn in E. subst c. by destruct d.
Qed.

(** The disposition of a carrier: the worst one of the rows it carries *)
Definition carrier_worst (outcomes : list RowOutcome) (o : SettlementOwner) (d : Disposition) : Prop :=
  (∃ x, x ∈ outcomes ∧ ro_carrier x = owner_record o ∧ ro_disposition x = d) ∧
  ∀ x, x ∈ outcomes → ro_carrier x = owner_record o → priority (ro_disposition x) <= priority d.

Lemma carrier_verdict id certain causes ls outcomes o : Forall2 (row_settled id certain causes) ls outcomes → o ∈ map lr_carrier ls → so_stream o ∈ STREAMS →
  ∃ kd, verdict_of outcomes (carrier_record o) kd ∧ stream_result_key (so_stream o) = Ok kd.1 ∧ carrier_worst outcomes o kd.2.
Proof.
  intros Hos Ho Hs. apply list_elem_of_In in Hs. apply (proj1 (forallb_forall _ _) known_stream_keys) in Hs. destruct (stream_result_key (so_stream o)) as [k|] eqn:Ek; [|done].
  apply list_elem_of_fmap in Ho as (l & -> & Hl). apply list_elem_of_lookup in Hl as [i Hi].
  destruct (Forall2_lookup_l _ _ _ _ _ Hos Hi) as (x & Hx & Hr). apply list_elem_of_lookup_2 in Hx.
  assert (∀ y, y ∈ members_of outcomes (carrier_record (lr_carrier l)) ↔ y ∈ outcomes ∧ ro_carrier y = owner_record (lr_carrier l)) as Hm.
  { intros y. unfold members_of. rewrite list_elem_of_In, filter_In, <-list_elem_of_In, bool_decide_eq_true, public_carrier_record. done. }
  unfold verdict_of, carrier_key, carrier_disposition. rewrite carrier_record_stream. cbn [mbind res_bind].
  destruct (map ro_disposition (members_of outcomes (carrier_record (lr_carrier l)))) as [|d ds] eqn:Ed.
  { exfalso. apply map_eq_nil in Ed. assert (x ∈ members_of outcomes (carrier_record (lr_carrier l))) as Hin by (apply Hm; split; [assumption|exact (rw_carrier _ _ _ _ _ Hr)]).
    rewrite Ed in Hin. by apply elem_of_nil in Hin. }
  exists (k, worst d ds). cbn [fst snd]. split_and!; [done|done|done|]. split.
  - destruct (worst_spec d ds) as [Hin _]. rewrite <-Ed in Hin. apply list_elem_of_fmap in Hin as (y & Heq & Hy). apply Hm in Hy as [Hy1 Hy2]. exists y. split; [assumption|]. split; [assumption|symmetry; assumption].
  - intros y Hy1 Hy2. apply (worst_spec d ds). rewrite <-Ed. apply list_elem_of_fmap. exists y. split; [reflexivity|]. apply Hm. split; assumption.
Qed.

(** Every carrier of a settled attempt is reported, and counted once: under the result key of its stream, in the column of the worst
    disposition among the rows it carries. *)
Theorem carriers_counted_once id certain causes ls outcomes : Forall2 (row_settled id certain causes) ls outcomes → Forall (fun l => so_stream (lr_carrier l) ∈ STREAMS) ls →
  ∃ verdicts carriers counts, carrier_results outcomes (map carrier_record (fromkeys (map lr_carrier ls))) [] empty_counts = Ok (carriers, counts) ∧
    length carriers = length (fromkeys (map lr_carrier ls)) ∧
    Forall2 (fun o kd => stream_result_key (so_stream o) = Ok kd.1 ∧ carrier_worst outcomes o kd.2) (fromkeys (map lr_carrier ls)) verdicts ∧
    ∀ key d, tally d (counted counts (count_key key)) = verdicts_for key d verdicts.
Proof.
  intros Hos Hs. assert (∀ o, o ∈ fromkeys (map lr_carrier ls) → ∃ kd, verdict_of outcomes (carrier_record o) kd ∧ stream_result_key (so_stream o) = Ok kd.1 ∧ carrier_worst outcomes o kd.2) as Hv.
  { intros o Ho%fromkeys_sub. eapply carrier_verdict; [done|done|]. apply list_elem_of_fmap in Ho as (l & -> & Hl). exact (proj1 (Forall_forall _ _) Hs _ Hl). }
  assert (∃ verdicts, Forall2 (fun o kd => verdict_of outcomes (carrier_record o) kd ∧ stream_result_key (so_stream o) = Ok kd.1 ∧ carrier_worst outcomes o kd.2)
    (fromkeys (map lr_carrier ls)) verdicts) as [verdicts Hf].
  { induction (fromkeys (map lr_carrier ls)) as [|o os IH]; [exists []; constructor|]. destruct (Hv o) as [kd Hkd]; [by left|].
    destruct IH as [verdicts IH]; [intros o' Ho'; apply Hv; by right|]. exists (kd :: verdicts). by constructor. }
  destruct (carrier_results_counts outcomes (map carrier_record (fromkeys (map lr_carrier ls))) verdicts) with (carriers := @nil json) (counts := empty_counts)
    as (carriers & counts & Hc & Hlen & Ht).
  { apply Forall2_fmap_l. eapply Forall2_impl; [exact Hf|]. intros o kd (H & _ & _). exact H. }
  exists verdicts, carriers, counts. split; [exact Hc|]. split; [rewrite Hlen, length_map; reflexivity|]. split; [eapply Forall2_impl; [exact Hf|]; intros o kd (_ & H1 & H2); exact (conj H1 H2)|].
  intros key d. rewrite Ht, empty_counts_zero. lia.
Qed.
