(* ===== verification/History.v ===== *)
(** * Acknowledged origin history

    src/nso_adapter/store/execution_history.py, the whole module: what an acknowledged send leaves behind for later attribution,
    the joins of a new document's retained and omitted routes to it, and whether a removal may be sent again unasked. *)

From stdpp Require Import base list gmap.
From Stdlib Require Import ZArith NArith Lia.
From S2P Require Import Prelude Json Text Sha256 RefusalCatalog RefusalProtocol Refusals Registry Document Asn Identity Store Generation Admission Claim StaticPlan InterfaceProof VaultRef Hydrate Origins Encode DeviceBody OriginProps Sender SenderProps Evidence Bookkeeping Attempt AttemptProps.

Local Open Scope py_scope.
Local Open Scope Z_scope.

(** ** Recording *)

(** The row a certified route entry names *)
Definition route_row (entry : pydict) : res RowRef :=
  prefix ← required entry "prefix";
  row_ref "static-route" "static-route.route" [("route", [key_of (or_text (get entry "vrf")); key_of prefix; key_of (or_text (get entry "next-hop"))])].
(** [_fingerprints] *)
Fixpoint fingerprints_loop (entries : list pydict) (acc : list (RowRef * pystr)) : res (list (RowRef * pystr)) :=
  match entries with
  | [] => Ok acc
  | entry :: entries =>
      row ← route_row entry;
      if dict_mem acc row then Raise (ValueError "Certified route identities must be unique")
      else fingerprints_loop entries (acc ++ [(row, content_digest (JObj entry))])
  end.
Definition fingerprints (entries : list pydict) : res (list (RowRef * pystr)) := fingerprints_loop entries [].

Definition with_history (b : OriginBinding) (baseline : option Z) (fingerprint : option pystr) : OriginBinding :=
  mkBinding (ob_stream b) (ob_sources b) (ob_construct b) (ob_provenance b) (ob_rows b) baseline fingerprint (ob_authority b).
(** What one binding leaves: a prior one nothing, a route only when the entry sent is the entry the device holds *)
Definition history_binding (attempt_id : Z) (emitted observed : list (RowRef * pystr)) (kb : OriginKey * OriginBinding) : list (OriginKey * OriginBinding) :=
  let '(key, b) := kb in
  match ob_provenance b with
  | Prior => []
  | p =>
      if bool_decide (ok_family key = "static-route") then
        let fingerprint := match p with Current => dict_get emitted (ok_row key) | _ => ob_fingerprint b end in
        match fingerprint with
        | Some f => if bool_decide (dict_get observed (ok_row key) = Some f) then [(key, with_history b (Some attempt_id) (Some f))] else []
        | None => []
        end
      else [(key, with_history b (Some attempt_id) None)]
  end.
Definition history_of (attempt_id : Z) (emitted observed : list (RowRef * pystr)) (i : OriginIndex) : OriginIndex :=
  mkIndex (dict_of_pairs (flat_map (history_binding attempt_id emitted observed) (oi_bindings i))) [] [] [] [].

Definition ORIGIN_HISTORY : pystr := "origin_history".
(** [record_acknowledged_origins] *)
Definition record_acknowledged_origins (attempt_id job_id run_attempt : Z) (token : pystr) (certified : option CertifiedSection) : txn Ev unit := fun e =>
  a ← owned_attempt e attempt_id job_id run_attempt token;
  _ ← guard_or (at_acknowledged a && negb (dict_mem (at_responses a) ORIGIN_HISTORY)) (ValueError "Origin history requires an unrecorded acknowledged commit");
  match generations (ev_db e) !! at_generation a with
  | None => Raise (ValueError "Acknowledged history requires its frozen generation")
  | Some g =>
      routes ← (if dict_mem (g_document g) "static_route" then s ← encode_section (g_document g) "static_route" None None None; Ok (rendered_routes (es_body s)) else Ok []);
      emitted ← fingerprints routes;
      observed ← match certified with None | Some certified_inconclusive => Ok [] | Some c => fingerprints (certified_routes c) end;
      origins ← origins_from_records (at_origins a);
      let history := JArr (origin_records (history_of attempt_id emitted observed origins)) in
      let a := mkAttempt (at_device a) (at_generation a) (at_job a) (at_correlation a) (at_run a) (at_kind a) (at_digest a) (at_token a) (at_revisions a) (at_authorities a)
                 (at_manual a) (at_tombstones a) (at_membership a) (at_carriers a) (at_origins a) (at_prior a) (at_phase a) (at_response_phase a)
                 (dict_set (at_responses a) ORIGIN_HISTORY history) (at_acknowledged a) in
      Ok (tt, with_attempts (<[attempt_id := a]> (ev_attempts e)) e)
  end.

(** ** Authority *)

(** [any(f(x) for x in l)] *)
Fixpoint any_res {A} (f : A -> res bool) (l : list A) : res bool :=
  match l with [] => Ok false | x :: l => b ← f x; if b : bool then Ok true else any_res f l end.
Definition list_member (d : pydict) (k : pystr) : res (list json) := list_of_json (default (JArr []) (dict_get d k)).
Definition route_key_row (v : json) : res RowRef := key ← list_of_json v; row_ref "static-route" "static-route.route" [("route", map key_of key)].
Definition clear_fields (item : pydict) : res (list pystr) :=
  raw ← member_of item "fields"; l ← list_of_json raw;
  Ok (flat_map (fun v => match v with JStr f => if dict_mem CLEAR_WIRE_LEAF f then ["static-route." +:+ f] else [] | _ => [] end) l).
Definition route_omission (operation : pydict) (authority : RemovalAuthority) : res bool :=
  removal ← (let v := get operation "removal" in if json_truthy v then dict_of_json v else Ok []);
  if bool_decide (ra_operation authority = "removal") then
    match ra_fields authority with
    | [] => keys ← list_member removal "authorized_removal_keys"; any_res (fun key => row ← route_key_row key; Ok (bool_decide (row = ra_row authority))) keys
    | _ => Ok false
    end
  else
    match ra_fields authority with
    | [] => Ok false
    | fields =>
        items ← list_member removal "candidate_clears";
        any_res (fun item => item ← dict_of_json item; key ← member_of item "key"; row ← route_key_row key;
                             if bool_decide (row = ra_row authority)
                             then allowed ← clear_fields item; Ok (forallb (fun f => mem f allowed) fields) else Ok false) items
    end.

(** [subject.id.rsplit('.', 1)[-1]] *)
Definition last_label (s : pystr) : pystr :=
  PStr (fold_left (fun acc c => if (c =? 46)%N then [] else acc ++ [c]) (py_chars s) []).
(** The natural path of one declared key *)
Fixpoint subject_path (steps : list Step) (values : list keyval) : natural_path :=
  match steps with
  | [] => []
  | s :: steps => (st_list s, take (length (st_keys s)) values) :: subject_path steps (drop (length (st_keys s)) values)
  end.
Definition path_size (steps : list Step) : nat := list_sum (map (fun s => length (st_keys s)) steps).
Definition label_omission (g : Generation) (section : pystr) (authority : RemovalAuthority) : res bool :=
  match dict_get SUBJECTS (rr_subject (ra_row authority)) with
  | None => Raise KeyError
  | Some subject =>
      match sub_path subject, ra_fields authority with
      | [], _ | _, _ :: _ => Ok false
      | steps, [] =>
          labels ← dict_of_json (default (JObj []) (dict_get (g_allowed_removal_keys g) section));
          raws ← list_member labels (last_label (sub_id subject));
          any_res (fun raw => let values := map key_of (match raw with JArr l => l | v => [v] end) in
                              if Nat.eqb (length values) (path_size steps)
                              then row ← row_ref (sub_family subject) (sub_id subject) (subject_path steps values); Ok (bool_decide (row = ra_row authority))
                              else Ok false) raws
      end
  end.
(** [_authorized_omission] *)
Definition authorized_omission (g : Generation) (authority : RemovalAuthority) : res bool :=
  if bool_decide (ra_generation authority = g_id g) && bool_decide (Some (ra_revision authority) = dict_get (g_stream_revisions g) (ra_stream authority)) &&
     bool_decide (g_mode g = networked)
  then
    section ← stream_section (ra_stream authority);
    operation ← section_operation (g_document g) section;
    if bool_decide (ra_stream authority = "static_route") then route_omission operation authority
    else if is_str (get (default [] (g_removal_context g)) "scope") section then
      if bool_decide (ra_operation authority = "clear") then
        immediate ← list_member operation "immediate_clear_streams";
        if bool_decide (JStr (ra_stream authority) ∈ immediate) then Ok true
        else
          ids ← list_member operation "pending_clear_ids";
          Ok (match ids with [] => false | _ => forallb (fun v => match v with JInt z => 0 <? z | _ => false end) ids end)
      else label_omission g section authority
    else Ok false
  else Ok false.

(** ** Joining *)

Definition with_provenance (b : OriginBinding) (p : Provenance) (authority : option RemovalAuthority) : OriginBinding :=
  mkBinding (ob_stream b) (ob_sources b) (ob_construct b) p (ob_rows b) (ob_baseline_attempt b) (ob_fingerprint b) authority.
Definition prior_fields (row : RowRef) (authority : option RemovalAuthority) : res (list (option pystr)) :=
  match authority with
  | Some a =>
      match bool_decide (ra_operation a = "clear"), ra_fields a with
      | true, _ :: _ => Ok (map Some (ra_fields a))
      | _, _ => fields ← subject_fields (rr_subject row); Ok (None :: map Some fields)
      end
  | None => fields ← subject_fields (rr_subject row); Ok (None :: map Some fields)
  end.
(** One field of [_bind_prior] *)
Definition bind_prior_field (baseline : OriginIndex) (family : pystr) (row : RowRef) (provenance : Provenance) (fingerprint : option pystr)
    (authority : option RemovalAuthority) (i : OriginIndex) (field : option pystr) : OriginIndex :=
  let key := mkKey family row field in
  match dict_get (oi_bindings baseline) key with
  | None => i
  | Some prior =>
      let unproved := bool_decide (provenance = Retained) && negb (bool_decide (ob_fingerprint prior = fingerprint)) in
      let foreign := match authority with Some a => negb (bool_decide (ob_stream prior = ra_stream a)) | None => false end in
      if unproved || foreign || dict_mem (oi_bindings i) key then i
      else mkIndex (dict_set (oi_bindings i) key (with_provenance prior provenance authority)) (dict_pop (oi_unsupported i) key) (oi_retained i) (oi_omitted i)
             (oi_unsupported_subjects i)
  end.
(** [_bind_prior] *)
Definition bind_prior (baseline : OriginIndex) (family : pystr) (row : RowRef) (provenance : Provenance) (fingerprint : option pystr)
    (authority : option RemovalAuthority) (i : OriginIndex) : res OriginIndex :=
  fields ← prior_fields row authority; Ok (fold_left (bind_prior_field baseline family row provenance fingerprint authority) fields i).

(** [_retained_family] *)
Definition is_route_binding (kb : OriginKey * OriginBinding) : bool :=
  bool_decide (ok_family kb.1 = "static-route") && bool_decide (rr_subject (ok_row kb.1) = "static-route.route") && bool_decide (ok_field kb.1 = None).
Definition retained_family (i : OriginIndex) : res OriginIndex :=
  if bool_decide (oi_retained i = []) || existsb (fun c => negb (dict_mem (oi_bindings i) (mkKey "static-route" (rc_row c) None))) (oi_retained i) then Ok i
  else
    let bindings := map snd (List.filter is_route_binding (oi_bindings i)) in
    row ← row_ref "static-route" "static-route" [];
    let key := mkKey "static-route" row None in
    let b := mkBinding "static_route" (fromkeys (flat_map ob_sources bindings)) "static-route" Current (fromkeys (flat_map ob_rows bindings)) None None None in
    Ok (mkIndex (dict_set (oi_bindings i) key b) (dict_pop (oi_unsupported i) key) (oi_retained i) (oi_omitted i) (oi_unsupported_subjects i)).

(** The latest acknowledged attempt of a device *)
Definition latest_acknowledged (e : Ev) (device_id : Z) : option Attempt :=
  snd <$> last (stable_sort (fun a b => a.1 <=? b.1) (List.filter (fun ia => bool_decide (at_device ia.2 = device_id) && at_acknowledged ia.2) (map_to_list (ev_attempts e)))).
(** Whether an authority speaks for an omitted contribution *)
Definition covers (baseline : OriginIndex) (c : PriorContribution) (authority : RemovalAuthority) : bool :=
  bool_decide (ra_row authority = pc_row c) ||
  match ra_fields authority, dict_get (oi_bindings baseline) (mkKey (pc_family c) (pc_row c) None) with
  | [], Some prior => match ob_rows prior with [] => false | rows => forallb (fun l => bool_decide (so_root_row (lr_carrier l) = ra_row authority)) rows end
  | _, _ => false
  end.
Fixpoint bind_retained (baseline : OriginIndex) (l : list RetainedContribution) (i : OriginIndex) : res OriginIndex :=
  match l with [] => Ok i | c :: l => i ← bind_prior baseline "static-route" (rc_row c) Retained (Some (rc_fingerprint c)) None i; bind_retained baseline l i end.
Fixpoint bind_omitted (g : Generation) (baseline : OriginIndex) (l : list PriorContribution) (i : OriginIndex) : res OriginIndex :=
  match l with
  | [] => Ok i
  | c :: l =>
      i ← match pc_authority c with
          | Some authority => if covers baseline c authority then
                                ok ← authorized_omission g authority;
                                if ok : bool then bind_prior baseline (pc_family c) (pc_row c) Prior None (Some authority) i else Ok i
                              else Ok i
          | None => Ok i
          end;
      bind_omitted g baseline l i
  end.
(** [bind_historical_origins] *)
Definition bind_historical_origins (e : Ev) (device_id : Z) (origins : OriginIndex) (generation_id : Z) : res OriginIndex :=
  match generations (ev_db e) !! generation_id with
  | Some frozen =>
      _ ← guard_or (bool_decide (g_device_id frozen = device_id)) (ValueError "Historical attribution requires a persisted device generation");
      match latest_acknowledged e device_id with
      | None => Ok origins
      | Some a =>
          records ← list_of_json (default (JArr []) (dict_get (at_responses a) ORIGIN_HISTORY));
          baseline ← origins_from_records records;
          i ← bind_retained baseline (oi_retained origins) origins;
          i ← retained_family i;
          bind_omitted frozen baseline (oi_omitted i) i
      end
  | None => Raise (ValueError "Historical attribution requires a persisted device generation")
  end.

(** ** Sending a removal again *)

Definition blocks_reissue (a : Attempt) : bool :=
  let checkpoints := map snd (List.filter (fun kv => negb (bool_decide (kv.1 = ORIGIN_HISTORY))) (at_responses a)) in
  existsb (fun v => existsb (is_kind v) ["refused"; "unavailable"; "protocol_fault"]) checkpoints ||
  match checkpoints with [] => true | _ => at_acknowledged a end.
(** [automatic_removal_reissue_blocked] *)
Definition automatic_removal_reissue_blocked (e : Ev) (device_id tombstone_id : Z) : bool :=
  existsb (fun ia => bool_decide (at_device ia.2 = device_id) && bool_decide (tombstone_id ∈ at_tombstones ia.2) && blocks_reissue ia.2) (map_to_list (ev_attempts e)).

(** ** What history adds to a document's origins

    History only fills gaps: a construct the current document binds keeps its binding, and a construct it does not bind is joined
    to the acknowledged history of the device only with proof.  A removal an attempt names goes out again by itself only after NSO rejected it. *)


(** ** Joins *)

(** [i'] keeps the bindings of [i]; the ones it adds satisfy [P] *)
Record extends_by (P : OriginKey -> OriginBinding -> Prop) (i i' : OriginIndex) : Prop := {
  ex_keeps : ∀ key b, dict_get (oi_bindings i) key = Some b → dict_get (oi_bindings i') key = Some b;
  ex_adds : ∀ key b, dict_get (oi_bindings i) key = None → dict_get (oi_bindings i') key = Some b → P key b;
  ex_retained : oi_retained i' = oi_retained i;
  ex_omitted : oi_omitted i' = oi_omitted i }.
Lemma extends_refl P i : extends_by P i i.
Proof. split; [done|congruence|done|done]. Qed.
Lemma extends_trans P a b c : extends_by P a b → extends_by P b c → extends_by P a c.
Proof.
  intros [K1 A1 R1 O1] [K2 A2 R2 O2]. split; [auto| |congruence|congruence]. intros key x Hn Hs. destruct (dict_get (oi_bindings b) key) as [y|] eqn:E; [|by eapply A2].
  pose proof (K2 _ _ E) as Hy. rewrite Hs in Hy. injection Hy as ->. by apply A1.
Qed.
Lemma extends_mono (P Q : OriginKey -> OriginBinding -> Prop) i i' : (∀ key b, P key b → Q key b) → extends_by P i i' → extends_by Q i i'.
Proof. intros H [K A R O]. split; [done|intros; by apply H, A|done|done]. Qed.

Definition prior_join (baseline : OriginIndex) (family : pystr) (row : RowRef) (provenance : Provenance) (fingerprint : option pystr)
    (authority : option RemovalAuthority) (key : OriginKey) (b : OriginBinding) : Prop :=
  ok_family key = family ∧ ok_row key = row ∧ ∃ prior, dict_get (oi_bindings baseline) key = Some prior ∧ b = with_provenance prior provenance authority ∧
    (provenance = Retained → ob_fingerprint prior = fingerprint) ∧ (∀ a, authority = Some a → ob_stream prior = ra_stream a).
Lemma bind_prior_field_extends baseline family row provenance fingerprint authority i field :
  extends_by (prior_join baseline family row provenance fingerprint authority) i (bind_prior_field baseline family row provenance fingerprint authority i field).
Proof.
  unfold bind_prior_field. destruct (dict_get (oi_bindings baseline) (mkKey family row field)) as [prior|] eqn:Ep; [|apply extends_refl].
  destruct (_ || _ || _)%bool eqn:E; [apply extends_refl|]. apply orb_false_elim in E as [[E1 E2]%orb_false_elim E3]. split; cbn [oi_bindings oi_retained oi_omitted]; try done.
  - intros key b Hb. rewrite dict_get_set_ne; [done|]. intros ->. unfold dict_mem in E3. by rewrite Hb in E3.
  - intros key b Hn Hs. destruct (decide (key = mkKey family row field)) as [->|Hne]; [|rewrite dict_get_set_ne in Hs by done; congruence].
    rewrite dict_get_set_eq in Hs. injection Hs as <-. split_and!; [done|done|]. exists prior. split_and!; [done|done| |].
    + intros ->. rewrite bool_decide_eq_true_2 in E1 by done. cbn [andb] in E1. apply negb_false_iff, bool_decide_eq_true in E1. done.
    + intros a ->. by apply negb_false_iff, bool_decide_eq_true in E2.
Qed.
Lemma bind_prior_extends baseline family row provenance fingerprint authority i i' : bind_prior baseline family row provenance fingerprint authority i = Ok i' →
  extends_by (prior_join baseline family row provenance fingerprint authority) i i'.
Proof.
  unfold bind_prior. rewrite bind_Ok. intros (fields & _ & H%Ok_inj). subst i'. revert i. induction fields as [|f fields IH]; intros i; [apply extends_refl|].
  cbn [fold_left]. eapply extends_trans; [apply bind_prior_field_extends|apply IH].
Qed.

(** A join to history with its proof: the entry retained now is the entry certified when it was sent, or the omission was authorized *)
Inductive proved_join (g : Generation) (baseline i : OriginIndex) (key : OriginKey) (b : OriginBinding) : Prop :=
| join_retained c prior : c ∈ oi_retained i → ok_family key = "static-route" → ok_row key = rc_row c → dict_get (oi_bindings baseline) key = Some prior →
    ob_fingerprint prior = Some (rc_fingerprint c) → b = with_provenance prior Retained None → proved_join g baseline i key b
| join_omitted c authority prior : c ∈ oi_omitted i → pc_authority c = Some authority → ok_family key = pc_family c → ok_row key = pc_row c →
    authorized_omission g authority = Ok true → covers baseline c authority = true → dict_get (oi_bindings baseline) key = Some prior →
    ob_stream prior = ra_stream authority → b = with_provenance prior Prior (Some authority) → proved_join g baseline i key b.

Lemma bind_retained_extends g baseline i0 l i i' : (∀ c, c ∈ l → c ∈ oi_retained i0) → bind_retained baseline l i = Ok i' → extends_by (proved_join g baseline i0) i i'.
Proof.
  revert i. induction l as [|c l IH]; intros i Hl; cbn [bind_retained]; [intros H%Ok_inj; subst; apply extends_refl|].
  rewrite bind_Ok. intros (i1 & H1 & H). eapply extends_trans; [|apply IH; [intros; apply Hl; by right|exact H]]. apply bind_prior_extends in H1. eapply extends_mono; [|exact H1].
  intros key b (Hf & Hr & prior & Hp & Hb & Hfp & _). eapply join_retained; [by apply Hl; left|exact Hf|exact Hr|exact Hp|by apply Hfp|exact Hb].
Qed.
Lemma bind_omitted_extends g baseline i0 l i i' : (∀ c, c ∈ l → c ∈ oi_omitted i0) → bind_omitted g baseline l i = Ok i' → extends_by (proved_join g baseline i0) i i'.
Proof.
  revert i. induction l as [|c l IH]; intros i Hl; cbn [bind_omitted]; [intros H%Ok_inj; subst; apply extends_refl|].
  rewrite bind_Ok. intros (i1 & H1 & H). eapply extends_trans; [|apply IH; [intros; apply Hl; by right|exact H]].
  destruct (pc_authority c) as [authority|] eqn:Ea; [|apply Ok_inj in H1; subst; apply extends_refl].
  destruct (covers baseline c authority) eqn:Ec; [|apply Ok_inj in H1; subst; apply extends_refl]. rewrite bind_Ok in H1. destruct H1 as (ok & Hok & H1).
  destruct ok; [|apply Ok_inj in H1; subst; apply extends_refl]. apply bind_prior_extends in H1. eapply extends_mono; [|exact H1].
  intros key b (Hf & Hr & prior & Hp & Hb & _ & Hs). eapply join_omitted; [by apply Hl; left|exact Ea|exact Hf|exact Hr|exact Hok|exact Ec|exact Hp|by apply Hs|exact Hb].
Qed.
(** The binding of the route family itself *)
Definition family_key (row : RowRef) : OriginKey := mkKey "static-route" row None.
Lemma retained_family_spec i i' : retained_family i = Ok i' → oi_omitted i' = oi_omitted i ∧
  (i' = i ∨ ∃ row, row_ref "static-route" "static-route" [] = Ok row ∧ (∀ c, c ∈ oi_retained i → is_Some (dict_get (oi_bindings i) (family_key (rc_row c)))) ∧
     ∀ key, key ≠ family_key row → dict_get (oi_bindings i') key = dict_get (oi_bindings i) key).
Proof.
  unfold retained_family. destruct (_ || _)%bool eqn:E; [intros H%Ok_inj; subst; auto|]. apply orb_false_elim in E as [_ E]. rewrite bind_Ok. intros (row & Hr & H%Ok_inj). subst i'.
  split; [done|]. right. exists row. split; [done|]. split; [|intros key Hk; cbn [oi_bindings]; by rewrite dict_get_set_ne].
  intros c Hc. apply list_elem_of_In in Hc. apply not_true_iff_false in E. destruct (dict_get (oi_bindings i) (family_key (rc_row c))) eqn:Eg; [done|]. exfalso. apply E, existsb_exists.
  exists c. split; [done|]. unfold dict_mem. fold (family_key (rc_row c)). by rewrite Eg.
Qed.

(** Joining a document's origins to the device's history keeps every binding the document made and adds only proved ones - apart
    from the route family's own binding, which is made when every retained route was joined. *)
Theorem history_only_fills_gaps e device_id origins generation_id origins' : bind_historical_origins e device_id origins generation_id = Ok origins' →
  ∃ frozen, generations (ev_db e) !! generation_id = Some frozen ∧ g_device_id frozen = device_id ∧
    (origins' = origins ∨ ∃ a records baseline, latest_acknowledged e device_id = Some a ∧
       default (JArr []) (dict_get (at_responses a) ORIGIN_HISTORY) = JArr records ∧ origins_from_records records = Ok baseline ∧
       ∀ key, (∀ row, row_ref "static-route" "static-route" [] = Ok row → key ≠ family_key row) →
         (∀ b, dict_get (oi_bindings origins) key = Some b → dict_get (oi_bindings origins') key = Some b) ∧
         (∀ b, dict_get (oi_bindings origins) key = None → dict_get (oi_bindings origins') key = Some b → proved_join frozen baseline origins key b)).
Proof.
  unfold bind_historical_origins. destruct (generations (ev_db e) !! generation_id) as [frozen|]; [|discriminate]. rewrite bind_Ok. intros ([] & Hg%guard_or_Ok%bool_decide_eq_true & H).
  exists frozen. split; [done|]. split; [done|]. destruct (latest_acknowledged e device_id) as [a|]; [|apply Ok_inj in H; by left]. right.
  rewrite bind_Ok in H. destruct H as (records & Hr & H). rewrite bind_Ok in H. destruct H as (baseline & Hb & H). rewrite bind_Ok in H. destruct H as (i1 & H1 & H).
  rewrite bind_Ok in H. destruct H as (i2 & H2 & H3). exists a, records, baseline. split; [done|]. split. { destruct (default _ _); try discriminate. by apply Ok_inj in Hr as ->. }
  split; [done|]. apply (bind_retained_extends frozen baseline origins) in H1 as [K1 A1 R1 O1]; [|done]. apply retained_family_spec in H2 as [O2 H2].
  apply (bind_omitted_extends frozen baseline origins) in H3 as [K3 A3 _ _]; [|by rewrite O2, O1].
  intros key Hk. assert (dict_get (oi_bindings i2) key = dict_get (oi_bindings i1) key) as E by (destruct H2 as [->|(row & Hrow & _ & H2)]; [done|apply H2; by apply Hk]).
  split; intros b Hb1.
  - apply K3. rewrite E. by apply K1.
  - intros Hb2. destruct (dict_get (oi_bindings i1) key) as [x|] eqn:Ex; [|by apply A3].
    assert (dict_get (oi_bindings origins') key = Some x) as Hx by (by apply K3). rewrite Hb2 in Hx. injection Hx as ->. by apply A1.
Qed.

(** ** Reissue *)

(** [a] is an attempt a send left as [a1], later annotated: the certified history, or the note of a delivery nobody can account for, and
    the columns that hold no response (its phase, its job). *)
Definition after_send (a1 a : Attempt) : Prop :=
  at_acknowledged a = at_acknowledged a1 ∧
  ∃ notes, at_responses a = at_responses a1 ++ notes ∧ ∀ k v, (k, v) ∈ notes → k = ORIGIN_HISTORY ∨ is_kind v "unavailable" = true.
Lemma after_send_refl a : after_send a a.
Proof. split; [done|]. exists []. split; [by rewrite app_nil_r|]. by intros ? ? ?%not_elem_of_nil. Qed.
Lemma after_send_trans a b c : after_send a b → after_send b c → after_send a c.
Proof.
  intros [A1 (n1 & R1 & H1)] [A2 (n2 & R2 & H2)]. split; [congruence|]. exists (n1 ++ n2). split; [by rewrite R2, R1, app_assoc|].
  intros k v [H|H]%elem_of_app; [by apply (H1 k)|by apply (H2 k)].
Qed.
Lemma after_send_closed a p : after_send a (set_at_phase p a).
Proof. exact (after_send_refl a). Qed.
Lemma after_send_unlinked a : after_send a (unlinked a).
Proof. exact (after_send_refl a). Qed.
Lemma after_send_delivery k x a : after_send a (note_delivery k x a).
Proof.
  unfold note_delivery. destruct k; try apply after_send_refl; (destruct (dict_mem (at_responses a) "delivery"); [apply after_send_refl|]); (split; [done|]); (eexists; split; [reflexivity|]);
    intros key v Hin%list_elem_of_singleton; injection Hin as -> ->; by right.
Qed.

Definition checkpoints_of (a : Attempt) : list json := map snd (List.filter (fun kv => negb (bool_decide (kv.1 = ORIGIN_HISTORY))) (at_responses a)).
(** A note never unblocks: what does not block after it did not block before. *)
Lemma unblocked_before_notes a1 a : after_send a1 a → blocks_reissue a = false → blocks_reissue a1 = false.
Proof.
  intros [A (notes & R & H)]. unfold blocks_reissue. fold (checkpoints_of a) (checkpoints_of a1).
  set (quiet := map snd (List.filter (fun kv : pystr * json => negb (bool_decide (kv.1 = ORIGIN_HISTORY))) notes)).
  assert (checkpoints_of a = checkpoints_of a1 ++ quiet) as Hc by (unfold checkpoints_of, quiet; by rewrite R, List.filter_app, map_app).
  intros [Hk Hs]%orb_false_elim. rewrite Hc, existsb_app in Hk. apply orb_false_elim in Hk as [Hk Hq].
  assert (quiet = []) as Hnil; [|rewrite Hc, Hnil, app_nil_r, A in Hs; by rewrite Hk].
  destruct quiet as [|v quiet'] eqn:Eq; [done|]. assert (v ∈ quiet) as Hv by (rewrite Eq; by left). unfold quiet in Hv.
  apply list_elem_of_In, in_map_iff in Hv as ([k w] & Hw & [Hin Hne]%filter_In). cbn in Hw, Hne. subst w. apply list_elem_of_In in Hin.
  apply negb_true_iff, bool_decide_eq_false in Hne. destruct (H _ _ Hin) as [|Hu]; [done|]. cbn [existsb] in Hq. rewrite Hu in Hq. by rewrite orb_true_r in Hq.
Qed.

(** An attempt a send recorded that does not block: NSO rejected its commit. *)
Lemma unblocked_send_rejected rec_limit st nso a0 base device containers no_networking strict r t a : (5 <= rec_limit)%nat → at_responses a0 = [] ∧ at_acknowledged a0 = false →
  apply_device_intent rec_limit st nso (Some (recorder rec_limit a0)) base device containers no_dry_run no_networking strict empty_trace = (r, t) →
  record_all rec_limit a0 (tr_checkpoints t) = Ok a → blocks_reissue a = false →
  ∃ url payload rest, tr_requests t = commit_request st no_networking url payload :: rest ∧
    problem rec_limit (nso [] (commit_request st no_networking url payload)) = Some OrdinaryRejection.
Proof.
  intros Hl Hfresh Hs Ha Hb. destruct (send_recorded rec_limit st nso a0 Hl Hfresh _ _ _ _ _ _ _ Hs) as (a' & Ha' & H). rewrite Ha in Ha'. apply Ok_inj in Ha'. subst a'.
  destruct H as [[_ ->]|(url & payload & rest & Hreq & Hack & Hr)]; [unfold blocks_reissue in Hb; by rewrite (proj1 Hfresh) in Hb|].
  exists url, payload, rest. split; [done|]. pose proof (problem_error rec_limit (nso [] (commit_request st no_networking url payload))) as Hn.
  destruct (problem rec_limit (nso [] (commit_request st no_networking url payload))) as [c|] eqn:E.
  - unfold blocks_reissue in Hb. rewrite Hr in Hb by done. destruct c as [rs| | | |]; cbn [commit_value] in Hb; [exfalso; revert Hb; vm_compute; discriminate| | |done|done].
    all: exfalso; revert Hb; vm_compute; discriminate.
  - exfalso. unfold blocks_reissue in Hb. rewrite Hack, bool_decide_eq_true_2 in Hb by done. apply orb_false_elim in Hb as [_ Hb]. by destruct (map snd _).
Qed.

(** An attempt of the device that names the tombstone *)
Definition names (e : Ev) (device_id tombstone_id : Z) (a : Attempt) : Prop :=
  ∃ id, ev_attempts e !! id = Some a ∧ at_device a = device_id ∧ tombstone_id ∈ at_tombstones a.
Lemma reissue_blocked_spec e device_id tombstone_id : automatic_removal_reissue_blocked e device_id tombstone_id = false ↔
  ∀ a, names e device_id tombstone_id a → blocks_reissue a = false.
Proof.
  unfold automatic_removal_reissue_blocked. split.
  - intros H a (id & Ha & Hd & Ht). apply not_true_iff_false. intros Hb. apply not_true_iff_false in H. apply H, existsb_exists. exists (id, a).
    split; [by apply list_elem_of_In, elem_of_map_to_list|]. cbn [snd]. by rewrite !bool_decide_eq_true_2.
  - intros H. apply not_true_iff_false. intros ([id a] & Hin & Hb)%existsb_exists. apply list_elem_of_In, elem_of_map_to_list in Hin.
    apply andb_prop in Hb as [[Hd%bool_decide_eq_true Ht%bool_decide_eq_true]%andb_prop Hb]. cbn [snd] in *. rewrite H in Hb; [done|]. by exists id.
Qed.

Section Reissue.
Context (prune_apply_plan : json -> list json -> list json -> res json).
Context (static_route_operation : Db -> Z -> pydict -> pydict -> pydict -> list Z -> res pydict).
(** C17: A removal that some attempt already names goes out again by itself only if NSO answered the commit of every such attempt that
    a send recorded with an ordinary rejection: not when NSO acknowledged or refused it, could not be reached, or nobody knows. A removal
    that no attempt names is not held back, and one that is held back changes nothing. *)
Theorem reissue_only_after_rejection e device_id tombstone_id removed marking job d' :
  reissue_removal_job prune_apply_plan static_route_operation (automatic_removal_reissue_blocked e device_id tombstone_id) device_id tombstone_id removed marking (ev_db e)
    = Ok (job, d') →
  match job with
  | Some _ =>
      ∀ a, names e device_id tombstone_id a →
      ∀ rec_limit st nso a0 base device containers no_networking strict r t a1, (5 <= rec_limit)%nat → at_responses a0 = [] ∧ at_acknowledged a0 = false →
        apply_device_intent rec_limit st nso (Some (recorder rec_limit a0)) base device containers no_dry_run no_networking strict empty_trace = (r, t) →
        record_all rec_limit a0 (tr_checkpoints t) = Ok a1 → after_send a1 a →
        ∃ url payload rest, tr_requests t = commit_request st no_networking url payload :: rest ∧
          problem rec_limit (nso [] (commit_request st no_networking url payload)) = Some OrdinaryRejection
  | None => d' = ev_db e ∧ ∃ a, names e device_id tombstone_id a ∧ blocks_reissue a = true
  end.
Proof.
  unfold reissue_removal_job. destruct (automatic_removal_reissue_blocked e device_id tombstone_id) eqn:Eb.
  - intros H%Ok_inj. injection H as <- <-. split; [done|]. apply existsb_exists in Eb as ([id a] & Hin & Hb). apply list_elem_of_In, elem_of_map_to_list in Hin.
    apply andb_prop in Hb as [[Hd%bool_decide_eq_true Ht%bool_decide_eq_true]%andb_prop Hb]. exists a. split; [by exists id|done].
  - intros H. rewrite bind_Ok in H. destruct H as ([gid d1] & _ & H). rewrite bind_Ok in H. destruct H as ([jid d2] & _ & H). rewrite bind_Ok in H. destruct H as ([att d3] & _ & H).
    destruct att; [|discriminate]. apply Ok_inj in H. injection H as <- _. intros a Ha rec_limit st nso a0 base device containers no_networking strict r t a1 Hl Hf Hs Hr Hk.
    apply (unblocked_send_rejected rec_limit st nso a0 base device containers no_networking strict r t a1 Hl Hf Hs Hr).
    eapply unblocked_before_notes; [exact Hk|]. by apply (reissue_blocked_spec e device_id tombstone_id).
Qed.
End Reissue.
