(* ===== verification/Execution.v ===== *)
(** * Executing a run

    src/nso_adapter/core/execution.py: the not-applied evidence of a run that prepared no attempt, and the transactions that wrap the
    attempt store for the worker - preparation, checkpoints, disposal, settlement of a run known to be unsent, and history.  A caught
    [AttemptOwnershipLost] rolls back and becomes a [ClaimLostError]. *)

From stdpp Require Import base list gmap.
From Stdlib Require Import ZArith NArith Lia.
From S2P Require Import Prelude Json RefusalProtocol Refusals Registry Document Store Generation Claim Hydrate Origins DeviceBody Sender Evidence Bookkeeping Attempt History.
Local Open Scope py_scope.
Local Open Scope Z_scope.

(** ** Runs that prepared nothing *)

(** [Unresolved] *)
Inductive Unresolved := attempt_exists | no_generation | generation_tampered | derivation_failed.

(** [derive_unprepared_evidence] *)
Definition derive_unprepared_evidence (ty : JobType) (gs : list Generation) (error : json) (exists_ : bool) : Unresolved + pydict :=
  if exists_ then inl attempt_exists
  else
    match last gs with
    | None => inl no_generation
    | Some g =>
        match (_ ← verify_generation_digest g;
               membership ← unprepared_membership (bool_decide (ty = removal)) gs;
               _ ← validate_logical_membership gs membership;
               unsent_execution_result g membership error) with
        | Ok result => inr result
        | Raise (GenerationTampered _) => inl generation_tampered
        | Raise _ => inl derivation_failed
        end
    end.
(** [unprepared_evidence] of the run a job is in *)
Definition unprepared_evidence (attempts : gmap Z Attempt) (d : Db) (j : Job) (error : option json) : res (option pydict) :=
  let prepared := existsb (fun ia => same_run (j_id j) (j_run_attempt j) ia.2) (map_to_list attempts) in
  match derive_unprepared_evidence (j_type j) (job_generations d (j_id j)) (default JNull error) prepared with
  | inr result => Ok (Some result)
  | inl _ => Ok None
  end.

(** ** Runs that send *)

Definition registered (reg : Registration) : bool := match reg_token reg with Some _ => true | None => false end.
(** [except AttemptOwnershipLost: rollback], then [raise ClaimLostError] *)
Definition or_claim_lost {A} (device_id : Z) (r : res A) : res A := match r with Raise AttemptOwnershipLost => Raise (ClaimLostError device_id) | r => r end.

Section Runs.
Context (rec_limit : nat).

(** [prepare_send], up to its commit *)
Definition prepare_send (g : Generation) (origins : OriginIndex) (logicals : list LogicalRow) (reg : option Registration) : txn Ev Z := fun e =>
  match reg, g_job_id g with
  | Some reg, Some job_id =>
      match reg_token reg with
      | None => Raise (JobError "execution_claim_required")
      | Some token =>
          '(_, e) ← lift_db (lock_claim reg) e;
          origins ← bind_historical_origins e (g_device_id g) origins (g_id g);
          or_claim_lost (default 0 (reg_device reg))
            (match reg_attempt reg with
             | Some run => prepare_execution_attempt job_id run token (g_id g) origins logicals e
             | None => Raise AttemptOwnershipLost
             end)
      end
  | None, _ => Raise (JobError "execution_claim_required")
  | Some reg, None => if registered reg then Raise (ValueError "Execution requires its job correlation") else Raise (JobError "execution_claim_required")
  end.
(** The [checkpoint] callback [prepare_send] returns *)
Definition record_checkpoint (attempt_id job_id run_attempt : Z) (token : pystr) (ck : Checkpoint) : txn Ev unit := fun e =>
  or_claim_lost 0 (record_classified_response rec_limit attempt_id job_id run_attempt token ck e).

(** [dispose_run] *)
Definition dispose_run (job_id : Z) (reg : option Registration) (x : ExitReason) (terminal_error : option pydict) : txn Ev bool := fun e =>
  '(_, e) ← match reg with Some reg => lift_db (lock_claim reg) e | None => Ok (tt, e) end;
  let attempt := match reg with Some reg => reg_attempt reg | None => j_run_attempt <$> jobs (ev_db e) !! job_id end in
  let token := match reg with Some reg => reg_token reg | None => None end in
  match attempt with
  | None => Ok (false, e)
  | Some run =>
      or_claim_lost (match reg with Some reg => default 0 (reg_device reg) | None => 0 end)
        ('(r, e) ← Attempt.dispose_execution_attempt rec_limit (unprepared_evidence (ev_attempts e)) job_id run token x terminal_error e;
         Ok (match r with no_attempt_found => false | _ => true end, e))
  end.

(** [active_attempt] *)
Definition active_attempt (e : Ev) (job_id : Z) : option (Z * Attempt) :=
  last (stable_sort (fun a b => a.1 <=? b.1) (List.filter (fun ia => bool_decide (at_job ia.2 = Some job_id)) (map_to_list (ev_attempts e)))).

(** [settle_unsent] *)
Definition settle_unsent (g : Generation) (origins : OriginIndex) (logicals : list LogicalRow) (job_id run_attempt : Z) (token : pystr) (reg : Registration)
    (error : pydict) : txn Ev Disposed := fun e =>
  '(_, e) ← lift_db (lock_claim reg) e;
  '(attempt_id, e) ← prepare_execution_attempt job_id run_attempt token (g_id g) origins logicals e;
  '(_, e) ← record_classified_response rec_limit attempt_id job_id run_attempt token (mkCheckpoint pre_commit_dry_run (Some OrdinaryRejection) false) e;
  Attempt.dispose_execution_attempt rec_limit (unprepared_evidence (ev_attempts e)) job_id run_attempt (Some token) exit_disposed (Some error) e.

(** [record_send_history] *)
Definition record_send_history (job_id run_attempt : Z) (token : pystr) (certified : option CertifiedSection) : txn Ev unit := fun e =>
  match active_attempt e job_id with
  | Some (attempt_id, a) => if at_acknowledged a then record_acknowledged_origins attempt_id job_id run_attempt token certified e else Ok (tt, e)
  | None => Ok (tt, e)
  end.
End Runs.
