(* ===== verification/ExecutionProps.v ===== *)
(** * The execution machine refines the deployment core

    Every run of the execution transactions, interleaved with those of the core and with other writers of the live rows, is on the
    jobs, generations and claims a run of the core; and what an attempt recorded is never rewritten. *)

From stdpp Require Import base list gmap.
From Stdlib Require Import ZArith NArith Lia.
From S2P Require Import Prelude Json RefusalProtocol Refusals Registry Document Store Generation Claim GenerationInv Moves Lifecycle System VaultRef Hydrate Origins DeviceBody Sender Evidence Bookkeeping BookkeepingProps Attempt AttemptProps History Execution.
Local Open Scope py_scope.
Local Open Scope Z_scope.

(** ** The machine *)

Section Machine.
Context (rec_limit : nat) (core : Db -> Db -> Prop).

(** One committed transaction: of the deployment core, of another writer of the live rows, or of a run; [ev_unlink] is what deleting a job
    row does to the evidence ([SET NULL]), the program itself never deletes one. *)
Inductive ev_step (e e' : Ev) : Prop :=
| ev_core d' : core (ev_db e) d' → e' = with_live (with_db d' (ev_live e)) e → ev_step e e'
| ev_rows rows interfaces attributes : e' = with_live (mkLive (ev_db e) rows interfaces attributes) e → ev_step e e'
| ev_prepare g origins logicals reg id : prepare_send g origins logicals reg e = Ok (id, e') → ev_step e e'
| ev_checkpoint id job run token ck : record_checkpoint rec_limit id job run token ck e = Ok (tt, e') → ev_step e e'
| ev_dispose job reg x error b : dispose_run rec_limit job reg x error e = Ok (b, e') → ev_step e e'
| ev_unsent g origins logicals job run token reg error r : settle_unsent rec_limit g origins logicals job run token reg error e = Ok (r, e') → ev_step e e'
| ev_complete job run token dispositions now result : complete_execution_result rec_limit job run token dispositions now e = Ok (result, e') → ev_step e e'
| ev_history job run token certified : record_send_history job run token certified e = Ok (tt, e') → ev_step e e'
| ev_unlink job : e' = unlink_job job e → ev_step e e'.
End Machine.

(** ** Projection to the core *)

Lemma with_same_db e : with_live (with_db (ev_db e) (ev_live e)) e = e.
Proof. by destruct e as [[]]. Qed.
Lemma lift_lock_claim reg e r e' : lift_db (lock_claim reg) e = Ok (r, e') → e' = e.
Proof. unfold lift_db. rewrite bind_Ok. intros ([[] d] & H & H1%Ok_inj). injection H1 as _ <-. apply lock_claim_same in H as ->. apply with_same_db. Qed.
Lemma or_claim_lost_Ok {A} dev (r : res A) x : or_claim_lost dev r = Ok x ↔ r = Ok x.
Proof. destruct r as [|[]]; split; intros H; try discriminate H; exact H. Qed.

Lemma prepare_attempt_spec job run token gid origins logicals e id e' : prepare_execution_attempt job run token gid origins logicals e = Ok (id, e') →
  ev_db e' = ev_db e ∧ ev_outcomes e' = ev_outcomes e ∧ id = ev_next_attempt e ∧ ev_next_attempt e' = id + 1 ∧
  ∃ a, ev_attempts e' = <[id := a]> (ev_attempts e) ∧ at_responses a = [] ∧ at_acknowledged a = false ∧ at_phase a = at_prepared ∧ same_run job run a = true ∧
    find_attempt e job run = None.
Proof.
  unfold prepare_execution_attempt. rewrite bind_Ok. intros ([j gs] & Hr & H). destruct (last gs) as [g|]; [|discriminate]. rewrite bind_Ok in H. destruct H as ([] & _ & H).
  rewrite bind_Ok in H. destruct H as (ts & _ & H). rewrite bind_Ok in H. destruct H as ([] & _ & H). rewrite bind_Ok in H. destruct H as ([prior l] & Hs & H).
  rewrite bind_Ok in H. destruct H as ([] & Hf%guard_or_Ok & H). apply Ok_inj in H. injection H as <- <-.
  split.
  { cbn [ev_db ev_live]. unfold snapshot_bookkeeping in Hs. rewrite bind_Ok in Hs. destruct Hs as (fr & _ & Hs). rewrite bind_Ok in Hs. destruct Hs as (tgs & _ & Hs).
    by apply snapshot_targets_spec in Hs as (m & -> & _). }
  split_and!; try reflexivity. eexists. split; [reflexivity|]. cbn [at_responses at_acknowledged at_phase]. split_and!; try reflexivity.
  - unfold same_run. cbn [at_correlation at_run]. by rewrite !Z.eqb_refl.
  - by destruct (find_attempt e job run).
Qed.

Lemma record_response_db rec_limit id job run token ck e e' : record_classified_response rec_limit id job run token ck e = Ok (tt, e') →
  ∃ a a', ev_attempts e !! id = Some a ∧ at_phase a ≠ at_terminal ∧ record_response rec_limit a ck = Ok a' ∧ e' = with_attempts (<[id := a']> (ev_attempts e)) e.
Proof.
  unfold record_classified_response, owned_attempt. rewrite bind_Ok. intros (a & Ho & H). rewrite bind_Ok in H. destruct H as (a' & Ha & H%Ok_inj). injection H as <-.
  destruct (ev_attempts e !! id) as [x|]; [|discriminate]. rewrite bind_Ok in Ho. destruct Ho as ([j gs] & _ & Ho).
  destruct (_ && negb (bool_decide (at_phase x = at_terminal))) eqn:E; [|discriminate]. apply Ok_inj in Ho. subst x. apply andb_prop in E as [_ E%negb_true_iff%bool_decide_eq_false].
  by exists a, a'.
Qed.
Lemma owned_attempt_spec e id job run token a : owned_attempt e id job run token = Ok a → ev_attempts e !! id = Some a ∧ at_phase a ≠ at_terminal.
Proof.
  unfold owned_attempt. destruct (ev_attempts e !! id) as [x|]; [|discriminate]. rewrite bind_Ok. intros ([j gs] & _ & Ho).
  destruct (_ && negb (bool_decide (at_phase x = at_terminal))) eqn:E; [|discriminate]. apply Ok_inj in Ho. subst x. by apply andb_prop in E as [_ E%negb_true_iff%bool_decide_eq_false].
Qed.

Lemma stamp_certified_keeps_db device ds now ss l l' : stamp_certified_bookkeeping device ds now ss l = Ok l' → lv_db l' = lv_db l.
Proof.
  unfold stamp_certified_bookkeeping. revert l. induction ss as [|s ss IH]; intros l; cbn [for_snapshots]; [by intros [= <-]|]. rewrite bind_Ok. intros (l1 & H1 & H).
  rewrite (IH _ H). revert H1. unfold stamp_certified. destruct (certified_of ds s); [|by intros [= <-]]. rewrite bind_Ok. intros (t & _ & H1). apply Ok_inj in H1. subst l1.
  destruct t as [[row state]|]; [|done]. destruct (has_column _ _), state as [[? ?]|]; done.
Qed.
(** What staging outcomes may change *)
Definition stages (e e' : Ev) : Prop :=
  ev_live e' = ev_live e ∧ ev_attempts e' = ev_attempts e ∧ ev_next_attempt e' = ev_next_attempt e ∧ ∃ l, ev_outcomes e' = ev_outcomes e ++ l.
Lemma stages_refl e : stages e e.
Proof. split_and!; [done..|]. exists []. by rewrite app_nil_r. Qed.
Lemma stage_outcome_stages rec_limit id a l d rs e o e' : stage_outcome rec_limit id a l d rs e = Ok (o, e') → stages e e'.
Proof. intros (causes & _ & _ & -> & _)%stage_outcome_spec. split_and!; [done..|]. by exists [o]. Qed.
Lemma for_rows_stages (f : json -> txn Ev RowOutcome) rows e os e' : (∀ v e o e', f v e = Ok (o, e') → stages e e') → for_rows f rows e = Ok (os, e') → stages e e'.
Proof.
  intros Hf. revert e os. induction rows as [|v rows IH]; intros e os; cbn [for_rows]; [intros [= _ <-]; apply stages_refl|]. rewrite txn_bind_Ok. intros (o & e1 & H1 & H).
  rewrite txn_bind_Ok in H. destruct H as (os' & e2 & H2 & [= _ <-]). apply Hf in H1 as (L1 & A1 & N1 & l1 & O1). apply IH in H2 as (L2 & A2 & N2 & l2 & O2).
  split_and!; [congruence..|]. exists (l1 ++ l2). by rewrite O2, O1, app_assoc.
Qed.
Lemma settle_row_stages rec_limit id a k causes v e o e' : settle_row rec_limit id a k causes v e = Ok (o, e') → stages e e'.
Proof. unfold settle_row. rewrite bind_Ok. intros (l & _ & H). rewrite bind_Ok in H. destruct H as (rs & _ & H). by eapply stage_outcome_stages. Qed.
Lemma certified_row_stages rec_limit id a ds v e o e' : certified_row rec_limit id a ds v e = Ok (o, e') → stages e e'.
Proof.
  unfold certified_row. rewrite bind_Ok. intros (l & _ & H). rewrite bind_Ok in H. destruct H as (i & _ & H). rewrite bind_Ok in H. destruct H as ([] & _ & H).
  by eapply stage_outcome_stages.
Qed.
Lemma restore_attempt_next id a e restored e' : restore_attempt_bookkeeping id a e = Ok (restored, e') → ev_next_attempt e' = ev_next_attempt e.
Proof.
  unfold restore_attempt_bookkeeping. rewrite bind_Ok. intros (ms & _ & H). rewrite bind_Ok in H. destruct H as ([] & _ & H). rewrite bind_Ok in H. destruct H as (fs & _ & H).
  rewrite bind_Ok in H. destruct H as ([r l] & _ & H%Ok_inj). injection H as _ <-. done.
Qed.
Lemma complete_spec rec_limit job run token ds now e result e' : complete_execution_result rec_limit job run token ds now e = Ok (result, e') →
  ev_db e' = ev_db e ∧ ev_next_attempt e' = ev_next_attempt e ∧ (∃ l, ev_outcomes e' = ev_outcomes e ++ l) ∧
  ∃ id a, ev_attempts e !! id = Some a ∧ at_phase a ≠ at_terminal ∧ ev_attempts e' = alter (set_at_phase at_terminal) id (ev_attempts e).
Proof.
  unfold complete_execution_result. destruct (List.find _ _) as [[id a0]|]; [|discriminate]. rewrite bind_Ok. intros (a & [Ha Hp]%owned_attempt_spec & H). rewrite bind_Ok in H.
  destruct H as ([os e1] & H1 & H). rewrite bind_Ok in H. destruct H as ([restored e2] & H2 & H). rewrite bind_Ok in H. destruct H as (l & H3 & H). rewrite bind_Ok in H.
  destruct H as (body & _ & H%Ok_inj). injection H as _ <-. pose proof (restore_attempt_next _ _ _ _ _ H2) as N2. apply restore_attempt_db in H2 as (D2 & O2 & A2). apply stamp_certified_keeps_db in H3.
  apply for_rows_stages in H1 as (L1 & A1 & N1 & l1 & O1); [|intros; by eapply certified_row_stages]. split_and!.
  - change (lv_db l = ev_db e). rewrite H3. change (ev_db e2 = ev_db e). rewrite D2. unfold ev_db. by rewrite L1.
  - change (ev_next_attempt e2 = ev_next_attempt e). congruence.
  - exists l1. change (ev_outcomes e2 = ev_outcomes e ++ l1). by rewrite O2, O1.
  - exists id, a. split_and!; [done..|]. change (alter (set_at_phase at_terminal) id (ev_attempts e2) = alter (set_at_phase at_terminal) id (ev_attempts e)). by rewrite A2, A1.
Qed.

(** Evidence is carried by the result, so the terminal writer derives none of its own. *)
Lemma terminalize_with_outcomes ue ue' n status expect att result error dev outcome d : dict_mem result "row_outcomes" = true →
  terminalize ue n status expect att (Some result) error dev outcome d = terminalize ue' n status expect att (Some result) error dev outcome d.
Proof. intros H. unfold terminalize. by rewrite H. Qed.

Lemma settle_attempt_outcomes rec_limit id a g x terminal_error e result error certain e' : settle_attempt rec_limit id a g x terminal_error e = Ok ((result, error, certain), e') →
  dict_mem result "row_outcomes" = true.
Proof.
  unfold settle_attempt. rewrite bind_Ok. intros ([[k causes] records] & _ & H). rewrite bind_Ok in H. destruct H as ([body e1] & H1 & H%Ok_inj). injection H as <- _ _ _.
  apply settle_evidence_spec in H1 as (_ & outcomes & e2 & _ & _ & _ & base & routes & Hb & _ & ->). unfold dict_mem. by rewrite (result_outcomes _ _ _ _ _ _ Hb).
Qed.

Section Projection.
Context (freeze : Db -> Z -> pystr -> res pydict) (prune_apply_plan : json -> list json -> list json -> res json).
Context (static_route_operation : Db -> Z -> pydict -> pydict -> pydict -> list Z -> res pydict) (ue : Db -> Job -> option json -> res (option pydict)).
Context (rec_limit : nat).
Notation core := (step freeze prune_apply_plan static_route_operation ue).

Lemma dispose_projects ue' job run token x error e r e' : Attempt.dispose_execution_attempt rec_limit ue' job run token x error e = Ok (r, e') → star core (ev_db e) (ev_db e').
Proof.
  unfold Attempt.dispose_execution_attempt. destruct (find_attempt e job run) as [[id a]|]; [|intros H%Ok_inj; injection H as _ <-; apply star_refl].
  case_bool_decide; [intros Hx%Ok_inj; injection Hx as _ <-; apply star_refl|]. rewrite bind_Ok. intros ([j gs] & _ & H1). destruct (last gs) as [g|]; [|discriminate].
  rewrite bind_Ok in H1. destruct H1 as ([] & _ & H1). rewrite bind_Ok in H1. destruct H1 as ([[[result err] certain] e1] & Hs & H1). rewrite bind_Ok in H1.
  destruct H1 as ([write e2] & Ht & H1). destruct write as [w|]; [|discriminate]. apply Ok_inj in H1. injection H1 as _ <-.
  pose proof (settle_attempt_outcomes _ _ _ _ _ _ _ _ _ _ _ Hs) as Hro. apply settle_attempt_db in Hs. unfold lift_db in Ht. rewrite bind_Ok in Ht.
  destruct Ht as ([write d] & Ht & H1%Ok_inj). injection H1 as -> <-. rewrite Hs, (terminalize_with_outcomes ue' ue) in Ht by done. apply star_one. eapply step_terminalize; [by right|exact Ht].
Qed.

Lemma ev_step_projects e e' : ev_step rec_limit core e e' → star core (ev_db e) (ev_db e').
Proof.
  intros [d' Hd ->|rows ifs attrs ->|g o ls reg id H|id job run token ck H|job reg x error b H|g o ls job run token reg error r H|job run token ds now result H|job run token c H|job ->].
  - by apply star_one.
  - apply star_refl.
  - unfold prepare_send in H. destruct reg as [reg|]; [|discriminate]. destruct (g_job_id g); [|destruct (registered reg); discriminate]. destruct (reg_token reg); [|discriminate].
    rewrite bind_Ok in H. destruct H as ([[] e1] & He%lift_lock_claim & H). subst e1. rewrite bind_Ok in H. destruct H as (o' & _ & H). apply or_claim_lost_Ok in H.
    destruct (reg_attempt reg); [|discriminate]. apply prepare_attempt_spec in H as (-> & _). apply star_refl.
  - unfold record_checkpoint in H. apply or_claim_lost_Ok, record_response_db in H as (a & a' & _ & _ & _ & ->). apply star_refl.
  - unfold dispose_run in H. rewrite bind_Ok in H. destruct H as ([[] e1] & He & H). assert (e1 = e) as ->.
    { destruct reg as [reg|]; [by apply lift_lock_claim in He|by injection He]. }
    cbv zeta in H. destruct (match reg with Some reg => reg_attempt reg | None => _ end) as [run|]; [|apply Ok_inj in H; injection H as _ <-; apply star_refl].
    apply or_claim_lost_Ok in H. rewrite bind_Ok in H. destruct H as ([r e2] & Hd & H%Ok_inj). injection H as _ <-. by eapply dispose_projects.
  - unfold settle_unsent in H. rewrite bind_Ok in H. destruct H as ([[] e1] & He%lift_lock_claim & H). subst e1. rewrite bind_Ok in H. destruct H as ([id e1] & Hp & H).
    apply prepare_attempt_spec in Hp as (Hdb & _). rewrite bind_Ok in H. destruct H as ([[] e2] & Hr & H). apply record_response_db in Hr as (a & a' & _ & _ & _ & ->).
    apply dispose_projects in H. rewrite <-Hdb. exact H.
  - apply complete_spec in H as (-> & _). apply star_refl.
  - unfold record_send_history in H. destruct (active_attempt e job) as [[id a]|]; [|injection H as <-; apply star_refl].
    destruct (at_acknowledged a); [|injection H as <-; apply star_refl]. unfold record_acknowledged_origins in H. rewrite bind_Ok in H. destruct H as (a1 & _ & H).
    rewrite bind_Ok in H. destruct H as ([] & _ & H). destruct (generations (ev_db e) !! at_generation a1); [|discriminate].
    repeat (rewrite bind_Ok in H; destruct H as (? & _ & H)). apply Ok_inj in H. injection H as <-. apply star_refl.
  - apply star_refl.
Qed.

(** C11: Every run of the execution machine is, on the jobs, generations, claims and counters, a run of the deployment core: what is
    proved of the core's reachable stores holds while runs prepare, send, record, settle and are disposed of. *)
Theorem execution_refines_core e e' : star (ev_step rec_limit core) e e' →
  steps freeze prune_apply_plan static_route_operation ue (ev_db e) (ev_db e') ∧
  (reachable freeze prune_apply_plan static_route_operation ue (ev_db e) → reachable freeze prune_apply_plan static_route_operation ue (ev_db e')).
Proof.
  intros H. assert (star core (ev_db e) (ev_db e')) as Hs.
  { induction H as [e|e e1 e2 H1 _ IH]; [apply star_refl|]. eapply star_trans; [by eapply ev_step_projects|exact IH]. }
  split; [exact Hs|]. intros (d0 & H0 & Hr). exists d0. split; [exact H0|]. by eapply star_trans.
Qed.
End Projection.

(** ** Evidence is append-only *)

(** The evidence preparation froze: [EXECUTION_ATTEMPT_IMMUTABLE_COLUMNS] of store/ddl.py, without the creation time *)
Definition frozen_part (a : Attempt) :=
  (at_device a, at_generation a, at_correlation a, at_run a, at_kind a, (at_digest a, at_token a, at_revisions a, at_authorities a, at_manual a, at_tombstones a),
   (at_membership a, at_carriers a, at_origins a, at_prior a)).
Record evolves (a a' : Attempt) : Prop := {
  ev_frozen : frozen_part a' = frozen_part a;
  ev_responses : ∀ k v, dict_get (at_responses a) k = Some v → dict_get (at_responses a') k = Some v;
  ev_acknowledged : at_acknowledged a = true → at_acknowledged a' = true;
  ev_job : at_job a' = at_job a ∨ at_job a' = None;
  ev_terminal : at_phase a = at_terminal → unlinked a' = unlinked a }.
Lemma evolves_refl a : evolves a a.
Proof. split; auto. Qed.
Lemma evolves_trans a b c : evolves a b → evolves b c → evolves a c.
Proof.
  intros [F1 R1 A1 J1 T1] [F2 R2 A2 J2 T2]. split; [congruence|auto|auto|destruct J1, J2; first [left; congruence|right; congruence]|]. intros Ht. specialize (T1 Ht). rewrite <-T1. apply T2.
  change (at_phase (unlinked b) = at_terminal). by rewrite T1.
Qed.
Lemma evolves_unlinked a : evolves a (unlinked a).
Proof. by split; auto. Qed.
Lemma evolves_recorded rec_limit a ck a' : at_phase a ≠ at_terminal → record_response rec_limit a ck = Ok a' → evolves a a'.
Proof.
  intros Hp (v & _ & Hm & _ & _ & ->)%record_response_Ok. split; [done| |intros H; cbn; by rewrite H|by left|done].
  intros k x Hx. cbn [at_responses set_at_response]. rewrite dict_get_set_ne; [done|]. intros ->. unfold dict_mem in Hm. by rewrite Hx in Hm.
Qed.
Lemma evolves_closed a : at_phase a ≠ at_terminal → evolves a (set_at_phase at_terminal a).
Proof. intros Hp. split; [done|done|done|by left|done]. Qed.
Lemma evolves_delivery k x a : at_phase a ≠ at_terminal → evolves a (note_delivery k x a).
Proof.
  intros Hp. unfold note_delivery. destruct k; try apply evolves_refl; (destruct (dict_mem (at_responses a) "delivery"); [apply evolves_refl|]);
    (split; [done| |done|by left|done]); intros key v Hv; cbn [at_responses set_at_response].
  all: revert Hv; generalize (at_responses a) as l; induction l as [|[k' v'] l IH]; [done|]; cbn [app dict_get]; destruct (decide (key = k')); [done|exact IH].
Qed.
Lemma note_delivery_phase k x a : at_phase a ≠ at_terminal → at_phase (note_delivery k x a) ≠ at_terminal.
Proof. intros H. unfold note_delivery. destruct k; try done; by destruct (dict_mem (at_responses a) "delivery"). Qed.

(** Attempts evolve, outcomes accumulate, ids stay fresh *)
Definition fresh_ids (e : Ev) : Prop := ∀ id, is_Some (ev_attempts e !! id) → id < ev_next_attempt e.
Record appends (e e' : Ev) : Prop := {
  ap_attempts : ∀ id a, ev_attempts e !! id = Some a → ∃ a', ev_attempts e' !! id = Some a' ∧ evolves a a';
  ap_outcomes : ∃ l, ev_outcomes e' = ev_outcomes e ++ l;
  ap_fresh : fresh_ids e' }.
Lemma appends_refl e : fresh_ids e → appends e e.
Proof. intros H. split; [intros id a Ha; exists a; split; [done|apply evolves_refl]|exists []; by rewrite app_nil_r|done]. Qed.
Lemma appends_trans a b c : appends a b → appends b c → appends a c.
Proof.
  intros [A1 [l1 O1] _] [A2 [l2 O2] F2]. split; [|exists (l1 ++ l2); by rewrite O2, O1, app_assoc|done].
  intros id x Hx. destruct (A1 _ _ Hx) as (y & Hy & E1). destruct (A2 _ _ Hy) as (z & Hz & E2). exists z. split; [done|by eapply evolves_trans].
Qed.
(** Changing one attempt *)
Lemma appends_one e e' id a a' : fresh_ids e → ev_attempts e !! id = Some a → evolves a a' → ev_attempts e' = <[id := a']> (ev_attempts e) →
  (∃ l, ev_outcomes e' = ev_outcomes e ++ l) → ev_next_attempt e' = ev_next_attempt e → appends e e'.
Proof.
  intros F Ha E He Ho Hn. split; [|done|].
  - intros i x Hx. rewrite He. destruct (decide (i = id)) as [->|Hne]; [rewrite lookup_insert_eq; exists a'; split; [done|congruence]|].
    rewrite lookup_insert_ne by done. exists x. split; [done|apply evolves_refl].
  - intros i Hi. rewrite Hn. apply F. rewrite He in Hi. destruct (decide (i = id)) as [->|Hne]; [by eexists|by rewrite lookup_insert_ne in Hi].
Qed.

Lemma find_attempt_in e job run id a : find_attempt e job run = Some (id, a) → ev_attempts e !! id = Some a.
Proof. intros [H _]%find_some. by apply list_elem_of_In, elem_of_map_to_list in H. Qed.
Lemma settle_attempt_appends rec_limit id a g x terminal_error e r e' : settle_attempt rec_limit id a g x terminal_error e = Ok (r, e') →
  ∃ k, ev_attempts e' = <[id := note_delivery k x a]> (ev_attempts e) ∧ (∃ l, ev_outcomes e' = ev_outcomes e ++ l) ∧ ev_next_attempt e' = ev_next_attempt e.
Proof.
  unfold settle_attempt. rewrite bind_Ok. intros ([[k causes] records] & _ & H). rewrite bind_Ok in H. destruct H as ([body e1] & H1 & H%Ok_inj). injection H as _ <-. exists k.
  revert H1. unfold settle_evidence. rewrite bind_Ok. intros ([os e2] & H2 & H). rewrite bind_Ok in H. destruct H as ([restored e3] & H3 & H). rewrite bind_Ok in H. destruct H as (l & _ & H).
  rewrite bind_Ok in H. destruct H as (b & _ & H). rewrite bind_Ok in H. destruct H as (rt & _ & H%Ok_inj). injection H as _ <-.
  apply for_rows_stages in H2 as (_ & A2 & N2 & l2 & O2); [|intros; by eapply settle_row_stages]. pose proof (restore_attempt_next _ _ _ _ _ H3) as N3. apply restore_attempt_db in H3 as (_ & O3 & A3).
  cbn [with_live ev_attempts ev_outcomes ev_next_attempt with_attempts] in *. split_and!; [congruence|exists l2; congruence|congruence].
Qed.
Lemma dispose_appends rec_limit ue job run token x error e r e' : fresh_ids e → Attempt.dispose_execution_attempt rec_limit ue job run token x error e = Ok (r, e') → appends e e'.
Proof.
  intros F. unfold Attempt.dispose_execution_attempt. destruct (find_attempt e job run) as [[id a]|] eqn:Ef; [|intros H%Ok_inj; injection H as _ <-; by apply appends_refl].
  apply find_attempt_in in Ef. case_bool_decide as Hp; [intros Hx%Ok_inj; injection Hx as _ <-; by apply appends_refl|]. rewrite bind_Ok. intros ([j gs] & _ & H1).
  destruct (last gs) as [g|]; [|discriminate]. rewrite bind_Ok in H1. destruct H1 as ([] & _ & H1). rewrite bind_Ok in H1. destruct H1 as ([[[result err] certain] e1] & Hs & H1). rewrite bind_Ok in H1.
  destruct H1 as ([write e2] & Ht & H1). destruct write as [w|]; [|discriminate]. apply Ok_inj in H1. injection H1 as _ <-. unfold lift_db in Ht. rewrite bind_Ok in Ht.
  destruct Ht as ([write d] & _ & H1%Ok_inj). injection H1 as _ <-. apply settle_attempt_appends in Hs as (k & A1 & O1 & N1).
  eapply (appends_one _ _ id a (set_at_phase at_terminal (note_delivery k x a))); [done|done| | |exact O1|exact N1].
  - eapply evolves_trans; [by apply evolves_delivery|apply evolves_closed; by apply note_delivery_phase].
  - cbn [with_attempts with_live ev_attempts]. rewrite A1. apply map_eq. intros i. destruct (decide (i = id)) as [->|Hne].
    + by rewrite lookup_alter_eq, !lookup_insert_eq.
    + by rewrite lookup_alter_ne, !lookup_insert_ne by done.
Qed.
Lemma prepare_appends job run token gid origins logicals e id e' : fresh_ids e → prepare_execution_attempt job run token gid origins logicals e = Ok (id, e') → appends e e'.
Proof.
  intros F (_ & Ho & -> & Hn & a & Ha & _)%prepare_attempt_spec. split.
  - intros i x Hx. rewrite Ha, lookup_insert_ne; [exists x; split; [done|apply evolves_refl]|]. intros <-. assert (is_Some (ev_attempts e !! ev_next_attempt e)) as Hs by eauto. apply F in Hs. lia.
  - exists []. by rewrite app_nil_r.
  - intros i Hi. rewrite Hn. destruct (decide (i = ev_next_attempt e)) as [->|Hne]; [lia|]. rewrite Ha, lookup_insert_ne in Hi by done. apply F in Hi. lia.
Qed.
Lemma record_appends rec_limit id job run token ck e e' : fresh_ids e → record_classified_response rec_limit id job run token ck e = Ok (tt, e') → appends e e'.
Proof.
  intros F (a & a' & Ha & Hp & Hr & ->)%record_response_db. eapply appends_one; [done|done|by eapply evolves_recorded|done|exists []; by rewrite app_nil_r|done].
Qed.
Lemma history_appends id job run token certified e e' : fresh_ids e → record_acknowledged_origins id job run token certified e = Ok (tt, e') → appends e e'.
Proof.
  intros F. unfold record_acknowledged_origins. rewrite bind_Ok. intros (a & [Ha Hp]%owned_attempt_spec & H). rewrite bind_Ok in H. destruct H as ([] & Hg%guard_or_Ok & H).
  destruct (generations (ev_db e) !! at_generation a); [|discriminate]. do 4 (rewrite bind_Ok in H; destruct H as (? & _ & H)). apply Ok_inj in H. injection H as <-.
  apply andb_prop in Hg as [_ Hg%negb_true_iff]. eapply appends_one; [done|exact Ha| |reflexivity|exists []; by rewrite app_nil_r|reflexivity]. split; [done| |done|by left|done].
  intros k v Hv. cbn [at_responses]. rewrite dict_get_set_ne; [done|]. intros ->. unfold dict_mem in Hg. by rewrite Hv in Hg.
Qed.

Lemma unlink_appends job e : fresh_ids e → appends e (unlink_job job e).
Proof.
  intros F. split; [|exists []; by rewrite app_nil_r|].
  - intros id a Ha. exists (unlink_attempt job a). split; [cbn; by rewrite lookup_fmap, Ha|]. unfold unlink_attempt. case_bool_decide; [apply evolves_unlinked|apply evolves_refl].
  - intros id Hi. apply F. cbn in Hi. by rewrite lookup_fmap, fmap_is_Some in Hi.
Qed.
Lemma ev_step_appends rec_limit core e e' : fresh_ids e → ev_step rec_limit core e e' → appends e e'.
Proof.
  intros F [d' Hd ->|rows ifs attrs ->|g o ls reg id H|id job run token ck H|job reg x error b H|g o ls job run token reg error r H|job run token ds now result H|job run token c H|job ->].
  - destruct (appends_refl e F) as [A O W]. by split.
  - destruct (appends_refl e F) as [A O W]. by split.
  - unfold prepare_send in H. destruct reg as [reg|]; [|discriminate]. destruct (g_job_id g); [|destruct (registered reg); discriminate]. destruct (reg_token reg); [|discriminate].
    rewrite bind_Ok in H. destruct H as ([[] e1] & He%lift_lock_claim & H). subst e1. rewrite bind_Ok in H. destruct H as (o' & _ & H). apply or_claim_lost_Ok in H.
    destruct (reg_attempt reg); [|discriminate]. by eapply prepare_appends.
  - unfold record_checkpoint in H. apply or_claim_lost_Ok in H. by eapply record_appends.
  - unfold dispose_run in H. rewrite bind_Ok in H. destruct H as ([[] e1] & He & H). assert (e1 = e) as ->.
    { destruct reg as [reg|]; [by apply lift_lock_claim in He|by injection He]. }
    cbv zeta in H. destruct (match reg with Some reg => reg_attempt reg | None => _ end) as [run|]; [|apply Ok_inj in H; injection H as _ <-; by apply appends_refl].
    apply or_claim_lost_Ok in H. rewrite bind_Ok in H. destruct H as ([r e2] & Hd & H%Ok_inj). injection H as _ <-. by eapply dispose_appends.
  - unfold settle_unsent in H. rewrite bind_Ok in H. destruct H as ([[] e1] & He%lift_lock_claim & H). subst e1. rewrite bind_Ok in H. destruct H as ([id e1] & Hp & H).
    apply prepare_appends in Hp as A1; [|done]. rewrite bind_Ok in H. destruct H as ([[] e2] & Hr & H). apply record_appends in Hr; [|by destruct A1].
    eapply appends_trans; [exact A1|]. eapply appends_trans; [exact Hr|]. eapply dispose_appends; [by destruct Hr|exact H].
  - apply complete_spec in H as (_ & Hn & Ho & id & a & Ha & Hp & He). eapply (appends_one _ _ id a); [done|done|by apply evolves_closed| |done|done].
    rewrite He. apply map_eq. intros i. destruct (decide (i = id)) as [->|Hne]; [by rewrite lookup_alter_eq, lookup_insert_eq, Ha|by rewrite lookup_alter_ne, lookup_insert_ne by done].
  - unfold record_send_history in H. destruct (active_attempt e job) as [[id a]|]; [|injection H as <-; by apply appends_refl].
    destruct (at_acknowledged a); [by eapply history_appends|injection H as <-; by apply appends_refl].
  - by apply unlink_appends.
Qed.

(** C12: Whatever the worker, the reaper, the core and other writers do, and whichever jobs are deleted: an attempt keeps what preparation
    froze, a recorded checkpoint is never rewritten, an acknowledgement is never taken back, its job id is kept or set to null, a terminal
    attempt changes in nothing else, and staged outcomes stay. Offboarding a device, which deletes its attempts, is not a step. *)
Theorem evidence_is_append_only rec_limit core e e' : fresh_ids e → star (ev_step rec_limit core) e e' →
  (∀ id a, ev_attempts e !! id = Some a → ∃ a', ev_attempts e' !! id = Some a' ∧ evolves a a') ∧ ∃ l, ev_outcomes e' = ev_outcomes e ++ l.
Proof.
  intros F H. assert (appends e e') as [A O _]; [|done]. revert F. induction H as [e|e e1 e2 H1 _ IH]; intros F; [by apply appends_refl|].
  apply ev_step_appends in H1; [|done]. eapply appends_trans; [exact H1|]. apply IH. by destruct H1.
Qed.
