(* ===== verification/ExecutionScenario.v ===== *)
(** * Executing a concrete document

    Concrete sends, stored evidence and runs; the witnesses of the sender, evidence, attempt, history and execution theorems
    evaluate them.  The sends come first: a document NSO accepts, one it accepts without its effect, one it rejects with a message that quotes a secret, and a preview. *)

From stdpp Require Import base list.
From Stdlib Require Import ZArith NArith Lia.
From stdpp Require Import base list gmap.
From S2P Require Import Prelude Json Text Sha256 RefusalCatalog RefusalProtocol RefusalProtocolProps Refusals Registry Document Asn Identity Store Generation Admission Claim Lifecycle System PushScenario ChainScenario WireJson VaultRef Hydrate Origins DeviceBody OriginProps OriginScenario Sender SenderProps Evidence Bookkeeping BookkeepingProps Attempt AttemptProps History Execution ExecutionProps.


Local Open Scope py_scope.
Local Open Scope Z_scope.

Definition default_settings : Settings := mkSettings (VERIFY_AFTER_APPLY None) (RECONCILE_COMMIT None).
Definition text_bytes (s : pystr) : list N := py_chars s.
Definition answer_204 : Response := mkResponse 204 [] (Raise (ValueError "Expecting value")).
Definition answer_delta (data : pystr) : Response :=
  mkResponse 200 [] (Ok (JObj [("dry-run-result", JObj [("native", JObj [("device", JArr [JObj [("name", JStr "pe1"); ("data", JStr data)]])])])])).
(** The bytes NSO sends are the encoding of the document the library decodes. *)
Definition rejection : Response :=
  mkResponse 400 (text_bytes "{'error': 1}")
    (Ok (JObj [("errors", JObj [("error", JArr [JObj [("error-tag", JStr "invalid-value"); ("error-message", JStr "External error in the NED: command: SET extcommunity color 100 secret")]])])])).

(** NSO acknowledges the commit and answers later requests with [verify]. *)
Definition accepts (verify : Response) (before : list Request) (rq : Request) : option Response :=
  match before with [] => Some answer_204 | _ => Some verify end.
Definition rejects (before : list Request) (rq : Request) : option Response := Some rejection.
Definition record_all : option (list Checkpoint -> Checkpoint -> res unit) := Some (fun _ _ => Ok tt).
Definition sample_containers : pydict := [("svi", JObj [("interface", JArr [])])].
Definition sample_send (nso : list Request -> Request -> option Response) (dry : DryRun) : ended Sent * Trace :=
  apply_device_intent 100 default_settings nso record_all "https://nso" "pe1" sample_containers dry false false empty_trace.

Example delivered : (sample_send (accepts answer_204) no_dry_run).1 = Done (Committed VERIFY_CONCLUSIVE) ∧
  map (fun rq => PStr (rq_url rq)) (tr_requests (sample_send (accepts answer_204) no_dry_run).2) =
    ["https://nso/restconf/data/device-intent:device-intent=pe1?reconcile=keep-non-service-config";
     "https://nso/restconf/data/device-intent:device-intent=pe1?dry-run=native&reconcile=keep-non-service-config"] ∧
  map (fun ck => (ck_phase ck, ck_classification ck, ck_acknowledged ck)) (tr_checkpoints (sample_send (accepts answer_204) no_dry_run).2) =
    [(commit_phase, None, true); (post_commit_verification, None, false)].
Proof. vm_compute. split_and!; reflexivity. Qed.

Definition delivered_trace : Trace := (sample_send (accepts answer_204) no_dry_run).2.
Lemma delivered_runs : sample_send (accepts answer_204) no_dry_run = (Done (Committed VERIFY_CONCLUSIVE), delivered_trace).
Proof. vm_compute. reflexivity. Qed.
Lemma conclusive_means_delivered_witness :
  ∃ url payload, instance_url "https://nso" "pe1" = Ok url ∧ payload_of "pe1" sample_containers = Ok payload ∧
    tr_requests delivered_trace = [commit_request default_settings false url payload; verify_request default_settings false url payload] ∧
    problem 100 (accepts answer_204 [] (commit_request default_settings false url payload)) = None ∧
    shows_nothing "pe1" (accepts answer_204 [commit_request default_settings false url payload] (verify_request default_settings false url payload)).
Proof.
  exact (conclusive_means_delivered 100 default_settings (accepts answer_204) record_all "https://nso" "pe1" sample_containers false false delivered_trace delivered_runs).
Defined.

(** NSO would still push: the commit stands, and the error says so. *)
Definition mismatch : ApplyError := match (sample_send (accepts (answer_delta "interface Vlan10")) no_dry_run).1 with Failed e => e | _ => mkApplyError "" None None commit_phase false end.
Example mismatch_reported : (ae_code mismatch, ae_phase mismatch, ae_acknowledged mismatch) = ("verify_mismatch"%py, post_commit_verification, true).
Proof. vm_compute. reflexivity. Qed.

(** The rejection names a construct; the secret around it is dropped. *)
Definition rejected_trace : Trace := (sample_send rejects no_dry_run).2.
Definition rejected : ApplyError := match (sample_send rejects no_dry_run).1 with Failed e => e | _ => mkApplyError "" None None commit_phase false end.
Example rejection_redacted : (ae_code rejected, ae_acknowledged rejected, ae_detail rejected) =
  ("nso_put_failed"%py, false,
   Some (JObj [("nso_error", JObj [("errors", JObj [("error", JArr [JObj [("error-message", JStr "command: set extcommunity color")]])])])])).
Proof. vm_compute. reflexivity. Qed.
Lemma rejected_runs : sample_send rejects no_dry_run = (Failed rejected, rejected_trace).
Proof. vm_compute. reflexivity. Qed.
Lemma errors_say_what_was_committed_witness :
  ∃ url payload rest, tr_requests rejected_trace = commit_request default_settings false url payload :: rest ∧
    let answered := problem 100 (rejects [] (commit_request default_settings false url payload)) in
    (ae_acknowledged rejected = true ↔ answered = None) ∧ (ae_phase rejected = commit_phase ↔ is_Some answered) ∧
    (rest = [] ∨ rest = [verify_request default_settings false url payload] ∧ answered = None) ∧
    (∀ ck, ck ∈ tr_checkpoints rejected_trace → ck_acknowledged ck = true → answered = None) ∧
    ∀ d, ae_detail rejected = Some d → quotes_only KEPT_TEXTS KEPT_NAMES d = true.
Proof.
  exact (errors_say_what_was_committed 100 default_settings rejects record_all "https://nso" "pe1" sample_containers false false rejected rejected_trace rejected_runs).
Defined.

Definition preview : ended Sent * Trace := sample_send (accepts answer_204) dry_cli.
Lemma dry_runs_never_commit_witness :
  (tr_requests preview.2 = [] ∨ ∃ url payload, tr_requests preview.2 = [mkRequest (commit_url default_settings url dry_cli false) payload]) ∧
  Forall (fun rq => occurs (py_chars "dry-run=") (rq_url rq) = true) (tr_requests preview.2) ∧
  Forall (fun ck => ck_acknowledged ck = false) (tr_checkpoints preview.2) ∧
  (∀ e, preview.1 = Failed e → ae_acknowledged e = false).
Proof.
  assert (dry_cli ≠ no_dry_run) as H by discriminate.
  exact (dry_runs_never_commit 100 default_settings (accepts answer_204) record_all "https://nso" "pe1" sample_containers false false dry_cli preview.1 preview.2 H
           (surjective_pairing _)).
Defined.

(** ** Stored evidence of a concrete document

    The origins of the sample body and a refusal of its interface survive storage and are attributed alike. *)


(** NSO says the interface's parent does not exist. *)
Definition svi_absent : Refusal :=
  {| r_family := "svi"; r_row := lr_row svi_logical; r_field := Some "svi.vlan_binding"; r_reason := "target-not-found"; r_message_id := "parent-absent";
     r_message := "The device object this intent writes into does not exist, and the service never creates or adopts it."; r_related := None |}.
Lemma svi_absent_valid : Forall valid_refusal [svi_absent].
Proof. constructor; [|done]. apply check_refusal_Ok. vm_compute. reflexivity. Qed.

Lemma body_recordable : recordable (es_origins body_encoded).
Proof.
  split; [apply (bool_decide_unpack _); vm_compute; exact I..|]. vm_compute. repeat constructor.
Qed.
Lemma stored_evidence_attributes_alike_witness :
  (payload ← catalog_records 5 [svi_absent]; records ← refusals_from_payload 5 payload; stored ← origins_from_records (origin_records (es_origins body_encoded));
   Ok (resolve_refusals records stored)) = Ok (resolve_refusals [svi_absent] (es_origins body_encoded)).
Proof. exact (stored_evidence_attributes_alike 5 (es_origins body_encoded) [svi_absent] body_recordable svi_absent_valid (le_n 5)). Defined.
Example svi_absent_attributed :
  match resolve_refusals [svi_absent] (es_origins body_encoded) with inl [a] => map sr_live_join (ar_sources a) | _ => [] end = [Some ("svi_intent" : pystr, 1)].
Proof. vm_compute. reflexivity. Qed.

(** ** A run of a concrete document

    The sample document is prepared, sent and settled: once NSO rejects it, once it acknowledges it and the run then dies. *)


Definition run_generation : Generation := set_g_job (Some 1) body_generation.
Definition run_job : Job := mkJob 1 apply_job running false (Some 7) None None None 0 (Some 0) (Some 0) 1 None.
Definition run_db : Db :=
  mkDb {[7]} ∅ {[7 := 3]} {[7 := 0]} {[(7, "svi"%py) := mkStream 2 2 1 (Some 5) None None 0]} {[11 := run_generation]} {[1 := run_job]}
    {[7 := mkClaim "token" "job" (Some 1) 0 0]} ∅ 12 2 1 0 None.
Definition run_live : Live :=
  mkLive run_db (<[("svi_intent"%py, 1) := svi_record 1 "Vlan10" 10]> {[("svi_intent"%py, 2) := svi_record 2 "Vlan20" 20]}) ∅ ∅.
Definition run_start : Ev := mkEv run_live ∅ [] 1.
Definition run_origins : OriginIndex := es_origins body_encoded.
Definition run_rows : list LogicalRow := current_membership run_origins body_context.
Definition ok_snd {A B} (d : B) (r : res (A * B)) : B := match r with Ok (_, b) => b | Raise _ => d end.
Definition ok_fst {A B} (d : A) (r : res (A * B)) : A := match r with Ok (a, _) => a | Raise _ => d end.
Lemma ok_parts {A B} da db (r : res (A * B)) : is_ok r = true → r = Ok (ok_fst da r, ok_snd db r).
Proof. by destruct r as [[]|]. Qed.

(** ** Bookkeeping *)

Definition run_snapshots : list BookSnapshot := ok_fst [] (snapshot_bookkeeping run_generation run_origins run_rows run_live).
Definition run_marked : Live := ok_snd run_live (snapshot_bookkeeping run_generation run_origins run_rows run_live).
Lemma run_snapshot : snapshot_bookkeeping run_generation run_origins run_rows run_live = Ok (run_snapshots, run_marked).
Proof. apply ok_parts. vm_compute. reflexivity. Qed.
Example run_targets : map target_key run_snapshots = [("svi_intent"%py, 1); ("svi_intent"%py, 2)].
Proof. vm_compute. reflexivity. Qed.
Lemma restore_undoes_preparation_witness : ∃ restored, restore_bookkeeping 7 run_snapshots run_marked = Ok (restored, run_live).
Proof. exact (restore_undoes_preparation run_generation run_origins run_rows run_live run_snapshots run_marked run_snapshot). Defined.

(** The first interface is certified, the second was rewritten by a later push. *)
Definition certified_rows : list (Contributor * pystr) := map (fun l => (contributor l, "in_sync"%py)) run_rows.
Definition rewritten : Live := with_rows (<[("svi_intent"%py, 2) := svi_record 2 "Vlan20" 21]> (lv_rows run_live)) run_live.
Definition stamped : Live := ok rewritten (stamp_certified_bookkeeping 7 certified_rows "2026-01-02T00:00:00+00:00" run_snapshots rewritten).
Lemma run_stamps : stamp_certified_bookkeeping 7 certified_rows "2026-01-02T00:00:00+00:00" run_snapshots rewritten = Ok stamped.
Proof.
  assert (is_ok (stamp_certified_bookkeeping 7 certified_rows "2026-01-02T00:00:00+00:00" run_snapshots rewritten) = true) as H by (vm_compute; reflexivity).
  unfold stamped. by destruct (stamp_certified_bookkeeping _ _ _ _ _).
Qed.
Example only_the_sent_row_is_stamped :
  map (fun i => match lv_rows stamped !! ("svi_intent"%py, i) with Some r => get r "last_apply_at" | None => JNull end) [1; 2] =
    [JStr "2026-01-02T00:00:00+00:00"; JNull].
Proof. vm_compute. reflexivity. Qed.
Lemma stamps_keep_to_sent_intent_witness : same_intent (lv_rows rewritten) (lv_rows stamped) ∧
  ∀ k, lv_rows stamped !! k ≠ lv_rows rewritten !! k → live_as_frozen run_generation rewritten k ∧
    ∃ s, s ∈ run_snapshots ∧ k = target_key s ∧ ∀ c, c ∈ bs_contributors s → dict_get certified_rows c = Some "in_sync"%py.
Proof.
  exact (proj1 (stamps_keep_to_sent_intent run_generation run_origins run_rows run_live run_snapshots run_marked run_snapshot)
           7 certified_rows "2026-01-02T00:00:00+00:00"%py rewritten stamped run_stamps).
Defined.

(** ** The attempt *)

Definition run_registration : Registration := {| reg_device := Some 7; reg_token := Some "token"%py; reg_attempt := Some 1 |}.
Definition run_prepared : Ev := ok_snd run_start (prepare_send run_generation run_origins run_rows (Some run_registration) run_start).
Lemma run_prepares : prepare_send run_generation run_origins run_rows (Some run_registration) run_start = Ok (1, run_prepared).
Proof.
  assert (match prepare_send run_generation run_origins run_rows (Some run_registration) run_start with Ok (id, _) => id =? 1 | Raise _ => false end = true) as H
    by (vm_compute; reflexivity).
  unfold run_prepared. destruct (prepare_send _ _ _ _ _) as [[id e]|]; [|discriminate]. cbn [ok_snd]. apply Z.eqb_eq in H. by subst id.
Qed.
Definition no_attempt_row : Attempt := mkAttempt 0 0 None 0 0 sync "" "" [] [] None [] [] [] [] [] at_prepared None [] false.
Definition run_attempt : Attempt := default no_attempt_row (ev_attempts run_prepared !! 1).
Lemma run_attempt_fresh : at_responses run_attempt = [] ∧ at_acknowledged run_attempt = false.
Proof. vm_compute. split; reflexivity. Qed.
Definition recorded_send (nso : list Request -> Request -> option Response) : ended Sent * Trace :=
  apply_device_intent 100 default_settings nso (Some (recorder 100 run_attempt)) "https://nso" "pe1" sample_containers no_dry_run false false empty_trace.

Lemma hundred : (5 <= 100)%nat.
Proof. lia. Qed.
(** The commit is acknowledged. *)
Lemma settlement_follows_the_answer_witness :
  ∃ a, AttemptProps.record_all 100 run_attempt (tr_checkpoints (recorded_send (accepts answer_204)).2) = Ok a ∧
    ((tr_requests (recorded_send (accepts answer_204)).2 = [] ∧ a = run_attempt) ∨
     ∃ url payload rest, tr_requests (recorded_send (accepts answer_204)).2 = commit_request default_settings false url payload :: rest ∧
       let answered := problem 100 (accepts answer_204 [] (commit_request default_settings false url payload)) in
       at_acknowledged a = bool_decide (answered = None) ∧
       ∀ k causes records, disposition_evidence 100 a = Ok (k, causes, records) → settled_as answered k ∧ (definite k = true → answered ≠ None)).
Proof.
  exact (settlement_follows_the_answer 100 default_settings (accepts answer_204) run_attempt hundred run_attempt_fresh "https://nso" "pe1" sample_containers false false
           (recorded_send (accepts answer_204)).1 (recorded_send (accepts answer_204)).2 (surjective_pairing _)).
Defined.
(** NSO rejects it. *)
Definition rejected_attempt : Attempt := ok run_attempt (AttemptProps.record_all 100 run_attempt (tr_checkpoints (recorded_send rejects).2)).
Lemma rejected_recorded : AttemptProps.record_all 100 run_attempt (tr_checkpoints (recorded_send rejects).2) = Ok rejected_attempt.
Proof.
  assert (is_ok (AttemptProps.record_all 100 run_attempt (tr_checkpoints (recorded_send rejects).2)) = true) as H by (vm_compute; reflexivity).
  unfold rejected_attempt. by destruct (AttemptProps.record_all _ _ _).
Qed.
(** The same attempt as a removal's: it names tombstone 5, whose owner asks for the removal again. *)
Definition naming_attempt (a : Attempt) : Attempt :=
  mkAttempt (at_device a) (at_generation a) None (at_correlation a) (at_run a) removal (at_digest a) (at_token a) (at_revisions a) (at_authorities a)
    (at_manual a) [5] (at_membership a) (at_carriers a) (at_origins a) (at_prior a) at_terminal (at_response_phase a) (at_responses a) (at_acknowledged a).
Definition swept_db : Db :=
  mkDb {[7]} ∅ {[7 := 3]} {[7 := 0]} {[(7, "static_route"%py) := mkStream 2 2 1 (Some 5) (Some [(EXECUTION_KEY, JObj [("context", JObj [("ned_id", JNull); ("dialect", JStr "identity")])])]%py) None 0]} ∅ ∅ ∅
    {[5 := mkTombstone 7 None]} 12 2 1 0 None.
Definition swept : Ev := mkEv (mkLive swept_db ∅ ∅ ∅) {[1 := naming_attempt rejected_attempt]} [] 2.
Definition empty_operation (d : Db) (device : Z) (a b c : pydict) (ids : list Z) : res pydict := Ok [].
Definition same_plan (v : json) (a b : list json) : res json := Ok v.
Definition sweep_again : res (option Z * Db) :=
  reissue_removal_job same_plan empty_operation (automatic_removal_reissue_blocked swept 7 5) 7 5 [JArr [JStr "10.0.0.0/8"]] false (ev_db swept).
Definition sweep_result : Db := ok_snd swept_db sweep_again.
Lemma sweep_reissues : sweep_again = Ok (Some 2, sweep_result).
Proof.
  assert (match sweep_again with Ok (j, _) => bool_decide (j = Some 2) | Raise _ => false end = true) as H by (vm_compute; reflexivity).
  unfold sweep_result. destruct sweep_again as [[j d]|]; [|discriminate]. by apply bool_decide_eq_true in H as ->.
Qed.
Lemma naming_names : names swept 7 5 (naming_attempt rejected_attempt).
Proof. exists 1. split; [exact (lookup_singleton_eq 1 _)|]. split; [vm_compute; reflexivity|by left]. Qed.
Lemma naming_after_send : after_send rejected_attempt (naming_attempt rejected_attempt).
Proof. exact (after_send_refl rejected_attempt). Qed.
Lemma reissue_only_after_rejection_witness :
  ∃ url payload rest, tr_requests (recorded_send rejects).2 = commit_request default_settings false url payload :: rest ∧
    problem 100 (rejects [] (commit_request default_settings false url payload)) = Some OrdinaryRejection.
Proof.
  exact (reissue_only_after_rejection same_plan empty_operation swept 7 5 [JArr [JStr "10.0.0.0/8"]] false (Some 2) sweep_result sweep_reissues
           (naming_attempt rejected_attempt) naming_names 100%nat default_settings rejects run_attempt "https://nso" "pe1" sample_containers false false (recorded_send rejects).1
           (recorded_send rejects).2 rejected_attempt hundred run_attempt_fresh (surjective_pairing _) rejected_recorded naming_after_send).
Defined.
(** Had nothing been recorded, the sweep would have left it alone. *)
Example unrecorded_blocks : automatic_removal_reissue_blocked (mkEv (mkLive swept_db ∅ ∅ ∅) {[1 := naming_attempt run_attempt]} [] 2) 7 5 = true.
Proof. vm_compute. reflexivity. Qed.

(** ** Settlement *)

(** NSO refuses the first interface; the run is disposed of. *)
Definition refusal_checkpoint : Checkpoint := mkCheckpoint commit_phase (Some (DefiniteRefusal [svi_absent])) false.
Definition run_refused : Ev := ok_snd run_start (record_checkpoint 100 1 1 1 "token" refusal_checkpoint run_prepared).
Lemma run_records : record_checkpoint 100 1 1 1 "token" refusal_checkpoint run_prepared = Ok (tt, run_refused).
Proof.
  assert (is_ok (record_checkpoint 100 1 1 1 "token" refusal_checkpoint run_prepared) = true) as H by (vm_compute; reflexivity).
  unfold run_refused. destruct (record_checkpoint 100 1 1 1 "token" refusal_checkpoint run_prepared) as [[[] e]|]; [reflexivity|discriminate].
Qed.
Definition refused_attempt : Attempt := default no_attempt_row (ev_attempts run_refused !! 1).
Definition refused_settlement : res ((pydict * json * bool) * Ev) := settle_attempt 100 1 refused_attempt run_generation exit_runner_failed None run_refused.
Definition settled_result : pydict * json * bool := ok_fst ([], JNull, false) refused_settlement.
Definition settled_ev : Ev := ok_snd run_start refused_settlement.
Lemma run_settles : settle_attempt 100 1 refused_attempt run_generation exit_runner_failed None run_refused = Ok ((settled_result.1.1, settled_result.1.2, settled_result.2), settled_ev).
Proof.
  fold refused_settlement. rewrite (ok_parts ([], JNull, false) run_start refused_settlement) by (vm_compute; reflexivity).
  unfold settled_result, settled_ev. by destruct (ok_fst ([], JNull, false) refused_settlement) as [[? ?] ?].
Qed.
Lemma run_membership : at_membership refused_attempt = map logical_record run_rows.
Proof. vm_compute. reflexivity. Qed.
Lemma run_rows_stamped : Forall logical_stamped run_rows.
Proof. vm_compute. repeat constructor. Qed.
Example one_row_refused : map ro_disposition (ev_outcomes settled_ev) = [d_refused; d_not_applied] ∧ settled_result.2 = true.
Proof. vm_compute. split; reflexivity. Qed.
Lemma every_row_settled_once_witness :
  ∃ k causes records outcomes, disposition_evidence 100 refused_attempt = Ok (k, causes, records) ∧ settled_result.2 = definite k ∧
    ev_outcomes settled_ev = ev_outcomes run_refused ++ outcomes ∧ Forall2 (row_settled 1 settled_result.2 causes) run_rows outcomes ∧
    dict_get settled_result.1.1 "row_outcomes" = Some (JArr (map outcome_json outcomes)).
Proof.
  exact (every_row_settled_once 100 1 refused_attempt run_generation exit_runner_failed None run_rows run_refused settled_result.1.1 settled_result.1.2 settled_result.2 settled_ev
           run_membership run_rows_stamped run_settles).
Defined.

Definition refused_causes : Causes := match disposition_evidence 100 refused_attempt with Ok (_, causes, _) => causes | Raise _ => [] end.
Definition row_settled_b (id : Z) (certain : bool) (causes : Causes) (l : LogicalRow) (o : RowOutcome) : bool :=
  (ro_attempt o =? id) && bool_decide (ro_identity o = contributor l) && bool_decide (ro_logical o = public_record l) &&
  bool_decide (ro_carrier o = owner_record (lr_carrier l)) && bool_decide (ro_refusals o = default [] (dict_get causes (content_digest (public_record l)))) &&
  bool_decide (ro_disposition o = match ro_refusals o with [] => if certain then d_not_applied else d_unavailable | _ => d_refused end).
Lemma row_settled_sound id certain causes l o : row_settled_b id certain causes l o = true → row_settled id certain causes l o.
Proof.
  unfold row_settled_b. rewrite !andb_true_iff, !bool_decide_eq_true, Z.eqb_eq. intros (((((H1 & H2) & H3) & H4) & H5) & H6).
  exact (Build_row_settled _ _ _ _ _ H1 H2 H3 H4 H5 H6).
Qed.
Lemma run_rows_settled : Forall2 (row_settled 1 true refused_causes) run_rows (ev_outcomes settled_ev).
Proof.
  assert (forallb (fun lo => row_settled_b 1 true refused_causes lo.1 lo.2) (zip run_rows (ev_outcomes settled_ev)) = true) as H by (vm_compute; reflexivity).
  assert (length run_rows = length (ev_outcomes settled_ev)) as Hl by (vm_compute; reflexivity).
  revert H Hl. generalize run_rows, (ev_outcomes settled_ev). intros ls. induction ls as [|l ls IH]; intros [|o os]; try discriminate; [intros _ _; constructor|].
  cbn [zip zip_with forallb]. rewrite andb_true_iff. intros [H1 H2] [= Hl]. constructor; [by apply row_settled_sound|by apply IH].
Qed.
Lemma run_streams_known : Forall (fun l => so_stream (lr_carrier l) ∈ STREAMS) run_rows.
Proof. apply Forall_forall. intros l Hl. apply (bool_decide_unpack _). revert l Hl. apply Forall_forall. vm_compute. repeat constructor. Qed.
Lemma carriers_counted_once_witness :
  ∃ verdicts carriers counts, carrier_results (ev_outcomes settled_ev) (map carrier_record (fromkeys (map lr_carrier run_rows))) [] empty_counts = Ok (carriers, counts) ∧
    length carriers = length (fromkeys (map lr_carrier run_rows)) ∧
    Forall2 (fun o kd => stream_result_key (so_stream o) = Ok kd.1 ∧ carrier_worst (ev_outcomes settled_ev) o kd.2) (fromkeys (map lr_carrier run_rows)) verdicts ∧
    ∀ key d, tally d (counted counts (count_key key)) = verdicts_for key d verdicts.
Proof. exact (carriers_counted_once 1 true refused_causes run_rows (ev_outcomes settled_ev) run_rows_settled run_streams_known). Defined.

(** ** The machine *)

Definition no_freeze (d : Db) (device : Z) (stream : pystr) : res pydict := Ok [].
Definition no_prune (v : json) (a b : list json) : res json := Ok v.
Definition no_operation (d : Db) (device : Z) (a b c : pydict) (ids : list Z) : res pydict := Ok [].
Definition no_evidence (d : Db) (j : Job) (error : option json) : res (option pydict) := Ok None.
Notation sample_core := (step no_freeze no_prune no_operation no_evidence).

Definition run_disposed : Ev := ok_snd run_start (dispose_run 100 1 (Some run_registration) exit_runner_failed None run_refused).
Lemma run_disposes : dispose_run 100 1 (Some run_registration) exit_runner_failed None run_refused = Ok (true, run_disposed).
Proof.
  assert (match dispose_run 100 1 (Some run_registration) exit_runner_failed None run_refused with Ok (b, _) => b | Raise _ => false end = true) as H by (vm_compute; reflexivity).
  unfold run_disposed. destruct (dispose_run 100 1 (Some run_registration) exit_runner_failed None run_refused) as [[b e]|]; [|discriminate]. cbn [ok_snd]. by subst b.
Qed.
Example run_fails_definitely :
  (g_status <$> generations (ev_db run_disposed) !! 11, j_status <$> jobs (ev_db run_disposed) !! 1, at_phase <$> ev_attempts run_disposed !! 1) =
    (Some gen_failed, Some job_failed, Some at_terminal).
Proof. vm_compute. reflexivity. Qed.
Lemma run_steps : star (ev_step 100 sample_core) run_start run_disposed.
Proof.
  eapply star_step; [exact (ev_prepare 100 sample_core run_start run_prepared _ _ _ _ _ run_prepares)|].
  eapply star_step; [exact (ev_checkpoint 100 sample_core run_prepared run_refused _ _ _ _ _ run_records)|].
  apply star_one. exact (ev_dispose 100 sample_core run_refused run_disposed _ _ _ _ _ run_disposes).
Qed.
Lemma execution_refines_core_witness :
  steps no_freeze no_prune no_operation no_evidence (ev_db run_start) (ev_db run_disposed) ∧
  (reachable no_freeze no_prune no_operation no_evidence (ev_db run_start) → reachable no_freeze no_prune no_operation no_evidence (ev_db run_disposed)).
Proof. exact (execution_refines_core no_freeze no_prune no_operation no_evidence 100 run_start run_disposed run_steps). Defined.

Lemma prepared_steps : star (ev_step 100 sample_core) run_prepared run_disposed.
Proof.
  eapply star_step; [exact (ev_checkpoint 100 sample_core run_prepared run_refused _ _ _ _ _ run_records)|].
  apply star_one. exact (ev_dispose 100 sample_core run_refused run_disposed _ _ _ _ _ run_disposes).
Qed.
Lemma prepared_fresh : fresh_ids run_prepared.
Proof.
  assert (bool_decide (dom (ev_attempts run_prepared) = {[1]}) = true) as Hd%bool_decide_eq_true by (vm_compute; reflexivity).
  assert (ev_next_attempt run_prepared = 2) as Hn by (vm_compute; reflexivity).
  intros id Hid%elem_of_dom. rewrite Hd, elem_of_singleton in Hid. rewrite Hn. lia.
Qed.
Lemma evidence_is_append_only_witness :
  (∀ id a, ev_attempts run_prepared !! id = Some a → ∃ a', ev_attempts run_disposed !! id = Some a' ∧ evolves a a') ∧
  ∃ l, ev_outcomes run_disposed = ev_outcomes run_prepared ++ l.
Proof. exact (evidence_is_append_only 100 sample_core run_prepared run_disposed prepared_fresh prepared_steps). Defined.

(** ** History *)

(** The commit is acknowledged and its history recorded; a later document is joined to it. *)
Definition run_acknowledged : Ev :=
  ok_snd run_start ('(_, e) ← record_checkpoint 100 1 1 1 "token" (mkCheckpoint commit_phase None true) run_prepared; record_send_history 1 1 "token" None e).
Example history_recorded : option_map (fun a => (at_acknowledged a, dict_keys (at_responses a))) (latest_acknowledged run_acknowledged 7) = Some (true, ["commit"%py; ORIGIN_HISTORY]).
Proof. vm_compute. reflexivity. Qed.
Definition joined_origins : OriginIndex := ok empty_index (bind_historical_origins run_acknowledged 7 run_origins 11).
Lemma run_joins : bind_historical_origins run_acknowledged 7 run_origins 11 = Ok joined_origins.
Proof.
  assert (is_ok (bind_historical_origins run_acknowledged 7 run_origins 11) = true) as H by (vm_compute; reflexivity).
  unfold joined_origins. destruct (bind_historical_origins run_acknowledged 7 run_origins 11); [reflexivity|discriminate].
Qed.
Lemma history_only_fills_gaps_witness :
  ∃ frozen, generations (ev_db run_acknowledged) !! 11 = Some frozen ∧ g_device_id frozen = 7 ∧
    (joined_origins = run_origins ∨ ∃ a records baseline, latest_acknowledged run_acknowledged 7 = Some a ∧
       default (JArr []) (dict_get (at_responses a) ORIGIN_HISTORY) = JArr records ∧ origins_from_records records = Ok baseline ∧
       ∀ key, (∀ row, row_ref "static-route" "static-route" [] = Ok row → key ≠ family_key row) →
         (∀ b, dict_get (oi_bindings run_origins) key = Some b → dict_get (oi_bindings joined_origins) key = Some b) ∧
         (∀ b, dict_get (oi_bindings run_origins) key = None → dict_get (oi_bindings joined_origins) key = Some b → proved_join frozen baseline run_origins key b)).
Proof. exact (history_only_fills_gaps run_acknowledged 7 run_origins 11 joined_origins run_joins). Defined.
