(* ===== verification/RouteIngest.v ===== *)
(** * Static-route intent

    src/nso_adapter/core/static_route_ingestion.py and src/nso_adapter/core/deleted_routes.py, the whole modules, with
    [enqueue_static_route_removals] of src/nso_adapter/core/removal.py: how the entries of a push are matched to the stored routes,
    which of the omitted routes NetBox deleted, the carriers and removal jobs they get, and the pass that only backfills route ids.
    A stored route is its record; its columns hold what the model declares: an integer primary key, texts for the key and an integer
    or nothing as [route_id].  A carrier is a record of the tombstone table, and its owner is in the store's [tombstones]. *)

From stdpp Require Import base gmap list.
From Stdlib Require Import ZArith NArith Lia.
From S2P Require Import Prelude Json Sha256 Registry Document Asn Identity Store Generation Admission Receipt Removal Mirror StaticPlan.
Local Open Scope py_scope.
Local Open Scope Z_scope.

(** ** The body *)

(** [StaticRouteEntry] *)
Record RouteEntry := mkRoute {
  re_route_id : option Z; re_generation : option Z; re_key : Triple;
  re_interface_next_hop : option pystr; re_next_hop_vrf : option pystr; re_metric : option Z; re_permanent : option bool;
  re_tag : option Z; re_name : option pystr; re_accepted_at : option pystr }.

(** [DeletionRecord]: a deleted route and the keys the adapter may hold it under *)
Record DeletionRecord := mkDeletion { dr_route_id : Z; dr_triples : list Triple; dr_unverified : bool }.

(** [StaticRouteIntentUpdate] *)
Record RouteUpdate := mkUpdate { ru_routes : list RouteEntry; ru_deleted : list DeletionRecord }.

Definition int_or_null (o : option Z) : json := match o with Some z => JInt z | None => JNull end.
Definition text_or_null (o : option pystr) : json := match o with Some s => JStr s | None => JNull end.
Definition bool_or_null (o : option bool) : json := match o with Some b => JBool b | None => JNull end.

(** ** Stored routes *)

Definition row_pk (row : pydict) : Z := int_of (get row "id").
Definition row_route_id (row : pydict) : option Z := match get row "route_id" with JInt z => Some z | _ => None end.
Definition text_value (v : json) : pystr := match v with JStr s => s | _ => "" end.
(** [(row.vrf, row.prefix, row.next_hop)] and [triple_of(row)] *)
Definition row_key (row : pydict) : Triple := (text_value (get row "vrf"), text_value (get row "prefix"), text_value (get row "next_hop")).

(** The value a dict comprehension over [l] holds for a key: the last one. *)
Definition find_last {A} (p : A -> bool) (l : list A) : option A := List.find p (rev l).
Definition by_route_id (rows : list pydict) (i : Z) : option pydict := find_last (fun r => bool_decide (row_route_id r = Some i)) rows.
Definition by_triple (rows : list pydict) (t : Triple) : option pydict := find_last (fun r => bool_decide (row_key r = t)) rows.

(** ** Refusals of the body *)

Definition invalid : exc := ApiError 422 "validation_error".

(** [_reject_payload_duplicates] *)
Definition reject_payload_duplicates (routes : list RouteEntry) : res unit :=
  _ ← guard_or (bool_decide (NoDup (map re_key routes))) invalid;
  guard_or (bool_decide (NoDup (omap re_route_id routes))) invalid.

(** [_reject_deletion_payload] *)
Definition reject_deletion_payload (backfill_only : bool) (records : list DeletionRecord) : res unit :=
  _ ← guard_or (negb (backfill_only && nonempty records)) invalid;
  guard_or (bool_decide (NoDup (map dr_route_id records))) invalid.

(** [_deletion_records]: each lineage without its repetitions *)
Fixpoint distinct {A} `{EqDecision A} (l seen : list A) : list A :=
  match l with
  | [] => seen
  | x :: l => distinct l (if bool_decide (x ∈ seen) then seen else seen ++ [x])
  end.
Definition deletion_records (records : list DeletionRecord) : list DeletionRecord :=
  map (fun r => mkDeletion (dr_route_id r) (distinct (dr_triples r) []) (dr_unverified r)) records.

(** ** Matching *)

(** The first pass of [_match_payload_to_rows]: an entry owns the row with its route id. *)
Definition match_by_id (existing : list pydict) (item : RouteEntry) : option pydict :=
  match re_route_id item with Some i => by_route_id existing i | None => None end.

(** The second pass: of the entries left, in order, each adopts the unclaimed row at its key, unless both name a route id. *)
Fixpoint match_by_triple (existing : list pydict) (routes : list (RouteEntry * option pydict)) (claimed : list Z) : list (option pydict) * list Z :=
  match routes with
  | [] => ([], claimed)
  | (item, Some row) :: routes =>
      let '(l, claimed) := match_by_triple existing routes claimed in (Some row :: l, claimed)
  | (item, None) :: routes =>
      let adopted := match by_triple existing (re_key item) with
                     | Some row => if bool_decide (row_pk row ∈ claimed) || given (re_route_id item) && given (row_route_id row) then None else Some row
                     | None => None
                     end in
      let '(l, claimed) := match_by_triple existing routes (match adopted with Some row => row_pk row :: claimed | None => claimed end) in
      (adopted :: l, claimed)
  end.

(** [_match_payload_to_rows]: the row of each entry, and the rows nothing claimed *)
Definition match_payload_to_rows (routes : list RouteEntry) (existing : list pydict) : list (option pydict) * list pydict :=
  let first := map (match_by_id existing) routes in
  let '(matched, claimed) := match_by_triple existing (zip routes first) (map row_pk (omap id first)) in
  (matched, List.filter (fun r => negb (bool_decide (row_pk r ∈ claimed))) existing).

(** [_double_claimed_triple]: whether two distinct route ids claim one key *)
Definition double_claimed_triple (planned : list (Triple * option Z)) : bool :=
  existsb (fun ti => existsb (fun tj => match ti.2, tj.2 with
                                        | Some i, Some j => bool_decide (ti.1 = tj.1) && negb (bool_decide (i = j))
                                        | _, _ => false
                                        end) planned) planned.

(** [_reject_double_claimed_triple] *)
Definition claimant (item : RouteEntry) (row : option pydict) : option Z :=
  match re_route_id item with Some i => Some i | None => row ≫= row_route_id end.
Definition planned_claims (routes : list RouteEntry) (matched : list (option pydict)) : list (Triple * option Z) :=
  zip_with (fun item row => (re_key item, claimant item row)) routes matched.
Definition reject_double_claimed_triple (routes : list RouteEntry) (matched : list (option pydict)) : res unit :=
  guard_or (negb (double_claimed_triple (planned_claims routes matched))) invalid.

(** ** Deletions *)

(** [DeletionPartition]; a set is its sorted list *)
Record DeletionPartition := mkPartition {
  dp_executed : list Z; dp_degraded : list Z; dp_moot : list Z; dp_uncorrelated : list Triple; dp_genuine : list Z }.

Definition ids_sorted (l : list Z) : list Z := stable_sort Z.leb (remove_dups l).
Definition names_triple (t : Triple) (r : DeletionRecord) : bool := bool_decide (t ∈ dr_triples r).

(** [classify_deletions] *)
Definition classify_deletions (records : list DeletionRecord) (removed_rows : list pydict) : DeletionPartition :=
  let genuine := omap (fun r => (fun row => (dr_route_id r, row)) <$> by_route_id removed_rows (dr_route_id r)) records in
  let remaining := List.filter (fun r => negb (given (by_route_id removed_rows (dr_route_id r)))) records in
  let residue := List.filter (fun row => negb (given (row_route_id row))) removed_rows in
  let class row := List.filter (names_triple (row_key row)) remaining in
  let degraded := flat_map (fun row => map dr_route_id (class row)) residue in
  let claimed := map row_pk (List.filter (fun row => nonempty (class row)) residue) in
  let uncorrelated := stable_sort triple_le (map row_key (List.filter (fun row => negb (bool_decide (row_pk row ∈ claimed))) residue)) in
  let unmatched := List.filter (fun r => negb (bool_decide (dr_route_id r ∈ degraded))) remaining in
  let attributed r := dr_unverified r && nonempty uncorrelated in
  let conservative := map dr_route_id (List.filter attributed unmatched) in
  let moot := map dr_route_id (List.filter (fun r => negb (attributed r)) unmatched) in
  mkPartition (ids_sorted (map fst genuine)) (ids_sorted (degraded ++ conservative)) (ids_sorted moot) uncorrelated
    (ids_sorted (map (fun ir => row_pk ir.2) genuine)).

(** [_refuse_unmarkable_deletions] *)
Definition refuse_unmarkable_deletions (p : DeletionPartition) (store_only fence : bool) : res unit :=
  guard_or (negb (nonempty (dp_executed p) && negb store_only && negb fence)) (ApiError 409 "conflict").

(** [_removal_markings] *)
Definition removal_marking (p : DeletionPartition) (row : pydict) : pystr :=
  if bool_decide (row_pk row ∈ dp_genuine p) then DELETE_ORIGIN_MARKING else DETACH_MARKING.

(** [_acknowledgement] *)
Definition triple_obj (t : Triple) : json := JObj [("vrf", JStr t.1.1); ("prefix", JStr t.1.2); ("next_hop", JStr t.2)].
Definition acknowledgement (p : DeletionPartition) : pydict :=
  [("deleted_executed_ids", JArr (map JInt (dp_executed p))); ("deleted_degraded_ids", JArr (map JInt (dp_degraded p)));
   ("deleted_moot_ids", JArr (map JInt (dp_moot p))); ("removed_uncorrelated", JArr (map triple_obj (dp_uncorrelated p)))].

(** The record of one removed row in [_promotion_deletions]. *)
Definition promotion_deletion (p : DeletionPartition) (row : pydict) : json :=
  JObj [("table", JStr SR_INTENT); ("route_id", get row "route_id"); ("key", triple_json (row_key row)); ("marking", JStr (removal_marking p row))].

(** [_echo], with [static_route_fingerprint] *)
Definition row_fingerprint (row : pydict) : res pystr := entry ← static_route_entry row; Ok (sha256_hex (ascii_bytes (dumps compact_sorted (JObj entry)))).
Definition echo (row : pydict) : res json :=
  fingerprint ← row_fingerprint row;
  Ok (JObj [("route_id", get row "route_id"); ("generation", get row "intent_generation"); ("fingerprint", JStr fingerprint)]).

(** ** Writing the rows *)

(** The columns every entry writes. *)
Definition entry_columns (now : Z) (item : RouteEntry) : pydict :=
  [("vrf", JStr (re_key item).1.1); ("prefix", JStr (re_key item).1.2); ("next_hop", JStr (re_key item).2)] ++
  match re_route_id item with Some i => [("route_id", JInt i)] | None => [] end ++
  match re_generation item with Some g => [("intent_generation", JInt g)] | None => [] end ++
  [("accepted_at", JStr (default (py_str_int now) (re_accepted_at item)));
   ("interface_next_hop", text_or_null (re_interface_next_hop item)); ("next_hop_vrf", text_or_null (re_next_hop_vrf item));
   ("metric", int_or_null (re_metric item)); ("permanent", bool_or_null (re_permanent item)); ("tag", int_or_null (re_tag item)); ("name", text_or_null (re_name item))].

Definition new_route (device_id now id : Z) (item : RouteEntry) : pydict :=
  dict_update [("id", JInt id); ("device_id", JInt device_id); ("route_id", JNull); ("intent_generation", JNull); ("deployed_key", JNull);
               ("pending_clear", JNull); ("vrf", JNull); ("prefix", JNull); ("next_hop", JNull); ("interface_next_hop", JNull); ("next_hop_vrf", JNull);
               ("metric", JNull); ("permanent", JNull); ("tag", JNull); ("name", JNull); ("accepted_at", JNull); ("last_apply_at", JNull);
               ("last_apply_error", JNull)] (entry_columns now item).

(** The update of a matched row, its clear carrier included, and whether a leaf was cleared. *)
Definition update_route (now : Z) (store_only : bool) (item : RouteEntry) (row : pydict) : res (pydict * bool) :=
  let after := dict_update row (entry_columns now item) in
  let cleared := List.filter (fun f => sr_is_cleared f (get row f) (get after f)) SR_CLEAR_FIELDS in
  carrier ← update_pending_clear (get row "pending_clear") cleared (List.filter (fun f => wire_set f (get after f)) SR_CLEAR_FIELDS) store_only;
  Ok (dict_set after "pending_clear" carrier, nonempty cleared).

(** The handler's loop: the rows in payload order, how many are new, and whether a leaf was cleared. *)
Fixpoint write_routes (device_id now : Z) (store_only : bool) (routes : list (RouteEntry * option pydict)) (next : Z) : res (list pydict * Z * bool) :=
  match routes with
  | [] => Ok ([], next, false)
  | (item, Some row) :: routes =>
      '(row, here) ← update_route now store_only item row;
      '(rows, next, cleared) ← write_routes device_id now store_only routes next;
      Ok (row :: rows, next, here || cleared)
  | (item, None) :: routes =>
      '(rows, next', cleared) ← write_routes device_id now store_only routes (next + 1);
      Ok (new_route device_id now next item :: rows, next', cleared)
  end.

(** The table after the flush: updated rows in place, removed ones gone, new ones at the end. *)
Definition flush_routes (table removed written : list pydict) (next : Z) : list pydict :=
  let kept := List.filter (fun r => negb (bool_decide (row_pk r ∈ map row_pk removed))) table in
  map (fun r => default r (find_last (fun w => row_pk w =? row_pk r) written)) kept ++ List.filter (fun w => next <=? row_pk w) written.

(** ** Carriers *)

Definition tombstone_row (device_id now id : Z) (marking : pystr) (row : pydict) : pydict :=
  [("id", JInt id); ("device_id", JInt device_id); ("route_id", get row "route_id"); ("vrf", get row "vrf"); ("prefix", get row "prefix");
   ("next_hop", get row "next_hop"); ("deployed_key", get row "deployed_key"); ("marking", JStr marking); ("job_id", JNull);
   ("created_at", JStr (py_str_int now))].

Fixpoint number_from {A} (id : Z) (l : list A) : list (Z * A) := match l with [] => [] | x :: l => (id, x) :: number_from (id + 1) l end.

(** [_write_tombstones]: the ids and markings of the new carriers *)
Definition write_tombstones (device_id : Z) (removed_rows : list pydict) (fence store_only : bool) (p : DeletionPartition) : PushDb -> list (Z * pystr) * PushDb :=
  fun s =>
  if negb (nonempty removed_rows) || negb fence || store_only then ([], s)
  else
    let numbered := number_from (next_row_id s) removed_rows in
    let rows := map (fun ir => tombstone_row device_id (clock (base s)) ir.1 (removal_marking p ir.2) ir.2) numbered in
    let s := with_live (dict_set (live s) SR_TOMBSTONE (table_rows (live s) SR_TOMBSTONE ++ rows)) (next_row_id s + Z.of_nat (length rows)) s in
    (map (fun ir => (ir.1, removal_marking p ir.2)) numbered,
     with_base (with_tombstones (foldr (fun ir m => <[ir.1 := mkTombstone device_id None]> m) (tombstones (base s)) numbered) (base s)) s).

(** [tombstone.job_id = owner.id] *)
Definition own_tombstone (id job_id : Z) (s : PushDb) : PushDb :=
  let s := with_live (dict_set (live s) SR_TOMBSTONE
                        (map (fun r => if row_pk r =? id then dict_set r "job_id" (JInt job_id) else r) (table_rows (live s) SR_TOMBSTONE))) (next_row_id s) s in
  with_base (with_tombstones (alter (fun t => mkTombstone (t_device_id t) (Some job_id)) id (tombstones (base s))) (base s)) s.

(** The keys removed with a marking. *)
Definition removed_by_marking (p : DeletionPartition) (removed_rows : list pydict) (marking : pystr) : list json :=
  map (fun r => triple_json (row_key r)) (List.filter (fun r => bool_decide (removal_marking p r = marking)) removed_rows).

Definition MARKING_ORDER : list pystr := [DELETE_ORIGIN_MARKING; DETACH_MARKING].

(** The request of [enqueue_static_route_removals] for one marking, [None] for a pure clear. *)
Definition route_removal (promotes : list pystr) (removed : pystr -> list json) (tombstones : list (Z * pystr)) (present : list pystr)
    (retract : bool) (cohort : option Z) (marking : option pystr) : res RemovalRequest :=
  keys ← match marking with Some m => removed_map "static_route" (removed m) | None => Ok [] end;
  Ok (mkRemoval "static_route" marking (mem DETACH_MARKING present) promotes cohort [] keys None [] false retract (given marking) None
        (omap (fun im => if bool_decide (Some im.2 = marking) then Some im.1 else None) tombstones) None []).

Section Ingestion.
Context (stream_proof : tables -> Z -> pystr -> tables -> pydict -> res pydict).
Context (prune_apply_plan : json -> list json -> list json -> res json).
Context (static_route_operation : Db -> Z -> pydict -> pydict -> pydict -> list Z -> res pydict).

(** The loop over the markings: [None] when a request made no job, else the job of each marking. *)
Fixpoint enqueue_markings (store_only : bool) (device_id : Z) (request : bool -> option pystr -> res RemovalRequest) (first : bool) (markings : list (option pystr)) :
    txn PushDb (option (list (option pystr * Z))) := fun s =>
  match markings with
  | [] => Ok (Some [], s)
  | marking :: markings =>
      q ← request first marking;
      '(job, s) ← enqueue_removal (freeze_live stream_proof) prune_apply_plan static_route_operation store_only device_id q s;
      match job with
      | None => Ok (None, s)
      | Some job_id =>
          '(jobs, s) ← enqueue_markings store_only device_id request false markings s;
          Ok (option_map (cons (marking, job_id)) jobs, s)
      end
  end.

Fixpoint own_tombstones (jobs : list (option pystr * Z)) (tombstones : list (Z * pystr)) (s : PushDb) : res PushDb :=
  match tombstones with
  | [] => Ok s
  | (id, marking) :: tombstones =>
      match List.find (fun mj => bool_decide (mj.1 = Some marking)) jobs with
      | None => Raise (RuntimeError "carrier has no job")
      | Some (_, job_id) => own_tombstones jobs tombstones (own_tombstone id job_id s)
      end
  end.

(** [enqueue_static_route_removals]: whether it made a job *)
Definition enqueue_static_route_removals (store_only : bool) (device_id : Z) (promotes : list pystr) (removed : pystr -> list json)
    (tombstones : list (Z * pystr)) (retract : bool) (settlement_cohort : option Z) : txn PushDb bool := fun s =>
  let present := List.filter (fun m => nonempty (removed m)) MARKING_ORDER in
  if negb (nonempty present) && negb retract then Ok (false, s)
  else
    '(cohort, s) ← match settlement_cohort with
                   | None => if (1 <? Z.of_nat (length present)) then '(c, s) ← on_base allocate_settlement_cohort s; Ok (Some c, s) else Ok (None, s)
                   | Some c => Ok (Some c, s)
                   end;
    let markings := match present with [] => [None] | l => map Some l end in
    '(jobs, s) ← enqueue_markings store_only device_id
                   (fun first => route_removal promotes removed tombstones present (retract && first) cohort) true markings s;
    match jobs with
    | None => Ok (false, s)
    | Some jobs => s ← own_tombstones jobs tombstones s; Ok (nonempty jobs, s)
    end.

(** The rows of the device in order of their primary key. *)
Definition existing_routes (device_id : Z) (s : PushDb) : list pydict :=
  stable_sort (fun a b => row_pk a <=? row_pk b) (List.filter (of_device device_id) (table_rows (live s) SR_INTENT)).

(** [_apply_backfill_only]: what it leaves of the rows, the adopted ones in payload order, and the pruned ones *)
Definition adopt (item : RouteEntry) (row : pydict) : pydict :=
  dict_update row (match re_route_id item with Some i => [("route_id", JInt i)] | None => [] end ++
                   match re_generation item with Some g => [("intent_generation", JInt g)] | None => [] end).
Definition adopting (item : RouteEntry) : bool := given (re_route_id item) || given (re_generation item).
Definition backfill_rows (routes : list RouteEntry) (existing : list pydict) : res (list pydict * list pydict) :=
  let '(matched, omitted) := match_payload_to_rows routes existing in
  let pairs := zip routes matched in
  _ ← guard_or (negb (existsb (fun ir => match ir.2 with
                                         | Some row => negb (given (row_route_id row)) && negb (given (re_route_id ir.1))
                                         | None => false
                                         end) pairs)) invalid;
  Ok (omap (fun ir => match ir.2 with Some row => if adopting ir.1 then Some (adopt ir.1 row) else None | None => None end) pairs,
      List.filter (fun row => negb (given (row_route_id row))) omitted).
Definition apply_backfill_only (device_id : Z) (body : RouteUpdate) : txn PushDb pydict := fun s =>
  let table := table_rows (live s) SR_INTENT in
  '(adopted, pruned) ← backfill_rows (ru_routes body) (List.filter (of_device device_id) table);
  let uncorrelated := stable_sort triple_le (map row_key pruned) in
  let s := with_live (dict_set (live s) SR_INTENT (flush_routes table pruned adopted (next_row_id s))) (next_row_id s) s in
  routes ← map_res echo adopted;
  Ok ([("device_id", JInt device_id); ("count", JInt (Z.of_nat (length adopted))); ("removed", JInt (Z.of_nat (length pruned))); ("replaced", JBool false);
       ("routes", JArr routes)] ++ acknowledgement (mkPartition [] [] [] uncorrelated []), s).

(** What the request plans before it writes anything. *)
Record RoutePlan := mkPlan { pl_fence : bool; pl_matched : list (option pydict); pl_removed : list pydict; pl_partition : DeletionPartition }.
Definition plan_routes (store_only : bool) (body : RouteUpdate) (existing : list pydict) : res RoutePlan :=
  let fence := fence_open existing in
  let '(matched, removed_rows) := match_payload_to_rows (ru_routes body) existing in
  _ ← reject_double_claimed_triple (ru_routes body) matched;
  let partition := classify_deletions (deletion_records (ru_deleted body)) removed_rows in
  _ ← refuse_unmarkable_deletions partition store_only fence;
  Ok (mkPlan fence matched removed_rows partition).

(** [_apply_static_route_intent] between admission and the recorded response *)
Definition route_work (body : RouteUpdate) (device_id : Z) (delivery : IntentDelivery) : txn PushDb pydict := fun s =>
  if p_backfill_only (d_identity delivery) then apply_backfill_only device_id body s
  else
    let store_only := p_store_only (d_identity delivery) in
    let table := table_rows (live s) SR_INTENT in
    plan ← plan_routes store_only body (existing_routes device_id s);
    let removed_rows := pl_removed plan in
    let partition := pl_partition plan in
    let '(tombstones, s) := write_tombstones device_id removed_rows (pl_fence plan) store_only partition s in
    '(written, next, cleared) ← write_routes device_id (clock (base s)) store_only (zip (ru_routes body) (pl_matched plan)) (next_row_id s);
    let s := with_live (dict_set (live s) SR_INTENT (flush_routes table removed_rows written (next_row_id s))) next s in
    let removed := removed_by_marking partition removed_rows in
    let count := Z.of_nat (length (ru_routes body)) in
    let generations := if nonempty removed_rows then Z.of_nat (length (List.filter (fun m => nonempty (removed m)) MARKING_ORDER)) else Z.b2z cleared in
    '((auto_apply, cohort), s) ← on_base (prepare_request_settlement store_only device_id count generations) s;
    '(replaced, s) ← (if nonempty removed_rows || cleared then
                        enqueue_static_route_removals store_only device_id [d_stream delivery] removed tombstones cleared cohort s
                      else Ok (false, s));
    '(_, s) ← (if (auto_apply : bool) then
                 on_base (enqueue_apply (freeze_live stream_proof (live s)) prune_apply_plan static_route_operation store_only device_id (d_stream delivery) cohort) s
               else Ok (None, s));
    routes ← map_res echo written;
    Ok ([("device_id", JInt device_id); ("count", JInt count); ("removed", JInt (Z.of_nat (length removed_rows))); ("replaced", JBool replaced);
         ("routes", JArr routes); (PROMOTION_DELETIONS, JArr (map (promotion_deletion partition) removed_rows))] ++ acknowledgement partition, s).

(** [_apply_static_route_intent]: the request-wide deletion flag does not apply to routes *)
Definition without_delete_origin (delivery : IntentDelivery) : IntentDelivery :=
  let i := d_identity delivery in mkDelivery (d_stream delivery) (mkIdentity (p_seq i) (p_digest i) (p_store_only i) false (p_backfill_only i)).
Definition apply_static_route_intent (body : RouteUpdate) (device_id : Z) (delivery : IntentDelivery) (s : PushDb) : outcome * PushDb :=
  match _ ← reject_payload_duplicates (ru_routes body); reject_deletion_payload (p_backfill_only (d_identity delivery)) (ru_deleted body) with
  | Raise e => (Refused e, s)
  | Ok _ => if bool_decide (device_id ∈ devices (base s)) then deliver (route_work body) device_id (without_delete_origin delivery) s
            else (Refused (ApiError 404 "not_found"), s)
  end.
End Ingestion.
