(* ===== verification/RouteIngestProps.v ===== *)
(** * What a push of static routes does

    The request's deletions are partitioned exactly, whatever their order; matching gives every stored route to at most one entry;
    the device's routes are then the body's, in place where they were matched; a removal that reaches the device is one NetBox
    asked for; and a backfill pass opens the fence and does nothing else. *)

From stdpp Require Import base gmap list sorting.
From Stdlib Require Import ZArith NArith Lia.
From S2P Require Import Prelude Json Sha256 Registry Document Asn Identity Store Generation Admission Receipt ReceiptProps Removal RemovalProps Mirror MirrorProps StaticPlan StaticPlanProps VaultRef RouteIngest.
Local Open Scope py_scope.
Local Open Scope Z_scope.

(** ** Lists *)

Lemma find_last_Some {A} (p : A -> bool) l x : find_last p l = Some x → x ∈ l ∧ p x = true.
Proof. unfold find_last. intros [H1 H2]%List.find_some. split; [|done]. apply list_elem_of_In. by apply in_rev. Qed.
Lemma find_last_None {A} (p : A -> bool) l : find_last p l = None ↔ ∀ x, x ∈ l → p x = false.
Proof.
  unfold find_last. split.
  - intros H x Hx. apply (List.find_none _ _ H). rewrite <-in_rev. by apply list_elem_of_In.
  - intros H. destruct (List.find p (rev l)) as [x|] eqn:E; [|done]. apply List.find_some in E as [H1 H2].
    rewrite <-in_rev in H1. apply list_elem_of_In in H1. rewrite (H x H1) in H2. done.
Qed.
(** Where one element at most passes the test, the search finds it. *)
Lemma find_last_unique {A} (p : A -> bool) l x : x ∈ l → p x = true → (∀ y, y ∈ l → p y = true → y = x) → find_last p l = Some x.
Proof.
  intros Hx Hp Hu. destruct (find_last p l) as [y|] eqn:E.
  - apply find_last_Some in E as [H1 H2]. by rewrite (Hu y H1 H2).
  - rewrite (proj1 (find_last_None p l) E x Hx) in Hp. done.
Qed.
Lemma elem_of_filter_b {A} (p : A -> bool) l x : x ∈ List.filter p l ↔ x ∈ l ∧ p x = true.
Proof. rewrite !list_elem_of_In. apply filter_In. Qed.
Lemma NoDup_omap_inj {A B} (f : A -> option B) l x y b : NoDup (omap f l) → x ∈ l → y ∈ l → f x = Some b → f y = Some b → x = y.
Proof.
  induction l as [|z l IH]; cbn; [intros _ H; by apply elem_of_nil in H|]. intros Hn Hx Hy Ex Ey.
  apply elem_of_cons in Hx as [->|Hx], Hy as [->|Hy]; [done| | |].
  - rewrite Ex in Hn. apply NoDup_cons in Hn as [Hz _]. exfalso. apply Hz, list_elem_of_omap. by exists y.
  - rewrite Ey in Hn. apply NoDup_cons in Hn as [Hz _]. exfalso. apply Hz, list_elem_of_omap. by exists x.
  - destruct (f z); [apply NoDup_cons in Hn as [_ Hn]|]; by apply IH.
Qed.
Lemma nonempty_true {A} (l : list A) : nonempty l = true ↔ ∃ x, x ∈ l.
Proof. destruct l as [|x l]; cbn; split; [done| |eauto using list_elem_of_here|done]. intros [x Hx]. by apply elem_of_nil in Hx. Qed.

#[export] Instance Z_ltb_order : StrictOrder Z.ltb.
Proof. split; intros *; rewrite ?Z.ltb_lt, ?Z.ltb_ge, ?Z.ltb_irrefl; try done; lia. Qed.
Lemma ids_sorted_set l : ids_sorted l = stable_sort (fun a b => negb (Z.ltb b a)) (remove_dups l).
Proof.
  unfold ids_sorted. generalize (remove_dups l). intros m. unfold stable_sort. induction m as [|x m IH]; [done|]. cbn [foldr]. rewrite IH.
  generalize (foldr (sort_insert (fun a b => negb (Z.ltb b a))) [] m). intros t. induction t as [|y t IHt]; [done|]. cbn [sort_insert]. by rewrite Z.leb_antisym, IHt.
Qed.
Lemma elem_of_ids_sorted i l : i ∈ ids_sorted l ↔ i ∈ l.
Proof. unfold ids_sorted. by rewrite elem_of_stable_sort, elem_of_remove_dups. Qed.
Lemma NoDup_ids_sorted l : NoDup (ids_sorted l).
Proof. unfold ids_sorted. rewrite stable_sort_perm. apply NoDup_remove_dups. Qed.
Lemma ids_sorted_ext l l' : (∀ i, i ∈ l ↔ i ∈ l') → ids_sorted l = ids_sorted l'.
Proof. rewrite !ids_sorted_set. apply (set_of_ext Z.ltb). Qed.

(** ** Deletions *)

Section Partition.
Context (records : list DeletionRecord) (removed : list pydict).

Definition carried (i : Z) : Prop := ∃ row, row ∈ removed ∧ row_route_id row = Some i.
Lemma by_route_id_Some rows i row : by_route_id rows i = Some row → row ∈ rows ∧ row_route_id row = Some i.
Proof. intros [H1 H2%bool_decide_eq_true]%find_last_Some. done. Qed.
Lemma by_route_id_None rows i : by_route_id rows i = None ↔ ∀ row, row ∈ rows → row_route_id row ≠ Some i.
Proof. unfold by_route_id. rewrite find_last_None. split; intros H row Hr; specialize (H row Hr); [by apply bool_decide_eq_false in H|by apply bool_decide_eq_false]. Qed.
Lemma carried_found i : carried i ↔ is_Some (by_route_id removed i).
Proof.
  split.
  - intros (row & H1 & H2). destruct (by_route_id removed i) eqn:E; [by eexists|]. by destruct (proj1 (by_route_id_None _ _) E row H1).
  - intros [row [H1 H2]%by_route_id_Some]. by exists row.
Qed.
Lemma carried_given i : given (by_route_id removed i) = true ↔ carried i.
Proof. rewrite carried_found. destruct (by_route_id removed i); cbn; split; [by eexists|done|done|by intros [? [=]]]. Qed.

(** The rest of a request: records no removed row carries the id of. *)
Definition left_over (r : DeletionRecord) : Prop := r ∈ records ∧ ¬ carried (dr_route_id r).
Definition uncorrelated_row (row : pydict) : Prop := row ∈ removed ∧ row_route_id row = None.
(** A removed row without an id is at a key of the record. *)
Definition at_its_key (r : DeletionRecord) : Prop := ∃ row, uncorrelated_row row ∧ row_key row ∈ dr_triples r.
(** Nobody claims the row. *)
Definition unclaimed (row : pydict) : Prop := uncorrelated_row row ∧ ∀ r, left_over r → row_key row ∉ dr_triples r.

Context (pks : NoDup (map row_pk removed)).
Let p := classify_deletions records removed.

Lemma executed_iff i : i ∈ dp_executed p ↔ (∃ r, r ∈ records ∧ dr_route_id r = i) ∧ carried i.
Proof.
  unfold p, classify_deletions. cbn [dp_executed]. rewrite elem_of_ids_sorted, list_elem_of_fmap. split.
  - intros ([j row] & -> & (r & Hr & E)%list_elem_of_omap). destruct (by_route_id removed (dr_route_id r)) eqn:Eb; [|done]. injection E as <- <-. cbn. split; [eauto|].
    apply carried_found. by rewrite Eb.
  - intros [(r & Hr & <-) [row Eb]%carried_found]. exists (dr_route_id r, row). split; [done|]. apply list_elem_of_omap. exists r. by rewrite Eb.
Qed.
Lemma elem_of_remaining r : r ∈ List.filter (fun r => negb (given (by_route_id removed (dr_route_id r)))) records ↔ left_over r.
Proof. rewrite elem_of_filter_b, negb_true_iff, <-not_true_iff_false, carried_given. done. Qed.
Lemma elem_of_residue row : row ∈ List.filter (fun row => negb (given (row_route_id row))) removed ↔ uncorrelated_row row.
Proof. rewrite elem_of_filter_b. unfold uncorrelated_row. destruct (row_route_id row); cbn; naive_solver. Qed.
Lemma elem_of_class row r : r ∈ List.filter (names_triple (row_key row)) (List.filter (fun r => negb (given (by_route_id removed (dr_route_id r)))) records) ↔
  left_over r ∧ row_key row ∈ dr_triples r.
Proof. rewrite elem_of_filter_b, elem_of_remaining. unfold names_triple. by rewrite bool_decide_eq_true. Qed.
Lemma elem_of_degraded_ids i :
  i ∈ flat_map (fun row => map dr_route_id (List.filter (names_triple (row_key row)) (List.filter (fun r => negb (given (by_route_id removed (dr_route_id r)))) records)))
        (List.filter (fun row => negb (given (row_route_id row))) removed) ↔ ∃ r, left_over r ∧ dr_route_id r = i ∧ at_its_key r.
Proof.
  rewrite list_elem_of_In, in_flat_map. split.
  - intros (row & Hrow & Hi). apply list_elem_of_In, elem_of_residue in Hrow. apply list_elem_of_In, list_elem_of_fmap in Hi as (r & -> & [H1 H2]%elem_of_class).
    exists r. split_and!; [done..|]. by exists row.
  - intros (r & H1 & <- & row & Hrow & Hk). exists row. split; [by apply list_elem_of_In, elem_of_residue|]. apply list_elem_of_In, list_elem_of_fmap_2. by apply elem_of_class.
Qed.
Lemma elem_of_uncorrelated t : t ∈ dp_uncorrelated p ↔ ∃ row, unclaimed row ∧ row_key row = t.
Proof.
  unfold p, classify_deletions. cbn [dp_uncorrelated]. rewrite elem_of_stable_sort, list_elem_of_fmap. split.
  - intros (row & -> & [Hrow Hc]%elem_of_filter_b). apply elem_of_residue in Hrow. exists row. split; [|done]. split; [done|]. intros r Hr Hk.
    apply negb_true_iff, bool_decide_eq_false in Hc. apply Hc. apply list_elem_of_fmap_2. apply elem_of_filter_b. split; [by apply elem_of_residue|].
    apply nonempty_true. exists r. by apply elem_of_class.
  - intros (row & [Hrow Hn] & <-). exists row. split; [done|]. apply elem_of_filter_b. split; [by apply elem_of_residue|]. apply negb_true_iff, bool_decide_eq_false.
    intros (row' & E & [Hr' Hc]%elem_of_filter_b)%list_elem_of_fmap. apply elem_of_residue in Hr'.
    assert (row' = row) as -> by (eapply NoDup_map_inj; [exact pks|apply Hr'|apply Hrow|done]).
    apply nonempty_true in Hc as [r [H1 H2]%elem_of_class]. by eapply Hn.
Qed.
Lemma nonempty_uncorrelated : nonempty (dp_uncorrelated p) = true ↔ ∃ row, unclaimed row.
Proof. rewrite nonempty_true. split; [intros [t (row & H & _)%elem_of_uncorrelated]; eauto|intros [row H]; exists (row_key row); apply elem_of_uncorrelated; eauto]. Qed.

(** A record outside the executed ones is degraded for a key of its own, or because its lineage is not verified and the push
    detached a row nobody claims. *)
Definition conservatively (r : DeletionRecord) : Prop := dr_unverified r = true ∧ ∃ row, unclaimed row.

Context (ids : NoDup (map dr_route_id records)).

Lemma same_record r r' : r ∈ records → r' ∈ records → dr_route_id r = dr_route_id r' → r = r'.
Proof. apply NoDup_map_inj, ids. Qed.
Lemma elem_of_unmatched r :
  r ∈ List.filter (fun r => negb (bool_decide (dr_route_id r ∈ flat_map (fun row => map dr_route_id (List.filter (names_triple (row_key row))
        (List.filter (fun r => negb (given (by_route_id removed (dr_route_id r)))) records))) (List.filter (fun row => negb (given (row_route_id row))) removed))))
        (List.filter (fun r => negb (given (by_route_id removed (dr_route_id r)))) records) ↔ left_over r ∧ ¬ at_its_key r.
Proof.
  rewrite elem_of_filter_b, elem_of_remaining, negb_true_iff, bool_decide_eq_false, elem_of_degraded_ids. split; intros [H1 H2]; (split; [done|]); intros H; apply H2; [by exists r|].
  destruct H as (r' & Hr' & E & Hk). by rewrite (same_record r r' (proj1 H1) (proj1 Hr') (eq_sym E)).
Qed.
Lemma attributed_iff r : dr_unverified r && nonempty (dp_uncorrelated p) = true ↔ conservatively r.
Proof. unfold conservatively. by rewrite andb_true_iff, nonempty_uncorrelated. Qed.

Lemma degraded_iff r : r ∈ records → (dr_route_id r ∈ dp_degraded p ↔ ¬ carried (dr_route_id r) ∧ (at_its_key r ∨ conservatively r)).
Proof.
  intros Hr. unfold p, classify_deletions. cbn [dp_degraded]. rewrite elem_of_ids_sorted, elem_of_app, elem_of_degraded_ids, list_elem_of_fmap. split.
  - intros [(r' & H1 & E & H2)|(r' & E & [H1 H2]%elem_of_filter_b)].
    + rewrite (same_record r r' Hr (proj1 H1) (eq_sym E)) in *. split; [apply H1|by left].
    + apply elem_of_unmatched in H1 as [H1 _]. rewrite (same_record r r' Hr (proj1 H1) E) in *. split; [apply H1|]. right. by apply attributed_iff.
  - intros [Hc H]. destruct (decide (dr_route_id r ∈ flat_map (fun row => map dr_route_id (List.filter (names_triple (row_key row))
        (List.filter (fun r => negb (given (by_route_id removed (dr_route_id r)))) records))) (List.filter (fun row => negb (given (row_route_id row))) removed))) as [Hd|Hd].
    + left. by apply elem_of_degraded_ids.
    + right. exists r. split; [done|]. rewrite elem_of_degraded_ids in Hd. assert (¬ at_its_key r) as Hk by (intros Hk; apply Hd; by exists r).
      apply elem_of_filter_b. split; [by apply elem_of_unmatched|]. apply attributed_iff. by destruct H.
Qed.
Lemma moot_iff r : r ∈ records → (dr_route_id r ∈ dp_moot p ↔ ¬ carried (dr_route_id r) ∧ ¬ at_its_key r ∧ ¬ conservatively r).
Proof.
  intros Hr. unfold p, classify_deletions. cbn [dp_moot]. rewrite elem_of_ids_sorted, list_elem_of_fmap. split.
  - intros (r' & E & [H1 H2]%elem_of_filter_b). apply elem_of_unmatched in H1 as [H1 Hk]. rewrite (same_record r r' Hr (proj1 H1) E) in *.
    split_and!; [apply H1|done|]. rewrite <-attributed_iff. by apply negb_true_iff, not_true_iff_false in H2.
  - intros (Hc & Hk & Hv). exists r. split; [done|]. apply elem_of_filter_b. split; [by apply elem_of_unmatched|]. rewrite <-attributed_iff in Hv. by apply negb_true_iff, not_true_iff_false.
Qed.
Lemma outcome_requested i : i ∈ dp_degraded p ∨ i ∈ dp_moot p → ∃ r, r ∈ records ∧ dr_route_id r = i.
Proof.
  unfold p, classify_deletions. cbn [dp_degraded dp_moot]. rewrite !elem_of_ids_sorted, elem_of_app, elem_of_degraded_ids, !list_elem_of_fmap.
  intros [[(r & [H _] & E & _)|(r & E & [[H _]%elem_of_unmatched _]%elem_of_filter_b)]|(r & E & [[H _]%elem_of_unmatched _]%elem_of_filter_b)]; exists r; (split; [apply H|done]).
Qed.

(** Every requested id has exactly one outcome. *)
Lemma partition_exact : dp_executed p ++ dp_degraded p ++ dp_moot p ≡ₚ map dr_route_id records.
Proof.
  apply NoDup_Permutation; [|exact ids|].
  - assert (∀ i, i ∈ dp_degraded p ∨ i ∈ dp_moot p → i ∉ dp_executed p) as Hd.
    { intros i H. destruct (outcome_requested i H) as (r & Hr & <-). rewrite degraded_iff, moot_iff in H by done. rewrite executed_iff. naive_solver. }
    apply NoDup_app. split_and!; [apply NoDup_ids_sorted|intros i Hi [H|H]%elem_of_app; eapply (Hd i); eauto|].
    apply NoDup_app. split_and!; [apply NoDup_ids_sorted| |apply NoDup_ids_sorted]. intros i Hi Hm.
    destruct (outcome_requested i (or_introl Hi)) as (r & Hr & <-). rewrite degraded_iff in Hi by done. rewrite moot_iff in Hm by done. naive_solver.
  - intros i. rewrite !elem_of_app, list_elem_of_fmap. split.
    + intros [[(r & Hr & <-) _]%executed_iff|H]; [eauto|]. destruct (outcome_requested i H) as (r & Hr & <-). eauto.
    + intros (r & -> & Hr). rewrite executed_iff, degraded_iff, moot_iff by done.
      destruct (by_route_id removed (dr_route_id r)) eqn:E; [left; split; [eauto|apply carried_found; by rewrite E]|]. right.
      assert (¬ carried (dr_route_id r)) as Hc by (rewrite carried_found, E; by intros [? [=]]).
      assert (Decision (at_its_key r)) as [Hk|Hk].
      { destruct (bool_decide (dr_route_id r ∈ flat_map (fun row => map dr_route_id (List.filter (names_triple (row_key row))
          (List.filter (fun r => negb (given (by_route_id removed (dr_route_id r)))) records))) (List.filter (fun row => negb (given (row_route_id row))) removed))) eqn:Eb.
        - left. apply bool_decide_eq_true, elem_of_degraded_ids in Eb as (r' & H1 & E1 & H2). by rewrite (same_record r r' Hr (proj1 H1) (eq_sym E1)).
        - right. intros H. apply bool_decide_eq_false in Eb. apply Eb, elem_of_degraded_ids. by exists r. }
      * left. auto.
      * destruct (dr_unverified r && nonempty (dp_uncorrelated p)) eqn:Eb; [apply attributed_iff in Eb; left; auto|].
        right. split_and!; [done..|]. rewrite <-attributed_iff. congruence.
Qed.
Lemma genuine_marked (route_ids : NoDup (omap row_route_id removed)) row : row ∈ removed →
  (removal_marking p row = DELETE_ORIGIN_MARKING ↔ ∃ r, r ∈ records ∧ row_route_id row = Some (dr_route_id r)).
Proof.
  intros Hrow. assert (row_pk row ∈ dp_genuine p ↔ ∃ r, r ∈ records ∧ row_route_id row = Some (dr_route_id r)) as H.
  { unfold p, classify_deletions. cbn [dp_genuine]. rewrite elem_of_ids_sorted, list_elem_of_fmap. split.
    - intros ([i row'] & E & (r & Hr & Eb)%list_elem_of_omap). destruct (by_route_id removed (dr_route_id r)) as [row2|] eqn:E2; [|done]. injection Eb as <- <-.
      apply by_route_id_Some in E2 as [H2 H3]. cbn in E. assert (row = row2) as -> by (by eapply NoDup_map_inj). by exists r.
    - intros (r & Hr & E). exists (dr_route_id r, row). split; [done|]. apply list_elem_of_omap. exists r. split; [done|].
      assert (by_route_id removed (dr_route_id r) = Some row) as ->; [|done]. apply find_last_unique; [done|by apply bool_decide_eq_true|].
      intros y Hy Hp%bool_decide_eq_true. by eapply NoDup_omap_inj. }
  rewrite <-H. unfold removal_marking. case_bool_decide; split; done.
Qed.
End Partition.

Lemma perm_filter {A} (p : A -> bool) l l' : l ≡ₚ l' → List.filter p l ≡ₚ List.filter p l'.
Proof. induction 1; cbn; repeat case_match; eauto using Permutation. Qed.
Lemma perm_nonempty {A} (l l' : list A) : l ≡ₚ l' → nonempty l = nonempty l'.
Proof. intros H. destruct l, l'; try done; [by apply Permutation_nil_cons in H|by apply Permutation_sym, Permutation_nil_cons in H]. Qed.
Lemma ids_sorted_perm l l' : l ≡ₚ l' → ids_sorted l = ids_sorted l'.
Proof. intros H. apply ids_sorted_ext. intros i. by rewrite H. Qed.

(** The answer does not depend on the order of the request. *)
Lemma partition_order records records' removed : records ≡ₚ records' → classify_deletions records removed = classify_deletions records' removed.
Proof.
  intros H. unfold classify_deletions. cbv zeta.
  set (R := List.filter _ records). set (R' := List.filter _ records'). assert (R ≡ₚ R') as HR by (by apply perm_filter).
  set (residue := List.filter _ removed).
  assert (∀ row, nonempty (List.filter (names_triple (row_key row)) R) = nonempty (List.filter (names_triple (row_key row)) R')) as Hc by (intros row; by apply perm_nonempty, perm_filter).
  assert (List.filter (fun row => nonempty (List.filter (names_triple (row_key row)) R)) residue =
          List.filter (fun row => nonempty (List.filter (names_triple (row_key row)) R')) residue) as -> by (apply filter_ext; exact Hc).
  set (D := flat_map _ residue). set (D' := flat_map (fun row => map dr_route_id (List.filter (names_triple (row_key row)) R')) residue).
  assert (∀ i, i ∈ D ↔ i ∈ D') as HD.
  { intros i. unfold D, D'. rewrite !list_elem_of_In, !in_flat_map. setoid_rewrite <-list_elem_of_In. split; intros (row & H1 & H2); exists row; (split; [done|]);
      by rewrite (perm_filter (names_triple (row_key row)) _ _ HR) in * || by rewrite <-(perm_filter (names_triple (row_key row)) _ _ HR) in *. }
  set (U := List.filter (fun r => negb (bool_decide (dr_route_id r ∈ D))) R). set (U' := List.filter (fun r => negb (bool_decide (dr_route_id r ∈ D'))) R').
  assert (U ≡ₚ U') as HU.
  { unfold U, U'. rewrite (perm_filter _ _ _ HR). rewrite (filter_ext _ (fun r => negb (bool_decide (dr_route_id r ∈ D')))); [done|].
    intros r. f_equal. apply bool_decide_ext, HD. }
  f_equal.
  - apply ids_sorted_perm. apply fmap_Permutation. by apply omap_Permutation.
  - apply ids_sorted_ext. intros i. rewrite !elem_of_app, HD. do 2 f_equiv. by rewrite (perm_filter _ _ _ HU).
  - apply ids_sorted_perm. by rewrite (perm_filter _ _ _ HU).
  - apply ids_sorted_perm. apply fmap_Permutation. by apply omap_Permutation.
Qed.

(** C19: A push answers for every deletion it was asked to make exactly once and in the same way whatever the order of the request: an
    id is executed when a removed row carries it, degraded when a removed row without an id was at one of its keys - or its keys
    are not verified and the push detached a row nobody asked for - and moot otherwise; and a removed row is retracted from the
    device exactly when its own id was requested. *)
Theorem deletions_partitioned records removed : NoDup (map dr_route_id records) → NoDup (map row_pk removed) → NoDup (omap row_route_id removed) →
  let p := classify_deletions records removed in
  dp_executed p ++ dp_degraded p ++ dp_moot p ≡ₚ map dr_route_id records ∧
  (∀ r, r ∈ records → (dr_route_id r ∈ dp_executed p ↔ carried removed (dr_route_id r)) ∧
     (dr_route_id r ∈ dp_degraded p ↔ ¬ carried removed (dr_route_id r) ∧ (at_its_key removed r ∨ conservatively records removed r))) ∧
  (∀ row, row ∈ removed → (removal_marking p row = DELETE_ORIGIN_MARKING ↔ ∃ r, r ∈ records ∧ row_route_id row = Some (dr_route_id r))) ∧
  (∀ row, row ∈ removed → row_route_id row = None →
     row_key row ∈ dp_uncorrelated p ∨ ∃ r, r ∈ records ∧ row_key row ∈ dr_triples r ∧ dr_route_id r ∈ dp_degraded p) ∧
  (∀ records', records ≡ₚ records' → classify_deletions records' removed = p).
Proof.
  intros Hids Hpks Hr p. split_and!.
  - by apply partition_exact.
  - intros r Hin. split; [|by apply degraded_iff]. unfold p. rewrite executed_iff. split; [by intros [_ H]|]. intros H. split; [by exists r|done].
  - intros row Hrow. by apply genuine_marked.
  - intros row Hrow Hn. destruct (nonempty (List.filter (names_triple (row_key row)) (List.filter (fun r => negb (given (by_route_id removed (dr_route_id r)))) records))) eqn:E.
    + right. apply nonempty_true in E as [r [Hl Hk]%elem_of_class]. exists r. split_and!; [apply Hl|done|]. apply degraded_iff; [done..|apply Hl|]. split; [apply Hl|].
      left. by exists row.
    + left. apply elem_of_uncorrelated; [done|]. exists row. split; [|done]. split; [done|]. intros r Hl Hk.
      apply not_true_iff_false in E. apply E, nonempty_true. exists r. by apply elem_of_class.
  - intros records' H. symmetry. by apply partition_order.
Qed.

(** ** Matching *)

Section Matching.
Context (existing : list pydict) (routes : list RouteEntry).
Context (pks : NoDup (map row_pk existing)) (row_ids : NoDup (omap row_route_id existing)).
Context (keys : NoDup (map re_key routes)) (entry_ids : NoDup (omap re_route_id routes)).

(** An entry may take a row: not one that belongs to another route. *)
Definition fits (item : RouteEntry) (row : pydict) : Prop :=
  row ∈ existing ∧ (re_route_id item = row_route_id row ∨ (re_route_id item = None ∨ row_route_id row = None) ∧ row_key row = re_key item).

Lemma match_by_id_Some item row : match_by_id existing item = Some row → row ∈ existing ∧ ∃ i, re_route_id item = Some i ∧ row_route_id row = Some i.
Proof. unfold match_by_id. destruct (re_route_id item) as [i|]; [|done]. intros [H1 H2]%by_route_id_Some. eauto. Qed.

Lemma match_by_triple_spec pairs claimed l c : match_by_triple existing pairs claimed = (l, c) →
  ∃ adopted, c ≡ₚ adopted ++ claimed ∧ map row_pk (omap id l) ≡ₚ adopted ++ map row_pk (omap snd pairs) ∧ (NoDup claimed → NoDup c) ∧
    Forall2 (fun io o => match io.2 with
                         | Some row => o = Some row
                         | None => match o with
                                   | Some row => row ∈ existing ∧ row_key row = re_key io.1 ∧ (re_route_id io.1 = None ∨ row_route_id row = None)
                                   | None => True
                                   end
                         end) pairs l.
Proof.
  revert claimed l c. induction pairs as [|[item [row|]] pairs IH]; intros claimed l c; cbn [match_by_triple].
  - intros [= <- <-]. exists []. split_and!; done.
  - destruct (match_by_triple existing pairs claimed) as [l' c'] eqn:E. intros [= <- <-]. apply IH in E as (ad & H1 & H2 & H3 & H4). exists ad. split_and!; [done| |done|by constructor].
    cbn. rewrite H2. apply Permutation_middle.
  - set (adopted := match by_triple existing (re_key item) with Some row => _ | None => None end).
    destruct (match_by_triple existing pairs _) as [l' c'] eqn:E. intros [= <- <-]. apply IH in E as (ad & H1 & H2 & H3 & H4).
    assert (∀ row, adopted = Some row → row ∈ existing ∧ row_key row = re_key item ∧ row_pk row ∉ claimed ∧ (re_route_id item = None ∨ row_route_id row = None)) as Ha.
    { unfold adopted. intros row. destruct (by_triple existing (re_key item)) as [r|] eqn:Eb; [|done]. apply find_last_Some in Eb as [Hin Hk%bool_decide_eq_true].
      destruct (bool_decide _) eqn:Ec; [done|]. cbn [orb]. destruct (given (re_route_id item)) eqn:E1, (given (row_route_id r)) eqn:E2; cbn [andb]; [done|..]; intros [= <-];
        apply bool_decide_eq_false in Ec; (split_and!; [done..|]); destruct (re_route_id item), (row_route_id r); try done; auto. }
    destruct adopted as [row|] eqn:Ead.
    + destruct (Ha row eq_refl) as (Hin & Hk & Hn & Hf). exists (row_pk row :: ad). split_and!.
      * rewrite H1. symmetry. apply Permutation_middle.
      * cbn. by rewrite H2.
      * intros Hc. apply H3. by constructor.
      * constructor; [done|exact H4].
    + exists ad. split_and!; [done|done|done|by constructor].
Qed.

Definition matched : list (option pydict) := (match_payload_to_rows routes existing).1.
Definition unmatched_rows : list pydict := (match_payload_to_rows routes existing).2.

Lemma zip_snd {A B} (l : list A) (m : list B) : length l = length m → map snd (zip l m) = m.
Proof. revert m. induction l as [|x l IH]; intros [|y m]; cbn; intros H; try done. f_equal. apply IH. lia. Qed.
Lemma omap_map {A B C} (f : A -> B) (g : B -> option C) l : omap g (map f l) = omap (g ∘ f) l.
Proof. induction l as [|x l IH]; [done|]. cbn. destruct (g (f x)); by rewrite IH. Qed.

Lemma first_claims : NoDup (map row_pk (omap id (map (match_by_id existing) routes))).
Proof.
  clear keys. induction routes as [|item l IH]; [constructor|]. cbn in entry_ids |- *.
  assert (NoDup (omap re_route_id l)) as Hn by (destruct (re_route_id item); [by apply NoDup_cons in entry_ids as [_ ?]|done]).
  specialize (IH Hn). destruct (match_by_id existing item) as [row|] eqn:E; cbn; [|exact IH]. constructor; [|exact IH].
  apply match_by_id_Some in E as (Hin & i & Ei & Er). intros (row' & Ep & H)%list_elem_of_fmap. apply list_elem_of_omap in H as ([row2|] & H2 & E2); [|done]. unfold id in E2. injection E2 as ->.
  apply list_elem_of_fmap in H2 as (item' & E' & Hi'). symmetry in E'. apply match_by_id_Some in E' as (Hin' & j & Ej & Er').
  assert (row = row') as -> by (by apply (NoDup_map_inj row_pk existing)). rewrite Er in Er'. injection Er' as ->. rewrite Ei in entry_ids. apply NoDup_cons in entry_ids as [Hx _].
  apply Hx, list_elem_of_omap. by exists item'.
Qed.

Lemma matching :
  Forall2 (fun item o => match o with
                         | Some row => fits item row
                         | None => match_by_id existing item = None
                         end ∧ (∀ row, match_by_id existing item = Some row → o = Some row)) routes matched ∧
  NoDup (map row_pk (omap id matched)) ∧
  unmatched_rows = List.filter (fun r => negb (bool_decide (row_pk r ∈ map row_pk (omap id matched)))) existing.
Proof.
  unfold matched, unmatched_rows, match_payload_to_rows. destruct (match_by_triple existing _ _) as [l c] eqn:E. cbn [fst snd].
  apply match_by_triple_spec in E as (ad & H1 & H2 & H3 & H4).
  assert (omap snd (zip routes (map (match_by_id existing) routes)) = omap id (map (match_by_id existing) routes)) as Hs.
  { rewrite <-(zip_snd routes (map (match_by_id existing) routes)) at 2 by (by rewrite length_map). by rewrite omap_map. }
  rewrite Hs in H2. assert (c ≡ₚ map row_pk (omap id l)) as Hc by (by rewrite H1, H2). split_and!.
  - clear -H4. remember (map (match_by_id existing) routes) as first eqn:Ef. revert l first H4 Ef. induction routes as [|item rs IH]; intros l first H4 ->.
    { inversion H4. constructor. }
    cbn in H4. inversion H4 as [|x y xs ys Hxy Hrest]; subst. constructor; [|by eapply IH]. cbn in Hxy. destruct (match_by_id existing item) as [row|] eqn:E.
    + subst y. split; [|by intros ? [= <-]]. apply match_by_id_Some in E as (Hin & i & E1 & E2). split; [done|]. left. congruence.
    + split; [|done]. destruct y as [row|]; [|done]. destruct Hxy as (? & ? & ?). split; [done|]. right. done.
  - rewrite <-Hc. apply H3, first_claims.
  - apply filter_ext. intros r. f_equal. apply bool_decide_ext. by rewrite Hc.
Qed.

(** No entry brings a route id that another stored route carries. *)
Lemma fresh_id item i row : item ∈ routes → re_route_id item = Some i → row ∈ existing → row_route_id row = Some i → match_by_id existing item = Some row.
Proof.
  intros Hin E Hrow Er. unfold match_by_id. rewrite E. apply find_last_unique; [done|by apply bool_decide_eq_true|].
  intros y Hy Hp%bool_decide_eq_true. by eapply NoDup_omap_inj.
Qed.
End Matching.

(** ** Positions *)

Lemma NoDup_omap_lookup {A B} (f : A -> option B) l :
  (∀ i j x y b, l !! i = Some x → l !! j = Some y → f x = Some b → f y = Some b → i = j) → NoDup (omap f l).
Proof.
  induction l as [|z l IH]; intros H; cbn; [constructor|].
  assert (NoDup (omap f l)) as Hn by (apply IH; intros i j x y b Hi Hj Ex Ey; enough (S i = S j) by lia; by apply (H (S i) (S j) x y b)).
  destruct (f z) as [b|] eqn:E; [|done]. constructor; [|done]. intros (y & [j Hj]%list_elem_of_lookup & Ey)%list_elem_of_omap. by specialize (H 0%nat (S j) z y b eq_refl Hj E Ey).
Qed.
Lemma NoDup_omap_position {A B} (f : A -> option B) l i j x y b : NoDup (omap f l) →
  l !! i = Some x → l !! j = Some y → f x = Some b → f y = Some b → i = j.
Proof.
  revert i j. induction l as [|z l IH]; intros i j; [done|]. cbn. intros Hn Hi Hj Ex Ey.
  destruct i as [|i], j as [|j]; cbn in Hi, Hj; [done| | |].
  - injection Hi as <-. rewrite Ex in Hn. apply NoDup_cons in Hn as [Hz _]. exfalso. apply Hz, list_elem_of_omap. exists y. split; [by eapply list_elem_of_lookup_2|done].
  - injection Hj as <-. rewrite Ey in Hn. apply NoDup_cons in Hn as [Hz _]. exfalso. apply Hz, list_elem_of_omap. exists x. split; [by eapply list_elem_of_lookup_2|done].
  - f_equal. apply IH; [|done..]. destruct (f z); [by apply NoDup_cons in Hn as [_ ?]|done].
Qed.
Lemma pks_of_matched (l : list (option pydict)) : map row_pk (omap id l) = omap (fmap row_pk) l.
Proof. induction l as [|[r|] l IH]; cbn; [done|by rewrite IH|done]. Qed.

Section Claims.
Context (existing : list pydict) (routes : list RouteEntry).
Context (pks : NoDup (map row_pk existing)) (row_ids : NoDup (omap row_route_id existing)) (entry_ids : NoDup (omap re_route_id routes)).

(** The route ids the push leaves are distinct. *)
Lemma claimants_distinct : NoDup (omap (fun io => claimant io.1 io.2) (zip routes (matched existing routes))).
Proof.
  destruct (matching existing routes pks entry_ids) as (HF & Hn & _). rewrite pks_of_matched in Hn.
  assert (∀ i item o, zip routes (matched existing routes) !! i = Some (item, o) →
    routes !! i = Some item ∧ matched existing routes !! i = Some o ∧
    match o with Some row => fits existing item row | None => match_by_id existing item = None end ∧ (∀ row, match_by_id existing item = Some row → o = Some row)) as Hz.
  { intros i item o H. rewrite lookup_zip_with in H. destruct (routes !! i) as [item'|] eqn:E1; [|done]. destruct (matched existing routes !! i) as [o'|] eqn:E2; [|done].
    injection H as <- <-. split_and!; [done..| |]; by destruct (Forall2_lookup_lr _ _ _ _ _ _ HF E1 E2). }
  assert (∀ i j ii oi ij rj k, zip routes (matched existing routes) !! i = Some (ii, oi) → zip routes (matched existing routes) !! j = Some (ij, Some rj) →
    re_route_id ii = Some k → row_route_id rj = Some k → i = j) as Hmix.
  { intros i j ii oi ij rj k Hi Hj E1 E2. apply Hz in Hi as (R1 & M1 & _ & F1), Hj as (R2 & M2 & [F2 _] & _).
    assert (oi = Some rj) as -> by (apply F1; eapply fresh_id; try done; by eapply list_elem_of_lookup_2).
    by eapply (NoDup_omap_position (fmap row_pk)); [exact Hn|exact M1|exact M2|..]. }
  apply NoDup_omap_lookup. intros i j [ii oi] [ij oj] k Hi Hj E1 E2. cbn [fst snd] in E1, E2. unfold claimant in E1, E2.
  destruct (re_route_id ii) as [k1|] eqn:K1, (re_route_id ij) as [k2|] eqn:K2.
  - injection E1 as ->. injection E2 as ->. apply Hz in Hi as (R1 & _), Hj as (R2 & _). by eapply (NoDup_omap_position re_route_id routes).
  - injection E1 as ->. destruct oj as [rj|]; [|done]. by eapply Hmix.
  - injection E2 as ->. destruct oi as [ri|]; [|done]. symmetry. by eapply Hmix.
  - destruct oi as [ri|]; [|done]. destruct oj as [rj|]; [|done]. apply Hz in Hi as (_ & M1 & [F1 _] & _), Hj as (_ & M2 & [F2 _] & _).
    assert (ri = rj) as -> by (eapply (NoDup_omap_inj row_route_id existing); [exact row_ids|exact F1|exact F2|exact E1|exact E2]).
    by eapply (NoDup_omap_position (fmap row_pk)); [exact Hn|exact M1|exact M2|..].
Qed.
End Claims.

(** The guard on the planned outcome never fires: two entries cannot claim one key once the body's own repetitions are refused. *)
Lemma double_claim_unreachable routes l : NoDup (map re_key routes) → reject_double_claimed_triple routes l = Ok tt.
Proof.
  intros Hk. unfold reject_double_claimed_triple, guard_or. destruct (double_claimed_triple _) eqn:E; [|done]. exfalso.
  unfold double_claimed_triple in E. apply existsb_exists in E as ([t o] & Hi & E). apply existsb_exists in E as ([t' o'] & Hj & E). cbn [fst snd] in E.
  destruct o as [i|]; [|done]. destruct o' as [j|]; [|done]. apply andb_true_iff in E as [->%bool_decide_eq_true E%negb_true_iff%bool_decide_eq_false]. apply E.
  apply list_elem_of_In, list_elem_of_lookup in Hi as [a Ha], Hj as [b Hb]. unfold planned_claims in Ha, Hb. rewrite lookup_zip_with in Ha, Hb.
  destruct (routes !! a) as [ia|] eqn:Ra; [|done]. destruct (routes !! b) as [ib|] eqn:Rb; [|done]. cbn in Ha, Hb.
  destruct (l !! a) as [oa|] eqn:Ma; [|done]. destruct (l !! b) as [ob|] eqn:Mb; [|done]. cbn in Ha, Hb. injection Ha as Ka Ea. injection Hb as Kb Eb.
  assert (a = b) as -> by (eapply (NoDup_lookup (map re_key routes)); [done|by rewrite list_lookup_fmap, Ra|rewrite list_lookup_fmap, Rb; cbn; congruence]). congruence.
Qed.

(** ** Writing *)

Lemma get_update_last row f (e : pydict) : f ∉ dict_keys e → get (dict_update row e) f = get row f.
Proof.
  revert row. induction e as [|[k' v'] e IH]; intros row; [done|]. cbn [dict_keys map fst]. intros [H1 H2]%not_elem_of_cons.
  change (dict_update row ((k', v') :: e)) with (dict_update (dict_set row k' v') e). rewrite IH by done. by rewrite get_set, decide_False.
Qed.
Lemma get_update row e f : NoDup (dict_keys e) → get (dict_update row e) f = match dict_get e f with Some v => v | None => get row f end.
Proof.
  revert row. induction e as [|[k v] e IH]; intros row; [done|]. cbn [dict_keys map]. intros [Hk Hn]%NoDup_cons. cbn [dict_get fst snd].
  change (dict_update row ((k, v) :: e)) with (dict_update (dict_set row k v) e). destruct (decide (f = k)) as [->|Hne].
  - rewrite get_update_last by done. by rewrite get_set, decide_True.
  - rewrite IH by done. destruct (dict_get e f); [done|]. by rewrite get_set, decide_False.
Qed.
Lemma dict_get_unique (e : pydict) f v : NoDup (dict_keys e) → (f, v) ∈ e → dict_get e f = Some v.
Proof.
  induction e as [|[k w] e IH]; cbn; [intros _ H; by apply elem_of_nil in H|]. intros [Hk Hn]%NoDup_cons [[= -> ->]|H]%elem_of_cons; [by rewrite decide_True|].
  rewrite decide_False; [by apply IH|]. intros ->. apply Hk. apply list_elem_of_fmap. by exists (k, v).
Qed.

Lemma entry_columns_keys now item : NoDup (dict_keys (entry_columns now item)).
Proof. unfold entry_columns. destruct (re_route_id item), (re_generation item); apply (bool_decide_unpack _); vm_compute; exact I. Qed.
Lemma written_key now item row : row_key (dict_update row (entry_columns now item)) = re_key item.
Proof.
  unfold row_key. rewrite !get_update by apply entry_columns_keys. unfold entry_columns. destruct (re_key item) as [[a b] c], (re_route_id item), (re_generation item); reflexivity.
Qed.
Lemma written_route_id now item row :
  row_route_id (dict_update row (entry_columns now item)) = match re_route_id item with Some i => Some i | None => row_route_id row end.
Proof.
  unfold row_route_id. rewrite get_update by apply entry_columns_keys. unfold entry_columns. destruct (re_route_id item), (re_generation item); reflexivity.
Qed.
Lemma written_other now item row f : f ∈ ["id"; "device_id"; "deployed_key"; "pending_clear"] → get (dict_update row (entry_columns now item)) f = get row f.
Proof.
  intros Hf. rewrite get_update by apply entry_columns_keys. unfold entry_columns.
  repeat (apply elem_of_cons in Hf as [->|Hf]; [destruct (re_route_id item), (re_generation item); reflexivity|]). by apply elem_of_nil in Hf.
Qed.

(** What an entry's row holds. *)
Record written_for (dev now next : Z) (item : RouteEntry) (o : option pydict) (w : pydict) : Prop := {
  wf_key : row_key w = re_key item;
  wf_route_id : row_route_id w = claimant item o;
  wf_columns f v : (f, v) ∈ entry_columns now item → get w f = v;
  wf_device : get w "device_id" = match o with Some row => get row "device_id" | None => JInt dev end;
  wf_place : match o with Some row => get w "id" = get row "id" ∧ get w "deployed_key" = get row "deployed_key" | None => next <= row_pk w end }.

Definition carrier_ok (row : pydict) : Prop :=
  is_ok (carrier_half (get row "pending_clear") AUTHORIZED) = true ∧ is_ok (carrier_half (get row "pending_clear") STORE_ONLY) = true.

Lemma pending_clear_free now item : "pending_clear" ∉ dict_keys (entry_columns now item).
Proof. unfold entry_columns. destruct (re_route_id item), (re_generation item); apply (bool_decide_unpack _); vm_compute; exact I. Qed.

Lemma update_route_spec dev now next so item row : carrier_ok row →
  ∃ w here, update_route now so item row = Ok (w, here) ∧ written_for dev now next item (Some row) w ∧ row_pk w = row_pk row.
Proof.
  intros [H1 H2]. unfold update_route. set (after := dict_update row _). set (cleared := List.filter _ SR_CLEAR_FIELDS). set (reset := List.filter _ SR_CLEAR_FIELDS).
  assert (∃ c, update_pending_clear (get row "pending_clear") cleared reset so = Ok c) as [c Hc].
  { unfold update_pending_clear. destruct (carrier_half _ AUTHORIZED); [|done]. destruct (carrier_half _ STORE_ONLY); [|done]. by eexists. }
  rewrite Hc. cbn [mbind res_bind]. eexists _, _. split; [reflexivity|].
  assert (∀ f, f ≠ "pending_clear" → get (dict_set after "pending_clear" c) f = get after f) as Hg by (intros f Hf; by rewrite get_set, decide_False).
  split; [split|].
  - unfold row_key. rewrite !Hg by done. apply (written_key now item row).
  - unfold row_route_id. rewrite Hg by done. apply (written_route_id now item row).
  - intros f v Hin. rewrite Hg; [|intros ->; apply (pending_clear_free now item), list_elem_of_fmap; by exists ("pending_clear", v)].
    unfold after. rewrite get_update by apply entry_columns_keys. by rewrite (dict_get_unique _ f v (entry_columns_keys now item)).
  - rewrite Hg by done. apply written_other. rewrite !elem_of_cons. tauto.
  - rewrite !Hg by done. split; apply written_other; rewrite !elem_of_cons; tauto.
  - unfold row_pk. rewrite Hg by done. f_equal. apply written_other. rewrite !elem_of_cons. tauto.
Qed.
Lemma new_route_spec dev now next item : written_for dev now next item None (new_route dev now next item) ∧ row_pk (new_route dev now next item) = next.
Proof.
  unfold new_route. match goal with |- context [dict_update ?r _] => set (row := r) end.
  assert (row_pk (dict_update row (entry_columns now item)) = next) as Hp by (unfold row_pk; rewrite written_other by (rewrite !elem_of_cons; tauto); reflexivity).
  split; [split|exact Hp].
  - apply written_key.
  - rewrite written_route_id. unfold claimant. by destruct (re_route_id item).
  - intros f v Hin. rewrite get_update by apply entry_columns_keys. by rewrite (dict_get_unique _ f v (entry_columns_keys now item)).
  - by rewrite written_other by (rewrite !elem_of_cons; tauto).
  - rewrite Hp. lia.
Qed.
Lemma written_earlier dev now a b item o w : a <= b → written_for dev now b item o w → written_for dev now a item o w.
Proof. intros Hab [H1 H2 H3 H4 H5]. split; try done. destruct o; [done|lia]. Qed.

Lemma write_routes_spec dev now so pairs next : Forall (fun io => match io.2 with Some row => carrier_ok row | None => True end) pairs →
  ∃ written next' cleared fresh, write_routes dev now so pairs next = Ok (written, next', cleared) ∧ next <= next' ∧
    Forall2 (fun io w => written_for dev now next io.1 io.2 w) pairs written ∧
    map row_pk written ≡ₚ map row_pk (omap snd pairs) ++ fresh ∧ NoDup fresh ∧ Forall (fun i => next <= i < next') fresh.
Proof.
  intros H. revert next. induction H as [|[item [row|]] pairs Hrow _ IH]; intros next; cbn [write_routes].
  - exists [], next, false, []. split_and!; [done|lia|constructor|done|constructor|constructor].
  - destruct (update_route_spec dev now next so item row Hrow) as (w & here & -> & Hw & Hp). cbn [mbind res_bind].
    destruct (IH next) as (written & next' & cleared & fresh & -> & Hle & HF & Hpk & Hn & Hf). cbn [mbind res_bind].
    exists (w :: written), next', (here || cleared), fresh. split_and!; [done|done|by constructor| |done|done]. cbn. rewrite Hp. by constructor.
  - destruct (IH (next + 1)) as (written & next' & cleared & fresh & -> & Hle & HF & Hpk & Hn & Hf). cbn [mbind res_bind].
    destruct (new_route_spec dev now next item) as [Hw Hp]. exists (new_route dev now next item :: written), next', cleared, (next :: fresh). split_and!; [done|lia| | | |].
    + constructor; [done|]. eapply Forall2_impl; [exact HF|]. intros x y Hxy. apply (written_earlier dev now next (next + 1)); [lia|exact Hxy].
    + change (row_pk (new_route dev now next item) :: map row_pk written ≡ₚ map row_pk (omap snd pairs) ++ next :: fresh). rewrite Hp, Hpk. apply Permutation_middle.
    + constructor; [|done]. intros Hin. pose proof (proj1 (Forall_forall _ _) Hf next Hin) as Hx. cbn in Hx. lia.
    + constructor; [lia|]. eapply Forall_impl; [exact Hf|]. cbn. lia.
Qed.

(** ** The table *)

Lemma omap_snd_zip {A B} (l : list A) (m : list (option B)) : length l = length m → omap snd (zip l m) = omap id m.
Proof. intros H. rewrite <-(zip_snd l m H) at 2. by rewrite omap_map. Qed.
Lemma NoDup_map_filter {A B} (f : A -> B) p l : NoDup (map f l) → NoDup (map f (List.filter p l)).
Proof.
  induction l as [|x l IH]; cbn; [done|]. intros [Hx Hn]%NoDup_cons. destruct (p x); cbn; [|by apply IH]. constructor; [|by apply IH].
  intros (y & E & [Hy _]%elem_of_filter_b)%list_elem_of_fmap. apply Hx. rewrite E. by apply list_elem_of_fmap_2.
Qed.
Lemma filter_map_kept {A} (p keep : A -> bool) (g : A -> A) l :
  (∀ x, x ∈ l → p x = true → keep x = true ∧ g x = x) → (∀ x, x ∈ l → p x = false → p (g x) = false) →
  List.filter p (map g (List.filter keep l)) = List.filter p l.
Proof.
  induction l as [|x l IH]; intros H1 H2; [done|]. cbn. destruct (p x) eqn:E.
  - destruct (H1 x (list_elem_of_here _ _) E) as [-> Hg]. cbn. rewrite Hg, E. f_equal. apply IH; intros y Hy; [apply H1|apply H2]; by right.
  - assert (List.filter p (map g (List.filter keep l)) = List.filter p l) as Hl by (apply IH; intros y Hy; [apply H1|apply H2]; by right).
    destruct (keep x); [|done]. cbn. by rewrite (H2 x (list_elem_of_here _ _) E).
Qed.

Section Flush.
Context (dev now next : Z) (so : bool) (table existing : list pydict) (routes : list RouteEntry).
Context (Hexisting : existing ≡ₚ List.filter (of_device dev) table) (Hpks : NoDup (map row_pk table)) (Hnext : Forall (fun r => row_pk r < next) table).
Context (Hids : NoDup (omap row_route_id existing)) (Hcarriers : Forall carrier_ok existing) (Hbody : reject_payload_duplicates routes = Ok tt).

Lemma body_keys : NoDup (map re_key routes) ∧ NoDup (omap re_route_id routes).
Proof.
  pose proof Hbody as H. unfold reject_payload_duplicates in H. apply bind_Ok in H as ([] & H1%guard_or_Ok%bool_decide_eq_true & H2%guard_or_Ok%bool_decide_eq_true). done.
Qed.
Lemma elem_of_existing r : r ∈ existing ↔ r ∈ table ∧ of_device dev r = true.
Proof. rewrite Hexisting. apply elem_of_filter_b. Qed.
Lemma existing_pks : NoDup (map row_pk existing).
Proof. rewrite Hexisting. by apply NoDup_map_filter. Qed.
Lemma same_row r r' : r ∈ table → r' ∈ table → row_pk r = row_pk r' → r = r'.
Proof. by apply NoDup_map_inj. Qed.

Let pairs := zip routes (matched existing routes).
Lemma matched_length : length routes = length (matched existing routes).
Proof. destruct (matching existing routes existing_pks (proj2 body_keys)) as (HF & _ & _). by eapply Forall2_length. Qed.
Lemma pair_row item row : (item, Some row) ∈ pairs → fits existing item row.
Proof.
  intros [i Hi]%list_elem_of_lookup. unfold pairs in Hi. rewrite lookup_zip_with in Hi. destruct (matching existing routes existing_pks (proj2 body_keys)) as (HF & _ & _).
  destruct (routes !! i) eqn:E1; [|done]. destruct (matched existing routes !! i) eqn:E2; [|done]. injection Hi as -> ->.
  by destruct (Forall2_lookup_lr _ _ _ _ _ _ HF E1 E2).
Qed.
Lemma matched_pks_below i : i ∈ map row_pk (omap snd pairs) → i < next.
Proof.
  intros (row & -> & ([item o] & Hin & E)%list_elem_of_omap)%list_elem_of_fmap. cbn in E. subst o. apply pair_row in Hin as [Hrow _].
  apply elem_of_existing in Hrow as [Hrow _]. exact (proj1 (Forall_forall _ _) Hnext row Hrow).
Qed.

Context (written : list pydict) (next' : Z) (fresh : list Z).
Context (Hwritten : Forall2 (fun io w => written_for dev now next io.1 io.2 w) pairs written) (Hle : next <= next').
Context (Hperm : map row_pk written ≡ₚ map row_pk (omap snd pairs) ++ fresh) (Hfresh : NoDup fresh) (Hrange : Forall (fun i => next <= i < next') fresh).

Lemma fresh_range i : i ∈ fresh → next <= i < next'.
Proof. intros H. exact (proj1 (Forall_forall _ _) Hrange i H). Qed.
Lemma written_pks : NoDup (map row_pk written).
Proof.
  rewrite Hperm. apply NoDup_app. split_and!; [|intros i Hi Hf; apply matched_pks_below in Hi; apply fresh_range in Hf; lia|done].
  unfold pairs. rewrite omap_snd_zip by apply matched_length. by destruct (matching existing routes existing_pks (proj2 body_keys)) as (_ & H & _).
Qed.
Lemma written_of item o : (item, o) ∈ pairs → ∃ w, w ∈ written ∧ written_for dev now next item o w.
Proof. intros [i Hi]%list_elem_of_lookup. destruct (Forall2_lookup_l _ _ _ _ _ Hwritten Hi) as (w & Hw & H). exists w. split; [by eapply list_elem_of_lookup_2|done]. Qed.
Lemma written_from w : w ∈ written → ∃ item o, (item, o) ∈ pairs ∧ written_for dev now next item o w.
Proof. intros [i Hi]%list_elem_of_lookup. destruct (Forall2_lookup_r _ _ _ _ _ Hwritten Hi) as ([item o] & Hio & H). exists item, o. split; [by eapply list_elem_of_lookup_2|done]. Qed.
Lemma written_pk item row w : written_for dev now next item (Some row) w → row_pk w = row_pk row.
Proof. intros [_ _ _ _ [H _]]. unfold row_pk. by rewrite H. Qed.
Lemma written_device w : w ∈ written → of_device dev w = true.
Proof.
  intros (item & o & Hin & Hw)%written_from. unfold of_device. rewrite (wf_device _ _ _ _ _ _ Hw). destruct o as [row|]; [|cbn; apply Z.eqb_refl].
  apply pair_row in Hin as [Hrow _]. by apply elem_of_existing in Hrow as [_ ?].
Qed.

Let place r := default r (find_last (fun w => row_pk w =? row_pk r) written).
Lemma place_pk r : row_pk (place r) = row_pk r.
Proof. unfold place. destruct (find_last _ written) as [w|] eqn:E; [|done]. apply find_last_Some in E as [_ E%Z.eqb_eq]. done. Qed.
Lemma place_written w r : w ∈ written → row_pk w = row_pk r → place r = w.
Proof.
  intros Hw Hp. unfold place. rewrite (find_last_unique _ written w); [done|done|by apply Z.eqb_eq|]. intros y Hy E%Z.eqb_eq.
  eapply (NoDup_map_inj row_pk written); [apply written_pks|done|done|congruence].
Qed.
(** Rows of other devices are not written. *)
Lemma place_other r : r ∈ table → of_device dev r = false → place r = r.
Proof.
  intros Hr Hd. unfold place. assert (find_last (fun w => row_pk w =? row_pk r) written = None) as ->; [|done]. apply find_last_None. intros w Hw. apply Z.eqb_neq. intros E.
  apply written_from in Hw as (item & [row|] & Hin & Hf).
  - apply pair_row in Hin as [[Hrow Hdev]%elem_of_existing _]. rewrite (written_pk _ _ _ Hf) in E. rewrite (same_row row r Hrow Hr E) in Hdev. congruence.
  - pose proof (wf_place _ _ _ _ _ _ Hf) as H. cbn in H. pose proof (proj1 (Forall_forall _ _) Hnext r Hr) as H'. cbn in H'. lia.
Qed.

Let removed := unmatched_rows existing routes.
Lemma kept_iff r : r ∈ table →
  negb (bool_decide (row_pk r ∈ map row_pk removed)) = negb (of_device dev r) || bool_decide (row_pk r ∈ map row_pk (omap snd pairs)).
Proof.
  intros Hr. destruct (matching existing routes existing_pks (proj2 body_keys)) as (_ & _ & Hu). fold removed in Hu.
  assert (row_pk r ∈ map row_pk removed ↔ of_device dev r = true ∧ row_pk r ∉ map row_pk (omap snd pairs)) as H.
  { unfold pairs. rewrite omap_snd_zip by apply matched_length. rewrite Hu. split.
    - intros (r' & E & [Hr' Hn]%elem_of_filter_b)%list_elem_of_fmap. apply negb_true_iff, bool_decide_eq_false in Hn. apply elem_of_existing in Hr' as [Hr' Hd].
      rewrite (same_row r r' Hr Hr' E). split; [done|]. by rewrite <-(same_row r r' Hr Hr' E), E.
    - intros [Hd Hn]. apply list_elem_of_fmap_2, elem_of_filter_b. split; [by apply elem_of_existing|]. by apply negb_true_iff, bool_decide_eq_false. }
  apply eq_true_iff_eq. rewrite negb_true_iff, bool_decide_eq_false, orb_true_iff, negb_true_iff, bool_decide_eq_true, H.
  destruct (of_device dev r), (decide (row_pk r ∈ map row_pk (omap snd pairs))); naive_solver.
Qed.

Let table' := flush_routes table removed written next.
Lemma elem_of_table' x : x ∈ table' ↔ (∃ r, r ∈ table ∧ negb (bool_decide (row_pk r ∈ map row_pk removed)) = true ∧ x = place r) ∨ x ∈ written ∧ next <= row_pk x.
Proof.
  unfold table', flush_routes. rewrite elem_of_app, list_elem_of_fmap. setoid_rewrite elem_of_filter_b. rewrite Z.leb_le. naive_solver.
Qed.
Lemma table'_pks : NoDup (map row_pk table').
Proof.
  unfold table', flush_routes. rewrite map_app, map_map. apply NoDup_app. split_and!.
  - rewrite (map_ext _ row_pk) by (intros r; apply place_pk). by apply NoDup_map_filter.
  - intros i (r & -> & [Hr _]%elem_of_filter_b)%list_elem_of_fmap (w & E & [_ Hw%Z.leb_le]%elem_of_filter_b)%list_elem_of_fmap.
    pose proof (proj1 (Forall_forall _ _) Hnext r Hr) as H. cbn in H. fold (place r) in E. rewrite place_pk in E. lia.
  - apply NoDup_map_filter, written_pks.
Qed.
Lemma table'_device : List.filter (of_device dev) table' ≡ₚ written.
Proof.
  apply NoDup_Permutation; [eapply NoDup_fmap_1, NoDup_map_filter, table'_pks|eapply NoDup_fmap_1, written_pks|]. intros x. rewrite elem_of_filter_b, elem_of_table'. split.
  - intros [[(r & Hr & Hk & ->)|[Hw _]] Hd]; [|done]. rewrite kept_iff in Hk by done. apply orb_true_iff in Hk as [Hk%negb_true_iff|Hk%bool_decide_eq_true].
    + rewrite (place_other r Hr Hk) in Hd. congruence.
    + apply list_elem_of_fmap in Hk as (row & E & ([item o] & Hin & Eo)%list_elem_of_omap). cbn in Eo. subst o.
      destruct (written_of _ _ Hin) as (w & Hw & Hf). rewrite (place_written w r Hw); [done|]. by rewrite (written_pk _ _ _ Hf).
  - intros Hw. split; [|by apply written_device]. destruct (written_from x Hw) as (item & [row|] & Hin & Hf).
    + left. pose proof (pair_row _ _ Hin) as [[Hrow Hd]%elem_of_existing _]. exists row. split_and!; [done| |].
      * rewrite kept_iff by done. apply orb_true_iff. right. apply bool_decide_eq_true, list_elem_of_fmap_2, list_elem_of_omap. by exists (item, Some row).
      * symmetry. apply place_written; [done|]. by apply written_pk in Hf.
    + right. split; [done|]. by apply (wf_place _ _ _ _ _ _ Hf).
Qed.
Lemma table'_others : List.filter (fun r => negb (of_device dev r)) table' = List.filter (fun r => negb (of_device dev r)) table.
Proof.
  unfold table', flush_routes. rewrite List.filter_app. assert (∀ l, (∀ x, x ∈ l → of_device dev x = true) → List.filter (fun r => negb (of_device dev r)) l = []) as Hnil.
  { intros l H. induction l as [|x l IH]; [done|]. cbn. rewrite (H x (list_elem_of_here _ _)). cbn. apply IH. intros y Hy. apply H. by right. }
  rewrite (Hnil (List.filter _ written)) by (intros x [Hx _]%elem_of_filter_b; by apply written_device). rewrite app_nil_r. apply filter_map_kept.
  - intros r Hr Hd. apply negb_true_iff in Hd. split; [by rewrite kept_iff, Hd|by apply place_other].
  - intros r Hr Hd%negb_false_iff. apply negb_false_iff. fold (place r). unfold place. destruct (find_last _ written) as [w|] eqn:E; [|done].
    apply find_last_Some in E as [Hw _]. by apply written_device.
Qed.
Lemma table'_below : Forall (fun r => row_pk r < next') table'.
Proof.
  apply Forall_forall. intros x [(r & Hr & _ & ->)|[Hw Hn]]%elem_of_table'.
  - rewrite place_pk. pose proof (proj1 (Forall_forall _ _) Hnext r Hr) as H. cbn in H. lia.
  - assert (row_pk x ∈ map row_pk written) as H by (by apply list_elem_of_fmap_2). rewrite Hperm in H. apply elem_of_app in H as [H|H]; [apply matched_pks_below in H|apply fresh_range in H]; lia.
Qed.
Lemma written_keys : map row_key written = map re_key routes.
Proof.
  assert (map row_key written = map (fun io => re_key io.1) pairs) as ->.
  { clear -Hwritten. pose proof Hwritten as H0. clear Hwritten. induction H0 as [|io w ps ws H _ IH]; [done|]. cbn. f_equal; [apply (wf_key _ _ _ _ _ _ H)|exact IH]. }
  unfold pairs. pose proof matched_length as H. revert H. generalize (matched existing routes). clear. induction routes as [|x l IH]; intros [|y m]; cbn; intros H; try done. f_equal. apply IH. lia.
Qed.
Lemma written_route_ids : NoDup (omap row_route_id written).
Proof.
  assert (omap row_route_id written = omap (fun io => claimant io.1 io.2) pairs) as ->; [|apply claimants_distinct; [apply existing_pks|done|apply body_keys]].
  clear -Hwritten. pose proof Hwritten as H0. clear Hwritten. induction H0 as [|io w ps ws H _ IH]; [done|]. cbn. rewrite (wf_route_id _ _ _ _ _ _ H). by rewrite IH.
Qed.
End Flush.

(** C20: A push that passes its own checks always writes: the device's routes are then exactly the body's, each with its entry's columns and
    the route id it names or else keeps; a matched route keeps its primary key and what is known to be deployed of it, other
    devices' routes are untouched, and neither unique constraint of the table can be violated. *)
Theorem routes_are_the_body dev now so table existing next routes :
  existing ≡ₚ List.filter (of_device dev) table → NoDup (map row_pk table) → Forall (fun r => row_pk r < next) table →
  NoDup (omap row_route_id existing) → Forall carrier_ok existing → reject_payload_duplicates routes = Ok tt →
  ∃ written next' cleared, write_routes dev now so (zip routes (matched existing routes)) next = Ok (written, next', cleared) ∧
    let table' := flush_routes table (unmatched_rows existing routes) written next in
    List.filter (of_device dev) table' ≡ₚ written ∧
    List.filter (fun r => negb (of_device dev r)) table' = List.filter (fun r => negb (of_device dev r)) table ∧
    Forall2 (fun io w => written_for dev now next io.1 io.2 w) (zip routes (matched existing routes)) written ∧
    map row_key written = map re_key routes ∧ NoDup (map row_key written) ∧ NoDup (omap row_route_id written) ∧
    NoDup (map row_pk table') ∧ Forall (fun r => row_pk r < next') table'.
Proof.
  intros He Hp Hn Hi Hc Hb. destruct (write_routes_spec dev now so (zip routes (matched existing routes)) next) as (written & next' & cleared & fresh & E & Hle & HF & Hperm & Hf & Hr).
  { apply Forall_forall. intros [item [row|]] Hin; [|done]. eapply pair_row in Hin as [Hrow _]; [|done..]. exact (proj1 (Forall_forall _ _) Hc row Hrow). }
  exists written, next', cleared. split; [exact E|]. cbv zeta. split_and!.
  - by eapply table'_device.
  - by eapply table'_others.
  - exact HF.
  - by eapply written_keys.
  - erewrite written_keys by done. by apply body_keys.
  - by eapply written_route_ids.
  - by eapply table'_pks.
  - by eapply table'_below.
Qed.

(** ** The backfill pass *)

Lemma adopt_get item row f : get (adopt item row) f =
  match dict_get (match re_route_id item with Some i => [("route_id", JInt i)] | None => [] end ++
                  match re_generation item with Some g => [("intent_generation", JInt g)] | None => [] end) f with Some v => v | None => get row f end.
Proof. unfold adopt. apply get_update. destruct (re_route_id item), (re_generation item); apply (bool_decide_unpack _); vm_compute; exact I. Qed.
Lemma adopt_content item row f : f ≠ "route_id" → f ≠ "intent_generation" → get (adopt item row) f = get row f.
Proof. intros H1 H2. rewrite adopt_get. destruct (re_route_id item), (re_generation item); cbn [app dict_get]; rewrite ?decide_False by done; reflexivity. Qed.
Lemma adopt_route_id item row : row_route_id (adopt item row) = claimant item (Some row).
Proof. unfold row_route_id. rewrite adopt_get. unfold claimant. destruct (re_route_id item), (re_generation item); reflexivity. Qed.
Lemma adopt_pk item row : row_pk (adopt item row) = row_pk row.
Proof. unfold row_pk. by rewrite adopt_content. Qed.

Section Backfill.
Context (dev next : Z) (table : list pydict) (routes : list RouteEntry).
Let existing := List.filter (of_device dev) table.
Context (Hpks : NoDup (map row_pk table)) (Hnext : Forall (fun r => row_pk r < next) table) (Hids : NoDup (omap re_route_id routes)).
Context (adopted pruned : list pydict) (Hrun : backfill_rows routes existing = Ok (adopted, pruned)).

Lemma backfill_pks : NoDup (map row_pk existing).
Proof. by apply NoDup_map_filter. Qed.
Lemma backfill_spec :
  (∀ item row, (item, Some row) ∈ zip routes (matched existing routes) → is_Some (claimant item (Some row))) ∧
  (∀ a, a ∈ adopted ↔ ∃ item row, (item, Some row) ∈ zip routes (matched existing routes) ∧ adopting item = true ∧ a = adopt item row) ∧
  (∀ r, r ∈ pruned ↔ r ∈ existing ∧ row_pk r ∉ map row_pk (omap id (matched existing routes)) ∧ row_route_id r = None).
Proof.
  destruct (matching existing routes backfill_pks Hids) as (_ & _ & Hu). pose proof Hrun as H. unfold backfill_rows in H. unfold matched, unmatched_rows in *.
  destruct (match_payload_to_rows routes existing) as [m omitted]. cbn [fst snd] in *. apply bind_Ok in H as ([] & Hg%guard_or_Ok%negb_true_iff & H%Ok_inj). injection H as <- <-. split_and!.
  - intros item row Hin. unfold claimant. cbn [mbind option_bind]. destruct (re_route_id item) eqn:E1; [by eexists|]. destruct (row_route_id row) eqn:E2; [by eexists|].
    exfalso. apply not_true_iff_false in Hg. apply Hg, existsb_exists. exists (item, Some row). split; [by apply list_elem_of_In|]. cbn. by rewrite E1, E2.
  - intros a. rewrite list_elem_of_omap. split.
    + intros ([item [row|]] & Hin & E); [|done]. cbn in E. destruct (adopting item) eqn:Ea; [|done]. injection E as <-. eauto.
    + intros (item & row & Hin & Ha & ->). exists (item, Some row). split; [done|]. cbn. by rewrite Ha.
  - intros r. rewrite elem_of_filter_b, Hu, elem_of_filter_b, !negb_true_iff, bool_decide_eq_false. destruct (row_route_id r); cbn; naive_solver.
Qed.
Lemma backfill_pair item row : (item, Some row) ∈ zip routes (matched existing routes) → row ∈ existing.
Proof.
  intros [i Hi]%list_elem_of_lookup. rewrite lookup_zip_with in Hi. destruct (matching existing routes backfill_pks Hids) as (HF & _ & _).
  destruct (routes !! i) eqn:E1; [|done]. destruct (matched existing routes !! i) eqn:E2; [|done]. injection Hi as -> ->. by destruct (Forall2_lookup_lr _ _ _ _ _ _ HF E1 E2) as [[? _] _].
Qed.
Lemma backfill_matched r : r ∈ existing → row_pk r ∈ map row_pk (omap id (matched existing routes)) → ∃ item, (item, Some r) ∈ zip routes (matched existing routes).
Proof.
  intros Hr (r' & E & ([row|] & Hin & Eo)%list_elem_of_omap)%list_elem_of_fmap; [|done]. cbn in Eo. injection Eo as ->.
  destruct (matching existing routes backfill_pks Hids) as (HF & _ & _). apply list_elem_of_lookup in Hin as [i Hi].
  destruct (Forall2_lookup_r _ _ _ _ _ HF Hi) as (item & Hitem & [[Hr' _] _]). assert (r = r') as <- by (apply (NoDup_map_inj row_pk existing); [exact backfill_pks|done..]).
  exists item. apply list_elem_of_lookup. exists i. by rewrite lookup_zip_with, Hitem, Hi.
Qed.

Let place r := default r (find_last (fun w => row_pk w =? row_pk r) adopted).
Lemma adopted_tail : List.filter (fun w => next <=? row_pk w) adopted = [].
Proof.
  destruct (List.filter _ adopted) as [|a l] eqn:E; [done|]. assert (a ∈ List.filter (fun w => next <=? row_pk w) adopted) as H by (rewrite E; by left).
  apply elem_of_filter_b in H as [Ha Hn%Z.leb_le]. apply (proj1 (proj2 backfill_spec)) in Ha as (item & row & Hin%backfill_pair & _ & ->).
  rewrite adopt_pk in Hn. apply elem_of_filter_b in Hin as [Hin _]. pose proof (proj1 (Forall_forall _ _) Hnext row Hin) as H. cbn in H. lia.
Qed.
(** Every kept row keeps its content; a row of the device ends with a route id. *)
Lemma place_content r : r ∈ table → row_pk (place r) = row_pk r ∧ ∀ f, f ≠ "route_id" → f ≠ "intent_generation" → get (place r) f = get r f.
Proof.
  intros Hr. unfold place. destruct (find_last _ adopted) as [a|] eqn:E; [|done]. apply find_last_Some in E as [Ha Ep%Z.eqb_eq]. split; [done|].
  apply (proj1 (proj2 backfill_spec)) in Ha as (item & row & Hin%backfill_pair & _ & ->). rewrite adopt_pk in Ep. apply elem_of_filter_b in Hin as [Hin _].
  rewrite (NoDup_map_inj row_pk table row r Hpks Hin Hr Ep). intros f H1 H2. by apply adopt_content.
Qed.
Lemma place_correlated r : r ∈ existing → row_pk r ∉ map row_pk pruned → is_Some (row_route_id (place r)).
Proof.
  destruct backfill_spec as (Hg & Ha & Hpr). intros Hr Hk. unfold place. destruct (find_last _ adopted) as [a|] eqn:E; unfold default, id.
  - apply find_last_Some in E as [Hin _]. apply Ha in Hin as (item & row & Hin & _ & ->). rewrite adopt_route_id. by apply Hg.
  - destruct (decide (row_pk r ∈ map row_pk (omap id (matched existing routes)))) as [Hm|Hm].
    + apply backfill_matched in Hm as [item Hin]; [|done]. pose proof (Hg _ _ Hin) as Hs. unfold claimant in Hs. destruct (re_route_id item) eqn:Ei; [|exact Hs].
      exfalso. assert (adopt item r ∈ adopted) as Hx by (apply Ha; exists item, r; split_and!; [done|unfold adopting; by rewrite Ei|done]).
      pose proof (proj1 (find_last_None _ _) E _ Hx) as Hf. cbn in Hf. rewrite adopt_pk, Z.eqb_refl in Hf. done.
    + destruct (row_route_id r) eqn:Er; [by eexists|]. exfalso. apply Hk, list_elem_of_fmap_2. by apply Hpr.
Qed.
Lemma place_device r : r ∈ table → of_device dev (place r) = of_device dev r.
Proof. intros Hr. unfold of_device. by rewrite (proj2 (place_content r Hr)). Qed.

Let table' := flush_routes table pruned adopted next.
Lemma backfill_table x : x ∈ table' ↔ ∃ r, r ∈ table ∧ row_pk r ∉ map row_pk pruned ∧ x = place r.
Proof.
  unfold table', flush_routes. rewrite adopted_tail, app_nil_r, list_elem_of_fmap. setoid_rewrite elem_of_filter_b. setoid_rewrite negb_true_iff. setoid_rewrite bool_decide_eq_false. naive_solver.
Qed.
Lemma backfill_fence : fence_open (List.filter (of_device dev) table') = true.
Proof.
  unfold fence_open, null_route_id_count. apply Nat.eqb_eq. destruct (List.filter _ (List.filter _ table')) as [|x l] eqn:E; [done|]. exfalso.
  assert (x ∈ List.filter (fun r => match get r "route_id" with JNull => true | _ => false end) (List.filter (of_device dev) table')) as H by (rewrite E; by left).
  apply elem_of_filter_b in H as [[(r & Hr & Hk & ->)%backfill_table Hd]%elem_of_filter_b Hn]. rewrite place_device in Hd by done.
  assert (r ∈ existing) as He by (by apply elem_of_filter_b). destruct (place_correlated r He Hk) as [i Hi]. unfold row_route_id in Hi. by destruct (get (place r) "route_id").
Qed.
Lemma backfill_others x : of_device dev x = false → x ∈ table' ↔ x ∈ table.
Proof.
  intros Hd. assert (∀ r, r ∈ table → of_device dev r = false → place r = r ∧ row_pk r ∉ map row_pk pruned) as Ho.
  { intros r Hr Hf. split.
    - unfold place. destruct (find_last _ adopted) as [a|] eqn:E; [|done]. apply find_last_Some in E as [Ha Ep%Z.eqb_eq].
      apply (proj1 (proj2 backfill_spec)) in Ha as (item & row & [Hin Hrow]%backfill_pair%elem_of_filter_b & _ & ->). rewrite adopt_pk in Ep.
      rewrite (NoDup_map_inj row_pk table row r Hpks Hin Hr Ep) in Hrow. congruence.
    - intros (r' & E & Hr')%list_elem_of_fmap. apply (proj2 (proj2 backfill_spec)) in Hr' as [[Hin Hrow]%elem_of_filter_b _].
      rewrite (NoDup_map_inj row_pk table r r' Hpks Hr Hin E) in Hf. congruence. }
  rewrite backfill_table. split.
  - intros (r & Hr & _ & ->). rewrite place_device in Hd by done. destruct (Ho r Hr Hd) as [-> _]. done.
  - intros Hx. exists x. destruct (Ho x Hx Hd) as [E H]. by rewrite E.
Qed.
End Backfill.

Lemma written_rows (t : tables) k l : table_rows (dict_set t k l) k = l.
Proof. unfold table_rows. by rewrite dict_get_set_eq. Qed.

(** C21: A backfill pass that is not refused opens the device's fence and does nothing else: every route it leaves has a route id, a route
    that had one is still there, content is untouched, no route is created and other devices are left alone; and beside the
    routes nothing changes - no job, no generation, no carrier. *)
Theorem backfill_only_opens_the_fence dev body s result s' : apply_backfill_only dev body s = Ok (result, s') →
  NoDup (map row_pk (table_rows (live s) SR_INTENT)) → Forall (fun r => row_pk r < next_row_id s) (table_rows (live s) SR_INTENT) →
  NoDup (omap re_route_id (ru_routes body)) →
  fence_open (List.filter (of_device dev) (table_rows (live s') SR_INTENT)) = true ∧
  (∀ r, r ∈ table_rows (live s) SR_INTENT → is_Some (row_route_id r) ∨ of_device dev r = false →
     ∃ x, x ∈ table_rows (live s') SR_INTENT ∧ row_pk x = row_pk r) ∧
  (∀ x, x ∈ table_rows (live s') SR_INTENT → ∃ r, r ∈ table_rows (live s) SR_INTENT ∧ row_pk x = row_pk r ∧
     (∀ f, f ≠ "route_id" → f ≠ "intent_generation" → get x f = get r f)) ∧
  (∀ x, of_device dev x = false → x ∈ table_rows (live s') SR_INTENT ↔ x ∈ table_rows (live s) SR_INTENT) ∧
  base s' = base s ∧ receipts s' = receipts s ∧ clears s' = clears s ∧ ∀ t, t ≠ SR_INTENT → dict_get (live s') t = dict_get (live s) t.
Proof.
  unfold apply_backfill_only. intros H Hp Hn Hi. apply bind_Ok in H as ([adopted pruned] & Hrun & H). apply bind_Ok in H as (echoed & _ & H%Ok_inj). injection H as _ <-.
  cbn [with_live live base receipts clears]. rewrite !written_rows. split_and!; try done.
  - by eapply backfill_fence.
  - intros r Hr Hk. eexists. split; [eapply backfill_table; [done..|]; exists r; split_and!; [done| |reflexivity]|by eapply place_content].
    intros (r' & E & Hr')%list_elem_of_fmap. eapply backfill_spec in Hr' as ([Hin Hrow]%elem_of_filter_b & _ & Hnone); [|done..].
    rewrite (NoDup_map_inj row_pk _ r r' Hp Hr Hin E) in Hk. rewrite Hnone, Hrow in Hk. by destruct Hk as [[? [=]]|].
  - intros x Hx. eapply backfill_table in Hx as (r & Hr & _ & ->); [|done..]. exists r. split; [done|]. by eapply place_content.
  - intros x Hd. by eapply backfill_others.
  - intros t Ht. by rewrite dict_get_set_ne.
Qed.

(** ** Admissible work *)

Section Work.
Context (stream_proof : tables -> Z -> pystr -> tables -> pydict -> res pydict).
Context (prune_apply_plan : json -> list json -> list json -> res json).
Context (static_route_operation : Db -> Z -> pydict -> pydict -> pydict -> list Z -> res pydict).
Context (proof_calm : ∀ live dev stream t c, calm (stream_proof live dev stream t c)).
Context (prune_calm : ∀ plan rows ts, calm (prune_apply_plan plan rows ts)).
Context (operation_calm : ∀ d dev b c a ids, calm (static_route_operation d dev b c a ids)).
#[local] Hint Resolve proof_calm prune_calm operation_calm removal_calm settlement_calm create_calm admit_apply_calm : calm.

Lemma echo_calm row : calm (echo row).
Proof. unfold echo, row_fingerprint, static_route_entry, required. calm. Qed.
Lemma carrier_half_calm c h : calm (carrier_half c h).
Proof. unfold carrier_half. calm. Qed.
#[local] Hint Resolve echo_calm carrier_half_calm : calm.
Lemma write_routes_calm dev now so pairs next : calm (write_routes dev now so pairs next).
Proof. revert next. induction pairs as [|[item [row|]] pairs IH]; intros next; cbn [write_routes]; unfold update_route, update_pending_clear; calm. Qed.
Lemma plan_routes_calm so body existing : calm (plan_routes so body existing).
Proof. unfold plan_routes, reject_double_claimed_triple, refuse_unmarkable_deletions, invalid. calm. Qed.
#[local] Hint Resolve write_routes_calm plan_routes_calm : calm.
Lemma own_tombstones_calm jobs ts s : calm (own_tombstones jobs ts s).
Proof. revert s. induction ts as [|[i m] ts IH]; intros s; cbn [own_tombstones]; [done|]. destruct (List.find _ jobs) as [[]|]; [apply IH|done]. Qed.
Lemma markings_calm so dev q first ms s : (∀ f m, calm (q f m)) →
  calm (enqueue_markings stream_proof prune_apply_plan static_route_operation so dev q first ms s).
Proof. intros Hq. revert first s. induction ms as [|m ms IH]; intros first s; cbn [enqueue_markings]; calm. Qed.
#[local] Hint Resolve own_tombstones_calm markings_calm : calm.
Lemma removals_calm so dev promotes removed ts retract cohort s :
  calm (enqueue_static_route_removals stream_proof prune_apply_plan static_route_operation so dev promotes removed ts retract cohort s).
Proof.
  unfold enqueue_static_route_removals. cbv zeta. destruct (_ && _); [done|]. apply calm_bind.
  - destruct cohort; [done|]. destruct (1 <? _); [|done]. apply calm_bind; [apply on_base_calm; unfold allocate_settlement_cohort; calm_txn|]. intros []. done.
  - intros [c s1]. apply calm_bind; [apply markings_calm; intros f m; unfold route_removal, removed_map; calm|]. intros [[jobs|] s2]; calm.
Qed.
#[local] Hint Resolve removals_calm : calm.
Lemma route_work_calm body dev dlv s : calm (route_work stream_proof prune_apply_plan static_route_operation body dev dlv s).
Proof.
  unfold route_work. destruct (p_backfill_only _); [unfold apply_backfill_only, backfill_rows; calm|]. cbv zeta. apply calm_bind; [calm|]. intros plan.
  destruct (write_tombstones _ _ _ _ _ _) as [ts s1]. apply calm_bind; [calm|]. intros [[written next] cleared].
  apply calm_bind; [apply on_base_calm; calm|]. intros [[auto cohort] s2]. apply calm_bind; [destruct (_ || _); calm|]. intros [replaced s3].
  apply calm_bind; [destruct auto; [apply on_base_calm; unfold enqueue_apply; calm_txn|done]|]. intros []. calm.
Qed.
End Work.

Lemma markings_receipts sp prune sro so dev q first ms s o s' : enqueue_markings sp prune sro so dev q first ms s = Ok (o, s') → receipts s' = receipts s.
Proof.
  revert first s o s'. induction ms as [|m ms IH]; intros first s o s'; cbn [enqueue_markings]; [by intros [= _ <-]|]. intros H. apply bind_Ok in H as (? & _ & H).
  apply bind_Ok in H as ([job s1] & E1%removal_receipts & H). destruct job as [j|]; [|by injection H as _ <-]. apply bind_Ok in H as ([jobs s2] & E2%IH & H). injection H as _ <-. congruence.
Qed.
Lemma own_tombstones_receipts jobs ts s s' : own_tombstones jobs ts s = Ok s' → receipts s' = receipts s.
Proof. revert s. induction ts as [|[i m] ts IH]; intros s; cbn [own_tombstones]; [by intros [= ->]|]. destruct (List.find _ jobs) as [[]|]; [|done]. intros ->%IH. done. Qed.
Lemma removals_receipts sp prune sro so dev promotes removed ts retract cohort s r s' :
  enqueue_static_route_removals sp prune sro so dev promotes removed ts retract cohort s = Ok (r, s') → receipts s' = receipts s.
Proof.
  unfold enqueue_static_route_removals. cbv zeta. destruct (_ && _); [by intros [= _ <-]|]. intros H. apply bind_Ok in H as ([c s1] & H1 & H).
  assert (receipts s1 = receipts s) as E1.
  { destruct cohort; [by injection H1 as _ <-|]. destruct (1 <? _); [|by injection H1 as _ <-]. apply bind_Ok in H1 as ([] & E%on_base_receipts & H1). by injection H1 as _ <-. }
  apply bind_Ok in H as ([jobs s2] & E2%markings_receipts & H). destruct jobs as [jobs|]; [|injection H as _ <-; congruence].
  apply bind_Ok in H as (s3 & E3%own_tombstones_receipts & H). injection H as _ <-. congruence.
Qed.
Lemma tombstones_receipts dev rows fence so p s : receipts (write_tombstones dev rows fence so p s).2 = receipts s.
Proof. unfold write_tombstones. by destruct (_ || _). Qed.
Lemma route_work_receipts sp prune sro body dev dlv s r s' : route_work sp prune sro body dev dlv s = Ok (r, s') → receipts s' = receipts s.
Proof.
  unfold route_work. destruct (p_backfill_only _).
  - unfold apply_backfill_only. intros H. apply bind_Ok in H as ([] & _ & H). apply bind_Ok in H as (? & _ & H). by injection H as _ <-.
  - cbv zeta. intros H. apply bind_Ok in H as (plan & _ & H). pose proof (tombstones_receipts dev (pl_removed plan) (pl_fence plan) (p_store_only (d_identity dlv)) (pl_partition plan) s) as E0.
    destruct (write_tombstones _ _ _ _ _ _) as [ts s1]. apply bind_Ok in H as ([[written next] cleared] & _ & H). apply bind_Ok in H as ([[auto cohort] s2] & E1%on_base_receipts & H).
    apply bind_Ok in H as ([replaced s3] & H2 & H). assert (receipts s3 = receipts s2) as E2 by (destruct (_ || _); [by eapply removals_receipts|by injection H2 as _ <-]).
    apply bind_Ok in H as ([? s4] & H3 & H). assert (receipts s4 = receipts s3) as E3 by (destruct auto; [by apply on_base_receipts in H3|by injection H3 as _ <-]).
    apply bind_Ok in H as (? & _ & H). injection H as _ <-. cbn in E0, E1. congruence.
Qed.

(** A static-route push is admissible work: what push admission promises holds of it. *)
#[global] Instance route_intent_work sp prune sro body :
  (∀ live dev stream t c, calm (sp live dev stream t c)) → (∀ plan rows ts, calm (prune plan rows ts)) →
  (∀ d dev b c a ids, calm (sro d dev b c a ids)) → IntentWork (route_work sp prune sro body).
Proof.
  intros H1 H2 H3. split.
  - intros dev dlv s r s' E%route_work_receipts k. by rewrite E.
  - intros dev dlv s r s' E. unfold route_work in E. destruct (p_backfill_only _).
    + unfold apply_backfill_only in E. apply bind_Ok in E as ([] & _ & E). apply bind_Ok in E as (? & _ & E). injection E as <- _. apply (bool_decide_unpack _). vm_compute. exact I.
    + cbv zeta in E. apply bind_Ok in E as (plan & _ & E). destruct (write_tombstones _ _ _ _ _ _). apply bind_Ok in E as ([[] ?] & _ & E). apply bind_Ok in E as ([[] ?] & _ & E).
      apply bind_Ok in E as ([] & _ & E). apply bind_Ok in E as ([] & _ & E). apply bind_Ok in E as (? & _ & E). injection E as <- _. apply (bool_decide_unpack _). vm_compute. exact I.
  - intros dev dlv s e E code a b ->. pose proof (route_work_calm sp prune sro H1 H2 H3 body dev dlv s) as Hc. rewrite E in Hc. done.
Qed.

(** ** Authority *)

Lemma route_removed_map l : removed_map "static_route" l = Ok [("route", l)].
Proof. vm_compute. reflexivity. Qed.
Lemma NoDup_omap_filter {A B} (f : A -> option B) p l : NoDup (omap f l) → NoDup (omap f (List.filter p l)).
Proof.
  induction l as [|x l IH]; [done|]. intros H. assert (NoDup (omap f l)) as Hn by (cbn in H; destruct (f x); [by apply NoDup_cons in H as [_ ?]|done]). specialize (IH Hn).
  cbn [List.filter]. destruct (p x); [|exact IH]. cbn in H |- *. destruct (f x) as [b|]; [|exact IH]. apply NoDup_cons in H as [Hx _]. constructor; [|exact IH].
  intros (y & [Hy _]%elem_of_filter_b & E)%list_elem_of_omap. apply Hx, list_elem_of_omap. by exists y.
Qed.
Lemma unmatched_filter routes existing : ∃ p, (match_payload_to_rows routes existing).2 = List.filter p existing.
Proof. unfold match_payload_to_rows. destruct (match_by_triple _ _ _). by eexists. Qed.
Lemma deletion_records_ids records : map dr_route_id (deletion_records records) = map dr_route_id records.
Proof. unfold deletion_records. rewrite map_map. done. Qed.

(** The markings a push removes rows with. *)
Definition present_markings (plan : RoutePlan) : list pystr :=
  List.filter (fun m => nonempty (removed_by_marking (pl_partition plan) (pl_removed plan) m)) MARKING_ORDER.

Lemma detach_context promotes removed ts present retract cohort q : nonempty (removed DETACH_MARKING) = true →
  route_removal promotes removed ts present retract cohort (Some DETACH_MARKING) = Ok q → removal_mode (removal_context q) = detach.
Proof.
  intros Hn. unfold route_removal. rewrite route_removed_map. intros [= <-]. unfold removal_mode, context_truthy, removal_context, removed_context, deletes. cbn [rq_removed rq_retract rq_defer_retract
    rq_force rq_marking rq_shrank rq_scope rq_interfaces rq_vault_refs given nonempty]. cbn [List.filter snd map]. rewrite Hn. cbn [map fst snd orb negb andb].
  rewrite andb_false_r. destruct (retract && _); reflexivity.
Qed.
Lemma pure_clear_keys promotes removed ts present retract cohort q : route_removal promotes removed ts present retract cohort None = Ok q → rq_removed q = [].
Proof. unfold route_removal. cbn [mbind res_bind]. by intros [= <-]. Qed.

