(* ===== verification/RouteScenario.v ===== *)
(** * A push of static routes on a concrete device

    The device stores two routes; a push edits one of them, names the other as deleted and adds a third.  The witnesses of the
    static-route intent theorems evaluate it, and a backfill pass over a device with an uncorrelated route. *)

From stdpp Require Import base gmap list.
From Stdlib Require Import ZArith NArith Lia.
From S2P Require Import Prelude Json Registry Document Asn Identity Store Generation Admission Scenario Receipt ReceiptProps Removal RemovalProps Mirror MirrorProps PushScenario StaticPlan StaticPlanProps VaultRef RouteIngest RouteIngestProps.
Local Open Scope py_scope.
Local Open Scope Z_scope.

Definition stored_route (id device : Z) (route_id : json) (prefix next_hop : pystr) (metric : json) : pydict :=
  [("id", JInt id); ("device_id", JInt device); ("route_id", route_id); ("intent_generation", JInt 1); ("deployed_key", JNull); ("pending_clear", JNull);
   ("vrf", JStr ""); ("prefix", JStr prefix); ("next_hop", JStr next_hop); ("interface_next_hop", JNull); ("next_hop_vrf", JNull); ("metric", metric);
   ("permanent", JNull); ("tag", JNull); ("name", JNull); ("accepted_at", JStr "0"); ("last_apply_at", JNull); ("last_apply_error", JNull)].
Definition plain_route (route_id : option Z) (prefix next_hop : pystr) : RouteEntry :=
  mkRoute route_id (Some 2) ("", prefix, next_hop) None None None None None None None.

Definition route_table : list pydict :=
  [stored_route 1 7 (JInt 11) "10.0.0.0/8" "192.0.2.1" (JInt 5); stored_route 2 7 (JInt 12) "10.1.0.0/16" "192.0.2.1" JNull;
   stored_route 3 8 JNull "10.0.0.0/8" "192.0.2.9" JNull].
Definition device_routes : list pydict := [stored_route 1 7 (JInt 11) "10.0.0.0/8" "192.0.2.1" (JInt 5); stored_route 2 7 (JInt 12) "10.1.0.0/16" "192.0.2.1" JNull].
(** Route 11 moves to another next hop and loses its metric, 12 is deleted, 13 is new. *)
Definition route_body : RouteUpdate :=
  mkUpdate [plain_route (Some 13) "10.1.0.0/16" "192.0.2.1"; plain_route (Some 11) "10.0.0.0/8" "192.0.2.2"]
    [mkDeletion 12 [("", "10.1.0.0/16", "192.0.2.1")] false; mkDeletion 40 [("", "10.9.0.0/16", "192.0.2.1")] true].
Definition route_start : PushDb :=
  mkPush auto_applied [("devices", [[("id", JInt 7); ("ned_id", JStr "cisco-ios-cli-6.95")]]); ("static_route_intent", route_table)] ∅ ∅ 1 4.
Definition route_push (backfill : bool) : IntentDelivery := mkDelivery "static_route" (mkIdentity 1 "a" false true backfill).
Definition pushed : outcome * PushDb := apply_static_route_intent sample_proof sample_prune sample_operation route_body 7 (route_push false) route_start.


#[global] Instance route_sample_work : IntentWork (route_work sample_proof sample_prune sample_operation route_body).
Proof. apply route_intent_work; done. Qed.

(** Route 11 is edited in place and owes its metric's clear, 12 has a carrier owned by a networked removal job, and 13 takes over its key. *)
Lemma route_push_effects :
  map (fun r => (row_pk r, row_route_id r, row_key r)) (table_rows (live pushed.2) SR_INTENT) =
    [(1, Some 11, ("", "10.0.0.0/8", "192.0.2.2")); (3, None, ("", "10.0.0.0/8", "192.0.2.9")); (5, Some 13, ("", "10.1.0.0/16", "192.0.2.1"))] ∧
  map (fun r => (get r "route_id", get r "marking", get r "job_id")) (table_rows (live pushed.2) SR_TOMBSTONE) = [(JInt 12, JStr "delete_origin", JInt 1)] ∧
  tombstones (base pushed.2) !! 4 = Some (mkTombstone 7 (Some 1)) ∧ (g_mode <$> generations (base pushed.2) !! 1) = Some networked ∧
  map (fun j => (j_type <$> jobs (base pushed.2) !! j)) [1; 2] = [Some removal; Some apply_job] ∧
  (apply_static_route_intent sample_proof sample_prune sample_operation route_body 7 (route_push false) pushed.2).1 =
    match pushed.1 with Performed r st => Replayed r st | o => o end.
Proof. split_and!; vm_compute; reflexivity. Qed.

Lemma device_routes_filter : device_routes ≡ₚ List.filter (of_device 7) route_table.
Proof. reflexivity. Qed.
Lemma device_routes_carriers : Forall carrier_ok device_routes.
Proof. repeat constructor. Qed.

Lemma routes_are_the_body_witness : ∃ written next' cleared,
  write_routes 7 0 false (zip (ru_routes route_body) (matched device_routes (ru_routes route_body))) 4 = Ok (written, next', cleared) ∧
  map row_key (List.filter (of_device 7) (flush_routes route_table (unmatched_rows device_routes (ru_routes route_body)) written 4)) ≡ₚ map re_key (ru_routes route_body).
Proof.
  destruct (routes_are_the_body 7 0 false route_table device_routes 4 (ru_routes route_body)) as (w & n & c & E & H & _ & _ & Hk & _).
  - exact device_routes_filter.
  - apply (bool_decide_unpack _). vm_compute. exact I.
  - repeat (constructor; [vm_compute; reflexivity|]). constructor.
  - apply (bool_decide_unpack _). vm_compute. exact I.
  - exact device_routes_carriers.
  - vm_compute. reflexivity.
  - exists w, n, c. split; [exact E|]. rewrite H. rewrite Hk. reflexivity.
Defined.

Definition route_plan : RoutePlan := mkPlan true (matched device_routes (ru_routes route_body)) [stored_route 2 7 (JInt 12) "10.1.0.0/16" "192.0.2.1" JNull]
  (mkPartition [12] [] [40] [] [2]).
Lemma route_body_planned : plan_routes false route_body device_routes = Ok route_plan.
Proof. vm_compute. reflexivity. Qed.


(** Two deleted ids at one uncorrelated row, one with an unverified lineage, and one correlated row. *)
Definition sample_deletions : list DeletionRecord :=
  [mkDeletion 12 [("", "a", "c")] false; mkDeletion 21 [("", "b", "c")] false; mkDeletion 20 [("", "z", "c"); ("", "b", "c")] true; mkDeletion 30 [("", "q", "c")] false].
Definition sample_removed : list pydict := [stored_route 1 7 (JInt 12) "a" "c" JNull; stored_route 2 7 JNull "b" "c" JNull].
Lemma deletions_partitioned_witness :
  let p := classify_deletions sample_deletions sample_removed in
  dp_executed p ++ dp_degraded p ++ dp_moot p ≡ₚ [12; 21; 20; 30] ∧ p = mkPartition [12] [20; 21] [30] [] [1].
Proof.
  split; [|vm_compute; reflexivity]. apply (deletions_partitioned sample_deletions sample_removed); apply (bool_decide_unpack _); vm_compute; exact I.
Defined.

(** A device with an uncorrelated route the pusher still names, one it does not, and a correlated route it omits. *)
Definition shut_table : list pydict :=
  [stored_route 1 7 JNull "10.0.0.0/8" "192.0.2.1" (JInt 5); stored_route 2 7 JNull "10.1.0.0/16" "192.0.2.1" JNull; stored_route 3 7 (JInt 13) "10.2.0.0/16" "192.0.2.1" JNull].
Definition shut_start : PushDb := with_live [("static_route_intent", shut_table)] 4 route_start.
Definition backfill_body : RouteUpdate := mkUpdate [plain_route (Some 11) "10.0.0.0/8" "192.0.2.1"] [].
Definition backfilled : pydict * PushDb :=
  match apply_backfill_only 7 backfill_body shut_start with Ok r => r | Raise _ => ([], shut_start) end.
Lemma backfill_runs : apply_backfill_only 7 backfill_body shut_start = Ok (backfilled.1, backfilled.2).
Proof.
  rewrite <-surjective_pairing. assert (is_ok (apply_backfill_only 7 backfill_body shut_start) = true) as H by (vm_compute; reflexivity).
  unfold backfilled. destruct (apply_backfill_only 7 backfill_body shut_start); done.
Qed.
Lemma backfill_only_opens_the_fence_witness :
  fence_open shut_table = false ∧ fence_open (List.filter (of_device 7) (table_rows (live backfilled.2) SR_INTENT)) = true ∧
  map row_pk (table_rows (live backfilled.2) SR_INTENT) = [1; 3].
Proof.
  split; [vm_compute; reflexivity|]. split; [|vm_compute; reflexivity].
  apply (backfill_only_opens_the_fence 7 backfill_body shut_start backfilled.1 backfilled.2 backfill_runs).
  - apply (bool_decide_unpack _). vm_compute. exact I.
  - repeat (constructor; [vm_compute; reflexivity|]). constructor.
  - apply (bool_decide_unpack _). vm_compute. exact I.
Defined.
