(* ===== verification/Cutover.v ===== *)
(** * Retiring authority for the cutover

    src/nso_adapter/core/cutover.py, the whole module: the preflight on parked carriers, the discard of queued reads and
    [deauthorize_for_cutover], the one transaction that lowers a stream's revisions.  It runs with the workers stopped, under locks on every
    table it reads or writes, so it is one transition of the store; it is not a step of the deployment core, whose theorems speak of the
    time between two cutovers.  The five columns of a prepared slot are null together, so [s_prepared_revision] stands for them.  A
    refusal is a value; what Python or the database raises is an exception. *)

From stdpp Require Import base gmap list.
From Stdlib Require Import ZArith NArith Lia.
From S2P Require Import Prelude Json Registry Document Asn Identity Store Generation Claim GenerationInv Receipt StaticPlan VaultRef Hydrate Origins OriginProps.
Local Open Scope py_scope.
Local Open Scope Z_scope.

(** ** The reviewed schema *)

Definition RETIRE_SCHEMA : list (pystr * list pystr) :=
  [("device_projection_stream", ["id"; "device_id"; "stream"; "desired_revision"; "authorized_revision"; "applied_revision"; "source_push_seq"; "authorized_document"; "prepared_revision"; "prepared_tables"; "prepared_deletions"; "prepared_source_revision"; "prepared_source_digest"; "updated_at"]);
   ("static_route_intent", ["id"; "device_id"; "route_id"; "intent_generation"; "deployed_key"; "pending_clear"; "vrf"; "prefix"; "next_hop"; "interface_next_hop"; "next_hop_vrf"; "metric"; "permanent"; "tag"; "name"; "accepted_at"; "last_apply_at"; "last_apply_error"]);
   ("static_route_tombstone", ["id"; "device_id"; "route_id"; "vrf"; "prefix"; "next_hop"; "deployed_key"; "marking"; "job_id"; "created_at"]);
   ("stream_pending_clear", ["id"; "device_id"; "stream"; "provenance"; "revision"; "recorded_at"])].

Definition KEEP_SCHEMA : list (pystr * list pystr) :=
  [("apply_execution_attempt", ["id"; "device_id"; "generation_id"; "job_id"; "job_correlation_id"; "run_attempt"; "operation_kind"; "document_digest"; "claim_token"; "stream_revisions"; "generation_authorities"; "manual_attempt_id"; "removal_tombstone_ids"; "logical_membership"; "attempted_carriers"; "safe_origins"; "prior_bookkeeping"; "phase"; "response_phase"; "response_classification"; "commit_acknowledged"; "created_at"]);
   ("bfd_intent", ["id"; "device_id"; "interface_name"; "min_tx"; "min_rx"; "multiplier"; "micro_bfd"; "accepted_at"; "last_apply_at"; "last_apply_error"]);
   ("bgp_router_intent", ["id"; "device_id"; "asn"; "router_id"; "accepted_at"; "last_apply_at"; "last_apply_error"]);
   ("deployment_apply_attempt", ["id"; "device_id"; "selected"; "admission_state"; "http_status"; "response"; "created_at"]);
   ("deployment_generation", ["id"; "device_id"; "seq"; "mode"; "status"; "document"; "digest"; "allowed_removal_keys"; "source_push_seq"; "stream_revisions"; "settlement_cohort"; "removal_context"; "apply_attempt_id"; "job_id"; "carrier_job_id"; "carrier_job_status"; "carrier_job_result"; "carrier_job_error"; "attempts"; "last_error"; "created_at"; "updated_at"; "settled_at"]);
   ("device_bfd_interface", ["id"; "device_id"; "interface_name"; "bound_port"; "min_tx"; "min_rx"; "multiplier"; "micro_bfd"; "enabled"; "last_refreshed_at"; "refresh_source"]);
   ("device_bgp_router", ["id"; "device_id"; "asn"; "router_id"; "last_refreshed_at"; "refresh_source"]);
   ("device_claim", ["device_id"; "claim_token"; "purpose"; "job_id"; "acquired_at"; "heartbeat_at"]);
   ("device_failover", ["id"; "device_id"; "primary_ip"; "oob_ip"; "active_address"; "consecutive_failures"; "consecutive_successes"; "manual_override"; "failback_blocked_reason"; "oob_healthy"; "oob_health_result"; "oob_health_detail"; "oob_health_checked_at"; "last_probe_at"; "last_probe_result"; "last_probe_target"; "last_probe_detail"; "last_switch_at"; "next_primary_probe_at"; "next_oob_probe_at"; "updated_at"]);
   ("device_generation_counter", ["device_id"; "last_seq"]);
   ("device_interface_mtu", ["id"; "device_id"; "interface_name"; "mtu"; "ip_mtu"; "mpls_mtu"; "bound_port"; "last_refreshed_at"; "refresh_source"]);
   ("device_isis_interface", ["id"; "device_id"; "interface_name"; "af"; "process_tag"; "circuit_type"; "network_type"; "metric"; "passive"; "bound_port"; "hello_auth_type"; "hello_auth_present"; "bfd_enabled"; "frr_enabled"; "frr_protection"; "csnp_interval"; "retransmit_interval"; "lsp_interval"; "mesh_group"; "settings"; "levels"; "prefix_sids"; "last_refreshed_at"; "refresh_source"]);
   ("device_isis_process", ["id"; "device_id"; "process_tag"; "net"; "is_type"; "metric_style"; "overload_bit"; "area_auth_type"; "area_auth_present"; "area_auth_key"; "domain_auth_type"; "domain_auth_present"; "domain_auth_key"; "spf_initial_wait"; "spf_max_wait"; "lsp_initial_wait"; "lsp_max_wait"; "lsp_lifetime"; "lsp_refresh_interval"; "lsp_mtu"; "overload_on_startup"; "overload_timeout"; "te_enabled"; "suppress_attached_bit"; "ignore_attached_bit"; "fast_reroute"; "microloop_avoidance"; "distance"; "maximum_paths"; "reference_bandwidth"; "settings"; "levels"; "segment_routing_reported"; "segment_routing_configured"; "segment_routing"; "flex_algos"; "srv6_locators"; "last_refreshed_at"; "refresh_source"]);
   ("device_l2_sap", ["id"; "device_id"; "service_name"; "service_type"; "service_id"; "sap_id"; "port"; "outer_tag"; "inner_tag"; "last_refreshed_at"; "refresh_source"]);
   ("device_logging_host", ["id"; "device_id"; "address"; "port"; "severity"; "facility"; "transport"; "vrf"; "source"; "last_refreshed_at"; "refresh_source"]);
   ("device_logging_levels", ["id"; "device_id"; "console_severity"; "monitor_severity"; "module_severity"; "last_refreshed_at"; "refresh_source"]);
   ("device_ospf_instance", ["id"; "device_id"; "process_id"; "router_id"; "vrf"; "areas"; "enabled"; "last_refreshed_at"; "refresh_source"]);
   ("device_ospf_interface", ["id"; "device_id"; "interface_name"; "process_id"; "area_id"; "passive"; "priority"; "cost"; "network_type"; "auth_type"; "auth_present"; "last_refreshed_at"; "refresh_source"]);
   ("device_redistribution", ["id"; "device_id"; "dest_protocol"; "dest_ref"; "source_protocol"; "source_ref"; "route_map"; "metric"; "metric_type"; "last_refreshed_at"; "refresh_source"]);
   ("device_route_policy_as_path", ["id"; "device_id"; "name"; "content_hash"; "last_refreshed_at"; "refresh_source"]);
   ("device_route_policy_community_list", ["id"; "device_id"; "name"; "invert_match"; "content_hash"; "last_refreshed_at"; "refresh_source"]);
   ("device_route_policy_prefix_list", ["id"; "device_id"; "name"; "family"; "content_hash"; "last_refreshed_at"; "refresh_source"]);
   ("device_route_policy_route_map", ["id"; "device_id"; "name"; "content_hash"; "last_refreshed_at"; "refresh_source"]);
   ("device_settings", ["id"; "device_id"; "auto_apply"; "sync_before_apply"; "updated_at"]);
   ("device_settle_counter", ["device_id"; "last_seq"]);
   ("device_static_route", ["id"; "device_id"; "vrf"; "prefix"; "next_hop"; "interface_next_hop"; "next_hop_vrf"; "metric"; "permanent"; "tag"; "name"; "last_refreshed_at"; "refresh_source"]);
   ("device_subinterface", ["id"; "device_id"; "interface_name"; "parent_interface"; "dot1q_vlan"; "sub_type"; "vrf"; "last_refreshed_at"; "refresh_source"]);
   ("device_svi", ["id"; "device_id"; "interface_name"; "vlan_id"; "svi_type"; "vrf"; "last_refreshed_at"; "refresh_source"]);
   ("device_switchport", ["id"; "device_id"; "interface_name"; "mode"; "untagged_vlan_id"; "last_refreshed_at"; "refresh_source"]);
   ("device_vlan", ["id"; "device_id"; "vlan_id"; "name"; "last_refreshed_at"; "refresh_source"]);
   ("intent_push_receipt", ["id"; "device_id"; "section"; "push_seq"; "request_digest"; "store_only"; "delete_origin"; "backfill_only"; "response"; "status_code"; "generation_id"; "created_at"; "updated_at"]);
   ("interface_ip_address", ["id"; "device_id"; "interface_name"; "address"; "vrf"; "family"; "secondary"; "bound_port"; "last_refreshed_at"; "refresh_source"]);
   ("interface_mtu_intent", ["id"; "device_id"; "interface_name"; "mtu"; "ip_mtu"; "mpls_mtu"; "accepted_at"; "last_apply_at"; "last_apply_error"]);
   ("interfaces", ["id"; "device_id"; "name"; "netbox_interface_id"; "nso_if_key"; "parent_binding"; "kind"; "encap_tag"; "vrf"; "service"]);
   ("isis_flex_algo_intent", ["id"; "device_id"; "process_tag"; "algo_id"; "metric_type"; "priority"; "admin_group_exclude"; "admin_group_include_any"; "admin_group_include_all"; "accepted_at"; "last_apply_at"; "last_apply_error"]);
   ("isis_interface_intent", ["id"; "device_id"; "interface_name"; "af"; "process_tag"; "circuit_type"; "network_type"; "metric"; "passive"; "bfd_enabled"; "frr_enabled"; "frr_protection"; "accepted_at"; "last_apply_at"; "last_apply_error"]);
   ("isis_level_intent", ["id"; "device_id"; "process_tag"; "level"; "wide_metrics_only"; "labeled_preference"; "disabled"; "accepted_at"; "last_apply_at"; "last_apply_error"]);
   ("isis_process_intent", ["id"; "device_id"; "process_tag"; "net"; "is_type"; "metric_style"; "overload_bit"; "area_auth_type"; "area_auth_key"; "domain_auth_type"; "domain_auth_key"; "fast_reroute"; "microloop_avoidance"; "accepted_at"; "last_apply_at"; "last_apply_error"]);
   ("jobs", ["id"; "job_type"; "status"; "coalescible"; "device_id"; "result"; "error"; "context"; "created_at"; "updated_at"; "started_at"; "heartbeat_at"; "run_attempt"; "settle_seq"; "provision_attempt_id"]);
   ("l2_sap_intent", ["id"; "device_id"; "service_name"; "service_type"; "sap_id"; "port"; "outer_tag"; "inner_tag"; "accepted_at"; "last_apply_at"; "last_apply_error"]);
   ("lag_bundle_config", ["id"; "device_id"; "name"; "lag_id"; "min_links"; "system_priority"; "system_id"; "timer"; "admin_key"; "vpc_sensitive"; "last_refreshed_at"; "refresh_source"]);
   ("lag_bundle_intent", ["id"; "device_id"; "name"; "lag_id"; "min_links"; "system_priority"; "system_id"; "timer"; "admin_key"; "accepted_at"; "last_apply_at"; "last_apply_error"]);
   ("lag_interface", ["id"; "device_id"; "name"; "lag_id"; "last_refreshed_at"; "refresh_source"]);
   ("logging_host_intent", ["id"; "device_id"; "address"; "port"; "severity"; "facility"; "transport"; "vrf"; "source"; "accepted_at"; "last_apply_at"; "last_apply_error"]);
   ("logging_levels_intent", ["id"; "device_id"; "console_severity"; "monitor_severity"; "module_severity"; "accepted_at"; "last_apply_at"; "last_apply_error"]);
   ("managed_scope", ["id"; "device_id"; "attribute"; "updated_at"]);
   ("ospf_instance_intent", ["id"; "device_id"; "process_id"; "router_id"; "vrf"; "areas"; "enabled"; "accepted_at"; "last_apply_at"; "last_apply_error"]);
   ("ospf_interface_intent", ["id"; "device_id"; "interface_name"; "process_id"; "area_id"; "passive"; "priority"; "cost"; "network_type"; "auth_type"; "auth_key"; "accepted_at"; "last_apply_at"; "last_apply_error"]);
   ("redistribution_intent", ["id"; "device_id"; "dest_protocol"; "dest_ref"; "source_protocol"; "source_ref"; "route_map"; "metric"; "metric_type"; "accepted_at"; "last_apply_at"; "last_apply_error"]);
   ("read_observation", ["id"; "device_id"; "family"; "revision"; "source_epoch"; "digest"; "coverage"; "document"; "observed_at"]);
   ("refresh_outcome", ["id"; "device_id"; "family"; "refresh_source"; "source_epoch"; "read_outcome"; "read_reason"; "freshness"; "read_failures"; "started_at"; "result"; "succeeded"; "row_count"; "completed_at"]);
   ("refresh_outcome_pointer", ["id"; "device_id"; "family"; "attempt_id"; "payload_revision"; "updated_at"]);
   ("route_policy_object_intent", ["id"; "device_id"; "family"; "name"; "entries"; "invert_match"; "accepted_at"; "last_apply_at"; "last_apply_error"]);
   ("snmp_community", ["id"; "device_id"; "community_hash"; "access"; "acl"; "last_refreshed_at"; "refresh_source"]);
   ("snmp_community_intent", ["id"; "device_id"; "label"; "vault_ref"; "access"; "acl"; "accepted_at"; "last_apply_at"; "last_apply_error"]);
   ("snmp_host", ["id"; "device_id"; "address"; "version"; "notify_type"; "port"; "username"; "last_refreshed_at"; "refresh_source"]);
   ("snmp_host_intent", ["id"; "device_id"; "address"; "version"; "notify_type"; "community_or_user"; "port"; "accepted_at"; "last_apply_at"; "last_apply_error"]);
   ("snmp_system_info", ["id"; "device_id"; "location"; "contact"; "last_refreshed_at"; "refresh_source"]);
   ("snmp_system_info_intent", ["id"; "device_id"; "location"; "contact"; "accepted_at"; "last_apply_at"; "last_apply_error"]);
   ("snmp_v3_user", ["id"; "device_id"; "username"; "has_auth_secret"; "has_priv_secret"; "last_refreshed_at"; "refresh_source"]);
   ("snmp_v3_user_intent", ["id"; "device_id"; "username"; "group_name"; "auth_protocol"; "priv_protocol"; "auth_vault_ref"; "priv_vault_ref"; "accepted_at"; "last_apply_at"; "last_apply_error"]);
   ("subinterface_intent", ["id"; "device_id"; "interface_name"; "parent_interface"; "dot1q_vlan"; "sub_type"; "vrf"; "accepted_at"; "last_apply_at"; "last_apply_error"]);
   ("svi_intent", ["id"; "device_id"; "interface_name"; "vlan_id"; "svi_type"; "vrf"; "accepted_at"; "last_apply_at"; "last_apply_error"]);
   ("switchport_intent", ["id"; "device_id"; "interface_name"; "mode"; "untagged_vlan"; "accepted_at"; "last_apply_at"; "last_apply_error"]);
   ("vlan_intent", ["id"; "device_id"; "vlan_id"; "name"; "accepted_at"; "last_apply_at"; "last_apply_error"])].

(** What refuses the window *)
Record ParkedCarrier := mkParked { pk_device : Z; pk_tombstone : Z; pk_keys : list Triple }.
Inductive CutoverRefusal :=
| CutoverSchemaBlocked (table column : pystr) (missing : bool)
| CutoverStateBlocked (unsettled : list (Z * Z * GenerationStatus)) (alive : list (option Z * Z * JobStatus))
| CutoverBlocked (parked : list ParkedCarrier).

(** [_refuse_unreviewed_schema]; the metadata is the tables with their columns.  Python reports some missing table, here the first one. *)
Definition REVIEWED : list (pystr * list pystr) := RETIRE_SCHEMA ++ KEEP_SCHEMA.
Definition least (l : list pystr) : pystr := default "" (head (sorted_strs l)).
Fixpoint review_tables (metadata : list (pystr * list pystr)) : option CutoverRefusal :=
  match metadata with
  | [] => None
  | (table, present) :: metadata =>
      if mem "device_id" present then
        match dict_get REVIEWED table with
        | None => Some (CutoverSchemaBlocked table "device_id" false)
        | Some expected =>
            match List.filter (fun c => negb (mem c expected)) present, List.filter (fun c => negb (mem c present)) expected with
            | _ :: _ as unreviewed, _ => Some (CutoverSchemaBlocked table (least unreviewed) false)
            | [], _ :: _ as missing => Some (CutoverSchemaBlocked table (least missing) true)
            | [], [] => review_tables metadata
            end
        end
      else review_tables metadata
  end.
Definition refuse_unreviewed_schema (metadata : list (pystr * list pystr)) : option CutoverRefusal :=
  match review_tables metadata with
  | Some refusal => Some refusal
  | None => match List.find (fun name => negb (dict_mem metadata name)) (dict_keys REVIEWED) with
            | Some name => Some (CutoverSchemaBlocked name "device_id" true)
            | None => None
            end
  end.

(** ** Parked carriers *)

(** [v ->> k] of a text, number or flag; the columns hold no other values *)
Definition sql_text (v : json) : option pystr :=
  match v with JStr s => Some s | JInt _ | JBool _ => Some (dumps compact v) | _ => None end.
Definition sql_key : Type := pystr * option pystr * pystr.
Definition sql_key_of (vrf prefix next_hop : json) : sql_key := (default "" (sql_text vrf), sql_text prefix, default "" (sql_text next_hop)).
(** Equality of rows in SQL: a null prefix equals nothing *)
Definition sql_key_eqb (a b : sql_key) : bool := bool_decide (a = b) && match a.1.2 with Some _ => true | None => false end.
Definition row_member (v : json) (k : pystr) : json := match v with JObj d => get d k | _ => JNull end.
Definition item_at (v : json) (n : nat) : json := match v with JArr l => default JNull (l !! n) | _ => JNull end.

(** The [rendered] relation of [_PARKED_CARRIERS] *)
Definition fragment_routes (fragment : pydict) : res (list json) :=
  match dict_get fragment SR_INTENT with
  | None => Ok []
  | Some (JArr l) => Ok l
  | Some _ => Raise (ValueError "cannot extract elements")
  end.
Definition rendered_routes_of (s : PushDb) : res (list (Z * sql_key)) :=
  per_stream ← map_res (fun kr : (Z * pystr) * StreamRow =>
      match bool_decide (kr.1.2 = "static_route"), s_authorized_document kr.2 with
      | true, Some fragment => l ← fragment_routes fragment;
          Ok (map (fun r => (kr.1.1, sql_key_of (row_member r "vrf") (row_member r "prefix") (row_member r "next_hop"))) l)
      | _, _ => Ok []
      end) (map_to_list (streams (base s)));
  Ok (concat per_stream).
Definition renders (rendered : list (Z * sql_key)) (device_id : Z) (key : sql_key) : bool :=
  existsb (fun dk => (dk.1 =? device_id) && sql_key_eqb dk.2 key) rendered.
Definition row_device (row : pydict) : Z := int_of (get row "device_id").
Definition carrier_parked (rendered : list (Z * sql_key)) (t : pydict) : bool :=
  negb (renders rendered (row_device t) (sql_key_of (get t "vrf") (get t "prefix") (get t "next_hop"))) ||
  (let deployed := get t "deployed_key" in
   negb (bool_decide (deployed = JNull)) && negb (renders rendered (row_device t) (sql_key_of (item_at deployed 0) (item_at deployed 1) (item_at deployed 2)))).
(** [parked_static_route_carriers] *)
Definition parked_keys (t : pydict) : res (list Triple) :=
  key ← row_triple t;
  let deployed := get t "deployed_key" in
  if json_truthy deployed then
    match deployed with
    | JArr (a :: b :: c :: _) => other ← key_parts a b c; Ok (if bool_decide (other = key) then [key] else [key; other])
    | JArr _ => Raise (ValueError "list index out of range")
    | _ => Raise KeyError
    end
  else Ok [key].
Definition device_id_le (a b : pydict) : bool := (row_device a <? row_device b) || ((row_device a =? row_device b) && (int_of (get a "id") <=? int_of (get b "id"))).
Definition parked_static_route_carriers (s : PushDb) : res (list ParkedCarrier) :=
  rendered ← rendered_routes_of s;
  map_res (fun t => keys ← parked_keys t; Ok (mkParked (row_device t) (int_of (get t "id")) keys))
    (stable_sort device_id_le (List.filter (carrier_parked rendered) (table_rows (Receipt.live s) SR_TOMBSTONE))).
(** [refuse_cutover_while_carriers_are_parked] *)
Definition refuse_cutover_while_carriers_are_parked (s : PushDb) : res (option CutoverRefusal) :=
  parked ← parked_static_route_carriers s; Ok (match parked with [] => None | _ => Some (CutoverBlocked parked) end).

(** ** The reset *)

(** [DeviceCutoverReset] *)
Record DeviceCutoverReset := mkReset { cr_device : Z; cr_streams : nat; cr_deployed_keys : nat; cr_pending_clears : nat; cr_tombstones : nat; cr_stream_clears : nat }.

Definition retirable (r : StreamRow) : bool :=
  negb (bool_decide (s_authorized_document r = None)) || negb (s_authorized r =? 0) || negb (s_applied r =? 0) || negb (bool_decide (s_prepared_revision r = None)).
Definition retired (now : Z) (r : StreamRow) : StreamRow := mkStream (s_desired r) 0 0 (s_source_push_seq r) None None now.
Definition retire_stream (now : Z) (k : Z * pystr) (r : StreamRow) : StreamRow := if mem k.2 STREAMS && retirable r then retired now r else r.
Definition changed_streams (s : PushDb) : list Z :=
  map (fun kr => kr.1.1) (List.filter (fun kr : (Z * pystr) * StreamRow => mem kr.1.2 STREAMS && retirable kr.2) (map_to_list (streams (base s)))).
Definition is_null (row : pydict) (column : pystr) : bool := bool_decide (get row column = JNull).
Definition null_column (column : pystr) (row : pydict) : pydict := if is_null row column then row else dict_set row column JNull.
Definition changed_column (s : PushDb) (column : pystr) : list Z :=
  map row_device (List.filter (fun r => negb (is_null r column)) (table_rows (Receipt.live s) SR_INTENT)).
Definition in_table (table : pystr) (f : list pydict -> list pydict) (t : tables) : tables := map (fun tr => if bool_decide (tr.1 = table) then (tr.1, f tr.2) else tr) t.

Definition retire_db (d : Db) : Db :=
  mkDb (devices d) (auto_apply d) (generation_counter d) (settle_counter d) (map_imap (fun k r => Some (retire_stream (clock d) k r)) (streams d))
    (generations d) (jobs d) (claims d) ∅ (next_generation_id d) (next_job_id d) (cohort_sequence d) (clock d) (last_enqueued d).
Definition retire_tables (t : tables) : tables :=
  in_table SR_TOMBSTONE (fun _ => []) (in_table SR_INTENT (fun rows => map (null_column "pending_clear") (map (null_column "deployed_key") rows)) t).
Definition retire (s : PushDb) : PushDb := mkPush (retire_db (base s)) (retire_tables (Receipt.live s)) (receipts s) ∅ (next_clear_id s) (next_row_id s).
Definition count_of (l : list Z) (device_id : Z) : nat := length (List.filter (Z.eqb device_id) l).
Definition reset_counts (s : PushDb) : list DeviceCutoverReset :=
  let streams := changed_streams s in
  let deployed := changed_column s "deployed_key" in
  let pending := changed_column s "pending_clear" in
  let tombstones := map row_device (table_rows (Receipt.live s) SR_TOMBSTONE) in
  let owed := map (fun kc => kc.1.1) (map_to_list (clears s)) in
  map (fun id => mkReset id (count_of streams id) (count_of deployed id) (count_of pending id) (count_of tombstones id) (count_of owed id))
    (stable_sort Z.leb (fromkeys (streams ++ deployed ++ pending ++ tombstones ++ owed))).

Definition pair_le (a b : Z * Z) : bool := (a.1 <? b.1) || ((a.1 =? b.1) && (a.2 <=? b.2)).
(** [ORDER BY device_id, id], a null device last *)
Definition job_place (j : Job) : Z * Z * Z := match j_device_id j with Some dev => (0, dev, j_id j) | None => (1, 0, j_id j) end.
Definition place_le (a b : Job) : bool :=
  let '(n, x, i) := job_place a in let '(m, y, k) := job_place b in (n <? m) || ((n =? m) && pair_le (x, i) (y, k)).
Definition unsettled (d : Db) : list Generation :=
  stable_sort (fun a b => pair_le (g_device_id a, g_id a) (g_device_id b, g_id b)) (List.filter (fun g => negb (crossable g)) (all_generations d)).
Definition live_jobs (d : Db) : list Job := stable_sort place_le (List.filter GenerationInv.live (map snd (map_to_list (jobs d)))).

(** [deauthorize_for_cutover] *)
Definition deauthorize_for_cutover (metadata : list (pystr * list pystr)) (s : PushDb) : res (CutoverRefusal + list DeviceCutoverReset * PushDb) :=
  match refuse_unreviewed_schema metadata with
  | Some refusal => Ok (inl refusal)
  | None =>
      match unsettled (base s), live_jobs (base s) with
      | [], [] =>
          parked ← parked_static_route_carriers s;
          match parked with
          | _ :: _ => Ok (inl (CutoverBlocked parked))
          | [] =>
              match List.find (fun kr : (Z * pystr) * StreamRow => negb (mem kr.1.2 STREAMS)) (map_to_list (streams (base s))) with
              | Some kr => Ok (inl (CutoverSchemaBlocked "device_projection_stream" ("stream=" +:+ kr.1.2) false))
              | None => Ok (inr (reset_counts s, retire s))
              end
          end
      | gs, js => Ok (inl (CutoverStateBlocked (map (fun g => (g_device_id g, g_id g, g_status g)) gs) (map (fun j => (j_device_id j, j_id j, j_status j)) js)))
      end
  end.

(** ** Queued reads *)

(** [READ_JOB_TYPES] *)
Definition READ_JOB_TYPES : list JobType :=
  List.filter (fun t => negb (bool_decide (t ∈ DEVICE_WRITING)) && negb (bool_decide (t = provision)))
    [sync; detect_drift; connect; apply_job; removal; provision; sync_now; sync_from_nso].
Definition DISCARDED_ERROR : json :=
  JObj [("code", JStr "cutover_discarded"); ("message", JStr "Queued read job discarded before the cutover authority reset"); ("detail", JObj [])].
Definition carries_generation (d : Db) (job_id : Z) : bool := existsb (fun g => is_some_eq (g_job_id g) job_id) (all_generations d).
Definition discardable (d : Db) (j : Job) : bool := bool_decide (j_status j = queued) && bool_decide (j_type j ∈ READ_JOB_TYPES) && negb (carries_generation d (j_id j)).

Section Discard.
Context (unprepared_evidence : Db -> Job -> option json -> res (option pydict)).
Fixpoint discard_each (l : list Job) (d : Db) : res Db :=
  match l with
  | [] => Ok d
  | j :: l =>
      '(write, d) ← terminalize unprepared_evidence (j_id j) job_failed queued None None (Some DISCARDED_ERROR) None None d;
      match write with None => Raise (RuntimeError "left the queue under the jobs table lock") | Some _ => discard_each l d end
  end.
(** [discard_queued_read_jobs]: the jobs that block it, or the discarded ones *)
Definition discard_queued_read_jobs (d : Db) : res (list (option Z * Z * JobStatus * JobType * bool) + list Job * Db) :=
  let alive := live_jobs d in
  match List.filter (fun j => negb (discardable d j)) alive with
  | [] => d ← discard_each alive d; Ok (inr (alive, d))
  | blocked => Ok (inl (map (fun j => (j_device_id j, j_id j, j_status j, j_type j, carries_generation d (j_id j))) blocked))
  end.
End Discard.

(** ** What the cutover does *)

Definition cutover_ready (metadata : list (pystr * list pystr)) (s : PushDb) : Prop :=
  refuse_unreviewed_schema metadata = None ∧
  (∀ i g, generations (base s) !! i = Some g → crossable g = true) ∧
  (∀ n j, jobs (base s) !! n = Some j → GenerationInv.live j = false) ∧
  (∃ rendered, rendered_routes_of s = Ok rendered ∧ ∀ t, t ∈ table_rows (Receipt.live s) SR_TOMBSTONE → carrier_parked rendered t = false) ∧
  (∀ k, is_Some (streams (base s) !! k) → k.2 ∈ STREAMS).

(** What a device holds that the cutover retires *)
Definition holds_authority (s : PushDb) (dev : Z) : Prop :=
  (∃ stream r, streams (base s) !! (dev, stream) = Some r ∧ retirable r = true) ∨
  (∃ row, row ∈ table_rows (Receipt.live s) SR_INTENT ∧ row_device row = dev ∧ (get row "deployed_key" ≠ JNull ∨ get row "pending_clear" ≠ JNull)) ∨
  (∃ t, t ∈ table_rows (Receipt.live s) SR_TOMBSTONE ∧ row_device t = dev) ∨
  ∃ stream, is_Some (clears s !! (dev, stream)).

Definition stream_retired (r r' : StreamRow) : Prop :=
  s_desired r' = s_desired r ∧ s_source_push_seq r' = s_source_push_seq r ∧ s_authorized r' = 0 ∧ s_applied r' = 0 ∧ s_authorized_document r' = None ∧ s_prepared_revision r' = None.
Definition route_retired (row row' : pydict) : Prop :=
  get row' "deployed_key" = JNull ∧ get row' "pending_clear" = JNull ∧ ∀ c, c ≠ "deployed_key" → c ≠ "pending_clear" → get row' c = get row c.
Record retires (s s' : PushDb) : Prop := {
  rt_streams : ∀ k, option_Forall2 stream_retired (streams (base s) !! k) (streams (base s') !! k);
  rt_routes : Forall2 route_retired (table_rows (Receipt.live s) SR_INTENT) (table_rows (Receipt.live s') SR_INTENT);
  rt_carriers : table_rows (Receipt.live s') SR_TOMBSTONE = [] ∧ tombstones (base s') = ∅ ∧ clears s' = ∅;
  rt_tables : ∀ table, table ≠ SR_INTENT → table ≠ SR_TOMBSTONE → table_rows (Receipt.live s') table = table_rows (Receipt.live s) table;
  rt_history : generations (base s') = generations (base s) ∧ jobs (base s') = jobs (base s) ∧ claims (base s') = claims (base s) ∧ receipts s' = receipts s }.

Lemma in_table_rows table f t other : f [] = [] → table_rows (in_table table f t) other = if decide (other = table) then f (table_rows t other) else table_rows t other.
Proof.
  intros Hf. unfold table_rows, in_table. induction t as [|[name rows] t IH]; cbn [map dict_get]; [by destruct (decide _)|]. cbn [fst snd].
  destruct (decide (other = name)) as [->|Hne].
  - case_bool_decide; cbn [dict_get]; rewrite decide_True by done; destruct (decide _); done.
  - case_bool_decide; cbn [dict_get]; rewrite decide_False by done; exact IH.
Qed.
Lemma set_then_get (row : pydict) k c v : get (dict_set row k v) c = if decide (c = k) then v else get row c.
Proof. unfold get, get_or. destruct (decide (c = k)) as [->|Hne]; [by rewrite dict_get_set_eq|by rewrite dict_get_set_ne]. Qed.
Lemma null_column_get column row c : get (null_column column row) c = if decide (c = column) then JNull else get row c.
Proof. unfold null_column, is_null. case_bool_decide as H; [destruct (decide (c = column)); congruence|apply set_then_get]. Qed.
Lemma null_column_null column row : get row column = JNull → null_column column row = row.
Proof. unfold null_column, is_null. intros H. by rewrite bool_decide_eq_true_2. Qed.
Lemma retirable_retired now r : retirable (retired now r) = false.
Proof. done. Qed.
Lemma not_retirable r : retirable r = false → s_authorized r = 0 ∧ s_applied r = 0 ∧ s_authorized_document r = None ∧ s_prepared_revision r = None.
Proof.
  unfold retirable. intros [[[H1 H2]%orb_false_elim H3]%orb_false_elim H4]%orb_false_elim. apply negb_false_iff in H1, H2, H3, H4.
  apply bool_decide_eq_true in H1, H4. by apply Z.eqb_eq in H2, H3.
Qed.

(** The rows of the store after the reset *)
Lemma retire_route_rows s : table_rows (Receipt.live (retire s)) SR_INTENT = map (fun r => null_column "pending_clear" (null_column "deployed_key" r)) (table_rows (Receipt.live s) SR_INTENT).
Proof. unfold retire, retire_tables. cbn [Receipt.live]. rewrite !in_table_rows by done. rewrite decide_False, decide_True by done. by rewrite map_map. Qed.
Lemma retire_carriers s : table_rows (Receipt.live (retire s)) SR_TOMBSTONE = [].
Proof. unfold retire, retire_tables. cbn [Receipt.live]. rewrite in_table_rows by done. by rewrite decide_True. Qed.
Lemma retire_spec s : (∀ k, is_Some (streams (base s) !! k) → k.2 ∈ STREAMS) → retires s (retire s).
Proof.
  intros Hk. split.
  - intros k. cbn [retire base]. unfold retire_db. cbn [streams]. rewrite map_lookup_imap. destruct (streams (base s) !! k) as [r|] eqn:E; cbn; constructor. unfold retire_stream.
    assert (mem k.2 STREAMS = true) as -> by (apply bool_decide_eq_true_2, Hk; by rewrite E). destruct (retirable r) eqn:Er; cbn [andb]; [done|].
    apply not_retirable in Er as (? & ? & ? & ?). by split_and!.
  - rewrite retire_route_rows. apply Forall2_fmap_r, Forall_Forall2_diag, Forall_forall. intros row _. cbn beta. split_and!; [by rewrite !null_column_get..|].
    intros c H1 H2. by rewrite !null_column_get, !decide_False.
  - split_and!; [apply retire_carriers|done|done].
  - intros table H1 H2. unfold retire, retire_tables. cbn [Receipt.live]. rewrite !in_table_rows by done. by rewrite !decide_False.
  - done.
Qed.
Lemma retire_inv s : Inv (base s) → Inv (base (retire s)).
Proof. intros []. by split. Qed.

(** A filtered, sorted list is empty when nothing passes. *)
Lemma sorted_filter_nil {A} (le : A -> A -> bool) p l : stable_sort le (List.filter p l) = [] ↔ ∀ x, x ∈ l → p x = false.
Proof.
  split.
  - intros H x Hx. apply not_true_iff_false. intros Hp. assert (x ∈ stable_sort le (List.filter p l)) as Hin; [|rewrite H in Hin; by apply not_elem_of_nil in Hin].
    rewrite stable_sort_perm. apply list_elem_of_In, filter_In. by rewrite <-list_elem_of_In.
  - intros H. assert (List.filter p l = []) as ->; [|done]. induction l as [|x l IH]; [done|]. cbn [List.filter]. rewrite H by left. apply IH. intros. apply H. by right.
Qed.
Lemma elem_of_rows {A} (m : gmap Z A) (P : A -> Prop) : (∀ x, x ∈ map snd (map_to_list m) → P x) ↔ ∀ i x, m !! i = Some x → P x.
Proof.
  split.
  - intros H i x Hx. apply H, list_elem_of_fmap. exists (i, x). split; [done|]. by apply elem_of_map_to_list.
  - intros H x ([i y] & -> & Hin)%list_elem_of_fmap. apply elem_of_map_to_list in Hin. by eapply H.
Qed.
Lemma unsettled_nil d : unsettled d = [] ↔ ∀ i g, generations d !! i = Some g → crossable g = true.
Proof. unfold unsettled, all_generations. rewrite sorted_filter_nil, (elem_of_rows _ (fun g => negb (crossable g) = false)). by setoid_rewrite negb_false_iff. Qed.
Lemma live_jobs_nil d : live_jobs d = [] ↔ ∀ n j, jobs d !! n = Some j → GenerationInv.live j = false.
Proof. unfold live_jobs. by rewrite sorted_filter_nil, (elem_of_rows _ (fun j => GenerationInv.live j = false)). Qed.
Lemma map_res_nil {A B} (f : A -> res B) l : map_res f l = Ok [] → l = [].
Proof. destruct l as [|x l]; [done|]. cbn [map_res]. intros (y & _ & H)%bind_Ok. by apply bind_Ok in H as (? & _ & H%Ok_inj). Qed.
Lemma parked_nil s : parked_static_route_carriers s = Ok [] ↔
  ∃ rendered, rendered_routes_of s = Ok rendered ∧ ∀ t, t ∈ table_rows (Receipt.live s) SR_TOMBSTONE → carrier_parked rendered t = false.
Proof.
  unfold parked_static_route_carriers. split.
  - intros (rendered & Hr & H%map_res_nil)%bind_Ok. exists rendered. split; [done|]. exact (proj1 (sorted_filter_nil device_id_le (carrier_parked rendered) _) H).
  - intros (rendered & Hr & H). rewrite Hr. cbn [mbind res_bind]. by rewrite (proj2 (sorted_filter_nil device_id_le (carrier_parked rendered) _) H).
Qed.
Lemma unknown_none s : List.find (fun kr : (Z * pystr) * StreamRow => negb (mem kr.1.2 STREAMS)) (map_to_list (streams (base s))) = None ↔
  ∀ k, is_Some (streams (base s) !! k) → k.2 ∈ STREAMS.
Proof.
  split.
  - intros H k [r Hr]. apply elem_of_map_to_list, list_elem_of_In in Hr. apply (find_none _ _ H) in Hr. by apply negb_false_iff, bool_decide_eq_true in Hr.
  - intros H. destruct (List.find _ _) as [[k r]|] eqn:E; [|done]. apply find_some in E as [Hin%list_elem_of_In%elem_of_map_to_list Hm].
    apply negb_true_iff, bool_decide_eq_false in Hm. exfalso. apply Hm, H. by exists r.
Qed.

Lemma elem_of_map_filter {A} (f : A -> Z) p l x : x ∈ map f (List.filter p l) ↔ ∃ y, y ∈ l ∧ p y = true ∧ f y = x.
Proof.
  rewrite list_elem_of_fmap. setoid_rewrite list_elem_of_In. setoid_rewrite filter_In. naive_solver.
Qed.
Lemma worklist_spec s dev : (∀ k, is_Some (streams (base s) !! k) → k.2 ∈ STREAMS) → dev ∈ map cr_device (reset_counts s) ↔ holds_authority s dev.
Proof.
  intros Hk. unfold reset_counts. cbv zeta. rewrite map_map. cbn [cr_device]. rewrite map_id, stable_sort_perm, elem_of_fromkeys, !elem_of_app.
  unfold changed_streams, changed_column. rewrite !elem_of_map_filter, !list_elem_of_fmap. unfold holds_authority, is_null.
  setoid_rewrite negb_true_iff. setoid_rewrite bool_decide_eq_false. split.
  - intros [([[d stream] r] & Hin & Hm & Hd)|[H|[H|[H|H]]]].
    + left. apply elem_of_map_to_list in Hin. cbn in Hd. subst d. apply andb_prop in Hm as [_ Hm]. by exists stream, r.
    + right; left. naive_solver.
    + right; left. naive_solver.
    + right; right; left. naive_solver.
    + right; right; right. destruct H as ([[d stream] c] & -> & Hin). apply elem_of_map_to_list in Hin. exists stream. cbn. by rewrite Hin.
  - intros [(stream & r & Hr & Hm)|[(row & Hin & Hd & [H|H])|[(t & Ht & Hd)|(stream & c & Hc)]]].
    + left. exists ((dev, stream), r). split; [by apply elem_of_map_to_list|]. split; [|done]. cbn. rewrite Hm, andb_true_r. apply bool_decide_eq_true_2, (Hk (dev, stream)). by rewrite Hr.
    + right; left. eauto.
    + right; right; left. eauto.
    + right; right; right; left. eauto.
    + right; right; right; right. exists ((dev, stream), c). split; [done|]. by apply elem_of_map_to_list.
Qed.

(** The reset leaves nothing for a second one. *)
Lemma retire_db_twice d : retire_db (retire_db d) = retire_db d.
Proof.
  unfold retire_db. cbn [devices auto_apply generation_counter settle_counter streams generations jobs claims next_generation_id next_job_id cohort_sequence clock last_enqueued].
  match goal with |- mkDb _ _ _ _ ?m _ _ _ _ _ _ _ _ _ = mkDb _ _ _ _ ?m' _ _ _ _ _ _ _ _ _ => assert (m = m') as ->; [|done] end.
  apply map_eq. intros k. rewrite !map_lookup_imap. destruct (streams d !! k) as [r|]; [|done]. cbn. f_equal. unfold retire_stream.
  destruct (mem k.2 STREAMS && retirable r) eqn:E; [by rewrite retirable_retired, andb_false_r|by rewrite E].
Qed.
Lemma null_columns_twice row : null_column "pending_clear" (null_column "deployed_key" (null_column "pending_clear" (null_column "deployed_key" row))) =
  null_column "pending_clear" (null_column "deployed_key" row).
Proof. rewrite (null_column_null "deployed_key"), (null_column_null "pending_clear"); [done| |]; by rewrite !null_column_get. Qed.
Lemma retire_tables_twice t : retire_tables (retire_tables t) = retire_tables t.
Proof.
  unfold retire_tables, in_table. rewrite !map_map. apply map_ext. intros [name rows]. cbn [fst snd].
  destruct (decide (name = SR_INTENT)) as [->|H1]; [|destruct (decide (name = SR_TOMBSTONE)) as [->|H2]].
  - repeat first [rewrite bool_decide_eq_true_2 by done|rewrite bool_decide_eq_false_2 by done|progress cbn [fst snd]].
    f_equal. rewrite !map_map. apply map_ext. intros row. apply null_columns_twice.
  - by repeat first [rewrite bool_decide_eq_true_2 by done|rewrite bool_decide_eq_false_2 by done|progress cbn [fst snd]].
  - by repeat first [rewrite (bool_decide_eq_false_2 (name = SR_INTENT)) by done|rewrite (bool_decide_eq_false_2 (name = SR_TOMBSTONE)) by done|progress cbn [fst snd]].
Qed.
Lemma retire_twice s : retire (retire s) = retire s.
Proof. unfold retire. cbn [base Receipt.live receipts next_clear_id next_row_id]. by rewrite retire_db_twice, retire_tables_twice. Qed.
Lemma retired_holds_nothing s dev : (∀ k, is_Some (streams (base s) !! k) → k.2 ∈ STREAMS) → ~ holds_authority (retire s) dev.
Proof.
  intros Hk [(stream & r & Hr & Hm)|[(row & Hin & _ & H)|[(t & Ht & _)|(stream & c & Hc)]]].
  - destruct (retire_spec s Hk) as [Hs _ _ _ _]. specialize (Hs (dev, stream)). rewrite Hr in Hs. inversion Hs as [r0 ? (_ & _ & H1 & H2 & H3 & H4)|]; subst.
    unfold retirable in Hm. by rewrite H1, H2, H3, H4 in Hm.
  - rewrite retire_route_rows in Hin. apply list_elem_of_fmap in Hin as (r & -> & _). rewrite !null_column_get in H. by destruct H.
  - rewrite retire_carriers in Ht. by apply not_elem_of_nil in Ht.
  - done.
Qed.
Lemma map_res_total {A B} (f : A -> res B) l : (∀ x, x ∈ l → ∃ y, f x = Ok y) → ∃ ys, map_res f l = Ok ys.
Proof.
  induction l as [|x l IH]; intros H; [by exists []|]. destruct (H x) as [y Hy]; [left|]. destruct IH as [ys Hys]; [intros; apply H; by right|].
  exists (y :: ys). cbn [map_res]. rewrite Hy. cbn [mbind res_bind]. by rewrite Hys.
Qed.
Lemma retired_renders s : (∀ k, is_Some (streams (base s) !! k) → k.2 ∈ STREAMS) → ∃ rendered, rendered_routes_of (retire s) = Ok rendered.
Proof.
  intros Hk. destruct (retire_spec s Hk) as [Hs _ _ _ _]. unfold rendered_routes_of. set (f := fun kr : (Z * pystr) * StreamRow => _).
  destruct (map_res_total f (map_to_list (streams (base (retire s))))) as [ys Hys]; [|rewrite Hys; cbn [mbind res_bind]; by eexists].
  intros [k r] Hin%elem_of_map_to_list. specialize (Hs k). rewrite Hin in Hs. inversion Hs as [r0 ? (_ & _ & _ & _ & H & _)|]; subst.
  exists []. unfold f. cbn [fst snd]. rewrite H. by destruct (bool_decide _).
Qed.

(** C30: The fleet cutover is refused while any generation could still be executed, any job is queued or running, a carrier is parked, a
    stream is unknown or the schema was not reviewed, and a refusal changes nothing.  Otherwise it retires authority and nothing else:
    every stream keeps what is desired with both other revisions at zero and no fragment or prepared slot, every route keeps its intent without
    deployed key or pending clear, all carriers and owed clears go, and the generations, jobs, claims and receipts stay, with the
    invariant of the store; the worklist names exactly the devices that held something, and a second cutover finds nothing. *)
Theorem cutover_only_retires metadata s :
  match deauthorize_for_cutover metadata s with
  | Ok (inr (worklist, s')) =>
      cutover_ready metadata s ∧ retires s s' ∧ (Inv (base s) → Inv (base s')) ∧ (∀ dev, dev ∈ map cr_device worklist ↔ holds_authority s dev) ∧
      deauthorize_for_cutover metadata s' = Ok (inr ([], s'))
  | _ => ~ cutover_ready metadata s
  end.
Proof.
  assert (∀ s, cutover_ready metadata s → deauthorize_for_cutover metadata s = Ok (inr (reset_counts s, retire s))) as Hgo.
  { intros s0 (H1 & H2%unsettled_nil & H3%live_jobs_nil & H4%parked_nil & H5%unknown_none). unfold deauthorize_for_cutover. rewrite H1, H2, H3, H4. cbn [mbind res_bind]. by rewrite H5. }
  destruct (deauthorize_for_cutover metadata s) as [[refusal|[worklist s']]|x] eqn:E; [intros H%Hgo; congruence| |intros H%Hgo; congruence].
  assert (cutover_ready metadata s) as Hready.
  { revert E. unfold deauthorize_for_cutover. destruct (refuse_unreviewed_schema metadata) eqn:E1; [discriminate|]. destruct (unsettled (base s)) eqn:E2; [|discriminate].
    destruct (live_jobs (base s)) eqn:E3; [|discriminate]. intros (parked & E4 & H)%bind_Ok. destruct parked; [|discriminate]. destruct (List.find _ _) eqn:E5; [discriminate|].
    split; [done|]. by rewrite <-unsettled_nil, <-live_jobs_nil, <-parked_nil, <-unknown_none. }
  rewrite (Hgo s Hready) in E. apply Ok_inj in E. injection E as <- <-. pose proof Hready as (H1 & H2 & H3 & _ & H5). pose proof (retire_spec s H5) as Hr.
  split_and!; [done|done|apply retire_inv|intros dev; by apply worklist_spec|].
  assert (cutover_ready metadata (retire s)) as Hready'.
  { split; [done|]. split; [done|]. split; [done|]. split; [|].
    - destruct (retired_renders s H5) as [rendered Hren]. exists rendered. split; [done|]. intros t. rewrite retire_carriers. by intros ?%not_elem_of_nil.
    - intros k Hk. apply H5. destruct Hr as [Hs _ _ _ _]. specialize (Hs k). destruct Hk as [r Hk]. rewrite Hk in Hs. inversion Hs. by eexists. }
  rewrite (Hgo _ Hready'), retire_twice. do 3 f_equal. destruct (reset_counts (retire s)) as [|c l] eqn:El; [done|].
  exfalso. apply (retired_holds_nothing s (cr_device c) H5), worklist_spec; [by destruct Hready' as (_ & _ & _ & _ & ?)|]. rewrite El. by left.
Qed.

(** ** Discarded reads *)

Section DiscardProps.
Context (ue : Db -> Job -> option json -> res (option pydict)).
Lemma not_carried_none d n : carries_generation d n = false → job_generations d n = [].
Proof.
  intros H. unfold job_generations, generations_by_seq. apply sorted_filter_nil. intros g Hg. apply not_true_iff_false. intros Hn. apply not_true_iff_false in H. apply H, existsb_exists.
  exists g. split; [by apply list_elem_of_In|done].
Qed.
(** One discarded read *)
Record discarded (n : Z) (d d' : Db) : Prop := {
  dc_generations : generations d' = generations d;
  dc_streams : streams d' = streams d;
  dc_job : ∃ j', jobs d' = <[n := j']> (jobs d) ∧ j_id j' = n ∧ j_status j' = job_failed ∧ j_error j' = Some DISCARDED_ERROR }.
Lemma discard_one n w d d' : (∀ i j, jobs d !! i = Some j → j_id j = i) → carries_generation d n = false →
  terminalize ue n job_failed queued None None (Some DISCARDED_ERROR) None None d = Ok (Some w, d') → discarded n d d'.
Proof.
  intros Hid Hc. unfold terminalize. cbn [guard_or]. rewrite bool_decide_eq_true_2 by (by apply (bool_decide_unpack _)). cbn [guard_or mbind res_bind].
  destruct (jobs d !! n) as [j|] eqn:Ej; [|discriminate]. destruct (owns queued None j) eqn:Eo; [|discriminate]. intros (locked & Hl & H)%bind_Ok.
  apply bind_Ok in Hl as (result & _ & Hl%Ok_inj). subst locked. unfold cas_job_status in H. rewrite Ej, Eo in H.
  match type of H with context [with_jobs (<[n := ?x]> _) d] => set (written := x) in H end. apply bind_Ok in H as ([[] d1] & Hs & H).
  set (d0 := with_jobs (<[n := written]> (jobs d)) d) in Hs. assert (d1 = d0) as ->.
  { unfold settle_job_generations in Hs. change (job_generations d0 n) with (job_generations d n) in Hs. rewrite (not_carried_none _ _ Hc) in Hs. apply Ok_inj in Hs. congruence. }
  assert (j_id written = n ∧ j_status written = job_failed ∧ j_error written = Some DISCARDED_ERROR) as (W1 & W2 & W3) by (by rewrite <-(Hid _ _ Ej)).
  destruct (j_device_id written) as [dev|].
  - unfold allocate_settle_seq in H. destruct (settle_counter d0 !! dev) as [seq|]; [|discriminate]. apply Ok_inj in H. injection H as _ <-. cbn [jobs with_settle_counter].
    unfold d0. cbn [jobs with_jobs]. rewrite lookup_insert_eq. split; [done|done|]. exists (set_j_settle (Some (seq + 1)) written). split_and!; [|done..].
    cbn [jobs with_jobs with_settle_counter]. by rewrite insert_insert_eq.
  - apply Ok_inj in H. injection H as _ <-. split; [done|done|]. by exists written.
Qed.
Lemma discard_each_spec l : ∀ d d', (∀ i j, jobs d !! i = Some j → j_id j = i) → Forall (fun j => carries_generation d (j_id j) = false) l → discard_each ue l d = Ok d' →
  generations d' = generations d ∧ streams d' = streams d ∧
  (∀ n, n ∈ map j_id l → ∃ j, jobs d' !! n = Some j ∧ j_status j = job_failed) ∧ ∀ n, n ∉ map j_id l → jobs d' !! n = jobs d !! n.
Proof.
  induction l as [|j l IH]; intros d d' Hid Hc; cbn [discard_each map]; [intros <-%Ok_inj; split_and!; [done|done|by intros n ?%not_elem_of_nil|done]|].
  apply Forall_cons in Hc as [Hj Hl]. intros ([w d1] & H1 & H)%bind_Ok. destruct w as [w|]; [|discriminate].
  apply discard_one in H1 as [G1 S1 (j' & J1 & Ij & Sj & _)]; [|done|done].
  assert (Forall (fun j => carries_generation d1 (j_id j) = false) l) as Hl1 by (unfold carries_generation, all_generations in *; by rewrite G1).
  apply IH in H as (G2 & S2 & N2 & O2); [|intros i x; rewrite J1; intros [[<- <-]|[_ Hx]]%lookup_insert_Some; [done|by apply Hid]|done].
  split_and!; [congruence|congruence| |].
  - intros n Hn. destruct (decide (n ∈ map j_id l)) as [Hin|Hout]; [by apply N2|]. apply elem_of_cons in Hn as [->|Hn]; [|done].
    exists j'. split; [|done]. rewrite O2, J1 by done. apply lookup_insert_eq.
  - intros n [Hne Hn]%not_elem_of_cons. rewrite O2, J1 by done. by rewrite lookup_insert_ne.
Qed.

(** A discard that goes through fails the queued reads, which carry no generation, leaves every other job as it was and none live; one
    that does not names a live job it may not decide about. *)
Theorem queued_reads_discarded d : (∀ i j, jobs d !! i = Some j → j_id j = i) →
  match discard_queued_read_jobs ue d with
  | Ok (inr (gone, d')) =>
      Forall (fun j => discardable d j = true) gone ∧ live_jobs d' = [] ∧ generations d' = generations d ∧ streams d' = streams d ∧
      ∀ n j, jobs d !! n = Some j → GenerationInv.live j = false → jobs d' !! n = Some j
  | Ok (inl blocked) => ∃ n j, jobs d !! n = Some j ∧ GenerationInv.live j = true ∧ discardable d j = false
  | Raise _ => True
  end.
Proof.
  intros Hid. unfold discard_queued_read_jobs.
  assert (∀ j, j ∈ live_jobs d ↔ jobs d !! j_id j = Some j ∧ GenerationInv.live j = true) as Hlive.
  { intros j. unfold live_jobs. rewrite stable_sort_perm, list_elem_of_In, filter_In, <-list_elem_of_In, list_elem_of_fmap. split.
    - intros [([i x] & -> & Hin%elem_of_map_to_list) Hl]. cbn [snd] in *. by rewrite (Hid _ _ Hin).
    - intros [Hj Hl]. split; [|done]. exists (j_id j, j). split; [done|]. by apply elem_of_map_to_list. }
  destruct (List.filter (fun j => negb (discardable d j)) (live_jobs d)) as [|j blocked] eqn:E.
  - assert (Forall (fun j => discardable d j = true) (live_jobs d)) as Hd.
    { apply Forall_forall. intros j Hj. apply not_false_iff_true. intros Hn. assert (j ∈ List.filter (fun j => negb (discardable d j)) (live_jobs d)) as Hin
        by (apply list_elem_of_In, filter_In; rewrite <-list_elem_of_In, Hn; done). rewrite E in Hin. by apply not_elem_of_nil in Hin. }
    destruct (discard_each ue (live_jobs d) d) as [d'|] eqn:Ed; [|done]. cbn [mbind res_bind].
    apply discard_each_spec in Ed as (G & S & N & O); [|done|]; [|eapply Forall_impl; [exact Hd|]; intros j [_ Hj%negb_true_iff]%andb_prop; done].
    assert (∀ n, n ∈ map j_id (live_jobs d) ↔ ∃ j, jobs d !! n = Some j ∧ GenerationInv.live j = true) as Hids.
    { intros n. rewrite list_elem_of_fmap. setoid_rewrite Hlive. split; [intros (j & -> & H); by exists j|]. intros (j & Hj & Hl). exists j. by rewrite (Hid _ _ Hj). }
    split_and!; [done| |done|done|].
    + apply live_jobs_nil. intros n j Hj. destruct (decide (n ∈ map j_id (live_jobs d))) as [Hin|Hout].
      * destruct (N n Hin) as (x & Hx & Sx). rewrite Hj in Hx. injection Hx as ->. unfold GenerationInv.live. rewrite Sx. done.
      * rewrite (O n Hout) in Hj. apply not_true_iff_false. intros Hl. apply Hout, Hids. by exists j.
    + intros n j Hj Hl. rewrite O; [done|]. intros (x & Hx & Hlx)%Hids. congruence.
  - assert (j ∈ List.filter (fun j => negb (discardable d j)) (live_jobs d)) as Hin by (rewrite E; by left).
    apply list_elem_of_In, filter_In in Hin as [Hin%list_elem_of_In Hn%negb_true_iff]. apply Hlive in Hin as [Hj Hl]. by exists (j_id j), j.
Qed.
End DiscardProps.

(** ** One device *)

(** Authorized at revision 2 of 3, with a deployed route, the carrier of a key its fragment still renders, and a clear owed to its SVIs *)
Definition cut_route : pydict :=
  [("id", JInt 1); ("device_id", JInt 7); ("vrf", JStr ""); ("prefix", JStr "10.0.0.0/8"); ("next_hop", JStr "192.0.2.1");
   ("deployed_key", JArr [JStr ""; JStr "10.0.0.0/8"; JStr "192.0.2.1"]); ("pending_clear", JNull)].
Definition cut_store (status : JobStatus) (routes : list json) : PushDb :=
  mkPush
    (mkDb {[7]} ∅ {[7 := 3]} {[7 := 0]} {[(7, "static_route"%py) := mkStream 3 2 1 (Some 5) (Some [(SR_INTENT, JArr routes)]) None 0]} ∅
       {[1 := mkJob 1 sync status false (Some 7) None None None 0 None None 0 None]} ∅ {[4 := mkTombstone 7 None]} 12 2 1 9 None)
    [(SR_INTENT, [cut_route]); (SR_TOMBSTONE, [cut_route])] ∅ {[(7, "svi"%py) := mkClear 1 "authorized" 2]} 2 5.
Definition cutover_of (s : PushDb) := deauthorize_for_cutover REVIEWED s.
Example cutover_counts :
  match cutover_of (cut_store succeeded [JObj cut_route]) with
  | Ok (inr (worklist, s)) => worklist = [mkReset 7 1 1 0 1 1] ∧ map (fun kr => (s_desired kr.2, s_authorized kr.2, s_applied kr.2)) (map_to_list (streams (base s))) = [(3, 0, 0)]
  | _ => False
  end.
Proof. vm_compute. split; reflexivity. Qed.
(** A queued job, and a carrier whose key the fragment no longer renders *)
Example cutover_refused :
  cutover_of (cut_store queued [JObj cut_route]) = Ok (inl (CutoverStateBlocked [] [(Some 7, 1, queued)])) ∧
  cutover_of (cut_store succeeded []) = Ok (inl (CutoverBlocked [mkParked 7 1 [("", "10.0.0.0/8", "192.0.2.1")]])).
Proof. vm_compute. split; reflexivity. Qed.
